(* ===== verification/_CoqProject ===== *)
-Q . S2P
Prelude.v
Pmm.v
Mem.v
Heap.v
Bcache.v
Task.v
Sched.v
SchedProps.v
SchedTick.v
SchedLife.v
SchedSignal.v
SchedDemo.v
Mutex.v
TcpWire.v
Tcp.v
TcpRx.v
TcpTx.v
TcpConn.v
TcpStream.v
TcpRecv.v
TcpDrain.v
TcpOpen.v
TcpState.v
TcpDemo.v
Vmm.v
VmmTable.v
VmmMap.v
VmmCow.v
VmmClone.v
VmmFork.v
VmmSpace.v
Brk.v
VmmIso.v
VmmDemo.v
Fat16.v
Fat16Fat.v
Fat16Chain.v
Fat16Read.v
Fat16Write.v
Fat16File.v
Fat16Resize.v
Fat16Fs.v
Fat16Cache.v
Fat16Mount.v
Fat16Name.v
Fat16Root.v
Fat16Demo.v
Vfs.v
VfsPath.v
VfsTree.v
VfsReach.v
VfsHeap.v
VfsProps.v
VfsDemo.v
Net.v
NetWire.v
NetUdp.v
NetArp.v
NetIcmp.v
NetDemo.v
Pipe.v
Fd.v
FdRefs.v
FdSteps.v
FdReach.v
FdDemo.v
Tty.v
TtyProps.v
TtyDemo.v
Sys.v
SysCalls.v
SysSafe.v
SysPipe.v
SysDemo.v
Ext2.v
Ext2Read.v
Ext2Alloc.v
Ext2Write.v
Ext2Dir.v
Ext2Demo.v
