(* ===== verification/Prelude.v ===== *)
(** * PhotonOS: a verification of its kernel

    PhotonOS is an x86-64 kernel in C (src/src/kernel, src/src/drivers, src/src/fs,
    headers in src/include) with user programs in src/src/user.  The library models its
    memory management, processes, network, block cache, file systems, pipes, descriptors
    and system calls as functions on explicit state, and proves what makes them correct.

    ** The parts and how they fit together

    - Physical memory (memory.c) hands out counted 4 KiB frames; the heap (heap.c) and
      the page tables (vmm.c) are built from them.
    - The heap serves [kmalloc] and [kfree] for TCP and for the nodes of the VFS.
    - The scheduler (scheduler.c) owns the task table; [sys_brk] and the page-fault
      handler change the address space of the current task; mutexes (mutex.c) block
      tasks through it.
    - The block cache (bcache.c) stands between the ATA disk and the file systems FAT16
      (fat16.c) and ext2 (ext2.c).
    - The VFS (vfs.c) resolves paths on nodes in heap memory and calls FAT16 and ext2.
    - Below TCP (tcp.c), net.c has ARP, IPv4, UDP, ICMP and the sockets.
    - kernel.c has the pipes, the descriptors of the tasks on top of the VFS, the handler
      of the system calls, and the keyboard.

    Components meet at type classes: [PageOps] (frames and mappings, for the heap),
    [BlockDev] (disk sectors, for the cache), [SectorDev] (cached sectors, for FAT16
    and ext2; Fat16Cache shows that the block cache implements it), [Allocator] (for the VFS;
    VfsHeap shows that the heap implements it), [KernelEnv] (what the scheduler calls),
    [TcpEnv] (the network below TCP), [NetEnv] and [NetCalls] (the card, memory and TCP,
    for net.c), [FsDrivers] (the file systems below the VFS), [UserMem], [SysEnv] and
    [KernelCalls] (user memory and the rest of the kernel, for the system calls; the
    functions of [KernelCalls] get no address of user memory).  The laws a client relies on
    are classes of their own ([BlockDevLaws], [ReliableDev], [SectorDevLaws],
    [AllocatorLaws], [RoomyHeap], [UserMemLaws], [KernelLaws]).

    ** The files

    - Prelude (this file): machine integers with their wrap-around, record update,
      arrays, loops, hints and tactics.  Mem: byte memory with little-endian access.
    - Pmm: memory.c; [pmm] holds its file-scope variables.
    - Heap: heap.c, with the block headers in the heap's own bytes.
    - Bcache: bcache.c and the block device nodes of ata.c.
    - Task, Sched: task.h and scheduler.c ([sched]).  SchedProps (invariant), SchedTick
      (round robin), SchedLife (exit and wait), SchedSignal (signals), SchedDemo (runs).
    - Mutex: mutex.c, the lock and unlock paths one memory access at a time.
    - TcpWire, Tcp: tcp.c up to its self tests ([tcp], [tcp_pcb]).  TcpRx (receive
      ring), TcpTx (send queues), TcpConn and TcpStream (sender), TcpRecv (receiver),
      TcpDrain, TcpOpen (handshake), TcpState (defects), TcpDemo (runs).
    - Vmm: vmm.c on word-addressed frames.  VmmTable, VmmMap, VmmCow, VmmClone, VmmFork,
      VmmSpace, VmmIso: page tables as trees, mapping, copy on write, cloning, user
      stores, isolation.  Brk: [sys_brk] of kernel.c.  VmmDemo (runs).
    - Fat16: fat16.c in a state and failure monad.  Fat16Fat (table), Fat16Chain,
      Fat16Read, Fat16Write, Fat16File, Fat16Resize (files), Fat16Fs (all open files),
      Fat16Cache, Fat16Mount, Fat16Name, Fat16Root, Fat16Demo (runs).
    - Vfs: vfs.c ([vfs], [vfs_node]).  VfsPath (canonical paths), VfsTree and VfsReach
      (the tree and its memory), VfsHeap, VfsProps (lookup, directories, locks,
      permissions), VfsDemo (runs).
    - Net: net.c below TCP.  NetWire (checksums and frames), NetUdp, NetArp, NetIcmp,
      NetDemo (runs).
    - Pipe, Fd: pipes and descriptors of kernel.c.  FdRefs, FdSteps, FdReach (reference
      counts), FdDemo (a run).
    - Tty: keyboard, foreground process and process list of kernel.c.  TtyProps, TtyDemo.
    - Sys: the system calls on files.  SysCalls: what the other calls read and write in
      user memory (kernel.c, scheduler.c, net.c, elf.c), the delivery of a signal on the way
      back, and [syscall_handler].  SysSafe (user memory), SysPipe (a pipe through the
      calls), SysDemo (runs).
    - Ext2: ext2.c; the statics and the disk are the record [ext2].  Ext2Read (the volume
      as bytes, inodes, reading, mounting), Ext2Alloc (bitmaps), Ext2Write (growing and
      writing files), Ext2Dir (directories), Ext2Demo (runs on a small volume).

    ** What the theorems show

    - Memory: allocation and release keep bitmap and counts in agreement; [kmalloc] and
      [kfree] refine first fit on a list of blocks; address spaces are isolated from
      each other; a clone shows the words of its parent and a fault gives a shared page
      a frame of its own; [sys_brk]; the checks of user pointers are exact.
    - Processes: the task table stays well-formed; a ready task runs within one round;
      [waitpid] reports an exit; a signal handler returns to the interrupted registers;
      a mutex excludes.
    - TCP: the sender's segments carry the application's stream, the receiver reads a
      prefix of the peer's, the receive ring is a queue, a passive open establishes a
      connection, draining the send queue ends.
    - Storage: the cache refines the disk; FAT16 reads back what was written, keeps the
      chains of files apart, and mounts only well-formed volumes; names round-trip.
    - ext2: a read returns the bytes of the file, which are those of the documented layout
      as far as one indirect block reaches; a write changes those of the file and nothing
      else; an allocation takes one clear bit; a new directory entry appears among
      the old ones; a listing is the records in use; a mount takes the statics from the
      disk.
    - VFS: the nodes stay a tree that owns its memory; a new directory is found and
      nothing else moves; a relative path and the path built from it name one node; an
      exclusive lock excludes.
    - Network: IPv4 frames and UDP datagrams arrive as sent, the ARP cache is a bounded
      map, an echo request is answered.
    - Calls: a pipe is a bounded queue, also through the system calls; reference counts
      of descriptions are the numbers of their users; a call faults on user memory only
      when a signal handler is due on a stack that is not writable, or by one overflow; what
      is typed is what the console reads.
    - Defects, as theorems about the same definitions: a lost wake-up in the mutex, a
      deadlock at exit, a double free after fork and [sys_brk], a lost dirty sector, a
      write past the cache, data freed under a link, a mount root freed while mounted,
      directories their owner cannot enter, an ext2 read that never ends, a failed mount
      that ruins the mounted volume, and others.

    ** Loops and fuel

    Loops that follow pointers take fuel, and each has a lemma that the fuel is enough:
    [HEAP_FUEL] exceeds the number of 40-byte headers in the 256 pages of the heap
    ([rep_walk_fuel]); [walk_fuel] is the number of VFS nodes, which bounds every list of
    siblings ([kids_bound]); [drain_fuel] bounds the segments the send queue can give
    ([tcp_drain_terminates]); the loops over FAT16 chains are bounded by the bytes or
    clusters still to be handled, and the run lemmas of Fat16Chain, Fat16Read and
    Fat16Write give their results outright.  The loop of [ext2_vfs_read] takes fuel that
    the theorem bounds by the blocks asked for; that of [ext2_vfs_write] runs on the number
    of blocks plus three and [walk_fuel_of] on the 8-byte records of a block, which their
    theorems show to be enough; the depth of [ext2_mount_dir] is an argument, since nothing
    in the code bounds it.

    ** Not modelled

    - vfs_sync only calls the cache.  In fat16.c, the functions that create and remove
      VFS nodes for paths (fat16_split_path, fat16_vfs_create_path, fat16_vfs_mkdir_path,
      fat16_vfs_rmdir_path, fat16_vfs_unlink_path, fat16_readdir, mounting the tree);
      the VFS theorems are about states without a mounted volume, and for the tree
      also without mounts, where VfsDemo shows the tree can break.
    - Of kernel.c: the text console, fork as a system call (forking an address space is in
      Vmm, the task in Sched), and starting the kernel.  Of net.c: the system calls on
      sockets but for their accesses to user memory.
    - elf.c but for the copying of the arguments of execve, initrd.c, smp.c, and the programs and library under src/src/user: further
      components, not covered.  The self tests at the end of tcp.c.
    - Boot and trampoline assembly, apic.c, the drivers for video, mouse, serial, PCI,
      e1000 and the ports of ATA: device registers and privileged instructions.
    - Throughout: log messages, null checks of pointer arguments, and the locks of
      components whose operations are one step here. *)

From stdpp Require Export base numbers list gmap strings.
From Stdlib Require Export ZArith Lia.

#[export] Set Warnings "-postfix-notation-not-level-1".

Declare Scope photon_scope.
Delimit Scope photon_scope with photon.

(** * Machine integers

    A C integer of width [w] is a [Z] in [0, 2^w); every C operation that can
    leave that range is followed by the wrap-around of its type. *)

Open Scope Z_scope.

Definition u8 (z : Z) : Z := z mod 256.
Definition u16 (z : Z) : Z := z mod 65536.
Definition u32 (z : Z) : Z := z mod 4294967296.
Definition u64 (z : Z) : Z := z mod 18446744073709551616.

(** [(int32_t)z] and [(int)z] on the two's-complement target. *)
Definition s32 (z : Z) : Z := (z + 2147483648) mod 4294967296 - 2147483648.

(** C's [~x] at type [uint64_t] and [uint32_t]. *)
Definition lnot64 (z : Z) : Z := Z.lxor z 18446744073709551615.
Definition lnot32 (z : Z) : Z := Z.lxor z 4294967295.

Definition is_u8 (z : Z) : Prop := 0 <= z < 256.
Definition is_u16 (z : Z) : Prop := 0 <= z < 65536.
Definition is_u32 (z : Z) : Prop := 0 <= z < 4294967296.
Definition is_u64 (z : Z) : Prop := 0 <= z < 18446744073709551616.

(** C truth values. *)
Definition c_bool (b : bool) : Z := if b then 1 else 0.

(** [ulia]: linear arithmetic after the wrap-arounds are written out. *)
Ltac unfold_widths :=
  unfold is_u8, is_u16, is_u32, is_u64, u8, u16, u32, u64, s32 in *.
Ltac ulia := unfold_widths; Z.div_mod_to_equations; lia.

(** [bcase]: split the first boolean comparison in the goal into its
    arithmetic meaning. *)
Ltac bcase :=
  match goal with
  | |- context [Z.eqb ?a ?b] => destruct (Z.eqb_spec a b)
  | |- context [Z.ltb ?a ?b] => destruct (Z.ltb_spec a b)
  | |- context [Z.leb ?a ?b] => destruct (Z.leb_spec a b)
  end.
Ltac bcases := repeat (bcase; try (exfalso; lia)).

(** The same on a hypothesis. *)
Ltac bcase_in H :=
  match type of H with
  | context [Z.eqb ?a ?b] => destruct (Z.eqb_spec a b)
  | context [Z.ltb ?a ?b] => destruct (Z.ltb_spec a b)
  | context [Z.leb ?a ?b] => destruct (Z.leb_spec a b)
  end.

Create HintDb photon.

Lemma u8_range z : is_u8 (u8 z).
Proof. ulia. Qed.
Lemma u16_range z : is_u16 (u16 z).
Proof. ulia. Qed.
Lemma u32_range z : is_u32 (u32 z).
Proof. ulia. Qed.
Lemma u64_range z : is_u64 (u64 z).
Proof. ulia. Qed.
Lemma u8_id z : is_u8 z -> u8 z = z.
Proof. ulia. Qed.
Lemma u16_id z : is_u16 z -> u16 z = z.
Proof. ulia. Qed.
Lemma u32_id z : is_u32 z -> u32 z = z.
Proof. ulia. Qed.
Lemma u64_id z : is_u64 z -> u64 z = z.
Proof. ulia. Qed.

#[export] Hint Resolve u8_range u16_range u32_range u64_range : photon.

(** * Record update: [r <| field := v |>]

    A record declares its eta-expansion once ([Eta]); the setter of a field is
    then derived by abstracting that field's projection. *)

Class Eta (R : Type) := eta_expand : R -> R.
Class Setter {R T} (p : R -> T) := set_field : (T -> T) -> R -> R.
Arguments set_field {R T} p {_} f r.

Ltac derive_setter p :=
  lazymatch type of p with
  | ?R -> _ =>
      let inst := constr:(_ : Eta R) in
      let e := eval hnf in inst in
      let e' := eval pattern p in e in
      lazymatch e' with
      | ?h _ => let set := eval cbv beta in (fun f => h (fun r => f (p r))) in exact set
      end
  end.

#[export] Hint Extern 1 (Setter ?p) => derive_setter p : typeclass_instances.

Notation "r <| p := v |>" := (set_field p (fun _ => v) r)
  (at level 12, p at next level, left associativity) : photon_scope.
Open Scope photon_scope.

(** * Arrays

    A C array is a list indexed by [Z]; reading or writing outside it is
    undefined in C, so the theorems carry the index bounds. *)

Section Arrays.
Context {A : Type} `{!Inhabited A}.

Definition arr_get (l : list A) (i : Z) : A := l !!! Z.to_nat i.
Definition arr_set (l : list A) (i : Z) (v : A) : list A := <[Z.to_nat i := v]> l.
Definition len (l : list A) : Z := Z.of_nat (length l).

Lemma len_app (l1 l2 : list A) : len (l1 ++ l2) = len l1 + len l2.
Proof. unfold len. rewrite length_app. lia. Qed.

Lemma len_arr_set l i v : len (arr_set l i v) = len l.
Proof. unfold len, arr_set. by rewrite length_insert. Qed.

Lemma arr_get_set_eq l i v : 0 <= i < len l -> arr_get (arr_set l i v) i = v.
Proof.
  unfold len, arr_get, arr_set. intros.
  apply list_lookup_total_insert_eq. lia.
Qed.

Lemma arr_get_set_ne l i j v :
  0 <= i -> 0 <= j -> i <> j -> arr_get (arr_set l i v) j = arr_get l j.
Proof.
  unfold arr_get, arr_set. intros.
  apply list_lookup_total_insert_ne. lia.
Qed.

Lemma arr_get_replicate n (v : A) i :
  0 <= i < Z.of_nat n -> arr_get (replicate n v) i = v.
Proof. unfold arr_get. intros. apply lookup_total_replicate_2. lia. Qed.

Lemma arr_get_Forall (P : A -> Prop) l i :
  Forall P l -> 0 <= i < len l -> P (arr_get l i).
Proof.
  unfold len, arr_get. intros HF Hi.
  destruct (lookup_lt_is_Some_2 l (Z.to_nat i)) as [x Hx]; [lia|].
  rewrite (list_lookup_total_correct _ _ _ Hx).
  by eapply Forall_lookup_1.
Qed.

Lemma arr_set_Forall (P : A -> Prop) l i v :
  Forall P l -> P v -> Forall P (arr_set l i v).
Proof. unfold arr_set. intros. by apply Forall_insert. Qed.

Lemma arr_set_get_id l i : 0 <= i < len l -> arr_set l i (arr_get l i) = l.
Proof.
  unfold len, arr_set, arr_get. intros.
  apply list_insert_id. apply list_lookup_lookup_total_lt. lia.
Qed.

Lemma arr_set_set l i v w : arr_set (arr_set l i v) i w = arr_set l i w.
Proof. unfold arr_set. apply list_insert_insert_eq. Qed.
End Arrays.

(** * Loops *)

(** [for (i = lo; i < lo + n; i++) s = body(i, s);] *)
Fixpoint for_up {S} (n : nat) (i : Z) (body : Z -> S -> S) (s : S) : S :=
  match n with
  | O => s
  | S n' => for_up n' (i + 1) body (body i s)
  end.

(** Invariant rule for [for_up]. *)
Lemma for_up_ind {S} (P : Z -> S -> Prop) (n : nat) (i : Z) body s :
  P i s ->
  (forall j s, i <= j < i + Z.of_nat n -> P j s -> P (j + 1) (body j s)) ->
  P (i + Z.of_nat n) (for_up n i body s).
Proof.
  revert i s. induction n as [|n IH]; intros i s H0 Hstep; simpl.
  - by replace (i + Z.of_nat 0) with i by lia.
  - replace (i + Z.of_nat (Datatypes.S n)) with ((i + 1) + Z.of_nat n) by lia.
    apply IH.
    + apply Hstep; [lia | done].
    + intros j s' Hj. apply Hstep. lia.
Qed.

(** [for (i = ...) if (f(l[i])) break;]: the position of the first hit, counted
    from [i]. *)
Fixpoint find_index {A} (f : A -> bool) (l : list A) (i : Z) : option Z :=
  match l with
  | [] => None
  | x :: l' => if f x then Some i else find_index f l' (i + 1)
  end.

Section FindIndex.
Context {A : Type} `{!Inhabited A}.
Implicit Types (f : A -> bool) (l : list A).

Lemma arr_get_cons (x : A) l k : 0 < k -> arr_get (x :: l) k = arr_get l (k - 1).
Proof.
  intros Hk. unfold arr_get. by replace (Z.to_nat k) with (S (Z.to_nat (k - 1))) by lia.
Qed.

Lemma find_index_spec f l i :
  match find_index f l i with
  | Some k => i <= k < i + len l /\ f (arr_get l (k - i)) = true /\
      forall j, 0 <= j < k - i -> f (arr_get l j) = false
  | None => forall j, 0 <= j < len l -> f (arr_get l j) = false
  end.
Proof.
  revert i. induction l as [|x l IH]; intros i; cbn [find_index].
  { unfold len. cbn. lia. }
  assert (Hlen : len (x :: l) = len l + 1) by (unfold len; cbn [length]; lia).
  destruct (f x) eqn:Hf.
  - rewrite Z.sub_diag. split_and!; [lia|unfold len in *; lia|done|lia].
  - specialize (IH (i + 1)). destruct (find_index f l (i + 1)) as [k|].
    + destruct IH as (Hk & Hv & Hb). split; [lia|]. rewrite arr_get_cons by lia.
      replace (k - i - 1) with (k - (i + 1)) by lia. split; [done|]. intros j Hj.
      destruct (Z.eq_dec j 0) as [->|]; [done|]. rewrite arr_get_cons by lia. apply Hb. lia.
    + intros j Hj. destruct (Z.eq_dec j 0) as [->|]; [done|].
      rewrite arr_get_cons by lia. apply IH. lia.
Qed.

Lemma find_index_some f l k :
  find_index f l 0 = Some k ->
  0 <= k < len l /\ f (arr_get l k) = true /\ forall j, 0 <= j < k -> f (arr_get l j) = false.
Proof. intros E. pose proof (find_index_spec f l 0) as H. rewrite E, Z.sub_0_r in H. exact H. Qed.

Lemma find_index_none f l j :
  find_index f l 0 = None -> 0 <= j < len l -> f (arr_get l j) = false.
Proof. intros E. pose proof (find_index_spec f l 0) as H. rewrite E in H. apply H. Qed.
End FindIndex.

(** * Computations that may not return

    [None] is a computation that never returns: a spin on a lock that is never
    released, or a loop without end. *)

Notation "'let*' p := e 'in' k" := (match e with Some p => k | None => None end)
  (at level 10, p pattern at level 0, e at level 200, k at level 200) : photon_scope.

(** Unfold one [let*] on a hypothesis. *)
Ltac bind_in H :=
  match type of H with
  | (match ?e with Some _ => _ | None => None end) = Some _ =>
      let E := fresh "E" in destruct e eqn:E; [|discriminate H]
  end.

(** The characters of a C string literal, without its terminator. *)
Definition chars (s : string) : list Z :=
  map (fun a => Z.of_N (Stdlib.Strings.Ascii.N_of_ascii a)) (Stdlib.Strings.String.list_ascii_of_string s).
Arguments chars s%_string_scope.

(** * Bits *)

Lemma land_shiftl1_testbit w k :
  0 <= k -> negb (Z.land w (Z.shiftl 1 k) =? 0) = Z.testbit w k.
Proof.
  intros Hk. rewrite Z.shiftl_1_l.
  destruct (Z.testbit w k) eqn:Hb.
  - apply negb_true_iff, Z.eqb_neq. intros H0.
    assert (Z.testbit (Z.land w (2 ^ k)) k = true) as HH.
    { rewrite Z.land_spec, Hb, Z.pow2_bits_true; [done|lia]. }
    by rewrite H0, Z.bits_0 in HH.
  - apply negb_false_iff, Z.eqb_eq. apply Z.bits_inj'. intros j Hj.
    rewrite Z.land_spec, Z.bits_0.
    destruct (Z.eq_dec j k) as [->|Hne].
    + by rewrite Hb.
    + rewrite Z.pow2_bits_false by lia. by rewrite andb_false_r.
Qed.

Lemma testbit_lor_shiftl1 w k j :
  0 <= k -> 0 <= j ->
  Z.testbit (Z.lor w (Z.shiftl 1 k)) j = if j =? k then true else Z.testbit w j.
Proof.
  intros. rewrite Z.lor_spec, Z.shiftl_1_l. bcase; subst.
  - by rewrite Z.pow2_bits_true, orb_true_r by lia.
  - by rewrite Z.pow2_bits_false, orb_false_r by lia.
Qed.

Lemma lnot64_spec w j :
  0 <= j < 64 -> Z.testbit (lnot64 w) j = negb (Z.testbit w j).
Proof.
  intros. unfold lnot64. rewrite Z.lxor_spec.
  change 18446744073709551615 with (Z.ones 64).
  rewrite Z.ones_spec_low by lia. by rewrite xorb_true_r.
Qed.

Lemma testbit_clear64 w k j :
  0 <= k < 64 -> 0 <= j < 64 ->
  Z.testbit (Z.land w (lnot64 (Z.shiftl 1 k))) j = if j =? k then false else Z.testbit w j.
Proof.
  intros. rewrite Z.land_spec, lnot64_spec, Z.shiftl_1_l by lia. bcase; subst.
  - by rewrite Z.pow2_bits_true, andb_false_r by lia.
  - by rewrite Z.pow2_bits_false, andb_true_r by lia.
Qed.

Lemma is_u64_bits w :
  0 <= w -> (forall j, 64 <= j -> Z.testbit w j = false) -> is_u64 w.
Proof.
  intros H0 Hb. unfold is_u64. change 18446744073709551616 with (2 ^ 64).
  split; [done|]. destruct (Z.eq_dec w 0) as [->|]; [lia|].
  apply Z.log2_lt_pow2; [lia|].
  destruct (Z_lt_le_dec (Z.log2 w) 64); [done|].
  pose proof (Z.bit_log2 w). rewrite Hb in *; [|lia]. naive_solver lia.
Qed.

Lemma u64_high_bit w j : is_u64 w -> 64 <= j -> Z.testbit w j = false.
Proof.
  intros Hw Hj. rewrite <- (Z.mod_small w (2 ^ 64)) by ulia.
  apply Z.mod_pow2_bits_high. lia.
Qed.

Lemma lor_u64 a b : is_u64 a -> is_u64 b -> is_u64 (Z.lor a b).
Proof.
  intros Ha Hb. apply is_u64_bits.
  - apply Z.lor_nonneg. unfold is_u64 in *. lia.
  - intros. by rewrite Z.lor_spec, !u64_high_bit.
Qed.

Lemma land_u64 a b : is_u64 a -> is_u64 (Z.land a b).
Proof.
  intros Ha. apply is_u64_bits.
  - apply Z.land_nonneg. unfold is_u64 in *. lia.
  - intros. by rewrite Z.land_spec, u64_high_bit.
Qed.

Lemma shiftl1_u64 k : 0 <= k < 64 -> is_u64 (Z.shiftl 1 k).
Proof.
  intros. rewrite Z.shiftl_1_l. unfold is_u64.
  change 18446744073709551616 with (2 ^ 64).
  split; [apply Z.pow_nonneg; lia | apply Z.pow_lt_mono_r; lia].
Qed.

(** Clearing the bit that was just set restores a word that did not have it. *)
Lemma clear_set_bit64 w k :
  is_u64 w -> 0 <= k < 64 -> Z.testbit w k = false ->
  Z.land (Z.lor w (Z.shiftl 1 k)) (lnot64 (Z.shiftl 1 k)) = w.
Proof.
  intros Hw Hk Hbit. apply Z.bits_inj'. intros j Hj.
  destruct (Z_lt_le_dec j 64).
  - rewrite testbit_clear64, testbit_lor_shiftl1 by lia. bcase; subst; congruence.
  - by rewrite Z.land_spec, Z.lor_spec, (u64_high_bit w j),
      (u64_high_bit _ j (shiftl1_u64 k Hk)).
Qed.

(** Rounding down to a power of two by masking: [w & ~(2^k - 1)]. *)
Lemma land_align_down w k :
  is_u64 w -> 0 <= k < 64 -> Z.land w (lnot64 (2 ^ k - 1)) = w / 2 ^ k * 2 ^ k.
Proof.
  intros Hw Hk. rewrite <- Z.shiftl_mul_pow2, <- Z.shiftr_div_pow2 by lia.
  replace (2 ^ k - 1) with (Z.ones k) by (rewrite Z.ones_equiv; lia).
  apply Z.bits_inj'. intros j Hj. rewrite Z.land_spec, Z.shiftl_spec by lia.
  destruct (Z_lt_le_dec j 64).
  - rewrite lnot64_spec by lia. destruct (Z_lt_le_dec j k).
    + rewrite Z.ones_spec_low, (Z.testbit_neg_r _ (j - k)) by lia. apply andb_false_r.
    + rewrite Z.ones_spec_high, Z.shiftr_spec by lia.
      replace (j - k + k) with j by lia. apply andb_true_r.
  - rewrite Z.shiftr_spec by lia. replace (j - k + k) with j by lia.
    by rewrite u64_high_bit.
Qed.

(** Rounding up: [(v + a - 1) & ~(a - 1)] for a power of two [a], when the sum
    does not wrap. *)
Lemma land_align_up v k :
  is_u64 v -> 0 < k < 64 -> v + 2 ^ k - 1 < 18446744073709551616 ->
  Z.land (u64 (v + 2 ^ k - 1)) (lnot64 (u64 (2 ^ k - 1))) = (v + 2 ^ k - 1) / 2 ^ k * 2 ^ k.
Proof.
  intros Hv Hk Hlt. assert (0 < 2 ^ k) by (apply Z.pow_pos_nonneg; lia).
  rewrite !u64_id by (unfold is_u64 in *; lia).
  apply land_align_down; [unfold is_u64 in *; lia | lia].
Qed.

(** Bits below a shift: the two halves do not overlap. *)
Lemma lor_add y x k : 0 <= k -> 0 <= x < 2 ^ k -> Z.lor (y * 2 ^ k) x = y * 2 ^ k + x.
Proof.
  intros Hk Hx. rewrite <- Z.lxor_lor, <- Z.add_nocarry_lxor; try done;
    (rewrite <- Z.shiftl_mul_pow2 by lia; apply Z.bits_inj'; intros n Hn;
     rewrite Z.land_spec, Z.bits_0; destruct (Z_lt_le_dec n k);
     [by rewrite Z.shiftl_spec_low|
      rewrite andb_comm, <- (Z.mod_small x (2 ^ k)) by lia; by rewrite Z.mod_pow2_bits_high by lia]).
Qed.

(** * Counting the indices of a range that satisfy a predicate *)

Fixpoint count_up (n : nat) (i : Z) (P : Z -> bool) : Z :=
  match n with
  | O => 0
  | S n' => (if P i then 1 else 0) + count_up n' (i + 1) P
  end.

Lemma count_up_bounds n i P : 0 <= count_up n i P <= Z.of_nat n.
Proof.
  revert i. induction n as [|n IH]; intros i; simpl; [lia|].
  specialize (IH (i + 1)). destruct (P i); lia.
Qed.

Lemma count_up_ext n i P Q :
  (forall j, i <= j < i + Z.of_nat n -> P j = Q j) -> count_up n i P = count_up n i Q.
Proof.
  revert i. induction n as [|n IH]; intros i H; simpl; [done|].
  rewrite (H i) by lia. f_equal. apply IH. intros. apply H. lia.
Qed.

(** Switching one index on adds one to the count. *)
Lemma count_up_flip n i P Q b :
  i <= b < i + Z.of_nat n -> P b = false -> Q b = true ->
  (forall j, i <= j < i + Z.of_nat n -> j <> b -> P j = Q j) ->
  count_up n i Q = count_up n i P + 1.
Proof.
  revert i. induction n as [|n IH]; intros i Hb HP HQ H; [lia|].
  cbn [count_up].
  destruct (Z.eq_dec i b) as [->|Hne].
  - rewrite HP, HQ, (count_up_ext n (b + 1) P Q); [lia|].
    intros; apply H; lia.
  - rewrite (H i) by lia. rewrite (IH (i + 1)); [lia | lia | done | done |].
    intros; apply H; lia.
Qed.

(** A C counting loop computes the count when it fits the width. *)
Lemma for_up_count n i (P : Z -> bool) :
  Z.of_nat n < 18446744073709551616 ->
  for_up n i (fun j acc => if P j then u64 (acc + 1) else acc) 0 = count_up n i P.
Proof.
  intros Hn. enough (forall a, 0 <= a -> a + Z.of_nat n < 18446744073709551616 ->
    for_up n i (fun j acc => if P j then u64 (acc + 1) else acc) a = a + count_up n i P) as H.
  { rewrite H; lia. }
  clear Hn. revert i. induction n as [|n IH]; intros i a Ha Hn; cbn [for_up count_up]; [lia|].
  destruct (P i).
  - rewrite IH; ulia.
  - rewrite IH; lia.
Qed.

(** * Small facts on lists and fuel *)

Lemma exists_last_or_nil {A} (l : list A) : l = [] \/ exists l' x, l = l' ++ [x].
Proof. destruct l using rev_ind; eauto. Qed.

Lemma Z2Nat_succ z : 0 < z -> Z.to_nat z = S (Z.to_nat (z - 1)).
Proof. lia. Qed.
