(* ===== verification/Pmm.v ===== *)
(** The physical memory manager of [src/src/kernel/memory.c]: a bitmap of
    128 MiB in 4 KiB frames with a reference count per frame.  The file-scope
    variables are the fields of [pmm]; every operation takes and returns that
    record.  Frame addresses are [Z]; [None] is the null pointer of
    [pmm_alloc]. *)

From S2P Require Import Prelude.

Definition PMM_PAGE_SIZE : Z := 4096.
Definition PMM_TOTAL_MEMORY : Z := 128 * 1024 * 1024.
Definition PMM_RESERVED_END : Z := 1048576.
Definition PMM_MAX_BLOCKS : Z := PMM_TOTAL_MEMORY / PMM_PAGE_SIZE.
Definition PMM_BITMAP_WORDS : Z := (PMM_MAX_BLOCKS + 63) / 64.

Record pmm := mk_pmm {
  pmm_bitmap : list Z;
  pmm_refcounts : list Z;
  pmm_total_block_count : Z;
  pmm_reserved_block_count : Z
}.
#[export] Instance eta_pmm : Eta pmm := fun s =>
  mk_pmm (pmm_bitmap s) (pmm_refcounts s) (pmm_total_block_count s)
    (pmm_reserved_block_count s).

(** * Operations *)

Definition align_up (value alignment : Z) : Z :=
  Z.land (u64 (value + alignment - 1)) (lnot64 (u64 (alignment - 1))).

Definition bitmap_set (bit : Z) (s : pmm) : pmm :=
  s <| pmm_bitmap := arr_set (pmm_bitmap s) (bit / 64)
         (Z.lor (arr_get (pmm_bitmap s) (bit / 64)) (Z.shiftl 1 (bit mod 64))) |>.

Definition bitmap_clear (bit : Z) (s : pmm) : pmm :=
  s <| pmm_bitmap := arr_set (pmm_bitmap s) (bit / 64)
         (Z.land (arr_get (pmm_bitmap s) (bit / 64)) (lnot64 (Z.shiftl 1 (bit mod 64)))) |>.

Definition bitmap_test (bit : Z) (s : pmm) : bool :=
  negb (Z.land (arr_get (pmm_bitmap s) (bit / 64)) (Z.shiftl 1 (bit mod 64)) =? 0).

Definition refcount (s : pmm) (block : Z) : Z := arr_get (pmm_refcounts s) block.

Definition set_refcount (block v : Z) (s : pmm) : pmm :=
  s <| pmm_refcounts := arr_set (pmm_refcounts s) block v |>.

(** [kernel_end] is the linker symbol [__kernel_end]. *)
Definition pmm_init (kernel_end : Z) : pmm :=
  let reserved_end := align_up PMM_RESERVED_END PMM_PAGE_SIZE in
  let kernel_end := align_up kernel_end PMM_PAGE_SIZE in
  let reserved_end := if reserved_end <? kernel_end then kernel_end else reserved_end in
  let reserved := reserved_end / PMM_PAGE_SIZE in
  let reserved := if PMM_MAX_BLOCKS <? reserved then PMM_MAX_BLOCKS else reserved in
  let s := {| pmm_bitmap := replicate (Z.to_nat PMM_BITMAP_WORDS) 0;
              pmm_refcounts := replicate (Z.to_nat PMM_MAX_BLOCKS) 0;
              pmm_total_block_count := PMM_MAX_BLOCKS;
              pmm_reserved_block_count := reserved |} in
  for_up (Z.to_nat reserved) 0 (fun i s => set_refcount i 1 (bitmap_set i s)) s.

Fixpoint pmm_alloc_loop (fuel : nat) (i : Z) (s : pmm) : option Z * pmm :=
  match fuel with
  | O => (None, s)
  | S fuel' =>
      if negb (bitmap_test i s)
      then (Some (i * PMM_PAGE_SIZE), set_refcount i 1 (bitmap_set i s))
      else pmm_alloc_loop fuel' (i + 1) s
  end.

Definition pmm_alloc (s : pmm) : option Z * pmm :=
  pmm_alloc_loop (Z.to_nat (pmm_total_block_count s)) 0 s.

Definition pmm_free (address : Z) (s : pmm) : pmm :=
  if negb (address mod PMM_PAGE_SIZE =? 0) then s
  else
    let block := address / PMM_PAGE_SIZE in
    if (pmm_total_block_count s <=? block) || (block <? pmm_reserved_block_count s) then s
    else if 0 <? refcount s block then
      let s := set_refcount block (u32 (refcount s block - 1)) s in
      if refcount s block =? 0 then bitmap_clear block s else s
    else s.

Definition pmm_ref_inc (address : Z) (s : pmm) : pmm :=
  if negb (address mod PMM_PAGE_SIZE =? 0) then s
  else
    let block := address / PMM_PAGE_SIZE in
    if pmm_total_block_count s <=? block then s
    else set_refcount block (u32 (refcount s block + 1)) s.

Definition pmm_ref_get (address : Z) (s : pmm) : Z :=
  if negb (address mod PMM_PAGE_SIZE =? 0) then 0
  else
    let block := address / PMM_PAGE_SIZE in
    if pmm_total_block_count s <=? block then 0 else refcount s block.

Definition pmm_total_blocks (s : pmm) : Z := pmm_total_block_count s.
Definition pmm_reserved_blocks (s : pmm) : Z := pmm_reserved_block_count s.

Definition pmm_used_blocks (s : pmm) : Z :=
  for_up (Z.to_nat (pmm_total_block_count s)) 0
    (fun i used => if bitmap_test i s then u64 (used + 1) else used) 0.

Definition pmm_free_blocks (s : pmm) : Z :=
  u64 (pmm_total_block_count s - pmm_used_blocks s).
Definition pmm_total_memory (s : pmm) : Z := u64 (pmm_total_block_count s * PMM_PAGE_SIZE).
Definition pmm_free_memory (s : pmm) : Z := u64 (pmm_free_blocks s * PMM_PAGE_SIZE).
Definition pmm_free_memory_mib (s : pmm) : Z := pmm_free_memory s / (1024 * 1024).

(** * Invariant *)

(** The bitmap and the reference counts agree: a frame's bit is set exactly
    when its count is positive, and the reserved frames are never free. *)
Record pmm_wf (s : pmm) : Prop := {
  wf_total : pmm_total_block_count s = PMM_MAX_BLOCKS;
  wf_reserved : 256 <= pmm_reserved_block_count s <= PMM_MAX_BLOCKS;
  wf_bitmap_len : len (pmm_bitmap s) = PMM_BITMAP_WORDS;
  wf_bitmap_u64 : Forall is_u64 (pmm_bitmap s);
  wf_refcounts_len : len (pmm_refcounts s) = PMM_MAX_BLOCKS;
  wf_refcounts_u32 : forall b, 0 <= b < PMM_MAX_BLOCKS -> is_u32 (refcount s b);
  wf_agree : forall b, 0 <= b < PMM_MAX_BLOCKS -> bitmap_test b s = (0 <? refcount s b);
  wf_reserved_used : forall b, 0 <= b < pmm_reserved_block_count s -> 0 < refcount s b
}.

(** * Bitmap lemmas *)

Ltac pmm_consts :=
  change PMM_MAX_BLOCKS with 32768 in *;
  change PMM_BITMAP_WORDS with 512 in *;
  change PMM_PAGE_SIZE with 4096 in *.

Lemma bitmap_test_testbit b s :
  bitmap_test b s = Z.testbit (arr_get (pmm_bitmap s) (b / 64)) (b mod 64).
Proof. unfold bitmap_test. apply land_shiftl1_testbit. ulia. Qed.

Lemma block_word b : 0 <= b < PMM_MAX_BLOCKS -> 0 <= b / 64 < PMM_BITMAP_WORDS.
Proof. pmm_consts. ulia. Qed.

Lemma bitmap_test_set b c s :
  len (pmm_bitmap s) = PMM_BITMAP_WORDS ->
  0 <= b < PMM_MAX_BLOCKS -> 0 <= c < PMM_MAX_BLOCKS ->
  bitmap_test c (bitmap_set b s) = if c =? b then true else bitmap_test c s.
Proof.
  intros Hl Hb Hc. pose proof (block_word b Hb). pose proof (block_word c Hc).
  rewrite !bitmap_test_testbit. unfold bitmap_set; cbn.
  destruct (Z.eq_dec (c / 64) (b / 64)) as [E|E].
  - rewrite E, arr_get_set_eq, testbit_lor_shiftl1 by ulia.
    bcases; try done; ulia.
  - rewrite arr_get_set_ne by lia. bcase; [congruence | done].
Qed.

Lemma bitmap_test_clear b c s :
  len (pmm_bitmap s) = PMM_BITMAP_WORDS ->
  0 <= b < PMM_MAX_BLOCKS -> 0 <= c < PMM_MAX_BLOCKS ->
  bitmap_test c (bitmap_clear b s) = if c =? b then false else bitmap_test c s.
Proof.
  intros Hl Hb Hc. pose proof (block_word b Hb). pose proof (block_word c Hc).
  rewrite !bitmap_test_testbit. unfold bitmap_clear; cbn.
  destruct (Z.eq_dec (c / 64) (b / 64)) as [E|E].
  - rewrite E, arr_get_set_eq, testbit_clear64 by ulia.
    bcases; try done; ulia.
  - rewrite arr_get_set_ne by lia. bcase; [congruence | done].
Qed.

Lemma bitmap_set_u64 b s :
  Forall is_u64 (pmm_bitmap s) -> len (pmm_bitmap s) = PMM_BITMAP_WORDS ->
  0 <= b < PMM_MAX_BLOCKS -> Forall is_u64 (pmm_bitmap (bitmap_set b s)).
Proof.
  intros Hu Hl Hb. apply arr_set_Forall; [done|]. pose proof (block_word b Hb).
  apply lor_u64; [apply arr_get_Forall; [done|lia]|].
  apply shiftl1_u64. ulia.
Qed.

Lemma bitmap_clear_u64 b s :
  Forall is_u64 (pmm_bitmap s) -> len (pmm_bitmap s) = PMM_BITMAP_WORDS ->
  0 <= b < PMM_MAX_BLOCKS -> Forall is_u64 (pmm_bitmap (bitmap_clear b s)).
Proof.
  intros Hu Hl Hb. apply arr_set_Forall; [done|]. pose proof (block_word b Hb).
  apply land_u64. apply arr_get_Forall; [done|lia].
Qed.

Lemma refcount_set_refcount b c v s :
  len (pmm_refcounts s) = PMM_MAX_BLOCKS ->
  0 <= b < PMM_MAX_BLOCKS -> 0 <= c < PMM_MAX_BLOCKS ->
  refcount (set_refcount b v s) c = if c =? b then v else refcount s c.
Proof.
  intros Hl Hb Hc. unfold refcount, set_refcount; cbn. bcase; subst.
  - apply arr_get_set_eq. lia.
  - apply arr_get_set_ne; lia.
Qed.

(** A state that differs from a well-formed one at a single frame, where the
    bit still says whether the new count is positive, is well formed. *)
Lemma pmm_wf_update b v s s' :
  pmm_wf s -> 0 <= b < PMM_MAX_BLOCKS -> is_u32 v ->
  (b < pmm_reserved_block_count s -> 0 < v) ->
  pmm_total_block_count s' = pmm_total_block_count s ->
  pmm_reserved_block_count s' = pmm_reserved_block_count s ->
  len (pmm_bitmap s') = len (pmm_bitmap s) ->
  Forall is_u64 (pmm_bitmap s') ->
  len (pmm_refcounts s') = len (pmm_refcounts s) ->
  (forall c, 0 <= c < PMM_MAX_BLOCKS ->
     refcount s' c = if c =? b then v else refcount s c) ->
  (forall c, 0 <= c < PMM_MAX_BLOCKS ->
     bitmap_test c s' = if c =? b then 0 <? v else bitmap_test c s) ->
  pmm_wf s'.
Proof.
  intros [] Hb Hv Hres Ht Hr Hlb Hu64 Hlr Hrc Hbt.
  split; rewrite ?Ht, ?Hr, ?Hlb, ?Hlr; auto.
  - intros c Hc. rewrite Hrc by done. bcase; auto.
  - intros c Hc. rewrite Hbt, Hrc by done. bcase; auto.
  - intros c Hc. rewrite Hrc by lia. bcase; subst; [apply Hres; lia | auto].
Qed.

(** Taking the frame [b]: what [pmm_init] and [pmm_alloc] do to it. *)
Lemma pmm_take_wf b s :
  pmm_wf s -> 0 <= b < PMM_MAX_BLOCKS -> pmm_wf (set_refcount b 1 (bitmap_set b s)).
Proof.
  intros Hwf Hb. eapply (pmm_wf_update b 1 s); try done; cbn; try apply len_arr_set.
  - apply bitmap_set_u64; [apply Hwf | apply Hwf | done].
  - intros c Hc. rewrite refcount_set_refcount; try done. apply Hwf.
  - intros c Hc. change (bitmap_test c (bitmap_set b s) = if c =? b then true else bitmap_test c s).
    apply bitmap_test_set; try done. apply Hwf.
Qed.

(** * Allocation *)

Lemma pmm_alloc_loop_spec fuel i s :
  match pmm_alloc_loop fuel i s with
  | (Some p, s') =>
      exists b, p = b * PMM_PAGE_SIZE /\ i <= b < i + Z.of_nat fuel /\
        bitmap_test b s = false /\
        (forall c, i <= c < b -> bitmap_test c s = true) /\
        s' = set_refcount b 1 (bitmap_set b s)
  | (None, s') =>
      s' = s /\ forall c, i <= c < i + Z.of_nat fuel -> bitmap_test c s = true
  end.
Proof.
  revert i. induction fuel as [|fuel IH]; intros i; cbn [pmm_alloc_loop].
  { split; [done|]. intros; lia. }
  destruct (bitmap_test i s) eqn:Hi; cbn [negb].
  - specialize (IH (i + 1)). destruct (pmm_alloc_loop fuel (i + 1) s) as [[p|] s'].
    + destruct IH as (b & -> & Hb & Hfree & Hbelow & ->).
      exists b. split_and!; try lia; try done.
      intros c Hc. destruct (Z.eq_dec c i) as [->|]; [done|]. apply Hbelow; lia.
    + destruct IH as [-> Hall]. split; [done|].
      intros c Hc. destruct (Z.eq_dec c i) as [->|]; [done|]. apply Hall; lia.
  - exists i. split_and!; try lia; try done.
Qed.

(** What [pmm_alloc] returns, in terms of the reference counts. *)
Lemma pmm_alloc_cases s :
  pmm_wf s ->
  match pmm_alloc s with
  | (Some p, s') =>
      exists b, p = b * PMM_PAGE_SIZE /\
        pmm_reserved_block_count s <= b < PMM_MAX_BLOCKS /\
        refcount s b = 0 /\
        (forall c, 0 <= c < b -> 0 < refcount s c) /\
        s' = set_refcount b 1 (bitmap_set b s)
  | (None, s') => s' = s /\ forall c, 0 <= c < PMM_MAX_BLOCKS -> 0 < refcount s c
  end.
Proof.
  intros Hwf. unfold pmm_alloc. rewrite (wf_total s Hwf).
  pose proof (pmm_alloc_loop_spec (Z.to_nat PMM_MAX_BLOCKS) 0 s) as H.
  assert (Hn : 0 + Z.of_nat (Z.to_nat PMM_MAX_BLOCKS) = PMM_MAX_BLOCKS) by (pmm_consts; lia).
  rewrite Hn in H. clear Hn.
  assert (Hused : forall c, 0 <= c < PMM_MAX_BLOCKS -> bitmap_test c s = true -> 0 < refcount s c).
  { intros c Hc. rewrite (wf_agree s Hwf) by done. apply Z.ltb_lt. }
  destruct (pmm_alloc_loop _ 0 s) as [[p|] s'].
  - destruct H as (b & -> & Hb & Hfree & Hbelow & ->).
    assert (refcount s b = 0).
    { rewrite (wf_agree s Hwf) in Hfree by done. apply Z.ltb_ge in Hfree.
      pose proof (wf_refcounts_u32 s Hwf b Hb). unfold is_u32 in *. lia. }
    exists b. split; [done|]. split_and!; [|lia|assumption| |reflexivity].
    + destruct (Z_lt_le_dec b (pmm_reserved_block_count s)) as [Hlt|]; [|done].
      pose proof (wf_reserved_used s Hwf b). lia.
    + intros c Hc. apply Hused; [lia|]. apply Hbelow. lia.
  - destruct H as [-> Hall]. split; [done|]. intros c Hc. apply Hused; auto.
Qed.

(** * Initialisation *)

Lemma align_up_page_eq v :
  is_u64 v -> v + 4095 < 18446744073709551616 ->
  align_up v PMM_PAGE_SIZE = (v + 4095) / 4096 * 4096.
Proof.
  intros Hv Hlt. replace (v + 4095) with (v + 2 ^ 12 - 1) by lia.
  apply (land_align_up v 12); lia || done.
Qed.

Lemma pmm_reserve_wf n s :
  pmm_total_block_count s = PMM_MAX_BLOCKS ->
  256 <= pmm_reserved_block_count s <= PMM_MAX_BLOCKS ->
  pmm_reserved_block_count s = Z.of_nat n ->
  pmm_bitmap s = replicate (Z.to_nat PMM_BITMAP_WORDS) 0 ->
  pmm_refcounts s = replicate (Z.to_nat PMM_MAX_BLOCKS) 0 ->
  let s' := for_up n 0 (fun i s => set_refcount i 1 (bitmap_set i s)) s in
  pmm_wf s' /\ pmm_reserved_block_count s' = Z.of_nat n /\
  forall b, 0 <= b < PMM_MAX_BLOCKS -> refcount s' b = if b <? Z.of_nat n then 1 else 0.
Proof.
  intros Ht Hr Hn Hbm Hrc s'.
  set (P := fun (i : Z) (t : pmm) =>
    pmm_total_block_count t = PMM_MAX_BLOCKS /\
    pmm_reserved_block_count t = Z.of_nat n /\
    len (pmm_bitmap t) = PMM_BITMAP_WORDS /\
    Forall is_u64 (pmm_bitmap t) /\
    len (pmm_refcounts t) = PMM_MAX_BLOCKS /\
    (forall b, 0 <= b < PMM_MAX_BLOCKS -> refcount t b = if b <? i then 1 else 0) /\
    (forall b, 0 <= b < PMM_MAX_BLOCKS -> bitmap_test b t = (b <? i))).
  assert (HP : P (0 + Z.of_nat n) s').
  { apply for_up_ind.
    - unfold P, len. rewrite Hbm, Hrc, !length_replicate, !Z2Nat.id by (pmm_consts; lia).
      split_and!; try done; try lia; [by apply Forall_replicate | |].
      + intros b Hb. unfold refcount. rewrite Hrc, arr_get_replicate by (rewrite Z2Nat.id; pmm_consts; lia).
        bcase; lia.
      + intros b Hb. pose proof (block_word b Hb).
        rewrite bitmap_test_testbit, Hbm, arr_get_replicate by (rewrite Z2Nat.id; pmm_consts; lia).
        rewrite Z.bits_0. symmetry. apply Z.ltb_ge. lia.
    - intros j t Hj (Ht1 & Hr1 & Hlb & Hu & Hlr & Href & Hbit).
      unfold P, set_refcount, bitmap_set; cbn. rewrite !len_arr_set.
      split_and!; try assumption; [apply bitmap_set_u64; [done|done|pmm_consts; lia] | |].
      + intros b Hb.
        change (refcount (set_refcount j 1 t) b = if b <? j + 1 then 1 else 0).
        rewrite refcount_set_refcount, Href by (pmm_consts; lia). bcases; lia.
      + intros b Hb.
        change (bitmap_test b (bitmap_set j t) = (b <? j + 1)).
        rewrite bitmap_test_set, Hbit by (pmm_consts; lia). bcases; try done; lia. }
  destruct HP as (Ht1 & Hr1 & Hlb & Hu & Hlr & Href & Hbit).
  split_and!; try assumption. split; try assumption; try lia.
  - intros b Hb. rewrite Href by done. bcase; unfold is_u32; lia.
  - intros b Hb. rewrite Href, Hbit by done. bcases; done.
  - intros b Hb. rewrite Href by lia. bcase; lia.
Qed.

Lemma pmm_init_facts kernel_end :
  0 <= kernel_end < PMM_TOTAL_MEMORY ->
  let s := pmm_init kernel_end in
  pmm_wf s /\
  pmm_reserved_blocks s = Z.max 256 ((kernel_end + 4095) / 4096) /\
  forall b, 0 <= b < PMM_MAX_BLOCKS ->
    refcount s b = if b <? pmm_reserved_blocks s then 1 else 0.
Proof.
  intros Hk s. change PMM_TOTAL_MEMORY with 134217728 in Hk.
  set (r := Z.max 256 ((kernel_end + 4095) / 4096)).
  assert (Hr : 256 <= r <= PMM_MAX_BLOCKS) by (unfold r; pmm_consts; ulia).
  assert (Hs : s = for_up (Z.to_nat r) 0 (fun i s => set_refcount i 1 (bitmap_set i s))
    (mk_pmm (replicate (Z.to_nat PMM_BITMAP_WORDS) 0)
       (replicate (Z.to_nat PMM_MAX_BLOCKS) 0) PMM_MAX_BLOCKS r)).
  { unfold s, pmm_init. rewrite (align_up_page_eq kernel_end) by ulia.
    change (align_up PMM_RESERVED_END PMM_PAGE_SIZE) with 1048576.
    match goal with |- context [Z.to_nat (if PMM_MAX_BLOCKS <? ?q then _ else _)] =>
      assert (q = r) as -> by (unfold r; pmm_consts; bcase; ulia) end.
    bcase; [lia | done]. }
  rewrite Hs.
  destruct (pmm_reserve_wf (Z.to_nat r)
    (mk_pmm (replicate (Z.to_nat PMM_BITMAP_WORDS) 0)
       (replicate (Z.to_nat PMM_MAX_BLOCKS) 0) PMM_MAX_BLOCKS r)) as (Hwf & Hres & Href);
    try done; try (cbn; lia).
  unfold pmm_reserved_blocks. rewrite Hres, Z2Nat.id in * by lia. auto.
Qed.

(** [pmm_init] establishes the invariant for every kernel image that fits
    in memory, and reserves exactly the frames below the larger of 1 MiB and
    the kernel end rounded up to a page: those have count 1, all others 0. *)
Theorem pmm_init_spec kernel_end :
  0 <= kernel_end < PMM_TOTAL_MEMORY ->
  let s := pmm_init kernel_end in
  pmm_wf s /\
  pmm_reserved_blocks s = Z.max 256 ((kernel_end + 4095) / 4096) /\
  forall b, 0 <= b < PMM_MAX_BLOCKS ->
    refcount s b = if b <? pmm_reserved_blocks s then 1 else 0.
Proof. exact (pmm_init_facts kernel_end). Qed.

Lemma pmm_init_spec_witness :
  0 <= 1200000 < PMM_TOTAL_MEMORY /\ pmm_reserved_blocks (pmm_init 1200000) = 293.
Proof.
  split; [by vm_compute|].
  pose proof (pmm_init_spec 1200000 ltac:(by vm_compute)) as (_ & H & _). exact H.
Defined.

(** * Allocating and releasing *)

Lemma pmm_used_count s :
  pmm_wf s ->
  pmm_used_blocks s =
  count_up (Z.to_nat PMM_MAX_BLOCKS) 0 (fun b => 0 <? refcount s b).
Proof.
  intros Hwf. unfold pmm_used_blocks. rewrite (wf_total s Hwf).
  rewrite (count_up_ext _ 0 (fun b => 0 <? refcount s b) (fun b => bitmap_test b s)).
  2: { intros j Hj. rewrite Z2Nat.id in Hj by (pmm_consts; lia).
       symmetry. apply (wf_agree s Hwf). lia. }
  apply for_up_count. pmm_consts. lia.
Qed.

(** [pmm_alloc] returns the lowest free frame, which is never a reserved
    one, with count 1 and every other count unchanged, and one more frame in
    use; it returns null exactly when every frame is in use, changing nothing.
    The invariant is kept. *)
Theorem pmm_alloc_spec s :
  pmm_wf s ->
  let '(r, s') := pmm_alloc s in
  pmm_wf s' /\
  match r with
  | Some p =>
      exists b, p = b * PMM_PAGE_SIZE /\
        pmm_reserved_blocks s <= b < PMM_MAX_BLOCKS /\
        refcount s b = 0 /\ (forall c, 0 <= c < b -> 0 < refcount s c) /\
        (forall c, 0 <= c < PMM_MAX_BLOCKS ->
           refcount s' c = if c =? b then 1 else refcount s c) /\
        pmm_used_blocks s' = pmm_used_blocks s + 1
  | None => s' = s /\ forall c, 0 <= c < PMM_MAX_BLOCKS -> 0 < refcount s c
  end.
Proof.
  intros Hwf. pose proof (pmm_alloc_cases s Hwf) as H.
  destruct (pmm_alloc s) as [[p|] s']; [|by destruct H as [-> H]].
  destruct H as (b & -> & Hb & Hfree & Hbelow & ->).
  assert (Hb0 : 0 <= b < PMM_MAX_BLOCKS) by (pose proof (wf_reserved s Hwf); lia).
  assert (Hwf' := pmm_take_wf b s Hwf Hb0). split; [done|].
  assert (Href : forall c, 0 <= c < PMM_MAX_BLOCKS ->
    refcount (set_refcount b 1 (bitmap_set b s)) c = if c =? b then 1 else refcount s c).
  { intros c Hc. apply (refcount_set_refcount b c 1 (bitmap_set b s)); try done. apply Hwf. }
  exists b. unfold pmm_reserved_blocks. split; [done|]. split_and!; try assumption; try lia.
  rewrite !pmm_used_count by done.
  apply (count_up_flip _ _ _ _ b); rewrite ?Z2Nat.id by (pmm_consts; lia);
    [lia | by rewrite Hfree | |].
  - by rewrite Href, Z.eqb_refl by done.
  - intros c Hc Hne. rewrite Href by lia. bcase; [lia|done].
Qed.

Lemma pmm_alloc_spec_witness :
  exists s, pmm_wf s /\ pmm_used_blocks (snd (pmm_alloc s)) = pmm_used_blocks s + 1.
Proof.
  exists (pmm_init 0).
  assert (H : pmm_wf (pmm_init 0)) by apply (pmm_init_facts 0 ltac:(by vm_compute)).
  split; [exact H|].
  pose proof (pmm_alloc_spec (pmm_init 0) H) as Ha.
  rewrite (surjective_pairing (pmm_alloc (pmm_init 0))) in Ha.
  assert (Hf : fst (pmm_alloc (pmm_init 0)) = Some 1048576) by (vm_compute; reflexivity).
  rewrite Hf in Ha. destruct Ha as (_ & b & _ & _ & _ & _ & _ & Hu). exact Hu.
Defined.

(** The effect of a release on the counts. *)
Lemma pmm_free_refcount b s :
  pmm_wf s -> pmm_reserved_block_count s <= b < PMM_MAX_BLOCKS ->
  pmm_wf (pmm_free (b * PMM_PAGE_SIZE) s) /\
  forall c, 0 <= c < PMM_MAX_BLOCKS ->
    refcount (pmm_free (b * PMM_PAGE_SIZE) s) c =
    if c =? b then Z.max 0 (refcount s b - 1) else refcount s c.
Proof.
  intros Hwf Hb. pose proof (wf_reserved s Hwf).
  assert (Hb0 : 0 <= b < PMM_MAX_BLOCKS) by lia.
  pose proof (wf_refcounts_u32 s Hwf b Hb0) as Hu.
  unfold pmm_free. rewrite Z.mod_mul, Z.div_mul, (wf_total s Hwf) by (pmm_consts; lia).
  cbn [negb Z.eqb].
  destruct (Z.leb_spec PMM_MAX_BLOCKS b), (Z.ltb_spec b (pmm_reserved_block_count s)); try lia.
  cbn [orb].
  destruct (Z.ltb_spec 0 (refcount s b)) as [Hpos|Hz].
  2: { split; [done|]. intros c Hc. bcase; subst; unfold is_u32 in *; lia. }
  rewrite (refcount_set_refcount b b) by (done || apply Hwf). rewrite Z.eqb_refl.
  replace (u32 (refcount s b - 1)) with (refcount s b - 1) by ulia.
  assert (Href : forall t, pmm_refcounts t = pmm_refcounts (set_refcount b (refcount s b - 1) s) ->
    forall c, 0 <= c < PMM_MAX_BLOCKS ->
    refcount t c = if c =? b then refcount s b - 1 else refcount s c).
  { intros t Et c Hc. rewrite <- (refcount_set_refcount b c) by (done || apply Hwf).
    unfold refcount. by rewrite Et. }
  rewrite Z.max_r by lia.
  destruct (Z.eqb_spec (refcount s b - 1) 0) as [E|E];
    (split; [|by apply Href]);
    (eapply (pmm_wf_update b (refcount s b - 1) s); try done; try (cbn; apply len_arr_set);
      try apply Href; try (unfold is_u32 in *; lia); try done).
  - apply (bitmap_clear_u64 b (set_refcount b (refcount s b - 1) s)); try done; apply Hwf.
  - intros c Hc. rewrite bitmap_test_clear by (done || apply Hwf). rewrite E. done.
  - apply Hwf.
  - intros c Hc. change (bitmap_test c (set_refcount b (refcount s b - 1) s)) with (bitmap_test c s).
    bcase; [|done]. subst c. rewrite (wf_agree s Hwf) by done. bcases; done.
Qed.

(** releasing a frame above the reserved area drops its count by one (not
    below zero) and nothing else; the frame becomes free exactly when the last
    reference goes, and the number of frames in use drops with it.  Every other
    address (unaligned, reserved, or out of range) is ignored. *)
Theorem pmm_free_spec address s :
  pmm_wf s -> 0 <= address ->
  let b := address / PMM_PAGE_SIZE in
  let s' := pmm_free address s in
  pmm_wf s' /\
  if (address mod PMM_PAGE_SIZE =? 0) && (pmm_reserved_blocks s <=? b) && (b <? PMM_MAX_BLOCKS)
  then (forall c, 0 <= c < PMM_MAX_BLOCKS ->
          refcount s' c = if c =? b then Z.max 0 (refcount s b - 1) else refcount s c) /\
       pmm_used_blocks s' = pmm_used_blocks s - (if refcount s b =? 1 then 1 else 0)
  else s' = s.
Proof.
  intros Hwf Ha b s'.
  destruct ((address mod PMM_PAGE_SIZE =? 0) && (pmm_reserved_blocks s <=? b)
            && (b <? PMM_MAX_BLOCKS)) eqn:Hc.
  - apply andb_prop in Hc as [[Hm%Z.eqb_eq Hr%Z.leb_le]%andb_prop Hlt%Z.ltb_lt].
    assert (Haddr : address = b * PMM_PAGE_SIZE) by (unfold b; pmm_consts; ulia).
    pose proof (wf_reserved s Hwf).
    destruct (pmm_free_refcount b s Hwf) as [Hwf' Href]; [unfold pmm_reserved_blocks in *; lia|].
    rewrite <- Haddr in Hwf', Href. fold s' in Hwf', Href.
    assert (Hb0 : 0 <= b < PMM_MAX_BLOCKS) by (unfold pmm_reserved_blocks in *; lia).
    pose proof (wf_refcounts_u32 s Hwf b Hb0). split_and!; try assumption.
    rewrite !pmm_used_count by done. bcase.
    + symmetry. apply Z.sub_move_r.
      apply (count_up_flip _ _ _ _ b); rewrite ?Z2Nat.id by (pmm_consts; lia);
        [lia | rewrite Href by done; rewrite Z.eqb_refl; apply Z.ltb_ge; lia
        | apply Z.ltb_lt; lia |].
      intros c Hc Hne. rewrite Href by lia. bcase; [lia|done].
    + rewrite Z.sub_0_r. apply count_up_ext. intros c Hc.
      rewrite Z2Nat.id in Hc by (pmm_consts; lia). rewrite Href by lia.
      unfold is_u32 in *. bcases; try subst c; try done; lia.
  - assert (s' = s) as ->; [|done].
    unfold s', pmm_free. fold b. rewrite (wf_total s Hwf).
    unfold pmm_reserved_blocks in Hc.
    destruct (address mod PMM_PAGE_SIZE =? 0); [|done]. cbn in *.
    destruct (Z.leb_spec PMM_MAX_BLOCKS b); [done|].
    destruct (Z.ltb_spec b (pmm_reserved_block_count s)); [done|]. exfalso.
    revert Hc. bcases; done.
Qed.

Lemma pmm_free_spec_witness :
  pmm_wf (pmm_init 0) /\ pmm_wf (pmm_free 1048576 (pmm_init 0)).
Proof.
  assert (H : pmm_wf (pmm_init 0)) by apply (pmm_init_facts 0 ltac:(by vm_compute)).
  split; [exact H|].
  exact (proj1 (pmm_free_spec 1048576 (pmm_init 0) H ltac:(lia))).
Defined.

(** an allocation followed by the release of the frame it returned restores
    the allocator exactly, bitmap words included. *)
Theorem pmm_alloc_free_roundtrip s p s' :
  pmm_wf s -> pmm_alloc s = (Some p, s') -> pmm_free p s' = s.
Proof.
  intros Hwf Ha. pose proof (pmm_alloc_cases s Hwf) as H. rewrite Ha in H.
  destruct H as (b & -> & Hb & Hfree & _ & ->). pose proof (wf_reserved s Hwf).
  assert (Hb0 : 0 <= b < PMM_MAX_BLOCKS) by lia. pose proof (block_word b Hb0).
  assert (Hbit : bitmap_test b s = false) by by rewrite (wf_agree s Hwf), Hfree.
  rewrite bitmap_test_testbit in Hbit.
  unfold pmm_free. rewrite Z.mod_mul, Z.div_mul by (pmm_consts; lia).
  cbn [negb Z.eqb]. cbn [pmm_total_block_count pmm_reserved_block_count set_refcount bitmap_set set_field].
  rewrite (wf_total s Hwf).
  destruct (Z.leb_spec PMM_MAX_BLOCKS b), (Z.ltb_spec b (pmm_reserved_block_count s)); try lia.
  rewrite !(refcount_set_refcount b b) by (done || (cbn; rewrite ?len_arr_set; apply Hwf)).
  rewrite Z.eqb_refl. cbn [orb Z.ltb Z.compare].
  unfold set_refcount, bitmap_set, bitmap_clear, refcount in *; cbn.
  rewrite !arr_set_set, !arr_get_set_eq by (rewrite ?(wf_bitmap_len s Hwf); lia).
  rewrite clear_set_bit64; [| apply arr_get_Forall; [apply Hwf | rewrite (wf_bitmap_len s Hwf); lia]
    | ulia | done].
  change (u32 (1 - 1)) with 0. rewrite <- Hfree.
  rewrite !arr_set_get_id by (rewrite ?(wf_bitmap_len s Hwf), ?(wf_refcounts_len s Hwf); lia).
  rewrite Z.eqb_refl. by destruct s.
Qed.

Lemma pmm_alloc_free_roundtrip_witness :
  exists s, pmm_wf s /\ fst (pmm_alloc s) = Some 1048576 /\
    pmm_free 1048576 (snd (pmm_alloc s)) = s.
Proof.
  exists (pmm_init 0).
  assert (H : pmm_wf (pmm_init 0)) by apply (pmm_init_facts 0 ltac:(by vm_compute)).
  assert (Hf : fst (pmm_alloc (pmm_init 0)) = Some 1048576) by (vm_compute; reflexivity).
  split; [exact H|]. split; [exact Hf|].
  apply (pmm_alloc_free_roundtrip _ _ _ H). rewrite <- Hf. apply surjective_pairing.
Defined.

(** * Sharing *)

(** Taking one more reference to an allocated frame. *)
Lemma pmm_ref_inc_refcount b s :
  pmm_wf s -> 0 <= b < PMM_MAX_BLOCKS -> 0 < refcount s b < 4294967295 ->
  pmm_wf (pmm_ref_inc (b * PMM_PAGE_SIZE) s) /\
  pmm_ref_inc (b * PMM_PAGE_SIZE) s = set_refcount b (refcount s b + 1) s.
Proof.
  intros Hwf Hb Hr.
  assert (E : pmm_ref_inc (b * PMM_PAGE_SIZE) s = set_refcount b (refcount s b + 1) s).
  { unfold pmm_ref_inc. rewrite Z.mod_mul, Z.div_mul, (wf_total s Hwf) by (pmm_consts; lia).
    cbn [negb Z.eqb]. destruct (Z.leb_spec PMM_MAX_BLOCKS b); [lia|].
    by rewrite u32_id by (unfold is_u32; lia). }
  split; [|done]. rewrite E.
  eapply (pmm_wf_update b (refcount s b + 1) s); try done; try (unfold is_u32; lia).
  - apply Hwf.
  - cbn. apply len_arr_set.
  - intros c Hc. apply refcount_set_refcount; try done. apply Hwf.
  - intros c Hc. change (bitmap_test c (set_refcount b (refcount s b + 1) s)) with (bitmap_test c s).
    bcase; [|done]. subst c. rewrite (wf_agree s Hwf) by done. bcases; done.
Qed.

(** A frame shared [k] more times and released [k] times: what [fork] does to a
    page with [pmm_ref_inc] and the exits of the children with [pmm_free]. *)
Definition share (p : Z) (k : nat) (s : pmm) : pmm := Nat.iter k (pmm_ref_inc p) s.
Definition unshare (p : Z) (k : nat) (s : pmm) : pmm := Nat.iter k (pmm_free p) s.

Lemma pmm_free_ref_inc b s :
  pmm_wf s -> pmm_reserved_block_count s <= b < PMM_MAX_BLOCKS ->
  0 < refcount s b < 4294967295 ->
  pmm_free (b * PMM_PAGE_SIZE) (pmm_ref_inc (b * PMM_PAGE_SIZE) s) = s.
Proof.
  intros Hwf Hb Hr. pose proof (wf_reserved s Hwf).
  assert (Hb0 : 0 <= b < PMM_MAX_BLOCKS) by lia.
  destruct (pmm_ref_inc_refcount b s Hwf Hb0 Hr) as [_ ->].
  unfold pmm_free. rewrite Z.mod_mul, Z.div_mul by (pmm_consts; lia). cbn [negb Z.eqb].
  cbn [pmm_total_block_count pmm_reserved_block_count set_refcount set_field].
  rewrite (wf_total s Hwf).
  destruct (Z.leb_spec PMM_MAX_BLOCKS b), (Z.ltb_spec b (pmm_reserved_block_count s)); try lia.
  assert (Hl : len (pmm_refcounts s) = PMM_MAX_BLOCKS) by apply Hwf.
  rewrite !(refcount_set_refcount b b) by (done || (cbn; rewrite ?len_arr_set; done)).
  rewrite Z.eqb_refl. cbn [orb].
  destruct (Z.ltb_spec 0 (refcount s b + 1)); [|lia].
  replace (u32 (refcount s b + 1 - 1)) with (refcount s b) by ulia.
  destruct (Z.eqb_spec (refcount s b) 0); [lia|].
  unfold set_refcount, refcount; cbn.
  rewrite arr_set_set, arr_set_get_id by lia. by destruct s.
Qed.

(** sharing an allocated frame [k] times and releasing it [k] times leaves
    the allocator as it was, as long as the count does not reach 2^32. *)
Theorem pmm_share_unshare b k s :
  pmm_wf s -> pmm_reserved_blocks s <= b < PMM_MAX_BLOCKS ->
  0 < refcount s b -> refcount s b + Z.of_nat k < 4294967296 ->
  unshare (b * PMM_PAGE_SIZE) k (share (b * PMM_PAGE_SIZE) k s) = s.
Proof.
  unfold pmm_reserved_blocks. revert s.
  induction k as [|k IH]; intros s Hwf Hb Hpos Hk; [done|].
  pose proof (wf_reserved s Hwf). assert (Hb0 : 0 <= b < PMM_MAX_BLOCKS) by lia.
  destruct (pmm_ref_inc_refcount b s Hwf Hb0) as [Hwf' E]; [lia|].
  set (p := b * PMM_PAGE_SIZE) in *.
  change (pmm_free p (unshare p k (Nat.iter (S k) (pmm_ref_inc p) s)) = s).
  rewrite Nat.iter_succ_r. change (Nat.iter k (pmm_ref_inc p)) with (share p k).
  assert (Hrc : refcount (pmm_ref_inc p s) b = refcount s b + 1).
  { rewrite E, refcount_set_refcount, Z.eqb_refl by (done || apply Hwf). done. }
  rewrite IH; [|done| |lia|lia].
  - apply pmm_free_ref_inc; try done; lia.
  - rewrite E. exact Hb.
Qed.

Lemma pmm_share_unshare_witness :
  exists s, pmm_wf s /\ refcount s 256 = 1 /\
    unshare (256 * PMM_PAGE_SIZE) 3 (share (256 * PMM_PAGE_SIZE) 3 s) = s.
Proof.
  assert (H : pmm_wf (pmm_init 0)) by apply (pmm_init_facts 0 ltac:(by vm_compute)).
  exists (set_refcount 256 1 (bitmap_set 256 (pmm_init 0))).
  assert (H' := pmm_take_wf 256 _ H ltac:(by vm_compute)).
  assert (Hr : refcount (set_refcount 256 1 (bitmap_set 256 (pmm_init 0))) 256 = 1)
    by (vm_compute; reflexivity).
  split; [exact H'|]. split; [exact Hr|].
  assert (Hb : pmm_reserved_blocks (set_refcount 256 1 (bitmap_set 256 (pmm_init 0))) = 256)
    by (vm_compute; reflexivity).
  apply (pmm_share_unshare 256 3 _ H'); rewrite ?Hr, ?Hb; pmm_consts; lia.
Defined.

(** * Reachable states *)

(** The three calls the rest of the kernel makes, with the discipline of the
    callers in vmm.c and elf.c: a reference is only added to a frame that is
    already in use, and its count stays below 2^32. *)
Inductive pmm_step : pmm -> pmm -> Prop :=
  | step_alloc s : pmm_step s (snd (pmm_alloc s))
  | step_free a s : 0 <= a -> pmm_step s (pmm_free a s)
  | step_ref_inc a s :
      0 <= a -> 0 < pmm_ref_get a s < 4294967295 -> pmm_step s (pmm_ref_inc a s).

Inductive pmm_reachable (kernel_end : Z) : pmm -> Prop :=
  | reach_init : pmm_reachable kernel_end (pmm_init kernel_end)
  | reach_step s s' : pmm_reachable kernel_end s -> pmm_step s s' -> pmm_reachable kernel_end s'.

Lemma pmm_step_wf s s' :
  pmm_step s s' -> pmm_wf s ->
  pmm_wf s' /\ pmm_reserved_block_count s' = pmm_reserved_block_count s.
Proof.
  intros [t | a t Ha | a t Ha Hg] Hwf.
  - pose proof (pmm_alloc_cases t Hwf) as H. pose proof (wf_reserved t Hwf).
    destruct (pmm_alloc t) as [[p|] t']; cbn [snd].
    + destruct H as (b & -> & Hb & _ & _ & ->). split; [apply pmm_take_wf; try done; lia | done].
    + destruct H as [-> _]. done.
  - unfold pmm_free. bcase; cbn [negb]; [|done].
    assert (Haddr : a = a / PMM_PAGE_SIZE * PMM_PAGE_SIZE) by (pmm_consts; ulia).
    pose proof (pmm_free_refcount (a / PMM_PAGE_SIZE) t Hwf) as H.
    rewrite <- Haddr in H. unfold pmm_free in H.
    rewrite e in H. rewrite (wf_total t Hwf) in H |- *. cbn [negb Z.eqb] in H.
    destruct (Z.leb_spec PMM_MAX_BLOCKS (a / PMM_PAGE_SIZE)); [done|].
    destruct (Z.ltb_spec (a / PMM_PAGE_SIZE) (pmm_reserved_block_count t)); [done|].
    cbn [orb] in *. split; [apply H; lia|].
    by repeat case_match.
  - unfold pmm_ref_get in Hg. destruct (Z.eqb_spec (a mod PMM_PAGE_SIZE) 0) as [e|]; cbn in Hg; [|lia].
    assert (Haddr : a = a / PMM_PAGE_SIZE * PMM_PAGE_SIZE) by (pmm_consts; ulia).
    rewrite (wf_total t Hwf) in Hg.
    destruct (Z.leb_spec PMM_MAX_BLOCKS (a / PMM_PAGE_SIZE)); [lia|].
    rewrite Haddr. assert (0 <= a / PMM_PAGE_SIZE) by (pmm_consts; ulia).
    destruct (pmm_ref_inc_refcount (a / PMM_PAGE_SIZE) t Hwf) as [H1 H2]; [lia|lia|].
    rewrite H2 in *. done.
Qed.

(** C10: every state reachable from boot keeps the bitmap and the reference
    counts in agreement, keeps the boot reservation, and never frees a reserved
    frame. *)
Theorem pmm_reachable_wf kernel_end s :
  0 <= kernel_end < PMM_TOTAL_MEMORY -> pmm_reachable kernel_end s ->
  pmm_wf s /\
  pmm_reserved_blocks s = Z.max 256 ((kernel_end + 4095) / 4096) /\
  forall b, 0 <= b < pmm_reserved_blocks s -> bitmap_test b s = true.
Proof.
  intros Hk Hr.
  assert (H : pmm_wf s /\ pmm_reserved_blocks s = Z.max 256 ((kernel_end + 4095) / 4096)).
  { induction Hr as [|s s' Hr [IHwf IHres] Hs].
    - destruct (pmm_init_facts kernel_end Hk) as (? & ? & _). done.
    - destruct (pmm_step_wf s s' Hs IHwf) as [? Hres].
      unfold pmm_reserved_blocks in *. split; [done|congruence]. }
  destruct H as [Hwf Hres]. split_and!; try assumption.
  intros b Hb. unfold pmm_reserved_blocks in Hb. pose proof (wf_reserved s Hwf).
  rewrite (wf_agree s Hwf) by lia. apply Z.ltb_lt. by apply (wf_reserved_used s Hwf).
Qed.

Lemma pmm_reachable_wf_witness :
  exists s, pmm_reachable 0 s /\ pmm_wf s /\ refcount s 256 = 2.
Proof.
  exists (pmm_ref_inc 1048576 (snd (pmm_alloc (pmm_init 0)))).
  assert (Hr : pmm_reachable 0 (pmm_ref_inc 1048576 (snd (pmm_alloc (pmm_init 0))))).
  { eapply reach_step; [eapply reach_step; [apply reach_init | apply step_alloc]|].
    apply step_ref_inc; [lia|].
    assert (E : pmm_ref_get 1048576 (snd (pmm_alloc (pmm_init 0))) = 1)
      by (vm_compute; reflexivity).
    rewrite E. lia. }
  split; [exact Hr|]. split; [|vm_compute; reflexivity].
  apply (pmm_reachable_wf 0 _ ltac:(by vm_compute) Hr).
Defined.

(** [pmm_ref_inc] does not check that the frame is allocated.  A reference
    taken to a free frame does not keep it: the frame stays free in the bitmap,
    a later allocation can return it, and that allocation overwrites the count
    with 1, so the earlier reference is lost. *)
Theorem pmm_ref_inc_free_frame_lost s p s1 :
  pmm_wf s -> pmm_alloc s = (Some p, s1) ->
  let s' := pmm_ref_inc p s in
  pmm_ref_get p s' = 1 /\
  exists s2, pmm_alloc s' = (Some p, s2) /\ pmm_ref_get p s2 = 1.
Proof.
  intros Hwf Ha s'. pose proof (pmm_alloc_cases s Hwf) as H. rewrite Ha in H.
  destruct H as (b & -> & Hb & Hfree & Hbelow & _). pose proof (wf_reserved s Hwf).
  assert (Hb0 : 0 <= b < PMM_MAX_BLOCKS) by lia.
  assert (E : s' = set_refcount b 1 s).
  { unfold s', pmm_ref_inc. rewrite Z.mod_mul, Z.div_mul, (wf_total s Hwf) by (pmm_consts; lia).
    cbn [negb Z.eqb]. destruct (Z.leb_spec PMM_MAX_BLOCKS b); [lia|]. by rewrite Hfree. }
  assert (Hget : forall t, pmm_total_block_count t = PMM_MAX_BLOCKS ->
    pmm_ref_get (b * PMM_PAGE_SIZE) t = refcount t b).
  { intros t Ht. unfold pmm_ref_get. rewrite Z.mod_mul, Z.div_mul, Ht by (pmm_consts; lia).
    cbn [negb Z.eqb]. destruct (Z.leb_spec PMM_MAX_BLOCKS b); [lia|done]. }
  split.
  { rewrite Hget, E, refcount_set_refcount, Z.eqb_refl by (rewrite ?E; try apply Hwf; lia). done. }
  exists (set_refcount b 1 (bitmap_set b s')). split.
  - pose proof (pmm_alloc_loop_spec (Z.to_nat PMM_MAX_BLOCKS) 0 s') as HL.
    rewrite Z2Nat.id in HL by (pmm_consts; lia).
    assert (Hsame : forall c, bitmap_test c s' = bitmap_test c s) by (intros; by rewrite E).
    assert (Hlow : bitmap_test b s' = false) by by rewrite Hsame, (wf_agree s Hwf), Hfree.
    assert (Hup : forall c, 0 <= c < b -> bitmap_test c s' = true).
    { intros c Hc. rewrite Hsame, (wf_agree s Hwf) by lia. apply Z.ltb_lt. auto. }
    unfold pmm_alloc. replace (pmm_total_block_count s') with PMM_MAX_BLOCKS
      by (rewrite E; symmetry; apply Hwf).
    destruct (pmm_alloc_loop _ 0 s') as [[q|] t].
    + destruct HL as (b' & -> & Hb' & Hf' & Hbel' & ->).
      assert (b' = b) as ->; [|done].
      destruct (Z.lt_trichotomy b' b) as [Hlt|[|Hgt]]; [|done|].
      * rewrite Hup in Hf' by lia. done.
      * rewrite Hbel' in Hlow by lia. done.
    + destruct HL as [_ Hall]. rewrite Hall in Hlow by lia. done.
  - rewrite Hget by (rewrite E; apply Hwf). rewrite E.
    rewrite refcount_set_refcount, Z.eqb_refl; try done.
    cbn. rewrite len_arr_set. apply Hwf.
Qed.

Lemma pmm_ref_inc_free_frame_lost_witness :
  exists s, pmm_wf s /\ pmm_ref_get 1048576 (pmm_ref_inc 1048576 s) = 1.
Proof.
  exists (pmm_init 0).
  assert (H : pmm_wf (pmm_init 0)) by apply (pmm_init_facts 0 ltac:(by vm_compute)).
  assert (Hf : fst (pmm_alloc (pmm_init 0)) = Some 1048576) by (vm_compute; reflexivity).
  split; [exact H|].
  apply (pmm_ref_inc_free_frame_lost _ _ (snd (pmm_alloc (pmm_init 0))) H).
  rewrite <- Hf. apply surjective_pairing.
Defined.
