(* ===== verification/Mem.v ===== *)
(** Byte-addressed memory: a finite map from addresses to bytes, with the
    little-endian loads and stores of the x86-64 target.  The kernel heap, the
    page tables and the user allocator keep their structures in it, so a store
    through one pointer is seen through every alias. *)

From S2P Require Import Prelude.

Abbreviation mem := (gmap Z Z) (only parsing).

Definition byte_at (m : gmap Z Z) (a : Z) : Z := default 0 (m !! a).

Fixpoint load_le (n : nat) (m : gmap Z Z) (a : Z) : Z :=
  match n with
  | O => 0
  | S n' => byte_at m a + 256 * load_le n' m (a + 1)
  end.

Fixpoint store_le (n : nat) (m : gmap Z Z) (a v : Z) : gmap Z Z :=
  match n with
  | O => m
  | S n' => store_le n' (<[a := v mod 256]> m) (a + 1) (v / 256)
  end.

Definition load64 (m : gmap Z Z) (a : Z) : Z := load_le 8 m a.
Definition load32 (m : gmap Z Z) (a : Z) : Z := load_le 4 m a.
Definition load16 (m : gmap Z Z) (a : Z) : Z := load_le 2 m a.
Definition store64 (m : gmap Z Z) (a v : Z) : gmap Z Z := store_le 8 m a v.
Definition store32 (m : gmap Z Z) (a v : Z) : gmap Z Z := store_le 4 m a v.
Definition store16 (m : gmap Z Z) (a v : Z) : gmap Z Z := store_le 2 m a v.

(** [for (i = 0; i < n; i++) p[i] = v;] *)
Fixpoint fill (n : nat) (m : gmap Z Z) (a v : Z) : gmap Z Z :=
  match n with
  | O => m
  | S n' => fill n' (<[a := v]> m) (a + 1) v
  end.

(** * Bytes after a store *)

Lemma byte_insert m a b v : byte_at (<[a := v]> m) b = if b =? a then v else byte_at m b.
Proof.
  unfold byte_at. bcase; subst.
  - by rewrite lookup_insert_eq.
  - by rewrite lookup_insert_ne.
Qed.

Lemma byte_store_ne n m a v b :
  b < a \/ a + Z.of_nat n <= b -> byte_at (store_le n m a v) b = byte_at m b.
Proof.
  revert m a v. induction n as [|n IH]; intros m a v Hb; cbn [store_le]; [done|].
  rewrite IH by lia. rewrite byte_insert. bcase; [lia|done].
Qed.

Lemma byte_fill n m a v b :
  byte_at (fill n m a v) b = if (a <=? b) && (b <? a + Z.of_nat n) then v else byte_at m b.
Proof.
  revert m a. induction n as [|n IH]; intros m a; cbn [fill].
  - bcases; try done; lia.
  - rewrite IH, byte_insert. bcases; cbn; try done; lia.
Qed.

(** A stored byte, inside and outside the store. *)
Lemma byte_store_full n m a v b :
  byte_at (store_le n m a v) b =
  if (a <=? b) && (b <? a + Z.of_nat n) then v / 256 ^ (b - a) mod 256 else byte_at m b.
Proof.
  revert m a v. induction n as [|n IH]; intros m a v; cbn [store_le].
  - bcases; try done; lia.
  - rewrite IH, byte_insert. destruct (Z.eqb_spec b a) as [->|].
    + bcases; cbn; try done; try lia. by rewrite Z.sub_diag, Z.div_1_r.
    + bcases; cbn; try done; try lia.
      rewrite Z.div_div, <- Z.pow_succ_r by lia. do 3 f_equal. lia.
Qed.

Lemma byte_store_congr n m m' a v b :
  byte_at m b = byte_at m' b -> byte_at (store_le n m a v) b = byte_at (store_le n m' a v) b.
Proof. intros E. rewrite !byte_store_full. by rewrite E. Qed.

(** * Loads *)

Lemma load_ext n m m' a :
  (forall b, a <= b < a + Z.of_nat n -> byte_at m b = byte_at m' b) ->
  load_le n m a = load_le n m' a.
Proof.
  revert a. induction n as [|n IH]; intros a H; cbn [load_le]; [done|].
  rewrite (H a), (IH (a + 1)); [done| |lia]. intros. apply H. lia.
Qed.

Lemma load_store_eq n m a v :
  load_le n (store_le n m a v) a = v mod 256 ^ Z.of_nat n.
Proof.
  revert m a v. induction n as [|n IH]; intros m a v; cbn [load_le store_le].
  - by rewrite Z.mod_1_r.
  - rewrite IH, byte_store_ne, byte_insert, Z.eqb_refl by lia.
    replace (Z.of_nat (S n)) with (Z.succ (Z.of_nat n)) by lia.
    rewrite Z.pow_succ_r, Z.rem_mul_r by lia. done.
Qed.

Lemma load_store_ne n k m a v b :
  b + Z.of_nat n <= a \/ a + Z.of_nat k <= b ->
  load_le n (store_le k m a v) b = load_le n m b.
Proof. intros H. apply load_ext. intros. apply byte_store_ne. lia. Qed.

Lemma load_fill_ne n k m a v b :
  b + Z.of_nat n <= a \/ a + Z.of_nat k <= b ->
  load_le n (fill k m a v) b = load_le n m b.
Proof.
  intros H. apply load_ext. intros. rewrite byte_fill. bcases; cbn; try done; lia.
Qed.

Lemma load64_store64 m a v : is_u64 v -> load64 (store64 m a v) a = v.
Proof.
  intros. unfold load64, store64. rewrite load_store_eq. apply Z.mod_small.
  change (256 ^ Z.of_nat 8) with 18446744073709551616. done.
Qed.

Lemma load32_store32 m a v : is_u32 v -> load32 (store32 m a v) a = v.
Proof.
  intros. unfold load32, store32. rewrite load_store_eq. apply Z.mod_small.
  change (256 ^ Z.of_nat 4) with 4294967296. done.
Qed.

Lemma ld64_st64_ne m a v b : b + 8 <= a \/ a + 8 <= b -> load64 (store64 m a v) b = load64 m b.
Proof. intros. apply load_store_ne. lia. Qed.
Lemma ld64_st32_ne m a v b : b + 8 <= a \/ a + 4 <= b -> load64 (store32 m a v) b = load64 m b.
Proof. intros. apply load_store_ne. lia. Qed.
Lemma ld32_st64_ne m a v b : b + 4 <= a \/ a + 8 <= b -> load32 (store64 m a v) b = load32 m b.
Proof. intros. apply load_store_ne. lia. Qed.
Lemma ld32_st32_ne m a v b : b + 4 <= a \/ a + 4 <= b -> load32 (store32 m a v) b = load32 m b.
Proof. intros. apply load_store_ne. lia. Qed.

#[global] Arguments load_le : simpl never.
#[global] Arguments store_le : simpl never.
#[global] Arguments fill : simpl never.
