(* ===== verification/Heap.v ===== *)
(** The kernel heap of [src/src/kernel/heap.c]: a first-fit allocator whose
    block headers live in the heap's own memory as a doubly linked list.

    The model keeps that memory as bytes ([Mem]), so the headers, the links and
    the payloads are the same addresses as in the code.  [heap_lock] makes each
    operation atomic, so an operation is one function on the state [heap].  The
    physical frames and the page tables are used through the interface
    [PageOps].  Walks along the list take fuel; [HEAP_FUEL] exceeds the number of
    headers that fit below [heap_limit], and the theorems show that the
    operations return. *)

From S2P Require Import Prelude Pmm Mem.

(** What the heap calls of memory.c and vmm.c. *)
Class PageOps (E : Type) := {
  op_pmm_alloc : E -> option Z * E;
  op_pmm_free : Z -> E -> E;
  op_vmm_map : Z -> Z -> Z -> E -> E;
  op_vmm_is_mapped : Z -> E -> bool
}.

Definition KERNEL_HEAP_BASE : Z := 0xFFFFFFFF90000000.
Definition KERNEL_HEAP_INITIAL_PAGES : Z := 4.
Definition KERNEL_HEAP_MAX_PAGES : Z := 256.
Definition HEAP_MAGIC : Z := 0x48454150424C4B31.
Definition HEAP_FREED_MAGIC : Z := 0xDEADBEEF48454150.
Definition HEAP_POISON_BYTE : Z := 0xDD.
Definition HEAP_MIN_SPLIT : Z := 32.
Definition sizeof_heap_block : Z := 40.
Definition PAGE_PRESENT : Z := 1.
Definition PAGE_WRITABLE : Z := 2.
Definition PAGE_NX : Z := 0x8000000000000000.

(** The fields of [struct heap_block] at their offsets. *)
Definition blk_magic (m : mem) (b : Z) : Z := load64 m b.
Definition blk_size (m : mem) (b : Z) : Z := load64 m (b + 8).
Definition blk_free (m : mem) (b : Z) : Z := load32 m (b + 16).
Definition blk_next (m : mem) (b : Z) : Z := load64 m (b + 24).
Definition blk_prev (m : mem) (b : Z) : Z := load64 m (b + 32).
Definition set_magic (b v : Z) (m : mem) : mem := store64 m b v.
Definition set_size (b v : Z) (m : mem) : mem := store64 m (b + 8) v.
Definition set_free (b v : Z) (m : mem) : mem := store32 m (b + 16) v.
Definition set_next (b v : Z) (m : mem) : mem := store64 m (b + 24) v.
Definition set_prev (b v : Z) (m : mem) : mem := store64 m (b + 32) v.

Definition HEAP_FUEL : nat := Z.to_nat 26300.

Section Heap.
Context {E : Type} `{PageOps E}.

Record heap := mk_heap {
  heap_mem : gmap Z Z;
  heap_head : Z;
  heap_start : Z;
  heap_end : Z;
  heap_limit : Z;
  heap_env : E
}.
#[export] Instance eta_heap : Eta heap := fun h =>
  mk_heap (heap_mem h) (heap_head h) (heap_start h) (heap_end h) (heap_limit h) (heap_env h).

Definition align_up_size (value alignment : Z) : Z :=
  Z.land (u64 (value + alignment - 1)) (lnot64 (u64 (alignment - 1))).

Definition align_up_ptr (value alignment : Z) : Z :=
  Z.land (u64 (value + alignment - 1)) (lnot64 (u64 (alignment - 1))).

(** [true] is the return value 0 (mapped), [false] is -1. *)
Definition heap_map_page (virtual_addr : Z) (e : E) : bool * E :=
  match op_pmm_alloc e with
  | (None, e) => (false, e)
  | (Some physical, e) =>
      let e := op_vmm_map virtual_addr physical
                 (Z.lor (Z.lor PAGE_PRESENT PAGE_WRITABLE) PAGE_NX) e in
      if negb (op_vmm_is_mapped virtual_addr e)
      then (false, op_pmm_free physical e)
      else (true, e)
  end.

(** The page loop of [heap_expand]; [n] is the number of iterations. *)
Fixpoint heap_map_pages (n : nat) (page : Z) (e : E) : bool * E :=
  match n with
  | O => (true, e)
  | S n' =>
      match heap_map_page page e with
      | (false, e) => (false, e)
      | (true, e) => heap_map_pages n' (page + PMM_PAGE_SIZE) e
      end
  end.

(** [while (tail != 0 && tail->next != 0) tail = tail->next;] *)
Fixpoint find_tail (fuel : nat) (m : mem) (tail : Z) : option Z :=
  match fuel with
  | O => None
  | S fuel' =>
      if tail =? 0 then Some 0
      else if blk_next m tail =? 0 then Some tail
      else find_tail fuel' m (blk_next m tail)
  end.

Definition heap_expand (required : Z) (h : heap) : option (bool * heap) :=
  let old_end := heap_end h in
  let new_end := align_up_ptr (u64 (heap_end h + required)) PMM_PAGE_SIZE in
  if heap_limit h <? new_end then Some (false, h)
  else
    let n := Z.to_nat ((new_end - heap_end h + 4095) / 4096) in
    match heap_map_pages n (heap_end h) (heap_env h) with
    | (false, e) => Some (false, h <| heap_env := e |>)
    | (true, e) =>
        let h := h <| heap_env := e |> <| heap_end := new_end |> in
        let added := u64 (new_end - old_end) in
        let m := heap_mem h in
        match find_tail HEAP_FUEL m (heap_head h) with
        | None => None
        | Some tail =>
            if negb (tail =? 0) && negb (blk_free m tail =? 0) then
              Some (true, h <| heap_mem := set_size tail (u64 (blk_size m tail + added)) m |>)
            else
              let block := old_end in
              let m := set_magic block HEAP_FREED_MAGIC m in
              let m := set_size block (u64 (added - sizeof_heap_block)) m in
              let m := set_free block 1 m in
              let m := set_next block 0 m in
              let m := set_prev block tail m in
              if negb (tail =? 0)
              then Some (true, h <| heap_mem := set_next tail block m |>)
              else Some (true, h <| heap_mem := m |> <| heap_head := block |>)
        end
    end.

Definition heap_split_block (block size : Z) (m : mem) : mem :=
  if blk_size m block <? u64 (size + sizeof_heap_block + HEAP_MIN_SPLIT) then m
  else
    let new_block := u64 (block + sizeof_heap_block + size) in
    let m := set_magic new_block HEAP_FREED_MAGIC m in
    let m := set_size new_block (u64 (blk_size m block - size - sizeof_heap_block)) m in
    let m := set_free new_block 1 m in
    let m := set_next new_block (blk_next m block) m in
    let m := set_prev new_block block m in
    let m := if negb (blk_next m new_block =? 0)
             then set_prev (blk_next m new_block) new_block m else m in
    let m := set_size block size m in
    set_next block new_block m.

(** The first half of [heap_coalesce]: absorb the next block if it is free. *)
Definition heap_coalesce_next (block : Z) (m : mem) : mem :=
  if negb (blk_next m block =? 0) && negb (blk_free m (blk_next m block) =? 0) then
    let next := blk_next m block in
    let m := set_size block
               (u64 (blk_size m block + u64 (sizeof_heap_block + blk_size m next))) m in
    let m := set_next block (blk_next m next) m in
    if negb (blk_next m block =? 0)
    then set_prev (blk_next m block) block m else m
  else m.

Fixpoint heap_coalesce (fuel : nat) (block : Z) (m : mem) : option mem :=
  match fuel with
  | O => None
  | S fuel' =>
      let m := heap_coalesce_next block m in
      if negb (blk_prev m block =? 0) && negb (blk_free m (blk_prev m block) =? 0)
      then heap_coalesce fuel' (blk_prev m block) m
      else Some m
  end.

Fixpoint heap_validate_loop (fuel : nat) (m : mem) (curr : Z) : option bool :=
  match fuel with
  | O => None
  | S fuel' =>
      if curr =? 0 then Some true
      else if negb (blk_magic m curr =? HEAP_MAGIC) && negb (blk_magic m curr =? HEAP_FREED_MAGIC)
      then Some false
      else if negb (blk_next m curr =? 0) && negb (blk_prev m (blk_next m curr) =? curr)
      then Some false
      else heap_validate_loop fuel' m (blk_next m curr)
  end.

Definition heap_validate (h : heap) : option bool :=
  heap_validate_loop HEAP_FUEL (heap_mem h) (heap_head h).

(** [m] is the memory at boot and [e] the frames and page tables. *)
Definition heap_init (m : mem) (e : E) : option heap :=
  let h := {| heap_mem := m; heap_head := 0;
              heap_start := KERNEL_HEAP_BASE; heap_end := KERNEL_HEAP_BASE;
              heap_limit := KERNEL_HEAP_BASE + KERNEL_HEAP_MAX_PAGES * PMM_PAGE_SIZE;
              heap_env := e |} in
  match heap_expand (KERNEL_HEAP_INITIAL_PAGES * PMM_PAGE_SIZE) h with
  | Some (_, h) => Some h
  | None => None
  end.

(** The search of [kmalloc]: the first block with a good magic, free and large
    enough; [Some 0] is the end of the list. *)
Fixpoint find_fit (fuel : nat) (m : mem) (size block : Z) : option Z :=
  match fuel with
  | O => None
  | S fuel' =>
      if block =? 0 then Some 0
      else if ((blk_magic m block =? HEAP_MAGIC) || (blk_magic m block =? HEAP_FREED_MAGIC))
              && negb (blk_free m block =? 0) && (size <=? blk_size m block)
      then Some block
      else find_fit fuel' m size (blk_next m block)
  end.

(** The [for (;;)] of [kmalloc]; [rounds] bounds its iterations. *)
Fixpoint kmalloc_loop (rounds : nat) (size : Z) (h : heap) : option (Z * heap) :=
  match rounds with
  | O => None
  | S rounds' =>
      match find_fit HEAP_FUEL (heap_mem h) size (heap_head h) with
      | None => None
      | Some block =>
          if negb (block =? 0) then
            let m := heap_split_block block size (heap_mem h) in
            let m := set_magic block HEAP_MAGIC m in
            let m := set_free block 0 m in
            Some (block + sizeof_heap_block, h <| heap_mem := m |>)
          else
            match heap_expand (u64 (size + sizeof_heap_block)) h with
            | None => None
            | Some (false, h) => Some (0, h)
            | Some (true, h) => kmalloc_loop rounds' size h
            end
      end
  end.

Definition kmalloc (size : Z) (h : heap) : option (Z * heap) :=
  if size =? 0 then Some (0, h)
  else kmalloc_loop 3 (align_up_size size 16) h.

(** The message [kfree] logs, or that it released the block. *)
Inductive kfree_outcome :=
  | KFREE_NULL | KFREE_OUT_OF_BOUNDS | KFREE_DOUBLE_FREE | KFREE_CORRUPTION | KFREE_DONE.

Definition kfree (ptr : Z) (h : heap) : option (kfree_outcome * heap) :=
  if ptr =? 0 then Some (KFREE_NULL, h)
  else
    let block := u64 (ptr - sizeof_heap_block) in
    let m := heap_mem h in
    if (block <? heap_start h) || (heap_end h <=? block) then Some (KFREE_OUT_OF_BOUNDS, h)
    else if (blk_magic m block =? HEAP_FREED_MAGIC) || negb (blk_free m block =? 0)
    then Some (KFREE_DOUBLE_FREE, h)
    else if negb (blk_magic m block =? HEAP_MAGIC) then Some (KFREE_CORRUPTION, h)
    else
      let m := fill (Z.to_nat (blk_size m block)) m (block + sizeof_heap_block) HEAP_POISON_BYTE in
      let m := set_magic block HEAP_FREED_MAGIC m in
      let m := set_free block 1 m in
      match heap_coalesce HEAP_FUEL block m with
      | None => None
      | Some m => Some (KFREE_DONE, h <| heap_mem := m |>)
      end.

End Heap.
Arguments heap E : clear implicits.

(** * The abstract heap: a list of blocks that tile the address range *)

Record blk := Blk { b_addr : Z; b_size : Z; b_free : bool }.
#[export] Instance eta_blk : Eta blk := fun b => Blk (b_addr b) (b_size b) (b_free b).

Definition b_end (b : blk) : Z := b_addr b + sizeof_heap_block + b_size b.

(** The first free block that is large enough, split when the rest can hold a
    header and [HEAP_MIN_SPLIT] bytes. *)
Definition split_alloc (size : Z) (b : blk) : list blk :=
  if b_size b <? size + sizeof_heap_block + HEAP_MIN_SPLIT
  then [Blk (b_addr b) (b_size b) false]
  else [Blk (b_addr b) size false;
        Blk (b_addr b + sizeof_heap_block + size) (b_size b - size - sizeof_heap_block) true].

Fixpoint spec_alloc (size : Z) (bl : list blk) : option (Z * list blk) :=
  match bl with
  | [] => None
  | b :: bl' =>
      if b_free b && (size <=? b_size b)
      then Some (b_addr b + sizeof_heap_block, split_alloc size b ++ bl')
      else match spec_alloc size bl' with
           | Some (p, bl'') => Some (p, b :: bl'')
           | None => None
           end
  end.

(** Merge every run of adjacent free blocks. *)
Fixpoint merge_free (bl : list blk) : list blk :=
  match bl with
  | [] => []
  | b :: bl' =>
      match merge_free bl' with
      | c :: r => if b_free b && b_free c
                  then Blk (b_addr b) (b_size b + sizeof_heap_block + b_size c) true :: r
                  else b :: c :: r
      | [] => [b]
      end
  end.

Definition spec_free (p : Z) (bl : list blk) : list blk :=
  merge_free (map (fun b => if b_addr b + sizeof_heap_block =? p
                            then b <| b_free := true |> else b) bl).

Fixpoint no_adjacent_free (bl : list blk) : Prop :=
  match bl with
  | b :: (c :: _) as bl' => ~ (b_free b = true /\ b_free c = true) /\ no_adjacent_free bl'
  | _ => True
  end.

(** * Representation *)

Definition hdr_ok (m : mem) (b : blk) (prev next : Z) : Prop :=
  blk_magic m (b_addr b) = (if b_free b then HEAP_FREED_MAGIC else HEAP_MAGIC) /\
  blk_size m (b_addr b) = b_size b /\
  blk_free m (b_addr b) = c_bool (b_free b) /\
  blk_next m (b_addr b) = next /\
  blk_prev m (b_addr b) = prev.

(** The headers of [bl] are laid out back to back from [a] to [e], linked both
    ways; [prev] precedes the first and [nx] follows the last. *)
Fixpoint chain (m : mem) (prev a : Z) (bl : list blk) (e nx : Z) : Prop :=
  match bl with
  | [] => a = e
  | b :: bl' =>
      b_addr b = a /\ 0 <= b_size b /\
      hdr_ok m b prev (match bl' with [] => nx | _ => b_end b end) /\
      chain m a (b_end b) bl' e nx
  end.

Fixpoint last_addr (p : Z) (bl : list blk) : Z :=
  match bl with
  | [] => p
  | b :: bl' => last_addr (b_addr b) bl'
  end.

Definition nextp (bl : list blk) (a : Z) : Z := match bl with [] => 0 | _ => a end.

Record heap_rep {E} (h : heap E) (bl : list blk) : Prop := {
  rep_start : heap_start h = KERNEL_HEAP_BASE;
  rep_limit : heap_limit h = KERNEL_HEAP_BASE + KERNEL_HEAP_MAX_PAGES * PMM_PAGE_SIZE;
  rep_end : KERNEL_HEAP_BASE <= heap_end h <= heap_limit h;
  rep_end_page : (heap_end h - KERNEL_HEAP_BASE) mod PMM_PAGE_SIZE = 0;
  rep_head : heap_head h = nextp bl KERNEL_HEAP_BASE;
  rep_chain : chain (heap_mem h) 0 KERNEL_HEAP_BASE bl (heap_end h) 0;
  rep_coalesced : no_adjacent_free bl
}.

(** * Chains *)

Ltac heap_consts :=
  unfold b_end in *;
  change sizeof_heap_block with 40 in *; change HEAP_MIN_SPLIT with 32 in *;
  change PMM_PAGE_SIZE with 4096 in *; change KERNEL_HEAP_MAX_PAGES with 256 in *;
  change KERNEL_HEAP_BASE with 0xFFFFFFFF90000000 in *.

Lemma chain_app m p a l1 l2 e nx :
  chain m p a (l1 ++ l2) e nx <->
  exists mid, chain m p a l1 mid (match l2 with [] => nx | _ => mid end) /\
              chain m (last_addr p l1) mid l2 e nx.
Proof.
  revert p a. induction l1 as [|b l1 IH]; intros p a.
  - cbn. naive_solver.
  - cbn [app chain last_addr]. rewrite IH. split.
    + intros (Ha & Hs & Hh & mid & H1 & H2). subst a. exists mid. split_and!; try done.
      destruct l1; [|done]. cbn in H1. subst mid. by destruct l2.
    + intros (mid & (Ha & Hs & Hh & H1) & H2). subst a. split_and!; try done; eauto.
      destruct l1; [|done]. cbn in H1. subst mid. by destruct l2.
Qed.

(** A block in the middle of the heap. *)
Lemma chain_middle m p a l1 b l2 e :
  chain m p a (l1 ++ b :: l2) e 0 <->
  chain m p a l1 (b_addr b) (b_addr b) /\ 0 <= b_size b /\
  hdr_ok m b (last_addr p l1) (nextp l2 (b_end b)) /\
  chain m (b_addr b) (b_end b) l2 e 0.
Proof.
  rewrite chain_app. cbn [chain]. split.
  - by intros (mid & H1 & <- & ? & ? & ?).
  - intros (? & ? & ? & ?). by exists (b_addr b).
Qed.

Lemma chain_bounds m p a bl e nx :
  chain m p a bl e nx ->
  a + 40 * Z.of_nat (length bl) <= e /\
  forall b, In b bl -> a <= b_addr b /\ b_end b <= e /\ 0 <= b_size b.
Proof.
  revert p a. induction bl as [|b bl IH]; intros p a; cbn [chain length].
  - intros ->. split; [lia|]. intros ? [].
  - intros (<- & Hs & _ & Hc). destruct (IH _ _ Hc) as [Hl Hb]. heap_consts. split; [lia|].
    intros c [<-|Hin]; [lia|]. specialize (Hb c Hin). lia.
Qed.

(** Two memories that agree on the headers carry the same chain. *)
Lemma hdr_ok_ext m m' b prev next :
  (forall x, b_addr b <= x < b_addr b + 40 -> byte_at m' x = byte_at m x) ->
  hdr_ok m b prev next -> hdr_ok m' b prev next.
Proof.
  intros Hx. unfold hdr_ok, blk_magic, blk_size, blk_free, blk_next, blk_prev, load64, load32.
  rewrite !(load_ext _ m' m) by (intros; apply Hx; lia). done.
Qed.

Lemma chain_ext m m' p a bl e nx :
  (forall b x, In b bl -> b_addr b <= x < b_addr b + 40 -> byte_at m' x = byte_at m x) ->
  chain m p a bl e nx -> chain m' p a bl e nx.
Proof.
  revert p a. induction bl as [|b bl IH]; intros p a Hx; cbn [chain]; [done|].
  intros (Ha & Hs & Hh & Hc). split_and!; try done.
  - eapply hdr_ok_ext; [|done]. intros x. apply Hx. by left.
  - apply IH; [|done]. intros c x Hin. apply Hx. by right.
Qed.

(** A chain is untouched by changes outside its address range. *)
Lemma chain_frame m m' p a bl e nx :
  (forall x, a <= x < e -> byte_at m' x = byte_at m x) ->
  chain m p a bl e nx -> chain m' p a bl e nx.
Proof.
  intros Hx Hc. destruct (chain_bounds _ _ _ _ _ _ Hc) as [_ Hb].
  eapply chain_ext; [|done]. intros b x Hin Hxb. apply Hx.
  specialize (Hb b Hin). heap_consts. lia.
Qed.

(** * Loads of header fields after stores *)

Ltac fields := unfold hdr_ok, blk_magic, blk_size, blk_free, blk_next, blk_prev,
  set_magic, set_size, set_free, set_next, set_prev in *.

(** Resolve the outermost load/store pairs; every address is compared by
    [lia]. *)
Ltac mem_simpl :=
  repeat first
    [ rewrite load64_store64 by (unfold is_u64 in *; lia)
    | rewrite load32_store32 by (unfold is_u32 in *; lia)
    | rewrite ld64_st64_ne by lia
    | rewrite ld64_st32_ne by lia
    | rewrite ld32_st64_ne by lia
    | rewrite ld32_st32_ne by lia ].

Lemma set_prev_relink m p q a bl e :
  bl <> [] -> is_u64 q -> chain m p a bl e 0 -> chain (set_prev a q m) q a bl e 0.
Proof.
  intros Hne Hq. destruct bl as [|b bl]; [done|]. cbn [chain]. intros (<- & Hs & Hh & Hc).
  split_and!; try done.
  - fields. destruct Hh as (? & ? & ? & ? & ?). mem_simpl. done.
  - destruct (chain_bounds _ _ _ _ _ _ Hc) as [Hle _].
    eapply chain_frame; [|done]. intros x Hx. heap_consts.
    unfold set_prev, store64. apply byte_store_ne. lia.
Qed.

(** The bytes a field update can change. *)
Lemma byte_set_magic b v m x : x < b \/ b + 8 <= x -> byte_at (set_magic b v m) x = byte_at m x.
Proof. intros. unfold set_magic, store64. apply byte_store_ne. lia. Qed.
Lemma byte_set_size b v m x : x < b + 8 \/ b + 16 <= x -> byte_at (set_size b v m) x = byte_at m x.
Proof. intros. unfold set_size, store64. apply byte_store_ne. lia. Qed.
Lemma byte_set_free b v m x : x < b + 16 \/ b + 20 <= x -> byte_at (set_free b v m) x = byte_at m x.
Proof. intros. unfold set_free, store32. apply byte_store_ne. lia. Qed.
Lemma byte_set_next b v m x : x < b + 24 \/ b + 32 <= x -> byte_at (set_next b v m) x = byte_at m x.
Proof. intros. unfold set_next, store64. apply byte_store_ne. lia. Qed.
Lemma byte_set_prev b v m x : x < b + 32 \/ b + 40 <= x -> byte_at (set_prev b v m) x = byte_at m x.
Proof. intros. unfold set_prev, store64. apply byte_store_ne. lia. Qed.

Ltac byte_simpl :=
  repeat first
    [ rewrite byte_set_magic by lia | rewrite byte_set_size by lia
    | rewrite byte_set_free by lia | rewrite byte_set_next by lia
    | rewrite byte_set_prev by lia ].

(** * List walks *)

Lemma find_tail_spec fuel m p a bl e :
  (length bl < fuel)%nat -> 0 < a -> chain m p a bl e 0 ->
  find_tail fuel m (nextp bl a) = Some (match bl with [] => 0 | _ => last_addr 0 bl end).
Proof.
  revert fuel p a. induction bl as [|b bl IH]; intros fuel p a Hf Ha Hc.
  - destruct fuel; [cbn in Hf; lia|done].
  - destruct fuel as [|fuel]; [cbn in Hf; lia|]. cbn [chain] in Hc.
    destruct Hc as (<- & Hs & (_ & _ & _ & Hn & _) & Hc). cbn [find_tail nextp last_addr].
    destruct (Z.eqb_spec (b_addr b) 0); [lia|]. rewrite Hn.
    destruct bl as [|c bl]; [done|]. cbn in Hf.
    assert (b_end b <> 0) by (heap_consts; lia).
    destruct (Z.eqb_spec (b_end b) 0); [done|].
    apply (IH fuel (b_addr b) (b_end b)); [cbn; lia|heap_consts; lia|done].
Qed.

Definition fits (size : Z) (b : blk) : bool := b_free b && (size <=? b_size b).

Lemma find_fit_spec fuel m size p a bl e :
  (length bl < fuel)%nat -> 0 < a -> chain m p a bl e 0 ->
  (exists l1 b l2, bl = l1 ++ b :: l2 /\ fits size b = true /\
     Forall (fun c => fits size c = false) l1 /\
     find_fit fuel m size (nextp bl a) = Some (b_addr b)) \/
  (Forall (fun c => fits size c = false) bl /\ find_fit fuel m size (nextp bl a) = Some 0).
Proof.
  revert fuel p a. induction bl as [|b bl IH]; intros fuel p a Hf Ha Hc.
  - right. destruct fuel; [cbn in Hf; lia|done].
  - destruct fuel as [|fuel]; [cbn in Hf; lia|]. cbn [chain] in Hc.
    destruct Hc as (<- & Hs & (Hm & Hsz & Hfr & Hn & _) & Hc). cbn [find_fit nextp].
    destruct (Z.eqb_spec (b_addr b) 0); [lia|].
    assert (Hcond : ((blk_magic m (b_addr b) =? HEAP_MAGIC) || (blk_magic m (b_addr b) =? HEAP_FREED_MAGIC))
      && negb (blk_free m (b_addr b) =? 0) && (size <=? blk_size m (b_addr b)) = fits size b).
    { rewrite Hm, Hsz, Hfr. unfold fits. by destruct (b_free b). }
    rewrite Hcond. destruct (fits size b) eqn:Hfit.
    { left. exists [], b, bl. done. }
    rewrite Hn. destruct bl as [|c bl].
    { right. split; [by constructor|]. destruct fuel; [cbn in Hf; lia|done]. }
    destruct (IH fuel (b_addr b) (b_end b)) as [(l1 & d & l2 & E & Hd & H1 & HR)|[H1 HR]];
      [cbn in *; lia|heap_consts; lia|done| |].
    + left. exists (b :: l1), d, l2. split_and!; [by rewrite E|done|by constructor|done].
    + right. split; [by constructor|done].
Qed.

Lemma heap_validate_loop_spec fuel m p a bl e :
  (length bl < fuel)%nat -> 0 < a -> chain m p a bl e 0 ->
  heap_validate_loop fuel m (nextp bl a) = Some true.
Proof.
  revert fuel p a. induction bl as [|b bl IH]; intros fuel p a Hf Ha Hc.
  - destruct fuel; [cbn in Hf; lia|done].
  - destruct fuel as [|fuel]; [cbn in Hf; lia|]. cbn [chain] in Hc.
    destruct Hc as (<- & Hs & (Hm & _ & _ & Hn & _) & Hc). cbn [heap_validate_loop nextp].
    destruct (Z.eqb_spec (b_addr b) 0); [lia|].
    assert (negb (blk_magic m (b_addr b) =? HEAP_MAGIC) && negb (blk_magic m (b_addr b) =? HEAP_FREED_MAGIC)
            = false) as -> by (rewrite Hm; by destruct (b_free b)).
    rewrite Hn. destruct bl as [|c bl]; [by destruct fuel; [cbn in Hf; lia|]|].
    assert (blk_prev m (b_end b) = b_addr b) as ->.
    { cbn [chain] in Hc. destruct Hc as (<- & _ & (_ & _ & _ & _ & Hp) & _). done. }
    rewrite Z.eqb_refl, andb_false_r.
    apply (IH fuel (b_addr b) (b_end b)); [cbn in *; lia|heap_consts; lia|done].
Qed.

(** * Taking a block *)

Lemma align_up_size_16 size :
  0 <= size < 18446744073709551601 -> align_up_size size 16 = (size + 15) / 16 * 16.
Proof.
  intros. replace (size + 15) with (size + 2 ^ 4 - 1) by lia.
  apply (land_align_up size 4); unfold is_u64; lia.
Qed.

(** What [kmalloc] does to the block it found. *)
Definition take_block (block size : Z) (m : mem) : mem :=
  set_free block 0 (set_magic block HEAP_MAGIC (heap_split_block block size m)).

Ltac magic_bounds := unfold HEAP_MAGIC, HEAP_FREED_MAGIC, is_u64, is_u32.
Ltac hdr_simpl :=
  repeat first
    [ rewrite load64_store64 by (magic_bounds; lia)
    | rewrite load32_store32 by (magic_bounds; lia)
    | rewrite ld64_st64_ne by lia
    | rewrite ld64_st32_ne by lia
    | rewrite ld32_st64_ne by lia
    | rewrite ld32_st32_ne by lia ].

(** The memory a split produces: a new free header at [n], the next header (if
    any) linked back to it, and the old header shortened. *)
Definition split_mem (block n size rest nx : Z) (m : mem) : mem :=
  let m := set_prev n block (set_next n nx (set_free n 1
             (set_size n rest (set_magic n HEAP_FREED_MAGIC m)))) in
  let m := if nx =? 0 then m else set_prev nx n m in
  set_next block n (set_size block size m).

Lemma heap_split_block_mem m b prev nx size :
  hdr_ok m b prev nx -> 0 < b_addr b -> 0 <= size <= b_size b ->
  b_end b < 18446744073709547520 -> (nx = 0 \/ nx = b_end b) ->
  heap_split_block (b_addr b) size m =
  if b_size b <? size + 72 then m
  else split_mem (b_addr b) (b_addr b + 40 + size) size (b_size b - size - 40) nx m.
Proof.
  intros (Hm & Hsz & Hf & Hn & Hp) Ha Hs He Hnx. heap_consts. unfold heap_split_block.
  rewrite Hsz, u64_id by (heap_consts; unfold is_u64; lia). heap_consts.
  replace (size + 40 + 32) with (size + 72) by lia.
  destruct (Z.ltb_spec (b_size b) (size + 72)); [done|].
  rewrite u64_id by (unfold is_u64; lia).
  set (n := b_addr b + 40 + size) in *. unfold split_mem.
  assert (Hb1 : forall v, blk_size (set_magic n v m) (b_addr b) = b_size b).
  { intros. fields. unfold n. by hdr_simpl. }
  rewrite Hb1, u64_id by (unfold is_u64; lia).
  assert (Hb2 : forall v w u, blk_next (set_free n u (set_size n w (set_magic n v m))) (b_addr b) = nx).
  { intros. fields. unfold n. by hdr_simpl. }
  rewrite Hb2.
  assert (Hb3 : forall v m0, blk_next (set_prev n v (set_next n nx m0)) n = nx).
  { intros. fields. unfold n. by hdr_simpl. }
  rewrite Hb3. by destruct (nx =? 0).
Qed.

Lemma byte_split_mem block n size rest nx m x :
  block + 40 <= n -> (nx = 0 \/ n + 40 <= nx) ->
  x < block \/ n + 40 <= x -> (nx = 0 \/ x < nx \/ nx + 40 <= x) ->
  byte_at (split_mem block n size rest nx m) x = byte_at m x.
Proof.
  intros. unfold split_mem. bcase; byte_simpl; done.
Qed.

Lemma byte_take_block m b prev nx size x :
  hdr_ok m b prev nx -> 0 < b_addr b -> 0 <= size <= b_size b ->
  b_end b < 18446744073709547520 -> (nx = 0 \/ nx = b_end b) ->
  x < b_addr b \/ b_end b + 40 <= x \/ (nx = 0 /\ b_end b <= x) ->
  byte_at (take_block (b_addr b) size m) x = byte_at m x.
Proof.
  intros Hh Ha Hs He Hnx Hx. unfold take_block.
  rewrite (heap_split_block_mem m b prev nx size) by done. heap_consts.
  rewrite byte_set_free, byte_set_magic by lia. bcase; [done|].
  apply byte_split_mem; lia.
Qed.

Lemma chain_take_nosplit m p a l1 b l2 e size :
  chain m p a (l1 ++ b :: l2) e 0 -> 0 < a -> e < 18446744073709547520 ->
  0 <= size <= b_size b -> b_size b < size + 72 ->
  chain (take_block (b_addr b) size m) p a (l1 ++ Blk (b_addr b) (b_size b) false :: l2) e 0.
Proof.
  intros Hc Ha He Hs Hsmall. apply chain_middle in Hc as (H1 & Hsz & Hh & H2).
  destruct (chain_bounds _ _ _ _ _ _ H1) as [Hb1 _].
  destruct (chain_bounds _ _ _ _ _ _ H2) as [Hb2 _].
  assert (Hsp : heap_split_block (b_addr b) size m = m).
  { rewrite (heap_split_block_mem m b (last_addr p l1) (nextp l2 (b_end b)));
      [|done|lia|done|heap_consts; lia|destruct l2; cbn; auto].
    bcase; [done|lia]. }
  unfold take_block. rewrite Hsp. heap_consts.
  apply chain_middle. unfold b_end. cbn [b_addr b_size]. heap_consts. split_and!; try done.
  - eapply chain_frame; [|done]. intros. by byte_simpl.
  - destruct Hh as (Hm & Hz & Hf & Hn & Hp). fields. cbn [b_addr b_size b_free c_bool].
    split_and!; hdr_simpl; try done.
  - eapply chain_frame; [|done]. intros. by byte_simpl.
Qed.

Lemma chain_take_split m p a l1 b l2 e size :
  chain m p a (l1 ++ b :: l2) e 0 -> 0 < a -> e < 18446744073709547520 ->
  0 <= size <= b_size b -> size + 72 <= b_size b ->
  chain (take_block (b_addr b) size m) p a
    (l1 ++ Blk (b_addr b) size false
        :: Blk (b_addr b + 40 + size) (b_size b - size - 40) true :: l2) e 0.
Proof.
  intros Hc Ha He Hs Hbig. apply chain_middle in Hc as (H1 & Hsz & Hh & H2).
  destruct (chain_bounds _ _ _ _ _ _ H1) as [Hb1 _].
  destruct (chain_bounds _ _ _ _ _ _ H2) as [Hb2 _].
  assert (Hsp : heap_split_block (b_addr b) size m =
    split_mem (b_addr b) (b_addr b + 40 + size) size (b_size b - size - 40) (nextp l2 (b_end b)) m).
  { rewrite (heap_split_block_mem m b (last_addr p l1) (nextp l2 (b_end b)));
      [|done|lia|done|heap_consts; lia|destruct l2; cbn; auto].
    bcase; [lia|done]. }
  unfold take_block. rewrite Hsp. clear Hsp. heap_consts.
  set (n := b_addr b + 40 + size).
  assert (Hnx : nextp l2 (b_addr b + 40 + b_size b) = 0 \/
                nextp l2 (b_addr b + 40 + b_size b) = b_addr b + 40 + b_size b)
    by (destruct l2; cbn; auto).
  destruct Hh as (Hm & Hz & Hf & Hn & Hp).
  apply chain_middle. cbn [b_addr b_size chain nextp]. unfold b_end. cbn [b_addr b_size].
  heap_consts. fold n. split_and!; try done; try lia.
  - eapply chain_frame; [|done]. intros x Hx. rewrite byte_set_free, byte_set_magic by lia.
    apply byte_split_mem; unfold n; lia.
  - fields. unfold split_mem. fields. cbn [b_addr b_size b_free c_bool].
    subst n. destruct l2; cbn [nextp Z.eqb] in *;
      [|destruct (Z.eqb_spec (b_addr b + 40 + b_size b) 0); [lia|]];
      split_and!; hdr_simpl; done.
  - fields. unfold split_mem. fields. cbn [b_addr b_size b_free c_bool].
    subst n. destruct l2; cbn [nextp Z.eqb] in *;
      [|destruct (Z.eqb_spec (b_addr b + 40 + b_size b) 0); [lia|]];
      split_and!; hdr_simpl; try done; lia.
  - subst n. replace (b_addr b + 40 + size + 40 + (b_size b - size - 40))
      with (b_addr b + 40 + b_size b) by lia.
    destruct l2 as [|c l2]; [done|].
    eapply chain_frame; [|apply (set_prev_relink m (b_addr b) (b_addr b + 40 + size)); [done|unfold is_u64; lia|exact H2]].
    intros x Hx. cbn [nextp]. rewrite byte_set_free, byte_set_magic by lia.
    unfold split_mem. destruct (Z.eqb_spec (b_addr b + 40 + b_size b) 0); [lia|].
    rewrite byte_set_next, byte_set_size by lia. apply byte_store_congr. by byte_simpl.
Qed.

Lemma chain_take m p a l1 b l2 e size :
  chain m p a (l1 ++ b :: l2) e 0 -> 0 < a -> e < 18446744073709547520 ->
  0 <= size <= b_size b ->
  chain (take_block (b_addr b) size m) p a (l1 ++ split_alloc size b ++ l2) e 0.
Proof.
  intros Hc Ha He Hs. unfold split_alloc. heap_consts. bcase; cbn [app].
  - apply chain_take_nosplit; try done; lia.
  - apply chain_take_split; try done; lia.
Qed.

(** * Releasing a block *)

Lemma coalesce_next_skip m b prev l2 e :
  hdr_ok m b prev (nextp l2 (b_end b)) -> chain m (b_addr b) (b_end b) l2 e 0 ->
  (match l2 with c :: _ => b_free c = false | [] => True end) ->
  heap_coalesce_next (b_addr b) m = m.
Proof.
  intros (_ & _ & _ & Hn & _) Hc Hl. unfold heap_coalesce_next. rewrite Hn.
  destruct l2 as [|c l2]; [done|]. cbn [chain nextp] in *.
  destruct Hc as (<- & _ & (_ & _ & Hf & _) & _). rewrite Hf, Hl. cbn [c_bool Z.eqb negb]. by rewrite andb_false_r.
Qed.

Lemma coalesce_next_merge m p a l1 b c l2 e :
  chain m p a (l1 ++ b :: c :: l2) e 0 -> 0 < a -> e < 18446744073709547520 ->
  b_free c = true ->
  chain (heap_coalesce_next (b_addr b) m) p a
    (l1 ++ Blk (b_addr b) (b_size b + 40 + b_size c) (b_free b) :: l2) e 0 /\
  forall x, x < b_addr b + 8 \/ b_addr b + 40 <= x -> x < b_end c \/ b_end c + 40 <= x ->
    byte_at (heap_coalesce_next (b_addr b) m) x = byte_at m x.
Proof.
  intros Hc Ha He Hfree. apply chain_middle in Hc as (H1 & Hsz & Hh & H2).
  destruct (chain_bounds _ _ _ _ _ _ H1) as [Hb1 _].
  cbn [chain nextp] in H2, Hh. destruct H2 as (Hca & Hcs & Hch & H3).
  destruct (chain_bounds _ _ _ _ _ _ H3) as [Hb3 _].
  set (nx := nextp l2 (b_end c)).
  assert (Hm' : heap_coalesce_next (b_addr b) m =
    let m := set_next (b_addr b) nx (set_size (b_addr b) (b_size b + 40 + b_size c) m) in
    if nx =? 0 then m else set_prev nx (b_addr b) m).
  { destruct Hh as (_ & Hz & _ & Hn & _), Hch as (_ & Hcz & Hcf & Hcn & _).
    change (blk_next m (b_addr c) = nx) in Hcn.
    unfold heap_coalesce_next. rewrite Hn, <- Hca, Hcf, Hfree, Hz, Hcz.
    heap_consts. destruct (Z.eqb_spec (b_addr c) 0); [lia|]. cbn [negb andb c_bool Z.eqb].
    rewrite !u64_id by (rewrite ?u64_id; unfold is_u64; lia).
    replace (b_size b + (40 + b_size c)) with (b_size b + 40 + b_size c) by lia.
    assert (Hnc : blk_next (set_size (b_addr b) (b_size b + 40 + b_size c) m) (b_addr c) = nx).
    { rewrite <- Hcn. fields. by hdr_simpl. }
    rewrite Hnc.
    assert (Hnb : forall m0, blk_next (set_next (b_addr b) nx m0) (b_addr b) = nx).
    { intros. fields. apply load64_store64. unfold nx, is_u64. destruct l2; cbn; lia. }
    rewrite Hnb. by destruct (nx =? 0). }
  rewrite Hm'. clear Hm'. cbv zeta.
  assert (Hnx : (l2 = [] /\ nx = 0) \/ (l2 <> [] /\ nx = b_end c))
    by (unfold nx; destruct l2; auto).
  destruct Hh as (Hm & Hz & Hf & Hn & Hp). heap_consts. split.
  - apply chain_middle. unfold b_end. cbn [b_addr b_size]. heap_consts.
    replace (b_addr b + 40 + (b_size b + 40 + b_size c)) with (b_addr c + 40 + b_size c) by lia.
    split_and!; try done; try lia.
    + eapply chain_frame; [|done]. intros. bcase; by byte_simpl.
    + fold nx. fields. cbn [b_addr b_size b_free c_bool].
      bcase; split_and!; hdr_simpl; try done.
    + destruct Hnx as [[-> ->]|[Hne ->]]; [done|].
      destruct (Z.eqb_spec (b_addr c + 40 + b_size c) 0); [lia|].
      eapply chain_frame; [|apply (set_prev_relink m (b_addr c) (b_addr b)); [done|unfold is_u64; lia|]].
      * intros x Hx. apply byte_store_congr. by byte_simpl.
      * by rewrite Hca in H3 |- *.
  - intros x Hx1 Hx2. bcase; byte_simpl; done.
Qed.

(** ** Maximal merging *)

Lemma no_adjacent_free_app l1 l2 :
  no_adjacent_free (l1 ++ l2) -> no_adjacent_free l1 /\ no_adjacent_free l2.
Proof.
  induction l1 as [|b l1 IH]; [done|]. intros H.
  destruct l1 as [|c l1]; cbn [app] in *.
  - split; [done|]. destruct l2; [done|]. apply H.
  - destruct H as [H1 H2]. destruct (IH H2). done.
Qed.

Lemma merge_free_id l : no_adjacent_free l -> merge_free l = l.
Proof.
  induction l as [|b l IH]; [done|]. intros H. cbn [merge_free].
  destruct l as [|c l]; [done|]. destruct H as [Hbc Hl]. rewrite (IH Hl).
  destruct (b_free b), (b_free c); cbn; try done. tauto.
Qed.

Lemma merge_free_head d l :
  exists h r, merge_free (d :: l) = h :: r /\ b_free h = b_free d.
Proof.
  cbn [merge_free]. destruct (merge_free l) as [|c r]; [eauto|].
  destruct (b_free d) eqn:Hd, (b_free c); cbn; eauto.
Qed.

Lemma merge_free_prefix l1 d l :
  no_adjacent_free (l1 ++ [d]) -> merge_free (l1 ++ d :: l) = l1 ++ merge_free (d :: l).
Proof.
  induction l1 as [|x l1 IH]; [done|]. intros H. cbn [app].
  assert (Hl : no_adjacent_free (l1 ++ [d])) by (destruct l1; [done|apply H]).
  change (merge_free (x :: (l1 ++ d :: l))) with
    (match merge_free (l1 ++ d :: l) with
     | c :: r => if b_free x && b_free c
                 then Blk (b_addr x) (b_size x + sizeof_heap_block + b_size c) true :: r
                 else x :: c :: r
     | [] => [x] end).
  rewrite (IH Hl). destruct (merge_free_head d l) as (h & r & E & Hf). rewrite E.
  destruct l1 as [|y l1]; cbn [app] in *; destruct H as [H _].
  - rewrite Hf. destruct (b_free x), (b_free d); cbn; try done. tauto.
  - destruct (b_free x), (b_free y); cbn; try done. tauto.
Qed.

Definition payload_kept (m m' : mem) (b : blk) : Prop :=
  forall x, b_addr b + sizeof_heap_block <= x < b_end b -> byte_at m' x = byte_at m x.

(** ** [heap_coalesce] merges the freed block with both neighbours *)

Lemma coalesce_with_next m a l1 b l2 e :
  chain m 0 a (l1 ++ b :: l2) e 0 -> 0 < a -> e < 18446744073709547520 ->
  b_free b = true -> no_adjacent_free l2 ->
  exists b' l2', merge_free (b :: l2) = b' :: l2' /\ b_addr b' = b_addr b /\
    b_free b' = true /\
    (match l2' with c :: _ => b_free c = false | [] => True end) /\
    chain (heap_coalesce_next (b_addr b) m) 0 a (l1 ++ b' :: l2') e 0 /\
    (forall x, x < b_addr b + 8 -> byte_at (heap_coalesce_next (b_addr b) m) x = byte_at m x) /\
    (forall g, In g l2 -> b_free g = false ->
       payload_kept m (heap_coalesce_next (b_addr b) m) g) /\
    payload_kept m (heap_coalesce_next (b_addr b) m) b /\ b_end b <= b_end b' /\
    (forall g, In g l2 -> b_free g = false -> In g l2').
Proof.
  intros Hc Ha He Hfree Hadj. cbn [merge_free]. rewrite (merge_free_id l2 Hadj).
  pose proof Hc as Hc0. apply chain_middle in Hc0 as (H1 & Hsz & Hh & H2).
  destruct l2 as [|c l2].
  - rewrite (coalesce_next_skip m b _ [] e) by done. exists b, []. done.
  - rewrite Hfree. destruct (b_free c) eqn:Hcf; cbn [andb].
    + destruct (coalesce_next_merge m 0 a l1 b c l2 e Hc Ha He Hcf) as [Hch Hfr].
      eexists _, l2. split; [done|]. heap_consts. rewrite Hfree in Hch.
      split_and!; try done.
      * destruct l2 as [|d l2]; [done|]. destruct Hadj as [Hcd _]. by destruct (b_free d); [destruct Hcd|].
      * intros x Hx. cbn [chain] in H2. apply Hfr; heap_consts; lia.
      * intros g Hin Hg x Hx. cbn [chain] in H2. destruct H2 as (Hca & Hcs & _ & H3).
        destruct Hin as [->|Hin]; [congruence|].
        destruct (chain_bounds _ _ _ _ _ _ H3) as [_ Hb]. specialize (Hb g Hin).
        apply Hfr; heap_consts; lia.
      * intros x Hx. cbn [chain] in H2. heap_consts. apply Hfr; heap_consts; lia.
      * unfold b_end. cbn [b_addr b_size chain] in *. heap_consts. lia.
      * intros g [->|Hin] Hg; [congruence|done].
    + rewrite (coalesce_next_skip m b _ (c :: l2) e) by done. exists b, (c :: l2). done.
Qed.

Lemma HEAP_FUEL_SS : exists f, HEAP_FUEL = S (S f).
Proof. exists (Z.to_nat 26298). unfold HEAP_FUEL. lia. Qed.

Lemma last_addr_snoc p l d : last_addr p (l ++ [d]) = b_addr d.
Proof. revert p. induction l as [|x l IH]; intros p; [done|]. apply IH. Qed.

Lemma heap_coalesce_spec m a l1 b l2 e :
  chain m 0 a (l1 ++ b :: l2) e 0 -> 0 < a -> e < 18446744073709547520 ->
  b_free b = true -> no_adjacent_free l1 -> no_adjacent_free l2 ->
  exists m', heap_coalesce HEAP_FUEL (b_addr b) m = Some m' /\
    chain m' 0 a (merge_free (l1 ++ b :: l2)) e 0 /\
    blk_magic m' (b_addr b) = blk_magic m (b_addr b) /\
    payload_kept m m' b /\
    forall g, In g (l1 ++ l2) -> b_free g = false -> payload_kept m m' g.
Proof.
  intros Hc Ha He Hfree Hadj1 Hadj2.
  destruct (coalesce_with_next m a l1 b l2 e) as (b' & l2' & Em & Hba & Hbf & Hhd & Hc' & Hlow & Hkeep & Hkeepb & Hendb & Hin');
    try done.
  set (m1 := heap_coalesce_next (b_addr b) m) in *.
  pose proof Hc as Hcm. apply chain_middle in Hcm as (Hp1 & Hbs & _ & _).
  destruct (chain_bounds _ _ _ _ _ _ Hp1) as [Hlen1 Hb1].
  assert (Hkeep1 : forall g, In g (l1 ++ l2) -> b_free g = false -> payload_kept m m1 g).
  { intros g Hin Hg. apply in_app_iff in Hin as [Hin|Hin]; [|by apply Hkeep].
    intros x Hx. specialize (Hb1 g Hin). apply Hlow. heap_consts. lia. }
  assert (Hmagic1 : blk_magic m1 (b_addr b) = blk_magic m (b_addr b)).
  { apply load_ext. intros x Hx. apply Hlow. lia. }
  assert (Hprev : blk_prev m1 (b_addr b) = last_addr 0 l1).
  { apply chain_middle in Hc' as (_ & _ & (_ & _ & _ & _ & Hp) & _). by rewrite Hba in Hp. }
  destruct HEAP_FUEL_SS as [fuel ->].
  cbn [heap_coalesce]. fold m1. rewrite Hprev.
  destruct (exists_last_or_nil l1) as [->|(l0 & d & ->)].
  - exists m1. cbn [last_addr app Z.eqb negb andb]. rewrite Em. done.
  - rewrite last_addr_snoc. pose proof Hc' as Hcd. rewrite <- app_assoc in Hcd. cbn [app] in Hcd.
    pose proof Hcd as Hd. apply chain_middle in Hd as (Hp0 & Hds & Hdh & Hd2).
    destruct (Hb1 d) as (Hd0 & Hd1 & _); [apply in_app_iff; right; by left|].
    destruct (Z.eqb_spec (b_addr d) 0); [lia|]. cbn [negb andb].
    destruct Hdh as (_ & _ & Hdf & _ & _). rewrite Hdf.
    rewrite <- app_assoc. cbn [app].
    rewrite merge_free_prefix by done. cbn [merge_free] in Em |- *. rewrite Em, Hbf.
    destruct (b_free d) eqn:Hdfree; cbn [c_bool Z.eqb negb andb].
    2: { exists m1. split_and!; done. }
    destruct (coalesce_next_merge m1 0 a l0 d b' l2' e Hcd Ha He Hbf) as [Hch Hfr].
    set (m2 := heap_coalesce_next (b_addr d) m1) in *.
    assert (Hprev2 : blk_prev m2 (b_addr d) = last_addr 0 l0).
    { apply chain_middle in Hch as (_ & _ & (_ & _ & _ & _ & Hp) & _). exact Hp. }
    rewrite Hprev2.
    assert (Hstop : negb (last_addr 0 l0 =? 0) && negb (blk_free m2 (last_addr 0 l0) =? 0) = false).
    { destruct (exists_last_or_nil l0) as [->|(l00 & f & ->)]; [done|].
      rewrite last_addr_snoc. rewrite <- app_assoc in Hch. cbn [app] in Hch.
      apply chain_middle in Hch as (_ & _ & (_ & _ & Hff & _ & _) & _). rewrite Hff.
      rewrite <- app_assoc in Hadj1. apply no_adjacent_free_app in Hadj1 as [_ [Hfd _]].
      destruct (b_free f); [tauto|]. apply andb_false_r. }
    rewrite Hstop. rewrite Hdfree in Hch. exists m2. split_and!; try done.
    + rewrite <- Hmagic1. apply load_ext. intros x Hx. heap_consts.
      apply Hfr; heap_consts; [lia|].
      destruct (chain_bounds _ _ _ _ _ _ Hd2) as [_ Hbd]. destruct (Hbd b') as (? & ? & ?); [by left|].
      heap_consts. lia.
    + intros x Hx. rewrite <- Hkeepb by done. heap_consts. apply Hfr; heap_consts; lia.
    + intros g Hin Hg x Hx.
      rewrite <- (Hkeep1 g) by done.
      destruct (chain_bounds _ _ _ _ _ _ Hd2) as [_ Hbd]. destruct (Hbd b') as (? & ? & ?); [by left|].
      destruct (chain_bounds _ _ _ _ _ _ Hp0) as [_ Hb0].
      apply in_app_iff in Hin as [Hin|Hin].
      * apply in_app_iff in Hin as [Hin|[->|[]]]; [|congruence].
        specialize (Hb0 g Hin). heap_consts. apply Hfr; heap_consts; lia.
      * cbn [chain] in Hd2. destruct Hd2 as (_ & _ & _ & Hd3).
        destruct (chain_bounds _ _ _ _ _ _ Hd3) as [_ Hb3].
        specialize (Hb3 g (Hin' g Hin Hg)). heap_consts. apply Hfr; heap_consts; lia.
Qed.

Lemma merge_free_no_adjacent l : no_adjacent_free (merge_free l).
Proof.
  induction l as [|b l IH]; [done|]. cbn [merge_free].
  destruct (merge_free l) as [|c r]; [done|].
  destruct (b_free b) eqn:Hb, (b_free c) eqn:Hc; cbn [andb];
    try (split; [rewrite Hb, Hc; by intros [? ?] | exact IH]).
  destruct r as [|d r]; [done|]. cbn [b_free]. destruct IH as [Hcd Hr].
  rewrite Hc in Hcd. done.
Qed.

Lemma nextp_merge_free b l a : nextp (merge_free (b :: l)) a = a.
Proof. destruct (merge_free_head b l) as (h & r & -> & _). done. Qed.

(** Marking one block free in the list, the addresses being distinct. *)
Lemma map_free_middle m p a l1 b l2 e :
  chain m p a (l1 ++ b :: l2) e 0 ->
  map (fun c => if b_addr c + sizeof_heap_block =? b_addr b + sizeof_heap_block
                then c <| b_free := true |> else c) (l1 ++ b :: l2)
  = l1 ++ b <| b_free := true |> :: l2.
Proof.
  intros Hc. apply chain_middle in Hc as (H1 & Hs & _ & H2).
  destruct (chain_bounds _ _ _ _ _ _ H1) as [_ Hb1].
  destruct (chain_bounds _ _ _ _ _ _ H2) as [_ Hb2].
  rewrite map_app. cbn [map]. rewrite Z.eqb_refl. heap_consts.
  f_equal; [|f_equal]; rewrite <- (map_id l1) at 2 || rewrite <- (map_id l2) at 2;
    apply map_ext_in; intros c Hin; [specialize (Hb1 c Hin)|specialize (Hb2 c Hin)];
    (bcase; [lia|done]).
Qed.

(** The block is poisoned and marked; everything else keeps its header and its
    payload. *)
Lemma chain_mark_free m p a l1 b l2 e :
  chain m p a (l1 ++ b :: l2) e 0 -> 0 < a ->
  let m' := set_free (b_addr b) 1 (set_magic (b_addr b) HEAP_FREED_MAGIC
    (fill (Z.to_nat (b_size b)) m (b_addr b + sizeof_heap_block) HEAP_POISON_BYTE)) in
  chain m' p a (l1 ++ b <| b_free := true |> :: l2) e 0 /\
  (forall x, b_addr b + sizeof_heap_block <= x < b_end b -> byte_at m' x = HEAP_POISON_BYTE) /\
  forall g, In g (l1 ++ l2) -> payload_kept m m' g.
Proof.
  intros Hc Ha m'. apply chain_middle in Hc as (H1 & Hs & Hh & H2).
  destruct (chain_bounds _ _ _ _ _ _ H1) as [_ Hb1].
  destruct (chain_bounds _ _ _ _ _ _ H2) as [_ Hb2].
  assert (Hout : forall x, x < b_addr b \/ b_end b <= x -> byte_at m' x = byte_at m x).
  { intros x Hx. unfold m'. heap_consts. byte_simpl. rewrite byte_fill. bcases; cbn; try done; lia. }
  split_and!.
  - change (b <| b_free := true |>) with (Blk (b_addr b) (b_size b) true).
    apply chain_middle. unfold b_end. cbn [b_addr b_size]. fold (b_end b). split_and!; try done.
    + eapply chain_frame; [|done]. intros. apply Hout. lia.
    + assert (Hf : forall n x, x + Z.of_nat n <= b_addr b + 40 ->
        load_le n (fill (Z.to_nat (b_size b)) m (b_addr b + 40) HEAP_POISON_BYTE) x = load_le n m x).
      { intros. apply load_fill_ne. lia. }
      destruct Hh as (Hm & Hz & Hfr & Hn & Hp). unfold m'. fields.
      cbn [b_addr b_size b_free c_bool]. heap_consts.
      split_and!; hdr_simpl; try done; unfold load64; rewrite Hf by lia; assumption.
    + eapply chain_frame; [|done]. intros. apply Hout. lia.
  - intros x Hx. unfold m'. heap_consts. byte_simpl. rewrite byte_fill. bcases; cbn; try done; lia.
  - intros g Hin x Hx. apply Hout.
    apply in_app_iff in Hin as [Hin|Hin]; [specialize (Hb1 g Hin)|specialize (Hb2 g Hin)];
      heap_consts; lia.
Qed.

(** * [kfree] *)

Section Kfree.
Context {E : Type} `{PageOps E}.
Implicit Types h : heap E.

Lemma rep_block_bounds h bl b :
  heap_rep h bl -> In b bl ->
  KERNEL_HEAP_BASE <= b_addr b /\ b_end b <= heap_end h /\ 0 <= b_size b /\
  heap_end h <= 0xFFFFFFFF90100000.
Proof.
  intros [] Hin. destruct (chain_bounds _ _ _ _ _ _ rep_chain0) as [_ Hb].
  specialize (Hb b Hin). heap_consts. lia.
Qed.

(** A pointer whose block header carries the freed magic is rejected. *)
Lemma kfree_freed_magic h b :
  KERNEL_HEAP_BASE <= b < heap_end h -> heap_end h <= 0xFFFFFFFF90100000 ->
  heap_start h = KERNEL_HEAP_BASE -> blk_magic (heap_mem h) b = HEAP_FREED_MAGIC ->
  kfree (b + sizeof_heap_block) h = Some (KFREE_DOUBLE_FREE, h).
Proof.
  intros Hb He Hst Hm. unfold kfree. heap_consts.
  replace (u64 (b + 40 - 40)) with b by ulia. rewrite Hst, Hm, Z.eqb_refl.
  heap_consts. bcases; try lia; done.
Qed.

Lemma kfree_release h bl l1 b l2 :
  heap_rep h bl -> bl = l1 ++ b :: l2 -> b_free b = false ->
  exists h', kfree (b_addr b + sizeof_heap_block) h = Some (KFREE_DONE, h') /\
    heap_rep h' (spec_free (b_addr b + sizeof_heap_block) bl) /\
    heap_env h' = heap_env h /\ heap_end h' = heap_end h /\
    heap_start h' = heap_start h /\
    blk_magic (heap_mem h') (b_addr b) = HEAP_FREED_MAGIC /\
    (forall x, b_addr b + sizeof_heap_block <= x < b_end b ->
       byte_at (heap_mem h') x = HEAP_POISON_BYTE) /\
    (forall g, In g (l1 ++ l2) -> b_free g = false ->
       payload_kept (heap_mem h) (heap_mem h') g).
Proof.
  intros Hrep -> Hfree.
  assert (Hin : In b (l1 ++ b :: l2)) by (apply in_app_iff; right; by left).
  destruct (rep_block_bounds h _ b Hrep Hin) as (Hlo & Hhi & Hsz & Hend).
  pose proof (rep_chain _ _ Hrep) as Hc. pose proof (rep_coalesced _ _ Hrep) as Hadj.
  apply no_adjacent_free_app in Hadj as [Hadj1 Hadj2].
  assert (Hadj2' : no_adjacent_free l2) by (destruct l2; [done|apply Hadj2]).
  pose proof Hc as Hcm. apply chain_middle in Hcm as (_ & _ & (Hm & Hz & Hf & _ & _) & _).
  destruct (chain_mark_free _ _ _ _ _ _ _ Hc) as (Hc1 & Hpoison & Hkeep1); [heap_consts; lia|].
  set (b' := b <| b_free := true |>) in *.
  set (m1 := set_free (b_addr b) 1 _) in *.
  destruct (heap_coalesce_spec m1 KERNEL_HEAP_BASE l1 b' l2 (heap_end h))
    as (m2 & Hco & Hc2 & Hmag & Hkeepb & Hkeep2); try done; [heap_consts; lia|].
  exists (h <| heap_mem := m2 |>). split_and!; try done.
  - unfold kfree. heap_consts. replace (u64 (b_addr b + 40 - 40)) with (b_addr b) by ulia.
    rewrite (rep_start _ _ Hrep), Hm, Hz, Hf, Hfree. heap_consts.
    destruct (Z.eqb_spec (b_addr b + 40) 0); [lia|].
    destruct (Z.ltb_spec (b_addr b) 0xFFFFFFFF90000000); [lia|].
    destruct (Z.leb_spec (heap_end h) (b_addr b)); [lia|].
    cbn [orb negb c_bool Z.eqb]. change (HEAP_MAGIC =? HEAP_FREED_MAGIC) with false.
    rewrite Z.eqb_refl. cbn [orb negb].
    change (b_addr b') with (b_addr b) in Hco. fold m1. by rewrite Hco.
  - unfold spec_free. rewrite (map_free_middle _ _ _ _ _ _ _ Hc). fold b'.
    destruct Hrep. split; try done.
    + cbn. rewrite rep_head0. destruct l1 as [|x l1]; cbn [app nextp]; by rewrite nextp_merge_free.
    + apply merge_free_no_adjacent.
  - change (b_addr b') with (b_addr b) in Hmag. cbn. rewrite Hmag. unfold m1. fields.
    rewrite ld64_st32_ne by lia. by apply load64_store64.
  - intros x Hx. cbn. rewrite (Hkeepb x) by exact Hx. by apply Hpoison.
  - intros g Hg Hgf x Hx. cbn. rewrite (Hkeep2 g Hg Hgf x Hx). by apply (Hkeep1 g).
Qed.

(** C5: releasing a live block poisons its whole payload with 0xDD, leaves the
    list of blocks as the maximally merged list in which that block is free,
    keeps every byte of every other live payload, and a second release of the
    same pointer is reported as a double free and changes nothing. *)
Theorem kfree_spec h bl b :
  heap_rep h bl -> In b bl -> b_free b = false ->
  let p := b_addr b + sizeof_heap_block in
  exists h', kfree p h = Some (KFREE_DONE, h') /\
    heap_rep h' (spec_free p bl) /\ heap_env h' = heap_env h /\
    (forall x, p <= x < b_end b -> byte_at (heap_mem h') x = HEAP_POISON_BYTE) /\
    (forall g, In g bl -> b_free g = false -> g <> b ->
       payload_kept (heap_mem h) (heap_mem h') g) /\
    kfree p h' = Some (KFREE_DOUBLE_FREE, h').
Proof.
  intros Hrep Hin Hfree p. destruct (in_split b bl Hin) as (l1 & l2 & Ebl).
  destruct (rep_block_bounds h bl b Hrep Hin) as (Hlo & Hhi & Hsz & Hend).
  destruct (kfree_release h bl l1 b l2 Hrep Ebl Hfree)
    as (h' & Hk & Hrep' & He & Hee & Hst & Hmag & Hpo & Hkeep).
  exists h'. split_and!; try done.
  - intros g Hg Hgf Hne. apply Hkeep; [|done]. subst bl.
    apply in_app_iff in Hg as [Hg|[->|Hg]]; [|done|]; apply in_app_iff; auto.
  - apply kfree_freed_magic; rewrite ?Hee, ?Hst; try done; [heap_consts; lia|apply Hrep].
Qed.

End Kfree.

(** * Growing the heap *)

(** The new pages extend the last block if it is free and become a block of
    their own otherwise. *)
Fixpoint spec_grow (old_end new_end : Z) (bl : list blk) : list blk :=
  match bl with
  | [] => [Blk old_end (new_end - old_end - sizeof_heap_block) true]
  | [d] => if b_free d
           then [Blk (b_addr d) (b_size d + (new_end - old_end)) true]
           else [d; Blk old_end (new_end - old_end - sizeof_heap_block) true]
  | b :: bl' => b :: spec_grow old_end new_end bl'
  end.

Lemma spec_grow_snoc old new l d :
  spec_grow old new (l ++ [d]) =
  l ++ (if b_free d then [Blk (b_addr d) (b_size d + (new - old)) true]
        else [d; Blk old (new - old - sizeof_heap_block) true]).
Proof.
  induction l as [|x l IH]; [done|]. cbn [app spec_grow]. rewrite IH.
  destruct (l ++ [d]) eqn:E; [by destruct l|done].
Qed.

(** Growing keeps the live blocks. *)
Lemma spec_grow_live old new bl g :
  In g bl -> b_free g = false -> In g (spec_grow old new bl).
Proof.
  intros Hin Hg. destruct (exists_last_or_nil bl) as [->|(l & d & ->)]; [done|].
  rewrite spec_grow_snoc. apply in_app_iff in Hin as [Hin|[->|[]]]; apply in_app_iff; [by left|].
  right. rewrite Hg. by left.
Qed.

Lemma no_adjacent_free_middle l1 c l2 :
  no_adjacent_free (l1 ++ c :: l2) <->
  no_adjacent_free (l1 ++ [c]) /\ no_adjacent_free (c :: l2).
Proof.
  induction l1 as [|x l1 IH]; [cbn; tauto|].
  destruct l1 as [|y l1]; cbn [app] in *.
  - cbn [no_adjacent_free]. tauto.
  - cbn [no_adjacent_free] in *. tauto.
Qed.

Lemma no_adjacent_free_replace l b c :
  no_adjacent_free (l ++ [b]) -> b_free c = b_free b -> no_adjacent_free (l ++ [c]).
Proof.
  intros Hl E. induction l as [|x l IH]; [done|].
  destruct l as [|y l]; cbn [app no_adjacent_free] in *.
  - rewrite E. exact Hl.
  - destruct Hl as [Hxy Hl]. split; [exact Hxy | exact (IH Hl)].
Qed.

Lemma no_adjacent_free_snoc l c :
  no_adjacent_free l -> b_free c = false -> no_adjacent_free (l ++ [c]).
Proof.
  intros Hl Hc. induction l as [|x l IH]; [done|].
  destruct l as [|y l]; cbn [app no_adjacent_free] in *.
  - split; [|done]. rewrite Hc. by intros [_ ?].
  - destruct Hl as [Hxy Hl]. split; [exact Hxy | exact (IH Hl)].
Qed.

Lemma no_adjacent_free_cons c l :
  no_adjacent_free l -> b_free c = false -> no_adjacent_free (c :: l).
Proof.
  intros Hl Hc. destruct l as [|x l]; [done|]. split; [|done]. rewrite Hc. by intros [? _].
Qed.

Lemma chain_grow_extend m a l d e e' :
  chain m 0 a (l ++ [d]) e 0 -> 0 < a -> e <= e' -> e' < 18446744073709547520 ->
  let m' := set_size (b_addr d) (b_size d + (e' - e)) m in
  chain m' 0 a (l ++ [Blk (b_addr d) (b_size d + (e' - e)) (b_free d)]) e' 0 /\
  forall g, In g l -> payload_kept m m' g.
Proof.
  intros Hc Ha Hle Hhi m'. apply chain_middle in Hc as (H1 & Hs & Hh & H2).
  destruct (chain_bounds _ _ _ _ _ _ H1) as [Hl1 Hb1]. cbn [chain] in H2. split.
  - apply chain_middle. unfold b_end. cbn [b_addr b_size]. heap_consts.
    split_and!; try done; try lia.
    + eapply chain_frame; [|done]. intros. unfold m'. by byte_simpl.
    + destruct Hh as (? & ? & ? & ? & ?). unfold m'. fields. cbn [b_addr b_size b_free].
      split_and!; hdr_simpl; done.
    + cbn. lia.
  - intros g Hg x Hx. specialize (Hb1 g Hg). unfold m'. heap_consts. by byte_simpl.
Qed.

(** The header [heap_expand] writes for new pages. *)
Definition new_block_mem (block size tail : Z) (m : mem) : mem :=
  set_prev block tail (set_next block 0 (set_free block 1
    (set_size block size (set_magic block HEAP_FREED_MAGIC m)))).

Lemma byte_new_block_mem block size tail m x :
  x < block \/ block + 40 <= x -> byte_at (new_block_mem block size tail m) x = byte_at m x.
Proof. intros. unfold new_block_mem. by byte_simpl. Qed.

Lemma hdr_new_block m block size tail :
  0 <= size < 18446744073709551616 -> is_u64 tail ->
  hdr_ok (new_block_mem block size tail m) (Blk block size true) tail 0.
Proof.
  intros Hs Ht. unfold new_block_mem. fields. cbn [b_addr b_size b_free c_bool].
  split_and!; hdr_simpl; try done. by apply load64_store64.
Qed.

Lemma chain_grow_append m a l d e e' :
  chain m 0 a (l ++ [d]) e 0 -> 0 < a -> e + 40 <= e' -> e' < 18446744073709547520 ->
  let m' := set_next (b_addr d) e (new_block_mem e (e' - e - 40) (b_addr d) m) in
  chain m' 0 a (l ++ [d; Blk e (e' - e - 40) true]) e' 0 /\
  forall g, In g (l ++ [d]) -> payload_kept m m' g.
Proof.
  intros Hc Ha Hle Hhi m'. apply chain_middle in Hc as (H1 & Hs & Hh & H2).
  destruct (chain_bounds _ _ _ _ _ _ H1) as [Hl1 Hb1]. cbn [chain] in H2. subst e. split.
  - apply chain_middle. cbn [chain nextp]. unfold b_end. cbn [b_addr b_size]. heap_consts.
    split_and!; try done; try lia.
    + eapply chain_frame; [|done]. intros. unfold m'. byte_simpl. apply byte_new_block_mem. lia.
    + destruct Hh as (? & ? & ? & ? & ?). unfold m', new_block_mem. fields. hdr_simpl. done.
    + eapply hdr_ok_ext; [|apply hdr_new_block; unfold is_u64; lia].
      cbn [b_addr]. intros x Hx. unfold m'. by byte_simpl.
  - intros g Hg x Hx. unfold m'. heap_consts.
    apply in_app_iff in Hg as [Hg|[->|[]]]; [specialize (Hb1 g Hg)|];
      heap_consts; byte_simpl; apply byte_new_block_mem; lia.
Qed.

(** * [kmalloc] *)

Section Kmalloc.
Context {E : Type} `{PageOps E}.
Implicit Types h : heap E.

(** Where the heap would end after growing by [required] bytes, and how many
    pages that maps. *)
Definition grown_end (h : heap E) (required : Z) : Z :=
  (heap_end h + required + 4095) / 4096 * 4096.
Definition grow_pages (h : heap E) (required : Z) : bool * E :=
  heap_map_pages (Z.to_nat ((grown_end h required - heap_end h + 4095) / 4096))
    (heap_end h) (heap_env h).

Definition live_kept (bl : list blk) (h h' : heap E) : Prop :=
  forall g, In g bl -> b_free g = false -> payload_kept (heap_mem h) (heap_mem h') g.

Lemma rep_walk_fuel h bl : heap_rep h bl -> (length bl < HEAP_FUEL)%nat.
Proof.
  intros []. destruct (chain_bounds _ _ _ _ _ _ rep_chain0) as [Hl _].
  unfold HEAP_FUEL. heap_consts. lia.
Qed.

Lemma grown_end_bounds h required :
  0 <= heap_end h -> 0 <= required -> (heap_end h - KERNEL_HEAP_BASE) mod 4096 = 0 ->
  heap_end h + required <= grown_end h required /\
  (grown_end h required - KERNEL_HEAP_BASE) mod 4096 = 0.
Proof. intros. unfold grown_end. heap_consts. ulia. Qed.

(** The memory after a successful growth. *)
Lemma grow_chain m a bl e e' :
  chain m 0 a bl e 0 -> (bl = [] -> a = e) -> 0 < a -> e + 40 <= e' ->
  e' < 18446744073709547520 -> (length bl < HEAP_FUEL)%nat -> no_adjacent_free bl ->
  exists m' tail, find_tail HEAP_FUEL m (nextp bl a) = Some tail /\
    (if negb (tail =? 0) && negb (blk_free m tail =? 0)
     then m' = set_size tail (u64 (blk_size m tail + (e' - e))) m
     else m' = if negb (tail =? 0)
               then set_next tail e (new_block_mem e (e' - e - 40) tail m)
               else new_block_mem e (e' - e - 40) tail m) /\
    (tail = 0 <-> bl = []) /\
    chain m' 0 a (spec_grow e e' bl) e' 0 /\ no_adjacent_free (spec_grow e e' bl) /\
    forall g, In g bl -> b_free g = false -> payload_kept m m' g.
Proof.
  intros Hc Hnil Ha Hle Hhi Hfuel Hadj.
  destruct (exists_last_or_nil bl) as [->|(l & d & ->)].
  - cbn [chain] in Hc. subst e.
    exists (new_block_mem a (e' - a - 40) 0 m), 0.
    split; [by apply (find_tail_spec _ m 0 a [] a)|]. cbn [Z.eqb negb andb].
    split_and!; try done.
    cbn [spec_grow chain]. unfold b_end. cbn [b_addr b_size]. heap_consts.
    split_and!; try done; try lia. apply hdr_new_block; unfold is_u64; lia.
  - assert (Hd : In d (l ++ [d])) by (apply in_app_iff; right; by left).
    destruct (chain_bounds _ _ _ _ _ _ Hc) as [_ Hb]. specialize (Hb d Hd).
    pose proof Hc as Hm. apply chain_middle in Hm as (_ & Hs & (_ & Hz & Hf & _ & _) & _).
    assert (Htail : find_tail HEAP_FUEL m (nextp (l ++ [d]) a) = Some (b_addr d)).
    { rewrite (find_tail_spec _ m 0 a (l ++ [d]) e) by done. rewrite last_addr_snoc.
      by destruct (l ++ [d]) eqn:?; [destruct l|]. }
    rewrite spec_grow_snoc. destruct (Z.eqb_spec (b_addr d) 0) as [|Hne]; [lia|].
    destruct (b_free d) eqn:Hdf.
    + destruct (chain_grow_extend m a l d e e' Hc Ha ltac:(lia) Hhi) as [Hc' Hk].
      rewrite Hdf in Hc'. eexists _, (b_addr d). split; [done|].
      destruct (Z.eqb_spec (b_addr d) 0); [lia|]. rewrite Hf. cbn [negb andb c_bool Z.eqb].
      rewrite Hz, u64_id by (heap_consts; unfold is_u64; lia). split_and!; try done.
      * split; [done|]. intros; by destruct l.
      * apply no_adjacent_free_middle in Hadj as [Hadj _].
        destruct (exists_last_or_nil l) as [->|(l0 & x & ->)]; [done|].
        rewrite <- app_assoc in *. apply no_adjacent_free_middle in Hadj as [H1 [H2 _]].
        apply no_adjacent_free_middle. split; [done|]. split; [|done]. cbn. by rewrite Hdf in H2.
      * intros g Hg Hgf. apply Hk. apply in_app_iff in Hg as [|[->|[]]]; [done|congruence].
    + destruct (chain_grow_append m a l d e e' Hc Ha Hle Hhi) as [Hc' Hk].
      eexists _, (b_addr d). split; [done|].
      destruct (Z.eqb_spec (b_addr d) 0); [lia|]. rewrite Hf. cbn [negb andb c_bool Z.eqb].
      split_and!; try done.
      * split; [done|]. intros; by destruct l.
      * apply no_adjacent_free_middle. split; [done|]. split; [|done]. rewrite Hdf. by intros [? _].
      * intros g Hg _. by apply Hk.
Qed.

Lemma heap_expand_spec h bl required :
  heap_rep h bl -> 40 <= required -> heap_end h + required + 4095 < 18446744073709551616 ->
  match heap_expand required h with
  | None => False
  | Some (false, h') =>
      h' = h <| heap_env := heap_env h' |> /\
      (heap_limit h < grown_end h required \/ fst (grow_pages h required) = false)
  | Some (true, h') =>
      heap_rep h' (spec_grow (heap_end h) (heap_end h') bl) /\
      heap_end h' = grown_end h required /\ heap_end h' <= heap_limit h /\
      fst (grow_pages h required) = true /\ heap_env h' = snd (grow_pages h required) /\
      live_kept bl h h'
  end.
Proof.
  intros Hrep Hreq Hov. pose proof (rep_walk_fuel h bl Hrep) as Hfuel.
  destruct Hrep as [Hst Hlim Hend Hpage Hhead Hc Hadj].
  assert (0 <= heap_end h) by (heap_consts; lia).
  destruct (grown_end_bounds h required) as [Hge Hgp]; try (done || lia).
  assert (Hne : align_up_ptr (u64 (heap_end h + required)) PMM_PAGE_SIZE = grown_end h required).
  { rewrite u64_id by (unfold is_u64; lia).
    apply (align_up_page_eq (heap_end h + required)); [unfold is_u64; lia|lia]. }
  unfold heap_expand. rewrite Hne.
  destruct (Z.ltb_spec (heap_limit h) (grown_end h required)) as [Hlt|Hlt].
  { split; [by destruct h|by left]. }
  fold (grow_pages h required). destruct (grow_pages h required) as [ok e] eqn:Hgrow.
  destruct ok; [|split; [done|by right]].
  destruct (grow_chain (heap_mem h) KERNEL_HEAP_BASE bl (heap_end h) (grown_end h required))
    as (m' & tail & Htail & Hm' & Hnil & Hc' & Hadj' & Hkeep); try (done || (heap_consts; lia)).
  { intros ->. exact Hc. }
  cbn [heap_mem heap_head heap_end set_field]. rewrite Hhead, Htail.
  replace (u64 (grown_end h required - heap_end h)) with (grown_end h required - heap_end h)
    by (heap_consts; ulia).
  destruct (negb (tail =? 0) && negb (blk_free (heap_mem h) tail =? 0)) eqn:Hcond.
  - subst m'. split_and!; try (done || (heap_consts; lia)).
    apply andb_prop in Hcond as [Ht _]. split; try done; cbn; try lia.
    rewrite Hhead. destruct bl as [|b bl]; [|by destruct bl; cbn; [destruct (b_free b)|]].
    rewrite (proj2 Hnil) in Ht by done. done.
  - rewrite u64_id by (heap_consts; unfold is_u64; lia).
    change sizeof_heap_block with 40. fold (new_block_mem (heap_end h) (grown_end h required - heap_end h - 40) tail (heap_mem h)).
    destruct (Z.eqb_spec tail 0) as [Ht|Ht]; cbn [negb] in *; subst m'.
    + apply Hnil in Ht. subst bl. cbn [chain] in Hc.
      split_and!; try (done || (heap_consts; lia)). split; try done; cbn; try lia.
    + split_and!; try (done || (heap_consts; lia)). split; try done; cbn; try lia.
      rewrite Hhead. destruct bl as [|b bl]; [naive_solver|].
      by destruct bl; cbn; [destruct (b_free b)|].
Qed.

Lemma spec_alloc_first size l1 b l2 :
  Forall (fun c => fits size c = false) l1 -> fits size b = true ->
  spec_alloc size (l1 ++ b :: l2) = Some (b_addr b + sizeof_heap_block, l1 ++ split_alloc size b ++ l2).
Proof.
  intros Hl Hb. induction Hl as [|x l1 Hx Hl IH]; cbn [app spec_alloc].
  - unfold fits in Hb. by rewrite Hb.
  - unfold fits in Hx. by rewrite Hx, IH.
Qed.

Lemma spec_alloc_split size bl p bl' :
  spec_alloc size bl = Some (p, bl') ->
  exists l1 b l2, bl = l1 ++ b :: l2 /\ fits size b = true /\
    Forall (fun c => fits size c = false) l1 /\ p = b_addr b + sizeof_heap_block /\
    bl' = l1 ++ split_alloc size b ++ l2.
Proof.
  revert p bl'. induction bl as [|b bl IH]; intros p bl'; [done|]. cbn [spec_alloc].
  fold (fits size b). destruct (fits size b) eqn:Hb.
  - intros [= <- <-]. by exists [], b, bl.
  - destruct (spec_alloc size bl) as [[q bl1]|]; [|done]. intros [= <- <-].
    destruct (IH q bl1 eq_refl) as (l1 & c & l2 & -> & Hc & Hl1 & -> & ->).
    exists (b :: l1), c, l2. split_and!; try done. by constructor.
Qed.

Lemma spec_alloc_none size bl :
  Forall (fun c => fits size c = false) bl -> spec_alloc size bl = None.
Proof. induction 1 as [|x l Hx Hl IH]; [done|]. cbn. unfold fits in Hx. by rewrite Hx, IH. Qed.

Lemma split_alloc_no_adjacent size l1 b l2 :
  no_adjacent_free (l1 ++ b :: l2) -> b_free b = true ->
  no_adjacent_free (l1 ++ split_alloc size b ++ l2).
Proof.
  intros Hadj Hb. apply no_adjacent_free_middle in Hadj as [H1 H2].
  apply no_adjacent_free_app in H1 as [H1 _].
  assert (Hl2 : no_adjacent_free l2) by (destruct l2; [done|apply H2]).
  unfold split_alloc. bcase; cbn [app]; apply no_adjacent_free_middle;
    (split; [by apply no_adjacent_free_snoc|]); apply no_adjacent_free_cons; try done.
  destruct l2 as [|c l2]; [done|]. destruct H2 as [H2 _]. split; [|done].
  cbn [b_free]. by rewrite Hb in H2.
Qed.

(** One round of [kmalloc] that finds a block. *)
Lemma kmalloc_take h bl l1 b l2 size :
  heap_rep h bl -> bl = l1 ++ b :: l2 -> fits size b = true -> 0 <= size ->
  let h' := h <| heap_mem := take_block (b_addr b) size (heap_mem h) |> in
  heap_rep h' (l1 ++ split_alloc size b ++ l2) /\ live_kept bl h h'.
Proof.
  intros Hrep -> Hfit Hs h'. unfold fits in Hfit. apply andb_prop in Hfit as [Hf Hsz%Z.leb_le].
  assert (Hin : In b (l1 ++ b :: l2)) by (apply in_app_iff; right; by left).
  destruct (rep_block_bounds h _ b Hrep Hin) as (Hlo & Hhi & Hbs & Hend).
  destruct Hrep as [Hst Hlim He Hpage Hhead Hc Hadj]. split.
  - split; try done.
    + cbn. rewrite Hhead. destruct l1; [|done]. cbn [app nextp].
      unfold split_alloc. by bcase.
    + cbn. apply chain_take; try done; heap_consts; lia.
    + by apply split_alloc_no_adjacent.
  - apply chain_middle in Hc as (H1 & _ & Hh & H2).
    destruct (chain_bounds _ _ _ _ _ _ H1) as [_ Hb1].
    destruct (chain_bounds _ _ _ _ _ _ H2) as [_ Hb2].
    intros g Hg Hgf x Hx. cbn.
    eapply byte_take_block; try done; try (heap_consts; lia).
    { destruct l2; cbn; auto. }
    apply in_app_iff in Hg as [Hg|[->|Hg]]; [specialize (Hb1 g Hg)|congruence|specialize (Hb2 g Hg)];
      heap_consts; lia.
Qed.

Lemma spec_grow_fits old new size bl m a e :
  chain m 0 a bl e 0 -> size + 40 <= new - old -> 0 <= size ->
  ~ Forall (fun c => fits size c = false) (spec_grow old new bl).
Proof.
  intros Hc Hs H0 HF. destruct (exists_last_or_nil bl) as [->|(l & d & ->)].
  - cbn in HF. inversion HF as [|? ? Hx _]. revert Hx. unfold fits. cbn [b_free b_size].
    heap_consts. bcase; [done|lia].
  - apply chain_middle in Hc as (_ & Hd & _). rewrite spec_grow_snoc in HF.
    apply Forall_app in HF as [_ HF]. destruct (b_free d).
    + inversion HF as [|? ? Hx _]. revert Hx. unfold fits. cbn [b_free b_size]. bcase; [done|lia].
    + inversion HF as [|? ? _ HF']. inversion HF' as [|? ? Hx _]. revert Hx.
      unfold fits. cbn [b_free b_size]. heap_consts. bcase; [done|lia].
Qed.

(** [kmalloc_spec] below, as the lemma the other proofs use. *)
Lemma kmalloc_facts h bl size :
  heap_rep h bl -> 0 < size <= 0x6F000000 ->
  let sz := (size + 15) / 16 * 16 in
  exists p h', kmalloc size h = Some (p, h') /\
    if p =? 0
    then heap_rep h' bl /\ heap_mem h' = heap_mem h /\ spec_alloc sz bl = None /\
         (heap_limit h < grown_end h (sz + 40) \/ fst (grow_pages h (sz + 40)) = false)
    else exists bl', heap_rep h' bl' /\ live_kept bl h h' /\
         (spec_alloc sz bl = Some (p, bl') /\ heap_end h' = heap_end h \/
          spec_alloc sz bl = None /\
          spec_alloc sz (spec_grow (heap_end h) (heap_end h') bl) = Some (p, bl')).
Proof.
  intros Hrep Hsize sz. pose proof (rep_end _ _ Hrep) as Hend. pose proof (rep_limit _ _ Hrep) as Hlim.
  assert (Hsz : size <= sz <= 0x6F000000) by (unfold sz; ulia).
  unfold kmalloc. destruct (Z.eqb_spec size 0); [lia|].
  rewrite align_up_size_16 by lia. fold sz.
  cbn [kmalloc_loop]. rewrite (rep_head _ _ Hrep).
  destruct (find_fit_spec HEAP_FUEL (heap_mem h) sz 0 KERNEL_HEAP_BASE bl (heap_end h))
    as [(l1 & b & l2 & Ebl & Hfit & Hl1 & HR)|[Hnone HR]];
    [by apply (rep_walk_fuel h)|heap_consts; lia|apply Hrep| |]; rewrite HR.
  - assert (Hin : In b bl) by (subst bl; apply in_app_iff; right; by left).
    destruct (rep_block_bounds h _ b Hrep Hin) as (Hlo & _).
    destruct (kmalloc_take h bl l1 b l2 sz Hrep Ebl Hfit ltac:(lia)) as [Hrep' Hkeep].
    destruct (Z.eqb_spec (b_addr b) 0); [heap_consts; lia|]. cbn [negb].
    eexists _, _. split; [reflexivity|].
    destruct (Z.eqb_spec (b_addr b + sizeof_heap_block) 0); [heap_consts; lia|].
    eexists. split; [exact Hrep'|]. split; [exact Hkeep|]. left. subst bl.
    by rewrite (spec_alloc_first sz l1 b l2).
  - cbn [negb Z.eqb]. rewrite u64_id by (heap_consts; unfold is_u64; lia).
    pose proof (heap_expand_spec h bl (sz + sizeof_heap_block) Hrep) as HX.
    change sizeof_heap_block with 40 in *.
    specialize (HX ltac:(lia) ltac:(heap_consts; lia)).
    destruct (heap_expand (sz + 40) h) as [[[] h1]|]; [| |done].
    + destruct HX as (Hrep1 & Hend1 & Hlim1 & _ & _ & Hkeep1).
      assert (Hsize1 : heap_end h + (sz + 40) <= heap_end h1)
        by (rewrite Hend1; unfold grown_end; ulia).
      rewrite (rep_head _ _ Hrep1).
      destruct (find_fit_spec HEAP_FUEL (heap_mem h1) sz 0 KERNEL_HEAP_BASE
        (spec_grow (heap_end h) (heap_end h1) bl) (heap_end h1))
        as [(l1 & b & l2 & Ebl & Hfit & Hl1 & HR1)|[Hnone1 _]];
        [by apply (rep_walk_fuel h1)|heap_consts; lia|apply Hrep1| |].
      2: { exfalso. eapply (spec_grow_fits _ _ sz bl); [apply (rep_chain _ _ Hrep)| | |exact Hnone1]; lia. }
      rewrite HR1.
      assert (Hin : In b (spec_grow (heap_end h) (heap_end h1) bl))
        by (rewrite Ebl; apply in_app_iff; right; by left).
      destruct (rep_block_bounds h1 _ b Hrep1 Hin) as (Hlo & _).
      destruct (kmalloc_take h1 _ l1 b l2 sz Hrep1 Ebl Hfit ltac:(lia)) as [Hrep' Hkeep].
      destruct (Z.eqb_spec (b_addr b) 0); [heap_consts; lia|]. cbn [negb].
      eexists _, _. split; [reflexivity|].
      destruct (Z.eqb_spec (b_addr b + 40) 0); [heap_consts; lia|].
      eexists. split; [exact Hrep'|]. split.
      * intros g Hg Hgf x Hx. rewrite <- (Hkeep1 g Hg Hgf x Hx).
        by apply (Hkeep g); [apply spec_grow_live|..].
      * right. split; [by apply spec_alloc_none|]. cbn [heap_end set_field].
        rewrite Ebl at 1. by apply spec_alloc_first.
    + destruct HX as (E1 & Hwhy). exists 0, h1. split; [done|]. cbn [Z.eqb].
      split_and!; [rewrite E1; by destruct Hrep | by rewrite E1 | by apply spec_alloc_none | done].
Qed.

(** C4: for every request up to 0x6F000000 bytes [kmalloc] returns.  A non-null
    result is the first-fit block of the current list, or of the list grown by
    whole pages when nothing fits, with the request rounded up to 16 bytes; the
    block is live, the list stays well formed and coalesced, and no byte of a
    payload that was live changes.  A null result means nothing fitted and the
    heap could not grow (limit reached or a page could not be mapped), and the
    blocks are as before. *)
Theorem kmalloc_spec h bl size :
  heap_rep h bl -> 0 < size <= 0x6F000000 ->
  let sz := (size + 15) / 16 * 16 in
  exists p h', kmalloc size h = Some (p, h') /\
    if p =? 0
    then heap_rep h' bl /\ heap_mem h' = heap_mem h /\ spec_alloc sz bl = None /\
         (heap_limit h < grown_end h (sz + 40) \/ fst (grow_pages h (sz + 40)) = false)
    else exists bl', heap_rep h' bl' /\ live_kept bl h h' /\
         (spec_alloc sz bl = Some (p, bl') /\ heap_end h' = heap_end h \/
          spec_alloc sz bl = None /\
          spec_alloc sz (spec_grow (heap_end h) (heap_end h') bl) = Some (p, bl')).
Proof. exact (kmalloc_facts h bl size). Qed.

End Kmalloc.

(** * Initialisation, validation and reachable heaps *)

Section Reachable.
Context {E : Type} `{PageOps E}.
Implicit Types h : heap E.

Definition boot_heap (m : mem) (e : E) : heap E :=
  mk_heap m 0 KERNEL_HEAP_BASE KERNEL_HEAP_BASE
    (KERNEL_HEAP_BASE + KERNEL_HEAP_MAX_PAGES * PMM_PAGE_SIZE) e.

Lemma boot_heap_rep m e : heap_rep (boot_heap m e) [].
Proof. split; cbn; heap_consts; lia || done. Qed.

Lemma heap_init_facts m e :
  exists h, heap_init m e = Some h /\
    if fst (heap_map_pages 4 KERNEL_HEAP_BASE e)
    then heap_rep h [Blk KERNEL_HEAP_BASE 16344 true]
    else heap_rep h [].
Proof.
  unfold heap_init. fold (boot_heap m e).
  pose proof (heap_expand_spec (boot_heap m e) [] (KERNEL_HEAP_INITIAL_PAGES * PMM_PAGE_SIZE)
    (boot_heap_rep m e) ltac:(by vm_compute) ltac:(by vm_compute)) as H1.
  change (grow_pages (boot_heap m e) _) with (heap_map_pages 4 KERNEL_HEAP_BASE e) in H1.
  destruct (heap_expand _ (boot_heap m e)) as [[[] h]|]; [| |done]; exists h; (split; [done|]).
  - destruct H1 as (Hrep & Hend & _ & -> & _). rewrite Hend in Hrep. exact Hrep.
  - destruct H1 as (-> & [Hl| ->]); [by vm_compute in Hl|].
    destruct (boot_heap_rep m (heap_env h)). by split.
Qed.

(** [heap_init] returns for any boot memory: the heap is one free block of
    16344 bytes when its four pages could be mapped, and an empty heap (which a
    later [kmalloc] may still grow) when they could not. *)
Theorem heap_init_spec m e :
  exists h, heap_init m e = Some h /\
    if fst (heap_map_pages 4 KERNEL_HEAP_BASE e)
    then heap_rep h [Blk KERNEL_HEAP_BASE 16344 true]
    else heap_rep h [].
Proof. exact (heap_init_facts m e). Qed.

(** Blocks of a heap do not overlap. *)
Lemma rep_disjoint h bl b c :
  heap_rep h bl -> In b bl -> In c bl -> b = c \/ b_end b <= b_addr c \/ b_end c <= b_addr b.
Proof.
  intros [_ _ _ _ _ Hc _] Hb Hcin.
  destruct (in_split b bl Hb) as (l1 & l2 & ->).
  apply chain_middle in Hc as (H1 & _ & _ & H2).
  destruct (chain_bounds _ _ _ _ _ _ H1) as [_ Hb1].
  destruct (chain_bounds _ _ _ _ _ _ H2) as [_ Hb2].
  apply in_app_iff in Hcin as [Hin|[->|Hin]]; [|by left|];
    [specialize (Hb1 c Hin)|specialize (Hb2 c Hin)]; lia.
Qed.

(** The kernel's use of the heap: allocations of a bounded size, and releases
    of pointers to live blocks. *)
Inductive heap_step (h : heap E) : heap E -> Prop :=
  | step_kmalloc size p h' :
      0 < size <= 0x6F000000 -> kmalloc size h = Some (p, h') -> heap_step h h'
  | step_kfree bl b h' o :
      heap_rep h bl -> In b bl -> b_free b = false ->
      kfree (b_addr b + sizeof_heap_block) h = Some (o, h') -> heap_step h h'.

Inductive heap_reachable (m : mem) (e : E) : heap E -> Prop :=
  | hreach_init h : heap_init m e = Some h -> heap_reachable m e h
  | hreach_step h h' : heap_reachable m e h -> heap_step h h' -> heap_reachable m e h'.

Lemma heap_step_rep h h' bl : heap_step h h' -> heap_rep h bl -> exists bl', heap_rep h' bl'.
Proof.
  intros [size p h1 Hs Hk | bl0 b h1 o Hrep0 Hin Hf Hk] Hrep.
  - destruct (kmalloc_facts h bl size Hrep Hs) as (p' & h2 & Hk' & Hcase).
    rewrite Hk in Hk'. simplify_eq. destruct (p' =? 0); [|destruct Hcase as (? & ? & _); eauto].
    destruct Hcase as (? & _). eauto.
  - destruct (in_split b bl0 Hin) as (l1 & l2 & Ebl).
    destruct (kfree_release h bl0 l1 b l2 Hrep0 Ebl Hf) as (h2 & Hk' & Hrep2 & _).
    rewrite Hk in Hk'. simplify_eq. eauto.
Qed.

(** C21: in every reachable heap the blocks tile the mapped range and do not
    overlap, no two neighbours are both free, and [heap_validate] terminates
    and accepts it. *)
Theorem heap_reachable_valid m e h :
  heap_reachable m e h ->
  exists bl, heap_rep h bl /\ heap_validate h = Some true /\
    forall b c, In b bl -> In c bl -> b <> c -> b_end b <= b_addr c \/ b_end c <= b_addr b.
Proof.
  intros Hr. assert (exists bl, heap_rep h bl) as [bl Hrep].
  { induction Hr as [h Hi | h h' Hr [bl IH] Hs].
    - destruct (heap_init_facts m e) as (h0 & Hi' & Hrep). rewrite Hi in Hi'. simplify_eq.
      destruct (fst _); eauto.
    - by eapply heap_step_rep. }
  exists bl. split; [done|]. split.
  - unfold heap_validate. rewrite (rep_head _ _ Hrep).
    eapply heap_validate_loop_spec; [by apply (rep_walk_fuel h)|done|apply (rep_chain _ _ Hrep)].
  - intros b c Hb Hc Hne. destruct (rep_disjoint h bl b c Hrep Hb Hc); [done|auto].
Qed.

(** allocating and releasing a block that was found without growing leaves
    the block list exactly as it was. *)
Theorem kmalloc_kfree_roundtrip h bl size p bl' :
  heap_rep h bl -> 0 < size <= 0x6F000000 ->
  spec_alloc ((size + 15) / 16 * 16) bl = Some (p, bl') ->
  exists h1 h2, kmalloc size h = Some (p, h1) /\ kfree p h1 = Some (KFREE_DONE, h2) /\
    heap_rep h2 bl.
Proof.
  intros Hrep Hs Ha. set (sz := (size + 15) / 16 * 16) in *.
  destruct (kmalloc_facts h bl size Hrep Hs) as (p' & h1 & Hk & Hcase). fold sz in Hcase.
  destruct (spec_alloc_split sz bl p bl' Ha) as (l1 & b & l2 & Ebl & Hfit & Hl1 & Ep & Ebl').
  destruct (Z.eqb_spec p' 0) as [->|Hp']; [destruct Hcase as (_ & _ & Hn & _); congruence|].
  destruct Hcase as (bl1 & Hrep1 & _ & [[Ha' _]|[Ha' _]]); [|congruence].
  assert (p' = p /\ bl1 = bl') as [-> ->] by (split; congruence).
  unfold fits in Hfit. apply andb_prop in Hfit as [Hbf Hbz%Z.leb_le].
  set (b1 := Blk (b_addr b) (if b_size b <? sz + 72 then b_size b else sz) false).
  set (rest := if b_size b <? sz + 72 then []
               else [Blk (b_addr b + 40 + sz) (b_size b - sz - 40) true]).
  assert (Esp : split_alloc sz b = b1 :: rest).
  { unfold split_alloc, b1, rest. heap_consts. replace (sz + 40 + 32) with (sz + 72) by lia. by bcase. }
  assert (Ebl1 : bl' = l1 ++ b1 :: (rest ++ l2)) by (by rewrite Ebl', Esp).
  destruct (kfree_release h1 bl' l1 b1 (rest ++ l2) Hrep1 Ebl1 eq_refl) as (h2 & Hf & Hrep2 & _).
  exists h1, h2. subst p. split; [done|]. split; [exact Hf|].
  replace bl with (spec_free (b_addr b1 + sizeof_heap_block) bl'); [done|].
  unfold spec_free. rewrite Ebl1.
  rewrite (map_free_middle (heap_mem h1) 0 KERNEL_HEAP_BASE _ _ _ (heap_end h1))
    by (rewrite <- Ebl1; apply Hrep1).
  pose proof (rep_coalesced _ _ Hrep) as Hadj. rewrite Ebl in Hadj |- *.
  rewrite <- (merge_free_id (l1 ++ b :: l2)) by done.
  apply no_adjacent_free_middle in Hadj as [Hadj1 _].
  rewrite !merge_free_prefix; [|done|apply no_adjacent_free_replace with b; done].
  f_equal. unfold b1, rest. destruct b as [ba bs bf]. cbn [b_addr b_size b_free] in *. subst bf.
  destruct (bs <? sz + 72) eqn:Hlt; [done|]. cbn [app].
  cbn [merge_free set_field b_free b_addr b_size]. destruct (merge_free l2) as [|c r]; heap_consts.
  - cbn. f_equal. f_equal. lia.
  - cbn. destruct (b_free c) eqn:Hcf; cbn; f_equal; f_equal; lia.
Qed.

End Reachable.

(** * Requests that wrap around *)

Section Overflow.
Context {E : Type} `{PageOps E}.
Implicit Types h : heap E.

(** a request of 2^64 - 15 bytes or more wraps to zero when it is rounded
    up, so [kmalloc] does not fail: it returns a live block that is smaller than
    the request. *)
Theorem kmalloc_rounding_wraps h bl b size :
  heap_rep h bl -> In b bl -> b_free b = true ->
  18446744073709551601 <= size < 18446744073709551616 ->
  exists p h' bl' c, kmalloc size h = Some (p, h') /\ p <> 0 /\ heap_rep h' bl' /\
    In c bl' /\ b_addr c + sizeof_heap_block = p /\ b_free c = false /\ b_size c < size.
Proof.
  intros Hrep Hin Hf Hs. unfold kmalloc. destruct (Z.eqb_spec size 0); [lia|].
  assert (Hal : align_up_size size 16 = 0).
  { unfold align_up_size. replace (u64 (size + 16 - 1)) with (size + 15 - 18446744073709551616) by ulia.
    change (u64 (16 - 1)) with (2 ^ 4 - 1). rewrite land_align_down by (unfold is_u64; lia).
    change (2 ^ 4) with 16. rewrite Z.div_small by lia. done. }
  rewrite Hal. cbn [kmalloc_loop]. rewrite (rep_head _ _ Hrep).
  destruct (find_fit_spec HEAP_FUEL (heap_mem h) 0 0 KERNEL_HEAP_BASE bl (heap_end h))
    as [(l1 & c & l2 & Ebl & Hfit & Hl1 & HR)|[Hnone HR]];
    [by apply (rep_walk_fuel h)|done|apply Hrep| |].
  - rewrite HR. assert (Hc : In c bl) by (subst bl; apply in_app_iff; right; by left).
    destruct (rep_block_bounds h _ c Hrep Hc) as (Hlo & Hhi & Hcs & Hend).
    destruct (kmalloc_take h bl l1 c l2 0 Hrep Ebl Hfit ltac:(lia)) as [Hrep' _].
    destruct (Z.eqb_spec (b_addr c) 0); [heap_consts; lia|]. cbn [negb].
    eexists _, _, _, (Blk (b_addr c) (if b_size c <? 72 then b_size c else 0) false).
    split; [reflexivity|]. split; [heap_consts; lia|]. split; [exact Hrep'|].
    split_and!; try done.
    + apply in_app_iff. right. apply in_app_iff. left. unfold split_alloc.
      change (0 + sizeof_heap_block + HEAP_MIN_SPLIT) with 72. by bcase; left.
    + cbn [b_size]. heap_consts. bcase; lia.
  - exfalso. pose proof (proj1 (List.Forall_forall _ _) Hnone b Hin) as Hb.
    destruct (rep_block_bounds h _ b Hrep Hin) as (_ & _ & Hbs & _).
    unfold fits in Hb. rewrite Hf in Hb. cbn [andb] in Hb. apply Z.leb_gt in Hb. lia.
Qed.

(** a request that carries the end of the heap past 2^64 is granted without
    mapping a page.  On the heap as initialised, [kmalloc(0x70000000)] returns a
    non-null pointer from a 1 MiB heap, [heap_end] becomes 0x5000, and from then
    on [kfree] rejects every heap pointer as out of bounds. *)
Theorem kmalloc_growth_wraps h :
  heap_rep h [Blk KERNEL_HEAP_BASE 16344 true] ->
  exists h', kmalloc 0x70000000 h = Some (KERNEL_HEAP_BASE + 40, h') /\
    heap_end h' = 0x5000 /\
    forall p, KERNEL_HEAP_BASE <= p - 40 < 0x10000000000000000 ->
      kfree p h' = Some (KFREE_OUT_OF_BOUNDS, h').
Proof.
  intros Hrep. pose proof (rep_chain _ _ Hrep) as Hc. pose proof (rep_walk_fuel h _ Hrep) as Hfuel.
  cbn [chain] in Hc. destruct Hc as (_ & _ & Hh & Hend).
  assert (He : heap_end h = 0xFFFFFFFF90004000) by (rewrite <- Hend; done).
  destruct Hh as (Hm & Hz & Hf & Hn & Hp). cbn [b_addr b_size b_free] in *.
  unfold kmalloc. cbn [Z.eqb]. change (align_up_size 0x70000000 16) with 0x70000000.
  destruct (HEAP_FUEL_SS) as [fuel Hfu].
  assert (Hfind : forall s m, blk_magic m KERNEL_HEAP_BASE = HEAP_FREED_MAGIC ->
    blk_size m KERNEL_HEAP_BASE = s -> blk_free m KERNEL_HEAP_BASE = 1 ->
    blk_next m KERNEL_HEAP_BASE = 0 ->
    find_fit HEAP_FUEL m 0x70000000 KERNEL_HEAP_BASE
      = Some (if 0x70000000 <=? s then KERNEL_HEAP_BASE else 0)).
  { intros s m H1 H2 H3 H4. rewrite Hfu. cbn [find_fit]. rewrite H1, H2, H3, H4.
    destruct (0x70000000 <=? s); done. }
  assert (Htail : find_tail HEAP_FUEL (heap_mem h) KERNEL_HEAP_BASE = Some KERNEL_HEAP_BASE).
  { rewrite Hfu. cbn [find_tail]. by rewrite Hn. }
  cbn [kmalloc_loop]. rewrite (rep_head _ _ Hrep). cbn [nextp].
  rewrite (Hfind 16344) by done. cbn [Z.leb Z.compare negb Z.eqb].
  assert (Hexp : heap_expand (u64 (0x70000000 + sizeof_heap_block)) h =
    Some (true, h <| heap_env := heap_env h |> <| heap_end := 0x5000 |>
      <| heap_mem := set_size KERNEL_HEAP_BASE (16344 + 0x70001000) (heap_mem h) |>)).
  { unfold heap_expand. rewrite He, (rep_limit _ _ Hrep).
    change (align_up_ptr _ PMM_PAGE_SIZE) with 0x5000.
    change (KERNEL_HEAP_BASE + KERNEL_HEAP_MAX_PAGES * PMM_PAGE_SIZE <? 0x5000) with false.
    change (Z.to_nat _) with 0%nat. cbn [heap_map_pages].
    cbn [heap_mem heap_head set_field]. rewrite (rep_head _ _ Hrep). cbn [nextp].
    rewrite Htail, Hf, Hz. done. }
  rewrite Hexp. cbn [heap_mem heap_head set_field]. rewrite (rep_head _ _ Hrep). cbn [nextp].
  set (m1 := set_size KERNEL_HEAP_BASE (16344 + 0x70001000) (heap_mem h)).
  rewrite (Hfind (16344 + 0x70001000) m1); unfold m1; fields;
    [|by hdr_simpl|by hdr_simpl|by hdr_simpl|by hdr_simpl].
  eexists. split; [reflexivity|]. split; [reflexivity|].
  intros p Hpp. unfold kfree. cbn [heap_start heap_end set_field]. rewrite (rep_start _ _ Hrep).
  heap_consts. destruct (Z.eqb_spec p 0); [lia|].
  replace (u64 (p - 40)) with (p - 40) by ulia.
  destruct (Z.leb_spec 0x5000 (p - 40)); [|lia]. by rewrite orb_true_r.
Qed.

End Overflow.

(** * A concrete page provider, for evaluating the definitions *)

Definition demo_env : Type := pmm * gmap Z Z.
#[export] Instance demo_pages : PageOps demo_env := {
  op_pmm_alloc := fun e => let '(r, s) := pmm_alloc (fst e) in (r, (s, snd e));
  op_pmm_free := fun p e => (pmm_free p (fst e), snd e);
  op_vmm_map := fun v p _ e => (fst e, <[v := p]> (snd e));
  op_vmm_is_mapped := fun v e => if snd e !! v then true else false
}.

Lemma demo_heap :
  exists h : heap demo_env, heap_init ∅ (pmm_init 0, ∅) = Some h /\
    heap_rep h [Blk KERNEL_HEAP_BASE 16344 true].
Proof.
  destruct (heap_init_facts (∅ : mem) ((pmm_init 0, ∅) : demo_env)) as (h & Hi & Hrep).
  assert (Ht : fst (heap_map_pages 4 KERNEL_HEAP_BASE ((pmm_init 0, ∅) : demo_env)) = true)
    by (vm_compute; reflexivity).
  rewrite Ht in Hrep. eauto.
Qed.

Definition demo_blocks : list blk :=
  [Blk KERNEL_HEAP_BASE 112 false; Blk (KERNEL_HEAP_BASE + 152) 16192 true].

(** A heap with one live block of 112 bytes. *)
Lemma demo_live : exists h : heap demo_env, heap_rep h demo_blocks.
Proof.
  destruct demo_heap as (h & _ & Hrep).
  destruct (kmalloc_facts h _ 100 Hrep ltac:(lia)) as (p & h' & _ & Hc).
  destruct (Z.eqb_spec p 0); [by destruct Hc as (_ & _ & Hc & _)|].
  destruct Hc as (bl' & Hrep' & _ & [[Hs _]|[Hs _]]); [|done].
  exists h'. cbn in Hs. injection Hs as <- <-. exact Hrep'.
Qed.

Lemma kfree_spec_witness :
  exists (h h' : heap demo_env), heap_rep h demo_blocks /\
    kfree (KERNEL_HEAP_BASE + 40) h = Some (KFREE_DONE, h') /\
    kfree (KERNEL_HEAP_BASE + 40) h' = Some (KFREE_DOUBLE_FREE, h').
Proof.
  destruct demo_live as [h Hrep].
  destruct (kfree_spec h demo_blocks (Blk KERNEL_HEAP_BASE 112 false) Hrep (or_introl eq_refl) eq_refl)
    as (h' & H1 & _ & _ & _ & _ & H2).
  exists h, h'. exact (conj Hrep (conj H1 H2)).
Defined.

Lemma kmalloc_spec_witness :
  exists (h : heap demo_env) p h', heap_rep h [Blk KERNEL_HEAP_BASE 16344 true] /\
    kmalloc 100 h = Some (p, h').
Proof.
  destruct demo_heap as (h & _ & Hrep).
  destruct (kmalloc_spec h _ 100 Hrep ltac:(lia)) as (p & h' & Hk & _).
  exists h, p, h'. exact (conj Hrep Hk).
Defined.

Lemma heap_reachable_valid_witness :
  exists h : heap demo_env, heap_reachable ∅ (pmm_init 0, ∅) h /\ heap_validate h = Some true.
Proof.
  destruct demo_heap as (h & Hi & _). exists h.
  pose proof (hreach_init ∅ (pmm_init 0, ∅) h Hi) as Hr. split; [exact Hr|].
  destruct (heap_reachable_valid _ _ h Hr) as (bl & _ & Hv & _). exact Hv.
Defined.

Lemma kmalloc_kfree_roundtrip_witness :
  exists (h h2 : heap demo_env), heap_rep h [Blk KERNEL_HEAP_BASE 16344 true] /\
    heap_rep h2 [Blk KERNEL_HEAP_BASE 16344 true].
Proof.
  destruct demo_heap as (h & _ & Hrep).
  destruct (kmalloc_kfree_roundtrip h _ 100 (KERNEL_HEAP_BASE + 40) demo_blocks Hrep
    ltac:(lia) eq_refl) as (h1 & h2 & _ & _ & H2).
  exists h, h2. exact (conj Hrep H2).
Defined.

Lemma kmalloc_rounding_wraps_witness :
  exists (h : heap demo_env) p h', kmalloc 18446744073709551615 h = Some (p, h') /\ p <> 0.
Proof.
  destruct demo_heap as (h & _ & Hrep).
  destruct (kmalloc_rounding_wraps h _ (Blk KERNEL_HEAP_BASE 16344 true) 18446744073709551615
    Hrep (or_introl eq_refl) eq_refl ltac:(lia)) as (p & h' & _ & _ & Hk & Hp & _).
  exists h, p, h'. exact (conj Hk Hp).
Defined.

Lemma kmalloc_growth_wraps_witness :
  exists h h' : heap demo_env, kmalloc 0x70000000 h = Some (KERNEL_HEAP_BASE + 40, h') /\
    heap_end h' = 0x5000.
Proof.
  destruct demo_heap as (h & _ & Hrep).
  destruct (kmalloc_growth_wraps h Hrep) as (h' & Hk & He & _).
  exists h, h'. exact (conj Hk He).
Defined.
