(* ===== verification/Bcache.v ===== *)
(** The sector cache of [src/src/kernel/bcache.c]: 64 entries, LRU replacement,
    write-through with a dirty mark when the write to the disk fails.

    The disk is used through [BlockDev] (one-sector [ata_read_sectors] and
    [ata_write_sectors] of ata.c).  A failed one-sector read leaves the buffer as
    it was, because ata.c waits for the data request before it transfers; a
    failed write may or may not have reached the sector.  [bcache_mutex] makes
    each operation atomic, so an operation is one function on [bcache].

    The theorems compare the cache with the disk the file systems think they
    have: [logical s lba] is the cached sector, or the disk's when it is not
    cached. *)

From S2P Require Import Prelude.

Class BlockDev (D : Type) := {
  ata_read_sector : Z -> D -> option (list Z) * D;
  ata_write_sector : Z -> list Z -> D -> bool * D
}.

Definition BCACHE_SECTOR_SIZE : Z := 512.
Definition BCACHE_BLOCK_COUNT : Z := 64.

Record bcache_entry := mk_entry {
  e_lba : Z; e_data : list Z; e_valid : bool; e_dirty : bool; e_last_access : Z
}.
#[export] Instance eta_bcache_entry : Eta bcache_entry := fun e =>
  mk_entry (e_lba e) (e_data e) (e_valid e) (e_dirty e) (e_last_access e).

Record bcache_stats := mk_stats {
  st_hits : Z; st_misses : Z; st_reads : Z; st_writes : Z; st_flushes : Z
}.
#[export] Instance eta_bcache_stats : Eta bcache_stats := fun t =>
  mk_stats (st_hits t) (st_misses t) (st_reads t) (st_writes t) (st_flushes t).

(** A zeroed entry, as [bcache_init] leaves it. *)
Definition zero_entry : bcache_entry := mk_entry 0 (replicate 512 0) false false 0.
#[export] Instance bcache_entry_inhabited : Inhabited bcache_entry := populate zero_entry.

Record bcache D := mk_bcache {
  cache_pool : list bcache_entry;
  access_counter : Z;
  bcache_stats_data : bcache_stats;
  disk : D
}.
Arguments mk_bcache {D} _ _ _ _.
Arguments cache_pool {D} _.
Arguments access_counter {D} _.
Arguments bcache_stats_data {D} _.
Arguments disk {D} _.
#[export] Instance eta_bcache D : Eta (bcache D) := fun s =>
  mk_bcache (cache_pool s) (access_counter s) (bcache_stats_data s) (disk s).

Definition bump_reads (t : bcache_stats) := t <| st_reads := u64 (st_reads t + 1) |>.
Definition bump_writes (t : bcache_stats) := t <| st_writes := u64 (st_writes t + 1) |>.
Definition bump_hits (t : bcache_stats) := t <| st_hits := u64 (st_hits t + 1) |>.
Definition bump_misses (t : bcache_stats) := t <| st_misses := u64 (st_misses t + 1) |>.
Definition bump_flushes (t : bcache_stats) := t <| st_flushes := u64 (st_flushes t + 1) |>.

(** * Operations *)

(** The hit loop: the first valid entry for [lba]. *)
Fixpoint find_hit (pool : list bcache_entry) (i lba : Z) : option Z :=
  match pool with
  | [] => None
  | e :: pool' =>
      if e_valid e && (e_lba e =? lba) then Some i else find_hit pool' (i + 1) lba
  end.

(** The LRU loop: stop at the first invalid entry, else keep the oldest. *)
Fixpoint select_victim (pool : list bcache_entry) (i victim_idx oldest_access : Z) : Z :=
  match pool with
  | [] => victim_idx
  | e :: pool' =>
      if negb (e_valid e) then i
      else if e_last_access e <? oldest_access
      then select_victim pool' (i + 1) i (e_last_access e)
      else select_victim pool' (i + 1) victim_idx oldest_access
  end.

Definition victim_index (pool : list bcache_entry) : Z :=
  let v := select_victim pool 0 (-1) 18446744073709551615 in
  if v <? 0 then 0 else v.

Section Ops.
Context {D : Type} `{BlockDev D}.
Implicit Types s : bcache D.

Definition entry s (i : Z) : bcache_entry := arr_get (cache_pool s) i.
Definition set_entry (i : Z) (e : bcache_entry) s : bcache D :=
  s <| cache_pool := arr_set (cache_pool s) i e |>.
Definition stat (f : bcache_stats -> bcache_stats) s : bcache D :=
  s <| bcache_stats_data := f (bcache_stats_data s) |>.
(** [++access_counter] *)
Definition tick s : bcache D := s <| access_counter := u64 (access_counter s + 1) |>.

Definition bcache_init (d : D) : bcache D :=
  mk_bcache (replicate (Z.to_nat BCACHE_BLOCK_COUNT) zero_entry) 0 (mk_stats 0 0 0 0 0) d.

(** The write-back of a dirty victim in [bcache_read_sector]; [false] is the
    early [return 0]. *)
Definition read_writeback (v : Z) s : bool * bcache D :=
  let victim := entry s v in
  if e_valid victim && e_dirty victim then
    let '(r, d) := ata_write_sector (e_lba victim) (e_data victim) (disk s) in
    let s := s <| disk := d |> in
    if r then (true, set_entry v (victim <| e_dirty := false |>) s) else (false, s)
  else (true, s).

(** [None] is the return value 0; [Some data] is 1 with the sector copied to
    the caller's buffer.  [buffer] says whether the pointer is non-null. *)
Definition bcache_read_sector (lba : Z) (buffer : bool) s : option (list Z) * bcache D :=
  if negb buffer then (None, s)
  else
    let s := stat bump_reads s in
    match find_hit (cache_pool s) 0 lba with
    | Some i =>
        let s := tick (stat bump_hits s) in
        let s := set_entry i (entry s i <| e_last_access := access_counter s |>) s in
        (Some (e_data (entry s i)), s)
    | None =>
        let s := stat bump_misses s in
        let v := victim_index (cache_pool s) in
        let '(ok, s) := read_writeback v s in
        if negb ok then (None, s)
        else
          match ata_read_sector lba (disk s) with
          | (None, d) => (None, s <| disk := d |>)
          | (Some data, d) =>
              let s := tick (s <| disk := d |>) in
              let s := set_entry v (mk_entry lba data true false (access_counter s)) s in
              (Some data, s)
          end
    end.

(** The entry [bcache_write_sector] writes to: a hit, or the victim after its
    write-back (whose result is not checked) and relabelling. *)
Definition write_target (lba : Z) s : Z * bcache D :=
  match find_hit (cache_pool s) 0 lba with
  | Some i => (i, stat bump_hits s)
  | None =>
      let s := stat bump_misses s in
      let v := victim_index (cache_pool s) in
      let target := entry s v in
      let s :=
        if e_valid target && e_dirty target then
          let '(_, d) := ata_write_sector (e_lba target) (e_data target) (disk s) in
          set_entry v (target <| e_dirty := false |>) (s <| disk := d |>)
        else s in
      (v, set_entry v (entry s v <| e_lba := lba |> <| e_valid := true |>) s)
  end.

(** The result is the return value; [buffer = None] is the null pointer. *)
Definition bcache_write_sector (lba : Z) (buffer : option (list Z)) s : bool * bcache D :=
  match buffer with
  | None => (false, s)
  | Some buf =>
      let s := stat bump_writes s in
      let '(t, s) := write_target lba s in
      let s := tick s in
      let s := set_entry t (entry s t <| e_data := take 512 buf |>
                                      <| e_last_access := access_counter s |>
                                      <| e_dirty := false |>) s in
      let '(res, d) := ata_write_sector lba (take 512 buf) (disk s) in
      let s := s <| disk := d |> in
      (res, if res then s else set_entry t (entry s t <| e_dirty := true |>) s)
  end.

(** One iteration of the flush loop. *)
Definition flush_entry (i : Z) s : bcache D :=
  let e := entry s i in
  if e_valid e && e_dirty e then
    let '(r, d) := ata_write_sector (e_lba e) (e_data e) (disk s) in
    let s := s <| disk := d |> in
    if r then set_entry i (e <| e_dirty := false |>) s else s
  else s.

Definition bcache_flush s : bool * bcache D :=
  (true, for_up (Z.to_nat BCACHE_BLOCK_COUNT) 0 flush_entry (stat bump_flushes s)).

Definition bcache_sync s : bool * bcache D := bcache_flush s.

Definition invalidate_entry (lba i : Z) s : bcache D :=
  let e := entry s i in
  if e_valid e && (e_lba e =? lba)
  then set_entry i (e <| e_valid := false |> <| e_dirty := false |>) s else s.

Definition bcache_invalidate (lba : Z) s : bcache D :=
  for_up (Z.to_nat BCACHE_BLOCK_COUNT) 0 (invalidate_entry lba) s.

(** The loop of [bcache_read_sectors]; [n] sectors are left, [i] were read. *)
Fixpoint read_sectors_loop (n : nat) (lba i : Z) s : option (list Z) * bcache D :=
  match n with
  | O => (Some [], s)
  | S n' =>
      match bcache_read_sector (u32 (lba + i)) true s with
      | (None, s) => (None, s)
      | (Some data, s) =>
          match read_sectors_loop n' lba (i + 1) s with
          | (Some rest, s) => (Some (data ++ rest), s)
          | (None, s) => (None, s)
          end
      end
  end.

Definition bcache_read_sectors (lba count : Z) (buffer : bool) s : option (list Z) * bcache D :=
  if negb buffer || (count =? 0) then (None, s)
  else read_sectors_loop (Z.to_nat count) lba 0 s.

Fixpoint write_sectors_loop (n : nat) (lba i : Z) (buf : list Z) s : bool * bcache D :=
  match n with
  | O => (true, s)
  | S n' =>
      match bcache_write_sector (u32 (lba + i)) (Some buf) s with
      | (false, s) => (false, s)
      | (true, s) => write_sectors_loop n' lba (i + 1) (drop 512 buf) s
      end
  end.

Definition bcache_write_sectors (lba count : Z) (buffer : option (list Z)) s : bool * bcache D :=
  match buffer with
  | None => (false, s)
  | Some buf => if count =? 0 then (false, s)
                else write_sectors_loop (Z.to_nat count) lba 0 buf s
  end.

Definition bcache_get_stats s : bcache_stats := bcache_stats_data s.

(** [ata_block_read] and [ata_block_write] of ata.c: the block device node. *)
Definition ata_block_read (offset size : Z) (buffer : bool) s : Z * option (list Z) * bcache D :=
  if negb (offset mod 512 =? 0) || negb (size mod 512 =? 0) || (size =? 0) then (0, None, s)
  else
    match bcache_read_sectors (u32 (offset / 512)) (u32 (size / 512)) buffer s with
    | (None, s) => (0, None, s)
    | (Some data, s) => (s32 size, Some data, s)
    end.

Definition ata_block_write (offset size : Z) (buffer : option (list Z)) s : Z * bcache D :=
  if negb (offset mod 512 =? 0) || negb (size mod 512 =? 0) || (size =? 0) then (0, s)
  else
    match bcache_write_sectors (u32 (offset / 512)) (u32 (size / 512)) buffer s with
    | (false, s) => (0, s)
    | (true, s) => (size, s)
    end.

End Ops.

(** * What the disk promises *)

Class BlockDevLaws (D : Type) `{BlockDev D} := {
  contents : D -> Z -> list Z;
  ata_read_spec : forall lba d,
    match ata_read_sector lba d with
    | (Some data, d') => data = contents d lba /\ forall x, contents d' x = contents d x
    | (None, d') => forall x, contents d' x = contents d x
    end;
  ata_write_spec : forall lba data d,
    let '(r, d') := ata_write_sector lba data d in
    (r = true -> contents d' lba = data) /\
    forall x, x <> lba -> contents d' x = contents d x
}.

(** * The pool as a partial map *)

Abbreviation POOL := 64 (only parsing).

(** The sector a pool over the disk contents [c] stands for. *)
Definition plogical (pool : list bcache_entry) (c : Z -> list Z) (x : Z) : list Z :=
  match find_hit pool 0 x with
  | Some i => e_data (arr_get pool i)
  | None => c x
  end.

Record pool_ok (pool : list bcache_entry) (c : Z -> list Z) : Prop := {
  pool_len : len pool = POOL;
  pool_uniq : forall i j, 0 <= i < POOL -> 0 <= j < POOL ->
    e_valid (arr_get pool i) = true -> e_valid (arr_get pool j) = true ->
    e_lba (arr_get pool i) = e_lba (arr_get pool j) -> i = j;
  pool_clean : forall i, 0 <= i < POOL ->
    e_valid (arr_get pool i) = true -> e_dirty (arr_get pool i) = false ->
    e_data (arr_get pool i) = c (e_lba (arr_get pool i))
}.

Lemma find_hit_spec pool i lba :
  match find_hit pool i lba with
  | Some k => i <= k < i + len pool /\
      e_valid (arr_get pool (k - i)) = true /\ e_lba (arr_get pool (k - i)) = lba
  | None => forall k, 0 <= k < len pool ->
      e_valid (arr_get pool k) = true -> e_lba (arr_get pool k) <> lba
  end.
Proof.
  revert i. induction pool as [|e pool IH]; intros i; cbn [find_hit].
  { unfold len. cbn. lia. }
  assert (Hlen : len (e :: pool) = len pool + 1) by (unfold len; cbn [length]; lia).
  assert (Hcons : forall k, 0 <= k < len pool -> arr_get (e :: pool) (k + 1) = arr_get pool k).
  { intros k Hk. unfold arr_get. replace (Z.to_nat (k + 1)) with (S (Z.to_nat k)) by lia. done. }
  destruct (e_valid e && (e_lba e =? lba)) eqn:Hc.
  - apply andb_prop in Hc as [Hv Hl%Z.eqb_eq]. rewrite Z.sub_diag. unfold len. cbn.
    split_and!; try done; lia.
  - specialize (IH (i + 1)). destruct (find_hit pool (i + 1) lba) as [k|].
    + destruct IH as (Hk & Hv & Hl). split; [lia|].
      replace (k - i) with (k - (i + 1) + 1) by lia. by rewrite Hcons by lia.
    + intros k Hk Hv. destruct (Z.eq_dec k 0) as [->|Hne].
      * change (arr_get (e :: pool) 0) with e in *. rewrite Hv in Hc. by apply Z.eqb_neq.
      * replace k with (k - 1 + 1) in Hv |- * by lia. rewrite Hcons in Hv |- * by lia.
        apply IH; [lia|done].
Qed.

Lemma find_hit_some pool lba i :
  find_hit pool 0 lba = Some i ->
  0 <= i < len pool /\ e_valid (arr_get pool i) = true /\ e_lba (arr_get pool i) = lba.
Proof. intros E. pose proof (find_hit_spec pool 0 lba) as H. rewrite E, Z.sub_0_r in H. exact H. Qed.

Lemma find_hit_none pool lba i :
  find_hit pool 0 lba = None -> 0 <= i < len pool ->
  e_valid (arr_get pool i) = true -> e_lba (arr_get pool i) <> lba.
Proof. intros E. pose proof (find_hit_spec pool 0 lba) as H. rewrite E in H. apply H. Qed.

(** Updating an entry without changing its key keeps every miss a miss. *)
Lemma find_hit_same_keys pool i e lba :
  0 <= i < len pool -> e_lba e = e_lba (arr_get pool i) -> e_valid e = e_valid (arr_get pool i) ->
  find_hit pool 0 lba = None -> find_hit (arr_set pool i e) 0 lba = None.
Proof.
  intros Hi Hl Hv Hn. destruct (find_hit (arr_set pool i e) 0 lba) as [j|] eqn:E; [|done].
  apply find_hit_some in E as (Hj & Hvj & Hlj). rewrite len_arr_set in Hj. exfalso.
  destruct (Z.eq_dec j i) as [->|Hne].
  - rewrite arr_get_set_eq in Hvj, Hlj by lia. apply (find_hit_none _ _ i Hn Hi); congruence.
  - rewrite arr_get_set_ne in Hvj, Hlj by lia. by apply (find_hit_none _ _ j Hn Hj).
Qed.

(** The logical sector, read off any entry that caches it. *)
Lemma plogical_cached pool c i x :
  pool_ok pool c -> 0 <= i < POOL -> e_valid (arr_get pool i) = true ->
  e_lba (arr_get pool i) = x -> plogical pool c x = e_data (arr_get pool i).
Proof.
  intros [] Hi Hv Hl. unfold plogical. destruct (find_hit pool 0 x) as [j|] eqn:E.
  - apply find_hit_some in E as (Hj & Hvj & Hlj). rewrite pool_len0 in Hj.
    by rewrite (pool_uniq0 j i Hj Hi Hvj Hv) by congruence.
  - rewrite <- pool_len0 in Hi. by apply (find_hit_none _ _ i) in E.
Qed.

Lemma plogical_uncached pool c x :
  len pool = POOL ->
  (forall i, 0 <= i < POOL -> e_valid (arr_get pool i) = true -> e_lba (arr_get pool i) <> x) ->
  plogical pool c x = c x.
Proof.
  intros Hlen Hno. unfold plogical. destruct (find_hit pool 0 x) as [j|] eqn:E; [|done].
  apply find_hit_some in E as (Hj & Hvj & Hlj). rewrite Hlen in Hj. by apply (Hno j) in Hlj.
Qed.

(** Replacing entry [i] over new disk contents [c']: the result is well formed
    and stands for [L] if the new entry, the other entries and the uncovered
    sectors all agree with [L]. *)
Lemma pool_replace pool c i e c' (L : Z -> list Z) :
  pool_ok pool c -> 0 <= i < POOL ->
  (e_valid e = true -> e_dirty e = false -> e_data e = c' (e_lba e)) ->
  (e_valid e = true -> e_data e = L (e_lba e)) ->
  (forall j, 0 <= j < POOL -> j <> i -> e_valid (arr_get pool j) = true ->
     (e_valid e = true -> e_lba (arr_get pool j) <> e_lba e) /\
     e_data (arr_get pool j) = L (e_lba (arr_get pool j)) /\
     (e_dirty (arr_get pool j) = false -> c' (e_lba (arr_get pool j)) = c (e_lba (arr_get pool j)))) ->
  (forall x, (e_valid e = true -> e_lba e <> x) ->
     (forall j, 0 <= j < POOL -> j <> i -> e_valid (arr_get pool j) = true ->
        e_lba (arr_get pool j) <> x) -> c' x = L x) ->
  pool_ok (arr_set pool i e) c' /\ forall x, plogical (arr_set pool i e) c' x = L x.
Proof.
  intros [Hlen Huniq Hclean] Hi Hce HLe Hoth Hunc.
  assert (Hgi : arr_get (arr_set pool i e) i = e) by (apply arr_get_set_eq; lia).
  assert (Hgj : forall j, 0 <= j -> j <> i -> arr_get (arr_set pool i e) j = arr_get pool j)
    by (intros; apply arr_get_set_ne; lia).
  assert (Hok : pool_ok (arr_set pool i e) c').
  { split; [by rewrite len_arr_set| |].
    - intros j k Hj Hk Hvj Hvk Hl.
      destruct (Z.eq_dec j i) as [->|Hji], (Z.eq_dec k i) as [->|Hki]; try done;
        rewrite ?Hgi, ?Hgj in * by lia.
      + destruct (Hoth k Hk Hki Hvk) as (Hne & _). by destruct (Hne Hvj).
      + destruct (Hoth j Hj Hji Hvj) as (Hne & _). by destruct (Hne Hvk).
      + by apply Huniq.
    - intros j Hj Hv Hd. destruct (Z.eq_dec j i) as [->|Hji]; rewrite ?Hgi, ?Hgj in * by lia; auto.
      destruct (Hoth j Hj Hji Hv) as (_ & _ & Hc). rewrite Hc by done. auto. }
  split; [exact Hok|]. intros x.
  destruct (find_hit (arr_set pool i e) 0 x) as [j|] eqn:E.
  - apply find_hit_some in E as (Hj & Hv & Hl). rewrite len_arr_set, Hlen in Hj.
    rewrite (plogical_cached _ _ j x Hok Hj Hv Hl).
    destruct (Z.eq_dec j i) as [->|Hji]; rewrite ?Hgi, ?Hgj in * by lia; subst x; auto.
    by apply Hoth.
  - rewrite plogical_uncached; [|apply Hok|].
    + apply Hunc.
      * intros Hv. pose proof (find_hit_none _ _ i E) as Hn. rewrite len_arr_set, Hgi in Hn.
        apply Hn; [lia|done].
      * intros k Hk Hki Hv. pose proof (find_hit_none _ _ k E) as Hn.
        rewrite len_arr_set, Hgj in Hn by lia. apply Hn; [lia|done].
    + intros k Hk. apply (find_hit_none _ _ k E). by rewrite len_arr_set, Hlen.
Qed.

(** * The LRU choice *)

Lemma select_victim_spec pool i v oldest :
  let r := select_victim pool i v oldest in
  (exists k, 0 <= k < len pool /\ r = i + k /\ e_valid (arr_get pool k) = false) \/
  ((forall k, 0 <= k < len pool -> e_valid (arr_get pool k) = true) /\
   ((r = v /\ forall k, 0 <= k < len pool -> oldest <= e_last_access (arr_get pool k)) \/
    exists k, 0 <= k < len pool /\ r = i + k /\ e_last_access (arr_get pool k) < oldest /\
      forall j, 0 <= j < len pool ->
        e_last_access (arr_get pool k) <= e_last_access (arr_get pool j))).
Proof.
  revert i v oldest. induction pool as [|e pool IH]; intros i v oldest r.
  { right. unfold len. cbn. split; [lia|]. left. split; [done|lia]. }
  assert (Hlen : len (e :: pool) = len pool + 1) by (unfold len; cbn [length]; lia).
  assert (Hpos : 0 <= len pool) by (unfold len; lia).
  assert (H0 : arr_get (e :: pool) 0 = e) by done.
  assert (Hcons : forall k, 0 <= k -> arr_get (e :: pool) (k + 1) = arr_get pool k).
  { intros k Hk. unfold arr_get. replace (Z.to_nat (k + 1)) with (S (Z.to_nat k)) by lia. done. }
  assert (Hall : forall P : bcache_entry -> Prop, P e -> (forall k, 0 <= k < len pool -> P (arr_get pool k)) ->
    forall k, 0 <= k < len (e :: pool) -> P (arr_get (e :: pool) k)).
  { intros P Pe Pp k Hk. destruct (Z.eq_dec k 0) as [->|]; [done|].
    replace k with (k - 1 + 1) by lia. rewrite Hcons by lia. apply Pp. lia. }
  unfold r. cbn [select_victim]. destruct (e_valid e) eqn:Hv; cbn [negb].
  2: { left. exists 0. rewrite H0. split_and!; try done; lia. }
  destruct (Z.ltb_spec (e_last_access e) oldest) as [Hlt|Hge].
  - destruct (IH (i + 1) i (e_last_access e)) as
      [(k & Hk & Hr & Hi)|[Hval [[Hr Hmin]|(k & Hk & Hr & Hkl & Hmin)]]].
    + left. exists (k + 1). rewrite Hcons by lia. split_and!; try done; lia.
    + right. split; [by apply (Hall (fun x => e_valid x = true))|]. right. exists 0. rewrite H0.
      split_and!; try done; try lia. apply (Hall (fun x => e_last_access e <= e_last_access x)); [lia|done].
    + right. split; [by apply (Hall (fun x => e_valid x = true))|]. right. exists (k + 1).
      rewrite Hcons by lia. split_and!; try lia.
      apply (Hall (fun x => e_last_access (arr_get pool k) <= e_last_access x)); [lia|done].
  - destruct (IH (i + 1) v oldest) as
      [(k & Hk & Hr & Hi)|[Hval [[Hr Hmin]|(k & Hk & Hr & Hkl & Hmin)]]].
    + left. exists (k + 1). rewrite Hcons by lia. split_and!; try done; lia.
    + right. split; [by apply (Hall (fun x => e_valid x = true))|]. left. split; [done|].
      apply (Hall (fun x => oldest <= e_last_access x)); [lia|done].
    + right. split; [by apply (Hall (fun x => e_valid x = true))|]. right. exists (k + 1).
      rewrite Hcons by lia. split_and!; try lia.
      apply (Hall (fun x => e_last_access (arr_get pool k) <= e_last_access x)); [lia|done].
Qed.

Lemma victim_index_range pool : len pool = POOL -> 0 <= victim_index pool < POOL.
Proof.
  intros Hlen. unfold victim_index.
  destruct (select_victim_spec pool 0 (-1) 18446744073709551615) as
    [(k & Hk & Hr & _)|[_ [[Hr _]|(k & Hk & Hr & _)]]]; rewrite Hr; bcase; lia.
Qed.

(** the replaced entry is in the pool; it is an unused one whenever there
    is one, and otherwise no entry was accessed longer ago. *)
Theorem victim_index_lru pool :
  len pool = BCACHE_BLOCK_COUNT ->
  (forall i, 0 <= i < BCACHE_BLOCK_COUNT -> is_u64 (e_last_access (arr_get pool i))) ->
  let v := victim_index pool in
  0 <= v < BCACHE_BLOCK_COUNT /\
  (e_valid (arr_get pool v) = true ->
   forall j, 0 <= j < BCACHE_BLOCK_COUNT ->
     e_valid (arr_get pool j) = true /\
     e_last_access (arr_get pool v) <= e_last_access (arr_get pool j)).
Proof.
  change BCACHE_BLOCK_COUNT with 64. intros Hlen Hu v.
  split; [by apply victim_index_range|]. intros Hv j Hj. revert Hv. unfold v, victim_index.
  destruct (select_victim_spec pool 0 (-1) 18446744073709551615) as
    [(k & Hk & Hr & Hi)|[Hval [[Hr Hmin]|(k & Hk & Hr & _ & Hmin)]]]; rewrite Hr.
  - destruct (Z.ltb_spec (0 + k) 0); [lia|]. rewrite Z.add_0_l in *. congruence.
  - cbn [Z.ltb Z.compare]. split; [apply Hval; lia|].
    pose proof (Hmin j ltac:(lia)). pose proof (Hu 0 ltac:(lia)). unfold is_u64 in *. lia.
  - destruct (Z.ltb_spec (0 + k) 0); [lia|]. rewrite Z.add_0_l in *. split; [apply Hval; lia|].
    apply Hmin. lia.
Qed.

(** * Refinement of the disk *)

Section Refinement.
Context {D : Type} `{BlockDevLaws D}.
Implicit Types s : bcache D.

Definition bc_ok s : Prop := pool_ok (cache_pool s) (contents (disk s)).
Definition logical s (x : Z) : list Z := plogical (cache_pool s) (contents (disk s)) x.

Lemma entry_set_entry s i e : 0 <= i < len (cache_pool s) -> entry (set_entry i e s) i = e.
Proof. apply arr_get_set_eq. Qed.

Lemma bc_disk_ext s d :
  bc_ok s -> (forall x, contents d x = contents (disk s) x) ->
  bc_ok (s <| disk := d |>) /\ forall x, logical (s <| disk := d |>) x = logical s x.
Proof.
  intros [Hl Hu Hc] Hd. split.
  - split; cbn; try done. intros i Hi Hv Hdd. rewrite Hd. auto.
  - intros x. unfold logical, plogical. cbn. destruct (find_hit _ 0 x); [done|apply Hd].
Qed.

(** Re-marking an entry (access time, or a clean bit backed by the disk) does
    not change what the cache stands for. *)
Lemma bc_touch s i e d :
  bc_ok s -> 0 <= i < POOL ->
  e_lba e = e_lba (entry s i) -> e_data e = e_data (entry s i) ->
  e_valid e = e_valid (entry s i) ->
  (e_valid e = true -> e_dirty e = false ->
     e_data e = contents d (e_lba e)) ->
  (forall x, (e_valid e = true -> x <> e_lba e) -> contents d x = contents (disk s) x) ->
  bc_ok (set_entry i e (s <| disk := d |>)) /\
  forall x, logical (set_entry i e (s <| disk := d |>)) x = logical s x.
Proof.
  intros Hok Hi Hl Hda Hv Hcl Hd. unfold entry in *.
  apply (pool_replace (cache_pool s) (contents (disk s)) i e (contents d) (logical s)); try done.
  - intros Hve. rewrite Hda, Hl. symmetry. apply plogical_cached; congruence || done.
  - intros j Hj Hji Hvj.
    assert (Hne : e_valid e = true -> e_lba (arr_get (cache_pool s) j) <> e_lba e).
    { intros Hve E. apply Hji. apply (pool_uniq _ _ Hok); congruence || done. }
    split_and!; try done.
    + symmetry. by apply plogical_cached.
    + intros _. by apply Hd.
  - intros x Hx1 Hx2. rewrite Hd by (intros Hve E; by apply (Hx1 Hve)).
    symmetry. apply plogical_uncached; [apply Hok|]. intros j Hj Hvj.
    destruct (Z.eq_dec j i) as [->|]; [|by apply Hx2].
    rewrite <- Hl. apply Hx1. congruence.
Qed.

(** Loading an uncached sector into a clean or unused entry. *)
Lemma bc_load s i lba data d t :
  bc_ok s -> 0 <= i < POOL -> find_hit (cache_pool s) 0 lba = None ->
  e_valid (entry s i) && e_dirty (entry s i) = false ->
  data = contents (disk s) lba -> (forall x, contents d x = contents (disk s) x) ->
  bc_ok (set_entry i (mk_entry lba data true false t) (s <| disk := d |>)) /\
  forall x, logical (set_entry i (mk_entry lba data true false t) (s <| disk := d |>)) x = logical s x.
Proof.
  intros Hok Hi Hmiss Hcl -> Hd. pose proof (pool_len _ _ Hok) as Hlen.
  assert (Hno : forall j, 0 <= j < POOL -> e_valid (arr_get (cache_pool s) j) = true ->
    e_lba (arr_get (cache_pool s) j) <> lba).
  { intros j Hj. apply (find_hit_none _ _ j Hmiss). lia. }
  apply (pool_replace (cache_pool s) (contents (disk s)) i _ (contents d) (logical s)); try done.
  - intros _. symmetry. by apply plogical_uncached.
  - intros j Hj Hji Hvj. split_and!; [intros _; by apply Hno| |intros _; by apply Hd].
    symmetry. by apply plogical_cached.
  - cbn [e_valid e_lba]. intros x Hx1 Hx2. rewrite Hd.
    destruct (e_valid (entry s i)) eqn:Hvi; [destruct (Z.eq_dec (e_lba (entry s i)) x) as [Hx|Hx]|].
    + rewrite <- Hx. unfold entry in *. symmetry. unfold logical.
      rewrite (plogical_cached _ _ i _ Hok Hi Hvi eq_refl). by apply (pool_clean _ _ Hok).
    + symmetry. apply plogical_uncached; [done|]. intros j Hj Hvj.
      destruct (Z.eq_dec j i) as [->|]; [done|by apply Hx2].
    + symmetry. apply plogical_uncached; [done|]. intros j Hj Hvj.
      destruct (Z.eq_dec j i) as [->|]; [unfold entry in *; congruence|by apply Hx2].
Qed.

(** Writing back the victim changes no logical sector, and leaves the entry
    ready for reuse when it succeeds. *)
Lemma read_writeback_ok s v lba :
  bc_ok s -> 0 <= v < POOL -> find_hit (cache_pool s) 0 lba = None ->
  let '(ok, t) := read_writeback v s in
  bc_ok t /\ (forall x, logical t x = logical s x) /\
  (ok = true -> find_hit (cache_pool t) 0 lba = None /\
                e_valid (entry t v) && e_dirty (entry t v) = false).
Proof.
  intros Hok Hr Hhit. pose proof (pool_len _ _ Hok) as Hlen. unfold read_writeback.
  destruct (e_valid (entry s v) && e_dirty (entry s v)) eqn:Hd; [|done].
  apply andb_prop in Hd as [Hvv Hdd].
  pose proof (ata_write_spec (e_lba (entry s v)) (e_data (entry s v)) (disk s)) as Hw.
  destruct (ata_write_sector _ _ (disk s)) as [[] d]; destruct Hw as [Hw1 Hw2].
  - set (e := entry s v <| e_dirty := false |>).
    destruct (bc_touch s v e d Hok Hr eq_refl eq_refl eq_refl)
      as [Hok' Hlog']; [intros _ _; symmetry; by apply Hw1|intros x Hx; by apply Hw2, Hx|].
    split; [exact Hok'|]. split; [exact Hlog'|]. intros _. split.
    + cbn. apply find_hit_same_keys; lia || done.
    + unfold entry. cbn. rewrite arr_get_set_eq by lia. by rewrite andb_false_r.
  - destruct (bc_touch s v (entry s v) d Hok Hr eq_refl eq_refl eq_refl) as [Hok' Hlog'];
      [congruence|intros x Hx; by apply Hw2, Hx|].
    unfold bc_ok, logical, set_entry, entry in Hok', Hlog'. cbn in Hok', Hlog'.
    rewrite arr_set_get_id in Hok' by lia. rewrite arr_set_get_id in Hlog' by lia.
    split; [exact Hok'|]. split; [exact Hlog'|done].
Qed.

Lemma bcache_read_facts s lba :
  bc_ok s ->
  let '(r, s') := bcache_read_sector lba true s in
  bc_ok s' /\ (forall x, logical s' x = logical s x) /\
  (forall data, r = Some data -> data = logical s lba) /\
  (find_hit (cache_pool s) 0 lba <> None -> r <> None /\ disk s' = disk s).
Proof.
  intros Hok. pose proof (pool_len _ _ Hok) as Hlen.
  unfold bcache_read_sector. cbn [negb stat cache_pool set_field].
  destruct (find_hit (cache_pool s) 0 lba) as [i|] eqn:Hhit.
  - destruct (find_hit_some _ _ _ Hhit) as (Hi & Hv & Hl). rewrite Hlen in Hi.
    set (e := entry s i <| e_last_access := u64 (access_counter s + 1) |>).
    destruct (bc_touch s i e (disk s) Hok Hi eq_refl eq_refl eq_refl) as [Hok' Hlog']; [exact (pool_clean (cache_pool s) (contents (disk s)) Hok i Hi)|done|].
    split; [exact Hok'|]. split; [exact Hlog'|]. split; [|done].
    intros data [= <-]. unfold logical. rewrite (plogical_cached _ _ i lba Hok Hi Hv Hl).
    unfold entry, set_entry. cbn. rewrite arr_get_set_eq by lia. done.
  - pose proof (victim_index_range _ Hlen) as Hr. set (v := victim_index (cache_pool s)) in *.
    set (s1 := stat bump_misses (stat bump_reads s)).
    pose proof (read_writeback_ok s1 v lba Hok Hr Hhit) as Hwb.
    destruct (read_writeback v s1) as [ok t].
    destruct Hwb as (Hokt & Hlogt & Hclean). change (logical s1) with (logical s) in Hlogt. destruct ok; cbn [negb]; [|done].
    destruct (Hclean eq_refl) as [Hmiss Hcl].
    pose proof (ata_read_spec lba (disk t)) as Hrd.
    destruct (ata_read_sector lba (disk t)) as [[data|] d].
    + destruct Hrd as [Hdata Hd].
      destruct (bc_load t v lba data d (u64 (access_counter t + 1)) Hokt Hr Hmiss Hcl Hdata Hd)
        as [Hok' Hlog'].
      split; [exact Hok'|]. split; [intros x; etransitivity; [apply Hlog'|done]|]. split; [|done].
      intros ? [= <-]. rewrite <- Hlogt, Hdata. symmetry. apply plogical_uncached; [apply Hokt|].
      intros j Hj. apply (find_hit_none _ _ j Hmiss). rewrite (pool_len _ _ Hokt). done.
    + destruct (bc_disk_ext t d Hokt Hrd) as [Hok' Hlog'].
      split; [exact Hok'|]. split; [intros x; etransitivity; [apply Hlog'|done]|]. done.
Qed.

(** C23: a read returns the logical sector whenever it succeeds, and changes no
    logical sector whether it succeeds or not, whatever transfers fail; the
    cache stays coherent with the disk, and a cached sector is returned without
    touching the disk. *)
Theorem bcache_read_refines s lba :
  bc_ok s ->
  let '(r, s') := bcache_read_sector lba true s in
  bc_ok s' /\ (forall x, logical s' x = logical s x) /\
  (forall data, r = Some data -> data = logical s lba) /\
  (find_hit (cache_pool s) 0 lba <> None -> r <> None /\ disk s' = disk s).
Proof. exact (bcache_read_facts s lba). Qed.

(** The eviction a write causes, if any, finds a clean entry or writes it back
    successfully. *)
Definition eviction_ok s (lba : Z) : Prop :=
  find_hit (cache_pool s) 0 lba = None ->
  let e := entry s (victim_index (cache_pool s)) in
  e_valid e && e_dirty e = true ->
  fst (ata_write_sector (e_lba e) (e_data e) (disk s)) = true.

(** Installing new data for [lba] in entry [i], over the disk [d] and with the
    dirty bit [dirty]. *)
Lemma bc_install s i lba data d t dirty :
  bc_ok s -> 0 <= i < POOL ->
  (forall j, 0 <= j < POOL -> j <> i -> e_valid (entry s j) = true -> e_lba (entry s j) <> lba) ->
  (e_valid (entry s i) = true -> e_lba (entry s i) = lba \/ e_dirty (entry s i) = false) ->
  (forall x, x <> lba -> contents d x = contents (disk s) x) ->
  (dirty = false -> contents d lba = data) ->
  let pool' := arr_set (cache_pool s) i (mk_entry lba data true dirty t) in
  pool_ok pool' (contents d) /\
  forall x, plogical pool' (contents d) x = if x =? lba then data else logical s x.
Proof.
  intros Hok Hi Hno Hold Hd Hdata pool'. pose proof (pool_len _ _ Hok) as Hlen. unfold entry in *.
  apply (pool_replace (cache_pool s) (contents (disk s)) i _ (contents d)
    (fun x => if x =? lba then data else logical s x)); try done; cbn [e_valid e_dirty e_lba e_data].
  - intros _ Hdd. by rewrite Hdata.
  - intros _. by rewrite Z.eqb_refl.
  - intros j Hj Hji Hvj. pose proof (Hno j Hj Hji Hvj) as Hne. split_and!; [done| |].
    + destruct (Z.eqb_spec (e_lba (arr_get (cache_pool s) j)) lba); [done|].
      symmetry. by apply plogical_cached.
    + intros _. by apply Hd.
  - intros x Hx1 Hx2. specialize (Hx1 eq_refl). destruct (Z.eqb_spec x lba); [congruence|].
    rewrite Hd by done. symmetry.
    destruct (e_valid (arr_get (cache_pool s) i)) eqn:Hvi;
      [destruct (Z.eq_dec (e_lba (arr_get (cache_pool s) i)) x) as [Hx|Hx]|].
    + destruct (Hold eq_refl) as [|Hcl]; [congruence|]. rewrite <- Hx. unfold logical.
      rewrite (plogical_cached _ _ i _ Hok Hi Hvi eq_refl). by apply (pool_clean _ _ Hok).
    + apply plogical_uncached; [done|]. intros j Hj Hvj.
      destruct (Z.eq_dec j i) as [->|]; [done|by apply Hx2].
    + apply plogical_uncached; [done|]. intros j Hj Hvj.
      destruct (Z.eq_dec j i) as [->|]; [congruence|by apply Hx2].
Qed.

(** The state a write starts from: coherent, and with an entry that may be
    overwritten for [lba]. *)
Lemma write_target_ok s lba :
  bc_ok s -> eviction_ok s lba ->
  let '(t, s1) := write_target lba s in
  0 <= t < POOL /\ e_valid (entry s1 t) = true /\ e_lba (entry s1 t) = lba /\
  exists s0, bc_ok s0 /\ (forall x, logical s0 x = logical s x) /\ disk s1 = disk s0 /\
    (forall e, arr_set (cache_pool s1) t e = arr_set (cache_pool s0) t e) /\
    (forall j, 0 <= j < POOL -> j <> t -> e_valid (entry s0 j) = true -> e_lba (entry s0 j) <> lba) /\
    (e_valid (entry s0 t) = true -> e_lba (entry s0 t) = lba \/ e_dirty (entry s0 t) = false).
Proof.
  intros Hok Hev. pose proof (pool_len _ _ Hok) as Hlen. unfold write_target.
  destruct (find_hit (cache_pool s) 0 lba) as [i|] eqn:Hhit.
  - destruct (find_hit_some _ _ _ Hhit) as (Hi & Hv & Hl). rewrite Hlen in Hi.
    split_and!; try done; try lia. exists s. split_and!; try done.
    + intros j Hj Hji Hvj E. apply Hji. apply (pool_uniq _ _ Hok); unfold entry in *; congruence || done.
    + intros _. by left.
  - cbn [stat cache_pool set_field]. pose proof (victim_index_range _ Hlen) as Hr.
    set (v := victim_index (cache_pool s)) in *. set (s1 := stat bump_misses s).
    pose proof (read_writeback_ok s1 v lba Hok Hr Hhit) as Hwb.
    assert (Hsame : read_writeback v s1 = (true,
      if e_valid (entry s1 v) && e_dirty (entry s1 v) then
        let '(_, d) := ata_write_sector (e_lba (entry s1 v)) (e_data (entry s1 v)) (disk s1) in
        set_entry v (entry s1 v <| e_dirty := false |>) (s1 <| disk := d |>)
      else s1)).
    { unfold read_writeback. specialize (Hev Hhit). fold v in Hev.
      change (entry s1 v) with (entry s v). change (disk s1) with (disk s).
      destruct (e_valid (entry s v) && e_dirty (entry s v)) eqn:Hc; [|done].
      specialize (Hev Hc). destruct (ata_write_sector _ _ (disk s)) as [r d].
      cbn in Hev. by subst r. }
    rewrite Hsame in Hwb. set (s0 := if e_valid (entry s1 v) && e_dirty (entry s1 v) then _ else _) in *.
    destruct Hwb as (Hok0 & Hlog0 & Hcl). destruct (Hcl eq_refl) as [Hmiss Hclean].
    pose proof (pool_len _ _ Hok0) as Hlen0.
    rewrite !entry_set_entry by lia. split_and!; try done; try lia.
    exists s0. split_and!; try done.
    + intros e. apply arr_set_set.
    + intros j Hj _. apply (find_hit_none _ _ j Hmiss). lia.
    + intros Hv. right. by rewrite Hv in Hclean.
Qed.

Lemma bcache_write_facts s lba buf :
  bc_ok s -> eviction_ok s lba ->
  let '(r, s') := bcache_write_sector lba (Some buf) s in
  bc_ok s' /\
  (forall x, logical s' x = if x =? lba then take 512 buf else logical s x) /\
  (r = true -> contents (disk s') lba = take 512 buf).
Proof.
  intros Hok Hev. unfold bcache_write_sector.
  pose proof (write_target_ok (stat bump_writes s) lba Hok Hev) as Hwt.
  destruct (write_target lba (stat bump_writes s)) as [t s1].
  destruct Hwt as (Ht & Hv & Hl & s0 & Hok0 & Hlog0 & Hdisk & Hset & Hno & Hold).
  set (s2 := tick s1). set (e2 := entry s2 t <| e_data := _ |> <| e_last_access := _ |> <| e_dirty := _ |>).
  change (disk (set_entry t e2 s2)) with (disk s1).
  assert (He2 : e2 = mk_entry lba (take 512 buf) true false (access_counter s2)).
  { unfold e2. change (entry s2 t) with (entry s1 t).
    destruct (entry s1 t) as [l0 d0 v0 dd0 la0]. cbn in Hv, Hl |- *. by subst. }
  assert (Hlog : forall x, logical s0 x = logical s x) by exact Hlog0.
  pose proof (ata_write_spec lba (take 512 buf) (disk s1)) as Hw.
  destruct (ata_write_sector lba (take 512 buf) (disk s1)) as [r d]. destruct Hw as [Hw1 Hw2].
  rewrite Hdisk in Hw2.
  assert (Hlen1 : len (cache_pool s1) = POOL).
  { rewrite <- (len_arr_set _ t e2), Hset, len_arr_set. apply Hok0. }
  destruct r.
  - destruct (bc_install s0 t lba (take 512 buf) d (access_counter s2) false Hok0 Ht Hno Hold Hw2)
      as [Hok' Hlog']; [intros _; by apply Hw1|].
    unfold bc_ok, logical, set_entry. cbn. rewrite He2, Hset.
    split; [exact Hok'|]. split; [|intros _; by apply Hw1].
    intros x. by rewrite Hlog', Hlog.
  - destruct (bc_install s0 t lba (take 512 buf) d (access_counter s2) true Hok0 Ht Hno Hold Hw2)
      as [Hok' Hlog']; [done|].
    unfold bc_ok, logical, set_entry, entry. cbn.
    rewrite arr_get_set_eq, He2, arr_set_set, Hset by (cbn; lia). cbn.
    split; [exact Hok'|]. split; [|done]. intros x. by rewrite Hlog', Hlog.
Qed.

(** C11: a write makes its data the logical sector and changes no other, and
    reports success exactly when the sector reached the disk; when the disk
    rejects it the data stay in the cache, marked dirty.  This needs the entry
    evicted to make room, if any, to be clean or to be written back. *)
Theorem bcache_write_refines s lba buf :
  bc_ok s -> eviction_ok s lba ->
  let '(r, s') := bcache_write_sector lba (Some buf) s in
  bc_ok s' /\
  (forall x, logical s' x = if x =? lba then take 512 buf else logical s x) /\
  (r = true -> contents (disk s') lba = take 512 buf).
Proof. exact (bcache_write_facts s lba buf). Qed.

(** the write-back of a dirty victim is not checked by
    [bcache_write_sector].  When the disk rejects it, the victim's entry is
    reused all the same, so its sector falls back to what is on the disk: data
    that reads returned before the write are lost. *)
Theorem bcache_write_loses_dirty_victim s lba buf d1 :
  bc_ok s -> find_hit (cache_pool s) 0 lba = None ->
  let e := entry s (victim_index (cache_pool s)) in
  e_valid e = true -> e_dirty e = true -> e_lba e <> lba ->
  ata_write_sector (e_lba e) (e_data e) (disk s) = (false, d1) ->
  let s' := snd (bcache_write_sector lba (Some buf) s) in
  logical s (e_lba e) = e_data e /\
  logical s' (e_lba e) = contents d1 (e_lba e).
Proof.
  intros Hok Hmiss e Hv Hd Hne Hfail s'. pose proof (pool_len _ _ Hok) as Hlen.
  pose proof (victim_index_range _ Hlen) as Hr. set (v := victim_index (cache_pool s)) in *.
  split; [by apply plogical_cached|].
  assert (Hpool : exists e1 d2, cache_pool s' = arr_set (cache_pool s) v e1 /\ e_lba e1 = lba /\
    disk s' = d2 /\ contents d2 (e_lba e) = contents d1 (e_lba e)).
  { unfold s', bcache_write_sector, write_target. cbn [stat cache_pool set_field].
    rewrite Hmiss. fold v. change (entry (stat bump_misses (stat bump_writes s)) v) with e.
    rewrite Hv, Hd. cbn [andb]. change (disk (stat bump_misses (stat bump_writes s))) with (disk s).
    rewrite Hfail. unfold set_entry, entry, tick, stat. cbn.
    pose proof (ata_write_spec lba (take 512 buf) d1) as Hw.
    destruct (ata_write_sector lba (take 512 buf) d1) as [[] d2]; destruct Hw as [_ Hw2]; cbn;
      eexists _, d2; rewrite ?arr_set_set, ?arr_get_set_eq by (rewrite ?len_arr_set; lia);
      (split; [reflexivity|]); split_and!; try done; by apply Hw2. }
  destruct Hpool as (e1 & d2 & Hp & Hl1 & Hdd & Hc). unfold logical. rewrite Hp, Hdd, <- Hc.
  apply plogical_uncached; [by rewrite len_arr_set|]. intros j Hj Hvj Hlj.
  destruct (Z.eq_dec j v) as [->|Hjv].
  - rewrite arr_get_set_eq in Hlj by lia. congruence.
  - rewrite arr_get_set_ne in Hvj, Hlj by lia. apply Hjv.
    apply (pool_uniq _ _ Hok); done.
Qed.

(** * Flushing *)

Lemma flush_entry_ok s i :
  bc_ok s -> 0 <= i < POOL ->
  bc_ok (flush_entry i s) /\ (forall x, logical (flush_entry i s) x = logical s x) /\
  (forall j, 0 <= j < POOL -> j <> i -> entry (flush_entry i s) j = entry s j).
Proof.
  intros Hok Hi. pose proof (pool_len _ _ Hok) as Hlen. unfold flush_entry.
  pose proof (ata_write_spec (e_lba (entry s i)) (e_data (entry s i)) (disk s)) as Hw.
  destruct (e_valid (entry s i) && e_dirty (entry s i)) eqn:Hc; [|done].
  apply andb_prop in Hc as [Hv Hd].
  destruct (ata_write_sector _ _ (disk s)) as [[] d]; destruct Hw as [Hw1 Hw2].
  - set (e := entry s i <| e_dirty := false |>).
    destruct (bc_touch s i e d Hok Hi eq_refl eq_refl eq_refl) as [Hok' Hlog'];
      [intros _ _; symmetry; by apply Hw1|intros x Hx; by apply Hw2, Hx|].
    split_and!; try done. intros j Hj Hji. apply arr_get_set_ne; lia.
  - destruct (bc_touch s i (entry s i) d Hok Hi eq_refl eq_refl eq_refl) as [Hok' Hlog'];
      [congruence|intros x Hx; by apply Hw2, Hx|].
    unfold bc_ok, logical, set_entry, entry in Hok', Hlog'. cbn in Hok', Hlog'.
    rewrite arr_set_get_id in Hok' by lia. rewrite arr_set_get_id in Hlog' by lia. done.
Qed.

(** When the disk takes every write, flushing cleans the entry. *)
Lemma flush_entry_clean s i :
  (forall lba data d, fst (ata_write_sector lba data d) = true) ->
  bc_ok s -> 0 <= i < POOL ->
  e_valid (entry (flush_entry i s) i) = true -> e_dirty (entry (flush_entry i s) i) = false.
Proof.
  intros Hrel Hok Hi. pose proof (pool_len _ _ Hok) as Hlen. unfold flush_entry.
  specialize (Hrel (e_lba (entry s i)) (e_data (entry s i)) (disk s)).
  destruct (e_valid (entry s i)) eqn:Hv, (e_dirty (entry s i)) eqn:Hd; cbn [andb]; try congruence.
  destruct (ata_write_sector _ _ (disk s)) as [r d]. cbn in Hrel. subst r.
  by rewrite entry_set_entry by (cbn; lia).
Qed.

(** After [n] iterations of the flush loop. *)
Definition flushed (s : bcache D) (n : Z) (t : bcache D) : Prop :=
  bc_ok t /\ (forall x, logical t x = logical s x) /\
  ((forall lba data d, fst (ata_write_sector lba data d) = true) ->
   forall j, 0 <= j < n -> e_valid (entry t j) = true -> e_dirty (entry t j) = false).

Lemma flush_entry_flushed s i t :
  0 <= i < POOL -> flushed s i t -> flushed s (i + 1) (flush_entry i t).
Proof.
  intros Hi (Hokt & Hlogt & Hct).
  destruct (flush_entry_ok t i Hokt Hi) as (Hok' & Hlog' & Hoth). split_and!; [done| |].
  - intros x. by rewrite Hlog'.
  - intros Hrel j Hj. destruct (Z.eq_dec j i) as [->|]; [by apply flush_entry_clean|].
    rewrite Hoth by lia. apply (Hct Hrel). lia.
Qed.

Lemma bcache_flush_flushed s : bc_ok s -> flushed s POOL (snd (bcache_flush s)).
Proof.
  intros Hok. unfold bcache_flush. cbn [snd].
  assert (HN : 0 + Z.of_nat (Z.to_nat BCACHE_BLOCK_COUNT) = POOL) by reflexivity.
  rewrite <- HN. apply (for_up_ind (flushed s)).
  - split_and!; try done. intros _ j Hj. lia.
  - intros i t Hi. apply flush_entry_flushed. lia.
Qed.

Lemma flushed_durable s t :
  flushed s POOL t -> (forall lba data d, fst (ata_write_sector lba data d) = true) ->
  forall x, contents (disk t) x = logical s x.
Proof.
  intros (Hok' & Hlog' & Hclean) Hrel x. rewrite <- Hlog'. symmetry. unfold logical, plogical.
  destruct (find_hit (cache_pool t) 0 x) as [j|] eqn:E; [|done].
  apply find_hit_some in E as (Hj & Hv & Hl). rewrite (pool_len _ _ Hok') in Hj.
  rewrite <- Hl. apply (pool_clean _ _ Hok'); try done. by apply (Hclean Hrel).
Qed.

(** flushing changes no logical sector, whatever writes fail.  If the disk
    takes every write, then afterwards the disk itself holds every logical
    sector. *)
Theorem bcache_flush_durable s :
  bc_ok s ->
  bc_ok (snd (bcache_flush s)) /\
  (forall x, logical (snd (bcache_flush s)) x = logical s x) /\
  ((forall lba data d, fst (ata_write_sector lba data d) = true) ->
   forall x, contents (disk (snd (bcache_flush s))) x = logical s x).
Proof.
  intros Hok. pose proof (bcache_flush_flushed s Hok) as Hf.
  split_and!; [apply Hf..|intros Hrel; exact (flushed_durable _ _ Hf Hrel)].
Qed.

(** [bcache_flush] (and so [sync]) reports success whatever happens: with a
    disk that rejects every write it returns 1 and every dirty entry is still
    dirty. *)
Theorem bcache_flush_ignores_failures s :
  (forall lba data d, ata_write_sector lba data d = (false, d)) ->
  fst (bcache_sync s) = true /\ cache_pool (snd (bcache_sync s)) = cache_pool s.
Proof.
  intros Hrej. split; [done|]. unfold bcache_sync, bcache_flush. cbn [snd].
  apply (for_up_ind (fun _ t => cache_pool t = cache_pool s)); [done|].
  intros i t _ IH. unfold flush_entry. rewrite Hrej. by destruct (e_valid _ && e_dirty _).
Qed.

(** * Runs of sectors *)

Lemma write_result s lba buf :
  (forall lba data d, fst (ata_write_sector lba data d) = true) ->
  fst (bcache_write_sector lba (Some buf) s) = true.
Proof.
  intros Hrel. unfold bcache_write_sector. destruct (write_target lba (stat bump_writes s)) as [t s1].
  match goal with |- context [ata_write_sector ?a ?b ?c] => specialize (Hrel a b c) end.
  by destruct (ata_write_sector _ _ _) as [r d].
Qed.

Lemma read_result s lba :
  (forall lba data d, fst (ata_write_sector lba data d) = true) ->
  (forall lba d, is_Some (fst (ata_read_sector lba d))) ->
  is_Some (fst (bcache_read_sector lba true s)).
Proof.
  intros Hw Hr. unfold bcache_read_sector. cbn [negb]. destruct (find_hit _ 0 lba); [done|].
  destruct (read_writeback _ _) as [ok s1] eqn:E.
  assert (ok = true) as ->.
  { unfold read_writeback in E. destruct (e_valid _ && e_dirty _); [|congruence].
    match type of E with context [ata_write_sector ?a ?b ?c] => specialize (Hw a b c) end.
    destruct (ata_write_sector _ _ _) as [[] d]; cbn in Hw; congruence. }
  cbn [negb]. specialize (Hr lba (disk s1)). by destruct (ata_read_sector lba (disk s1)) as [[] d].
Qed.

Lemma read_sectors_loop_ok n lba i s :
  bc_ok s ->
  let '(r, s') := read_sectors_loop n lba i s in
  bc_ok s' /\ (forall x, logical s' x = logical s x) /\
  (forall data, r = Some data ->
     data = concat (map (fun k => logical s (u32 (lba + k))) (seqZ i (Z.of_nat n)))).
Proof.
  revert i s. induction n as [|n IH]; intros i s Hok; cbn [read_sectors_loop].
  { split_and!; try done. intros data [= <-]. done. }
  pose proof (bcache_read_facts s (u32 (lba + i)) Hok) as Hr.
  destruct (bcache_read_sector (u32 (lba + i)) true s) as [[d1|] s1];
    destruct Hr as (Hok1 & Hlog1 & Hdata1 & _); [|done].
  specialize (IH (i + 1) s1 Hok1).
  destruct (read_sectors_loop n lba (i + 1) s1) as [[rest|] s2];
    destruct IH as (Hok2 & Hlog2 & Hdata2); (split; [done|]);
    (split; [intros x; by rewrite Hlog2|]); [|done].
  intros data [= <-]. rewrite seqZ_cons by lia. cbn [map concat].
  rewrite (Hdata1 d1 eq_refl), (Hdata2 rest eq_refl). f_equal.
  replace (Z.succ i) with (i + 1) by lia. replace (Z.pred (Z.of_nat (S n))) with (Z.of_nat n) by lia.
  f_equal. apply map_ext. intros k. apply Hlog1.
Qed.

(** On a disk that takes every write no entry is ever dirty when evicted. *)
Lemma write_sectors_loop_ok n lba i buf s :
  (forall lba data d, fst (ata_write_sector lba data d) = true) ->
  bc_ok s -> 0 <= i -> is_u32 lba -> lba + i + Z.of_nat n <= 4294967296 ->
  let '(r, s') := write_sectors_loop n lba i buf s in
  r = true /\ bc_ok s' /\
  forall x, logical s' x =
    if (lba + i <=? x) && (x <? lba + i + Z.of_nat n)
    then take 512 (drop (512 * Z.to_nat (x - lba - i)) buf) else logical s x.
Proof.
  intros Hrel. revert i buf s. induction n as [|n IH]; intros i buf s Hok Hi Hl Hb; cbn [write_sectors_loop].
  { split_and!; try done. intros x. bcases; try done; lia. }
  rewrite u32_id by (unfold is_u32 in *; lia).
  assert (Hev : eviction_ok s (lba + i)) by (intros _ e _; apply Hrel).
  pose proof (bcache_write_facts s (lba + i) buf Hok Hev) as Hw.
  assert (Hres : fst (bcache_write_sector (lba + i) (Some buf) s) = true) by by apply write_result.
  destruct (bcache_write_sector (lba + i) (Some buf) s) as [r s1]. cbn in Hres. subst r.
  destruct Hw as (Hok1 & Hlog1 & _). specialize (IH (i + 1) (drop 512 buf) s1 Hok1 ltac:(lia) Hl ltac:(lia)).
  destruct (write_sectors_loop n lba (i + 1) (drop 512 buf) s1) as [r s2].
  destruct IH as (-> & Hok2 & Hlog2). split_and!; try done. intros x. rewrite Hlog2, Hlog1, drop_drop.
  destruct (Z.eqb_spec x (lba + i)) as [->|Hne].
  - replace (Z.to_nat (lba + i - lba - i)) with 0%nat by lia. bcases; cbn [andb]; try lia. done.
  - bcases; cbn [andb]; try done; try lia. do 2 f_equal. lia.
Qed.

Lemma read_sectors_loop_some n lba i s :
  (forall lba data d, fst (ata_write_sector lba data d) = true) ->
  (forall lba d, is_Some (fst (ata_read_sector lba d))) ->
  is_Some (fst (read_sectors_loop n lba i s)).
Proof.
  intros Hw Hr. revert i s. induction n as [|n IH]; intros i s; cbn [read_sectors_loop]; [done|].
  pose proof (read_result s (u32 (lba + i)) Hw Hr) as [d1 E].
  destruct (bcache_read_sector (u32 (lba + i)) true s) as [r s1]. cbn in E. subst r.
  specialize (IH (i + 1) s1). destruct (read_sectors_loop n lba (i + 1) s1) as [r s2].
  destruct IH as [rest E]. cbn in E. by subst r.
Qed.

(** The pieces [take 512 (drop (512 * k) buf)] put together again. *)
Lemma concat_pieces n (buf : list Z) k :
  (length buf = 512 * n)%nat ->
  concat (map (fun j => take 512 (drop (512 * Z.to_nat (j - k)) buf)) (seqZ k (Z.of_nat n))) = buf.
Proof.
  revert buf k. induction n as [|n IH]; intros buf k Hl.
  { destruct buf; [done|cbn in Hl; lia]. }
  rewrite seqZ_cons by lia. cbn [map concat].
  replace (Z.to_nat (k - k)) with 0%nat by lia.
  change (drop (512 * 0) buf) with buf. etrans; [|apply (take_drop 512)]. f_equal.
  etrans; [|apply (IH (drop 512 buf) (Z.succ k)); rewrite length_drop; lia].
  replace (Z.pred (Z.of_nat (S n))) with (Z.of_nat n) by lia. f_equal.
  apply map_ext_in. intros j Hj%list_elem_of_In%elem_of_seqZ. rewrite drop_drop. do 2 f_equal. lia.
Qed.

(** on a disk without failures, writing a run of sectors through the cache
    succeeds and reading the run back gives the written bytes, whatever was
    cached before. *)
Theorem bcache_sectors_roundtrip s lba count buf :
  (forall lba data d, fst (ata_write_sector lba data d) = true) ->
  (forall lba d, is_Some (fst (ata_read_sector lba d))) ->
  bc_ok s -> is_u32 lba -> 0 < count -> lba + count <= 4294967296 ->
  Z.of_nat (length buf) = 512 * count ->
  let '(r, s') := bcache_write_sectors lba count (Some buf) s in
  r = true /\ fst (bcache_read_sectors lba count true s') = Some buf.
Proof.
  intros Hw Hr Hok Hl Hc Hb Hlen. unfold bcache_write_sectors, bcache_read_sectors. cbn [negb orb].
  rewrite (proj2 (Z.eqb_neq count 0)) by lia.
  pose proof (write_sectors_loop_ok (Z.to_nat count) lba 0 buf s Hw Hok ltac:(lia) Hl ltac:(lia)) as H1.
  destruct (write_sectors_loop _ lba 0 buf s) as [r s1]. destruct H1 as (-> & Hok1 & Hlog1).
  split; [done|]. pose proof (read_sectors_loop_ok (Z.to_nat count) lba 0 s1 Hok1) as H2.
  destruct (read_sectors_loop_some (Z.to_nat count) lba 0 s1 Hw Hr) as [data E].
  destruct (read_sectors_loop _ lba 0 s1) as [r2 s2]. cbn in E |- *. subst r2.
  destruct H2 as (_ & _ & ->%(fun f => f data eq_refl)). f_equal.
  etrans; [|apply (concat_pieces (Z.to_nat count) buf 0); lia]. f_equal.
  apply map_ext_in. intros j Hj%list_elem_of_In%elem_of_seqZ.
  rewrite u32_id by (unfold is_u32 in *; lia). rewrite Hlog1.
  bcases; cbn [andb]; try lia. do 3 f_equal. lia.
Qed.

End Refinement.

(** * A concrete disk *)

(** Sectors never written hold zeroes; writes to the sectors of [dd_bad] fail. *)
Record demo_disk := mk_demo_disk { dd_sectors : gmap Z (list Z); dd_bad : list Z }.

#[export] Instance demo_dev : BlockDev demo_disk := {
  ata_read_sector lba d := (Some (default (replicate 512 0) (dd_sectors d !! lba)), d);
  ata_write_sector lba data d :=
    if bool_decide (lba ∈ dd_bad d) then (false, d)
    else (true, mk_demo_disk (<[lba := data]> (dd_sectors d)) (dd_bad d))
}.

#[export, refine] Instance demo_laws : BlockDevLaws demo_disk := {
  contents d lba := default (replicate 512 0) (dd_sectors d !! lba)
}.
Proof.
  - intros lba d. done.
  - intros lba data d. cbn. case_bool_decide; [done|]. split; intros; cbn.
    + by rewrite lookup_insert_eq.
    + by rewrite lookup_insert_ne.
Defined.

(** The same disk when nothing is bad. *)
Record good_disk := mk_good_disk { gd_sectors : gmap Z (list Z) }.

#[export] Instance good_dev : BlockDev good_disk := {
  ata_read_sector lba d := (Some (default (replicate 512 0) (gd_sectors d !! lba)), d);
  ata_write_sector lba data d := (true, mk_good_disk (<[lba := data]> (gd_sectors d)))
}.

#[export, refine] Instance good_laws : BlockDevLaws good_disk := {
  contents d lba := default (replicate 512 0) (gd_sectors d !! lba)
}.
Proof.
  - intros lba d. done.
  - intros lba data d. cbn. split; intros; [by rewrite lookup_insert_eq|by rewrite lookup_insert_ne].
Defined.

Lemma bc_ok_init `{BlockDevLaws D} (d : D) : bc_ok (bcache_init d).
Proof.
  assert (Hz : forall i, 0 <= i < POOL -> arr_get (cache_pool (bcache_init d)) i = zero_entry).
  { intros i Hi. apply arr_get_replicate. change (Z.of_nat (Z.to_nat BCACHE_BLOCK_COUNT)) with 64. lia. }
  split; [reflexivity| |]; intros i; [intros j Hi Hj|intros Hi]; rewrite (Hz i Hi); done.
Qed.

Lemma bcache_sectors_roundtrip_witness :
  let '(r, s') := bcache_write_sectors 7 2 (Some (replicate 1024 5)) (bcache_init (mk_good_disk ∅)) in
  r = true /\ fst (bcache_read_sectors 7 2 true s') = Some (replicate 1024 5).
Proof.
  apply (bcache_sectors_roundtrip (bcache_init (mk_good_disk ∅)) 7 2 (replicate 1024 5));
    [done|done|apply bc_ok_init|unfold is_u32; lia|lia|lia|reflexivity].
Defined.

(** Sector 0 written to a disk that rejects it, then sectors 1 to 63 read: the
    pool is full and its oldest entry, number 0, is dirty. *)
Definition demo_full : bcache demo_disk :=
  for_up 63 1 (fun i s => snd (bcache_read_sector i true s))
    (snd (bcache_write_sector 0 (Some (replicate 512 9)) (bcache_init (mk_demo_disk ∅ [0])))).

Lemma demo_full_ok : bc_ok demo_full.
Proof.
  unfold demo_full. apply (for_up_ind (fun _ s => bc_ok s)).
  - pose proof (bcache_write_facts (bcache_init (mk_demo_disk ∅ [0])) 0 (replicate 512 9)
      (bc_ok_init _) ltac:(done)) as H.
    destruct (bcache_write_sector 0 _ _) as [r s]. apply H.
  - intros i s _ Hs. pose proof (bcache_read_facts s i Hs) as H.
    destruct (bcache_read_sector i true s) as [r s']. apply H.
Qed.

Lemma demo_full_victim :
  victim_index (cache_pool demo_full) = 0 /\
  find_hit (cache_pool demo_full) 0 100 = None /\
  entry demo_full 0 = mk_entry 0 (replicate 512 9) true true 1 /\
  disk demo_full = mk_demo_disk ∅ [0].
Proof. split_and!; vm_compute; reflexivity. Qed.

Lemma bcache_write_loses_dirty_victim_witness :
  logical demo_full 0 = replicate 512 9 /\
  logical (snd (bcache_write_sector 100 (Some (replicate 512 1)) demo_full)) 0 =
    contents (mk_demo_disk ∅ [0]) 0.
Proof.
  pose proof demo_full_victim as (Hv & Hm & He & Hd).
  pose proof (bcache_write_loses_dirty_victim demo_full 100 (replicate 512 1) (mk_demo_disk ∅ [0])
    demo_full_ok Hm) as H.
  cbv zeta in H. rewrite Hv, He, Hd in H. apply H; done.
Defined.

Lemma access_u64 pool :
  len pool = BCACHE_BLOCK_COUNT ->
  forallb (fun e => (0 <=? e_last_access e) && (e_last_access e <? 18446744073709551616)) pool = true ->
  forall i, 0 <= i < BCACHE_BLOCK_COUNT -> is_u64 (e_last_access (arr_get pool i)).
Proof.
  intros Hlen Hall i Hi. rewrite forallb_forall in Hall. unfold is_u64.
  specialize (Hall (arr_get pool i)). enough (In (arr_get pool i) pool) by (apply Hall in H; lia).
  apply list_elem_of_In, (list_elem_of_lookup_2 _ (Z.to_nat i)), list_lookup_lookup_total_lt.
  unfold len in Hlen. lia.
Qed.

Lemma victim_index_lru_witness :
  let v := victim_index (cache_pool demo_full) in
  0 <= v < BCACHE_BLOCK_COUNT /\
  (e_valid (arr_get (cache_pool demo_full) v) = true ->
   forall j, 0 <= j < BCACHE_BLOCK_COUNT ->
     e_valid (arr_get (cache_pool demo_full) j) = true /\
     e_last_access (arr_get (cache_pool demo_full) v) <= e_last_access (arr_get (cache_pool demo_full) j)).
Proof.
  apply victim_index_lru; [vm_compute; reflexivity|].
  apply access_u64; vm_compute; reflexivity.
Defined.

Lemma bcache_read_refines_witness :
  let '(r, s') := bcache_read_sector 0 true demo_full in
  bc_ok s' /\ (forall x, logical s' x = logical demo_full x) /\
  (forall data, r = Some data -> data = logical demo_full 0) /\
  (find_hit (cache_pool demo_full) 0 0 <> None -> r <> None /\ disk s' = disk demo_full).
Proof. exact (bcache_read_refines demo_full 0 demo_full_ok). Defined.

Lemma bcache_write_refines_witness :
  let '(r, s') := bcache_write_sector 5 (Some (replicate 512 1)) demo_full in
  bc_ok s' /\
  (forall x, logical s' x = if x =? 5 then take 512 (replicate 512 1) else logical demo_full x) /\
  (r = true -> contents (disk s') 5 = take 512 (replicate 512 1)).
Proof.
  apply (bcache_write_refines demo_full 5 (replicate 512 1) demo_full_ok).
  intros Hm. assert (E : find_hit (cache_pool demo_full) 0 5 = Some 5) by (vm_compute; reflexivity).
  congruence.
Defined.

(** A dirty sector left by an earlier failure, over a disk that now works. *)
Definition good_dirty : bcache good_disk :=
  set_entry 0 (mk_entry 3 (replicate 512 9) true true 1) (bcache_init (mk_good_disk ∅)).

Lemma good_dirty_ok : bc_ok good_dirty.
Proof.
  assert (Hz : forall i, 0 < i < POOL -> arr_get (cache_pool good_dirty) i = zero_entry).
  { intros i Hi. unfold good_dirty, set_entry. cbn [cache_pool set_field].
    etrans; [apply arr_get_set_ne; lia|]. apply arr_get_replicate.
    change (Z.of_nat (Z.to_nat BCACHE_BLOCK_COUNT)) with 64. lia. }
  split; [reflexivity| |].
  - intros i j Hi Hj. destruct (Z.eq_dec i 0) as [->|], (Z.eq_dec j 0) as [->|];
      rewrite ?(Hz i), ?(Hz j) by lia; done.
  - intros i Hi. destruct (Z.eq_dec i 0) as [->|]; rewrite ?(Hz i) by lia; done.
Qed.

Lemma bcache_flush_durable_witness :
  contents (disk good_dirty) 3 = replicate 512 0 /\
  contents (disk (snd (bcache_flush good_dirty))) 3 = logical good_dirty 3.
Proof.
  split; [reflexivity|]. apply (bcache_flush_durable good_dirty good_dirty_ok). done.
Defined.

(** A disk that rejects every write. *)
#[local] Instance dead_dev : BlockDev unit := {
  ata_read_sector _ d := (None, d); ata_write_sector _ _ d := (false, d)
}.

Definition dead_dirty : bcache unit :=
  snd (bcache_write_sector 3 (Some (replicate 512 9)) (bcache_init tt)).

Lemma bcache_flush_ignores_failures_witness :
  e_dirty (entry dead_dirty 0) = true /\
  fst (bcache_sync dead_dirty) = true /\
  cache_pool (snd (bcache_sync dead_dirty)) = cache_pool dead_dirty.
Proof.
  split; [reflexivity|]. apply (bcache_flush_ignores_failures dead_dirty). done.
Defined.
