(* ===== verification/Task.v ===== *)
(** The task control block of [src/include/task.h] and the frames the kernel
    saves registers in.

    Records follow the C structs field by field.  Pointers to other tasks are
    slot numbers of the task table ([option Z], [None] for null); pointers to
    file descriptions and page tables are addresses.  An interrupt frame lives in
    kernel stack memory: [load_frame] and [store_frame] are the accesses
    [*frame] at its address. *)

From S2P Require Import Prelude Mem.

Definition TASK_MAX_FDS : Z := 32.
Definition TASK_MAX_USER_PAGES : Z := 128.
Definition TASK_SIGNAL_COUNT : Z := 32.
Definition TASK_NAME_MAX : Z := 32.

Definition SIGINT : Z := 2.
Definition SIGKILL : Z := 9.
Definition SIGPIPE : Z := 13.
Definition SIGTERM : Z := 15.
Definition SIGCHLD : Z := 17.
Definition SIGCONT : Z := 18.
Definition SIGSTOP : Z := 19.

Definition SIG_BLOCK : Z := 0.
Definition SIG_UNBLOCK : Z := 1.
Definition SIG_SETMASK : Z := 2.
Definition WNOHANG : Z := 1.
Definition SIGNAL_TRAMPOLINE_ADDR : Z := 0x8000700000.

Inductive task_state :=
  | TASK_UNUSED | TASK_READY | TASK_RUNNING | TASK_SLEEPING | TASK_WAITING
  | TASK_BLOCKED | TASK_STOPPED | TASK_ZOMBIE | TASK_DEAD.
#[export] Instance task_state_eq : EqDecision task_state.
Proof. solve_decision. Defined.

Inductive task_wait_reason :=
  | TASK_WAIT_NONE | TASK_WAIT_STDIN | TASK_WAIT_CHILD | TASK_WAIT_PIPE_READ
  | TASK_WAIT_PIPE_WRITE | TASK_WAIT_MUTEX | TASK_WAIT_SOCKET_RECV | TASK_WAIT_NETWORK.
#[export] Instance task_wait_reason_eq : EqDecision task_wait_reason.
Proof. solve_decision. Defined.

(** C's [==] on the two enumerations. *)
Definition st_eqb (a b : task_state) : bool := bool_decide (a = b).
Definition wr_eqb (a b : task_wait_reason) : bool := bool_decide (a = b).

Record task_registers := mk_registers {
  r15 : Z; r14 : Z; r13 : Z; r12 : Z; r11 : Z; r10 : Z; r9 : Z; r8 : Z; rbp : Z;
  rdi : Z; rsi : Z; rdx : Z; rcx : Z; rbx : Z; rax : Z; rip : Z; rflags : Z
}.
#[export] Instance eta_task_registers : Eta task_registers := fun r =>
  mk_registers (r15 r) (r14 r) (r13 r) (r12 r) (r11 r) (r10 r) (r9 r) (r8 r) (rbp r)
    (rdi r) (rsi r) (rdx r) (rcx r) (rbx r) (rax r) (rip r) (rflags r).
Definition zero_registers : task_registers :=
  mk_registers 0 0 0 0 0 0 0 0 0 0 0 0 0 0 0 0 0.

Record task_signal_context := mk_context {
  sc_registers : task_registers; sc_user_rsp : Z; sc_cs : Z; sc_ss : Z; sc_signum : Z
}.
#[export] Instance eta_task_signal_context : Eta task_signal_context := fun c =>
  mk_context (sc_registers c) (sc_user_rsp c) (sc_cs c) (sc_ss c) (sc_signum c).

(** [struct interrupt_task_frame] and [struct task_sigreturn_frame]: the same
    twenty words in the same order. *)
Record frame := mk_frame {
  f_r15 : Z; f_r14 : Z; f_r13 : Z; f_r12 : Z; f_r11 : Z; f_r10 : Z; f_r9 : Z; f_r8 : Z;
  f_rbp : Z; f_rdi : Z; f_rsi : Z; f_rdx : Z; f_rcx : Z; f_rbx : Z; f_rax : Z;
  f_rip : Z; f_cs : Z; f_rflags : Z; f_user_rsp : Z; f_ss : Z
}.
#[export] Instance eta_frame : Eta frame := fun f =>
  mk_frame (f_r15 f) (f_r14 f) (f_r13 f) (f_r12 f) (f_r11 f) (f_r10 f) (f_r9 f) (f_r8 f)
    (f_rbp f) (f_rdi f) (f_rsi f) (f_rdx f) (f_rcx f) (f_rbx f) (f_rax f)
    (f_rip f) (f_cs f) (f_rflags f) (f_user_rsp f) (f_ss f).
Definition zero_frame : frame := mk_frame 0 0 0 0 0 0 0 0 0 0 0 0 0 0 0 0 0 0 0 0.

Definition FRAME_SIZE : Z := 160.

Definition load_frame (m : gmap Z Z) (a : Z) : frame :=
  mk_frame (load64 m a) (load64 m (a + 8)) (load64 m (a + 16)) (load64 m (a + 24))
    (load64 m (a + 32)) (load64 m (a + 40)) (load64 m (a + 48)) (load64 m (a + 56))
    (load64 m (a + 64)) (load64 m (a + 72)) (load64 m (a + 80)) (load64 m (a + 88))
    (load64 m (a + 96)) (load64 m (a + 104)) (load64 m (a + 112)) (load64 m (a + 120))
    (load64 m (a + 128)) (load64 m (a + 136)) (load64 m (a + 144)) (load64 m (a + 152)).

(** The words of a frame, lowest address first. *)
Definition frame_words (f : frame) : list Z :=
  [f_r15 f; f_r14 f; f_r13 f; f_r12 f; f_r11 f; f_r10 f; f_r9 f; f_r8 f; f_rbp f; f_rdi f;
   f_rsi f; f_rdx f; f_rcx f; f_rbx f; f_rax f; f_rip f; f_cs f; f_rflags f; f_user_rsp f; f_ss f].

Fixpoint store_words (m : gmap Z Z) (a : Z) (ws : list Z) : gmap Z Z :=
  match ws with
  | [] => m
  | w :: ws' => store_words (store64 m a w) (a + 8) ws'
  end.

Definition store_frame (m : gmap Z Z) (a : Z) (f : frame) : gmap Z Z :=
  store_words m a (frame_words f).

Record task := mk_task {
  rsp : Z;
  kernel_stack_top : Z;
  guard_page : Z;
  cr3 : Z;
  file_descriptors : list Z;
  cwd : list Z;
  user_physical_pages : list Z;
  heap_start : Z;
  heap_end : Z;
  user_page_count : Z;
  registers : task_registers;
  pid : Z;
  parent_pid : Z;
  uid : Z;
  gid : Z;
  umask : Z;
  name : list Z;
  signal_handlers : list Z;
  pending_signals : Z;
  blocked_signals : Z;
  active_signal : Z;
  signal_context : task_signal_context;
  sigreturn_frame : frame;
  wait_target : Z;
  exit_status : Z;
  state : task_state;
  wait_reason : task_wait_reason;
  mutex_wait_next : option Z
}.
#[export] Instance eta_task : Eta task := fun t =>
  mk_task (rsp t) (kernel_stack_top t) (guard_page t) (cr3 t) (file_descriptors t) (cwd t)
    (user_physical_pages t) (heap_start t) (heap_end t) (user_page_count t) (registers t)
    (pid t) (parent_pid t) (uid t) (gid t) (umask t) (name t) (signal_handlers t)
    (pending_signals t) (blocked_signals t) (active_signal t) (signal_context t)
    (sigreturn_frame t) (wait_target t) (exit_status t) (state t) (wait_reason t)
    (mutex_wait_next t).

Definition zero_task : task :=
  mk_task 0 0 0 0 (replicate 32 0) (replicate 64 0) (replicate 128 0) 0 0 0 zero_registers
    0 0 0 0 0 (replicate 32 0) (replicate 32 0) 0 0 0 (mk_context zero_registers 0 0 0 0)
    zero_frame 0 0 TASK_UNUSED TASK_WAIT_NONE None.
#[export] Instance task_inhabited : Inhabited task := populate zero_task.

(** * Frames in memory *)

Lemma load_store_words m a ws b :
  b + 8 <= a \/ a + 8 * Z.of_nat (length ws) <= b ->
  load64 (store_words m a ws) b = load64 m b.
Proof.
  revert m a. induction ws as [|w ws IH]; intros m a Hb; [done|].
  cbn [store_words length] in *. rewrite IH by lia. apply ld64_st64_ne. lia.
Qed.

Lemma load_stored_word m a ws k :
  Forall is_u64 ws -> 0 <= k < Z.of_nat (length ws) ->
  load64 (store_words m a ws) (a + 8 * k) = ws !!! Z.to_nat k.
Proof.
  revert m a k. induction ws as [|w ws IH]; intros m a k Hall Hk; cbn [length] in Hk; [lia|].
  apply Forall_cons in Hall as [Hw Hall]. cbn [store_words].
  destruct (Z.eq_dec k 0) as [->|].
  - rewrite load_store_words by lia. replace (a + 8 * 0) with a by lia.
    by rewrite load64_store64.
  - replace (a + 8 * k) with (a + 8 + 8 * (k - 1)) by lia. rewrite IH by (done || lia).
    replace (Z.to_nat k) with (S (Z.to_nat (k - 1))) by lia. done.
Qed.

(** Every word of the frame fits its register. *)
Definition frame_ok (f : frame) : Prop := Forall is_u64 (frame_words f).

Lemma load_store_frame m a f : frame_ok f -> load_frame (store_frame m a f) a = f.
Proof.
  intros Hok. pose proof (fun k => load_stored_word m a (frame_words f) k Hok) as H.
  unfold load_frame, store_frame.
  pose proof (H 0 ltac:(cbn; lia)) as H0. rewrite Z.mul_0_r, Z.add_0_r in H0. rewrite H0.
  repeat match goal with
  | |- context [load64 (store_words m a (frame_words f)) (a + ?o)] =>
      let k := eval vm_compute in (o / 8) in
      rewrite (H k ltac:(cbn; lia) : load64 (store_words m a (frame_words f)) (a + o) = _)
  end.
  by destruct f.
Qed.
