(* ===== verification/Sched.v ===== *)
(** The scheduler of [src/src/kernel/scheduler.c]: the task table, creation and
    fork, signals, waiting and waking, termination, and the timer tick; with
    [task_close_all_fds] and [sys_sigreturn] of kernel.c, which complete them.

    The state [sched] holds the task table and the file-scope variables.  A task
    pointer is the number of its slot.  Kernel stacks are byte memory ([kmem]);
    address spaces, physical pages and file descriptions are reached through
    [KernelEnv].  [task_table_lock] is a spinlock that is not recursive and is
    taken with interrupts off, so taking it again on the same processor never
    returns: operations give [option], and [None] is such a spin.  Each critical
    section is one step.

    A loop over the table whose body touches only [tasks[i]] is written with
    [map_active]. *)

From S2P Require Import Prelude Mem Task.

Definition MAX_TASKS : Z := 16.
Definition TASK_STACK_SIZE : Z := 8192.
Definition USER_STACK_SIZE : Z := 4096.
Definition KERNEL_CODE_SELECTOR : Z := 0x08.
Definition KERNEL_DATA_SELECTOR : Z := 0x10.
Definition USER_DATA_SELECTOR : Z := 0x23.
Definition USER_CODE_SELECTOR : Z := 0x2B.
Definition INITIAL_RFLAGS : Z := 0x202.

(** [PAGE_PRESENT | PAGE_WRITABLE | PAGE_USER] *)
Definition PAGE_PWU : Z := 7.

(** A call to [scheduler_wake_pipe_readers] or [scheduler_wake_pipe_writers]. *)
Inductive pipe_wake := WakeReaders (pipe : Z) | WakeWriters (pipe : Z).

(** What the scheduler uses of the rest of the kernel.  Closing a file
    description drops one reference and, with the last one, closes its node; the
    close of a pipe end calls back into the scheduler, and [k_fd_close] returns
    those calls. *)
Class KernelEnv (E : Type) := {
  k_kernel_pml4 : Z;
  k_switch_address_space : Z -> E -> E;
  k_destroy_address_space : Z -> E -> E;
  k_clone_address_space : Z -> E -> Z * E;
  k_is_mapped : Z -> Z -> E -> bool;
  k_map_in_space : Z -> Z -> Z -> Z -> E -> E;
  k_map : Z -> Z -> Z -> E -> E;
  k_flush : Z -> E -> E;
  k_virt_to_phys : Z -> E -> Z;
  k_pmm_alloc : E -> Z * E;
  k_pmm_free : Z -> E -> E;
  k_zero_page : Z -> E -> E;
  k_write_user64 : Z -> Z -> E -> E;
  k_tss_set_rsp0 : Z -> E -> E;
  k_serial_received : E -> bool;
  k_std_fd : Z -> E -> Z * E;
  k_fd_ref : Z -> E -> E;
  k_fd_close : Z -> Z -> E -> list pipe_wake * E
}.

Record sched E := mk_sched {
  tasks : list task;
  task_count : Z;
  current_task_index : Z;
  idle_task_index : Z;
  current_task : option Z;
  next_pid : Z;
  kernel_task : task;
  task_table_lock : bool;
  task_stacks : Z;
  user_stacks : Z;
  kmem : gmap Z Z;
  kernel_ticks : Z;
  env : E
}.
Arguments mk_sched {E} _ _ _ _ _ _ _ _ _ _ _ _ _.
Arguments tasks {E} _.
Arguments task_count {E} _.
Arguments current_task_index {E} _.
Arguments idle_task_index {E} _.
Arguments current_task {E} _.
Arguments next_pid {E} _.
Arguments kernel_task {E} _.
Arguments task_table_lock {E} _.
Arguments task_stacks {E} _.
Arguments user_stacks {E} _.
Arguments kmem {E} _.
Arguments kernel_ticks {E} _.
Arguments env {E} _.
#[export] Instance eta_sched E : Eta (sched E) := fun s =>
  mk_sched (tasks s) (task_count s) (current_task_index s) (idle_task_index s)
    (current_task s) (next_pid s) (kernel_task s) (task_table_lock s) (task_stacks s)
    (user_stacks s) (kmem s) (kernel_ticks s) (env s).

(** * Pure helpers *)

(** [state != TASK_UNUSED && state != TASK_DEAD] *)
Definition live (t : task) : bool :=
  negb (st_eqb (state t) TASK_UNUSED) && negb (st_eqb (state t) TASK_DEAD).

Definition signal_bit (signum : Z) : Z := u32 (Z.shiftl 1 signum).

Definition is_supported_signal (signum : Z) : bool := (0 <? signum) && (signum <? TASK_SIGNAL_COUNT).

Definition reset_signal_state (t : task) : task :=
  t <| signal_handlers := replicate 32 0 |> <| pending_signals := 0 |> <| blocked_signals := 0 |>
    <| active_signal := 0 |> <| signal_context := signal_context t <| sc_signum := 0 |> |>.

(** At most 31 characters of the name, then the terminator. *)
Definition set_task_name (t : task) (nm : list Z) : task :=
  let n := Nat.min (length nm) 31 in
  t <| name := take n nm ++ [0] ++ drop (S n) (name t) |>.

Definition wake (t : task) : task :=
  t <| state := TASK_READY |> <| wait_reason := TASK_WAIT_NONE |> <| wait_target := 0 |>.

Definition stack_top (stack : Z) : Z := Z.land (u64 (stack + TASK_STACK_SIZE)) (lnot64 15).

(** Each word is pushed below the previous one. *)
Definition push_u64 (v : Z) (sm : Z * gmap Z Z) : Z * gmap Z Z :=
  let '(sp, m) := sm in (u64 (sp - 8), store64 m (u64 (sp - 8)) v).

Definition build_initial_stack (m : gmap Z Z) (stack user_rsp entry code data arg_rdi arg_rsi : Z)
    : Z * gmap Z Z :=
  let top := stack_top stack in
  let entry_rsp := u64 (top - 8) in
  let m := store64 m entry_rsp 0 in
  let user_rsp := if user_rsp =? 0 then entry_rsp else user_rsp in
  fold_left (fun sm v => push_u64 v sm)
    [data; user_rsp; INITIAL_RFLAGS; code; entry;
     0; 0; 0; 0; arg_rsi; arg_rdi; 0; 0; 0; 0; 0; 0; 0; 0; 0]
    (entry_rsp, m).

(** The signal with the lowest number that is pending and not blocked, or 0. *)
Definition next_pending_signal (t : task) : Z :=
  let deliverable := Z.land (pending_signals t) (lnot32 (blocked_signals t)) in
  default 0 (find_index (fun n => negb (Z.land deliverable (signal_bit n) =? 0)) (seqZ 1 31) 1).

Definition signal_handler_stack (user_rsp : Z) : Z := u64 (Z.land user_rsp (lnot64 15) - 8).

Definition save_signal_context (f : frame) (signum : Z) : task_signal_context :=
  mk_context
    (mk_registers (f_r15 f) (f_r14 f) (f_r13 f) (f_r12 f) (f_r11 f) (f_r10 f) (f_r9 f) (f_r8 f)
       (f_rbp f) (f_rdi f) (f_rsi f) (f_rdx f) (f_rcx f) (f_rbx f) (f_rax f) (f_rip f) (f_rflags f))
    (f_user_rsp f) (f_cs f) (f_ss f) (u32 signum).

(** [while (src[i] != 0 && i < 63) dst[i] = src[i]; dst[i] = 0;] *)
Definition copy_cwd (src dst : list Z) : list Z :=
  let n := Z.to_nat (default 63 (find_index (fun c => c =? 0) (take 63 src) 0)) in
  take n src ++ [0] ++ drop (S n) dst.

(** [cwd[0] = '/'; cwd[1] = 0;] *)
Definition root_cwd (dst : list Z) : list Z := [47; 0] ++ drop 2 dst.

Section Ops.
Context {E : Type} `{KernelEnv E}.

Definition task_at (s : sched E) (i : Z) : task := arr_get (tasks s) i.
Definition set_task (i : Z) (t : task) (s : sched E) : sched E := s <| tasks := arr_set (tasks s) i t |>.
Definition upd_env (f : E -> E) (s : sched E) : sched E := s <| env := f (env s) |>.
Definition active_tasks (s : sched E) : list task := take (Z.to_nat (task_count s)) (tasks s).
Definition map_active (f : task -> task) (s : sched E) : sched E :=
  s <| tasks := map f (active_tasks s) ++ drop (Z.to_nat (task_count s)) (tasks s) |>.

(** [None] spins for ever: the lock is held by this processor. *)
Definition spin_lock_irqsave (s : sched E) : option (sched E) :=
  if task_table_lock s then None else Some (s <| task_table_lock := true |>).
Definition spin_unlock_irqrestore (s : sched E) : sched E := s <| task_table_lock := false |>.

(** * Creation *)

Definition map_user_page (address : Z) (s : sched E) : sched E :=
  let page := Z.land address (lnot64 (USER_STACK_SIZE - 1)) in
  let phys := k_virt_to_phys page (env s) in
  let phys := if phys =? 0 then page else phys in
  upd_env (k_map page phys PAGE_PWU) s.

Definition init_standard_fds (t : task) (s : sched E) : task * sched E :=
  let '(f0, e) := k_std_fd 0 (env s) in
  let '(f1, e) := k_std_fd 1 e in
  let '(f2, e) := k_std_fd 2 e in
  (t <| file_descriptors := [f0; f1; f2] ++ replicate 29 0 |>, s <| env := e |>).

Definition ref_fds (fds : list Z) (s : sched E) : sched E :=
  upd_env (fun e => fold_left (fun e fd => if fd =? 0 then e else k_fd_ref fd e) fds e) s.

Definition inherit_fds (t : task) (parent : option Z) (s : sched E) : task * sched E :=
  match parent with
  | None => init_standard_fds t s
  | Some p =>
      let fds := file_descriptors (task_at s p) in
      (t <| file_descriptors := fds |>, ref_fds fds s)
  end.

Definition release_user_pages (i : Z) (s : sched E) : sched E :=
  let t := task_at s i in
  let n := Z.to_nat (user_page_count t) in
  let s := upd_env (fun e => fold_left (fun e p => k_pmm_free p e)
                               (take n (user_physical_pages t)) e) s in
  set_task i (t <| user_physical_pages := replicate n 0 ++ drop n (user_physical_pages t) |>
                <| user_page_count := 0 |>) s.

(** The slot, or -1 when the table is full. *)
Definition allocate_task_slot (s : sched E) : Z * sched E :=
  match find_index (fun t => negb (live t)) (active_tasks s) 0 with
  | Some i => (i, release_user_pages i s)
  | None =>
      if MAX_TASKS <=? task_count s then (-1, s)
      else (task_count s, s <| task_count := u32 (task_count s + 1) |>)
  end.

Definition pid_in_use (s : sched E) (p : Z) : bool :=
  match find_index (fun t => live t && (pid t =? p)) (active_tasks s) 0 with
  | Some _ => true
  | None => false
  end.

Fixpoint generate_pid_loop (fuel : nat) (p : Z) (s : sched E) : option (Z * sched E) :=
  match fuel with
  | O => None
  | S n =>
      let p := if p =? 0 then 1 else p in
      if pid_in_use s p then generate_pid_loop n (u32 (p + 1)) s
      else Some (p, s <| next_pid := u32 (p + 1) |>)
  end.

(** 17 candidates are enough: at most 16 are in use. *)
Definition generate_pid (s : sched E) : option (Z * sched E) := generate_pid_loop 17 (next_pid s) s.

(** The fields both creation functions set, in slot [slot]. *)
Definition new_task (slot cr3v rspv entry p : Z) (nm : list Z) (s : sched E) : task :=
  let t := task_at s slot in
  let cur := option_map (task_at s) (current_task s) in
  let t := t <| guard_page := 0 |> <| kernel_stack_top := stack_top (u64 (task_stacks s + slot * TASK_STACK_SIZE)) |>
             <| cr3 := cr3v |> <| rsp := rspv |>
             <| registers := registers t <| rip := entry |> <| rflags := INITIAL_RFLAGS |> |>
             <| pid := p |>
             <| parent_pid := match cur with Some c => pid c | None => 0 end |>
             <| uid := match cur with Some c => uid c | None => 0 end |>
             <| gid := match cur with Some c => gid c | None => 0 end |>
             <| umask := match cur with Some c => umask c | None => 18 end |> in
  let t := reset_signal_state (set_task_name t nm) in
  t <| wait_target := 0 |> <| exit_status := 0 |> <| heap_start := 0 |> <| heap_end := 0 |>
    <| user_page_count := 0 |> <| state := TASK_READY |> <| wait_reason := TASK_WAIT_NONE |>
    <| mutex_wait_next := None |>.

Definition scheduler_create_task_with_mode (entry : Z) (user_mode : bool) (s : sched E) : option (Z * sched E) :=
  let* s := spin_lock_irqsave s in
  let '(slot, s) := allocate_task_slot s in
  if slot <? 0 then Some (-1, spin_unlock_irqrestore s)
  else
    let ustack := u64 (user_stacks s + slot * USER_STACK_SIZE) in
    let user_rsp := if user_mode then Z.land (u64 (ustack + USER_STACK_SIZE)) (lnot64 15) else 0 in
    let s := if user_mode
             then map_user_page (u64 (user_rsp - 8)) (map_user_page ustack (map_user_page entry s))
             else s in
    let '(rspv, m) := build_initial_stack (kmem s) (u64 (task_stacks s + slot * TASK_STACK_SIZE))
        user_rsp entry (if user_mode then USER_CODE_SELECTOR else KERNEL_CODE_SELECTOR)
        (if user_mode then USER_DATA_SELECTOR else KERNEL_DATA_SELECTOR) 0 0 in
    let s := s <| kmem := m |> in
    let* (p, s) := generate_pid s in
    let t := new_task slot k_kernel_pml4 rspv entry p
               (chars (if user_mode then "user-task" else "kernel-task")) s in
    let t := t <| cwd := root_cwd (cwd t) |> in
    let '(t, s) := inherit_fds t (current_task s) s in
    Some (s32 p, spin_unlock_irqrestore (set_task slot t s)).

Definition scheduler_create_task (entry : Z) (s : sched E) := scheduler_create_task_with_mode entry false s.
Definition scheduler_create_user_task (entry : Z) (s : sched E) := scheduler_create_task_with_mode entry true s.

(** The third component is [*out_task]. *)
Definition scheduler_add_user_process (entry user_rsp pml4 arg_rdi arg_rsi : Z) (s : sched E)
    : option (Z * option task * sched E) :=
  if (pml4 =? 0) || (user_rsp =? 0) then Some (-1, None, s)
  else
    let* s := spin_lock_irqsave s in
    let '(slot, s) := allocate_task_slot s in
    if slot <? 0 then Some (-1, None, spin_unlock_irqrestore s)
    else
      let '(rspv, m) := build_initial_stack (kmem s) (u64 (task_stacks s + slot * TASK_STACK_SIZE))
          user_rsp entry USER_CODE_SELECTOR USER_DATA_SELECTOR arg_rdi arg_rsi in
      let s := s <| kmem := m |> in
      let* (p, s) := generate_pid s in
      let t := new_task slot pml4 rspv entry p (chars "process") s in
      let cwdv := match current_task s with
                  | Some c => if negb (arr_get (cwd (task_at s c)) 0 =? 0)
                              then copy_cwd (cwd (task_at s c)) (cwd t) else root_cwd (cwd t)
                  | None => root_cwd (cwd t)
                  end in
      let '(t, s) := inherit_fds (t <| cwd := cwdv |>) (current_task s) s in
      Some (s32 p, Some t, spin_unlock_irqrestore (set_task slot t s)).

(** [stacks_raw], [user_raw] and [ts] are what the three [kmalloc] calls return:
    two addresses and sixteen blocks of uninitialised memory; [idle] is the
    address of [scheduler_idle_thread]. *)
Definition scheduler_init (ts : list task) (stacks_raw user_raw idle : Z) (s : sched E)
    : option (sched E) :=
  let s := s <| tasks := map (fun t => t <| state := TASK_UNUSED |> <| pid := 0 |>) ts |>
             <| task_stacks := Z.land (u64 (stacks_raw + TASK_STACK_SIZE - 1)) (lnot64 (TASK_STACK_SIZE - 1)) |>
             <| user_stacks := Z.land (u64 (user_raw + USER_STACK_SIZE - 1)) (lnot64 (USER_STACK_SIZE - 1)) |>
             <| task_count := 0 |> <| current_task_index := -1 |> <| idle_task_index := -1 |>
             <| current_task := None |> <| task_table_lock := false |> in
  let* (idle_pid, s) := scheduler_create_task idle s in
  if 0 <=? idle_pid then
    let s := s <| idle_task_index := idle_pid - 1 |> in
    Some (set_task (idle_pid - 1) (set_task_name (task_at s (idle_pid - 1)) (chars "idle")) s)
  else Some s.

(** * Lookup *)

Definition find_pid (p : Z) (s : sched E) : option Z :=
  find_index (fun t => live t && (pid t =? p)) (active_tasks s) 0.

Definition scheduler_find_task (p : Z) (s : sched E) : option (option Z * sched E) :=
  let* s := spin_lock_irqsave s in
  Some (find_pid p s, spin_unlock_irqrestore s).

Definition scheduler_task_count (s : sched E) : Z := task_count s.
Definition scheduler_task_at (index : Z) (s : sched E) : option Z :=
  if task_count s <=? index then None else Some index.

(** * Sleeping and waking *)

Definition scheduler_sleep_current (reason : task_wait_reason) (target : Z) (s : sched E)
    : option (sched E) :=
  match current_task s with
  | None => Some s
  | Some c =>
      let* s := spin_lock_irqsave s in
      let st := if wr_eqb reason TASK_WAIT_CHILD then TASK_WAITING
                else if wr_eqb reason TASK_WAIT_SOCKET_RECV || wr_eqb reason TASK_WAIT_NETWORK
                then TASK_BLOCKED else TASK_SLEEPING in
      Some (spin_unlock_irqrestore
        (set_task c (task_at s c <| state := st |> <| wait_reason := reason |>
                                 <| wait_target := target |>) s))
  end.

Definition wake_if (f : task -> bool) (t : task) : task := if f t then wake t else t.

(** The table scan with which every wake-up function wakes the tasks it matches. *)
Definition wake_tasks (f : task -> bool) (s : sched E) : option (sched E) :=
  let* s := spin_lock_irqsave s in
  Some (spin_unlock_irqrestore (map_active (wake_if f) s)).

Definition waits_stdin (t : task) : bool :=
  st_eqb (state t) TASK_SLEEPING && wr_eqb (wait_reason t) TASK_WAIT_STDIN.
Definition waits_pipe_read (pipe : Z) (t : task) : bool :=
  st_eqb (state t) TASK_SLEEPING && wr_eqb (wait_reason t) TASK_WAIT_PIPE_READ &&
  (wait_target t =? pipe).
Definition waits_pipe_write (pipe : Z) (t : task) : bool :=
  st_eqb (state t) TASK_SLEEPING && wr_eqb (wait_reason t) TASK_WAIT_PIPE_WRITE &&
  (wait_target t =? pipe).
Definition waits_protocol (protocol : Z) (t : task) : bool :=
  st_eqb (state t) TASK_BLOCKED && wr_eqb (wait_reason t) TASK_WAIT_SOCKET_RECV &&
  (wait_target t =? protocol).
Definition waits_socket (sock : Z) (t : task) : bool :=
  (st_eqb (state t) TASK_BLOCKED || st_eqb (state t) TASK_SLEEPING) &&
  (wr_eqb (wait_reason t) TASK_WAIT_SOCKET_RECV || wr_eqb (wait_reason t) TASK_WAIT_NETWORK) &&
  (wait_target t =? sock).

Definition scheduler_wake_stdin_readers (s : sched E) := wake_tasks waits_stdin s.
Definition scheduler_wake_pipe_readers (pipe : Z) (s : sched E) := wake_tasks (waits_pipe_read pipe) s.
Definition scheduler_wake_pipe_writers (pipe : Z) (s : sched E) := wake_tasks (waits_pipe_write pipe) s.
Definition scheduler_wake_socket_receivers (protocol : Z) (s : sched E) :=
  wake_tasks (waits_protocol protocol) s.

(** Also counts the tasks it wakes. *)
Definition scheduler_wake_socket (sock : Z) (s : sched E) : option (Z * sched E) :=
  let n := Z.of_nat (length (List.filter (waits_socket sock) (active_tasks s))) in
  let* s := wake_tasks (waits_socket sock) s in
  Some (n, s).

(** * Termination *)

Definition run_wake (w : pipe_wake) (s : sched E) : option (sched E) :=
  match w with
  | WakeReaders pipe => scheduler_wake_pipe_readers pipe s
  | WakeWriters pipe => scheduler_wake_pipe_writers pipe s
  end.

Fixpoint run_wakes (ws : list pipe_wake) (s : sched E) : option (sched E) :=
  match ws with
  | [] => Some s
  | w :: ws' => let* s := run_wake w s in run_wakes ws' s
  end.

Definition close_fd (i k : Z) (s : sched E) : option (sched E) :=
  let t := task_at s i in
  let fdesc := arr_get (file_descriptors t) k in
  if fdesc =? 0 then Some s
  else
    let s := set_task i (t <| file_descriptors := arr_set (file_descriptors t) k 0 |>) s in
    let '(ws, e) := k_fd_close fdesc (pid t) (env s) in
    run_wakes ws (s <| env := e |>).

(** The loop of [task_close_all_fds] from descriptor [k], [n] left. *)
Fixpoint close_fds (n : nat) (i k : Z) (s : sched E) : option (sched E) :=
  match n with
  | O => Some s
  | S n' => let* s := close_fd i k s in close_fds n' i (k + 1) s
  end.

Definition task_close_all_fds (i : Z) (s : sched E) : option (sched E) :=
  close_fds (Z.to_nat TASK_MAX_FDS) i 0 s.

Definition waits_child (exited_pid : Z) (t : task) : bool :=
  (st_eqb (state t) TASK_SLEEPING || st_eqb (state t) TASK_WAITING) &&
  wr_eqb (wait_reason t) TASK_WAIT_CHILD &&
  ((wait_target t =? exited_pid) || (wait_target t =? 0) || (wait_target t =? 18446744073709551615)).

Definition wake_parent_waiters (exited_pid : Z) (s : sched E) : sched E :=
  map_active (wake_if (waits_child exited_pid)) s.

Definition finished (t : task) : bool :=
  st_eqb (state t) TASK_ZOMBIE || st_eqb (state t) TASK_DEAD || st_eqb (state t) TASK_UNUSED.

Definition reparent (exited_pid : Z) (t : task) : task :=
  if live t && (parent_pid t =? exited_pid) then t <| parent_pid := 1 |> else t.

(** The handler is neither [SIG_DFL] nor [SIG_IGN]. *)
Definition catches (t : task) (signum : Z) : bool :=
  negb (arr_get (signal_handlers t) signum =? 0) && negb (arr_get (signal_handlers t) signum =? 1).

Definition notify_parent (ppid : Z) (s : sched E) : sched E :=
  if ppid =? 0 then s
  else
    match find_pid ppid s with
    | Some i =>
        let t := task_at s i in
        if catches t SIGCHLD
        then set_task i (t <| pending_signals := Z.lor (pending_signals t) (signal_bit SIGCHLD) |>) s
        else s
    | None => s
    end.

Definition scheduler_terminate_task_unlocked (i status : Z) (s : sched E) : option (sched E) :=
  let t := task_at s i in
  if finished t then Some s
  else
    let exited_pid := pid t in
    let ppid := parent_pid t in
    let exited_cr3 := cr3 t in
    let restore_cr3 :=
      match current_task s with
      | Some c => if negb (i =? c) && negb (finished (task_at s c)) then cr3 (task_at s c) else 0
      | None => 0
      end in
    let s := if negb (exited_cr3 =? k_kernel_pml4)
             then upd_env (k_switch_address_space k_kernel_pml4) s else s in
    let s := set_task i (t <| exit_status := status |> <| state := TASK_ZOMBIE |>
                           <| wait_reason := TASK_WAIT_NONE |> <| wait_target := 0 |>
                           <| pending_signals := 0 |> <| active_signal := 0 |>) s in
    let* s := task_close_all_fds i s in
    let s := upd_env (k_destroy_address_space exited_cr3) s in
    let s := set_task i (task_at s i <| cr3 := k_kernel_pml4 |> <| user_page_count := 0 |>) s in
    let s := map_active (reparent exited_pid) s in
    let s := wake_parent_waiters exited_pid s in
    let s := if negb (restore_cr3 =? 0)
             then upd_env (k_switch_address_space restore_cr3) s else s in
    Some (notify_parent ppid s).

Definition scheduler_terminate_task (task : option Z) (status : Z) (s : sched E) : option (sched E) :=
  match task with
  | None => Some s
  | Some i =>
      if finished (task_at s i) then Some s
      else
        let* s := spin_lock_irqsave s in
        if finished (task_at s i) then Some (spin_unlock_irqrestore s)
        else
          let* s := scheduler_terminate_task_unlocked i status s in
          Some (spin_unlock_irqrestore s)
  end.

Definition scheduler_exit_current (status : Z) (s : sched E) : option (sched E) :=
  match current_task s with
  | None => Some s
  | Some c => scheduler_terminate_task (Some c) status s
  end.

(** * Signals *)

Definition clear_pending (signum : Z) (t : task) : task :=
  t <| pending_signals := Z.land (pending_signals t) (lnot32 (signal_bit signum)) |>.

(** The tail of [scheduler_send_signal]: make the signal pending and wake the
    task unless it blocks the signal. *)
Definition post_signal (signum : Z) (t : task) : task :=
  let t := t <| pending_signals := Z.lor (pending_signals t) (signal_bit signum) |> in
  if (st_eqb (state t) TASK_SLEEPING || st_eqb (state t) TASK_WAITING ||
      st_eqb (state t) TASK_BLOCKED) && (Z.land (blocked_signals t) (signal_bit signum) =? 0)
  then wake t else t.

(** The [SIGSTOP] branch sends [SIGCHLD] to the parent, which does not recurse
    further: a depth of 2 is enough. *)
Fixpoint send_signal (depth : nat) (p signum : Z) (s : sched E) : option (Z * sched E) :=
  match depth with
  | O => None
  | S depth' =>
      if negb (is_supported_signal signum) then Some (-1, s)
      else
        let* s := spin_lock_irqsave s in
        match find_pid p s with
        | None => Some (-1, spin_unlock_irqrestore s)
        | Some i =>
            let t := task_at s i in
            if st_eqb (state t) TASK_ZOMBIE || st_eqb (state t) TASK_DEAD
            then Some (-1, spin_unlock_irqrestore s)
            else if signum =? SIGKILL then
              let* s := scheduler_terminate_task_unlocked i (128 + SIGKILL) s in
              Some (0, spin_unlock_irqrestore s)
            else if signum =? SIGSTOP then
              let t := clear_pending SIGCONT t <| state := TASK_STOPPED |>
                         <| wait_reason := TASK_WAIT_NONE |> <| wait_target := 0 |> in
              let s := spin_unlock_irqrestore (set_task i t s) in
              if negb (parent_pid t =? 0) then
                let* (_, s) := send_signal depth' (parent_pid t) SIGCHLD s in Some (0, s)
              else Some (0, s)
            else
              let t := if signum =? SIGCONT then
                         let t := clear_pending SIGSTOP t in
                         if st_eqb (state t) TASK_STOPPED then wake t else t
                       else t in
              if ((signum =? SIGCONT) || (signum =? SIGCHLD)) && negb (catches t signum)
              then Some (0, spin_unlock_irqrestore (set_task i t s))
              else Some (0, spin_unlock_irqrestore (set_task i (post_signal signum t) s))
        end
  end.

Definition scheduler_send_signal (p signum : Z) (s : sched E) := send_signal 2 p signum s.

(** [scheduler_current_task]: the current task, or [kernel_task] before there is one. *)
Definition scheduler_current_task (s : sched E) : task :=
  match current_task s with Some c => task_at s c | None => kernel_task s end.
Definition set_current (t : task) (s : sched E) : sched E :=
  match current_task s with Some c => set_task c t s | None => s <| kernel_task := t |> end.

(** [act] is [act->sa_handler]; the middle component is [*oldact], the old
    handler and the mask. *)
Definition scheduler_sigaction (signum : Z) (act : option Z) (s : sched E)
    : option (Z * option (Z * Z) * sched E) :=
  if (signum <=? 0) || (TASK_SIGNAL_COUNT <=? signum) || (signum =? SIGKILL) || (signum =? SIGSTOP)
  then Some (-1, None, s)
  else
    let* s := spin_lock_irqsave s in
    let t := scheduler_current_task s in
    let old := (arr_get (signal_handlers t) signum, blocked_signals t) in
    let s := match act with
             | Some h => set_current (t <| signal_handlers := arr_set (signal_handlers t) signum h |>) s
             | None => s
             end in
    Some (0, Some old, spin_unlock_irqrestore s).

(** The middle component is [*oldset]. *)
Definition scheduler_sigprocmask (how : Z) (set : option Z) (s : sched E)
    : option (Z * Z * sched E) :=
  let* s := spin_lock_irqsave s in
  let t := scheduler_current_task s in
  let oldset := blocked_signals t in
  match set with
  | None => Some (0, oldset, spin_unlock_irqrestore s)
  | Some set =>
      let new_set := Z.land set (lnot32 (signal_bit SIGKILL)) in
      let new_set := Z.land new_set (lnot32 (signal_bit SIGSTOP)) in
      let mask := if how =? SIG_BLOCK then Some (Z.lor (blocked_signals t) new_set)
                  else if how =? SIG_UNBLOCK then Some (Z.land (blocked_signals t) (lnot32 new_set))
                  else if how =? SIG_SETMASK then Some new_set
                  else None in
      match mask with
      | None => Some (-1, oldset, spin_unlock_irqrestore s)
      | Some m => Some (0, oldset, spin_unlock_irqrestore (set_current (t <| blocked_signals := m |>) s))
      end
  end.

(** [sys_signal] of kernel.c. *)
Definition sys_signal (signum handler : Z) (s : sched E) : Z * sched E :=
  if negb (is_supported_signal signum) || (signum =? SIGKILL) || (signum =? SIGSTOP)
  then (18446744073709551615, s)
  else
    let t := scheduler_current_task s in
    (arr_get (signal_handlers t) signum,
     set_current (t <| signal_handlers := arr_set (signal_handlers t) signum handler |>) s).

(** * Waiting for children *)

Inductive wait_result := WaitReturn (ret : Z) (status : option Z) | WaitYield.

(** The scan: the first zombie among the matching children, and whether there
    is a matching child at all. *)
Fixpoint wait_scan (l : list task) (i parent p : Z) (has : bool) : option Z * bool :=
  match l with
  | [] => (None, has)
  | t :: l' =>
      if negb (live t) || negb (parent_pid t =? parent) || ((0 <? p) && negb (pid t =? u32 p))
      then wait_scan l' (i + 1) parent p has
      else if st_eqb (state t) TASK_ZOMBIE then (Some i, true)
      else wait_scan l' (i + 1) parent p true
  end.

(** One iteration of the loop of [scheduler_waitpid], under the lock. *)
Definition waitpid_pass (c p options : Z) (s : sched E) : wait_result * sched E :=
  let cur := task_at s c in
  match wait_scan (active_tasks s) 0 (pid cur) p false with
  | (Some i, _) =>
      let child := task_at s i in
      (WaitReturn (s32 (pid child)) (Some (exit_status child)),
       set_task i (child <| state := TASK_DEAD |> <| pid := 0 |> <| parent_pid := 0 |>) s)
  | (None, false) => (WaitReturn (-1) None, s)
  | (None, true) =>
      if negb (Z.land options WNOHANG =? 0) then (WaitReturn 0 None, s)
      else (WaitYield,
            set_task c (cur <| state := TASK_WAITING |> <| wait_reason := TASK_WAIT_CHILD |>
                            <| wait_target := if 0 <? p then p else 0 |>) s)
  end.

(** The loop; [yield] is what the rest of the system does while the task is off
    the processor. *)
Fixpoint waitpid_loop (fuel : nat) (yield : sched E -> sched E) (p options : Z) (s : sched E)
    : option (Z * option Z * sched E) :=
  match fuel, current_task s with
  | O, _ => None
  | S _, None => Some (-1, None, s)
  | S n, Some c =>
      let* s := spin_lock_irqsave s in
      match waitpid_pass c p options s with
      | (WaitReturn r st, s) => Some (r, st, spin_unlock_irqrestore s)
      | (WaitYield, s) => waitpid_loop n yield p options (yield (spin_unlock_irqrestore s))
      end
  end.

Definition scheduler_waitpid := waitpid_loop.

(** * Delivery *)

(** [SIGCHLD] and [SIGCONT] are dropped unless caught; [SIGPIPE], [SIGINT] and
    [SIGTERM] are dropped when ignored. *)
Definition discards (t : task) (signum : Z) : bool :=
  (((signum =? SIGCHLD) || (signum =? SIGCONT)) && negb (catches t signum)) ||
  (((signum =? SIGPIPE) || (signum =? SIGINT) || (signum =? SIGTERM)) &&
   (arr_get (signal_handlers t) signum =? 1)).

(** The stack page for the handler's return address is mapped, or is mapped now
    with a zeroed frame; [false] when that is not possible. *)
Definition ensure_stack_page (i user_rsp : Z) (s : sched E) : bool * sched E :=
  let t := task_at s i in
  let stack_page := Z.land user_rsp (lnot64 4095) in
  if k_is_mapped (cr3 t) stack_page (env s) then (true, s)
  else
    let '(physical, e) := k_pmm_alloc (env s) in
    let s := s <| env := e |> in
    if (physical =? 0) || (TASK_MAX_USER_PAGES <=? user_page_count t) then
      (false, if negb (physical =? 0) then upd_env (k_pmm_free physical) s else s)
    else
      let s := upd_env (k_zero_page physical) s in
      let s := set_task i (t <| user_physical_pages :=
                                  arr_set (user_physical_pages t) (user_page_count t) physical |>
                             <| user_page_count := user_page_count t + 1 |>) s in
      (true, upd_env (fun e => k_flush stack_page (k_map_in_space (cr3 t) stack_page physical PAGE_PWU e)) s).

Definition bad_handler_stack (user_rsp : Z) : bool :=
  (0x800000000000 <=? user_rsp) || (user_rsp <? 0x1000).

(** The result is 0 exactly when the task was terminated. *)
Definition deliver_pending_signal_unlocked (i : Z) (s : sched E) : option (bool * sched E) :=
  let t := task_at s i in
  if negb (active_signal t =? 0) then Some (true, s)
  else
    let signum := next_pending_signal t in
    if signum =? 0 then Some (true, s)
    else if discards t signum then Some (true, set_task i (clear_pending signum t) s)
    else
      let handler := if signum =? SIGKILL then 0 else arr_get (signal_handlers t) signum in
      if (handler =? 0) || (handler =? 18446744073709551615) then
        let* s := scheduler_terminate_task_unlocked i (128 + signum) (set_task i (clear_pending signum t) s) in
        Some (false, s)
      else
        let f := load_frame (kmem s) (rsp t) in
        if negb (Z.land (f_cs f) 3 =? 3) then Some (true, s)
        else
          let user_rsp := signal_handler_stack (f_user_rsp f) in
          if bad_handler_stack user_rsp then
            let* s := scheduler_terminate_task_unlocked i (128 + signum) (set_task i (clear_pending signum t) s) in
            Some (false, s)
          else
            match ensure_stack_page i user_rsp s with
            | (false, s) =>
                let* s := scheduler_terminate_task_unlocked i (128 + signum) s in Some (false, s)
            | (true, s) =>
                let s := upd_env (k_write_user64 user_rsp SIGNAL_TRAMPOLINE_ADDR) s in
                let t := task_at s i in
                let s := set_task i (clear_pending signum t
                                       <| signal_context := save_signal_context f signum |>
                                       <| active_signal := u32 signum |>) s in
                let m := store64 (kmem s) (rsp t + 120) handler in
                let m := store64 m (rsp t + 144) user_rsp in
                let m := store64 m (rsp t + 72) signum in
                Some (true, s <| kmem := m |>)
            end.

(** * The timer tick *)

Definition runnable (t : task) : bool :=
  st_eqb (state t) TASK_READY || st_eqb (state t) TASK_RUNNING.

(** Make slot [i] the running task. *)
Definition switch_to_task (i : Z) (s : sched E) : sched E :=
  let s := set_task i (task_at s i <| state := TASK_RUNNING |>)
             (s <| current_task_index := i |> <| current_task := Some i |>) in
  upd_env (fun e => k_switch_address_space (cr3 (task_at s i))
                      (k_tss_set_rsp0 (kernel_stack_top (task_at s i)) e)) s.

(** Signal delivery to a candidate; [false] when it did not survive. *)
Definition prepare_candidate (i : Z) (s : sched E) : option (bool * sched E) :=
  let t := task_at s i in
  if negb (cr3 t =? k_kernel_pml4) && negb (pending_signals t =? 0) && (active_signal t =? 0) then
    let previous_cr3 := match current_task s with
                        | Some c => cr3 (task_at s c) | None => k_kernel_pml4 end in
    let s := upd_env (k_switch_address_space (cr3 t)) s in
    let* (ok, s) := deliver_pending_signal_unlocked i s in
    if ok then Some (true, s)
    else Some (false, upd_env (k_switch_address_space previous_cr3) s)
  else Some (true, s).

(** The round-robin search, [n] candidates left; the result says whether one was
    switched to. *)
Fixpoint tick_loop (n : nat) (index : Z) (s : sched E) : option (bool * sched E) :=
  match n with
  | O => Some (false, s)
  | S n' =>
      let index := (index + 1) mod task_count s in
      if (index =? idle_task_index s) || negb (runnable (task_at s index))
      then tick_loop n' index s
      else
        let* (ok, s) := prepare_candidate index s in
        if ok then Some (true, switch_to_task index s) else tick_loop n' index s
  end.

Definition tick_idle (current_rsp : Z) (s : sched E) : Z * sched E :=
  if (0 <=? idle_task_index s) && (idle_task_index s <? task_count s) &&
     negb (finished (task_at s (idle_task_index s)))
  then let s := switch_to_task (idle_task_index s) s in
       (rsp (scheduler_current_task s), spin_unlock_irqrestore s)
  else (current_rsp, spin_unlock_irqrestore s).

Definition save_current (current_rsp : Z) (s : sched E) : sched E :=
  match current_task s with
  | Some c =>
      let t := task_at s c <| rsp := current_rsp |> in
      set_task c (if st_eqb (state t) TASK_RUNNING then t <| state := TASK_READY |> else t) s
  | None => s
  end.

Definition scheduler_tick (current_rsp : Z) (s : sched E) : option (Z * sched E) :=
  let s := s <| kernel_ticks := u64 (kernel_ticks s + 1) |> in
  let* s := if k_serial_received (env s) then scheduler_wake_stdin_readers s else Some s in
  let* s := spin_lock_irqsave s in
  if task_count s =? 0 then Some (current_rsp, spin_unlock_irqrestore s)
  else
    let s := save_current current_rsp s in
    let* (found, s) := tick_loop (Z.to_nat (task_count s)) (current_task_index s) s in
    if found then Some (rsp (scheduler_current_task s), spin_unlock_irqrestore s)
    else Some (tick_idle current_rsp s).

(** * System call frames: fork, signals on return, sigreturn *)

(** [struct syscall_frame], at an address in kernel memory. *)
Record syscall_frame := mk_syscall_frame {
  sf_r9 : Z; sf_r8 : Z; sf_r10 : Z; sf_rdx : Z; sf_rsi : Z; sf_rdi : Z; sf_r15 : Z; sf_r14 : Z;
  sf_r13 : Z; sf_r12 : Z; sf_rbp : Z; sf_rbx : Z; sf_r11 : Z; sf_rcx : Z; sf_user_rsp : Z
}.

Definition load_syscall_frame (m : gmap Z Z) (a : Z) : syscall_frame :=
  mk_syscall_frame (load64 m a) (load64 m (a + 8)) (load64 m (a + 16)) (load64 m (a + 24))
    (load64 m (a + 32)) (load64 m (a + 40)) (load64 m (a + 48)) (load64 m (a + 56))
    (load64 m (a + 64)) (load64 m (a + 72)) (load64 m (a + 80)) (load64 m (a + 88))
    (load64 m (a + 96)) (load64 m (a + 104)) (load64 m (a + 112)).

(** The frame the child of a fork starts from: the parent's registers with 0 in
    [rax]. *)
Definition fork_frame (f : syscall_frame) : frame :=
  mk_frame (sf_r15 f) (sf_r14 f) (sf_r13 f) (sf_r12 f) (sf_r11 f) (sf_r10 f) (sf_r9 f) (sf_r8 f)
    (sf_rbp f) (sf_rdi f) (sf_rsi f) (sf_rdx f) (sf_rcx f) (sf_rbx f) 0
    (sf_rcx f) USER_CODE_SELECTOR (sf_r11 f) (sf_user_rsp f) USER_DATA_SELECTOR.

Definition scheduler_fork_current (frame_addr : Z) (s : sched E) : option (Z * sched E) :=
  match current_task s with
  | None => Some (-1, s)
  | Some c =>
      if frame_addr =? 0 then Some (-1, s)
      else
        let sframe := load_syscall_frame (kmem s) frame_addr in
        let '(child_pml4, e) := k_clone_address_space (cr3 (task_at s c)) (env s) in
        let s := s <| env := e |> in
        if child_pml4 =? 0 then Some (-1, s)
        else
          let* s := spin_lock_irqsave s in
          let '(slot, s) := allocate_task_slot s in
          if slot <? 0 then
            Some (-1, upd_env (k_destroy_address_space child_pml4) (spin_unlock_irqrestore s))
          else
            let parent := task_at s c in
            let s := set_task slot parent s in
            let* (p, s) := generate_pid s in
            let top := stack_top (u64 (task_stacks s + slot * TASK_STACK_SIZE)) in
            let child := parent <| pid := p |> <| parent_pid := pid parent |> <| cr3 := child_pml4 |>
              <| state := TASK_READY |> <| wait_reason := TASK_WAIT_NONE |> <| wait_target := 0 |>
              <| exit_status := 0 |> <| active_signal := 0 |> <| pending_signals := 0 |>
              <| mutex_wait_next := None |> <| guard_page := 0 |>
              <| kernel_stack_top := top |> <| rsp := u64 (top - FRAME_SIZE) |> in
            let s := ref_fds (file_descriptors child) (set_task slot child s) in
            let s := s <| kmem := store_frame (kmem s) (u64 (top - FRAME_SIZE)) (fork_frame sframe) |> in
            Some (s32 p, spin_unlock_irqrestore s)
  end.

Definition syscall_context (f : syscall_frame) (ret signum : Z) : task_signal_context :=
  mk_context
    (mk_registers (sf_r15 f) (sf_r14 f) (sf_r13 f) (sf_r12 f) (sf_r11 f) (sf_r10 f) (sf_r9 f)
       (sf_r8 f) (sf_rbp f) (sf_rdi f) (sf_rsi f) (sf_rdx f) (sf_rcx f) (sf_rbx f) ret
       (sf_rcx f) (sf_r11 f))
    (sf_user_rsp f) USER_CODE_SELECTOR USER_DATA_SELECTOR (u32 signum).

(** [true] is a normal return; [false] is the endless [sti; hlt] loop the
    function enters after it terminated the task for want of a stack page. *)
Definition scheduler_handle_syscall_signals (frame_addr ret : Z) (s : sched E)
    : option (bool * sched E) :=
  match current_task s with
  | None => Some (true, s)
  | Some c =>
      let t := task_at s c in
      if negb (active_signal t =? 0) then Some (true, s)
      else
        let signum := next_pending_signal t in
        if signum =? 0 then Some (true, s)
        else if discards t signum then Some (true, set_task c (clear_pending signum t) s)
        else
          let handler := if signum =? SIGKILL then 0 else arr_get (signal_handlers t) signum in
          let f := load_syscall_frame (kmem s) frame_addr in
          let user_rsp := signal_handler_stack (sf_user_rsp f) in
          if (handler =? 0) || (handler =? 18446744073709551615) || bad_handler_stack user_rsp then
            let* s := scheduler_terminate_task (Some c) (128 + signum) (set_task c (clear_pending signum t) s) in
            Some (true, s)
          else
            match ensure_stack_page c user_rsp s with
            | (false, s) =>
                let* s := scheduler_terminate_task (Some c) (128 + signum) s in Some (false, s)
            | (true, s) =>
                let s := upd_env (k_write_user64 user_rsp SIGNAL_TRAMPOLINE_ADDR) s in
                let s := set_task c (clear_pending signum (task_at s c)
                                       <| signal_context := syscall_context f ret signum |>
                                       <| active_signal := u32 signum |>) s in
                let m := store64 (kmem s) (frame_addr + 104) handler in
                let m := store64 m (frame_addr + 112) user_rsp in
                let m := store64 m (frame_addr + 40) signum in
                Some (true, s <| kmem := m |>)
            end
  end.

(** [sys_sigreturn] of kernel.c; [false] is the return value 0. *)
Definition sys_sigreturn (s : sched E) : bool * sched E :=
  let t := scheduler_current_task s in
  if active_signal t =? 0 then (false, s)
  else
    let c := signal_context t in
    let r := sc_registers c in
    let f := mk_frame (r15 r) (r14 r) (r13 r) (r12 r) (r11 r) (r10 r) (r9 r) (r8 r) (rbp r) (rdi r)
               (rsi r) (rdx r) (rcx r) (rbx r) (rax r) (rip r) (sc_cs c) (rflags r)
               (sc_user_rsp c) (sc_ss c) in
    (true, set_current (t <| sigreturn_frame := f |> <| active_signal := 0 |>
                          <| signal_context := c <| sc_signum := 0 |> |>) s).

End Ops.
