(* ===== verification/SchedProps.v ===== *)
(** Theorems on the scheduler model of [Sched].

    [sched_wf] is the invariant of the task table.  Most operations only move
    existing tasks between states; [task_evol] and [sched_evol] say what such an
    operation may do, and keep the invariant.  Creation, fork and the tick are
    treated separately.  The later sections give the behaviour of the tick
    (round robin and bounded waiting), of termination and waiting, and of signal
    delivery. *)

From S2P Require Import Prelude Mem Task Sched.

(** * State tests *)

Lemma st_eqb_spec a b : st_eqb a b = true <-> a = b.
Proof. apply bool_decide_eq_true. Qed.

Lemma live_spec t : live t = true <-> state t <> TASK_UNUSED /\ state t <> TASK_DEAD.
Proof.
  unfold live, st_eqb. rewrite andb_true_iff, !negb_true_iff, !bool_decide_eq_false. done.
Qed.

(** Decide a goal on concrete task states. *)
Ltac states :=
  unfold live, finished, runnable, st_eqb, wr_eqb in *; cbn in *;
  repeat match goal with
  | H : context [bool_decide ?P] |- _ => destruct (bool_decide_reflect P); cbn in *
  | |- context [bool_decide ?P] => destruct (bool_decide_reflect P); cbn in *
  end; subst; try congruence.

(** * The invariant *)

(** SIGKILL and SIGSTOP are never blocked. *)
Definition mask_ok (t : task) : Prop :=
  Z.testbit (blocked_signals t) SIGKILL = false /\ Z.testbit (blocked_signals t) SIGSTOP = false.

Section Wf.
Context {E : Type}.

Record sched_wf (s : sched E) : Prop := {
  wf_len : len (tasks s) = MAX_TASKS;
  wf_count : 0 <= task_count s <= MAX_TASKS;
  wf_unused : forall i, task_count s <= i < MAX_TASKS -> state (task_at s i) = TASK_UNUSED;
  wf_pids : forall i j, 0 <= i < MAX_TASKS -> 0 <= j < MAX_TASKS ->
    live (task_at s i) = true -> live (task_at s j) = true ->
    pid (task_at s i) = pid (task_at s j) -> i = j;
  wf_pid : forall i, 0 <= i < MAX_TASKS -> live (task_at s i) = true ->
    0 < pid (task_at s i) < 4294967296 /\ parent_pid (task_at s i) <> pid (task_at s i);
  wf_idle : 0 < task_count s ->
    live (task_at s 0) = true /\ pid (task_at s 0) = 1 /\ parent_pid (task_at s 0) = 0;
  wf_current : forall c, current_task s = Some c ->
    0 <= c < task_count s /\ live (task_at s c) = true;
  wf_running : forall i, 0 <= i < MAX_TASKS -> state (task_at s i) = TASK_RUNNING ->
    current_task s = Some i;
  wf_mask : forall i, 0 <= i < MAX_TASKS -> live (task_at s i) = true -> mask_ok (task_at s i);
  wf_next : is_u32 (next_pid s) /\ (task_count s = 0 -> next_pid s = 1)
}.

(** What an operation on an existing task may change. *)
Record task_evol (t t' : task) : Prop := {
  ev_live : live t' = live t;
  ev_unused : state t = TASK_UNUSED <-> state t' = TASK_UNUSED;
  ev_pid : pid t' = pid t;
  ev_parent : parent_pid t' = parent_pid t \/ parent_pid t <> 0 /\ parent_pid t' = 1;
  ev_running : state t' = TASK_RUNNING -> state t = TASK_RUNNING;
  ev_mask : mask_ok t -> mask_ok t'
}.

#[export] Instance task_evol_preorder : PreOrder task_evol.
Proof.
  split.
  - intros t. split; auto; done.
  - intros t1 t2 t3 [L1 U1 P1 Q1 R1 M1] [L2 U2 P2 Q2 R2 M2].
    split; [congruence|tauto|congruence| |auto|auto].
    destruct Q1 as [Q1|[Q1 Q1']], Q2 as [Q2|[Q2 Q2']]; [left|right|right|right]; split || idtac; congruence.
Qed.

Record sched_evol (s s' : sched E) : Prop := {
  sev_len : length (tasks s') = length (tasks s);
  sev_count : task_count s' = task_count s;
  sev_current : current_task s' = current_task s;
  sev_index : current_task_index s' = current_task_index s;
  sev_idle : idle_task_index s' = idle_task_index s;
  sev_next : next_pid s' = next_pid s;
  sev_tasks : forall i, 0 <= i < len (tasks s) -> task_evol (task_at s i) (task_at s' i)
}.

#[export] Instance sched_evol_preorder : PreOrder sched_evol.
Proof.
  split.
  - intros s. split; done.
  - intros s1 s2 s3 [] []. split; try congruence. intros i Hi.
    etransitivity; [by auto|]. apply sev_tasks1. unfold len in *. by rewrite sev_len0.
Qed.

Lemma wf_evol s s' : sched_wf s -> sched_evol s s' -> sched_wf s'.
Proof.
  intros Hw Hev. destruct Hev as [El Ec Ecur _ _ En Ht].
  pose proof (wf_len s Hw) as Hlen. pose proof (wf_count s Hw) as Hcnt.
  unfold len in *. rewrite Hlen in Ht.
  assert (HL : forall i, 0 <= i < MAX_TASKS -> live (task_at s' i) = live (task_at s i)
    /\ pid (task_at s' i) = pid (task_at s i)) by (intros i Hi; split; apply (Ht i Hi)).
  split.
  - unfold len. by rewrite El.
  - by rewrite Ec.
  - intros i Hi. rewrite Ec in Hi. apply (ev_unused _ _ (Ht i ltac:(lia))). by apply Hw.
  - intros i j Hi Hj. destruct (HL i Hi) as [-> ->], (HL j Hj) as [-> ->]. by apply Hw.
  - intros i Hi. destruct (HL i Hi) as [-> ->]. intros Li.
    destruct (wf_pid s Hw i Hi Li) as [Hp Hpp]. split; [done|].
    destruct (ev_parent _ _ (Ht i Hi)) as [->|[Hnz ->]]; [done|]. intros E1.
    destruct (Z_lt_le_dec i (task_count s)) as [Hlt|Hge].
    + destruct (wf_idle s Hw ltac:(lia)) as (L0 & P0 & Q0).
      assert (i = 0) as -> by (apply (wf_pids s Hw); try done; unfold MAX_TASKS in *; lia).
      lia.
    + rewrite live_spec, (wf_unused s Hw i ltac:(lia)) in Li. tauto.
  - rewrite Ec. intros H0. destruct (wf_idle s Hw H0) as (L0 & P0 & Q0).
    assert (Hi0 : 0 <= 0 < MAX_TASKS) by (unfold MAX_TASKS; lia).
    destruct (HL 0 Hi0) as [-> ->]. split_and!; try done.
    destruct (ev_parent _ _ (Ht 0 Hi0)) as [->|[Hnz _]]; congruence.
  - intros c Hc. rewrite Ecur in Hc. destruct (wf_current s Hw c Hc) as [Hr Hu].
    rewrite Ec. split; [done|]. by destruct (HL c ltac:(lia)) as [-> _].
  - intros i Hi Hr. rewrite Ecur. apply Hw; [done|]. by apply (ev_running _ _ (Ht i Hi)).
  - intros i Hi Hu. apply (ev_mask _ _ (Ht i Hi)), Hw; [done|]. by destruct (HL i Hi) as [<- _].
  - rewrite En, Ec. apply Hw.
Qed.

(** * Pointwise updates *)

Lemma task_at_set i t (s : sched E) j :
  0 <= i -> 0 <= j < len (tasks s) ->
  task_at (set_task i t s) j = if j =? i then t else task_at s j.
Proof.
  intros Hi Hj. unfold task_at, set_task. cbn [tasks set_field].
  bcase; subst; [by apply arr_get_set_eq|by apply arr_get_set_ne; lia].
Qed.

Lemma task_at_map_active f (s : sched E) i :
  0 <= i < len (tasks s) -> 0 <= task_count s ->
  task_at (map_active f s) i = if i <? task_count s then f (task_at s i) else task_at s i.
Proof.
  intros Hi Hc. unfold task_at, map_active, active_tasks, arr_get, len in *. cbn [tasks set_field].
  bcase.
  - rewrite lookup_total_app_l by (rewrite length_fmap, length_take; lia).
    rewrite !list_lookup_total_alt, list_lookup_fmap, lookup_take_lt by lia.
    destruct (tasks s !! Z.to_nat i) eqn:El; [done|]. apply lookup_ge_None in El. lia.
  - rewrite lookup_total_app_r by (rewrite length_fmap, length_take; lia).
    rewrite length_fmap, length_take, !list_lookup_total_alt, lookup_drop.
    do 2 f_equal. lia.
Qed.

Lemma len_map_active f (s : sched E) : length (tasks (map_active f s)) = length (tasks s).
Proof.
  unfold map_active, active_tasks. cbn [tasks set_field].
  rewrite length_app, length_fmap, length_take, length_drop. lia.
Qed.

Lemma evol_set_task i t (s : sched E) :
  0 <= i -> task_evol (task_at s i) t -> sched_evol s (set_task i t s).
Proof.
  intros Hi Ht. split; try done.
  - unfold set_task. cbn [tasks set_field]. apply length_insert.
  - intros j Hj. rewrite task_at_set by done. bcase; subst; [done|reflexivity].
Qed.

Lemma evol_map_active f (s : sched E) :
  0 <= task_count s -> (forall t, task_evol t (f t)) -> sched_evol s (map_active f s).
Proof.
  intros Hc Hf. split; try done; [apply len_map_active|].
  intros j Hj. rewrite task_at_map_active by done. bcase; [apply Hf|reflexivity].
Qed.

(** Changes outside the task table. *)
Lemma evol_same (s s' : sched E) :
  tasks s' = tasks s -> task_count s' = task_count s -> current_task s' = current_task s ->
  current_task_index s' = current_task_index s -> idle_task_index s' = idle_task_index s ->
  next_pid s' = next_pid s -> sched_evol s s'.
Proof. intros Ht ?????. split; try done; [by rewrite Ht|]. intros i _. unfold task_at. by rewrite Ht. Qed.

(** The same lemmas at the end of a chain of updates. *)
Lemma evol_then_same (s s1 s2 : sched E) :
  sched_evol s s1 ->
  tasks s2 = tasks s1 -> task_count s2 = task_count s1 -> current_task s2 = current_task s1 ->
  current_task_index s2 = current_task_index s1 -> idle_task_index s2 = idle_task_index s1 ->
  next_pid s2 = next_pid s1 -> sched_evol s s2.
Proof. intros H1 ??????. etransitivity; [exact H1|by apply evol_same]. Qed.

Lemma evol_then_set (s s1 : sched E) i t :
  sched_evol s s1 -> 0 <= i -> task_evol (task_at s1 i) t -> sched_evol s (set_task i t s1).
Proof. intros H1 ??. etransitivity; [exact H1|by apply evol_set_task]. Qed.

Lemma evol_then_map (s s1 : sched E) f :
  sched_evol s s1 -> 0 <= task_count s -> (forall t, task_evol t (f t)) ->
  sched_evol s (map_active f s1).
Proof.
  intros H1 Hc Hf. etransitivity; [exact H1|]. apply evol_map_active; [|done].
  by rewrite (sev_count _ _ H1).
Qed.

Lemma evol_unlock (s s1 : sched E) : sched_evol s s1 -> sched_evol s (spin_unlock_irqrestore s1).
Proof. intros H1. by apply (evol_then_same _ _ _ H1). Qed.

Lemma evol_env (s s1 : sched E) f : sched_evol s s1 -> sched_evol s (upd_env f s1).
Proof. intros H1. by apply (evol_then_same _ _ _ H1). Qed.

Lemma evol_kmem (s s1 : sched E) m : sched_evol s s1 -> sched_evol s (s1 <| kmem := m |>).
Proof. intros H1. by apply (evol_then_same _ _ _ H1). Qed.

Lemma spin_lock_some (s s1 : sched E) :
  spin_lock_irqsave s = Some s1 -> task_table_lock s = false /\ s1 = s <| task_table_lock := true |>.
Proof. unfold spin_lock_irqsave. by destruct (task_table_lock s); [|intros [= <-]]. Qed.

Lemma evol_lock (s s1 : sched E) : spin_lock_irqsave s = Some s1 -> sched_evol s s1.
Proof. intros [_ ->]%spin_lock_some. by apply evol_same. Qed.

End Wf.


(** * The active part of the table *)

Section Active.
Context {E : Type}.
Implicit Types s : sched E.

Lemma len_active s : sched_wf s -> len (active_tasks s) = task_count s.
Proof.
  intros Hw. pose proof (wf_len s Hw). pose proof (wf_count s Hw).
  unfold active_tasks, len in *. rewrite length_take. lia.
Qed.

Lemma active_at s i : 0 <= i < task_count s -> arr_get (active_tasks s) i = task_at s i.
Proof.
  intros Hi. unfold arr_get, active_tasks, task_at, arr_get.
  by rewrite !list_lookup_total_alt, lookup_take_lt by lia.
Qed.

Lemma live_active s i : sched_wf s -> 0 <= i < MAX_TASKS -> live (task_at s i) = true -> i < task_count s.
Proof.
  intros Hw Hi HL. destruct (Z_lt_le_dec i (task_count s)) as [|Hge]; [done|].
  rewrite live_spec, (wf_unused s Hw i ltac:(lia)) in HL. tauto.
Qed.

Lemma find_pid_some p s i :
  sched_wf s -> find_pid p s = Some i ->
  0 <= i < task_count s /\ live (task_at s i) = true /\ pid (task_at s i) = p.
Proof.
  intros Hw Hf. apply find_index_some in Hf as (Hi & Hc & _). rewrite (len_active s Hw) in Hi.
  rewrite active_at in Hc by done. apply andb_prop in Hc as [HL Hp%Z.eqb_eq]. done.
Qed.

(** A live task is found under its pid. *)
Lemma find_pid_live s i :
  sched_wf s -> 0 <= i < MAX_TASKS -> live (task_at s i) = true ->
  find_pid (pid (task_at s i)) s = Some i.
Proof.
  intros Hw Hi HL. pose proof (live_active s i Hw Hi HL) as Hlt.
  destruct (find_pid _ s) as [j|] eqn:Ef.
  - destruct (find_pid_some _ _ _ Hw Ef) as (Hj & HLj & Hp). f_equal.
    pose proof (wf_count s Hw). apply (wf_pids s Hw); try done. lia.
  - apply (find_index_none _ _ i) in Ef; [|rewrite len_active; lia || done].
    rewrite active_at, HL, Z.eqb_refl in Ef by lia. done.
Qed.

End Active.

(** * Updates of one task *)

Lemma live_not_unused t : live t = true -> state t <> TASK_UNUSED.
Proof. rewrite live_spec. tauto. Qed.

Lemma evol_keep t t' :
  state t' = state t -> pid t' = pid t -> parent_pid t' = parent_pid t ->
  blocked_signals t' = blocked_signals t -> task_evol t t'.
Proof.
  intros Hs Hp Hq Hb. split; try (rewrite Hs; done); try done.
  - unfold live. by rewrite Hs.
  - by left.
  - unfold mask_ok. by rewrite Hb.
Qed.

(** A live task moves to another state of a live task. *)
Lemma evol_move t t' :
  live t = true -> pid t' = pid t -> parent_pid t' = parent_pid t ->
  blocked_signals t' = blocked_signals t ->
  live t' = true -> state t' <> TASK_RUNNING -> task_evol t t'.
Proof.
  intros HL Hp Hq Hb Hu Hr. pose proof (live_not_unused t HL). pose proof (live_not_unused t' Hu).
  split; try done; [congruence|by left|]. unfold mask_ok. by rewrite Hb.
Qed.

Lemma evol_wake t : live t = true -> task_evol t (wake t).
Proof. intros HL. apply evol_move; auto; done. Qed.

Lemma evol_wake_if f : (forall t, f t = true -> live t = true) -> forall t, task_evol t (wake_if f t).
Proof.
  intros Hf t. unfold wake_if. destruct (f t) eqn:Ef; [apply evol_wake; auto|reflexivity].
Qed.

Lemma evol_reparent p t : p <> 0 -> task_evol t (reparent p t).
Proof.
  intros Hp. unfold reparent. destruct (live t && (parent_pid t =? p)) eqn:Hc; [|reflexivity].
  apply andb_prop in Hc as [_ Hc%Z.eqb_eq]. split; try done. right. split; [congruence|done].
Qed.

Lemma evol_post_signal n t : task_evol t (post_signal n t).
Proof.
  unfold post_signal. destruct (_ && _) eqn:Hc.
  - etransitivity; [|apply evol_wake; clear -Hc; states]. by apply evol_keep.
  - by apply evol_keep.
Qed.

Lemma waits_stdin_live t : waits_stdin t = true -> live t = true.
Proof. unfold waits_stdin. intros. states. Qed.
Lemma waits_pipe_read_live p t : waits_pipe_read p t = true -> live t = true.
Proof. unfold waits_pipe_read. intros. states. Qed.
Lemma waits_pipe_write_live p t : waits_pipe_write p t = true -> live t = true.
Proof. unfold waits_pipe_write. intros. states. Qed.
Lemma waits_protocol_live p t : waits_protocol p t = true -> live t = true.
Proof. unfold waits_protocol. intros. states. Qed.
Lemma waits_socket_live p t : waits_socket p t = true -> live t = true.
Proof. unfold waits_socket. intros. states. Qed.
Lemma waits_child_live p t : waits_child p t = true -> live t = true.
Proof. unfold waits_child. intros. states. Qed.
#[export] Hint Resolve waits_stdin_live waits_pipe_read_live waits_pipe_write_live
  waits_protocol_live waits_socket_live waits_child_live : photon.

(** * Operations on existing tasks *)

Section Evol.
Context {E : Type} `{KernelEnv E}.
Implicit Types s : sched E.

Lemma wake_tasks_evol f s s' :
  0 <= task_count s -> (forall t, f t = true -> live t = true) ->
  wake_tasks f s = Some s' -> sched_evol s s'.
Proof.
  intros Hc Hf. unfold wake_tasks. destruct (spin_lock_irqsave s) as [s1|] eqn:El; [|done].
  intros [= <-]. apply evol_unlock, evol_then_map; [by apply evol_lock|done|by apply evol_wake_if].
Qed.

Lemma run_wakes_evol ws s s' : 0 <= task_count s -> run_wakes ws s = Some s' -> sched_evol s s'.
Proof.
  revert s. induction ws as [|w ws IH]; intros s Hc; cbn [run_wakes]; [by intros [= <-]|].
  destruct (run_wake w s) as [s1|] eqn:Ew; [|done]. intros Hr.
  assert (H1 : sched_evol s s1).
  { destruct w; apply (wake_tasks_evol _ _ _ Hc) in Ew; try done; intros ?; [apply waits_pipe_read_live|apply waits_pipe_write_live]. }
  etransitivity; [exact H1|]. apply IH; [by rewrite (sev_count _ _ H1)|done].
Qed.

Lemma close_fd_evol i k s s' :
  0 <= i -> 0 <= task_count s -> close_fd i k s = Some s' -> sched_evol s s'.
Proof.
  intros Hi Hc. unfold close_fd. destruct (_ =? 0); [by intros [= <-]|].
  destruct (k_fd_close _ _ _) as [ws e]. intros Hr. apply run_wakes_evol in Hr; [|done].
  etransitivity; [|exact Hr].
  apply (evol_then_same _ (set_task i (task_at s i <| file_descriptors :=
    arr_set (file_descriptors (task_at s i)) k 0 |>) s)); try done.
  apply evol_set_task; [done|by apply evol_keep].
Qed.

Lemma close_fds_evol n i k s s' :
  0 <= i -> 0 <= task_count s -> close_fds n i k s = Some s' -> sched_evol s s'.
Proof.
  intros Hi. revert k s. induction n as [|n IH]; intros k s Hc; cbn [close_fds]; [by intros [= <-]|].
  destruct (close_fd i k s) as [s1|] eqn:E1; [|done]. intros Hr.
  pose proof (close_fd_evol _ _ _ _ Hi Hc E1) as H1. etransitivity; [exact H1|].
  eapply IH; [|exact Hr]. by rewrite (sev_count _ _ H1).
Qed.

Lemma notify_parent_evol p s : 0 <= task_count s -> sched_evol s (notify_parent p s).
Proof.
  intros Hc. unfold notify_parent. destruct (p =? 0); [reflexivity|].
  destruct (find_pid p s) as [i|] eqn:Ei; [|reflexivity].
  destruct (catches _ _); [|reflexivity]. apply find_index_some in Ei as (Hi & _).
  apply evol_set_task; [lia|]. by apply evol_keep.
Qed.

Lemma terminate_evol i status s s' :
  0 <= i < len (tasks s) -> 0 <= task_count s -> pid (task_at s i) <> 0 ->
  scheduler_terminate_task_unlocked i status s = Some s' -> sched_evol s s'.
Proof.
  intros Hi Hc Hpid. unfold scheduler_terminate_task_unlocked.
  destruct (finished (task_at s i)) eqn:Hfin; [by intros [= <-]|].
  match goal with |- context [task_close_all_fds i ?t] => set (s1 := t) end.
  destruct (task_close_all_fds i s1) as [s2|] eqn:E2; [|done]. intros [= <-].
  assert (H1 : sched_evol s s1).
  { apply evol_then_set; [destruct (negb _); [apply evol_env|]; reflexivity|lia|].
    replace (task_at (if negb _ then _ else _) i) with (task_at s i) by by destruct (negb _).
    apply evol_move; try done; clear -Hfin; states. }
  assert (Hc1 : 0 <= task_count s1) by by rewrite (sev_count _ _ H1).
  pose proof (close_fds_evol _ _ _ _ _ (proj1 Hi) Hc1 E2) as H2.
  etransitivity; [exact H1|]. etransitivity; [exact H2|].
  assert (Hc2 : 0 <= task_count s2) by by rewrite (sev_count _ _ H2).
  match goal with |- sched_evol _ (notify_parent _ (if ?b then upd_env _ ?t else _)) =>
    assert (H3 : sched_evol s2 t); [|destruct b; (etransitivity; [|by apply notify_parent_evol]);
      [by apply evol_env|done]] end.
  apply evol_then_map; [|done|apply evol_wake_if; eauto with photon].
  apply evol_then_map; [|done|intros; by apply evol_reparent].
  apply evol_then_set; [apply evol_env; reflexivity|lia|by apply evol_keep].
Qed.

Lemma evol_count s s' : sched_wf s -> sched_evol s s' -> 0 <= task_count s'.
Proof. intros Hw ->%sev_count. apply Hw. Qed.

Lemma terminate_wf_evol i status s s' :
  sched_wf s -> 0 <= i < task_count s -> live (task_at s i) = true ->
  scheduler_terminate_task_unlocked i status s = Some s' -> sched_evol s s'.
Proof.
  intros Hw Hi HL. pose proof (wf_count s Hw) as Hc. pose proof (wf_len s Hw) as Hlen.
  destruct (wf_pid s Hw i ltac:(lia) HL) as [Hp _]. apply terminate_evol; lia.
Qed.

Lemma send_signal_evol d p n s r s' :
  sched_wf s -> send_signal d p n s = Some (r, s') -> sched_evol s s'.
Proof.
  revert p n s r s'. induction d as [|d IH]; intros p n s r s' Hw; cbn [send_signal]; [done|].
  destruct (negb (is_supported_signal n)); [intros [= _ <-]; reflexivity|]. intros Hs. bind_in Hs.
  apply evol_lock in E0 as H1. pose proof (wf_evol _ _ Hw H1) as Hw1.
  etransitivity; [exact H1|]. clear H1. revert Hs.
  destruct (find_pid p s0) as [i|] eqn:Ei; [|intros [= _ <-]; apply evol_unlock; reflexivity].
  destruct (find_pid_some _ _ _ Hw1 Ei) as (Hi & HL & _).
  destruct (st_eqb _ _ || st_eqb _ _) eqn:Hz; [intros [= _ <-]; apply evol_unlock; reflexivity|].
  destruct (n =? SIGKILL).
  { intros Hs. bind_in Hs. injection Hs as _ <-. apply evol_unlock.
    by eapply terminate_wf_evol in E1. }
  destruct (n =? SIGSTOP).
  { set (t := _ <| wait_target := 0 |>). assert (H2 : sched_evol s0 (spin_unlock_irqrestore (set_task i t s0))).
    { apply evol_unlock, evol_set_task; [lia|]. by apply evol_move. }
    destruct (negb (parent_pid t =? 0)); [|by intros [= _ <-]].
    intros Hs. bind_in Hs. destruct p0 as [r1 s1]. injection Hs as _ <-.
    etransitivity; [exact H2|]. eapply IH, E1. by eapply wf_evol. }
  set (t := if n =? SIGCONT then _ else _).
  assert (Ht : task_evol (task_at s0 i) t).
  { unfold t. destruct (n =? SIGCONT); [|reflexivity].
    assert (Hk : task_evol (task_at s0 i) (clear_pending SIGSTOP (task_at s0 i))) by by apply evol_keep.
    case_match; [|exact Hk]. etransitivity; [exact Hk|]. by apply evol_wake. }
  destruct (_ && _); intros [= _ <-]; apply evol_unlock, evol_set_task; try lia; [done|].
  etransitivity; [exact Ht|apply evol_post_signal].
Qed.

(** The mask the kernel stores never has SIGKILL or SIGSTOP in it. *)
Lemma clear_bit32 w k j :
  0 <= k < 32 -> 0 <= j < 32 ->
  Z.testbit (Z.land w (lnot32 (signal_bit k))) j = if j =? k then false else Z.testbit w j.
Proof.
  intros Hk Hj. unfold signal_bit. rewrite u32_id.
  - rewrite Z.land_spec. unfold lnot32. rewrite Z.lxor_spec, Z.shiftl_1_l.
    change 4294967295 with (Z.ones 32). rewrite Z.ones_spec_low by lia. bcase; subst.
    + by rewrite Z.pow2_bits_true, andb_false_r by lia.
    + by rewrite Z.pow2_bits_false, andb_true_r by lia.
  - rewrite Z.shiftl_1_l. unfold is_u32. change 4294967296 with (2 ^ 32).
    split; [apply Z.pow_nonneg; lia|apply Z.pow_lt_mono_r; lia].
Qed.

Definition masked (set : Z) : Z :=
  Z.land (Z.land set (lnot32 (signal_bit SIGKILL))) (lnot32 (signal_bit SIGSTOP)).

Lemma masked_bits set :
  Z.testbit (masked set) SIGKILL = false /\ Z.testbit (masked set) SIGSTOP = false.
Proof. unfold masked, SIGKILL, SIGSTOP. rewrite !clear_bit32 by lia. done. Qed.

Lemma evol_set_current t s :
  sched_wf s -> task_evol (scheduler_current_task s) t -> sched_evol s (set_current t s).
Proof.
  intros Hw. unfold scheduler_current_task, set_current.
  destruct (current_task s) as [c|] eqn:Ec; [|intros _; by apply evol_same].
  destruct (wf_current s Hw c Ec) as [Hc _]. apply evol_set_task. lia.
Qed.

Lemma sigprocmask_evol how set s r old s' :
  sched_wf s -> scheduler_sigprocmask how set s = Some (r, old, s') -> sched_evol s s'.
Proof.
  intros Hw. unfold scheduler_sigprocmask. intros Hs. bind_in Hs.
  apply evol_lock in E0 as H1. pose proof (wf_evol _ _ Hw H1) as Hw1.
  etransitivity; [exact H1|]. clear H1. revert Hs.
  destruct set as [set|]; [|intros [= _ _ <-]; apply evol_unlock; reflexivity].
  fold (masked set). set (t := scheduler_current_task s0). set (mask := if how =? SIG_BLOCK then _ else _).
  destruct mask as [m|] eqn:Em; intros [= _ _ <-]; apply evol_unlock; [|reflexivity].
  apply evol_set_current; [done|]. fold t. split; try done; [by left|].
  pose proof (masked_bits set) as [B1 B2]. intros [M1 M2]. unfold mask_ok in *.
  change (blocked_signals (t <| blocked_signals := m |>)) with m.
  destruct (how =? SIG_BLOCK); [|destruct (how =? SIG_UNBLOCK); [|destruct (how =? SIG_SETMASK); [|done]]];
    injection Em as <-; rewrite ?Z.lor_spec, ?Z.land_spec, ?M1, ?M2, ?B1, ?B2; done.
Qed.

Lemma sigaction_evol n act s r old s' :
  sched_wf s -> scheduler_sigaction n act s = Some (r, old, s') -> sched_evol s s'.
Proof.
  intros Hw. unfold scheduler_sigaction. destruct (_ || _); [intros [= _ _ <-]; reflexivity|].
  intros Hs. bind_in Hs. apply evol_lock in E0 as H1. pose proof (wf_evol _ _ Hw H1) as Hw1.
  injection Hs as _ _ <-. apply evol_unlock. etransitivity; [exact H1|].
  destruct act; [|reflexivity]. apply evol_set_current; [done|by apply evol_keep].
Qed.

Lemma sys_signal_evol n h s : sched_wf s -> sched_evol s (snd (sys_signal n h s)).
Proof.
  intros Hw. unfold sys_signal. destruct (_ || _); [reflexivity|]. cbn [snd].
  apply evol_set_current; [done|by apply evol_keep].
Qed.

Lemma sys_sigreturn_evol s : sched_wf s -> sched_evol s (snd (sys_sigreturn s)).
Proof.
  intros Hw. unfold sys_sigreturn. destruct (_ =? 0); [reflexivity|]. cbn [snd].
  apply evol_set_current; [done|by apply evol_keep].
Qed.

Lemma sleep_current_evol reason target s s' :
  sched_wf s -> scheduler_sleep_current reason target s = Some s' -> sched_evol s s'.
Proof.
  intros Hw. unfold scheduler_sleep_current.
  destruct (current_task s) as [c|] eqn:Ec; [|intros [= <-]; reflexivity].
  destruct (wf_current s Hw c Ec) as [Hc HL]. intros Hs. bind_in Hs. injection Hs as <-.
  apply spin_lock_some in E0 as [_ ->]. apply evol_unlock, evol_then_set; [by apply evol_same|lia|].
  apply evol_move; try done; cbn; by repeat case_match.
Qed.

Lemma ensure_stack_page_evol i user_rsp s :
  0 <= i -> sched_evol s (snd (ensure_stack_page i user_rsp s)).
Proof.
  intros Hi. unfold ensure_stack_page. destruct (k_is_mapped _ _ _); [reflexivity|].
  destruct (k_pmm_alloc (env s)) as [ph e]. destruct (_ || _); cbn [snd].
  - destruct (negb _); [apply evol_env|]; by apply evol_same.
  - apply evol_env, evol_then_set; [by apply evol_same|done|by apply evol_keep].
Qed.

Lemma deliver_evol i s ok s' :
  sched_wf s -> 0 <= i < task_count s -> live (task_at s i) = true ->
  deliver_pending_signal_unlocked i s = Some (ok, s') -> sched_evol s s'.
Proof.
  intros Hw Hi HL. unfold deliver_pending_signal_unlocked.
  destruct (negb (active_signal _ =? 0)); [intros [= _ <-]; reflexivity|].
  set (n := next_pending_signal _). destruct (n =? 0); [intros [= _ <-]; reflexivity|].
  assert (Hcp : sched_evol s (set_task i (clear_pending n (task_at s i)) s)).
  { apply evol_set_task; [lia|by apply evol_keep]. }
  destruct (discards _ n); [by intros [= _ <-]|].
  assert (Hterm : forall s1 st s2, sched_evol s s1 ->
    scheduler_terminate_task_unlocked i st s1 = Some s2 -> sched_evol s s2).
  { intros s1 st s2 H1 Ht. etransitivity; [exact H1|]. pose proof (wf_count s Hw).
    eapply terminate_wf_evol, Ht; [by eapply wf_evol|by rewrite (sev_count _ _ H1)|].
    rewrite <- HL. apply (sev_tasks _ _ H1). rewrite (wf_len s Hw). lia. }
  destruct (_ || _); [intros Hs; bind_in Hs; injection Hs as _ <-; by eapply Hterm|].
  destruct (negb _); [intros [= _ <-]; reflexivity|].
  destruct (bad_handler_stack _); [intros Hs; bind_in Hs; injection Hs as _ <-; by eapply Hterm|].
  set (usp := signal_handler_stack _). pose proof (ensure_stack_page_evol i usp s ltac:(lia)) as He.
  destruct (ensure_stack_page i usp s) as [[] s1]; cbn [snd] in He.
  - intros [= _ <-]. apply evol_kmem, evol_then_set; [by apply evol_env|lia|by apply evol_keep].
  - intros Hs. bind_in Hs. injection Hs as _ <-. by eapply Hterm.
Qed.

Lemma handle_syscall_signals_evol a ret s ok s' :
  sched_wf s -> scheduler_handle_syscall_signals a ret s = Some (ok, s') -> sched_evol s s'.
Proof.
  intros Hw. unfold scheduler_handle_syscall_signals.
  destruct (current_task s) as [c|] eqn:Ec; [|intros [= _ <-]; reflexivity].
  destruct (wf_current s Hw c Ec) as [Hi HL].
  destruct (negb (active_signal _ =? 0)); [intros [= _ <-]; reflexivity|].
  set (n := next_pending_signal _). destruct (n =? 0); [intros [= _ <-]; reflexivity|].
  assert (Hcp : sched_evol s (set_task c (clear_pending n (task_at s c)) s)).
  { apply evol_set_task; [lia|by apply evol_keep]. }
  destruct (discards _ n); [by intros [= _ <-]|].
  assert (Hterm : forall s1 st s2, sched_evol s s1 ->
    scheduler_terminate_task (Some c) st s1 = Some s2 -> sched_evol s s2).
  { intros s1 st s2 H1 Ht. etransitivity; [exact H1|]. pose proof (wf_evol _ _ Hw H1) as Hw1.
    revert Ht. unfold scheduler_terminate_task. destruct (finished _); [intros [= <-]; reflexivity|].
    intros Ht. bind_in Ht. apply evol_lock in E0 as H2. pose proof (wf_evol _ _ Hw1 H2) as Hw2.
    etransitivity; [exact H2|]. revert Ht. destruct (finished _).
    { intros [= <-]. apply evol_unlock. reflexivity. }
    intros Ht. bind_in Ht. injection Ht as <-. apply evol_unlock.
    assert (Hev : sched_evol s s0) by (etransitivity; [exact H1|exact H2]).
    eapply terminate_wf_evol, E1; [done|by rewrite (sev_count _ _ Hev)|].
    rewrite <- HL. apply (sev_tasks _ _ Hev). rewrite (wf_len s Hw). pose proof (wf_count s Hw). lia. }
  destruct (_ || _); [intros Hs; bind_in Hs; injection Hs as _ <-; by eapply Hterm|].
  set (usp := signal_handler_stack _). pose proof (ensure_stack_page_evol c usp s ltac:(lia)) as He.
  destruct (ensure_stack_page c usp s) as [[] s1]; cbn [snd] in He.
  - intros [= _ <-]. apply evol_kmem, evol_then_set; [by apply evol_env|lia|by apply evol_keep].
  - intros Hs. bind_in Hs. injection Hs as _ <-. by eapply Hterm.
Qed.

End Evol.

(** * Process ids *)

Section Pids.
Context {E : Type}.
Implicit Types s : sched E.

(** The [k]-th candidate [generate_pid] tries from [p]: the pids after [p] in
    cyclic order, without 0. *)
Definition candidate (p k : Z) : Z :=
  ((if p =? 0 then 1 else p) - 1 + k) mod 4294967295 + 1.

Lemma candidate_0 p : is_u32 p -> candidate p 0 = if p =? 0 then 1 else p.
Proof. unfold candidate. intros. bcase; subst; [done|]. ulia. Qed.

Lemma candidate_next p k :
  is_u32 p -> 0 <= k -> candidate (u32 ((if p =? 0 then 1 else p) + 1)) k = candidate p (k + 1).
Proof.
  intros Hp Hk. set (c := if p =? 0 then 1 else p).
  assert (Hc : 1 <= c < 4294967296) by (unfold c, is_u32 in *; bcase; lia).
  unfold candidate. fold c. f_equal. destruct (Z.eq_dec c 4294967295) as [->|Hne].
  - change (u32 (4294967295 + 1)) with 0. cbn [Z.eqb].
    replace (4294967295 - 1 + (k + 1)) with (1 - 1 + k + 1 * 4294967295) by lia.
    by rewrite Z.mod_add.
  - rewrite u32_id by (unfold is_u32; lia). bcase; [lia|]. f_equal. lia.
Qed.

Lemma candidate_inj p i j :
  0 <= i < 17 -> 0 <= j < 17 -> candidate p i = candidate p j -> i = j.
Proof. unfold candidate. intros. Z.div_mod_to_equations. lia. Qed.

Lemma generate_pid_loop_spec n p s :
  is_u32 p ->
  match generate_pid_loop n p s with
  | Some (q, s') => exists k, 0 <= k < Z.of_nat n /\ q = candidate p k /\
      pid_in_use s q = false /\ s' = s <| next_pid := u32 (q + 1) |>
  | None => forall k, 0 <= k < Z.of_nat n -> pid_in_use s (candidate p k) = true
  end.
Proof.
  revert p. induction n as [|n IH]; intros p Hp; cbn [generate_pid_loop]; [lia|].
  rewrite <- (candidate_0 p Hp). destruct (pid_in_use s (candidate p 0)) eqn:Hu.
  - assert (Hn : is_u32 (u32 (candidate p 0 + 1))) by apply u32_range.
    specialize (IH _ Hn). rewrite candidate_0 in IH by done.
    rewrite candidate_0 by done.
    destruct (generate_pid_loop n _ s) as [[q s']|].
    + destruct IH as (k & Hk & -> & ? & ->). exists (k + 1). rewrite candidate_next by lia || done.
      rewrite candidate_next in * by lia || done. split_and!; [lia..|done|done|done].
    + intros k Hk. destruct (Z.eq_dec k 0) as [->|]; [done|].
      replace k with (k - 1 + 1) by lia. rewrite <- candidate_next by lia || done. apply IH. lia.
  - exists 0. split_and!; [lia..|done|done|done].
Qed.

Lemma pid_in_use_elem s p : pid_in_use s p = true -> p ∈ map pid (active_tasks s).
Proof.
  unfold pid_in_use. destruct (find_index _ _ 0) as [k|] eqn:Ef; [|done]. intros _.
  apply find_index_some in Ef as (Hk & Hc & _). apply andb_prop in Hc as [_ <-%Z.eqb_eq].
  apply list_elem_of_fmap. eexists. split; [done|].
  apply list_elem_of_lookup_total. exists (Z.to_nat k). unfold len in Hk. split; [lia|done].
Qed.

Lemma generate_pid_loop_first n s :
  pid_in_use s 1 = false ->
  generate_pid_loop (S n) 1 s = Some (1, s <| next_pid := u32 (1 + 1) |>).
Proof. intros Hu. cbn [generate_pid_loop]. change (1 =? 0) with false. cbn. by rewrite Hu. Qed.

(** With at most 16 tasks one of 17 candidates is free. *)
Lemma generate_pid_facts s :
  task_count s <= 16 -> is_u32 (next_pid s) ->
  exists q, generate_pid s = Some (q, s <| next_pid := u32 (q + 1) |>) /\
    0 < q < 4294967296 /\ pid_in_use s q = false /\
    (next_pid s = 1 -> pid_in_use s 1 = false -> q = 1).
Proof.
  intros Hc Hn. unfold generate_pid. pose proof (generate_pid_loop_spec 17 (next_pid s) s Hn) as Hl.
  assert (H1 : next_pid s = 1 -> pid_in_use s 1 = false ->
    generate_pid_loop 17 (next_pid s) s = Some (1, s <| next_pid := u32 (1 + 1) |>)).
  { intros -> E2. by apply generate_pid_loop_first. }
  destruct (generate_pid_loop 17 (next_pid s) s) as [[q s']|]; clear -Hl H1 Hc Hn.
  - destruct Hl as (k & Hk & Hq & Hu & ->). exists q. split_and!; try done.
    + unfold candidate in Hq. ulia.
    + unfold candidate in Hq. ulia.
    + intros E1 E2. specialize (H1 E1 E2). congruence.
  - exfalso. assert (Hincl : map (candidate (next_pid s)) (seqZ 0 17) ⊆ map pid (active_tasks s)).
    { intros x (k & -> & Hk%elem_of_seqZ)%list_elem_of_fmap. apply pid_in_use_elem, Hl. lia. }
    assert (Hnd : NoDup (map (candidate (next_pid s)) (seqZ 0 17))).
    { apply NoDup_fmap_2_strong; [|apply NoDup_seqZ].
      intros x y ?%elem_of_seqZ ?%elem_of_seqZ. apply candidate_inj; lia. }
    apply (NoDup_submseteq _ _ Hnd) in Hincl; [|..]. apply submseteq_length in Hincl.
    rewrite !length_fmap in Hincl. unfold active_tasks in Hincl. rewrite length_take in Hincl.
    cbn [length seqZ] in Hincl. change (length (seqZ 0 17)) with 17%nat in Hincl. lia.
Qed.

Lemma pid_in_use_false s q i :
  task_count s <= len (tasks s) -> pid_in_use s q = false ->
  0 <= i < task_count s -> live (task_at s i) = true -> pid (task_at s i) <> q.
Proof.
  intros Hl Hu Hi HL <-. unfold pid_in_use in Hu. destruct (find_index _ _ 0) eqn:Ef; [done|].
  apply (find_index_none _ _ i) in Ef.
  - by rewrite active_at, HL, Z.eqb_refl in Ef.
  - unfold len, active_tasks in *. rewrite length_take. lia.
Qed.

Lemma pid_not_in_use s q :
  0 <= task_count s <= len (tasks s) ->
  (forall j, 0 <= j < task_count s -> live (task_at s j) = true -> pid (task_at s j) <> q) ->
  pid_in_use s q = false.
Proof.
  intros Hl Hno. unfold pid_in_use. destruct (find_index _ _ 0) as [k|] eqn:Ef; [|done].
  apply find_index_some in Ef as (Hk & Hc & _).
  assert (Hk' : 0 <= k < task_count s).
  { unfold len, active_tasks in *. rewrite length_take in Hk. lia. }
  rewrite active_at in Hc by done. apply andb_prop in Hc as [HL Hp%Z.eqb_eq]. by destruct (Hno k Hk' HL).
Qed.

End Pids.

(** * Creation *)

Section Create.
Context {E : Type} `{KernelEnv E}.
Implicit Types s : sched E.

(** A fresh task in an unused or dead slot keeps the invariant. *)
Lemma new_slot_wf s s' slot t :
  sched_wf s -> 0 <= slot < MAX_TASKS -> slot <= task_count s -> live (task_at s slot) = false ->
  len (tasks s') = MAX_TASKS -> task_count s' = Z.max (task_count s) (slot + 1) ->
  current_task s' = current_task s -> is_u32 (next_pid s') ->
  (forall j, 0 <= j < MAX_TASKS -> j <> slot -> task_at s' j = task_at s j) ->
  task_at s' slot = t -> state t = TASK_READY -> 0 < pid t < 4294967296 ->
  (forall j, 0 <= j < MAX_TASKS -> live (task_at s j) = true -> pid (task_at s j) <> pid t) ->
  parent_pid t <> pid t -> mask_ok t -> (task_count s = 0 -> pid t = 1 /\ parent_pid t = 0) ->
  sched_wf s'.
Proof.
  intros Hw Hs Hsc Hdead Hlen Hcnt Hcur Hnext Hoth Hnew Hst Hpid Hfresh Hpar Hmask Hzero.
  pose proof (wf_count s Hw) as Hc.
  assert (HL : live t = true) by (unfold live; by rewrite Hst).
  assert (Hcase : forall j, 0 <= j < MAX_TASKS -> j = slot /\ task_at s' j = t \/
    j <> slot /\ task_at s' j = task_at s j).
  { intros j Hj. destruct (Z.eq_dec j slot) as [->|]; [left|right]; auto. }
  split; try done.
  - lia.
  - intros i Hi. rewrite Hoth by lia. apply Hw. lia.
  - intros i j Hi Hj. destruct (Hcase i Hi) as [[-> ->]|[? ->]], (Hcase j Hj) as [[-> ->]|[? ->]];
      intros Li Lj Ep; [done|by destruct (Hfresh j Hj Lj)|by destruct (Hfresh i Hi Li)|by apply Hw].
  - intros i Hi. destruct (Hcase i Hi) as [[-> ->]|[? ->]]; [done|by apply Hw].
  - intros _. destruct (Z.eq_dec (task_count s) 0) as [E0|E0].
    + assert (slot = 0) as -> by lia. rewrite Hnew. destruct (Hzero E0). done.
    + destruct (wf_idle s Hw ltac:(lia)) as (L0 & P0 & Q0).
      rewrite Hoth; [done|unfold MAX_TASKS; lia|]. intros <-. congruence.
  - intros c Ec. rewrite Hcur in Ec. destruct (wf_current s Hw c Ec) as [Hcr HLc].
    rewrite Hcnt. split; [lia|]. rewrite Hoth; [done|lia|]. intros ->. congruence.
  - intros i Hi. rewrite Hcur. destruct (Hcase i Hi) as [[-> ->]|[? ->]]; [congruence|by apply Hw].
  - intros i Hi. destruct (Hcase i Hi) as [[-> ->]|[? ->]]; [done|by apply Hw].
  - split; [done|]. lia.
Qed.

(** A slot that is not in use, or -1. *)
Lemma allocate_task_slot_spec s :
  sched_wf s ->
  let '(slot, s1) := allocate_task_slot s in
  (slot = -1 /\ s1 = s /\ task_count s = MAX_TASKS \/
   0 <= slot < MAX_TASKS /\ slot <= task_count s /\ live (task_at s slot) = false /\
   task_count s1 = Z.max (task_count s) (slot + 1) /\ len (tasks s1) = MAX_TASKS /\
   (forall j, 0 <= j < MAX_TASKS -> j <> slot -> task_at s1 j = task_at s j) /\
   live (task_at s1 slot) = false) /\
  current_task s1 = current_task s /\ next_pid s1 = next_pid s /\
  current_task_index s1 = current_task_index s /\ idle_task_index s1 = idle_task_index s /\
  task_table_lock s1 = task_table_lock s.
Proof.
  intros Hw. unfold allocate_task_slot. pose proof (wf_count s Hw) as Hc. pose proof (wf_len s Hw) as Hl.
  destruct (find_index _ _ 0) as [i|] eqn:Ef.
  - apply find_index_some in Ef as (Hi & Hd & _). rewrite len_active in Hi by done.
    rewrite active_at in Hd by done. apply negb_true_iff in Hd.
    split; [|done]. right. unfold release_user_pages.
    split_and!; try done; try (cbn; lia).
    + etrans; [apply len_arr_set|done].
    + intros j Hj Hne. rewrite task_at_set by (cbn; lia). bcase; [lia|done].
    + rewrite task_at_set by (cbn; lia). by rewrite Z.eqb_refl.
  - destruct (Z.leb_spec MAX_TASKS (task_count s)) as [|Hlt]; [split; [left; split_and!; done || lia|done]|].
    split; [|done]. right.
    assert (Hdead : live (task_at s (task_count s)) = false).
    { unfold live. rewrite (wf_unused s Hw) by lia. done. }
    split_and!; try done; try lia. cbn. rewrite u32_id; unfold is_u32, MAX_TASKS in *; lia.
Qed.

(** The parts of the state that creation leaves alone. *)
Definition table s :=
  (tasks s, task_count s, current_task s, current_task_index s, idle_task_index s, next_pid s).

Lemma table_eq s s' : table s = table s' ->
  tasks s = tasks s' /\ task_count s = task_count s' /\ current_task s = current_task s' /\
  current_task_index s = current_task_index s' /\ idle_task_index s = idle_task_index s' /\
  next_pid s = next_pid s'.
Proof. by intros [= -> -> -> -> -> ->]. Qed.

Lemma inherit_fds_table t par s :
  let '(t', s') := inherit_fds t par s in
  table s' = table s /\ task_table_lock s' = task_table_lock s /\ task_stacks s' = task_stacks s /\
  exists fds, t' = t <| file_descriptors := fds |>.
Proof.
  destruct par as [q|]; cbn; [by eauto|]. unfold init_standard_fds.
  destruct (k_std_fd 0 (env s)) as [f0 e0], (k_std_fd 1 e0) as [f1 e1], (k_std_fd 2 e1) as [f2 e2].
  cbn. by eauto.
Qed.

Definition current_pid s : Z := match current_task s with Some c => pid (task_at s c) | None => 0 end.

(** What the three creation functions guarantee. *)
Definition created s r s' : Prop :=
  sched_wf s' /\ idle_task_index s' = idle_task_index s /\ task_count s <= task_count s' /\
  task_table_lock s' = false /\
  (r = -1 /\ task_count s = MAX_TASKS \/
   exists slot, 0 <= slot < task_count s' /\ live (task_at s slot) = false /\
     state (task_at s' slot) = TASK_READY /\ r = s32 (pid (task_at s' slot)) /\
     pid_in_use s (pid (task_at s' slot)) = false /\
     parent_pid (task_at s' slot) = current_pid s /\
     (task_count s = 0 -> pid (task_at s' slot) = 1 /\ task_count s' = 1 /\ slot = 0)).

(** The common end of the creation functions: the new task, with a fresh pid,
    is stored in the slot. *)
Lemma install_created s slot s1 s4 t :
  sched_wf s -> allocate_task_slot s = (slot, s1) -> 0 <= slot ->
  len (tasks s4) = len (tasks s1) -> task_count s4 = task_count s1 ->
  current_task s4 = current_task s1 -> idle_task_index s4 = idle_task_index s1 ->
  is_u32 (next_pid s4) ->
  (forall j, 0 <= j < MAX_TASKS -> j <> slot -> task_at s4 j = task_at s1 j) ->
  0 < pid t < 4294967296 ->
  (forall j, 0 <= j < MAX_TASKS -> live (task_at s j) = true -> pid (task_at s j) <> pid t) ->
  (task_count s = 0 -> pid t = 1) ->
  state t = TASK_READY -> mask_ok t -> parent_pid t = current_pid s ->
  created s (s32 (pid t)) (spin_unlock_irqrestore (set_task slot t s4)).
Proof.
  intros Hw Ha Hs0 El4 Ec4 Ecur4 Ei4 Hn4 Hoth4 Hpr Hfresh Hone Hst Hmask Hpar.
  pose proof (allocate_task_slot_spec s Hw) as Hsp. rewrite Ha in Hsp.
  destruct Hsp as ([(? & _)|(Hs & Hsc & Hd & Hcnt & Hlen & Hoth & Hd1)] & Hcur & _ & _ & Hidle & _); [lia|].
  pose proof (wf_count s Hw) as Hc.
  assert (Hzero : task_count s = 0 -> current_pid s = 0).
  { intros E0. unfold current_pid. destruct (current_task s) as [c|] eqn:Ecur; [|done].
    destruct (wf_current s Hw c Ecur). lia. }
  assert (Hparent : current_pid s <> pid t).
  { unfold current_pid. destruct (current_task s) as [c|] eqn:Ecur; [|lia].
    destruct (wf_current s Hw c Ecur). apply Hfresh; [lia|done]. }
  assert (Hslot : task_at (set_task slot t s4) slot = t).
  { rewrite task_at_set by (rewrite ?El4; lia). by rewrite Z.eqb_refl. }
  assert (Hu0 : pid_in_use s (pid t) = false).
  { apply pid_not_in_use; [rewrite (wf_len s Hw); lia|]. intros j Hj. apply Hfresh. lia. }
  split_and!; [|cbn; congruence|cbn; lia|done|].
  - eapply wf_evol; [|apply evol_unlock; reflexivity].
    apply (new_slot_wf s _ slot t Hw Hs Hsc Hd); try congruence; try done.
    + etrans; [apply len_arr_set|]. congruence.
    + cbn. congruence.
    + cbn. congruence.
    + intros j Hj Hne. rewrite task_at_set by (rewrite ?El4; lia). bcase; [lia|].
      rewrite Hoth4 by done. by apply Hoth.
    + intros E0. split; [by apply Hone|]. rewrite Hpar. by apply Hzero.
  - right. exists slot. change (task_at (spin_unlock_irqrestore (set_task slot t s4)) slot)
      with (task_at (set_task slot t s4) slot).
    change (task_count (spin_unlock_irqrestore (set_task slot t s4))) with (task_count s4).
    rewrite Hslot, Ec4. split_and!; done || lia.
Qed.

(** The pid generated after a slot was allocated, whatever the slot holds. *)
Lemma generate_fresh s slot s1 s2 :
  sched_wf s -> allocate_task_slot s = (slot, s1) -> 0 <= slot ->
  len (tasks s2) = len (tasks s1) -> task_count s2 = task_count s1 -> next_pid s2 = next_pid s1 ->
  (forall j, 0 <= j < MAX_TASKS -> j <> slot -> task_at s2 j = task_at s1 j) ->
  (task_count s = 0 -> task_at s2 slot = task_at s1 slot) ->
  exists p, generate_pid s2 = Some (p, s2 <| next_pid := u32 (p + 1) |>) /\ 0 < p < 4294967296 /\
    (forall j, 0 <= j < MAX_TASKS -> live (task_at s j) = true -> pid (task_at s j) <> p) /\
    (task_count s = 0 -> p = 1).
Proof.
  intros Hw Ha Hs0 El2 Ec2 En2 Hoth2 Hz2. pose proof (allocate_task_slot_spec s Hw) as Hsp.
  rewrite Ha in Hsp. destruct Hsp as ([(? & _)|(Hs & Hsc & Hd & Hcnt & Hlen & Hoth & Hd1)] & Hcur & Hnext & _);
    [lia|].
  pose proof (wf_count s Hw) as Hc. destruct (wf_next s Hw) as [Hn Hn0].
  assert (Hc2 : 0 <= task_count s2 <= len (tasks s2)) by (rewrite El2, Ec2, Hlen; lia).
  destruct (generate_pid_facts s2) as (p & Hq & Hqr & Hu & Hq1);
    [rewrite Ec2; unfold MAX_TASKS in *; lia|congruence|].
  exists p. split_and!; try done; try lia.
  - intros j Hj HL. pose proof (live_active s j Hw Hj HL). assert (Hne : j <> slot) by congruence.
    rewrite <- (Hoth j Hj Hne), <- (Hoth2 j Hj Hne) in HL |- *.
    apply pid_in_use_false; [lia|done|lia|done].
  - intros E0. apply Hq1; [by rewrite En2, Hnext, Hn0|]. apply pid_not_in_use; [done|].
    intros j Hj HL. exfalso. assert (j = slot) as -> by lia. rewrite Hz2 in HL by done. congruence.
Qed.

Lemma generate_table s slot s1 s2 :
  sched_wf s -> allocate_task_slot s = (slot, s1) -> 0 <= slot -> table s2 = table s1 ->
  exists p, generate_pid s2 = Some (p, s2 <| next_pid := u32 (p + 1) |>) /\ 0 < p < 4294967296 /\
    (forall j, 0 <= j < MAX_TASKS -> live (task_at s j) = true -> pid (task_at s j) <> p) /\
    (task_count s = 0 -> p = 1).
Proof.
  intros Hw Ha Hs (Et2 & Ec2 & _ & _ & _ & En2)%table_eq.
  apply (generate_fresh s slot s1); try congruence; try done; intros; unfold task_at; by rewrite Et2.
Qed.

Lemma new_task_parent slot pml4 rspv entry p nm s :
  parent_pid (new_task slot pml4 rspv entry p nm s) = current_pid s.
Proof. unfold new_task, current_pid. cbn. by destruct (current_task s). Qed.

Lemma parent_cwd_fds t c fds :
  parent_pid (t <| cwd := c |> <| file_descriptors := fds |>) = parent_pid t.
Proof. done. Qed.

Lemma current_pid_alloc s slot s1 s2 :
  sched_wf s -> allocate_task_slot s = (slot, s1) ->
  current_task s2 = current_task s1 ->
  (forall j, 0 <= j < MAX_TASKS -> j <> slot -> task_at s2 j = task_at s1 j) ->
  current_pid s2 = current_pid s.
Proof.
  intros Hw Ha Ec2 Hoth2. pose proof (allocate_task_slot_spec s Hw) as Hsp. rewrite Ha in Hsp.
  unfold current_pid. rewrite Ec2. destruct Hsp as (Hcase & -> & _).
  destruct (current_task s) as [c|] eqn:Ec; [|done].
  destruct (wf_current s Hw c Ec) as [Hc HL]. pose proof (wf_count s Hw).
  destruct Hcase as [(-> & -> & _)|(_ & _ & Hd & _ & _ & Hoth & _)].
  - rewrite Hoth2; [done|lia|lia].
  - assert (c <> slot) by congruence. rewrite Hoth2, Hoth; [done|lia|done|lia|done].
Qed.

(** A new task in the allocated slot, built from the state in which the pid was
    generated. *)
Lemma finish_create s slot s1 s2 p t s4 :
  sched_wf s -> allocate_task_slot s = (slot, s1) -> 0 <= slot -> table s2 = table s1 ->
  generate_pid s2 = Some (p, s2 <| next_pid := u32 (p + 1) |>) -> 0 < p < 4294967296 ->
  (forall j, 0 <= j < MAX_TASKS -> live (task_at s j) = true -> pid (task_at s j) <> p) ->
  (task_count s = 0 -> p = 1) ->
  table s4 = table (s2 <| next_pid := u32 (p + 1) |>) ->
  pid t = p -> state t = TASK_READY -> blocked_signals t = 0 ->
  parent_pid t = current_pid (s2 <| next_pid := u32 (p + 1) |>) ->
  created s (s32 p) (spin_unlock_irqrestore (set_task slot t s4)).
Proof.
  intros Hw Ha Hs T2 Hg Hpr Hfresh Hone T4 Hp Hst Hb Hpar. rewrite <- Hp.
  apply table_eq in T2 as (Et2 & Ec2 & Ecur2 & _ & Ei2 & En2).
  apply table_eq in T4 as (Et4 & Ec4 & Ecur4 & _ & Ei4 & En4). cbn in Et4, Ec4, Ecur4, Ei4, En4.
  apply (install_created s slot s1); try congruence; try done.
  - rewrite En4. apply u32_range.
  - intros j _ _. unfold task_at. by rewrite Et4, Et2.
  - by rewrite Hp.
  - by rewrite Hp.
  - unfold mask_ok. by rewrite Hb, !Z.bits_0.
  - rewrite Hpar. apply (current_pid_alloc s slot s1); [done|done|done|].
    intros j _ _. unfold task_at. cbn. by rewrite Et2.
Qed.

Lemma create_facts entry um s :
  sched_wf s -> task_table_lock s = false ->
  exists r s', scheduler_create_task_with_mode entry um s = Some (r, s') /\ created s r s'.
Proof.
  intros Hw Hlk. unfold scheduler_create_task_with_mode, spin_lock_irqsave. rewrite Hlk.
  set (s0 := s <| task_table_lock := true |>).
  assert (Hw0 : sched_wf s0) by (eapply wf_evol; [exact Hw|by apply evol_same]).
  pose proof (allocate_task_slot_spec s0 Hw0) as Hsp.
  destruct (allocate_task_slot s0) as [slot s1] eqn:Ea.
  destruct Hsp as ([(-> & -> & Hfull)|(Hs & Hsc & Hd & Hcnt & Hlen & Hoth & Hd1)] & Hcur & Hnext & Hx & Hidle & Hl).
  { eexists _, _. split; [reflexivity|]. split_and!; try done; [|by left].
    eapply wf_evol; [exact Hw|by apply evol_same]. }
  destruct (Z.ltb_spec slot 0); [lia|].
  set (sA := if um then _ else s1). set (usp := if um then _ else 0).
  destruct (build_initial_stack _ _ _ _ _ _ _ _) as [rspv m].
  assert (TA : table (sA <| kmem := m |>) = table s1) by by destruct um.
  destruct (generate_table s0 slot s1 _ Hw0 Ea ltac:(lia) TA) as (p & Hg & Hpr & Hfr & Hone). rewrite Hg.
  match goal with |- context [inherit_fds ?t ?par ?s3] =>
    set (nt := t) in *; change (inherit_fds t par s3) with (inherit_fds nt par s3) in *;
    pose proof (inherit_fds_table nt par s3) as Hi; destruct (inherit_fds nt par s3) as [t' s4] end.
  destruct Hi as (T4 & _ & _ & fds & ->). eexists _, _. split; [reflexivity|].
  change (created s0 (s32 p) (spin_unlock_irqrestore (set_task slot
    (nt <| file_descriptors := fds |>) s4))).
  eapply finish_create; [exact Hw0|exact Ea|lia|exact TA|exact Hg|done|done|done|exact T4|done|done|done|].
  etrans; [apply parent_cwd_fds|apply new_task_parent].
Qed.

Lemma add_user_process_facts entry usp pml4 rdi rsi s :
  sched_wf s -> task_table_lock s = false -> pml4 <> 0 -> usp <> 0 ->
  exists r o s', scheduler_add_user_process entry usp pml4 rdi rsi s = Some (r, o, s') /\ created s r s'.
Proof.
  intros Hw Hlk Hp0 Hu0. unfold scheduler_add_user_process, spin_lock_irqsave. rewrite Hlk.
  rewrite (proj2 (Z.eqb_neq pml4 0)), (proj2 (Z.eqb_neq usp 0)) by done. cbn [orb].
  set (s0 := s <| task_table_lock := true |>).
  assert (Hw0 : sched_wf s0) by (eapply wf_evol; [exact Hw|by apply evol_same]).
  pose proof (allocate_task_slot_spec s0 Hw0) as Hsp.
  destruct (allocate_task_slot s0) as [slot s1] eqn:Ea.
  destruct Hsp as ([(-> & -> & Hfull)|(Hs & _)] & _).
  { eexists _, _, _. split; [reflexivity|]. split_and!; try done; [|by left].
    eapply wf_evol; [exact Hw|by apply evol_same]. }
  destruct (Z.ltb_spec slot 0); [lia|].
  destruct (build_initial_stack _ _ _ _ _ _ _ _) as [rspv m].
  assert (TA : table (s1 <| kmem := m |>) = table s1) by done.
  destruct (generate_table s0 slot s1 _ Hw0 Ea ltac:(lia) TA) as (p & Hg & Hpr & Hfr & Hone). rewrite Hg.
  match goal with |- context [inherit_fds (?t <| cwd := ?c |>) ?par ?s3] =>
    pose proof (inherit_fds_table (t <| cwd := c |>) par s3) as Hi;
    set (cw := c) in *; set (nt := t) in *;
    destruct (inherit_fds (nt <| cwd := cw |>) par s3) as [t' s4] end.
  destruct Hi as (T4 & _ & _ & fds & ->). eexists _, _, _. split; [reflexivity|].
  change (created s0 (s32 p) (spin_unlock_irqrestore (set_task slot
    (nt <| cwd := cw |> <| file_descriptors := fds |>) s4))).
  eapply finish_create; [exact Hw0|exact Ea|lia|exact TA|exact Hg|done|done|done|exact T4|done|done|done|].
  etrans; [apply parent_cwd_fds|apply new_task_parent].
Qed.

Lemma fork_facts a s c :
  sched_wf s -> task_table_lock s = false -> current_task s = Some c -> a <> 0 ->
  exists r s', scheduler_fork_current a s = Some (r, s') /\
    (r = -1 /\ sched_evol s s' \/ created s r s').
Proof.
  intros Hw Hlk Hcur Ha0. unfold scheduler_fork_current. rewrite Hcur.
  rewrite (proj2 (Z.eqb_neq a 0)) by done.
  destruct (k_clone_address_space _ _) as [pml4 e]. destruct (pml4 =? 0).
  { eexists _, _. split; [reflexivity|]. left. split; [done|by apply evol_same]. }
  unfold spin_lock_irqsave. cbn [task_table_lock set_field]. rewrite Hlk.
  set (s0 := s <| env := e |> <| task_table_lock := true |>).
  assert (Hw0 : sched_wf s0) by (eapply wf_evol; [exact Hw|by apply evol_same]).
  pose proof (allocate_task_slot_spec s0 Hw0) as Hsp.
  destruct (allocate_task_slot s0) as [slot s1] eqn:Ea.
  destruct (wf_current s0 Hw0 c Hcur) as [Hc HLc]. pose proof (wf_count s0 Hw0) as Hcnt0.
  destruct Hsp as ([(-> & -> & Hfull)|(Hs & Hsc & Hd & Hcnt & Hlen & Hoth & Hd1)] & Hcur1 & Hn1 & _ & Hid1 & _).
  { eexists _, _. split; [reflexivity|]. left. split; [done|by apply evol_same]. }
  destruct (Z.ltb_spec slot 0); [lia|].
  assert (Hne : c <> slot) by congruence.
  assert (Ht : task_at s1 c = task_at s0 c) by (apply Hoth; lia).
  set (s2 := set_task slot (task_at s1 c) s1).
  assert (Hoth2 : forall j, 0 <= j < MAX_TASKS -> j <> slot -> task_at s2 j = task_at s1 j).
  { intros j Hj Hjs. unfold s2. rewrite task_at_set by lia. bcase; [lia|done]. }
  assert (Hl2 : len (tasks s2) = len (tasks s1)) by apply len_arr_set.
  destruct (generate_fresh s0 slot s1 s2 Hw0 Ea ltac:(lia)) as (p & Hg & Hpr & Hfr & Hone); [done..|lia|].
  rewrite Hg. set (top := stack_top _). set (child := _ <| rsp := _ |>).
  eexists _, _. split; [reflexivity|]. right.
  match goal with |- created _ _ (spin_unlock_irqrestore (ref_fds ?f _ <| kmem := ?m |>)) =>
    change (created s0 (s32 (pid child)) (spin_unlock_irqrestore (set_task slot child
      (ref_fds f (s2 <| next_pid := u32 (p + 1) |>) <| kmem := m |>)))) end.
  apply (install_created s0 slot s1); try done.
  - apply u32_range.
  - change (mask_ok (task_at s1 c)). rewrite Ht. apply Hw0; [lia|done].
  - unfold current_pid. rewrite (Hcur : current_task s0 = Some c), <- Ht. done.
Qed.

End Create.

(** * Waiting *)

Section Wait.
Context {E : Type}.
Implicit Types s : sched E.

(** A child of [parent] that [waitpid(p)] waits for. *)
Definition wait_match (parent p : Z) (t : task) : bool :=
  live t && (parent_pid t =? parent) && ((p <=? 0) || (pid t =? u32 p)).

Lemma wait_scan_spec l i parent p has :
  match wait_scan l i parent p has with
  | (Some k, b) => i <= k < i + len l /\ wait_match parent p (arr_get l (k - i)) = true /\
      state (arr_get l (k - i)) = TASK_ZOMBIE
  | (None, b) => (forall j, 0 <= j < len l -> wait_match parent p (arr_get l j) = true ->
        b = true /\ state (arr_get l j) <> TASK_ZOMBIE) /\
      (b = true -> has = true \/ exists j, 0 <= j < len l /\ wait_match parent p (arr_get l j) = true) /\
      (has = true -> b = true)
  end.
Proof.
  revert i has. induction l as [|t l IH]; intros i has; cbn [wait_scan].
  { unfold len. cbn. split_and!; [lia|by left|done]. }
  assert (Hlen : len (t :: l) = len l + 1) by (unfold len; cbn [length]; lia).
  assert (Hlpos : 0 <= len l) by (unfold len; lia).
  assert (Hcond : (negb (live t) || negb (parent_pid t =? parent) || (0 <? p) && negb (pid t =? u32 p))
    = negb (wait_match parent p t)).
  { unfold wait_match. rewrite Z.ltb_antisym.
    by destruct (live t), (parent_pid t =? parent), (p <=? 0), (pid t =? u32 p). }
  rewrite Hcond. destruct (wait_match parent p t) eqn:Hm; cbn [negb];
    [destruct (st_eqb (state t) TASK_ZOMBIE) eqn:Hz|].
  - rewrite Z.sub_diag. apply st_eqb_spec in Hz. split_and!; try done; lia.
  - assert (Hnz : state t <> TASK_ZOMBIE) by (rewrite <- st_eqb_spec; congruence).
    specialize (IH (i + 1) true). destruct (wait_scan l (i + 1) parent p true) as [[k|] b].
    + destruct IH as (Hk & IH). rewrite arr_get_cons by lia.
      replace (k - i - 1) with (k - (i + 1)) by lia. split; [lia|done].
    + destruct IH as (H1 & _ & H3). split_and!; [|intros _; right; exists 0; split; [lia|done]|by auto].
      intros j Hj. destruct (Z.eq_dec j 0) as [->|]; [by auto|].
      rewrite arr_get_cons by lia. apply H1. lia.
  - specialize (IH (i + 1) has). destruct (wait_scan l (i + 1) parent p has) as [[k|] b].
    + destruct IH as (Hk & IH). rewrite arr_get_cons by lia.
      replace (k - i - 1) with (k - (i + 1)) by lia. split; [lia|done].
    + destruct IH as (H1 & H2 & H3). split_and!; [| |done].
      * intros j Hj. destruct (Z.eq_dec j 0) as [->|].
        { change (arr_get (t :: l) 0) with t. congruence. }
        rewrite arr_get_cons by lia. apply H1. lia.
      * intros Hb. destruct (H2 Hb) as [|(j & Hj & Hmj)]; [by left|]. right. exists (j + 1).
        rewrite arr_get_cons by lia. replace (j + 1 - 1) with j by lia. split; [lia|done].
Qed.

(** Removing a child that is neither the idle task nor the running one. *)
Lemma reap_wf s i t :
  sched_wf s -> 0 < i < task_count s -> state (task_at s i) <> TASK_RUNNING ->
  current_task s <> Some i -> live t = false -> state t = TASK_DEAD ->
  sched_wf (set_task i t s).
Proof.
  intros Hw Hi Hnr Hnc Hdead Hst. pose proof (wf_count s Hw) as Hc. pose proof (wf_len s Hw) as Hl.
  assert (Hcase : forall j, 0 <= j < MAX_TASKS -> j = i /\ task_at (set_task i t s) j = t \/
    j <> i /\ task_at (set_task i t s) j = task_at s j).
  { intros j Hj. rewrite task_at_set by lia. bcase; auto. }
  split; [|exact (wf_count s Hw)|..|exact (wf_next s Hw)].
  - etrans; [apply len_arr_set|done].
  - intros j Hj. cbn in Hj. destruct (Hcase j ltac:(lia)) as [[-> _]|[_ ->]]; [lia|by apply Hw].
  - intros j k Hj Hk. destruct (Hcase j Hj) as [[-> ->]|[? ->]], (Hcase k Hk) as [[-> ->]|[? ->]];
      intros; try congruence. by apply Hw.
  - intros j Hj. destruct (Hcase j Hj) as [[-> ->]|[? ->]]; [congruence|by apply Hw].
  - intros H0. destruct (Hcase 0 ltac:(unfold MAX_TASKS; lia)) as [[Ez _]|[_ ->]]; [lia|by apply Hw].
  - intros c Ec. destruct (wf_current s Hw c Ec) as [Hcr HL]. split; [done|].
    destruct (Hcase c ltac:(lia)) as [[-> _]|[_ ->]]; done.
  - intros j Hj. destruct (Hcase j Hj) as [[-> ->]|[? ->]]; [congruence|by apply Hw].
  - intros j Hj. destruct (Hcase j Hj) as [[-> ->]|[? ->]]; [congruence|by apply Hw].
Qed.

(** One pass of [waitpid]: it removes one matching zombie and returns its pid
    and status, or has nothing to wait for, or blocks. *)
Lemma waitpid_pass_facts c p options s :
  sched_wf s -> current_task s = Some c ->
  let '(r, s') := waitpid_pass c p options s in
  sched_wf s' /\ idle_task_index s' = idle_task_index s /\ task_count s' = task_count s /\
  task_table_lock s' = task_table_lock s /\ current_task s' = Some c /\
  match r with
  | WaitReturn ret (Some st) => exists i, 0 < i < task_count s /\ i <> c /\
      wait_match (pid (task_at s c)) p (task_at s i) = true /\
      state (task_at s i) = TASK_ZOMBIE /\ ret = s32 (pid (task_at s i)) /\
      st = exit_status (task_at s i) /\
      s' = set_task i (task_at s i <| state := TASK_DEAD |> <| pid := 0 |> <| parent_pid := 0 |>) s
  | WaitReturn ret None => s' = s /\
      (forall i, 0 <= i < task_count s -> wait_match (pid (task_at s c)) p (task_at s i) = true ->
         ret = 0 /\ Z.land options WNOHANG <> 0 /\ state (task_at s i) <> TASK_ZOMBIE) /\
      (ret = -1 \/ ret = 0)
  | WaitYield => Z.land options WNOHANG = 0 /\
      (exists i, 0 <= i < task_count s /\ wait_match (pid (task_at s c)) p (task_at s i) = true) /\
      s' = set_task c (task_at s c <| state := TASK_WAITING |> <| wait_reason := TASK_WAIT_CHILD |>
                         <| wait_target := if 0 <? p then p else 0 |>) s
  end.
Proof.
  intros Hw Hcur. destruct (wf_current s Hw c Hcur) as [Hc HLc]. pose proof (wf_count s Hw) as Hcnt.
  destruct (wf_pid s Hw c ltac:(lia) HLc) as [Hpc _].
  unfold waitpid_pass. pose proof (wait_scan_spec (active_tasks s) 0 (pid (task_at s c)) p false) as Hsc.
  rewrite len_active in Hsc by done.
  destruct (wait_scan (active_tasks s) 0 (pid (task_at s c)) p false) as [[i|] b].
  - destruct Hsc as (Hi & Hm & Hz). rewrite Z.sub_0_r, active_at in Hm, Hz by lia.
    assert (Hpar : parent_pid (task_at s i) = pid (task_at s c)).
    { apply andb_prop in Hm as [Hm _]. apply andb_prop in Hm as [_ Hm]. by apply Z.eqb_eq. }
    assert (HLi : live (task_at s i) = true) by (unfold live; by rewrite Hz).
    assert (Hic : i <> c).
    { intros ->. by destruct (wf_pid s Hw c ltac:(lia) HLc). }
    assert (Hi0 : i <> 0).
    { intros ->. destruct (wf_idle s Hw ltac:(lia)) as (_ & _ & H0). lia. }
    split_and!; try done; [apply reap_wf; try done; [lia|congruence|congruence]|].
    exists i. split_and!; done || lia.
  - destruct Hsc as (H1 & H2 & _). destruct b; [destruct (negb (Z.land options WNOHANG =? 0)) eqn:Ho|].
    + split_and!; try done; [|by right]. intros i Hi Hm.
      rewrite <- (active_at s i) in Hm |- * by done. destruct (H1 i Hi Hm) as [_ Hnz].
      apply negb_true_iff, Z.eqb_neq in Ho. done.
    + apply negb_false_iff, Z.eqb_eq in Ho. destruct (H2 eq_refl) as [|(j & Hj & Hmj)]; [done|].
      rewrite active_at in Hmj by done.
      split_and!; try done; [|by exists j]. eapply wf_evol; [exact Hw|]. apply evol_set_task; [lia|].
      by apply evol_move.
    + split_and!; try done; [|by left]. intros i Hi Hm. rewrite <- (active_at s i) in Hm by done.
      by destruct (H1 i Hi Hm).
Qed.

End Wait.

(** * The tick *)

Section Tick.
Context {E : Type} `{KernelEnv E}.
Implicit Types s : sched E.

Definition none_running s : Prop :=
  forall i, 0 <= i < MAX_TASKS -> state (task_at s i) <> TASK_RUNNING.

Lemma none_running_evol s s' :
  len (tasks s) = MAX_TASKS -> none_running s -> sched_evol s s' -> none_running s'.
Proof.
  intros Hl Hn Hev i Hi Hr. apply (Hn i Hi). apply (sev_tasks _ _ Hev i); [lia|done].
Qed.

Lemma save_current_evol r s :
  sched_wf s -> sched_evol s (save_current r s) /\ none_running (save_current r s).
Proof.
  intros Hw. pose proof (wf_len s Hw) as Hl. pose proof (wf_count s Hw) as Hcnt. unfold save_current.
  destruct (current_task s) as [c|] eqn:Ec.
  - destruct (wf_current s Hw c Ec) as [Hc HLc].
    set (t := task_at s c <| rsp := r |>). split.
    + apply evol_set_task; [lia|]. destruct (st_eqb (state t) TASK_RUNNING) eqn:Hr; [|by apply evol_keep].
      by apply evol_move.
    + intros i Hi. rewrite task_at_set by lia. bcase; subst.
      * destruct (st_eqb (state t) TASK_RUNNING) eqn:Hr; [done|]. rewrite <- st_eqb_spec. congruence.
      * intros Hr%(wf_running s Hw i Hi). congruence.
  - split; [reflexivity|]. intros i Hi Hr%(wf_running s Hw i Hi). congruence.
Qed.

Lemma runnable_live t : runnable t = true -> live t = true.
Proof. states. Qed.

Lemma prepare_candidate_evol i s ok s' :
  sched_wf s -> 0 <= i < task_count s -> live (task_at s i) = true ->
  prepare_candidate i s = Some (ok, s') -> sched_evol s s'.
Proof.
  intros Hw Hi HL. unfold prepare_candidate. destruct (_ && _); [|intros [= _ <-]; reflexivity].
  intros Hs. bind_in Hs. destruct p as [b s1]. apply deliver_evol in E0; [|by eapply wf_evol, evol_env|done|done].
  - assert (H1 : sched_evol s s1) by (etransitivity; [apply evol_env; reflexivity|exact E0]).
    destruct b; injection Hs as _ <-; [done|by apply evol_env].
Qed.

Lemma switch_to_task_wf i s :
  sched_wf s -> none_running s -> 0 <= i < task_count s -> live (task_at s i) = true ->
  sched_wf (switch_to_task i s).
Proof.
  intros Hw Hn Hi HL. pose proof (wf_count s Hw) as Hcnt. pose proof (wf_len s Hw) as Hl.
  set (s1 := switch_to_task i s).
  assert (Hcase : forall j, 0 <= j < MAX_TASKS ->
    j = i /\ task_at s1 j = task_at s i <| state := TASK_RUNNING |> \/ j <> i /\ task_at s1 j = task_at s j).
  { intros j Hj. unfold s1, switch_to_task.
    match goal with |- context [upd_env ?f ?x] => change (task_at (upd_env f x) j) with (task_at x j) end.
    rewrite task_at_set by (cbn; lia). bcase; [left|right]; by subst. }
  assert (Hlive : forall j, 0 <= j < MAX_TASKS -> live (task_at s1 j) = live (task_at s j)).
  { intros j Hj. destruct (Hcase j Hj) as [[-> ->]|[_ ->]]; [by rewrite HL|done]. }
  assert (Hsame : forall j, 0 <= j < MAX_TASKS -> pid (task_at s1 j) = pid (task_at s j) /\
    parent_pid (task_at s1 j) = parent_pid (task_at s j) /\
    blocked_signals (task_at s1 j) = blocked_signals (task_at s j)).
  { intros j Hj. by destruct (Hcase j Hj) as [[-> ->]|[_ ->]]. }
  split; [|exact (wf_count s Hw)|..|exact (wf_next s Hw)].
  - etrans; [apply len_arr_set|done].
  - intros j Hj. cbn in Hj. destruct (Hcase j ltac:(lia)) as [[-> _]|[_ ->]]; [lia|by apply Hw].
  - intros j k Hj Hk. rewrite !Hlive by done. destruct (Hsame j Hj) as [-> _], (Hsame k Hk) as [-> _].
    by apply Hw.
  - intros j Hj. rewrite Hlive by done. destruct (Hsame j Hj) as (-> & -> & _). by apply Hw.
  - intros H0. assert (Hz : 0 <= 0 < MAX_TASKS) by (unfold MAX_TASKS; lia).
    rewrite Hlive by done. destruct (Hsame 0 Hz) as (-> & -> & _). by apply Hw.
  - intros c [= <-]. split; [done|]. rewrite Hlive by lia. done.
  - intros j Hj. destruct (Hcase j Hj) as [[-> _]|[_ ->]]; [done|]. intros Hr. by destruct (Hn j Hj).
  - intros j Hj. rewrite Hlive by done. unfold mask_ok. destruct (Hsame j Hj) as (_ & _ & ->). by apply Hw.
Qed.

Lemma tick_loop_wf n index s b s' :
  sched_wf s -> none_running s -> 0 < task_count s -> tick_loop n index s = Some (b, s') ->
  sched_wf s' /\ idle_task_index s' = idle_task_index s /\ task_count s' = task_count s /\
  (b = false -> none_running s').
Proof.
  revert index s. induction n as [|n IH]; intros index s Hw Hn Hpos; cbn [tick_loop].
  { by intros [= <- <-]. }
  set (i := (index + 1) mod task_count s). destruct (_ || _) eqn:Hskip; [by apply IH|].
  assert (Hi : 0 <= i < task_count s) by (apply Z.mod_pos_bound; lia).
  apply orb_false_elim in Hskip as [_ Hrun%negb_false_iff%runnable_live].
  intros Hs. bind_in Hs. destruct p as [ok s1]. apply prepare_candidate_evol in E0 as H1; try done.
  pose proof (wf_evol _ _ Hw H1) as Hw1.
  pose proof (none_running_evol _ _ (wf_len s Hw) Hn H1) as Hn1.
  rewrite <- (sev_idle _ _ H1), <- (sev_count _ _ H1). destruct ok.
  - injection Hs as <- <-. split; [|done]. apply switch_to_task_wf; try done.
    + by rewrite (sev_count _ _ H1).
    + rewrite <- Hrun. pose proof (wf_count s Hw). apply (sev_tasks _ _ H1). rewrite (wf_len s Hw). lia.
  - apply IH in Hs; try done. by rewrite (sev_count _ _ H1).
Qed.

Lemma finished_live t : finished t = false -> live t = true.
Proof. states. Qed.

Lemma tick_wf r s r' s' :
  sched_wf s -> scheduler_tick r s = Some (r', s') ->
  sched_wf s' /\ idle_task_index s' = idle_task_index s /\ task_count s' = task_count s.
Proof.
  intros Hw. unfold scheduler_tick. intros Hs. bind_in Hs. bind_in Hs.
  assert (H1 : sched_evol s s1).
  { etransitivity; [|apply evol_lock, E1]. destruct (k_serial_received _).
    - apply wake_tasks_evol in E0; [|apply Hw|intros; by apply waits_stdin_live].
      transitivity (s <| kernel_ticks := u64 (kernel_ticks s + 1) |>); [by apply evol_same|exact E0].
    - injection E0 as <-. by apply evol_same. }
  pose proof (wf_evol _ _ Hw H1) as Hw1. rewrite <- (sev_idle _ _ H1), <- (sev_count _ _ H1).
  clear Hw H1 E0 E1. destruct (Z.eqb_spec (task_count s1) 0).
  { injection Hs as _ <-. split; [|done]. eapply wf_evol; [exact Hw1|by apply evol_unlock]. }
  destruct (save_current_evol r s1 Hw1) as [H2 Hn2]. pose proof (wf_evol _ _ Hw1 H2) as Hw2.
  pose proof (wf_count s1 Hw1) as Hcnt. bind_in Hs. destruct p as [found s3].
  apply tick_loop_wf in E0 as (Hw3 & Hi3 & Hc3 & Hn3); try done; [|rewrite (sev_count _ _ H2); lia].
  rewrite <- (sev_idle _ _ H2), <- (sev_count _ _ H2). rewrite <- Hi3, <- Hc3.
  destruct found.
  - injection Hs as _ <-. split; [|done]. eapply wf_evol; [exact Hw3|by apply evol_unlock].
  - injection Hs as Hs. unfold tick_idle in Hs. destruct (_ && _) eqn:Hc; injection Hs as _ <-.
    + split; [|done]. eapply wf_evol; [|apply evol_unlock; reflexivity].
      apply andb_prop in Hc as [Hc Hf]. apply andb_prop in Hc as [Hc1 Hc2].
      apply switch_to_task_wf; auto; [lia|]. by apply finished_live, negb_true_iff.
    + split; [|done]. eapply wf_evol; [exact Hw3|by apply evol_unlock].
Qed.

End Tick.

(** * Reachable states *)

Section Reach.
Context {E : Type} `{KernelEnv E}.
Implicit Types s : sched E.

(** The operations of the scheduler, in any order, with the rest of the kernel
    changing its own state and the kernel stacks in between. *)
Inductive sched_step : sched E -> sched E -> Prop :=
  | step_env s e : sched_step s (s <| env := e |>)
  | step_kmem s m : sched_step s (s <| kmem := m |>)
  | step_create entry um s r s' :
      scheduler_create_task_with_mode entry um s = Some (r, s') -> sched_step s s'
  | step_process entry usp pml4 rdi rsi s r o s' :
      scheduler_add_user_process entry usp pml4 rdi rsi s = Some (r, o, s') -> sched_step s s'
  | step_fork a s r s' : scheduler_fork_current a s = Some (r, s') -> sched_step s s'
  | step_terminate i status s s' : 0 <= i < task_count s ->
      scheduler_terminate_task (Some i) status s = Some s' -> sched_step s s'
  | step_signal p n s r s' : scheduler_send_signal p n s = Some (r, s') -> sched_step s s'
  | step_sigaction n act s r o s' : scheduler_sigaction n act s = Some (r, o, s') -> sched_step s s'
  | step_sigprocmask how set s r o s' :
      scheduler_sigprocmask how set s = Some (r, o, s') -> sched_step s s'
  | step_sys_signal n h s : sched_step s (snd (sys_signal n h s))
  | step_sigreturn s : sched_step s (snd (sys_sigreturn s))
  | step_syscall_signals a ret s b s' :
      scheduler_handle_syscall_signals a ret s = Some (b, s') -> sched_step s s'
  | step_sleep reason target s s' :
      scheduler_sleep_current reason target s = Some s' -> sched_step s s'
  | step_wake_stdin s s' : scheduler_wake_stdin_readers s = Some s' -> sched_step s s'
  | step_wake_readers p s s' : scheduler_wake_pipe_readers p s = Some s' -> sched_step s s'
  | step_wake_writers p s s' : scheduler_wake_pipe_writers p s = Some s' -> sched_step s s'
  | step_wake_receivers p s s' : scheduler_wake_socket_receivers p s = Some s' -> sched_step s s'
  | step_wake_socket k s n s' : scheduler_wake_socket k s = Some (n, s') -> sched_step s s'
  | step_waitpid c p options s s0 r s' : current_task s = Some c ->
      spin_lock_irqsave s = Some s0 -> waitpid_pass c p options s0 = (r, s') ->
      sched_step s (spin_unlock_irqrestore s')
  | step_tick rsp s r s' : scheduler_tick rsp s = Some (r, s') -> sched_step s s'.

(** The invariant after boot. *)
Definition booted s : Prop := sched_wf s /\ 0 < task_count s /\ idle_task_index s = 0.

Lemma booted_evol s s' : booted s -> sched_evol s s' -> booted s'.
Proof.
  intros (Hw & Hc & Hi) Hev. split_and!; [by eapply wf_evol|by rewrite (sev_count _ _ Hev)|].
  by rewrite (sev_idle _ _ Hev).
Qed.

Lemma booted_created s r s' : booted s -> created s r s' -> booted s'.
Proof. intros (Hw & Hc & Hi) (Hw' & Hi' & Hc' & _). split_and!; [done|lia|congruence]. Qed.

(** A creation that returns was entered with the lock free. *)
Lemma create_created entry um s r s' :
  sched_wf s -> scheduler_create_task_with_mode entry um s = Some (r, s') -> created s r s'.
Proof.
  intros Hw Hs. destruct (task_table_lock s) eqn:Hl.
  - unfold scheduler_create_task_with_mode, spin_lock_irqsave in Hs. by rewrite Hl in Hs.
  - destruct (create_facts entry um s Hw Hl) as (r1 & s1 & Hs1 & Hc). congruence.
Qed.

Lemma process_created entry usp pml4 rdi rsi s r o s' :
  sched_wf s -> scheduler_add_user_process entry usp pml4 rdi rsi s = Some (r, o, s') ->
  s' = s \/ created s r s'.
Proof.
  intros Hw Hs. destruct (Z.eq_dec pml4 0) as [->|Hp].
  { injection Hs as _ _ <-. by left. }
  destruct (Z.eq_dec usp 0) as [->|Hu].
  { unfold scheduler_add_user_process in Hs. rewrite orb_true_r in Hs. injection Hs as _ _ <-. by left. }
  right. destruct (task_table_lock s) eqn:Hl.
  - unfold scheduler_add_user_process, spin_lock_irqsave in Hs.
    rewrite (proj2 (Z.eqb_neq pml4 0)), (proj2 (Z.eqb_neq usp 0)), Hl in Hs by done. done.
  - destruct (add_user_process_facts entry usp pml4 rdi rsi s Hw Hl Hp Hu) as (? & ? & ? & ? & ?).
    congruence.
Qed.

Lemma fork_created a s r s' :
  sched_wf s -> scheduler_fork_current a s = Some (r, s') -> sched_evol s s' \/ created s r s'.
Proof.
  intros Hw Hs. destruct (current_task s) as [c|] eqn:Ec.
  - destruct (Z.eq_dec a 0) as [->|Ha].
    { unfold scheduler_fork_current in Hs. rewrite Ec in Hs. injection Hs as _ <-. left. reflexivity. }
    destruct (task_table_lock s) eqn:Hl.
    + unfold scheduler_fork_current in Hs. rewrite Ec, (proj2 (Z.eqb_neq a 0) Ha) in Hs.
      destruct (k_clone_address_space _ _) as [pml4 e]. destruct (pml4 =? 0).
      { injection Hs as _ <-. left. by apply evol_same. }
      unfold spin_lock_irqsave in Hs. cbn [task_table_lock set_field] in Hs. by rewrite Hl in Hs.
    + destruct (fork_facts a s c Hw Hl Ec Ha) as (? & ? & Hs' & Hcase).
      rewrite Hs in Hs'. injection Hs' as <- <-. tauto.
  - unfold scheduler_fork_current in Hs. rewrite Ec in Hs. injection Hs as _ <-. left. reflexivity.
Qed.

Lemma terminate_task_evol i status s s' :
  sched_wf s -> 0 <= i < task_count s ->
  scheduler_terminate_task (Some i) status s = Some s' -> sched_evol s s'.
Proof.
  intros Hw Hi. unfold scheduler_terminate_task.
  destruct (finished (task_at s i)) eqn:Hf; [intros [= <-]; reflexivity|].
  intros Hs. bind_in Hs. apply spin_lock_some in E0 as [_ ->].
  change (task_at (s <| task_table_lock := true |>) i) with (task_at s i) in Hs. rewrite Hf in Hs.
  bind_in Hs. injection Hs as <-. apply evol_unlock.
  assert (H1 : sched_evol s (s <| task_table_lock := true |>)) by by apply evol_same.
  etransitivity; [exact H1|]. eapply terminate_wf_evol, E0; [by eapply wf_evol|done|].
  by apply finished_live.
Qed.

Lemma booted_waitpid c p options s s0 r s' :
  booted s -> current_task s = Some c -> spin_lock_irqsave s = Some s0 ->
  waitpid_pass c p options s0 = (r, s') -> booted (spin_unlock_irqrestore s').
Proof.
  intros (Hw & Hc & Hi) Hcur [_ ->]%spin_lock_some Hp.
  assert (Hw0 : sched_wf (s <| task_table_lock := true |>)) by (eapply wf_evol; [exact Hw|by apply evol_same]).
  pose proof (waitpid_pass_facts c p options (s <| task_table_lock := true |>) Hw0 Hcur) as Hf. rewrite Hp in Hf.
  destruct Hf as (Hw' & Hi' & Hc' & _). split_and!.
  - eapply wf_evol; [exact Hw'|]. apply evol_unlock. reflexivity.
  - change (0 < task_count s'). rewrite Hc'. exact Hc.
  - change (idle_task_index s' = 0). rewrite Hi'. exact Hi.
Qed.

Lemma booted_step s s' : booted s -> sched_step s s' -> booted s'.
Proof.
  intros Hb Hst. pose proof Hb as (Hw & Hc & Hi). destruct Hst as
    [s e|s m|entry um s r s' Hs|entry usp pml4 rdi rsi s r o s' Hs|a s r s' Hs|i st s s' Hr Hs
    |p n s r s' Hs|n act s r o s' Hs|how set s r o s' Hs|n h s|s|a ret s b s' Hs|re ta s s' Hs
    |s s' Hs|p s s' Hs|p s s' Hs|p s s' Hs|k s n s' Hs|c p options s s0 r s' Hcur Hl Hs|a s r s' Hs].
  - eapply booted_evol; [exact Hb|by apply evol_same].
  - eapply booted_evol; [exact Hb|by apply evol_same].
  - eapply booted_created; [exact Hb|]. eapply create_created; [exact Hw|exact Hs].
  - apply process_created in Hs as [->|Hcr]; [exact Hb| |exact Hw].
    eapply booted_created; [exact Hb|exact Hcr].
  - apply fork_created in Hs as [Hev|Hcr]; [| |exact Hw].
    + eapply booted_evol; [exact Hb|exact Hev].
    + eapply booted_created; [exact Hb|exact Hcr].
  - eapply booted_evol; [exact Hb|]. eapply terminate_task_evol; [exact Hw|exact Hr|exact Hs].
  - eapply booted_evol; [exact Hb|]. eapply send_signal_evol; [exact Hw|exact Hs].
  - eapply booted_evol; [exact Hb|]. eapply sigaction_evol; [exact Hw|exact Hs].
  - eapply booted_evol; [exact Hb|]. eapply sigprocmask_evol; [exact Hw|exact Hs].
  - eapply booted_evol; [exact Hb|]. apply sys_signal_evol, Hw.
  - eapply booted_evol; [exact Hb|]. apply sys_sigreturn_evol, Hw.
  - eapply booted_evol; [exact Hb|]. eapply handle_syscall_signals_evol; [exact Hw|exact Hs].
  - eapply booted_evol; [exact Hb|]. eapply sleep_current_evol; [exact Hw|exact Hs].
  - eapply booted_evol; [exact Hb|]. eapply wake_tasks_evol, Hs; [lia|apply waits_stdin_live].
  - eapply booted_evol; [exact Hb|]. eapply wake_tasks_evol, Hs; [lia|apply waits_pipe_read_live].
  - eapply booted_evol; [exact Hb|]. eapply wake_tasks_evol, Hs; [lia|apply waits_pipe_write_live].
  - eapply booted_evol; [exact Hb|]. eapply wake_tasks_evol, Hs; [lia|apply waits_protocol_live].
  - eapply booted_evol; [exact Hb|]. unfold scheduler_wake_socket in Hs. bind_in Hs. injection Hs as _ <-.
    eapply wake_tasks_evol, E0; [lia|apply waits_socket_live].
  - eapply booted_waitpid; [exact Hb|exact Hcur|exact Hl|exact Hs].
  - apply tick_wf in Hs as (Hw' & Hi' & Hc'); [|exact Hw]. split_and!; [exact Hw'|lia|congruence].
Qed.

(** The state [scheduler_init] sets up before it creates the idle task. *)
Lemma empty_wf s :
  len (tasks s) = MAX_TASKS -> task_count s = 0 -> current_task s = None -> next_pid s = 1 ->
  (forall i, 0 <= i < MAX_TASKS -> state (task_at s i) = TASK_UNUSED) -> sched_wf s.
Proof.
  intros Hl Hc Hcur Hn Hst.
  assert (Hd : forall i, 0 <= i < MAX_TASKS -> live (task_at s i) <> true).
  { intros i Hi. rewrite live_spec, Hst by done. tauto. }
  split; try done; rewrite ?Hc, ?Hcur, ?Hn; try done.
  - intros i j Hi _ Li. by destruct (Hd i Hi).
  - intros i Hi Li. by destruct (Hd i Hi).
  - intros i Hi. rewrite Hst by done. done.
  - intros i Hi Li. by destruct (Hd i Hi).
Qed.

Lemma init_booted ts stacks_raw user_raw idle s0 :
  length ts = 16%nat -> next_pid s0 = 1 ->
  exists s1, scheduler_init ts stacks_raw user_raw idle s0 = Some s1 /\ booted s1.
Proof.
  intros Hl Hn. unfold scheduler_init.
  match goal with |- context [scheduler_create_task idle ?t] => set (s := t) end.
  assert (Hw : sched_wf s).
  { apply empty_wf; try done.
    - unfold len, s. cbn [tasks set_field]. by rewrite length_map, Hl.
    - intros i Hi. unfold task_at, arr_get, s. cbn [tasks set_field].
      rewrite list_lookup_total_alt, list_lookup_fmap.
      destruct (ts !! Z.to_nat i) as [t|] eqn:Et; [done|].
      apply lookup_ge_None in Et. unfold MAX_TASKS in Hi. lia. }
  destruct (create_facts idle false s Hw eq_refl) as (r & s' & Hs & Hw' & Hi' & Hc' & _ & Hcase).
  unfold scheduler_create_task. rewrite Hs.
  destruct Hcase as [[_ Hfull]|(slot & Hslot & _ & _ & Hr & _ & _ & Hz)]; [done|].
  destruct (Hz eq_refl) as (Hp & Hcnt & ->). rewrite Hp in Hr. change (s32 1) with 1 in Hr. subst r.
  cbn [Z.leb Z.compare Z.sub Z.add Z.opp Pos.compare]. change (1 - 1) with 0. eexists. split; [reflexivity|].
  split_and!; [|change (0 < task_count s'); lia|done].
  apply (wf_evol (s' <| idle_task_index := 0 |>)).
  - destruct Hw' as [w1 w2 w3 w4 w5 w6 w7 w8 w9 w10].
    split; [exact w1|exact w2|exact w3|exact w4|exact w5|exact w6|exact w7|exact w8|exact w9|exact w10].
  - apply evol_set_task; [lia|by apply evol_keep].
Qed.

(** [generate_pid] terminates, within 17 candidates, and returns a nonzero
    pid that no live task has. *)
Theorem generate_pid_fresh s :
  sched_wf s ->
  exists p, generate_pid s = Some (p, s <| next_pid := u32 (p + 1) |>) /\ 0 < p < 4294967296 /\
    forall i, 0 <= i < MAX_TASKS -> live (task_at s i) = true -> pid (task_at s i) <> p.
Proof.
  intros Hw. destruct (wf_next s Hw) as [Hn _]. pose proof (wf_count s Hw) as Hc.
  destruct (generate_pid_facts s) as (p & Hg & Hp & Hu & _); [exact (proj2 Hc)|done|].
  exists p. split_and!; try done; try lia. intros i Hi HL.
  pose proof (live_active s i Hw Hi HL). apply pid_in_use_false; try done; [|lia].
  rewrite (wf_len s Hw). lia.
Qed.

(** C8: every state the scheduler reaches after [scheduler_init] is well formed:
    pids of live tasks are distinct, positive and 32-bit; no task is its own
    parent; the idle task keeps slot 0 and pid 1; the current task is live;
    nothing but the current task is RUNNING; SIGKILL and SIGSTOP are never
    blocked; slots beyond [task_count] are unused. *)
Theorem sched_reachable_wf ts stacks_raw user_raw idle s0 :
  length ts = 16%nat -> next_pid s0 = 1 ->
  exists s1, scheduler_init ts stacks_raw user_raw idle s0 = Some s1 /\
    forall s, rtc sched_step s1 s -> sched_wf s /\ 0 < task_count s /\ idle_task_index s = 0.
Proof.
  intros Hl Hn. destruct (init_booted ts stacks_raw user_raw idle s0 Hl Hn) as (s1 & Hs1 & Hb).
  exists s1. split; [exact Hs1|]. clear Hs1. intros s Hrtc. change (booted s).
  induction Hrtc as [s|s s' s'' Hst _ IH]; [exact Hb|]. apply IH.
  eapply booted_step; [exact Hb|exact Hst].
Qed.

End Reach.
