(* ===== verification/SchedTick.v ===== *)
(** The tick as a scheduler: round-robin order and bounded waiting.

    The theorems here are about ticks with no signal pending (delivery has its
    own theorems) and follow one task [j] that stays ready. *)

From S2P Require Import Prelude Mem Task Sched SchedProps.

Section Fair.
Context {E : Type} `{KernelEnv E}.
Implicit Types s : sched E.

Definition no_pending s : Prop :=
  forall i, 0 <= i < MAX_TASKS -> pending_signals (task_at s i) = 0.

(** How many candidates the search looks at before [j], from [index]. *)
Definition distance s (index j : Z) : Z := (j - index - 1) mod task_count s.

Definition eligible s (i : Z) : bool :=
  negb (i =? idle_task_index s) && runnable (task_at s i).

Lemma prepare_quiet i s : pending_signals (task_at s i) = 0 -> prepare_candidate i s = Some (true, s).
Proof.
  intros Hp. unfold prepare_candidate. rewrite Hp. change (negb (0 =? 0)) with false.
  by rewrite andb_false_r.
Qed.

(** Moving the search one candidate on. *)
Lemma distance_step s index j :
  0 < task_count s -> 0 <= j < task_count s ->
  (index + 1) mod task_count s <> j ->
  distance s ((index + 1) mod task_count s) j = distance s index j - 1.
Proof.
  intros Hpos Hj Hne. unfold distance. set (n := task_count s) in *.
  pose proof (Z.mod_pos_bound (j - index - 1) n Hpos) as Hb.
  assert (Hnz : (j - index - 1) mod n <> 0).
  { intros E0. apply Hne. apply Z.mod_divide in E0 as [q Eq]; [|lia].
    replace (index + 1) with (j + (- q) * n) by lia. rewrite Z.mod_add by lia. apply Z.mod_small. lia. }
  symmetry. apply (Z.mod_unique_pos _ _ ((index + 1) / n + (j - index - 1) / n)); [lia|].
  rewrite (Z.mod_eq (index + 1)), (Z.mod_eq (j - index - 1)) by lia. lia.
Qed.

(** The search picks the first eligible task in cyclic order. *)
Lemma tick_loop_first n index s j :
  sched_wf s -> no_pending s -> 0 <= j < task_count s -> eligible s j = true ->
  distance s index j < Z.of_nat n ->
  exists k, 0 <= k <= distance s index j /\
    tick_loop n index s = Some (true, switch_to_task ((index + 1 + k) mod task_count s) s) /\
    eligible s ((index + 1 + k) mod task_count s) = true /\
    forall m, 0 <= m < k -> eligible s ((index + 1 + m) mod task_count s) = false.
Proof.
  intros Hw Hq Hj He. pose proof (wf_count s Hw) as Hc. assert (Hpos : 0 < task_count s) by lia.
  revert index. induction n as [|n IH]; intros index Hd.
  { pose proof (Z.mod_pos_bound (j - index - 1) (task_count s) Hpos). unfold distance in Hd. lia. }
  cbn [tick_loop]. set (i := (index + 1) mod task_count s).
  assert (Hi : 0 <= i < task_count s) by by apply Z.mod_pos_bound.
  assert (Hmodi : forall m, (i + 1 + m) mod task_count s = (index + 1 + (m + 1)) mod task_count s).
  { intros m. unfold i. rewrite <- Z.add_assoc, Z.add_mod_idemp_l by lia. f_equal. lia. }
  destruct (eligible s i) eqn:Hei.
  - exists 0. rewrite Z.add_0_r. fold i. unfold eligible in Hei. apply andb_prop in Hei as [H1 H2].
    apply negb_true_iff in H1. rewrite H1, H2. cbn [orb negb].
    rewrite prepare_quiet by (apply Hq; lia). split_and!; try done; try lia.
    + apply Z.mod_pos_bound. lia.
    + unfold eligible. by rewrite H1, H2.
  - pose proof (distance_step s index j Hpos Hj) as Hdi. fold i in Hdi.
    assert (Hij : i <> j) by congruence.
    destruct (IH i ltac:(lia)) as (k & Hk & Hl & Hek & Hbefore). exists (k + 1).
    rewrite Hmodi in Hl, Hek.
    unfold eligible in Hei. rewrite andb_false_iff, negb_false_iff in Hei.
    replace ((i =? idle_task_index s) || negb (runnable (task_at s i))) with true
      by (destruct Hei as [->| ->]; [done|by rewrite orb_true_r]).
    split_and!; try done; try lia. intros m Hm. destruct (Z.eq_dec m 0) as [->|].
    + rewrite Z.add_0_r. fold i. unfold eligible. rewrite andb_false_iff, negb_false_iff. done.
    + replace m with (m - 1 + 1) by lia. rewrite <- Hmodi. apply Hbefore. lia.
Qed.

(** * From the tick to the search *)

(** The steps of the tick before the search: counting, waking readers of the
    keyboard, locking, saving the interrupted task. *)
Definition before_search r s : option (sched E) :=
  let t := s <| kernel_ticks := u64 (kernel_ticks s + 1) |> in
  let* t := if k_serial_received (env t) then scheduler_wake_stdin_readers t else Some t in
  let* t := spin_lock_irqsave t in Some (save_current r t).

(** They keep every ready task ready and make no signal pending. *)
Lemma before_search_quiet r s :
  sched_wf s -> task_table_lock s = false -> no_pending s ->
  exists s1, before_search r s = Some s1 /\ sched_evol s s1 /\ none_running s1 /\ no_pending s1 /\
    forall i, 0 <= i < MAX_TASKS -> runnable (task_at s i) = true -> runnable (task_at s1 i) = true.
Proof.
  intros Hw Hlk Hq. unfold before_search, scheduler_wake_stdin_readers, wake_tasks, spin_lock_irqsave.
  pose proof (wf_len s Hw) as Hlen. pose proof (wf_count s Hw) as Hc.
  set (s1 := s <| kernel_ticks := _ |>).
  change (task_table_lock s1) with (task_table_lock s). rewrite Hlk.
  set (s2 := if k_serial_received (env s1)
    then spin_unlock_irqrestore (map_active (wake_if waits_stdin) (s1 <| task_table_lock := true |>)) else s1).
  assert (Hs2 : (if k_serial_received (env s1)
    then Some (spin_unlock_irqrestore (map_active (wake_if waits_stdin) (s1 <| task_table_lock := true |>)))
    else Some s1) = Some s2) by (unfold s2; by destruct (k_serial_received _)).
  rewrite Hs2. assert (Hl2 : task_table_lock s2 = false) by (unfold s2; by destruct (k_serial_received _)).
  rewrite Hl2. set (s3 := s2 <| task_table_lock := true |>).
  assert (Hev : sched_evol s s3).
  { apply (evol_then_same _ s2); try done. unfold s2. destruct (k_serial_received _); [|by apply evol_same].
    apply evol_unlock, evol_then_map; [by apply evol_same|lia|].
    apply evol_wake_if. intros t. apply waits_stdin_live. }
  assert (Htask : forall i, 0 <= i < MAX_TASKS ->
    task_at s3 i = task_at s i \/ task_at s3 i = wake_if waits_stdin (task_at s i)).
  { intros i Hi. change (task_at s3 i) with (task_at s2 i). unfold s2. destruct (k_serial_received _); [|by left].
    change (task_at s i) with (task_at (s1 <| task_table_lock := true |>) i).
    match goal with |- context [spin_unlock_irqrestore ?x] =>
      change (task_at (spin_unlock_irqrestore x) i) with (task_at x i) end.
    rewrite task_at_map_active by (cbn; lia). bcase; [by right|by left]. }
  clearbody s2. clear Hs2 Hl2. pose proof (wf_evol _ _ Hw Hev) as Hw3.
  destruct (save_current_evol r s3 Hw3) as [Hev4 Hn4].
  eexists. split; [reflexivity|]. split; [by etransitivity|]. split; [done|].
  assert (Hsave : forall i, 0 <= i < MAX_TASKS ->
    pending_signals (task_at (save_current r s3) i) = pending_signals (task_at s3 i) /\
    (runnable (task_at s3 i) = true -> runnable (task_at (save_current r s3) i) = true)).
  { intros i Hi. unfold save_current. destruct (current_task s3) as [c|] eqn:Ec; [|done].
    destruct (wf_current s3 Hw3 c Ec) as [Hcc _].
    rewrite task_at_set by (rewrite ?(wf_len s3 Hw3); lia). bcase; [subst i|done]. by case_match. }
  split.
  - intros i Hi. destruct (Hsave i Hi) as [-> _].
    destruct (Htask i Hi) as [->| ->]; [by apply Hq|]. unfold wake_if. case_match; by apply Hq.
  - intros i Hi Hr. apply Hsave; [done|]. destruct (Htask i Hi) as [->| ->]; [done|].
    unfold wake_if. by case_match.
Qed.

Lemma scheduler_tick_unfold r s s1 :
  before_search r s = Some s1 -> 0 < task_count s1 ->
  scheduler_tick r s =
    let* (found, t) := tick_loop (Z.to_nat (task_count s1)) (current_task_index s1) s1 in
    if found then Some (rsp (scheduler_current_task t), spin_unlock_irqrestore t)
    else Some (tick_idle r t).
Proof.
  unfold before_search, scheduler_tick. intros Hb Hpos. bind_in Hb. bind_in Hb. injection Hb as <-.
  assert (Hc : task_count (save_current r s2) = task_count s2)
    by (unfold save_current; by destruct (current_task s2)).
  rewrite Hc in Hpos. by rewrite (proj2 (Z.eqb_neq (task_count s2) 0)) by lia.
Qed.

Lemma switch_keeps i j s :
  0 <= i -> 0 <= j < len (tasks s) -> runnable (task_at s j) = true ->
  runnable (task_at (switch_to_task i s) j) = true /\
  pending_signals (task_at (switch_to_task i s) j) = pending_signals (task_at s j).
Proof.
  intros Hi Hj Hr. unfold switch_to_task.
  match goal with |- context [upd_env ?f ?x] => change (task_at (upd_env f x) j) with (task_at x j) end.
  rewrite task_at_set by (cbn; lia). bcase; [subst|done]. done.
Qed.

(** One quiet tick: the running task is now the first eligible one after the
    previous one, and a ready task [j] either runs or has come nearer. *)
Lemma tick_quiet r s j :
  booted s -> task_table_lock s = false -> no_pending s ->
  0 < j < task_count s -> runnable (task_at s j) = true ->
  exists r' s', scheduler_tick r s = Some (r', s') /\
    booted s' /\ task_table_lock s' = false /\ no_pending s' /\ task_count s' = task_count s /\
    runnable (task_at s' j) = true /\
    (current_task s' = Some j \/
     distance s' (current_task_index s') j < distance s (current_task_index s) j).
Proof.
  intros (Hw & Hpos & Hidle) Hlk Hq Hj Hr. pose proof (wf_count s Hw) as Hc.
  destruct (before_search_quiet r s Hw Hlk Hq) as (s1 & Hb & Hev & Hn1 & Hq1 & Hr1).
  pose proof (wf_evol _ _ Hw Hev) as Hw1. pose proof (wf_len s1 Hw1) as Hlen1.
  pose proof (sev_count _ _ Hev) as Ec. pose proof (sev_index _ _ Hev) as Ei.
  pose proof (sev_idle _ _ Hev) as Eid.
  assert (Hej : eligible s1 j = true).
  { unfold eligible. rewrite Eid, Hidle, (proj2 (Z.eqb_neq j 0)), Hr1 by (done || lia). done. }
  rewrite (scheduler_tick_unfold _ _ _ Hb) by lia.
  destruct (tick_loop_first (Z.to_nat (task_count s1)) (current_task_index s1) s1 j)
    as (k & Hk & Hl & He & _); try done; [lia| |].
  { unfold distance. pose proof (Z.mod_pos_bound (j - current_task_index s1 - 1) (task_count s1)). lia. }
  rewrite Hl. set (i := (current_task_index s1 + 1 + k) mod task_count s1) in *.
  assert (Hi : 0 <= i < task_count s1) by (apply Z.mod_pos_bound; lia).
  assert (Hlive : live (task_at s1 i) = true).
  { apply andb_prop in He as [_ He]. by apply runnable_live. }
  eexists _, _. split; [reflexivity|]. set (s2 := switch_to_task i s1).
  assert (Hw2 : sched_wf s2) by by apply switch_to_task_wf.
  split; [split_and!|split_and!]; try done.
  - eapply wf_evol; [exact Hw2|]. apply evol_unlock. reflexivity.
  - change (0 < task_count s1). lia.
  - change (idle_task_index s1 = 0). congruence.
  - intros m Hm. change (task_at (spin_unlock_irqrestore s2) m) with (task_at s2 m).
    unfold s2, switch_to_task.
    match goal with |- context [upd_env ?f ?x] => change (task_at (upd_env f x) m) with (task_at x m) end.
    rewrite task_at_set by (cbn; lia). bcase; [subst; apply (Hq1 i); lia|by apply Hq1].
  - apply (switch_keeps i j s1); [lia|lia|]. apply Hr1; [lia|done].
  - change (Some i = Some j \/ (j - i - 1) mod task_count s1 < distance s (current_task_index s) j).
    assert (Ed : distance s (current_task_index s) j = distance s1 (current_task_index s1) j)
      by (unfold distance; by rewrite Ec, Ei).
    rewrite Ed. destruct (Z.eq_dec k (distance s1 (current_task_index s1) j)) as [->|Hne].
    + left. f_equal. unfold i, distance. set (n := task_count s1) in *.
      rewrite Z.add_mod_idemp_r by lia.
      replace (current_task_index s1 + 1 + (j - current_task_index s1 - 1)) with j by lia.
      apply Z.mod_small. lia.
    + right. unfold distance in *. set (n := task_count s1) in *.
      set (d := (j - current_task_index s1 - 1) mod n) in *.
      assert (Hd : d < n) by (apply Z.mod_pos_bound; lia).
      replace ((j - i - 1) mod n) with (d - (k + 1)); [lia|]. unfold i.
      replace (j - (current_task_index s1 + 1 + k) mod n - 1)
        with (j - 1 - (current_task_index s1 + 1 + k) mod n) by lia.
      rewrite Zminus_mod_idemp_r. rewrite <- (Z.mod_small (d - (k + 1)) n) by lia.
      unfold d. rewrite Zminus_mod_idemp_l. f_equal. lia.
Qed.

(** The ticks at the stack pointers [rs]. *)
Fixpoint run_ticks (rs : list Z) (t : sched E) : option (sched E) :=
  match rs with
  | [] => Some t
  | r :: rs' => let* (_, t) := scheduler_tick r t in run_ticks rs' t
  end.

(** C22: no starvation.  A task that is ready is running after at most
    [task_count] ticks, whatever the other tasks are, as long as no signal is
    pending: each tick either runs it or brings the round robin nearer to it.  The
    ticks follow each other, with no other call of the scheduler in between. *)
Theorem scheduler_tick_fair s j rs :
  booted s -> task_table_lock s = false -> no_pending s ->
  0 < j < task_count s -> runnable (task_at s j) = true ->
  Z.of_nat (length rs) = task_count s ->
  exists k s', (k <= length rs)%nat /\ run_ticks (take k rs) s = Some s' /\ current_task s' = Some j.
Proof.
  intros Hb Hlk Hq Hj Hr Hlen.
  assert (Hd : distance s (current_task_index s) j < Z.of_nat (length rs)).
  { rewrite Hlen. apply Z.mod_pos_bound. lia. }
  clear Hlen. revert s Hb Hlk Hq Hj Hr Hd. induction rs as [|r rs IH]; intros s Hb Hlk Hq Hj Hr Hd.
  { pose proof (Z.mod_pos_bound (j - current_task_index s - 1) (task_count s) ltac:(lia)).
    unfold distance in Hd. cbn in Hd. lia. }
  destruct (tick_quiet r s j Hb Hlk Hq Hj Hr) as (r' & s1 & Ht & Hb1 & Hlk1 & Hq1 & Hc1 & Hr1 & Hcase).
  destruct Hcase as [Hcur|Hdec].
  - exists 1%nat, s1. cbn [take run_ticks]. rewrite Ht, take_0. split_and!; [cbn; lia|done|done].
  - destruct (IH s1 Hb1 Hlk1 Hq1 ltac:(lia) Hr1) as (k & s2 & Hk & Hrun & Hcur); [cbn in Hd; lia|].
    exists (S k), s2. cbn [take run_ticks length]. rewrite Ht. split_and!; [lia|done|done].
Qed.

End Fair.
