(* ===== verification/SchedLife.v ===== *)
(** The life of a process: termination, waiting and signal delivery.

    [exit_wakes] are the pipe wake-ups that closing the descriptors of a task asks for.
    [terminate_facts] gives the effect of termination on every task when there are none;
    the theorems on [waitpid] and on SIGKILL use it.  When there are some, termination
    never returns: [exit_with_pipe_deadlocks]. *)

From S2P Require Import Prelude Mem Task Sched SchedProps.

Section Life.
Context {E : Type} `{KernelEnv E}.
Implicit Types s : sched E.

(** The wake-ups that closing the descriptors [fds] of process [p] asks for, one after
    the other. *)
Fixpoint close_wakes (p : Z) (fds : list Z) (e : E) : list pipe_wake :=
  match fds with
  | [] => []
  | d :: fds =>
      if d =? 0 then close_wakes p fds e
      else let '(ws, e) := k_fd_close d p e in ws ++ close_wakes p fds e
  end.
(** Those of the exit of task [i], which leaves its address space first. *)
Definition exit_wakes (i : Z) s : list pipe_wake :=
  let t := task_at s i in
  close_wakes (pid t) (file_descriptors t)
    (if negb (cr3 t =? k_kernel_pml4) then k_switch_address_space k_kernel_pml4 (env s) else env s).

Lemma fds_from (l : list Z) k : 0 <= k < len l -> drop (Z.to_nat k) l = arr_get l k :: drop (Z.to_nat (k + 1)) l.
Proof.
  intros Hk. unfold len in Hk. replace (Z.to_nat (k + 1)) with (S (Z.to_nat k)) by lia. unfold arr_get. apply drop_S.
  apply list_lookup_lookup_total_lt. lia.
Qed.
Lemma fds_after (l : list Z) k v : 0 <= k -> drop (Z.to_nat (k + 1)) (arr_set l k v) = drop (Z.to_nat (k + 1)) l.
Proof. intros Hk. unfold arr_set. apply drop_insert_lt. lia. Qed.

(** The fields of the state that termination leaves alone. *)
Definition same_globals s s' : Prop :=
  length (tasks s') = length (tasks s) /\ task_count s' = task_count s /\
  current_task s' = current_task s /\ task_table_lock s' = task_table_lock s.

Lemma same_globals_refl s : same_globals s s.
Proof. done. Qed.

Lemma same_globals_trans s s1 s2 : same_globals s s1 -> same_globals s1 s2 -> same_globals s s2.
Proof. unfold same_globals. intuition congruence. Qed.

(** Closing quiet descriptors only empties slots of [file_descriptors]. *)
Lemma close_fds_quiet n i k s :
  0 <= i < len (tasks s) -> 0 <= k -> k + Z.of_nat n = TASK_MAX_FDS ->
  len (file_descriptors (task_at s i)) = TASK_MAX_FDS ->
  close_wakes (pid (task_at s i)) (drop (Z.to_nat k) (file_descriptors (task_at s i))) (env s) = [] ->
  exists s', close_fds n i k s = Some s' /\ same_globals s s' /\
    (forall j, 0 <= j < len (tasks s) -> j <> i -> task_at s' j = task_at s j) /\
    exists fds, task_at s' i = task_at s i <| file_descriptors := fds |> /\
      len fds = TASK_MAX_FDS /\
      (forall m, 0 <= m < k -> arr_get fds m = arr_get (file_descriptors (task_at s i)) m) /\
      (forall m, k <= m < TASK_MAX_FDS -> arr_get fds m = 0).
Proof.
  revert k s. induction n as [|n IH]; intros k s Hi Hk Hn Hlen Hq; cbn [close_fds].
  { exists s. split; [done|]. split; [done|]. split; [done|].
    exists (file_descriptors (task_at s i)). split_and!; [by destruct (task_at s i)|done|done|lia]. }
  unfold close_fd at 1. set (t := task_at s i) in *. set (fd := arr_get (file_descriptors t) k).
  assert (Hkn : 0 <= k < TASK_MAX_FDS) by lia.
  rewrite fds_from in Hq by (fold t in Hlen; lia). cbn [close_wakes] in Hq. fold fd in Hq.
  destruct (Z.eqb_spec fd 0) as [E0|Hfd].
  - destruct (IH (k + 1) s Hi ltac:(lia) ltac:(lia) Hlen Hq) as (s' & Hs & Hg & Hoth & fds & Ht & Hl & H1 & H2).
    exists s'. split_and!; try done. exists fds. split_and!; try done.
    + intros m Hm. apply H1. lia.
    + intros m Hm. destruct (Z.eq_dec m k) as [->|]; [|apply H2; lia]. rewrite H1 by lia. done.
  - set (t1 := t <| file_descriptors := arr_set (file_descriptors t) k 0 |>).
    change (env (set_task i t1 s)) with (env s).
    destruct (k_fd_close fd (pid t) (env s)) as [ws e].
    apply app_eq_nil in Hq as [-> Hq]. cbn [run_wakes].
    set (s1 := set_task i t1 s <| env := e |>).
    assert (Hl1 : len (tasks s1) = len (tasks s)) by apply len_arr_set.
    assert (Ht1 : task_at s1 i = t1).
    { change (task_at s1 i) with (task_at (set_task i t1 s) i). rewrite task_at_set by lia.
      by rewrite Z.eqb_refl. }
    assert (Hoth1 : forall j, 0 <= j < len (tasks s) -> j <> i -> task_at s1 j = task_at s j).
    { intros j Hj Hne. change (task_at s1 j) with (task_at (set_task i t1 s) j).
      rewrite task_at_set by lia. bcase; [lia|done]. }
    assert (Hget : forall m, 0 <= m < TASK_MAX_FDS ->
      arr_get (file_descriptors t1) m = if m =? k then 0 else arr_get (file_descriptors t) m).
    { intros m Hm. change (file_descriptors t1) with (arr_set (file_descriptors t) k 0).
      bcase; [subst; apply arr_get_set_eq|apply arr_get_set_ne]; lia. }
    destruct (IH (k + 1) s1) as (s' & Hs & Hg & Hoth & fds & Ht & Hl & H1 & H2); try lia.
    { rewrite Ht1. etrans; [apply len_arr_set|done]. }
    { rewrite Ht1. change (file_descriptors t1) with (arr_set (file_descriptors t) k 0). by rewrite fds_after by lia. }
    exists s'. split; [done|]. split.
    { eapply same_globals_trans, Hg. split_and!; try done. apply length_insert. }
    split.
    { intros j Hj Hne. rewrite Hoth by (lia || done). by apply Hoth1. }
    exists fds. rewrite Ht, Ht1. rewrite Ht1 in H1. split_and!; try done.
    + intros m Hm. rewrite H1, Hget by lia. bcase; [lia|done].
    + intros m Hm. destruct (Z.eq_dec m k) as [->|]; [|apply H2; lia].
      rewrite H1, Hget, Z.eqb_refl by lia. done.
Qed.

Lemma fd_update_id t : t <| file_descriptors := file_descriptors t |> = t.
Proof. by destruct t. Qed.

(** What termination of [i] does to task [j], pending signals apart: [i] itself
    becomes a zombie without resources, its children go to pid 1, tasks waiting
    for it are woken. *)
Definition after_exit (i status : Z) s (j : Z) : task :=
  let t := task_at s i in
  wake_if (waits_child (pid t)) (reparent (pid t)
    (if j =? i
     then t <| exit_status := status |> <| state := TASK_ZOMBIE |> <| wait_reason := TASK_WAIT_NONE |>
            <| wait_target := 0 |> <| pending_signals := 0 |> <| active_signal := 0 |>
            <| file_descriptors := replicate 32 0 |> <| cr3 := k_kernel_pml4 |> <| user_page_count := 0 |>
     else task_at s j)).

Lemma arr_ext_replicate (l : list Z) n v :
  len l = n -> (forall m, 0 <= m < n -> arr_get l m = v) -> l = replicate (Z.to_nat n) v.
Proof.
  intros Hl Hm. apply list_eq_same_length with (n := Z.to_nat n);
    [by rewrite length_replicate|unfold len in Hl; lia|].
  intros k x y Hk Hx Hy. apply lookup_replicate in Hy as [-> _].
  specialize (Hm (Z.of_nat k) ltac:(lia)). unfold arr_get in Hm. rewrite Nat2Z.id in Hm.
  rewrite list_lookup_total_alt, Hx in Hm. done.
Qed.

Lemma notify_parent_tasks p s j :
  0 <= j < len (tasks s) ->
  exists pend, task_at (notify_parent p s) j = task_at s j <| pending_signals := pend |>.
Proof.
  intros Hj. assert (Hid : forall t, t = t <| pending_signals := pending_signals t |>) by by intros [].
  unfold notify_parent. destruct (p =? 0); [by eauto|].
  destruct (find_pid p s) as [k|] eqn:Ek; [|by eauto]. destruct (catches _ _); [|by eauto].
  apply find_index_some in Ek as (Hk & _). rewrite task_at_set by lia. bcase; [subst|]; by eauto.
Qed.

Lemma notify_parent_globals p s : same_globals s (notify_parent p s).
Proof.
  unfold notify_parent. destruct (p =? 0); [done|]. destruct (find_pid p s); [|done].
  destruct (catches _ _); [|done]. split_and!; try done. apply length_insert.
Qed.

Lemma map_active_globals f s : same_globals s (map_active f s).
Proof. split_and!; try done. apply len_map_active. Qed.

Lemma upd_env_if (b : bool) f s :
  tasks (if b then upd_env f s else s) = tasks s /\ same_globals s (if b then upd_env f s else s).
Proof. by destruct b. Qed.

Lemma terminate_facts i status s :
  0 <= i < task_count s -> task_count s <= len (tasks s) ->
  finished (task_at s i) = false ->
  len (file_descriptors (task_at s i)) = TASK_MAX_FDS -> exit_wakes i s = [] ->
  exists s', scheduler_terminate_task_unlocked i status s = Some s' /\ same_globals s s' /\
    forall j, 0 <= j < task_count s ->
      exists pend, task_at s' j = after_exit i status s j <| pending_signals := pend |>.
Proof.
  intros Hi Hcl Hfin Hfl Hq. unfold scheduler_terminate_task_unlocked. rewrite Hfin.
  set (t := task_at s i) in *. set (restore := match current_task s with Some _ => _ | None => 0 end).
  set (s0 := if negb (cr3 t =? k_kernel_pml4) then _ else s).
  destruct (upd_env_if (negb (cr3 t =? k_kernel_pml4)) (k_switch_address_space k_kernel_pml4) s)
    as (Et0 & _ & Ec0 & Ecur0 & El0). fold s0 in Et0, Ec0, Ecur0, El0.
  set (z := t <| exit_status := status |> <| state := TASK_ZOMBIE |> <| wait_reason := TASK_WAIT_NONE |>
              <| wait_target := 0 |> <| pending_signals := 0 |> <| active_signal := 0 |>).
  set (s1 := set_task i z s0).
  assert (Hl1 : len (tasks s1) = len (tasks s)) by (etrans; [apply len_arr_set|]; by rewrite Et0).
  assert (Hat1 : forall j, 0 <= j < len (tasks s) -> task_at s1 j = if j =? i then z else task_at s j).
  { intros j Hj. unfold s1. rewrite task_at_set by (rewrite ?Et0; lia).
    bcase; [done|]. unfold task_at. by rewrite Et0. }
  assert (Hz1 : task_at s1 i = z) by (rewrite Hat1 by lia; by rewrite Z.eqb_refl).
  destruct (close_fds_quiet (Z.to_nat TASK_MAX_FDS) i 0 s1) as (s2 & Hs2 & Hg2 & Hoth2 & fds & Ht2 & Hfl2 & _ & Hf2);
    [lia|lia|done|by rewrite Hz1|rewrite Hz1; etrans; [|exact Hq]; unfold exit_wakes; fold t; cbn; unfold s1, s0; by destruct (negb _)|].
  unfold task_close_all_fds. rewrite Hs2. eexists. split; [reflexivity|].
  assert (fds = replicate 32 0) as -> by (apply (arr_ext_replicate fds 32); [done|exact Hf2]).
  destruct Hg2 as (Eg1 & Eg2 & Eg3 & Eg4).
  set (s3 := upd_env (k_destroy_address_space (cr3 t)) s2).
  set (s4 := set_task i _ s3).
  assert (Hl2 : len (tasks s2) = len (tasks s)) by (rewrite <- Hl1; unfold len; by rewrite Eg1).
  assert (Hc2 : task_count s2 = task_count s) by (rewrite Eg2; exact Ec0).
  assert (Hat4 : forall j, 0 <= j < len (tasks s) -> task_at s4 j =
    if j =? i then z <| file_descriptors := replicate 32 0 |> <| cr3 := k_kernel_pml4 |> <| user_page_count := 0 |>
    else task_at s j).
  { intros j Hj. unfold s4. rewrite task_at_set by (change (tasks s3) with (tasks s2); lia).
    change (task_at s3 i) with (task_at s2 i). rewrite Ht2, Hz1.
    bcase; [reflexivity|].
    change (task_at s3 j) with (task_at s2 j). rewrite Hoth2 by lia. rewrite Hat1 by lia.
    bcase; [lia|done]. }
  assert (Hl4 : len (tasks s4) = len (tasks s)) by (etrans; [apply len_arr_set|exact Hl2]).
  set (s5 := wake_parent_waiters (pid t) (map_active (reparent (pid t)) s4)).
  set (s6 := if negb (restore =? 0) then _ else s5).
  assert (H6 : tasks s6 = tasks s5 /\ same_globals s5 s6) by apply upd_env_if.
  destruct H6 as [Et6 Hg6].
  assert (Hg45 : same_globals s4 s5) by (eapply same_globals_trans; apply map_active_globals).
  assert (Hg4 : same_globals s s4).
  { split_and!; [unfold len in Hl4; lia|exact Hc2|etrans; [exact Eg3|exact Ecur0]|etrans; [exact Eg4|exact El0]]. }
  assert (Hl5 : len (tasks s5) = len (tasks s)) by (destruct Hg45 as [E5 _]; unfold len in *; lia).
  split.
  { eapply same_globals_trans; [exact Hg4|]. eapply same_globals_trans; [exact Hg45|].
    eapply same_globals_trans; [exact Hg6|apply notify_parent_globals]. }
  intros j Hj. destruct (notify_parent_tasks (parent_pid t) s6 j) as (pend & ->).
  { rewrite Et6. lia. }
  exists pend. f_equal. unfold after_exit. fold t.
  assert (Et65 : task_at s6 j = task_at s5 j) by (unfold task_at; by rewrite Et6).
  rewrite Et65. unfold s5, wake_parent_waiters. change (task_count s4) with (task_count s2).
  assert (Hc4 : task_count s4 = task_count s) by exact Hc2.
  rewrite task_at_map_active; [|unfold len in *; rewrite len_map_active; lia|cbn; lia].
  change (task_count (map_active (reparent (pid t)) s4)) with (task_count s4). rewrite Hc4.
  rewrite task_at_map_active by lia. rewrite Hc4, (proj2 (Z.ltb_lt j (task_count s))) by lia.
  f_equal. f_equal. apply Hat4. lia.
Qed.

(** Termination keeps pids and liveness. *)
Lemma after_exit_evol i status s j :
  pid (task_at s i) <> 0 -> finished (task_at s i) = false ->
  task_evol (task_at s j) (after_exit i status s j).
Proof.
  intros Hp Hf. unfold after_exit.
  etransitivity; [|apply evol_wake_if; intros t; apply waits_child_live].
  etransitivity; [|apply evol_reparent, Hp].
  destruct (Z.eqb_spec j i) as [->|]; [|reflexivity]. apply evol_move; try reflexivity; try done.
  by apply finished_live.
Qed.

(** The exiting task itself. *)
Lemma after_exit_self i status s :
  parent_pid (task_at s i) <> pid (task_at s i) ->
  state (after_exit i status s i) = TASK_ZOMBIE /\ exit_status (after_exit i status s i) = status /\
  pid (after_exit i status s i) = pid (task_at s i) /\
  parent_pid (after_exit i status s i) = parent_pid (task_at s i).
Proof.
  intros Hpp. unfold after_exit, reparent, wake_if. rewrite Z.eqb_refl.
  set (z := _ <| user_page_count := 0 |>).
  change (parent_pid z) with (parent_pid (task_at s i)).
  rewrite (proj2 (Z.eqb_neq _ _) Hpp), andb_false_r. done.
Qed.

(** A task that waits for [i] is woken by its exit. *)
Lemma after_exit_waiter i status s j :
  j <> i -> waits_child (pid (task_at s i)) (task_at s j) = true ->
  state (after_exit i status s j) = TASK_READY.
Proof.
  intros Hne Hwait. unfold after_exit, wake_if. rewrite (proj2 (Z.eqb_neq j i)) by done.
  replace (waits_child _ (reparent _ _)) with (waits_child (pid (task_at s i)) (task_at s j)).
  - by rewrite Hwait.
  - unfold reparent. by destruct (_ && _).
Qed.

Lemma terminate_task_facts i status s :
  0 <= i < task_count s -> task_count s <= len (tasks s) -> task_table_lock s = false ->
  finished (task_at s i) = false ->
  len (file_descriptors (task_at s i)) = TASK_MAX_FDS -> exit_wakes i s = [] ->
  exists s', scheduler_terminate_task (Some i) status s = Some s' /\ same_globals s s' /\
    forall j, 0 <= j < task_count s ->
      exists pend, task_at s' j = after_exit i status s j <| pending_signals := pend |>.
Proof.
  intros Hi Hc Hlk Hfin Hfl Hq. unfold scheduler_terminate_task, spin_lock_irqsave. rewrite Hfin, Hlk.
  set (s0 := s <| task_table_lock := true |>). change (task_at s0 i) with (task_at s i). rewrite Hfin.
  destruct (terminate_facts i status s0 Hi Hc Hfin Hfl Hq) as (s' & Hs & (E1 & E2 & E3 & _) & Ht).
  rewrite Hs. eexists. split; [reflexivity|]. split; [split_and!; done|]. exact Ht.
Qed.

(** The only matching child of [waitpid(pid)] is the one with that pid. *)
Lemma wait_match_pid s c i j :
  sched_wf s -> 0 <= i < MAX_TASKS -> 0 <= j < MAX_TASKS -> live (task_at s i) = true ->
  0 < pid (task_at s i) < 2147483648 ->
  wait_match c (pid (task_at s i)) (task_at s j) = true -> j = i.
Proof.
  intros Hw Hi Hj HL Hp Hm. unfold wait_match in Hm. rewrite (proj2 (Z.leb_gt _ 0)) in Hm by lia.
  apply andb_prop in Hm as [Hm Hpid%Z.eqb_eq]. apply andb_prop in Hm as [HLj _].
  rewrite u32_id in Hpid by (unfold is_u32; lia). by apply (wf_pids s Hw).
Qed.

(** The state in which a task waits for the child with pid [p]. *)
Definition waiting_for (p : Z) (t : task) : task :=
  t <| state := TASK_WAITING |> <| wait_reason := TASK_WAIT_CHILD |> <| wait_target := p |>.

(** Waiting for a child that still runs blocks. *)
Lemma waitpid_blocks c i s :
  sched_wf s -> current_task s = Some c -> 0 <= i < task_count s ->
  finished (task_at s i) = false -> parent_pid (task_at s i) = pid (task_at s c) ->
  pid (task_at s i) < 2147483648 ->
  waitpid_pass c (pid (task_at s i)) 0 s =
    (WaitYield, set_task c (waiting_for (pid (task_at s i)) (task_at s c)) s).
Proof.
  intros Hw Hcur Hi Hfin Hpar Hp31. set (t := task_at s i) in *. pose proof (wf_count s Hw) as Hcnt.
  pose proof (finished_live _ Hfin) as HLi. destruct (wf_pid s Hw i ltac:(lia) HLi) as [Hpi _]. fold t in Hpi.
  assert (Hmi : wait_match (pid (task_at s c)) (pid t) t = true).
  { unfold wait_match. rewrite HLi, Hpar, Z.eqb_refl, u32_id by (unfold is_u32; lia).
    by rewrite Z.eqb_refl, orb_true_r. }
  pose proof (waitpid_pass_facts c (pid t) 0 s Hw Hcur) as Hpass.
  destruct (waitpid_pass c (pid t) 0 s) as [r s1]. destruct Hpass as (_ & _ & _ & _ & _ & Hr).
  destruct r as [ret [st|]|].
  - destruct Hr as (j & Hj & _ & Hm & Hz & _).
    assert (j = i) as -> by (apply (wait_match_pid s (pid (task_at s c)) i j); fold t; done || lia).
    exfalso. fold t in Hz. unfold finished in Hfin. by rewrite Hz in Hfin.
  - destruct Hr as (_ & Hno & _). by destruct (Hno i Hi Hmi) as (_ & Ho & _).
  - destruct Hr as (_ & _ & ->). by rewrite (proj2 (Z.ltb_lt 0 (pid t))) by lia.
Qed.

(** Waiting for a child that is a zombie returns it, when its pid is unique. *)
Lemma waitpid_reaps c i p s :
  len (active_tasks s) = task_count s -> 0 <= i < task_count s -> 0 < p < 2147483648 ->
  (forall k, 0 <= k < task_count s -> live (task_at s k) = true -> pid (task_at s k) = p -> k = i) ->
  pid (task_at s i) = p -> parent_pid (task_at s i) = pid (task_at s c) ->
  state (task_at s i) = TASK_ZOMBIE ->
  fst (waitpid_pass c p 0 s) = WaitReturn p (Some (exit_status (task_at s i))).
Proof.
  intros Hla Hi Hp Huniq Epid Epar Est. unfold waitpid_pass.
  pose proof (wait_scan_spec (active_tasks s) 0 (pid (task_at s c)) p false) as Hsc. rewrite Hla in Hsc.
  destruct (wait_scan _ _ _ _ _) as [[k|] b].
  - destruct Hsc as (Hk & Hm & _). rewrite Z.sub_0_r, active_at in Hm by lia.
    unfold wait_match in Hm. apply andb_prop in Hm as [Hm Hpk]. apply andb_prop in Hm as [HLk _].
    rewrite (proj2 (Z.leb_gt p 0)), u32_id in Hpk by (unfold is_u32; lia). cbn [orb] in Hpk.
    apply Z.eqb_eq in Hpk. assert (k = i) as -> by (apply Huniq; done || lia).
    cbn [fst]. rewrite Epid. f_equal. unfold s32. rewrite Z.mod_small; lia.
  - destruct Hsc as (Hno & _). specialize (Hno i Hi). rewrite active_at in Hno by lia.
    destruct Hno as [_ Hnz]; [|by destruct (Hnz Est)].
    unfold wait_match, live. rewrite Est, Epid, Epar, Z.eqb_refl, u32_id by (unfold is_u32; lia).
    cbn. by rewrite Z.eqb_refl, orb_true_r.
Qed.

(** * Closing a pipe under the lock *)

Lemma run_wakes_stuck ws s : task_table_lock s = true -> ws <> [] -> run_wakes ws s = None.
Proof.
  intros Hlk Hws. destruct ws as [|w ws]; [done|]. cbn [run_wakes].
  destruct w; unfold run_wake, scheduler_wake_pipe_readers, scheduler_wake_pipe_writers, wake_tasks, spin_lock_irqsave; by rewrite Hlk.
Qed.
Lemma close_fds_stuck n i k s :
  task_table_lock s = true -> 0 <= i < len (tasks s) -> 0 <= k -> k + Z.of_nat n = TASK_MAX_FDS ->
  len (file_descriptors (task_at s i)) = TASK_MAX_FDS ->
  close_wakes (pid (task_at s i)) (drop (Z.to_nat k) (file_descriptors (task_at s i))) (env s) <> [] ->
  close_fds n i k s = None.
Proof.
  revert k s. induction n as [|n IH]; intros k s Hlk Hi Hk Hn Hlen Hq.
  { rewrite drop_ge in Hq by (unfold len in Hlen; lia). done. }
  rewrite fds_from in Hq by lia. cbn [close_fds close_wakes] in *. unfold close_fd at 1.
  set (t := task_at s i) in *. destruct (Z.eqb_spec (arr_get (file_descriptors t) k) 0) as [E0|Hfd]; [by apply IH; try done; lia|].
  set (t1 := t <| file_descriptors := arr_set (file_descriptors t) k 0 |>). change (env (set_task i t1 s)) with (env s).
  destruct (k_fd_close (arr_get (file_descriptors t) k) (pid t) (env s)) as [[|w ws] e]; [|by rewrite run_wakes_stuck].
  cbn [run_wakes]. set (s1 := set_task i t1 s <| env := e |>).
  assert (Ht1 : task_at s1 i = t1).
  { change (task_at s1 i) with (task_at (set_task i t1 s) i). rewrite task_at_set by lia. by rewrite Z.eqb_refl. }
  apply IH; rewrite ?Ht1; try done; try lia.
  - cbn. rewrite len_arr_set. lia.
  - change (file_descriptors t1) with (arr_set (file_descriptors t) k 0). by rewrite len_arr_set.
  - change (file_descriptors t1) with (arr_set (file_descriptors t) k 0). by rewrite fds_after by lia.
Qed.

Lemma exit_with_pipe_stuck i status s :
  task_table_lock s = false -> 0 <= i < len (tasks s) -> finished (task_at s i) = false ->
  len (file_descriptors (task_at s i)) = TASK_MAX_FDS -> exit_wakes i s <> [] ->
  scheduler_terminate_task (Some i) status s = None.
Proof.
  intros Hlk Hi Hfin Hfl Hq. unfold scheduler_terminate_task, spin_lock_irqsave. rewrite Hfin, Hlk.
  set (s0 := s <| task_table_lock := true |>). change (task_at s0 i) with (task_at s i).
  rewrite Hfin. unfold scheduler_terminate_task_unlocked. change (task_at s0 i) with (task_at s i).
  rewrite Hfin. set (t := task_at s i) in *.
  set (z := t <| exit_status := status |> <| state := TASK_ZOMBIE |> <| wait_reason := TASK_WAIT_NONE |>
              <| wait_target := 0 |> <| pending_signals := 0 |> <| active_signal := 0 |>).
  destruct (upd_env_if (negb (cr3 t =? k_kernel_pml4)) (k_switch_address_space k_kernel_pml4) s0)
    as (Et & _ & _ & _ & El).
  assert (He : env (if negb (cr3 t =? k_kernel_pml4) then upd_env (k_switch_address_space k_kernel_pml4) s0 else s0) =
    if negb (cr3 t =? k_kernel_pml4) then k_switch_address_space k_kernel_pml4 (env s) else env s) by (by destruct (negb _)).
  set (s1 := if negb (cr3 t =? k_kernel_pml4) then _ else s0) in *.
  assert (Hz1 : task_at (set_task i z s1) i = z).
  { rewrite task_at_set by (rewrite ?Et; change (tasks s0) with (tasks s); lia). by rewrite Z.eqb_refl. }
  unfold task_close_all_fds. rewrite (close_fds_stuck _ i 0); rewrite ?Hz1; try done.
  - cbn. rewrite len_arr_set, Et. done.
  - change (env (set_task i z s1)) with (env s1). rewrite He. exact Hq.
Qed.

(** a task that exits (or is killed) while it holds the last reference to
    one end of a pipe never finishes exiting.  [task_close_all_fds] runs with
    [task_table_lock] held, closing the pipe end calls
    [scheduler_wake_pipe_readers] or [..._writers], and these take the same
    lock, with interrupts off. *)
Theorem exit_with_pipe_deadlocks i status s :
  task_table_lock s = false -> 0 <= i < len (tasks s) -> finished (task_at s i) = false ->
  len (file_descriptors (task_at s i)) = TASK_MAX_FDS -> exit_wakes i s <> [] ->
  scheduler_terminate_task (Some i) status s = None.
Proof. apply exit_with_pipe_stuck. Qed.


(** SIGKILL cannot be blocked, caught or ignored: whatever the mask and the
    handlers of the target, it becomes a zombie with status 137. *)
Theorem sigkill_terminates i s :
  sched_wf s -> task_table_lock s = false -> 0 <= i < task_count s ->
  finished (task_at s i) = false ->
  len (file_descriptors (task_at s i)) = TASK_MAX_FDS -> exit_wakes i s = [] ->
  exists s', scheduler_send_signal (pid (task_at s i)) SIGKILL s = Some (0, s') /\
    state (task_at s' i) = TASK_ZOMBIE /\ exit_status (task_at s' i) = 137 /\
    forall c, 0 <= c < task_count s -> c <> i ->
      waits_child (pid (task_at s i)) (task_at s c) = true -> state (task_at s' c) = TASK_READY.
Proof.
  intros Hw Hlk Hi Hfin Hfl Hq. pose proof (wf_count s Hw) as Hcnt. pose proof (wf_len s Hw) as Hlen.
  pose proof (finished_live _ Hfin) as HL. destruct (wf_pid s Hw i ltac:(lia) HL) as [Hp Hpp].
  unfold scheduler_send_signal. cbn [send_signal]. change (negb (is_supported_signal SIGKILL)) with false.
  unfold spin_lock_irqsave. rewrite Hlk. set (s0 := s <| task_table_lock := true |>).
  change (find_pid (pid (task_at s i)) s0) with (find_pid (pid (task_at s i)) s).
  rewrite (find_pid_live s i Hw ltac:(lia) HL). change (task_at s0 i) with (task_at s i).
  assert (Hst : st_eqb (state (task_at s i)) TASK_ZOMBIE || st_eqb (state (task_at s i)) TASK_DEAD = false)
    by (unfold finished in Hfin; by apply orb_false_elim in Hfin as [? _]).
  rewrite Hst. change (SIGKILL =? SIGKILL) with true. cbv iota.
  destruct (terminate_facts i (128 + SIGKILL) s0) as (s' & Hs & _ & Ht); try done.
  { change (task_count s <= len (tasks s)). lia. }
  rewrite Hs. eexists. split; [reflexivity|].
  destruct (after_exit_self i (128 + SIGKILL) s0 Hpp) as (Zs & Ze & _).
  destruct (Ht i Hi) as (pi & Hpi).
  change (task_at (spin_unlock_irqrestore s') i) with (task_at s' i). rewrite Hpi.
  split_and!; [exact Zs|exact Ze|]. intros c Hc Hne Hwait. destruct (Ht c Hc) as (pc & Hpc).
  change (task_at (spin_unlock_irqrestore s') c) with (task_at s' c). rewrite Hpc.
  by apply (after_exit_waiter i (128 + SIGKILL) s0 c).
Qed.

End Life.
