(* ===== verification/SchedSignal.v ===== *)
(** Signal delivery and return from a handler.

    [deliver_pending_signal_unlocked] redirects the saved user context to the
    handler and keeps the interrupted registers in [signal_context];
    [sys_sigreturn] gives them back. *)

From S2P Require Import Prelude Mem Task Sched SchedProps.

(** The three words delivery changes in a frame in memory. *)
Lemma load_frame_redirect m a h sp n :
  is_u64 h -> is_u64 sp -> is_u64 n ->
  load_frame (store64 (store64 (store64 m (a + 120) h) (a + 144) sp) (a + 72) n) a =
    load_frame m a <| f_rip := h |> <| f_user_rsp := sp |> <| f_rdi := n |>.
Proof.
  intros Hh Hsp Hn. unfold load_frame. cbv [set_field f_r15 f_r14 f_r13 f_r12 f_r11 f_r10 f_r9 f_r8
    f_rbp f_rdi f_rsi f_rdx f_rcx f_rbx f_rax f_rip f_cs f_rflags f_user_rsp f_ss].
  f_equal; repeat first [rewrite load64_store64 by done; reflexivity|rewrite ld64_st64_ne by lia]; done.
Qed.

Lemma next_pending_range t : 0 <= next_pending_signal t < 32.
Proof.
  unfold next_pending_signal. destruct (find_index _ _ 1) as [k|] eqn:Ef; [|cbn; lia].
  cbn [default from_option id]. pose proof (find_index_spec
    (fun n => negb (Z.land (Z.land (pending_signals t) (lnot32 (blocked_signals t))) (signal_bit n) =? 0))
    (seqZ 1 31) 1) as H. rewrite Ef in H. change (len (seqZ 1 31)) with 31 in H. lia.
Qed.

Section Signal.
Context {E : Type} `{KernelEnv E}.
Implicit Types s : sched E.

(** Delivery to a handler on a mapped user stack. *)
Lemma deliver_facts i s n h usp :
  let t := task_at s i in
  let f := load_frame (kmem s) (rsp t) in
  0 <= i < len (tasks s) -> active_signal t = 0 -> next_pending_signal t = n -> n <> 0 ->
  discards t n = false -> n <> SIGKILL -> arr_get (signal_handlers t) n = h ->
  0 < h < 18446744073709551615 -> Z.land (f_cs f) 3 = 3 ->
  signal_handler_stack (f_user_rsp f) = usp -> bad_handler_stack usp = false ->
  k_is_mapped (cr3 t) (Z.land usp (lnot64 4095)) (env s) = true ->
  exists s', deliver_pending_signal_unlocked i s = Some (true, s') /\
    load_frame (kmem s') (rsp t) = f <| f_rip := h |> <| f_user_rsp := usp |> <| f_rdi := n |> /\
    task_at s' i = clear_pending n t <| signal_context := save_signal_context f n |>
                                     <| active_signal := n |> /\
    current_task s' = current_task s /\ len (tasks s') = len (tasks s).
Proof.
  intros t f Hi Hact Hn Hn0 Hdis Hkill Hh Hhr Hcs Husp Hbad Hmap.
  pose proof (next_pending_range t) as Hnr. rewrite Hn in Hnr.
  unfold deliver_pending_signal_unlocked. fold t. rewrite Hact, Hn. change (negb (0 =? 0)) with false.
  rewrite (proj2 (Z.eqb_neq n 0)), Hdis, (proj2 (Z.eqb_neq n SIGKILL)), Hh by done.
  rewrite (proj2 (Z.eqb_neq h 0)), (proj2 (Z.eqb_neq h 18446744073709551615)) by lia. cbn [orb].
  fold f. rewrite Hcs, Husp. change (negb (3 =? 3)) with false. rewrite Hbad.
  unfold ensure_stack_page. fold t. rewrite Hmap. eexists. split; [reflexivity|].
  assert (Hu : is_u64 usp).
  { unfold bad_handler_stack in Hbad. unfold is_u64. revert Hbad. bcases; cbn; try done; lia. }
  split_and!; try done.
  - apply load_frame_redirect; [unfold is_u64; lia|done|unfold is_u64; lia].
  - etrans; [apply arr_get_set_eq; exact Hi|]. by rewrite u32_id by (unfold is_u32; lia).
  - etrans; [apply len_arr_set|done].
Qed.

Lemma sigreturn_restores s i f n :
  0 <= i < len (tasks s) -> current_task s = Some i -> active_signal (task_at s i) <> 0 ->
  signal_context (task_at s i) = save_signal_context f n ->
  fst (sys_sigreturn s) = true /\
  sigreturn_frame (task_at (snd (sys_sigreturn s)) i) = f /\
  active_signal (task_at (snd (sys_sigreturn s)) i) = 0.
Proof.
  intros Hi Hcur Hact Hctx. unfold sys_sigreturn, scheduler_current_task. rewrite Hcur.
  rewrite (proj2 (Z.eqb_neq _ 0) Hact), Hctx. cbn [fst snd]. unfold set_current. rewrite Hcur.
  rewrite task_at_set by lia. rewrite Z.eqb_refl. split_and!; try done. by destruct f.
Qed.

(** C27: a caught signal is transparent to the interrupted code.  Delivery runs
    the handler with the signal number as argument, on the user stack below the
    interrupted one; when the handler returns through [sigreturn], the frame the
    kernel restores is, register for register, the one that was interrupted. *)
Theorem signal_roundtrip i s n h :
  let t := task_at s i in
  let f := load_frame (kmem s) (rsp t) in
  let usp := signal_handler_stack (f_user_rsp f) in
  0 <= i < len (tasks s) -> current_task s = Some i -> active_signal t = 0 ->
  next_pending_signal t = n -> n <> 0 -> discards t n = false -> n <> SIGKILL ->
  arr_get (signal_handlers t) n = h -> 0 < h < 18446744073709551615 ->
  Z.land (f_cs f) 3 = 3 -> bad_handler_stack usp = false ->
  k_is_mapped (cr3 t) (Z.land usp (lnot64 4095)) (env s) = true ->
  exists s', deliver_pending_signal_unlocked i s = Some (true, s') /\
    load_frame (kmem s') (rsp t) = f <| f_rip := h |> <| f_user_rsp := usp |> <| f_rdi := n |> /\
    fst (sys_sigreturn s') = true /\
    sigreturn_frame (task_at (snd (sys_sigreturn s')) i) = f /\
    active_signal (task_at (snd (sys_sigreturn s')) i) = 0.
Proof.
  intros t f usp Hi Hcur Hact Hn Hn0 Hdis Hkill Hh Hhr Hcs Hbad Hmap.
  destruct (deliver_facts i s n h usp) as (s' & Hd & Hf & Ht & Hc & Hl); try done. fold t f in Hf, Ht.
  exists s'. split; [exact Hd|]. split; [exact Hf|].
  apply (sigreturn_restores s' i f n); rewrite ?Ht; try done; [lia|congruence].
Qed.

(** [SIG_IGN] is honoured for SIGCHLD, SIGCONT, SIGPIPE, SIGINT and SIGTERM
    only.  Any other signal set to [SIG_IGN] (the value 1) is delivered as if 1
    were the address of a handler: the task is resumed at address 1. *)
Theorem sig_ign_runs_address_1 i s n :
  let t := task_at s i in
  let f := load_frame (kmem s) (rsp t) in
  let usp := signal_handler_stack (f_user_rsp f) in
  0 <= i < len (tasks s) -> active_signal t = 0 -> next_pending_signal t = n -> n <> 0 ->
  ~ In n [SIGKILL; SIGCHLD; SIGCONT; SIGPIPE; SIGINT; SIGTERM] ->
  arr_get (signal_handlers t) n = 1 ->
  Z.land (f_cs f) 3 = 3 -> bad_handler_stack usp = false ->
  k_is_mapped (cr3 t) (Z.land usp (lnot64 4095)) (env s) = true ->
  exists s', deliver_pending_signal_unlocked i s = Some (true, s') /\
    f_rip (load_frame (kmem s') (rsp t)) = 1.
Proof.
  intros t f usp Hi Hact Hn Hn0 Hin Hh Hcs Hbad Hmap. cbn [In] in Hin.
  destruct (deliver_facts i s n 1 usp) as (s' & Hd & Hf & _); try done.
  - fold t. unfold discards. rewrite !(proj2 (Z.eqb_neq n _)) by (intros Hx; symmetry in Hx; tauto). done.
  - intros Hx. symmetry in Hx. tauto.
  - exists s'. split; [exact Hd|]. fold t f in Hf. by rewrite Hf.
Qed.

End Signal.
