(* ===== verification/SchedDemo.v ===== *)
(** A concrete kernel around the scheduler, and runs of it on which the
    hypotheses of the scheduler's theorems hold. *)

From S2P Require Import Prelude Mem Task Sched SchedProps SchedTick SchedLife SchedSignal.

(** Every page is mapped; file description 7 is the last reference to the write
    end of the pipe at address 99, the others close quietly. *)
#[export] Instance demo_kernel : KernelEnv unit := {
  k_kernel_pml4 := 4096;
  k_switch_address_space _ e := e;
  k_destroy_address_space _ e := e;
  k_clone_address_space _ e := (8192, e);
  k_is_mapped _ _ _ := true;
  k_map_in_space _ _ _ _ e := e;
  k_map _ _ _ e := e;
  k_flush _ e := e;
  k_virt_to_phys a _ := a;
  k_pmm_alloc e := (65536, e);
  k_pmm_free _ e := e;
  k_zero_page _ e := e;
  k_write_user64 _ _ e := e;
  k_tss_set_rsp0 _ e := e;
  k_serial_received _ := false;
  k_std_fd n e := (256 + n, e);
  k_fd_ref _ e := e;
  k_fd_close fd _ e := (if fd =? 7 then [WakeReaders 99] else [], e)
}.

Definition sched0 : sched unit :=
  mk_sched [] 0 0 0 None 1 zero_task false 0 0 ∅ 0 tt.

Definition run {A} (r : option (A * sched unit)) : sched unit :=
  match r with Some (_, s) => s | None => sched0 end.

(** Boot, then two kernel tasks and a tick: slots 0 (idle), 1 (running) and 2. *)
Definition demo_boot : sched unit :=
  match scheduler_init (replicate 16 zero_task) 0x100000 0x200000 0x1000 sched0 with
  | Some s => s | None => sched0
  end.
Definition demo_two : sched unit :=
  run (scheduler_create_task 0x3000 (run (scheduler_create_task 0x2000 demo_boot))).
Definition demo_run : sched unit := run (scheduler_tick 0 demo_two).

Lemma demo_boot_booted : booted demo_boot.
Proof.
  destruct (init_booted (replicate 16 zero_task) 0x100000 0x200000 0x1000 sched0 eq_refl eq_refl)
    as (s1 & Hs1 & Hb).
  unfold demo_boot. rewrite Hs1. exact Hb.
Qed.

Lemma run_create_booted entry s :
  booted s -> task_table_lock s = false -> booted (run (scheduler_create_task entry s)).
Proof.
  intros Hb Hl. destruct (create_facts entry false s (proj1 Hb) Hl) as (r & s' & Hs & Hc).
  unfold scheduler_create_task. rewrite Hs. by eapply booted_created.
Qed.

Lemma demo_two_booted : booted demo_two.
Proof.
  apply run_create_booted; [apply run_create_booted; [apply demo_boot_booted|]|];
    vm_compute; reflexivity.
Qed.

Lemma demo_run_booted : booted demo_run.
Proof.
  unfold demo_run. destruct (scheduler_tick 0 demo_two) as [[r s]|] eqn:Et.
  - eapply booted_step; [apply demo_two_booted|]. by eapply step_tick.
  - exfalso. assert (Hs : (if scheduler_tick 0 demo_two is Some _ then true else false) = true)
      by (vm_compute; reflexivity). by rewrite Et in Hs.
Qed.

(** A boolean test of every task slot. *)
Lemma all_tasks (f : task -> bool) (s : sched unit) i :
  len (tasks s) = MAX_TASKS -> forallb f (tasks s) = true -> 0 <= i < MAX_TASKS ->
  f (task_at s i) = true.
Proof.
  intros Hl Hf Hi. rewrite forallb_forall in Hf. apply Hf, list_elem_of_In.
  apply (list_elem_of_lookup_2 _ (Z.to_nat i)), list_lookup_lookup_total_lt. unfold len in Hl. lia.
Qed.

Lemma generate_pid_fresh_witness :
  exists p, generate_pid demo_run = Some (p, demo_run <| next_pid := u32 (p + 1) |>) /\
    0 < p < 4294967296 /\
    forall i, 0 <= i < MAX_TASKS -> live (task_at demo_run i) = true -> pid (task_at demo_run i) <> p.
Proof. apply generate_pid_fresh. apply demo_run_booted. Defined.

Lemma sched_reachable_wf_witness :
  exists s1, scheduler_init (replicate 16 zero_task) 0x100000 0x200000 0x1000 sched0 = Some s1 /\
    forall s, rtc sched_step s1 s -> sched_wf s /\ 0 < task_count s /\ idle_task_index s = 0.
Proof. apply sched_reachable_wf; reflexivity. Defined.

Lemma scheduler_tick_fair_witness :
  let rs := [1; 2; 3] in
  exists k s', (k <= length rs)%nat /\ run_ticks (take k rs) demo_run = Some s' /\
    current_task s' = Some 2.
Proof.
  apply scheduler_tick_fair.
  - apply demo_run_booted.
  - vm_compute. reflexivity.
  - intros i Hi. apply Z.eqb_eq.
    apply (all_tasks (fun t => pending_signals t =? 0)); [vm_compute; reflexivity..|exact Hi].
  - assert (E : task_count demo_run = 3) by (vm_compute; reflexivity). rewrite E. lia.
  - vm_compute. reflexivity.
  - vm_compute. reflexivity.
Defined.

(** Task 1 forks: its child has slot 3 and pid 4. *)
Definition demo_forked : sched unit := run (scheduler_fork_current 0x5000 demo_run).

Lemma demo_forked_booted : booted demo_forked.
Proof.
  unfold demo_forked. destruct (scheduler_fork_current 0x5000 demo_run) as [[r s]|] eqn:Et.
  - eapply booted_step; [apply demo_run_booted|]. by eapply step_fork.
  - exfalso. assert (Hs : (if scheduler_fork_current 0x5000 demo_run is Some _ then true else false) = true)
      by (vm_compute; reflexivity). by rewrite Et in Hs.
Qed.


Lemma sigkill_terminates_witness :
  exists s', scheduler_send_signal (pid (task_at demo_forked 3)) SIGKILL demo_forked = Some (0, s') /\
    state (task_at s' 3) = TASK_ZOMBIE /\ exit_status (task_at s' 3) = 137 /\
    forall c, 0 <= c < task_count demo_forked -> c <> 3 ->
      waits_child (pid (task_at demo_forked 3)) (task_at demo_forked c) = true ->
      state (task_at s' c) = TASK_READY.
Proof.
  apply sigkill_terminates; try (vm_compute; reflexivity).
  - apply demo_forked_booted.
  - assert (E : task_count demo_forked = 4) by (vm_compute; reflexivity). rewrite E. lia.
Defined.

(** The child holds the last reference to the write end of a pipe. *)
Definition demo_pipe : sched unit :=
  set_task 3 (task_at demo_forked 3 <| file_descriptors := 7 :: replicate 31 0 |>) demo_forked.

Lemma exit_with_pipe_deadlocks_witness :
  scheduler_terminate_task (Some 3) 0 demo_pipe = None.
Proof.
  apply (exit_with_pipe_deadlocks 3 0 demo_pipe); try (vm_compute; reflexivity).
  - assert (E : len (tasks demo_pipe) = 16) by (vm_compute; reflexivity). rewrite E. lia.
  - vm_compute. discriminate.
Defined.

(** The running task 1 in user mode, with signal [n] pending and handler [h]. *)
Definition demo_signal (n h : Z) : sched unit :=
  let s := demo_run in
  let t := task_at s 1 in
  set_task 1 (t <| pending_signals := signal_bit n |>
                <| signal_handlers := arr_set (signal_handlers t) n h |>
                <| rsp := 0x9000 |> <| cr3 := 8192 |>) s
    <| kmem := store_frame (kmem s) 0x9000
         (zero_frame <| f_cs := USER_CODE_SELECTOR |> <| f_rip := 0x400000 |> <| f_user_rsp := 0x700000 |>) |>.

Lemma signal_roundtrip_witness :
  let s := demo_signal SIGTERM 0x401000 in
  let t := task_at s 1 in
  let f := load_frame (kmem s) (rsp t) in
  let usp := signal_handler_stack (f_user_rsp f) in
  exists s', deliver_pending_signal_unlocked 1 s = Some (true, s') /\
    load_frame (kmem s') (rsp t) =
      f <| f_rip := 0x401000 |> <| f_user_rsp := usp |> <| f_rdi := SIGTERM |> /\
    fst (sys_sigreturn s') = true /\
    sigreturn_frame (task_at (snd (sys_sigreturn s')) 1) = f /\
    active_signal (task_at (snd (sys_sigreturn s')) 1) = 0.
Proof.
  apply signal_roundtrip; try (vm_compute; reflexivity); try done; try lia.
Defined.

Lemma sig_ign_runs_address_1_witness :
  let s := demo_signal 1 1 in
  let t := task_at s 1 in
  exists s', deliver_pending_signal_unlocked 1 s = Some (true, s') /\
    f_rip (load_frame (kmem s') (rsp t)) = 1.
Proof.
  apply (sig_ign_runs_address_1 1 (demo_signal 1 1) 1); try (vm_compute; reflexivity); try done.
  cbn. unfold SIGKILL, SIGCHLD, SIGCONT, SIGPIPE, SIGINT, SIGTERM. lia.
Defined.
