(* ===== verification/Mutex.v ===== *)
(** The sleeping mutex of [src/src/kernel/mutex.c].

    The wait queue is threaded through [mutex_wait_next] of the task control
    blocks.  Its operations are first given as functions on the task table
    ([queue_contains], [queue_push], [queue_pop]) and proved to be the operations of
    a first-in first-out list.  [lock_step] then runs [mutex_lock],
    [mutex_lock_preemptible] and [mutex_unlock] one memory access at a time: a task
    is suspended at a program point, and the timer may switch tasks between any
    two accesses while interrupts are enabled.  [scheduler_yield] is such a switch
    (interrupt 0x20).  A mutex address is a [Z]; a task pointer is a slot of the
    task table. *)

From S2P Require Import Prelude Mem Task Sched.

Record mutex := mk_mutex { locked : Z; pid_owner : Z; wait_queue : option Z }.
#[export] Instance eta_mutex : Eta mutex := fun m =>
  mk_mutex (locked m) (pid_owner m) (wait_queue m).

Definition mutex_init : mutex := mk_mutex 0 0 None.

(** * The wait queue as functions *)

Definition next_of (ts : list task) (i : Z) : option Z := mutex_wait_next (arr_get ts i).
Definition set_next (ts : list task) (i : Z) (n : option Z) : list task :=
  arr_set ts i (arr_get ts i <| mutex_wait_next := n |>).

(** The [for] loop of [queue_contains]; [None] when the fuel is used up. *)
Fixpoint queue_contains (fuel : nat) (ts : list task) (head : option Z) (t : Z) : option bool :=
  match fuel, head with
  | _, None => Some false
  | O, Some _ => None
  | S fuel', Some node => if node =? t then Some true else queue_contains fuel' ts (next_of ts node) t
  end.

(** [while (tail->mutex_wait_next != 0) tail = tail->mutex_wait_next;] *)
Fixpoint queue_tail (fuel : nat) (ts : list task) (tail : Z) : option Z :=
  match next_of ts tail, fuel with
  | None, _ => Some tail
  | Some _, O => None
  | Some n, S fuel' => queue_tail fuel' ts n
  end.

Definition queue_push (fuel : nat) (ts : list task) (head : option Z) (t : Z)
    : option (list task * option Z) :=
  let ts := set_next ts t None in
  match head with
  | None => Some (ts, Some t)
  | Some h => let* tail := queue_tail fuel ts h in Some (set_next ts tail (Some t), head)
  end.

Definition queue_pop (ts : list task) (head : option Z) : list task * option Z * option Z :=
  match head with
  | None => (ts, head, None)
  | Some t => (set_next ts t None, next_of ts t, Some t)
  end.

(** * The code, one access at a time *)

(** The next statement of a task.  [LContains n] holds the loop variable [node],
    [LWalk]/[LLink] hold [tail], the unlock points hold [task] and [next]; the boolean
    of the lock points is [raised_if] of [mutex_lock_preemptible]. *)
Inductive pc :=
  | Idle
  | PSti                                   (* [sti] of mutex_lock_preemptible *)
  | LTas (r : bool)                        (* [__sync_lock_test_and_set] *)
  | LCheck (r : bool)                      (* interrupts_are_enabled *)
  | LHead (r : bool)                       (* read [mutex->wait_queue] *)
  | LContains (r : bool) (node : option Z)
  | LClear (r : bool)                      (* [task->mutex_wait_next = 0] *)
  | LEmpty (r : bool)                      (* is the queue empty? *)
  | LSetHead (r : bool)                    (* the task becomes the head *)
  | LTailInit (r : bool)                   (* tail starts at the head *)
  | LWalk (r : bool) (tail : Z)
  | LLink (r : bool) (tail : Z)
  | LState (r : bool)
  | LReason (r : bool)
  | LTarget (r : bool)
  | LYield (r : bool)
  | LOwner (r : bool)                      (* [mutex->pid_owner = current->pid] *)
  | PCli                                   (* [cli] of mutex_lock_preemptible *)
  | Held                                   (* returned from the lock call *)
  | UOwner                                 (* [mutex->pid_owner = 0] *)
  | URelease                               (* [__sync_lock_release] *)
  | UPopRead                               (* read the head *)
  | UPopHead (t : Z)                       (* the head moves to its successor *)
  | UPopNext (t : Z)                       (* [task->mutex_wait_next = 0] *)
  | UTestState (t : Z)
  | UTestReason (t : Z)
  | UState (t : Z)
  | UReason (t : Z)
  | UTarget (t : Z).

(** One mutex, the task table, the program point and the interrupt flag of each
    task, and the task on the processor. *)
Record msys := mk_msys {
  mtx : mutex;
  mtasks : list task;
  pcs : list pc;
  irqs : list bool;
  running : Z
}.
#[export] Instance eta_msys : Eta msys := fun s =>
  mk_msys (mtx s) (mtasks s) (pcs s) (irqs s) (running s).
#[export] Instance pc_inhabited : Inhabited pc := populate Idle.

Section Machine.
(** The address of the mutex, for [wait_target]. *)
Variable mutex_addr : Z.

Definition goto (s : msys) (p : pc) : msys := s <| pcs := arr_set (pcs s) (running s) p |>.
Definition upd_task (s : msys) (i : Z) (f : task -> task) : msys :=
  s <| mtasks := arr_set (mtasks s) i (f (arr_get (mtasks s) i)) |>.
Definition set_mtx (s : msys) (m : mutex) : msys := s <| mtx := m |>.
Definition set_irq (s : msys) (b : bool) : msys :=
  s <| irqs := arr_set (irqs s) (running s) b |>.

(** The next access of [mutex_lock]. *)
Definition lock_step (s : msys) : msys :=
  let me := running s in
  match arr_get (pcs s) me with
  | PSti => goto (set_irq s true) (LTas true)
  | LTas r =>
      let old := locked (mtx s) in
      let s := set_mtx s (mtx s <| locked := 1 |>) in
      goto s (if negb (old =? 0) then LCheck r else LOwner r)
  | LCheck r => if arr_get (irqs s) me then goto s (LHead r) else goto s (LTas r)
  | LHead r => goto s (LContains r (wait_queue (mtx s)))
  | LContains r None => goto s (LClear r)
  | LContains r (Some n) =>
      if n =? me then goto s (LState r) else goto s (LContains r (next_of (mtasks s) n))
  | LClear r => goto (upd_task s me (fun t => t <| mutex_wait_next := None |>)) (LEmpty r)
  | LEmpty r =>
      goto s (match wait_queue (mtx s) with None => LSetHead r | Some _ => LTailInit r end)
  | LSetHead r => goto (set_mtx s (mtx s <| wait_queue := Some me |>)) (LState r)
  | LTailInit r =>
      (* the head was not null when tested; a null read here would fault *)
      match wait_queue (mtx s) with
      | Some h => goto s (LWalk r h)
      | None => s
      end
  | LWalk r tail =>
      goto s (match next_of (mtasks s) tail with None => LLink r tail | Some n => LWalk r n end)
  | LLink r tail =>
      goto (upd_task s tail (fun t => t <| mutex_wait_next := Some me |>)) (LState r)
  | LState r => goto (upd_task s me (fun t => t <| state := TASK_BLOCKED |>)) (LReason r)
  | LReason r => goto (upd_task s me (fun t => t <| wait_reason := TASK_WAIT_MUTEX |>)) (LTarget r)
  | LTarget r => goto (upd_task s me (fun t => t <| wait_target := mutex_addr |>)) (LYield r)
  | LOwner r =>
      goto (set_mtx s (mtx s <| pid_owner := s32 (pid (arr_get (mtasks s) me)) |>))
        (if r then PCli else Held)
  | PCli => goto (set_irq s false) Held
  | _ => s
  end.

(** The next access of [mutex_unlock]. *)
Definition unlock_step (s : msys) : msys :=
  match arr_get (pcs s) (running s) with
  | UOwner => goto (set_mtx s (mtx s <| pid_owner := 0 |>)) URelease
  | URelease => goto (set_mtx s (mtx s <| locked := 0 |>)) UPopRead
  | UPopRead =>
      goto s (match wait_queue (mtx s) with None => Idle | Some t => UPopHead t end)
  | UPopHead t =>
      goto (set_mtx s (mtx s <| wait_queue := next_of (mtasks s) t |>)) (UPopNext t)
  | UPopNext t => goto (upd_task s t (fun t => t <| mutex_wait_next := None |>)) (UTestState t)
  | UTestState t =>
      goto s (if st_eqb (state (arr_get (mtasks s) t)) TASK_BLOCKED then UTestReason t else Idle)
  | UTestReason t =>
      goto s (if wr_eqb (wait_reason (arr_get (mtasks s) t)) TASK_WAIT_MUTEX then UState t else Idle)
  | UState t => goto (upd_task s t (fun t => t <| state := TASK_READY |>)) (UReason t)
  | UReason t => goto (upd_task s t (fun t => t <| wait_reason := TASK_WAIT_NONE |>)) (UTarget t)
  | UTarget t => goto (upd_task s t (fun t => t <| wait_target := 0 |>)) Idle
  | _ => s
  end.

(** What the processor does next: a call of the mutex interface by the running
    task, the next access of the call it is in, a timer switch to task [j], for
    which interrupts must be enabled, or the switch to [j] by the [int] instruction
    of [scheduler_yield].  Both take the processor from the running task as the
    tick does. *)
Inductive action :=
  | ALock | ALockPreemptible | AUnlock | AStep | ASwitch (j : Z) | AYield (j : Z).

Definition is_lock_pc (p : pc) : bool :=
  match p with
  | Idle | Held | UOwner | URelease | UPopRead | UPopHead _ | UPopNext _ | UTestState _
  | UTestReason _ | UState _ | UReason _ | UTarget _ => false
  | _ => true
  end.

Definition raised_if (s : msys) : bool :=
  negb (arr_get (irqs s) (running s)) && negb (pid (arr_get (mtasks s) (running s)) =? 0).

(** [current->state == TASK_RUNNING] becomes [TASK_READY]; the next task, which is
    ready, becomes [TASK_RUNNING]. *)
Definition switch_to (s : msys) (j : Z) : msys :=
  let s := upd_task s (running s) (fun t =>
             if st_eqb (state t) TASK_RUNNING then t <| state := TASK_READY |> else t) in
  upd_task s j (fun t => t <| state := TASK_RUNNING |>) <| running := j |>.

(** [j] is another task that is ready. *)
Definition can_switch (s : msys) (j : Z) : bool :=
  (0 <=? j) && (j <? len (mtasks s)) && negb (j =? running s) &&
  st_eqb (state (arr_get (mtasks s) j)) TASK_READY.

Definition at_pc (s : msys) : pc := arr_get (pcs s) (running s).

(** The effect of an action; [None] when it is not possible. *)
Definition act (a : action) (s : msys) : option msys :=
  match a with
  | ALock => match at_pc s with Idle => Some (goto s (LTas false)) | _ => None end
  | ALockPreemptible =>
      match at_pc s with
      | Idle => Some (goto s (if raised_if s then PSti else LTas false))
      | _ => None
      end
  | AUnlock => match at_pc s with Held => Some (goto s UOwner) | _ => None end
  | AStep =>
      match at_pc s with
      | Idle | Held => Some s
      | LYield r =>
          (* the tick chose the yielding task again: it had been made ready *)
          if st_eqb (state (arr_get (mtasks s) (running s))) TASK_RUNNING
          then Some (goto s (LTas r)) else None
      | p => Some (if is_lock_pc p then lock_step s else unlock_step s)
      end
  | ASwitch j =>
      if can_switch s j && arr_get (irqs s) (running s) then Some (switch_to s j) else None
  | AYield j =>
      match at_pc s with
      | LYield r => if can_switch s j then Some (switch_to (goto s (LTas r)) j) else None
      | _ => None
      end
  end.

Fixpoint acts (l : list action) (s : msys) : option msys :=
  match l with
  | [] => Some s
  | a :: l' => match act a s with Some s' => acts l' s' | None => None end
  end.

(** All states that interleavings reach. *)
Inductive reaches (s : msys) : msys -> Prop :=
  | reach_refl : reaches s s
  | reach_act s1 s2 a : reaches s s1 -> act a s1 = Some s2 -> reaches s s2.

(** Every task outside the mutex code, the mutex fresh. *)
Definition quiet (s : msys) : Prop :=
  mtx s = mutex_init /\ len (pcs s) = len (mtasks s) /\ len (irqs s) = len (mtasks s) /\
  0 <= running s < len (mtasks s) /\ Forall (fun p => p = Idle) (pcs s).

(** * Mutual exclusion *)

(** Program points between a successful test-and-set and the release, and those
    of them between the write of [pid_owner] and its reset. *)
Definition holding (p : pc) : bool :=
  match p with LOwner _ | PCli | Held | UOwner | URelease => true | _ => false end.
Definition owning (p : pc) : bool :=
  match p with PCli | Held | UOwner => true | _ => false end.

Record mutex_inv (s : msys) : Prop := {
  mi_len : len (pcs s) = len (mtasks s);
  mi_run : 0 <= running s < len (mtasks s);
  mi_locked : forall i, 0 <= i < len (pcs s) -> holding (arr_get (pcs s) i) = true ->
    locked (mtx s) = 1;
  mi_one : forall i j, 0 <= i < len (pcs s) -> 0 <= j < len (pcs s) ->
    holding (arr_get (pcs s) i) = true -> holding (arr_get (pcs s) j) = true -> i = j;
  mi_owner : forall i, 0 <= i < len (pcs s) -> owning (arr_get (pcs s) i) = true ->
    pid_owner (mtx s) = s32 (pid (arr_get (mtasks s) i))
}.

Lemma quiet_inv s : quiet s -> mutex_inv s.
Proof.
  intros (Hm & Hl & _ & Hr & HF). split; [done|done|..].
  - intros i Hi H. by rewrite (arr_get_Forall _ _ _ HF Hi) in H.
  - intros i j Hi _ H. by rewrite (arr_get_Forall _ _ _ HF Hi) in H.
  - intros i Hi H. by rewrite (arr_get_Forall _ _ _ HF Hi) in H.
Qed.

Lemma arr_get_set {A} `{!Inhabited A} (l : list A) i j v :
  0 <= i < len l -> 0 <= j ->
  arr_get (arr_set l i v) j = if j =? i then v else arr_get l j.
Proof.
  intros Hi Hj. bcase; [subst; by apply arr_get_set_eq|].
  apply arr_get_set_ne; lia.
Qed.

(** Moving to a point that holds no more than the one left. *)
Lemma inv_goto s p :
  mutex_inv s -> (holding p = true -> holding (at_pc s) = true) ->
  (owning p = true -> owning (at_pc s) = true) -> mutex_inv (goto s p).
Proof.
  intros [Hl Hr Hk H1 Ho] Hh Hown. unfold at_pc in *. split; cbn in *; rewrite ?len_arr_set; [done|done|..].
  - intros i Hi. rewrite arr_get_set by lia. bcase; [subst; eauto|eauto].
  - intros i j Hi Hj. rewrite !arr_get_set by lia.
    destruct (Z.eqb_spec i (running s)), (Z.eqb_spec j (running s)); subst; eauto.
  - intros i Hi. rewrite arr_get_set by lia. bcase; [subst; eauto|eauto].
Qed.

Lemma pid_upd (l : list task) k i f :
  (forall t, pid (f t) = pid t) ->
  pid (arr_get (arr_set l k (f (arr_get l k))) i) = pid (arr_get l i).
Proof.
  intros Hf. unfold arr_get, arr_set.
  destruct (decide (Z.to_nat k = Z.to_nat i)) as [->|]; [|by rewrite list_lookup_total_insert_ne].
  destruct (decide (Z.to_nat i < length l)%nat).
  - by rewrite list_lookup_total_insert_eq.
  - by rewrite list_insert_ge by lia.
Qed.

Lemma inv_upd_task s k f :
  mutex_inv s -> (forall t, pid (f t) = pid t) -> mutex_inv (upd_task s k f).
Proof.
  intros [Hl Hr Hk H1 Ho] Hf. split; cbn in *; rewrite ?len_arr_set; [done|done|eauto|eauto|].
  intros i Hi Hown. by rewrite (Ho i Hi Hown), pid_upd.
Qed.

(** Writes to the queue head and the interrupt flag. *)
Lemma inv_queue s q : mutex_inv s -> mutex_inv (set_mtx s (mtx s <| wait_queue := q |>)).
Proof. intros [Hl Hr Hk H1 Ho]. by split. Qed.
Lemma inv_irq s b : mutex_inv s -> mutex_inv (set_irq s b).
Proof. intros [Hl Hr Hk H1 Ho]. by split. Qed.

(** The test-and-set: it succeeds only when no task holds the mutex. *)
Lemma inv_tas s r :
  mutex_inv s -> at_pc s = LTas r ->
  mutex_inv (goto (set_mtx s (mtx s <| locked := 1 |>))
    (if negb (locked (mtx s) =? 0) then LCheck r else LOwner r)).
Proof.
  intros [Hl Hr Hk H1 Ho] Hp. destruct (Z.eqb_spec (locked (mtx s)) 0) as [E|E]; cbn [negb].
  - assert (Hnone : forall i, 0 <= i < len (pcs s) -> holding (arr_get (pcs s) i) = false).
    { intros i Hi. apply not_true_iff_false. intros H. specialize (Hk i Hi H). lia. }
    split; cbn in *; rewrite ?len_arr_set; [done|done|done|..].
    + intros i j Hi Hj. rewrite !arr_get_set by lia.
      destruct (Z.eqb_spec i (running s)), (Z.eqb_spec j (running s)); subst; rewrite ?Hnone by lia; done.
    + intros i Hi. rewrite arr_get_set by lia. bcase; [done|]. intros H.
      assert (holding (arr_get (pcs s) i) = true) by (destruct (arr_get (pcs s) i); done).
      by rewrite Hnone in *.
  - apply inv_goto; [|done|done]. split; cbn; [done|done|done|done|done].
Qed.

(** The write of [pid_owner] by the holder. *)
Lemma inv_set_owner s r p :
  mutex_inv s -> at_pc s = LOwner r -> p = PCli \/ p = Held ->
  mutex_inv (goto (set_mtx s (mtx s <| pid_owner := s32 (pid (arr_get (mtasks s) (running s))) |>)) p).
Proof.
  intros [Hl Hr Hk H1 Ho] Hp Hq. unfold at_pc in Hp.
  assert (Hme : forall i, 0 <= i < len (pcs s) -> holding (arr_get (pcs s) i) = true -> i = running s).
  { intros i Hi H. apply (H1 i); [lia|lia|done|by rewrite Hp]. }
  split; cbn in *; rewrite ?len_arr_set; [done|done|..].
  - intros i Hi _. apply (Hk (running s)); [lia|by rewrite Hp].
  - intros i j Hi Hj. rewrite !arr_get_set by lia.
    destruct (Z.eqb_spec i (running s)), (Z.eqb_spec j (running s)); subst; try done; intros A B.
    + symmetry. by apply Hme.
    + by apply Hme.
    + by rewrite (Hme i), (Hme j).
  - intros i Hi. rewrite arr_get_set by lia. bcase; [by subst|]. intros H.
    destruct (Hme i); [lia|by destruct (arr_get (pcs s) i)|done].
Qed.

(** The reset of [pid_owner] and the release, by the holder. *)
Lemma inv_leave s m p :
  mutex_inv s -> holding (at_pc s) = true -> owning p = false ->
  (holding p = true -> locked m = 1) -> mutex_inv (goto (set_mtx s m) p).
Proof.
  intros [Hl Hr Hk H1 Ho] Hh Hp Hlock. unfold at_pc in Hh.
  assert (Hother : forall i, 0 <= i < len (pcs s) -> i <> running s -> holding (arr_get (pcs s) i) = false).
  { intros i Hi Hne. apply not_true_iff_false. intros H. apply Hne, (H1 i); [lia|lia|done|done]. }
  split; cbn in *; rewrite ?len_arr_set; [done|done|..].
  - intros i Hi. rewrite arr_get_set by lia. bcase; [by subst|]. by rewrite Hother.
  - intros i j Hi Hj. rewrite !arr_get_set by lia.
    destruct (Z.eqb_spec i (running s)), (Z.eqb_spec j (running s)); subst; rewrite ?Hother by lia; done.
  - intros i Hi. rewrite arr_get_set by lia. bcase; [by rewrite Hp|]. intros H.
    assert (holding (arr_get (pcs s) i) = true) by (destruct (arr_get (pcs s) i); done).
    by rewrite Hother in *.
Qed.

Lemma inv_switch s j : mutex_inv s -> can_switch s j = true -> mutex_inv (switch_to s j).
Proof.
  intros Hi Hc. unfold can_switch in Hc. unfold switch_to.
  assert (mutex_inv (upd_task (upd_task s (running s) (fun t : task =>
             if st_eqb (state t) TASK_RUNNING then t <| state := TASK_READY |> else t)) j
             (fun t : task => t <| state := TASK_RUNNING |>))) as [Hl Hr Hk H1 Ho].
  { apply inv_upd_task; [apply inv_upd_task|]; [done| |done].
    intros t. by case_match. }
  split; [exact Hl| |exact Hk|exact H1|exact Ho].
  cbn. rewrite !len_arr_set. repeat bcase_in Hc; cbn in Hc; try done; lia.
Qed.

Lemma lock_step_inv s : mutex_inv s -> is_lock_pc (at_pc s) = true -> mutex_inv (lock_step s).
Proof.
  intros Hi Hp. unfold lock_step. fold (at_pc s).
  assert (Hg : forall p s', mutex_inv s' -> pcs s' = pcs s -> running s' = running s ->
    holding p = false -> mutex_inv (goto s' p)).
  { intros p s' Hs' _ _ Hf. apply inv_goto; [done|by rewrite Hf|by destruct p]. }
  destruct (at_pc s) eqn:E; try done.
  - apply Hg; by try apply inv_irq.
  - by apply inv_tas.
  - destruct (arr_get _ _); by apply Hg.
  - by apply Hg.
  - destruct node; [destruct (_ =? _)|]; by apply Hg.
  - apply Hg; try done. by apply inv_upd_task.
  - destruct (wait_queue _); by apply Hg.
  - apply Hg; try done. by apply inv_queue.
  - destruct (wait_queue _); [by apply Hg|done].
  - destruct (next_of _ _); by apply Hg.
  - apply Hg; try done. by apply inv_upd_task.
  - apply Hg; try done. by apply inv_upd_task.
  - apply Hg; try done. by apply inv_upd_task.
  - apply Hg; try done. by apply inv_upd_task.
  - eapply inv_set_owner; [done|done|]. destruct r; auto.
  - apply inv_goto; [by apply inv_irq| |]; unfold at_pc in *; cbn; by rewrite E.
Qed.

Lemma unlock_step_inv s : mutex_inv s -> mutex_inv (unlock_step s).
Proof.
  intros Hi. unfold unlock_step. fold (at_pc s).
  assert (Hg : forall p s', mutex_inv s' -> holding p = false -> mutex_inv (goto s' p)).
  { intros p s' Hs' Hf. apply inv_goto; [done|by rewrite Hf|by destruct p]. }
  destruct (at_pc s) eqn:E; try done.
  - apply inv_leave; [done|by rewrite E|done|]. intros _. apply (mi_locked s Hi (running s)).
    + rewrite (mi_len s Hi). apply (mi_run s Hi).
    + unfold at_pc in E. by rewrite E.
  - apply inv_leave; [done|by rewrite E|done|done].
  - destruct (wait_queue _); by apply Hg.
  - apply Hg; [by apply inv_queue|done].
  - apply Hg; [by apply inv_upd_task|done].
  - destruct (st_eqb _ _); by apply Hg.
  - destruct (wr_eqb _ _); by apply Hg.
  - apply Hg; [by apply inv_upd_task|done].
  - apply Hg; [by apply inv_upd_task|done].
  - apply Hg; [by apply inv_upd_task|done].
Qed.
Lemma act_inv a s s' : mutex_inv s -> act a s = Some s' -> mutex_inv s'.
Proof.
  intros Hi. destruct a; cbn [act]; intros H.
  - destruct (at_pc s); try done. injection H as <-. by apply inv_goto.
  - destruct (at_pc s); try done. injection H as <-. destruct (raised_if s); by apply inv_goto.
  - destruct (at_pc s) eqn:E; try done. injection H as <-. by apply inv_goto; rewrite ?E.
  - destruct (at_pc s) eqn:E; try (injection H as <-; cbn [is_lock_pc];
      first [done | apply lock_step_inv; [done|by rewrite E] | by apply unlock_step_inv]).
    destruct (st_eqb _ _); [|done]. injection H as <-. by apply inv_goto.
  - destruct (can_switch s j && _) eqn:E; [|done]. injection H as <-.
    apply andb_prop in E as [E _]. by apply inv_switch.
  - destruct (at_pc s); try done. destruct (can_switch s j) eqn:E; [|done]. injection H as <-.
    apply inv_switch; [by apply inv_goto|done].
Qed.

Lemma reaches_inv s s' : quiet s -> reaches s s' -> mutex_inv s'.
Proof. intros Hq. induction 1; [by apply quiet_inv|by eapply act_inv]. Qed.

(** C9: Mutual exclusion under preemption at every access: from a fresh mutex, no
    interleaving of lock, lock_preemptible and unlock calls lets two tasks be past
    their lock call and before the release at the same time; while a task holds
    the mutex the flag is set, and [pid_owner] is the pid of that task. *)
Theorem mutex_exclusion s s' i j :
  quiet s -> reaches s s' ->
  0 <= i < len (mtasks s') -> 0 <= j < len (mtasks s') ->
  arr_get (pcs s') i = Held -> holding (arr_get (pcs s') j) = true ->
  i = j /\ locked (mtx s') = 1 /\ pid_owner (mtx s') = s32 (pid (arr_get (mtasks s') i)).
Proof.
  intros Hq Hr Hi Hj Ei Ej. destruct (reaches_inv s s' Hq Hr) as [Hl Hrun Hk H1 Ho].
  split_and!.
  - apply H1; [lia|lia|by rewrite Ei|done].
  - apply (Hk i); [lia|by rewrite Ei].
  - apply Ho; [lia|by rewrite Ei].
Qed.
End Machine.

(** * The wait queue is a first-in first-out list *)

(** The tasks linked from [head], in order. *)
Fixpoint qlist (ts : list task) (head : option Z) (l : list Z) : Prop :=
  match l with
  | [] => head = None
  | x :: l' => head = Some x /\ 0 <= x < len ts /\ qlist ts (next_of ts x) l'
  end.

Section Queue.
Implicit Types (ts : list task) (l : list Z).

Lemma len_set_next ts i n : len (set_next ts i n) = len ts.
Proof. apply len_arr_set. Qed.

Lemma next_of_set ts i n j :
  0 <= i < len ts -> 0 <= j -> next_of (set_next ts i n) j = if j =? i then n else next_of ts j.
Proof.
  intros Hi Hj. unfold next_of, set_next. rewrite arr_get_set by lia. by destruct (j =? i).
Qed.

Lemma qlist_range ts head l x : qlist ts head l -> x ∈ l -> 0 <= x < len ts.
Proof.
  revert head. induction l as [|y l IH]; intros head; cbn; [by intros _ ?%not_elem_of_nil|].
  intros (_ & Hy & Hq) [->|Hx]%elem_of_cons; [done|by eapply IH].
Qed.

(** Writing the link of a task outside the list leaves the list alone. *)
Lemma qlist_set_other ts head l i n :
  qlist ts head l -> 0 <= i < len ts -> i ∉ l -> qlist (set_next ts i n) head l.
Proof.
  revert head. induction l as [|y l IH]; intros head; cbn; [done|].
  intros (-> & Hy & Hq) Hi Hn. rewrite not_elem_of_cons in Hn. rewrite len_set_next.
  split_and!; [done|lia|lia|]. rewrite next_of_set by lia. bcase; [lia|]. apply IH; naive_solver.
Qed.

Lemma qlist_length ts head l : qlist ts head l -> NoDup l -> (length l <= length ts)%nat.
Proof.
  intros Hq Hnd. rewrite <- (length_map Z.to_nat l), <- (length_seq (length ts) 0).
  apply submseteq_length, NoDup_submseteq.
  - apply NoDup_fmap_2_strong; [|done]. intros x y Hx Hy E.
    pose proof (qlist_range _ _ _ _ Hq Hx). pose proof (qlist_range _ _ _ _ Hq Hy). lia.
  - intros k (x & -> & Hx)%list_elem_of_fmap. pose proof (qlist_range _ _ _ _ Hq Hx) as R.
    apply elem_of_seq. unfold len in R. lia.
Qed.

Lemma queue_contains_spec ts head l t fuel :
  qlist ts head l -> (length l <= fuel)%nat ->
  queue_contains fuel ts head t = Some (bool_decide (t ∈ l)).
Proof.
  revert head fuel. induction l as [|y l IH]; intros head fuel; cbn.
  - intros -> _. by destruct fuel.
  - intros (-> & Hy & Hq) Hf. destruct fuel as [|fuel]; [lia|]. cbn. bcase.
    + subst. f_equal. symmetry. apply bool_decide_eq_true_2. apply list_elem_of_here.
    + rewrite (IH _ fuel Hq) by lia. f_equal. apply bool_decide_ext. set_solver.
Qed.

Lemma last_cons l y h : List.last (y :: l) h = List.last l y.
Proof. revert y h. induction l as [|z l IH]; intros y h; [done|]. by rewrite (IH z y), <- (IH z h). Qed.

Lemma queue_tail_spec ts h l fuel :
  qlist ts (Some h) (h :: l) -> (length l <= fuel)%nat ->
  queue_tail fuel ts h = Some (List.last l h).
Proof.
  revert h fuel. induction l as [|y l IH]; intros h fuel (_ & Hh & Hq) Hf.
  - cbn in Hq. destruct fuel; cbn; by rewrite Hq.
  - pose proof Hq as (E & Hy & Hq'). destruct fuel as [|fuel]; [cbn in Hf; lia|].
    cbn [queue_tail]. rewrite E. rewrite (IH y fuel); [|by rewrite <- E|cbn in Hf; lia].
    by rewrite last_cons.
Qed.

(** Linking [t] behind the last element appends it. *)
Lemma qlist_snoc ts h l t :
  qlist ts (Some h) (h :: l) -> NoDup (h :: l) -> 0 <= t < len ts -> t ∉ h :: l ->
  next_of ts t = None ->
  qlist (set_next ts (List.last l h) (Some t)) (Some h) ((h :: l) ++ [t]).
Proof.
  revert h. induction l as [|y l IH]; intros h (_ & Hh & Hq) Hnd Ht Hn Et.
  - cbn in *. rewrite len_set_next, !next_of_set by lia. rewrite not_elem_of_cons in Hn.
    split_and!; try lia; try done.
    + bcase; [done|lia].
    + bcase; [lia|done].
  - pose proof Hq as (E & Hy & Hq').
    rewrite NoDup_cons in Hnd. destruct Hnd as [Hhn Hnd].
    rewrite last_cons. change ((h :: y :: l) ++ [t]) with (h :: ((y :: l) ++ [t])).
    split; [done|]. rewrite len_set_next. split; [lia|]. fold qlist.
    assert (Hin : List.last l y ∈ y :: l).
    { clear. revert y. induction l as [|z l IH]; intros y; [set_solver|].
      rewrite last_cons. set_solver. }
    pose proof (qlist_range _ _ _ _ Hq Hin).
    rewrite next_of_set by lia. bcase; [subst; done|]. rewrite E.
    apply IH; [by rewrite <- E|done|done|set_solver|done].
Qed.
Lemma queue_push_spec ts head l t fuel :
  qlist ts head l -> NoDup l -> 0 <= t < len ts -> t ∉ l -> (length l <= fuel)%nat ->
  exists ts' head', queue_push fuel ts head t = Some (ts', head') /\ qlist ts' head' (l ++ [t]).
Proof.
  intros Hq Hnd Ht Hn Hf. unfold queue_push.
  pose proof (qlist_set_other _ _ _ t None Hq Ht Hn) as Hq1.
  assert (Hnt : next_of (set_next ts t None) t = None) by (rewrite next_of_set by lia; by rewrite Z.eqb_refl).
  destruct l as [|h l].
  - cbn in Hq. subst head. eexists _, _. split; [done|]. cbn. rewrite len_set_next. auto.
  - assert (head = Some h) as -> by apply Hq1.
    rewrite (queue_tail_spec _ _ l); [|done|cbn in Hf; lia]. eexists _, _. split; [done|].
    apply qlist_snoc; try done. by rewrite len_set_next.
Qed.

Lemma queue_pop_spec ts head x l :
  qlist ts head (x :: l) -> NoDup (x :: l) ->
  exists ts' head', queue_pop ts head = (ts', head', Some x) /\ qlist ts' head' l.
Proof.
  intros (-> & Hx & Hq) [Hn _]%NoDup_cons. eexists _, _. split; [done|]. by apply qlist_set_other.
Qed.

(** The wait queue implements a first-in first-out list: with the number of
    tasks as loop bound, [queue_contains] decides membership, [queue_push] of a task
    that is not queued terminates and appends it, and [queue_pop] returns the
    task that has waited longest and leaves the others in order. *)
Theorem mutex_queue_fifo ts head l :
  qlist ts head l -> NoDup l ->
  (forall t, queue_contains (length ts) ts head t = Some (bool_decide (t ∈ l))) /\
  (forall t, 0 <= t < len ts -> t ∉ l ->
     exists ts' head', queue_push (length ts) ts head t = Some (ts', head') /\
       qlist ts' head' (l ++ [t]) /\ NoDup (l ++ [t])) /\
  match l with
  | [] => queue_pop ts head = (ts, head, None)
  | x :: l' => exists ts' head', queue_pop ts head = (ts', head', Some x) /\ qlist ts' head' l'
  end.
Proof.
  intros Hq Hnd. pose proof (qlist_length _ _ _ Hq Hnd) as Hlen. split_and!.
  - intros t. by apply queue_contains_spec.
  - intros t Ht Hn. destruct (queue_push_spec ts head l t (length ts)) as (ts' & h' & E & Hq'); try done.
    exists ts', h'. split_and!; [done|done|]. apply NoDup_app. split_and!; [done|set_solver|apply NoDup_singleton].
  - destruct l as [|x l]; [cbn in Hq; by subst|by apply queue_pop_spec].
Qed.
End Queue.

(** * The accesses of an undisturbed call are the queue functions *)

Section Solo.
Variable mutex_addr : Z.
Notation step := (lock_step mutex_addr).

Definition runs (s s' : msys) : Prop := exists n, Nat.iter n step s = s'.

Lemma runs_refl s : runs s s.
Proof. by exists 0%nat. Qed.
Lemma runs_step s s' : runs (step s) s' -> runs s s'.
Proof. intros [n E]. exists (S n). by rewrite Nat.iter_succ_r. Qed.

Lemma at_goto s p :
  0 <= running s < len (pcs s) -> arr_get (pcs (goto s p)) (running (goto s p)) = p.
Proof. intros H. cbn. by apply arr_get_set_eq. Qed.

Lemma goto_goto s p q : goto (goto s p) q = goto s q.
Proof. unfold goto. destruct s. cbn. by rewrite arr_set_set. Qed.

(** The loop of [queue_contains] over a list without the caller. *)
Lemma runs_contains s r node l :
  0 <= running s < len (pcs s) -> qlist (mtasks s) node l -> running s ∉ l ->
  runs (goto s (LContains r node)) (goto s (LClear r)).
Proof.
  intros Hr. revert node. induction l as [|x l IH]; intros node Hq Hn; apply runs_step.
  - cbn in Hq. subst node. unfold lock_step. rewrite at_goto by done. rewrite goto_goto. apply runs_refl.
  - destruct Hq as (-> & Hx & Hq). unfold lock_step. rewrite at_goto by done.
    rewrite not_elem_of_cons in Hn. change (running (goto s _)) with (running s).
    destruct (Z.eqb_spec x (running s)); [naive_solver|]. rewrite goto_goto.
    apply IH; naive_solver.
Qed.

(** The loop of [queue_push] that looks for the last task. *)
Lemma runs_walk s r h l :
  0 <= running s < len (pcs s) -> qlist (mtasks s) (Some h) (h :: l) ->
  runs (goto s (LWalk r h)) (goto s (LLink r (List.last l h))).
Proof.
  intros Hr. revert h. induction l as [|x l IH]; intros h (_ & Hh & Hq); apply runs_step;
    unfold lock_step; rewrite at_goto by done.
  - cbn in Hq. change (mtasks (goto s _)) with (mtasks s). rewrite Hq, goto_goto. apply runs_refl.
  - pose proof Hq as (E & _). change (mtasks (goto s _)) with (mtasks s). rewrite E, goto_goto, last_cons.
    apply IH. by rewrite <- E.
Qed.
Lemma runs_trans s1 s2 s3 : runs s1 s2 -> runs s2 s3 -> runs s1 s3.
Proof. intros [n <-] [m <-]. exists (m + n)%nat. by rewrite Nat.iter_add. Qed.

Lemma goto_upd s p i f q : goto (upd_task (goto s p) i f) q = goto (upd_task s i f) q.
Proof. unfold goto, upd_task. destruct s. cbn. by rewrite arr_set_set. Qed.
Lemma goto_mtx s p m q : goto (set_mtx (goto s p) m) q = goto (set_mtx s m) q.
Proof. unfold goto, set_mtx. destruct s. cbn. by rewrite arr_set_set. Qed.
Lemma goto_id s p : 0 <= running s < len (pcs s) -> arr_get (pcs s) (running s) = p -> goto s p = s.
Proof. intros H <-. unfold goto. destruct s. cbn in *. by rewrite arr_set_get_id. Qed.

(** The statements of [queue_push] in a row. *)
Lemma runs_push s r l :
  0 <= running s < len (pcs s) -> 0 <= running s < len (mtasks s) ->
  qlist (mtasks s) (wait_queue (mtx s)) l -> running s ∉ l ->
  exists ts' head',
    queue_push (length l) (mtasks s) (wait_queue (mtx s)) (running s) = Some (ts', head') /\
    runs (goto s (LClear r))
      (goto (s <| mtasks := ts' |> <| mtx := mtx s <| wait_queue := head' |> |>) (LState r)).
Proof.
  intros Hr Ht Hq Hn. pose proof (qlist_set_other _ _ _ _ None Hq Ht Hn) as Hq1.
  set (s1 := upd_task s (running s) (fun t : task => t <| mutex_wait_next := None |>)).
  assert (H1 : runs (goto s (LClear r)) (goto s1 (LEmpty r))).
  { apply runs_step. unfold lock_step. rewrite at_goto by done.
    change (running (goto s _)) with (running s). rewrite goto_upd. apply runs_refl. }
  unfold queue_push. destruct l as [|h l].
  - cbn in Hq. rewrite Hq. eexists _, _. split; [done|]. eapply runs_trans; [apply H1|].
    apply runs_step. unfold lock_step. rewrite at_goto by done.
    change (wait_queue (mtx (goto s1 _))) with (wait_queue (mtx s)). rewrite Hq, goto_goto.
    apply runs_step. unfold lock_step. rewrite at_goto by done. rewrite goto_mtx. apply runs_refl.
  - assert (Eh : wait_queue (mtx s) = Some h) by apply Hq. rewrite Eh in *.
    rewrite (queue_tail_spec _ _ l) by (cbn; done || lia).
    eexists _, _. split; [done|]. eapply runs_trans; [apply H1|].
    apply runs_step. unfold lock_step. rewrite at_goto by done.
    change (wait_queue (mtx (goto s1 _))) with (wait_queue (mtx s)). rewrite Eh, goto_goto.
    apply runs_step. unfold lock_step. rewrite at_goto by done.
    change (wait_queue (mtx (goto s1 _))) with (wait_queue (mtx s)). rewrite Eh, goto_goto.
    eapply runs_trans; [by apply runs_walk|].
    apply runs_step. unfold lock_step. rewrite at_goto by done. rewrite goto_upd.
    replace (mtx s <| wait_queue := Some h |>) with (mtx s) by (rewrite <- Eh; by destruct (mtx s)).
    apply runs_refl.
Qed.

(** A waiter that is not interrupted performs exactly the queue functions: the
    single accesses of [mutex_lock] between the failed test-and-set and the
    blocking of the task find that the task is not queued and append it as
    [queue_push] does. *)
Theorem mutex_enqueue_steps s r l :
  0 <= running s < len (pcs s) -> 0 <= running s < len (mtasks s) -> at_pc s = LHead r ->
  qlist (mtasks s) (wait_queue (mtx s)) l -> running s ∉ l ->
  exists n ts' head',
    queue_contains (length l) (mtasks s) (wait_queue (mtx s)) (running s) = Some false /\
    queue_push (length l) (mtasks s) (wait_queue (mtx s)) (running s) = Some (ts', head') /\
    Nat.iter n step s =
      goto (s <| mtasks := ts' |> <| mtx := mtx s <| wait_queue := head' |> |>) (LState r).
Proof.
  intros Hr Ht Hp Hq Hn. destruct (runs_push s r l) as (ts' & h' & E & Hrun); try done.
  assert (runs s (goto s (LClear r))) as H0.
  { rewrite <- (goto_id s (LHead r)) by done. apply runs_step. unfold lock_step. rewrite at_goto by done.
    rewrite !goto_goto. by eapply runs_contains. }
  destruct (runs_trans _ _ _ H0 Hrun) as [n En]. exists n, ts', h'.
  split_and!; [|done|done]. rewrite (queue_contains_spec _ _ _ _ _ Hq) by done.
  by rewrite bool_decide_false.
Qed.
End Solo.

(** * A wake-up can be lost *)

(** The queue is threaded through the table with interrupts enabled, and the
    failed test-and-set and the enqueueing are separate accesses. *)
Section Lost.
Variable mutex_addr : Z.

Definition no_call (a : action) : bool :=
  match a with AStep | ASwitch _ | AYield _ => true | _ => false end.

(** Task [b] blocks on a free mutex and no other task is inside the mutex code. *)
Record stuck (b : Z) (s : msys) : Prop := {
  st_free : locked (mtx s) = 0;
  st_blocked : state (arr_get (mtasks s) b) = TASK_BLOCKED;
  st_range : 0 <= b < len (mtasks s) /\ 0 <= running s < len (mtasks s) /\ len (pcs s) = len (mtasks s);
  st_other : running s <> b;
  st_idle : forall i, 0 <= i < len (pcs s) -> i <> b -> arr_get (pcs s) i = Idle
}.

Lemma switch_keeps_blocked s j b :
  0 <= b < len (mtasks s) -> 0 <= j < len (mtasks s) -> 0 <= running s < len (mtasks s) -> j <> b ->
  state (arr_get (mtasks s) b) = TASK_BLOCKED ->
  state (arr_get (mtasks (switch_to s j)) b) = TASK_BLOCKED.
Proof.
  intros Hb Hj Hr Hne E. unfold switch_to, upd_task. cbn.
  rewrite arr_get_set by (rewrite ?len_arr_set; lia). destruct (Z.eqb_spec b j); [lia|].
  rewrite arr_get_set by lia. destruct (Z.eqb_spec b (running s)); [|done].
  subst. by rewrite E.
Qed.

Lemma stuck_step b s a s' :
  stuck b s -> no_call a = true -> act mutex_addr a s = Some s' -> stuck b s'.
Proof.
  intros [Hf Hb Hr Ho Hi] Ha H. pose proof Hr as (Hb0 & Hr0 & Hl0).
  assert (Hpc : at_pc s = Idle) by (apply Hi; lia).
  destruct a; try done; cbn [act] in H; rewrite ?Hpc in H.
  - by injection H as <-.
  - destruct (can_switch s j && _) eqn:Hc; [|done]. injection H as <-.
    apply andb_prop in Hc as [Hc _]. unfold can_switch in Hc.
    apply andb_prop in Hc as [Hc Hst]. repeat bcase_in Hc; cbn in Hc; try done.
    assert (j <> b) by (intros ->; by rewrite Hb in Hst).
    split; [done|by apply switch_keeps_blocked| |done|done].
    cbn. rewrite !len_arr_set. lia.
  - done.
Qed.

Lemma stuck_acts b l s s' :
  stuck b s -> Forall (fun a => no_call a = true) l -> acts mutex_addr l s = Some s' -> stuck b s'.
Proof.
  intros Hs HF. revert s Hs. induction HF as [|a l Ha HF IH]; intros s Hs; cbn [acts]; [by intros [= <-]|].
  destruct (act _ a s) as [s1|] eqn:E; [|done]. apply IH. by eapply stuck_step.
Qed.
End Lost.

Lemma acts_reaches addr l s s' : acts addr l s = Some s' -> reaches addr s s'.
Proof.
  enough (forall s0, reaches addr s0 s -> acts addr l s = Some s' -> reaches addr s0 s') as H.
  { apply H. constructor. }
  revert s. induction l as [|a l IH]; intros s s0 H0; cbn [acts]; [by intros [= <-]|].
  destruct (act addr a s) as [s1|] eqn:E; [|done]. apply IH. by econstructor.
Qed.

(** Two tasks with interrupts enabled; task 0 runs. *)
Definition two_tasks : msys :=
  mk_msys mutex_init
    [zero_task <| pid := 1 |> <| state := TASK_RUNNING |>; zero_task <| pid := 2 |> <| state := TASK_READY |>]
    [Idle; Idle] [true; true] 0.

(** Task 1 fails its test-and-set, is preempted, task 0 releases the mutex and
    finds nobody queued, then task 1 queues itself and blocks. *)
Definition lost_trace : list action :=
  [ALock; AStep; AStep; ASwitch 1; ALock; AStep; ASwitch 0;
   AUnlock; AStep; AStep; AStep; ASwitch 1;
   AStep; AStep; AStep; AStep; AStep; AStep; AStep; AStep; AStep; AYield 0].

Lemma two_tasks_quiet : quiet two_tasks.
Proof. split_and!; try done. by repeat constructor. Qed.

(** [mutex_lock] can lose a wake-up.  From a fresh mutex and two tasks an
    interleaving reaches a state in which task 1 is blocked on the mutex although
    it is free and no task is inside the mutex code; as long as no task calls
    the mutex again, no further execution unblocks task 1. *)
Theorem mutex_lost_wakeup addr :
  exists s, reaches addr two_tasks s /\
    locked (mtx s) = 0 /\ wait_reason (arr_get (mtasks s) 1) = TASK_WAIT_MUTEX /\
    arr_get (pcs s) 0 = Idle /\
    forall l s', Forall (fun a => no_call a = true) l -> acts addr l s = Some s' ->
      state (arr_get (mtasks s') 1) = TASK_BLOCKED.
Proof.
  destruct (acts addr lost_trace two_tasks) as [s|] eqn:E; [|by vm_compute in E].
  exists s. assert (H : reaches addr two_tasks s) by by eapply acts_reaches.
  vm_compute in E. injection E as <-. split_and!; [done..|].
  intros l s' HF Hl. apply (stuck_acts addr 1) in Hl; [by destruct Hl| |done].
  split; [done|done| |done|].
  - vm_compute. intuition discriminate.
  - intros i Hi Hne. unfold len in Hi. cbn in Hi. by assert (i = 0) as -> by lia.
Qed.

Lemma mutex_exclusion_witness :
  let s := default two_tasks (acts 4096 (take 5 lost_trace) two_tasks) in
  0 = 0 /\ locked (mtx s) = 1 /\ pid_owner (mtx s) = s32 (pid (arr_get (mtasks s) 0)).
Proof.
  intros s. apply (mutex_exclusion 4096 two_tasks s 0 0); try (vm_compute; done).
  - apply two_tasks_quiet.
  - apply (acts_reaches 4096 (take 5 lost_trace)). vm_compute. reflexivity.
Defined.

(** Task 1 waits, task 0 comes second. *)
Definition queued_tasks : list task := set_next (mtasks two_tasks) 1 None.

Lemma mutex_queue_fifo_witness :
  exists ts' head', queue_push 2 queued_tasks (Some 1) 0 = Some (ts', head') /\
    qlist ts' head' [1; 0] /\ NoDup [1; 0].
Proof.
  refine (proj1 (proj2 (mutex_queue_fifo queued_tasks (Some 1) [1] _ _)) 0 _ _).
  - split_and!; try done.
  - apply NoDup_singleton.
  - done.
  - by intros ?%list_elem_of_singleton.
Defined.

Lemma mutex_enqueue_steps_witness :
  let s := goto two_tasks (LHead false) in
  exists n ts' head',
    queue_contains 0 (mtasks s) None 0 = Some false /\
    queue_push 0 (mtasks s) None 0 = Some (ts', head') /\
    Nat.iter n (lock_step 4096) s =
      goto (s <| mtasks := ts' |> <| mtx := mtx s <| wait_queue := head' |> |>) (LState false).
Proof.
  intros s. apply (mutex_enqueue_steps 4096 s false []); try done.
  apply not_elem_of_nil.
Defined.
