(* ===== verification/TcpWire.v ===== *)
(** The TCP wire format of [src/src/kernel/tcp.c]: byte order
    ([src/include/sys/socket.h]), header serialisation and parsing, the Internet
    checksum over the pseudo-header, and sequence-number comparison
    ([src/include/tcp.h]).  Packets are lists of bytes in memory order; a packed
    struct of the little-endian target is the concatenation of its fields' bytes. *)

From S2P Require Import Prelude.

(** * Byte order *)

Definition htons (v : Z) : Z := u16 (Z.lor (Z.shiftl v 8) (Z.shiftr v 8)).
Definition ntohs (v : Z) : Z := htons v.

Definition htonl (v : Z) : Z :=
  Z.lor (Z.lor (Z.lor (u32 (Z.shiftl (Z.land v 0xFF) 24)) (u32 (Z.shiftl (Z.land v 0xFF00) 8)))
    (Z.shiftr (Z.land v 0xFF0000) 8)) (Z.shiftr (Z.land v 0xFF000000) 24).
Definition ntohl (v : Z) : Z := htonl v.

(** Fields in memory. *)
Definition le16 (v : Z) : list Z := [v mod 256; v / 256 mod 256].
Definition le32 (v : Z) : list Z :=
  [v mod 256; v / 256 mod 256; v / 65536 mod 256; v / 16777216 mod 256].
Definition get16 (b : list Z) (off : Z) : Z := arr_get b off + 256 * arr_get b (off + 1).
Definition get32 (b : list Z) (off : Z) : Z :=
  arr_get b off + 256 * arr_get b (off + 1) + 65536 * arr_get b (off + 2) + 16777216 * arr_get b (off + 3).

Definition is_bytes (l : list Z) : Prop := Forall is_u8 l.

(** * Headers *)

Record tcp_header := mk_header {
  src_port : Z; dest_port : Z; seq_num : Z; ack_num : Z;
  data_offset_flags : Z; window_size : Z; checksum : Z; urgent_ptr : Z
}.
#[export] Instance eta_tcp_header : Eta tcp_header := fun h =>
  mk_header (src_port h) (dest_port h) (seq_num h) (ack_num h) (data_offset_flags h)
    (window_size h) (checksum h) (urgent_ptr h).

Definition TCP_HEADER_MIN_SIZE : Z := 20.

(** A header struct stored in memory, and read back. *)
Definition header_bytes (h : tcp_header) : list Z :=
  le16 (src_port h) ++ le16 (dest_port h) ++ le32 (seq_num h) ++ le32 (ack_num h) ++
  le16 (data_offset_flags h) ++ le16 (window_size h) ++ le16 (checksum h) ++ le16 (urgent_ptr h).
Definition load_header (b : list Z) : tcp_header :=
  mk_header (get16 b 0) (get16 b 2) (get32 b 4) (get32 b 8) (get16 b 12) (get16 b 14)
    (get16 b 16) (get16 b 18).

(** [htons]/[htonl] on every field. *)
Definition swap_header (h : tcp_header) : tcp_header :=
  mk_header (htons (src_port h)) (htons (dest_port h)) (htonl (seq_num h)) (htonl (ack_num h))
    (htons (data_offset_flags h)) (htons (window_size h)) (htons (checksum h)) (htons (urgent_ptr h)).

(** The result and the buffer afterwards. *)
Definition tcp_serialize_header (hdr : tcp_header) (buffer : list Z) (buf_size : Z) : Z * list Z :=
  if buf_size <? TCP_HEADER_MIN_SIZE then (-1, buffer)
  else (TCP_HEADER_MIN_SIZE, header_bytes (swap_header hdr) ++ drop 20 buffer).

Definition tcp_parse_header (buffer : list Z) (length : Z) : option tcp_header :=
  if length <? TCP_HEADER_MIN_SIZE then None else Some (swap_header (load_header buffer)).

(** * Checksum *)

(** The loop over 16-bit words, then the odd byte. *)
Fixpoint tcp_checksum_add (sum : Z) (bytes : list Z) : Z :=
  match bytes with
  | lo :: hi :: rest => tcp_checksum_add (u32 (sum + ntohs (lo + 256 * hi))) rest
  | [b] => u32 (sum + Z.shiftl b 8)
  | [] => sum
  end.

(** [while ((sum >> 16) != 0) sum = (sum & 0xFFFF) + (sum >> 16);] *)
Fixpoint fold16 (fuel : nat) (sum : Z) : Z :=
  match fuel with
  | O => sum
  | S fuel' =>
      if Z.shiftr sum 16 =? 0 then sum
      else fold16 fuel' (u32 (Z.land sum 0xFFFF + Z.shiftr sum 16))
  end.

(** Two rounds leave 16 bits of any 32-bit sum ([fold16_done]). *)
Definition tcp_checksum_finish (sum : Z) : Z := u16 (lnot32 (fold16 3 sum)).

Definition IP_PROTO_TCP : Z := 6.

Definition tcp_checksum (src_ip dest_ip : Z) (segment : list Z) : Z :=
  let length := len segment in
  if 0xFFFF <? length then 0
  else
    let sum := tcp_checksum_add 0 (le32 src_ip) in
    let sum := tcp_checksum_add sum (le32 dest_ip) in
    let sum := u32 (sum + IP_PROTO_TCP) in
    let sum := u32 (sum + u16 length) in
    let sum := tcp_checksum_add sum segment in
    tcp_checksum_finish sum.

(** How every sender finishes a packet: the header with a zero checksum field
    and the payload, then the checksum in place, zero being sent as [0xFFFF]. *)
Definition make_packet (local_ip remote_ip : Z) (h : tcp_header) (payload : list Z) : list Z :=
  let packet := header_bytes (swap_header (h <| checksum := 0 |>)) ++ payload in
  let csum := tcp_checksum local_ip remote_ip packet in
  let csum := if csum =? 0 then 0xFFFF else csum in
  header_bytes (swap_header (h <| checksum := csum |>)) ++ payload.

(** * Sequence numbers *)

Definition TCP_SEQ_LT (a b : Z) : bool := s32 (u32 a - u32 b) <? 0.
Definition TCP_SEQ_LE (a b : Z) : bool := s32 (u32 a - u32 b) <=? 0.
Definition TCP_SEQ_GT (a b : Z) : bool := 0 <? s32 (u32 a - u32 b).
Definition TCP_SEQ_GE (a b : Z) : bool := 0 <=? s32 (u32 a - u32 b).
Definition TCP_SEQ_EQ (a b : Z) : bool := u32 a =? u32 b.

(** * Byte order lemmas *)

Lemma htons_swap lo hi : is_u8 lo -> is_u8 hi -> htons (lo + 256 * hi) = hi + 256 * lo.
Proof.
  intros Hlo Hhi. unfold htons. rewrite Z.shiftr_div_pow2, Z.shiftl_mul_pow2 by lia.
  rewrite lor_add by (change (2 ^ 8) with 256; ulia). change (2 ^ 8) with 256. ulia.
Qed.

(** Selecting the byte at bit [k]. *)
Lemma land_byte v k : 0 <= k -> Z.land v (255 * 2 ^ k) = (v / 2 ^ k mod 256) * 2 ^ k.
Proof.
  intros Hk. rewrite <- !Z.shiftl_mul_pow2, <- Z.shiftr_div_pow2 by lia.
  change 255 with (Z.ones 8). change 256 with (2 ^ 8). rewrite <- Z.land_ones by lia.
  apply Z.bits_inj'. intros n Hn. rewrite Z.land_spec, !Z.shiftl_spec by lia.
  destruct (Z_lt_le_dec n k); [by rewrite !(Z.testbit_neg_r _ (n - k)), andb_false_r by lia|].
  rewrite Z.land_spec, Z.shiftr_spec by lia. by replace (n - k + k) with n by lia.
Qed.

Lemma htonl_swap a b c d :
  is_u8 a -> is_u8 b -> is_u8 c -> is_u8 d ->
  htonl (a + 256 * b + 65536 * c + 16777216 * d) = d + 256 * c + 65536 * b + 16777216 * a.
Proof.
  intros Ha Hb Hc Hd. set (v := a + 256 * b + 65536 * c + 16777216 * d). unfold htonl.
  change 0xFF with (255 * 2 ^ 0). change 0xFF00 with (255 * 2 ^ 8).
  change 0xFF0000 with (255 * 2 ^ 16). change 0xFF000000 with (255 * 2 ^ 24).
  rewrite !land_byte, !Z.shiftr_div_pow2, !Z.shiftl_mul_pow2 by lia.
  change (2 ^ 0) with 1. change (2 ^ 8) with 256. change (2 ^ 16) with 65536. change (2 ^ 24) with 16777216.
  replace (v / 1 mod 256) with a by (subst v; ulia). replace (v / 256 mod 256) with b by (subst v; ulia).
  replace (v / 65536 mod 256) with c by (subst v; ulia). replace (v / 16777216 mod 256) with d by (subst v; ulia).
  rewrite (u32_id (a * 1 * 16777216)), (u32_id (b * 256 * 256)) by ulia.
  replace (c * 65536 / 256) with (c * 256) by ulia. replace (d * 16777216 / 16777216) with d by ulia.
  replace (a * 1 * 16777216) with (a * 2 ^ 24) by lia.
  rewrite (lor_add a) by (change (2 ^ 24) with 16777216; ulia).
  replace (a * 2 ^ 24 + b * 256 * 256) with ((a * 256 + b) * 2 ^ 16) by lia.
  rewrite lor_add by (change (2 ^ 16) with 65536; ulia).
  replace ((a * 256 + b) * 2 ^ 16 + c * 256) with ((a * 65536 + b * 256 + c) * 2 ^ 8) by lia.
  rewrite lor_add by (change (2 ^ 8) with 256; ulia). lia.
Qed.

(** A 16- or 32-bit value as its bytes. *)
Lemma split16 v : is_u16 v -> exists lo hi, is_u8 lo /\ is_u8 hi /\ v = lo + 256 * hi.
Proof. intros. exists (v mod 256), (v / 256). ulia. Qed.
Lemma split32 v : is_u32 v -> exists a b c d,
  is_u8 a /\ is_u8 b /\ is_u8 c /\ is_u8 d /\ v = a + 256 * b + 65536 * c + 16777216 * d.
Proof.
  intros. exists (v mod 256), (v / 256 mod 256), (v / 65536 mod 256), (v / 16777216). ulia.
Qed.

Lemma htons_involutive v : is_u16 v -> htons (htons v) = v.
Proof. intros (lo & hi & Hlo & Hhi & ->)%split16. by rewrite !htons_swap. Qed.
Lemma htonl_involutive v : is_u32 v -> htonl (htonl v) = v.
Proof. intros (a & b & c & d & Ha & Hb & Hc & Hd & ->)%split32. by rewrite !htonl_swap. Qed.
Lemma htons_u16 v : is_u16 (htons v).
Proof. apply u16_range. Qed.
Lemma htonl_u32 v : is_u32 v -> is_u32 (htonl v).
Proof. intros (a & b & c & d & Ha & Hb & Hc & Hd & ->)%split32. rewrite htonl_swap by done. ulia. Qed.

(** Evaluate the constant indices of array accesses. *)
Ltac eval_indices :=
  repeat match goal with
  | |- context [Z.to_nat ?z] =>
      let n := eval vm_compute in (Z.to_nat z) in change (Z.to_nat z) with n
  end.

(** * Headers round-trip *)

Definition header_ok (h : tcp_header) : Prop :=
  is_u16 (src_port h) /\ is_u16 (dest_port h) /\ is_u32 (seq_num h) /\ is_u32 (ack_num h) /\
  is_u16 (data_offset_flags h) /\ is_u16 (window_size h) /\ is_u16 (checksum h) /\ is_u16 (urgent_ptr h).

Lemma le16_val v : is_u16 v -> v mod 256 + 256 * (v / 256 mod 256) = v.
Proof. ulia. Qed.
Lemma le32_val v : is_u32 v ->
  v mod 256 + 256 * (v / 256 mod 256) + 65536 * (v / 65536 mod 256) +
  16777216 * (v / 16777216 mod 256) = v.
Proof. ulia. Qed.

Lemma load_header_bytes h rest : header_ok h -> load_header (header_bytes h ++ rest) = h.
Proof.
  intros (H1 & H2 & H3 & H4 & H5 & H6 & H7 & H8). destruct h; cbn in *.
  unfold load_header, get16, get32, arr_get. eval_indices. cbn -[Z.mul Z.add Z.modulo Z.div].
  f_equal; auto using le16_val, le32_val.
Qed.

Lemma swap_header_ok h : header_ok h -> header_ok (swap_header h).
Proof.
  intros (H1 & H2 & H3 & H4 & H5 & H6 & H7 & H8).
  unfold header_ok, swap_header; cbn. split_and!; auto using htons_u16, htonl_u32.
Qed.
Lemma swap_header_involutive h : header_ok h -> swap_header (swap_header h) = h.
Proof.
  intros (H1 & H2 & H3 & H4 & H5 & H6 & H7 & H8). destruct h; unfold swap_header; cbn in *.
  by rewrite !htons_involutive, !htonl_involutive.
Qed.

Lemma length_header_bytes h : length (header_bytes h) = 20%nat.
Proof. done. Qed.

Lemma is_bytes_mod v : is_u8 (v mod 256).
Proof. ulia. Qed.

Lemma le16_bytes lo hi : is_u8 lo -> is_u8 hi -> le16 (lo + 256 * hi) = [lo; hi].
Proof. intros. unfold le16. f_equal; [ulia|f_equal; ulia]. Qed.
Lemma le32_bytes a b c d : is_u8 a -> is_u8 b -> is_u8 c -> is_u8 d ->
  le32 (a + 256 * b + 65536 * c + 16777216 * d) = [a; b; c; d].
Proof. intros. unfold le32. f_equal; [ulia|f_equal; [ulia|f_equal; [ulia|f_equal; ulia]]]. Qed.

(** The first twenty bytes are the struct that is read from them. *)
Lemma header_bytes_load b :
  is_bytes b -> 20 <= len b ->
  header_ok (load_header b) /\ header_bytes (load_header b) = take 20 b.
Proof.
  intros Hb Hl. unfold len in Hl.
  do 20 (destruct b as [|? b]; [cbn in Hl; lia|]). clear Hl.
  unfold is_bytes in Hb. repeat (apply Forall_cons in Hb as [? Hb]).
  unfold header_ok, header_bytes, load_header, get16, get32, arr_get. eval_indices.
  cbn [src_port dest_port seq_num ack_num data_offset_flags window_size checksum urgent_ptr
       lookup_total list_lookup_total].
  split; [split_and!; ulia|].
  rewrite !le32_bytes, !le16_bytes by done. done.
Qed.

(** Header serialisation and parsing are inverse to each other: parsing what
    [tcp_serialize_header] wrote returns the header, serialising a parsed header
    reproduces the bytes it was read from, and both reject buffers shorter than
    the 20 bytes of the header. *)
Theorem tcp_header_roundtrip hdr buffer :
  header_ok hdr -> is_bytes buffer -> 20 <= len buffer ->
  (exists out, tcp_serialize_header hdr buffer (len buffer) = (20, out) /\
     len out = len buffer /\ tcp_parse_header out (len out) = Some hdr) /\
  (exists h, tcp_parse_header buffer (len buffer) = Some h /\
     tcp_serialize_header h buffer (len buffer) = (20, buffer)) /\
  forall n, n < 20 -> tcp_serialize_header hdr buffer n = (-1, buffer) /\ tcp_parse_header buffer n = None.
Proof.
  intros Hh Hb Hl. unfold tcp_serialize_header, tcp_parse_header, TCP_HEADER_MIN_SIZE.
  destruct (Z.ltb_spec (len buffer) 20); [lia|]. split_and!.
  - eexists. split; [done|].
    assert (Hlen : len (header_bytes (swap_header hdr) ++ drop 20 buffer) = len buffer).
    { unfold len in *. rewrite length_app, length_header_bytes, length_drop. lia. }
    split; [done|]. rewrite Hlen. destruct (Z.ltb_spec (len buffer) 20); [lia|].
    by rewrite load_header_bytes, swap_header_involutive by auto using swap_header_ok.
  - eexists. split; [done|]. destruct (header_bytes_load buffer Hb Hl) as [Hok E].
    by rewrite swap_header_involutive, E, take_drop.
  - intros n Hn. by destruct (Z.ltb_spec n 20); [|lia].
Qed.

(** * The checksum *)

(** The sum of the big-endian 16-bit words, an odd last byte padded with zero. *)
Fixpoint sum16 (l : list Z) : Z :=
  match l with
  | a :: b :: l' => 256 * a + b + sum16 l'
  | [a] => 256 * a
  | [] => 0
  end.

(** Induction two elements at a time. *)
Lemma pair_ind {A} (P : list A -> Prop) :
  P [] -> (forall a, P [a]) -> (forall a b l, P l -> P (a :: b :: l)) -> forall l, P l.
Proof.
  intros H0 H1 H2 l. enough (P l /\ forall a, P (a :: l)) by tauto.
  induction l as [|x l [IH IH']]; split; auto.
Qed.

Lemma sum16_bounds l : is_bytes l -> 0 <= sum16 l <= 65535 * ((len l + 1) / 2).
Proof.
  unfold len. induction l as [|a|a b l IH] using pair_ind; intros Hb.
  - vm_compute. intuition discriminate.
  - apply Forall_cons in Hb as [Ha _]. cbn [sum16 length]. ulia.
  - apply Forall_cons in Hb as [Ha Hb]. apply Forall_cons in Hb as [Hb' Hb]. specialize (IH Hb).
    cbn [sum16 length]. ulia.
Qed.

Lemma checksum_add_spec sum l :
  is_bytes l -> 0 <= sum -> sum + sum16 l < 4294967296 -> tcp_checksum_add sum l = sum + sum16 l.
Proof.
  revert sum. induction l as [|a|a b l IH] using pair_ind; intros sum Hb H0 H1.
  - cbn. lia.
  - apply Forall_cons in Hb as [Ha _]. cbn [sum16 tcp_checksum_add] in *.
    rewrite Z.shiftl_mul_pow2 by lia. rewrite u32_id by ulia. lia.
  - apply Forall_cons in Hb as [Ha Hb]. apply Forall_cons in Hb as [Hb' Hb].
    pose proof (sum16_bounds l Hb). cbn [sum16 tcp_checksum_add] in *.
    unfold ntohs. rewrite htons_swap by done. rewrite u32_id by ulia.
    rewrite IH by (done || ulia). lia.
Qed.

(** Folding keeps the sum modulo 65535 and stops after two rounds. *)
Lemma fold16_done s :
  is_u32 s -> fold16 3 s = if s =? 0 then 0 else 1 + (s - 1) mod 65535.
Proof.
  intros Hs. assert (Hstep : forall x, is_u32 x ->
    u32 (Z.land x 0xFFFF + Z.shiftr x 16) = x mod 65536 + x / 65536).
  { intros x Hx. change 0xFFFF with (Z.ones 16). rewrite Z.land_ones, Z.shiftr_div_pow2 by lia.
    change (2 ^ 16) with 65536. ulia. }
  cbn [fold16]. rewrite (Hstep s Hs). set (s1 := s mod 65536 + s / 65536).
  assert (H1 : 0 <= s1 <= 131070 /\ s1 mod 65535 = s mod 65535 /\ (s1 = 0 -> s = 0)) by (subst s1; ulia).
  clearbody s1. rewrite (Hstep s1) by ulia. set (s2 := s1 mod 65536 + s1 / 65536).
  assert (H2 : 0 <= s2 <= 65535 /\ s2 mod 65535 = s1 mod 65535 /\ (s2 = 0 -> s1 = 0)) by (subst s2; ulia).
  clearbody s2. rewrite !Z.shiftr_div_pow2 by lia. change (2 ^ 16) with 65536.
  replace (s2 / 65536) with 0 by ulia. cbn [Z.eqb].
  destruct (Z.eqb_spec (s / 65536) 0); [bcase; ulia|].
  destruct (Z.eqb_spec s 0); [ulia|].
  destruct (Z.eqb_spec (s1 / 65536) 0); ulia.
Qed.

Lemma lnot32_val z : is_u32 z -> lnot32 z = 4294967295 - z.
Proof.
  intros Hz. assert (lnot32 z = Z.land (Z.lnot z) (Z.ones 32)) as ->.
  { unfold lnot32. change 4294967295 with (Z.ones 32). apply Z.bits_inj'. intros n Hn.
    rewrite Z.lxor_spec, Z.land_spec. destruct (Z_lt_le_dec n 32).
    - rewrite Z.ones_spec_low by lia. rewrite Z.lnot_spec by lia. by rewrite xorb_true_r, andb_true_r.
    - rewrite Z.ones_spec_high by lia. rewrite andb_false_r, xorb_false_r.
      rewrite <- (Z.mod_small z (2 ^ 32)) by ulia. apply Z.mod_pow2_bits_high. lia. }
  rewrite Z.land_ones by lia. unfold Z.lnot. change (2 ^ 32) with 4294967296. ulia.
Qed.

(** What the checksum adds up, before folding. *)
Definition checksum_total (src_ip dest_ip : Z) (segment : list Z) : Z :=
  sum16 (le32 src_ip) + sum16 (le32 dest_ip) + 6 + len segment + sum16 segment.

Lemma le32_is_bytes v : is_bytes (le32 v).
Proof. unfold le32. repeat constructor; ulia. Qed.

Lemma tcp_checksum_spec src_ip dest_ip segment :
  is_bytes segment -> len segment <= 65535 ->
  0 < checksum_total src_ip dest_ip segment /\
  tcp_checksum src_ip dest_ip segment =
    65534 - (checksum_total src_ip dest_ip segment - 1) mod 65535.
Proof.
  intros Hb Hl. unfold tcp_checksum, tcp_checksum_finish, checksum_total, IP_PROTO_TCP.
  destruct (Z.ltb_spec 65535 (len segment)); [lia|].
  pose proof (sum16_bounds _ (le32_is_bytes src_ip)) as B1.
  pose proof (sum16_bounds _ (le32_is_bytes dest_ip)) as B2.
  pose proof (sum16_bounds _ Hb) as B3.
  change ((len (le32 _) + 1) / 2) with 2 in B1, B2.
  assert (0 <= len segment) by (unfold len; lia).
  assert ((len segment + 1) / 2 <= 32768) by ulia.
  rewrite (checksum_add_spec 0) by (apply le32_is_bytes || lia).
  rewrite (checksum_add_spec (0 + _)) by (apply le32_is_bytes || lia).
  rewrite (u16_id (len segment)), (u32_id (_ + 6)), (u32_id (_ + len segment)) by ulia.
  rewrite checksum_add_spec by (done || lia). split; [lia|].
  rewrite fold16_done by ulia. bcase; [lia|]. rewrite lnot32_val by ulia. ulia.
Qed.

Lemma tcp_checksum_zero src_ip dest_ip segment :
  is_bytes segment -> len segment <= 65535 ->
  (tcp_checksum src_ip dest_ip segment = 0 <-> checksum_total src_ip dest_ip segment mod 65535 = 0).
Proof.
  intros Hb Hl. destruct (tcp_checksum_spec src_ip dest_ip segment Hb Hl) as [H0 ->]. ulia.
Qed.

Lemma sum16_app pre post :
  Nat.even (length pre) = true -> sum16 (pre ++ post) = sum16 pre + sum16 post.
Proof.
  induction pre as [|a|a b pre IH] using pair_ind; intros He; [done|done|].
  cbn [app sum16]. rewrite IH by done. lia.
Qed.

(** Changing one byte changes the sum by less than 65535. *)
Lemma sum16_set l i v :
  0 <= i < len l -> is_u8 v -> is_bytes l -> exists k,
  (k = 1 \/ k = 256) /\ sum16 (arr_set l i v) = sum16 l + k * (v - arr_get l i).
Proof.
  revert i. induction l as [|a|a b l IH] using pair_ind; intros i Hi Hv Hb; unfold len in Hi.
  - cbn in Hi. lia.
  - cbn in Hi. assert (i = 0) as -> by lia. exists 256. split; [by right|]. change (256 * v = 256 * a + 256 * (v - a)). lia.
  - destruct (Z.eq_dec i 0) as [->|]; [exists 256; split; [by right|]; change (256 * v + b + sum16 l = 256 * a + b + sum16 l + 256 * (v - a)); lia|].
    destruct (Z.eq_dec i 1) as [->|]; [exists 1; split; [by left|]; change (256 * a + v + sum16 l = 256 * a + b + sum16 l + 1 * (v - b)); lia|].
    apply Forall_cons in Hb as [_ Hb]. apply Forall_cons in Hb as [_ Hb]. cbn [length] in Hi.
    destruct (IH (i - 2)) as (k & Hk & E); [unfold len; lia|done|done|]. exists k. split; [done|].
    rewrite !arr_get_cons by lia. unfold arr_set in *.
    replace (Z.to_nat i) with (S (S (Z.to_nat (i - 2)))) by lia.
    change (256 * a + b + sum16 (<[Z.to_nat (i - 2):=v]> l) = 256 * a + b + sum16 l + k * (v - arr_get l (i - 1 - 1))).
    rewrite E.
    replace (i - 1 - 1) with (i - 2) by lia. lia.
Qed.

Lemma sum16_header h payload c :
  is_u16 c ->
  sum16 (header_bytes (swap_header (h <| checksum := c |>)) ++ payload) =
  sum16 (header_bytes (swap_header (h <| checksum := 0 |>)) ++ payload) + c.
Proof.
  intros (lo & hi & Hlo & Hhi & ->)%split16.
  rewrite !sum16_app by done. unfold header_bytes, swap_header. cbn [src_port dest_port seq_num
    ack_num data_offset_flags window_size checksum urgent_ptr]. cbn -[Z.mul Z.add Z.modulo Z.div htons htonl].
  change (htons 0) with 0. rewrite htons_swap by done. ulia.
Qed.

Lemma header_bytes_is_bytes h : is_bytes (header_bytes h).
Proof. unfold header_bytes, le16, le32. repeat constructor; ulia. Qed.

Lemma make_packet_facts local_ip remote_ip h payload :
  is_bytes payload -> len payload <= 65515 ->
  let packet := make_packet local_ip remote_ip h payload in
  is_bytes packet /\ len packet = 20 + len payload /\ tcp_checksum local_ip remote_ip packet = 0.
Proof.
  intros Hp Hl packet.
  set (p0 := header_bytes (swap_header (h <| checksum := 0 |>)) ++ payload).
  assert (Hlen : forall h', len (header_bytes h' ++ payload) = 20 + len payload)
    by (intros; unfold len; rewrite length_app, length_header_bytes; lia).
  assert (Hby : forall h', is_bytes (header_bytes h' ++ payload))
    by (intros; apply Forall_app; split; [apply header_bytes_is_bytes|done]).
  split_and!; [apply Hby|apply Hlen|].
  apply tcp_checksum_zero; [apply Hby|unfold packet, make_packet; rewrite Hlen; lia|].
  destruct (tcp_checksum_spec local_ip remote_ip p0) as [H0 Hc]; [apply Hby|unfold p0; rewrite Hlen; lia|].
  unfold packet, make_packet. fold p0. set (c := tcp_checksum local_ip remote_ip p0) in *.
  unfold checksum_total in *. rewrite Hlen, sum16_header by (bcase; ulia). fold p0.
  assert (len p0 = 20 + len payload) by apply Hlen. clearbody c p0. bcase; ulia.
Qed.

(** The checksum protects segments: every packet a sender finishes verifies to
    zero at the receiver, whatever its header and payload, and in a segment that
    verifies, no change of a single byte does. *)
Theorem tcp_checksum_protects local_ip remote_ip h payload segment i v :
  is_bytes payload -> len payload <= 65515 ->
  is_bytes segment -> len segment <= 65535 -> 0 <= i < len segment ->
  is_u8 v -> v <> arr_get segment i -> tcp_checksum local_ip remote_ip segment = 0 ->
  tcp_checksum local_ip remote_ip (make_packet local_ip remote_ip h payload) = 0 /\
  tcp_checksum local_ip remote_ip (arr_set segment i v) <> 0.
Proof.
  intros Hp Hl Hs Hsl Hi Hv Hne Hz. split; [by apply make_packet_facts|].
  apply tcp_checksum_zero in Hz; [|done..]. rewrite tcp_checksum_zero;
    [|by apply arr_set_Forall|by rewrite len_arr_set].
  pose proof (arr_get_Forall _ _ _ Hs Hi) as Hb. cbn beta in Hb.
  destruct (sum16_set segment i v) as (k & Hk & E); [done..|].
  unfold checksum_total in *. rewrite len_arr_set, E.
  destruct Hk as [-> | ->]; ulia.
Qed.

Lemma seq_facts x y :
  Z.abs (x - y) < 2147483648 ->
  TCP_SEQ_LT (u32 x) (u32 y) = (x <? y) /\ TCP_SEQ_LE (u32 x) (u32 y) = (x <=? y) /\
  TCP_SEQ_GT (u32 x) (u32 y) = (y <? x) /\ TCP_SEQ_GE (u32 x) (u32 y) = (y <=? x) /\
  TCP_SEQ_EQ (u32 x) (u32 y) = (x =? y).
Proof.
  intros H. unfold TCP_SEQ_LT, TCP_SEQ_LE, TCP_SEQ_GT, TCP_SEQ_GE, TCP_SEQ_EQ.
  assert (Hd : s32 (u32 (u32 x) - u32 (u32 y)) = x - y) by ulia. rewrite Hd.
  assert (He : (u32 (u32 x) = u32 (u32 y)) <-> x = y) by ulia.
  split_and!; apply eq_true_iff_eq; rewrite ?Z.ltb_lt, ?Z.leb_le, ?Z.eqb_eq; lia || tauto.
Qed.

(** Comparison of sequence numbers is comparison of stream positions: for two
    positions less than 2^31 apart, however often the 32-bit number has wrapped
    around, the macros decide the order of the positions. *)
Theorem tcp_seq_order x y :
  Z.abs (x - y) < 2147483648 ->
  TCP_SEQ_LT (u32 x) (u32 y) = (x <? y) /\ TCP_SEQ_LE (u32 x) (u32 y) = (x <=? y) /\
  TCP_SEQ_GT (u32 x) (u32 y) = (y <? x) /\ TCP_SEQ_GE (u32 x) (u32 y) = (y <=? x) /\
  TCP_SEQ_EQ (u32 x) (u32 y) = (x =? y).
Proof. apply seq_facts. Qed.

(** * Instances *)

Definition demo_header : tcp_header := mk_header 49152 80 0xFFFFFFF0 7 0x5018 8192 0 0.
Definition demo_ip : Z := htonl 0x0A00020F.
Definition peer_ip : Z := htonl 0x0A000202.

Lemma demo_header_ok : header_ok demo_header.
Proof. unfold header_ok. cbn. ulia. Qed.

Lemma tcp_header_roundtrip_witness :
  exists out, tcp_serialize_header demo_header (replicate 24 0) 24 = (20, out) /\
    len out = 24 /\ tcp_parse_header out (len out) = Some demo_header.
Proof.
  refine (proj1 (tcp_header_roundtrip demo_header (replicate 24 0) _ _ _)).
  - apply demo_header_ok.
  - apply Forall_replicate. ulia.
  - vm_compute. discriminate.
Defined.

Lemma tcp_checksum_protects_witness :
  let segment := make_packet demo_ip peer_ip demo_header [72; 105; 33] in
  tcp_checksum demo_ip peer_ip segment = 0 /\
  tcp_checksum demo_ip peer_ip (arr_set segment 22 63) <> 0.
Proof.
  intros segment.
  apply (tcp_checksum_protects demo_ip peer_ip demo_header [72; 105; 33] segment 22 63).
  - repeat constructor; ulia.
  - vm_compute. discriminate.
  - vm_compute. repeat constructor; discriminate.
  - vm_compute. discriminate.
  - vm_compute. split; [discriminate|reflexivity].
  - ulia.
  - vm_compute. discriminate.
  - vm_compute. reflexivity.
Defined.

Lemma tcp_seq_order_witness :
  TCP_SEQ_LT 4294967290 3 = true /\ TCP_SEQ_LE 4294967290 3 = true /\
  TCP_SEQ_GT 4294967290 3 = false /\ TCP_SEQ_GE 4294967290 3 = false /\
  TCP_SEQ_EQ 4294967290 3 = false.
Proof. apply (tcp_seq_order 4294967290 4294967299). lia. Defined.
