(* ===== verification/Tcp.v ===== *)
(** The TCP implementation of [src/src/kernel/tcp.c]: protocol control blocks, the
    segment queues and the receive ring, output, acknowledgement processing,
    timers, input and the connection state machine, ports, listeners, close and
    shutdown.

    A control block is a record stored under its address in [pcbs]; the linked
    list [tcp_pcbs], the accept queue and the segment queues are lists.  Code
    that holds the lock of one block ([..._locked]) is a function on that record.
    [sent] records every packet handed to IPv4 and [notified] every socket woken.
    Sending may wait for ARP and poll the network card, and a thread that
    releases a lock lets others in: what happens to the TCP state meanwhile is
    the interface [TcpEnv].  The test routine [tcp_run_tests] and the log messages
    are left out. *)

From S2P Require Import Prelude TcpWire.

(** * Constants of [src/include/tcp.h] *)

Definition TCP_DEFAULT_WINDOW : Z := 65535.
Definition TCP_DEFAULT_MSS : Z := 1460.
Definition TCP_MAX_BACKLOG : Z := 8.
Definition TCP_EPHEMERAL_PORT_FIRST : Z := 49152.
Definition TCP_EPHEMERAL_PORT_LAST : Z := 65535.

Definition TCP_FLAG_FIN : Z := 0x01.
Definition TCP_FLAG_SYN : Z := 0x02.
Definition TCP_FLAG_RST : Z := 0x04.
Definition TCP_FLAG_PSH : Z := 0x08.
Definition TCP_FLAG_ACK : Z := 0x10.

Definition TCP_PCB_FLAG_BOUND : Z := 1.
Definition TCP_PCB_FLAG_PASSIVE : Z := 2.
Definition TCP_PCB_FLAG_ACTIVE : Z := 4.
Definition TCP_PCB_FLAG_ACCEPT_READY : Z := 8.
Definition TCP_PCB_FLAG_TIMER_RTO : Z := 16.
Definition TCP_PCB_FLAG_TIMER_KEEP : Z := 32.
Definition TCP_PCB_FLAG_TIMER_DACK : Z := 64.
Definition TCP_PCB_FLAG_RESET : Z := 128.
Definition TCP_PCB_FLAG_EOF : Z := 256.
Definition TCP_PCB_FLAG_TIMER_PERSIST : Z := 512.
Definition TCP_PCB_FLAG_DRAINING : Z := 1024.
Definition TCP_PCB_FLAG_SHUT_RD : Z := 2048.
Definition TCP_PCB_FLAG_SHUT_WR : Z := 4096.
Definition TCP_PCB_FLAG_FIN_PENDING : Z := 8192.
Definition TCP_PCB_FLAG_FAST_RECOVERY : Z := 16384.

Definition TCP_RX_BUFFER_CAPACITY : Z := 8192.
Definition TCP_TX_BUFFER_CAPACITY : Z := 8192.
Definition TCP_RTO_TICKS_DEFAULT : Z := 100.
Definition TCP_DATA_RTO_TICKS_DEFAULT : Z := 100.
Definition TCP_KEEPALIVE_TICKS : Z := 72000.
Definition TCP_DELAYED_ACK_TICKS : Z := 20.
Definition TCP_CONNECT_TIMEOUT_TICKS : Z := 500.
Definition TCP_MAX_SYN_RETRIES : Z := 3.
Definition TCP_MAX_DATA_RETRIES : Z := 5.
Definition TCP_PERSIST_TICKS_DEFAULT : Z := 100.
Definition TCP_MAX_PERSIST_TICKS : Z := 1000.
Definition TCP_MAX_PERSIST_PROBES : Z := 10.
Definition TCP_TIMEWAIT_TICKS : Z := 200.
Definition TCP_INITIAL_CWND (mss : Z) : Z := 3 * mss.
Definition TCP_INITIAL_SSTHRESH : Z := 65535.

(** [f & b], [f |= b], [f &= ~b] on a [uint32_t] flag word. *)
Definition has (f b : Z) : bool := negb (Z.land f b =? 0).
Definition set_flag (f b : Z) : Z := Z.lor f b.
Definition clr_flag (f b : Z) : Z := Z.land f (lnot32 b).

(** * Data *)

Inductive tcp_state :=
  | TCP_CLOSED | TCP_LISTEN | TCP_SYN_SENT | TCP_SYN_RECEIVED | TCP_ESTABLISHED
  | TCP_FIN_WAIT1 | TCP_FIN_WAIT2 | TCP_CLOSE_WAIT | TCP_LAST_ACK | TCP_TIME_WAIT.
#[export] Instance tcp_state_eq : EqDecision tcp_state.
Proof. solve_decision. Defined.
Definition ts_eqb (a b : tcp_state) : bool := bool_decide (a = b).

Record tcp_segment := mk_segment {
  seg_sequence : Z; seg_length : Z; seg_offset : Z; seg_data : list Z;
  seg_sent_at : Z; seg_retransmit_count : Z
}.
#[export] Instance eta_tcp_segment : Eta tcp_segment := fun g =>
  mk_segment (seg_sequence g) (seg_length g) (seg_offset g) (seg_data g) (seg_sent_at g)
    (seg_retransmit_count g).

Record tcp_queue := mk_queue { q_entries : list tcp_segment; q_bytes : Z; q_segments : Z }.
#[export] Instance eta_tcp_queue : Eta tcp_queue := fun q =>
  mk_queue (q_entries q) (q_bytes q) (q_segments q).
Definition empty_queue : tcp_queue := mk_queue [] 0 0.

(** [data] is [None] for a null pointer. *)
Record tcp_rx_buffer := mk_rx {
  rx_data : option (list Z); rx_capacity : Z; rx_head : Z; rx_tail : Z; rx_used : Z
}.
#[export] Instance eta_tcp_rx_buffer : Eta tcp_rx_buffer := fun b =>
  mk_rx (rx_data b) (rx_capacity b) (rx_head b) (rx_tail b) (rx_used b).

Record tcp_tx_buffer := mk_tx { unsent : tcp_queue; unacked : tcp_queue; tx_capacity : Z }.
#[export] Instance eta_tcp_tx_buffer : Eta tcp_tx_buffer := fun b =>
  mk_tx (unsent b) (unacked b) (tx_capacity b).

Record tcp_timers := mk_timers {
  retransmission : Z; keepalive : Z; delayed_ack : Z; timeout : Z; persist : Z;
  rto_ticks : Z; persist_ticks : Z; retransmit_count : Z; persist_count : Z
}.
#[export] Instance eta_tcp_timers : Eta tcp_timers := fun t =>
  mk_timers (retransmission t) (keepalive t) (delayed_ack t) (timeout t) (persist t)
    (rto_ticks t) (persist_ticks t) (retransmit_count t) (persist_count t).

(** The control block; [accept_queue] is the list threaded through [accept_head]
    and [accept_next].  Locking is the subject of the mutex component. *)
Record tcp_pcb := mk_pcb {
  local_ip : Z; remote_ip : Z; local_port : Z; remote_port : Z;
  iss : Z; irs : Z; snd_una : Z; snd_nxt : Z; rcv_nxt : Z;
  snd_wnd : Z; rcv_wnd : Z; rcv_ann_wnd : Z; snd_wl1 : Z; snd_wl2 : Z;
  state : tcp_state; socket : Z;
  seq_number : Z; ack_number : Z; window : Z; retransmission_timer : Z;
  receive_queue : tcp_queue; rx_buf : tcp_rx_buffer; tx_buf : tcp_tx_buffer;
  flags : Z; timers : tcp_timers;
  cwnd : Z; ssthresh : Z; ca_bytes_acked : Z; dupacks : Z; recover : Z;
  backlog : Z; accept_count : Z; parent : option Z; accept_queue : list Z
}.
#[export] Instance eta_tcp_pcb : Eta tcp_pcb := fun p =>
  mk_pcb (local_ip p) (remote_ip p) (local_port p) (remote_port p)
    (iss p) (irs p) (snd_una p) (snd_nxt p) (rcv_nxt p)
    (snd_wnd p) (rcv_wnd p) (rcv_ann_wnd p) (snd_wl1 p) (snd_wl2 p)
    (state p) (socket p) (seq_number p) (ack_number p) (window p) (retransmission_timer p)
    (receive_queue p) (rx_buf p) (tx_buf p) (flags p) (timers p)
    (cwnd p) (ssthresh p) (ca_bytes_acked p) (dupacks p) (recover p)
    (backlog p) (accept_count p) (parent p) (accept_queue p).

(** [tcp_zero] of a control block. *)
Definition zero_pcb : tcp_pcb :=
  mk_pcb 0 0 0 0 0 0 0 0 0 0 0 0 0 0 TCP_CLOSED 0 0 0 0 0 empty_queue (mk_rx None 0 0 0 0)
    (mk_tx empty_queue empty_queue 0) 0 (mk_timers 0 0 0 0 0 0 0 0 0) 0 0 0 0 0 0 0 None [].

(** Writes through the nested structs. *)
Definition set_unsent (p : tcp_pcb) (q : tcp_queue) : tcp_pcb :=
  p <| tx_buf := tx_buf p <| unsent := q |> |>.
Definition set_unacked (p : tcp_pcb) (q : tcp_queue) : tcp_pcb :=
  p <| tx_buf := tx_buf p <| unacked := q |> |>.
Definition set_flags (p : tcp_pcb) (b : Z) : tcp_pcb := p <| flags := set_flag (flags p) b |>.
Definition clr_flags (p : tcp_pcb) (b : Z) : tcp_pcb := p <| flags := clr_flag (flags p) b |>.
Definition pcb_has (p : tcp_pcb) (b : Z) : bool := has (flags p) b.
Definition has_unsent (p : tcp_pcb) : bool :=
  match q_entries (unsent (tx_buf p)) with [] => false | _ => true end.
Definition has_unacked (p : tcp_pcb) : bool :=
  match q_entries (unacked (tx_buf p)) with [] => false | _ => true end.

(** * Queues *)

Definition tcp_queue_clear_locked (q : tcp_queue) : tcp_queue := empty_queue.

Definition tcp_queue_append_locked (q : tcp_queue) (entry : tcp_segment) : tcp_queue :=
  mk_queue (q_entries q ++ [entry]) (u64 (q_bytes q + seg_length entry)) (u64 (q_segments q + 1)).

Definition tcp_queue_take_head_locked (q : tcp_queue) : option (tcp_segment * tcp_queue) :=
  match q_entries q with
  | [] => None
  | entry :: rest =>
      Some (entry, mk_queue rest
        (if seg_length entry <=? q_bytes q then q_bytes q - seg_length entry else 0)
        (if q_segments q =? 0 then 0 else q_segments q - 1))
  end.

(** Replace the entry the head pointer refers to. *)
Definition set_head (q : tcp_queue) (g : tcp_segment) : tcp_queue :=
  q <| q_entries := match q_entries q with [] => [] | _ :: l => g :: l end |>.

Definition tcp_tx_buffer_used_locked (p : tcp_pcb) : Z :=
  u64 (q_bytes (unsent (tx_buf p)) + q_bytes (unacked (tx_buf p))).

Definition tcp_tx_buffer_available_locked (p : tcp_pcb) : Z :=
  let used := tcp_tx_buffer_used_locked p in
  if tx_capacity (tx_buf p) <=? used then 0 else tx_capacity (tx_buf p) - used.

(** * The receive ring *)

(** [tcp_copy(data + pos, src, n)] inside one array. *)
Definition copy_at (data : list Z) (pos : Z) (src : list Z) : list Z :=
  take (Z.to_nat pos) data ++ src ++ drop (Z.to_nat pos + length src) data.
Definition slice (l : list Z) (pos n : Z) : list Z := take (Z.to_nat n) (drop (Z.to_nat pos) l).

Definition tcp_rx_buffer_available_locked (p : tcp_pcb) : Z := rx_used (rx_buf p).

Definition tcp_rx_buffer_free_space_locked (p : tcp_pcb) : Z :=
  let b := rx_buf p in
  match rx_data b with
  | None => 0
  | Some _ => if rx_capacity b <=? rx_used b then 0 else rx_capacity b - rx_used b
  end.

Definition tcp_rx_buffer_write_locked (p : tcp_pcb) (src : list Z) : tcp_pcb * Z :=
  let b := rx_buf p in
  match rx_data b with
  | None => (p, 0)
  | Some data =>
      let length := len src in
      if length =? 0 then (p, 0)
      else
        let space := tcp_rx_buffer_free_space_locked p in
        let to_write := if length <? space then length else space in
        if to_write =? 0 then (p, 0)
        else
          let cap := rx_capacity b in
          let tail := rx_tail b in
          let first_chunk := u64 (cap - tail) in
          let '(data', tail') :=
            if to_write <=? first_chunk
            then (copy_at data tail (slice src 0 to_write), u64 (tail + to_write) mod cap)
            else (copy_at (copy_at data tail (slice src 0 first_chunk)) 0
                    (slice src first_chunk (to_write - first_chunk)), to_write - first_chunk) in
          (p <| rx_buf := b <| rx_data := Some data' |> <| rx_tail := tail' |>
                            <| rx_used := u64 (rx_used b + to_write) |> |>, to_write)
  end.

(** The bytes copied out and the number of them. *)
Definition tcp_rx_buffer_read_locked (p : tcp_pcb) (length : Z) : tcp_pcb * list Z :=
  let b := rx_buf p in
  match rx_data b with
  | None => (p, [])
  | Some data =>
      if length =? 0 then (p, [])
      else
        let available := rx_used b in
        let to_read := if length <? available then length else available in
        if to_read =? 0 then (p, [])
        else
          let cap := rx_capacity b in
          let head := rx_head b in
          let first_chunk := u64 (cap - head) in
          let '(out, head') :=
            if to_read <=? first_chunk
            then (slice data head to_read, u64 (head + to_read) mod cap)
            else (slice data head first_chunk ++ slice data 0 (to_read - first_chunk),
                  to_read - first_chunk) in
          (p <| rx_buf := b <| rx_head := head' |> <| rx_used := u64 (rx_used b - to_read) |> |>, out)
  end.

(** * Output of one block *)

Definition tcp_effective_local_ip (p : tcp_pcb) : Z :=
  if local_ip p =? 0 then htonl 0x0A00020F else local_ip p.

Definition tcp_timers_reset (p : tcp_pcb) : tcp_pcb :=
  clr_flags
    (p <| timers := mk_timers 0 0 0 0 0 TCP_RTO_TICKS_DEFAULT TCP_PERSIST_TICKS_DEFAULT 0 0 |>
       <| retransmission_timer := 0 |>)
    (Z.lor (Z.lor (Z.lor (Z.lor TCP_PCB_FLAG_TIMER_RTO TCP_PCB_FLAG_TIMER_KEEP)
      TCP_PCB_FLAG_TIMER_DACK) TCP_PCB_FLAG_TIMER_PERSIST) TCP_PCB_FLAG_DRAINING).

(** [free_sp] clamped to 16 bits. *)
Definition advertised (p : tcp_pcb) : Z :=
  let free_sp := tcp_rx_buffer_free_space_locked p in
  if 0xFFFF <? free_sp then 0xFFFF else free_sp.

Definition offset_flags (fl : Z) : Z := u16 (Z.lor (Z.shiftl 5 12) fl).

(** A packet: the destination and the bytes handed to IPv4. *)
Definition packet : Type := Z * list Z.

Definition is_syn_state (st : tcp_state) : bool :=
  match st with TCP_SYN_SENT | TCP_SYN_RECEIVED => true | _ => false end.

(** [None] is the result -1, which leaves the block alone. *)
Definition tcp_build_output_locked (p : tcp_pcb) (fl : Z) (payload : list Z)
    : option (tcp_pcb * packet) :=
  if (local_port p =? 0) || (remote_ip p =? 0) || (remote_port p =? 0) then None
  else
    let current_seq := if has fl TCP_FLAG_SYN && is_syn_state (state p) then iss p else snd_nxt p in
    let free_sp := advertised p in
    let p := p <| window := free_sp |> <| rcv_wnd := free_sp |> <| rcv_ann_wnd := free_sp |> in
    let h := mk_header (local_port p) (remote_port p) current_seq (rcv_nxt p)
               (offset_flags fl) (rcv_wnd p) 0 0 in
    let pkt := make_packet (tcp_effective_local_ip p) (remote_ip p) h payload in
    let p :=
      if has fl TCP_FLAG_SYN
      then let p := p <| snd_nxt := u32 (iss p + 1) |> <| snd_una := iss p |> in
           p <| seq_number := snd_nxt p |>
      else if has fl TCP_FLAG_FIN
      then let p := p <| snd_nxt := u32 (snd_nxt p + 1) |> in p <| seq_number := snd_nxt p |>
      else p in
    let p := p <| snd_nxt := u32 (snd_nxt p + u32 (len payload)) |> in
    let p := p <| seq_number := snd_nxt p |> in
    Some (p, (remote_ip p, pkt)).

(** The common data segment: acknowledgement and push, own window, no urgent data. *)
Definition data_header (p : tcp_pcb) (sequence fl : Z) : tcp_header :=
  mk_header (local_port p) (remote_port p) sequence (rcv_nxt p) (offset_flags fl) (advertised p) 0 0.

(** [seg] is the head of the unacknowledged queue. *)
Definition retransmit_packet (p : tcp_pcb) (seg : tcp_segment) : packet :=
  let seg_len := if TCP_DEFAULT_MSS <? seg_length seg then TCP_DEFAULT_MSS else seg_length seg in
  (remote_ip p, make_packet (tcp_effective_local_ip p) (remote_ip p)
     (data_header p (seg_sequence seg) (Z.lor TCP_FLAG_ACK TCP_FLAG_PSH))
     (slice (seg_data seg) (seg_offset seg) seg_len)).

Definition tcp_retransmit_segment_locked (ticks : Z) (p : tcp_pcb) (seg : tcp_segment)
    : tcp_pcb * packet :=
  let seg' := seg <| seg_sent_at := ticks |>
                  <| seg_retransmit_count := u32 (seg_retransmit_count seg + 1) |> in
  (set_unacked p (set_head (unacked (tx_buf p)) seg'), retransmit_packet p seg).

(** * Acknowledgements *)

(** [rto_ticks = DEFAULT; retransmission = kernel_ticks + rto_ticks; ...] *)
Definition arm_data_rto (ticks : Z) (p : tcp_pcb) : tcp_pcb :=
  let deadline := u64 (ticks + TCP_DATA_RTO_TICKS_DEFAULT) in
  set_flags
    (p <| timers := timers p <| rto_ticks := TCP_DATA_RTO_TICKS_DEFAULT |>
                             <| retransmission := deadline |> <| retransmit_count := 0 |> |>
       <| retransmission_timer := deadline |>) TCP_PCB_FLAG_TIMER_RTO.

(** Clear the retransmission timer and its count. *)
Definition clear_rto (p : tcp_pcb) : tcp_pcb :=
  clr_flags p TCP_PCB_FLAG_TIMER_RTO
    <| timers := timers p <| retransmission := 0 |> <| retransmit_count := 0 |> |>
    <| retransmission_timer := 0 |>.

Definition clamp_cwnd (p : tcp_pcb) : tcp_pcb :=
  if 0xFFFF <? cwnd p then p <| cwnd := 0xFFFF |> else p.

(** Slow start and congestion avoidance. *)
Definition grow_cwnd (p : tcp_pcb) (bytes_acked : Z) : tcp_pcb :=
  if cwnd p <? ssthresh p
  then let incr := if TCP_DEFAULT_MSS <? bytes_acked then TCP_DEFAULT_MSS else bytes_acked in
       clamp_cwnd (p <| cwnd := u32 (cwnd p + incr) |>)
  else let p := p <| ca_bytes_acked := u32 (ca_bytes_acked p + bytes_acked) |> in
       if cwnd p <=? ca_bytes_acked p
       then clamp_cwnd (p <| ca_bytes_acked := 0 |> <| cwnd := u32 (cwnd p + TCP_DEFAULT_MSS) |>)
       else p.

(** Free confirmed segments; each round removes one, so the queue length bounds
    the loop. *)
Fixpoint ack_loop (fuel : nat) (q : tcp_queue) (ack : Z) : tcp_queue :=
  match fuel with
  | O => q
  | S fuel' =>
      match tcp_queue_take_head_locked q with
      | None => q
      | Some (seg, q') =>
          let seg_end := u32 (seg_sequence seg + u32 (seg_length seg)) in
          if TCP_SEQ_LE seg_end ack then ack_loop fuel' q' ack
          else if TCP_SEQ_LT (seg_sequence seg) ack
          then
            let bytes_acked := u32 (ack - seg_sequence seg) in
            if seg_length seg <=? bytes_acked then q
            else
              set_head q (seg <| seg_sequence := ack |>
                              <| seg_length := seg_length seg - bytes_acked |>
                              <| seg_offset := u64 (seg_offset seg + bytes_acked) |>)
                <| q_bytes := if bytes_acked <=? q_bytes q then q_bytes q - bytes_acked else 0 |>
          else q
      end
  end.

Definition tcp_tx_ack_received_locked_ext (ticks : Z) (p : tcp_pcb) (ack : Z)
    (is_recovery_exit : bool) : tcp_pcb :=
  if TCP_SEQ_GT ack (snd_nxt p) then p
  else if TCP_SEQ_EQ ack (snd_una p) then p
  else if TCP_SEQ_LT ack (snd_una p) then p
  else
    let bytes_acked := u32 (ack - snd_una p) in
    let p := p <| snd_una := ack |> in
    let p := if is_recovery_exit then p else grow_cwnd p bytes_acked in
    let q := unacked (tx_buf p) in
    let p := set_unacked p (ack_loop (length (q_entries q)) q ack) in
    if has_unacked p then arm_data_rto ticks p
    else let p := clear_rto p in
         p <| timers := timers p <| rto_ticks := TCP_DATA_RTO_TICKS_DEFAULT |> |>.

Definition tcp_tx_ack_received_locked (ticks : Z) (p : tcp_pcb) (ack : Z) : tcp_pcb :=
  tcp_tx_ack_received_locked_ext ticks p ack false.

(** * Draining the unsent queue: one round of the loop *)

(** With the number of allocations made. *)
Inductive drain_result :=
  | DrainStop (p : tcp_pcb) (allocs : nat)                (* unlock and leave *)
  | DrainSend (p : tcp_pcb) (out : packet) (allocs : nat) (* unlock, send, lock, next round *)
  | DrainFin (p : tcp_pcb) (out : packet).                (* unlock, send the FIN, leave *)

(** A FIN has been built: the state it leads to, with its retransmission timer. *)
Definition after_fin (ticks : Z) (p : tcp_pcb) : tcp_pcb :=
  let p := match state p with
           | TCP_ESTABLISHED => p <| state := TCP_FIN_WAIT1 |>
           | TCP_CLOSE_WAIT => p <| state := TCP_LAST_ACK |>
           | _ => p
           end in
  arm_data_rto ticks p.

(** The end of [tcp_close]: [FIN_PENDING] while data remains, else the FIN. *)
Definition finish_close (ticks : Z) (p : tcp_pcb) : tcp_pcb * option packet :=
  if has_unsent p then (set_flags p TCP_PCB_FLAG_FIN_PENDING, None)
  else
    match tcp_build_output_locked p (Z.lor TCP_FLAG_FIN TCP_FLAG_ACK) [] with
    | None => (p, None)
    | Some (p, out) => (after_fin ticks p, Some out)
    end.

Definition can_send (p : tcp_pcb) : bool :=
  (ts_eqb (state p) TCP_ESTABLISHED || ts_eqb (state p) TCP_CLOSE_WAIT).

Definition remaining_window (p : tcp_pcb) : Z :=
  let bytes_in_flight := u32 (snd_nxt p - snd_una p) in
  let eff_wnd := if snd_wnd p <? cwnd p then snd_wnd p else cwnd p in
  if bytes_in_flight <? eff_wnd then eff_wnd - bytes_in_flight else 0.

(** Move a segment to the unacknowledged queue and build its packet. *)
Definition emit_segment (ticks : Z) (p : tcp_pcb) (seg : tcp_segment) (send_len : Z)
    : tcp_pcb * packet :=
  let queue_was_empty := negb (has_unacked p) in
  let cur_seq := seg_sequence seg in
  let p := set_unacked p (tcp_queue_append_locked (unacked (tx_buf p)) seg) in
  let p := p <| snd_nxt := u32 (snd_nxt p + u32 send_len) |> in
  let p := p <| seq_number := snd_nxt p |> in
  let p := if queue_was_empty then arm_data_rto ticks p else p in
  let fsp := advertised p in
  let p := p <| rcv_wnd := fsp |> <| rcv_ann_wnd := fsp |> <| window := fsp |> in
  (p, (remote_ip p, make_packet (tcp_effective_local_ip p) (remote_ip p)
         (data_header p cur_seq (Z.lor TCP_FLAG_ACK TCP_FLAG_PSH))
         (slice (seg_data seg) (seg_offset seg) send_len))).

(** [alloc1] and [alloc2] say whether the two allocations of a slice succeed. *)
Definition drain_round (ticks : Z) (alloc1 alloc2 : bool) (p : tcp_pcb) : drain_result :=
  let stop p n := DrainStop (clr_flags p TCP_PCB_FLAG_DRAINING) n in
  match q_entries (unsent (tx_buf p)) with
  | [] =>
      if pcb_has p TCP_PCB_FLAG_FIN_PENDING
      then
        let p := clr_flags p TCP_PCB_FLAG_FIN_PENDING in
        match tcp_build_output_locked p (Z.lor TCP_FLAG_FIN TCP_FLAG_ACK) [] with
        | Some (p, out) => DrainFin (clr_flags (after_fin ticks p) TCP_PCB_FLAG_DRAINING) out
        | None => stop p 0%nat
        end
      else stop p 0%nat
  | seg :: _ =>
      if negb (can_send p) || pcb_has p TCP_PCB_FLAG_RESET then stop p 0%nat
      else
        let remaining_wnd := remaining_window p in
        if remaining_wnd =? 0
        then
          let p :=
            if (snd_wnd p =? 0) && negb (pcb_has p TCP_PCB_FLAG_TIMER_PERSIST)
            then set_flags p TCP_PCB_FLAG_TIMER_PERSIST
                   <| timers := timers p <| persist_ticks := TCP_PERSIST_TICKS_DEFAULT |>
                        <| persist := u64 (ticks + TCP_PERSIST_TICKS_DEFAULT) |>
                        <| persist_count := 0 |> |>
            else p in
          stop p 0%nat
        else
          let seg_remaining := seg_length seg in
          let send_len := if remaining_wnd <? seg_remaining then remaining_wnd else seg_remaining in
          let send_len := if TCP_DEFAULT_MSS <? send_len then TCP_DEFAULT_MSS else send_len in
          if send_len <? seg_remaining
          then
            if negb alloc1 then stop p 1%nat
            else if negb alloc2 then stop p 2%nat
            else
              let slice_data := slice (seg_data seg) (seg_offset seg) send_len in
              let part := mk_segment (snd_nxt p) send_len 0 slice_data ticks 0 in
              let seg' := seg <| seg_offset := u64 (seg_offset seg + send_len) |>
                              <| seg_length := seg_length seg - send_len |>
                              <| seg_sequence := u32 (snd_nxt p + u32 send_len) |> in
              let q := set_head (unsent (tx_buf p)) seg' in
              let q := q <| q_bytes := if send_len <=? q_bytes q then q_bytes q - send_len else 0 |> in
              let '(p, out) := emit_segment ticks (set_unsent p q) part send_len in
              DrainSend p out 2
          else
            match tcp_queue_take_head_locked (unsent (tx_buf p)) with
            | None => stop p 0%nat
            | Some (seg, q) =>
                let seg := seg <| seg_sequence := snd_nxt p |> <| seg_sent_at := ticks |> in
                let '(p, out) := emit_segment ticks (set_unsent p q) seg send_len in
                DrainSend p out 0
            end
  end.

(** * Input on one block *)

(** A received segment after parsing. *)
Record rx_segment := mk_rxseg {
  sg_flags : Z; sg_seq : Z; sg_ack : Z; sg_window : Z; sg_payload : list Z
}.
Definition sg_has (g : rx_segment) (b : Z) : bool := has (sg_flags g) b.
Definition sg_len (g : rx_segment) : Z := len (sg_payload g).

(** The block and the local variables of [tcp_input] while the block is locked. *)
Record inp := mk_inp {
  i_pcb : tcp_pcb; send_out : bool; out_packet : packet; need_drain : bool;
  fast_rexmit : option packet
}.
#[export] Instance eta_inp : Eta inp := fun w =>
  mk_inp (i_pcb w) (send_out w) (out_packet w) (need_drain w) (fast_rexmit w).
Definition start_input (p : tcp_pcb) : inp := mk_inp p false (0, []) false None.

(** [send_out = 1; (void)tcp_build_output_locked(...)] *)
Definition reply (w : inp) (fl : Z) : inp :=
  match tcp_build_output_locked (i_pcb w) fl [] with
  | Some (p, out) => w <| i_pcb := p |> <| out_packet := out |> <| send_out := true |>
  | None => w <| send_out := true |>
  end.

Definition is_dup_ack (p : tcp_pcb) (g : rx_segment) : bool :=
  has_unacked p && TCP_SEQ_LT (snd_una p) (snd_nxt p) && (sg_len g =? 0) &&
  negb (sg_has g (Z.lor (Z.lor TCP_FLAG_SYN TCP_FLAG_FIN) TCP_FLAG_RST)) &&
  TCP_SEQ_EQ (sg_ack g) (snd_una p) && (sg_window g =? snd_wnd p).

(** The third duplicate: halve the threshold, retransmit, restart the timer. *)
Definition enter_recovery (ticks : Z) (w : inp) : inp :=
  let p := i_pcb w in
  let half := u32 (snd_nxt p - snd_una p) / 2 in
  let new_ssthresh := if half <? 2 * TCP_DEFAULT_MSS then 2 * TCP_DEFAULT_MSS else half in
  let p := p <| ssthresh := new_ssthresh |> in
  let p := clamp_cwnd (p <| cwnd := u32 (ssthresh p + 3 * TCP_DEFAULT_MSS) |>) in
  let p := set_flags p TCP_PCB_FLAG_FAST_RECOVERY <| recover := snd_nxt p |> <| ca_bytes_acked := 0 |> in
  let '(p, rex) :=
    match q_entries (unacked (tx_buf p)) with
    | seg :: _ => let '(p, out) := tcp_retransmit_segment_locked ticks p seg in (p, Some out)
    | [] => (p, None)
    end in
  w <| i_pcb := arm_data_rto ticks p |> <| fast_rexmit := rex |> <| need_drain := true |>.

Definition duplicate_ack (ticks : Z) (w : inp) : inp :=
  let p := i_pcb w in
  if negb (pcb_has p TCP_PCB_FLAG_FAST_RECOVERY)
  then
    let p := p <| dupacks := u32 (dupacks p + 1) |> in
    if dupacks p =? 3 then enter_recovery ticks (w <| i_pcb := p |>) else w <| i_pcb := p |>
  else
    let p := p <| dupacks := u32 (dupacks p + 1) |> <| cwnd := u32 (cwnd p + TCP_DEFAULT_MSS) |> in
    w <| i_pcb := clamp_cwnd p |> <| need_drain := true |>.

Definition new_ack (ticks : Z) (w : inp) (ack : Z) : inp :=
  let p := i_pcb w in
  let p :=
    if pcb_has p TCP_PCB_FLAG_FAST_RECOVERY
    then tcp_tx_ack_received_locked_ext ticks
           (clr_flags (p <| cwnd := ssthresh p |>) TCP_PCB_FLAG_FAST_RECOVERY
              <| dupacks := 0 |> <| ca_bytes_acked := 0 |>) ack true
    else tcp_tx_ack_received_locked_ext ticks (p <| dupacks := 0 |>) ack false in
  w <| i_pcb := p |> <| need_drain := true |>.

Definition window_update (w : inp) (g : rx_segment) (peer_wnd_before : Z) : inp :=
  let p := i_pcb w in
  if negb (sg_window g =? snd_wnd p) || TCP_SEQ_LT (snd_wl1 p) (sg_seq g) ||
     (TCP_SEQ_EQ (snd_wl1 p) (sg_seq g) && TCP_SEQ_LE (snd_wl2 p) (sg_ack g))
  then
    let p := p <| snd_wnd := sg_window g |> <| snd_wl1 := sg_seq g |> <| snd_wl2 := sg_ack g |> in
    let w := if (peer_wnd_before <? snd_wnd p) && has_unsent p then w <| need_drain := true |> else w in
    let p :=
      if (0 <? snd_wnd p) && pcb_has p TCP_PCB_FLAG_TIMER_PERSIST
      then clr_flags p TCP_PCB_FLAG_TIMER_PERSIST
             <| timers := timers p <| persist := 0 |> <| persist_ticks := TCP_PERSIST_TICKS_DEFAULT |>
                                   <| persist_count := 0 |> |>
      else p in
    w <| i_pcb := p |>
  else w.

Definition established_ack (ticks : Z) (w : inp) (g : rx_segment) : inp :=
  let p := i_pcb w in
  let peer_wnd_before := snd_wnd p in
  let ack := sg_ack g in
  let w :=
    if TCP_SEQ_GT ack (snd_nxt p) then reply w TCP_FLAG_ACK
    else if TCP_SEQ_GT ack (snd_una p) then new_ack ticks w ack
    else if is_dup_ack p g then duplicate_ack ticks w
    else w in
  window_update w g peer_wnd_before.

(** In-order payload: discarded after SHUT_RD, else as much as fits. *)
Definition store_payload (p : tcp_pcb) (payload : list Z) : tcp_pcb :=
  if pcb_has p TCP_PCB_FLAG_SHUT_RD
  then let p := p <| rcv_nxt := u32 (rcv_nxt p + u32 (len payload)) |> in p <| ack_number := rcv_nxt p |>
  else
    let space := tcp_rx_buffer_free_space_locked p in
    let to_write := if len payload <? space then len payload else space in
    if 0 <? to_write
    then let '(p, written) := tcp_rx_buffer_write_locked p (slice payload 0 to_write) in
         let p := p <| rcv_nxt := u32 (rcv_nxt p + u32 written) |> in p <| ack_number := rcv_nxt p |>
    else p.

Definition refresh_window (p : tcp_pcb) : tcp_pcb :=
  p <| window := u32 (tcp_rx_buffer_free_space_locked p) |> <| rcv_wnd := advertised p |>.

Definition established_payload (w : inp) (g : rx_segment) : inp :=
  let p := i_pcb w in
  if sg_len g =? 0 then w
  else if TCP_SEQ_EQ (sg_seq g) (rcv_nxt p)
  then reply (w <| i_pcb := refresh_window (store_payload p (sg_payload g)) |>) TCP_FLAG_ACK
  else reply (w <| i_pcb := refresh_window p <| ack_number := rcv_nxt p |> |>) TCP_FLAG_ACK.

(** The peer's FIN is next in sequence: it takes one number. *)
Definition take_fin (p : tcp_pcb) : tcp_pcb :=
  let p := p <| rcv_nxt := u32 (rcv_nxt p + 1) |> in
  set_flags (p <| ack_number := rcv_nxt p |>) TCP_PCB_FLAG_EOF.
Definition fin_in_order (p : tcp_pcb) (g : rx_segment) : bool :=
  sg_has g TCP_FLAG_FIN && TCP_SEQ_EQ (u32 (sg_seq g + u32 (sg_len g))) (rcv_nxt p).
Definition fin_repeated (p : tcp_pcb) (g : rx_segment) : bool :=
  sg_has g TCP_FLAG_FIN && TCP_SEQ_EQ (u32 (u32 (sg_seq g + u32 (sg_len g)) + 1)) (rcv_nxt p).

Definition is_probe (p : tcp_pcb) (g : rx_segment) : bool :=
  (sg_len g =? 0) && TCP_SEQ_EQ (sg_seq g) (u32 (rcv_nxt p - 1)) && sg_has g TCP_FLAG_ACK &&
  negb (sg_has g (Z.lor (Z.lor TCP_FLAG_SYN TCP_FLAG_FIN) TCP_FLAG_RST)).

Definition input_established (ticks : Z) (w : inp) (g : rx_segment) : inp :=
  let w := if sg_has g TCP_FLAG_ACK then established_ack ticks w g else w in
  let w := if is_probe (i_pcb w) g then reply w TCP_FLAG_ACK else w in
  let w := established_payload w g in
  if fin_in_order (i_pcb w) g
  then reply (w <| i_pcb := refresh_window (take_fin (i_pcb w) <| state := TCP_CLOSE_WAIT |>) |>) TCP_FLAG_ACK
  else w.

(** Payload in the states after our FIN. *)
Definition closing_payload (w : inp) (g : rx_segment) : inp :=
  if negb (sg_len g =? 0) && TCP_SEQ_EQ (sg_seq g) (rcv_nxt (i_pcb w))
  then reply (w <| i_pcb := store_payload (i_pcb w) (sg_payload g) |>) TCP_FLAG_ACK
  else w.

Definition enter_time_wait (ticks : Z) (p : tcp_pcb) : tcp_pcb :=
  p <| state := TCP_TIME_WAIT |>
    <| timers := timers p <| timeout := u64 (ticks + TCP_TIMEWAIT_TICKS) |> |>.

Definition input_fin_wait1 (ticks : Z) (w : inp) (g : rx_segment) : inp :=
  let p := i_pcb w in
  let p := if sg_has g TCP_FLAG_ACK then tcp_tx_ack_received_locked ticks p (sg_ack g) else p in
  let fin_acked := sg_has g TCP_FLAG_ACK && TCP_SEQ_GE (sg_ack g) (snd_nxt p) in
  let p := if fin_acked then clear_rto p else p in
  let w := closing_payload (w <| i_pcb := p |>) g in
  let w :=
    if pcb_has (i_pcb w) TCP_PCB_FLAG_EOF && fin_repeated (i_pcb w) g then reply w TCP_FLAG_ACK
    else if fin_in_order (i_pcb w) g then reply (w <| i_pcb := take_fin (i_pcb w) |>) TCP_FLAG_ACK
    else w in
  if fin_acked
  then w <| i_pcb := if pcb_has (i_pcb w) TCP_PCB_FLAG_EOF then enter_time_wait ticks (i_pcb w)
                     else i_pcb w <| state := TCP_FIN_WAIT2 |> |>
  else w.

Definition input_fin_wait2 (ticks : Z) (w : inp) (g : rx_segment) : inp :=
  let w := closing_payload w g in
  if fin_in_order (i_pcb w) g
  then reply (w <| i_pcb := enter_time_wait ticks (take_fin (i_pcb w)) |>) TCP_FLAG_ACK
  else w.

Definition input_close_wait (w : inp) (g : rx_segment) : inp :=
  if fin_repeated (i_pcb w) g then reply w TCP_FLAG_ACK else w.

Definition input_time_wait (ticks : Z) (w : inp) (g : rx_segment) : inp :=
  if sg_has g TCP_FLAG_FIN
  then let w := reply w TCP_FLAG_ACK in
       w <| i_pcb := i_pcb w <| timers := timers (i_pcb w) <| timeout := u64 (ticks + TCP_TIMEWAIT_TICKS) |> |> |>
  else w.

Definition acks_syn (p : tcp_pcb) (g : rx_segment) : bool :=
  (sg_ack g =? u32 (iss p + 1)) || (sg_ack g =? seq_number p).

(** The handshake is complete: keep-alive is the only timer. *)
Definition establish (ticks : Z) (p : tcp_pcb) (g : rx_segment) : tcp_pcb :=
  let p := p <| snd_wnd := sg_window g |> <| snd_wl1 := sg_seq g |> <| snd_wl2 := sg_ack g |>
             <| state := TCP_ESTABLISHED |> in
  let p := tcp_timers_reset p in
  set_flags (p <| timers := timers p <| keepalive := u64 (ticks + TCP_KEEPALIVE_TICKS) |> |>)
    (Z.lor TCP_PCB_FLAG_TIMER_KEEP TCP_PCB_FLAG_ACTIVE).

Definition input_syn_sent (ticks : Z) (w : inp) (g : rx_segment) : inp :=
  let p := i_pcb w in
  if (Z.land (sg_flags g) (Z.lor TCP_FLAG_SYN TCP_FLAG_ACK) =? Z.lor TCP_FLAG_SYN TCP_FLAG_ACK) && acks_syn p g
  then
    let p := p <| ack_number := u32 (sg_seq g + 1) |> <| rcv_nxt := u32 (sg_seq g + 1) |>
               <| snd_una := sg_ack g |> <| snd_nxt := u32 (iss p + 1) |> <| seq_number := u32 (iss p + 1) |> in
    reply (w <| i_pcb := establish ticks p g |>) TCP_FLAG_ACK
  else w.

(** The final acknowledgement of a passive open. *)
Definition completes_open (p : tcp_pcb) (g : rx_segment) : bool :=
  sg_has g TCP_FLAG_ACK && negb (sg_has g TCP_FLAG_SYN) && acks_syn p g.
Definition passive_establish (ticks : Z) (p : tcp_pcb) (g : rx_segment) : tcp_pcb :=
  establish ticks p g <| snd_una := sg_ack g |> <| snd_nxt := sg_ack g |> <| seq_number := sg_ack g |>.

Definition input_syn_received (ticks : Z) (w : inp) (g : rx_segment) : inp :=
  let p := i_pcb w in
  if sg_has g TCP_FLAG_SYN && negb (sg_has g TCP_FLAG_ACK)
  then reply w (Z.lor TCP_FLAG_SYN TCP_FLAG_ACK)
  else if completes_open p g then w <| i_pcb := passive_establish ticks p g |>
  else w.

(** * Timers of one block *)

Definition tcp_timer_arm_rto (p : tcp_pcb) (now : Z) : tcp_pcb :=
  let rto := if rto_ticks (timers p) =? 0 then TCP_RTO_TICKS_DEFAULT else rto_ticks (timers p) in
  let deadline := u64 (now + rto) in
  set_flags (p <| timers := timers p <| rto_ticks := rto |> <| retransmission := deadline |> |>
               <| retransmission_timer := deadline |>) TCP_PCB_FLAG_TIMER_RTO.
Definition tcp_timer_arm_keepalive (p : tcp_pcb) (now : Z) : tcp_pcb :=
  set_flags (p <| timers := timers p <| keepalive := u64 (now + TCP_KEEPALIVE_TICKS) |> |>)
    TCP_PCB_FLAG_TIMER_KEEP.
Definition tcp_timer_arm_delayed_ack (p : tcp_pcb) (now : Z) : tcp_pcb :=
  set_flags (p <| timers := timers p <| delayed_ack := u64 (now + TCP_DELAYED_ACK_TICKS) |> |>)
    TCP_PCB_FLAG_TIMER_DACK.
Definition tcp_timer_clear (p : tcp_pcb) : tcp_pcb := tcp_timers_reset p.

(** What the visit of one block by [tcp_timer_tick] gives: the block, a packet for
    the deferred queue, whether its socket is notified, whether it is dead. *)
Record timer_result := mk_tr {
  tr_pcb : tcp_pcb; tr_packet : option packet; tr_notify : bool; tr_dead : bool
}.

Definition rto_due (p : tcp_pcb) (now : Z) : bool :=
  pcb_has p TCP_PCB_FLAG_TIMER_RTO && negb (retransmission (timers p) =? 0) &&
  (retransmission (timers p) <=? now).
Definition timeout_due (p : tcp_pcb) (now : Z) : bool :=
  negb (timeout (timers p) =? 0) && (timeout (timers p) <=? now).

(** One more try with twice the interval, at most 1000 ticks. *)
Definition backoff (p : tcp_pcb) (now : Z) : tcp_pcb :=
  let rto := u32 (rto_ticks (timers p) * 2) in
  let rto := if 1000 <? rto then 1000 else rto in
  let deadline := u64 (now + rto) in
  p <| timers := timers p <| retransmit_count := u32 (retransmit_count (timers p) + 1) |>
                          <| rto_ticks := rto |> <| retransmission := deadline |> |>
    <| retransmission_timer := deadline |>.

Definition close_now (p : tcp_pcb) : tcp_pcb := tcp_timers_reset (p <| state := TCP_CLOSED |>).

(** The two handshake states; a closed active open wakes its socket. *)
Definition timer_handshake (p : tcp_pcb) (now fl : Z) (room notify : bool) : timer_result :=
  if timeout_due p now then mk_tr (close_now p) None notify false
  else if rto_due p now
  then
    if TCP_MAX_SYN_RETRIES <=? retransmit_count (timers p) then mk_tr (close_now p) None notify false
    else
      let p := backoff p now in
      if room
      then match tcp_build_output_locked p fl [] with
           | Some (p, out) => mk_tr p (Some out) false false
           | None => mk_tr p None false false
           end
      else mk_tr p None false false
  else mk_tr p None false false.

(** The first timeout of a segment: the loss window. *)
Definition loss_window (p : tcp_pcb) : tcp_pcb :=
  if retransmit_count (timers p) =? 0
  then
    let half_flight := u32 (snd_nxt p - snd_una p) / 2 in
    let min_ssthresh := 2 * TCP_DEFAULT_MSS in
    p <| ssthresh := if min_ssthresh <? half_flight then half_flight else min_ssthresh |>
      <| cwnd := TCP_DEFAULT_MSS |> <| ca_bytes_acked := 0 |>
  else p.

(** The data retransmission of an open connection; [inl] when the connection is
    given up, which ends the visit. *)
Definition timer_data (p : tcp_pcb) (now ticks : Z) (room : bool)
    : tcp_pcb + tcp_pcb * option packet :=
  if rto_due p now
  then
    match q_entries (unacked (tx_buf p)) with
    | seg :: _ =>
        if TCP_MAX_DATA_RETRIES <=? retransmit_count (timers p)
        then
          let p := tcp_timers_reset (set_flags (p <| state := TCP_CLOSED |>) TCP_PCB_FLAG_RESET) in
          inl (p <| tx_buf := mk_tx (tcp_queue_clear_locked (unsent (tx_buf p)))
                                    (tcp_queue_clear_locked (unacked (tx_buf p))) (tx_capacity (tx_buf p)) |>)
        else
          let p := if pcb_has p TCP_PCB_FLAG_FAST_RECOVERY
                   then clr_flags p TCP_PCB_FLAG_FAST_RECOVERY <| dupacks := 0 |> else p in
          let p := backoff (loss_window p) now in
          if room
          then let '(p, out) := tcp_retransmit_segment_locked ticks p seg in inr (p, Some out)
          else inr (p, None)
    | [] =>
        inr (clr_flags p TCP_PCB_FLAG_TIMER_RTO
               <| timers := timers p <| retransmission := 0 |> |> <| retransmission_timer := 0 |>, None)
    end
  else inr (p, None).

(** The zero-window probe: an acknowledgement one below the next number. *)
Definition probe_packet (p : tcp_pcb) : packet :=
  (remote_ip p, make_packet (tcp_effective_local_ip p) (remote_ip p)
     (data_header p (u32 (snd_nxt p - 1)) TCP_FLAG_ACK) []).

Definition timer_persist (p : tcp_pcb) (now : Z) (room : bool) : tcp_pcb * option packet :=
  if pcb_has p TCP_PCB_FLAG_TIMER_PERSIST && negb (persist (timers p) =? 0) && (persist (timers p) <=? now)
  then
    if (snd_wnd p =? 0) && has_unsent p
    then
      if persist_count (timers p) <? TCP_MAX_PERSIST_PROBES
      then
        let ticks2 := u32 (persist_ticks (timers p) * 2) in
        let ticks2 := if TCP_MAX_PERSIST_TICKS <? ticks2 then TCP_MAX_PERSIST_TICKS else ticks2 in
        let p := p <| timers := timers p <| persist_count := u32 (persist_count (timers p) + 1) |>
                        <| persist_ticks := ticks2 |> <| persist := u64 (now + ticks2) |> |> in
        (p, if room then Some (probe_packet p) else None)
      else (clr_flags p TCP_PCB_FLAG_TIMER_PERSIST <| timers := timers p <| persist := 0 |> |>, None)
    else (clr_flags p TCP_PCB_FLAG_TIMER_PERSIST
            <| timers := timers p <| persist := 0 |> <| persist_count := 0 |> |>, None)
  else (p, None).

(** The FIN retransmission: the oldest data segment, or the FIN itself. *)
Definition timer_fin (p : tcp_pcb) (now : Z) (room : bool) : timer_result :=
  if rto_due p now
  then
    if TCP_MAX_DATA_RETRIES <=? retransmit_count (timers p)
    then mk_tr (close_now p) None false (socket p =? 0)
    else
      let p := backoff p now in
      if room
      then
        match q_entries (unacked (tx_buf p)) with
        | seg :: _ =>
            mk_tr (set_unacked p (set_head (unacked (tx_buf p)) (seg <| seg_sent_at := now |>)))
              (Some (retransmit_packet p seg)) false false
        | [] =>
            mk_tr p (Some (remote_ip p, make_packet (tcp_effective_local_ip p) (remote_ip p)
              (data_header p (u32 (snd_nxt p - 1)) (Z.lor TCP_FLAG_FIN TCP_FLAG_ACK)) [])) false false
        end
      else mk_tr p None false false
  else mk_tr p None false false.

(** * The system *)

(** Addresses of control blocks are numbers above zero; [next_addr] is the next
    one the allocator returns and [kmallocs] counts the requests made to it. *)
Record tcp := mk_tcp {
  pcbs : gmap Z tcp_pcb;
  tcp_pcbs : list Z;
  tcp_next_ephemeral : Z;
  kernel_ticks : Z;
  next_addr : Z;
  kmallocs : nat;
  sent : list packet;
  notified : list Z
}.
#[export] Instance eta_tcp : Eta tcp := fun s =>
  mk_tcp (pcbs s) (tcp_pcbs s) (tcp_next_ephemeral s) (kernel_ticks s) (next_addr s)
    (kmallocs s) (sent s) (notified s).

Definition get (s : tcp) (a : Z) : tcp_pcb := default zero_pcb (pcbs s !! a).
Definition put (s : tcp) (a : Z) (p : tcp_pcb) : tcp := s <| pcbs := <[a := p]> (pcbs s) |>.

(** What TCP relies on: whether the n-th allocation succeeds, what the TCP state is
    when [net_send_ipv4] returns, with its result, and what other threads do
    between two critical sections of one thread. *)
Class TcpEnv := {
  kmalloc_ok : nat -> bool;
  net_send_ipv4 : tcp -> packet -> tcp * Z;
  others : tcp -> tcp
}.

Section System.
Context `{TcpEnv}.

Definition kmalloc (s : tcp) : tcp * bool :=
  (s <| kmallocs := S (kmallocs s) |>, kmalloc_ok (kmallocs s)).

(** Hand a packet to IPv4, and ignore the result. *)
Definition transmit (s : tcp) (out : packet) : tcp * Z :=
  net_send_ipv4 (s <| sent := sent s ++ [out] |>) out.
Definition send (s : tcp) (out : packet) : tcp := fst (transmit s out).

Definition tcp_socket_notify (s : tcp) (sock : Z) : tcp :=
  if sock =? 0 then s else s <| notified := notified s ++ [sock] |>.

Definition tcp_init (s : tcp) : tcp :=
  s <| tcp_pcbs := [] |> <| tcp_next_ephemeral := TCP_EPHEMERAL_PORT_FIRST |>.

(** The block [tcp_alloc] sets up. *)
Definition fresh_pcb : tcp_pcb :=
  zero_pcb
    <| rx_buf := mk_rx (Some (replicate 8192 0)) TCP_RX_BUFFER_CAPACITY 0 0 0 |>
    <| tx_buf := mk_tx empty_queue empty_queue TCP_TX_BUFFER_CAPACITY |>
    <| window := TCP_RX_BUFFER_CAPACITY |> <| snd_wnd := TCP_DEFAULT_WINDOW |>
    <| rcv_wnd := TCP_RX_BUFFER_CAPACITY |> <| rcv_ann_wnd := TCP_RX_BUFFER_CAPACITY |>
    <| cwnd := TCP_INITIAL_CWND TCP_DEFAULT_MSS |> <| ssthresh := TCP_INITIAL_SSTHRESH |>.

Definition tcp_alloc (s : tcp) : tcp * option Z :=
  let '(s, ok) := kmalloc s in
  if negb ok then (s, None)
  else
    let '(s, ok) := kmalloc s in
    if negb ok then (s, None)
    else
      let a := next_addr s in
      (put s a (tcp_timers_reset fresh_pcb) <| next_addr := a + 1 |>, Some a).

Definition tcp_register (s : tcp) (a : Z) : tcp * Z :=
  if existsb (Z.eqb a) (tcp_pcbs s) then (s, -1)
  else (s <| tcp_pcbs := a :: tcp_pcbs s |>, 0).

(** Unlink the first occurrence. *)
Fixpoint unlink (l : list Z) (a : Z) : list Z :=
  match l with
  | [] => []
  | x :: l' => if x =? a then l' else x :: unlink l' a
  end.
Definition tcp_unregister (s : tcp) (a : Z) : tcp :=
  s <| tcp_pcbs := unlink (tcp_pcbs s) a |>.

(** What is left of a block just before it is given back. *)
Definition wipe_pcb (p : tcp_pcb) : tcp_pcb :=
  let p := p <| receive_queue := tcp_queue_clear_locked (receive_queue p) |>
             <| tx_buf := mk_tx (tcp_queue_clear_locked (unsent (tx_buf p)))
                                (tcp_queue_clear_locked (unacked (tx_buf p))) 0 |>
             <| rx_buf := mk_rx None 0 0 0 0 |> in
  tcp_timers_reset p <| socket := 0 |> <| state := TCP_CLOSED |>.

Definition tcp_free (s : tcp) (a : Z) : tcp :=
  let s := tcp_unregister s a in
  let s := put s a (wipe_pcb (get s a)) in
  s <| pcbs := delete a (pcbs s) |>.

Definition tcp_pcb_alloc (s : tcp) (sock : Z) : tcp * option Z :=
  match tcp_alloc s with
  | (s, None) => (s, None)
  | (s, Some a) => (put s a (get s a <| socket := sock |>), Some a)
  end.

Definition tcp_socket_create (s : tcp) (sock : Z) : tcp * option Z :=
  match tcp_pcb_alloc s sock with
  | (s, None) => (s, None)
  | (s, Some a) =>
      let '(s, r) := tcp_register s a in
      if negb (r =? 0) then (tcp_free s a, None) else (s, Some a)
  end.

Definition tcp_port_in_use_locked (s : tcp) (except lip lport : Z) : bool :=
  if lport =? 0 then true
  else existsb (fun a =>
    let p := get s a in
    negb ((a =? except) || negb (local_port p =? lport) || ts_eqb (state p) TCP_CLOSED) &&
    ((local_ip p =? 0) || (lip =? 0) || (local_ip p =? lip))) (tcp_pcbs s).

(** [exact] and [wild] are the listeners seen so far. *)
Fixpoint lookup_loop (s : tcp) (lip rip lport rport : Z) (l : list Z) (exact wild : option Z)
    : option Z :=
  match l with
  | [] => match exact with Some a => Some a | None => wild end
  | a :: l' =>
      let p := get s a in
      if negb (local_port p =? lport) then lookup_loop s lip rip lport rport l' exact wild
      else if negb (local_ip p =? 0) && negb (local_ip p =? lip)
      then lookup_loop s lip rip lport rport l' exact wild
      else if (remote_ip p =? rip) && (remote_port p =? rport) && negb (ts_eqb (state p) TCP_LISTEN)
      then Some a
      else if ts_eqb (state p) TCP_LISTEN && (remote_ip p =? 0) && (remote_port p =? 0)
      then
        if local_ip p =? lip then lookup_loop s lip rip lport rport l' (Some a) wild
        else match local_ip p =? 0, wild with
             | true, None => lookup_loop s lip rip lport rport l' exact (Some a)
             | _, _ => lookup_loop s lip rip lport rport l' exact wild
             end
      else lookup_loop s lip rip lport rport l' exact wild
  end.
Definition tcp_lookup_locked (s : tcp) (lip rip lport rport : Z) : option Z :=
  lookup_loop s lip rip lport rport (tcp_pcbs s) None None.
Definition tcp_lookup (s : tcp) (lip rip lport rport : Z) : option Z :=
  tcp_lookup_locked s lip rip lport rport.

(** * Ports *)

(** The candidates tried, [range] of them at most. *)
Fixpoint ephemeral_loop (n : nat) (s : tcp) (a lip : Z) : tcp * Z :=
  match n with
  | O => (s, 0)
  | S n' =>
      let next := tcp_next_ephemeral s in
      let next := if next <? TCP_EPHEMERAL_PORT_FIRST then TCP_EPHEMERAL_PORT_FIRST else next in
      let candidate := next in
      let s := s <| tcp_next_ephemeral :=
        if next =? TCP_EPHEMERAL_PORT_LAST then TCP_EPHEMERAL_PORT_FIRST else next + 1 |> in
      if negb (tcp_port_in_use_locked s a lip candidate)
      then (put s a (set_flags (get s a <| local_ip := lip |> <| local_port := candidate |>)
                       TCP_PCB_FLAG_BOUND), candidate)
      else ephemeral_loop n' s a lip
  end.

Definition ephemeral_range : Z := TCP_EPHEMERAL_PORT_LAST - TCP_EPHEMERAL_PORT_FIRST + 1.

Definition tcp_allocate_ephemeral_port (s : tcp) (a lip : Z) : tcp * Z :=
  if negb (ts_eqb (state (get s a)) TCP_CLOSED) then (s, 0)
  else ephemeral_loop (Z.to_nat ephemeral_range) s a lip.

Definition tcp_bind (s : tcp) (a lip lport : Z) : tcp * Z :=
  if lport =? 0
  then let '(s, assigned) := tcp_allocate_ephemeral_port s a lip in
       (s, if negb (assigned =? 0) then 0 else -1)
  else if negb (ts_eqb (state (get s a)) TCP_CLOSED) || tcp_port_in_use_locked s a lip lport
  then (s, -1)
  else (put s a (set_flags (get s a <| local_ip := lip |> <| local_port := lport |>)
                   TCP_PCB_FLAG_BOUND), 0).

Definition tcp_release_port (s : tcp) (a : Z) : tcp :=
  put s a (clr_flags (get s a <| local_port := 0 |> <| local_ip := 0 |>) TCP_PCB_FLAG_BOUND).

(** * Listeners *)

Definition tcp_listen (s : tcp) (a backlog_arg : Z) : tcp * Z :=
  let p := get s a in
  if local_port p =? 0 then (s, -1)
  else
    let n := if backlog_arg <=? 0 then 1 else backlog_arg in
    let n := if TCP_MAX_BACKLOG <? n then TCP_MAX_BACKLOG else n in
    if negb (ts_eqb (state p) TCP_CLOSED) && negb (ts_eqb (state p) TCP_LISTEN) then (s, -1)
    else
      let p := p <| state := TCP_LISTEN |> <| remote_ip := 0 |> <| remote_port := 0 |> <| backlog := n |> in
      let p := set_flags p (Z.lor TCP_PCB_FLAG_PASSIVE TCP_PCB_FLAG_BOUND) in
      (put s a (clr_flags p TCP_PCB_FLAG_ACTIVE), 0).

Definition tcp_accept_enqueue_locked (s : tcp) (l c : Z) : tcp * Z :=
  let p := get s l in
  if backlog p <=? accept_count p then (s, -1)
  else
    let s := put s c (set_flags (get s c <| parent := Some l |>) TCP_PCB_FLAG_ACCEPT_READY) in
    (put s l (get s l <| accept_queue := accept_queue p ++ [c] |>
                      <| accept_count := accept_count p + 1 |>), 0).

Definition tcp_accept_dequeue_locked (s : tcp) (l : Z) : tcp * option Z :=
  let p := get s l in
  match accept_queue p with
  | [] => (s, None)
  | c :: rest =>
      let s := put s l (p <| accept_queue := rest |>
        <| accept_count := if 0 <? accept_count p then accept_count p - 1 else accept_count p |>) in
      (put s c (clr_flags (get s c <| parent := None |>) TCP_PCB_FLAG_ACCEPT_READY), Some c)
  end.

Definition tcp_accept (s : tcp) (l : Z) : tcp * option Z :=
  if negb (ts_eqb (state (get s l)) TCP_LISTEN) then (s, None) else tcp_accept_dequeue_locked s l.
Definition tcp_accept_locked (s : tcp) (l : Z) : tcp * option Z :=
  if negb (ts_eqb (state (get s l)) TCP_LISTEN) then (s, None) else tcp_accept_dequeue_locked s l.

(** Children are unlinked one by one; at most [max_orphans] of them are returned. *)
Fixpoint detach_loop (s : tcp) (children : list Z) (room : nat) : tcp * list Z :=
  match children with
  | [] => (s, [])
  | c :: rest =>
      let s := put s c (clr_flags (get s c <| parent := None |>) TCP_PCB_FLAG_ACCEPT_READY
                          <| state := TCP_CLOSED |>) in
      match room with
      | O => detach_loop s rest O
      | S room' => let '(s, o) := detach_loop s rest room' in (s, c :: o)
      end
  end.
Definition tcp_accept_queue_detach_locked (s : tcp) (l : Z) (max_orphans : nat) : tcp * list Z :=
  let children := accept_queue (get s l) in
  let s := put s l (get s l <| accept_queue := [] |> <| accept_count := 0 |>) in
  detach_loop s children max_orphans.

(** Half-open children of a listener lose their parent; at most eight of them are
    returned. *)
Fixpoint syn_orphans (s : tcp) (l : Z) (all : list Z) (room : nat) : tcp * list Z :=
  match all with
  | [] => (s, [])
  | c :: rest =>
      let p := get s c in
      match bool_decide (parent p = Some l) && ts_eqb (state p) TCP_SYN_RECEIVED, room with
      | true, S room' =>
          let '(s, o) := syn_orphans (put s c (p <| parent := None |>)) l rest room' in (s, c :: o)
      | _, _ => syn_orphans s l rest room
      end
  end.

(** Orphans are not listeners, so the recursion of the C function is two deep. *)
Fixpoint tcp_socket_destroy (depth : nat) (s : tcp) (a : Z) : tcp :=
  match depth with
  | O => s
  | S depth' =>
      let '(s, syn) := if ts_eqb (state (get s a)) TCP_LISTEN
                       then syn_orphans s a (tcp_pcbs s) 8 else (s, []) in
      let s := tcp_unregister s a in
      let '(s, orphans) := if ts_eqb (state (get s a)) TCP_LISTEN
                           then tcp_accept_queue_detach_locked s a 8 else (s, []) in
      let s := put s a (wipe_pcb (get s a) <| parent := None |>) in
      let s := foldl (tcp_socket_destroy depth') s orphans in
      let s := foldl (tcp_socket_destroy depth') s syn in
      s <| pcbs := delete a (pcbs s) |>
  end.
Definition destroy (s : tcp) (a : Z) : tcp := tcp_socket_destroy 2 s a.

(** * Sending *)

(** [None]: the loop is not finished within the fuel. *)
Fixpoint drain_loop (fuel : nat) (s : tcp) (a : Z) : option tcp :=
  match fuel with
  | O => None
  | S fuel' =>
      let alloc1 := kmalloc_ok (kmallocs s) in
      let alloc2 := kmalloc_ok (S (kmallocs s)) in
      match drain_round (kernel_ticks s) alloc1 alloc2 (get s a) with
      | DrainStop p n => Some (put s a p <| kmallocs := (kmallocs s + n)%nat |>)
      | DrainFin p out => Some (send (put s a p) out)
      | DrainSend p out n =>
          drain_loop fuel' (send (put s a p <| kmallocs := (kmallocs s + n)%nat |>) out) a
      end
  end.

(** Every round sends a byte or a queued segment, or ends the loop. *)
Definition drain_fuel (p : tcp_pcb) : nat :=
  S (Z.to_nat (q_bytes (unsent (tx_buf p)))) + length (q_entries (unsent (tx_buf p))).

Definition tcp_drain_unsent_fuel (fuel : nat) (s : tcp) (a : Z) : option tcp :=
  if pcb_has (get s a) TCP_PCB_FLAG_DRAINING then Some s
  else drain_loop fuel (put s a (set_flags (get s a) TCP_PCB_FLAG_DRAINING)) a.
Definition tcp_drain_unsent (s : tcp) (a : Z) : option tcp :=
  tcp_drain_unsent_fuel (drain_fuel (get s a)) s a.

Definition refuses_data (p : tcp_pcb) : bool :=
  negb (can_send p) || has (flags p) (Z.lor TCP_PCB_FLAG_RESET TCP_PCB_FLAG_SHUT_WR).

(** Why the accepting loop of [tcp_send] ended. *)
Inductive accept_end := AcceptBreak | AcceptReturn.

(** One byte or more is accepted in each round, so the length bounds the loop. *)
Fixpoint send_loop (fuel : nat) (s : tcp) (a : Z) (buffer : list Z) (accepted : Z)
    : tcp * Z * accept_end :=
  match fuel with
  | O => (s, accepted, AcceptBreak)
  | S fuel' =>
      if negb (accepted <? len buffer) then (s, accepted, AcceptBreak)
      else if refuses_data (get s a) then (s, accepted, AcceptReturn)
      else
        let space := tcp_tx_buffer_available_locked (get s a) in
        if space =? 0 then (s, accepted, AcceptBreak)
        else
          let requested := len buffer - accepted in
          let requested := if TCP_DEFAULT_MSS <? requested then TCP_DEFAULT_MSS else requested in
          let requested := if space <? requested then space else requested in
          let s := others s in
          let '(s, ok1) := kmalloc s in
          if negb ok1 then (s, accepted, AcceptBreak)
          else
            let '(s, ok2) := kmalloc s in
            if negb ok2 then (s, accepted, AcceptBreak)
            else
              let p := get s a in
              if refuses_data p then (s, accepted, AcceptReturn)
              else if tcp_tx_buffer_available_locked p <? requested then (s, accepted, AcceptBreak)
              else
                let q := unsent (tx_buf p) in
                let seg := mk_segment (u32 (snd_nxt p + u32 (q_bytes q))) requested 0
                             (slice buffer accepted requested) 0 0 in
                send_loop fuel' (put s a (set_unsent p (tcp_queue_append_locked q seg))) a buffer
                  (accepted + requested)
  end.

Definition tcp_send (s : tcp) (a : Z) (buffer : list Z) : option (tcp * Z) :=
  if len buffer =? 0 then Some (s, 0)
  else
    match send_loop (S (length buffer)) s a buffer 0 with
    | (s, accepted, AcceptReturn) => Some (s, if negb (accepted =? 0) then s32 accepted else -1)
    | (s, accepted, AcceptBreak) =>
        if accepted =? 0 then Some (s, -1)
        else let* s := tcp_drain_unsent s a in Some (s, s32 accepted)
    end.

(** Control segments only: [len] and [payload] must be absent. *)
Definition tcp_send_segment (s : tcp) (a seq ack fl wnd : Z) (payload : list Z) : tcp * Z :=
  let p := get s a in
  if (remote_ip p =? 0) || (local_port p =? 0) || (remote_port p =? 0) then (s, -1)
  else if negb (len payload =? 0) then (s, -1)
  else
    let h := mk_header (local_port p) (remote_port p) seq ack
               (u16 (Z.lor (Z.shiftl 5 12) (Z.land fl 0x3F)))
               (if negb (wnd =? 0) then wnd else snd_wnd p) 0 0 in
    transmit s (remote_ip p, make_packet (tcp_effective_local_ip p) (remote_ip p) h []).

Definition tcp_output (s : tcp) (a fl : Z) (payload : list Z) : option (tcp * Z) :=
  if TCP_DEFAULT_MSS <? len payload then Some (s, -1)
  else if negb (len payload =? 0)
  then let* (s, accepted) := tcp_send s a payload in
       Some (s, if accepted =? s32 (len payload) then 0 else -1)
  else
    match tcp_build_output_locked (get s a) fl [] with
    | None => Some (s, -1)
    | Some (p, out) =>
        let p :=
          if has fl TCP_FLAG_SYN
          then
            let rto := if rto_ticks (timers p) =? 0 then TCP_RTO_TICKS_DEFAULT else rto_ticks (timers p) in
            let deadline := u64 (kernel_ticks s + rto) in
            set_flags (p <| timers := timers p <| rto_ticks := rto |> <| retransmission := deadline |> |>
                         <| retransmission_timer := deadline |>) TCP_PCB_FLAG_TIMER_RTO
          else p in
        Some (transmit (put s a p) out)
    end.

(** * Receiving *)

(** The bytes read and the result; -1 for a bad argument. *)
Definition tcp_receive_read (s : tcp) (a length : Z) : option (tcp * list Z * Z) :=
  if length =? 0 then Some (s, [], -1)
  else if pcb_has (get s a) TCP_PCB_FLAG_SHUT_RD then Some (s, [], 0)
  else
    let '(p, out) := tcp_rx_buffer_read_locked (get s a) length in
    let free_sp := tcp_rx_buffer_free_space_locked p in
    let p := p <| window := u32 free_sp |> <| rcv_wnd := Z.land free_sp 0xFFFF |>
               <| rcv_ann_wnd := Z.land free_sp 0xFFFF |> in
    let update :=
      if (0 <? len out) && ts_eqb (state p) TCP_ESTABLISHED
      then tcp_build_output_locked p TCP_FLAG_ACK [] else None in
    let p := match update with Some (p, _) => p | None => p end in
    let drain := ts_eqb (state p) TCP_ESTABLISHED && has_unsent p in
    let s := put s a p in
    let s := match update with Some (_, pkt) => send s pkt | None => s end in
    let* s := if drain then tcp_drain_unsent s a else Some s in
    Some (s, out, s32 (len out)).

Definition tcp_receive_available (s : tcp) (a : Z) : Z := tcp_rx_buffer_available_locked (get s a).

(** * Segment input *)

(** The answer to a segment for no block. *)
Definition rst_packet (src_ip dest_ip lport rport : Z) (g : rx_segment) : packet :=
  let h :=
    if sg_has g TCP_FLAG_ACK
    then mk_header lport rport (sg_ack g) 0 (Z.lor (Z.shiftl 5 12) TCP_FLAG_RST) 0 0 0
    else mk_header lport rport 0
           (u32 (sg_seq g + u32 (sg_len g) +
                 (if sg_has g (Z.lor TCP_FLAG_SYN TCP_FLAG_FIN) then 1 else 0)))
           (Z.lor (Z.lor (Z.shiftl 5 12) TCP_FLAG_RST) TCP_FLAG_ACK) 0 0 0 in
  (src_ip, make_packet dest_ip src_ip h []).

(** The block of a half-open connection of the listener [l]. *)
Definition first_iss (ticks rport : Z) : Z :=
  let iss0 := u32 (ticks + 1000 + u32 (Z.shiftl rport 8)) in
  if iss0 =? 0 then 1000 else iss0.
Definition syn_block (p : tcp_pcb) (l lip src_ip lport rport sequence ticks : Z) : tcp_pcb :=
  let iss0 := first_iss ticks rport in
  let deadline := u64 (ticks + TCP_RTO_TICKS_DEFAULT) in
  p <| local_ip := lip |> <| remote_ip := src_ip |> <| local_port := lport |>
    <| remote_port := rport |> <| iss := iss0 |> <| irs := sequence |> <| seq_number := iss0 |>
    <| snd_una := iss0 |> <| snd_nxt := u32 (iss0 + 1) |> <| ack_number := u32 (sequence + 1) |>
    <| rcv_nxt := u32 (sequence + 1) |> <| window := TCP_RX_BUFFER_CAPACITY |>
    <| snd_wnd := TCP_DEFAULT_WINDOW |> <| rcv_wnd := TCP_RX_BUFFER_CAPACITY |>
    <| rcv_ann_wnd := TCP_RX_BUFFER_CAPACITY |> <| state := TCP_SYN_RECEIVED |>
    <| parent := Some l |>
    <| flags := Z.lor (Z.lor TCP_PCB_FLAG_BOUND TCP_PCB_FLAG_PASSIVE) TCP_PCB_FLAG_TIMER_RTO |>
    <| timers := timers p <| rto_ticks := TCP_RTO_TICKS_DEFAULT |> <| retransmit_count := 0 |>
         <| retransmission := deadline |> <| timeout := u64 (ticks + TCP_CONNECT_TIMEOUT_TICKS) |> |>
    <| retransmission_timer := deadline |>.

Definition tcp_handle_listen_syn (s : tcp) (l src_ip dest_ip rport sequence : Z) : tcp * Z :=
  let lp := get s l in
  if negb (ts_eqb (state lp) TCP_LISTEN) then (s, -1)
  else if backlog lp <=? accept_count lp then (s, -1)
  else
    let lip := if negb (local_ip lp =? 0) then local_ip lp else dest_ip in
    let lport := local_port lp in
    match tcp_pcb_alloc s 0 with
    | (s, None) => (s, -1)
    | (s, Some c) =>
        let p := syn_block (get s c) l lip src_ip lport rport sequence (kernel_ticks s) in
        let '(s, r) := tcp_register (put s c p) c in
        if negb (r =? 0) then (tcp_free s c, -1)
        else
          match tcp_build_output_locked (get s c) (Z.lor TCP_FLAG_SYN TCP_FLAG_ACK) [] with
          | None => (destroy s c, -1)
          | Some (p, out) => (send (put s c p) out, 0)
          end
    end.

(** The end of [tcp_input]: wake the socket, send what was built, drain. *)
Definition finish_input (s : tcp) (a : Z) (w : inp) : option (tcp * Z) :=
  let p := i_pcb w in
  let pending := can_send p && (has_unsent p || pcb_has p TCP_PCB_FLAG_FIN_PENDING) in
  let s := put s a p in
  let s := tcp_socket_notify s (socket p) in
  let s := if send_out w then send s (out_packet w) else s in
  let s := match fast_rexmit w with Some out => send s out | None => s end in
  let* s := if pending || need_drain w then tcp_drain_unsent s a else Some s in
  Some (s, 0).

Definition input_rst (s : tcp) (a : Z) : tcp :=
  let p := get s a in
  let half_open_child := bool_decide (parent p <> None) && (socket p =? 0) in
  let p := set_flags (p <| state := TCP_CLOSED |>) TCP_PCB_FLAG_RESET in
  let p := p <| tx_buf := mk_tx (tcp_queue_clear_locked (unsent (tx_buf p)))
                                (tcp_queue_clear_locked (unacked (tx_buf p))) (tx_capacity (tx_buf p)) |> in
  let p := tcp_timers_reset p in
  let s := put s a p in
  if negb (socket p =? 0) then tcp_socket_notify s (socket p)
  else if half_open_child then destroy s a
  else s.

(** A completed passive open goes to the accept queue of its listener, which is
    locked first: other threads run in between. *)
Definition deliver_child (s : tcp) (a l : Z) : tcp * Z :=
  let s := others s in
  let '(s, ok) := if ts_eqb (state (get s l)) TCP_LISTEN
                  then tcp_accept_enqueue_locked s l a else (s, -1) in
  if ok =? 0 then (tcp_socket_notify s (socket (get s l)), 0)
  else (destroy s a, -1).

Definition input_last_ack (s : tcp) (a : Z) (g : rx_segment) : option (tcp * Z) :=
  let w := start_input (get s a) in
  let w := if fin_repeated (i_pcb w) g then reply w TCP_FLAG_ACK else w in
  if sg_has g TCP_FLAG_ACK && TCP_SEQ_GE (sg_ack g) (snd_nxt (i_pcb w))
  then
    let p := tcp_timers_reset (i_pcb w <| state := TCP_CLOSED |>) in
    let s := put s a p in
    let s := tcp_socket_notify s (socket p) in
    let s := if send_out w then send s (out_packet w) else s in
    Some (if socket p =? 0 then tcp_free s a else s, 0)
  else finish_input s a w.

(** The switch over the state of a block that is neither closed nor listening. *)
Definition input_state (s : tcp) (a : Z) (g : rx_segment) : option (tcp * Z) :=
  let p := get s a in
  let ticks := kernel_ticks s in
  let w := start_input p in
  match state p with
  | TCP_SYN_SENT => finish_input s a (input_syn_sent ticks w g)
  | TCP_SYN_RECEIVED =>
      let w' := input_syn_received ticks w g in
      match parent p with
      | Some l =>
          if ts_eqb (state (i_pcb w')) TCP_ESTABLISHED
          then Some (deliver_child (put s a (i_pcb w')) a l)
          else finish_input s a w'
      | None => finish_input s a w'
      end
  | TCP_ESTABLISHED => finish_input s a (input_established ticks w g)
  | TCP_FIN_WAIT1 => finish_input s a (input_fin_wait1 ticks w g)
  | TCP_FIN_WAIT2 => finish_input s a (input_fin_wait2 ticks w g)
  | TCP_CLOSE_WAIT => finish_input s a (input_close_wait w g)
  | TCP_LAST_ACK => input_last_ack s a g
  | TCP_TIME_WAIT => finish_input s a (input_time_wait ticks w g)
  | TCP_CLOSED | TCP_LISTEN => finish_input s a w
  end.

(** Demultiplexing: find the block and switch over its state. *)
Definition input_segment (s : tcp) (src_ip dest_ip lport rport : Z) (g : rx_segment) : option (tcp * Z) :=
  match tcp_lookup_locked s dest_ip src_ip lport rport with
  | None =>
      Some (if sg_has g TCP_FLAG_RST then s
            else send s (rst_packet src_ip dest_ip lport rport g), -1)
  | Some a =>
      match state (get s a) with
      | TCP_CLOSED => Some (s, -1)
      | TCP_LISTEN =>
          if sg_has g TCP_FLAG_SYN && negb (sg_has g TCP_FLAG_ACK) && negb (sg_has g TCP_FLAG_RST)
          then Some (tcp_handle_listen_syn s a src_ip dest_ip rport (sg_seq g))
          else Some (s, -1)
      | _ =>
          if sg_has g TCP_FLAG_RST then Some (input_rst s a, 0)
          else input_state s a g
      end
  end.

Definition tcp_input (s : tcp) (src_ip dest_ip : Z) (segment : list Z) : option (tcp * Z) :=
  let length := len segment in
  if length <? TCP_HEADER_MIN_SIZE then Some (s, -1)
  else if negb (tcp_checksum src_ip dest_ip segment =? 0) then Some (s, -1)
  else
    match tcp_parse_header segment length with
    | None => Some (s, -1)
    | Some hdr =>
        let header_len := u16 (Z.shiftr (data_offset_flags hdr) 12 * 4) in
        if (header_len <? TCP_HEADER_MIN_SIZE) || (length <? header_len) then Some (s, -1)
        else
          let lport := dest_port hdr in
          let rport := src_port hdr in
          let g := mk_rxseg (Z.land (data_offset_flags hdr) 0x1FF) (seq_num hdr) (ack_num hdr)
                     (window_size hdr) (drop (Z.to_nat header_len) segment) in
          input_segment s src_ip dest_ip lport rport g
    end.

(** * Close and shutdown *)

(** Send what is queued, then the FIN, from [st]. *)
Definition close_from (s : tcp) (a : Z) (st : tcp_state) : option (tcp * Z) :=
  if pcb_has (get s a) TCP_PCB_FLAG_SHUT_WR then Some (s, 0)
  else
    let s := put s a (set_flags (get s a) TCP_PCB_FLAG_SHUT_WR) in
    let* s := if has_unsent (get s a) then tcp_drain_unsent s a else Some s in
    let p := get s a in
    if negb (ts_eqb (state p) st) then Some (s, 0)
    else
      let '(p, fin) := finish_close (kernel_ticks s) p in
      let s := put s a p in
      Some (match fin with Some out => send s out | None => s end, 0).

Definition tcp_close (s : tcp) (a : Z) : option (tcp * Z) :=
  let s := put s a (get s a <| socket := 0 |>) in
  match state (get s a) with
  | TCP_LISTEN | TCP_SYN_SENT | TCP_SYN_RECEIVED | TCP_CLOSED => Some (destroy s a, 0)
  | TCP_ESTABLISHED => close_from s a TCP_ESTABLISHED
  | TCP_CLOSE_WAIT => close_from s a TCP_CLOSE_WAIT
  | _ => Some (s, 0)
  end.

(** The write half: drain, then the FIN or the pending mark; the FIN to send. *)
Definition shutdown_write (s : tcp) (a : Z) : option (tcp * option packet * bool) :=
  if pcb_has (get s a) TCP_PCB_FLAG_SHUT_WR then Some (s, None, false)
  else
    let s := put s a (set_flags (get s a) TCP_PCB_FLAG_SHUT_WR) in
    if can_send (get s a)
    then
      let* s := if has_unsent (get s a) then tcp_drain_unsent s a else Some s in
      let p := get s a in
      if has_unsent p then Some (put s a (set_flags p TCP_PCB_FLAG_FIN_PENDING), None, true)
      else if negb (pcb_has p TCP_PCB_FLAG_FIN_PENDING)
      then
        match tcp_build_output_locked p (Z.lor TCP_FLAG_FIN TCP_FLAG_ACK) [] with
        | None => Some (s, None, true)
        | Some (p, out) =>
            let p := if ts_eqb (state p) TCP_ESTABLISHED then p <| state := TCP_FIN_WAIT1 |>
                     else p <| state := TCP_LAST_ACK |> in
            Some (put s a (arm_data_rto (kernel_ticks s) p), Some out, true)
        end
      else Some (s, None, true)
    else Some (s, None, false).

Definition shutdown_read (s : tcp) (a : Z) : tcp * bool :=
  let p := get s a in
  if pcb_has p TCP_PCB_FLAG_SHUT_RD then (s, false)
  else
    let p := set_flags p TCP_PCB_FLAG_SHUT_RD in
    (put s a (p <| rx_buf := rx_buf p <| rx_head := 0 |> <| rx_tail := 0 |> <| rx_used := 0 |> |>), true).

Definition tcp_shutdown_locked (s : tcp) (a how : Z) : option (tcp * Z) :=
  if (how <? 0) || (2 <? how) then Some (s, -1)
  else
    match state (get s a) with
    | TCP_CLOSED | TCP_LISTEN | TCP_SYN_SENT | TCP_SYN_RECEIVED => Some (s, -1)
    | _ =>
        let '(s, n1) := if (how =? 0) || (how =? 2) then shutdown_read s a else (s, false) in
        let* (s, fin, n2) := if (how =? 1) || (how =? 2) then shutdown_write s a else Some (s, None, false) in
        let sock := socket (get s a) in
        let s := match fin with Some out => send s out | None => s end in
        Some (if n1 || n2 then tcp_socket_notify s sock else s, 0)
    end.
Definition tcp_shutdown (s : tcp) (a how : Z) : option (tcp * Z) := tcp_shutdown_locked s a how.

(** * The timer thread *)

(** The packets for the four deferred slots, the dead blocks, at most sixteen. *)
Record tick_acc := mk_acc { deferred : list packet; dead : list Z }.

Definition defer (acc : tick_acc) (o : option packet) : tick_acc :=
  match o with Some out => mk_acc (deferred acc ++ [out]) (dead acc) | None => acc end.
Definition room (acc : tick_acc) : bool := len (deferred acc) <? 4.

(** The visit of an open connection: data first, then the zero-window probe. *)
Definition timer_open (s : tcp) (a now : Z) (acc : tick_acc) : tcp * tick_acc :=
  match timer_data (get s a) now (kernel_ticks s) (room acc) with
  | inl p => (tcp_socket_notify (put s a p) (socket p), acc)
  | inr (p, out) =>
      let acc := defer acc out in
      let '(p, probe) := timer_persist p now (room acc) in
      (put s a p, defer acc probe)
  end.

Definition apply_timer (s : tcp) (a : Z) (acc : tick_acc) (r : timer_result) : tcp * tick_acc :=
  let s := put s a (tr_pcb r) in
  let s := if tr_notify r then tcp_socket_notify s (socket (tr_pcb r)) else s in
  let acc := defer acc (tr_packet r) in
  (s, if tr_dead r && (len (dead acc) <? 16) then mk_acc (deferred acc) (dead acc ++ [a]) else acc).

Definition timer_visit (now : Z) (st : tcp * tick_acc) (a : Z) : tcp * tick_acc :=
  let '(s, acc) := st in
  let p := get s a in
  match state p with
  | TCP_SYN_SENT => apply_timer s a acc (timer_handshake p now TCP_FLAG_SYN (room acc) true)
  | TCP_SYN_RECEIVED =>
      apply_timer s a acc (timer_handshake p now (Z.lor TCP_FLAG_SYN TCP_FLAG_ACK) (room acc) false)
  | TCP_ESTABLISHED | TCP_CLOSE_WAIT => timer_open s a now acc
  | TCP_FIN_WAIT1 | TCP_LAST_ACK => apply_timer s a acc (timer_fin p now (room acc))
  | TCP_TIME_WAIT =>
      if timeout_due p now
      then apply_timer s a acc (mk_tr (close_now p) None false (socket p =? 0))
      else st
  | _ => st
  end.

Definition tcp_timer_tick (s : tcp) (now : Z) : tcp :=
  let '(s, acc) := foldl (timer_visit now) (s, mk_acc [] []) (tcp_pcbs s) in
  let s := foldl tcp_free s (dead acc) in
  foldl send s (deferred acc).
End System.

(** * Facts about flags *)

Lemma has_set_other f c b : Z.land c b = 0 -> has (set_flag f c) b = has f b.
Proof. intros E. unfold has, set_flag. by rewrite Z.land_lor_distr_l, E, Z.lor_0_r. Qed.
Lemma has_clr_other f c b : Z.land (lnot32 c) b = b -> has (clr_flag f c) b = has f b.
Proof. intros E. unfold has, clr_flag. by rewrite <- Z.land_assoc, E. Qed.
Lemma has_set_same f b : b <> 0 -> has (set_flag f b) b = true.
Proof.
  intros Hb. unfold has, set_flag. apply negb_true_iff, Z.eqb_neq. intros E. apply Hb.
  rewrite Z.land_lor_distr_l, Z.land_diag in E. by apply Z.lor_eq_0_iff in E as [_ ?].
Qed.
Lemma has_clr_same f b : Z.land (lnot32 b) b = 0 -> has (clr_flag f b) b = false.
Proof. intros E. unfold has, clr_flag. by rewrite <- Z.land_assoc, E, Z.land_0_r. Qed.

(** Rewrite [pcb_has] through flag writes; the bits are constants. *)
Ltac flag_simpl :=
  unfold pcb_has, set_flags, clr_flags in *; cbn in *;
  repeat first
    [ rewrite has_set_same by done | rewrite has_clr_same by done
    | rewrite has_set_other by done | rewrite has_clr_other by done ].
