(* ===== verification/TcpRx.v ===== *)
(** The receive ring of a TCP control block refines a bounded byte queue: the
    proofs about [tcp_rx_buffer_write_locked] and [tcp_rx_buffer_read_locked] of
    [src/src/kernel/tcp.c], and the receive side of [tcp_input]. *)

From S2P Require Import Prelude TcpWire Tcp.

(** * Lists by index *)

Section ByIndex.
Context {A : Type} `{!Inhabited A}.
Implicit Types l : list A.

Lemma arr_ext l1 l2 :
  len l1 = len l2 -> (forall i, 0 <= i < len l1 -> arr_get l1 i = arr_get l2 i) -> l1 = l2.
Proof.
  unfold len, arr_get. intros Hl Hg. apply list_eq_same_length with (length l1); [lia|done|].
  intros i x y Hi Hx Hy. specialize (Hg (Z.of_nat i)). rewrite Nat2Z.id in Hg.
  rewrite (list_lookup_total_correct _ _ _ Hx), (list_lookup_total_correct _ _ _ Hy) in Hg.
  apply Hg. lia.
Qed.

Lemma arr_get_app l1 l2 i :
  0 <= i -> arr_get (l1 ++ l2) i = if i <? len l1 then arr_get l1 i else arr_get l2 (i - len l1).
Proof.
  unfold arr_get, len. intros Hi. bcase.
  - by rewrite lookup_total_app_l by lia.
  - rewrite lookup_total_app_r by lia. f_equal. lia.
Qed.

Lemma arr_get_take l n i : 0 <= i < Z.of_nat n -> arr_get (take n l) i = arr_get l i.
Proof. unfold arr_get. intros. by rewrite lookup_total_take_lt by lia. Qed.

Lemma arr_get_drop l n i : 0 <= i -> arr_get (drop n l) i = arr_get l (Z.of_nat n + i).
Proof. unfold arr_get. intros. rewrite lookup_total_drop. f_equal. lia. Qed.

Lemma len_nonneg l : 0 <= len l.
Proof. unfold len. lia. Qed.
End ByIndex.

Lemma len_slice l pos n : 0 <= pos -> 0 <= n -> pos + n <= len l -> len (slice l pos n) = n.
Proof. unfold len, slice. rewrite length_take, length_drop. lia. Qed.

Lemma arr_get_slice l pos n i :
  0 <= pos -> 0 <= i < n -> arr_get (slice l pos n) i = arr_get l (pos + i).
Proof.
  intros. unfold slice. rewrite arr_get_take, arr_get_drop by lia. f_equal. lia.
Qed.

Lemma slice_all l : slice l 0 (len l) = l.
Proof. unfold slice, len. rewrite drop_0. apply take_ge. lia. Qed.

Lemma slice_slice0 l n m : 0 <= m <= n -> slice (slice l 0 n) 0 m = slice l 0 m.
Proof. intros. unfold slice. rewrite !drop_0, take_take. f_equal. lia. Qed.

Lemma len_copy_at d pos src :
  0 <= pos -> pos + len src <= len d -> len (copy_at d pos src) = len d.
Proof.
  unfold len, copy_at. intros. rewrite !length_app, length_take, length_drop. lia.
Qed.

Lemma arr_get_copy_at d pos src k :
  0 <= pos -> pos + len src <= len d -> 0 <= k < len d ->
  arr_get (copy_at d pos src) k =
    if (pos <=? k) && (k <? pos + len src) then arr_get src (k - pos) else arr_get d k.
Proof.
  intros H0 H1 Hk. unfold copy_at.
  assert (Ht : len (take (Z.to_nat pos) d) = pos) by (unfold len in *; rewrite length_take; lia).
  rewrite arr_get_app, Ht by lia.
  destruct (Z.ltb_spec k pos), (Z.leb_spec pos k); cbn; try lia.
  - by rewrite arr_get_take by lia.
  - rewrite arr_get_app by lia. bcases; [done|].
    rewrite arr_get_drop by lia. f_equal. unfold len in *. lia.
Qed.

(** * The ring *)

(** The [n] bytes from position [pos] of an array of [cap] bytes, wrapping around. *)
Definition ring (d : list Z) (cap pos n : Z) : list Z :=
  map (fun i => arr_get d ((pos + i) mod cap)) (seqZ 0 n).

Lemma len_ring d cap pos n : 0 <= n -> len (ring d cap pos n) = n.
Proof. unfold len, ring. rewrite length_map, length_seqZ. lia. Qed.

Lemma arr_get_ring d cap pos n i :
  0 <= i < n -> arr_get (ring d cap pos n) i = arr_get d ((pos + i) mod cap).
Proof.
  intros Hi. unfold ring, arr_get. apply list_lookup_total_correct.
  rewrite list_lookup_fmap, lookup_seqZ_lt by lia. cbn [fmap option_fmap option_map].
  by replace (0 + Z.of_nat (Z.to_nat i)) with i by lia.
Qed.

Record rx_wf (b : tcp_rx_buffer) (d : list Z) : Prop := {
  rw_data : rx_data b = Some d;
  rw_len : len d = rx_capacity b;
  rw_cap : 0 < rx_capacity b < 4294967296;
  rw_head : 0 <= rx_head b < rx_capacity b;
  rw_used : 0 <= rx_used b <= rx_capacity b;
  rw_tail : rx_tail b = (rx_head b + rx_used b) mod rx_capacity b
}.

(** The bytes waiting to be read. *)
Definition rx_contents (b : tcp_rx_buffer) : list Z :=
  match rx_data b with Some d => ring d (rx_capacity b) (rx_head b) (rx_used b) | None => [] end.

(** The two-part copy writes [src] from [tail] on, modulo the capacity. *)
Definition ring_write (d : list Z) (cap tail : Z) (src : list Z) : list Z :=
  if len src <=? cap - tail then copy_at d tail src
  else copy_at (copy_at d tail (slice src 0 (cap - tail))) 0
         (slice src (cap - tail) (len src - (cap - tail))).

Lemma ring_write_get d cap tail src k :
  len d = cap -> 0 <= tail < cap -> len src <= cap -> 0 <= k < cap ->
  len (ring_write d cap tail src) = cap /\
  arr_get (ring_write d cap tail src) k =
    if (k - tail) mod cap <? len src then arr_get src ((k - tail) mod cap) else arr_get d k.
Proof.
  intros Hd Ht Hs Hk. pose proof (len_nonneg src). unfold ring_write.
  assert (Hm : (k - tail) mod cap = if k <? tail then k - tail + cap else k - tail).
  { bcase; [|apply Z.mod_small; lia]. symmetry. apply Z.mod_unique with (-1); lia. }
  rewrite Hm. clear Hm. destruct (Z.leb_spec (len src) (cap - tail)).
  - rewrite len_copy_at, arr_get_copy_at by lia. split; [done|].
    destruct (Z.ltb_spec k tail); bcases; cbn; try done; lia.
  - assert (L1 : len (slice src 0 (cap - tail)) = cap - tail) by (apply len_slice; lia).
    assert (L2 : len (slice src (cap - tail) (len src - (cap - tail))) = len src - (cap - tail))
      by (apply len_slice; lia).
    assert (L3 : len (copy_at d tail (slice src 0 (cap - tail))) = cap) by (rewrite len_copy_at; lia).
    rewrite len_copy_at, (arr_get_copy_at _ 0) by lia. split; [done|].
    rewrite arr_get_copy_at, L1, L2 by lia.
    destruct (Z.ltb_spec k tail); bcases; cbn; try lia; try done;
      rewrite arr_get_slice by lia; f_equal; lia.
Qed.

Lemma ring_append d cap head used src :
  len d = cap -> 0 < cap -> 0 <= head < cap -> 0 <= used -> used + len src <= cap ->
  ring (ring_write d cap ((head + used) mod cap) src) cap head (used + len src) =
  ring d cap head used ++ src.
Proof.
  intros Hd Hc Hh Hu Hs. pose proof (len_nonneg src).
  set (tail := (head + used) mod cap).
  assert (Ht : 0 <= tail < cap) by (apply Z.mod_pos_bound; lia).
  apply arr_ext; [rewrite len_app, !len_ring; lia|].
  intros i Hi. rewrite len_ring in Hi by lia. rewrite arr_get_ring by lia.
  assert (Hk : 0 <= (head + i) mod cap < cap) by (apply Z.mod_pos_bound; lia).
  destruct (ring_write_get d cap tail src ((head + i) mod cap)) as [_ ->]; [lia..|].
  rewrite arr_get_app, len_ring by lia.
  assert (Hm : ((head + i) mod cap - tail) mod cap = (i - used) mod cap).
  { unfold tail. rewrite <- Zminus_mod. f_equal. lia. }
  rewrite Hm. destruct (Z.ltb_spec i used).
  - assert ((i - used) mod cap = i - used + cap) as -> by (symmetry; apply Z.mod_unique with (-1); lia).
    bcases. by rewrite arr_get_ring by lia.
  - rewrite Z.mod_small by lia. bcases. done.
Qed.

Lemma ring_split d cap head used n :
  0 < cap -> 0 <= n <= used ->
  ring d cap head used = ring d cap head n ++ ring d cap ((head + n) mod cap) (used - n).
Proof.
  intros Hc Hn. apply arr_ext; [rewrite len_app, !len_ring; lia|].
  intros i Hi. rewrite len_ring in Hi by lia.
  rewrite arr_get_app, arr_get_ring, len_ring by lia. bcase; [by rewrite arr_get_ring by lia|].
  rewrite arr_get_ring by lia. f_equal. rewrite Zplus_mod_idemp_l. f_equal. lia.
Qed.

(** The two-part copy out of the ring. *)
Lemma ring_read d cap head n :
  len d = cap -> 0 <= head < cap -> 0 <= n <= cap ->
  (if n <=? cap - head then slice d head n
   else slice d head (cap - head) ++ slice d 0 (n - (cap - head))) = ring d cap head n.
Proof.
  intros Hd Hh Hn. destruct (Z.leb_spec n (cap - head)).
  - apply arr_ext; [rewrite len_slice, len_ring; lia|]. intros i Hi.
    rewrite len_slice in Hi by lia. rewrite arr_get_slice, arr_get_ring by lia.
    by rewrite Z.mod_small by lia.
  - assert (L1 : len (slice d head (cap - head)) = cap - head) by (apply len_slice; lia).
    assert (L2 : len (slice d 0 (n - (cap - head))) = n - (cap - head)) by (apply len_slice; lia).
    apply arr_ext; [rewrite len_app, len_ring; lia|]. intros i Hi.
    rewrite len_app, L1, L2 in Hi. rewrite arr_get_app, L1, arr_get_ring by lia. bcase.
    + rewrite arr_get_slice by lia. by rewrite Z.mod_small by lia.
    + rewrite arr_get_slice by lia. f_equal. apply Z.mod_unique with 1; lia.
Qed.

Lemma pcb_rx_id p : p <| rx_buf := rx_buf p |> = p.
Proof. by destruct p. Qed.

Lemma rx_free p d :
  rx_wf (rx_buf p) d ->
  tcp_rx_buffer_free_space_locked p = rx_capacity (rx_buf p) - rx_used (rx_buf p).
Proof.
  intros [Hd Hl Hc Hh Hu Ht]. unfold tcp_rx_buffer_free_space_locked. rewrite Hd. bcase; lia.
Qed.

Lemma rx_write_facts p d src :
  rx_wf (rx_buf p) d ->
  let n := Z.min (len src) (rx_capacity (rx_buf p) - rx_used (rx_buf p)) in
  exists b d', tcp_rx_buffer_write_locked p src = (p <| rx_buf := b |>, n) /\
    rx_wf b d' /\ rx_capacity b = rx_capacity (rx_buf p) /\ rx_used b = rx_used (rx_buf p) + n /\
    rx_contents b = rx_contents (rx_buf p) ++ slice src 0 n.
Proof.
  intros Hw n. pose proof (len_nonneg src). pose proof (rx_free p d Hw) as Hfree.
  pose proof Hw as [Hd Hl Hc Hh Hu Ht]. unfold tcp_rx_buffer_write_locked. rewrite Hd, Hfree.
  assert (Hn : (if len src <? rx_capacity (rx_buf p) - rx_used (rx_buf p) then len src
                else rx_capacity (rx_buf p) - rx_used (rx_buf p)) = n) by (unfold n; bcase; lia).
  destruct (Z.eq_dec n 0) as [H0|H0].
  { exists (rx_buf p), d. rewrite H0, pcb_rx_id. cbn zeta. rewrite Hn, H0. cbn [Z.eqb].
    assert (slice src 0 0 = []) as -> by done.
    rewrite app_nil_r, Z.add_0_r. split_and!; try done. by destruct (len src =? 0). }
  cbn zeta. rewrite Hn. destruct (Z.eqb_spec (len src) 0); [lia|]. destruct (Z.eqb_spec n 0); [lia|].
  set (b := rx_buf p) in *. set (cap := rx_capacity b) in *.
  assert (Hsl : len (slice src 0 n) = n) by (apply len_slice; lia).
  assert (Htb : 0 <= rx_tail b < cap) by (rewrite Ht; apply Z.mod_pos_bound; lia).
  assert (Hdata : (if n <=? u64 (cap - rx_tail b)
     then (copy_at d (rx_tail b) (slice src 0 n), u64 (rx_tail b + n) mod cap)
     else (copy_at (copy_at d (rx_tail b) (slice src 0 (u64 (cap - rx_tail b)))) 0
             (slice src (u64 (cap - rx_tail b)) (n - u64 (cap - rx_tail b))), n - u64 (cap - rx_tail b))) =
     (ring_write d cap (rx_tail b) (slice src 0 n), (rx_tail b + n) mod cap)).
  { rewrite !u64_id by ulia. unfold ring_write. rewrite Hsl.
    destruct (Z.leb_spec n (cap - rx_tail b)); [done|]. f_equal.
    - rewrite slice_slice0 by lia. f_equal. unfold slice.
      rewrite drop_0, skipn_firstn_comm, take_take. f_equal. lia.
    - apply Z.mod_unique with 1; lia. }
  rewrite Hdata. eexists _, (ring_write d cap (rx_tail b) (slice src 0 n)).
  split; [reflexivity|]. split_and!; cbn; try done.
  - split; cbn; try done; try lia.
    + by destruct (ring_write_get d cap (rx_tail b) (slice src 0 n) 0) as [-> _]; [lia..|].
    + rewrite u64_id by ulia. lia.
    + rewrite u64_id by ulia. rewrite Ht, Zplus_mod_idemp_l. f_equal. lia.
  - apply u64_id. ulia.
  - pose proof (ring_append d cap (rx_head b) (rx_used b) (slice src 0 n)) as R.
    rewrite Hsl, <- Ht in R. unfold rx_contents. rewrite Hd. cbn. rewrite u64_id by ulia. apply R; lia.
Qed.

Lemma rx_read_facts p d length :
  rx_wf (rx_buf p) d -> 0 <= length ->
  let n := Z.min length (rx_used (rx_buf p)) in
  exists b out, tcp_rx_buffer_read_locked p length = (p <| rx_buf := b |>, out) /\
    rx_wf b d /\ rx_capacity b = rx_capacity (rx_buf p) /\ rx_used b = rx_used (rx_buf p) - n /\
    len out = n /\ rx_contents (rx_buf p) = out ++ rx_contents b.
Proof.
  intros Hw Hlen n. pose proof Hw as [Hd Hl Hc Hh Hu Ht]. unfold tcp_rx_buffer_read_locked. rewrite Hd.
  assert (Hn : (if length <? rx_used (rx_buf p) then length else rx_used (rx_buf p)) = n)
    by (unfold n; bcase; lia).
  destruct (Z.eq_dec n 0) as [H0|H0].
  { exists (rx_buf p), []. rewrite pcb_rx_id. cbn zeta. rewrite Hn, H0. cbn [Z.eqb].
    split_and!; try done; [by destruct (length =? 0)|lia]. }
  cbn zeta. rewrite Hn. destruct (Z.eqb_spec length 0); [lia|]. destruct (Z.eqb_spec n 0); [lia|].
  set (b := rx_buf p) in *. set (cap := rx_capacity b) in *.
  assert (Hdata : (if n <=? u64 (cap - rx_head b)
     then (slice d (rx_head b) n, u64 (rx_head b + n) mod cap)
     else (slice d (rx_head b) (u64 (cap - rx_head b)) ++ slice d 0 (n - u64 (cap - rx_head b)),
           n - u64 (cap - rx_head b))) = (ring d cap (rx_head b) n, (rx_head b + n) mod cap)).
  { rewrite <- ring_read by lia. rewrite !u64_id by ulia.
    destruct (Z.leb_spec n (cap - rx_head b)); [done|]. f_equal. apply Z.mod_unique with 1; lia. }
  rewrite Hdata. eexists _, _. split; [reflexivity|].
  assert (Hused : u64 (rx_used b - n) = rx_used b - n) by (apply u64_id; ulia).
  split_and!; cbn; try done.
  - split; cbn; try done; rewrite ?Hused.
    + apply Z.mod_pos_bound. lia.
    + lia.
    + rewrite Ht, Zplus_mod_idemp_l. f_equal. lia.
  - apply len_ring. lia.
  - unfold rx_contents. cbn. rewrite Hd, Hused. apply ring_split; lia.
Qed.

(** * Refinement of a bounded queue of bytes *)

Inductive rx_op := RxWrite (src : list Z) | RxRead (length : Z).

(** The queue: a write takes as much as fits, a read as much as there is. *)
Definition queue_op (cap : Z) (q : list Z) (o : rx_op) : list Z * list Z :=
  match o with
  | RxWrite src => (q ++ slice src 0 (Z.min (len src) (cap - len q)), [])
  | RxRead n => (drop (Z.to_nat (Z.min n (len q))) q, slice q 0 (Z.min n (len q)))
  end.
Definition ring_op (p : tcp_pcb) (o : rx_op) : tcp_pcb * list Z :=
  match o with
  | RxWrite src => (fst (tcp_rx_buffer_write_locked p src), [])
  | RxRead n => tcp_rx_buffer_read_locked p n
  end.
Fixpoint run_ops {S} (step : S -> rx_op -> S * list Z) (s : S) (l : list rx_op) : S * list Z :=
  match l with
  | [] => (s, [])
  | o :: l' => let '(s, out) := step s o in
               let '(s, outs) := run_ops step s l' in (s, out ++ outs)
  end.

Definition op_ok (o : rx_op) : Prop := match o with RxRead n => 0 <= n | RxWrite _ => True end.

Lemma len_rx_contents b d : rx_wf b d -> len (rx_contents b) = rx_used b.
Proof. intros [Hd Hl Hc Hh Hu Ht]. unfold rx_contents. rewrite Hd. apply len_ring. lia. Qed.

Lemma ring_op_refines p d o :
  rx_wf (rx_buf p) d -> op_ok o ->
  let '(p', out) := ring_op p o in
  (exists d', rx_wf (rx_buf p') d') /\ rx_capacity (rx_buf p') = rx_capacity (rx_buf p) /\
  queue_op (rx_capacity (rx_buf p)) (rx_contents (rx_buf p)) o = (rx_contents (rx_buf p'), out) /\
  p' = p <| rx_buf := rx_buf p' |>.
Proof.
  intros Hw Ho. pose proof (len_rx_contents _ _ Hw) as Hlen. destruct o as [src|n]; cbn [ring_op queue_op].
  - destruct (rx_write_facts p d src Hw) as (b & d' & -> & Hw' & Hcap & Hused & Hc).
    rewrite Hlen. cbn. rewrite Hc. by eauto.
  - destruct (rx_read_facts p d n Hw Ho) as (b & out & -> & Hw' & Hcap & Hused & Hout & Hc).
    cbn. rewrite Hlen. split_and!; [by eauto|done| |done]. rewrite Hc. unfold slice, len in *.
    f_equal.
    + by rewrite drop_app_length' by lia.
    + rewrite drop_0. by rewrite take_app_length' by lia.
Qed.

(** The receive ring implements a bounded byte queue: whatever sequence of
    writes and reads is applied, across any number of wrap-arounds, the bytes
    read are those the queue of the same capacity would deliver, in order, and the
    ring stays well formed. *)
Theorem tcp_rx_ring_refines p d ops :
  rx_wf (rx_buf p) d -> Forall op_ok ops ->
  let '(p', out) := run_ops ring_op p ops in
  (exists d', rx_wf (rx_buf p') d') /\
  run_ops (queue_op (rx_capacity (rx_buf p))) (rx_contents (rx_buf p)) ops = (rx_contents (rx_buf p'), out).
Proof.
  intros Hw HF. revert p d Hw. induction HF as [|o ops Ho HF IH]; intros p d Hw; cbn [run_ops]; [eauto|].
  pose proof (ring_op_refines p d o Hw Ho) as Hr. destruct (ring_op p o) as [p1 out1].
  destruct Hr as ([d1 Hw1] & Hcap & Hq & _). rewrite Hq. specialize (IH p1 d1 Hw1).
  destruct (run_ops ring_op p1 ops) as [p2 out2]. rewrite <- Hcap. destruct IH as [Hw2 ->]. done.
Qed.

(** A block as [tcp_alloc] sets it up. *)
Definition fresh_rx : tcp_rx_buffer := mk_rx (Some (replicate 8192 0)) TCP_RX_BUFFER_CAPACITY 0 0 0.
Lemma fresh_rx_wf : rx_wf fresh_rx (replicate 8192 0).
Proof. split; cbn; try done. Qed.

Lemma tcp_rx_ring_refines_witness :
  let p := zero_pcb <| rx_buf := fresh_rx |> in
  let ops := [RxWrite [1; 2; 3]; RxRead 2; RxWrite [4; 5]; RxRead 10] in
  let '(p', out) := run_ops ring_op p ops in
  (exists d', rx_wf (rx_buf p') d') /\
  run_ops (queue_op 8192) (rx_contents fresh_rx) ops = (rx_contents (rx_buf p'), out).
Proof.
  intros p ops. apply (tcp_rx_ring_refines p (replicate 8192 0) ops).
  - apply fresh_rx_wf.
  - repeat constructor; cbn; lia.
Defined.
