(* ===== verification/TcpTx.v ===== *)
(** The sending side of a TCP control block: the two segment queues hold a
    contiguous part of the application's byte stream, and every data segment put
    on the wire carries the bytes of that stream at its sequence number.  The
    proofs are about [tcp_send], [tcp_drain_unsent], [tcp_tx_ack_received_locked_ext]
    and [tcp_retransmit_segment_locked] of [src/src/kernel/tcp.c]. *)

From S2P Require Import Prelude TcpWire Tcp TcpRx.

(** * Queues as byte strings *)

Definition seg_bytes (g : tcp_segment) : list Z := slice (seg_data g) (seg_offset g) (seg_length g).
Definition bytes_of (l : list tcp_segment) : list Z := concat (map seg_bytes l).

Arguments seg_bytes : simpl never.
Arguments bytes_of : simpl never.

Definition seg_wf (g : tcp_segment) : Prop :=
  0 < seg_length g /\ 0 <= seg_offset g /\ seg_offset g + seg_length g <= len (seg_data g) /\
  len (seg_data g) <= 8192.

Record q_wf (q : tcp_queue) : Prop := {
  qw_segs : Forall seg_wf (q_entries q);
  qw_bytes : q_bytes q = len (bytes_of (q_entries q));
  qw_count : q_segments q = len (q_entries q)
}.

(** The segments follow each other from position [pos] of the stream. *)
Fixpoint chain (pos : Z) (l : list tcp_segment) : Prop :=
  match l with
  | [] => True
  | g :: l' => seg_sequence g = u32 pos /\ chain (pos + seg_length g) l'
  end.

Section Queues.
Implicit Types (g : tcp_segment) (q : tcp_queue).

Lemma len_seg_bytes g : seg_wf g -> len (seg_bytes g) = seg_length g.
Proof. intros (H1 & H2 & H3 & _). apply len_slice; lia. Qed.

Lemma bytes_of_app l1 l2 : bytes_of (l1 ++ l2) = bytes_of l1 ++ bytes_of l2.
Proof. unfold bytes_of. by rewrite map_app, concat_app. Qed.
Lemma bytes_of_cons g l : bytes_of (g :: l) = seg_bytes g ++ bytes_of l.
Proof. done. Qed.

Lemma seg_chain_app pos l g :
  Forall seg_wf l -> chain pos l -> seg_sequence g = u32 (pos + len (bytes_of l)) ->
  chain pos (l ++ [g]).
Proof.
  revert pos. induction l as [|x l IH]; intros pos HF Hc Hg; cbn.
  - split; [|done]. by rewrite Z.add_0_r in Hg.
  - apply Forall_cons in HF as [Hx HF]. destruct Hc as [E Hc]. split; [done|]. apply IH; [done|done|].
    rewrite Hg, bytes_of_cons, len_app, len_seg_bytes by done. f_equal. lia.
Qed.

Lemma bytes_pos g l : seg_wf g -> 0 < len (bytes_of (g :: l)).
Proof.
  intros Hg. rewrite bytes_of_cons, len_app, len_seg_bytes by done.
  pose proof (len_nonneg (bytes_of l)). destruct Hg. lia.
Qed.

(** The count never exceeds the bytes. *)
Lemma len_le_bytes l : Forall seg_wf l -> len l <= len (bytes_of l).
Proof.
  induction 1 as [|g l Hg HF IH]; [done|].
  rewrite bytes_of_cons, len_app, len_seg_bytes by done. unfold len in *. cbn [length].
  destruct Hg. lia.
Qed.

Lemma append_wf q g :
  q_wf q -> seg_wf g -> q_bytes q <= 8192 -> q_wf (tcp_queue_append_locked q g).
Proof.
  intros [HF Hb Hc] Hg Hle. pose proof (len_le_bytes _ HF). pose proof (len_nonneg (q_entries q)).
  assert (0 < seg_length g <= 8192) by (destruct Hg; lia).
  split; cbn [tcp_queue_append_locked q_entries q_bytes q_segments].
  - by apply Forall_app; split; [|apply Forall_singleton].
  - rewrite bytes_of_app, len_app, bytes_of_cons, app_nil_r, len_seg_bytes by done.
    rewrite u64_id by ulia. lia.
  - rewrite u64_id by ulia. rewrite len_app. change (len [g]) with 1. lia.
Qed.

Lemma take_head_wf q g rest :
  q_wf q -> q_entries q = g :: rest ->
  exists q', tcp_queue_take_head_locked q = Some (g, q') /\ q_wf q' /\ q_entries q' = rest /\
    q_bytes q' = q_bytes q - seg_length g.
Proof.
  intros [HF Hb Hc] E. unfold tcp_queue_take_head_locked. rewrite E in *.
  apply Forall_cons in HF as [Hg HF]. rewrite bytes_of_cons, len_app, len_seg_bytes in Hb by done.
  pose proof (len_nonneg (bytes_of rest)).
  assert (Hl : len (g :: rest) = len rest + 1) by (unfold len; cbn [length]; lia).
  pose proof (len_nonneg rest).
  destruct (Z.leb_spec (seg_length g) (q_bytes q)); [|lia].
  destruct (Z.eqb_spec (q_segments q) 0); [lia|].
  eexists. split; [done|]. split_and!; try done.
  split; cbn [q_entries q_bytes q_segments]; [done|lia|lia].
Qed.
Lemma slice_tail l pos n k : 0 <= pos -> 0 <= k <= n ->
  slice l (pos + k) (n - k) = drop (Z.to_nat k) (slice l pos n).
Proof.
  intros. unfold slice. rewrite skipn_firstn_comm, drop_drop. f_equal; [lia|]. f_equal. lia.
Qed.

(** Part of the first segment is acknowledged. *)
Lemma partial_head q g rest k :
  q_wf q -> q_entries q = g :: rest -> 0 < k < seg_length g ->
  let g' := g <| seg_sequence := u32 (seg_sequence g + k) |>
              <| seg_length := seg_length g - k |> <| seg_offset := u64 (seg_offset g + k) |> in
  seg_wf g' /\ seg_bytes g' = drop (Z.to_nat k) (seg_bytes g).
Proof.
  intros [HF _ _] E Hk g'. rewrite E in HF. apply Forall_cons in HF as [(H1 & H2 & H3 & H4) _].
  unfold seg_wf, seg_bytes, g'; cbn. rewrite u64_id by ulia. split; [lia|]. apply slice_tail; lia.
Qed.

Lemma ack_loop_spec fuel q U k :
  q_wf q -> chain U (q_entries q) -> 0 <= k <= q_bytes q + 1 -> q_bytes q <= 8192 ->
  (length (q_entries q) <= fuel)%nat ->
  let q' := ack_loop fuel q (u32 (U + k)) in
  q_wf q' /\ chain (U + k) (q_entries q') /\
  bytes_of (q_entries q') = drop (Z.to_nat k) (bytes_of (q_entries q)).
Proof.
  revert q U k. induction fuel as [|fuel IH]; intros q U k Hq Hc Hk Hle Hf; cbn [ack_loop].
  { destruct (q_entries q) eqn:E; [|cbn in Hf; lia]. split_and!; [done|done|]. symmetry. apply drop_nil. }
  destruct (q_entries q) as [|g rest] eqn:E.
  { unfold tcp_queue_take_head_locked. rewrite E. split_and!; [done|by rewrite E|].
    rewrite E. symmetry. apply drop_nil. }
  destruct (take_head_wf q g rest Hq E) as (q' & -> & Hq' & Er & Eb).
  pose proof Hq as [HF Hb Hcount]. rewrite E in HF, Hb. apply Forall_cons in HF as [Hg HF].
  rewrite bytes_of_cons, len_app, len_seg_bytes in Hb by done. pose proof (len_nonneg (bytes_of rest)).
  destruct Hc as [Es Hc]. pose proof Hg as (G1 & G2 & G3 & G4).
  assert (Hend : u32 (seg_sequence g + u32 (seg_length g)) = u32 (U + seg_length g)) by (rewrite Es; ulia).
  rewrite Hend. destruct (seq_facts (U + seg_length g) (U + k)) as (_ & -> & _); [lia|].
  rewrite Es. destruct (seq_facts U (U + k)) as (-> & _); [lia|].
  destruct (Z.leb_spec (U + seg_length g) (U + k)) as [Hle1|Hgt].
  - specialize (IH q' (U + seg_length g) (k - seg_length g)).
    replace (U + seg_length g + (k - seg_length g)) with (U + k) in IH by lia.
    rewrite Er in IH. destruct IH as (I1 & I2 & I3); [done|done|lia|lia|cbn in Hf; lia|].
    split_and!; [done|done|]. rewrite I3, bytes_of_cons.
    rewrite drop_app_ge; [f_equal|]; pose proof (len_seg_bytes g Hg); unfold len in *; lia.
  - destruct (Z.ltb_spec U (U + k)) as [Hpos|Hzero].
    + assert (Hacked : u32 (u32 (U + k) - u32 U) = k) by ulia. rewrite Hacked.
      destruct (Z.leb_spec (seg_length g) k); [lia|]. destruct (Z.leb_spec k (q_bytes q)); [|lia].
      destruct (partial_head q g rest k Hq E) as [Hg' Eg']; [lia|].
      assert (Eseq : u32 (seg_sequence g + k) = u32 (U + k)) by (rewrite Es; ulia). rewrite Eseq in *.
      set (g' := g <| seg_sequence := u32 (U + k) |> <| seg_length := seg_length g - k |>
                   <| seg_offset := u64 (seg_offset g + k) |>) in *.
      assert (Elen : seg_length g' = seg_length g - k) by done.
      assert (Eg'' : seg_sequence g' = u32 (U + k)) by done. clearbody g'.
      assert (Eb' : bytes_of (g' :: rest) = drop (Z.to_nat k) (bytes_of (g :: rest))).
      { rewrite !bytes_of_cons, Eg', drop_app_le; [done|]. pose proof (len_seg_bytes g Hg). unfold len in *. lia. }
      unfold set_head. rewrite E. split_and!; [split| |]; cbn [q_entries q_bytes q_segments set_field].
      * by constructor.
      * rewrite bytes_of_cons, len_app, len_seg_bytes by done. cbn. lia.
      * cbn. rewrite Hcount, E. done.
      * cbn. split; [done|]. by replace (U + k + seg_length g') with (U + seg_length g) by lia.
      * exact Eb'.
    + assert (k = 0) as -> by lia. rewrite Z.add_0_r, E. split_and!; [done|done|done].
Qed.
End Queues.

(** * The sender invariant *)

(** What the sending side of a block consists of. *)
Definition fin_pending (p : tcp_pcb) : bool := pcb_has p TCP_PCB_FLAG_FIN_PENDING.
Definition tx_view (p : tcp_pcb) : tcp_tx_buffer * Z * Z * bool * bool :=
  (tx_buf p, snd_una p, snd_nxt p, can_send p, fin_pending p).

Abbreviation unsent_of p := (q_entries (unsent (tx_buf p))).
Abbreviation unacked_of p := (q_entries (unacked (tx_buf p))).

(** [U] is the stream position of [snd_una]; [fin] is 1 while our FIN, which takes
    a number of its own after the last byte, is sent and not acknowledged. *)
Record tx_wf (p : tcp_pcb) (U fin : Z) : Prop := {
  tw_unsent : q_wf (unsent (tx_buf p));
  tw_unacked : q_wf (unacked (tx_buf p));
  tw_chain : chain U (unacked_of p);
  tw_una : snd_una p = u32 U;
  tw_nxt : snd_nxt p = u32 (U + len (bytes_of (unacked_of p)) + fin);
  tw_fin : fin = 0 \/ fin = 1 /\ unsent_of p = [] /\ can_send p = false;
  tw_closed : can_send p = false -> fin_pending p = false;
  tw_cap : len (bytes_of (unsent_of p)) + len (bytes_of (unacked_of p)) <= 8192;
  tw_capacity : tx_capacity (tx_buf p) = 8192
}.

(** The accepted bytes that are not yet acknowledged. *)
Definition pending (p : tcp_pcb) : list Z := bytes_of (unacked_of p) ++ bytes_of (unsent_of p).

Lemma tx_wf_view p p' U fin : tx_view p' = tx_view p -> tx_wf p U fin -> tx_wf p' U fin.
Proof. unfold tx_view. intros [= E1 E2 E3 E4 E5] [? ? ? ? ? ? ? ? ?].
  split; rewrite ?E1, ?E2, ?E3, ?E4, ?E5; done. Qed.
Lemma pending_view p p' : tx_view p' = tx_view p -> pending p' = pending p.
Proof. unfold tx_view, pending. by intros [= -> _ _ _ _]. Qed.

Lemma tx_wf_nxt_u32 p U fin : tx_wf p U fin -> is_u32 (snd_nxt p).
Proof. intros H. rewrite (tw_nxt _ _ _ H). apply u32_range. Qed.

(** ** Accepting data *)

(** The end of a round of [tcp_send]: [data] becomes a segment of its own. *)
Definition accept_segment (p : tcp_pcb) (data : list Z) : tcp_pcb :=
  let q := unsent (tx_buf p) in
  set_unsent p (tcp_queue_append_locked q
    (mk_segment (u32 (snd_nxt p + u32 (q_bytes q))) (len data) 0 data 0 0)).

Lemma available_spec p U fin :
  tx_wf p U fin ->
  tcp_tx_buffer_available_locked p =
    8192 - len (bytes_of (unsent_of p)) - len (bytes_of (unacked_of p)).
Proof.
  intros [Hu Ha _ _ _ _ _ Hc Hcap]. unfold tcp_tx_buffer_available_locked, tcp_tx_buffer_used_locked.
  rewrite (qw_bytes _ Hu), (qw_bytes _ Ha), Hcap.
  pose proof (len_nonneg (bytes_of (unsent_of p))). pose proof (len_nonneg (bytes_of (unacked_of p))).
  rewrite u64_id by ulia. bcase; lia.
Qed.

Lemma accept_facts p U fin data :
  tx_wf p U fin -> refuses_data p = false -> 0 < len data <= tcp_tx_buffer_available_locked p ->
  tx_wf (accept_segment p data) U fin /\ pending (accept_segment p data) = pending p ++ data /\
  fin = 0.
Proof.
  intros H Hr Hd. rewrite (available_spec _ _ _ H) in Hd. destruct H as [Hu Ha Hch Hun Hnx Hf Hcl Hc Hcap].
  assert (Hcs : can_send p = true).
  { unfold refuses_data in Hr. by destruct (can_send p). }
  assert (Hf0 : fin = 0) by (destruct Hf as [?|(_ & _ & ?)]; [done|congruence]).
  pose proof (len_nonneg (bytes_of (unsent_of p))). pose proof (len_nonneg (bytes_of (unacked_of p))).
  unfold accept_segment. set (g := mk_segment _ _ _ _ _ _).
  assert (Eg : seg_bytes g = data) by (unfold seg_bytes, g; cbn; apply slice_all).
  assert (Hg : seg_wf g) by (unfold seg_wf, g; cbn; lia).
  clearbody g. split_and!; [|..|done].
  - split; cbn; try done; try lia.
    + apply append_wf; [done|done|]. rewrite (qw_bytes _ Hu). lia.
    + rewrite bytes_of_app, len_app, bytes_of_cons, app_nil_r, Eg. lia.
  - unfold pending. cbn. by rewrite bytes_of_app, bytes_of_cons, app_nil_r, Eg, app_assoc.
Qed.

(** ** Acknowledgements *)

Lemma tx_view_timers p p' :
  tx_buf p' = tx_buf p -> snd_una p' = snd_una p -> snd_nxt p' = snd_nxt p -> state p' = state p ->
  fin_pending p' = fin_pending p -> tx_view p' = tx_view p.
Proof. unfold tx_view, can_send. by intros -> -> -> -> ->. Qed.

(** The other fields and flags do not matter. *)
Ltac solve_view := apply tx_view_timers; try done; unfold fin_pending; flag_simpl; done.

Lemma grow_cwnd_view p n : tx_view (grow_cwnd p n) = tx_view p.
Proof. unfold grow_cwnd, clamp_cwnd. repeat case_match; solve_view. Qed.

Lemma ack_facts ticks p U fin ack exit :
  tx_wf p U fin -> is_u32 ack ->
  let p' := tcp_tx_ack_received_locked_ext ticks p ack exit in
  exists k fin', 0 <= k <= len (bytes_of (unacked_of p)) + fin /\ tx_wf p' (U + k) fin' /\
    pending p' = drop (Z.to_nat k) (pending p) /\ can_send p' = can_send p.
Proof.
  intros H Hack. pose proof H as [Hu Ha Hch Hun Hnx Hf Hcl Hc Hcap].
  pose proof (len_nonneg (bytes_of (unacked_of p))) as Hn0. pose proof (len_nonneg (bytes_of (unsent_of p))).
  set (n := len (bytes_of (unacked_of p))) in *.
  assert (Hfin : 0 <= fin <= 1) by lia.
  assert (Hsame : exists k fin', 0 <= k <= n + fin /\ tx_wf p (U + k) fin' /\
            pending p = drop (Z.to_nat k) (pending p) /\ can_send p = can_send p).
  { exists 0, fin. rewrite Z.add_0_r. split_and!; [lia|lia|done|by rewrite drop_0|done]. }
  unfold tcp_tx_ack_received_locked_ext.
  (* the position acknowledged *)
  set (k := s32 (ack - snd_una p)).
  assert (Hk : -2147483648 <= k < 2147483648 /\ ack = u32 (U + k)) by (subst k; rewrite Hun; ulia).
  destruct Hk as [Hkr Eack]. rewrite Hun, Hnx.
  destruct (Z_lt_le_dec k 1) as [Hk0|Hk1].
  { (* not new *)
    case_match; [done|]. rewrite Eack.
    destruct (Z.eq_dec k 0) as [->|].
    - rewrite Z.add_0_r. unfold TCP_SEQ_EQ. by rewrite Z.eqb_refl.
    - assert (TCP_SEQ_LT (u32 (U + k)) (u32 U) = true) as ->.
      { unfold TCP_SEQ_LT. apply Z.ltb_lt. ulia. }
      by case_match. }
  rewrite Eack. destruct (seq_facts (U + k) (U + n + fin)) as (_ & _ & -> & _); [lia|].
  destruct (seq_facts (U + k) U) as (-> & _ & _ & _ & ->); [lia|].
  destruct (Z.ltb_spec (U + n + fin) (U + k)); [done|].
  destruct (Z.eqb_spec (U + k) U); [lia|]. destruct (Z.ltb_spec (U + k) U); [lia|].
  set (p1 := if exit then p <| snd_una := u32 (U + k) |>
             else grow_cwnd (p <| snd_una := u32 (U + k) |>) (u32 (u32 (U + k) - u32 U))).
  assert (V1 : tx_view p1 = tx_view (p <| snd_una := u32 (U + k) |>)).
  { subst p1. destruct exit; [done|apply grow_cwnd_view]. }
  injection V1 as B1 B2 B3 B4 B5. clearbody p1. rewrite B1.
  change (tx_buf (p <| snd_una := u32 (U + k) |>)) with (tx_buf p) in *.
  change (can_send (p <| snd_una := u32 (U + k) |>)) with (can_send p) in *.
  change (fin_pending (p <| snd_una := u32 (U + k) |>)) with (fin_pending p) in *. cbn in B2, B3.
  destruct (ack_loop_spec (length (unacked_of p)) (unacked (tx_buf p)) U k) as (W & C & B);
    [done|done|rewrite (qw_bytes _ Ha); fold n; lia|rewrite (qw_bytes _ Ha); fold n; lia|done|].
  set (q := ack_loop _ _ _) in *. clearbody q.
  assert (Hlen : len (bytes_of (q_entries q)) = Z.max 0 (n - k)).
  { rewrite B. unfold len. rewrite length_drop. fold (len (bytes_of (unacked_of p))). unfold n, len. lia. }
  set (fin' := if k =? n + 1 then 0 else fin).
  assert (Hw : tx_wf (set_unacked p1 q) (U + k) fin').
  { split; cbn; rewrite ?B1, ?B2, ?B3; try done.
    - rewrite Hlen. rewrite Hnx. f_equal. unfold fin'. bcase; lia.
    - unfold fin'. bcase; [by left|]. destruct Hf as [->|(-> & ? & ?)]; [by left|].
      right. split_and!; [done|done|]. change (can_send (set_unacked p1 q)) with (can_send p1). congruence.
    - change (can_send (set_unacked p1 q)) with (can_send p1).
      change (fin_pending (set_unacked p1 q)) with (fin_pending p1). by rewrite B4, B5.
    - rewrite Hlen. lia. }
  assert (Hpend : pending (set_unacked p1 q) = drop (Z.to_nat k) (pending p)).
  { unfold pending. cbn. rewrite B1, B. destruct (Z_le_gt_dec k n).
    - rewrite drop_app_le; [done|]. unfold n, len in *. lia.
    - destruct Hf as [->|(-> & E & _)]; [lia|]. rewrite E, !app_nil_r. done. }
  exists k, fin'. split; [lia|].
  assert (Hv : forall x, tx_view x = tx_view (set_unacked p1 q) ->
    tx_wf x (U + k) fin' /\ pending x = drop (Z.to_nat k) (pending p) /\ can_send x = can_send p).
  { intros x Hx. split_and!; [by eapply tx_wf_view|by rewrite (pending_view _ _ Hx)|].
    injection Hx as _ _ _ -> _. change (can_send (set_unacked p1 q)) with (can_send p1). congruence. }
  case_match; apply Hv; solve_view.
Qed.

(** ** Sending *)

(** A segment of the connection of [p] with the payload at sequence number [u32 pos]. *)
Definition carries (p : tcp_pcb) (out : packet) (pos : Z) (payload : list Z) : Prop :=
  exists h, out = (remote_ip p, make_packet (tcp_effective_local_ip p) (remote_ip p) h payload) /\
    src_port h = local_port p /\ dest_port h = remote_port p /\ seq_num h = u32 pos.

Definition endpoints (p : tcp_pcb) : Z * Z * Z * Z :=
  (local_ip p, remote_ip p, local_port p, remote_port p).

Lemma carries_endpoints p p' out pos payload :
  endpoints p' = endpoints p -> carries p out pos payload -> carries p' out pos payload.
Proof.
  unfold endpoints, carries, tcp_effective_local_ip. intros [= -> -> -> ->] H. exact H.
Qed.

(** The windows that bound sending. *)
Definition windows (p : tcp_pcb) : Z * Z * Z := (snd_wnd p, cwnd p, ssthresh p).

Lemma emit_facts ticks p U seg :
  tx_wf p U 0 -> seg_wf seg -> seg_sequence seg = snd_nxt p ->
  len (bytes_of (unsent_of p)) + len (bytes_of (unacked_of p)) + seg_length seg <= 8192 ->
  let '(p', out) := emit_segment ticks p seg (seg_length seg) in
  tx_wf p' U 0 /\ unsent_of p' = unsent_of p /\ unacked_of p' = unacked_of p ++ [seg] /\
  can_send p' = can_send p /\ windows p' = windows p /\ endpoints p' = endpoints p /\
  carries p out (U + len (bytes_of (unacked_of p))) (seg_bytes seg).
Proof.
  intros [Hu Ha Hch Hun Hnx Hf Hcl Hc Hcap] Hg Eseq Hroom. unfold emit_segment.
  rewrite Z.add_0_r in Hnx. pose proof Hg as (G1 & G2 & G3 & G4).
  pose proof (len_nonneg (bytes_of (unsent_of p))). pose proof (len_nonneg (bytes_of (unacked_of p))).
  set (p1 := set_unacked p (tcp_queue_append_locked (unacked (tx_buf p)) seg)
               <| snd_nxt := u32 (snd_nxt p + u32 (seg_length seg)) |>
               <| seq_number := u32 (snd_nxt p + u32 (seg_length seg)) |>).
  assert (W1 : tx_wf p1 U 0).
  { split; cbn; try done.
    - apply append_wf; [done|done|]. rewrite (qw_bytes _ Ha). lia.
    - apply seg_chain_app; [apply Ha|done|]. by rewrite Eseq.
    - rewrite bytes_of_app, len_app, bytes_of_cons, app_nil_r, len_seg_bytes, Hnx by done. ulia.
    - rewrite bytes_of_app, len_app, bytes_of_cons, app_nil_r, len_seg_bytes by done. lia. }
  cbn zeta. change (set_unacked _ _ <| snd_nxt := _ |> <| seq_number := _ |>) with p1.
  set (p2 := if negb (has_unacked p) then arm_data_rto ticks p1 else p1).
  assert (V2 : tx_view p2 = tx_view p1) by (subst p2; case_match; [solve_view|done]).
  assert (F2 : windows p2 = windows p /\ endpoints p2 = endpoints p) by (subst p2; by case_match).
  clearbody p2. destruct F2 as [F2w F2e]. pose proof V2 as V2'. injection V2 as E1 E2 E3 E4 E5. split_and!.
  - by apply (tx_wf_view p1).
  - cbn. by rewrite E1.
  - cbn. by rewrite E1.
  - transitivity (can_send p2); [done|]. by rewrite E4.
  - exact F2w.
  - exact F2e.
  - match goal with |- carries _ (remote_ip ?p3, _) _ _ => apply (carries_endpoints p3); [by symmetry|] end.
    eexists. split; [reflexivity|]. cbn. by rewrite Eseq, Hnx.
Qed.

Lemma flag_view p b :
  Z.land b TCP_PCB_FLAG_FIN_PENDING = 0 -> tx_view (set_flags p b) = tx_view p.
Proof. intros E. apply tx_view_timers; try done. unfold fin_pending, pcb_has. cbn. by apply has_set_other. Qed.
Lemma draining_view p : tx_view (clr_flags p TCP_PCB_FLAG_DRAINING) = tx_view p.
Proof. solve_view. Qed.

(** A FIN takes one sequence number, after which nothing is sent or accepted. *)
Lemma fin_facts ticks p p' U out :
  tx_wf p U 0 -> can_send p = true -> unsent_of p = [] -> fin_pending p = false ->
  tcp_build_output_locked p (Z.lor TCP_FLAG_FIN TCP_FLAG_ACK) [] = Some (p', out) ->
  tx_wf (after_fin ticks p') U 1 /\ pending (after_fin ticks p') = pending p /\
  endpoints (after_fin ticks p') = endpoints p /\ windows (after_fin ticks p') = windows p /\
  carries p out (U + len (bytes_of (unacked_of p))) [].
Proof.
  intros [Hu Ha Hch Hun Hnx Hf Hcl Hc Hcap] Hcs Hus Hfp Hb. unfold tcp_build_output_locked in Hb.
  case_match; [done|]. injection Hb as <- <-.
  assert (Hst : state p = TCP_ESTABLISHED \/ state p = TCP_CLOSE_WAIT).
  { unfold can_send, ts_eqb in Hcs. apply orb_prop in Hcs as [H1|H1]; apply bool_decide_eq_true in H1; auto. }
  rewrite Z.add_0_r in Hnx.
  match goal with |- tx_wf ?x _ _ /\ _ => set (p1 := x) end.
  assert (E : tx_buf p1 = tx_buf p /\ snd_una p1 = snd_una p /\ snd_nxt p1 = u32 (u32 (snd_nxt p + 1) + u32 0) /\
              can_send p1 = false /\ fin_pending p1 = false /\ endpoints p1 = endpoints p /\ windows p1 = windows p).
  { subst p1. unfold after_fin, fin_pending in *. destruct Hst as [Hst|Hst]; cbn; rewrite Hst; cbn;
      split_and!; try done; flag_simpl; done. }
  destruct E as (E1 & E2 & E3 & E4 & E5 & E6 & E7). clearbody p1. split_and!; [|by unfold pending; rewrite E1|done|done|].
  - split; rewrite ?E1; try done.
    + by rewrite E2.
    + rewrite E3, Hnx. ulia.
    + by right.
  - eexists. split; [reflexivity|]. cbn. split_and!; [done|done|].
    by rewrite Hnx.
Qed.

Lemma slice_head l pos n m : 0 <= n <= m -> slice l pos n = slice (slice l pos m) 0 n.
Proof. intros. unfold slice. rewrite drop_0, take_take. f_equal. lia. Qed.

Lemma round_window p U : 
  tx_wf p U 0 -> remaining_window p <> 0 -> 0 <= snd_wnd p -> 0 <= cwnd p ->
  0 < remaining_window p /\
  len (bytes_of (unacked_of p)) + remaining_window p = Z.min (snd_wnd p) (cwnd p).
Proof.
  intros [Hu Ha Hch Hun Hnx Hf Hcl Hc Hcap] Hr Hw Hcw. unfold remaining_window in *.
  rewrite Z.add_0_r in Hnx. pose proof (len_nonneg (bytes_of (unacked_of p))).
  pose proof (len_nonneg (bytes_of (unsent_of p))).
  assert (E : u32 (snd_nxt p - snd_una p) = len (bytes_of (unacked_of p))) by (rewrite Hnx, Hun; ulia).
  rewrite E in *. destruct (Z.ltb_spec (snd_wnd p) (cwnd p));
    match goal with H : context [if ?a <? ?b then _ else _] |- _ => destruct (Z.ltb_spec a b) end; lia.
Qed.

(** The first bytes of the unsent data become the last of the unacknowledged. *)
Definition round_sends (p p' : tcp_pcb) (U : Z) (out : packet) : Prop :=
  exists m, 0 < m /\ tx_wf p' U 0 /\ can_send p' = can_send p /\
    bytes_of (unacked_of p') = bytes_of (unacked_of p) ++ slice (bytes_of (unsent_of p)) 0 m /\
    bytes_of (unsent_of p') = drop (Z.to_nat m) (bytes_of (unsent_of p)) /\
    m <= len (bytes_of (unsent_of p)) /\
    len (bytes_of (unacked_of p')) <= Z.min (snd_wnd p) (cwnd p) /\
    windows p' = windows p /\ endpoints p' = endpoints p /\
    carries p out (U + len (bytes_of (unacked_of p))) (slice (bytes_of (unsent_of p)) 0 m).

(** Shrinking the first unsent segment after a slice of [m] bytes was taken. *)
Lemma shrink_head p U g rest m seq :
  tx_wf p U 0 -> unsent_of p = g :: rest -> 0 < m < seg_length g ->
  let g' := g <| seg_offset := u64 (seg_offset g + m) |> <| seg_length := seg_length g - m |>
              <| seg_sequence := seq |> in
  let q := set_head (unsent (tx_buf p)) g' in
  let q := q <| q_bytes := if m <=? q_bytes q then q_bytes q - m else 0 |> in
  let p1 := set_unsent p q in
  tx_wf p1 U 0 /\ bytes_of (unsent_of p1) = drop (Z.to_nat m) (bytes_of (unsent_of p)) /\
  unacked_of p1 = unacked_of p /\ snd_nxt p1 = snd_nxt p.
Proof.
  intros [Hu Ha Hch Hun Hnx Hf Hcl Hc Hcap] E Hm g' q0 q p1.
  pose proof Hu as [HF Hb Hn]. rewrite E in HF, Hb, Hn. apply Forall_cons in HF as [Hg HF].
  pose proof Hg as (G1 & G2 & G3 & G4). rewrite bytes_of_cons, len_app, len_seg_bytes in Hb by done.
  pose proof (len_nonneg (bytes_of rest)).
  assert (Hg' : seg_wf g') by (unfold seg_wf, g'; cbn; rewrite u64_id by ulia; lia).
  assert (Eg' : seg_bytes g' = drop (Z.to_nat m) (seg_bytes g)).
  { unfold seg_bytes, g'; cbn. rewrite u64_id by ulia. apply slice_tail; lia. }
  assert (Ee : unsent_of p1 = g' :: rest) by (unfold p1, q, q0, set_head; cbn; by rewrite E).
  assert (Eb : bytes_of (unsent_of p1) = drop (Z.to_nat m) (bytes_of (unsent_of p))).
  { rewrite Ee, E, !bytes_of_cons, Eg', drop_app_le; [done|].
    pose proof (len_seg_bytes g Hg). unfold len in *. lia. }
  assert (Eq : q_bytes (unsent (tx_buf p1)) = q_bytes (unsent (tx_buf p)) - m).
  { unfold p1, q, q0. cbn. bcase; lia. }
  assert (Es : q_segments (unsent (tx_buf p1)) = q_segments (unsent (tx_buf p))) by done.
  assert (Lb : len (bytes_of (unsent_of p1)) = len (bytes_of (unsent_of p)) - m).
  { rewrite Eb. unfold len. rewrite length_drop. rewrite E, bytes_of_cons, length_app.
    pose proof (len_seg_bytes g Hg). unfold len in *. lia. }
  assert (F : unacked_of p1 = unacked_of p /\ tx_capacity (tx_buf p1) = tx_capacity (tx_buf p) /\
    unacked (tx_buf p1) = unacked (tx_buf p) /\ snd_una p1 = snd_una p /\ snd_nxt p1 = snd_nxt p /\
    can_send p1 = can_send p /\ fin_pending p1 = fin_pending p) by done.
  clearbody p1. destruct F as (F1 & F2 & F3 & F4 & F5 & F6 & F7).
  split_and!; [|done|done|done]. split; rewrite ?F3, ?F4, ?F5, ?F6, ?F7; try done.
  - split; rewrite ?Ee.
    + by constructor.
    + rewrite <- Ee, Lb, Eq. rewrite E, bytes_of_cons, len_app, len_seg_bytes by done. lia.
    + rewrite Es, Hn. done.
  - by left.
  - rewrite Lb. lia.
  - by rewrite F2.
Qed.

Definition round_ok (p : tcp_pcb) (U fin : Z) (r : drain_result) : Prop :=
  match r with
  | DrainStop p' _ =>
      tx_wf p' U fin /\ pending p' = pending p /\ endpoints p' = endpoints p /\ windows p' = windows p /\
      unsent_of p' = unsent_of p /\ can_send p' = can_send p
  | DrainSend p' out _ => fin = 0 /\ round_sends p p' U out
  | DrainFin p' out =>
      fin = 0 /\ tx_wf p' U 1 /\ pending p' = pending p /\ endpoints p' = endpoints p /\
      windows p' = windows p /\ carries p out (U + len (bytes_of (unacked_of p))) []
  end.

Lemma stop_ok p p' U fin n :
  tx_wf p U fin -> tx_view p' = tx_view p -> endpoints p' = endpoints p -> windows p' = windows p ->
  round_ok p U fin (DrainStop (clr_flags p' TCP_PCB_FLAG_DRAINING) n).
Proof.
  intros H V E W. cbn. split_and!; try done.
  - apply (tx_wf_view p'); [apply draining_view|by apply (tx_wf_view p)].
  - by rewrite (pending_view p' _ (draining_view p')), (pending_view p p').
  - by injection V as -> _ _ _ _.
  - by injection V as _ _ _ V4 _.
Qed.

(** Sending the whole first segment. *)
Lemma send_whole ticks p U g rest :
  tx_wf p U 0 -> unsent_of p = g :: rest -> seg_length g <= remaining_window p ->
  remaining_window p <> 0 -> 0 <= snd_wnd p -> 0 <= cwnd p ->
  exists q, tcp_queue_take_head_locked (unsent (tx_buf p)) = Some (g, q) /\
    let g' := g <| seg_sequence := snd_nxt p |> <| seg_sent_at := ticks |> in
    let '(p', out) := emit_segment ticks (set_unsent p q) g' (seg_length g) in
    round_sends p p' U out.
Proof.
  intros H E Hle Hr Hw Hcw. destruct (round_window p U H Hr Hw Hcw) as [Hr0 Hr1].
  pose proof H as [Hu Ha Hch Hun Hnx Hf Hcl Hc Hcap].
  destruct (take_head_wf _ g rest Hu E) as (q & Et & Hq & Eq & Ebq). exists q. split; [done|]. intros g'.
  pose proof Hu as [HF Hb _]. rewrite E in HF, Hb. apply Forall_cons in HF as [Hg HF].
  assert (Hg' : seg_wf g') by done. assert (Bg : seg_bytes g' = seg_bytes g) by done.
  pose proof (len_seg_bytes g Hg) as Lg. rewrite bytes_of_cons, len_app, Lg in Hb.
  assert (Hc' : seg_length g + len (bytes_of rest) + len (bytes_of (unacked_of p)) <= 8192).
  { rewrite E, bytes_of_cons, len_app, Lg in Hc. lia. }
  assert (W1 : tx_wf (set_unsent p q) U 0).
  { split; cbn; rewrite ?Eq; try done; try by left.
    destruct Hg as [? _]. lia. }
  pose proof (emit_facts ticks (set_unsent p q) U g' W1 Hg' eq_refl) as F.
  change (seg_length g') with (seg_length g) in F. destruct (emit_segment _ _ _ _) as [p' out].
  destruct F as (F1 & F2 & F3 & F4 & F5 & F6 & F7); [cbn; rewrite Eq; lia|].
  cbn in F2, F3. rewrite Eq in F2. exists (seg_length g).
  assert (Esl : slice (bytes_of (unsent_of p)) 0 (seg_length g) = seg_bytes g).
  { unfold slice. rewrite drop_0, E, bytes_of_cons. apply take_app_length'. unfold len in Lg. lia. }
  rewrite Esl. split_and!; try done.
  - destruct Hg; lia.
  - by rewrite F3, bytes_of_app, bytes_of_cons, Bg, app_nil_r.
  - rewrite F2, E, bytes_of_cons. symmetry. apply drop_app_length'. unfold len in Lg. lia.
  - rewrite E, bytes_of_cons, len_app, Lg. pose proof (len_nonneg (bytes_of rest)). lia.
  - rewrite F3, bytes_of_app, len_app, bytes_of_cons, Bg, app_nil_r, Lg. lia.
Qed.

(** Sending a slice of the first segment. *)
Lemma send_part ticks p U g rest m :
  tx_wf p U 0 -> unsent_of p = g :: rest -> 0 < m < seg_length g -> m <= remaining_window p ->
  0 <= snd_wnd p -> 0 <= cwnd p ->
  let part := mk_segment (snd_nxt p) m 0 (slice (seg_data g) (seg_offset g) m) ticks 0 in
  let g' := g <| seg_offset := u64 (seg_offset g + m) |> <| seg_length := seg_length g - m |>
              <| seg_sequence := u32 (snd_nxt p + u32 m) |> in
  let q := set_head (unsent (tx_buf p)) g' in
  let q := q <| q_bytes := if m <=? q_bytes q then q_bytes q - m else 0 |> in
  let '(p', out) := emit_segment ticks (set_unsent p q) part m in
  round_sends p p' U out.
Proof.
  intros H E Hm Hle Hw Hcw part g' q0 q.
  destruct (round_window p U H) as [Hr0 Hr1]; [lia|done|done|].
  set (p1 := set_unsent p q) in *.
  assert (tx_wf p1 U 0 /\ bytes_of (unsent_of p1) = drop (Z.to_nat m) (bytes_of (unsent_of p)) /\
    unacked_of p1 = unacked_of p /\ snd_nxt p1 = snd_nxt p) as (W1 & B1 & A1 & N1)
    by exact (shrink_head p U g rest m (u32 (snd_nxt p + u32 m)) H E Hm).
  pose proof H as [Hu Ha Hch Hun Hnx Hf Hcl Hc Hcap].
  pose proof Hu as [HF Hb _]. rewrite E in HF, Hb. apply Forall_cons in HF as [Hg HF].
  pose proof Hg as (G1 & G2 & G3 & G4). pose proof (len_seg_bytes g Hg) as Lg.
  assert (Lu : seg_length g <= len (bytes_of (unsent_of p))).
  { rewrite E, bytes_of_cons, len_app, Lg. pose proof (len_nonneg (bytes_of rest)). lia. }
  assert (Lm : len (slice (seg_data g) (seg_offset g) m) = m) by (apply len_slice; lia).
  assert (Bp : seg_bytes part = slice (seg_data g) (seg_offset g) m).
  { unfold seg_bytes, part. cbn. rewrite <- Lm at 2. apply slice_all. }
  assert (Hp : seg_wf part) by (unfold seg_wf, part; cbn; lia).
  pose proof (emit_facts ticks p1 U part W1 Hp eq_refl) as F.
  change (seg_length part) with m in F.
  assert (Lb : len (bytes_of (unsent_of p1)) = len (bytes_of (unsent_of p)) - m).
  { rewrite B1. unfold len in *. rewrite length_drop. lia. }
  assert (Fp : can_send p1 = can_send p /\ windows p1 = windows p /\ endpoints p1 = endpoints p) by done.
  destruct (emit_segment _ _ _ _) as [p' out]. destruct Fp as (P1 & P2 & P3). clearbody p1.
  destruct F as (F1 & F2 & F3 & F4 & F5 & F6 & F7); [rewrite Lb, A1; lia|].
  assert (Esl : slice (bytes_of (unsent_of p)) 0 m = seg_bytes part).
  { rewrite Bp, E, bytes_of_cons. rewrite (slice_head _ (seg_offset g) m (seg_length g)) by lia.
    fold (seg_bytes g). unfold slice. rewrite !drop_0. apply take_app_le. unfold len in Lg. lia. }
  exists m. rewrite Esl. split_and!; try done; try lia.
  - congruence.
  - by rewrite F3, bytes_of_app, bytes_of_cons, app_nil_r, A1.
  - by rewrite F2.
  - rewrite F3, bytes_of_app, len_app, bytes_of_cons, app_nil_r, A1, Bp, Lm. lia.
  - congruence.
  - congruence.
  - rewrite A1 in F7. by apply (carries_endpoints p1).
Qed.

Lemma round_facts ticks a1 a2 p U fin :
  tx_wf p U fin -> 0 <= snd_wnd p -> 0 <= cwnd p ->
  round_ok p U fin (drain_round ticks a1 a2 p).
Proof.
  intros H Hw Hcw. unfold drain_round. destruct (unsent_of p) as [|g rest] eqn:E.
  { fold (fin_pending p). destruct (fin_pending p) eqn:Hfp; [|by apply stop_ok].
    assert (Hcs : can_send p = true).
    { destruct (can_send p) eqn:Hcs; [done|]. by rewrite (tw_closed _ _ _ H Hcs) in Hfp. }
    assert (fin = 0) as -> by (destruct (tw_fin _ _ _ H) as [?|(_ & _ & ?)]; [done|congruence]).
    destruct (tcp_build_output_locked _ _ _) as [[p' out]|] eqn:Hb.
    - assert (H0 : tx_wf (clr_flags p TCP_PCB_FLAG_FIN_PENDING) U 0).
      { destruct H. split; cbn; try done. unfold fin_pending. intros _. flag_simpl. done. }
      assert (Hc0 : fin_pending (clr_flags p TCP_PCB_FLAG_FIN_PENDING) = false)
        by (unfold fin_pending; flag_simpl; done).
      destruct (fin_facts ticks (clr_flags p TCP_PCB_FLAG_FIN_PENDING) p' U out H0 Hcs E Hc0 Hb)
        as (F1 & F2 & F3 & F4 & F5).
      cbn [round_ok]. split; [reflexivity|]. split; [|split; [|split; [exact F3|split; [exact F4|exact F5]]]].
      + apply (tx_wf_view (after_fin ticks p')); [apply draining_view|exact F1].
      + rewrite (pending_view _ _ (draining_view _)). exact F2.
    - cbn. split_and!; try done. destruct H. split; cbn; try done.
      unfold fin_pending. intros _. flag_simpl. done. }
  assert (fin = 0) as -> by (destruct (tw_fin _ _ _ H) as [?|(_ & ? & _)]; [done|congruence]).
  destruct (negb (can_send p) || pcb_has p TCP_PCB_FLAG_RESET); [by apply stop_ok|].
  destruct (Z.eqb_spec (remaining_window p) 0).
  { case_match; apply stop_ok; try done. solve_view. }
  pose proof H as [Hu _ _ _ _ _ _ _ _]. pose proof (qw_segs _ Hu) as HF. rewrite E in HF.
  apply Forall_cons in HF as [Hg _]. destruct Hg as (G1 & _).
  destruct (round_window p U H n Hw Hcw) as [Hr0 Hr1].
  set (m0 := if remaining_window p <? seg_length g then remaining_window p else seg_length g).
  set (m := if TCP_DEFAULT_MSS <? m0 then TCP_DEFAULT_MSS else m0).
  assert (Hm0 : 0 < m0 <= seg_length g /\ m0 <= remaining_window p) by (subst m0; bcase; lia).
  assert (Hm : 0 < m <= seg_length g /\ m <= remaining_window p).
  { subst m. clearbody m0. unfold TCP_DEFAULT_MSS. bcase; lia. }
  destruct (Z.ltb_spec m (seg_length g)).
  - destruct a1; [|by apply stop_ok]. destruct a2; [|by apply stop_ok]. cbn [negb].
    pose proof (send_part ticks p U g rest m H E) as F. cbn zeta in F.
    destruct (emit_segment _ _ _ _) as [p' out]. cbn. split; [done|]. apply F; lia.
  - assert (m = seg_length g) as -> by lia.
    destruct (send_whole ticks p U g rest H E) as (q & -> & F); [lia..|].
    cbn zeta in F. destruct (emit_segment _ _ _ _) as [p' out]. done.
Qed.

(** * Every handler of an open connection keeps the stream *)

(** Congestion window and threshold as RFC 5681 wants them. *)
Definition cwnd_ok (p : tcp_pcb) : Prop :=
  TCP_DEFAULT_MSS <= cwnd p <= 65535 /\ 2 * TCP_DEFAULT_MSS <= ssthresh p <= 65535.

Definition conn_inv (p : tcp_pcb) (U fin : Z) : Prop :=
  tx_wf p U fin /\ is_u16 (snd_wnd p) /\ cwnd_ok p.

(** All that [conn_inv], [pending] and [carries] depend on. *)
Definition conn_view (p : tcp_pcb) := (tx_view p, endpoints p, snd_wnd p, cwnd p, ssthresh p).

Lemma conn_view_eq p p' :
  conn_view p' = conn_view p ->
  tx_view p' = tx_view p /\ endpoints p' = endpoints p /\ snd_wnd p' = snd_wnd p /\
  cwnd p' = cwnd p /\ ssthresh p' = ssthresh p.
Proof.
  intros H. split_and!; [exact (f_equal (fun v => v.1.1.1.1) H)|exact (f_equal (fun v => v.1.1.1.2) H)|
    exact (f_equal (fun v => v.1.1.2) H)|exact (f_equal (fun v => v.1.2) H)|exact (f_equal snd H)].
Qed.

Lemma conn_view_inv p p' U fin : conn_view p' = conn_view p -> conn_inv p U fin -> conn_inv p' U fin.
Proof.
  intros (V & E & W & C & S)%conn_view_eq (H1 & H2 & H3). unfold conn_inv, cwnd_ok in *.
  rewrite W, C, S. split; [by apply (tx_wf_view p)|done].
Qed.

Lemma conn_view_intro p p' :
  tx_buf p' = tx_buf p -> snd_una p' = snd_una p -> snd_nxt p' = snd_nxt p -> can_send p' = can_send p ->
  fin_pending p' = fin_pending p -> endpoints p' = endpoints p -> snd_wnd p' = snd_wnd p ->
  cwnd p' = cwnd p -> ssthresh p' = ssthresh p -> conn_view p' = conn_view p.
Proof. unfold conn_view, tx_view. by intros -> -> -> -> -> -> -> -> ->. Qed.

(** Writes to fields and flags outside the view. *)
Ltac solve_conn := apply conn_view_intro; try reflexivity; unfold fin_pending; flag_simpl; reflexivity.

(** A packet without payload, or one that carries pending bytes at their place. *)
Definition sound_out (p : tcp_pcb) (U : Z) (out : packet) : Prop :=
  len (snd out) <= 20 \/
  exists pos n, 0 <= pos /\ 0 < n /\ pos + n <= len (pending p) /\
    carries p out (U + pos) (slice (pending p) pos n).

Lemma len_make_packet lip rip h payload : len (make_packet lip rip h payload) = 20 + len payload.
Proof. unfold make_packet, len. rewrite length_app, length_header_bytes. lia. Qed.

(** Control segments leave the view alone and carry nothing. *)
Lemma build_ack_facts p p' out :
  is_u32 (snd_nxt p) -> tcp_build_output_locked p TCP_FLAG_ACK [] = Some (p', out) ->
  conn_view p' = conn_view p /\ len (snd out) <= 20 /\ rcv_nxt p' = rcv_nxt p /\ rx_buf p' = rx_buf p /\
  state p' = state p /\ flags p' = flags p.
Proof.
  intros Hu Hb. unfold tcp_build_output_locked in Hb. case_match; [done|]. injection Hb as <- <-.
  split_and!; try reflexivity.
  apply conn_view_intro; try reflexivity. change (u32 (snd_nxt p + u32 0) = snd_nxt p). ulia.
Qed.

Lemma reply_facts w U fin :
  conn_inv (i_pcb w) U fin -> len (snd (out_packet w)) <= 20 ->
  let w' := reply w TCP_FLAG_ACK in
  conn_view (i_pcb w') = conn_view (i_pcb w) /\ len (snd (out_packet w')) <= 20 /\ fast_rexmit w' = fast_rexmit w /\ rcv_nxt (i_pcb w') = rcv_nxt (i_pcb w) /\
  rx_buf (i_pcb w') = rx_buf (i_pcb w) /\ state (i_pcb w') = state (i_pcb w) /\
  flags (i_pcb w') = flags (i_pcb w).
Proof.
  intros (Hw & _) Ho. unfold reply. destruct (tcp_build_output_locked _ _ _) as [[p' out]|] eqn:E; [|done].
  apply build_ack_facts in E as (V & L & R & X & S & F); [|by eapply tx_wf_nxt_u32]. done.
Qed.
