(* ===== verification/TcpConn.v ===== *)
(** An open TCP connection as a whole: whatever the application, the peer and the
    timers do, the handlers of [src/src/kernel/tcp.c] keep the byte stream of the
    sender, the in-order stream of the receiver and the bounds of the congestion
    window. *)

From S2P Require Import Prelude TcpWire Tcp TcpRx TcpTx.

(** The handlers on the block of an open connection, as [input_state] selects them. *)
Definition handle (ticks : Z) (p : tcp_pcb) (g : rx_segment) : inp :=
  let w := start_input p in
  match state p with
  | TCP_ESTABLISHED => input_established ticks w g
  | TCP_FIN_WAIT1 => input_fin_wait1 ticks w g
  | TCP_FIN_WAIT2 => input_fin_wait2 ticks w g
  | TCP_CLOSE_WAIT => input_close_wait w g
  | TCP_TIME_WAIT => input_time_wait ticks w g
  | _ => w
  end.

(** The packets a handler hands to IPv4. *)
Definition inp_outs (w : inp) : list packet :=
  (if send_out w then [out_packet w] else []) ++ option_list (fast_rexmit w).

(** From [p] to [p'], with [k] more numbers acknowledged. *)
Record handler_ok (p : tcp_pcb) (U fin : Z) (p' : tcp_pcb) (k fin' : Z) : Prop := {
  ho_k : 0 <= k <= len (pending p) + fin;
  ho_inv : conn_inv p' (U + k) fin';
  ho_pending : pending p' = drop (Z.to_nat k) (pending p);
  ho_ends : endpoints p' = endpoints p;
  ho_closed : can_send p = false -> can_send p' = false
}.

Lemma conn_view_can p p' : conn_view p' = conn_view p -> can_send p' = can_send p.
Proof. intros V. exact (f_equal (fun v => v.1.1.1.1.1.2) V). Qed.

Section Handlers.
Implicit Types (p : tcp_pcb) (w : inp) (g : rx_segment).

Lemma len_pending p : len (pending p) = len (bytes_of (unacked_of p)) + len (bytes_of (unsent_of p)).
Proof. apply len_app. Qed.

Lemma handler_view p U fin p' :
  conn_inv p U fin -> conn_view p' = conn_view p -> handler_ok p U fin p' 0 fin.
Proof.
  intros H V. pose proof H as (Hw & _). pose proof (conn_view_eq _ _ V) as (Vt & E & _).
  pose proof (len_nonneg (pending p)).
  split; rewrite ?Z.add_0_r; [|by eapply conn_view_inv|by rewrite (pending_view _ _ Vt)|done|].
  - destruct (tw_fin _ _ _ Hw) as [->|(-> & _)]; lia.
  - intros Hc. injection Vt as _ _ _ -> _. done.
Qed.

(** A view-preserving change after a handler. *)
Lemma handler_then_view p U fin p1 p2 k fin' :
  handler_ok p U fin p1 k fin' -> conn_view p2 = conn_view p1 -> handler_ok p U fin p2 k fin'.
Proof.
  intros [H1 H2 H3 H4 H5] V. pose proof (conn_view_eq _ _ V) as (Vt & E & _).
  split; [done|by eapply conn_view_inv|by rewrite (pending_view _ _ Vt)|congruence|].
  intros Hc. specialize (H5 Hc). injection Vt as _ _ _ -> _. done.
Qed.

(** ** Congestion control *)

Lemma clamp_ok p : TCP_DEFAULT_MSS <= cwnd p -> 2 * TCP_DEFAULT_MSS <= ssthresh p <= 65535 -> cwnd_ok (clamp_cwnd p).
Proof. unfold clamp_cwnd, cwnd_ok, TCP_DEFAULT_MSS. intros. bcase; cbn; lia. Qed.

Lemma clamp_frame p :
  tx_view (clamp_cwnd p) = tx_view p /\ endpoints (clamp_cwnd p) = endpoints p /\
  snd_wnd (clamp_cwnd p) = snd_wnd p.
Proof. unfold clamp_cwnd. case_match; done. Qed.

Lemma grow_cwnd_ok p n : cwnd_ok p -> 0 <= n -> cwnd_ok (grow_cwnd p n).
Proof.
  intros Hok Hn. pose proof Hok as [H1 H2]. unfold grow_cwnd, TCP_DEFAULT_MSS in *.
  destruct (Z.ltb_spec (cwnd p) (ssthresh p)).
  - apply clamp_ok; [cbn; unfold TCP_DEFAULT_MSS; bcase; ulia|done].
  - cbn zeta. match goal with |- context [?a <=? ?b] => destruct (Z.leb_spec a b) end; [|done].
    apply clamp_ok; [cbn; unfold TCP_DEFAULT_MSS; ulia|done].
Qed.

Lemma grow_cwnd_frame p n : endpoints (grow_cwnd p n) = endpoints p /\ snd_wnd (grow_cwnd p n) = snd_wnd p.
Proof. unfold grow_cwnd, clamp_cwnd. repeat case_match; done. Qed.

Lemma ack_frame ticks p ack exit :
  cwnd_ok p ->
  let p' := tcp_tx_ack_received_locked_ext ticks p ack exit in
  cwnd_ok p' /\ endpoints p' = endpoints p /\ snd_wnd p' = snd_wnd p.
Proof.
  intros Hok. unfold tcp_tx_ack_received_locked_ext. do 3 (case_match; [done|]).
  set (p1 := if exit then _ else _).
  assert (Hp1 : cwnd_ok p1 /\ endpoints p1 = endpoints p /\ snd_wnd p1 = snd_wnd p).
  { subst p1. destruct exit; [done|].
    destruct (grow_cwnd_frame (p <| snd_una := ack |>) (u32 (ack - snd_una p))) as [-> ->].
    split; [|done]. apply grow_cwnd_ok; [done|]. apply u32_range. }
  clearbody p1. case_match; done.
Qed.

Lemma ack_handler ticks p U fin ack exit :
  conn_inv p U fin -> is_u32 ack ->
  exists k fin', handler_ok p U fin (tcp_tx_ack_received_locked_ext ticks p ack exit) k fin'.
Proof.
  intros (Hw & Hs & Hc) Ha. destruct (ack_facts ticks p U fin ack exit Hw Ha) as (k & fin' & Hk & Hw' & Hp & Hcs).
  destruct (ack_frame ticks p ack exit Hc) as (F1 & F2 & F3). exists k, fin'.
  split; [rewrite len_pending; pose proof (len_nonneg (bytes_of (unsent_of p))); lia| |done|done|congruence].
  split; [done|]. by rewrite F3.
Qed.

(** ** Retransmission *)

(** New stamps on the oldest unacknowledged segment. *)
Lemma restamp_facts p U fin seg rest seg' :
  conn_inv p U fin -> unacked_of p = seg :: rest ->
  seg_sequence seg' = seg_sequence seg -> seg_length seg' = seg_length seg ->
  seg_offset seg' = seg_offset seg -> seg_data seg' = seg_data seg ->
  handler_ok p U fin (set_unacked p (set_head (unacked (tx_buf p)) seg')) 0 fin.
Proof.
  intros (Hw & Hs & Hc) E E1 E2 E3 E4.
  pose proof Hw as [Hu Ha Hch Hun Hnx Hf Hcl Hcp Hcap]. pose proof Ha as [HF Hb Hn].
  rewrite E in HF, Hb, Hn, Hch. apply Forall_cons in HF as [Hg HF]. destruct Hch as [Es Hch].
  assert (Hg' : seg_wf seg') by (unfold seg_wf in *; by rewrite E2, E3, E4).
  assert (Eg : seg_bytes seg' = seg_bytes seg) by (unfold seg_bytes; by rewrite E2, E3, E4).
  set (p' := set_unacked p (set_head (unacked (tx_buf p)) seg')).
  assert (Ee : unacked_of p' = seg' :: rest) by (unfold p', set_head; cbn; by rewrite E).
  assert (Bs : bytes_of (unacked_of p') = bytes_of (unacked_of p)) by (by rewrite Ee, E, !bytes_of_cons, Eg).
  assert (F : q_bytes (unacked (tx_buf p')) = q_bytes (unacked (tx_buf p)) /\
    q_segments (unacked (tx_buf p')) = q_segments (unacked (tx_buf p)) /\ snd_nxt p' = snd_nxt p /\
    unsent (tx_buf p') = unsent (tx_buf p) /\ snd_una p' = snd_una p /\ can_send p' = can_send p /\
    fin_pending p' = fin_pending p /\ tx_capacity (tx_buf p') = tx_capacity (tx_buf p) /\
    endpoints p' = endpoints p /\ snd_wnd p' = snd_wnd p /\ cwnd p' = cwnd p /\ ssthresh p' = ssthresh p) by done.
  clearbody p'. destruct F as (F1 & F2 & F3 & F4 & F5 & F6 & F7 & F8 & F9 & F10 & F11 & F12).
  pose proof (len_nonneg (pending p)) as Lp.
  split; rewrite ?Z.add_0_r; [destruct Hf as [->|(-> & _)]; lia| | |done|congruence].
  - unfold conn_inv, cwnd_ok in *. rewrite F10, F11, F12. split; [|done].
    split; rewrite ?F3, ?F4, ?F5, ?F6, ?F7, ?F8, ?Bs; try done.
    + split; [rewrite Ee; by constructor|by rewrite Bs, F1, Hb, E|]. rewrite Ee, F2, Hn. done.
    + rewrite Ee. split; [by rewrite E1|by rewrite E2].
  - change (Z.to_nat 0) with 0%nat. rewrite drop_0. unfold pending. by rewrite Bs, F4.
Qed.

Lemma retransmit_sound p U fin seg rest :
  conn_inv p U fin -> unacked_of p = seg :: rest -> sound_out p U (retransmit_packet p seg).
Proof.
  intros (Hw & _) E. pose proof Hw as [Hu Ha Hch Hun Hnx Hf Hcl Hcp Hcap]. pose proof (qw_segs _ Ha) as HF.
  rewrite E in HF, Hch. apply Forall_cons in HF as [Hg HF]. destruct Hch as [Es Hch].
  pose proof Hg as (G1 & G2 & G3 & G4). pose proof (len_seg_bytes seg Hg) as Lg.
  right. set (n := if TCP_DEFAULT_MSS <? seg_length seg then TCP_DEFAULT_MSS else seg_length seg).
  assert (Hn0 : 0 < n <= seg_length seg) by (subst n; unfold TCP_DEFAULT_MSS; bcase; lia).
  exists 0, n. rewrite len_pending, E, bytes_of_cons, len_app, Lg.
  pose proof (len_nonneg (bytes_of rest)). pose proof (len_nonneg (bytes_of (unsent_of p))).
  split_and!; try lia. rewrite Z.add_0_r.
  assert (Esl : slice (pending p) 0 n = slice (seg_data seg) (seg_offset seg) n).
  { unfold pending. rewrite E, bytes_of_cons, (slice_head _ (seg_offset seg) n (seg_length seg)) by lia.
    fold (seg_bytes seg). unfold slice. rewrite !drop_0, <- app_assoc. apply take_app_le.
    unfold len in Lg. lia. }
  rewrite Esl. eexists. split; [reflexivity|]. cbn. done.
Qed.

Lemma rexmit_facts ticks p U fin seg rest :
  conn_inv p U fin -> unacked_of p = seg :: rest ->
  let '(p', out) := tcp_retransmit_segment_locked ticks p seg in
  handler_ok p U fin p' 0 fin /\ sound_out p U out.
Proof.
  intros H E. unfold tcp_retransmit_segment_locked.
  split; [by eapply restamp_facts|by eapply retransmit_sound].
Qed.

(** ** Input *)

Lemma handler_cc p U fin p1 p2 k fin' :
  handler_ok p U fin p1 k fin' -> tx_view p2 = tx_view p1 -> endpoints p2 = endpoints p1 ->
  is_u16 (snd_wnd p2) -> cwnd_ok p2 -> handler_ok p U fin p2 k fin'.
Proof.
  intros [H1 (H2 & _ & _) H3 H4 H5] V E W C.
  split; [done| |by rewrite (pending_view _ _ V)|congruence|].
  - split; [by eapply tx_wf_view|done].
  - intros Hc. specialize (H5 Hc). injection V as _ _ _ -> _. done.
Qed.

Lemma handler_from p p1 U fin q k fin' :
  tx_view p1 = tx_view p -> endpoints p1 = endpoints p ->
  handler_ok p1 U fin q k fin' -> handler_ok p U fin q k fin'.
Proof.
  intros V E [O1 O2 O3 O4 O5]. rewrite (pending_view _ _ V) in *.
  split; [done|done|done|congruence|]. intros Hcs. apply O5. injection V as _ _ _ -> _. done.
Qed.

Lemma sound_out_view p p1 U out :
  tx_view p1 = tx_view p -> endpoints p1 = endpoints p -> sound_out p1 U out -> sound_out p U out.
Proof.
  intros V E [H|(pos & n & H1 & H2 & H3 & H4)]; [by left|right].
  rewrite (pending_view _ _ V) in *. exists pos, n. split_and!; try done.
  by apply (carries_endpoints p1).
Qed.

(** The state of [tcp_input] while it works on the block. *)
Record wok p U fin w k fin' : Prop := {
  wo_ok : handler_ok p U fin (i_pcb w) k fin';
  wo_out : len (snd (out_packet w)) <= 20;
  wo_rex : forall out, fast_rexmit w = Some out -> sound_out p U out
}.

Lemma wok_start p U fin : conn_inv p U fin -> wok p U fin (start_input p) 0 fin.
Proof. intros H. split; [by apply handler_view|done|done]. Qed.

Lemma wok_view p U fin w p2 k fin' :
  wok p U fin w k fin' -> conn_view p2 = conn_view (i_pcb w) -> wok p U fin (w <| i_pcb := p2 |>) k fin'.
Proof. intros [H1 H2 H3] V. split; [by eapply handler_then_view|done|done]. Qed.

Lemma wok_reply p U fin w k fin' :
  wok p U fin w k fin' -> wok p U fin (reply w TCP_FLAG_ACK) k fin'.
Proof.
  intros [H1 H2 H3]. destruct (reply_facts w (U + k) fin') as (V & L & F & _); [apply H1|done|].
  split; [by eapply handler_then_view|done|by rewrite F].
Qed.

Lemma half_flight p U fin : tx_wf p U fin -> 0 <= u32 (snd_nxt p - snd_una p) / 2 <= 4096.
Proof.
  intros [Hu Ha Hch Hun Hnx Hf Hcl Hc Hcap].
  pose proof (len_nonneg (bytes_of (unsent_of p))). pose proof (len_nonneg (bytes_of (unacked_of p))).
  rewrite Hnx, Hun. ulia.
Qed.

Lemma arm_conn ticks p : conn_view (arm_data_rto ticks p) = conn_view p.
Proof. solve_conn. Qed.

Definition mark_recovery p : tcp_pcb :=
  set_flags p TCP_PCB_FLAG_FAST_RECOVERY <| recover := snd_nxt p |> <| ca_bytes_acked := 0 |>.
Lemma mark_recovery_conn p : conn_view (mark_recovery p) = conn_view p.
Proof. solve_conn. Qed.

(** Threshold and window at the third duplicate. *)
Definition recovery_window p (th : Z) : tcp_pcb :=
  clamp_cwnd (p <| ssthresh := th |> <| cwnd := u32 (th + 3 * TCP_DEFAULT_MSS) |>).
Lemma recovery_window_ok p th :
  2 * TCP_DEFAULT_MSS <= th <= 65535 ->
  cwnd_ok (recovery_window p th) /\ tx_view (recovery_window p th) = tx_view p /\
  endpoints (recovery_window p th) = endpoints p /\ snd_wnd (recovery_window p th) = snd_wnd p.
Proof.
  intros Hth. split; [apply clamp_ok; cbn; unfold TCP_DEFAULT_MSS in *; ulia|].
  unfold recovery_window. by destruct (clamp_frame (p <| ssthresh := th |> <| cwnd := u32 (th + 3 * TCP_DEFAULT_MSS) |>)) as (-> & -> & ->).
Qed.

Lemma wok_recovery ticks p U fin w :
  wok p U fin w 0 fin -> i_pcb w = p \/ tx_view (i_pcb w) = tx_view p /\ endpoints (i_pcb w) = endpoints p ->
  wok p U fin (enter_recovery ticks w) 0 fin.
Proof.
  intros [H1 H2 H3] Hsame. unfold enter_recovery. pose proof (ho_inv _ _ _ _ _ _ H1) as (Hw & Hs & Hc).
  rewrite Z.add_0_r in Hw. pose proof (half_flight _ _ _ Hw) as Hh.
  set (half := u32 (snd_nxt (i_pcb w) - snd_una (i_pcb w)) / 2) in *. clearbody half.
  set (th := if half <? 2 * TCP_DEFAULT_MSS then 2 * TCP_DEFAULT_MSS else half).
  assert (Hth : 2 * TCP_DEFAULT_MSS <= th <= 65535) by (subst th; unfold TCP_DEFAULT_MSS; bcase; lia).
  clearbody th. cbn zeta.
  destruct (recovery_window_ok (i_pcb w) th Hth) as (C1 & C2 & C3 & C4).
  change (clamp_cwnd _) with (recovery_window (i_pcb w) th). set (p0 := recovery_window (i_pcb w) th) in *.
  clearbody p0. change (set_flags p0 _ <| recover := _ |> <| ca_bytes_acked := 0 |>) with (mark_recovery p0).
  destruct (conn_view_eq _ _ (mark_recovery_conn p0)) as (M1 & M2 & M3 & M4 & M5).
  set (p1 := mark_recovery p0) in *. clearbody p1.
  assert (K1 : cwnd_ok p1) by (unfold cwnd_ok in *; by rewrite M4, M5).
  assert (K2 : tx_view p1 = tx_view (i_pcb w)) by (rewrite M1; exact C2).
  assert (K3 : endpoints p1 = endpoints (i_pcb w)) by (rewrite M2; exact C3).
  assert (K4 : snd_wnd p1 = snd_wnd (i_pcb w)) by (rewrite M3; exact C4).
  assert (O1 : handler_ok p U fin p1 0 fin) by (eapply handler_cc; [exact H1|done|done|by rewrite K4|done]).
  assert (V1 : tx_view p1 = tx_view p /\ endpoints p1 = endpoints p) by (destruct Hsame as [E|[E1 E2]]; split; congruence).
  destruct V1 as [V1 V2].
  destruct (unacked_of p1) as [|seg rest] eqn:E.
  - split; [|exact H2|by intros o [=]]. apply (handler_then_view _ _ _ p1); [done|apply arm_conn].
  - assert (Hi : conn_inv p1 U fin) by (pose proof (ho_inv _ _ _ _ _ _ O1) as Hi; by rewrite Z.add_0_r in Hi).
    pose proof (rexmit_facts ticks p1 U fin seg rest Hi E) as R.
    destruct (tcp_retransmit_segment_locked ticks p1 seg) as [p2 out]. destruct R as (R1 & R2).
    split; [|exact H2|].
    + apply (handler_then_view _ _ _ p2); [|apply arm_conn].
      destruct O1 as [O11 O12 O13 O14 O15]. destruct R1 as [R11 R12 R13 R14 R15].
      split; [done|done|by rewrite R13, O13|congruence|auto].
    + intros o [= <-]. by apply (sound_out_view p p1).
Qed.

Lemma wok_drain p U fin w b k fin' :
  wok p U fin w k fin' -> wok p U fin (w <| need_drain := b |>) k fin'.
Proof. intros [H1 H2 H3]. by split. Qed.

Lemma wok_duplicate ticks p U fin :
  conn_inv p U fin -> wok p U fin (duplicate_ack ticks (start_input p)) 0 fin.
Proof.
  intros H. pose proof (wok_start p U fin H) as W0. unfold duplicate_ack. cbn zeta.
  change (i_pcb (start_input p)) with p. case_match.
  - set (p1 := p <| dupacks := u32 (dupacks p + 1) |>).
    assert (V1 : conn_view p1 = conn_view p) by solve_conn.
    assert (W1 : wok p U fin (start_input p <| i_pcb := p1 |>) 0 fin) by (by apply wok_view).
    case_match; [|done]. apply wok_recovery; [done|right].
    destruct (conn_view_eq _ _ V1) as (A & B & _). done.
  - apply wok_drain. destruct H as (Hw & Hs & Hc). destruct W0 as [O1 O2 O3].
    split; [|exact O2|by intros o [=]].
    set (p1 := p <| dupacks := u32 (dupacks p + 1) |> <| cwnd := u32 (cwnd p + TCP_DEFAULT_MSS) |>).
    destruct (clamp_frame p1) as (F1 & F2 & F3). change (handler_ok p U fin (clamp_cwnd p1) 0 fin).
    apply (handler_cc _ _ _ p); [exact O1|rewrite F1; solve_view|by rewrite F2|by rewrite F3|].
    apply clamp_ok; [|apply Hc]. unfold p1. cbn. destruct Hc as [Hc _]. unfold TCP_DEFAULT_MSS in *. ulia.
Qed.

Lemma wok_new_ack ticks p U fin ack :
  conn_inv p U fin -> is_u32 ack ->
  exists k fin', wok p U fin (new_ack ticks (start_input p) ack) k fin'.
Proof.
  intros H Ha. pose proof H as (Hw & Hs & [Hc1 Hc2]). unfold new_ack. cbn zeta.
  change (i_pcb (start_input p)) with p.
  set (p1 := clr_flags (p <| cwnd := ssthresh p |>) TCP_PCB_FLAG_FAST_RECOVERY
               <| dupacks := 0 |> <| ca_bytes_acked := 0 |>).
  assert (V1 : tx_view p1 = tx_view p) by solve_view.
  assert (E1 : endpoints p1 = endpoints p) by done.
  assert (I1 : conn_inv p1 U fin).
  { split; [by apply (tx_wf_view p)|]. split; [done|]. split; [|done]. unfold p1, TCP_DEFAULT_MSS in *. cbn. lia. }
  clearbody p1.
  assert (Hfin : forall q k fin', handler_ok p U fin q k fin' ->
    wok p U fin (start_input p <| i_pcb := q |> <| need_drain := true |>) k fin') by (intros; by split).
  case_match.
  - destruct (ack_handler ticks p1 U fin ack true I1 Ha) as (k & fin' & O).
    exists k, fin'. apply Hfin, (handler_from p p1); done.
  - destruct (ack_handler ticks (p <| dupacks := 0 |>) U fin ack false) as (k & fin' & O); [|done|].
    + apply (conn_view_inv p); [solve_conn|done].
    + exists k, fin'. apply Hfin, (handler_from p (p <| dupacks := 0 |>)); [solve_view|done|done].
Qed.

Lemma wok_window p U fin w g before k fin' :
  wok p U fin w k fin' -> is_u16 (sg_window g) -> wok p U fin (window_update w g before) k fin'.
Proof.
  intros [H1 H2 H3] Hg. unfold window_update. case_match; [|done]. cbn zeta.
  set (p1 := i_pcb w <| snd_wnd := sg_window g |> <| snd_wl1 := sg_seq g |> <| snd_wl2 := sg_ack g |>).
  assert (O1 : handler_ok p U fin p1 k fin').
  { eapply handler_cc; [exact H1|solve_view|done|done|]. apply (ho_inv _ _ _ _ _ _ H1). }
  clearbody p1.
  assert (O2 : forall q, conn_view q = conn_view p1 ->
    wok p U fin ((if (before <? snd_wnd p1) && has_unsent p1 then w <| need_drain := true |> else w) <| i_pcb := q |>) k fin').
  { intros q V. split; [by eapply handler_then_view|by case_match|by case_match]. }
  apply O2. destruct ((0 <? snd_wnd p1) && pcb_has p1 TCP_PCB_FLAG_TIMER_PERSIST); [solve_conn|done].
Qed.

Lemma wok_established_ack ticks p U fin g :
  conn_inv p U fin -> is_u32 (sg_ack g) -> is_u16 (sg_window g) ->
  exists k fin', wok p U fin (established_ack ticks (start_input p) g) k fin'.
Proof.
  intros H Ha Hg. unfold established_ack. cbn zeta. change (i_pcb (start_input p)) with p.
  case_match; [exists 0, fin; by apply wok_window; [apply wok_reply, wok_start|]|].
  case_match.
  { destruct (wok_new_ack ticks p U fin (sg_ack g) H Ha) as (k & fin' & W).
    exists k, fin'. by apply wok_window. }
  exists 0, fin. apply wok_window; [|done]. case_match; [by apply wok_duplicate|by apply wok_start].
Qed.

(** Storing payload touches the receive side only. *)
Lemma rx_write_frame p src :
  conn_view (fst (tcp_rx_buffer_write_locked p src)) = conn_view p.
Proof. unfold tcp_rx_buffer_write_locked. repeat case_match; try done; solve_conn. Qed.

Lemma store_payload_conn p payload : conn_view (store_payload p payload) = conn_view p.
Proof.
  unfold store_payload. case_match; [solve_conn|]. case_match; [|done].
  pose proof (rx_write_frame p (slice payload 0 (if len payload <? tcp_rx_buffer_free_space_locked p
    then len payload else tcp_rx_buffer_free_space_locked p))) as V.
  destruct (tcp_rx_buffer_write_locked _ _) as [p1 n]. cbn in V. rewrite <- V. solve_conn.
Qed.
Lemma refresh_conn p : conn_view (refresh_window p) = conn_view p.
Proof. solve_conn. Qed.
Lemma take_fin_conn p : conn_view (take_fin p) = conn_view p.
Proof. solve_conn. Qed.

Lemma wok_payload p U fin w g k fin' :
  wok p U fin w k fin' -> wok p U fin (established_payload w g) k fin'.
Proof.
  intros W. unfold established_payload. do 2 (case_match; [try done|]).
  - apply wok_reply, wok_view; [done|]. rewrite refresh_conn. apply store_payload_conn.
  - apply wok_reply, wok_view; [done|]. rewrite <- (refresh_conn (i_pcb w)). solve_conn.
Qed.

(** The state only changes where the handlers say so. *)
Lemma ack_state ticks p ack exit : state (tcp_tx_ack_received_locked_ext ticks p ack exit) = state p.
Proof.
  unfold tcp_tx_ack_received_locked_ext, grow_cwnd, clamp_cwnd. do 3 (case_match; [done|]).
  cbn zeta. repeat case_match; done.
Qed.
Lemma build_state p fl payload p' out :
  tcp_build_output_locked p fl payload = Some (p', out) -> state p' = state p.
Proof. unfold tcp_build_output_locked. case_match; [done|]. intros [= <- _]. repeat case_match; done. Qed.
Lemma reply_state w fl : state (i_pcb (reply w fl)) = state (i_pcb w).
Proof. unfold reply. case_match; [|done]. case_match. subst. by eapply build_state. Qed.

Lemma established_ack_state ticks w g : state (i_pcb (established_ack ticks w g)) = state (i_pcb w).
Proof.
  unfold established_ack, window_update. cbn zeta.
  set (w1 := if TCP_SEQ_GT _ _ then _ else _).
  assert (E : state (i_pcb w1) = state (i_pcb w)).
  { subst w1. case_match; [apply reply_state|]. case_match.
    { unfold new_ack. cbn. case_match; by rewrite ack_state. }
    case_match; [|done]. unfold duplicate_ack, enter_recovery, clamp_cwnd, tcp_retransmit_segment_locked. cbn zeta.
    repeat case_match; try done; simplify_eq; done. }
  clearbody w1. repeat case_match; done.
Qed.

Lemma payload_state w g : state (i_pcb (established_payload w g)) = state (i_pcb w).
Proof.
  unfold established_payload. repeat (case_match; try done); rewrite reply_state; [|done].
  cbn. unfold store_payload. case_match; [done|]. case_match; [|done].
  unfold tcp_rx_buffer_write_locked. repeat case_match; simplify_eq; done.
Qed.

Lemma can_send_state p p' : state p' = state p -> can_send p' = can_send p.
Proof. unfold can_send. by intros ->. Qed.

Lemma peer_fin_conn p :
  state p = TCP_ESTABLISHED ->
  conn_view (refresh_window (take_fin p <| state := TCP_CLOSE_WAIT |>)) = conn_view p.
Proof.
  intros Hst. rewrite refresh_conn, <- (take_fin_conn p).
  apply conn_view_intro; try reflexivity. unfold can_send. cbn. by rewrite Hst.
Qed.

Lemma wok_input_established ticks p U fin g :
  conn_inv p U fin -> state p = TCP_ESTABLISHED -> is_u32 (sg_ack g) -> is_u16 (sg_window g) ->
  exists k fin', wok p U fin (input_established ticks (start_input p) g) k fin'.
Proof.
  intros H Hst Ha Hg. unfold input_established. cbn zeta.
  assert (exists k fin', wok p U fin (if sg_has g TCP_FLAG_ACK then established_ack ticks (start_input p) g
            else start_input p) k fin') as (k & fin' & W1).
  { case_match; [by apply wok_established_ack|]. exists 0, fin. by apply wok_start. }
  set (w1 := if sg_has g TCP_FLAG_ACK then _ else _) in *.
  assert (S1 : state (i_pcb w1) = TCP_ESTABLISHED).
  { subst w1. case_match; [by rewrite established_ack_state|done]. }
  clearbody w1. exists k, fin'.
  set (w2 := if is_probe (i_pcb w1) g then _ else _).
  assert (W2 : wok p U fin w2 k fin' /\ state (i_pcb w2) = TCP_ESTABLISHED).
  { subst w2. case_match; [|done]. split; [by apply wok_reply|by rewrite reply_state]. }
  clearbody w2. destruct W2 as [W2 S2]. pose proof (wok_payload p U fin w2 g k fin' W2) as W3.
  pose proof (payload_state w2 g) as S3. set (w3 := established_payload w2 g) in *. clearbody w3.
  case_match; [|done]. apply wok_reply, wok_view; [done|]. apply peer_fin_conn. congruence.
Qed.

Lemma wok_closing p U fin w g k fin' :
  wok p U fin w k fin' -> wok p U fin (closing_payload w g) k fin'.
Proof.
  intros W. unfold closing_payload. case_match; [|done].
  apply wok_reply, wok_view; [done|]. apply store_payload_conn.
Qed.

(** Moves between states in which nothing is sent any more. *)
Lemma closed_state_conn p st :
  can_send p = false -> st <> TCP_ESTABLISHED -> st <> TCP_CLOSE_WAIT ->
  conn_view (p <| state := st |>) = conn_view p.
Proof.
  intros Hc H1 H2. apply conn_view_intro; try done. rewrite Hc. unfold can_send. cbn.
  by destruct st.
Qed.
Lemma time_wait_conn ticks p : can_send p = false -> conn_view (enter_time_wait ticks p) = conn_view p.
Proof.
  intros Hc. rewrite <- (closed_state_conn p TCP_TIME_WAIT) by done. solve_conn.
Qed.
Lemma clear_rto_conn p : conn_view (clear_rto p) = conn_view p.
Proof. solve_conn. Qed.

Lemma wok_fin_wait1 ticks p U fin g :
  conn_inv p U fin -> state p = TCP_FIN_WAIT1 -> is_u32 (sg_ack g) ->
  exists k fin', wok p U fin (input_fin_wait1 ticks (start_input p) g) k fin'.
Proof.
  intros H Hst Ha. assert (Hcs : can_send p = false) by (unfold can_send; by rewrite Hst).
  unfold input_fin_wait1. cbn zeta. change (i_pcb (start_input p)) with p.
  assert (exists k fin', handler_ok p U fin (if sg_has g TCP_FLAG_ACK
     then tcp_tx_ack_received_locked ticks p (sg_ack g) else p) k fin') as (k & fin' & O).
  { case_match; [by apply ack_handler|]. exists 0, fin. by apply handler_view. }
  set (p1 := if sg_has g TCP_FLAG_ACK then _ else _) in *. clearbody p1. exists k, fin'.
  set (acked := sg_has g TCP_FLAG_ACK && _). clearbody acked.
  assert (W1 : wok p U fin (start_input p <| i_pcb := if acked then clear_rto p1 else p1 |>) k fin').
  { split; [|done|done]. cbn. destruct acked; [|done]. eapply handler_then_view; [exact O|apply clear_rto_conn]. }
  apply (wok_closing _ _ _ _ g) in W1. set (w1 := closing_payload _ _) in *. clearbody w1.
  set (w2 := if pcb_has (i_pcb w1) _ && _ then _ else _).
  assert (W2 : wok p U fin w2 k fin').
  { subst w2. case_match; [by apply wok_reply|]. case_match; [|done].
    apply wok_reply, wok_view; [done|apply take_fin_conn]. }
  clearbody w2. case_match; [|done]. apply wok_view; [done|].
  pose proof (ho_closed _ _ _ _ _ _ (wo_ok _ _ _ _ _ _ W2) Hcs) as Hc2.
  case_match; [by apply time_wait_conn|by apply closed_state_conn].
Qed.

Lemma wok_handle ticks p U fin g :
  conn_inv p U fin -> is_u32 (sg_ack g) -> is_u16 (sg_window g) ->
  exists k fin', wok p U fin (handle ticks p g) k fin'.
Proof.
  intros H Ha Hg. pose proof (wok_start p U fin H) as W0. unfold handle. cbn zeta.
  destruct (state p) eqn:Hst; try (exists 0, fin; exact W0).
  - by apply wok_input_established.
  - by apply wok_fin_wait1.
  - exists 0, fin. unfold input_fin_wait2. cbn zeta.
    assert (Hcs : can_send p = false) by (unfold can_send; by rewrite Hst).
    apply (wok_closing _ _ _ _ g) in W0. set (w1 := closing_payload _ _) in *. clearbody w1.
    case_match; [|done]. apply wok_reply, wok_view; [done|].
    pose proof (ho_closed _ _ _ _ _ _ (wo_ok _ _ _ _ _ _ W0) Hcs) as Hc1.
    rewrite time_wait_conn, take_fin_conn; [done|]. by rewrite (conn_view_can _ _ (take_fin_conn (i_pcb w1))).
  - exists 0, fin. unfold input_close_wait. case_match; [by apply wok_reply|done].
  - exists 0, fin. unfold input_time_wait. case_match; [|done].
    apply wok_view; [by apply wok_reply|]. solve_conn.
Qed.

(** ** Timers *)

Lemma backoff_conn p now : conn_view (backoff p now) = conn_view p.
Proof. solve_conn. Qed.

Lemma loss_window_ok p U fin :
  conn_inv p U fin -> handler_ok p U fin (loss_window p) 0 fin.
Proof.
  intros H. pose proof H as (Hw & Hs & Hc). pose proof (half_flight _ _ _ Hw) as Hh.
  pose proof (handler_view p U fin p H eq_refl) as O. unfold loss_window. case_match; [|done].
  apply (handler_cc _ _ _ p); [done|done|done|done|]. destruct Hc as [Hc1 Hc2].
  unfold cwnd_ok, TCP_DEFAULT_MSS in *. cbn. split; [lia|]. cbn zeta. bcase; lia.
Qed.

Lemma handler_trans0 p U fin p1 p2 k fin' :
  handler_ok p U fin p1 0 fin -> handler_ok p1 U fin p2 k fin' -> handler_ok p U fin p2 k fin'.
Proof.
  intros [A1 A2 A3 A4 A5] [B1 B2 B3 B4 B5]. rewrite A3 in *.
  change (Z.to_nat 0) with 0%nat in *. rewrite drop_0 in *.
  split; [done|done|done|congruence|auto].
Qed.

(** Packets stay sound when only the windows changed. *)
Lemma sound_out_before p U fin p1 out :
  handler_ok p U fin p1 0 fin -> sound_out p1 U out -> sound_out p U out.
Proof.
  intros [_ _ A3 A4 _] [H|(pos & n & H1 & H2 & H3 & H4)]; [by left|right].
  change (Z.to_nat 0) with 0%nat in A3. rewrite drop_0 in A3. rewrite A3 in *.
  exists pos, n. split_and!; try done. by apply (carries_endpoints p1).
Qed.

Lemma timer_data_ok p U fin now ticks room p' o :
  conn_inv p U fin -> timer_data p now ticks room = inr (p', o) ->
  handler_ok p U fin p' 0 fin /\ Forall (sound_out p U) (option_list o).
Proof.
  intros H. pose proof (handler_view p U fin p H eq_refl) as O0. unfold timer_data.
  case_match; [|by intros [= <- <-]].
  destruct (unacked_of p) as [|seg rest] eqn:E.
  { intros [= <- <-]. split; [|done]. apply (handler_then_view _ _ _ p); [done|solve_conn]. }
  case_match; [done|]. cbn zeta.
  set (p1 := if pcb_has p TCP_PCB_FLAG_FAST_RECOVERY then _ else p).
  assert (V1 : conn_view p1 = conn_view p) by (subst p1; case_match; [solve_conn|done]).
  assert (E1 : unacked_of p1 = unacked_of p) by (subst p1; by case_match). clearbody p1.
  pose proof (conn_view_inv _ _ _ _ V1 H) as I1. pose proof (handler_view p U fin p1 H V1) as O1.
  pose proof (loss_window_ok p1 U fin I1) as O2.
  assert (E2 : unacked_of (loss_window p1) = unacked_of p1) by (unfold loss_window; by case_match).
  set (p2 := loss_window p1) in *. clearbody p2.
  pose proof (handler_then_view _ _ _ _ _ _ _ O2 (backoff_conn p2 now)) as O3.
  assert (E3 : unacked_of (backoff p2 now) = unacked_of p2) by done.
  set (p3 := backoff p2 now) in *. clearbody p3.
  assert (O4 : handler_ok p U fin p3 0 fin) by (by eapply handler_trans0).
  assert (I3 : conn_inv p3 U fin) by (pose proof (ho_inv _ _ _ _ _ _ O4) as I; by rewrite Z.add_0_r in I).
  case_match; [|by intros [= <- <-]].
  pose proof (rexmit_facts ticks p3 U fin seg rest I3) as R.
  destruct (tcp_retransmit_segment_locked ticks p3 seg) as [p4 out].
  destruct R as (R1 & R2); [congruence|]. intros [= <- <-]. split; [by eapply handler_trans0|].
  constructor; [|done]. by eapply sound_out_before.
Qed.

Lemma timer_persist_ok p U fin now room :
  conn_inv p U fin ->
  handler_ok p U fin (fst (timer_persist p now room)) 0 fin /\
  Forall (sound_out p U) (option_list (snd (timer_persist p now room))).
Proof.
  intros H. assert (V : conn_view (fst (timer_persist p now room)) = conn_view p).
  { unfold timer_persist. repeat (case_match; try done); cbn [fst]; solve_conn. }
  split; [by apply handler_view|].
  unfold timer_persist. repeat (case_match; cbn [snd option_list]; try done).
  all: constructor; [|done]; left; unfold probe_packet; cbn [snd]; rewrite len_make_packet; done.
Qed.

Lemma timer_fin_ok p U fin now room :
  conn_inv p U fin -> can_send p = false ->
  handler_ok p U fin (tr_pcb (timer_fin p now room)) 0 fin /\
  Forall (sound_out p U) (option_list (tr_packet (timer_fin p now room))).
Proof.
  intros H Hcs. pose proof (handler_view p U fin p H eq_refl) as O0. unfold timer_fin.
  case_match; [|by split]. case_match.
  { split; [|done]. apply handler_view; [done|]. cbn [tr_pcb]. unfold close_now.
    rewrite <- (closed_state_conn p TCP_CLOSED) by done. solve_conn. }
  pose proof (handler_view p U fin (backoff p now) H (backoff_conn p now)) as O1.
  pose proof (conn_view_inv _ _ _ _ (backoff_conn p now) H) as I1.
  set (p1 := backoff p now) in *. clearbody p1. case_match; [|by split].
  destruct (unacked_of p1) as [|seg rest] eqn:E; cbn [tr_pcb tr_packet option_list].
  - split; [done|]. constructor; [|done]. left. cbn [snd]. by rewrite len_make_packet.
  - split; [eapply handler_trans0; [done|by eapply restamp_facts]|]. constructor; [|done].
    eapply sound_out_before; [done|by eapply retransmit_sound].
Qed.
End Handlers.
