(* ===== verification/TcpStream.v ===== *)
(** End-to-end statements about an open TCP connection: the sender's byte stream
    under every interleaving of the handlers of [src/src/kernel/tcp.c], in-order
    delivery on the receiving side, and termination of [tcp_drain_unsent]. *)

From S2P Require Import Prelude TcpWire Tcp TcpRx TcpTx TcpConn.

(** * The life of an open connection *)

(** One action on the block of a connection: the bytes the application hands over
    and the packets handed to IPv4. *)
Inductive conn_step : tcp_pcb -> list Z -> list packet -> tcp_pcb -> Prop :=
  | cs_accept p data :
      refuses_data p = false -> 0 < len data <= tcp_tx_buffer_available_locked p ->
      conn_step p data [] (accept_segment p data)
  | cs_round_stop ticks a1 a2 p p' n :
      drain_round ticks a1 a2 p = DrainStop p' n -> conn_step p [] [] p'
  | cs_round_send ticks a1 a2 p p' out n :
      drain_round ticks a1 a2 p = DrainSend p' out n -> conn_step p [] [out] p'
  | cs_round_fin ticks a1 a2 p p' out :
      drain_round ticks a1 a2 p = DrainFin p' out -> conn_step p [] [out] p'
  | cs_close ticks p p' o :
      can_send p = true -> pcb_has p TCP_PCB_FLAG_FIN_PENDING = false ->
      finish_close ticks p = (p', o) -> conn_step p [] (option_list o) p'
  | cs_input ticks p g :
      is_u32 (sg_ack g) -> is_u16 (sg_window g) ->
      conn_step p [] (inp_outs (handle ticks p g)) (i_pcb (handle ticks p g))
  | cs_timer_data now ticks rm p p' o :
      timer_data p now ticks rm = inr (p', o) -> conn_step p [] (option_list o) p'
  | cs_timer_persist now rm p :
      conn_step p [] (option_list (snd (timer_persist p now rm))) (fst (timer_persist p now rm))
  | cs_timer_fin now rm p :
      state p = TCP_FIN_WAIT1 \/ state p = TCP_LAST_ACK ->
      conn_step p [] (option_list (tr_packet (timer_fin p now rm))) (tr_pcb (timer_fin p now rm))
  | cs_read p n :
      conn_step p [] [] (fst (tcp_rx_buffer_read_locked p n))
  | cs_window_update p p' out :
      tcp_build_output_locked p TCP_FLAG_ACK [] = Some (p', out) -> conn_step p [] [out] p'.

(** Any number of actions: all bytes accepted and all packets sent. *)
Inductive conn_steps : tcp_pcb -> list Z -> list packet -> tcp_pcb -> Prop :=
  | cs_nil p : conn_steps p [] [] p
  | cs_snoc p0 s1 o1 p1 s2 o2 p2 :
      conn_steps p0 s1 o1 p1 -> conn_step p1 s2 o2 p2 ->
      conn_steps p0 (s1 ++ s2) (o1 ++ o2) p2.

(** The effect of one action on the invariant. *)
Record step_ok (p : tcp_pcb) (U fin : Z) (acc : list Z) (outs : list packet) (p' : tcp_pcb) (k fin' : Z) : Prop := {
  so_k : 0 <= k <= len (pending p) + fin;
  so_inv : conn_inv p' (U + k) fin';
  so_pending : pending p' = drop (Z.to_nat k) (pending p) ++ acc;
  so_acc : acc = [] \/ can_send p = true /\ fin = 0;
  so_outs : Forall (sound_out p U) outs;
  so_ends : endpoints p' = endpoints p;
  so_closed : can_send p = false -> can_send p' = false
}.

Lemma handler_step p U fin p' k fin' outs :
  handler_ok p U fin p' k fin' -> Forall (sound_out p U) outs -> step_ok p U fin [] outs p' k fin'.
Proof. intros [H1 H2 H3 H4 H5] HF. split; try done; [by rewrite app_nil_r|by left]. Qed.

Lemma carries_empty_sound p U pos out : carries p out pos [] -> sound_out p U out.
Proof. intros (h & -> & _). left. cbn [snd]. by rewrite len_make_packet. Qed.

Lemma wok_outs p U fin w k fin' : wok p U fin w k fin' -> Forall (sound_out p U) (inp_outs w).
Proof.
  intros [H1 H2 H3]. unfold inp_outs. apply Forall_app. split.
  - destruct (send_out w); [constructor; [by left|done]|done].
  - destruct (fast_rexmit w) as [out|] eqn:E; [constructor; [by apply H3|done]|done].
Qed.

Lemma windows_inv p p' U fin :
  tx_wf p' U fin -> windows p' = windows p -> is_u16 (snd_wnd p) -> cwnd_ok p -> conn_inv p' U fin.
Proof. unfold windows, conn_inv, cwnd_ok. by intros H [= -> -> ->]. Qed.

(** A round that sends moves bytes from one queue to the other. *)
Lemma round_sends_step p p' U out :
  conn_inv p U 0 -> round_sends p p' U out -> step_ok p U 0 [] [out] p' 0 0.
Proof.
  intros (Hw & Hs & Hc) (m & Hm & W & C & B1 & B2 & Hle & Hwin & Ewin & Ee & Hcar).
  pose proof (len_nonneg (bytes_of (unacked_of p))) as L1.
  pose proof (len_nonneg (bytes_of (unsent_of p))) as L2.
  assert (Hsl : slice (bytes_of (unsent_of p)) 0 m ++ drop (Z.to_nat m) (bytes_of (unsent_of p)) =
                bytes_of (unsent_of p)) by (unfold slice; rewrite drop_0; apply take_drop).
  assert (Hp : pending p' = pending p) by (unfold pending; by rewrite B1, B2, <- app_assoc, Hsl).
  apply handler_step.
  - split; rewrite ?Z.add_0_r; [rewrite len_pending; lia|by eapply windows_inv|by rewrite Hp|done|congruence].
  - constructor; [|done]. right. exists (len (bytes_of (unacked_of p))), m.
    rewrite len_pending. split_and!; [lia|lia|lia|].
    assert (slice (pending p) (len (bytes_of (unacked_of p))) m = slice (bytes_of (unsent_of p)) 0 m) as ->; [|done].
    unfold slice, pending, len. rewrite Nat2Z.id, drop_app_length. done.
Qed.

Lemma conn_step_ok p acc outs p' U fin :
  conn_step p acc outs p' -> conn_inv p U fin -> exists k fin', step_ok p U fin acc outs p' k fin'.
Proof.
  intros Hst H. pose proof H as (Hw & Hs & Hc). pose proof (len_nonneg (pending p)) as Lp.
  assert (Hround : forall ticks a1 a2, round_ok p U fin (drain_round ticks a1 a2 p)).
  { intros. apply round_facts; [done|apply Hs|]. destruct Hc as [Hc _]. unfold TCP_DEFAULT_MSS in Hc. lia. }
  assert (Hfin : 0 <= fin) by (destruct (tw_fin _ _ _ Hw) as [->|(-> & _)]; lia).
  assert (H0 : forall q, conn_view q = conn_view p -> forall outs, Forall (sound_out p U) outs ->
    step_ok p U fin [] outs q 0 fin) by (intros; apply handler_step; [by apply handler_view|done]).
  destruct Hst as [p data Hr Hd|ticks a1 a2 p p' n E|ticks a1 a2 p p' out n E|ticks a1 a2 p p' out E
    |ticks p p' o Hcs Hfp E|ticks p g Ha Hg|now ticks rm p p' o E|now rm p|now rm p Hst|p n|p p' out E].
  - destruct (accept_facts p U fin data Hw Hr Hd) as (W & P & F). exists 0, fin.
    assert (Hcs : can_send p = true) by (unfold refuses_data in Hr; by destruct (can_send p)).
    split; rewrite ?Z.add_0_r; try done; [lia|by right].
  - specialize (Hround ticks a1 a2). rewrite E in Hround. destruct Hround as (W & P & Ee & Ew & _ & Cs).
    exists 0, fin. apply handler_step; [|done].
    split; rewrite ?Z.add_0_r; [lia|by eapply windows_inv|by rewrite P|done|].
    congruence.
  - specialize (Hround ticks a1 a2). rewrite E in Hround. destruct Hround as (-> & R).
    exists 0, 0. by apply round_sends_step.
  - specialize (Hround ticks a1 a2). rewrite E in Hround. destruct Hround as (-> & W & P & Ee & Ew & Cy).
    exists 0, 1. apply handler_step; [|by constructor; [eapply carries_empty_sound|]].
    split; rewrite ?Z.add_0_r; [lia|by eapply windows_inv|by rewrite P|done|].
    intros _. by destruct (tw_fin _ _ _ W) as [?|(_ & _ & ?)].
  - assert (fin = 0) as -> by (destruct (tw_fin _ _ _ Hw) as [?|(_ & _ & ?)]; [done|congruence]).
    unfold finish_close in E. destruct (has_unsent p) eqn:Hu.
    { injection E as <- <-. exists 0, 0. apply handler_step; [|done].
      split; rewrite ?Z.add_0_r; [lia| |done|done|done].
      split; [|done]. destruct Hw. split; try done. intros X. change (can_send p = false) in X. congruence. }
    destruct (tcp_build_output_locked _ _ _) as [[p1 out]|] eqn:Eb; injection E as <- <-; [|by exists 0, 0; apply H0].
    destruct (fin_facts ticks p p1 U out Hw Hcs) as (W & P & Ee & Ew & Cy); [|done|done|].
    { unfold has_unsent in Hu. by destruct (unsent_of p). }
    exists 0, 1. apply handler_step; [|by constructor; [eapply carries_empty_sound|]].
    split; rewrite ?Z.add_0_r; [lia|by eapply windows_inv|by rewrite P|done|congruence].
  - destruct (wok_handle ticks p U fin g H Ha Hg) as (k & fin' & W). exists k, fin'.
    apply handler_step; [apply W|by eapply wok_outs].
  - destruct (timer_data_ok p U fin now ticks rm p' o H E) as [O F]. exists 0, fin. by apply handler_step.
  - destruct (timer_persist_ok p U fin now rm H) as [O F]. exists 0, fin. by apply handler_step.
  - assert (Hcs : can_send p = false) by (unfold can_send; by destruct Hst as [-> | ->]).
    destruct (timer_fin_ok p U fin now rm H Hcs) as [O F]. exists 0, fin. by apply handler_step.
  - exists 0, fin. apply H0; [|done]. unfold tcp_rx_buffer_read_locked.
    repeat (case_match; try done); cbn [fst]; solve_conn.
  - apply build_ack_facts in E as (V & L & _); [|by eapply tx_wf_nxt_u32].
    exists 0, fin. apply H0; [done|]. by constructor; [left|].
Qed.

(** Where a packet comes from, in terms of the whole stream. *)
Definition stream_out (p0 : tcp_pcb) (U0 : Z) (stream : list Z) (out : packet) : Prop :=
  len (snd out) <= 20 \/
  exists pos n, 0 <= pos /\ 0 < n /\ pos + n <= len stream /\
    carries p0 out (U0 + pos) (slice stream pos n).

Lemma slice_app_l {l1 l2 : list Z} pos n :
  0 <= pos -> 0 <= n -> pos + n <= len l1 -> slice (l1 ++ l2) pos n = slice l1 pos n.
Proof.
  intros. unfold slice, len in *. rewrite drop_app_le by lia. apply take_app_le. rewrite length_drop. lia.
Qed.
Lemma slice_drop l a pos n :
  0 <= a -> 0 <= pos -> slice (drop (Z.to_nat a) l) pos n = slice l (a + pos) n.
Proof. intros. unfold slice. rewrite drop_drop. f_equal. f_equal. lia. Qed.

Lemma stream_out_app p0 U0 s1 s2 out : stream_out p0 U0 s1 out -> stream_out p0 U0 (s1 ++ s2) out.
Proof.
  intros [H|(pos & n & H1 & H2 & H3 & H4)]; [by left|right]. exists pos, n.
  rewrite len_app. pose proof (len_nonneg s2). split_and!; [done|done|lia|]. by rewrite slice_app_l by lia.
Qed.

Lemma sound_stream_out p0 p U0 acked stream out :
  0 <= acked -> endpoints p = endpoints p0 -> pending p = drop (Z.to_nat acked) stream ->
  sound_out p (U0 + acked) out -> stream_out p0 U0 stream out.
Proof.
  intros Ha Ee Hp [H|(pos & n & H1 & H2 & H3 & H4)]; [by left|right]. exists (acked + pos), n.
  rewrite Hp in H3, H4. rewrite slice_drop in H4 by lia.
  assert (len (drop (Z.to_nat acked) stream) = Z.max 0 (len stream - acked)).
  { unfold len. rewrite length_drop. lia. }
  split_and!; [lia|done|lia|]. rewrite Z.add_assoc. apply (carries_endpoints p); [by rewrite Ee|done].
Qed.

Lemma conn_steps_ok p0 U0 stream outs p :
  conn_steps p0 stream outs p -> conn_inv p0 U0 0 -> pending p0 = [] ->
  (exists acked fin, 0 <= acked /\ conn_inv p (U0 + acked) fin /\
     pending p = drop (Z.to_nat acked) stream /\
     (acked <= len stream \/ can_send p = false)) /\
  endpoints p = endpoints p0 /\ Forall (stream_out p0 U0 stream) outs.
Proof.
  intros Hs. induction Hs as [p|p0 s1 o1 p1 s2 o2 p2 Hs IH Hst]; intros Hi Hp.
  { split_and!; [|done|done]. exists 0, 0. rewrite Z.add_0_r. split_and!; [done|done|by rewrite Hp|left; done]. }
  destruct (IH Hi Hp) as ((acked & fin & Ha & Hi1 & Hp1 & Hb) & Ee & HF).
  destruct (conn_step_ok _ _ _ _ _ _ Hst Hi1) as (k & fin' & [S1 S2 S3 S4 S5 S6 S7]).
  pose proof (len_nonneg s1). pose proof (len_nonneg s2).
  assert (Hlen : len (pending p1) = Z.max 0 (len s1 - acked)).
  { rewrite Hp1. unfold len. rewrite length_drop. lia. }
  assert (Hfin : fin = 0 \/ fin = 1 /\ can_send p1 = false).
  { destruct Hi1 as (W & _). destruct (tw_fin _ _ _ W) as [?|(? & _ & ?)]; auto. }
  split_and!.
  - exists (acked + k), fin'. rewrite Z.add_assoc, len_app. split_and!; [lia|done| |].
    + rewrite S3, Hp1, drop_drop. replace (Z.to_nat (acked + k)) with (Z.to_nat acked + Z.to_nat k)%nat by lia.
      destruct S4 as [->|[Hcs ->]]; [by rewrite !app_nil_r|].
      destruct Hb as [Hb|]; [|congruence]. rewrite drop_app_le; [done|]. unfold len in *. lia.
    + destruct Hb as [Hb|Hcl]; [|right; by apply S7].
      destruct Hfin as [->|[-> Hcl]]; [left; lia|right; by apply S7].
  - congruence.
  - apply Forall_app. split.
    + eapply Forall_impl; [exact HF|]. intros out. apply stream_out_app.
    + eapply Forall_impl; [exact S5|]. intros out Ho.
      apply stream_out_app, (sound_stream_out p0 p1 U0 acked); done.
Qed.

(** C1: The sender transmits the application's stream faithfully.  Take a
    connection with nothing queued, at stream position [U0], and any
    interleaving of accepted data, drain rounds, received segments (also bogus
    ones), retransmission, probe and FIN timers, reads and close.  Then every
    packet with payload, first transmission or retransmission, carries exactly
    the stream's bytes at the position of its sequence number; what is queued
    is the stream from the acknowledged position on, never more than 8192
    bytes; and the congestion window stays between one segment and 65535. *)
Theorem tcp_sender_stream p0 U0 stream outs p :
  conn_inv p0 U0 0 -> pending p0 = [] -> conn_steps p0 stream outs p ->
  Forall (fun out => len (snd out) <= 20 \/
    exists pos n, 0 <= pos /\ 0 < n /\ pos + n <= len stream /\
      carries p0 out (U0 + pos) (slice stream pos n)) outs /\
  (exists acked, 0 <= acked /\ snd_una p = u32 (U0 + acked) /\
     pending p = drop (Z.to_nat acked) stream /\ len (pending p) <= 8192) /\
  1460 <= cwnd p <= 65535.
Proof.
  intros Hi Hp Hs. destruct (conn_steps_ok _ U0 _ _ _ Hs Hi Hp) as ((acked & fin & Ha & Hi1 & Hp1 & _) & _ & HF).
  destruct Hi1 as (W & _ & [Hc _]). split_and!; try done; [|by apply Hc..].
  exists acked. split_and!; [done|apply W|done|]. rewrite len_pending. pose proof (tw_cap _ _ _ W). lia.
Qed.
