(* ===== verification/TcpRecv.v ===== *)
(** The receiving side of a TCP connection: whatever order, loss and duplication
    the network imposes on the segments of an honest peer, the application reads
    a prefix of the peer's stream.  The proofs are about the input handlers of
    [src/src/kernel/tcp.c]. *)

From S2P Require Import Prelude TcpWire Tcp TcpRx TcpTx TcpConn.

(** What reception consists of. *)
Definition rx_view (p : tcp_pcb) : tcp_rx_buffer * Z * bool :=
  (rx_buf p, rcv_nxt p, pcb_has p TCP_PCB_FLAG_SHUT_RD).

Lemma rx_view_intro p p' :
  rx_buf p' = rx_buf p -> rcv_nxt p' = rcv_nxt p ->
  pcb_has p' TCP_PCB_FLAG_SHUT_RD = pcb_has p TCP_PCB_FLAG_SHUT_RD -> rx_view p' = rx_view p.
Proof. unfold rx_view. by intros -> -> ->. Qed.
Ltac solve_rx := apply rx_view_intro; try reflexivity; flag_simpl; reflexivity.

Section Frames.
Implicit Types (p : tcp_pcb) (w : inp) (g : rx_segment).

Lemma grow_rx p n : rx_view (grow_cwnd p n) = rx_view p.
Proof. unfold grow_cwnd, clamp_cwnd. repeat case_match; done. Qed.

Lemma ack_rx ticks p ack exit : rx_view (tcp_tx_ack_received_locked_ext ticks p ack exit) = rx_view p.
Proof.
  unfold tcp_tx_ack_received_locked_ext. do 3 (case_match; [done|]). cbn zeta.
  set (p1 := if exit then _ else _).
  assert (V : rx_view p1 = rx_view p) by (subst p1; destruct exit; [done|by rewrite grow_rx]).
  clearbody p1. rewrite <- V. case_match; solve_rx.
Qed.

Lemma reply_rx w fl : rx_view (i_pcb (reply w fl)) = rx_view (i_pcb w).
Proof.
  unfold reply. case_match; [|done]. case_match. subst. cbn.
  match goal with H : _ = Some _ |- _ => unfold tcp_build_output_locked in H end.
  case_match; [done|]. simplify_eq. repeat case_match; done.
Qed.

Lemma recovery_rx ticks w : rx_view (i_pcb (enter_recovery ticks w)) = rx_view (i_pcb w).
Proof.
  unfold enter_recovery, tcp_retransmit_segment_locked, clamp_cwnd. cbn zeta.
  repeat case_match; simplify_eq; solve_rx.
Qed.

Lemma duplicate_rx ticks w : rx_view (i_pcb (duplicate_ack ticks w)) = rx_view (i_pcb w).
Proof.
  unfold duplicate_ack. cbn zeta. case_match; [case_match; [by rewrite recovery_rx|done]|].
  unfold clamp_cwnd. repeat case_match; done.
Qed.

Lemma window_rx w g before : rx_view (i_pcb (window_update w g before)) = rx_view (i_pcb w).
Proof. unfold window_update. case_match; [|done]. cbn zeta. repeat case_match; try done; solve_rx. Qed.

Lemma established_ack_rx ticks w g : rx_view (i_pcb (established_ack ticks w g)) = rx_view (i_pcb w).
Proof.
  unfold established_ack. cbn zeta. rewrite window_rx. case_match; [apply reply_rx|].
  case_match; [|case_match; [apply duplicate_rx|done]].
  unfold new_ack. cbn. case_match; rewrite ack_rx; [solve_rx|done].
Qed.
End Frames.

(** * One segment of an honest peer *)

Section Peer.
(** The peer's stream, and the number of its first byte. *)
Variable stream : list Z.
Variable R0 : Z.
Hypothesis stream_short : len stream < 2147483647.

(** [g] carries the stream from position [S], and the FIN only at its end. *)
Definition from_peer (g : rx_segment) (S : Z) : Prop :=
  sg_seq g = u32 (R0 + S) /\ 0 <= S /\ S + sg_len g <= len stream /\
  sg_payload g = slice stream S (sg_len g) /\
  (sg_has g TCP_FLAG_FIN = true -> S + sg_len g = len stream).

(** [N] numbers are received: bytes, and the FIN at the end. *)
Definition received (p : tcp_pcb) (N : Z) : Prop :=
  rcv_nxt p = u32 (R0 + N) /\ 0 <= N <= len stream + 1 /\
  pcb_has p TCP_PCB_FLAG_SHUT_RD = false /\ exists d, rx_wf (rx_buf p) d.

Lemma received_view p p' N : rx_view p' = rx_view p -> received p N -> received p' N.
Proof. unfold rx_view, received. by intros [= -> -> ->]. Qed.

(** The bytes between two positions. *)
Definition between (N N' : Z) : list Z := slice stream N (Z.min N' (len stream) - N).

(** From [p] at [N] to [p'] at [N'], with the bytes in between in the ring. *)
Definition advances (p : tcp_pcb) (N : Z) (p' : tcp_pcb) (N' : Z) : Prop :=
  N <= N' /\ received p' N' /\
  rx_contents (rx_buf p') = rx_contents (rx_buf p) ++ between N N'.

Lemma between_nil N : 0 <= N -> between N N = [].
Proof.
  intros. unfold between, slice. replace (Z.to_nat (Z.min N (len stream) - N)) with 0%nat by lia. done.
Qed.

Lemma advances_view p N p' : received p N -> rx_view p' = rx_view p -> advances p N p' N.
Proof.
  intros H V. split_and!; [done|by eapply received_view|]. injection V as -> _ _.
  destruct H as (_ & ? & _). by rewrite between_nil, app_nil_r by lia.
Qed.
Lemma advances_then p N p1 p2 N' : advances p N p1 N' -> rx_view p2 = rx_view p1 -> advances p N p2 N'.
Proof.
  intros (H1 & H2 & H3) V. split_and!; [done|by eapply received_view|]. by injection V as -> _ _.
Qed.

Lemma seq_eq x y : Z.abs (x - y) < 4294967296 -> TCP_SEQ_EQ (u32 x) (u32 y) = (x =? y).
Proof. intros. unfold TCP_SEQ_EQ. apply eq_true_iff_eq. rewrite !Z.eqb_eq. ulia. Qed.

Lemma store_advances p N g S :
  received p N -> from_peer g S -> TCP_SEQ_EQ (sg_seq g) (rcv_nxt p) = true ->
  exists N', advances p N (store_payload p (sg_payload g)) N' /\ N' <= S + sg_len g.
Proof.
  intros Hr Hf Heq. pose proof Hr as (Hnx & HN & Hsh & d & Hw). pose proof Hf as (Hs & HS & Hle & Hp & _).
  unfold sg_len in *. set (pay := sg_payload g) in *. pose proof (len_nonneg pay).
  rewrite Hs, Hnx, seq_eq in Heq by lia. apply Z.eqb_eq in Heq. assert (S = N) as -> by lia.
  unfold store_payload. rewrite Hsh. cbn zeta. rewrite (rx_free p d Hw).
  pose proof Hw as [Hd Hl Hc Hh Hu Ht].
  set (space := rx_capacity (rx_buf p) - rx_used (rx_buf p)).
  set (n := if len pay <? space then len pay else space).
  assert (Hn : 0 <= n <= len pay /\ n <= space) by (subst n space; bcase; lia).
  destruct (Z.ltb_spec 0 n); [|exists N; split; [by apply advances_view|lia]].
  assert (Lsl : len (slice pay 0 n) = n) by (apply len_slice; lia).
  destruct (rx_write_facts p d (slice pay 0 n) Hw) as (b & d' & -> & Hw' & Hcap & Hused & Hct).
  rewrite Lsl in *. replace (Z.min n _) with n in * by (subst space; lia).
  exists (N + n). split; [|lia]. split_and!; [lia| |].
  - split_and!; cbn; [|lia|lia|done|by exists d'].
    rewrite Hnx, (u32_id n) by ulia. ulia.
  - cbn. rewrite Hct, slice_slice0 by lia. f_equal. unfold between.
    replace (Z.min (N + n) (len stream) - N) with n by lia. rewrite Hp.
    rewrite <- slice_head; [done|lia].
Qed.

(** The peer's FIN, when it is next. *)
Lemma fin_advances p N p1 N1 g S :
  advances p N p1 N1 -> from_peer g S -> fin_in_order p1 g = true ->
  advances p N (take_fin p1) (N1 + 1).
Proof.
  intros (H1 & (Hnx & HN & Hsh & d & Hw) & H3) (Hs & HS & Hle & Hp & Hfin) Hf.
  unfold fin_in_order in Hf. apply andb_prop in Hf as [Hfl Heq]. specialize (Hfin Hfl).
  unfold sg_len in *. pose proof (len_nonneg (sg_payload g)).
  assert (E : u32 (sg_seq g + u32 (len (sg_payload g))) = u32 (R0 + (S + len (sg_payload g)))) by (rewrite Hs; ulia).
  rewrite E, Hnx, seq_eq in Heq by lia. apply Z.eqb_eq in Heq. assert (N1 = len stream) as -> by lia.
  split_and!; [lia| |].
  - split_and!; cbn; [rewrite Hnx; ulia|lia|lia| |by exists d]. flag_simpl. done.
  - cbn. rewrite H3. f_equal. unfold between. f_equal. lia.
Qed.

Lemma fin_order_view p p' g : rcv_nxt p' = rcv_nxt p -> fin_in_order p' g = fin_in_order p g.
Proof. unfold fin_in_order. by intros ->. Qed.
Lemma rx_view_nxt p p' : rx_view p' = rx_view p -> rcv_nxt p' = rcv_nxt p.
Proof. by intros [= _ -> _]. Qed.

Lemma closing_advances p N w g S :
  received p N -> rx_view (i_pcb w) = rx_view p -> from_peer g S ->
  exists N', advances p N (i_pcb (closing_payload w g)) N'.
Proof.
  intros Hr V Hf. unfold closing_payload.
  destruct (negb (sg_len g =? 0) && TCP_SEQ_EQ (sg_seq g) (rcv_nxt (i_pcb w))) eqn:E;
    [|exists N; by apply advances_view].
  apply andb_prop in E as [_ E].
  destruct (store_advances (i_pcb w) N g S) as (N' & A & _); [by eapply received_view|done|done|].
  exists N'. apply (advances_then p N (store_payload (i_pcb w) (sg_payload g))); [|by rewrite reply_rx].
  destruct A as (A1 & A2 & A3). split_and!; [done|done|]. rewrite A3. by injection V as -> _ _.
Qed.

(** What the handler of each state does on the receiving side. *)
Lemma established_advances ticks p N g S :
  received p N -> from_peer g S -> exists N', advances p N (i_pcb (input_established ticks (start_input p) g)) N'.
Proof.
  intros Hr Hf. unfold input_established. cbn zeta.
  set (w1 := if sg_has g TCP_FLAG_ACK then _ else _).
  assert (V1 : rx_view (i_pcb w1) = rx_view p) by (subst w1; case_match; [by rewrite established_ack_rx|done]).
  clearbody w1. set (w2 := if is_probe _ _ then _ else _).
  assert (V2 : rx_view (i_pcb w2) = rx_view p) by (subst w2; case_match; [by rewrite reply_rx|done]).
  clearbody w2.
  assert (exists N', advances p N (i_pcb (established_payload w2 g)) N') as (N' & A).
  { unfold established_payload. case_match; [exists N; by apply advances_view|]. case_match.
    - destruct (store_advances (i_pcb w2) N g S) as (N' & A & _); [by eapply received_view|done|done|].
      exists N'. apply (advances_then p N (store_payload (i_pcb w2) (sg_payload g))).
      + destruct A as (A1 & A2 & A3). split_and!; [done|done|]. rewrite A3. by injection V2 as -> _ _.
      + by rewrite reply_rx.
    - exists N. apply advances_view; [done|]. by rewrite reply_rx. }
  set (w3 := established_payload w2 g) in *. clearbody w3.
  destruct (fin_in_order (i_pcb w3) g) eqn:E; [|by exists N'].
  exists (N' + 1). eapply advances_then; [by eapply fin_advances|]. by rewrite reply_rx.
Qed.

Lemma fin_wait1_advances ticks p N g S :
  received p N -> from_peer g S -> exists N', advances p N (i_pcb (input_fin_wait1 ticks (start_input p) g)) N'.
Proof.
  intros Hr Hf. unfold input_fin_wait1. cbn zeta. change (i_pcb (start_input p)) with p.
  set (p1 := if sg_has g TCP_FLAG_ACK then _ else _).
  assert (V1 : rx_view p1 = rx_view p) by (subst p1; case_match; [apply ack_rx|done]). clearbody p1.
  set (acked := sg_has g TCP_FLAG_ACK && _). clearbody acked.
  destruct (closing_advances p N (start_input p <| i_pcb := if acked then clear_rto p1 else p1 |>) g S)
    as (N' & A); [done| |done|].
  { cbn. destruct acked; [|done]. rewrite <- V1. solve_rx. }
  set (w1 := closing_payload _ _) in *. clearbody w1.
  set (w2 := if pcb_has (i_pcb w1) _ && _ then _ else _).
  assert (exists N2, advances p N (i_pcb w2) N2) as (N2 & A2).
  { subst w2. case_match; [exists N'; eapply advances_then; [done|by rewrite reply_rx]|].
    destruct (fin_in_order (i_pcb w1) g) eqn:E; [|by exists N'].
    exists (N' + 1). eapply advances_then; [by eapply fin_advances|]. by rewrite reply_rx. }
  clearbody w2. exists N2. destruct acked; [|done]. eapply advances_then; [done|]. cbn.
  case_match; done.
Qed.

Lemma handle_advances ticks p N g S :
  received p N -> from_peer g S -> exists N', advances p N (i_pcb (handle ticks p g)) N'.
Proof.
  intros Hr Hf. assert (H0 : forall w, rx_view (i_pcb w) = rx_view p -> exists N', advances p N (i_pcb w) N')
    by (intros; exists N; by apply advances_view).
  unfold handle. cbn zeta. destruct (state p); try (by apply H0).
  - by eapply established_advances.
  - by eapply fin_wait1_advances.
  - unfold input_fin_wait2. cbn zeta. destruct (closing_advances p N (start_input p) g S) as (N' & A); try done.
    set (w1 := closing_payload _ _) in *. clearbody w1.
    destruct (fin_in_order (i_pcb w1) g) eqn:E; [|by exists N'].
    exists (N' + 1). eapply advances_then; [by eapply fin_advances|]. by rewrite reply_rx.
  - unfold input_close_wait. apply H0. case_match; [apply reply_rx|done].
  - unfold input_time_wait. apply H0. case_match; [|done]. cbn.
    transitivity (rx_view (i_pcb (reply (start_input p) TCP_FLAG_ACK))); [done|by rewrite reply_rx].
Qed.

(** * The whole connection *)

(** Segments of the peer in any order and number, reads of the application, and
    any other work on the block that leaves the receiving side alone; the list
    is what the application has read. *)
Inductive rx_steps : tcp_pcb -> list Z -> tcp_pcb -> Prop :=
  | rxs_nil p : rx_steps p [] p
  | rxs_segment p0 out p ticks g S :
      rx_steps p0 out p -> from_peer g S -> rx_steps p0 out (i_pcb (handle ticks p g))
  | rxs_read p0 out p n :
      rx_steps p0 out p -> 0 <= n ->
      rx_steps p0 (out ++ snd (tcp_rx_buffer_read_locked p n)) (fst (tcp_rx_buffer_read_locked p n))
  | rxs_other p0 out p p' :
      rx_steps p0 out p -> rx_view p' = rx_view p -> rx_steps p0 out p'.

Lemma between_app N N1 N2 : 0 <= N -> N <= N1 -> N1 <= N2 -> between N N1 ++ between N1 N2 = between N N2.
Proof.
  intros. unfold between. destruct (Z_le_gt_dec (len stream) N1).
  - replace (Z.min N2 (len stream) - N) with (Z.min N1 (len stream) - N) by lia.
    unfold slice at 2. replace (Z.to_nat (Z.min N2 (len stream) - N1)) with 0%nat by lia. apply app_nil_r.
  - replace (Z.min N1 (len stream)) with N1 by lia. unfold slice.
    replace (Z.to_nat (Z.min N2 (len stream) - N)) with
      (Z.to_nat (N1 - N) + Z.to_nat (Z.min N2 (len stream) - N1))%nat by lia.
    rewrite <- take_take_drop, drop_drop.
    replace (Z.to_nat N + Z.to_nat (N1 - N))%nat with (Z.to_nat N1) by lia. done.
Qed.

(** C2: The application reads the peer's stream in order.  Start with an empty
    receive buffer at the beginning of the stream.  However the network reorders,
    repeats or drops the peer's segments, and whatever else is done to the
    connection, the bytes read so far followed by those in the receive ring are
    the first [N] bytes of the stream, where [rcv_nxt], the number every
    acknowledgement carries, stands for position [N] (one more after the FIN).  The
    stream is shorter than half the number space, and the reading side is not shut
    down. *)
Theorem tcp_receiver_in_order p0 out p :
  received p0 0 -> rx_contents (rx_buf p0) = [] -> rx_steps p0 out p ->
  exists N, received p N /\ out ++ rx_contents (rx_buf p) = slice stream 0 (Z.min N (len stream)).
Proof.
  intros Hr Hc Hs. revert Hr Hc.
  induction Hs as [p|p0 out p ticks g S Hs IH Hf|p0 out p n Hs IH Hn|p0 out p p' Hs IH V]; intros Hr Hc.
  - exists 0. rewrite Hc. split; [done|]. unfold slice. pose proof (len_nonneg stream).
    by replace (Z.to_nat (Z.min 0 (len stream))) with 0%nat by lia.
  - destruct (IH Hr Hc) as (N & HN & E). destruct (handle_advances ticks p N g S HN Hf) as (N' & A1 & A2 & A3).
    exists N'. split; [done|]. rewrite A3, app_assoc, E. destruct HN as (_ & HN & _).
    rewrite <- (Z.sub_0_r (Z.min N (len stream))), <- (Z.sub_0_r (Z.min N' (len stream))).
    apply between_app; lia.
  - destruct (IH Hr Hc) as (N & (Hnx & HN & Hsh & d & Hw) & E).
    destruct (rx_read_facts p d n Hw Hn) as (b & o & -> & Hw' & _ & _ & _ & Ec). cbn [fst snd].
    exists N. split; [split_and!; try done; [lia|lia|by exists d]|]. cbn. by rewrite <- app_assoc, <- Ec.
  - destruct (IH Hr Hc) as (N & HN & E). exists N. split; [by eapply received_view|]. by injection V as -> _ _.
Qed.
End Peer.
