(* ===== verification/TcpDrain.v ===== *)
(** [tcp_drain_unsent] of [src/src/kernel/tcp.c]: the loop ends within the fuel the
    model gives it, whatever the network does meanwhile to the block as long as it
    queues no data, and says why it ended. *)

From S2P Require Import Prelude TcpWire Tcp TcpRx TcpTx TcpConn TcpStream.

Lemma get_put s a p : get (put s a p) a = p.
Proof. unfold get, put. cbn. by rewrite lookup_insert_eq. Qed.

(** Nothing is left to send, or the connection, the peer or the congestion
    window does not allow more. *)
Definition drained (p : tcp_pcb) : Prop :=
  bytes_of (unsent_of p) = [] \/ can_send p = false \/ pcb_has p TCP_PCB_FLAG_RESET = true \/
  remaining_window p = 0.

Definition charged (s : tcp) (k : nat) : tcp := s <| kmallocs := k |>.
Lemma charged_get s k a : get (charged s k) a = get s a.
Proof. done. Qed.

Lemma stop_drained ticks p p' n :
  drain_round ticks true true p = DrainStop p' n -> drained p'.
Proof.
  unfold drain_round. destruct (q_entries (unsent (tx_buf p))) as [|g rest] eqn:E.
  { assert (H0 : bytes_of (q_entries (unsent (tx_buf p))) = []) by (by rewrite E).
    intros H. left. destruct (pcb_has p TCP_PCB_FLAG_FIN_PENDING); [|by injection H as <- _].
    destruct (tcp_build_output_locked _ _ _) as [[? ?]|]; [done|]. by injection H as <- _. }
  destruct (negb (can_send p) || pcb_has p TCP_PCB_FLAG_RESET) eqn:Hc.
  { intros [= <- _]. right. apply orb_prop in Hc as [Hc|Hc]; [left|right; left].
    - by apply negb_true_iff in Hc.
    - revert Hc. flag_simpl. done. }
  destruct (Z.eqb_spec (remaining_window p) 0) as [Hr|Hr].
  { intros [= <- _]. right. right. right. case_match; exact Hr. }
  cbn zeta. case_match.
  - by destruct (emit_segment _ _ _ _).
  - unfold tcp_queue_take_head_locked. rewrite E. by destruct (emit_segment _ _ _ _).
Qed.

Section Drain.
Context `{TcpEnv} (a : Z).
Implicit Types s : tcp.

Definition backlog_bytes s : Z := len (bytes_of (unsent_of (get s a))).
Definition live s : Prop := exists U fin, conn_inv (get s a) U fin.

(** Sending a packet may run other code on the block, such as the input of
    segments that arrived, but leaves it a well-formed connection and queues no
    data on it. *)
Hypothesis net_keeps : forall s out,
  live s -> live (fst (net_send_ipv4 s out)) /\ backlog_bytes (fst (net_send_ipv4 s out)) <= backlog_bytes s.

Definition logged s out : tcp := s <| sent := sent s ++ [out] |>.

Lemma send_keeps s out : live s -> live (send s out) /\ backlog_bytes (send s out) <= backlog_bytes s.
Proof. intros Hl. exact (net_keeps (logged s out) out Hl). Qed.

Lemma drain_loop_ends fuel s :
  live s -> backlog_bytes s < Z.of_nat fuel ->
  exists s', drain_loop fuel s a = Some s' /\ live s' /\ backlog_bytes s' <= backlog_bytes s /\
    ((forall n, kmalloc_ok n = true) -> drained (get s' a)).
Proof.
  revert s. induction fuel as [|fuel IH]; intros s Hl Hb.
  { pose proof (len_nonneg (bytes_of (unsent_of (get s a)))). unfold backlog_bytes in Hb. lia. }
  cbn [drain_loop]. destruct Hl as (U & fin & Hi). pose proof Hi as (Hw & Hs & Hc).
  assert (Hcw : 0 <= cwnd (get s a)) by (destruct Hc as [Hc _]; unfold TCP_DEFAULT_MSS in Hc; lia).
  pose proof (round_facts (kernel_ticks s) (kmalloc_ok (kmallocs s)) (kmalloc_ok (S (kmallocs s)))
    (get s a) U fin Hw (proj1 Hs) Hcw) as R.
  destruct (drain_round _ _ _ _) as [p n|p out n|p out] eqn:E; cbn [round_ok] in R.
  - destruct R as (W & P & Ee & Ew & Eu & Cs). exists (charged (put s a p) (kmallocs s + n)). split; [done|].
    unfold live, backlog_bytes. rewrite charged_get, get_put, Eu. split_and!; [|lia|].
    + exists U, fin. by eapply windows_inv.
    + intros Hk. rewrite !Hk in E. by eapply stop_drained.
  - destruct R as (-> & m & Hm & W & C & B1 & B2 & Hle & Hwin & Ewin & Ee & Hcar).
    set (s1 := charged (put s a p) (kmallocs s + n)).
    assert (G1 : get s1 a = p) by exact (get_put s a p).
    destruct (send_keeps s1 out) as [Hl2 Hb2].
    { exists U, 0. rewrite G1. by eapply windows_inv. }
    assert (Hb1 : backlog_bytes s1 = backlog_bytes s - m).
    { unfold backlog_bytes in *. rewrite G1, B2. unfold len in *. rewrite length_drop. lia. }
    destruct (IH (send s1 out) Hl2) as (s' & Es & Hl' & Hb' & Hd); [lia|].
    exists s'. split_and!; [exact Es|done|lia|done].
  - destruct R as (-> & W & P & Ee & Ew & Cy).
    destruct (send_keeps (put s a p) out) as [Hl2 Hb2].
    { exists U, 1. rewrite get_put. by eapply windows_inv. }
    destruct (tw_fin _ _ _ W) as [?|(_ & Eu & _)]; [done|].
    assert (Hb1 : backlog_bytes (put s a p) = 0) by (unfold backlog_bytes; by rewrite get_put, Eu).
    exists (send (put s a p) out). pose proof (len_nonneg (bytes_of (unsent_of (get s a)))).
    split_and!; [done|done|unfold backlog_bytes in *; lia|]. intros _. left.
    rewrite Hb1 in Hb2. unfold backlog_bytes, len in Hb2. apply nil_length_inv. lia.
Qed.

(** C24: [tcp_drain_unsent] returns.  On a connection whose queues are well formed,
    and with a network that queues no data behind its back, the loop ends within
    the rounds the queue length allows; the connection is still well formed; and
    unless another drain was already running or an allocation failed, what is
    left unsent is left because the connection cannot send or the smaller of the
    peer's and the congestion window is full.  A reset that arrives while the loop
    sends is not among what the network may do ([net_keeps]). *)
Theorem tcp_drain_terminates s U fin :
  conn_inv (get s a) U fin ->
  exists s', tcp_drain_unsent s a = Some s' /\ live s' /\ backlog_bytes s' <= backlog_bytes s /\
    (pcb_has (get s a) TCP_PCB_FLAG_DRAINING = false -> (forall n, kmalloc_ok n = true) ->
     drained (get s' a)).
Proof.
  intros Hi. pose proof Hi as (Hw & _). unfold tcp_drain_unsent, tcp_drain_unsent_fuel.
  destruct (pcb_has (get s a) TCP_PCB_FLAG_DRAINING).
  { exists s. split_and!; [done|by exists U, fin|lia|done]. }
  set (p := set_flags (get s a) TCP_PCB_FLAG_DRAINING).
  assert (V : conn_view p = conn_view (get s a)) by (subst p; solve_conn).
  destruct (drain_loop_ends (drain_fuel (get s a)) (put s a p)) as (s' & -> & Hl & Hb & Hd).
  - exists U, fin. rewrite get_put. by eapply conn_view_inv.
  - unfold backlog_bytes. rewrite get_put. change (unsent_of p) with (unsent_of (get s a)).
    pose proof (qw_bytes _ (tw_unsent _ _ _ Hw)) as Hq. unfold drain_fuel, unsent_of in *. lia.
  - exists s'. split_and!; [done|done| |done].
    unfold backlog_bytes in *. by rewrite get_put in Hb.
Qed.
End Drain.
