(* ===== verification/TcpOpen.v ===== *)
(** Opening a connection in [src/src/kernel/tcp.c]: a SYN for a listener and the
    acknowledgement that follows give an established block in the accept queue, in
    the state from which the stream theorems of [TcpStream] and [TcpRecv] start. *)

From S2P Require Import Prelude TcpWire Tcp TcpRx TcpTx TcpConn TcpStream TcpRecv TcpDrain.

Arguments replicate : simpl never.

Lemma get_put_ne s a b p : a <> b -> get (put s a p) b = get s b.
Proof. intros. unfold get, put. cbn. by rewrite lookup_insert_ne. Qed.

(** The other fields of the system do not matter for a block. *)
Lemma get_next s n a : get (s <| next_addr := n |>) a = get s a.
Proof. done. Qed.
Lemma get_list s l a : get (s <| tcp_pcbs := l |>) a = get s a.
Proof. done. Qed.
Lemma get_sent s l a : get (s <| sent := l |>) a = get s a.
Proof. done. Qed.
Lemma get_notify s k a : get (tcp_socket_notify s k) a = get s a.
Proof. unfold tcp_socket_notify. by case_match. Qed.
Lemma get_kmallocs s n a : get (s <| kmallocs := n |>) a = get s a.
Proof. done. Qed.

(** * The block of the child *)

(** What the segments of the handshake leave alone. *)
Definition untouched (p : tcp_pcb) : Prop :=
  rx_buf p = fresh_rx /\ tx_buf p = mk_tx empty_queue empty_queue TCP_TX_BUFFER_CAPACITY /\
  cwnd p = TCP_INITIAL_CWND TCP_DEFAULT_MSS /\ ssthresh p = TCP_INITIAL_SSTHRESH.

Lemma fresh_untouched : untouched (tcp_timers_reset fresh_pcb).
Proof. done. Qed.

Lemma build_untouched p fl p' out :
  tcp_build_output_locked p fl [] = Some (p', out) -> untouched p -> untouched p'.
Proof.
  unfold tcp_build_output_locked. destruct (_ || _); [done|]. cbn zeta. intros [= <- _] H.
  repeat case_match; exact H.
Qed.

(** The block of a completed open satisfies both invariants, with no data on
    either side. *)
Lemma opened_inv p ticks g R0 stream :
  untouched p -> flags p = Z.lor (Z.lor TCP_PCB_FLAG_BOUND TCP_PCB_FLAG_PASSIVE) TCP_PCB_FLAG_TIMER_RTO ->
  rcv_nxt p = u32 R0 -> is_u32 (sg_ack g) -> is_u16 (sg_window g) ->
  let p' := passive_establish ticks p g in
  conn_inv p' (sg_ack g) 0 /\ pending p' = [] /\ received stream R0 p' 0 /\ rx_contents (rx_buf p') = [].
Proof.
  intros (Hr & Ht & Hc & Hs) Hf Hn Ha Hw p'.
  assert (Et : tx_buf p' = tx_buf p) by done. assert (Er : rx_buf p' = rx_buf p) by done.
  assert (En : rcv_nxt p' = rcv_nxt p) by done. assert (Ec : cwnd p' = cwnd p) by done.
  assert (Es : ssthresh p' = ssthresh p) by done. assert (Ew : snd_wnd p' = sg_window g) by done.
  assert (Ef : flags p' = set_flag (clr_flag (flags p) (Z.lor (Z.lor (Z.lor (Z.lor TCP_PCB_FLAG_TIMER_RTO
    TCP_PCB_FLAG_TIMER_KEEP) TCP_PCB_FLAG_TIMER_DACK) TCP_PCB_FLAG_TIMER_PERSIST) TCP_PCB_FLAG_DRAINING))
    (Z.lor TCP_PCB_FLAG_TIMER_KEEP TCP_PCB_FLAG_ACTIVE)) by done.
  assert (Ea : snd_una p' = sg_ack g) by done. assert (Ex : snd_nxt p' = sg_ack g) by done.
  assert (Ec2 : can_send p' = true) by done. clearbody p'. rewrite Hf in Ef.
  split_and!.
  - split; [|rewrite Ew; split; [done|]].
    + split; rewrite ?Et, ?Ht; cbn; try done; [by rewrite Ea, u32_id|by rewrite Ex, !Z.add_0_r, u32_id|by left|congruence].
    + unfold cwnd_ok. rewrite Ec, Es, Hc, Hs. by vm_compute.
  - unfold pending. by rewrite Et, Ht.
  - split; [by rewrite En, Hn, Z.add_0_r|]. pose proof (len_nonneg stream). split; [lia|].
    split; [unfold pcb_has; rewrite Ef; by vm_compute|]. rewrite Er, Hr. eexists. apply fresh_rx_wf.
  - by rewrite Er, Hr.
Qed.

(** A block after the SYN of its peer, with our number [n] and the ports [e]. *)
Record half_open (p : tcp_pcb) (l seq n : Z) (e : Z * Z * Z * Z) : Prop := {
  hf_state : state p = TCP_SYN_RECEIVED;
  hf_parent : parent p = Some l;
  hf_socket : socket p = 0;
  hf_buffers : untouched p;
  hf_flags : flags p = Z.lor (Z.lor TCP_PCB_FLAG_BOUND TCP_PCB_FLAG_PASSIVE) TCP_PCB_FLAG_TIMER_RTO;
  hf_iss : iss p = n;
  hf_nxt : rcv_nxt p = u32 (seq + 1);
  hf_ends : endpoints p = e
}.

Lemma syn_block_half_open p l lip src_ip lport rport seq ticks :
  untouched p -> socket p = 0 ->
  half_open (syn_block p l lip src_ip lport rport seq ticks) l seq (first_iss ticks rport)
    (lip, src_ip, lport, rport).
Proof. intros Hu Hs. by split. Qed.

(** The packet [out] opens: both SYN and ACK, our number, the peer's next one. *)
Definition is_syn_ack (out : packet) (lip src_ip lport rport seq n : Z) : Prop :=
  exists lip' h, (lip <> 0 -> lip' = lip) /\ out = (src_ip, make_packet lip' src_ip h []) /\
    src_port h = lport /\ dest_port h = rport /\ seq_num h = n /\
    ack_num h = u32 (seq + 1) /\ data_offset_flags h = offset_flags (Z.lor TCP_FLAG_SYN TCP_FLAG_ACK).

Lemma syn_ack_facts p l seq n lip src_ip lport rport :
  half_open p l seq n (lip, src_ip, lport, rport) -> src_ip <> 0 -> lport <> 0 -> rport <> 0 ->
  exists p' out, tcp_build_output_locked p (Z.lor TCP_FLAG_SYN TCP_FLAG_ACK) [] = Some (p', out) /\
    half_open p' l seq n (lip, src_ip, lport, rport) /\ is_syn_ack out lip src_ip lport rport seq n.
Proof.
  intros [H1 H2 H3 H4 H5 H6 H7 H8] Hs Hl Hr. pose proof H8 as [= E1 E2 E3 E4].
  unfold tcp_build_output_locked. rewrite E2, E3, E4.
  replace ((lport =? 0) || (src_ip =? 0) || (rport =? 0)) with false by lia.
  do 2 eexists. split; [reflexivity|]. split; [by split|].
  exists (tcp_effective_local_ip p), (mk_header lport rport n (u32 (seq + 1))
    (offset_flags (Z.lor TCP_FLAG_SYN TCP_FLAG_ACK)) (advertised p) 0 0).
  split_and!; try done.
  - unfold tcp_effective_local_ip. rewrite E1. by destruct (Z.eqb_spec lip 0).
  - transitivity (remote_ip p, make_packet (tcp_effective_local_ip p) (remote_ip p)
      (mk_header (local_port p) (remote_port p) (if is_syn_state (state p) then iss p else snd_nxt p) (rcv_nxt p)
        (offset_flags (Z.lor TCP_FLAG_SYN TCP_FLAG_ACK)) (advertised p) 0 0) []); [done|].
    by rewrite E2, E3, E4, H7, H1, H6.
Qed.

(** * From packets to segments *)

Lemma packet_header src_ip dest_ip h payload :
  header_ok h -> is_bytes payload -> len payload <= 65515 -> exists c,
    tcp_parse_header (make_packet src_ip dest_ip h payload) (20 + len payload) = Some (h <| checksum := c |>) /\
    drop 20 (make_packet src_ip dest_ip h payload) = payload.
Proof.
  intros Hh Hp Hl. unfold make_packet. set (p0 := header_bytes (swap_header (h <| checksum := 0 |>)) ++ payload).
  assert (Hc : is_u16 (tcp_checksum src_ip dest_ip p0)).
  { rewrite (proj2 (tcp_checksum_spec src_ip dest_ip p0
      (proj2 (Forall_app _ _ _) (conj (header_bytes_is_bytes _) Hp)) ltac:(unfold p0, len in *; rewrite length_app, length_header_bytes; lia))).
    ulia. }
  set (c := if tcp_checksum src_ip dest_ip p0 =? 0 then 65535 else tcp_checksum src_ip dest_ip p0). assert (Hc' : is_u16 c) by (subst c; bcase; ulia). clearbody c.
  exists c. unfold tcp_parse_header, TCP_HEADER_MIN_SIZE. pose proof (len_nonneg payload).
  destruct (Z.ltb_spec (20 + len payload) 20); [lia|].
  assert (Hk : header_ok (h <| checksum := c |>)) by (destruct Hh as (?&?&?&?&?&?&?&?); by split_and!).
  split.
  - by rewrite load_header_bytes, swap_header_involutive by (try apply swap_header_ok; done).
  - by rewrite drop_app_length' by (by rewrite length_header_bytes).
Qed.

Lemma offset_flags_facts fl :
  0 <= fl < 512 -> Z.shiftr (offset_flags fl) 12 = 5 /\ Z.land (offset_flags fl) 0x1FF = fl.
Proof.
  intros Hf. assert (E : offset_flags fl = 20480 + fl).
  { unfold offset_flags. change (Z.shiftl 5 12) with (5 * 2 ^ 12).
    rewrite lor_add by (change (2 ^ 12) with 4096; lia). ulia. }
  rewrite E. change 0x1FF with (Z.ones 9). rewrite Z.shiftr_div_pow2, Z.land_ones by lia.
  change (2 ^ 12) with 4096. change (2 ^ 9) with 512. ulia.
Qed.

Lemma input_packet_facts `{TcpEnv} s src_ip dest_ip h fl payload :
  header_ok h -> data_offset_flags h = offset_flags fl -> 0 <= fl < 512 ->
  is_bytes payload -> len payload <= 65515 ->
  tcp_input s src_ip dest_ip (make_packet src_ip dest_ip h payload) =
  input_segment s src_ip dest_ip (dest_port h) (src_port h)
    (mk_rxseg fl (seq_num h) (ack_num h) (window_size h) payload).
Proof.
  intros Hh Hf Hfl Hp Hl. destruct (make_packet_facts src_ip dest_ip h payload Hp Hl) as (_ & L & C).
  destruct (packet_header src_ip dest_ip h payload Hh Hp Hl) as (c & P & D).
  destruct (offset_flags_facts fl Hfl) as [E1 E2]. pose proof (len_nonneg payload).
  unfold tcp_input. rewrite L, C, P. unfold TCP_HEADER_MIN_SIZE.
  destruct (Z.ltb_spec (20 + len payload) 20); [lia|]. cbn [Z.eqb negb].
  change (data_offset_flags (h <| checksum := c |>)) with (data_offset_flags h). rewrite Hf, E1, E2.
  change (u16 (5 * 4)) with 20. destruct (Z.ltb_spec (20 + len payload) 20); [lia|].
  change (Z.to_nat 20) with 20%nat. by rewrite D.
Qed.

(** C30: What one end sends is what the other end's connection is given.  Whatever
    header and payload [tcp_build_output_locked], the data path or the timers turn
    into a packet, [tcp_input] at the destination accepts it, and hands the
    connection its ports, numbers, flags, window and payload unchanged. *)
Theorem tcp_input_packet `{TcpEnv} s src_ip dest_ip h fl payload :
  header_ok h -> data_offset_flags h = offset_flags fl -> 0 <= fl < 512 ->
  is_bytes payload -> len payload <= 65515 ->
  tcp_input s src_ip dest_ip (make_packet src_ip dest_ip h payload) =
  input_segment s src_ip dest_ip (dest_port h) (src_port h)
    (mk_rxseg fl (seq_num h) (ack_num h) (window_size h) payload).
Proof.
  apply input_packet_facts.
Qed.

(** * The system *)

#[local] Opaque get put fresh_pcb.

Section Open.
Context `{TcpEnv}.
Implicit Types s : tcp.

(** Neither the network nor another thread acts on TCP in the meantime. *)
Hypothesis quiet : forall s out, fst (net_send_ipv4 s out) = s.
Hypothesis alone : forall s, others s = s.

Lemma alloc_facts s :
  kmalloc_ok (kmallocs s) = true -> kmalloc_ok (S (kmallocs s)) = true ->
  exists s', tcp_pcb_alloc s 0 = (s', Some (next_addr s)) /\
    get s' (next_addr s) = tcp_timers_reset fresh_pcb <| socket := 0 |> /\
    (forall b, b <> next_addr s -> get s' b = get s b) /\
    tcp_pcbs s' = tcp_pcbs s /\ kernel_ticks s' = kernel_ticks s /\ sent s' = sent s.
Proof.
  intros K1 K2. unfold tcp_pcb_alloc, tcp_alloc, kmalloc. rewrite K1. cbn [negb].
  change (kmallocs (s <| kmallocs := S (kmallocs s) |>)) with (S (kmallocs s)). rewrite K2. cbn [negb].
  set (s1 := put _ _ _ <| next_addr := _ |>). set (a := next_addr (_ : tcp)).
  assert (G : get s1 a = tcp_timers_reset fresh_pcb) by (subst s1 a; by rewrite get_next, get_put).
  exists (put s1 a (get s1 a <| socket := 0 |>)). split_and!; [done| |intros b Hb|done..].
  - by rewrite G, get_put.
  - rewrite get_put_ne by done. subst s1 a. rewrite get_next, get_put_ne by done. by rewrite !get_kmallocs.
Qed.

(** The first half: the SYN is answered, the child is registered. *)
Lemma listen_syn_facts s l src_ip dest_ip rport seq :
  let c := next_addr s in
  let lp := get s l in
  state lp = TCP_LISTEN -> accept_count lp < backlog lp -> local_port lp <> 0 ->
  src_ip <> 0 -> rport <> 0 -> l <> c -> existsb (Z.eqb c) (tcp_pcbs s) = false ->
  kmalloc_ok (kmallocs s) = true -> kmalloc_ok (S (kmallocs s)) = true ->
  let lip := if negb (local_ip lp =? 0) then local_ip lp else dest_ip in
  let n := first_iss (kernel_ticks s) rport in
  exists s1 out, tcp_handle_listen_syn s l src_ip dest_ip rport seq = (s1, 0) /\
    tcp_pcbs s1 = c :: tcp_pcbs s /\ get s1 l = lp /\ sent s1 = sent s ++ [out] /\
    half_open (get s1 c) l seq n (lip, src_ip, local_port lp, rport) /\
    is_syn_ack out lip src_ip (local_port lp) rport seq n.
Proof.
  intros c lp Hst Hb Hlp Hsrc Hrp Hlc Hfresh K1 K2 lip n. unfold tcp_handle_listen_syn.
  fold lp. rewrite Hst. change (negb (ts_eqb TCP_LISTEN TCP_LISTEN)) with false. cbv iota.
  replace (backlog lp <=? accept_count lp) with false by lia.
  destruct (alloc_facts s K1 K2) as (s0 & -> & G & Go & Ep & Et & Es). fold c in G, Go |- *.
  fold lip. set (p1 := syn_block _ _ _ _ _ _ _ _).
  assert (H1 : half_open p1 l seq n (lip, src_ip, local_port lp, rport)).
  { subst p1 n. rewrite Et. apply syn_block_half_open; rewrite G; [exact fresh_untouched|done]. }
  clearbody p1. unfold tcp_register.
  change (tcp_pcbs (put s0 c p1)) with (tcp_pcbs s0). rewrite Ep, Hfresh. cbn [Z.eqb negb].
  rewrite get_list, get_put. destruct (syn_ack_facts p1 l seq n lip src_ip (local_port lp) rport) as (p2 & out & -> & H2 & Ho); try done.
  do 2 eexists. split; [reflexivity|]. unfold send, transmit. rewrite quiet, !get_sent, get_put.
  rewrite get_put_ne, get_list, get_put_ne, Go by done.
  split_and!; [done|done| |done|exact Ho]. by rewrite <- Es.
Qed.

(** * The handshake *)

Definition serves s (lip lport a : Z) : Prop :=
  local_port (get s a) = lport /\ (local_ip (get s a) = 0 \/ local_ip (get s a) = lip).

Lemma lookup_serves s lip rip lport rport a :
  tcp_lookup_locked s lip rip lport rport = Some a -> serves s lip lport a.
Proof.
  unfold tcp_lookup_locked. generalize (tcp_pcbs s). intros l.
  assert (forall exact wild, (forall b, exact = Some b -> serves s lip lport b) ->
    (forall b, wild = Some b -> serves s lip lport b) ->
    lookup_loop s lip rip lport rport l exact wild = Some a -> serves s lip lport a) as X; [|by apply X].
  induction l as [|b l IH]; intros exact wild He Hw; cbn [lookup_loop]; [destruct exact; eauto|].
  destruct (Z.eqb_spec (local_port (get s b)) lport) as [Hp|]; cbn [negb]; [|by apply IH].
  destruct (negb (local_ip (get s b) =? 0) && negb (local_ip (get s b) =? lip)) eqn:Ha; [by apply IH|].
  assert (Hb : serves s lip lport b) by (split; [done|lia]).
  repeat case_match; try (by apply IH); try (apply IH; [done|by intros ? [= <-]]);
    try (apply IH; [by intros ? [= <-]|done]).
  by intros [= <-].
Qed.

(** The head of the list is the block of the connection. *)
Lemma lookup_head s c rest lip rip lport rport :
  tcp_pcbs s = c :: rest -> serves s lip lport c ->
  remote_ip (get s c) = rip -> remote_port (get s c) = rport -> state (get s c) <> TCP_LISTEN ->
  tcp_lookup_locked s lip rip lport rport = Some c.
Proof.
  intros E [<- Hl] <- <- Hs. unfold tcp_lookup_locked. rewrite E. cbn [lookup_loop].
  rewrite !Z.eqb_refl. replace (negb (local_ip (get s c) =? 0) && negb (local_ip (get s c) =? lip)) with false by lia.
  by destruct (state (get s c)).
Qed.

Lemma enqueue_facts s l c :
  l <> c -> accept_count (get s l) < backlog (get s l) ->
  exists s', tcp_accept_enqueue_locked s l c = (s', 0) /\
    get s' c = set_flags (get s c <| parent := Some l |>) TCP_PCB_FLAG_ACCEPT_READY /\
    get s' l = get s l <| accept_queue := accept_queue (get s l) ++ [c] |>
                       <| accept_count := accept_count (get s l) + 1 |>.
Proof.
  intros Hlc Hb. unfold tcp_accept_enqueue_locked.
  replace (backlog (get s l) <=? accept_count (get s l)) with false by lia.
  eexists. split; [reflexivity|]. split.
  - by rewrite get_put_ne, get_put by done.
  - rewrite get_put, get_put_ne by done. done.
Qed.

Lemma established_state ticks p g :
  state (passive_establish ticks p g) = TCP_ESTABLISHED /\ endpoints (passive_establish ticks p g) = endpoints p.
Proof. done. Qed.

Lemma syn_received_opens ticks p g :
  sg_has g TCP_FLAG_ACK = true -> sg_has g TCP_FLAG_SYN = false -> sg_ack g = u32 (iss p + 1) ->
  i_pcb (input_syn_received ticks (start_input p) g) = passive_establish ticks p g.
Proof.
  intros Ha Hs Hn. unfold input_syn_received, completes_open, acks_syn.
  rewrite Ha, Hs. cbn [andb negb i_pcb start_input]. by rewrite Hn, Z.eqb_refl.
Qed.

Lemma input_state_child s c l g :
  state (get s c) = TCP_SYN_RECEIVED -> parent (get s c) = Some l ->
  state (i_pcb (input_syn_received (kernel_ticks s) (start_input (get s c)) g)) = TCP_ESTABLISHED ->
  input_state s c g =
  Some (deliver_child (put s c (i_pcb (input_syn_received (kernel_ticks s) (start_input (get s c)) g))) c l).
Proof.
  unfold input_state. generalize (get s c). intros p Hs Hp He. rewrite Hs, Hp. cbn zeta. by rewrite He.
Qed.

Lemma deliver_child_facts s l c p :
  l <> c -> state (get s l) = TCP_LISTEN -> accept_count (get s l) < backlog (get s l) ->
  exists s', deliver_child (put s c p) c l = (s', 0) /\
    get s' c = set_flags (p <| parent := Some l |>) TCP_PCB_FLAG_ACCEPT_READY /\
    get s' l = get s l <| accept_queue := accept_queue (get s l) ++ [c] |>
                       <| accept_count := accept_count (get s l) + 1 |>.
Proof.
  intros Hlc Hl Hb. unfold deliver_child. rewrite alone, get_put_ne, Hl by done.
  change (ts_eqb TCP_LISTEN TCP_LISTEN) with true. cbv iota.
  destruct (enqueue_facts (put s c p) l c) as (s' & -> & G1 & G2); [done|by rewrite get_put_ne|].
  rewrite get_put in G1. rewrite get_put_ne in G2 by done.
  eexists. split; [reflexivity|]. by rewrite !get_notify.
Qed.

Lemma ready_views p l :
  let p' := set_flags (p <| parent := Some l |>) TCP_PCB_FLAG_ACCEPT_READY in
  conn_view p' = conn_view p /\ rx_view p' = rx_view p /\ state p' = state p.
Proof. split_and!; [solve_conn|solve_rx|done]. Qed.

(** The second half: the acknowledgement completes the open. *)
Lemma final_ack_facts s l c seq n e g stream :
  half_open (get s c) l seq n e -> l <> c -> state (get s l) = TCP_LISTEN ->
  accept_count (get s l) < backlog (get s l) ->
  sg_has g TCP_FLAG_ACK = true -> sg_has g TCP_FLAG_SYN = false -> sg_ack g = u32 (n + 1) ->
  is_u16 (sg_window g) ->
  exists s', input_state s c g = Some (s', 0) /\
    accept_queue (get s' l) = accept_queue (get s l) ++ [c] /\ state (get s' l) = TCP_LISTEN /\
    state (get s' c) = TCP_ESTABLISHED /\ endpoints (get s' c) = e /\
    conn_inv (get s' c) (sg_ack g) 0 /\ pending (get s' c) = [] /\
    received stream (seq + 1) (get s' c) 0 /\ rx_contents (rx_buf (get s' c)) = [].
Proof.
  intros [H1 H2 H3 H4 H5 H6 H7 H8] Hlc Hl Hb Ha Hns Hn Hw.
  destruct (opened_inv (get s c) (kernel_ticks s) g (seq + 1) stream H4 H5 H7) as (I1 & I2 & I3 & I4);
    [rewrite Hn; apply u32_range|done|].
  assert (E := syn_received_opens (kernel_ticks s) (get s c) g Ha Hns ltac:(by rewrite H6)).
  assert (Es := established_state (kernel_ticks s) (get s c) g). destruct Es as [Es Ee].
  rewrite (input_state_child s c l g H1 H2) by (by rewrite E). rewrite E.
  set (p' := passive_establish _ _ _) in *. clearbody p'.
  destruct (deliver_child_facts s l c p' Hlc Hl Hb) as (s' & -> & G1 & G2).
  destruct (ready_views p' l) as (V1 & V2 & S2). rewrite <- G1 in V1, V2, S2.
  exists s'. split; [done|]. rewrite G2. split_and!; try done.
  - congruence.
  - apply conn_view_eq in V1 as (_ & -> & _). by rewrite Ee.
  - by eapply conn_view_inv.
  - apply conn_view_eq in V1 as (V1 & _). by rewrite (pending_view _ _ V1).
  - by eapply received_view.
  - by injection V2 as -> _ _.
Qed.

Lemma input_listen s l src_ip dest_ip lport rport seq ack wnd :
  tcp_lookup_locked s dest_ip src_ip lport rport = Some l -> state (get s l) = TCP_LISTEN ->
  input_segment s src_ip dest_ip lport rport (mk_rxseg TCP_FLAG_SYN seq ack wnd []) =
  Some (tcp_handle_listen_syn s l src_ip dest_ip rport seq).
Proof. intros H1 H2. unfold input_segment. by rewrite H1, H2. Qed.

Lemma input_child s c src_ip dest_ip lport rport seq ack wnd :
  tcp_lookup_locked s dest_ip src_ip lport rport = Some c -> state (get s c) = TCP_SYN_RECEIVED ->
  input_segment s src_ip dest_ip lport rport (mk_rxseg TCP_FLAG_ACK seq ack wnd []) =
  input_state s c (mk_rxseg TCP_FLAG_ACK seq ack wnd []).
Proof. intros H1 H2. unfold input_segment. by rewrite H1, H2. Qed.

(** C20: The passive open.  A SYN packet for a listener with room in its backlog is
    answered by exactly one packet, a SYN-ACK with our initial number and the
    peer's next one, and when the peer's acknowledgement of it arrives, the
    connection is established and last in the accept queue, from where
    [tcp_accept] hands it out.  The new connection satisfies the invariants from
    which its sender and its receiver are proved correct, with nothing queued.  The
    block for the connection is allocated, the card takes the packets, and nothing
    else arrives in between. *)
Theorem tcp_passive_open s l src_ip dest_ip h1 h2 stream :
  let lp := get s l in
  let c := next_addr s in
  let rport := src_port h1 in
  let n := first_iss (kernel_ticks s) rport in
  tcp_lookup_locked s dest_ip src_ip (dest_port h1) rport = Some l ->
  state lp = TCP_LISTEN -> accept_count lp < backlog lp ->
  src_ip <> 0 -> rport <> 0 -> dest_port h1 <> 0 ->
  l <> c -> existsb (Z.eqb c) (tcp_pcbs s) = false ->
  kmalloc_ok (kmallocs s) = true -> kmalloc_ok (S (kmallocs s)) = true ->
  header_ok h1 -> data_offset_flags h1 = offset_flags TCP_FLAG_SYN ->
  header_ok h2 -> data_offset_flags h2 = offset_flags TCP_FLAG_ACK ->
  dest_port h2 = dest_port h1 -> src_port h2 = rport -> ack_num h2 = u32 (n + 1) ->
  exists s1 s2 out,
    tcp_input s src_ip dest_ip (make_packet src_ip dest_ip h1 []) = Some (s1, 0) /\
    sent s1 = sent s ++ [out] /\ is_syn_ack out dest_ip src_ip (dest_port h1) rport (seq_num h1) n /\
    tcp_input s1 src_ip dest_ip (make_packet src_ip dest_ip h2 []) = Some (s2, 0) /\
    accept_queue (get s2 l) = accept_queue lp ++ [c] /\
    (accept_queue lp = [] -> snd (tcp_accept s2 l) = Some c) /\
    state (get s2 c) = TCP_ESTABLISHED /\
    conn_inv (get s2 c) (u32 (n + 1)) 0 /\ pending (get s2 c) = [] /\
    received stream (seq_num h1 + 1) (get s2 c) 0 /\ rx_contents (rx_buf (get s2 c)) = [].
Proof.
  intros lp c rport n Hl Hst Hb Hsrc Hrp Hdp Hlc Hfr K1 K2 Ok1 F1 Ok2 F2 P1 P2 A2.
  assert (X : forall s h fl, header_ok h -> data_offset_flags h = offset_flags fl -> 0 <= fl < 512 ->
    dest_port h = dest_port h1 -> src_port h = rport ->
    tcp_input s src_ip dest_ip (make_packet src_ip dest_ip h []) =
    input_segment s src_ip dest_ip (dest_port h1) rport (mk_rxseg fl (seq_num h) (ack_num h) (window_size h) [])).
  { intros s' h fl Ok F Hfl <- <-. apply (input_packet_facts s' src_ip dest_ip h fl []); [done|done|done|by apply Forall_nil|done]. }
  destruct (lookup_serves _ _ _ _ _ _ Hl) as [Lp Li]. fold lp in Lp, Li.
  assert (Hlp : local_port lp <> 0) by congruence.
  destruct (listen_syn_facts s l src_ip dest_ip rport (seq_num h1) Hst Hb Hlp Hsrc Hrp Hlc Hfr K1 K2)
    as (s1 & out & E1 & L1 & G1 & S1 & Hh & Ho). fold lp n in Hh, Ho. rewrite Lp in Hh, Ho.
  assert (Elip : (if negb (local_ip lp =? 0) then local_ip lp else dest_ip) = dest_ip).
  { destruct Li as [Li|Li]; rewrite Li; [done|].
    destruct (dest_ip =? 0); reflexivity. }
  rewrite Elip in Hh, Ho. pose proof (hf_ends _ _ _ _ _ Hh) as [= N1 N2 N3 N4].
  pose proof (hf_state _ _ _ _ _ Hh) as N5.
  assert (Hc : tcp_lookup_locked s1 dest_ip src_ip (dest_port h1) rport = Some c).
  { apply (lookup_head s1 c (tcp_pcbs s)); [exact L1|by split; [|right]|exact N2|exact N4|].
    unfold c. rewrite N5. discriminate. }
  set (g := mk_rxseg TCP_FLAG_ACK (seq_num h2) (ack_num h2) (window_size h2) []).
  destruct (final_ack_facts s1 l c _ _ _ g stream Hh Hlc) as (s2 & E2 & Q & L2 & St & _ & I1 & I2 & I3 & I4);
    rewrite ?G1; try done; [by destruct Ok2 as (_&_&_&_&_&?&_)|].
  exists s1, s2, out. rewrite (X s h1 TCP_FLAG_SYN), (input_listen s l), E1 by done.
  rewrite (X s1 h2 TCP_FLAG_ACK), (input_child s1 c) by done.
  rewrite G1 in Q. change (sg_ack g) with (ack_num h2) in I1. rewrite A2 in I1. split_and!; try done.
  intros Hq. unfold tcp_accept, tcp_accept_dequeue_locked. rewrite L2, Q. unfold lp in Hq. by rewrite Hq.
Qed.
End Open.
