(* ===== verification/TcpState.v ===== *)
(** Three places where the connection states of [src/src/kernel/tcp.c] do not meet
    what a peer or a program relies on: acknowledgements are ignored in CLOSE_WAIT,
    a half-open connection that timed out keeps its addresses for ever, and a bound
    port is not reserved until its socket listens. *)

From S2P Require Import Prelude TcpWire Tcp TcpRx TcpTx TcpConn TcpStream TcpRecv TcpDrain TcpOpen.

(** * CLOSE_WAIT *)

(** A segment of the peer, or a visit of the timer thread. *)
Inductive event := Arrives (g : rx_segment) | Tick (now : Z).

Definition open_step (ticks : Z) (p : tcp_pcb) (e : event) : tcp_pcb :=
  match e with
  | Arrives g => i_pcb (handle ticks p g)
  | Tick now =>
      if can_send p
      then match timer_data p now ticks true with inl q => q | inr (q, _) => q end
      else p
  end.

Lemma close_wait_arrives ticks p g U fin :
  conn_inv p U fin -> state p = TCP_CLOSE_WAIT ->
  let p' := i_pcb (handle ticks p g) in
  state p' = TCP_CLOSE_WAIT /\ conn_view p' = conn_view p.
Proof.
  intros Hi Hs. unfold handle. rewrite Hs. cbn zeta. unfold input_close_wait. case_match; [|done].
  destruct (reply_facts (start_input p) U fin Hi) as (V & _ & _ & _ & _ & S & _); [done|].
  by rewrite S.
Qed.

Lemma timer_data_state p now ticks rm :
  match timer_data p now ticks rm with
  | inl q => state q = TCP_CLOSED /\ pcb_has q TCP_PCB_FLAG_RESET = true /\ pending q = []
  | inr (q, _) => state q = state p
  end.
Proof.
  unfold timer_data. destruct (rto_due p now); [|done]. destruct (unacked_of p) as [|seg rest]; [done|].
  destruct (TCP_MAX_DATA_RETRIES <=? _).
  - cbn zeta. split_and!; [done| |done]. unfold tcp_timers_reset. flag_simpl. done.
  - cbn zeta. set (p1 := if pcb_has p _ then _ else p).
    assert (E1 : state p1 = state p) by (subst p1; by case_match). clearbody p1.
    assert (E2 : state (loss_window p1) = state p1) by (unfold loss_window; by case_match).
    set (p2 := loss_window p1) in *. clearbody p2.
    assert (E3 : state (backoff p2 now) = state p2) by done.
    set (p3 := backoff p2 now) in *. clearbody p3. unfold tcp_retransmit_segment_locked.
    destruct rm; cbn; congruence.
Qed.

(** In CLOSE_WAIT the peer's acknowledgements are ignored.  Once the peer has
    closed its half, then whatever segments arrive and timers fire, either the
    connection has been reset, or every byte handed over and not acknowledged
    before is still queued and [snd_una] has not moved; and the timer that finds
    the oldest segment retransmitted five times resets the connection and
    discards the data, even when the peer has acknowledged all of it. *)
Theorem close_wait_ignores_acks ticks p U fin es :
  conn_inv p U fin -> state p = TCP_CLOSE_WAIT ->
  let p' := foldl (open_step ticks) p es in
  (state p' = TCP_CLOSED /\ pcb_has p' TCP_PCB_FLAG_RESET = true /\ pending p' = []) \/
  (state p' = TCP_CLOSE_WAIT /\ pending p' = pending p /\ snd_una p' = snd_una p /\
   forall now, rto_due p' now = true -> has_unacked p' = true ->
     TCP_MAX_DATA_RETRIES <= retransmit_count (timers p') ->
     let q := open_step ticks p' (Tick now) in
     state q = TCP_CLOSED /\ pcb_has q TCP_PCB_FLAG_RESET = true /\ pending q = []).
Proof.
  intros Hi Hs. assert (forall es,
    let p' := foldl (open_step ticks) p es in
    (state p' = TCP_CLOSED /\ pcb_has p' TCP_PCB_FLAG_RESET = true /\ pending p' = []) \/
    (state p' = TCP_CLOSE_WAIT /\ pending p' = pending p /\ conn_inv p' U fin)) as X.
  { clear es. intros es. induction es as [|e es IH] using rev_ind; [by right|].
    cbn zeta. rewrite foldl_snoc. destruct IH as [(C & R & P)|(S & P & I)].
    - left. destruct e as [g|now]; cbn [open_step]; [unfold handle; by rewrite C|].
      unfold can_send. by rewrite C.
    - set (p1 := foldl _ p es) in *. clearbody p1. destruct e as [g|now]; cbn [open_step].
      + destruct (close_wait_arrives ticks p1 g U fin I S) as (S' & V). right.
        split_and!; [done| |by eapply conn_view_inv].
        apply conn_view_eq in V as (V & _). by rewrite (pending_view _ _ V).
      + unfold can_send. rewrite S.
    change (ts_eqb TCP_CLOSE_WAIT TCP_ESTABLISHED || ts_eqb TCP_CLOSE_WAIT TCP_CLOSE_WAIT) with true. cbv iota.
        pose proof (timer_data_state p1 now ticks true) as T.
        destruct (timer_data p1 now ticks true) as [q|[q o]] eqn:E; [by left|right].
        destruct (timer_data_ok p1 U fin now ticks true q o I E) as [[H1 H2 H3 H4 H5] _].
        rewrite Z.add_0_r in H2. split; [by rewrite T|]. split; [|exact H2]. rewrite H3. exact P. }
  specialize (X es). cbn zeta in *. set (p' := foldl _ p es) in *. clearbody p'.
  destruct X as [X|(S & P & I)]; [by left|right]. split_and!; [done|done| |].
  - destruct I as (W & _), Hi as (W0 & _). by rewrite (tw_una _ _ _ W), (tw_una _ _ _ W0).
  - intros now Hd Hu Hc. cbn [open_step]. unfold can_send. rewrite S.
    change (ts_eqb TCP_CLOSE_WAIT TCP_ESTABLISHED || ts_eqb TCP_CLOSE_WAIT TCP_CLOSE_WAIT) with true. cbv iota.
    pose proof (timer_data_state p' now ticks true) as T. revert T. unfold timer_data. rewrite Hd.
    unfold has_unacked in Hu. destruct (unacked_of p'); [done|].
    destruct (Z.leb_spec TCP_MAX_DATA_RETRIES (retransmit_count (timers p'))); [done|lia].
Qed.

(** * Half-open connections that time out *)

Section Timers.
Context `{TcpEnv}.
Implicit Types s : tcp.

(** A half-open connection that times out is never removed.  The timer marks
    its block closed, but leaves it in the list and does not put it among the
    blocks to free; from then on no visit of the timer changes anything, and
    every segment the same peer sends from the same port, a new SYN included, is
    swallowed without an answer: that peer cannot connect from that port again. *)
Theorem dead_child_blocks_peer s acc c rest now lip src_ip lport rport :
  tcp_pcbs s = c :: rest -> state (get s c) = TCP_SYN_RECEIVED -> timeout_due (get s c) now = true ->
  endpoints (get s c) = (lip, src_ip, lport, rport) ->
  let '(s', acc') := timer_visit now (s, acc) c in
  tcp_pcbs s' = c :: rest /\ dead acc' = dead acc /\
  (forall later acc2, timer_visit later (s', acc2) c = (s', acc2)) /\
  forall g, input_segment s' src_ip lip lport rport g = Some (s', -1).
Proof.
  intros Hl Hs Ht He. injection He as E1 E2 E3 E4. unfold timer_visit at 1. rewrite Hs.
  unfold timer_handshake. rewrite Ht. unfold apply_timer. cbn [tr_pcb tr_notify tr_packet tr_dead andb defer].
  set (q := close_now (get s c)).
  assert (Q : state q = TCP_CLOSED /\ local_ip q = lip /\ remote_ip q = src_ip /\ local_port q = lport /\
    remote_port q = rport) by done.
  clearbody q. destruct Q as (Q0 & Q1 & Q2 & Q3 & Q4).
  assert (G : get (put s c q) c = q) by apply get_put.
  assert (L : tcp_pcbs (put s c q) = c :: rest) by exact Hl.
  split_and!; [done|done| |].
  - intros later acc2. unfold timer_visit. by rewrite G, Q0.
  - intros g. unfold input_segment.
    rewrite (lookup_head (put s c q) c rest lip src_ip lport rport L), G, Q0; [done|..]; rewrite ?G; try done.
    + split; rewrite G; [done|by right].
    + by rewrite Q0.
Qed.

(** * Ports *)

Lemma in_use_closed s a b lip lport p :
  state (get s a) = TCP_CLOSED -> state p = TCP_CLOSED ->
  (forall x, x <> a -> x <> b -> get s x = get (put s a p) x) ->
  state (get s b) = TCP_CLOSED ->
  tcp_port_in_use_locked s a lip lport = false -> tcp_port_in_use_locked (put s a p) b lip lport = false.
Proof.
  intros Ha Hp Hx Hb. unfold tcp_port_in_use_locked. destruct (lport =? 0); [done|].
  change (tcp_pcbs (put s a p)) with (tcp_pcbs s). intros H0.
  apply not_true_iff_false. intros Ht. apply not_true_iff_false in H0. apply H0.
  apply existsb_exists in Ht as (x & Hin & Hxt). apply existsb_exists. exists x. split; [done|].
  destruct (Z.eq_dec x b) as [->|Hxb]; [by rewrite Z.eqb_refl in Hxt|].
  destruct (Z.eq_dec x a) as [->|Hxa].
  - rewrite get_put, Hp in Hxt. cbn in Hxt. by rewrite !orb_true_r in Hxt.
  - rewrite Hx by done. replace (x =? a) with false by lia. replace (x =? b) with false in Hxt by lia. exact Hxt.
Qed.

Lemma bind_facts s a lip lport :
  lport <> 0 -> state (get s a) = TCP_CLOSED -> tcp_port_in_use_locked s a lip lport = false ->
  exists q, tcp_bind s a lip lport = (put s a q, 0) /\ state q = TCP_CLOSED /\ local_ip q = lip /\ local_port q = lport.
Proof.
  intros Hp Ha Hu. unfold tcp_bind. replace (lport =? 0) with false by lia. rewrite Hu.
  destruct (state (get s a)) eqn:E; try done. eexists. split; [reflexivity|]. done.
Qed.

Lemma listen_facts s a n :
  local_port (get s a) <> 0 -> state (get s a) = TCP_CLOSED ->
  exists q, tcp_listen s a n = (put s a q, 0) /\ state q = TCP_LISTEN /\
    local_ip q = local_ip (get s a) /\ local_port q = local_port (get s a).
Proof.
  intros Hp Ha. unfold tcp_listen. replace (local_port (get s a) =? 0) with false by lia. rewrite Ha.
  eexists. split; [reflexivity|]. done.
Qed.

(** A bound port is not reserved.  After [tcp_bind] has given a port to one
    socket, it gives the same address and port to any other closed socket, and
    both then listen successfully: two listeners share one address and port. *)
Theorem bind_does_not_reserve s a b lip lport s1 n m :
  a <> b -> lport <> 0 -> state (get s b) = TCP_CLOSED -> tcp_bind s a lip lport = (s1, 0) ->
  exists s2 s3 s4, tcp_bind s1 b lip lport = (s2, 0) /\ tcp_listen s2 a n = (s3, 0) /\ tcp_listen s3 b m = (s4, 0) /\
    (forall x, x = a \/ x = b -> state (get s4 x) = TCP_LISTEN /\ local_ip (get s4 x) = lip /\ local_port (get s4 x) = lport).
Proof.
  intros Hab Hp Hb Hbind.
  assert (state (get s a) = TCP_CLOSED /\ tcp_port_in_use_locked s a lip lport = false) as [Ha Hu].
  { unfold tcp_bind in Hbind. replace (lport =? 0) with false in Hbind by lia.
    destruct (state (get s a)); try done. by destruct (tcp_port_in_use_locked s a lip lport). }
  destruct (bind_facts s a lip lport Hp Ha Hu) as (p & E & P1 & P2 & P3). rewrite E in Hbind.
  injection Hbind as <-. assert (Hb1 : get (put s a p) b = get s b) by (by apply get_put_ne).
  destruct (bind_facts (put s a p) b lip lport Hp) as (q & -> & Q1 & Q2 & Q3); [by rewrite Hb1| |].
  { apply in_use_closed; try done. intros x Hx _. symmetry. by apply get_put_ne. }
  set (s2 := put (put s a p) b q). assert (G1 : get s2 a = p) by (unfold s2; by rewrite get_put_ne, get_put).
  assert (G2 : get s2 b = q) by apply get_put. clearbody s2.
  destruct (listen_facts s2 a n) as (p' & E3 & P1' & P2' & P3'); [congruence..|].
  assert (G3 : get (put s2 a p') b = q) by (by rewrite get_put_ne).
  destruct (listen_facts (put s2 a p') b m) as (q' & E4 & Q1' & Q2' & Q3'); [congruence..|].
  exists s2, (put s2 a p'), (put (put s2 a p') b q'). split_and!; [done|done|done|].
  intros x [-> | ->]; rewrite ?get_put; [rewrite get_put_ne, get_put by done|]; split_and!; congruence.
Qed.
End Timers.
