(* ===== verification/TcpDemo.v ===== *)
(** Concrete runs of the TCP model: a listener, the three-way handshake, data in
    both directions, and the connections on which the theorems about TCP apply. *)

From S2P Require Import Prelude TcpWire Tcp TcpRx TcpTx TcpConn TcpStream TcpRecv TcpDrain TcpOpen TcpState.

(** Memory never runs out, the network loses nothing and nobody else runs. *)
Definition quiet_env : TcpEnv := {|
  kmalloc_ok := fun _ => true;
  net_send_ipv4 := fun s _ => (s, 0);
  others := fun s => s
|}.
#[local] Existing Instance quiet_env.

(** * A listener on port 80 *)

Definition demo_boot : tcp := tcp_init (mk_tcp ∅ [] 0 100 1 0 [] []).
Definition demo_listening : tcp :=
  let '(s, _) := tcp_socket_create demo_boot 7 in
  let '(s, _) := tcp_bind s 1 0 80 in
  fst (tcp_listen s 1 4).
Definition syn_header : tcp_header := mk_header 40000 80 5000 0 (offset_flags TCP_FLAG_SYN) 8192 0 0.
Definition ack_header : tcp_header :=
  mk_header 40000 80 5001 (u32 (first_iss 100 40000 + 1)) (offset_flags TCP_FLAG_ACK) 8192 0 0.

Lemma tcp_passive_open_witness :
  let s := demo_listening in
  let n := first_iss 100 40000 in
  exists s1 s2 out,
    tcp_input s peer_ip demo_ip (make_packet peer_ip demo_ip syn_header []) = Some (s1, 0) /\
    sent s1 = sent s ++ [out] /\ is_syn_ack out demo_ip peer_ip 80 40000 5000 n /\
    tcp_input s1 peer_ip demo_ip (make_packet peer_ip demo_ip ack_header []) = Some (s2, 0) /\
    accept_queue (get s2 1) = [] ++ [2] /\
    (accept_queue (get s 1) = [] -> snd (tcp_accept s2 1) = Some 2) /\
    state (get s2 2) = TCP_ESTABLISHED /\
    conn_inv (get s2 2) (u32 (n + 1)) 0 /\ pending (get s2 2) = [] /\
    received [] 5001 (get s2 2) 0 /\ rx_contents (rx_buf (get s2 2)) = [].
Proof.
  intros s n. apply (@tcp_passive_open quiet_env (fun _ _ => eq_refl) (fun _ => eq_refl) s 1 peer_ip demo_ip
    syn_header ack_header []); vm_compute; done.
Defined.

Lemma tcp_input_packet_witness :
  tcp_input demo_listening peer_ip demo_ip (make_packet peer_ip demo_ip syn_header [1; 2; 3]) =
  input_segment demo_listening peer_ip demo_ip 80 40000 (mk_rxseg TCP_FLAG_SYN 5000 0 8192 [1; 2; 3]).
Proof.
  apply (tcp_input_packet demo_listening peer_ip demo_ip syn_header TCP_FLAG_SYN [1; 2; 3]);
    [by vm_compute|done|by vm_compute| |by vm_compute].
  repeat constructor; ulia.
Defined.

(** * An open connection *)

Definition demo_pcb : tcp_pcb :=
  fresh_pcb <| state := TCP_ESTABLISHED |> <| local_ip := demo_ip |> <| remote_ip := peer_ip |>
    <| local_port := 80 |> <| remote_port := 40000 |> <| snd_una := 1000 |> <| snd_nxt := 1000 |>
    <| rcv_nxt := 5001 |>.
Lemma demo_pcb_inv : conn_inv demo_pcb 1000 0.
Proof. split; [|by vm_compute]. split; try (by vm_compute). by left. Qed.
Lemma demo_pcb_received stream : received stream 5001 demo_pcb 0.
Proof.
  split; [done|]. pose proof (len_nonneg stream). split; [lia|]. split; [done|].
  exists (replicate 8192 0). apply fresh_rx_wf.
Qed.

(** The bytes 10, 11, 12 are accepted, sent, and acknowledged by the peer. *)
Definition demo_sent : tcp_pcb * packet :=
  match drain_round 100 true true (accept_segment demo_pcb [10; 11; 12]) with
  | DrainSend p out _ => (p, out)
  | _ => (demo_pcb, (0, []))
  end.
Definition demo_ack : rx_segment := mk_rxseg TCP_FLAG_ACK 5001 1003 8192 [].
Definition demo_acked : tcp_pcb := i_pcb (handle 100 (fst demo_sent) demo_ack).

Lemma demo_trace :
  conn_steps demo_pcb [10; 11; 12] (snd demo_sent :: inp_outs (handle 100 (fst demo_sent) demo_ack)) demo_acked.
Proof.
  change [10; 11; 12] with ((([] ++ [10; 11; 12]) ++ []) ++ [] : list Z).
  apply (cs_snoc demo_pcb _ [snd demo_sent] (fst demo_sent) [] _ demo_acked).
  - apply (cs_snoc demo_pcb _ [] (accept_segment demo_pcb [10; 11; 12]) [] [snd demo_sent]).
    + apply (cs_snoc demo_pcb [] [] demo_pcb _ []); [constructor|]. constructor; [done|by vm_compute].
    + apply (cs_round_send 100 true true _ _ _ 0). by vm_compute.
  - apply cs_input; by vm_compute.
Qed.

Lemma tcp_sender_stream_witness :
  let outs := snd demo_sent :: inp_outs (handle 100 (fst demo_sent) demo_ack) in
  Forall (fun out => len (snd out) <= 20 \/
    exists pos n, 0 <= pos /\ 0 < n /\ pos + n <= 3 /\
      carries demo_pcb out (1000 + pos) (slice [10; 11; 12] pos n)) outs /\
  (exists acked, 0 <= acked /\ snd_una demo_acked = u32 (1000 + acked) /\
     pending demo_acked = drop (Z.to_nat acked) [10; 11; 12] /\ len (pending demo_acked) <= 8192) /\
  1460 <= cwnd demo_acked <= 65535.
Proof.
  apply (tcp_sender_stream demo_pcb 1000 [10; 11; 12] _ demo_acked demo_pcb_inv);
    [done|exact demo_trace].
Defined.

(** The second half of the peer's stream arrives first and is dropped; then the
    first half arrives and is read. *)
Definition demo_segment (pos : Z) (payload : list Z) : rx_segment :=
  mk_rxseg (Z.lor TCP_FLAG_ACK TCP_FLAG_PSH) (5001 + pos) 1000 8192 payload.
Definition demo_late : tcp_pcb := i_pcb (handle 100 demo_pcb (demo_segment 2 [22; 23])).
Definition demo_first : tcp_pcb := i_pcb (handle 100 demo_late (demo_segment 0 [20; 21])).
Definition demo_read : tcp_pcb * list Z := tcp_rx_buffer_read_locked demo_first 10.

Lemma demo_from_peer pos payload :
  slice [20; 21; 22; 23] pos (len payload) = payload -> 0 <= pos -> pos + len payload <= 4 ->
  from_peer [20; 21; 22; 23] 5001 (demo_segment pos payload) pos.
Proof.
  intros E H1 H2. unfold from_peer, sg_len. cbn -[len slice u32]. split_and!; [|done|done|done|done].
  pose proof (len_nonneg payload). rewrite u32_id; [done|ulia].
Qed.

Lemma tcp_receiver_in_order_witness :
  snd demo_read = [20; 21] /\
  exists N, received [20; 21; 22; 23] 5001 (fst demo_read) N /\
    snd demo_read ++ rx_contents (rx_buf (fst demo_read)) = slice [20; 21; 22; 23] 0 (Z.min N 4).
Proof.
  split; [by vm_compute|].
  apply (tcp_receiver_in_order [20; 21; 22; 23] 5001 ltac:(by vm_compute) demo_pcb);
    [apply demo_pcb_received|by vm_compute|].
  apply (rxs_read _ _ demo_pcb [] demo_first 10); [|done].
  apply (rxs_segment _ _ demo_pcb [] demo_late 100 (demo_segment 0 [20; 21]) 0);
    [|by apply demo_from_peer].
  apply (rxs_segment _ _ demo_pcb [] demo_pcb 100 (demo_segment 2 [22; 23]) 2);
    [constructor|by apply demo_from_peer].
Defined.

(** * Draining, and the states that lose a connection *)

Definition demo_system (p : tcp_pcb) : tcp := mk_tcp {[1 := p]} [1] 49152 100 2 0 [] [].

Lemma tcp_drain_terminates_witness :
  let s := demo_system (accept_segment demo_pcb [10; 11; 12]) in
  exists s', tcp_drain_unsent s 1 = Some s' /\ live 1 s' /\ backlog_bytes 1 s' <= backlog_bytes 1 s /\
    (pcb_has (get s 1) TCP_PCB_FLAG_DRAINING = false -> (forall n, kmalloc_ok n = true) ->
     drained (get s' 1)).
Proof.
  intros s. apply (@tcp_drain_terminates quiet_env 1 (fun s _ H => conj H (Z.le_refl _)) s 1000 0).
  change (get s 1) with (accept_segment demo_pcb [10; 11; 12]).
  destruct (accept_facts demo_pcb 1000 0 [10; 11; 12] (proj1 demo_pcb_inv)) as (W & _);
    [done|by vm_compute|]. split; [exact W|by vm_compute].
Defined.

(** A peer that has closed its half before the data was acknowledged. *)
Definition demo_close_wait : tcp_pcb := fst demo_sent <| state := TCP_CLOSE_WAIT |>.
Lemma demo_close_wait_inv : conn_inv demo_close_wait 1000 0.
Proof.
  split; [|by vm_compute].
  split; try (by vm_compute); [|by left]. split; [|by vm_compute|by vm_compute].
  change (Forall seg_wf [mk_segment 1000 3 0 [10; 11; 12] 100 0]).
  apply Forall_singleton. by vm_compute.
Qed.

Lemma close_wait_ignores_acks_witness :
  let p' := foldl (open_step 100) demo_close_wait [Arrives demo_ack; Tick 1000; Arrives demo_ack] in
  (state p' = TCP_CLOSED /\ pcb_has p' TCP_PCB_FLAG_RESET = true /\ pending p' = []) \/
  (state p' = TCP_CLOSE_WAIT /\ pending p' = pending demo_close_wait /\ snd_una p' = snd_una demo_close_wait /\
   forall now, rto_due p' now = true -> has_unacked p' = true ->
     TCP_MAX_DATA_RETRIES <= retransmit_count (timers p') ->
     let q := open_step 100 p' (Tick now) in
     state q = TCP_CLOSED /\ pcb_has q TCP_PCB_FLAG_RESET = true /\ pending q = []).
Proof.
  apply (close_wait_ignores_acks 100 demo_close_wait 1000 0 _ demo_close_wait_inv). done.
Defined.

Definition demo_half_open : tcp :=
  match tcp_input demo_listening peer_ip demo_ip (make_packet peer_ip demo_ip syn_header []) with
  | Some (s, _) => s
  | None => demo_listening
  end.

Lemma dead_child_blocks_peer_witness :
  let '(s', acc') := timer_visit 100000 (demo_half_open, mk_acc [] []) 2 in
  tcp_pcbs s' = [2; 1] /\ dead acc' = [] /\
  (forall later acc2, timer_visit later (s', acc2) 2 = (s', acc2)) /\
  forall g, input_segment s' peer_ip demo_ip 80 40000 g = Some (s', -1).
Proof.
  apply (dead_child_blocks_peer demo_half_open (mk_acc [] []) 2 [1] 100000 demo_ip peer_ip 80 40000);
    by vm_compute.
Defined.

Definition demo_two_sockets : tcp := fst (tcp_socket_create (fst (tcp_socket_create demo_boot 7)) 8).
Definition demo_bound : tcp := fst (tcp_bind demo_two_sockets 1 0 80).

Lemma bind_does_not_reserve_witness :
  exists s2 s3 s4, tcp_bind demo_bound 2 0 80 = (s2, 0) /\ tcp_listen s2 1 4 = (s3, 0) /\ tcp_listen s3 2 4 = (s4, 0) /\
    (forall x, x = 1 \/ x = 2 -> state (get s4 x) = TCP_LISTEN /\ local_ip (get s4 x) = 0 /\ local_port (get s4 x) = 80).
Proof.
  apply (bind_does_not_reserve demo_two_sockets 1 2 0 80 demo_bound 4 4); [done|done|by vm_compute|].
  unfold demo_bound. by vm_compute.
Defined.
