(* ===== verification/Vmm.v ===== *)
(** The virtual memory manager of [src/src/kernel/vmm.c]: four-level page tables in
    physical memory, address spaces, copy-on-write clones, the page-fault handler
    and the checks of user pointers.  Physical memory is a map from the addresses
    of 64-bit words to their values, as tables and pages are only accessed through
    the identity mapping; frames come from the allocator of [Pmm].  Every function
    that takes [vmm_lock] is atomic.  TLB maintenance has no effect on memory and
    is left out. *)

From S2P Require Import Prelude Pmm.

Definition VMM_USER_BASE : Z := 0x1000.
Definition VMM_PRESENT : Z := 1.
Definition VMM_WRITABLE : Z := 2.
Definition VMM_USER : Z := 4.
Definition PAGE_COW : Z := 512.
Definition VMM_NX : Z := 9223372036854775808.
Definition VMM_PAGE_SIZE : Z := 4096.
Definition VMM_PAGE_MASK : Z := lnot64 4095.
Definition VMM_ENTRY_ADDR_MASK : Z := 0x000FFFFFFFFFF000.
Definition VMM_ENTRY_FLAGS_MASK : Z := 0x8000000000000FFF.
Definition VMM_TABLE_ENTRIES : Z := 512.
Definition PF_ERROR_PRESENT : Z := 1.
Definition PF_ERROR_WRITE : Z := 2.

(** Page-table pointers are physical addresses, 0 is NULL.  [task_cr3] and
    [inventory] are [cr3] and the first [user_page_count] elements of
    [user_physical_pages] of the current task; [task_cr3] is 0 and [inventory] is
    [None] when there is none. *)
Record vmm := mk_vmm {
  words : gmap Z Z;
  frames : pmm;
  kernel_pml4 : Z;
  cr3 : Z;
  task_cr3 : Z;
  inventory : option (list Z)
}.
#[export] Instance eta_vmm : Eta vmm := fun s =>
  mk_vmm (words s) (frames s) (kernel_pml4 s) (cr3 s) (task_cr3 s) (inventory s).

Definition word (s : vmm) (a : Z) : Z := default 0 (words s !! a).
Definition set_word (a v : Z) (s : vmm) : vmm := s <| words := <[a := v]> (words s) |>.

(** [table[index]] *)
Definition slot (table index : Z) : Z := table + 8 * index.
Definition entry (s : vmm) (table index : Z) : Z := word s (slot table index).
Definition set_entry (table index v : Z) (s : vmm) : vmm := set_word (slot table index) v s.

Definition bit (e b : Z) : bool := negb (Z.land e b =? 0).

(** [pmm_alloc] on the allocator of the state. *)
Definition alloc_frame (s : vmm) : option Z * vmm :=
  let '(f, m) := pmm_alloc (frames s) in (f, s <| frames := m |>).

(** * Tables *)

Definition replace_frame (old_frame new_frame : Z) (l : list Z) : list Z :=
  match find_index (fun f => f =? old_frame) l 0 with
  | Some i => arr_set l i new_frame
  | None => l
  end.
Definition replace_current_task_frame (old_frame new_frame : Z) (s : vmm) : vmm :=
  match inventory s with
  | None => s
  | Some l => s <| inventory := Some (replace_frame old_frame new_frame l) |>
  end.

Definition clear_page (page : Z) (s : vmm) : vmm :=
  for_up 512 0 (fun i s => set_entry page i 0 s) s.
Definition copy_page (dest src : Z) (s : vmm) : vmm :=
  for_up 512 0 (fun i s => set_entry dest i (entry s src i) s) s.

Definition table_flags (flags : Z) : Z :=
  Z.lor (Z.lor VMM_PRESENT VMM_WRITABLE) (Z.land flags VMM_USER).
Definition entry_table (e : Z) : Z := Z.land e VMM_ENTRY_ADDR_MASK.
Definition valid_table_pointer (address : Z) : bool :=
  negb (address =? 0) && (Z.land address (VMM_PAGE_SIZE - 1) =? 0).
Definition valid_table_entry (e : Z) : bool := valid_table_pointer (Z.land e VMM_ENTRY_ADDR_MASK).

(** [((uint64_t)new_table & MASK) | table_flags(flags)] *)
Definition table_entry (new_table flags : Z) : Z :=
  Z.lor (Z.land new_table VMM_ENTRY_ADDR_MASK) (table_flags flags).

(** [None] is NULL. *)
Definition ensure_next_table (table index flags : Z) (s : vmm) : option Z * vmm :=
  if negb (valid_table_pointer table) || (VMM_TABLE_ENTRIES <=? index) then (None, s)
  else
    let s := if bit (entry s table index) VMM_PRESENT && negb (valid_table_entry (entry s table index))
             then set_entry table index 0 s else s in
    let filled :=
      if negb (bit (entry s table index) VMM_PRESENT)
      then match alloc_frame s with
           | (None, s) => (false, s)
           | (Some t, s) => (true, set_entry table index (table_entry t flags) (clear_page t s))
           end
      else if bit flags VMM_USER && negb (bit (entry s table index) VMM_USER)
      then match alloc_frame s with
           | (None, s) => (false, s)
           | (Some t, s) =>
               (true, set_entry table index (table_entry t flags)
                        (copy_page t (entry_table (entry s table index)) s))
           end
      else (true, s) in
    match filled with
    | (false, s) => (None, s)
    | (true, s) =>
        let next := entry_table (entry s table index) in
        if negb (valid_table_pointer next)
        then match alloc_frame s with
             | (None, s) => (None, s)
             | (Some t, s) => (Some t, set_entry table index (table_entry t flags) (clear_page t s))
             end
        else (Some next, s)
    end.

Definition pml4_index (vaddr : Z) : Z := Z.land (Z.shiftr vaddr 39) 0x1FF.
Definition pdpt_index (vaddr : Z) : Z := Z.land (Z.shiftr vaddr 30) 0x1FF.
Definition pd_index (vaddr : Z) : Z := Z.land (Z.shiftr vaddr 21) 0x1FF.
Definition pt_index (vaddr : Z) : Z := Z.land (Z.shiftr vaddr 12) 0x1FF.

Definition map_in_pml4 (pml4 virtual_addr physical_addr flags : Z) (s : vmm) : vmm :=
  let vaddr := Z.land virtual_addr VMM_PAGE_MASK in
  let paddr := Z.land physical_addr VMM_PAGE_MASK in
  match ensure_next_table pml4 (pml4_index vaddr) flags s with
  | (None, s) => s
  | (Some pdpt, s) =>
      match ensure_next_table pdpt (pdpt_index vaddr) flags s with
      | (None, s) => s
      | (Some pd, s) =>
          match ensure_next_table pd (pd_index vaddr) flags s with
          | (None, s) => s
          | (Some pt, s) =>
              set_entry pt (pt_index vaddr)
                (Z.lor (Z.land paddr VMM_ENTRY_ADDR_MASK) (Z.land flags VMM_ENTRY_FLAGS_MASK)) s
          end
      end
  end.

Definition vmm_init (s : vmm) : vmm := s <| kernel_pml4 := Z.land (cr3 s) VMM_ENTRY_ADDR_MASK |>.
Definition vmm_kernel_pml4 (s : vmm) : Z * vmm :=
  let s := if kernel_pml4 s =? 0 then vmm_init s else s in (kernel_pml4 s, s).

Definition vmm_map (virtual_addr physical_addr flags : Z) (s : vmm) : vmm :=
  let '(pml4, s) := vmm_kernel_pml4 s in map_in_pml4 pml4 virtual_addr physical_addr flags s.
Definition vmm_map_in_space (pml4 virtual_addr physical_addr flags : Z) (s : vmm) : vmm :=
  if pml4 =? 0 then s else map_in_pml4 pml4 virtual_addr physical_addr flags s.

(** Follow a present entry with a valid address. *)
Definition next_table (s : vmm) (table index : Z) : option Z :=
  if bit (entry s table index) VMM_PRESENT && valid_table_entry (entry s table index)
  then Some (entry_table (entry s table index)) else None.

Definition find_pt (s : vmm) (pml4 vaddr : Z) : option Z :=
  if negb (valid_table_pointer pml4) then None
  else
    let* pdpt := next_table s pml4 (pml4_index vaddr) in
    let* pd := next_table s pdpt (pdpt_index vaddr) in
    let* pt := next_table s pd (pd_index vaddr) in
    if valid_table_pointer pt then Some pt else None.

Definition vmm_virt_to_phys (virtual_addr : Z) (s : vmm) : Z * vmm :=
  let '(pml4, s) := vmm_kernel_pml4 s in
  let vaddr := Z.land virtual_addr VMM_PAGE_MASK in
  (match find_pt s pml4 vaddr with
   | None => 0
   | Some pt =>
       if bit (entry s pt (pt_index vaddr)) VMM_PRESENT
       then Z.lor (Z.land (entry s pt (pt_index vaddr)) VMM_ENTRY_ADDR_MASK)
                  (Z.land virtual_addr (VMM_PAGE_SIZE - 1))
       else 0
   end, s).

Definition unmap_in_pml4 (pml4 virtual_addr : Z) (s : vmm) : vmm :=
  let vaddr := Z.land virtual_addr VMM_PAGE_MASK in
  match find_pt s pml4 vaddr with
  | None => s
  | Some pt => set_entry pt (pt_index vaddr) 0 s
  end.
Definition vmm_unmap (virtual_addr : Z) (s : vmm) : vmm :=
  let '(pml4, s) := vmm_kernel_pml4 s in unmap_in_pml4 pml4 virtual_addr s.
Definition vmm_unmap_in_space (pml4 virtual_addr : Z) (s : vmm) : vmm :=
  if pml4 =? 0 then s else unmap_in_pml4 pml4 virtual_addr s.

Definition vmm_is_mapped (pml4 virtual_addr : Z) (s : vmm) : bool :=
  let vaddr := Z.land virtual_addr VMM_PAGE_MASK in
  match find_pt s pml4 vaddr with
  | None => false
  | Some pt => bit (entry s pt (pt_index vaddr)) VMM_PRESENT
  end.

Definition vmm_switch_address_space (pml4 : Z) (s : vmm) : vmm :=
  if pml4 =? 0 then s else s <| cr3 := pml4 |>.

(** * Address spaces *)

Definition free_frame (a : Z) (s : vmm) : vmm := s <| frames := pmm_free a (frames s) |>.

(** Entry 0 and the upper half are shared with [from]. *)
Definition share_kernel (pml4 from : Z) (s : vmm) : vmm :=
  let s := set_entry pml4 0 (entry s from 0) s in
  for_up 256 256 (fun i s => set_entry pml4 i (entry s from i) s) s.

Definition vmm_create_address_space (s : vmm) : option Z * vmm :=
  match alloc_frame s with
  | (None, s) => (None, s)
  | (Some pml4, s) =>
      let s := clear_page pml4 s in
      let '(kernel, s) := vmm_kernel_pml4 s in
      (Some pml4, share_kernel pml4 kernel s)
  end.

Definition user_entry (e : Z) : bool := bit e VMM_PRESENT && bit e VMM_USER.

Definition destroy_pd (pd : Z) (s : vmm) : vmm :=
  for_up 512 0 (fun i s =>
    if user_entry (entry s pd i) then free_frame (entry_table (entry s pd i)) s else s) s.
Definition destroy_pdpt (pdpt : Z) (s : vmm) : vmm :=
  for_up 512 0 (fun i s =>
    if user_entry (entry s pdpt i)
    then let pd := entry_table (entry s pdpt i) in free_frame pd (destroy_pd pd s)
    else s) s.
Definition vmm_destroy_address_space (pml4 : Z) (s : vmm) : vmm :=
  if pml4 =? 0 then s
  else
    let '(kernel, s) := vmm_kernel_pml4 s in
    if pml4 =? kernel then s
    else
      let s := for_up 512 0 (fun i s =>
        if user_entry (entry s pml4 i)
        then let pdpt := entry_table (entry s pml4 i) in free_frame pdpt (destroy_pdpt pdpt s)
        else s) s in
      free_frame pml4 s.

(** * Copy on write *)

Definition ref_frame (a : Z) (s : vmm) : vmm := s <| frames := pmm_ref_inc a (frames s) |>.

(** [flags &= ~PAGE_WRITABLE; flags |= PAGE_COW]: [PAGE_WRITABLE] is an unsigned
    int, so its complement has 32 bits. *)
Definition cow_flags (flags : Z) : Z := Z.lor (Z.land flags (lnot32 VMM_WRITABLE)) PAGE_COW.

Definition virt_of (i j k l : Z) : Z :=
  Z.lor (Z.lor (Z.lor (Z.shiftl i 39) (Z.shiftl j 30)) (Z.shiftl k 21)) (Z.shiftl l 12).

Definition clone_page (child i j k pt l : Z) (s : vmm) : vmm :=
  let e := entry s pt l in
  if negb (bit e VMM_PRESENT) then s
  else
    let phys_addr := Z.land e VMM_ENTRY_ADDR_MASK in
    let flags := Z.land e VMM_ENTRY_FLAGS_MASK in
    let '(flags, s) :=
      if bit flags VMM_WRITABLE
      then (cow_flags flags, set_entry pt l (Z.lor phys_addr (cow_flags flags)) s)
      else (flags, s) in
    ref_frame phys_addr (map_in_pml4 child (virt_of i j k l) phys_addr flags s).

(** The entries that lead to user tables. *)
Definition clone_entry (e : Z) : bool := user_entry e && valid_table_entry e.

Definition clone_pd (child i j pd : Z) (s : vmm) : vmm :=
  for_up 512 0 (fun k s =>
    if clone_entry (entry s pd k)
    then let pt := entry_table (entry s pd k) in
         if valid_table_pointer pt
         then for_up 512 0 (clone_page child i j k pt) s
         else s
    else s) s.
Definition clone_pdpt (child i pdpt : Z) (s : vmm) : vmm :=
  for_up 512 0 (fun j s =>
    if clone_entry (entry s pdpt j)
    then let pd := entry_table (entry s pdpt j) in
         if valid_table_pointer pd then clone_pd child i j pd s else s
    else s) s.
Definition clone_user (child parent : Z) (s : vmm) : vmm :=
  for_up 255 1 (fun i s =>
    if clone_entry (entry s parent i)
    then let pdpt := entry_table (entry s parent i) in
         if valid_table_pointer pdpt then clone_pdpt child i pdpt s else s
    else s) s.

Definition vmm_clone_address_space (parent_pml4 : Z) (s : vmm) : option Z * vmm :=
  if negb (valid_table_pointer parent_pml4) then (None, s)
  else
    match alloc_frame s with
    | (None, s) => (None, s)
    | (Some child, s) =>
        (Some child, clone_user child parent_pml4 (share_kernel child parent_pml4 (clear_page child s)))
    end.

(** * The page-fault handler *)

(** The fault is resolved, the task is ended by [scheduler_exit_current(-1)], or
    the kernel stops. *)
Inductive fault_result := FaultResolved | FaultKillsTask | FaultPanics.

(** The walk of the handler follows present entries with a valid pointer. *)
Definition fault_next (s : vmm) (table index : Z) : option Z :=
  if valid_table_pointer table && bit (entry s table index) VMM_PRESENT
  then Some (entry_table (entry s table index)) else None.
Definition fault_pt (s : vmm) (pml4 vaddr : Z) : option Z :=
  let* pdpt := fault_next s pml4 (pml4_index vaddr) in
  let* pd := fault_next s pdpt (pdpt_index vaddr) in
  let* pt := fault_next s pd (pd_index vaddr) in
  if valid_table_pointer pt && bit (entry s pt (pt_index vaddr)) VMM_PRESENT then Some pt else None.

(** [for (i = 0; i < 4096; i++) dst[i] = src[i];] eight bytes at a time. *)
Definition copy_frame (dst src : Z) (s : vmm) : vmm := copy_page dst src s.

(** [flags &= ~PAGE_COW; flags |= PAGE_WRITABLE] *)
Definition own_flags (flags : Z) : Z := Z.lor (Z.land flags (lnot64 PAGE_COW)) VMM_WRITABLE.

Definition unresolved (cs : Z) : fault_result :=
  if Z.land cs 3 =? 3 then FaultKillsTask else FaultPanics.

Definition vmm_page_fault_handler (error_code fault_addr cs : Z) (s : vmm) : fault_result * vmm :=
  match fault_pt s (Z.land (cr3 s) VMM_ENTRY_ADDR_MASK) fault_addr with
  | None => (unresolved cs, s)
  | Some pt =>
      let index := pt_index fault_addr in
      let pte := entry s pt index in
      if (Z.land error_code (Z.lor PF_ERROR_PRESENT PF_ERROR_WRITE) =? Z.lor PF_ERROR_PRESENT PF_ERROR_WRITE)
         && bit pte PAGE_COW
      then
        let old_frame := Z.land pte VMM_ENTRY_ADDR_MASK in
        let flags := own_flags (Z.land pte VMM_ENTRY_FLAGS_MASK) in
        if 1 <? pmm_ref_get old_frame (frames s)
        then
          match alloc_frame s with
          | (None, s) => (unresolved cs, s)
          | (Some new_frame, s) =>
              let s := copy_frame new_frame old_frame s in
              let s := set_entry pt index (Z.lor (Z.land new_frame VMM_ENTRY_ADDR_MASK) flags) s in
              let s := replace_current_task_frame old_frame new_frame s in
              (FaultResolved, free_frame old_frame s)
          end
        else (FaultResolved, set_entry pt index (Z.lor old_frame flags) s)
      else (unresolved cs, s)
  end.

(** * User pointers *)

Definition user_next (s : vmm) (table index : Z) : option Z :=
  let e := entry s table index in
  if user_entry e && valid_table_entry e then Some (entry_table e) else None.

Definition validate_page (s : vmm) (pml4 vaddr : Z) (write_intent : bool) : bool :=
  match
    (let* pdpt := user_next s pml4 (pml4_index vaddr) in
     let* pd := user_next s pdpt (pdpt_index vaddr) in
     user_next s pd (pd_index vaddr))
  with
  | None => false
  | Some pt =>
      let pte := entry s pt (pt_index vaddr) in
      valid_table_pointer pt && user_entry pte &&
      negb (write_intent && negb (bit pte VMM_WRITABLE) && negb (bit pte PAGE_COW))
  end.

Fixpoint validate_pages (n : nat) (s : vmm) (pml4 vaddr : Z) (write_intent : bool) : bool :=
  match n with
  | O => true
  | S n' => validate_page s pml4 vaddr write_intent &&
            validate_pages n' s pml4 (vaddr + VMM_PAGE_SIZE) write_intent
  end.

Definition current_pml4 (s : vmm) : Z :=
  Z.land (if negb (task_cr3 s =? 0) then task_cr3 s else cr3 s) VMM_ENTRY_ADDR_MASK.

(** The loop runs over the pages from [page_start] up to [page_end]. *)
Definition vmm_validate_user_ptr (ptr size : Z) (write_intent : bool) (s : vmm) : bool :=
  if (ptr =? 0) || (size =? 0) then false
  else
    let end_ := u64 (ptr + size) in
    if end_ <? ptr then false
    else if (ptr <? VMM_USER_BASE) || (0x0000800000000000 <=? end_) then false
    else if negb (valid_table_pointer (current_pml4 s)) then false
    else
      let page_start := Z.land ptr VMM_PAGE_MASK in
      let page_end := u64 (Z.land (u64 (ptr + size - 1)) VMM_PAGE_MASK + VMM_PAGE_SIZE) in
      validate_pages (Z.to_nat ((page_end - page_start) / VMM_PAGE_SIZE)) s (current_pml4 s) page_start
        write_intent.

(** The byte the processor loads from a mapped virtual address through [cr3]. *)
Definition user_byte (s : vmm) (vaddr : Z) : Z :=
  match fault_pt s (Z.land (cr3 s) VMM_ENTRY_ADDR_MASK) vaddr with
  | None => 0
  | Some pt =>
      let a := Z.land (entry s pt (pt_index vaddr)) VMM_ENTRY_ADDR_MASK + vaddr mod 4096 in
      word s (8 * (a / 8)) / 256 ^ (a mod 8) mod 256
  end.

Fixpoint validate_string_loop (n : nat) (addr : Z) (s : vmm) : bool :=
  match n with
  | O => false
  | S n' =>
      if negb (vmm_validate_user_ptr addr 1 false s) then false
      else if user_byte s addr =? 0 then true
      else validate_string_loop n' (u64 (addr + 1)) s
  end.
Definition vmm_validate_user_string (str max_len : Z) (s : vmm) : bool :=
  if (str =? 0) || (max_len =? 0) then false
  else if (str <? VMM_USER_BASE) || (0x0000800000000000 <=? str) then false
  else validate_string_loop (Z.to_nat max_len) str s.
