(* ===== verification/VmmTable.v ===== *)
(** The page tables of [Vmm] as trees: bits of entries, the indices of an address,
    the tables reached from a root, and the invariant that the trees of all
    address spaces are disjoint. *)

From S2P Require Import Prelude Pmm Vmm.

(** * Bits of an entry *)

Lemma land_low k b : 0 <= b < 4096 -> Z.land (4096 * k) b = 0.
Proof.
  intros Hb. rewrite Z.mul_comm. change 4096 with (2 ^ 12). rewrite <- Z.shiftl_mul_pow2 by lia.
  apply Z.bits_inj'. intros n Hn. rewrite Z.land_spec, Z.bits_0. destruct (Z_lt_le_dec n 12).
  - by rewrite Z.shiftl_spec_low.
  - rewrite <- (Z.mod_small b (2 ^ 12)) by (change (2 ^ 12) with 4096; lia).
    rewrite Z.mod_pow2_bits_high by lia. apply andb_false_r.
Qed.

Lemma addr_mask_spec n : 0 <= n -> Z.testbit VMM_ENTRY_ADDR_MASK n = (12 <=? n) && (n <? 52).
Proof.
  intros Hn. replace VMM_ENTRY_ADDR_MASK with (Z.shiftl (Z.ones 40) 12) by done.
  rewrite Z.shiftl_spec by lia. destruct (Z.leb_spec 12 n).
  - destruct (Z.ltb_spec n 52); [rewrite Z.ones_spec_low by lia|rewrite Z.ones_spec_high by lia]; done.
  - by rewrite Z.testbit_neg_r by lia.
Qed.

(** A frame address: page aligned, below 2^52. *)
Definition aligned (t : Z) : Prop := t mod 4096 = 0 /\ 0 <= t < 4503599627370496.

Lemma land_addr t : aligned t -> Z.land t VMM_ENTRY_ADDR_MASK = t.
Proof.
  intros [Hm Ht]. apply Z.bits_inj'. intros n Hn. rewrite Z.land_spec, addr_mask_spec by lia.
  destruct (Z.leb_spec 12 n); cbn [andb].
  - destruct (Z.ltb_spec n 52); [by rewrite andb_true_r|].
    rewrite <- (Z.mod_small t (2 ^ 52)) by (change (2 ^ 52) with 4503599627370496; lia).
    by rewrite Z.mod_pow2_bits_high by lia.
  - rewrite andb_false_r. replace t with (Z.shiftl (t / 4096) 12).
    + by rewrite Z.shiftl_spec_low by lia.
    + rewrite Z.shiftl_mul_pow2 by lia. change (2 ^ 12) with 4096. ulia.
Qed.

Lemma entry_aligned e : aligned (entry_table e).
Proof.
  unfold entry_table. replace VMM_ENTRY_ADDR_MASK with (Z.ones 40 * 2 ^ 12) by done.
  assert (E : Z.land e (Z.ones 40 * 2 ^ 12) = (e / 4096 mod 2 ^ 40) * 4096).
  { rewrite <- (Z.shiftl_mul_pow2 (Z.ones 40)) by lia. change 4096 with (2 ^ 12).
    rewrite <- Z.land_ones, <- Z.shiftr_div_pow2, <- Z.shiftl_mul_pow2 by lia.
    apply Z.bits_inj'. intros n Hn. rewrite Z.land_spec, !Z.shiftl_spec by lia.
    destruct (Z_lt_le_dec n 12); [rewrite !(Z.testbit_neg_r _ (n - 12)) by lia; apply andb_false_r|].
    rewrite Z.land_spec, Z.shiftr_spec by lia. by replace (n - 12 + 12) with n by lia. }
  rewrite E. split; [apply Z.mod_mul; lia|].
  pose proof (Z.mod_pos_bound (e / 4096) (2 ^ 40)). change (2 ^ 40) with 1099511627776 in *. lia.
Qed.

Lemma entry_table_lor t fl : aligned t -> Z.land fl VMM_ENTRY_ADDR_MASK = 0 -> entry_table (Z.lor t fl) = t.
Proof. intros Ht Hf. unfold entry_table. by rewrite Z.land_lor_distr_l, Hf, Z.lor_0_r, land_addr. Qed.

Lemma bit_lor t fl b : aligned t -> 0 <= b < 4096 -> bit (Z.lor t fl) b = bit fl b.
Proof.
  intros [Hm _] Hb. unfold bit. rewrite Z.land_lor_distr_l.
  replace t with (4096 * (t / 4096)) by ulia. by rewrite land_low, Z.lor_0_l.
Qed.

(** A flag that is kept by a mask. *)
Lemma bit_land e m b : Z.land m b = b -> bit (Z.land e m) b = bit e b.
Proof. intros E. unfold bit. by rewrite <- Z.land_assoc, E. Qed.
Lemma bit_lor_other e m b : Z.land m b = 0 -> bit (Z.lor e m) b = bit e b.
Proof. intros E. unfold bit. by rewrite Z.land_lor_distr_l, E, Z.lor_0_r. Qed.
Lemma bit_lor_same e m b : Z.land m b = b -> b <> 0 -> bit (Z.lor e m) b = true.
Proof.
  intros E Hb. unfold bit. apply negb_true_iff, Z.eqb_neq. rewrite Z.land_lor_distr_l, E.
  intros [_ ?]%Z.lor_eq_0_iff. done.
Qed.

Lemma valid_aligned t : aligned t -> valid_table_pointer t = negb (t =? 0).
Proof.
  intros [Hm _]. unfold valid_table_pointer. replace (Z.land t (VMM_PAGE_SIZE - 1)) with 0; [apply andb_true_r|].
  change (VMM_PAGE_SIZE - 1) with (Z.ones 12). rewrite Z.land_ones by lia. change (2 ^ 12) with 4096. lia.
Qed.

(** * Indices *)

Lemma land_511 x : Z.land x 0x1FF = x mod 512.
Proof. change 0x1FF with (Z.ones 9). rewrite Z.land_ones by lia. done. Qed.

Definition in_table (i : Z) : Prop := 0 <= i < 512.

Lemma indices v :
  pml4_index v = v / 549755813888 mod 512 /\ pdpt_index v = v / 1073741824 mod 512 /\
  pd_index v = v / 2097152 mod 512 /\ pt_index v = v / 4096 mod 512.
Proof.
  unfold pml4_index, pdpt_index, pd_index, pt_index. rewrite !land_511, !Z.shiftr_div_pow2 by lia. done.
Qed.

Lemma indices_range v :
  in_table (pml4_index v) /\ in_table (pdpt_index v) /\ in_table (pd_index v) /\ in_table (pt_index v).
Proof. destruct (indices v) as (-> & -> & -> & ->). unfold in_table. split_and!; apply Z.mod_pos_bound; lia. Qed.

(** [v & VMM_PAGE_MASK] has the same indices. *)
Lemma page_of v : is_u64 v -> Z.land v VMM_PAGE_MASK = v - v mod 4096.
Proof.
  intros Hv. unfold VMM_PAGE_MASK. change 4095 with (2 ^ 12 - 1). rewrite land_align_down by (done || lia).
  change (2 ^ 12) with 4096. ulia.
Qed.

Lemma page_indices v : is_u64 v ->
  let w := Z.land v VMM_PAGE_MASK in
  pml4_index w = pml4_index v /\ pdpt_index w = pdpt_index v /\ pd_index w = pd_index v /\ pt_index w = pt_index v.
Proof.
  intros Hv. cbn zeta. rewrite page_of by done.
  destruct (indices v) as (-> & -> & -> & ->), (indices (v - v mod 4096)) as (-> & -> & -> & ->).
  assert (E : forall d, 0 < d -> (v - v mod 4096) / (4096 * d) = v / (4096 * d)).
  { intros d Hd. rewrite <- !Z.div_div by lia. f_equal. ulia. }
  pose proof (E 134217728). pose proof (E 262144). pose proof (E 512). pose proof (E 1).
  cbn in *. split_and!; f_equal; auto with lia.
Qed.

Lemma virt_of_sum i j k l :
  in_table i -> in_table j -> in_table k -> in_table l ->
  virt_of i j k l = ((i * 512 + j) * 512 + k) * 512 * 4096 + l * 4096.
Proof.
  unfold in_table. intros. unfold virt_of. rewrite !Z.shiftl_mul_pow2 by lia.
  rewrite <- !Z.lor_assoc. rewrite (lor_add k) by (change (2 ^ 12) with 4096; change (2 ^ 21) with 2097152; lia).
  rewrite (lor_add j) by (change (2 ^ 12) with 4096; change (2 ^ 21) with 2097152; change (2 ^ 30) with 1073741824; lia).
  rewrite lor_add by (change (2 ^ 12) with 4096; change (2 ^ 21) with 2097152;
    change (2 ^ 30) with 1073741824; change (2 ^ 39) with 549755813888; lia).
  lia.
Qed.

Lemma virt_of_indices i j k l :
  in_table i -> in_table j -> in_table k -> in_table l ->
  let v := virt_of i j k l in
  pml4_index v = i /\ pdpt_index v = j /\ pd_index v = k /\ pt_index v = l.
Proof.
  intros Hi Hj Hk Hl. cbn zeta. rewrite virt_of_sum by done.
  destruct (indices (((i * 512 + j) * 512 + k) * 512 * 4096 + l * 4096)) as (-> & -> & -> & ->).
  unfold in_table in *. split_and!; ulia.
Qed.

(** * Reading and writing entries *)

Lemma slot_inj t i t' i' :
  aligned t -> aligned t' -> in_table i -> in_table i' -> slot t i = slot t' i' -> t = t' /\ i = i'.
Proof. unfold aligned, in_table, slot. intros [? _] [? _]. ulia. Qed.

Lemma entry_set s t i v t' i' :
  aligned t -> aligned t' -> in_table i -> in_table i' ->
  entry (set_entry t i v s) t' i' = if (t' =? t) && (i' =? i) then v else entry s t' i'.
Proof.
  intros Ht Ht' Hi Hi'. unfold entry, set_entry, word, set_word. cbn.
  destruct (Z.eqb_spec t' t) as [->|Hne]; [destruct (Z.eqb_spec i' i) as [->|Hne]|]; cbn [andb].
  - by rewrite lookup_insert_eq.
  - rewrite lookup_insert_ne; [done|]. intros E. by apply slot_inj in E as [_ ?].
  - rewrite lookup_insert_ne; [done|]. intros E. by apply slot_inj in E as [? _].
Qed.

(** Everything but memory. *)
Definition same_rest (s s' : vmm) : Prop :=
  frames s' = frames s /\ kernel_pml4 s' = kernel_pml4 s /\ cr3 s' = cr3 s /\ task_cr3 s' = task_cr3 s /\
  inventory s' = inventory s.

Lemma same_rest_refl s : same_rest s s.
Proof. done. Qed.
Lemma same_rest_set s s' t i v : same_rest s s' -> same_rest s (set_entry t i v s').
Proof. intros (E1 & E2 & E3 & E4 & E5). split_and!; assumption. Qed.

Lemma clear_page_facts p s :
  aligned p ->
  same_rest s (clear_page p s) /\
  forall t i, aligned t -> in_table i ->
    entry (clear_page p s) t i = if t =? p then 0 else entry s t i.
Proof.
  intros Hp.
  pose proof (for_up_ind (fun n s' => same_rest s s' /\ forall t i, aligned t -> in_table i ->
    entry s' t i = if (t =? p) && (i <? n) then 0 else entry s t i) 512 0
    (fun i s => set_entry p i 0 s) s) as L.
  destruct L as [L1 L2].
  - split; [done|]. intros t i _ [? _]. destruct (Z.ltb_spec i 0); [lia|]. by rewrite andb_false_r.
  - intros n s' Hn (R & E). split; [by apply same_rest_set|]. intros t i Ht Hi.
    rewrite entry_set by (unfold in_table in *; done || lia). rewrite E by done.
    destruct (Z.eqb_spec t p); cbn [andb]; [|done].
    destruct (Z.eqb_spec i n), (Z.ltb_spec i n), (Z.ltb_spec i (n + 1)); try done; lia.
  - split; [exact L1|]. intros t i Ht [Hi Hi']. unfold clear_page. rewrite L2 by done.
    destruct (Z.eqb_spec t p); cbn [andb]; [|done]. destruct (Z.ltb_spec i (0 + Z.of_nat 512)); [done|lia].
Qed.

Lemma copy_page_facts p q s :
  aligned p -> aligned q -> p <> q ->
  same_rest s (copy_page p q s) /\
  forall t i, aligned t -> in_table i ->
    entry (copy_page p q s) t i = if t =? p then entry s q i else entry s t i.
Proof.
  intros Hp Hq Hne.
  pose proof (for_up_ind (fun n s' => same_rest s s' /\ forall t i, aligned t -> in_table i ->
    entry s' t i = if (t =? p) && (i <? n) then entry s q i else entry s t i) 512 0
    (fun i s => set_entry p i (entry s q i) s) s) as L.
  destruct L as [L1 L2].
  - split; [done|]. intros t i _ [? _]. destruct (Z.ltb_spec i 0); [lia|]. by rewrite andb_false_r.
  - intros n s' Hn (R & E). split; [by apply same_rest_set|]. intros t i Ht Hi.
    assert (in_table n) by (unfold in_table; lia).
    rewrite entry_set by done. rewrite !E by done.
    destruct (Z.eqb_spec q p); [congruence|]. cbn [andb].
    destruct (Z.eqb_spec t p); cbn [andb]; [|done].
    destruct (Z.eqb_spec i n) as [->|]; [by destruct (Z.ltb_spec n (n + 1)); [|lia]|].
    destruct (Z.ltb_spec i n), (Z.ltb_spec i (n + 1)); try done; lia.
  - split; [exact L1|]. intros t i Ht [Hi Hi']. unfold copy_page. rewrite L2 by done.
    destruct (Z.eqb_spec t p); cbn [andb]; [|done]. destruct (Z.ltb_spec i (0 + Z.of_nat 512)); [done|lia].
Qed.

(** * Paths *)

(** The table reached from [t] along the indices [p]. *)
Fixpoint table (s : vmm) (t : Z) (p : list Z) : option Z :=
  match p with
  | [] => Some t
  | i :: p' => let* t' := next_table s t i in table s t' p'
  end.

Lemma table_snoc s t p i :
  table s t (p ++ [i]) = let* t' := table s t p in next_table s t' i.
Proof.
  revert t. induction p as [|j p IH]; intros t; cbn [table app].
  - by destruct (next_table s t i).
  - destruct (next_table s t j); [apply IH|done].
Qed.

Lemma next_table_aligned s t i t' : next_table s t i = Some t' -> aligned t'.
Proof. unfold next_table. case_match; [|done]. intros [= <-]. apply entry_aligned. Qed.

(** The user half: the first index is between 1 and 255. *)
Definition vpath (p : list Z) : Prop :=
  (length p <= 3)%nat /\ Forall in_table p /\ match p with i :: _ => 1 <= i <= 255 | [] => True end.

Lemma vpath_snoc p i : vpath (p ++ [i]) -> vpath p /\ in_table i /\ (length p < 3)%nat.
Proof.
  intros (L & F & H). rewrite length_app in L. cbn in L. apply Forall_app in F as [F1 F2].
  rewrite Forall_singleton in F2.
  split; [split; [lia|split; [exact F1|]]|split; [exact F2|lia]]. destruct p; [exact I|exact H].
Qed.

Lemma vpath_prefix p q : vpath (p ++ q) -> vpath p.
Proof.
  induction q as [|i q IH] using rev_ind; [by rewrite app_nil_r|].
  rewrite app_assoc. intros (H & _)%vpath_snoc. exact (IH H).
Qed.

(** A page of an address space: the root, the path to its table, the index there. *)
Definition page : Type := Z * list Z * Z.
Definition is_page (rs : list Z) (x : page) : Prop :=
  let '(r, p, l) := x in r ∈ rs /\ vpath p /\ length p = 3%nat /\ in_table l.

(** Its entry; 0 when there is no table. *)
Definition pte (s : vmm) (x : page) : Z :=
  let '(r, p, l) := x in
  match table s r p with Some t => entry s t l | None => 0 end.

Definition refs (s : vmm) (f : Z) : Z := refcount (frames s) (f / 4096).

(** A frame above the reserved area that is in use. *)
Definition user_frame (s : vmm) (f : Z) : Prop :=
  f mod 4096 = 0 /\ pmm_reserved_block_count (frames s) <= f / 4096 < PMM_MAX_BLOCKS /\ 0 < refs s f.

Definition maps (s : vmm) (rs : list Z) (x : page) (f : Z) : Prop :=
  is_page rs x /\ bit (pte s x) VMM_PRESENT = true /\ entry_table (pte s x) = f.

Definition is_node (rs : list Z) (r : Z) (p : list Z) : Prop := r ∈ rs /\ vpath p.

(** The trees of the roots [rs] are made of distinct frames, their inner entries
    are valid and open to user mode, and their pages are frames of their own. *)
Record twf (s : vmm) (rs : list Z) : Prop := {
  t_pmm : pmm_wf (frames s);
  t_table : forall r p t, is_node rs r p -> table s r p = Some t -> user_frame s t;
  t_entry : forall r p t i, is_node rs r (p ++ [i]) -> table s r p = Some t ->
    bit (entry s t i) VMM_PRESENT = true ->
    valid_table_entry (entry s t i) = true /\ bit (entry s t i) VMM_USER = true;
  t_inj : forall r p r' p' t, is_node rs r p -> is_node rs r' p' ->
    table s r p = Some t -> table s r' p' = Some t -> r = r' /\ p = p';
  t_leaf : forall x f, maps s rs x f ->
    user_frame s f /\ forall r p, is_node rs r p -> table s r p <> Some f
}.

Lemma user_frame_aligned s f : pmm_wf (frames s) -> user_frame s f -> aligned f /\ 0 < f.
Proof.
  intros Hw (H1 & H2 & _). pose proof (wf_reserved _ Hw). unfold aligned. pmm_consts.
  change PMM_MAX_BLOCKS with 32768 in *. ulia.
Qed.

(** * Allocation *)

Definition full (s : vmm) : Prop := forall b, 0 <= b < PMM_MAX_BLOCKS -> 0 < refcount (frames s) b.

(** [f] has just been allocated. *)
Record allocated (s s' : vmm) (f : Z) : Prop := {
  a_pmm : pmm_wf (frames s');
  a_frame : user_frame s' f;
  a_free : refs s f = 0;
  a_reserved : pmm_reserved_block_count (frames s') = pmm_reserved_block_count (frames s);
  a_refs : forall b, 0 <= b < PMM_MAX_BLOCKS ->
    refcount (frames s') b = if b =? f / 4096 then 1 else refcount (frames s) b
}.

Definition same_regs (s s' : vmm) : Prop :=
  cr3 s' = cr3 s /\ task_cr3 s' = task_cr3 s /\ kernel_pml4 s' = kernel_pml4 s /\ inventory s' = inventory s.
Lemma same_regs_trans s s1 s2 : same_regs s s1 -> same_regs s1 s2 -> same_regs s s2.
Proof. intros (? & ? & ? & ?) (? & ? & ? & ?). split_and!; congruence. Qed.
Lemma same_rest_regs s s' : same_rest s s' -> same_regs s s'.
Proof. intros (? & ? & ? & ? & ?). done. Qed.
Lemma same_regs_set s t i v : same_regs s (set_entry t i v s).
Proof. done. Qed.
Lemma entry_words s s' t i : words s' = words s -> entry s' t i = entry s t i.
Proof. unfold entry, word. by intros ->. Qed.

Lemma alloc_frame_facts s :
  pmm_wf (frames s) ->
  match alloc_frame s with
  | (None, s') => s' = s /\ full s
  | (Some f, s') => allocated s s' f /\ words s' = words s /\ same_regs s s'
  end.
Proof.
  intros Hw. unfold alloc_frame. pose proof (pmm_alloc_cases _ Hw) as H.
  destruct (pmm_alloc (frames s)) as [[f|] m].
  - destruct H as (b & -> & Hb & Hz & _ & Em). split; [|done].
    pose proof (wf_reserved _ Hw).
    assert (Hb0 : 0 <= b < PMM_MAX_BLOCKS) by lia.
    pose proof (pmm_take_wf b _ Hw Hb0) as Hw'. rewrite <- Em in Hw'.
    assert (Hr : forall c, 0 <= c < PMM_MAX_BLOCKS -> refcount m c = if c =? b then 1 else refcount (frames s) c).
    { intros c Hc. rewrite Em. apply (refcount_set_refcount b c 1 (bitmap_set b (frames s))); try done. apply Hw. }
    assert (Eb : b * PMM_PAGE_SIZE / 4096 = b) by (pmm_consts; apply Z.div_mul; lia).
    assert (Er : pmm_reserved_block_count m = pmm_reserved_block_count (frames s)) by (by rewrite Em).
    split; cbn; rewrite ?Eb; try done.
    + unfold user_frame, refs. cbn. rewrite Eb, Er. split_and!; [pmm_consts; apply Z.mod_mul; lia|lia|lia|].
      rewrite Hr by done. by rewrite Z.eqb_refl.
    + unfold refs. by rewrite Eb.
  - destruct H as [-> Hf]. split; [by destruct s|exact Hf].
Qed.
