(* ===== verification/VmmMap.v ===== *)
(** Mapping and unmapping pages with the functions of [Vmm]: growing a tree does not
    change any page, and [map_in_pml4] and [unmap_in_pml4] change exactly one. *)

From S2P Require Import Prelude Pmm Vmm VmmTable.

#[global] Opaque clear_page copy_page.

(** * Facts of a well-formed tree *)

Section Trees.
Context (s : vmm) (rs : list Z) (Hwf : twf s rs).

Lemma node_prefix r p i : is_node rs r (p ++ [i]) -> is_node rs r p /\ in_table i.
Proof. intros [Hr (Hp & Hi & _)%vpath_snoc]. done. Qed.

Lemma table_aligned r p t : is_node rs r p -> table s r p = Some t -> aligned t /\ 0 < t.
Proof. intros Hn Ht. eapply user_frame_aligned; [apply Hwf|by eapply (t_table _ _ Hwf)]. Qed.

Lemma page_node x : is_page rs x -> is_node rs x.1.1 x.1.2.
Proof. destruct x as [[r p] l]. intros (H1 & H2 & _). done. Qed.

(** A frame that was free is none of the tables and no page's frame. *)
Lemma fresh_not_table f r p : refs s f = 0 -> is_node rs r p -> table s r p <> Some f.
Proof. intros Hz Hn Ht. destruct (t_table _ _ Hwf _ _ _ Hn Ht) as (_ & _ & ?). lia. Qed.
Lemma fresh_not_page f x : refs s f = 0 -> ~ maps s rs x f.
Proof. intros Hz Hm. destruct (t_leaf _ _ Hwf _ _ Hm) as [(_ & _ & ?) _]. lia. Qed.
End Trees.

(** * Growing a tree *)

(** [s'] is [s] with the empty table [t'] entered at index [i] of the table at [p]. *)
Record graft (s s' : vmm) (rs : list Z) (r : Z) (p : list Z) (i t t' : Z) : Prop := {
  g_node : is_node rs r (p ++ [i]);
  g_table : table s r p = Some t;
  g_absent : bit (entry s t i) VMM_PRESENT = false;
  g_alloc : allocated s s' t';
  g_present : next_table s' t i = Some t' /\ bit (entry s' t i) VMM_USER = true;
  g_entries : forall u j, aligned u -> in_table j -> (u, j) <> (t, i) ->
    entry s' u j = if u =? t' then 0 else entry s u j
}.

Section Graft.
Context (s s' : vmm) (rs : list Z) (Hwf : twf s rs).
Context (r : Z) (p : list Z) (i t t' : Z) (G : graft s s' rs r p i t t').

Lemma graft_fresh r' q : is_node rs r' q -> table s r' q <> Some t'.
Proof. apply (fresh_not_table s rs Hwf). apply (a_free _ _ _ (g_alloc _ _ _ _ _ _ _ _ G)). Qed.

Lemma graft_here : table s r (p ++ [i]) = None.
Proof.
  rewrite table_snoc, (g_table _ _ _ _ _ _ _ _ G). unfold next_table.
  by rewrite (g_absent _ _ _ _ _ _ _ _ G).
Qed.

Lemma graft_next u j :
  aligned u -> in_table j -> (u, j) <> (t, i) ->
  next_table s' u j = if u =? t' then None else next_table s u j.
Proof.
  intros Hu Hj Hne. unfold next_table. rewrite (g_entries _ _ _ _ _ _ _ _ G u j Hu Hj Hne).
  by destruct (u =? t').
Qed.

Lemma graft_table r' q :
  is_node rs r' q ->
  table s' r' q = if decide ((r', q) = (r, p ++ [i])) then Some t' else table s r' q.
Proof.
  induction q as [|j q IH] using rev_ind; intros Hn.
  { cbn. case_decide as E; [|done]. injection E as _ E. by destruct p. }
  destruct (node_prefix rs _ _ _ Hn) as [Hq Hj]. rewrite !table_snoc, (IH Hq).
  pose proof (g_node _ _ _ _ _ _ _ _ G) as Hpi. destruct (node_prefix rs _ _ _ Hpi) as [Hp Hi].
  pose proof (g_table _ _ _ _ _ _ _ _ G) as Ht.
  destruct (table_aligned s rs Hwf _ _ _ Hp Ht) as [At _].
  pose proof (g_alloc _ _ _ _ _ _ _ _ G) as A.
  destruct (user_frame_aligned _ _ (a_pmm _ _ _ A) (a_frame _ _ _ A)) as [At' _].
  assert (Htt : t <> t') by (intros E; rewrite E in Ht; by eapply graft_fresh in Ht).
  case_decide as E1.
  - injection E1 as -> ->. rewrite graft_here. rewrite graft_next by (done || congruence).
    rewrite Z.eqb_refl. case_decide as E2; [|done].
    injection E2 as E2%(f_equal length). rewrite !length_app in E2. cbn in E2. lia.
  - destruct (table s r' q) as [u|] eqn:Hu.
    2:{ case_decide as E2; [|done]. injection E2 as -> [-> ->]%app_inj_tail. congruence. }
    destruct (table_aligned s rs Hwf _ _ _ Hq Hu) as [Au _].
    destruct (decide ((u, j) = (t, i))) as [[= -> ->]|Hne].
    + destruct (t_inj _ _ Hwf _ _ _ _ _ Hq Hp Hu Ht) as [-> ->].
      rewrite (proj1 (g_present _ _ _ _ _ _ _ _ G)). by rewrite decide_True.
    + rewrite graft_next by done. destruct (Z.eqb_spec u t') as [->|]; [by eapply graft_fresh in Hu|].
      rewrite decide_False; [done|]. intros [= -> [-> ->]%app_inj_tail]. congruence.
Qed.

Lemma graft_pte x : is_page rs x -> pte s' x = pte s x.
Proof.
  destruct x as [[r' q] l]. intros (Hr & Hq & Hl3 & Hl). unfold pte. rewrite graft_table by done.
  pose proof (g_alloc _ _ _ _ _ _ _ _ G) as A.
  destruct (user_frame_aligned _ _ (a_pmm _ _ _ A) (a_frame _ _ _ A)) as [At' _].
  pose proof (g_node _ _ _ _ _ _ _ _ G) as Hpi. destruct (node_prefix rs _ _ _ Hpi) as [Hp Hi].
  pose proof (g_table _ _ _ _ _ _ _ _ G) as Ht.
  case_decide as E.
  - injection E as -> ->. rewrite graft_here. rewrite (g_entries _ _ _ _ _ _ _ _ G t' l At' Hl).
    + by rewrite Z.eqb_refl.
    + intros [= E _]. rewrite <- E in Ht. by eapply graft_fresh in Ht.
  - destruct (table s r' q) as [u|] eqn:Hu; [|done].
    destruct (table_aligned s rs Hwf r' q u) as [Au _]; [done|done|].
    rewrite (g_entries _ _ _ _ _ _ _ _ G); [|done|done|].
    + destruct (Z.eqb_spec u t') as [->|]; [|done]. exfalso. by apply (graft_fresh r' q).
    + intros [= -> ->]. destruct (t_inj _ _ Hwf r' q r p t) as [_ ->]; [done..|].
      destruct Hpi as [_ (L & _)]. rewrite length_app in L. cbn in L. lia.
Qed.
End Graft.

Lemma allocated_keeps s s' t f :
  allocated s s' t -> user_frame s f -> user_frame s' f /\ refs s' f = refs s f /\ f <> t.
Proof.
  intros A (H1 & H2 & H3). assert (Hne : f <> t) by (intros ->; rewrite (a_free _ _ _ A) in H3; lia).
  assert (Hb : f / 4096 <> t / 4096).
  { destruct (a_frame _ _ _ A) as (T1 & _). ulia. }
  assert (E : refs s' f = refs s f).
  { unfold refs. assert (0 <= f / 4096 < PMM_MAX_BLOCKS).
    { pose proof (wf_reserved _ (a_pmm _ _ _ A)). rewrite (a_reserved _ _ _ A) in *. lia. }
    rewrite (a_refs _ _ _ A) by done. by destruct (Z.eqb_spec (f / 4096) (t / 4096)). }
  split_and!; [|done|done]. unfold user_frame. rewrite E, (a_reserved _ _ _ A). done.
Qed.

Lemma allocated_memory s s1 s2 t : allocated s s1 t -> frames s2 = frames s1 -> allocated s s2 t.
Proof.
  intros [A1 A2 A3 A4 A5] E. unfold user_frame, refs in *.
  split; unfold user_frame, refs; rewrite ?E; done.
Qed.

(** More tables, the same pages. *)
Record grown (s s' : vmm) (rs : list Z) : Prop := {
  gr_twf : twf s' rs;
  gr_pte : forall x, is_page rs x -> pte s' x = pte s x;
  gr_table : forall r p t, is_node rs r p -> table s r p = Some t -> table s' r p = Some t;
  gr_frame : forall f, user_frame s f -> user_frame s' f /\ refs s' f = refs s f;
  gr_reserved : pmm_reserved_block_count (frames s') = pmm_reserved_block_count (frames s);
  gr_data : forall f j, user_frame s f -> in_table j -> (forall r p, is_node rs r p -> table s r p <> Some f) ->
    entry s' f j = entry s f j /\ forall r p, is_node rs r p -> table s' r p <> Some f;
  gr_regs : same_regs s s'
}.

Lemma grown_refl s rs : twf s rs -> grown s s rs.
Proof. intros H. by split. Qed.

Lemma grown_trans s s1 s2 rs : grown s s1 rs -> grown s1 s2 rs -> grown s s2 rs.
Proof.
  intros [A1 A2 A3 A4 A5 A6 A7] [B1 B2 B3 B4 B5 B6 B7]. split; try done.
  - intros x Hx. by rewrite B2, A2.
  - intros r p t Hn Ht. by apply B3, A3.
  - intros f Hf. destruct (A4 f Hf) as [F1 E1]. destruct (B4 f F1) as [F2 E2]. split; [done|congruence].
  - congruence.
  - intros f j Hf Hj Hn. destruct (A6 f j Hf Hj Hn) as [E1 N1].
    destruct (B6 f j (proj1 (A4 f Hf)) Hj N1) as [E2 N2]. split; [congruence|done].
  - by eapply same_regs_trans.
Qed.

Section GraftWf.
Context (s s' : vmm) (rs : list Z) (Hwf : twf s rs).
Context (r : Z) (p : list Z) (i t t' : Z) (G : graft s s' rs r p i t t').

Lemma graft_twf : twf s' rs.
Proof.
  pose proof (g_alloc _ _ _ _ _ _ _ _ G) as A. pose proof (g_node _ _ _ _ _ _ _ _ G) as Hpi.
  destruct (node_prefix rs _ _ _ Hpi) as [Hp Hi]. pose proof (g_table _ _ _ _ _ _ _ _ G) as Ht.
  destruct (user_frame_aligned _ _ (a_pmm _ _ _ A) (a_frame _ _ _ A)) as [At' _].
  pose proof (graft_table s s' rs Hwf r p i t t' G) as T.
  assert (Hmap : forall x f, maps s' rs x f -> maps s rs x f).
  { intros x f (Hx & H1 & H2). rewrite (graft_pte s s' rs Hwf r p i t t' G x Hx) in H1, H2. done. }
  split.
  - apply A.
  - intros r' q u Hn Hu. rewrite T in Hu by done. case_decide; [injection Hu as <-; apply A|].
    by apply (allocated_keeps s s' t'), (t_table _ _ Hwf _ _ _ Hn).
  - intros r' q u j Hn Hu Hb. destruct (node_prefix rs _ _ _ Hn) as [Hq Hj]. rewrite T in Hu by done.
    case_decide as E.
    + injection Hu as <-. rewrite (g_entries _ _ _ _ _ _ _ _ G t' j At' Hj), Z.eqb_refl in Hb; [done|].
      intros [= E' _]. rewrite <- E' in Ht. by eapply graft_fresh in Ht.
    + destruct (table_aligned s rs Hwf _ _ _ Hq Hu) as [Au _].
      destruct (decide ((u, j) = (t, i))) as [[= -> ->]|Hne].
      * destruct (g_present _ _ _ _ _ _ _ _ G) as [P1 P2]. split; [|done]. unfold next_table in P1.
        rewrite Hb in P1. by destruct (valid_table_entry _).
      * rewrite (g_entries _ _ _ _ _ _ _ _ G u j Au Hj Hne) in *.
        destruct (u =? t'); [done|]. by apply (t_entry _ _ Hwf r' q u j).
  - intros r1 q1 r2 q2 u N1 N2 U1 U2. rewrite T in U1, U2 by done.
    destruct (decide ((r1, q1) = (r, p ++ [i]))) as [E1|E1], (decide ((r2, q2) = (r, p ++ [i]))) as [E2|E2].
    + injection E1 as -> ->. injection E2 as -> ->. done.
    + injection U1 as <-. exfalso. by eapply graft_fresh in U2.
    + injection U2 as <-. exfalso. by eapply graft_fresh in U1.
    + by apply (t_inj _ _ Hwf r1 q1 r2 q2 u).
  - intros x f Hm%Hmap. destruct (t_leaf _ _ Hwf x f Hm) as [Hf Hn].
    destruct (allocated_keeps s s' t' f A Hf) as (F1 & _ & F3). split; [done|].
    intros r' q Hq. rewrite T by done. case_decide; [congruence|by apply Hn].
Qed.

Lemma graft_grown : same_regs s s' -> grown s s' rs.
Proof.
  intros Hrest. pose proof (g_alloc _ _ _ _ _ _ _ _ G) as A. pose proof (g_node _ _ _ _ _ _ _ _ G) as Hpi.
  destruct (node_prefix rs _ _ _ Hpi) as [Hp Hi].
  pose proof (graft_table s s' rs Hwf r p i t t' G) as T. split; try done.
  - apply graft_twf.
  - by apply (graft_pte s s' rs Hwf r p i t t' G).
  - intros r' q u Hn Hu. rewrite T by done. case_decide as E; [|done].
    injection E as -> ->. by rewrite (graft_here s s' rs r p i t t' G) in Hu.
  - intros f Hf. by destruct (allocated_keeps s s' t' f A Hf) as (? & ? & _).
  - apply A.
  - intros f j Hf Hj Hn. destruct (allocated_keeps s s' t' f A Hf) as (_ & _ & Hne).
    destruct (user_frame_aligned s f (t_pmm _ _ Hwf) Hf) as [Af _]. split.
    + rewrite (g_entries _ _ _ _ _ _ _ _ G f j Af Hj).
      * by destruct (Z.eqb_spec f t').
      * intros [= E _]. rewrite E in Hn. by apply (Hn r p), G.
    + intros r' q Hq. rewrite T by done. case_decide; [congruence|by apply Hn].
Qed.
End GraftWf.

(** * [ensure_next_table] *)

Lemma table_entry_facts t fl :
  aligned t -> 0 < t -> bit fl VMM_USER = true ->
  bit (table_entry t fl) VMM_PRESENT = true /\ bit (table_entry t fl) VMM_USER = true /\
  entry_table (table_entry t fl) = t /\ valid_table_entry (table_entry t fl) = true.
Proof.
  intros Ht Hpos Hu. unfold table_entry, table_flags.
  assert (E : Z.land fl VMM_USER = VMM_USER).
  { unfold bit in Hu. apply negb_true_iff, Z.eqb_neq in Hu. revert Hu. change VMM_USER with (2 ^ 2).
    rewrite <- Z.shiftl_1_l. intros Hu.
    assert (Z.testbit fl 2 = true).
    { destruct (Z.testbit fl 2) eqn:E; [done|]. exfalso. apply Hu. apply Z.bits_inj'. intros n Hn.
      rewrite Z.land_spec, Z.bits_0, Z.shiftl_1_l, Z.pow2_bits_eqb by lia.
      destruct (Z.eqb_spec 2 n) as [<-|]; [by rewrite E|apply andb_false_r]. }
    apply Z.bits_inj'. intros n Hn. rewrite Z.land_spec, Z.shiftl_1_l, Z.pow2_bits_eqb by lia.
    destruct (Z.eqb_spec 2 n) as [<-|]; [by rewrite H|apply andb_false_r]. }
  rewrite E, land_addr by done.
  assert (Et : entry_table (Z.lor t (Z.lor (Z.lor VMM_PRESENT VMM_WRITABLE) VMM_USER)) = t)
    by (by apply entry_table_lor).
  split_and!; try (by rewrite bit_lor); [done|]. unfold valid_table_entry.
  change (Z.land ?e VMM_ENTRY_ADDR_MASK) with (entry_table e). rewrite Et, valid_aligned by done.
  destruct (Z.eqb_spec t 0); [lia|done].
Qed.

Lemma ensure_facts s rs r p i t fl :
  twf s rs -> is_node rs r (p ++ [i]) -> table s r p = Some t -> bit fl VMM_USER = true ->
  match ensure_next_table t i fl s with
  | (Some u, s') => grown s s' rs /\ table s' r (p ++ [i]) = Some u
  | (None, s') => s' = s /\ full s
  end.
Proof.
  intros Hwf Hn Ht Hu. destruct (node_prefix rs _ _ _ Hn) as [Hp Hi].
  destruct (table_aligned s rs Hwf _ _ _ Hp Ht) as [At Pt]. unfold ensure_next_table.
  rewrite valid_aligned by done. destruct (Z.eqb_spec t 0); [lia|]. cbn [negb orb].
  destruct (Z.leb_spec VMM_TABLE_ENTRIES i) as [Hle|_].
  { unfold in_table, VMM_TABLE_ENTRIES in *. lia. }
  destruct (bit (entry s t i) VMM_PRESENT) eqn:Hb.
  - destruct (t_entry _ _ Hwf r p t i Hn Ht Hb) as [Hv Hus]. rewrite Hv. cbn [andb negb].
    rewrite Hb, Hu, Hus. cbn [andb negb]. change (valid_table_pointer (entry_table (entry s t i)))
      with (valid_table_entry (entry s t i)). rewrite Hv. cbn [negb].
    split; [by apply grown_refl|]. rewrite table_snoc, Ht. unfold next_table. by rewrite Hb, Hv.
  - cbn [andb]. rewrite Hb. cbn [negb]. pose proof (alloc_frame_facts s (t_pmm _ _ Hwf)) as A.
    destruct (alloc_frame s) as [[t'|] s1]; [|done]. destruct A as (A & Ew & Rg).
    destruct (user_frame_aligned _ _ (a_pmm _ _ _ A) (a_frame _ _ _ A)) as [At' Pt'].
    destruct (clear_page_facts t' s1 At') as (R & E).
    set (s2 := set_entry t i (table_entry t' fl) (clear_page t' s1)).
    destruct (table_entry_facts t' fl At' Pt' Hu) as (F1 & F2 & F3 & F4).
    assert (Htt : t <> t') by (intros ->; by eapply (fresh_not_table s rs Hwf t' r p (a_free _ _ _ A))).
    assert (Es2 : entry s2 t i = table_entry t' fl) by (unfold s2; rewrite entry_set, !Z.eqb_refl; done).
    assert (G : graft s s2 rs r p i t t').
    { destruct R as (R1 & _). split; [exact Hn|exact Ht|exact Hb| |split; [|by rewrite Es2]|].
      - by apply (allocated_memory s s1 s2 t').
      - unfold next_table. by rewrite Es2, F1, F4, F3.
      - intros u j Au Hj Hne. unfold s2. rewrite entry_set, E by done.
        rewrite (entry_words s s1) by done.
        destruct (Z.eqb_spec u t) as [Eu|]; [destruct (Z.eqb_spec j i) as [Ej|]|]; cbn [andb]; try reflexivity.
        exfalso. apply Hne. by rewrite Eu, Ej. }
    rewrite Es2, F3. rewrite valid_aligned by done. destruct (Z.eqb_spec t' 0); [lia|]. cbn [negb].
    split.
    + apply (graft_grown s s2 rs Hwf r p i t t' G). apply (same_regs_trans s s1); [exact Rg|].
      apply (same_regs_trans s1 (clear_page t' s1)); [by apply same_rest_regs|apply same_regs_set].
    + rewrite (graft_table s s2 rs Hwf r p i t t' G) by done. by rewrite decide_True.
Qed.

(** * Changing one page *)

(** What an entry may point to. *)
Definition leaf_ok (s : vmm) (rs : list Z) (e : Z) : Prop :=
  bit e VMM_PRESENT = true ->
  user_frame s (entry_table e) /\ forall r p, is_node rs r p -> table s r p <> Some (entry_table e).

(** [s'] is [s] with the entry [e] at the page [x]. *)
Record changed (s s' : vmm) (rs : list Z) (x : page) (e : Z) : Prop := {
  c_twf : twf s' rs;
  c_pte : forall y, is_page rs y -> pte s' y = if decide (y = x) then e else pte s y;
  c_table : forall r p t, is_node rs r p -> table s r p = Some t -> table s' r p = Some t;
  c_frame : forall f, user_frame s f -> user_frame s' f /\ refs s' f = refs s f;
  c_reserved : pmm_reserved_block_count (frames s') = pmm_reserved_block_count (frames s);
  c_data : forall f j, user_frame s f -> in_table j -> (forall r p, is_node rs r p -> table s r p <> Some f) ->
    entry s' f j = entry s f j /\ forall r p, is_node rs r p -> table s' r p <> Some f;
  c_regs : same_regs s s'
}.

Section SetLeaf.
Context (s : vmm) (rs : list Z) (Hwf : twf s rs).
Context (r : Z) (p : list Z) (l t e : Z) (Hx : is_page rs (r, p, l)) (Ht : table s r p = Some t).

Abbreviation s1 := (set_entry t l e s).

Lemma set_leaf_other u j : aligned u -> in_table j -> (u, j) <> (t, l) -> entry s1 u j = entry s u j.
Proof.
  intros Au Hj Hne. destruct Hx as (Hr & Hp & _ & Hl).
  destruct (table_aligned s rs Hwf r p t) as [At _]; [done|done|]. rewrite entry_set by done.
  destruct (Z.eqb_spec u t) as [Eu|]; [destruct (Z.eqb_spec j l) as [Ej|]|]; try done.
  exfalso. apply Hne. by rewrite Eu, Ej.
Qed.

Lemma set_leaf_table r' q : is_node rs r' q -> table s1 r' q = table s r' q.
Proof.
  induction q as [|j q IH] using rev_ind; intros Hn; [done|].
  destruct (node_prefix rs _ _ _ Hn) as [Hq Hj]. rewrite !table_snoc, (IH Hq).
  destruct (table s r' q) as [u|] eqn:Hu; [|done]. unfold next_table.
  destruct (table_aligned s rs Hwf r' q u Hq Hu) as [Au _].
  rewrite set_leaf_other; [done..|]. intros [= Eu Ej]. rewrite Eu in Hu.
  destruct Hx as (Hr & Hp & L3 & _). destruct (t_inj _ _ Hwf r' q r p t Hq) as [_ ->]; [done..|].
  destruct Hn as [_ (L & _)]. rewrite length_app in L. cbn in L. lia.
Qed.

Lemma set_leaf_pte y : is_page rs y -> pte s1 y = if decide (y = (r, p, l)) then e else pte s y.
Proof.
  destruct y as [[r' q] j]. intros Hy. pose proof Hy as (Hr' & Hq & L3 & Hj).
  pose proof Hx as (Hr & Hp & _ & Hl). unfold pte. rewrite set_leaf_table by done.
  case_decide as E.
  - injection E as -> -> ->. rewrite Ht. destruct (table_aligned s rs Hwf r p t) as [At _]; [done|done|].
    by rewrite entry_set, !Z.eqb_refl.
  - destruct (table s r' q) as [u|] eqn:Hu; [|done].
    destruct (table_aligned s rs Hwf r' q u) as [Au _]; [done|done|]. apply set_leaf_other; [done..|].
    intros [= Eu Ej]. rewrite Eu in Hu. destruct (t_inj _ _ Hwf r' q r p t) as [-> ->]; [done..|]. by rewrite Ej in E.
Qed.

Lemma set_leaf_facts : leaf_ok s rs e -> changed s s1 rs (r, p, l) e.
Proof.
  intros He. split.
  - split; [apply Hwf| | | |].
    + intros r' q u Hn Hu. rewrite set_leaf_table in Hu by done. by apply (t_table _ _ Hwf r' q).
    + intros r' q u j Hn Hu. destruct (node_prefix rs _ _ _ Hn) as [Hq Hj]. rewrite set_leaf_table in Hu by done.
      destruct (table_aligned s rs Hwf r' q u Hq Hu) as [Au _]. rewrite set_leaf_other; [by apply (t_entry _ _ Hwf r' q)|done..|].
      intros [= Eu _]. rewrite Eu in Hu. destruct Hx as (Hr & Hp & L3 & _).
      destruct (t_inj _ _ Hwf r' q r p t Hq) as [_ ->]; [done..|]. destruct Hn as [_ (L & _)].
      rewrite length_app in L. cbn in L. lia.
    + intros r1 q1 r2 q2 u N1 N2. rewrite !set_leaf_table by done. by apply (t_inj _ _ Hwf).
    + intros y f (Hy & Hb & Hf). rewrite set_leaf_pte in Hb, Hf by done.
      assert (X : user_frame s f /\ forall r p, is_node rs r p -> table s r p <> Some f).
      { case_decide; [rewrite <- Hf; by apply He|]. by apply (t_leaf _ _ Hwf y). }
      destruct X as [X1 X2]. split; [exact X1|]. intros r' q Hq. rewrite set_leaf_table by done. by apply X2.
  - apply set_leaf_pte.
  - intros r' q u Hn Hu. by rewrite set_leaf_table.
  - intros f Hf. done.
  - done.
  - intros f j Hf Hj Hn. destruct (user_frame_aligned s f (t_pmm _ _ Hwf) Hf) as [Af _]. split.
    + apply set_leaf_other; [done..|]. intros [= Ef _]. rewrite Ef in Hn.
      destruct Hx as (Hr & Hp & _). by apply (Hn r p).
    + intros r' q Hq. rewrite set_leaf_table by done. by apply Hn.
  - done.
Qed.
End SetLeaf.

Lemma grown_changed s s1 s2 rs x e : grown s s1 rs -> changed s1 s2 rs x e -> changed s s2 rs x e.
Proof.
  intros [A1 A2 A3 A4 A5 A6 A7] [B1 B2 B3 B4 B5 B6 B7]. split; try done.
  - intros y Hy. rewrite B2 by done. case_decide; [done|by apply A2].
  - intros r p t Hn Ht. by apply B3, A3.
  - intros f Hf. destruct (A4 f Hf) as [F1 E1]. destruct (B4 f F1) as [F2 E2]. split; [done|congruence].
  - congruence.
  - intros f j Hf Hj Hn. destruct (A6 f j Hf Hj Hn) as [E1 N1].
    destruct (B6 f j (proj1 (A4 f Hf)) Hj N1) as [E2 N2]. split; [congruence|done].
  - by eapply same_regs_trans.
Qed.

Lemma leaf_ok_grown s s' rs e : grown s s' rs -> leaf_ok s rs e -> leaf_ok s' rs e.
Proof.
  intros G He Hb. destruct (He Hb) as [F N]. split; [by apply (gr_frame _ _ _ G)|].
  by apply (gr_data _ _ _ G (entry_table e) 0 F).
Qed.

(** * [map_in_pml4] *)

Definition page_at (r va : Z) : page := (r, [pml4_index va; pdpt_index va; pd_index va], pt_index va).
Definition user_va (va : Z) : Prop := is_u64 va /\ 1 <= pml4_index va <= 255.
Definition map_entry (pa fl : Z) : Z :=
  Z.lor (Z.land (Z.land pa VMM_PAGE_MASK) VMM_ENTRY_ADDR_MASK) (Z.land fl VMM_ENTRY_FLAGS_MASK).

Lemma page_at_page rs r va : r ∈ rs -> user_va va -> is_page rs (page_at r va).
Proof.
  intros Hr [_ Hv]. destruct (indices_range va) as (H1 & H2 & H3 & H4).
  split; [done|]. split; [|done]. split; [cbn; lia|]. split; [|done]. by rewrite !Forall_cons, Forall_nil.
Qed.

Lemma page_node3 rs r i j k l : is_page rs (r, [i; j; k], l) ->
  is_node rs r [i] /\ is_node rs r [i; j] /\ is_node rs r [i; j; k].
Proof.
  intros (Hr & Hp & _). split_and!; (split; [done|]); [|apply (vpath_prefix _ [k]), Hp|done].
  apply (vpath_prefix _ [j; k]), Hp.
Qed.

(** The page is entered, unless the allocator is out of frames. *)
Lemma map_facts s rs r va pa fl :
  twf s rs -> r ∈ rs -> user_va va -> bit fl VMM_USER = true -> leaf_ok s rs (map_entry pa fl) ->
  let s' := map_in_pml4 r va pa fl s in
  changed s s' rs (page_at r va) (map_entry pa fl) \/ grown s s' rs /\ full s'.
Proof.
  intros Hwf Hr Hv Hu Hl. pose proof (page_at_page rs r va Hr Hv) as Hx.
  destruct (page_node3 _ _ _ _ _ _ Hx) as (N1 & N2 & N3). pose proof Hv as [Hva _].
  cbn zeta. unfold map_in_pml4. destruct (page_indices va Hva) as (-> & -> & -> & ->).
  pose proof (ensure_facts s rs r [] (pml4_index va) r fl Hwf N1 eq_refl Hu) as E1.
  destruct (ensure_next_table r (pml4_index va) fl s) as [[t1|] s1]; [|destruct E1 as [-> F]; right; split; [by apply grown_refl|done]].
  destruct E1 as [G1 T1].
  pose proof (ensure_facts s1 rs r [pml4_index va] (pdpt_index va) t1 fl (gr_twf _ _ _ G1) N2 T1 Hu) as E2.
  destruct (ensure_next_table t1 (pdpt_index va) fl s1) as [[t2|] s2]; [|by destruct E2 as [-> F]; right].
  destruct E2 as [G2 T2]. pose proof (grown_trans _ _ _ _ G1 G2) as G12.
  pose proof (ensure_facts s2 rs r [pml4_index va; pdpt_index va] (pd_index va) t2 fl (gr_twf _ _ _ G2) N3 T2 Hu) as E3.
  destruct (ensure_next_table t2 (pd_index va) fl s2) as [[t3|] s3]; [|by destruct E3 as [-> F]; right].
  destruct E3 as [G3 T3]. pose proof (grown_trans _ _ _ _ G12 G3) as G. left.
  apply (grown_changed s s3); [done|]. apply set_leaf_facts; [apply G|exact Hx|exact T3|].
  by apply (leaf_ok_grown s).
Qed.
