(* ===== verification/VmmCow.v ===== *)
(** Copy on write in [Vmm]: the reference counts cover the mappings, a writable page
    has its frame for itself, and the page-fault handler gives a shared page a
    frame of its own without changing what any address space reads. *)

From S2P Require Import Prelude Pmm Vmm VmmTable VmmMap.

(** * The invariant *)

(** Entries have no bits outside the address and the flags. *)
Definition plain (e : Z) : Prop :=
  e = Z.lor (Z.land e VMM_ENTRY_ADDR_MASK) (Z.land e VMM_ENTRY_FLAGS_MASK).

Record vwf (s : vmm) (rs : list Z) : Prop := {
  w_tree : twf s rs;
  w_plain : forall x, is_page rs x -> plain (pte s x);
  w_user : forall x, is_page rs x -> bit (pte s x) VMM_PRESENT = true -> bit (pte s x) VMM_USER = true;
  w_count : forall f L, L <> [] -> NoDup L -> (forall x, x ∈ L -> maps s rs x f) -> len L <= refs s f;
  w_own : forall x y f, maps s rs x f -> maps s rs y f -> bit (pte s x) VMM_WRITABLE = true -> x = y
}.

(** What user mode reads from the word [j] of the page [x]. *)
Definition user_word (s : vmm) (x : page) (j : Z) : Z := entry s (entry_table (pte s x)) j.

Definition present (s : vmm) (x : page) : Prop := bit (pte s x) VMM_PRESENT = true.

(** [s'] shows every page of [rs] as [s] does. *)
Definition same_view (s s' : vmm) (rs : list Z) : Prop :=
  forall x, is_page rs x -> (present s' x <-> present s x) /\
    (present s x -> forall j, in_table j -> user_word s' x j = user_word s x j).

Lemma maps_at s rs x : is_page rs x -> present s x -> maps s rs x (entry_table (pte s x)).
Proof. by intros. Qed.

Lemma changed_maps s s' rs x e y f :
  changed s s' rs x e ->
  maps s' rs y f <-> (y = x /\ is_page rs x /\ bit e VMM_PRESENT = true /\ entry_table e = f) \/
                     (y <> x /\ maps s rs y f).
Proof.
  intros C. unfold maps. split.
  - intros (Hy & H1 & H2). rewrite (c_pte _ _ _ _ _ C) in H1, H2 by done.
    case_decide as E; [left; subst|right]; done.
  - intros [(-> & Hx & H1 & H2)|(Hne & Hy & H1 & H2)]; (split; [done|]);
      rewrite (c_pte _ _ _ _ _ C) by done; [by rewrite decide_True|by rewrite decide_False].
Qed.

(** Data of the pages other than [x] is untouched. *)
Lemma changed_word s s' rs x e y j :
  vwf s rs -> changed s s' rs x e -> is_page rs y -> y <> x -> present s y -> in_table j ->
  user_word s' y j = user_word s y j.
Proof.
  intros W C Hy Hne Hp Hj. unfold user_word. rewrite (c_pte _ _ _ _ _ C), decide_False by done.
  destruct (t_leaf _ _ (w_tree _ _ W) y _ (maps_at s rs y Hy Hp)) as [F N].
  by apply (c_data _ _ _ _ _ C).
Qed.

Lemma list_nonempty {A} (l : list A) : l <> [] -> exists x, x ∈ l.
Proof. destruct l as [|x l]; [done|]. intros _. exists x. by left. Qed.

(** One page changes and the counts of other frames stay. *)
Lemma vwf_changed s s' rs x e :
  vwf s rs -> changed s s' rs x e -> is_page rs x -> plain e ->
  (bit e VMM_PRESENT = true ->
     bit e VMM_USER = true /\
     (forall L, NoDup L -> (forall y, y ∈ L -> y <> x /\ maps s rs y (entry_table e)) ->
        len L + 1 <= refs s' (entry_table e)) /\
     (forall y, y <> x -> maps s rs y (entry_table e) ->
        bit e VMM_WRITABLE = false /\ bit (pte s y) VMM_WRITABLE = false)) ->
  vwf s' rs.
Proof.
  intros W C Hx Hpl He. pose proof (changed_maps s s' rs x e) as M. split.
  - apply C.
  - intros y Hy. rewrite (c_pte _ _ _ _ _ C) by done. case_decide; [done|by apply W].
  - intros y Hy. rewrite (c_pte _ _ _ _ _ C) by done. case_decide; [apply He|by apply W].
  - intros f L H0 HL HM. destruct (decide (x ∈ L)) as [Hin|Hout].
    + destruct (proj1 (M x f C) (HM x Hin)) as [(_ & _ & Hb & <-)|[? _]]; [|done].
      destruct (He Hb) as (_ & Hc & _).
      apply elem_of_Permutation in Hin as [L' EL]. rewrite EL in HL. apply NoDup_cons in HL as [Hn HL'].
      assert (EL' : len L = len L' + 1) by (unfold len; rewrite EL; cbn; lia). rewrite EL'.
      apply Hc; [done|]. intros y Hy. assert (Hyx : y <> x) by (by intros ->). split; [done|].
      assert (Hy' : y ∈ L) by (rewrite EL; by right).
      by destruct (proj1 (M y _ C) (HM y Hy')) as [(-> & _)|[_ ?]].
    + assert (HM' : forall y, y ∈ L -> maps s rs y f).
      { intros y Hy. destruct (proj1 (M y f C) (HM y Hy)) as [(-> & _)|[_ ?]]; done. }
      destruct (list_nonempty L H0) as [y Hy]. destruct (t_leaf _ _ (w_tree _ _ W) y f (HM' y Hy)) as [F _].
      rewrite (proj2 (c_frame _ _ _ _ _ C f F)). by apply (w_count _ _ W).
  - intros y z f Hy Hz Hb. destruct (proj1 (M y f C) Hy) as [(-> & _ & Hp & <-)|[Hyx Hy0]];
      destruct (proj1 (M z _ C) Hz) as [(-> & _ & Hp' & E)|[Hzx Hz0]]; [done| | |].
    + destruct (proj2 (proj2 (He Hp)) z Hzx Hz0) as [Hw _]. rewrite (c_pte _ _ _ _ _ C), decide_True in Hb by done. congruence.
    + rewrite <- E in Hy0. destruct (proj2 (proj2 (He Hp')) y Hyx Hy0) as [_ Hw].
      rewrite (c_pte _ _ _ _ _ C), decide_False in Hb by (done || apply Hy). congruence.
    + rewrite (c_pte _ _ _ _ _ C), decide_False in Hb by (done || apply Hy). by apply (w_own _ _ W y z f).
Qed.

(** * Flags *)

Lemma flags_addr fl : Z.land fl VMM_ENTRY_FLAGS_MASK = fl -> Z.land fl VMM_ENTRY_ADDR_MASK = 0.
Proof. intros <-. rewrite <- Z.land_assoc. apply Z.land_0_r. Qed.

Lemma frame_entry t fl :
  aligned t -> Z.land fl VMM_ENTRY_FLAGS_MASK = fl ->
  entry_table (Z.lor t fl) = t /\ plain (Z.lor t fl).
Proof.
  intros Ht Hf. pose proof (entry_table_lor t fl Ht (flags_addr fl Hf)) as E. split; [done|].
  unfold plain. unfold entry_table in E. rewrite E. f_equal.
  rewrite Z.land_lor_distr_l, Hf. rewrite <- (land_addr t Ht) at 1. rewrite <- Z.land_assoc, Z.land_0_r. done.
Qed.

Lemma own_flags_facts e :
  let fl := own_flags (Z.land e VMM_ENTRY_FLAGS_MASK) in
  Z.land fl VMM_ENTRY_FLAGS_MASK = fl /\ bit fl VMM_WRITABLE = true /\ bit fl PAGE_COW = false /\
  bit fl VMM_PRESENT = bit e VMM_PRESENT /\ bit fl VMM_USER = bit e VMM_USER.
Proof.
  cbn zeta. unfold own_flags. split_and!.
  - rewrite Z.land_lor_distr_l, <- !Z.land_assoc. done.
  - by apply bit_lor_same.
  - rewrite bit_lor_other by done. unfold bit. rewrite <- !Z.land_assoc. by rewrite Z.land_0_r.
  - rewrite bit_lor_other, !bit_land by done. done.
  - rewrite bit_lor_other, !bit_land by done. done.
Qed.

Lemma cow_flags_facts e :
  let fl := cow_flags (Z.land e VMM_ENTRY_FLAGS_MASK) in
  Z.land fl VMM_ENTRY_FLAGS_MASK = fl /\ bit fl VMM_WRITABLE = false /\ bit fl PAGE_COW = true /\
  bit fl VMM_PRESENT = bit e VMM_PRESENT /\ bit fl VMM_USER = bit e VMM_USER /\ bit fl VMM_NX = false.
Proof.
  cbn zeta. unfold cow_flags. split_and!.
  - rewrite Z.land_lor_distr_l, <- !Z.land_assoc. done.
  - rewrite bit_lor_other by done. unfold bit. rewrite <- !Z.land_assoc. by rewrite Z.land_0_r.
  - by apply bit_lor_same.
  - rewrite bit_lor_other, !bit_land by done. done.
  - rewrite bit_lor_other, !bit_land by done. done.
  - rewrite bit_lor_other by done. unfold bit. rewrite <- !Z.land_assoc. by rewrite Z.land_0_r.
Qed.

(** * Walks of the handler and of the checks *)

Lemma next_valid s rs r p i t :
  twf s rs -> is_node rs r (p ++ [i]) -> table s r p = Some t ->
  valid_table_pointer t = true /\
  next_table s t i = if bit (entry s t i) VMM_PRESENT then Some (entry_table (entry s t i)) else None.
Proof.
  intros W Hn Ht. destruct (node_prefix rs _ _ _ Hn) as [Hp _].
  destruct (table_aligned s rs W r p t Hp Ht) as [A P]. split.
  - rewrite valid_aligned by done. destruct (Z.eqb_spec t 0); [lia|done].
  - unfold next_table. destruct (bit (entry s t i) VMM_PRESENT) eqn:E; [|done].
    by destruct (t_entry _ _ W r p t i Hn Ht E) as [-> _].
Qed.

Lemma fault_next_table s rs r p i t :
  twf s rs -> is_node rs r (p ++ [i]) -> table s r p = Some t -> fault_next s t i = next_table s t i.
Proof.
  intros W Hn Ht. destruct (next_valid s rs r p i t W Hn Ht) as [V ->]. unfold fault_next. by rewrite V.
Qed.

Lemma table3 s r i j k :
  table s r [i; j; k] =
  let* a := next_table s r i in let* b := next_table s a j in next_table s b k.
Proof. cbn. destruct (next_table s r i) as [a|]; [|done]. destruct (next_table s a j) as [b|]; [|done].
  by destruct (next_table s b k). Qed.

Lemma walk_valid s rs r p t : twf s rs -> is_node rs r p -> table s r p = Some t -> valid_table_pointer t = true.
Proof.
  intros W Hn Ht. destruct (table_aligned s rs W r p t Hn Ht) as [A P].
  rewrite valid_aligned by done. destruct (Z.eqb_spec t 0); [lia|done].
Qed.

Lemma fault_pt_facts s rs r va :
  twf s rs -> r ∈ rs -> user_va va ->
  fault_pt s r va =
  let* t := table s r (page_at r va).1.2 in
  if bit (entry s t (pt_index va)) VMM_PRESENT then Some t else None.
Proof.
  intros W Hr Hv. pose proof (page_at_page rs r va Hr Hv) as Hx.
  destruct (page_node3 _ _ _ _ _ _ Hx) as (N1 & N2 & N3). unfold fault_pt. cbn [page_at fst snd].
  rewrite (fault_next_table s rs r [] (pml4_index va)) by done. rewrite table3.
  destruct (next_table s r (pml4_index va)) as [a|] eqn:Ea; [|done].
  assert (Ta : table s r [pml4_index va] = Some a) by (cbn; by rewrite Ea).
  rewrite (fault_next_table s rs r [pml4_index va] (pdpt_index va)) by done.
  destruct (next_table s a (pdpt_index va)) as [b|] eqn:Eb; [|done].
  assert (Tb : table s r [pml4_index va; pdpt_index va] = Some b) by (cbn; by rewrite Ea, Eb).
  rewrite (fault_next_table s rs r [pml4_index va; pdpt_index va] (pd_index va)) by done.
  destruct (next_table s b (pd_index va)) as [c|] eqn:Ec; [|done].
  assert (Tc : table s r [pml4_index va; pdpt_index va; pd_index va] = Some c) by (cbn; by rewrite Ea, Eb, Ec).
  by rewrite (walk_valid s rs r _ c W N3 Tc).
Qed.

Lemma find_pt_facts s rs r va :
  twf s rs -> r ∈ rs -> user_va va -> find_pt s r va = table s r (page_at r va).1.2.
Proof.
  intros W Hr Hv. pose proof (page_at_page rs r va Hr Hv) as Hx.
  destruct (page_node3 _ _ _ _ _ _ Hx) as (N1 & N2 & N3). unfold find_pt. cbn [page_at fst snd].
  assert (N0 : is_node rs r []) by (split; [done|]; split_and!; [cbn; lia|by apply Forall_nil|done]).
  rewrite (walk_valid s rs r [] r W N0 eq_refl). cbn [negb]. rewrite table3.
  destruct (next_table s r (pml4_index va)) as [a|] eqn:Ea; [|done].
  destruct (next_table s a (pdpt_index va)) as [b|] eqn:Eb; [|done].
  destruct (next_table s b (pd_index va)) as [c|] eqn:Ec; [|done].
  rewrite (walk_valid s rs r _ c W N3); [done|]. cbn. by rewrite Ea, Eb, Ec.
Qed.

(** * A new data frame *)

Section NewFrame.
Context (s s1 : vmm) (rs : list Z) (nf : Z) (Hwf : twf s rs) (A : allocated s s1 nf).
Context (E : forall u j, aligned u -> in_table j -> u <> nf -> entry s1 u j = entry s u j).

Lemma new_not_table r p : is_node rs r p -> table s r p <> Some nf.
Proof. apply (fresh_not_table s rs Hwf), A. Qed.

Lemma new_table r p : is_node rs r p -> table s1 r p = table s r p.
Proof.
  induction p as [|i p IH] using rev_ind; intros Hn; [done|].
  destruct (node_prefix rs _ _ _ Hn) as [Hp Hi]. rewrite !table_snoc, (IH Hp).
  destruct (table s r p) as [t|] eqn:Ht; [|done]. destruct (table_aligned s rs Hwf r p t Hp Ht) as [At _].
  unfold next_table. rewrite E; [done|done|done|]. intros ->. by apply (new_not_table r p).
Qed.

Lemma new_pte x : is_page rs x -> pte s1 x = pte s x.
Proof.
  destruct x as [[r p] l]. intros (Hr & Hp & _ & Hl). unfold pte. rewrite new_table by done.
  destruct (table s r p) as [t|] eqn:Ht; [|done]. destruct (table_aligned s rs Hwf r p t) as [At _]; [done|done|].
  apply E; [done|done|]. intros ->. by apply (new_not_table r p).
Qed.

Lemma new_frame_grown :
  same_regs s s1 ->
  grown s s1 rs /\ (forall r p, is_node rs r p -> table s1 r p <> Some nf) /\ (forall x, ~ maps s1 rs x nf).
Proof.
  intros R. assert (Hmap : forall x f, maps s1 rs x f -> maps s rs x f).
  { intros x f (Hx & H1 & H2). rewrite new_pte in H1, H2 by done. done. }
  split_and!; [split; [split| | | | | |]|..].
  - apply A.
  - intros r p t Hn Ht. rewrite new_table in Ht by done.
    by apply (allocated_keeps s s1 nf), (t_table _ _ Hwf _ _ _ Hn).
  - intros r p t i Hn Ht. destruct (node_prefix rs _ _ _ Hn) as [Hp Hi]. rewrite new_table in Ht by done.
    destruct (table_aligned s rs Hwf r p t Hp Ht) as [At _].
    rewrite E; [by apply (t_entry _ _ Hwf r p)|done|done|]. intros ->. by apply (new_not_table r p).
  - intros r p r' p' t N N'. rewrite !new_table by done. by apply (t_inj _ _ Hwf).
  - intros x f Hm%Hmap. destruct (t_leaf _ _ Hwf x f Hm) as [Hf Hn]. split.
    + by apply (allocated_keeps s s1 nf).
    + intros r p Hp. rewrite new_table by done. by apply Hn.
  - apply new_pte.
  - intros r p t Hn Ht. by rewrite new_table.
  - intros f Hf. by destruct (allocated_keeps s s1 nf f A Hf) as (? & ? & _).
  - apply A.
  - intros f j Hf Hj Hn. destruct (user_frame_aligned s f (t_pmm _ _ Hwf) Hf) as [Af _]. split.
    + apply E; [done|done|]. by apply (allocated_keeps s s1 nf f A Hf).
    + intros r p Hp. rewrite new_table by done. by apply Hn.
  - done.
  - intros r p Hn. rewrite new_table by done. by apply new_not_table.
  - intros x Hm%Hmap. by eapply (fresh_not_page s rs Hwf nf x (a_free _ _ _ A)).
Qed.
End NewFrame.

Lemma vwf_grown s s' rs : vwf s rs -> grown s s' rs -> vwf s' rs /\ same_view s s' rs.
Proof.
  intros W G.
  assert (Hmap : forall x f, maps s' rs x f -> maps s rs x f).
  { intros x f (Hx & H1 & H2). rewrite (gr_pte _ _ _ G) in H1, H2 by done. done. }
  split; [split|].
  - apply G.
  - intros x Hx. rewrite (gr_pte _ _ _ G) by done. by apply W.
  - intros x Hx. rewrite (gr_pte _ _ _ G) by done. by apply W.
  - intros f L H0 HL HM. destruct (list_nonempty L H0) as [y Hy].
    destruct (t_leaf _ _ (w_tree _ _ W) y f (Hmap _ _ (HM y Hy))) as [F _].
    rewrite (proj2 (gr_frame _ _ _ G f F)). apply (w_count _ _ W); auto.
  - intros x y f Hx Hy. rewrite (gr_pte _ _ _ G) by apply Hx. apply (w_own _ _ W x y f); auto.
  - intros x Hx. unfold present, user_word. rewrite (gr_pte _ _ _ G) by done. split; [done|]. intros Hp j Hj.
    destruct (t_leaf _ _ (w_tree _ _ W) x _ (maps_at s rs x Hx Hp)) as [F N]. by apply (gr_data _ _ _ G).
Qed.

(** * Changing the counts only *)

Lemma words_table s s' t p : words s' = words s -> table s' t p = table s t p.
Proof.
  intros E. revert t. induction p as [|i p IH]; intros t; cbn; [done|]. unfold next_table.
  rewrite (entry_words s s') by done. case_match; [apply IH|done].
Qed.
Lemma words_pte s s' x : words s' = words s -> pte s' x = pte s x.
Proof.
  intros E. destruct x as [[r p] l]. unfold pte. rewrite (words_table s s') by done.
  case_match; [by apply entry_words|done].
Qed.

Lemma twf_refs s s' rs :
  twf s rs -> words s' = words s -> pmm_wf (frames s') -> (forall f, user_frame s f -> user_frame s' f) -> twf s' rs.
Proof.
  intros W E P F. split; [done|..].
  - intros r p t Hn. rewrite (words_table s s') by done. intros Ht. by apply F, (t_table _ _ W r p).
  - intros r p t i Hn. rewrite (words_table s s'), (entry_words s s') by done. by apply (t_entry _ _ W).
  - intros r p r' p' t N N'. rewrite !(words_table s s') by done. by apply (t_inj _ _ W).
  - intros x f (Hx & H1 & H2). rewrite (words_pte s s') in H1, H2 by done.
    destruct (t_leaf _ _ W x f) as [Hf Hn]; [done|]. split; [by apply F|].
    intros r p Hp. rewrite (words_table s s') by done. by apply Hn.
Qed.

Lemma vwf_refs s s' rs :
  vwf s rs -> words s' = words s -> pmm_wf (frames s') -> (forall f, user_frame s f -> user_frame s' f) ->
  (forall f L, L <> [] -> NoDup L -> (forall x, x ∈ L -> maps s rs x f) -> len L <= refs s' f) ->
  vwf s' rs.
Proof.
  intros W E P F C. assert (M : forall x f, maps s' rs x f <-> maps s rs x f).
  { intros x f. unfold maps. by rewrite (words_pte s s'). }
  split.
  - by apply (twf_refs s); [apply W|..].
  - intros x Hx. rewrite (words_pte s s') by done. by apply W.
  - intros x Hx. rewrite (words_pte s s') by done. by apply W.
  - intros f L H0 HL HM. apply C; [done|done|]. intros x Hx. by apply M, HM.
  - intros x y f Hx Hy. rewrite (words_pte s s') by done. apply (w_own _ _ W x y f); by apply M.
Qed.

(** * References *)

Lemma frame_block s f : user_frame s f -> f = f / 4096 * PMM_PAGE_SIZE.
Proof. intros (H & _). pmm_consts. ulia. Qed.

(** The count of the frame [f] becomes [n]. *)
Record recounted (s s' : vmm) (f n : Z) : Prop := {
  rc_words : words s' = words s;
  rc_pmm : pmm_wf (frames s');
  rc_frame : forall g, user_frame s g -> user_frame s' g;
  rc_refs : forall g, user_frame s g -> refs s' g = if g =? f then n else refs s g;
  rc_full : full s -> full s';
  rc_regs : same_regs s s'
}.

Lemma recounted_intro s m f n :
  pmm_wf m -> 0 < n -> user_frame s f -> pmm_reserved_block_count m = pmm_reserved_block_count (frames s) ->
  (forall c, 0 <= c < PMM_MAX_BLOCKS -> refcount m c = if c =? f / 4096 then n else refcount (frames s) c) ->
  recounted s (s <| frames := m |>) f n.
Proof.
  intros P Hn Hf R E. pose proof (wf_reserved _ P) as Hres. rewrite R in Hres.
  assert (Er : forall g, user_frame s g -> refs (s <| frames := m |>) g = if g =? f then n else refs s g).
  { intros g (G1 & G2 & G3). unfold refs. cbn. rewrite E by lia. destruct Hf as (F1 & _).
    destruct (Z.eqb_spec g f) as [->|]; [by rewrite Z.eqb_refl|].
    destruct (Z.eqb_spec (g / 4096) (f / 4096)); [|done]. exfalso. ulia. }
  split; try done.
  - intros g Hg. pose proof (Er g Hg) as E'. destruct Hg as (G1 & G2 & G3). unfold user_frame. rewrite E'.
    cbn. rewrite R. split_and!; [done|lia|lia|]. by destruct (g =? f).
  - intros Hfu c Hc. cbn. rewrite E by done. destruct (c =? f / 4096); [done|by apply Hfu].
Qed.

Lemma free_facts s f :
  pmm_wf (frames s) -> user_frame s f -> 1 < refs s f -> recounted s (free_frame f s) f (refs s f - 1).
Proof.
  intros P Hf Hr. pose proof (frame_block s f Hf) as Ef. destruct Hf as (F1 & F2 & F3).
  destruct (pmm_free_refcount (f / 4096) (frames s) P F2) as [P' E]. rewrite <- Ef in P', E.
  apply recounted_intro; [done|lia|done| |].
  - unfold pmm_free. repeat case_match; done.
  - intros c Hc. rewrite E by done. unfold refs in *. by rewrite Z.max_r by lia.
Qed.

Lemma ref_facts s f :
  pmm_wf (frames s) -> user_frame s f -> refs s f < 4294967295 -> recounted s (ref_frame f s) f (refs s f + 1).
Proof.
  intros P Hf Hr. pose proof (frame_block s f Hf) as Ef. pose proof Hf as (F1 & F2 & F3).
  pose proof (wf_reserved _ P).
  destruct (pmm_ref_inc_refcount (f / 4096) (frames s) P) as [P' E]; [lia|done|]. rewrite <- Ef in P', E.
  unfold ref_frame. rewrite E in *. apply recounted_intro; [done|lia|done|done|].
  intros c Hc. rewrite refcount_set_refcount; [done|apply P|lia|done].
Qed.

Lemma ref_get_refs s f : pmm_wf (frames s) -> user_frame s f -> pmm_ref_get f (frames s) = refs s f.
Proof.
  intros P (F1 & F2 & _). unfold pmm_ref_get. pmm_consts. rewrite F1, (wf_total _ P). cbn [negb Z.eqb].
  pmm_consts. by destruct (Z.leb_spec 32768 (f / 4096)); [lia|].
Qed.

(** * The page-fault handler *)

Section Fault.
Context (s : vmm) (rs : list Z) (W : vwf s rs) (va : Z).
Context (Hr : cr3 s ∈ rs) (Hv : user_va va).
Abbreviation x := (page_at (cr3 s) va).
Abbreviation old := (entry_table (pte s x)).
Context (Hp : present s x).

Lemma fault_page : is_page rs x.
Proof. by apply page_at_page. Qed.

Lemma fault_maps : maps s rs x old.
Proof. split; [apply fault_page|done]. Qed.

Lemma fault_table :
  exists t, table s (cr3 s) x.1.2 = Some t /\ entry s t (pt_index va) = pte s x /\
    fault_pt s (Z.land (cr3 s) VMM_ENTRY_ADDR_MASK) va = Some t.
Proof.
  pose proof (w_tree _ _ W) as T.
  assert (N0 : is_node rs (cr3 s) []) by (split; [done|]; split_and!; [cbn; lia|by apply Forall_nil|done]).
  destruct (table_aligned s rs T _ [] _ N0 eq_refl) as [Ac _]. rewrite land_addr by done.
  rewrite (fault_pt_facts s rs (cr3 s) va T Hr Hv). revert Hp. unfold present, pte. cbn [page_at fst snd].
  destruct (table s (cr3 s) _) as [t|]; [|done]. intros E. exists t. by rewrite E.
Qed.

(** The page takes the frame [nf], which nobody else has, with full rights. *)
Lemma take_frame s1 nf t :
  vwf s1 rs -> table s1 (cr3 s) x.1.2 = Some t -> user_frame s1 nf ->
  (forall r p, is_node rs r p -> table s1 r p <> Some nf) ->
  (forall y, y <> x -> ~ maps s1 rs y nf) ->
  let e := Z.lor nf (own_flags (Z.land (pte s x) VMM_ENTRY_FLAGS_MASK)) in
  let s2 := set_entry t (pt_index va) e s1 in
  changed s1 s2 rs x e /\ vwf s2 rs /\ bit e VMM_PRESENT = true /\ bit e VMM_WRITABLE = true /\
  bit e PAGE_COW = false /\ entry_table e = nf.
Proof.
  intros W1 Ht F N M e s2. pose proof (w_tree _ _ W1) as T1.
  destruct (user_frame_aligned s1 nf (t_pmm _ _ T1) F) as [An _].
  destruct (own_flags_facts (pte s x)) as (O1 & O2 & O3 & O4 & O5).
  destruct (frame_entry nf _ An O1) as [Ee Ep]. fold e in Ee, Ep.
  assert (B1 : bit e VMM_PRESENT = true) by (unfold e; rewrite bit_lor, O4 by done; exact Hp).
  assert (B2 : bit e VMM_WRITABLE = true) by (unfold e; by rewrite bit_lor).
  assert (B3 : bit e PAGE_COW = false) by (unfold e; by rewrite bit_lor).
  assert (C : changed s1 s2 rs x e).
  { apply set_leaf_facts; [done|apply fault_page|done|]. intros _. by rewrite Ee. }
  split_and!; try done. apply (vwf_changed s1 s2 rs x e W1 C fault_page Ep). intros _. rewrite Ee. split_and!.
  - unfold e. rewrite bit_lor, O5 by done. by apply W; [apply fault_page|].
  - intros L HL HM. destruct L as [|y L]; [|by destruct (HM y ltac:(by left)) as [? ?%M]].
    destruct (c_frame _ _ _ _ _ C nf F) as [(_ & _ & ?) _]. unfold len. cbn. lia.
  - intros y Hy Hm. by apply M in Hm.
Qed.
End Fault.

(** After a change of [x] to an entry whose frame shows the same words. *)
Lemma changed_view s s' rs x e :
  vwf s rs -> changed s s' rs x e -> present s x -> bit e VMM_PRESENT = true ->
  (forall j, in_table j -> entry s' (entry_table e) j = user_word s x j) -> same_view s s' rs.
Proof.
  intros W C Hp He Hw y Hy. destruct (decide (y = x)) as [->|Hne].
  - unfold present, user_word in *. rewrite (c_pte _ _ _ _ _ C), decide_True by done.
    split; [by split|]. intros _. exact Hw.
  - split; [unfold present; by rewrite (c_pte _ _ _ _ _ C), decide_False|].
    intros Hpy j Hj. by eapply changed_word.
Qed.

Lemma same_view_trans s s1 s2 rs : same_view s s1 rs -> same_view s1 s2 rs -> same_view s s2 rs.
Proof.
  intros V1 V2 x Hx. destruct (V1 x Hx) as [P1 U1], (V2 x Hx) as [P2 U2]. split; [by rewrite P2|].
  intros Hp j Hj. rewrite U2 by (done || by apply P1). by apply U1.
Qed.

Lemma words_view s s' rs : words s' = words s -> same_view s s' rs.
Proof.
  intros E x Hx. unfold present, user_word. rewrite (words_pte s s') by done. split; [done|].
  intros _ j _. by apply entry_words.
Qed.

Definition cow_fault (code : Z) : Prop :=
  Z.land code (Z.lor PF_ERROR_PRESENT PF_ERROR_WRITE) = Z.lor PF_ERROR_PRESENT PF_ERROR_WRITE.

(** What the handler promises about a write fault on a copy-on-write page [x]. *)
Record fault_ok (s s' : vmm) (rs : list Z) (x : page) : Prop := {
  fo_wf : vwf s' rs;
  fo_view : same_view s s' rs;
  fo_rights : bit (pte s' x) VMM_WRITABLE = true /\ bit (pte s' x) PAGE_COW = false;
  fo_others : forall y, is_page rs y -> y <> x -> pte s' y = pte s y;
  fo_cr3 : cr3 s' = cr3 s
}.

(** The last holder of the frame keeps it. *)
Lemma fault_sole s rs va t :
  vwf s rs -> cr3 s ∈ rs -> user_va va -> present s (page_at (cr3 s) va) ->
  table s (cr3 s) (page_at (cr3 s) va).1.2 = Some t ->
  refs s (entry_table (pte s (page_at (cr3 s) va))) <= 1 ->
  fault_ok s (set_entry t (pt_index va) (Z.lor (entry_table (pte s (page_at (cr3 s) va)))
    (own_flags (Z.land (pte s (page_at (cr3 s) va)) VMM_ENTRY_FLAGS_MASK))) s) rs (page_at (cr3 s) va).
Proof.
  intros W Hr Hv Hp Ht Hc. set (x := page_at (cr3 s) va) in *. set (f := entry_table (pte s x)) in *.
  pose proof (fault_maps s rs va Hr Hv Hp) as Hm.
  destruct (t_leaf _ _ (w_tree _ _ W) x f Hm) as [F N].
  assert (M : forall y, y <> x -> ~ maps s rs y f).
  { intros y Hy Hmy. pose proof (w_count _ _ W f [x; y]) as C. unfold len in C. cbn in C.
    assert (2 <= refs s f); [|lia]. apply C; [done| |].
    - apply NoDup_cons. split; [|apply NoDup_singleton]. by rewrite list_elem_of_singleton.
    - intros z. rewrite elem_of_cons, list_elem_of_singleton. intros [-> | ->]; done. }
  destruct (take_frame s rs W va Hr Hv Hp s f t W Ht F N M) as (C & W2 & B1 & B2 & B3 & Ee).
  fold x in C, W2, B1, B2, B3, Ee. split; try done.
  - apply (changed_view s _ rs x _ W C Hp B1). rewrite Ee. intros j Hj. unfold user_word. fold f.
    by apply (c_data _ _ _ _ _ C).
  - rewrite (c_pte _ _ _ _ _ C), decide_True by (done || apply Hm). done.
  - intros y Hy Hne. by rewrite (c_pte _ _ _ _ _ C), decide_False.
Qed.

(** A shared frame is copied. *)
Lemma fault_shared s rs va t s1 nf :
  vwf s rs -> cr3 s ∈ rs -> user_va va -> present s (page_at (cr3 s) va) ->
  table s (cr3 s) (page_at (cr3 s) va).1.2 = Some t ->
  1 < refs s (entry_table (pte s (page_at (cr3 s) va))) ->
  allocated s s1 nf -> words s1 = words s -> same_regs s s1 ->
  let old := entry_table (pte s (page_at (cr3 s) va)) in
  let s2 := copy_frame nf old s1 in
  let s3 := set_entry t (pt_index va) (Z.lor (Z.land nf VMM_ENTRY_ADDR_MASK)
    (own_flags (Z.land (pte s (page_at (cr3 s) va)) VMM_ENTRY_FLAGS_MASK))) s2 in
  fault_ok s (free_frame old (replace_current_task_frame old nf s3)) rs (page_at (cr3 s) va).
Proof.
  intros W Hr Hv Hp Ht Hc A Ew R old. set (x := page_at (cr3 s) va) in *.
  pose proof (fault_maps s rs va Hr Hv Hp) as Hm. fold x old in Hm.
  destruct (t_leaf _ _ (w_tree _ _ W) x old Hm) as [F N].
  destruct (user_frame_aligned _ _ (a_pmm _ _ _ A) (a_frame _ _ _ A)) as [An Pn].
  destruct (user_frame_aligned s old (t_pmm _ _ (w_tree _ _ W)) F) as [Ao _].
  destruct (allocated_keeps s s1 nf old A F) as (_ & _ & Hne).
  destruct (copy_page_facts nf old s1 An Ao (not_eq_sym Hne)) as (R2 & E2).
  rewrite (land_addr nf An). set (s2 := copy_frame nf old s1) in *.
  assert (A2 : allocated s s2 nf) by (apply (allocated_memory s s1); [done|apply R2]).
  assert (E2' : forall u j, aligned u -> in_table j -> u <> nf -> entry s2 u j = entry s u j).
  { intros u j Au Hj Hu. unfold s2, copy_frame. rewrite E2 by done.
    destruct (Z.eqb_spec u nf); [done|]. by apply entry_words. }
  assert (E2n : forall j, in_table j -> entry s2 nf j = entry s old j).
  { intros j Hj. unfold s2, copy_frame. rewrite E2, Z.eqb_refl by done. by apply entry_words. }
  assert (Rg : same_regs s s2) by (apply (same_regs_trans s s1); [done|by apply same_rest_regs]).
  clearbody s2. destruct (new_frame_grown s s2 rs nf (w_tree _ _ W) A2 E2' Rg) as (G & N2 & M2).
  destruct (vwf_grown s s2 rs W G) as [W2 V2].
  assert (Hpx : pte s2 x = pte s x) by (apply (gr_pte _ _ _ G), Hm).
  assert (Hr2 : cr3 s2 = cr3 s) by apply (gr_regs _ _ _ G).
  assert (Hn2 : is_node rs (cr3 s) x.1.2) by (apply (page_node rs x), Hm).
  pose proof (gr_table _ _ _ G _ _ _ Hn2 Ht) as Ht2.
  destruct (take_frame s rs W va Hr Hv Hp s2 nf t W2 Ht2 (a_frame _ _ _ A2) N2) as (C & W3 & B1 & B2 & B3 & Ee).
  { intros y _. apply M2. }
  fold x in C, W3, B1, B2, B3, Ee. set (e := Z.lor nf _) in *. cbn zeta. set (s3 := set_entry t (pt_index va) e s2) in *.
  assert (Ec3 : cr3 s3 = cr3 s2) by apply (c_regs _ _ _ _ _ C). clearbody s3 e.
  destruct (gr_frame _ _ _ G old F) as [F2 Er2]. destruct (c_frame _ _ _ _ _ C old F2) as [F3 Er3].
  assert (W3' : vwf (replace_current_task_frame old nf s3) rs /\ words (replace_current_task_frame old nf s3) = words s3 /\
    frames (replace_current_task_frame old nf s3) = frames s3 /\ cr3 (replace_current_task_frame old nf s3) = cr3 s3).
  { unfold replace_current_task_frame. destruct (inventory s3); [|done]. split_and!; try done.
    apply (vwf_refs s3); try done; [apply W3|]. intros f L. apply (w_count _ _ W3). }
  destruct W3' as (W4 & Ew4 & Ef4 & Ec4). set (s4 := replace_current_task_frame old nf s3) in *.
  assert (F4 : user_frame s4 old /\ refs s4 old = refs s old).
  { unfold user_frame, refs in *. rewrite Ef4. split; [done|congruence]. }
  destruct F4 as [F4 Er4].
  pose proof (free_facts s4 old (t_pmm _ _ (w_tree _ _ W4)) F4) as RC. rewrite Er4 in RC. specialize (RC Hc).
  set (s5 := free_frame old s4) in *.
  assert (Ew5 : words s5 = words s3) by (rewrite (rc_words _ _ _ _ RC); exact Ew4).
  assert (Ep5 : forall y, pte s5 y = pte s3 y) by (intros y; by apply words_pte).
  assert (Hmap3 : forall y, maps s3 rs y old -> y <> x /\ maps s rs y old).
  { intros y [(_ & _ & _ & Eo)|(Hy & Hmy)]%(changed_maps s2 s3 rs x e y old C); [congruence|]. split; [done|].
    destruct Hmy as (Hy1 & Hy2 & Hy3). rewrite (gr_pte _ _ _ G) in Hy2, Hy3 by done. done. }
  split.
  - apply (vwf_refs s4); [done|apply RC..|]. intros f L H0 HL HM.
    destruct (list_nonempty L H0) as [z Hz]. destruct (t_leaf _ _ (w_tree _ _ W4) z f (HM z Hz)) as [Ff _].
    rewrite (rc_refs _ _ _ _ RC f Ff). destruct (Z.eqb_spec f old) as [->|]; [|by apply (w_count _ _ W4)].
    assert (HM' : forall y, y ∈ L -> y <> x /\ maps s rs y old).
    { intros y Hy. apply Hmap3. destruct (HM y Hy) as (Y1 & Y2 & Y3). rewrite (words_pte s3 s4) in Y2, Y3 by done. done. }
    pose proof (w_count _ _ W old (x :: L)) as C5. unfold len in *. cbn [length] in C5.
    enough (Z.of_nat (S (length L)) <= refs s old) by lia. apply C5; [done| |].
    + apply NoDup_cons. split; [|done]. intros Hx. by destruct (HM' x Hx).
    + intros y [->|Hy]%elem_of_cons; [done|by apply HM'].
  - apply (same_view_trans s s3); [|by apply words_view].
    apply (same_view_trans s s2); [done|]. apply (changed_view s2 s3 rs x e W2 C); [|done|].
    + unfold present. by rewrite Hpx.
    + rewrite Ee. intros j Hj. unfold user_word. rewrite Hpx. fold old.
      assert (En : entry s3 nf j = entry s2 nf j).
      { apply (c_data _ _ _ _ _ C); [apply A2|done|exact N2]. }
      rewrite En, E2n, (E2' old j Ao Hj Hne); done.
  - rewrite Ep5, (c_pte _ _ _ _ _ C), decide_True by (done || apply Hm). done.
  - intros y Hy Hy'. rewrite Ep5, (c_pte _ _ _ _ _ C), decide_False by done. by apply (gr_pte _ _ _ G).
  - destruct (rc_regs _ _ _ _ RC) as (-> & _). congruence.
Qed.

(** The handler on a write fault of a copy-on-write page. *)
Lemma fault_facts s rs va code cs :
  vwf s rs -> cr3 s ∈ rs -> user_va va -> cow_fault code ->
  let x := page_at (cr3 s) va in
  present s x -> bit (pte s x) PAGE_COW = true ->
  match vmm_page_fault_handler code va cs s with
  | (FaultResolved, s') =>
      fault_ok s s' rs x /\ forall y, maps s' rs y (entry_table (pte s' x)) -> y = x
  | (res, s') => res = unresolved cs /\ s' = s /\ full s
  end.
Proof.
  intros W Hr Hv Hcode x Hp Hcow.
  assert (Own : forall s', fault_ok s s' rs x -> fault_ok s s' rs x /\ forall y, maps s' rs y (entry_table (pte s' x)) -> y = x).
  { intros s' O. split; [done|]. intros y Hy. symmetry. destruct O as [O1 O2 [O3 _] O4 O5].
    pose proof (fault_page s rs va Hr Hv) as Hx.
    apply (w_own _ _ O1 x y (entry_table (pte s' x))); [|done|done]. split; [done|]. split; [|done].
    by apply (O2 x Hx). }
  destruct (fault_table s rs W va Hr Hv Hp) as (t & Ht & Ee & Ef). fold x in Ht, Ee.
  unfold vmm_page_fault_handler. rewrite Ef, Ee, Hcow. unfold cow_fault in Hcode. rewrite Hcode, Z.eqb_refl. cbn [andb].
  pose proof (fault_maps s rs va Hr Hv Hp) as Hm. fold x in Hm.
  destruct (t_leaf _ _ (w_tree _ _ W) x _ Hm) as [F _].
  change (Z.land (pte s x) VMM_ENTRY_ADDR_MASK) with (entry_table (pte s x)).
  rewrite (ref_get_refs s _ (t_pmm _ _ (w_tree _ _ W)) F).
  destruct (Z.ltb_spec 1 (refs s (entry_table (pte s x)))) as [Hc|Hc].
  - pose proof (alloc_frame_facts s (t_pmm _ _ (w_tree _ _ W))) as A.
    destruct (alloc_frame s) as [[nf|] s1].
    + destruct A as (A & Ew & R). apply Own. by apply fault_shared.
    + destruct A as [-> A]. unfold unresolved. by destruct (Z.land cs 3 =? 3).
  - apply Own. by apply fault_sole.
Qed.

(** C13: Copy on write.  Take address spaces whose page tables are well formed and
    a write fault of the current one on a present page marked copy-on-write.
    Either the frames have run out, and the fault ends the task (or stops the
    kernel) with nothing changed; or the fault is resolved: the page is writable
    and its frame is mapped by no other page, every word of every page of every
    address space reads as before, no other entry changed, and the invariant
    still holds, reference counts included. *)
Theorem vmm_fault_cow s rs va code cs :
  vwf s rs -> cr3 s ∈ rs -> user_va va -> cow_fault code ->
  let x := page_at (cr3 s) va in
  present s x -> bit (pte s x) PAGE_COW = true ->
  match vmm_page_fault_handler code va cs s with
  | (FaultResolved, s') =>
      fault_ok s s' rs x /\ forall y, maps s' rs y (entry_table (pte s' x)) -> y = x
  | (res, s') => res = unresolved cs /\ s' = s /\ full s
  end.
Proof. exact (fault_facts s rs va code cs). Qed.
