(* ===== verification/VmmClone.v ===== *)
(** Cloning an address space in [Vmm]: the child of a fork shows the words of its
    parent, the frames the two share are counted once per mapping, and neither can
    write to them without a fault. *)

From S2P Require Import Prelude Pmm Vmm VmmTable VmmMap VmmCow.

(** * What a clone does to an entry *)

Definition cow (e : Z) : Z :=
  if bit e VMM_PRESENT && bit e VMM_WRITABLE
  then Z.lor (entry_table e) (cow_flags (Z.land e VMM_ENTRY_FLAGS_MASK)) else e.
Definition child_entry (e : Z) : Z := if bit e VMM_PRESENT then cow e else 0.

Lemma cow_facts e :
  plain e ->
  entry_table (cow e) = entry_table e /\ plain (cow e) /\ bit (cow e) VMM_PRESENT = bit e VMM_PRESENT /\
  bit (cow e) VMM_USER = bit e VMM_USER /\ (bit e VMM_PRESENT = true -> bit (cow e) VMM_WRITABLE = false).
Proof.
  intros P. unfold cow. destruct (bit e VMM_PRESENT) eqn:Hp; cbn [andb]; [|done].
  destruct (bit e VMM_WRITABLE) eqn:Hw; [|done].
  destruct (cow_flags_facts e) as (F1 & F2 & F3 & F4 & F5 & F6).
  assert (A : aligned (entry_table e)) by apply entry_aligned.
  destruct (frame_entry _ _ A F1) as [E1 E2]. split_and!; try done.
  - rewrite bit_lor by done. congruence.
  - rewrite bit_lor by done. congruence.
  - intros _. by rewrite bit_lor.
Qed.

(** The flags handed to [map_in_pml4] for the child. *)
Definition clone_flags (e : Z) : Z :=
  let flags := Z.land e VMM_ENTRY_FLAGS_MASK in
  if bit flags VMM_WRITABLE then cow_flags flags else flags.

Lemma clone_flags_entry e :
  plain e -> bit e VMM_PRESENT = true -> map_entry (entry_table e) (clone_flags e) = cow e /\
  bit (clone_flags e) VMM_USER = bit e VMM_USER.
Proof.
  intros P Hp. assert (A : aligned (entry_table e)) by apply entry_aligned.
  assert (U : is_u64 (entry_table e)) by (destruct A; unfold is_u64; lia).
  unfold map_entry, clone_flags, cow. rewrite (page_of _ U), bit_land, Hp by done. cbn [andb].
  destruct A as [A0 A1]. rewrite A0, Z.sub_0_r, land_addr by done.
  destruct (cow_flags_facts e) as (F1 & _ & _ & _ & F5 & _).
  destruct (bit e VMM_WRITABLE); [by rewrite F1|]. split; [|by rewrite bit_land].
  rewrite <- Z.land_assoc, Z.land_diag. symmetry. exact P.
Qed.

Lemma cow_zero : cow 0 = 0.
Proof. done. Qed.
Lemma child_entry_zero : child_entry 0 = 0.
Proof. done. Qed.

(** * The order of the pages *)

Definition vpn (p : list Z) (l : Z) : Z := foldl (fun a i => a * 512 + i) 0 p * 512 + l.

Lemma page3 rs r p l : is_page rs (r, p, l) ->
  exists i j k, p = [i; j; k] /\ 1 <= i <= 255 /\ in_table j /\ in_table k /\ in_table l /\
    vpn p l = ((i * 512 + j) * 512 + k) * 512 + l.
Proof.
  intros (_ & (_ & F & Hi) & L & Hl). destruct p as [|i [|j [|k [|? ?]]]]; try done.
  rewrite !Forall_cons in F. destruct F as (_ & Hj & Hk & _). exists i, j, k. split_and!; try done; lia.
Qed.

Lemma vpn_inj rs r p l r' p' l' :
  is_page rs (r, p, l) -> is_page rs (r', p', l') -> vpn p l = vpn p' l' -> p = p' /\ l = l'.
Proof.
  intros (i & j & k & -> & ? & ? & ? & ? & ->)%page3 (i' & j' & k' & -> & ? & ? & ? & ? & ->)%page3 E.
  unfold in_table in *. assert (i = i' /\ j = j' /\ k = k' /\ l = l') by lia. naive_solver.
Qed.

(** * Counting *)

Lemma NoDup_range (L : list Z) n : 0 <= n -> NoDup L -> (forall x, x ∈ L -> 0 <= x < n) -> len L <= n.
Proof.
  intros Hn HL HR. assert (S : L ⊆+ seqZ 0 n).
  { apply NoDup_submseteq; [done|]. intros x Hx. apply elem_of_seqZ. specialize (HR x Hx). lia. }
  apply submseteq_length in S. rewrite length_seqZ in S. unfold len. lia.
Qed.

Lemma filter_split_length {A} (P : A -> Prop) `{!forall x, Decision (P x)} (L : list A) :
  length L = (length (filter P L) + length (filter (fun x => ~ P x) L))%nat.
Proof.
  induction L as [|x L IH]; [done|]. rewrite !filter_cons. destruct (decide (P x)).
  - rewrite decide_False by auto. cbn. lia.
  - rewrite decide_True by auto. cbn. lia.
Qed.

(** There are 2^24 words in the memory of the allocator, so a tree has at most
    that many pages. *)
Lemma pages_bound s rs (L : list page) f :
  twf s rs -> NoDup L -> (forall x, x ∈ L -> maps s rs x f) -> len L <= 16777216.
Proof.
  intros W HL HM. pose (addr (x : page) := match table s x.1.1 x.1.2 with Some t => slot t x.2 / 8 | None => 0 end).
  assert (HA : forall x, x ∈ L -> exists t, table s x.1.1 x.1.2 = Some t /\ is_node rs x.1.1 x.1.2 /\
    in_table x.2 /\ aligned t /\ 0 <= t < 134217728).
  { intros [[r p] l] Hx. destruct (HM _ Hx) as ((Hr & Hp & _ & Hl) & Hb & _). cbn.
    unfold pte in Hb. destruct (table s r p) as [t|] eqn:Ht; [|done]. exists t. split_and!; try done.
    - by destruct (table_aligned s rs W r p t) as [At _].
    - by destruct (table_aligned s rs W r p t) as [At ?]; [..|lia].
    - destruct (t_table _ _ W r p t) as (T1 & T2 & _); [done|done|]. pose proof (wf_reserved _ (t_pmm _ _ W)).
      pmm_consts. ulia. }
  assert (E : len L = len (addr <$> L)) by (unfold len; by rewrite length_fmap). rewrite E.
  apply NoDup_range; [lia| |].
  - apply NoDup_fmap_2_strong; [|done]. intros [[r p] l] [[r' p'] l'] Hx Hy. unfold addr.
    destruct (HA _ Hx) as (t & Et & N & Hl & At & _), (HA _ Hy) as (t' & Et' & N' & Hl' & At' & _).
    cbn in *. rewrite Et, Et'. intros Es.
    assert (Es' : slot t l = slot t' l') by (destruct At, At'; unfold slot in *; ulia).
    apply slot_inj in Es' as [<- <-]; try done. destruct (t_inj _ _ W r p r' p' t) as [<- <-]; done.
  - intros a (x & -> & Hx)%list_elem_of_fmap. destruct (HA _ Hx) as (t & Et & _ & Hl & [At _] & Ht).
    unfold addr. rewrite Et. unfold slot, in_table in *. ulia.
Qed.

Lemma full_kept s s' :
  pmm_wf (frames s') -> pmm_reserved_block_count (frames s') = pmm_reserved_block_count (frames s) ->
  (forall f, user_frame s f -> user_frame s' f) -> full s -> full s'.
Proof.
  intros P R F H b Hb. destruct (Z.lt_ge_cases b (pmm_reserved_block_count (frames s))) as [?|Hr].
  - apply (wf_reserved_used _ P). lia.
  - assert (U : user_frame s (b * 4096)).
    { unfold user_frame, refs. rewrite Z.div_mul, Z.mod_mul by lia. specialize (H b Hb). lia. }
    apply F in U as (_ & _ & U). unfold refs in U. by rewrite Z.div_mul in U by lia.
Qed.

(** * The copy loops *)

Lemma grown_changed_same s s' rs y : grown s s' rs -> changed s s' rs y (pte s y).
Proof. intros [G1 G2 G3 G4 G5 G6 G7]. split; try done. intros z Hz. case_decide as E; [by subst; apply G2|by apply G2]. Qed.

(** A second change of the tree. *)
Record two_changes (s s2 : vmm) (rs : list Z) (x y : page) (e e' : Z) : Prop := {
  d_twf : twf s2 rs;
  d_pte : forall z, is_page rs z -> pte s2 z = if decide (z = y) then e' else if decide (z = x) then e else pte s z;
  d_table : forall r p t, is_node rs r p -> table s r p = Some t -> table s2 r p = Some t;
  d_frame : forall f, user_frame s f -> user_frame s2 f /\ refs s2 f = refs s f;
  d_reserved : pmm_reserved_block_count (frames s2) = pmm_reserved_block_count (frames s);
  d_data : forall f j, user_frame s f -> in_table j -> (forall r p, is_node rs r p -> table s r p <> Some f) ->
    entry s2 f j = entry s f j /\ forall r p, is_node rs r p -> table s2 r p <> Some f;
  d_regs : same_regs s s2
}.

Lemma two_changes_intro s s1 s2 rs x y e e' :
  changed s s1 rs x e -> changed s1 s2 rs y e' -> two_changes s s2 rs x y e e'.
Proof.
  intros [A1 A2 A3 A4 A5 A6 A7] [B1 B2 B3 B4 B5 B6 B7]. split; try done.
  - intros z Hz. rewrite B2 by done. destruct (decide (z = y)); [done|by apply A2].
  - intros r p t Hn Ht. by apply B3, A3.
  - intros f Hf. destruct (A4 f Hf) as [F1 E1]. destruct (B4 f F1) as [F2 E2]. split; [done|congruence].
  - congruence.
  - intros f j Hf Hj Hn. destruct (A6 f j Hf Hj Hn) as [E1 N1].
    destruct (B6 f j (proj1 (A4 f Hf)) Hj N1) as [E2 N2]. split; [congruence|done].
  - by eapply same_regs_trans.
Qed.

Section Clone.
Context (s0 : vmm) (rs : list Z) (parent child : Z).
Context (W0 : vwf s0 rs) (Hpar : parent ∈ rs) (Hch : child ∈ rs) (Hne : parent <> child).
Context (Hempty : forall p l, is_page rs (child, p, l) -> pte s0 (child, p, l) = 0).
Context (Hcount : forall f, user_frame s0 f -> refs s0 f <= 2147483648).

(** Pages of the parent before page number [n] that map [f]. *)
Definition cloned (n f : Z) (x : page) : Prop := x.1.1 = parent /\ vpn x.1.2 x.2 < n /\ maps s0 rs x f.

(** The pages before number [n] have been copied; where the frames ran out, the
    child may lack some. *)
Record clone_inv (s : vmm) (n : Z) : Prop := {
  ci_twf : twf s rs;
  ci_parent : forall p l, is_page rs (parent, p, l) -> pte s (parent, p, l) =
    if vpn p l <? n then cow (pte s0 (parent, p, l)) else pte s0 (parent, p, l);
  ci_child : forall p l, is_page rs (child, p, l) ->
    pte s (child, p, l) = (if vpn p l <? n then child_entry (pte s0 (parent, p, l)) else 0) \/
    full s /\ pte s (child, p, l) = 0;
  ci_other : forall x, is_page rs x -> x.1.1 <> parent -> x.1.1 <> child -> pte s x = pte s0 x;
  ci_frame : forall f, user_frame s0 f -> user_frame s f /\
    exists L, NoDup L /\ (forall x, x ∈ L <-> cloned n f x) /\ refs s f = refs s0 f + len L;
  ci_data : forall f j, user_frame s0 f -> in_table j -> (forall r p, is_node rs r p -> table s0 r p <> Some f) ->
    entry s f j = entry s0 f j /\ forall r p, is_node rs r p -> table s r p <> Some f;
  ci_regs : same_regs s0 s
}.

Lemma child_page p l : is_page rs (parent, p, l) <-> is_page rs (child, p, l).
Proof. by split; intros (_ & ?). Qed.

(** Nothing to copy between the numbers [n] and [m]. *)
Lemma clone_skip s n m :
  n <= m -> clone_inv s n ->
  (forall p l, is_page rs (parent, p, l) -> n <= vpn p l < m -> bit (pte s0 (parent, p, l)) VMM_PRESENT = false) ->
  clone_inv s m.
Proof.
  intros Hnm [C1 C2 C3 C4 C5 C6 C7] Z0. split; try done.
  - intros p l Hx. rewrite C2 by done. bcases; try done. unfold cow. by rewrite (Z0 p l Hx ltac:(lia)).
  - intros p l Hx. destruct (C3 p l Hx) as [E|]; [left|by right]. rewrite E. bcases; try done.
    unfold child_entry. by rewrite (Z0 p l (proj2 (child_page p l) Hx) ltac:(lia)).
  - intros f Hf. destruct (C5 f Hf) as (U & L & L1 & L2 & L3). split; [done|]. exists L. split_and!; try done.
    intros [[r p] l]. rewrite L2. unfold cloned. cbn. split; intros (-> & Hv & Hm); (split; [done|]); (split; [|done]); [lia|].
    destruct (Z.lt_ge_cases (vpn p l) n); [done|]. destruct Hm as (Hx & Hb & _). by rewrite (Z0 p l Hx ltac:(lia)) in Hb.
Qed.

(** One page: the parent's entry [e] becomes copy-on-write, the child gets it too
    (or the frames have run out), and the frame is counted once more. *)
Lemma clone_advance s s2 s3 p l e' :
  clone_inv s (vpn p l) -> is_page rs (parent, p, l) ->
  let e := pte s0 (parent, p, l) in
  bit e VMM_PRESENT = true ->
  two_changes s s2 rs (parent, p, l) (child, p, l) (cow e) e' -> e' = cow e \/ e' = 0 /\ full s2 ->
  recounted s2 s3 (entry_table e) (refs s2 (entry_table e) + 1) ->
  clone_inv s3 (vpn p l + 1).
Proof.
  intros C Hx e He D He' R. assert (Hx' := proj1 (child_page p l) Hx).
  assert (Hm : maps s0 rs (parent, p, l) (entry_table e)) by (by split).
  assert (Fk : full s -> full s3).
  { intros F. apply (rc_full _ _ _ _ R). apply (full_kept s s2 (t_pmm _ _ (d_twf _ _ _ _ _ _ _ D)) (d_reserved _ _ _ _ _ _ _ D)); [|done].
    intros f Hf. by apply (d_frame _ _ _ _ _ _ _ D). }
  assert (Ep : forall z, is_page rs z -> pte s3 z =
    if decide (z = (child, p, l)) then e' else if decide (z = (parent, p, l)) then cow e else pte s z).
  { intros z Hz. rewrite (words_pte s2 s3) by apply R. by apply (d_pte _ _ _ _ _ _ _ D). }
  split.
  - apply (twf_refs s2); [apply D|apply R..].
  - intros q m Hq. rewrite Ep, decide_False by (done || congruence). destruct (decide (((parent, q, m) : page) = (parent, p, l))) as [E|E].
    + injection E as -> ->. bcases. done.
    + rewrite (ci_parent _ _ C) by done. bcases; try done. destruct E.
      destruct (vpn_inj rs parent q m parent p l Hq Hx) as [-> ->]; [lia|done].
  - intros q m Hq. rewrite Ep by done. destruct (decide (((child, q, m) : page) = (child, p, l))) as [E|E].
    + injection E as -> ->. bcases. unfold child_entry. fold e. rewrite He. destruct He' as [->|[-> F]]; [by left|right].
      split; [by apply (rc_full _ _ _ _ R)|done].
    + rewrite decide_False by congruence. destruct (ci_child _ _ C q m Hq) as [E'|[F E']]; [left|right; split; [by apply Fk|done]].
      rewrite E'. bcases; try done. destruct E.
      destruct (vpn_inj rs child q m child p l Hq Hx') as [-> ->]; [lia|done].
  - intros [[r q] m] Hq H1 H2. cbn in H1, H2. rewrite Ep, !decide_False by (done || congruence). by apply (ci_other _ _ C).
  - intros f Hf. destruct (ci_frame _ _ C f Hf) as (U & L & L1 & L2 & L3).
    destruct (d_frame _ _ _ _ _ _ _ D f U) as [U2 E2]. split; [by apply (rc_frame _ _ _ _ R)|].
    rewrite (rc_refs _ _ _ _ R f U2). destruct (Z.eqb_spec f (entry_table e)) as [->|Hfe].
    + exists ((parent, p, l) :: L). split_and!.
      * apply NoDup_cons. split; [|done]. rewrite L2. unfold cloned. cbn. lia.
      * intros [[r q] m]. rewrite elem_of_cons, L2. unfold cloned. cbn. split.
        -- intros [[= -> -> ->]|(-> & ? & ?)]; (split_and!; [done|lia|done]).
        -- intros (-> & Hv & Hm'). destruct (decide (vpn q m = vpn p l)) as [E|]; [left|right; split_and!; [done|lia|done]].
           by destruct (vpn_inj rs parent q m parent p l (proj1 Hm') Hx E) as [-> ->].
      * unfold len in *. cbn [length]. lia.
    + exists L. split_and!; [done| |lia]. intros [[r q] m]. rewrite L2. unfold cloned. cbn.
      split; intros (-> & Hv & Hm'); (split_and!; [done| |done]); [lia|].
      destruct (decide (vpn q m = vpn p l)) as [E|]; [|lia]. exfalso. apply Hfe.
      destruct (vpn_inj rs parent q m parent p l (proj1 Hm') Hx E) as [-> ->]. destruct Hm' as (_ & _ & <-). done.
  - intros f j Hf Hj Hn. destruct (ci_data _ _ C f j Hf Hj Hn) as [E1 N1].
    destruct (d_data _ _ _ _ _ _ _ D f j (proj1 (ci_frame _ _ C f Hf)) Hj N1) as [E2 N2]. split.
    + rewrite (entry_words s2 s3) by apply R. congruence.
    + intros r q Hq. rewrite (words_table s2 s3) by apply R. by apply N2.
  - eapply same_regs_trans; [apply C|]. eapply same_regs_trans; [apply D|apply R].
Qed.

(** The tables of the parent stay where they are. *)
Definition keeps_tables (s s' : vmm) : Prop :=
  forall p t, is_node rs parent p -> table s parent p = Some t -> table s' parent p = Some t.

Lemma clone_page_facts s i j k l pt :
  clone_inv s (vpn [i; j; k] l) -> is_page rs (parent, [i; j; k], l) -> table s parent [i; j; k] = Some pt ->
  let s' := clone_page child i j k pt l s in
  clone_inv s' (vpn [i; j; k] l + 1) /\ keeps_tables s s'.
Proof.
  intros C Hx Ht. cbn zeta. set (x := (parent, [i; j; k], l)) in *. set (y := (child, [i; j; k], l)).
  assert (Hy : is_page rs y) by (by apply child_page). set (n := vpn [i; j; k] l) in *.
  assert (Ex : pte s x = pte s0 x) by (unfold x; rewrite (ci_parent _ _ C) by done; by rewrite Z.ltb_irrefl).
  assert (Ee : entry s pt l = pte s0 x) by (rewrite <- Ex; unfold x, pte; by rewrite Ht).
  unfold clone_page. rewrite Ee. set (e := pte s0 x). destruct (bit e VMM_PRESENT) eqn:He; cbn [negb].
  2: { split; [|by intros ? ?]. apply (clone_skip s n); [lia|done|]. intros q m Hq Hv.
       destruct (vpn_inj rs parent q m parent [i; j; k] l Hq Hx) as [-> ->]; [unfold n in *; lia|done]. }
  pose proof (w_plain _ _ W0 x Hx) as P. fold e in P. pose proof (w_user _ _ W0 x Hx He) as HU. fold e in HU.
  destruct (cow_facts e P) as (K1 & K2 & K3 & K4 & K5). destruct (clone_flags_entry e P He) as [M1 M2].
  assert (Hm : maps s0 rs x (entry_table e)) by (by split).
  assert (F0 := proj1 (t_leaf _ _ (w_tree _ _ W0) x _ Hm)). assert (Hms : maps s rs x (entry_table e)) by (split; [done|]; by rewrite Ex).
  destruct (t_leaf _ _ (ci_twf _ _ C) x _ Hms) as [F N].
  rewrite (bit_land e) by done. set (fl := Z.land e VMM_ENTRY_FLAGS_MASK).
  set (s1 := if bit e VMM_WRITABLE then set_entry pt l (Z.lor (entry_table e) (cow_flags fl)) s else s).
  assert (E1 : (if bit e VMM_WRITABLE then (cow_flags fl, set_entry pt l (Z.lor (Z.land e VMM_ENTRY_ADDR_MASK) (cow_flags fl)) s) else (fl, s)) = (clone_flags e, s1)).
  { unfold s1, clone_flags. cbn zeta. rewrite (bit_land e) by done. by destruct (bit e VMM_WRITABLE). }
  rewrite E1. assert (C1 : changed s s1 rs x (cow e)).
  { unfold s1, cow. rewrite He. cbn [andb]. destruct (bit e VMM_WRITABLE) eqn:Hw.
    - apply set_leaf_facts; [apply C|done|done|]. intros _. unfold cow in K1. rewrite He, Hw in K1. cbn [andb] in K1. by rewrite K1.
    - unfold e. rewrite <- Ex. apply grown_changed_same, grown_refl, C. }
  destruct (page3 _ _ _ _ Hx) as (i' & j' & k' & [= <- <- <-] & Hi & Hj & Hk & Hl & _).
  assert (Hi' : in_table i) by (unfold in_table; lia).
  destruct (virt_of_indices i j k l Hi' Hj Hk Hl) as (V1 & V2 & V3 & V4).
  assert (Hv : user_va (virt_of i j k l)).
  { split; [|rewrite V1; lia]. rewrite virt_of_sum by done. unfold in_table, is_u64 in *. lia. }
  assert (Ey : page_at child (virt_of i j k l) = y) by (unfold page_at; by rewrite V1, V2, V3, V4).
  pose proof (map_facts s1 rs child (virt_of i j k l) (entry_table e) (clone_flags e) (c_twf _ _ _ _ _ C1) Hch Hv) as M.
  rewrite M1, M2, Ey in M. cbn zeta in M. change (Z.land e VMM_ENTRY_ADDR_MASK) with (entry_table e).
  set (s2 := map_in_pml4 child (virt_of i j k l) (entry_table e) (clone_flags e) s1) in *. clearbody s1 s2.
  assert (D : exists e', two_changes s s2 rs x y (cow e) e' /\ (e' = cow e \/ e' = 0 /\ full s2)).
  { destruct M as [M|[M Fu]]; [done| | |].
    - intros _. rewrite K1. split; [by apply (c_frame _ _ _ _ _ C1)|].
      assert (Z0 : in_table 0) by (unfold in_table; lia). exact (proj2 (c_data _ _ _ _ _ C1 _ 0 F Z0 N)).
    - exists (cow e). split; [by eapply two_changes_intro|by left].
    - exists (pte s1 y). split; [eapply two_changes_intro; [done|by apply grown_changed_same]|right].
      split; [|done]. rewrite (c_pte _ _ _ _ _ C1), decide_False by (done || unfold x, y; congruence). unfold y.
      destruct (ci_child _ _ C [i; j; k] l Hy) as [->|[_ ?]]; [|done]. fold n. by rewrite Z.ltb_irrefl. }
  destruct D as (e' & D & He'). destruct (d_frame _ _ _ _ _ _ _ D _ F) as [F2 R2].
  assert (Rl : refs s2 (entry_table e) < 4294967295).
  { rewrite R2. destruct (ci_frame _ _ C _ F0) as (_ & L & L1 & L2 & ->).
    pose proof (pages_bound s0 rs L (entry_table e) (w_tree _ _ W0) L1) as B. pose proof (Hcount _ F0).
    enough (len L <= 16777216) by lia. apply B. intros z Hz. by apply L2 in Hz as (_ & _ & ?). }
  pose proof (ref_facts s2 _ (t_pmm _ _ (d_twf _ _ _ _ _ _ _ D)) F2 Rl) as R. split.
  - by eapply clone_advance.
  - intros q t Hq Hqt. rewrite (words_table s2) by apply R. by apply (d_table _ _ _ _ _ _ _ D).
Qed.

Lemma keeps_refl s : keeps_tables s s.
Proof. by intros ? ?. Qed.
Lemma keeps_trans s s1 s2 : keeps_tables s s1 -> keeps_tables s1 s2 -> keeps_tables s s2.
Proof. intros K1 K2 p t Hp Ht. by apply K2, K1. Qed.

Lemma clone_pt_facts s i j k pt :
  clone_inv s (vpn [i; j; k] 0) -> is_node rs parent [i; j; k] -> table s parent [i; j; k] = Some pt ->
  let s' := for_up 512 0 (clone_page child i j k pt) s in
  clone_inv s' (vpn [i; j; k] 0 + 512) /\ keeps_tables s s'.
Proof.
  intros C Hn Ht. cbn zeta.
  pose proof (for_up_ind (fun l s' => clone_inv s' (vpn [i; j; k] 0 + l) /\ keeps_tables s s') 512 0
    (clone_page child i j k pt) s) as Ind. apply Ind; clear Ind.
  - rewrite Z.add_0_r. split; [done|apply keeps_refl].
  - intros l s' Hl [C' K]. replace (vpn [i; j; k] 0 + l) with (vpn [i; j; k] l) in C' by (unfold vpn; lia).
    destruct (clone_page_facts s' i j k l pt C') as [C2 K2].
    + destruct Hn as [? ?]. by split_and!; try lia.
    + by apply K.
    + replace (vpn [i; j; k] 0 + (l + 1)) with (vpn [i; j; k] l + 1) by (unfold vpn; lia).
      split; [done|by eapply keeps_trans].
Qed.

Lemma clone_entry_facts s p i t :
  twf s rs -> is_node rs parent (p ++ [i]) -> table s parent p = Some t ->
  if clone_entry (entry s t i)
  then valid_table_pointer (entry_table (entry s t i)) = true /\ table s parent (p ++ [i]) = Some (entry_table (entry s t i))
  else table s parent (p ++ [i]) = None.
Proof.
  intros W Hn Ht. rewrite table_snoc, Ht. destruct (next_valid s rs parent p i t W Hn Ht) as [_ ->].
  unfold clone_entry, user_entry. destruct (bit (entry s t i) VMM_PRESENT) eqn:Hb; [|done].
  destruct (t_entry _ _ W parent p t i Hn Ht Hb) as [V U]. rewrite U, V. done.
Qed.

Lemma table_app_none s r q q' : table s r q = None -> table s r (q ++ q') = None.
Proof.
  revert r. induction q as [|i q IH]; intros r; cbn; [done|].
  destruct (next_table s r i) as [t|]; [apply IH|done].
Qed.

Lemma clone_absent s n m q :
  n <= m -> clone_inv s n -> table s parent q = None ->
  (forall p l, is_page rs (parent, p, l) -> n <= vpn p l < m -> exists q', p = q ++ q') -> clone_inv s m.
Proof.
  intros Hnm C Ht Hq. apply (clone_skip s n); [done|done|]. intros p l Hx Hv.
  pose proof (ci_parent _ _ C p l Hx) as E. destruct (Z.ltb_spec (vpn p l) n); [lia|]. rewrite <- E.
  destruct (Hq p l Hx Hv) as [q' ->]. unfold pte. by rewrite table_app_none.
Qed.

(** A loop over the entries of a table at the path [q]; every entry covers [w]
    page numbers. *)
Lemma clone_level s q t a w m i0 (body : Z -> Z -> vmm -> vmm) :
  0 <= w -> table s parent q = Some t -> clone_inv s (a + i0 * w) ->
  (forall i, i0 <= i < i0 + Z.of_nat m -> is_node rs parent (q ++ [i])) ->
  (forall i p l, i0 <= i < i0 + Z.of_nat m -> is_page rs (parent, p, l) -> a + i * w <= vpn p l < a + i * w + w -> exists q', p = (q ++ [i]) ++ q') ->
  (forall i u s', i0 <= i < i0 + Z.of_nat m -> clone_inv s' (a + i * w) -> table s' parent (q ++ [i]) = Some u ->
     clone_inv (body i u s') (a + i * w + w) /\ keeps_tables s' (body i u s')) ->
  let s' := for_up m i0 (fun i s => if clone_entry (entry s t i)
    then let u := entry_table (entry s t i) in if valid_table_pointer u then body i u s else s else s) s in
  clone_inv s' (a + (i0 + Z.of_nat m) * w) /\ keeps_tables s s'.
Proof.
  intros Hw Ht C Hn Hq Hb. cbn zeta.
  match goal with |- clone_inv (for_up _ _ ?f _) _ /\ _ =>
    pose proof (for_up_ind (fun i s' => clone_inv s' (a + i * w) /\ keeps_tables s s') m i0 f s) as Ind end.
  apply Ind; clear Ind; [split; [done|apply keeps_refl]|].
  intros i s' Hi [C' K]. assert (Hqn : is_node rs parent q) by (by eapply node_prefix, (Hn i)).
  pose proof (clone_entry_facts s' q i t (ci_twf _ _ C') (Hn i Hi) (K _ _ Hqn Ht)) as E.
  replace (a + (i + 1) * w) with (a + i * w + w) by lia.
  destruct (clone_entry (entry s' t i)).
  - destruct E as [-> E]. destruct (Hb i _ s' Hi C' E) as [C2 K2]. split; [done|by eapply keeps_trans].
  - split; [|done]. apply (clone_absent s' (a + i * w) _ (q ++ [i])); [lia|done|done|]. intros p l. by apply Hq.
Qed.

Lemma clone_pd_facts s i j pd :
  is_node rs parent [i; j] -> clone_inv s ((i * 512 + j) * 262144) -> table s parent [i; j] = Some pd ->
  let s' := clone_pd child i j pd s in
  clone_inv s' ((i * 512 + j) * 262144 + 262144) /\ keeps_tables s s'.
Proof.
  intros Hn C Ht. pose proof Hn as (Hr & _ & F & Hi). rewrite !Forall_cons in F. destruct F as (_ & Hj & _).
  assert (Hk : forall k, 0 <= k < 512 -> is_node rs parent [i; j; k]).
  { intros k Hk. split; [done|]. split; [cbn; lia|]. split; [|done]. rewrite !Forall_cons, Forall_nil. unfold in_table in *. lia. }
  cbn zeta. unfold clone_pd.
  destruct (clone_level s [i; j] pd ((i * 512 + j) * 262144) 512 512 0
    (fun k pt s => for_up 512 0 (clone_page child i j k pt) s)) as [L1 L2]; [lia|done|by rewrite Z.add_0_r|done| | |].
  - intros k p l Hk0 Hx. destruct (page3 _ _ _ _ Hx) as (i' & j' & k' & -> & ? & ? & ? & ? & ->). unfold in_table in *. intros ?.
    exists []. cbn [app]. assert (i' = i /\ j' = j /\ k' = k) as (-> & -> & ->) by lia. done.
  - intros k u s' Hk' C' Ht'. replace ((i * 512 + j) * 262144 + k * 512) with (vpn [i; j; k] 0) in * by (unfold vpn; cbn [foldl]; lia).
    apply clone_pt_facts; [done|by apply Hk|done].
  - by split.
Qed.

Lemma clone_pdpt_facts s i pdpt :
  is_node rs parent [i] -> clone_inv s (i * 134217728) -> table s parent [i] = Some pdpt ->
  let s' := clone_pdpt child i pdpt s in
  clone_inv s' (i * 134217728 + 134217728) /\ keeps_tables s s'.
Proof.
  intros Hn C Ht. pose proof Hn as (Hr & _ & F & Hi).
  assert (Hk : forall k, 0 <= k < 512 -> is_node rs parent [i; k]).
  { intros k Hk. split; [done|]. split; [cbn; lia|]. split; [|done]. rewrite !Forall_cons, Forall_nil. unfold in_table in *. lia. }
  cbn zeta. unfold clone_pdpt.
  destruct (clone_level s [i] pdpt (i * 134217728) 262144 512 0 (fun j pd s => clone_pd child i j pd s)) as [L1 L2];
    [lia|done|by rewrite Z.add_0_r|done| | |].
  - intros k p l Hk0 Hx. destruct (page3 _ _ _ _ Hx) as (i' & j' & k' & -> & ? & ? & ? & ? & ->). unfold in_table in *. intros ?.
    exists [k']. cbn [app]. assert (i' = i /\ j' = k) as (-> & ->) by lia. done.
  - intros k u s' Hk' C' Ht'. replace (i * 134217728 + k * 262144) with ((i * 512 + k) * 262144) in * by lia.
    apply clone_pd_facts; [by apply Hk|done|done].
  - by split.
Qed.

(** After the loops every page of the user half has been copied. *)
Lemma clone_user_facts : clone_inv (clone_user child parent s0) 34359738368.
Proof.
  unfold clone_user.
  destruct (clone_level s0 [] parent 0 134217728 255 1 (fun i pdpt s => clone_pdpt child i pdpt s)) as [L1 L2];
    [lia|done| | | | |exact L1].
  - split; try done; [apply W0|..].
    + intros p l Hx. destruct (page3 _ _ _ _ Hx) as (i & j & k & -> & ? & ? & ? & ? & ->). unfold in_table in *. bcases. done.
    + intros p l Hx. left. destruct (page3 _ _ _ _ Hx) as (i & j & k & -> & ? & ? & ? & ? & E). rewrite (Hempty _ _ Hx), E.
      unfold in_table in *. bcases. done.
    + intros f Hf. split; [done|]. exists []. split_and!; [by apply NoDup_nil| |unfold len; cbn; lia].
      intros [[r p] l]. rewrite elem_of_nil. split; [done|]. intros (_ & Hv & Hx & _). cbn in Hv.
      destruct (page3 _ _ _ _ Hx) as (i & j & k & -> & ? & ? & ? & ? & E). rewrite E in Hv. unfold in_table in *. lia.
  - intros i Hi. cbn [app]. split; [done|]. split; [cbn; lia|]. split; [|lia]. rewrite Forall_cons, Forall_nil. unfold in_table. lia.
  - intros k p l Hk0 Hx. destruct (page3 _ _ _ _ Hx) as (i' & j' & k' & -> & ? & ? & ? & ? & ->). unfold in_table in *. intros ?.
    exists [j'; k']. cbn [app]. assert (i' = k) as -> by lia. done.
  - intros k u s' Hk' C' Ht'. rewrite Z.add_0_l in *. apply clone_pdpt_facts; [|done|done].
    split; [done|]. split; [cbn; lia|]. split; [|lia]. rewrite Forall_cons, Forall_nil. unfold in_table. lia.
Qed.

(** * The address spaces after the loops *)

Section Cloned.
Context (s : vmm) (C : clone_inv s 34359738368).

Lemma cloned_vpn r p l : is_page rs (r, p, l) -> vpn p l < 34359738368.
Proof. intros (i & j & k & -> & ? & ? & ? & ? & ->)%page3. unfold in_table in *. lia. Qed.

Lemma cloned_parent p l : is_page rs (parent, p, l) -> pte s (parent, p, l) = cow (pte s0 (parent, p, l)).
Proof. intros Hx. rewrite (ci_parent _ _ C) by done. pose proof (cloned_vpn _ _ _ Hx). by bcases. Qed.

Lemma cloned_child p l : is_page rs (child, p, l) ->
  pte s (child, p, l) = child_entry (pte s0 (parent, p, l)) \/ full s /\ pte s (child, p, l) = 0.
Proof. intros Hx. pose proof (ci_child _ _ C p l Hx) as E. pose proof (cloned_vpn _ _ _ Hx). by destruct (Z.ltb_spec (vpn p l) 34359738368); [|lia]. Qed.

(** The page of the first state whose words [x] shows. *)
Definition origin (x : page) : page := if decide (x.1.1 = child) then (parent, x.1.2, x.2) else x.

Lemma origin_page x : is_page rs x -> is_page rs (origin x).
Proof. destruct x as [[r p] l]. unfold origin. cbn. case_decide as E; [|done]. rewrite E. apply child_page. Qed.

(** The entry of a present page: of the same frame, read-only where its frame is
    shared. *)
Lemma cloned_pte x :
  is_page rs x -> present s x ->
  let e := pte s0 (origin x) in
  present s0 (origin x) /\ entry_table (pte s x) = entry_table e /\ plain (pte s x) /\
  bit (pte s x) VMM_USER = true /\
  (bit (pte s x) VMM_WRITABLE = true -> x.1.1 <> parent /\ x.1.1 <> child /\ bit (pte s0 x) VMM_WRITABLE = true).
Proof.
  intros Hx Hp. pose proof (origin_page x Hx) as Ho. pose proof (w_plain _ _ W0 _ Ho) as Pl. cbn zeta. unfold present in *.
  assert (X : pte s x = cow (pte s0 (origin x)) \/ x.1.1 <> parent /\ x.1.1 <> child /\ pte s x = pte s0 (origin x)).
  { destruct x as [[r p] l]. unfold origin in *. cbn [fst snd] in *. destruct (decide (r = child)) as [->|Hc].
    - left. destruct (cloned_child p l Hx) as [E|[_ E]]; rewrite E in Hp; [|done]. rewrite E. revert Hp.
      unfold child_entry. by destruct (bit (pte s0 (parent, p, l)) VMM_PRESENT).
    - destruct (decide (r = parent)) as [->|Hpa]; [left; by apply cloned_parent|right]. split_and!; try done.
      by apply (ci_other _ _ C). }
  destruct (cow_facts _ Pl) as (K1 & K2 & K3 & K4 & K5). destruct X as [E|(H1 & H2 & E)]; rewrite E in *.
  - rewrite K3 in Hp. split_and!; try done; [rewrite K4; by apply (w_user _ _ W0)|]. by rewrite K5.
  - split_and!; try done; [by apply (w_user _ _ W0)|]. intros Hw. split_and!; try done. unfold origin in Hw. by rewrite decide_False in Hw.
Qed.

Lemma cloned_maps x f : maps s rs x f -> maps s0 rs (origin x) f.
Proof.
  intros (Hx & Hp & <-). destruct (cloned_pte x Hx Hp) as (P0 & -> & _). split; [by apply origin_page|done].
Qed.

Lemma cloned_word x j : is_page rs x -> present s x -> in_table j -> user_word s x j = user_word s0 (origin x) j.
Proof.
  intros Hx Hp Hj. destruct (cloned_pte x Hx Hp) as (P0 & E & _). unfold user_word. rewrite E.
  destruct (t_leaf _ _ (w_tree _ _ W0) _ _ (maps_at s0 rs _ (origin_page x Hx) P0)) as [F N].
  by apply (ci_data _ _ C).
Qed.

Lemma cloned_count f L : NoDup L -> (forall x, x ∈ L -> maps s rs x f) -> user_frame s0 f -> len L <= refs s f.
Proof.
  intros HL HM F. destruct (ci_frame _ _ C f F) as (_ & K & K1 & K2 & ->).
  pose proof (filter_split_length (fun x : page => x.1.1 = child) L) as EL.
  set (A := filter (fun x : page => x.1.1 = child) L) in *. set (B := filter (fun x : page => x.1.1 <> child) L) in *.
  assert (HA : len A <= len K).
  { assert (S : (origin <$> A) ⊆+ K).
    - apply NoDup_submseteq; [apply NoDup_fmap_2_strong; [|by apply NoDup_filter]|].
      + intros [[r p] l] [[r' p'] l'] [E1 _]%list_elem_of_filter [E2 _]%list_elem_of_filter. cbn in E1, E2. subst r r'.
        unfold origin. cbn. rewrite !decide_True by done. by intros [= -> ->].
      + intros y (x & -> & [Hc Hx]%list_elem_of_filter)%list_elem_of_fmap. apply K2. pose proof (cloned_maps x f (HM x Hx)) as Hm.
        unfold cloned. split; [unfold origin; by rewrite decide_True|]. split; [|done].
        destruct (origin x) as [[r p] l]. apply (cloned_vpn r p l), Hm.
    - apply submseteq_length in S. rewrite length_fmap in S. unfold len. lia. }
  assert (HB : len B <= refs s0 f).
  { destruct (decide (B = [])) as [->|Hn]; [destruct F as (_ & _ & ?); unfold len; cbn; lia|].
    apply (w_count _ _ W0 f B); [done|by apply NoDup_filter|]. intros x [Hc Hx]%list_elem_of_filter.
    pose proof (cloned_maps x f (HM x Hx)) as Hm. unfold origin in Hm. by rewrite decide_False in Hm. }
  unfold len in *. lia.
Qed.

Lemma cloned_wf : vwf s rs.
Proof.
  split.
  - apply C.
  - intros x Hx. destruct (decide (bit (pte s x) VMM_PRESENT = true)) as [Hp|Hp]; [by apply (cloned_pte x Hx Hp)|].
    destruct x as [[r p] l]. destruct (decide (r = child)) as [->|Hc].
    + destruct (cloned_child p l Hx) as [E|[_ E]]; rewrite E in *; [|done]. unfold child_entry in *.
      destruct (bit (pte s0 (parent, p, l)) VMM_PRESENT) eqn:Hb; [|done]. apply cow_facts, W0, child_page, Hx.
    + destruct (decide (r = parent)) as [->|Hpa].
      * rewrite cloned_parent by done. by apply cow_facts, W0.
      * rewrite (ci_other _ _ C) by done. by apply W0.
  - intros x Hx Hp. by apply (cloned_pte x Hx Hp).
  - intros f L H0 HL HM. destruct (list_nonempty L H0) as [x Hx]. apply cloned_count; [done|done|].
    apply (t_leaf _ _ (w_tree _ _ W0) _ _ (cloned_maps x f (HM x Hx))).
  - intros x y f Hx Hy Hw. destruct (cloned_pte x (proj1 Hx) (proj1 (proj2 Hx))) as (_ & _ & _ & _ & E).
    destruct (E Hw) as (H1 & H2 & H3). assert (Ox : origin x = x) by (unfold origin; by rewrite decide_False).
    pose proof (cloned_maps x f Hx) as Mx. pose proof (cloned_maps y f Hy) as My. rewrite Ox in Mx.
    pose proof (w_own _ _ W0 x _ f Mx My H3) as Exy. unfold origin in Exy. case_decide; [|done].
    rewrite Exy in H1. done.
Qed.
End Cloned.
End Clone.
