(* ===== verification/VmmFork.v ===== *)
(** New address spaces in [Vmm]: an empty one ([vmm_create_address_space]) and a
    copy-on-write clone of another ([vmm_clone_address_space]). *)

From S2P Require Import Prelude Pmm Vmm VmmTable VmmMap VmmCow VmmClone.

Lemma share_kernel_facts c p s :
  aligned c -> aligned p -> c <> p ->
  same_rest s (share_kernel c p s) /\
  forall u j, aligned u -> in_table j ->
    entry (share_kernel c p s) u j =
    if (u =? c) && ((j =? 0) || (256 <=? j)) then entry s p j else entry s u j.
Proof.
  intros Hc Hp Hne. unfold share_kernel. set (s1 := set_entry c 0 (entry s p 0) s).
  assert (Z0 : in_table 0) by (unfold in_table; lia).
  assert (E1 : forall u j, aligned u -> in_table j -> entry s1 u j = if (u =? c) && (j =? 0) then entry s p j else entry s u j).
  { intros u j Hu Hj. unfold s1. rewrite entry_set by done. destruct (Z.eqb_spec u c), (Z.eqb_spec j 0) as [->|]; done. }
  assert (R1 : same_rest s s1) by done. clearbody s1.
  pose proof (for_up_ind (fun n s' => same_rest s s' /\ forall u j, aligned u -> in_table j ->
    entry s' u j = if (u =? c) && ((j =? 0) || ((256 <=? j) && (j <? n))) then entry s p j else entry s u j) 256 256
    (fun i s => set_entry c i (entry s p i) s) s1) as L.
  destruct L as [L1 L2].
  - split; [done|]. intros u j Hu Hj. rewrite E1 by done. destruct (u =? c); cbn [andb]; [|done]. bcases; done.
  - intros n s' Hn (R & E). split; [by apply same_rest_set|]. intros u j Hu Hj.
    assert (in_table n) by (unfold in_table; lia). rewrite entry_set by done. rewrite !E by done.
    destruct (Z.eqb_spec p c); [congruence|]. cbn [andb]. destruct (Z.eqb_spec u c) as [->|]; cbn [andb]; [|done].
    destruct (Z.eqb_spec j n) as [->|].
    + bcases; done.
    + replace (j <? n + 1) with (j <? n); [done|]. bcases; lia || done.
  - split; [exact L1|]. intros u j Hu Hj. rewrite L2 by done. unfold in_table in Hj.
    destruct (Z.ltb_spec j (256 + Z.of_nat 256)); [|lia]. by rewrite andb_true_r.
Qed.

(** * A new root *)

Section NewRoot.
Context (s s2 : vmm) (rs : list Z) (c : Z) (W : vwf s rs) (A : allocated s s2 c).
Context (E : forall u j, aligned u -> in_table j -> u <> c -> entry s2 u j = entry s u j).
Context (E0 : forall i, 1 <= i <= 255 -> entry s2 c i = 0).
Context (R : same_regs s s2).

Lemma root_fresh : c ∉ rs.
Proof.
  intros Hc. assert (N : is_node rs c []) by (split; [done|]; split; [cbn; lia|by split; [apply Forall_nil|]]).
  destruct (t_table _ _ (w_tree _ _ W) c [] c N eq_refl) as (_ & _ & H). pose proof (a_free _ _ _ A). lia.
Qed.

Lemma root_grown : grown s s2 rs /\ (forall r p, is_node rs r p -> table s2 r p <> Some c) /\ (forall x, ~ maps s2 rs x c).
Proof. by apply new_frame_grown; [apply W|..]. Qed.

(** The new tree is its root. *)
Lemma root_table p : vpath p -> table s2 c p = if decide (p = []) then Some c else None.
Proof.
  intros (_ & _ & Hi). destruct p as [|i p]; [done|]. cbn [table]. unfold next_table. by rewrite (E0 i Hi).
Qed.

Lemma root_pte p l : is_page (c :: rs) (c, p, l) -> pte s2 (c, p, l) = 0.
Proof. intros (_ & Hp & L & _). unfold pte. rewrite root_table by done. by destruct p. Qed.

Lemma root_page x : is_page (c :: rs) x -> x.1.1 <> c -> is_page rs x.
Proof. destruct x as [[r p] l]. intros (Hr & H) Hne. split; [|done]. by apply elem_of_cons in Hr as [|]. Qed.
Lemma root_node r p : is_node (c :: rs) r p -> r <> c -> is_node rs r p.
Proof. intros (Hr & H) Hne. split; [|done]. by apply elem_of_cons in Hr as [|]. Qed.

Lemma root_maps x f : maps s2 (c :: rs) x f -> maps s2 rs x f.
Proof.
  destruct x as [[r p] l]. intros (Hx & Hp & Hf). destruct (decide (r = c)) as [->|Hne].
  - by rewrite root_pte in Hp.
  - split; [by apply root_page|done].
Qed.

Lemma root_wf : vwf s2 (c :: rs) /\ same_view s s2 rs.
Proof.
  destruct root_grown as (G & N & M). destruct (vwf_grown s s2 rs W G) as [W2 V]. pose proof (w_tree _ _ W2) as T2.
  split; [|done]. split; [split|..].
  - apply A.
  - intros r p t Hn Ht. destruct (decide (r = c)) as [->|Hne]; [|by eapply (t_table _ _ T2), Ht; apply root_node].
    rewrite root_table in Ht by apply Hn. case_decide; [|done]. injection Ht as <-. apply A.
  - intros r p t i Hn Ht Hb. destruct (decide (r = c)) as [->|Hne]; [|by eapply (t_entry _ _ T2), Hb; [apply root_node|]].
    destruct Hn as [_ Hn]. rewrite root_table in Ht by (by eapply vpath_prefix).
    case_decide as Ep; [|done]. injection Ht as <-. subst p. destruct Hn as (_ & _ & Hn). cbn in Hn. by rewrite E0 in Hb.
  - assert (X : forall r p, is_node (c :: rs) r p -> r <> c -> forall q, vpath q -> table s2 c q <> table s2 r p \/ table s2 r p = None).
    { intros r p Hn Hne q Hq. rewrite root_table by done. case_decide; [left|by destruct (table s2 r p); [left|right]].
      intros Eq. by apply (N r p (root_node _ _ Hn Hne)). }
    intros r p r' p' t Hn Hn' Ht Ht'. destruct (decide (r = c)) as [->|Hne], (decide (r' = c)) as [->|Hne'].
    + rewrite root_table in Ht, Ht' by (apply Hn || apply Hn'). split; [done|]. repeat case_decide; congruence.
    + destruct (X r' p' Hn' Hne' p (proj2 Hn)); congruence.
    + destruct (X r p Hn Hne p' (proj2 Hn')); congruence.
    + by eapply (t_inj _ _ T2), Ht'; try apply root_node.
  - intros x f Hm%root_maps. destruct (t_leaf _ _ T2 x f Hm) as [F Nf]. split; [done|]. intros r p Hn Ht.
    destruct (decide (r = c)) as [->|Hne]; [|by eapply Nf, Ht; apply root_node].
    rewrite root_table in Ht by apply Hn. case_decide; [|done]. injection Ht as <-. by apply (M x).
  - intros [[r p] l] Hx. destruct (decide (r = c)) as [->|Hne]; [by rewrite root_pte|]. by apply W2, root_page.
  - intros [[r p] l] Hx. destruct (decide (r = c)) as [->|Hne]; [by rewrite root_pte|]. by apply W2, root_page.
  - intros f L H0 HL HM. apply (w_count _ _ W2); [done|done|]. intros x Hx. by apply root_maps, HM.
  - intros x y f Hx%root_maps Hy%root_maps. by apply (w_own _ _ W2 x y f).
Qed.
End NewRoot.

(** * A new address space *)

Lemma cleared_frame s s1 c :
  allocated s s1 c -> words s1 = words s -> same_regs s s1 ->
  let sc := clear_page c s1 in
  allocated s sc c /\ same_regs s sc /\
  (forall u j, aligned u -> in_table j -> entry sc u j = if u =? c then 0 else entry s u j).
Proof.
  intros A Ew R. destruct (user_frame_aligned _ _ (a_pmm _ _ _ A) (a_frame _ _ _ A)) as [Ac _].
  destruct (clear_page_facts c s1 Ac) as [R1 E1]. cbn zeta. set (sc := clear_page c s1) in *. clearbody sc. split_and!.
  - apply (allocated_memory s s1); [done|]. apply R1.
  - exact (same_regs_trans _ _ _ R (same_rest_regs _ _ R1)).
  - intros u j Hu Hj. rewrite E1 by done. destruct (u =? c); [done|]. by apply entry_words.
Qed.

(** A cleared frame that shares the kernel entries of [from] is an empty tree. *)
Lemma empty_root s sc rs c from :
  vwf s rs -> allocated s sc c -> same_regs s sc ->
  (forall u j, aligned u -> in_table j -> entry sc u j = if u =? c then 0 else entry s u j) ->
  aligned from -> 0 < refs s from ->
  let s2 := share_kernel c from sc in
  allocated s s2 c /\ (forall u j, aligned u -> in_table j -> u <> c -> entry s2 u j = entry s u j) /\
  (forall i, in_table i -> entry s2 c i = if (i =? 0) || (256 <=? i) then entry s from i else 0) /\ same_regs s s2.
Proof.
  intros W A R E1 Af Hr. destruct (user_frame_aligned _ _ (a_pmm _ _ _ A) (a_frame _ _ _ A)) as [Ac _].
  assert (Hne : from <> c) by (intros ->; pose proof (a_free _ _ _ A); lia).
  destruct (share_kernel_facts c from sc Ac Af (not_eq_sym Hne)) as [R2 E2].
  cbn zeta. set (s2 := share_kernel c from sc) in *. clearbody s2. split_and!.
  - apply (allocated_memory s sc); [done|]. apply R2.
  - intros u j Hu Hj Huc. rewrite E2, !E1 by done. by destruct (Z.eqb_spec u c).
  - intros i Hi. rewrite E2, !E1, Z.eqb_refl by done. cbn [andb]. by destruct (Z.eqb_spec from c).
  - exact (same_regs_trans _ _ _ R (same_rest_regs _ _ R2)).
Qed.

Definition kernel_root (s : vmm) : Z :=
  if kernel_pml4 s =? 0 then Z.land (cr3 s) VMM_ENTRY_ADDR_MASK else kernel_pml4 s.

Lemma kernel_root_facts s : vmm_kernel_pml4 s = (kernel_root s, s <| kernel_pml4 := kernel_root s |>).
Proof.
  unfold vmm_kernel_pml4, kernel_root, vmm_init. destruct (kernel_pml4 s =? 0); [done|]. by destruct s.
Qed.

(** [vmm_create_address_space]: out of frames, nothing changes; otherwise the new
    space has no user page, shares the kernel's entries, and the other spaces are
    as before. *)
Lemma create_space_facts s rs :
  vwf s rs -> aligned (kernel_root s) -> 0 < refs s (kernel_root s) ->
  match vmm_create_address_space s with
  | (None, s') => s' = s /\ full s
  | (Some c, s') =>
      c ∉ rs /\ vwf s' (c :: rs) /\ same_view s s' rs /\
      (forall p l, is_page (c :: rs) (c, p, l) -> ~ present s' (c, p, l)) /\
      (forall i, in_table i -> i = 0 \/ 256 <= i -> entry s' c i = entry s (kernel_root s) i)
  end.
Proof.
  intros W Ak Hk. unfold vmm_create_address_space.
  pose proof (alloc_frame_facts s (t_pmm _ _ (w_tree _ _ W))) as A. destruct (alloc_frame s) as [[c|] s1]; [|done].
  destruct A as (A & Ew & R). set (k := kernel_root s) in *.
  destruct (cleared_frame s s1 c A Ew R) as (A1 & R1 & E1). set (sc := clear_page c s1) in *. clearbody sc.
  rewrite kernel_root_facts. replace (kernel_root sc) with k.
  2: { unfold k, kernel_root. by destruct R1 as (-> & _ & -> & _). }
  pose (si := s <| kernel_pml4 := k |>). pose (sci := sc <| kernel_pml4 := k |>).
  assert (Wi : vwf si rs) by (apply (vwf_refs s); try done; [apply W|intros; by apply (w_count _ _ W)]).
  assert (Ai : allocated si sci c) by (destruct A1; by split).
  assert (Ri : same_regs si sci) by (destruct R1 as (? & ? & ? & ?); done).
  destruct (empty_root si sci rs c k Wi Ai Ri E1 Ak Hk) as (A2 & E2 & E3 & R2).
  fold sci. set (s2 := share_kernel c k sci) in *. clearbody s2.
  assert (E0 : forall i, 1 <= i <= 255 -> entry s2 c i = 0).
  { intros i Hi. rewrite E3 by (unfold in_table; lia). bcases; done. }
  destruct (root_wf si s2 rs c Wi A2 E2 E0 R2) as [W2 V2]. split_and!; try done.
  - by apply (root_fresh si s2 rs c).
  - apply (same_view_trans s si); [by apply words_view|done].
  - intros p l Hx Hp. unfold present in Hp. by rewrite (root_pte s2 rs c) in Hp.
  - intros i Hi Hk0. rewrite E3 by done. bcases; try done; lia.
Qed.

(** What the clone [c] of [p] is in [s']. *)
Record clone_ok (s s' : vmm) (rs : list Z) (p c : Z) : Prop := {
  co_fresh : c ∉ rs;
  co_wf : vwf s' (c :: rs);
  co_view : same_view s s' rs;
  co_child : forall q l, is_page (c :: rs) (c, q, l) -> present s' (c, q, l) ->
    present s (p, q, l) /\ (forall j, in_table j -> user_word s' (c, q, l) j = user_word s (p, q, l) j);
  co_complete : ~ full s' -> forall q l, is_page (c :: rs) (c, q, l) -> present s (p, q, l) -> present s' (c, q, l);
  co_readonly : forall q l, is_page (c :: rs) (c, q, l) ->
    (present s' (p, q, l) -> bit (pte s' (p, q, l)) VMM_WRITABLE = false) /\
    (present s' (c, q, l) -> bit (pte s' (c, q, l)) VMM_WRITABLE = false);
  co_entries : forall q l, is_page (c :: rs) (c, q, l) -> pte s' (p, q, l) = cow (pte s (p, q, l));
  co_regs : same_regs s s'
}.

Lemma clone_facts s rs p :
  vwf s rs -> p ∈ rs -> (forall f, user_frame s f -> refs s f <= 2147483648) ->
  match vmm_clone_address_space p s with
  | (None, s') => s' = s /\ full s
  | (Some c, s') => clone_ok s s' rs p c
  end.
Proof.
  intros W Hp Hcnt. pose proof (w_tree _ _ W) as T.
  assert (N0 : is_node rs p []) by (split; [done|]; split; [cbn; lia|by split; [apply Forall_nil|]]).
  unfold vmm_clone_address_space. rewrite (walk_valid s rs p [] p T N0 eq_refl). cbn [negb].
  pose proof (alloc_frame_facts s (t_pmm _ _ T)) as A. destruct (alloc_frame s) as [[c|] s1]; [|done].
  destruct A as (A & Ew & R). destruct (cleared_frame s s1 c A Ew R) as (A1 & R1 & E1).
  set (sc := clear_page c s1) in *. clearbody sc.
  destruct (table_aligned s rs T p [] p N0 eq_refl) as [Ap _]. destruct (t_table _ _ T p [] p N0 eq_refl) as (_ & _ & Hrp).
  destruct (empty_root s sc rs c p W A1 R1 E1 Ap Hrp) as (A2 & E2 & E3 & R2).
  set (s2 := share_kernel c p sc) in *. clearbody s2.
  assert (E0 : forall i, 1 <= i <= 255 -> entry s2 c i = 0).
  { intros i Hi. rewrite E3 by (unfold in_table; lia). bcases; done. }
  pose proof (root_fresh s s2 rs c W A2) as Hc. destruct (root_wf s s2 rs c W A2 E2 E0 R2) as [W2 V2].
  destruct (root_grown s s2 rs c W A2 E2 R2) as (G & _ & _).
  assert (Hpc : p <> c) by (by intros ->).
  assert (Hp2 : p ∈ c :: rs) by (by right). assert (Hc2 : c ∈ c :: rs) by (by left).
  assert (Hpage : forall x, is_page rs x -> is_page (c :: rs) x) by (intros [[r q] l] (? & ?); split; [by right|done]).
  assert (Hpar : forall q l, is_page (c :: rs) (c, q, l) -> is_page rs (p, q, l)) by (intros q l (_ & ?); done).
  assert (Hcnt2 : forall f, user_frame s2 f -> refs s2 f <= 2147483648).
  { intros f (F1 & F2 & F3). pose proof (wf_reserved _ (a_pmm _ _ _ A2)). unfold refs in *. rewrite (a_refs _ _ _ A2) in * by lia.
    destruct (Z.eqb_spec (f / 4096) (c / 4096)) as [|Hne]; [lia|]. apply Hcnt. unfold user_frame, refs.
    rewrite <- (a_reserved _ _ _ A2). done. }
  pose proof (clone_user_facts s2 (c :: rs) p c W2 Hp2 Hc2 Hpc (root_pte s2 rs c E0) Hcnt2) as C.
  set (s3 := clone_user c p s2) in *. clearbody s3.
  pose proof (cloned_pte s2 (c :: rs) p c W2 Hp2 Hc2 s3 C) as P3.
  assert (Ok : forall x, x.1.1 <> c -> origin p c x = x) by (intros x Hx; unfold origin; by rewrite decide_False).
  assert (Oc : forall q l, origin p c (c, q, l) = (p, q, l)) by (intros q l; unfold origin; by rewrite decide_True).
  assert (Ep : forall q l, is_page (c :: rs) (c, q, l) -> pte s2 (p, q, l) = pte s (p, q, l)).
  { intros q l Hx. by apply (gr_pte _ _ _ G), Hpar. }
  assert (Pres : forall r q l, r <> c -> is_page rs (r, q, l) -> (present s3 (r, q, l) <-> present s2 (r, q, l))).
  { intros r q l Hrc Hx. assert (Hx' := Hpage _ Hx). unfold present. destruct (decide (r = p)) as [->|Hrp'].
    - rewrite (cloned_parent s2 (c :: rs) p c s3 C) by done. by destruct (cow_facts _ (w_plain _ _ W2 _ Hx')) as (_ & _ & -> & _).
    - by rewrite (ci_other _ _ _ _ _ _ C). }
  assert (Word : forall x j, is_page (c :: rs) x -> present s3 x -> in_table j -> user_word s3 x j = user_word s2 (origin p c x) j)
    by exact (cloned_word s2 (c :: rs) p c W2 Hp2 Hc2 s3 C).
  split; try done.
  - by apply (cloned_wf s2 (c :: rs) p c).
  - apply (same_view_trans s s2); [done|]. intros [[r q] l] Hx. assert (Hrc : r <> c) by (intros ->; by destruct Hx).
    split; [by apply Pres|]. intros Hpr j Hj.
    rewrite Word; [by rewrite (Ok (r, q, l) Hrc)|by apply Hpage|by apply Pres|done].
  - intros q l Hx Hpr. destruct (P3 _ Hx Hpr) as (P0 & _). rewrite Oc in P0.
    assert (P0' : present s (p, q, l)) by (unfold present in *; by rewrite Ep in P0). split; [done|].
    intros j Hj. rewrite Word, Oc by done. by apply V2; [apply Hpar| |].
  - intros Hf q l Hx Hpr. unfold present in *.
    destruct (cloned_child s2 (c :: rs) p c s3 C q l Hx) as [E|[? _]]; [|done]. rewrite E. unfold child_entry.
    rewrite <- Ep in Hpr by done. rewrite Hpr.
    destruct (cow_facts _ (w_plain _ _ W2 _ (Hpage _ (Hpar _ _ Hx)))) as (_ & _ & K & _). by rewrite K.
  - intros q l Hx. split; intros Hpr; apply not_true_is_false; intros Hw.
    + destruct (P3 (p, q, l)) as (_ & _ & _ & _ & X); [by apply Hpage, Hpar|done|]. by destruct (X Hw).
    + destruct (P3 (c, q, l)) as (_ & _ & _ & _ & X); [done|done|]. by destruct (X Hw) as (_ & ? & _).
  - intros q l Hx. rewrite (cloned_parent s2 (c :: rs) p c s3 C) by (by apply Hpage, Hpar). by rewrite Ep.
  - exact (same_regs_trans _ _ _ R2 (ci_regs _ _ _ _ _ _ C)).
Qed.

(** C12: Fork.  Cloning a well-formed address space fails only when there is no frame
    for the new root, and then nothing has changed.  Otherwise the child is a new
    root; the invariant, counts included, holds for all spaces; every space reads
    as before; every page of the child shows the words of its parent; unless the
    frames ran out, every page of the parent is there; and neither side can
    write to a page they share without a fault. *)
Theorem vmm_clone_cow s rs p :
  vwf s rs -> p ∈ rs -> (forall f, user_frame s f -> refs s f <= 2147483648) ->
  match vmm_clone_address_space p s with
  | (None, s') => s' = s /\ full s
  | (Some c, s') => clone_ok s s' rs p c
  end.
Proof. exact (clone_facts s rs p). Qed.

(** Fork makes data executable.  The complement in [flags &= ~PAGE_WRITABLE]
    has 32 bits, so it also clears bit 63 of the entry: after a fork no writable
    page of the parent is protected against execution any more, although its
    entry had the bit NX set. *)
Theorem vmm_clone_drops_nx s rs p c s' q l :
  vwf s rs -> p ∈ rs -> (forall f, user_frame s f -> refs s f <= 2147483648) ->
  vmm_clone_address_space p s = (Some c, s') -> is_page rs (p, q, l) -> present s (p, q, l) ->
  bit (pte s (p, q, l)) VMM_WRITABLE = true -> bit (pte s (p, q, l)) VMM_NX = true ->
  bit (pte s' (p, q, l)) VMM_NX = false.
Proof.
  intros W Hp Hc E Hx Hpr Hw _. pose proof (clone_facts s rs p W Hp Hc) as F. rewrite E in F.
  rewrite (co_entries _ _ _ _ _ F) by (destruct Hx as (? & ?); split; [by left|done]).
  unfold cow. unfold present in Hpr. rewrite Hpr, Hw. cbn [andb].
  destruct (cow_flags_facts (pte s (p, q, l))) as (_ & _ & _ & _ & _ & F6).
  unfold bit in *. rewrite Z.land_lor_distr_l. unfold entry_table. rewrite <- Z.land_assoc.
  change (Z.land VMM_ENTRY_ADDR_MASK VMM_NX) with 0. by rewrite Z.land_0_r, Z.lor_0_l.
Qed.
