(* ===== verification/VmmSpace.v ===== *)
(** User memory on top of [Vmm]: stores of user mode, unmapping, [sys_brk] of
    [src/src/kernel/kernel.c], the checks of user pointers, and the isolation of
    address spaces over any interleaving of these. *)

From S2P Require Import Prelude Pmm Vmm VmmTable VmmMap VmmCow VmmClone VmmFork.

(** * A store of user mode *)

(** The processor writes [w] to the word [j] of the page [x]. *)
Definition user_store (x : page) (j w : Z) (s : vmm) : vmm := set_entry (entry_table (pte s x)) j w s.

Section Store.
Context (s : vmm) (rs : list Z) (W : vwf s rs) (x : page) (j w : Z).
Context (Hx : is_page rs x) (Hp : present s x) (Hj : in_table j).
Abbreviation f := (entry_table (pte s x)).
Abbreviation s1 := (user_store x j w s).

Lemma store_frame : user_frame s f /\ aligned f /\ forall r p, is_node rs r p -> table s r p <> Some f.
Proof.
  destruct (t_leaf _ _ (w_tree _ _ W) x f (maps_at s rs x Hx Hp)) as [F N]. split_and!; try done.
  by apply (user_frame_aligned s f (t_pmm _ _ (w_tree _ _ W))).
Qed.

Lemma store_entry u i : aligned u -> in_table i -> entry s1 u i = if (u =? f) && (i =? j) then w else entry s u i.
Proof. intros Hu Hi. destruct store_frame as (_ & A & _). unfold user_store. by apply entry_set. Qed.

Lemma store_table r p : is_node rs r p -> table s1 r p = table s r p.
Proof.
  induction p as [|i p IH] using rev_ind; intros Hn; [done|]. destruct (node_prefix rs _ _ _ Hn) as [Hq Hi].
  rewrite !table_snoc, (IH Hq). destruct (table s r p) as [t|] eqn:Ht; [|done].
  destruct (table_aligned s rs (w_tree _ _ W) r p t Hq Ht) as [At _]. unfold next_table. rewrite store_entry by done.
  destruct (Z.eqb_spec t f) as [E|]; [|done]. destruct store_frame as (_ & _ & N). rewrite E in Ht. by apply N in Ht.
Qed.

Lemma store_pte y : is_page rs y -> pte s1 y = pte s y.
Proof.
  destruct y as [[r p] l]. intros (Hr & Hq & _ & Hl). cbn [pte]. rewrite store_table by done.
  destruct (table s r p) as [t|] eqn:Ht; [|done].
  destruct (table_aligned s rs (w_tree _ _ W) r p t) as [At _]; [done|done|]. rewrite store_entry by done.
  destruct (Z.eqb_spec t f) as [E|]; [|done]. destruct store_frame as (_ & _ & N). rewrite E in Ht. by apply N in Ht.
Qed.

Lemma store_wf : vwf s1 rs.
Proof.
  assert (M : forall y g, maps s1 rs y g <-> maps s rs y g).
  { intros y g. split; intros (Hy & H1 & H2); (split; [done|]); [rewrite store_pte in H1, H2 by done|rewrite store_pte by done]; done. }
  pose proof (w_tree _ _ W) as T. split; [split|..].
  - apply T.
  - intros r p t Hn. rewrite store_table by done. by apply (t_table _ _ T).
  - intros r p t i Hn. destruct (node_prefix rs _ _ _ Hn) as [Hq Hi]. rewrite store_table by done. intros Ht.
    destruct (table_aligned s rs T r p t Hq Ht) as [At _]. rewrite store_entry by done.
    destruct (Z.eqb_spec t f) as [E|]; [|by apply (t_entry _ _ T r p)].
    destruct store_frame as (_ & _ & N). rewrite E in Ht. by apply N in Ht.
  - intros r p r' p' t N N'. rewrite !store_table by done. by apply (t_inj _ _ T).
  - intros y g Hm%M. destruct (t_leaf _ _ T y g Hm) as [F N]. split; [done|]. intros r p Hn. rewrite store_table by done. by apply N.
  - intros y Hy. rewrite store_pte by done. by apply W.
  - intros y Hy. rewrite store_pte by done. by apply W.
  - intros g L H0 HL HM. apply (w_count _ _ W g L); [done|done|]. intros y Hy. by apply M, HM.
  - intros y z g Hy%M Hz%M. rewrite store_pte by apply Hy. by apply (w_own _ _ W y z g).
Qed.

(** Only the word written changes, and only in its own page. *)
Lemma store_word y i :
  bit (pte s x) VMM_WRITABLE = true -> is_page rs y -> present s y -> in_table i ->
  user_word s1 y i = if decide (y = x) then if i =? j then w else user_word s x i else user_word s y i.
Proof.
  intros Hw Hy Hpy Hi. unfold user_word. rewrite store_pte by done.
  destruct (t_leaf _ _ (w_tree _ _ W) y _ (maps_at s rs y Hy Hpy)) as [F _].
  destruct (user_frame_aligned s _ (t_pmm _ _ (w_tree _ _ W)) F) as [Ay _]. rewrite store_entry by done.
  destruct (decide (y = x)) as [->|Hne]; [by rewrite Z.eqb_refl|].
  destruct (Z.eqb_spec (entry_table (pte s y)) f) as [E|]; [|done]. exfalso. apply Hne. symmetry.
  apply (w_own _ _ W x y f); [by apply maps_at|by rewrite <- E; apply maps_at|done].
Qed.
End Store.

(** * Unmapping *)

Lemma unmap_facts s rs r va :
  twf s rs -> r ∈ rs -> user_va va ->
  changed s (unmap_in_pml4 r va s) rs (page_at r va) 0.
Proof.
  intros T Hr Hv. pose proof Hv as [Hu _]. destruct (page_indices va Hu) as (I1 & I2 & I3 & I4).
  pose proof (page_at_page rs r va Hr Hv) as Hx.
  assert (Hv' : user_va (Z.land va VMM_PAGE_MASK)).
  { destruct Hv as [_ Hv]. split; [|by rewrite I1]. rewrite page_of by done. ulia. }
  unfold unmap_in_pml4. rewrite (find_pt_facts s rs r _ T Hr Hv'). cbn [page_at fst snd]. rewrite I1, I2, I3, I4.
  destruct (table s r _) as [t|] eqn:Ht.
  - by apply set_leaf_facts.
  - replace 0 with (pte s (page_at r va)); [by apply grown_changed_same, grown_refl|]. unfold pte, page_at. by rewrite Ht.
Qed.

Lemma is_mapped_facts s rs r va :
  twf s rs -> r ∈ rs -> user_va va -> vmm_is_mapped r va s = bit (pte s (page_at r va)) VMM_PRESENT.
Proof.
  intros T Hr Hv. pose proof Hv as [Hu _]. destruct (page_indices va Hu) as (I1 & I2 & I3 & I4).
  assert (Hv' : user_va (Z.land va VMM_PAGE_MASK)).
  { destruct Hv as [_ Hv]. split; [|by rewrite I1]. rewrite page_of by done. ulia. }
  unfold vmm_is_mapped. rewrite (find_pt_facts s rs r _ T Hr Hv'). unfold pte. cbn [page_at fst snd].
  rewrite I1, I2, I3, I4. by destruct (table s r _).
Qed.
