(* ===== verification/Brk.v ===== *)
(** The program break: [sys_brk] of [src/src/kernel/kernel.c] on the memory of
    [Vmm].  [brk_start] and [brk_end] are [heap_start] and [heap_end] of the current
    task; its [cr3] and its inventory of frames are in the state of [Vmm]. *)

From S2P Require Import Prelude Pmm Task Vmm VmmTable VmmMap VmmCow VmmClone VmmFork VmmSpace.

Definition USER_HEAP_MAX_SIZE : Z := 4 * 1024 * 1024.

Record heap_bounds := mk_heap_bounds { brk_start : Z; brk_end : Z }.
#[export] Instance eta_heap_bounds : Eta heap_bounds := fun h => mk_heap_bounds (brk_start h) (brk_end h).

Definition align_up_page (value : Z) : Z :=
  Z.land (u64 (value + PMM_PAGE_SIZE - 1)) (lnot64 (PMM_PAGE_SIZE - 1)).

Definition BRK_FLAGS : Z := Z.lor (Z.lor VMM_PRESENT VMM_WRITABLE) VMM_USER.

(** One round of the loop; [false] when it gives up. *)
Definition brk_page (page : Z) (s : vmm) : bool * vmm :=
  match alloc_frame s with
  | (None, s) => (false, s)
  | (Some physical, s) =>
      let l := default [] (inventory s) in
      if TASK_MAX_USER_PAGES <=? len l then (false, free_frame physical s)
      else
        let s := clear_page physical s in
        let s := s <| inventory := Some (l ++ [physical]) |> in
        (true, vmm_map_in_space (task_cr3 s) page physical BRK_FLAGS s)
  end.

(** [for (page = old_page_end; page < new_page_end; page += PMM_PAGE_SIZE)], with
    the number of rounds. *)
Fixpoint brk_pages (n : nat) (page : Z) (s : vmm) : bool * vmm :=
  match n with
  | O => (true, s)
  | S n' =>
      match brk_page page s with
      | (false, s) => (false, s)
      | (true, s) => brk_pages n' (u64 (page + PMM_PAGE_SIZE)) s
      end
  end.

Definition sys_brk (addr : Z) (h : heap_bounds) (s : vmm) : Z * heap_bounds * vmm :=
  match inventory s with
  | None => (0, h, s)
  | Some _ =>
      if brk_start h =? 0 then (0, h, s)
      else if addr =? 0 then (brk_end h, h, s)
      else if (addr <? brk_start h) || (u64 (brk_start h + USER_HEAP_MAX_SIZE) <? addr) then (brk_end h, h, s)
      else if addr <=? brk_end h then (addr, h <| brk_end := addr |>, s)
      else
        let old_page_end := align_up_page (brk_end h) in
        let new_page_end := align_up_page addr in
        let restore_cr3 := task_cr3 s in
        let '(kernel, s) := vmm_kernel_pml4 s in
        let s := vmm_switch_address_space kernel s in
        match brk_pages (Z.to_nat ((new_page_end - old_page_end) / PMM_PAGE_SIZE)) old_page_end s with
        | (false, s) => (brk_end h, h, vmm_switch_address_space restore_cr3 s)
        | (true, s) => (addr, h <| brk_end := addr |>, vmm_switch_address_space restore_cr3 s)
        end
  end.

(** * Addresses of the user half *)

Lemma user_va_range a : 549755813888 <= a < 140737488355328 -> user_va a.
Proof. intros H. split; [unfold is_u64; lia|]. destruct (indices a) as (-> & _). ulia. Qed.

Lemma page_at_inj r a b :
  549755813888 <= a < 140737488355328 -> 549755813888 <= b < 140737488355328 ->
  a mod 4096 = 0 -> b mod 4096 = 0 -> page_at r a = page_at r b -> a = b.
Proof.
  intros Ha Hb Ma Mb. unfold page_at. destruct (indices a) as (-> & -> & -> & ->), (indices b) as (-> & -> & -> & ->).
  intros [= E1 E2 E3 E4]. assert (X : forall c, 0 <= c < 281474976710656 -> c mod 4096 = 0 ->
    c = (((c / 549755813888 mod 512 * 512 + c / 1073741824 mod 512) * 512 + c / 2097152 mod 512) * 512 + c / 4096 mod 512) * 4096).
  { intros c Hc Hm. ulia. }
  rewrite (X a), (X b) by (done || lia). by rewrite E1, E2, E3, E4.
Qed.

(** * One page *)

(** The page [x] is a new writable page of zeros, or there was no frame left for
    the tables; the other pages are as they were. *)
Definition zero_page (s : vmm) (x : page) : Prop :=
  present s x /\ bit (pte s x) VMM_WRITABLE = true /\ forall j, in_table j -> user_word s x j = 0.

Definition same_page (s s' : vmm) (x : page) : Prop :=
  pte s' x = pte s x /\ (present s x -> forall j, in_table j -> user_word s' x j = user_word s x j).

Record brk_step (s s' : vmm) (rs : list Z) (xs : list page) : Prop := {
  b_wf : vwf s' rs;
  b_pages : forall x, x ∈ xs -> is_page rs x -> zero_page s' x \/ full s' /\ same_page s s' x;
  b_others : forall x, is_page rs x -> x ∉ xs -> same_page s s' x;
  b_full : full s -> full s';
  b_regs : cr3 s' = cr3 s /\ task_cr3 s' = task_cr3 s /\ kernel_pml4 s' = kernel_pml4 s;
  b_inventory : inventory s <> None -> inventory s' <> None
}.

Lemma same_page_refl s x : same_page s s x.
Proof. by split. Qed.
Lemma same_page_trans s s1 s2 x : same_page s s1 x -> same_page s1 s2 x -> same_page s s2 x.
Proof.
  intros [E1 U1] [E2 U2]. split; [congruence|]. intros Hp j Hj. rewrite U2 by (done || (unfold present in *; by rewrite E1)). by apply U1.
Qed.

(** An allocation that is given back. *)
Lemma alloc_free_facts s s1 f :
  pmm_wf (frames s) -> allocated s s1 f -> words s1 = words s -> same_regs s s1 ->
  let s2 := free_frame f s1 in
  pmm_wf (frames s2) /\ words s2 = words s /\ same_regs s s2 /\
  pmm_reserved_block_count (frames s2) = pmm_reserved_block_count (frames s) /\
  forall c, 0 <= c < PMM_MAX_BLOCKS -> refcount (frames s2) c = refcount (frames s) c.
Proof.
  intros P A Ew R. cbn zeta. pose proof (a_frame _ _ _ A) as F. pose proof (frame_block s1 f F) as Ef. destruct F as (F1 & F2 & F3).
  destruct (pmm_free_refcount (f / 4096) (frames s1) (a_pmm _ _ _ A) F2) as [P' E]. rewrite <- Ef in P', E. split_and!; try done.
  - rewrite <- (a_reserved _ _ _ A). unfold free_frame, pmm_free. cbn. repeat case_match; done.
  - intros c Hc. unfold free_frame. cbn. rewrite E by done. pose proof (a_refs _ _ _ A c Hc) as Ec.
    assert (Hf : 0 <= f / 4096 < PMM_MAX_BLOCKS) by (pose proof (wf_reserved _ (a_pmm _ _ _ A)); lia).
    pose proof (a_refs _ _ _ A _ Hf) as Ef'. rewrite Z.eqb_refl in Ef'. pose proof (a_free _ _ _ A) as E0. unfold refs in E0.
    destruct (Z.eqb_spec c (f / 4096)) as [->|]; [lia|done].
Qed.

Lemma brk_step_refl s rs : vwf s rs -> brk_step s s rs [].
Proof. intros W. split; try done. intros x ?%elem_of_nil. done. Qed.

Lemma brk_step_counts s s' rs :
  vwf s rs -> pmm_wf (frames s') -> words s' = words s -> same_regs s s' ->
  pmm_reserved_block_count (frames s') = pmm_reserved_block_count (frames s) ->
  (forall c, 0 <= c < PMM_MAX_BLOCKS -> refcount (frames s') c = refcount (frames s) c) -> brk_step s s' rs [].
Proof.
  intros W P Ew (R1 & R2 & R3 & R4) Er Ec. pose proof (wf_reserved _ P) as Hres. rewrite Er in Hres.
  assert (F : forall f, user_frame s f -> user_frame s' f /\ refs s' f = refs s f).
  { intros f (F1 & F2 & F3). assert (E : refs s' f = refs s f) by (unfold refs; apply Ec; lia).
    split; [|done]. unfold user_frame. rewrite E, Er. done. }
  split.
  - apply (vwf_refs s); [done|done|done|intros f Hf; by apply F|]. intros f L H0 HL HM.
    destruct (list_nonempty L H0) as [x Hx]. destruct (t_leaf _ _ (w_tree _ _ W) x f (HM x Hx)) as [Hf _].
    rewrite (proj2 (F f Hf)). by apply (w_count _ _ W).
  - intros x ?%elem_of_nil. done.
  - intros x Hx _. split; [by apply words_pte|]. intros Hp j Hj. unfold user_word.
    rewrite (words_pte s s') by done. by apply entry_words.
  - intros Hf c Hc. rewrite Ec by done. by apply Hf.
  - done.
  - by rewrite R4.
Qed.

Lemma brk_flags_entry f : aligned f ->
  map_entry f BRK_FLAGS = Z.lor f 7 /\ entry_table (Z.lor f 7) = f /\ plain (Z.lor f 7) /\
  bit (Z.lor f 7) VMM_PRESENT = true /\ bit (Z.lor f 7) VMM_WRITABLE = true /\ bit (Z.lor f 7) VMM_USER = true.
Proof.
  intros A. destruct (frame_entry f 7 A eq_refl) as [E1 E2].
  assert (U : is_u64 f) by (destruct A; unfold is_u64; lia). split_and!; try done.
  - unfold map_entry. destruct A as [A0 A1]. rewrite (page_of f U), A0, Z.sub_0_r, land_addr by done. done.
  - by apply bit_lor.
  - by apply bit_lor.
  - by apply bit_lor.
Qed.

(** A page of zeros is mapped at [va]: the frame [c] was cleared in [sc]. *)
Lemma map_zero_page s sc rs c r va :
  vwf s rs -> allocated s sc c -> same_regs s sc -> r ∈ rs -> user_va va ->
  (forall u j, aligned u -> in_table j -> entry sc u j = if u =? c then 0 else entry s u j) ->
  let s' := map_in_pml4 r va c BRK_FLAGS sc in
  brk_step s s' rs [page_at r va].
Proof.
  intros W A R Hr Hv E. cbn zeta. destruct (user_frame_aligned _ _ (a_pmm _ _ _ A) (a_frame _ _ _ A)) as [Ac _].
  assert (E' : forall u j, aligned u -> in_table j -> u <> c -> entry sc u j = entry s u j).
  { intros u j Hu Hj Huc. rewrite E by done. by destruct (Z.eqb_spec u c). }
  destruct (new_frame_grown s sc rs c (w_tree _ _ W) A E' R) as (G & N & M).
  destruct (vwf_grown s sc rs W G) as [W1 V1]. destruct (brk_flags_entry c Ac) as (B1 & B2 & B3 & B4 & B5 & B6).
  set (x := page_at r va). assert (Hx : is_page rs x) by (by apply page_at_page).
  pose proof (map_facts sc rs r va c BRK_FLAGS (w_tree _ _ W1) Hr Hv eq_refl) as MF. rewrite B1 in MF. fold x in MF.
  assert (LO : leaf_ok sc rs (Z.lor c 7)) by (intros _; rewrite B2; split; [apply A|done]).
  specialize (MF LO). cbn zeta in MF. set (s' := map_in_pml4 r va c BRK_FLAGS sc) in *. clearbody s'.
  assert (Same1 : forall y, is_page rs y -> same_page s sc y).
  { intros y Hy. split; [by apply (gr_pte _ _ _ G)|]. intros Hp. by apply V1. }
  assert (Fk : full s -> full sc).
  { apply full_kept; [apply A|apply A|]. intros f Hf. by apply (gr_frame _ _ _ G). }
  destruct (gr_regs _ _ _ G) as (R1 & R2 & R3 & R4).
  destruct MF as [C|[G2 Fu]].
  - destruct (c_regs _ _ _ _ _ C) as (Q1 & Q2 & Q3 & Q4).
    assert (Ex : pte s' x = Z.lor c 7) by (rewrite (c_pte _ _ _ _ _ C) by done; by rewrite decide_True).
    split.
    + apply (vwf_changed sc s' rs x _ W1 C Hx B3). intros _. rewrite B2. split_and!; [done| |].
      * intros L HL HM. destruct L as [|y L]; [|by destruct (HM y ltac:(by left)) as [_ ?%M]].
        destruct (c_frame _ _ _ _ _ C c (a_frame _ _ _ A)) as [(_ & _ & ?) _]. unfold len. cbn. lia.
      * intros y _ Hy. by apply M in Hy.
    + intros y ->%list_elem_of_singleton _. left. unfold zero_page, present, user_word. rewrite Ex, B2. split_and!; try done.
      intros j Hj. destruct (c_data _ _ _ _ _ C c j (a_frame _ _ _ A) Hj N) as [-> _]. rewrite E, Z.eqb_refl by done. done.
    + intros y Hy Hne. rewrite list_elem_of_singleton in Hne. apply (same_page_trans s sc); [by apply Same1|].
      split; [by rewrite (c_pte _ _ _ _ _ C), decide_False|]. intros Hp j Hj. by apply (changed_word sc s' rs x (Z.lor c 7)).
    + intros Hf. apply (full_kept sc s'); [apply C|apply C|intros f Hf'; by apply (c_frame _ _ _ _ _ C)|by apply Fk].
    + split_and!; congruence.
    + congruence.
  - destruct (vwf_grown sc s' rs W1 G2) as [W2 V2]. destruct (gr_regs _ _ _ G2) as (Q1 & Q2 & Q3 & Q4).
    assert (Same2 : forall y, is_page rs y -> same_page s s' y).
    { intros y Hy. apply (same_page_trans s sc); [by apply Same1|]. split; [by apply (gr_pte _ _ _ G2)|]. intros Hp. by apply V2. }
    split; try done; [|by intros y Hy _; apply Same2|split_and!; congruence|congruence].
    intros y _ Hy. right. split; [done|by apply Same2].
Qed.
Lemma brk_page_facts s rs page :
  vwf s rs -> task_cr3 s ∈ rs -> 549755813888 <= page < 140737488355328 -> page mod 4096 = 0 ->
  match brk_page page s with
  | (true, s') => brk_step s s' rs [page_at (task_cr3 s) page]
  | (false, s') => brk_step s s' rs []
  end.
Proof.
  intros W Hr Hpg Hal. pose proof (w_tree _ _ W) as T. unfold brk_page.
  pose proof (alloc_frame_facts s (t_pmm _ _ T)) as A. destruct (alloc_frame s) as [[c|] s1].
  2: { destruct A as [-> _]. by apply brk_step_refl. }
  destruct A as (A & Ew & R). destruct (TASK_MAX_USER_PAGES <=? len (default [] (inventory s1))).
  { destruct (alloc_free_facts s s1 c (t_pmm _ _ T) A Ew R) as (P & E1 & E2 & E3 & E4). by apply brk_step_counts. }
  destruct (cleared_frame s s1 c A Ew R) as (A1 & R1 & E1). set (inv := Some (default [] (inventory s1) ++ [c])).
  set (sc := clear_page c s1) in *. clearbody sc. destruct R1 as (Q1 & Q2 & Q3 & Q4).
  set (si := s <| inventory := inv |>). set (sci := sc <| inventory := inv |>).
  assert (Wi : vwf si rs) by (apply (vwf_refs s); try done; [apply T|intros; by apply (w_count _ _ W)]).
  assert (Ai : allocated si sci c) by (destruct A1; by split).
  assert (Ri : same_regs si sci) by (by split_and!).
  assert (Er : task_cr3 sci = task_cr3 s) by done. rewrite Er. unfold vmm_map_in_space.
  assert (Hz : (task_cr3 s =? 0) = false).
  { apply Z.eqb_neq. assert (N0 : is_node rs (task_cr3 s) []) by (split; [done|]; split; [cbn; lia|by split; [apply Forall_nil|]]).
    destruct (table_aligned s rs T _ [] _ N0 eq_refl). lia. }
  rewrite Hz. pose proof (map_zero_page si sci rs c (task_cr3 s) page Wi Ai Ri Hr (user_va_range _ Hpg) E1) as B. cbn zeta in B.
  destruct B as [B1 B2 B3 B4 B5 B6].
  assert (Si : forall s' x, same_page si s' x -> same_page s s' x).
  { intros s' x. apply same_page_trans. split; [by apply words_pte|]. intros _ j _. unfold user_word. by rewrite (words_pte s si). }
  split; try done.
  - intros x Hx Hpx. destruct (B2 x Hx Hpx) as [|[? ?]]; [by left|right]. split; [done|by apply Si].
  - intros x Hx Hn. by apply Si, B3.
  - by intros _; apply B6.
Qed.

(** * The loop *)

Fixpoint brk_range (r va : Z) (n : nat) : list page :=
  match n with
  | O => []
  | S n' => page_at r va :: brk_range r (va + 4096) n'
  end.

Lemma brk_range_elem r page n x :
  x ∈ brk_range r page n <-> exists i, 0 <= i < Z.of_nat n /\ x = page_at r (page + 4096 * i).
Proof.
  revert page. induction n as [|n IH]; intros page; cbn [brk_range].
  - rewrite elem_of_nil. split; [done|]. intros (i & ? & _). lia.
  - rewrite elem_of_cons, IH. split.
    + intros [->|(i & Hi & ->)]; [exists 0; split; [lia|f_equal; lia]|exists (i + 1); split; [lia|f_equal; lia]].
    + intros (i & Hi & ->). destruct (decide (i = 0)) as [->|]; [left; f_equal; lia|right].
      exists (i - 1). split; [lia|f_equal; lia].
Qed.

Lemma brk_step_trans s s1 s2 rs xs ys :
  brk_step s s1 rs xs -> brk_step s1 s2 rs ys -> (forall x, x ∈ xs -> x ∉ ys) -> brk_step s s2 rs (xs ++ ys).
Proof.
  intros [A1 A2 A3 A4 (A5 & A5' & A5'') A6] [B1 B2 B3 B4 (B5 & B5' & B5'') B6] D. split; try done.
  - intros x Hx Hpx. destruct (decide (x ∈ xs)) as [Hin|Hout].
    + pose proof (B3 x Hpx (D x Hin)) as [E U]. destruct (A2 x Hin Hpx) as [(P & Wr & Z0)|[F S]].
      * left. unfold zero_page, present. rewrite E. split_and!; [done|done|]. intros j Hj. rewrite U by done. by apply Z0.
      * right. split; [by apply B4|by apply (same_page_trans s s1)].
    + apply elem_of_app in Hx as [|Hy]; [done|]. destruct (B2 x Hy Hpx) as [|[F S]]; [by left|right].
      split; [done|]. apply (same_page_trans s s1); [by apply A3|done].
  - intros x Hx [N1 N2]%not_elem_of_app. apply (same_page_trans s s1); [by apply A3|by apply B3].
  - auto.
  - split_and!; congruence.
  - auto.
Qed.

Lemma brk_pages_facts n page s rs :
  vwf s rs -> task_cr3 s ∈ rs -> 549755813888 <= page -> page + 4096 * Z.of_nat n <= 140737488355328 ->
  page mod 4096 = 0 ->
  let '(ok, s') := brk_pages n page s in
  exists m, (m <= n)%nat /\ (ok = true -> m = n) /\ brk_step s s' rs (brk_range (task_cr3 s) page m).
Proof.
  revert page s. induction n as [|n IH]; intros page s W Hr Hlo Hhi Hal; cbn [brk_pages].
  { exists 0%nat. split_and!; [lia|done|]. by apply brk_step_refl. }
  pose proof (brk_page_facts s rs page W Hr ltac:(lia) Hal) as B. destruct (brk_page page s) as [[|] s1].
  2: { exists 0%nat. split_and!; [lia|done|done]. }
  replace (u64 (page + PMM_PAGE_SIZE)) with (page + 4096) by (unfold PMM_PAGE_SIZE; ulia).
  assert (Ec : task_cr3 s1 = task_cr3 s) by apply (b_regs _ _ _ _ B).
  pose proof (IH (page + 4096) s1 (b_wf _ _ _ _ B)) as I. rewrite Ec in I. specialize (I Hr ltac:(lia) ltac:(lia) ltac:(ulia)).
  destruct (brk_pages n (page + 4096) s1) as [ok s2]. destruct I as (m & Hm & Hok & B2).
  exists (S m). split_and!; [lia|intros ?; f_equal; auto|]. cbn [brk_range].
  apply (brk_step_trans s s1 s2 rs [page_at (task_cr3 s) page]); [done|done|].
  intros x ->%list_elem_of_singleton. rewrite brk_range_elem. intros (i & Hi & E).
  apply page_at_inj in E; [lia|lia|lia|done|ulia].
Qed.

Lemma align_up_page_facts v : 0 <= v < 18446744073709547520 -> align_up_page v = (v + 4095) / 4096 * 4096.
Proof.
  intros Hv. unfold align_up_page, PMM_PAGE_SIZE. replace (u64 (v + 4096 - 1)) with (v + 4095) by ulia.
  change (lnot64 (4096 - 1)) with VMM_PAGE_MASK. rewrite page_of by (unfold is_u64; lia). ulia.
Qed.

Lemma page_at_byte r a : is_u64 a -> page_at r (a - a mod 4096) = page_at r a.
Proof. intros Ha. unfold page_at. destruct (page_indices a Ha) as (E1 & E2 & E3 & E4). rewrite (page_of a Ha) in *. by rewrite E1, E2, E3, E4. Qed.

(** * The system call *)

Definition heap_ok (h : heap_bounds) : Prop :=
  549755813888 <= brk_start h /\ brk_start h <= brk_end h <= brk_start h + USER_HEAP_MAX_SIZE /\
  brk_start h + USER_HEAP_MAX_SIZE + 4096 <= 140737488355328.

(** What [sys_brk] promises to the task with the root [r]. *)
Record brk_ok (s s' : vmm) (h h' : heap_bounds) (rs : list Z) (r addr ret : Z) : Prop := {
  bo_wf : vwf s' rs;
  bo_heap : heap_ok h' /\ brk_start h' = brk_start h /\ ret = brk_end h';
  bo_end : brk_end h' = brk_end h \/ brk_end h' = addr;
  bo_zero : ~ full s' -> forall a, align_up_page (brk_end h) <= a < brk_end h' -> zero_page s' (page_at r a);
  bo_others : forall x, is_page rs x ->
    (forall a, align_up_page (brk_end h) <= a < align_up_page addr -> x <> page_at r a) -> same_page s s' x;
  bo_cr3 : cr3 s' = cr3 s /\ task_cr3 s' = task_cr3 s
}.

Lemma brk_nothing s h h' rs r addr :
  vwf s rs -> heap_ok h' -> brk_start h' = brk_start h -> brk_end h' <= brk_end h -> 0 <= brk_start h ->
  brk_end h < 18446744073709547520 ->
  brk_end h' = brk_end h \/ brk_end h' = addr -> brk_ok s s h h' rs r addr (brk_end h').
Proof.
  intros W Ho Es He H0 H1 Hor. split; try done.
  - intros _ a Ha. destruct Ho as (O1 & O2 & O3). rewrite align_up_page_facts in Ha by lia. ulia.
Qed.

Lemma vwf_regs s s' rs : vwf s rs -> words s' = words s -> frames s' = frames s -> vwf s' rs.
Proof.
  intros W Ew Ef. assert (Er : forall f, refs s' f = refs s f) by (intros f; unfold refs; by rewrite Ef).
  apply (vwf_refs s); [done|done|rewrite Ef; apply W| |].
  - intros f. unfold user_frame. by rewrite Er, Ef.
  - intros f L. rewrite Er. apply (w_count _ _ W).
Qed.

Lemma sys_brk_facts s h rs addr :
  vwf s rs -> task_cr3 s ∈ rs -> cr3 s = task_cr3 s -> inventory s <> None -> heap_ok h -> is_u64 addr ->
  let '(ret, h', s') := sys_brk addr h s in brk_ok s s' h h' rs (task_cr3 s) addr ret.
Proof.
  intros W Hr Hc Hi Ho Ha. pose proof Ho as (O1 & O2 & O3). unfold USER_HEAP_MAX_SIZE in O2, O3.
  unfold sys_brk. destruct (inventory s) as [l|] eqn:El; [|done].
  assert (Nop : brk_ok s s h h rs (task_cr3 s) addr (brk_end h)) by (apply brk_nothing; try done; try lia; by left).
  destruct (Z.eqb_spec (brk_start h) 0) as [|_]; [lia|]. destruct (Z.eqb_spec addr 0) as [|_]; [done|].
  replace (u64 (brk_start h + USER_HEAP_MAX_SIZE)) with (brk_start h + 4194304) by (unfold USER_HEAP_MAX_SIZE; ulia).
  destruct (Z.ltb_spec addr (brk_start h)); [done|]. destruct (Z.ltb_spec (brk_start h + 4194304) addr); [done|]. cbn [orb].
  destruct (Z.leb_spec addr (brk_end h)).
  { change (brk_ok s s h (h <| brk_end := addr |>) rs (task_cr3 s) addr (brk_end (h <| brk_end := addr |>))).
    apply (brk_nothing s h (h <| brk_end := addr |>) rs (task_cr3 s) addr); try done; try (cbn; lia). }
  rewrite kernel_root_facts. set (k := kernel_root s). set (sk := vmm_switch_address_space k (s <| kernel_pml4 := k |>)).
  assert (Wk : vwf sk rs) by (apply (vwf_regs s); [done|by unfold sk, vmm_switch_address_space; destruct (k =? 0)..]).
  assert (Ek : task_cr3 sk = task_cr3 s) by (unfold sk, vmm_switch_address_space; by destruct (k =? 0)).
  assert (Ew : words sk = words s) by (unfold sk, vmm_switch_address_space; by destruct (k =? 0)).
  clearbody sk. rewrite !align_up_page_facts by lia.
  remember ((brk_end h + 4095) / 4096 * 4096) as lo eqn:Elo. remember ((addr + 4095) / 4096 * 4096) as hi eqn:Ehi.
  assert (Hlh : brk_end h <= lo <= hi /\ addr <= hi < addr + 4096 /\ lo mod 4096 = 0 /\ hi mod 4096 = 0) by (rewrite Elo, Ehi; ulia).
  unfold PMM_PAGE_SIZE. set (n := Z.to_nat ((hi - lo) / 4096)).
  assert (Hn : lo + 4096 * Z.of_nat n = hi) by (unfold n; ulia). clearbody n.
  pose proof (brk_pages_facts n lo sk rs Wk) as B. rewrite Ek in B. specialize (B Hr ltac:(lia) ltac:(lia) ltac:(lia)).
  destruct (brk_pages n lo sk) as [ok s1]. destruct B as (m & Hm & Hok & B).
  assert (Hz : (task_cr3 s =? 0) = false).
  { apply Z.eqb_neq. assert (N0 : is_node rs (task_cr3 s) []) by (split; [done|]; split; [cbn; lia|by split; [apply Forall_nil|]]).
    destruct (table_aligned s rs (w_tree _ _ W) _ [] _ N0 eq_refl). lia. }
  set (s2 := vmm_switch_address_space (task_cr3 s) s1).
  assert (E2 : words s2 = words s1 /\ frames s2 = frames s1 /\ cr3 s2 = task_cr3 s /\ task_cr3 s2 = task_cr3 s1).
  { unfold s2, vmm_switch_address_space. by rewrite Hz. }
  destruct E2 as (W2 & F2 & C2 & T2). clearbody s2. destruct (b_regs _ _ _ _ B) as (_ & T1 & _).
  assert (Same : forall x, same_page sk s1 x -> same_page s s2 x).
  { intros x Hx. apply (same_page_trans s sk); [|apply (same_page_trans sk s1); [done|]].
    - split; [by apply words_pte|]. intros _ j _. unfold user_word. rewrite (words_pte s sk) by done. by apply entry_words.
    - split; [by apply words_pte|]. intros _ j _. unfold user_word. rewrite (words_pte s1 s2) by done. by apply entry_words. }
  assert (Pg : forall a, lo <= a < hi -> exists i, 0 <= i < Z.of_nat n /\ page_at (task_cr3 s) a = page_at (task_cr3 s) (lo + 4096 * i)).
  { intros a Hal. exists ((a - lo) / 4096). split; [ulia|]. rewrite <- (page_at_byte _ a) by (unfold is_u64; lia). f_equal. ulia. }
  assert (Oth : forall x, is_page rs x -> (forall a, lo <= a < hi -> x <> page_at (task_cr3 s) a) -> same_page s s2 x).
  { intros x Hx Hn'. apply Same, (b_others _ _ _ _ B); [done|]. rewrite brk_range_elem. intros (i & Hi' & E). revert E. apply Hn'. lia. }
  clear Nop. assert (Hcr : cr3 s2 = cr3 s /\ task_cr3 s2 = task_cr3 s) by (split; congruence).
  assert (Hwf : vwf s2 rs) by (by apply (vwf_regs s1); [apply B|..]).
  destruct ok; split; rewrite ?align_up_page_facts by lia; rewrite <- ?Elo, <- ?Ehi; try done; try (cbn; lia).
  intros Hf a Hal. cbn in Hal. destruct (Pg a) as (i & Hi' & ->); [lia|].
  destruct (b_pages _ _ _ _ B (page_at (task_cr3 s) (lo + 4096 * i))) as [(Z1 & Z2 & Z3)|[F _]].
  - rewrite brk_range_elem. exists i. rewrite Hok by done. done.
  - apply page_at_page; [done|]. apply user_va_range. lia.
  - unfold zero_page, present, user_word in *. rewrite (words_pte s1 s2) by done. split_and!; [done|done|].
    intros j Hj. rewrite (entry_words s1 s2) by done. by apply Z3.
  - destruct Hf. intros b Hb. rewrite F2. by apply F.
Qed.

(** C32: The program break.  On a heap in the user half [sys_brk] keeps the
    invariant of memory; it returns the break, which is the old one or the address
    asked for; unless the frames have run out, every byte between the old break
    (rounded up to a page) and the new one is then in a present, writable page of
    zeros; every page of every space outside that range is unchanged; and the
    address space of the task is the current one again. *)
Theorem sys_brk_spec s h rs addr :
  vwf s rs -> task_cr3 s ∈ rs -> cr3 s = task_cr3 s -> inventory s <> None -> heap_ok h -> is_u64 addr ->
  let '(ret, h', s') := sys_brk addr h s in brk_ok s s' h h' rs (task_cr3 s) addr ret.
Proof. exact (sys_brk_facts s h rs addr). Qed.
