(* ===== verification/VmmIso.v ===== *)
(** Isolation of address spaces: whatever the other tasks do (stores, faults,
    forks, growing their heaps, context switches), the memory a task sees stays as
    it is; and the checks of user pointers accept exactly the accessible ranges. *)

From S2P Require Import Prelude Pmm Task Vmm VmmTable VmmMap VmmCow VmmClone VmmFork VmmSpace Brk.

(** * Steps *)

(** A step of the task whose address space has the root [r]; the lists are the
    roots in use. *)
Inductive vstep (r : Z) : vmm -> list Z -> vmm -> list Z -> Prop :=
  | step_switch s rs l :
      r ∈ rs ->
      vstep r s rs (vmm_switch_address_space r s <| task_cr3 := r |> <| inventory := l |>) rs
  | step_store s rs x j w :
      is_page rs x -> x.1.1 = r -> present s x -> bit (pte s x) VMM_WRITABLE = true -> in_table j ->
      vstep r s rs (user_store x j w s) rs
  | step_fault s rs code va cs s' :
      r ∈ rs -> cr3 s = r -> user_va va ->
      vmm_page_fault_handler code va cs s = (FaultResolved, s') -> vstep r s rs s' rs
  | step_fork s rs c s' :
      r ∈ rs -> (forall f, user_frame s f -> refs s f <= 2147483648) ->
      vmm_clone_address_space r s = (Some c, s') -> vstep r s rs s' (c :: rs)
  | step_create s rs c s' :
      aligned (kernel_root s) -> 0 < refs s (kernel_root s) ->
      vmm_create_address_space s = (Some c, s') -> vstep r s rs s' (c :: rs)
  | step_brk s rs addr h ret h' s' :
      r ∈ rs -> task_cr3 s = r -> cr3 s = r -> inventory s <> None -> heap_ok h -> is_u64 addr ->
      sys_brk addr h s = (ret, h', s') -> vstep r s rs s' rs.

(** Steps of tasks other than [r]. *)
Inductive others_run (r : Z) : vmm -> list Z -> vmm -> list Z -> Prop :=
  | others_refl s rs : others_run r s rs s rs
  | others_step a s rs s1 rs1 s2 rs2 :
      a <> r -> vstep a s rs s1 rs1 -> others_run r s1 rs1 s2 rs2 -> others_run r s rs s2 rs2.

(** What the space [r] shows. *)
Definition same_space (s s' : vmm) (r : Z) : Prop :=
  forall p l, is_page [r] (r, p, l) ->
    (present s' (r, p, l) <-> present s (r, p, l)) /\
    (present s (r, p, l) -> forall j, in_table j -> user_word s' (r, p, l) j = user_word s (r, p, l) j).

Lemma page_in rs r p l : r ∈ rs -> is_page [r] (r, p, l) -> is_page rs (r, p, l).
Proof. intros Hr (_ & ?). by split. Qed.

Lemma same_view_space s s' rs r : r ∈ rs -> same_view s s' rs -> same_space s s' r.
Proof. intros Hr V p l Hx. by apply V, page_in. Qed.

Lemma same_page_space s s' rs r :
  r ∈ rs -> (forall x, is_page rs x -> x.1.1 = r -> same_page s s' x) -> same_space s s' r.
Proof.
  intros Hr V p l Hx. destruct (V (r, p, l)) as [E U]; [by apply page_in|done|]. unfold present. by rewrite E.
Qed.

(** A fault that is resolved was a write to a present copy-on-write page. *)
Lemma resolved_fault s rs va code cs s' :
  vwf s rs -> cr3 s ∈ rs -> user_va va -> vmm_page_fault_handler code va cs s = (FaultResolved, s') ->
  cow_fault code /\ present s (page_at (cr3 s) va) /\ bit (pte s (page_at (cr3 s) va)) PAGE_COW = true.
Proof.
  intros W Hr Hv. assert (N0 : is_node rs (cr3 s) []) by (split; [done|]; split; [cbn; lia|by split; [apply Forall_nil|]]).
  destruct (table_aligned s rs (w_tree _ _ W) _ [] _ N0 eq_refl) as [Ac _].
  unfold vmm_page_fault_handler. rewrite land_addr by done. rewrite (fault_pt_facts s rs _ va (w_tree _ _ W) Hr Hv).
  assert (U : forall z, (unresolved cs, z) <> (FaultResolved, s')) by (intros z; unfold unresolved; by destruct (_ =? 3)).
  unfold present, pte, cow_fault. cbn [page_at fst snd]. destruct (table s (cr3 s) _) as [t|]; [|intros H; by apply U in H].
  destruct (bit (entry s t (pt_index va)) VMM_PRESENT) eqn:Hp; [|intros H; by apply U in H].
  destruct (Z.eqb_spec (Z.land code (Z.lor PF_ERROR_PRESENT PF_ERROR_WRITE)) (Z.lor PF_ERROR_PRESENT PF_ERROR_WRITE)); [|intros H; by apply U in H].
  destruct (bit (entry s t (pt_index va)) PAGE_COW); [done|intros H; by apply U in H].
Qed.

(** A step keeps the invariant and what the other spaces show. *)
Lemma vstep_facts a s rs s' rs' :
  vwf s rs -> vstep a s rs s' rs' ->
  vwf s' rs' /\ forall r, r ∈ rs -> r ∈ rs' /\ (a <> r -> same_space s s' r).
Proof.
  intros W St. destruct St as [s rs l Hr|s rs x j w Hx Ex Hp Hw Hj|s rs code va cs s' Hr Ec Hv E|s rs c s' Hr Hc E|s rs c s' Ak Hk E|
    s rs addr h ret h' s' Hr Et Ec Hi Ho Ha E].
  - assert (Ew : words (vmm_switch_address_space a s <| task_cr3 := a |> <| inventory := l |>) = words s).
    { unfold vmm_switch_address_space. by destruct (a =? 0). }
    split; [|intros r Hr'; split; [done|intros _; apply (same_view_space s _ rs); [done|by apply words_view]]].
    apply (vwf_regs s); [done|done|]. unfold vmm_switch_address_space. by destruct (a =? 0).
  - split; [by apply store_wf|]. intros r Hr. split; [done|]. intros Hne. apply (same_page_space s _ rs); [done|].
    intros y Hy Ey. split; [by apply (store_pte s rs W)|]. intros Hpy i Hi.
    rewrite (store_word s rs W) by done. rewrite decide_False; [done|]. congruence.
  - assert (Hr' : cr3 s ∈ rs) by (by rewrite Ec). destruct (resolved_fault s rs va code cs s' W Hr' Hv E) as (H1 & H2 & H3).
    pose proof (fault_facts s rs va code cs W Hr' Hv H1 H2 H3) as F. rewrite E in F. destruct F as [[O1 O2 O3 O4 O5] _].
    split; [done|]. intros r Hr0. split; [done|]. intros _. by apply (same_view_space s s' rs).
  - pose proof (clone_facts s rs a W Hr Hc) as F. rewrite E in F. destruct F. split; [done|].
    intros r Hr'. split; [by right|]. intros _. by apply (same_view_space s s' rs).
  - pose proof (create_space_facts s rs W Ak Hk) as F. rewrite E in F. destruct F as (_ & W' & V & _). split; [done|].
    intros r Hr'. split; [by right|]. intros _. by apply (same_view_space s s' rs).
  - assert (Hr' : task_cr3 s ∈ rs) by (by rewrite Et). assert (Ec' : cr3 s = task_cr3 s) by congruence.
    pose proof (sys_brk_facts s h rs addr W Hr' Ec' Hi Ho Ha) as F. rewrite E in F. destruct F as [B1 B2 B3 B4 B5 B6].
    split; [done|]. intros r Hr0. split; [done|]. intros Hne. apply (same_page_space s s' rs); [done|].
    intros x Hx Ex. apply B5; [done|]. intros b _ ->. cbn in Ex. congruence.
Qed.

Lemma same_space_trans s s1 s2 r : same_space s s1 r -> same_space s1 s2 r -> same_space s s2 r.
Proof.
  intros V1 V2 p l Hx. destruct (V1 p l Hx) as [P1 U1], (V2 p l Hx) as [P2 U2]. split; [by rewrite P2|].
  intros Hp j Hj. rewrite U2 by (done || by apply P1). by apply U1.
Qed.

(** C3: Isolation of processes.  Start from any state whose page tables are well
    formed, let the other tasks run any sequence of steps (context switches, stores
    through their writable pages, copy-on-write faults, forks, new address spaces,
    heap growth), and look at the space [r] again: the same pages are present and
    every word reads as before.  The invariant still holds. *)
Theorem vmm_isolation s rs s' rs' r :
  vwf s rs -> r ∈ rs -> others_run r s rs s' rs' -> vwf s' rs' /\ r ∈ rs' /\ same_space s s' r.
Proof.
  intros W Hr Run. revert W Hr. induction Run as [s rs|a s rs s1 rs1 s2 rs2 Ha St Run IH]; intros W Hr; [done|].
  destruct (vstep_facts a s rs s1 rs1 W St) as [W1 F]. destruct (F r Hr) as [Hr1 S1].
  destruct (IH W1 Hr1) as (W2 & Hr2 & S2). split_and!; [done|done|]. by apply (same_space_trans s s1); [apply S1|].
Qed.

(** * User pointers *)

(** The entry lets user mode read, or also write (perhaps after a copy). *)
Definition accessible (e : Z) (write_intent : bool) : bool :=
  bit e VMM_PRESENT && bit e VMM_USER && (negb write_intent || bit e VMM_WRITABLE || bit e PAGE_COW).

Lemma user_next_table s rs r p i t :
  twf s rs -> is_node rs r (p ++ [i]) -> table s r p = Some t -> user_next s t i = next_table s t i.
Proof.
  intros T Hn Ht. unfold user_next, next_table, user_entry. destruct (bit (entry s t i) VMM_PRESENT) eqn:Hb; [|done].
  by destruct (t_entry _ _ T r p t i Hn Ht Hb) as [-> ->].
Qed.

Lemma validate_page_facts s rs r va w :
  twf s rs -> r ∈ rs -> user_va va -> validate_page s r va w = accessible (pte s (page_at r va)) w.
Proof.
  intros T Hr Hv. pose proof (page_at_page rs r va Hr Hv) as Hx. destruct (page_node3 _ _ _ _ _ _ Hx) as (N1 & N2 & N3).
  unfold validate_page, pte. cbn [page_at fst snd]. rewrite (user_next_table s rs r [] (pml4_index va)) by done. rewrite table3.
  destruct (next_table s r (pml4_index va)) as [a|] eqn:Ea; [|done].
  assert (Ta : table s r [pml4_index va] = Some a) by (cbn; by rewrite Ea).
  rewrite (user_next_table s rs r [pml4_index va] (pdpt_index va)) by done.
  destruct (next_table s a (pdpt_index va)) as [b|] eqn:Eb; [|done].
  assert (Tb : table s r [pml4_index va; pdpt_index va] = Some b) by (cbn; by rewrite Ea, Eb).
  rewrite (user_next_table s rs r [pml4_index va; pdpt_index va] (pd_index va)) by done.
  destruct (next_table s b (pd_index va)) as [c|] eqn:Ec; [|done].
  assert (Tc : table s r [pml4_index va; pdpt_index va; pd_index va] = Some c) by (cbn; by rewrite Ea, Eb, Ec).
  rewrite (walk_valid s rs r _ c T N3 Tc). unfold accessible, user_entry.
  by destruct (bit _ VMM_PRESENT), (bit _ VMM_USER), w, (bit _ VMM_WRITABLE), (bit _ PAGE_COW).
Qed.

Lemma validate_pages_facts n s r va w :
  validate_pages n s r va w = true <-> forall i, 0 <= i < Z.of_nat n -> validate_page s r (va + 4096 * i) w = true.
Proof.
  revert va. induction n as [|n IH]; intros va; cbn [validate_pages]; [split; [intros _ i ?; lia|done]|].
  rewrite andb_true_iff, IH. unfold VMM_PAGE_SIZE. split.
  - intros [H1 H2] i Hi. destruct (decide (i = 0)) as [->|]; [by rewrite Z.mul_0_r, Z.add_0_r|].
    replace (va + 4096 * i) with (va + 4096 + 4096 * (i - 1)) by lia. apply H2. lia.
  - intros H. split; [specialize (H 0 ltac:(lia)); by rewrite Z.mul_0_r, Z.add_0_r in H|].
    intros i Hi. replace (va + 4096 + 4096 * i) with (va + 4096 * (i + 1)) by lia. apply H. lia.
Qed.

Lemma validate_ptr_facts s rs ptr size w :
  vwf s rs -> task_cr3 s ∈ rs -> 549755813888 <= ptr < 18446744073709551616 -> is_u64 size ->
  vmm_validate_user_ptr ptr size w s = true <->
  size <> 0 /\ ptr + size < 140737488355328 /\
  forall a, ptr <= a < ptr + size -> accessible (pte s (page_at (task_cr3 s) a)) w = true.
Proof.
  intros W Hr Hptr Hsz. pose proof (w_tree _ _ W) as T. unfold vmm_validate_user_ptr.
  assert (N0 : is_node rs (task_cr3 s) []) by (split; [done|]; split; [cbn; lia|by split; [apply Forall_nil|]]).
  destruct (table_aligned s rs T _ [] _ N0 eq_refl) as [Ac Pc].
  assert (Ec : current_pml4 s = task_cr3 s).
  { unfold current_pml4. destruct (Z.eqb_spec (task_cr3 s) 0); [lia|]. cbn [negb]. by rewrite land_addr. }
  rewrite Ec, (walk_valid s rs _ [] _ T N0 eq_refl). cbn [negb].
  destruct (Z.eqb_spec ptr 0); [lia|]. cbn [orb]. destruct (Z.eqb_spec size 0); [split; [done|lia]|].
  unfold is_u64 in Hsz. destruct (Z.ltb_spec (u64 (ptr + size)) ptr) as [Hw|Hw].
  { split; [done|]. intros (_ & Hlt & _). ulia. }
  destruct (Z.ltb_spec ptr VMM_USER_BASE); [unfold VMM_USER_BASE in *; lia|]. cbn [orb].
  assert (Eu : u64 (ptr + size) = ptr + size) by ulia. rewrite Eu.
  destruct (Z.leb_spec 140737488355328 (ptr + size)); [split; [done|lia]|].
  replace (u64 (ptr + size - 1)) with (ptr + size - 1) by ulia. rewrite !page_of by (unfold is_u64; lia).
  unfold VMM_PAGE_SIZE. rewrite validate_pages_facts.
  set (lo := ptr - ptr mod 4096). set (hi := u64 _). assert (Hhi : hi = ptr + size - 1 - (ptr + size - 1) mod 4096 + 4096) by (unfold hi; ulia).
  assert (V : forall a, lo <= a < hi -> validate_page s (task_cr3 s) (a - a mod 4096) w = accessible (pte s (page_at (task_cr3 s) a)) w).
  { intros a Ha. rewrite (validate_page_facts s rs); [|done|done|apply user_va_range; unfold lo in *; ulia].
    by rewrite page_at_byte by (unfold is_u64, lo in *; ulia). }
  split.
  - intros Hv. split_and!; [done|done|]. intros a Ha. rewrite <- V by (unfold lo in *; ulia).
    replace (a - a mod 4096) with (lo + 4096 * ((a - lo) / 4096)) by (unfold lo; ulia). apply Hv. unfold lo in *. ulia.
  - intros (_ & _ & Hv) i Hi.
    (* a byte of the range in that page *)
    set (a := Z.max ptr (lo + 4096 * i)). assert (Ha : ptr <= a < ptr + size /\ lo + 4096 * i = a - a mod 4096 /\ lo <= a < hi).
    { unfold a, lo in *. ulia. }
    destruct Ha as (Ha1 & -> & Ha2). rewrite V by done. by apply Hv.
Qed.

(** C35: The check of user pointers is exact.  For a range that starts in the user
    half, [vmm_validate_user_ptr] answers 1 exactly when the range is not empty,
    ends below the canonical limit without wrapping, and every byte of it lies in a
    present user page, which for a write is writable or copy-on-write. *)
Theorem validate_user_ptr_exact s rs ptr size w :
  vwf s rs -> task_cr3 s ∈ rs -> 549755813888 <= ptr < 18446744073709551616 -> is_u64 size ->
  vmm_validate_user_ptr ptr size w s = true <->
  size <> 0 /\ ptr + size < 140737488355328 /\
  forall a, ptr <= a < ptr + size -> accessible (pte s (page_at (task_cr3 s) a)) w = true.
Proof. exact (validate_ptr_facts s rs ptr size w). Qed.

(** A checked buffer can be written.  When the check with write intent has
    accepted a buffer of the current task and a frame is left, a write to any byte
    of it goes through, or faults and the page-fault handler resolves the fault:
    the page becomes writable and no space sees a difference. *)
Theorem validated_write_resolves s rs ptr size a code cs :
  vwf s rs -> task_cr3 s ∈ rs -> cr3 s = task_cr3 s -> 549755813888 <= ptr < 18446744073709551616 -> is_u64 size ->
  vmm_validate_user_ptr ptr size true s = true -> ptr <= a < ptr + size -> cow_fault code -> ~ full s ->
  let x := page_at (cr3 s) a in
  present s x /\
  (bit (pte s x) VMM_WRITABLE = true \/
   exists s', vmm_page_fault_handler code a cs s = (FaultResolved, s') /\ fault_ok s s' rs x).
Proof.
  intros W Hr Hc Hp Hs Hv Ha Hcode Hf x. destruct (proj1 (validate_ptr_facts s rs ptr size true W Hr Hp Hs) Hv) as (_ & Hlt & Hacc).
  specialize (Hacc a Ha). rewrite <- Hc in *. fold x in Hacc. unfold accessible in Hacc. cbn [negb orb] in Hacc.
  apply andb_true_iff in Hacc as [[Hpr _]%andb_true_iff Hacc]. split; [done|].
  destruct (bit (pte s x) VMM_WRITABLE) eqn:Hw; [by left|right]. cbn [orb] in Hacc.
  pose proof (fault_facts s rs a code cs W Hr (user_va_range a ltac:(lia)) Hcode Hpr Hacc) as F.
  destruct (vmm_page_fault_handler code a cs s) as [[] s']; [|by destruct F as (_ & _ & ?)..].
  exists s'. split; [done|]. apply F.
Qed.
