(* ===== verification/VmmDemo.v ===== *)
(** Concrete address spaces that show the hypotheses of the theorems on virtual
    memory can hold: a space with a heap page, its clone, and a store of the clone. *)

From S2P Require Import Prelude Pmm Task Vmm VmmTable VmmMap VmmCow VmmClone VmmFork VmmSpace Brk VmmIso.

(** After boot: no user space, the kernel's root in the reserved area. *)
Definition boot : vmm := mk_vmm ∅ (pmm_init 1200000) 0 4096 0 None.

Lemma boot_wf : vwf boot [].
Proof.
  assert (N : forall x, ~ is_page [] x) by (intros [[r p] l] (?%elem_of_nil & _); done).
  split; [split|..].
  - apply (pmm_init_facts 1200000). by vm_compute.
  - intros r p t (?%elem_of_nil & _). done.
  - intros r p t i (?%elem_of_nil & _). done.
  - intros r p r' p' t (?%elem_of_nil & _). done.
  - intros x f (?%N & _). done.
  - intros x ?%N. done.
  - intros x ?%N. done.
  - intros f L H0 HL HM. destruct (list_nonempty L H0) as [x Hx]. by destruct (HM x Hx) as (?%N & _).
  - intros x y f (?%N & _). done.
Qed.

Definition parent : Z := 1200128.

(** The task with the root [r] is running. *)
Definition running (r : Z) (l : list Z) (s : vmm) : vmm := s <| cr3 := r |> <| task_cr3 := r |> <| inventory := Some l |>.

Lemma running_wf r l s rs : vwf s rs -> vwf (running r l s) rs.
Proof. intros W. by apply (vwf_regs s). Qed.
Lemma running_view r l s rs : same_view s (running r l s) rs.
Proof. by apply words_view. Qed.

Definition d1 : vmm := running parent [] (vmm_create_address_space boot).2.

Lemma pair_eq {A B} (p : A * B) a : p.1 = a -> p = (a, p.2).
Proof. destruct p. by intros <-. Qed.

Lemma d1_wf : vwf d1 [parent].
Proof.
  pose proof (create_space_facts boot [] boot_wf) as F.
  rewrite (pair_eq (vmm_create_address_space boot) (Some parent)) in F by (vm_compute; reflexivity).
  assert (A : aligned (kernel_root boot)) by (change (kernel_root boot) with 4096; split; [done|lia]).
  assert (R : 0 < refs boot (kernel_root boot)) by (by vm_compute).
  destruct (F A R) as (_ & W & _). apply running_wf. exact W.
Qed.

(** A heap of one page. *)
Definition heap0 : heap_bounds := mk_heap_bounds 0x8000002000 0x8000002000.
Definition d2 : vmm := (sys_brk 0x8000003000 heap0 d1).2.

Lemma heap0_ok : heap_ok heap0.
Proof. unfold heap_ok, heap0, USER_HEAP_MAX_SIZE. cbn. lia. Qed.

Lemma brk_result s h rs addr :
  vwf s rs -> task_cr3 s ∈ rs -> cr3 s = task_cr3 s -> inventory s <> None -> heap_ok h -> is_u64 addr ->
  let p := sys_brk addr h s in brk_ok s p.2 h p.1.2 rs (task_cr3 s) addr p.1.1.
Proof.
  intros W Hr Hc Hi Ho Ha. pose proof (sys_brk_facts s h rs addr W Hr Hc Hi Ho Ha) as F.
  by destruct (sys_brk addr h s) as [[? ?] ?].
Qed.

Lemma d2_ok : let p := sys_brk 0x8000003000 heap0 d1 in brk_ok d1 p.2 heap0 p.1.2 [parent] parent 0x8000003000 p.1.1.
Proof.
  apply (brk_result d1 heap0 [parent] 0x8000003000 d1_wf); [by left|exact eq_refl|discriminate|exact heap0_ok|].
  unfold is_u64. lia.
Qed.
Lemma d2_wf : vwf d2 [parent].
Proof. exact (bo_wf _ _ _ _ _ _ _ _ d2_ok). Qed.

(** The page of the heap. *)
Definition page0 (r : Z) : page := page_at r 0x8000002000.
Lemma page0_page rs r : r ∈ rs -> is_page rs (page0 r).
Proof. intros Hr. apply page_at_page; [done|]. apply user_va_range. lia. Qed.

Lemma d2_page : present d2 (page0 parent) /\ bit (pte d2 (page0 parent)) VMM_WRITABLE = true.
Proof. split; vm_compute; reflexivity. Qed.

Lemma counts_bound s :
  forallb (fun n => n <=? 2147483648) (pmm_refcounts (frames s)) = true ->
  forall f, user_frame s f -> refs s f <= 2147483648.
Proof.
  intros H f _. unfold refs, refcount, arr_get. rewrite list_lookup_total_alt.
  destruct (pmm_refcounts (frames s) !! Z.to_nat (f / 4096)) as [n|] eqn:E; [|cbn; lia].
  rewrite forallb_forall in H. specialize (H n). apply Z.leb_le, H. apply list_elem_of_In. by eapply list_elem_of_lookup_2.
Qed.

Lemma not_full s b : 0 <= b < PMM_MAX_BLOCKS -> refcount (frames s) b = 0 -> ~ full s.
Proof. intros Hb E F. specialize (F b Hb). lia. Qed.

(** The clone. *)
Definition child : Z := 1220608.
Definition d3 : vmm := (vmm_clone_address_space parent d2).2.
Lemma d2_counts : forall f, user_frame d2 f -> refs d2 f <= 2147483648.
Proof. apply counts_bound. vm_compute. reflexivity. Qed.
Lemma d3_child : (vmm_clone_address_space parent d2).1 = Some child.
Proof. vm_compute. reflexivity. Qed.
Lemma d3_eq : vmm_clone_address_space parent d2 = (Some child, d3).
Proof. exact (pair_eq _ _ d3_child). Qed.
Lemma parent_in : parent ∈ [parent].
Proof. by left. Qed.
Lemma d3_ok : clone_ok d2 d3 [parent] parent child.
Proof. pose proof (clone_facts d2 [parent] parent d2_wf parent_in d2_counts) as F. rewrite d3_eq in F. exact F. Qed.
Lemma d3_wf : vwf d3 [child; parent].
Proof. exact (co_wf _ _ _ _ _ d3_ok). Qed.
Lemma heap0_align : align_up_page (brk_end heap0) <= 0x8000002000 < 0x8000003000.
Proof. split; vm_compute; [discriminate|reflexivity]. Qed.
Lemma d2_space : ~ full d2.
Proof. apply (not_full d2 20000); [by vm_compute|vm_compute; reflexivity]. Qed.
Lemma d3_space : ~ full d3.
Proof. apply (not_full d3 20000); [by vm_compute|vm_compute; reflexivity]. Qed.
Lemma in_child : child ∈ [child; parent].
Proof. by left. Qed.
Lemma in_parent : parent ∈ [child; parent].
Proof. right. by left. Qed.
Lemma d3_regs : cr3 d3 = parent /\ task_cr3 d3 = parent.
Proof. split; vm_compute; reflexivity. Qed.

Lemma vmm_clone_cow_witness : clone_ok d2 d3 [parent] parent child.
Proof.
  pose proof (vmm_clone_cow d2 [parent] parent d2_wf parent_in d2_counts) as F. rewrite d3_eq in F. exact F.
Defined.

Lemma sys_brk_spec_witness : zero_page d2 (page0 parent).
Proof.
  pose proof (sys_brk_spec d1 heap0 [parent] 0x8000003000 d1_wf) as F.
  assert (Hr : task_cr3 d1 ∈ [parent]) by (by left).
  specialize (F Hr eq_refl ltac:(discriminate) heap0_ok ltac:(unfold is_u64; lia)).
  assert (E : exists q, sys_brk 0x8000003000 heap0 d1 = (q, d2)) by (eexists; apply surjective_pairing).
  destruct E as [[ret h'] E]. rewrite E in F. apply (bo_zero _ _ _ _ _ _ _ _ F).
  - exact d2_space.
  - destruct (bo_heap _ _ _ _ _ _ _ _ F) as (_ & _ & Er).
    assert (Eh : ret = 0x8000003000) by (change ret with (ret, h').1; change (ret, h') with (ret, h', d2).1; rewrite <- E; vm_compute; reflexivity).
    rewrite <- Er, Eh. exact heap0_align.
Defined.

(** A write of the parent to the shared page. *)
Definition d3f : vmm := (vmm_page_fault_handler 3 0x8000002000 27 d3).2.
Lemma fault_va : user_va 0x8000002000.
Proof. apply user_va_range. lia. Qed.

Lemma vmm_fault_cow_witness :
  fault_ok d3 d3f [child; parent] (page0 parent) /\
  forall y, maps d3f [child; parent] y (entry_table (pte d3f (page0 parent))) -> y = page0 parent.
Proof.
  destruct d3_regs as [Ec _].
  pose proof (vmm_fault_cow d3 [child; parent] 0x8000002000 3 27 d3_wf) as F. rewrite Ec in F.
  specialize (F in_parent fault_va eq_refl). cbv zeta in F.
  assert (P : present d3 (page_at parent 0x8000002000)) by (vm_compute; reflexivity).
  assert (B : bit (pte d3 (page_at parent 0x8000002000)) PAGE_COW = true) by (vm_compute; reflexivity).
  specialize (F P B).
  assert (E : (vmm_page_fault_handler 3 0x8000002000 27 d3).1 = FaultResolved) by (vm_compute; reflexivity).
  rewrite (pair_eq _ _ E) in F. exact F.
Defined.

(** The child runs, faults on the page and writes to it. *)
Definition d4 : vmm := vmm_switch_address_space child d3 <| task_cr3 := child |> <| inventory := Some [] |>.
Definition d5 : vmm := (vmm_page_fault_handler 3 0x8000002000 27 d4).2.
Definition d6 : vmm := user_store (page0 child) 5 42 d5.

Lemma d4_run : others_run parent d3 [child; parent] d6 [child; parent].
Proof.
  assert (Hne : child <> parent) by discriminate.
  apply (others_step parent child _ _ d4 [child; parent]); [exact Hne|exact (step_switch child d3 _ (Some []) in_child)|].
  apply (others_step parent child _ _ d5 [child; parent]); [exact Hne| |].
  - apply (step_fault child d4 _ 3 0x8000002000 27); [exact in_child|vm_compute; reflexivity|exact fault_va|].
    assert (E : (vmm_page_fault_handler 3 0x8000002000 27 d4).1 = FaultResolved) by (vm_compute; reflexivity).
    exact (pair_eq _ _ E).
  - apply (others_step parent child _ _ d6 [child; parent]); [exact Hne| |apply others_refl].
    apply step_store; [exact (page0_page _ _ in_child)|reflexivity|vm_compute; reflexivity|vm_compute; reflexivity|unfold in_table; lia].
Qed.

Lemma vmm_isolation_witness :
  same_space d3 d6 parent /\ user_word d6 (page0 child) 5 = 42 /\ user_word d6 (page0 parent) 5 = 0.
Proof.
  split; [|split; vm_compute; reflexivity].
  apply (vmm_isolation d3 [child; parent] d6 [child; parent] parent d3_wf in_parent d4_run).
Defined.

Lemma validate_user_ptr_exact_witness :
  100 <> 0 /\ 0x8000002010 + 100 < 140737488355328 /\ forall a, 0x8000002010 <= a < 0x8000002010 + 100 -> accessible (pte d3 (page_at (task_cr3 d3) a)) true = true.
Proof.
  assert (Hr : task_cr3 d3 ∈ [child; parent]) by (destruct d3_regs as [_ ->]; exact in_parent).
  apply (validate_user_ptr_exact d3 [child; parent] 0x8000002010 100 true d3_wf Hr); [lia|unfold is_u64; lia|].
  vm_compute. reflexivity.
Defined.

Lemma validated_write_resolves_witness :
  exists s', vmm_page_fault_handler 3 0x8000002010 8 d3 = (FaultResolved, s') /\
    fault_ok d3 s' [child; parent] (page_at (cr3 d3) 0x8000002010).
Proof.
  destruct d3_regs as [Ec Et].
  assert (Hr : task_cr3 d3 ∈ [child; parent]) by (rewrite Et; exact in_parent).
  destruct (validated_write_resolves d3 [child; parent] 0x8000002010 100 0x8000002010 3 8 d3_wf Hr) as [_ [H|H]];
    [congruence|lia|unfold is_u64; lia|vm_compute; reflexivity|lia|reflexivity|exact d3_space| |exact H].
  exfalso. revert H. vm_compute. discriminate.
Defined.

(** The page of the heap is mapped again, now protected against execution. *)
Lemma remap_wf s rs r va fl :
  vwf s rs -> r ∈ rs -> user_va va -> let x := page_at r va in present s x -> bit (pte s x) VMM_WRITABLE = true ->
  Z.land fl VMM_ENTRY_FLAGS_MASK = fl -> bit fl VMM_PRESENT = true -> bit fl VMM_USER = true ->
  vwf (map_in_pml4 r va (entry_table (pte s x)) fl s) rs.
Proof.
  intros W Hr Hv x Hp Hw Hf F1 F2. set (f := entry_table (pte s x)).
  assert (Hx : is_page rs x) by (by apply page_at_page). pose proof (maps_at s rs x Hx Hp) as Hm.
  destruct (t_leaf _ _ (w_tree _ _ W) x _ Hm) as [F N]. assert (A : aligned f) by apply entry_aligned.
  assert (U : is_u64 f) by (destruct A; unfold is_u64; lia). destruct (frame_entry f fl A Hf) as [E1 E2].
  assert (Em : map_entry f fl = Z.lor f fl).
  { unfold map_entry. rewrite (page_of f U), (proj1 A), Z.sub_0_r, land_addr, Hf by done. done. }
  pose proof (map_facts s rs r va f fl (w_tree _ _ W) Hr Hv F2) as M. rewrite Em in M. fold x in M.
  destruct M as [C|[G _]]; [intros _; rewrite E1; by split| |by apply (vwf_grown s)].
  apply (vwf_changed _ _ _ _ _ W C Hx E2). intros _. rewrite E1.
  assert (Only : forall y, y <> x -> ~ maps s rs y f) by (intros y Hy Hmy; apply Hy; symmetry; by apply (w_own _ _ W x y f)).
  split_and!; [by rewrite bit_lor| |by intros y Hy ?%Only].
  intros L _ HM. destruct L as [|y L]; [|by destruct (HM y ltac:(by left)) as [? ?%Only]].
  destruct (c_frame _ _ _ _ _ C f F) as [(_ & _ & ?) _]. unfold len. cbn. lia.
Qed.

Definition d2x : vmm := map_in_pml4 parent 0x8000002000 (entry_table (pte d2 (page0 parent))) (Z.lor 7 VMM_NX) d2.
Lemma d2x_wf : vwf d2x [parent].
Proof.
  destruct d2_page as [P Wr]. exact (remap_wf d2 [parent] parent 0x8000002000 (Z.lor 7 VMM_NX) d2_wf parent_in fault_va P Wr eq_refl eq_refl eq_refl).
Qed.
Definition d3x : vmm := (vmm_clone_address_space parent d2x).2.

Lemma vmm_clone_drops_nx_witness :
  bit (pte d2x (page0 parent)) VMM_NX = true /\ bit (pte d3x (page0 parent)) VMM_NX = false.
Proof.
  split; [vm_compute; reflexivity|].
  assert (E : (vmm_clone_address_space parent d2x).1 = Some child) by (vm_compute; reflexivity).
  assert (B : forall f, user_frame d2x f -> refs d2x f <= 2147483648) by (apply counts_bound; vm_compute; reflexivity).
  apply (vmm_clone_drops_nx d2x [parent] parent child d3x [pml4_index 0x8000002000; pdpt_index 0x8000002000; pd_index 0x8000002000]
    (pt_index 0x8000002000) d2x_wf parent_in B (pair_eq _ _ E) (page0_page _ _ parent_in)); vm_compute; reflexivity.
Defined.

(** * Frames a shrunken heap leaves behind *)

(** [release_user_pages]: the frames of an inventory are freed one by one. *)
Definition release_frames (l : list Z) (s : vmm) : vmm := foldl (fun s f => free_frame f s) s l.

(** The heap grows by a page, shrinks and grows again. *)
Definition e1 : Z * heap_bounds * vmm := sys_brk 0x8000003000 heap0 d1.
Definition e2 : Z * heap_bounds * vmm := sys_brk 0x8000002000 e1.1.2 e1.2.
Definition e3 : Z * heap_bounds * vmm := sys_brk 0x8000003000 e2.1.2 e2.2.
(** Fork; the child gets a copy of the inventory and ends. *)
Definition inventory3 : list Z := default [] (inventory e3.2).
Definition e4 : option Z * vmm := vmm_clone_address_space parent e3.2.
Definition e5 : vmm := release_frames inventory3 e4.2.
(** Somebody else gets a frame; then the parent ends. *)
Definition e6 : option Z * vmm := alloc_frame e5.
Definition e7 : vmm := release_frames inventory3 e6.2.

(** A frame is freed under its owner.  [sys_brk] leaves the frames of a shrunken
    heap in the inventory of the task and maps new ones when the heap grows again;
    fork copies the inventory but counts only mapped frames.  So after grow,
    shrink, grow, fork and the exit of the child, a frame of the parent's inventory
    is free; the next allocation hands it out, and the exit of the parent frees it
    while its new owner still has it. *)
Theorem brk_fork_double_free :
  exists f, e4.1 <> None /\ f ∈ inventory3 /\ refs e4.2 f = 1 /\ refs e5 f = 0 /\
    e6.1 = Some f /\ refs e6.2 f = 1 /\ refs e7 f = 0.
Proof.
  exists 1204224. split_and!; try (vm_compute; reflexivity).
  - intros E. assert (X : (match e4.1 with Some _ => true | None => false end) = true) by (vm_compute; reflexivity).
    by rewrite E in X.
  - assert (X : inventory3 = 1204224 :: drop 1 inventory3) by (vm_compute; reflexivity). rewrite X. by left.
Qed.
