(* ===== verification/Fat16.v ===== *)
(** The FAT16 driver of [src/src/drivers/fat16.c]: boot sector, allocation table,
    cluster chains, directory entries, file contents.

    The disk is used through [SectorDev]: [dev_read] and [dev_write] are
    [bcache_read_sector] and [bcache_write_sector], [dev_write_raw] is the
    one-sector [ata_write_sectors], which does not go through the cache.  The
    static [sector_buffer] is part of the state.  A function that returns 0 on
    failure is a computation of the monad [M]: [None] is the return value 0.
    [fat16_mutex] makes every public operation atomic. *)

From S2P Require Import Prelude.

Class SectorDev (D : Type) := {
  dev_read : Z -> D -> option (list Z) * D;
  dev_write : Z -> list Z -> D -> bool * D;
  dev_write_raw : Z -> list Z -> D -> bool * D
}.

Definition FAT16_SECTOR_SIZE : Z := 512.
Definition FAT16_FREE_CLUSTER : Z := 0.
Definition FAT16_EOC : Z := 0xFFF8.
Definition FAT16_EOF : Z := 0xFFFF.
Definition FAT16_BAD_CLUSTER : Z := 0xFFF7.
Definition FAT16_DELETED_ENTRY : Z := 0xE5.
Definition FAT16_ATTR_VOLUME_ID : Z := 0x08.
Definition FAT16_ATTR_DIRECTORY : Z := 0x10.
Definition FAT16_ATTR_ARCHIVE : Z := 0x20.
Definition FAT16_ATTR_LONG_NAME : Z := 0x0F.

(** The fields of [fat16_bpb_t] the driver reads. *)
Record fat16_bpb := mk_bpb {
  bytes_per_sector : Z;
  sectors_per_cluster : Z;
  reserved_sectors : Z;
  fat_count : Z;
  root_entry_count : Z;
  total_sectors_16 : Z;
  sectors_per_fat : Z;
  total_sectors_32 : Z
}.

Record fat16_volume := mk_volume {
  v_bpb : fat16_bpb;
  partition_lba : Z;
  fat_lba : Z;
  root_lba : Z;
  data_lba : Z;
  v_root_dir_sectors : Z;
  v_total_sectors : Z;
  mounted : bool
}.

Record fat16_node_data := mk_node_data {
  nd_first_cluster : Z;
  nd_size : Z;
  dir_entry_lba : Z;
  dir_entry_index : Z
}.
#[export] Instance eta_fat16_node_data : Eta fat16_node_data := fun d =>
  mk_node_data (nd_first_cluster d) (nd_size d) (dir_entry_lba d) (dir_entry_index d).

Record fat16_entry_location := mk_location { sector_lba : Z; loc_index : Z }.

(** * Bytes *)

Definition read_u16 (l : list Z) (off : Z) : Z := arr_get l off + 256 * arr_get l (off + 1).
Definition read_u32 (l : list Z) (off : Z) : Z := read_u16 l off + 65536 * read_u16 l (off + 2).
(** [memory_copy(buf + off, bytes, len)] *)
Definition put_bytes (off : Z) (bytes buf : list Z) : list Z :=
  take (Z.to_nat off) buf ++ bytes ++ drop (Z.to_nat off + length bytes) buf.
Definition le16 (v : Z) : list Z := [Z.land v 0xFF; Z.land (Z.shiftr v 8) 0xFF].
Definition le32 (v : Z) : list Z :=
  [Z.land v 0xFF; Z.land (Z.shiftr v 8) 0xFF; Z.land (Z.shiftr v 16) 0xFF; Z.land (Z.shiftr v 24) 0xFF].
Definition write_u16 (off v : Z) (buf : list Z) : list Z := put_bytes off (le16 v) buf.
Definition write_u32 (off v : Z) (buf : list Z) : list Z := put_bytes off (le32 v) buf.
Definition slice_at (off n : Z) (l : list Z) : list Z := take (Z.to_nat n) (drop (Z.to_nat off) l).

(** [fat16_entry_t] is its 32 bytes. *)
Definition ENTRY_SIZE : Z := 32.
Definition ENTRIES_PER_SECTOR : Z := FAT16_SECTOR_SIZE / ENTRY_SIZE.
Definition entry_of (buf : list Z) (i : Z) : list Z := slice_at (ENTRY_SIZE * i) ENTRY_SIZE buf.
Definition ent_name0 (e : list Z) : Z := arr_get e 0.
Definition ent_attributes (e : list Z) : Z := arr_get e 11.
Definition ent_cluster (e : list Z) : Z := read_u16 e 26.
Definition ent_size (e : list Z) : Z := read_u32 e 28.

(** * Names *)

Definition is_power_of_two (v : Z) : bool := negb (v =? 0) && (Z.land v (v - 1) =? 0).
Definition char_is_lower (ch : Z) : bool := (97 <=? ch) && (ch <=? 122).
Definition to_upper (ch : Z) : Z := if char_is_lower ch then ch - 97 + 65 else ch.
Definition to_lower (ch : Z) : Z := if (65 <=? ch) && (ch <=? 90) then ch - 65 + 97 else ch.

(** A string is the list of its bytes without the terminating zero. *)
Fixpoint path_basename_from (name path : list Z) : list Z :=
  match path with
  | [] => name
  | c :: path' => path_basename_from (if c =? 47 then path' else name) path'
  end.
Definition path_basename (path : list Z) : list Z := path_basename_from path path.

(** The loops of [make_83_name]: the base name up to the dot ([n] characters so
    far), then the extension.  [None] is the return value 0. *)
Fixpoint name_base (name : list Z) (n : Z) (out : list Z) : option (list Z * list Z * Z) :=
  match name with
  | [] => Some ([], out, n)
  | c :: name' =>
      if c =? 46 then Some (name, out, n)
      else if (8 <=? n) || (c =? 32) || (c =? 47) || (c <? 0x20) then None
      else name_base name' (n + 1) (arr_set out n (to_upper c))
  end.
Fixpoint name_ext (name : list Z) (n : Z) (out : list Z) : option (list Z) :=
  match name with
  | [] => Some out
  | c :: name' =>
      if (3 <=? n) || (c =? 46) || (c =? 32) || (c =? 47) || (c <? 0x20) then None
      else name_ext name' (n + 1) (arr_set out (8 + n) (to_upper c))
  end.
Definition make_83_name (filename : list Z) : option (list Z) :=
  match name_base (path_basename filename) 0 (replicate 11 32) with
  | None => None
  | Some (rest, out, base_length) =>
      let out := match rest with [] => Some out | _ :: ext => name_ext ext 0 out end in
      match out with
      | None => None
      | Some out => if base_length =? 0 then None else Some out
      end
  end.

Fixpoint until_space (l : list Z) : list Z :=
  match l with
  | [] => []
  | c :: l' => if c =? 32 then [] else to_lower c :: until_space l'
  end.
Definition entry_to_vfs_name (e : list Z) : list Z :=
  until_space (take 8 e) ++
  (if arr_get e 8 =? 32 then [] else 46 :: until_space (take 3 (drop 8 e))).

Definition entry_matches_name (e filename : list Z) : bool :=
  match make_83_name filename with
  | None => false
  | Some fat_name => bool_decide (take 11 e = fat_name)
  end.

Definition entry_is_usable_file (e : list Z) : bool :=
  if (ent_name0 e =? 0) || (ent_name0 e =? 0xE5) then false
  else if Z.land (ent_attributes e) FAT16_ATTR_LONG_NAME =? FAT16_ATTR_LONG_NAME then false
  else if negb (Z.land (ent_attributes e) FAT16_ATTR_VOLUME_ID =? 0) then false
  else Z.land (ent_attributes e) FAT16_ATTR_DIRECTORY =? 0.

Definition fat16_entry_is_visible (e : list Z) : bool :=
  negb (ent_name0 e =? 0) && negb (ent_name0 e =? FAT16_DELETED_ENTRY) &&
  (Z.land (ent_attributes e) FAT16_ATTR_VOLUME_ID =? 0) &&
  negb (Z.land (ent_attributes e) FAT16_ATTR_LONG_NAME =? FAT16_ATTR_LONG_NAME).

(** [fill_entry]; [None] is the return value 0. *)
Definition fill_entry (filename : list Z) (starting_cluster filesize : Z) : option (list Z) :=
  match make_83_name filename with
  | None => None
  | Some fat_name =>
      if arr_get fat_name 0 =? 32 then None
      else Some (write_u32 28 filesize (write_u16 26 starting_cluster (write_u16 20 0
                  (arr_set (put_bytes 0 fat_name (replicate 32 0)) 11 FAT16_ATTR_ARCHIVE))))
  end.

(** * State and effects *)

Record fat16_state D := mk_fat16 {
  vol : fat16_volume;
  sector_buffer : list Z;
  dev : D
}.
Arguments mk_fat16 {D} _ _ _.
Arguments vol {D} _.
Arguments sector_buffer {D} _.
Arguments dev {D} _.
#[export] Instance eta_fat16_state D : Eta (fat16_state D) := fun s => mk_fat16 (vol s) (sector_buffer s) (dev s).

Definition M (D A : Type) : Type := fat16_state D -> option A * fat16_state D.
Definition ret {D A} (a : A) : M D A := fun s => (Some a, s).
Definition fail {D A} : M D A := fun s => (None, s).
Definition bind {D A B} (m : M D A) (k : A -> M D B) : M D B := fun s =>
  match m s with
  | (Some a, s) => k a s
  | (None, s) => (None, s)
  end.
Notation "'let!' x := m 'in' k" := (bind m (fun x => k))
  (at level 200, x name, m at level 100, k at level 200) : photon_scope.
Notation "m ;; k" := (bind m (fun _ => k)) (at level 100, k at level 200, right associativity) : photon_scope.
(** The return value of a computation whose failure is looked at or ignored. *)
Definition attempt {D A} (m : M D A) : M D (option A) := fun s => let '(r, s) := m s in (Some r, s).
Definition with_state {D A} (f : fat16_state D -> M D A) : M D A := fun s => f s s.
Definition check {D} (b : bool) : M D unit := if b then ret tt else fail.

(** [for (i = lo; i < lo + n; i++) if (!body(i)) return 0;] *)
Fixpoint for_m {D} (n : nat) (i : Z) (body : Z -> M D unit) : M D unit :=
  match n with
  | O => ret tt
  | S n' => body i ;; for_m n' (i + 1) body
  end.

Section Driver.
Context {D : Type} `{SectorDev D}.

Definition read_sector (lba : Z) : M D unit := fun s =>
  match dev_read lba (dev s) with
  | (Some data, d) => (Some tt, s <| dev := d |> <| sector_buffer := data |>)
  | (None, d) => (None, s <| dev := d |>)
  end.
Definition write_sector (lba : Z) : M D unit := fun s =>
  let '(ok, d) := dev_write lba (sector_buffer s) (dev s) in
  (if ok then Some tt else None, s <| dev := d |>).
Definition write_raw (lba : Z) (data : list Z) : M D unit := fun s =>
  let '(ok, d) := dev_write_raw lba data (dev s) in
  (if ok then Some tt else None, s <| dev := d |>).
Definition edit_buffer (f : list Z -> list Z) : M D unit := fun s =>
  (Some tt, s <| sector_buffer := f (sector_buffer s) |>).
Definition get_buffer : M D (list Z) := fun s => (Some (sector_buffer s), s).

(** * The boot sector *)

Definition root_dir_sectors (b : fat16_bpb) : Z :=
  u32 (u32 (root_entry_count b * ENTRY_SIZE) + bytes_per_sector b - 1) / bytes_per_sector b.
Definition total_sectors (b : fat16_bpb) : Z :=
  if negb (total_sectors_16 b =? 0) then total_sectors_16 b else total_sectors_32 b.

Definition parse_bpb (l : list Z) : fat16_bpb :=
  mk_bpb (read_u16 l 11) (arr_get l 13) (read_u16 l 14) (arr_get l 16) (read_u16 l 17) (read_u16 l 19)
    (read_u16 l 22) (read_u32 l 32).

Definition validate_bpb (b : fat16_bpb) (sector : list Z) : bool :=
  if negb (arr_get sector 510 =? 0x55) || negb (arr_get sector 511 =? 0xAA) then false
  else if negb (bytes_per_sector b =? FAT16_SECTOR_SIZE) then false
  else if negb (is_power_of_two (sectors_per_cluster b)) then false
  else if (reserved_sectors b =? 0) || (fat_count b =? 0) || (root_entry_count b =? 0) || (sectors_per_fat b =? 0)
  then false
  else negb (total_sectors b =? 0).

Definition volume_of (b : fat16_bpb) (lba : Z) : fat16_volume :=
  let fat := reserved_sectors b in
  let root := u32 (fat + u32 (fat_count b * sectors_per_fat b)) in
  mk_volume b lba fat root (u32 (root + root_dir_sectors b)) (root_dir_sectors b) (total_sectors b) true.

Definition load_bpb_at (lba : Z) : M D unit :=
  read_sector lba ;;
  let! sector := get_buffer in
  let b := parse_bpb sector in
  check (validate_bpb b sector) ;;
  (fun s => (Some tt, s <| vol := volume_of b lba |>)).

Definition is_fat16_partition_type (type : Z) : bool := (type =? 0x04) || (type =? 0x06) || (type =? 0x0E).

Definition zero_volume : fat16_volume := mk_volume (mk_bpb 0 0 0 0 0 0 0 0) 0 0 0 0 0 0 false.

(** Entry [i] of the partition table is read from [sector_buffer] at the time the
    loop looks at it. *)
Definition part_bootable (buf : list Z) (i : Z) : Z := arr_get buf (446 + 16 * i).
Definition part_type (buf : list Z) (i : Z) : Z := arr_get buf (446 + 16 * i + 4).
Definition part_lba (buf : list Z) (i : Z) : Z := read_u32 buf (446 + 16 * i + 8).

Fixpoint try_partitions (n : nat) (i : Z) (active_only : bool) : M D bool :=
  match n with
  | O => ret false
  | S n' =>
      let! buf := get_buffer in
      if (negb active_only || (part_bootable buf i =? 0x80)) && is_fat16_partition_type (part_type buf i)
      then let! r := attempt (load_bpb_at (part_lba buf i)) in
           match r with Some _ => ret true | None => try_partitions n' (i + 1) active_only end
      else try_partitions n' (i + 1) active_only
  end.

Definition mount_superfloppy_or_partition (requested_lba : Z) : M D unit :=
  let! r := attempt (load_bpb_at requested_lba) in
  match r with
  | Some _ => ret tt
  | None =>
      check (requested_lba =? 0) ;;
      read_sector 0 ;;
      let! buf := get_buffer in
      check ((arr_get buf 510 =? 0x55) && (arr_get buf 511 =? 0xAA)) ;;
      let! found := try_partitions 4 0 true in
      if found then ret tt
      else let! found := try_partitions 4 0 false in check found
  end.

(** * The allocation table *)

Definition cluster_to_lba (v : fat16_volume) (cluster : Z) : Z :=
  u32 (partition_lba v + data_lba v + u32 (u32 (cluster - 2) * sectors_per_cluster (v_bpb v))).

(** The sector of copy [k] of the table that holds the entry of [cluster]. *)
Definition fat_sector (v : fat16_volume) (k cluster : Z) : Z :=
  u32 (partition_lba v + fat_lba v + u32 (k * sectors_per_fat (v_bpb v)) + cluster * 2 / FAT16_SECTOR_SIZE).

Definition read_fat_entry (cluster : Z) : M D Z := with_state (fun s =>
  read_sector (fat_sector (vol s) 0 cluster) ;;
  let! buf := get_buffer in ret (read_u16 buf (cluster * 2 mod FAT16_SECTOR_SIZE))).

Definition write_fat_entry (cluster value : Z) : M D unit := with_state (fun s =>
  for_m (Z.to_nat (fat_count (v_bpb (vol s)))) 0 (fun k =>
    read_sector (fat_sector (vol s) k cluster) ;;
    edit_buffer (write_u16 (cluster * 2 mod FAT16_SECTOR_SIZE) value) ;;
    write_sector (fat_sector (vol s) k cluster))).

Definition cluster_size_bytes (v : fat16_volume) : Z := sectors_per_cluster (v_bpb v) * FAT16_SECTOR_SIZE.

Definition max_data_cluster (v : fat16_volume) : Z :=
  if v_total_sectors v <=? data_lba v then 1
  else
    let data_clusters := (v_total_sectors v - data_lba v) / sectors_per_cluster (v_bpb v) in
    let fat_entries := sectors_per_fat (v_bpb v) * FAT16_SECTOR_SIZE / 2 in
    if (data_clusters =? 0) || (fat_entries <=? 2) then 1
    else
      let m := u32 (data_clusters + 1) in
      let m := if fat_entries <=? m then fat_entries - 1 else m in
      if FAT16_BAD_CLUSTER <=? m then FAT16_BAD_CLUSTER - 1 else m.

Definition cluster_is_data (v : fat16_volume) (cluster : Z) : bool :=
  (2 <=? cluster) && (cluster <=? max_data_cluster v).

Definition clear_cluster (cluster : Z) : M D unit := with_state (fun s =>
  check (cluster_is_data (vol s) cluster) ;;
  edit_buffer (fun _ => replicate 512 0) ;;
  for_m (Z.to_nat (sectors_per_cluster (v_bpb (vol s)))) 0 (fun i =>
    write_sector (u32 (cluster_to_lba (vol s) cluster + i)))).

Fixpoint allocate_loop (n : nat) (cluster : Z) : M D Z :=
  match n with
  | O => fail
  | S n' =>
      let! value := read_fat_entry (u16 cluster) in
      if negb (value =? FAT16_FREE_CLUSTER) then allocate_loop n' (cluster + 1)
      else
        write_fat_entry (u16 cluster) FAT16_EOF ;;
        let! r := attempt (clear_cluster (u16 cluster)) in
        match r with
        | Some _ => ret (u16 cluster)
        | None => attempt (write_fat_entry (u16 cluster) FAT16_FREE_CLUSTER) ;; fail
        end
  end.
(** The clusters 2, ..., [max_data_cluster] are tried in order. *)
Definition allocate_cluster_unlocked : M D Z := with_state (fun s =>
  check (mounted (vol s)) ;;
  allocate_loop (Z.to_nat (max_data_cluster (vol s) - 1)) 2).

(** [guard] bounds the loop. *)
Fixpoint free_loop (guard : nat) (cluster : Z) : M D unit :=
  match guard with
  | O => ret tt
  | S guard' => with_state (fun s =>
      if negb (cluster_is_data (vol s) cluster) then ret tt
      else
        let! next := read_fat_entry cluster in
        write_fat_entry cluster FAT16_FREE_CLUSTER ;;
        if (FAT16_EOC <=? next) || (next =? FAT16_BAD_CLUSTER) || negb (cluster_is_data (vol s) next)
        then ret tt else free_loop guard' next)
  end.
Definition free_chain_from (first_cluster : Z) : M D unit := with_state (fun s =>
  free_loop (Z.to_nat (max_data_cluster (vol s))) first_cluster).

(** * File contents *)

(** The sectors of one cluster; [false] when a read fails.  [acc] is what the
    caller's buffer holds so far. *)
Fixpoint read_sectors (n : nat) (sector lba off_in size : Z) (acc : list Z) : M D (bool * list Z) :=
  match n with
  | O => ret (true, acc)
  | S n' =>
      if negb (len acc <? size) then ret (true, acc)
      else if sector * FAT16_SECTOR_SIZE + FAT16_SECTOR_SIZE <=? off_in
      then read_sectors n' (sector + 1) lba off_in size acc
      else
        let! r := attempt (read_sector (u32 (lba + sector))) in
        match r with
        | None => ret (false, acc)
        | Some _ =>
            let! buf := get_buffer in
            let sector_offset := if sector * FAT16_SECTOR_SIZE <? off_in
                                 then off_in - sector * FAT16_SECTOR_SIZE else 0 in
            let chunk := Z.min (FAT16_SECTOR_SIZE - sector_offset) (size - len acc) in
            read_sectors n' (sector + 1) lba off_in size (acc ++ slice_at sector_offset chunk buf)
        end
  end.

Fixpoint read_clusters (fuel : nat) (cluster off_in size : Z) (acc : list Z) : M D (list Z) :=
  match fuel with
  | O => ret acc
  | S fuel' => with_state (fun s =>
      if (len acc <? size) && (cluster <? FAT16_EOC) && negb (cluster =? FAT16_BAD_CLUSTER) then
        let! r := read_sectors (Z.to_nat (sectors_per_cluster (v_bpb (vol s)))) 0
                    (cluster_to_lba (vol s) cluster) off_in size acc in
        let '(ok, acc) := r in
        if negb ok || negb (len acc <? size) then ret acc
        else
          let! next := attempt (read_fat_entry cluster) in
          match next with
          | None => ret acc
          | Some next => read_clusters fuel' next 0 size acc
          end
      else ret acc)
  end.

Fixpoint read_skip (n : nat) (cluster : Z) : M D Z :=
  match n with
  | O => ret cluster
  | S n' =>
      let! next := read_fat_entry cluster in
      if (FAT16_EOC <=? next) || (next =? FAT16_BAD_CLUSTER) then fail else read_skip n' next
  end.

(** Every round but the first copies a sector at least, which bounds the fuel.
    The result is what has been copied to the buffer; [None] is the early 0. *)
Definition read_chain (first_cluster file_size offset size : Z) : M D (list Z) := with_state (fun s =>
  if (first_cluster <? 2) || (file_size <=? offset) then fail
  else
    let size := Z.min size (file_size - offset) in
    let cluster_size := cluster_size_bytes (vol s) in
    let! cluster := read_skip (Z.to_nat (u32 (offset / cluster_size))) first_cluster in
    read_clusters (Z.to_nat (size / FAT16_SECTOR_SIZE + 2)) cluster (u32 (offset mod cluster_size)) size []).

Definition clusters_required_for_size (v : fat16_volume) (size : Z) : Z :=
  if size =? 0 then 1 else u32 (size + cluster_size_bytes v - 1) / cluster_size_bytes v.

Fixpoint ensure_loop (n : nat) (cluster : Z) : M D unit :=
  match n with
  | O => ret tt
  | S n' => with_state (fun s =>
      let! next := read_fat_entry cluster in
      if FAT16_EOC <=? next then
        let! next := allocate_cluster_unlocked in
        let! r := attempt (write_fat_entry cluster next) in
        match r with
        | Some _ => ensure_loop n' next
        | None => attempt (write_fat_entry next FAT16_FREE_CLUSTER) ;; fail
        end
      else if negb (cluster_is_data (vol s) next) || (next =? FAT16_BAD_CLUSTER) || (next =? FAT16_FREE_CLUSTER)
      then fail
      else ensure_loop n' next)
  end.

(** [data->first_cluster] is set before the loop, so it stays set when the loop
    fails. *)
Definition ensure_chain_capacity (data : fat16_node_data) (end_offset : Z) : M D (bool * fat16_node_data) :=
  with_state (fun s =>
    let! first := attempt (if cluster_is_data (vol s) (nd_first_cluster data)
                           then ret (nd_first_cluster data) else allocate_cluster_unlocked) in
    match first with
    | None => ret (false, data)
    | Some cluster =>
        let! r := attempt (ensure_loop (Z.to_nat (clusters_required_for_size (vol s) end_offset - 1)) cluster) in
        ret (match r with Some _ => true | None => false end, data <| nd_first_cluster := cluster |>)
    end).

Fixpoint offset_loop (n : nat) (cluster : Z) : M D Z :=
  match n with
  | O => ret cluster
  | S n' => with_state (fun s =>
      let! next := read_fat_entry cluster in
      if negb (cluster_is_data (vol s) next) || (FAT16_EOC <=? next) || (next =? FAT16_BAD_CLUSTER) then fail
      else offset_loop n' next)
  end.
Definition cluster_for_offset (first_cluster offset : Z) : M D (Z * Z) := with_state (fun s =>
  check (cluster_is_data (vol s) first_cluster) ;;
  let! cluster := offset_loop (Z.to_nat (offset / cluster_size_bytes (vol s))) first_cluster in
  ret (cluster, offset mod cluster_size_bytes (vol s))).

(** The sectors of one cluster; [false] is [goto done]. *)
Fixpoint write_sectors (n : nat) (sector lba off_in size : Z) (buffer : list Z) (written : Z) : M D (bool * Z) :=
  match n with
  | O => ret (true, written)
  | S n' =>
      if negb (written <? size) then ret (true, written)
      else if sector * FAT16_SECTOR_SIZE + FAT16_SECTOR_SIZE <=? off_in
      then write_sectors n' (sector + 1) lba off_in size buffer written
      else
        let sector_offset := if sector * FAT16_SECTOR_SIZE <? off_in
                             then off_in - sector * FAT16_SECTOR_SIZE else 0 in
        let chunk := Z.min (FAT16_SECTOR_SIZE - sector_offset) (size - written) in
        let! r := attempt (if negb (sector_offset =? 0) || negb (chunk =? FAT16_SECTOR_SIZE)
                           then read_sector (u32 (lba + sector)) else ret tt) in
        match r with
        | None => ret (false, written)
        | Some _ =>
            edit_buffer (put_bytes sector_offset (slice_at written chunk buffer)) ;;
            let! w := attempt (write_sector (u32 (lba + sector))) in
            match w with
            | None => ret (false, written)
            | Some _ => write_sectors n' (sector + 1) lba off_in size buffer (written + chunk)
            end
        end
  end.

Fixpoint write_clusters (fuel : nat) (cluster off_in size : Z) (buffer : list Z) (written : Z) : M D Z :=
  match fuel with
  | O => ret written
  | S fuel' => with_state (fun s =>
      if (written <? size) && cluster_is_data (vol s) cluster then
        let! r := write_sectors (Z.to_nat (sectors_per_cluster (v_bpb (vol s)))) 0
                    (cluster_to_lba (vol s) cluster) off_in size buffer written in
        let '(ok, written) := r in
        if negb ok || negb (written <? size) then ret written
        else
          let! next := attempt (read_fat_entry cluster) in
          match next with
          | None => ret written
          | Some next =>
              if negb (cluster_is_data (vol s) next) || (FAT16_EOC <=? next) || (next =? FAT16_BAD_CLUSTER)
              then ret written else write_clusters fuel' next 0 size buffer written
          end
      else ret written)
  end.

(** The entry in [sector_buffer] gets a new first cluster and size. *)
Definition patch_entry (index first_cluster size : Z) (buf : list Z) : list Z :=
  let base := ENTRY_SIZE * index in
  let buf := write_u32 (base + 28) size (write_u16 (base + 26) first_cluster buf) in
  arr_set buf (base + 11) (Z.lor (arr_get buf (base + 11)) FAT16_ATTR_ARCHIVE).

Definition update_entry_unlocked (data : fat16_node_data) : M D unit :=
  if (dir_entry_lba data =? 0) || (ENTRIES_PER_SECTOR <=? dir_entry_index data) then fail
  else
    read_sector (dir_entry_lba data) ;;
    edit_buffer (patch_entry (dir_entry_index data) (nd_first_cluster data) (nd_size data)) ;;
    write_sector (dir_entry_lba data).

Definition update_entry_at_unlocked (loc : fat16_entry_location) (first_cluster size : Z) : M D (list Z) :=
  if ENTRIES_PER_SECTOR <=? loc_index loc then fail
  else
    read_sector (sector_lba loc) ;;
    edit_buffer (patch_entry (loc_index loc) first_cluster size) ;;
    write_sector (sector_lba loc) ;;
    let! buf := get_buffer in ret (entry_of buf (loc_index loc)).

(** The number of bytes written and the node data after the call. *)
Definition write_chain (data : fat16_node_data) (offset size : Z) (buffer : list Z) : M D (Z * fat16_node_data) :=
  let end_offset := u64 (offset + size) in
  if (size =? 0) || (0xFFFFFFFF <? offset) || (0xFFFFFFFF <? end_offset) then ret (0, data)
  else
    let! r := ensure_chain_capacity data (u32 end_offset) in
    let '(ok, data) := r in
    if negb ok then ret (0, data)
    else
      let! c := attempt (cluster_for_offset (nd_first_cluster data) (u32 offset)) in
      match c with
      | None => ret (0, data)
      | Some (cluster, off_in) =>
          let! written := write_clusters (Z.to_nat (size / FAT16_SECTOR_SIZE + 2)) cluster off_in size buffer 0 in
          if 0 <? written then
            let new_end := u32 (u64 (offset + written)) in
            let data := if nd_size data <? new_end then data <| nd_size := new_end |> else data in
            let! u := attempt (update_entry_unlocked data) in
            match u with Some _ => ret (written, data) | None => ret (0, data) end
          else ret (written, data)
      end.

(** [fat16_read] and [fat16_vfs_write] on the data of a node. *)
Definition fat16_read (data : fat16_node_data) (offset size : Z) : M D (list Z) :=
  let! r := attempt (read_chain (nd_first_cluster data) (nd_size data) offset size) in
  ret (match r with Some bytes => bytes | None => [] end).
Definition fat16_vfs_write (data : fat16_node_data) (offset size : Z) (buffer : list Z) : M D (Z * fat16_node_data) :=
  write_chain data offset size buffer.

(** * Resizing *)

Definition file_clusters_required (v : fat16_volume) (size : Z) : Z :=
  if (size =? 0) || (cluster_size_bytes v =? 0) then 0
  else if 0xFFFFFFFF <? size then 0xFFFFFFFF
  else u32 (u32 size + cluster_size_bytes v - 1) / cluster_size_bytes v.

(** The loop of [resize_chain_unlocked]; the result is the last cluster kept. *)
Fixpoint resize_loop (n : nat) (cluster : Z) : M D Z :=
  match n with
  | O => ret cluster
  | S n' => with_state (fun s =>
      let! next := read_fat_entry cluster in
      if FAT16_EOC <=? next then
        let! next := allocate_cluster_unlocked in
        let! r := attempt (write_fat_entry cluster next) in
        match r with
        | Some _ => resize_loop n' next
        | None => attempt (free_chain_from next) ;; fail
        end
      else if negb (cluster_is_data (vol s) next) || (next =? FAT16_BAD_CLUSTER) || (next =? FAT16_FREE_CLUSTER)
      then fail
      else resize_loop n' next)
  end.

(** Cut the chain after [cluster]. *)
Definition cut_chain (cluster : Z) : M D unit := with_state (fun s =>
  let! next := read_fat_entry cluster in
  if cluster_is_data (vol s) next then write_fat_entry cluster FAT16_EOF ;; free_chain_from next
  else if negb (next =? FAT16_EOF) && negb (next =? FAT16_EOC) then write_fat_entry cluster FAT16_EOF
  else ret tt).

(** [*first_cluster] after the call comes with the result: a cluster allocated
    for an empty chain stays in it when a later step fails. *)
Definition resize_chain_unlocked (first_cluster required : Z) : M D (bool * Z) := with_state (fun s =>
  if required =? 0 then
    let! r := attempt (if cluster_is_data (vol s) first_cluster then free_chain_from first_cluster else ret tt) in
    match r with Some _ => ret (true, 0) | None => ret (false, first_cluster) end
  else
    let! first := attempt (if cluster_is_data (vol s) first_cluster then ret first_cluster
                           else allocate_cluster_unlocked) in
    match first with
    | None => ret (false, first_cluster)
    | Some first =>
        let! r := attempt (let! last := resize_loop (Z.to_nat (required - 1)) first in cut_chain last) in
        ret (match r with Some _ => true | None => false end, first)
    end).

(** [fat16_vfs_truncate] on the data of a file node: the return value and the data;
    the size of the node becomes [length] as soon as the chain is resized. *)
Definition fat16_vfs_truncate (data : fat16_node_data) (length : Z) : M D (Z * fat16_node_data) := with_state (fun s =>
  if negb (mounted (vol s)) || (0xFFFFFFFF <? length) then ret (-1, data)
  else
    let required := file_clusters_required (vol s) length in
    if required =? 0xFFFFFFFF then ret (-1, data)
    else
      let! r := resize_chain_unlocked (nd_first_cluster data) required in
      let '(ok, first) := r in
      let data := data <| nd_first_cluster := first |> in
      if negb ok then ret (-1, data)
      else
        let data := data <| nd_size := u32 length |> in
        let! u := attempt (update_entry_unlocked data) in
        ret (match u with Some _ => 0 | None => -1 end, data)).

(** * The root directory by name *)

(** The entries of the sector in [sector_buffer]; [Some (Some i)] is a hit at [i],
    [None] the end mark. *)
Fixpoint scan_sector (n : nat) (i : Z) (filename buf : list Z) : option (option Z) :=
  match n with
  | O => Some None
  | S n' =>
      let e := entry_of buf i in
      if ent_name0 e =? 0 then None
      else if negb (entry_is_usable_file e) then scan_sector n' (i + 1) filename buf
      else if entry_matches_name e filename then Some (Some i)
      else scan_sector n' (i + 1) filename buf
  end.
Fixpoint lookup_loop (n : nat) (sector : Z) (filename : list Z) : M D (list Z * fat16_entry_location) :=
  match n with
  | O => fail
  | S n' => with_state (fun s =>
      let lba := u32 (u32 (partition_lba (vol s) + root_lba (vol s)) + sector) in
      read_sector lba ;;
      let! buf := get_buffer in
      match scan_sector (Z.to_nat ENTRIES_PER_SECTOR) 0 filename buf with
      | None => fail
      | Some (Some i) => ret (entry_of buf i, mk_location lba i)
      | Some None => lookup_loop n' (sector + 1) filename
      end)
  end.
Definition lookup_root_entry (filename : list Z) : M D (list Z * fat16_entry_location) := with_state (fun s =>
  lookup_loop (Z.to_nat (v_root_dir_sectors (vol s))) 0 filename).

Fixpoint free_slot (n : nat) (i : Z) (buf : list Z) : option Z :=
  match n with
  | O => None
  | S n' =>
      let first := ent_name0 (entry_of buf i) in
      if (first =? 0) || (first =? FAT16_DELETED_ENTRY) then Some i else free_slot n' (i + 1) buf
  end.
Fixpoint root_slot_loop (n : nat) (sector : Z) : M D fat16_entry_location :=
  match n with
  | O => fail
  | S n' => with_state (fun s =>
      let lba := u32 (u32 (partition_lba (vol s) + root_lba (vol s)) + sector) in
      read_sector lba ;;
      let! buf := get_buffer in
      match free_slot (Z.to_nat ENTRIES_PER_SECTOR) 0 buf with
      | Some i => ret (mk_location lba i)
      | None => root_slot_loop n' (sector + 1)
      end)
  end.
Definition find_free_root_slot : M D fat16_entry_location := with_state (fun s =>
  root_slot_loop (Z.to_nat (v_root_dir_sectors (vol s))) 0).

(** The entry is built in [sector_buffer], which holds the sector of the slot. *)
Definition create_entry_unlocked (filename : list Z) (starting_cluster filesize : Z) :
  M D (fat16_entry_location * list Z) :=
  let! found := attempt (lookup_root_entry filename) in
  match found with
  | Some _ => fail
  | None =>
      let! loc := find_free_root_slot in
      match fill_entry filename starting_cluster filesize with
      | None => fail
      | Some e =>
          edit_buffer (put_bytes (ENTRY_SIZE * loc_index loc) e) ;;
          write_sector (sector_lba loc) ;;
          ret (loc, e)
      end
  end.

Definition fat16_read_file (filename : list Z) : M D (list Z) := with_state (fun s =>
  check (mounted (vol s)) ;;
  let! found := lookup_root_entry filename in
  let e := found.1 in
  let! r := attempt (read_chain (ent_cluster e) (ent_size e) 0 (ent_size e)) in
  let bytes := match r with Some bytes => bytes | None => [] end in
  if len bytes =? ent_size e then ret bytes else fail).

Fixpoint content_sectors (n : nat) (sector lba size : Z) (buffer : list Z) (written : Z) : M D Z :=
  match n with
  | O => ret written
  | S n' =>
      if negb (written <? size) then ret written
      else
        let chunk := Z.min (size - written) FAT16_SECTOR_SIZE in
        (if chunk =? FAT16_SECTOR_SIZE then write_raw (u32 (lba + sector)) (slice_at written FAT16_SECTOR_SIZE buffer)
         else edit_buffer (fun _ => put_bytes 0 (slice_at written chunk buffer) (replicate 512 0)) ;;
              let! buf := get_buffer in write_raw (u32 (lba + sector)) buf) ;;
        content_sectors n' (sector + 1) lba size buffer (written + chunk)
  end.
Fixpoint content_loop (guard : nat) (cluster size : Z) (buffer : list Z) (written : Z) : M D unit :=
  match guard with
  | O => check (written =? size)
  | S guard' => with_state (fun s =>
      if (written <? size) && cluster_is_data (vol s) cluster then
        let! written := content_sectors (Z.to_nat (sectors_per_cluster (v_bpb (vol s)))) 0
                          (cluster_to_lba (vol s) cluster) size buffer written in
        if written <? size then
          let! next := read_fat_entry cluster in
          if negb (cluster_is_data (vol s) next) || (FAT16_EOC <=? next) || (next =? FAT16_BAD_CLUSTER) then fail
          else content_loop guard' next size buffer written
        else check (written =? size)
      else check (written =? size))
  end.
Definition write_file_content_unlocked (first_cluster : Z) (buffer : list Z) (size : Z) : M D unit :=
  with_state (fun s =>
    if size =? 0 then ret tt
    else check (cluster_is_data (vol s) first_cluster) ;;
         content_loop (Z.to_nat (max_data_cluster (vol s))) first_cluster size buffer 0).

(** [None] is the return value -1. *)
Definition fat16_write_file (filename buffer : list Z) (size : Z) : M D Z := with_state (fun s =>
  check (mounted (vol s) && (size <=? 0xFFFFFFFF)) ;;
  let! found := attempt (lookup_root_entry filename) in
  let! target :=
    match found with
    | Some r => ret r
    | None =>
        let! first := (if size =? 0 then ret 0 else allocate_cluster_unlocked) in
        let! r := attempt (create_entry_unlocked filename first 0) in
        match r with
        | Some (loc, e) => ret (e, loc)
        | None => (if cluster_is_data (vol s) first then attempt (free_chain_from first) ;; fail else fail)
        end
    end in
  let '(e, loc) := target in
  let required := file_clusters_required (vol s) size in
  check (negb (required =? 0xFFFFFFFF)) ;;
  let! r := resize_chain_unlocked (ent_cluster e) required in
  let '(ok, first) := r in
  check ok ;;
  write_file_content_unlocked first buffer size ;;
  update_entry_at_unlocked loc first (u32 size) ;;
  ret (s32 size)).

(** * Directories *)

(** A directory argument: [vfs_root()], or a node with its type and data. *)
Inductive fat16_dir :=
  | DirRoot
  | DirNode (is_directory : bool) (data : option fat16_node_data).

(** -1, 0, or 1 with the entry and its location. *)
Inductive dir_result :=
  | DirError
  | DirEnd
  | DirEntry (e : list Z) (loc : fat16_entry_location).

(** The cluster [n] links after [cluster]: [None] ends the directory, as the walk
    meets something else than a data cluster. *)
Fixpoint dir_skip (n : nat) (cluster : Z) : M D (option Z) :=
  match n with
  | O => ret (Some cluster)
  | S n' => with_state (fun s =>
      let! next := read_fat_entry cluster in
      if negb (cluster_is_data (vol s) next) || (FAT16_EOC <=? next) || (next =? FAT16_BAD_CLUSTER)
      then ret None else dir_skip n' next)
  end.

Definition dir_entry_at (lba index : Z) : M D dir_result :=
  let! r := attempt (read_sector lba) in
  match r with
  | None => ret DirError
  | Some _ => let! buf := get_buffer in ret (DirEntry (entry_of buf index) (mk_location lba index))
  end.

Definition fat16_dir_entry_unlocked (dir : fat16_dir) (index : Z) : M D dir_result := with_state (fun s =>
  let v := vol s in
  match dir with
  | DirRoot =>
      if root_entry_count (v_bpb v) <=? index then ret DirEnd
      else dir_entry_at (u32 (partition_lba v + root_lba v + index / ENTRIES_PER_SECTOR)) (index mod ENTRIES_PER_SECTOR)
  | DirNode is_directory None => ret DirError
  | DirNode is_directory (Some data) =>
      if negb is_directory || negb (cluster_is_data v (nd_first_cluster data)) then ret DirError
      else
        let per_cluster := ENTRIES_PER_SECTOR * sectors_per_cluster (v_bpb v) in
        if (per_cluster =? 0) || (u32 (max_data_cluster v * per_cluster) <=? index) then ret DirEnd
        else
          let in_cluster := index mod per_cluster in
          let! c := attempt (dir_skip (Z.to_nat (index / per_cluster)) (nd_first_cluster data)) in
          match c with
          | None => ret DirError
          | Some None => ret DirEnd
          | Some (Some cluster) =>
              dir_entry_at (u32 (cluster_to_lba v cluster + in_cluster / ENTRIES_PER_SECTOR))
                (in_cluster mod ENTRIES_PER_SECTOR)
          end
  end).

(** The walks end: an index past the limit of the directory gives [DirEnd]. *)
Definition dir_limit (v : fat16_volume) (dir : fat16_dir) : nat :=
  match dir with
  | DirRoot => S (Z.to_nat (root_entry_count (v_bpb v)))
  | DirNode _ _ => S (Z.to_nat (u32 (max_data_cluster v * (ENTRIES_PER_SECTOR * sectors_per_cluster (v_bpb v)))))
  end.

Fixpoint dir_lookup_loop (fuel : nat) (dir : fat16_dir) (name : list Z) (index : Z) : M D (list Z * fat16_entry_location) :=
  match fuel with
  | O => fail
  | S fuel' =>
      let! r := fat16_dir_entry_unlocked dir index in
      match r with
      | DirEntry e loc =>
          if ent_name0 e =? 0 then fail
          else if fat16_entry_is_visible e && entry_matches_name e name then ret (e, loc)
          else dir_lookup_loop fuel' dir name (index + 1)
      | _ => fail
      end
  end.
Definition fat16_lookup_dir_entry_unlocked (dir : fat16_dir) (name : list Z) : M D (list Z * fat16_entry_location) :=
  with_state (fun s => dir_lookup_loop (dir_limit (vol s) dir) dir name 0).

Fixpoint dir_slot_loop (fuel : nat) (dir : fat16_dir) (index : Z) : M D fat16_entry_location :=
  match fuel with
  | O => fail
  | S fuel' =>
      let! r := fat16_dir_entry_unlocked dir index in
      match r with
      | DirEntry e loc =>
          if (ent_name0 e =? 0) || (ent_name0 e =? FAT16_DELETED_ENTRY) then ret loc
          else dir_slot_loop fuel' dir (index + 1)
      | _ => fail
      end
  end.
Definition fat16_find_free_dir_slot_unlocked (dir : fat16_dir) : M D fat16_entry_location :=
  with_state (fun s => dir_slot_loop (dir_limit (vol s) dir) dir 0).

Definition fat16_store_dir_entry_unlocked (loc : fat16_entry_location) (e : list Z) : M D unit :=
  if ENTRIES_PER_SECTOR <=? loc_index loc then fail
  else
    read_sector (sector_lba loc) ;;
    edit_buffer (put_bytes (ENTRY_SIZE * loc_index loc) e) ;;
    write_sector (sector_lba loc).

(** "." and ".." *)
Definition is_dot_name (name : list Z) : bool :=
  bool_decide (name = [46]) || bool_decide (name = [46; 46]).

Fixpoint dir_empty_loop (fuel : nat) (dir : fat16_dir) (index : Z) : M D bool :=
  match fuel with
  | O => ret true
  | S fuel' =>
      let! r := fat16_dir_entry_unlocked dir index in
      match r with
      | DirError => ret false
      | DirEnd => ret true
      | DirEntry e _ =>
          if ent_name0 e =? 0 then ret true
          else if fat16_entry_is_visible e && negb (is_dot_name (entry_to_vfs_name e)) then ret false
          else dir_empty_loop fuel' dir (index + 1)
      end
  end.
Definition fat16_directory_empty_unlocked (dir : fat16_dir) : M D bool :=
  with_state (fun s => dir_empty_loop (dir_limit (vol s) dir) dir 0).
End Driver.
