(* ===== verification/Fat16Fat.v ===== *)
(** The allocation table of [Fat16]: reading and writing entries, clearing,
    allocating and freeing clusters, on a disk that does not fail. *)

From S2P Require Import Prelude Fat16.

(** * The disk *)

Definition is_sector (l : list Z) : Prop := len l = 512 /\ Forall is_u8 l.

(** A disk whose transfers succeed: a read gives the sector last written. *)
Class SectorDevLaws (D : Type) `{SectorDev D} := {
  dev_ok : D -> Prop;
  sec : D -> Z -> list Z;
  sec_sector : forall d x, dev_ok d -> is_sector (sec d x);
  dev_read_law : forall lba d, dev_ok d -> exists d',
    dev_read lba d = (Some (sec d lba), d') /\ dev_ok d' /\ forall x, sec d' x = sec d x;
  dev_write_law : forall lba b d, dev_ok d -> is_sector b -> exists d',
    dev_write lba b d = (true, d') /\ dev_ok d' /\ forall x, sec d' x = if x =? lba then b else sec d x
}.

(** * Bytes *)

Lemma len_replicate {A} n (x : A) : len (replicate n x) = Z.of_nat n.
Proof. unfold len. by rewrite length_replicate. Qed.

Lemma len_put_bytes off b buf : 0 <= off -> off + len b <= len buf -> len (put_bytes off b buf) = len buf.
Proof. unfold put_bytes, len. intros. rewrite !length_app, length_take, length_drop. lia. Qed.

Lemma put_bytes_get off b buf i :
  0 <= off -> off + len b <= len buf -> 0 <= i < len buf ->
  arr_get (put_bytes off b buf) i = if (off <=? i) && (i <? off + len b) then arr_get b (i - off) else arr_get buf i.
Proof.
  unfold put_bytes, len, arr_get. intros. destruct (Z.leb_spec off i) as [H2|H2]; cbn [andb].
  - rewrite lookup_total_app_r by (rewrite length_take; lia). rewrite length_take.
    destruct (Z.ltb_spec i (off + Z.of_nat (length b))).
    + rewrite lookup_total_app_l by lia. f_equal. lia.
    + rewrite lookup_total_app_r by lia. rewrite lookup_total_drop. f_equal. lia.
  - rewrite lookup_total_app_l by (rewrite length_take; lia). rewrite lookup_total_take. by rewrite decide_True by lia.
Qed.

Lemma put_bytes_u8 off b buf : Forall is_u8 b -> Forall is_u8 buf -> Forall is_u8 (put_bytes off b buf).
Proof. intros. unfold put_bytes. rewrite !Forall_app. split_and!; [by apply Forall_take|done|by apply Forall_drop]. Qed.

Lemma put_bytes_sector off b buf :
  0 <= off -> off + len b <= 512 -> Forall is_u8 b -> is_sector buf -> is_sector (put_bytes off b buf).
Proof. intros H1 H2 Hb [L F]. split; [rewrite len_put_bytes by lia; done|by apply put_bytes_u8]. Qed.

Lemma land_255 v : Z.land v 255 = v mod 256.
Proof. change 255 with (Z.ones 8). by rewrite Z.land_ones. Qed.

Lemma le16_facts v : is_u16 v -> le16 v = [v mod 256; v / 256].
Proof.
  intros Hv. unfold le16. rewrite !land_255, Z.shiftr_div_pow2 by lia. change (2 ^ 8) with 256.
  do 2 f_equal. ulia.
Qed.
Lemma le32_facts v : is_u32 v -> le32 v = [v mod 256; v / 256 mod 256; v / 65536 mod 256; v / 16777216].
Proof.
  intros Hv. unfold le32. rewrite !land_255, !Z.shiftr_div_pow2 by lia.
  change (2 ^ 8) with 256. change (2 ^ 16) with 65536. change (2 ^ 24) with 16777216. do 4 f_equal. ulia.
Qed.
Lemma le16_u8 v : Forall is_u8 (le16 v).
Proof. unfold le16. rewrite !Forall_cons, !land_255. split_and!; [ulia|ulia|by apply Forall_nil]. Qed.
Lemma le32_u8 v : Forall is_u8 (le32 v).
Proof. unfold le32. rewrite !Forall_cons, !land_255. split_and!; [ulia..|by apply Forall_nil]. Qed.

Lemma read_write_u16 off v buf : 0 <= off -> off + 2 <= len buf -> is_u16 v -> read_u16 (write_u16 off v buf) off = v.
Proof.
  intros H1 H2 Hv. unfold read_u16, write_u16. rewrite le16_facts by done.
  rewrite !put_bytes_get by (unfold len in *; cbn; lia). change (len [v mod 256; v / 256]) with 2. bcases; cbn [andb].
  replace (off - off) with 0 by lia. replace (off + 1 - off) with 1 by lia.
  change (arr_get [v mod 256; v / 256] 0) with (v mod 256). change (arr_get [v mod 256; v / 256] 1) with (v / 256). ulia.
Qed.

Lemma read_write_u16_other off o v buf :
  0 <= off -> off + 2 <= len buf -> 0 <= o -> o + 2 <= len buf -> o + 2 <= off \/ off + 2 <= o ->
  read_u16 (write_u16 off v buf) o = read_u16 buf o.
Proof.
  intros. unfold read_u16, write_u16. assert (E : len (le16 v) = 2) by done.
  rewrite !put_bytes_get by lia. rewrite E. bcases; cbn [andb]; try done; lia.
Qed.

Lemma read_u16_range buf off : Forall is_u8 buf -> 0 <= off -> off + 2 <= len buf -> is_u16 (read_u16 buf off).
Proof.
  intros F H1 H2. unfold read_u16. pose proof (arr_get_Forall _ _ off F ltac:(lia)). pose proof (arr_get_Forall _ _ (off + 1) F ltac:(lia)).
  ulia.
Qed.

Lemma write_u16_sector off v buf : 0 <= off -> off + 2 <= 512 -> is_sector buf -> is_sector (write_u16 off v buf).
Proof. intros. apply put_bytes_sector; [done|done|apply le16_u8|done]. Qed.
Lemma write_u32_sector off v buf : 0 <= off -> off + 4 <= 512 -> is_sector buf -> is_sector (write_u32 off v buf).
Proof. intros. apply put_bytes_sector; [done|done|apply le32_u8|done]. Qed.
Lemma zero_sector : is_sector (replicate 512 0).
Proof. split; [by rewrite len_replicate|]. apply Forall_replicate. unfold is_u8. lia. Qed.

(** * The volume *)

(** The geometry the driver computes at mount time, of a volume that fits the
    32-bit sector numbers. *)
Record vol_ok (v : fat16_volume) : Prop := {
  vo_mounted : mounted v = true;
  vo_spc : 1 <= sectors_per_cluster (v_bpb v) <= 128;
  vo_fats : 1 <= fat_count (v_bpb v) <= 255;
  vo_spf : 1 <= sectors_per_fat (v_bpb v) <= 65535;
  vo_part : 0 <= partition_lba v;
  vo_fat : 1 <= fat_lba v;
  vo_root : root_lba v = fat_lba v + fat_count (v_bpb v) * sectors_per_fat (v_bpb v);
  vo_dirs : 0 <= v_root_dir_sectors v;
  vo_data : data_lba v = root_lba v + v_root_dir_sectors v;
  vo_end : partition_lba v + data_lba v < 4294967296 /\ partition_lba v + v_total_sectors v < 4294967296
}.

Definition data_cluster (v : fat16_volume) (c : Z) : Prop := 2 <= c <= max_data_cluster v.
(** The first sector of the cluster [c]. *)
Definition clba (v : fat16_volume) (c : Z) : Z := partition_lba v + data_lba v + (c - 2) * sectors_per_cluster (v_bpb v).
Definition in_fat (v : fat16_volume) (c : Z) : Prop := 0 <= c < sectors_per_fat (v_bpb v) * 256.
Definition fat_region (v : fat16_volume) (x : Z) : Prop :=
  partition_lba v + fat_lba v <= x < partition_lba v + root_lba v.
Definition in_cluster (v : fat16_volume) (c x : Z) : Prop := clba v c <= x < clba v c + sectors_per_cluster (v_bpb v).

Lemma max_data_cluster_facts v : vol_ok v ->
  max_data_cluster v = 1 \/
  (2 <= max_data_cluster v < sectors_per_fat (v_bpb v) * 256 /\ max_data_cluster v < FAT16_BAD_CLUSTER /\
   data_lba v + (max_data_cluster v - 1) * sectors_per_cluster (v_bpb v) <= v_total_sectors v).
Proof.
  intros V. pose proof (vo_spc _ V). pose proof (vo_spf _ V). pose proof (vo_end _ V) as [E1 E2]. pose proof (vo_part _ V).
  pose proof (vo_fat _ V). pose proof (vo_data _ V). pose proof (vo_dirs _ V). pose proof (vo_root _ V). pose proof (vo_fats _ V).
  unfold max_data_cluster. destruct (Z.leb_spec (v_total_sectors v) (data_lba v)); [by left|].
  set (n := (v_total_sectors v - data_lba v) / sectors_per_cluster (v_bpb v)).
  assert (Hn : 0 <= n /\ n * sectors_per_cluster (v_bpb v) <= v_total_sectors v - data_lba v).
  { unfold n. split; [apply Z.div_pos; lia|]. rewrite Z.mul_comm. apply Z.mul_div_le. lia. }
  assert (Hlt : 0 <= fat_count (v_bpb v) * sectors_per_fat (v_bpb v)) by nia.
  assert (Hn' : n < 4294967295) by nia.
  replace (sectors_per_fat (v_bpb v) * FAT16_SECTOR_SIZE / 2) with (sectors_per_fat (v_bpb v) * 256)
    by (unfold FAT16_SECTOR_SIZE; ulia).
  destruct (Z.eqb_spec n 0); [by left|]. destruct (Z.leb_spec (sectors_per_fat (v_bpb v) * 256) 2); [lia|]. cbn [orb]. right.
  replace (u32 (n + 1)) with (n + 1) by ulia. unfold FAT16_BAD_CLUSTER. clearbody n.
  set (m := if sectors_per_fat (v_bpb v) * 256 <=? n + 1 then _ else _). set (m' := if 0xFFF7 <=? m then _ else _).
  assert (Hm : 2 <= m' < sectors_per_fat (v_bpb v) * 256 /\ m' < 0xFFF7 /\ m' - 1 <= n).
  { unfold m', m. destruct (Z.leb_spec (sectors_per_fat (v_bpb v) * 256) (n + 1));
      match goal with |- context [0xFFF7 <=? ?e] => destruct (Z.leb_spec 0xFFF7 e) end; lia. }
  destruct Hm as (M1 & M2 & M3). split_and!; try lia.
  pose proof (Z.mul_le_mono_nonneg_r (m' - 1) n (sectors_per_cluster (v_bpb v)) ltac:(lia) M3). lia.
Qed.

Lemma cluster_is_data_iff v c : cluster_is_data v c = true <-> data_cluster v c.
Proof. unfold cluster_is_data, data_cluster. rewrite andb_true_iff, !Z.leb_le. done. Qed.

Section Geometry.
Context (v : fat16_volume) (V : vol_ok v).

Lemma data_lba_pos : 1 <= root_lba v <= data_lba v.
Proof.
  pose proof (vo_fat _ V). pose proof (vo_root _ V). pose proof (vo_dirs _ V). pose proof (vo_data _ V).
  pose proof (vo_fats _ V). pose proof (vo_spf _ V).
  pose proof (Z.mul_nonneg_nonneg (fat_count (v_bpb v)) (sectors_per_fat (v_bpb v)) ltac:(lia) ltac:(lia)). lia.
Qed.

Lemma data_facts c : data_cluster v c ->
  in_fat v c /\ 2 <= c < 65527 /\ partition_lba v + data_lba v <= clba v c /\
  clba v c + sectors_per_cluster (v_bpb v) <= partition_lba v + v_total_sectors v.
Proof.
  intros [H1 H2]. pose proof (vo_spc _ V). destruct (max_data_cluster_facts v V) as [E|(E1 & E2 & E3)]; [lia|].
  pose proof (Z.mul_le_mono_nonneg_r (c - 1) (max_data_cluster v - 1) (sectors_per_cluster (v_bpb v)) ltac:(lia) ltac:(lia)).
  pose proof (Z.mul_nonneg_nonneg (c - 2) (sectors_per_cluster (v_bpb v)) ltac:(lia) ltac:(lia)).
  unfold in_fat, clba, FAT16_BAD_CLUSTER in *. split_and!; lia.
Qed.

Lemma cluster_to_lba_eq c : data_cluster v c -> cluster_to_lba v c = clba v c.
Proof.
  intros Hc. destruct (data_facts c Hc) as (_ & H1 & H2 & H3). pose proof (vo_spc _ V). pose proof (vo_end _ V) as [_ E].
  pose proof (vo_part _ V). unfold cluster_to_lba, clba in *.
  replace (u32 (c - 2)) with (c - 2) by ulia. replace (u32 ((c - 2) * sectors_per_cluster (v_bpb v))) with ((c - 2) * sectors_per_cluster (v_bpb v)) by (apply eq_sym, u32_id; unfold is_u32; nia).
  pose proof data_lba_pos. apply u32_id. unfold is_u32. lia.
Qed.

Lemma fat_sector_eq k c : 0 <= k < fat_count (v_bpb v) -> in_fat v c ->
  fat_sector v k c = partition_lba v + fat_lba v + k * sectors_per_fat (v_bpb v) + c / 256 /\ fat_region v (fat_sector v k c).
Proof.
  intros Hk Hc. pose proof (vo_fats _ V). pose proof (vo_spf _ V). pose proof (vo_root _ V) as R. pose proof (vo_end _ V) as [E _].
  pose proof (vo_part _ V). pose proof (vo_fat _ V). pose proof (vo_data _ V). pose proof (vo_dirs _ V). unfold in_fat in Hc.
  assert (D : c * 2 / FAT16_SECTOR_SIZE = c / 256) by (unfold FAT16_SECTOR_SIZE; ulia).
  assert (D2 : 0 <= c / 256 < sectors_per_fat (v_bpb v)) by (split; [apply Z.div_pos; lia|apply Z.div_lt_upper_bound; lia]).
  assert (Hks : 0 <= k * sectors_per_fat (v_bpb v) /\ k * sectors_per_fat (v_bpb v) + sectors_per_fat (v_bpb v) <= fat_count (v_bpb v) * sectors_per_fat (v_bpb v)) by nia.
  assert (F : fat_sector v k c = partition_lba v + fat_lba v + k * sectors_per_fat (v_bpb v) + c / 256).
  { unfold fat_sector. rewrite D, (u32_id (k * _)) by (unfold is_u32; lia). apply u32_id. unfold is_u32. lia. }
  split; [done|]. rewrite F. unfold fat_region. lia.
Qed.

Lemma clusters_apart c c' x : c <> c' -> in_cluster v c x -> ~ in_cluster v c' x.
Proof. intros Hne. pose proof (vo_spc _ V). unfold in_cluster, clba. intros. nia. Qed.

Lemma cluster_not_fat c x : data_cluster v c -> in_cluster v c x -> ~ fat_region v x.
Proof.
  intros Hc Hx. destruct (data_facts c Hc) as (_ & _ & H & _). pose proof (vo_data _ V). pose proof (vo_dirs _ V).
  unfold in_cluster, fat_region in *. lia.
Qed.
End Geometry.

(** * Runs on a disk that does not fail *)

Section Runs.
Context {D : Type} `{SectorDevLaws D}.
Implicit Types s : fat16_state D.

Definition S_ s (x : Z) : list Z := sec (dev s) x.

Record st_ok s : Prop := {
  so_dev : dev_ok (dev s);
  so_vol : vol_ok (vol s);
  so_buf : is_sector (sector_buffer s)
}.

(** The same volume with the same sectors. *)
Definition keeps s s' : Prop := st_ok s' /\ vol s' = vol s /\ forall x, S_ s' x = S_ s x.

Lemma fkeeps_refl s : st_ok s -> keeps s s.
Proof. done. Qed.
Lemma fkeeps_trans s s1 s2 : keeps s s1 -> keeps s1 s2 -> keeps s s2.
Proof. intros (_ & V1 & E1) (O2 & V2 & E2). split_and!; [done|congruence|]. intros x. by rewrite E2. Qed.
Lemma keeps_ok s s' : keeps s s' -> st_ok s'.
Proof. by intros (? & _). Qed.

Lemma S_sector s x : st_ok s -> is_sector (S_ s x).
Proof. intros O. apply sec_sector, O. Qed.

Lemma read_sector_run s lba : st_ok s -> exists s',
  read_sector lba s = (Some tt, s') /\ keeps s s' /\ sector_buffer s' = S_ s lba.
Proof.
  intros O. destruct (dev_read_law lba (dev s) (so_dev _ O)) as (d' & E & Od & Es). unfold read_sector. rewrite E.
  eexists. split; [done|]. split; [|done]. split_and!; [|done|done]. split; [done|apply O|]. by apply S_sector.
Qed.

Lemma write_sector_run s lba : st_ok s -> exists s',
  write_sector lba s = (Some tt, s') /\ st_ok s' /\ vol s' = vol s /\ sector_buffer s' = sector_buffer s /\
  forall x, S_ s' x = if x =? lba then sector_buffer s else S_ s x.
Proof.
  intros O. destruct (dev_write_law lba (sector_buffer s) (dev s) (so_dev _ O) (so_buf _ O)) as (d' & E & Od & Es).
  unfold write_sector. rewrite E. eexists. split; [done|]. split; [split; [done|apply O..]|]. done.
Qed.

Lemma edit_run s (f : list Z -> list Z) : st_ok s -> is_sector (f (sector_buffer s)) ->
  exists s', edit_buffer f s = (Some tt, s') /\ keeps s s' /\ sector_buffer s' = f (sector_buffer s).
Proof. intros O Hf. eexists. split; [done|]. split; [|done]. split_and!; [|done|done]. split; [apply O|apply O|done]. Qed.

Lemma for_m_run (P : Z -> fat16_state D -> Prop) n i body s :
  P i s -> (forall j s, i <= j < i + Z.of_nat n -> P j s -> exists s', body j s = (Some tt, s') /\ P (j + 1) s') ->
  exists s', for_m n i body s = (Some tt, s') /\ P (i + Z.of_nat n) s'.
Proof.
  revert i s. induction n as [|n IH]; intros i s Hi Hb; cbn [for_m].
  - exists s. split; [done|]. by replace (i + Z.of_nat 0) with i by lia.
  - destruct (Hb i s ltac:(lia) Hi) as (s1 & E1 & H1). unfold bind. rewrite E1.
    destruct (IH (i + 1) s1 H1) as (s2 & E2 & H2); [intros j t Hj; apply Hb; lia|].
    exists s2. split; [done|]. by replace (i + Z.of_nat (S n)) with (i + 1 + Z.of_nat n) by lia.
Qed.

(** ** Table entries *)

Definition fatv s (c : Z) : Z := read_u16 (S_ s (fat_sector (vol s) 0 c)) (c * 2 mod 512).
(** The copies of the table agree. *)
Definition mirrored s : Prop := forall k c, 0 <= k < fat_count (v_bpb (vol s)) -> in_fat (vol s) c ->
  S_ s (fat_sector (vol s) k c) = S_ s (fat_sector (vol s) 0 c).

Lemma fatv_u16 s c : st_ok s -> is_u16 (fatv s c).
Proof. intros O. destruct (S_sector s (fat_sector (vol s) 0 c) O) as [L F]. apply read_u16_range; [done|ulia|ulia]. Qed.

Lemma keeps_fatv s s' c : keeps s s' -> fatv s' c = fatv s c.
Proof. intros (_ & V & E). unfold fatv. by rewrite V, E. Qed.

Lemma read_fat_run s c : st_ok s -> exists s', read_fat_entry c s = (Some (fatv s c), s') /\ keeps s s'.
Proof.
  intros O. unfold read_fat_entry, with_state. destruct (read_sector_run s (fat_sector (vol s) 0 c) O) as (s1 & E & K & B).
  unfold bind. rewrite E. cbn. rewrite B. by exists s1.
Qed.

(** [s'] is [s] with the table entries [f] and with changes to the sectors [W]. *)
Record upd s s' (f : Z -> Z) (W : Z -> Prop) : Prop := {
  up_ok : st_ok s';
  up_vol : vol s' = vol s;
  up_fat : forall c, in_fat (vol s) c -> fatv s' c = f c;
  up_sec : forall x, ~ fat_region (vol s) x -> ~ W x -> S_ s' x = S_ s x;
  up_mirror : mirrored s -> mirrored s'
}.

Lemma fat_sector_region s k c : st_ok s -> 0 <= k < fat_count (v_bpb (vol s)) -> in_fat (vol s) c ->
  fat_region (vol s) (fat_sector (vol s) k c).
Proof. intros O Hk Hc. by apply (fat_sector_eq _ (so_vol _ O)). Qed.

(** A change outside the table. *)
Lemma upd_outside s s' (W : Z -> Prop) : st_ok s -> st_ok s' -> vol s' = vol s -> (forall x, W x -> ~ fat_region (vol s) x) ->
  (forall x, ~ W x -> S_ s' x = S_ s x) -> upd s s' (fatv s) W.
Proof.
  intros O O' V HW E. pose proof (vo_fats _ (so_vol _ O)).
  assert (F : forall k c, 0 <= k < fat_count (v_bpb (vol s)) -> in_fat (vol s) c ->
    S_ s' (fat_sector (vol s) k c) = S_ s (fat_sector (vol s) k c)).
  { intros k c Hk Hc. apply E. intros Hx. by apply HW in Hx as []; apply fat_sector_region. }
  split; [done|done|..].
  - intros c Hc. unfold fatv. by rewrite V, F by (done || lia).
  - intros x _ Hx. by apply E.
  - intros M k c. rewrite V. intros Hk Hc. rewrite !F by (done || lia). by apply M.
Qed.

Lemma upd_keeps s s1 s2 f W : keeps s s1 -> upd s1 s2 f W -> upd s s2 f W.
Proof.
  intros (O & V & E) [U1 U2 U3 U4 U5]. rewrite V in *. split; [done|congruence|done|..].
  - intros x H1 H2. by rewrite U4, E.
  - intros M. apply U5. intros k c. rewrite V, !E. apply M.
Qed.
Lemma keeps_upd s s' : st_ok s -> keeps s s' -> upd s s' (fatv s) (fun _ => False).
Proof. intros O (O' & V & E). by apply upd_outside. Qed.

Lemma upd_trans s s1 s2 f f' W W' W2 : upd s s1 f W -> upd s1 s2 f' W' -> (forall x, W x \/ W' x -> W2 x) -> upd s s2 f' W2.
Proof.
  intros [O1 V1 F1 E1 M1] [O2 V2 F2 E2 M2] HW. rewrite V1 in *. split; [done|congruence|done|..].
  - intros x H1 H2. rewrite E2, E1; [done|done|..]; naive_solver.
  - naive_solver.
Qed.
Lemma upd_ext s s' f g W : (forall c, in_fat (vol s) c -> f c = g c) -> upd s s' f W -> upd s s' g W.
Proof. intros E [U1 U2 U3 U4 U5]. split; [done|done| |done|done]. intros c Hc. by rewrite U3, E. Qed.

Lemma sector_offset c c' : 0 <= c -> 0 <= c' -> c / 256 = c' / 256 -> c <> c' ->
  c * 2 mod 512 + 2 <= c' * 2 mod 512 \/ c' * 2 mod 512 + 2 <= c * 2 mod 512.
Proof. intros. ulia. Qed.

(** One pass of read, patch and write back over distinct sectors. *)
Lemma patch_copies (FS : Z -> Z) (g : list Z -> list Z) n s : st_ok s ->
  (forall l, is_sector l -> is_sector (g l)) -> (forall j k, 0 <= j < k -> k < Z.of_nat n -> FS j <> FS k) ->
  exists s', for_m n 0 (fun k => read_sector (FS k) ;; edit_buffer g ;; write_sector (FS k)) s = (Some tt, s') /\
    st_ok s' /\ vol s' = vol s /\ (forall j, 0 <= j < Z.of_nat n -> S_ s' (FS j) = g (S_ s (FS j))) /\
    (forall x, (forall j, 0 <= j < Z.of_nat n -> x <> FS j) -> S_ s' x = S_ s x).
Proof.
  intros O Hg Hd. destruct (for_m_run (fun k t => st_ok t /\ vol t = vol s /\
      (forall j, 0 <= j < k -> S_ t (FS j) = g (S_ s (FS j))) /\
      (forall x, (forall j, 0 <= j < k -> x <> FS j) -> S_ t x = S_ s x))
    n 0 (fun k => read_sector (FS k) ;; edit_buffer g ;; write_sector (FS k)) s) as (s' & E & X).
  - split_and!; [done|done|intros; lia|done].
  - intros k t Hk (Ot & Vt & Xt & Yt). destruct (read_sector_run t (FS k) Ot) as (t1 & E1 & (O1 & V1 & S1) & B1).
    destruct (edit_run t1 g O1) as (t2 & E2 & (O2 & V2 & S2) & B2); [apply Hg, O1|].
    destruct (write_sector_run t2 (FS k) O2) as (t3 & E3 & O3 & V3 & B3 & S3).
    exists t3. unfold bind. rewrite E1, E2, E3. split_and!; [done|done|congruence|..].
    + intros j Hj. rewrite S3. destruct (Z.eqb_spec (FS j) (FS k)) as [Ej|Hne].
      * destruct (decide (j = k)) as [->|Hjk]; [|by destruct (Hd j k ltac:(lia) ltac:(lia))].
        rewrite B2, B1, Yt; [done|]. intros i Hi Hik. by apply (Hd i k ltac:(lia) ltac:(lia)).
      * rewrite S2, S1. apply Xt. destruct (decide (j = k)) as [->|]; [done|lia].
    + intros x Hx. rewrite S3. destruct (Z.eqb_spec x (FS k)) as [->|Hne]; [by destruct (Hx k ltac:(lia))|].
      rewrite S2, S1. apply Yt. intros j Hj. apply Hx. lia.
  - exists s'. by replace (0 + Z.of_nat n) with (Z.of_nat n) in X by lia.
Qed.

Lemma fat_index v c : in_fat v c -> 0 <= c / 256 < sectors_per_fat (v_bpb v).
Proof. unfold in_fat. intros. split; [apply Z.div_pos; lia|apply Z.div_lt_upper_bound; lia]. Qed.

Lemma fat_sector_inj v k k' c c' : vol_ok v -> 0 <= k < fat_count (v_bpb v) -> 0 <= k' < fat_count (v_bpb v) ->
  in_fat v c -> in_fat v c' -> fat_sector v k c = fat_sector v k' c' <-> k = k' /\ c / 256 = c' / 256.
Proof.
  intros V Hk Hk' Hc Hc'. destruct (fat_sector_eq _ V k c Hk Hc) as [-> _], (fat_sector_eq _ V k' c' Hk' Hc') as [-> _].
  pose proof (fat_index _ _ Hc). pose proof (fat_index _ _ Hc'). split; [|by intros [-> ->]]. intros E.
  assert (k = k') by nia. subst. split; [done|lia].
Qed.

Lemma write_fat_run s c v : st_ok s -> in_fat (vol s) c -> is_u16 v -> exists s',
  write_fat_entry c v s = (Some tt, s') /\ upd s s' (fun c' => if c' =? c then v else fatv s c') (fun _ => False).
Proof.
  intros O Hc Hv. pose proof (so_vol _ O) as V. pose proof (vo_fats _ V) as HF. unfold write_fat_entry, with_state.
  set (off := c * 2 mod FAT16_SECTOR_SIZE). assert (Hoff : 0 <= off /\ off + 2 <= 512) by (unfold off, FAT16_SECTOR_SIZE; ulia).
  destruct (patch_copies (fun k => fat_sector (vol s) k c) (write_u16 off v) (Z.to_nat (fat_count (v_bpb (vol s)))) s O)
    as (s' & E & O' & V' & X & Y).
  { intros l Hl. apply write_u16_sector; [lia|lia|done]. }
  { intros j k Hj Hk Ejk. apply fat_sector_inj in Ejk; [lia|done|lia|lia|done|done]. }
  exists s'. split; [exact E|]. rewrite Z2Nat.id in X, Y by lia.
  assert (Hcopy : forall k c', 0 <= k < fat_count (v_bpb (vol s)) -> in_fat (vol s) c' -> S_ s' (fat_sector (vol s) k c') =
    if c' / 256 =? c / 256 then write_u16 off v (S_ s (fat_sector (vol s) k c')) else S_ s (fat_sector (vol s) k c')).
  { intros k c' Hk Hc'. destruct (Z.eqb_spec (c' / 256) (c / 256)) as [Ec|Hne].
    - assert (Es : fat_sector (vol s) k c' = fat_sector (vol s) k c) by (by apply fat_sector_inj). rewrite Es. by apply X.
    - apply Y. intros j Hj Ej. by apply fat_sector_inj in Ej as [_ Ej]. }
  split; [done|done|..].
  - intros c' Hc'. unfold fatv. rewrite V', Hcopy by (done || lia). destruct (S_sector s (fat_sector (vol s) 0 c') O) as [L _].
    destruct (Z.eqb_spec c' c) as [->|Hne].
    + rewrite Z.eqb_refl. change (c * 2 mod 512) with off. apply read_write_u16; [lia|rewrite L; lia|done].
    + destruct (Z.eqb_spec (c' / 256) (c / 256)) as [Ec|]; [|done].
      destruct (sector_offset c c') as [Ho|Ho]; [unfold in_fat in *; lia|unfold in_fat in *; lia|done|done|..];
        apply read_write_u16_other; unfold off, FAT16_SECTOR_SIZE; try lia; ulia.
  - intros x Hx _. apply Y. intros j Hj ->. by apply Hx, (fat_sector_eq _ V).
  - intros Mi k c' Hk Hc'. rewrite V' in *. rewrite !Hcopy by (done || lia). by rewrite Mi.
Qed.

(** ** Clusters *)

Lemma clear_run s c : st_ok s -> data_cluster (vol s) c -> exists s', clear_cluster c s = (Some tt, s') /\
  upd s s' (fatv s) (in_cluster (vol s) c) /\ forall x, in_cluster (vol s) c x -> S_ s' x = replicate 512 0.
Proof.
  intros O Hc. pose proof (so_vol _ O) as V. destruct (data_facts _ V c Hc) as (_ & _ & H1 & H2).
  pose proof (vo_spc _ V). pose proof (vo_end _ V) as [_ He]. pose proof (vo_part _ V). pose proof (data_lba_pos _ V).
  unfold clear_cluster, with_state, bind, check. rewrite (proj2 (cluster_is_data_iff _ _) Hc). cbn [ret].
  destruct (edit_run s (fun _ => replicate 512 0) O zero_sector) as (s0 & E0 & (O0 & V0 & S0) & B0). rewrite E0.
  rewrite (cluster_to_lba_eq _ V c Hc).
  destruct (for_m_run (fun i t => st_ok t /\ vol t = vol s /\ sector_buffer t = replicate 512 0 /\
      forall x, S_ t x = if (clba (vol s) c <=? x) && (x <? clba (vol s) c + i) then replicate 512 0 else S_ s x)
    (Z.to_nat (sectors_per_cluster (v_bpb (vol s)))) 0 (fun i => write_sector (u32 (clba (vol s) c + i))) s0)
    as (s' & E & O' & V' & _ & X).
  - split_and!; [done|done|done|]. intros x. rewrite S0. bcases; done.
  - intros i t Hi (Ot & Vt & Bt & Xt). destruct (write_sector_run t (u32 (clba (vol s) c + i)) Ot) as (t' & E & O' & V' & B' & X').
    exists t'. split_and!; [done|done|congruence|congruence|]. intros x. rewrite X', Bt, Xt.
    rewrite u32_id by (unfold is_u32; lia). bcases; try done; exfalso; lia.
  - exists s'. split; [exact E|]. rewrite Z2Nat.id in X by lia. split.
    + apply upd_outside; [done|done|done|intros x Hx; by apply (cluster_not_fat _ V c)|].
      intros x Hx. rewrite X. unfold in_cluster in Hx. bcases; try done; exfalso; lia.
    + intros x Hx. rewrite X. unfold in_cluster in Hx. bcases; try done; exfalso; lia.
Qed.

(** A free cluster becomes a chain of one, filled with zeros. *)
Definition takes s s' (c : Z) : Prop :=
  data_cluster (vol s) c /\ fatv s c = 0 /\
  upd s s' (fun c' => if c' =? c then FAT16_EOF else fatv s c') (in_cluster (vol s) c) /\
  forall x, in_cluster (vol s) c x -> S_ s' x = replicate 512 0.

Lemma allocate_loop_run n c s : st_ok s -> 2 <= c -> c + Z.of_nat n = max_data_cluster (vol s) + 1 ->
  exists r s', allocate_loop n c s = (r, s') /\
    match r with
    | Some a => takes s s' a /\ c <= a /\ forall b, c <= b < a -> fatv s b <> 0
    | None => keeps s s' /\ forall b, c <= b <= max_data_cluster (vol s) -> fatv s b <> 0
    end.
Proof.
  revert c s. induction n as [|n IH]; intros c s O Hc Hn; cbn [allocate_loop].
  - exists None, s. split_and!; [done|by apply fkeeps_refl|intros; lia].
  - pose proof (so_vol _ O) as V. assert (Hd : data_cluster (vol s) c) by (unfold data_cluster; lia).
    destruct (data_facts _ V c Hd) as (Hf & Hr & _). rewrite (u16_id c) by (unfold is_u16; lia).
    destruct (read_fat_run s c O) as (s1 & E1 & K1). unfold bind at 1. rewrite E1.
    pose proof K1 as (O1 & V1 & X1). destruct (Z.eqb_spec (fatv s c) FAT16_FREE_CLUSTER) as [Ez|Hnz]; cbn [negb].
    + destruct (write_fat_run s1 c FAT16_EOF O1) as (s2 & E2 & U2); [by rewrite V1|by unfold is_u16, FAT16_EOF|].
      pose proof (up_vol _ _ _ _ U2) as V2. rewrite V1 in V2.
      destruct (clear_run s2 c (up_ok _ _ _ _ U2)) as (s3 & E3 & U3 & Z3); [by rewrite V2|]. rewrite V2 in *.
      exists (Some c), s3. unfold bind, attempt. rewrite E2, E3. split; [done|]. split_and!; [|lia|intros; lia].
      split_and!; [done|done| |done]. apply (upd_keeps _ s1); [done|].
      eapply upd_ext; [|eapply upd_trans; [exact U2|exact U3|intros x [[]|Hx]; exact Hx]].
      intros b Hb. rewrite (up_fat _ _ _ _ U2) by done. by rewrite (keeps_fatv s s1).
    + destruct (IH (c + 1) s1 O1 ltac:(lia) ltac:(rewrite V1; lia)) as (r & s' & E & P). exists r, s'. split; [done|].
      rewrite V1 in P. destruct r as [a|].
      * destruct P as ((T1 & T2 & T3 & T4) & Ha & Hb). rewrite V1 in *. split_and!; [|lia|].
        -- split_and!; [done|by rewrite <- (keeps_fatv s s1)| |done]. apply (upd_keeps _ s1); [done|].
           eapply upd_ext; [|exact T3]. intros b _. cbn. by rewrite (keeps_fatv s s1).
        -- intros b Hbb. destruct (decide (b = c)) as [->|]; [done|]. rewrite <- (keeps_fatv s s1) by done. apply Hb. lia.
      * destruct P as (K & Hb). split; [by eapply fkeeps_trans|]. intros b Hbb.
        destruct (decide (b = c)) as [->|]; [done|]. rewrite <- (keeps_fatv s s1) by done. apply Hb. lia.
Qed.

Lemma allocate_run s : st_ok s -> exists r s', allocate_cluster_unlocked s = (r, s') /\
  match r with
  | Some a => takes s s' a /\ forall b, 2 <= b < a -> fatv s b <> 0
  | None => keeps s s' /\ forall b, data_cluster (vol s) b -> fatv s b <> 0
  end.
Proof.
  intros O. unfold allocate_cluster_unlocked, with_state, bind, check. rewrite (vo_mounted _ (so_vol _ O)). cbn [ret].
  destruct (max_data_cluster_facts _ (so_vol _ O)) as [E|(E & _)];
    (destruct (allocate_loop_run (Z.to_nat (max_data_cluster (vol s) - 1)) 2 s O) as (r & s' & Er & P); [lia|lia|]);
    exists r, s'; (split; [exact Er|]); destruct r as [a|]; naive_solver.
Qed.
End Runs.
