(* ===== verification/Fat16Chain.v ===== *)
(** Cluster chains of src/src/drivers/fat16.c.

    A chain is the list of clusters that the table links from a first cluster to an
    end mark.  The file proves what the loops that walk, extend, cut and free a
    chain do to it and that the rest of the table and of the disk is left alone. *)

From S2P Require Import Prelude Fat16 Fat16Fat.

Section Chains.
Context {D : Type} `{SectorDevLaws D}.
Implicit Types s : fat16_state D.

Fixpoint chain s (l : list Z) : Prop :=
  match l with
  | [] => False
  | c :: t => data_cluster (vol s) c /\
      match t with [] => FAT16_EOC <= fatv s c | c' :: _ => fatv s c = c' /\ chain s t end
  end.

Lemma chain_nil s : ~ chain s [].
Proof. tauto. Qed.
Lemma chain_one s c : chain s [c] <-> data_cluster (vol s) c /\ FAT16_EOC <= fatv s c.
Proof. done. Qed.
Lemma chain_two s c c' t : chain s (c :: c' :: t) <-> data_cluster (vol s) c /\ fatv s c = c' /\ chain s (c' :: t).
Proof. done. Qed.
#[global] Opaque chain.

(** Induction on a chain. *)
Lemma chain_ind s (P : list Z -> Prop) :
  (forall c, data_cluster (vol s) c -> FAT16_EOC <= fatv s c -> P [c]) ->
  (forall c c' t, data_cluster (vol s) c -> fatv s c = c' -> chain s (c' :: t) -> P (c' :: t) -> P (c :: c' :: t)) ->
  forall l, chain s l -> P l.
Proof.
  intros H1 H2 l. induction l as [|c [|c' t] IH]; [done|intros [? ?]%chain_one; by apply H1|].
  intros (? & ? & ?)%chain_two. by apply H2; [..|apply IH].
Qed.

Lemma chain_data s l : chain s l -> Forall (data_cluster (vol s)) l.
Proof. revert l. apply chain_ind; intros; apply Forall_cons; (split; [done|]); [by apply Forall_nil|done]. Qed.
Lemma chain_head s c l : chain s (c :: l) -> data_cluster (vol s) c.
Proof. intros Hc%chain_data. by apply Forall_inv in Hc. Qed.

Lemma data_not_eoc s c : st_ok s -> data_cluster (vol s) c -> c < FAT16_BAD_CLUSTER /\ 2 <= c.
Proof. intros O Hc. destruct (data_facts _ (so_vol _ O) c Hc) as (_ & ? & _). unfold FAT16_BAD_CLUSTER. lia. Qed.

(** A chain is determined by its first cluster. *)
Lemma chain_unique s c l l' : st_ok s -> chain s (c :: l) -> chain s (c :: l') -> l = l'.
Proof.
  intros O. assert (X : forall a c t, chain s [c] -> chain s (c :: a :: t) -> False).
  { intros a b t [_ He]%chain_one (_ & E & Ha%chain_head)%chain_two. apply (data_not_eoc _ _ O) in Ha.
    unfold FAT16_EOC, FAT16_BAD_CLUSTER in *. lia. }
  revert c l'. induction l as [|a l IH]; intros c [|a' l'] Hl Hl'; [done|by destruct (X a' c l')|by destruct (X a c l)|].
  apply chain_two in Hl as (_ & E & Hl), Hl' as (_ & E' & Hl'). rewrite E in E'. subst a'. f_equal. by apply (IH a).
Qed.

Lemma chain_tail s c l : l <> [] -> chain s (c :: l) -> chain s l.
Proof. destruct l; [done|]. by intros _ (_ & _ & ?)%chain_two. Qed.
Lemma chain_suffix s l l' : l' <> [] -> chain s (l ++ l') -> chain s l'.
Proof.
  intros Hne. induction l as [|c l IH]; cbn; [done|]. intros Hc. apply IH, (chain_tail s c); [|done].
  by intros [_ ->]%app_eq_nil.
Qed.

Lemma chain_NoDup s l : st_ok s -> chain s l -> NoDup l.
Proof.
  intros O. induction l as [|c l IH]; [constructor|]. intros Hc. constructor.
  - intros (l1 & l2 & ->)%list_elem_of_split. pose proof (chain_suffix s (c :: l1) (c :: l2) ltac:(done) Hc) as Hc2.
    assert (E := chain_unique _ _ _ _ O Hc Hc2). apply (f_equal length) in E. rewrite length_app in E. cbn in E. lia.
  - destruct l as [|c' l]; [constructor|]. apply IH. by apply (chain_tail s c).
Qed.

Lemma chain_used s l c : st_ok s -> chain s l -> c ∈ l -> fatv s c <> 0.
Proof.
  intros O. revert l. apply (chain_ind s (fun l => c ∈ l -> fatv s c <> 0)).
  - intros a _ He ->%list_elem_of_singleton. unfold FAT16_EOC in He. lia.
  - intros a a' t _ E Hc IH [->|Hin]%elem_of_cons; [|by apply IH]. apply chain_head, (data_not_eoc _ _ O) in Hc. lia.
Qed.

(** A chain only depends on the entries of its clusters. *)
Lemma fchain_frame s s' l : vol s' = vol s -> (forall c, c ∈ l -> fatv s' c = fatv s c) -> chain s l -> chain s' l.
Proof.
  intros V E Hl. revert l Hl E. apply (chain_ind s (fun l => (forall c, c ∈ l -> fatv s' c = fatv s c) -> chain s' l)).
  - intros c Hd He E. apply chain_one. rewrite V, E by (by left). done.
  - intros c c' t Hd He Hc IH E. apply chain_two. rewrite V, E by (by left). split_and!; [done|done|].
    apply IH. intros a Ha. apply E. by right.
Qed.

Lemma chain_in_fat s l c : st_ok s -> chain s l -> c ∈ l -> in_fat (vol s) c.
Proof. intros O Hl Hc. apply (data_facts _ (so_vol _ O)). eapply Forall_forall in Hc; [|by apply chain_data]. done. Qed.

(** ** Extending a chain *)

(** [s'] is [s] with the chain [l] extended by the free clusters [ext], which are
    filled with zeros; the rest of the table and of the disk is the same. *)
Record extended s s' (l ext : list Z) : Prop := {
  ex_ok : st_ok s';
  ex_vol : vol s' = vol s;
  ex_chain : l ++ ext <> [] -> chain s' (l ++ ext);
  ex_free : Forall (fun c => data_cluster (vol s) c /\ fatv s c = 0) ext;
  ex_fat : forall c, in_fat (vol s) c -> c ∉ l ++ ext -> fatv s' c = fatv s c;
  ex_zero : forall c x, c ∈ ext -> in_cluster (vol s) c x -> S_ s' x = replicate 512 0;
  ex_sec : forall x, ~ fat_region (vol s) x -> (forall c, c ∈ ext -> ~ in_cluster (vol s) c x) -> S_ s' x = S_ s x;
  ex_mirror : mirrored s -> mirrored s'
}.

Lemma extended_refl s s' l : st_ok s -> (l <> [] -> chain s l) -> keeps s s' -> extended s s' l [].
Proof.
  intros O Hl K. pose proof K as (O' & V & E). pose proof (keeps_upd _ _ O K) as U.
  split; [done|done| |constructor|..].
  - rewrite app_nil_r. intros Hne. eapply fchain_frame; [done| |by apply Hl]. intros c _. by apply keeps_fatv.
  - intros c _ _. by apply keeps_fatv.
  - by intros c x ?%elem_of_nil.
  - intros x _ _. apply E.
  - apply U.
Qed.

Lemma extended_keeps s s1 s' l ext : keeps s s1 -> extended s1 s' l ext -> extended s s' l ext.
Proof.
  intros K [X1 X2 X3 X4 X5 X6 X7 X8]. pose proof K as (O1 & V1 & E1). rewrite V1 in *. split; [done|congruence|done|..].
  - eapply Forall_impl; [exact X4|]. intros c [? ?]. split; [done|]. by rewrite <- (keeps_fatv _ _ _ K).
  - intros c ? ?. rewrite X5 by done. by apply keeps_fatv.
  - done.
  - intros x ? ?. by rewrite X7.
  - intros M. apply X8. intros k c. rewrite V1, !E1. apply M.
Qed.

(** A first cluster for an empty chain. *)
Lemma takes_extended s s' c : st_ok s -> takes s s' c -> extended s s' [] [c].
Proof.
  intros O (T1 & T2 & [U1 U2 U3 U4 U5] & T4). pose proof (data_facts _ (so_vol _ O) c T1) as (Hf & _).
  split; [done|done| |by apply Forall_singleton|..|done].
  - intros _. apply chain_one. rewrite U2, U3, Z.eqb_refl by done. split; [done|by unfold FAT16_EOC, FAT16_EOF].
  - intros a Ha Hne. rewrite U3 by done. destruct (Z.eqb_spec a c) as [->|]; [|done]. by destruct Hne; left.
  - intros a x ->%list_elem_of_singleton. apply T4.
  - intros x Hx Hne. apply U4; [done|]. apply Hne. by left.
Qed.

(** A chain whose last entry is changed to [next], a chain of fresh clusters. *)
Lemma extended_link s s1 s2 s' c n ext : st_ok s -> chain s [c] -> takes s s1 n ->
  upd s1 s2 (fun a => if a =? c then n else fatv s1 a) (fun _ => False) ->
  extended s2 s' [n] ext -> extended s s' [c] (n :: ext).
Proof.
  intros O [Hc He]%chain_one (T1 & T2 & [U1 U2 U3 U4 U5] & T4) [W1 W2 W3 W4 W5] [X1 X2 X3 X4 X5 X6 X7 X8].
  pose proof (data_facts _ (so_vol _ O) c Hc) as (Hcf & _). pose proof (data_facts _ (so_vol _ O) n T1) as (Hnf & _).
  rewrite W2, U2 in *. assert (Hcn : c <> n) by (intros ->; unfold FAT16_EOC in He; lia).
  assert (F2 : forall a, in_fat (vol s) a -> fatv s2 a = if a =? c then n else if a =? n then FAT16_EOF else fatv s a).
  { intros a Ha. rewrite W3 by done. destruct (a =? c); [done|]. by rewrite U3. }
  assert (Hext : Forall (fun a => data_cluster (vol s) a /\ fatv s a = 0 /\ a <> c /\ a <> n) ext).
  { eapply Forall_impl; [exact X4|]. cbn. intros a [Ha Hz]. rewrite F2 in Hz by (by apply (data_facts _ (so_vol _ O))).
    destruct (Z.eqb_spec a c); [unfold data_cluster in T1; lia|]. destruct (Z.eqb_spec a n); [done|]. done. }
  rewrite Forall_forall in Hext.
  split; [done|congruence|..].
  - intros _. apply chain_two. split; [by rewrite X2|]. rewrite X5, F2, Z.eqb_refl; [|done|done|]; [split; [done|]; by apply X3|].
    cbn. intros [?|Hin]%elem_of_cons; [done|]. by destruct (Hext _ Hin) as (_ & _ & ? & _).
  - constructor; [done|]. rewrite Forall_forall. intros a Ha. by destruct (Hext _ Ha) as (? & ? & _).
  - intros a Ha Hn. apply not_elem_of_cons in Hn as [Hac Hn]. pose proof Hn as [Han _]%not_elem_of_cons.
    rewrite X5, F2 by done. by destruct (Z.eqb_spec a c), (Z.eqb_spec a n).
  - intros a x [->|Hin]%elem_of_cons Hx; [|by apply (X6 a)]. pose proof (cluster_not_fat _ (so_vol _ O) n x T1 Hx).
    rewrite X7, W4; [by apply T4|done|tauto|done|].
    intros a Ha. destruct (Hext _ Ha) as (_ & _ & _ & Hne). apply (clusters_apart _ (so_vol _ O) n); [congruence|done].
  - intros x Hx Hn. rewrite X7; [|done|intros a Ha; apply Hn; by right]. rewrite W4 by auto. apply U4; [done|]. apply Hn. by left.
  - auto.
Qed.

Lemma extended_cons s s' c c' l ext : st_ok s -> chain s (c :: c' :: l) ->
  extended s s' (c' :: l) ext -> extended s s' (c :: c' :: l) ext.
Proof.
  intros O Hc [X1 X2 X3 X4 X5 X6 X7 X8]. pose proof (chain_NoDup _ _ O Hc) as Hnd. apply NoDup_cons in Hnd as [Hni _].
  assert (Hce : c ∉ ext).
  { intros Hin. rewrite Forall_forall in X4. destruct (X4 _ Hin) as [_ Hz]. apply (chain_used _ _ c O) in Hc; [done|by left]. }
  split; [done|done| |done|..|done|done|done].
  - intros _. pose proof (chain_in_fat _ _ c O Hc ltac:(by left)). apply chain_two in Hc as (? & ? & ?). apply chain_two.
    rewrite X2, X5; [|done|]. 1: split_and!; [done|done|]; by apply X3.
    change (c' :: l ++ ext) with ((c' :: l) ++ ext). by rewrite not_elem_of_app.
  - intros a Ha [_ Hn]%not_elem_of_cons. by apply X5.
Qed.
(** [n] steps along the chain, with new clusters where it ends. *)
Lemma resize_loop_run n c l s : st_ok s -> chain s (c :: l) -> exists r s' ext,
  resize_loop n c s = (r, s') /\ extended s s' (c :: l) ext /\
  match r with
  | Some last => (c :: l ++ ext) !! n = Some last /\ length ext = (n - length l)%nat
  | None => (forall b, data_cluster (vol s) b -> fatv s' b <> 0) /\ (length l + length ext < n)%nat
  end.
Proof.
  revert c l s. induction n as [|n IH]; intros c l s O Hc; cbn [resize_loop].
  { exists (Some c), s, []. split_and!; [done|by apply extended_refl|done|done]. }
  destruct (read_fat_run s c O) as (s1 & E1 & K1). pose proof K1 as (O1 & V1 & X1). unfold with_state, bind. rewrite E1.
  assert (Hc1 : chain s1 (c :: l)) by (eapply fchain_frame; [done|intros; by apply keeps_fatv|done]).
  destruct l as [|c' l].
  - apply chain_one in Hc as [Hd He]. destruct (Z.leb_spec FAT16_EOC (fatv s c)); [|lia].
    destruct (allocate_run s1 O1) as (r & s2 & E2 & P). rewrite E2. destruct r as [a|].
    + destruct P as [T _]. pose proof T as (Ta & _ & Tu & _). pose proof (up_vol _ _ _ _ Tu) as V2. pose proof (up_ok _ _ _ _ Tu) as O2.
      pose proof (data_facts _ (so_vol _ O) c Hd) as (Hcf & _). pose proof (data_facts _ (so_vol _ O1) a Ta) as (_ & Ha & _).
      destruct (write_fat_run s2 c a O2) as (s3 & E3 & U3); [by rewrite V2, V1|unfold is_u16; lia|].
      unfold attempt. rewrite E3. pose proof (up_ok _ _ _ _ U3) as O3. pose proof (up_vol _ _ _ _ U3) as V3.
      assert (Ha3 : chain s3 [a]).
      { apply chain_one. rewrite V3, V2. split; [done|]. assert (a <> c).
        { intros ->. destruct T as (_ & Tz & _). rewrite (keeps_fatv _ _ _ K1) in Tz. unfold FAT16_EOC in He. lia. }
        pose proof (data_facts _ (so_vol _ O1) a Ta) as (Haf & _).
        rewrite (up_fat _ _ _ _ U3) by (by rewrite V2). destruct (Z.eqb_spec a c); [done|].
        rewrite (up_fat _ _ _ _ Tu), Z.eqb_refl by done. by unfold FAT16_EOC, FAT16_EOF. }
      destruct (IH a [] s3 O3 Ha3) as (r & s' & ext & E & X & P). exists r, s', (a :: ext). split_and!; [done|..].
      * apply (extended_keeps _ s1); [done|]. by apply (extended_link _ s2 s3).
      * rewrite V3, V2, V1 in P. destruct r; [|destruct P; split; [done|cbn in *; lia]].
        destruct P as [P1 P2]. split; [done|]. cbn in *. lia.
    + destruct P as [K2 Hf]. exists None, s2, []. split_and!; [done|..|cbn; lia].
      * apply (extended_keeps _ s1); [done|]. by apply extended_refl.
      * intros b Hb. rewrite (keeps_fatv _ _ _ K2). apply Hf. by rewrite V1.
  - pose proof Hc as (Hd & He & Ht)%chain_two. pose proof (chain_head _ _ _ Ht) as Hd'. rewrite He.
    pose proof (data_not_eoc _ _ O Hd') as [N1 N2]. rewrite (proj2 (cluster_is_data_iff _ _) Hd').
    unfold FAT16_EOC, FAT16_BAD_CLUSTER, FAT16_FREE_CLUSTER in *.
    destruct (Z.leb_spec 0xFFF8 c'), (Z.eqb_spec c' 0xFFF7), (Z.eqb_spec c' 0); try lia. cbn [negb orb].
    destruct (IH c' l s1 O1) as (r & s' & ext & E & X & P); [by apply chain_two in Hc1 as (_ & _ & ?)|].
    exists r, s', ext. split_and!; [done|..].
    + apply (extended_keeps _ s1); [done|]. by apply extended_cons.
    + rewrite V1 in P. destruct r; [done|]. destruct P. split; [done|cbn; lia].
Qed.

(** On a disk that does not fail the loop of [ensure_chain_capacity] is that of
    [resize_chain_unlocked]. *)
Lemma ensure_loop_resize n c s : st_ok s -> data_cluster (vol s) c ->
  ensure_loop n c s = (match (resize_loop n c s).1 with Some _ => Some tt | None => None end, (resize_loop n c s).2).
Proof.
  revert c s. induction n as [|n IH]; intros c s O Hd; cbn [resize_loop ensure_loop]; [done|].
  destruct (read_fat_run s c O) as (s1 & E1 & (O1 & V1 & X1)). unfold with_state, bind. rewrite E1.
  destruct (FAT16_EOC <=? fatv s c).
  - destruct (allocate_run s1 O1) as (r & s2 & E2 & P). rewrite E2. destruct r as [a|]; [|done].
    destruct P as [(Ta & _ & Tu & _) _]. pose proof (up_vol _ _ _ _ Tu) as V2.
    pose proof (data_facts _ (so_vol _ O) c Hd) as (Hcf & _). pose proof (data_facts _ (so_vol _ O1) a Ta) as (_ & Ha & _).
    destruct (write_fat_run s2 c a (up_ok _ _ _ _ Tu)) as (s3 & E3 & U3); [by rewrite V2, V1|unfold is_u16; lia|].
    unfold attempt. rewrite E3. apply IH; [apply U3|]. by rewrite (up_vol _ _ _ _ U3), V2.
  - destruct (cluster_is_data (vol s) (fatv s c)) eqn:Ed; [|done]. destruct (_ || _ || _); [done|].
    apply IH; [done|]. rewrite V1. by apply cluster_is_data_iff.
Qed.

Lemma ensure_loop_run n c l s : st_ok s -> chain s (c :: l) -> exists r s' ext,
  ensure_loop n c s = (r, s') /\ extended s s' (c :: l) ext /\
  match r with
  | Some _ => length ext = (n - length l)%nat
  | None => (forall b, data_cluster (vol s) b -> fatv s' b <> 0) /\ (length l + length ext < n)%nat
  end.
Proof.
  intros O Hc. destruct (resize_loop_run n c l s O Hc) as (r & s' & ext & E & X & P).
  rewrite ensure_loop_resize by (done || by eapply chain_head). rewrite E. cbn. eexists _, _, _. split; [done|]. split; [done|].
  destruct r; [apply P|done].
Qed.

(** ** Walking a chain *)

Lemma offset_loop_run n c l s : st_ok s -> chain s (c :: l) -> (n <= length l)%nat -> exists s',
  offset_loop n c s = (Some ((c :: l) !!! n), s') /\ keeps s s'.
Proof.
  revert c l s. induction n as [|n IH]; intros c l s O Hc Hn; cbn [offset_loop]; [by exists s|].
  destruct l as [|c' l]; [cbn in Hn; lia|]. destruct (read_fat_run s c O) as (s1 & E1 & K1). pose proof K1 as (O1 & V1 & X1).
  unfold with_state, bind. rewrite E1. apply chain_two in Hc as (Hd & -> & Ht). pose proof (chain_head _ _ _ Ht) as Hd'.
  pose proof (data_not_eoc _ _ O Hd') as [N1 N2]. rewrite (proj2 (cluster_is_data_iff _ _) Hd'). unfold FAT16_EOC, FAT16_BAD_CLUSTER in *.
  destruct (Z.leb_spec 0xFFF8 c'), (Z.eqb_spec c' 0xFFF7); try lia. cbn [negb orb].
  destruct (IH c' l s1 O1) as (s' & E & K); [|cbn in Hn; lia|exists s'; split; [done|by eapply fkeeps_trans]].
  eapply fchain_frame; [done|intros; by apply keeps_fatv|done].
Qed.

Lemma read_skip_run n c l s : st_ok s -> chain s (c :: l) -> (n <= length l)%nat -> exists s',
  read_skip n c s = (Some ((c :: l) !!! n), s') /\ keeps s s'.
Proof.
  revert c l s. induction n as [|n IH]; intros c l s O Hc Hn; cbn [read_skip]; [by exists s|].
  destruct l as [|c' l]; [cbn in Hn; lia|]. destruct (read_fat_run s c O) as (s1 & E1 & K1). pose proof K1 as (O1 & V1 & X1).
  unfold bind. rewrite E1. apply chain_two in Hc as (Hd & -> & Ht). pose proof (chain_head _ _ _ Ht) as Hd'.
  pose proof (data_not_eoc _ _ O Hd') as [N1 N2]. unfold FAT16_EOC, FAT16_BAD_CLUSTER in *.
  destruct (Z.leb_spec 0xFFF8 c'), (Z.eqb_spec c' 0xFFF7); try lia. cbn [orb].
  destruct (IH c' l s1 O1) as (s' & E & K); [|cbn in Hn; lia|exists s'; split; [done|by eapply fkeeps_trans]].
  eapply fchain_frame; [done|intros; by apply keeps_fatv|done].
Qed.

(** ** Freeing a chain *)

Lemma free_loop_run n c l s : st_ok s -> chain s (c :: l) -> (length l < n)%nat -> exists s',
  free_loop n c s = (Some tt, s') /\ upd s s' (fun b => if bool_decide (b ∈ c :: l) then 0 else fatv s b) (fun _ => False).
Proof.
  revert c l s. induction n as [|n IH]; intros c l s O Hc Hn; cbn [free_loop]; [lia|].
  pose proof (chain_head _ _ _ Hc) as Hd. unfold with_state. rewrite (proj2 (cluster_is_data_iff _ _) Hd). cbn [negb].
  destruct (read_fat_run s c O) as (s1 & E1 & K1). pose proof K1 as (O1 & V1 & X1). unfold bind. rewrite E1.
  pose proof (data_facts _ (so_vol _ O) c Hd) as (Hcf & _).
  destruct (write_fat_run s1 c FAT16_FREE_CLUSTER O1) as (s2 & E2 & U2); [by rewrite V1|by unfold is_u16, FAT16_FREE_CLUSTER|].
  rewrite E2. apply (upd_keeps _ _ _ _ _ K1) in U2.
  destruct l as [|c' l].
  - apply chain_one in Hc as [_ He]. destruct (Z.leb_spec FAT16_EOC (fatv s c)); [|lia]. cbn [orb]. exists s2. split; [done|].
    eapply upd_ext; [|exact U2]. intros b _. cbn. rewrite (keeps_fatv _ _ _ K1).
    destruct (Z.eqb_spec b c) as [->|]; [by rewrite bool_decide_eq_true_2 by (by left)|].
    by rewrite bool_decide_eq_false_2 by (by intros ?%list_elem_of_singleton).
  - pose proof (chain_NoDup _ _ O Hc) as [Hni _]%NoDup_cons.
    apply chain_two in Hc as (_ & -> & Ht). pose proof (chain_head _ _ _ Ht) as Hd'.
    pose proof (data_not_eoc _ _ O Hd') as [N1 N2]. rewrite (proj2 (cluster_is_data_iff _ _) Hd'). unfold FAT16_EOC, FAT16_BAD_CLUSTER in *.
    destruct (Z.leb_spec 0xFFF8 c'), (Z.eqb_spec c' 0xFFF7); try lia. cbn [negb orb].
    assert (F2 : forall b, in_fat (vol s) b -> fatv s2 b = if b =? c then 0 else fatv s b).
    { intros b Hb. rewrite (up_fat _ _ _ _ U2) by done. by rewrite (keeps_fatv _ _ _ K1). }
    destruct (IH c' l s2 (up_ok _ _ _ _ U2)) as (s' & E & U); [|cbn in Hn; lia|].
    + eapply fchain_frame; [apply U2| |done]. intros b Hb. rewrite F2 by (by eapply chain_in_fat).
      destruct (Z.eqb_spec b c) as [->|]; done.
    + exists s'. split; [done|]. eapply upd_ext; [|eapply upd_trans; [exact U2|exact U|tauto]].
      intros b Hb. cbn. rewrite F2 by done.
      destruct (Z.eqb_spec b c) as [->|]; [rewrite (bool_decide_eq_true_2 (c ∈ c :: _)) by (by left); by case_bool_decide|].
      erewrite bool_decide_ext; [done|]. rewrite (elem_of_cons (c' :: l)). naive_solver.
Qed.

Lemma chain_length s l : st_ok s -> chain s l -> Z.of_nat (length l) < max_data_cluster (vol s).
Proof.
  intros O Hl. assert (Hs : l ⊆+ seqZ 2 (max_data_cluster (vol s) - 1)).
  { apply NoDup_submseteq; [by eapply chain_NoDup|]. intros c Hc. rewrite elem_of_seqZ.
    eapply Forall_forall in Hc; [|by apply chain_data]. unfold data_cluster in Hc. lia. }
  apply submseteq_length in Hs. rewrite length_seqZ in Hs. destruct l as [|c l]; [by apply chain_nil in Hl|].
  pose proof (chain_head _ _ _ Hl). unfold data_cluster in *. lia.
Qed.

Lemma free_chain_run c l s : st_ok s -> chain s (c :: l) -> exists s', free_chain_from c s = (Some tt, s') /\
  upd s s' (fun b => if bool_decide (b ∈ c :: l) then 0 else fatv s b) (fun _ => False).
Proof.
  intros O Hc. unfold free_chain_from, with_state. apply free_loop_run; [done|done|].
  pose proof (chain_length _ _ O Hc) as Hl. cbn in Hl. lia.
Qed.
End Chains.
