(* ===== verification/Fat16Read.v ===== *)
(** Reading files of src/src/drivers/fat16.c: the bytes of a chain and the proof
    that [read_chain] returns them. *)

From S2P Require Import Prelude Fat16 Fat16Fat Fat16Chain.

(** * The values of a function on an interval *)

Definition span {A} (f : Z -> A) (a n : Z) : list A := map f (seqZ a n).

Lemma len_span {A} (f : Z -> A) a n : 0 <= n -> len (span f a n) = n.
Proof. intros. unfold span, len. rewrite length_map, length_seqZ. lia. Qed.
Lemma span_nil {A} (f : Z -> A) a n : n <= 0 -> span f a n = [].
Proof. intros. unfold span. by rewrite seqZ_nil. Qed.
Lemma span_app {A} (f : Z -> A) a n m : 0 <= n -> 0 <= m -> span f a (n + m) = span f a n ++ span f (a + n) m.
Proof. intros. unfold span. by rewrite seqZ_app, map_app. Qed.
Lemma span_get `{Inhabited A} (f : Z -> A) a n i : 0 <= i < n -> arr_get (span f a n) i = f (a + i).
Proof.
  intros. unfold span, arr_get. apply list_lookup_total_correct. rewrite list_lookup_fmap, lookup_seqZ_lt by lia.
  cbn. do 2 f_equal. lia.
Qed.
Lemma list_ext_get `{Inhabited A} (l k : list A) : len l = len k -> (forall i, 0 <= i < len l -> arr_get l i = arr_get k i) -> l = k.
Proof.
  unfold len, arr_get. intros L E. apply list_eq_same_length with (length k); [done|lia|]. intros i x y Hi Hx Hy.
  apply list_lookup_total_correct in Hx, Hy. subst. specialize (E (Z.of_nat i) ltac:(lia)). by rewrite Nat2Z.id in E.
Qed.
Lemma span_eq `{Inhabited A} (f g : Z -> A) a b n : (forall i, 0 <= i < n -> f (a + i) = g (b + i)) -> span f a n = span g b n.
Proof.
  intros E. destruct (decide (n <= 0)); [by rewrite !span_nil|]. apply list_ext_get; [by rewrite !len_span by lia|].
  intros i. rewrite len_span by lia. intros Hi. by rewrite !span_get, E.
Qed.
Lemma slice_at_span off n (l : list Z) : 0 <= off -> 0 <= n -> off + n <= len l -> slice_at off n l = span (arr_get l) off n.
Proof.
  intros. unfold slice_at. apply list_ext_get.
  - rewrite len_span by done. unfold len in *. rewrite length_take, length_drop. lia.
  - unfold len. intros i. rewrite length_take, length_drop. unfold len in *. intros Hi. rewrite span_get by lia.
    unfold arr_get. rewrite lookup_total_take, decide_True, lookup_total_drop by lia. f_equal. lia.
Qed.

Section Read.
Context {D : Type} `{SectorDevLaws D}.
Implicit Types s : fat16_state D.

(** Byte [o] of a cluster, byte [p] of a chain. *)
Definition cbyte s (c o : Z) : Z := arr_get (S_ s (clba (vol s) c + o / 512)) (o mod 512).
Definition fbyte s (l : list Z) (p : Z) : Z :=
  cbyte s (arr_get l (p / cluster_size_bytes (vol s))) (p mod cluster_size_bytes (vol s)).
(** The size of a chain in bytes. *)
Definition capacity s (l : list Z) : Z := len l * cluster_size_bytes (vol s).

Lemma keeps_cbyte s s' c o : keeps s s' -> cbyte s' c o = cbyte s c o.
Proof. intros (_ & V & E). unfold cbyte. by rewrite V, E. Qed.
Lemma keeps_fbyte s s' l p : keeps s s' -> fbyte s' l p = fbyte s l p.
Proof. intros K. unfold fbyte. rewrite (keeps_cbyte s s') by done. by destruct K as (_ & -> & _). Qed.

Lemma csize_facts s : st_ok s -> cluster_size_bytes (vol s) = sectors_per_cluster (v_bpb (vol s)) * 512 /\ 512 <= cluster_size_bytes (vol s) <= 65536.
Proof. intros O. pose proof (vo_spc _ (so_vol _ O)). unfold cluster_size_bytes, FAT16_SECTOR_SIZE. lia. Qed.

Lemma cluster_sector s c i : st_ok s -> data_cluster (vol s) c -> 0 <= i < sectors_per_cluster (v_bpb (vol s)) ->
  u32 (cluster_to_lba (vol s) c + i) = clba (vol s) c + i /\ in_cluster (vol s) c (clba (vol s) c + i).
Proof.
  intros O Hc Hi. pose proof (so_vol _ O) as V. rewrite (cluster_to_lba_eq _ V c Hc). destruct (data_facts _ V c Hc) as (_ & _ & H1 & H2).
  pose proof (vo_end _ V) as [_ He]. pose proof (data_lba_pos _ V). pose proof (vo_part _ V).
  split; [apply u32_id; unfold is_u32|unfold in_cluster]; lia.
Qed.

Lemma cbyte_sector s c i o : 0 <= o < 512 -> cbyte s c (i * 512 + o) = arr_get (S_ s (clba (vol s) c + i)) o.
Proof.
  intros. unfold cbyte. replace ((i * 512 + o) / 512) with i by ulia. by replace ((i * 512 + o) mod 512) with o by ulia.
Qed.

(** ** One cluster *)

Lemma read_sectors_run n sector c off_in size acc s : st_ok s -> data_cluster (vol s) c -> 0 <= sector ->
  sector + Z.of_nat n = sectors_per_cluster (v_bpb (vol s)) -> 0 <= off_in < cluster_size_bytes (vol s) -> len acc <= size ->
  let pos := Z.max off_in (sector * 512) in
  exists s', read_sectors n sector (cluster_to_lba (vol s) c) off_in size acc s =
    (Some (true, acc ++ span (cbyte s c) pos (Z.min (cluster_size_bytes (vol s) - pos) (size - len acc))), s') /\ keeps s s'.
Proof.
  revert sector acc s. induction n as [|n IH]; intros sector acc s O Hc Hs Hn Ho Hl pos; destruct (csize_facts s O) as [Ec Hcs].
  - exists s. split; [|by apply fkeeps_refl]. rewrite span_nil by lia. by rewrite app_nil_r.
  - cbn [read_sectors]. destruct (Z.ltb_spec (len acc) size) as [Hlt|]; cbn [negb].
    2: { exists s. split; [|by apply fkeeps_refl]. rewrite span_nil by lia. by rewrite app_nil_r. }
    unfold FAT16_SECTOR_SIZE. destruct (Z.leb_spec (sector * 512 + 512) off_in) as [Hsk|Hsk].
    { destruct (IH (sector + 1) acc s O Hc ltac:(lia) ltac:(lia) Ho Hl) as (s' & E & K). exists s'. split; [|done].
      rewrite E. unfold pos. by replace (Z.max off_in ((sector + 1) * 512)) with (Z.max off_in (sector * 512)) by lia. }
    destruct (cluster_sector s c sector O Hc ltac:(lia)) as [-> _].
    destruct (read_sector_run s (clba (vol s) c + sector) O) as (s1 & E1 & K1 & B1). pose proof K1 as (O1 & V1 & X1).
    unfold bind, attempt. rewrite E1. unfold get_buffer, with_state, ret. rewrite B1.
    set (so := if sector * 512 <? off_in then off_in - sector * 512 else 0).
    assert (Hso : 0 <= so < 512 /\ pos = sector * 512 + so) by (unfold so, pos; bcases; lia). destruct Hso as [Hso Hpos].
    set (chunk := Z.min (512 - so) (size - len acc)). destruct (S_sector s (clba (vol s) c + sector) O) as [L F].
    rewrite slice_at_span by lia.
    replace (span (arr_get _) so chunk) with (span (cbyte s c) pos chunk).
    2: { apply span_eq. intros i Hi. rewrite Hpos. replace (sector * 512 + so + i) with (sector * 512 + (so + i)) by lia.
         apply cbyte_sector. lia. }
    destruct (IH (sector + 1) (acc ++ span (cbyte s c) pos chunk) s1 O1) as (s' & E & K);
      [by rewrite V1|lia|rewrite V1; lia|by rewrite V1|rewrite len_app, len_span by lia; lia|].
    exists s'. split; [|by eapply fkeeps_trans]. rewrite V1 in E. rewrite E. do 3 f_equal. rewrite <- app_assoc. f_equal.
    rewrite len_app, len_span by lia. replace (Z.max off_in ((sector + 1) * 512)) with (pos + (512 - so)) by lia.
    rewrite (span_eq (cbyte s1 c) (cbyte s c) _ (pos + (512 - so))) by (intros; by apply keeps_cbyte).
    destruct (decide (chunk = 512 - so)) as [Hch|].
    + rewrite Hch, <- span_app by lia. f_equal. lia.
    + rewrite (span_nil _ (pos + (512 - so))), app_nil_r by lia. f_equal. lia.
Qed.

(** ** A chain *)

Lemma fbyte_head s c l o : 0 <= o < cluster_size_bytes (vol s) -> fbyte s (c :: l) o = cbyte s c o.
Proof. intros. unfold fbyte. by rewrite Z.div_small, Z.mod_small by done. Qed.
Lemma fbyte_tail s c l o : st_ok s -> 0 <= o -> fbyte s (c :: l) (cluster_size_bytes (vol s) + o) = fbyte s l o.
Proof.
  intros O Ho. destruct (csize_facts s O) as [_ Hc]. unfold fbyte.
  replace (cluster_size_bytes (vol s) + o) with (o + 1 * cluster_size_bytes (vol s)) by lia.
  rewrite Z.mod_add, Z.div_add by lia. f_equal. pose proof (Z.div_pos o (cluster_size_bytes (vol s)) Ho ltac:(lia)).
  rewrite arr_get_cons by lia. f_equal. lia.
Qed.

Lemma read_clusters_run fuel c l off_in size acc s : st_ok s -> chain s (c :: l) ->
  0 <= off_in < cluster_size_bytes (vol s) -> len acc <= size ->
  size - len acc <= (Z.of_nat fuel - (if off_in =? 0 then 0 else 1)) * 512 ->
  exists s', read_clusters fuel c off_in size acc s =
    (Some (acc ++ span (fbyte s (c :: l)) off_in (Z.min (capacity s (c :: l) - off_in) (size - len acc))), s') /\ keeps s s'.
Proof.
  revert c l off_in acc s. induction fuel as [|fuel IH]; intros c l off_in acc s O Hc Ho Hl Hf;
    destruct (csize_facts s O) as [Ec Hcs]; cbn [read_clusters].
  { exists s. split; [|by apply fkeeps_refl]. rewrite span_nil, app_nil_r; [done|]. destruct (off_in =? 0); lia. }
  pose proof (chain_head _ _ _ Hc) as Hd. pose proof (data_not_eoc _ _ O Hd) as [N1 N2]. unfold with_state, FAT16_EOC, FAT16_BAD_CLUSTER in *.
  destruct (Z.ltb_spec c 0xFFF8); [|lia]. destruct (Z.eqb_spec c 0xFFF7); [lia|]. rewrite !andb_true_r.
  destruct (Z.ltb_spec (len acc) size) as [Hlt|].
  2: { exists s. split; [|by apply fkeeps_refl]. by rewrite span_nil, app_nil_r by lia. }
  pose proof (vo_spc _ (so_vol _ O)) as Hspc.
  destruct (read_sectors_run (Z.to_nat (sectors_per_cluster (v_bpb (vol s)))) 0 c off_in size acc s) as (s1 & E1 & K1);
    [done|done|lia|lia|done|done|]. pose proof K1 as (O1 & V1 & X1).
  replace (Z.max off_in (0 * 512)) with off_in in E1 by lia. unfold bind. rewrite E1. cbn [negb orb].
  set (k := Z.min (cluster_size_bytes (vol s) - off_in) (size - len acc)) in *.
  rewrite len_app, len_span by lia. unfold capacity.
  assert (Hk : span (cbyte s c) off_in k = span (fbyte s (c :: l)) off_in k).
  { apply span_eq. intros i Hi. rewrite fbyte_head; [done|lia]. }
  rewrite Hk. assert (Hlen : 0 <= len l) by (unfold len; lia).
  assert (Hcap : len (c :: l) = 1 + len l) by (unfold len; cbn; lia). rewrite Hcap.
  pose proof (Z.mul_nonneg_nonneg (len l) (cluster_size_bytes (vol s)) Hlen ltac:(lia)) as Hm.
  destruct (Z.ltb_spec (len acc + k) size) as [Hmore|]; cbn [negb].
  2: { exists s1. split; [|done]. by replace (Z.min _ _) with k by lia. }
  assert (Hkc : k = cluster_size_bytes (vol s) - off_in) by lia.
  destruct (read_fat_run s1 c O1) as (s2 & E2 & K2). pose proof K2 as (O2 & V2 & X2). unfold attempt. rewrite E2.
  rewrite (keeps_fatv _ _ _ K1). assert (K : keeps s s2) by (by eapply fkeeps_trans).
  destruct l as [|c' l].
  - apply chain_one in Hc as [_ He]. unfold FAT16_EOC in He. exists s2. split; [|done].
    destruct fuel; cbn [read_clusters]; unfold with_state.
    + by replace (Z.min _ _) with k by (change (len []) with 0; lia).
    + unfold FAT16_EOC. destruct (Z.ltb_spec (fatv s c) 0xFFF8); [lia|]. rewrite andb_false_r. by replace (Z.min _ _) with k by (change (len []) with 0; lia).
  - apply chain_two in Hc as (_ & -> & Ht).
    assert (Ht2 : chain s2 (c' :: l)) by (eapply fchain_frame; [by apply K|intros; by apply keeps_fatv|done]).
    destruct (IH c' l 0 (acc ++ span (fbyte s (c :: c' :: l)) off_in k) s2 O2 Ht2) as (s' & E & K');
      [rewrite V2, V1; lia|rewrite len_app, len_span by lia; lia|rewrite len_app, len_span by lia; cbn; destruct (off_in =? 0) eqn:?; lia|].
    exists s'. split; [|by eapply fkeeps_trans]. rewrite E. do 2 f_equal. rewrite <- app_assoc. f_equal.
    rewrite len_app, len_span by lia. unfold capacity. rewrite V2, V1.
    rewrite (span_eq (fbyte s2 (c' :: l)) (fbyte s (c :: c' :: l)) 0 (off_in + k)).
    2: { intros i Hi. rewrite (keeps_fbyte s s2) by done. replace (off_in + k + i) with (cluster_size_bytes (vol s) + i) by lia.
         rewrite fbyte_tail by (done || lia). f_equal. }
    rewrite <- span_app by lia. f_equal. lia.
Qed.

(** [read_chain] returns the bytes of the chain, up to the size of the file. *)
Lemma read_chain_run c l fsize offset size s : st_ok s -> chain s (c :: l) -> 0 <= fsize <= capacity s (c :: l) ->
  0 <= offset < fsize -> fsize < 4294967296 -> 0 <= size ->
  exists s', read_chain c fsize offset size s = (Some (span (fbyte s (c :: l)) offset (Z.min size (fsize - offset))), s') /\ keeps s s'.
Proof.
  intros O Hc Hf Ho Hf32 Hsz. destruct (csize_facts s O) as [Ec Hcs]. pose proof (chain_head _ _ _ Hc) as Hd.
  pose proof (data_not_eoc _ _ O Hd) as [_ N]. unfold read_chain, with_state. destruct (Z.ltb_spec c 2); [lia|].
  destruct (Z.leb_spec fsize offset); [lia|]. cbn [orb]. set (cs := cluster_size_bytes (vol s)) in *.
  assert (Hq : 0 <= offset / cs < len (c :: l)) by (unfold capacity in Hf; split; [apply Z.div_pos; lia|apply Z.div_lt_upper_bound; lia]).
  pose proof (Z.mod_pos_bound offset cs ltac:(lia)) as Hr. pose proof (Z.div_mod offset cs ltac:(lia)) as Hdm.
  assert (Hq32 : offset / cs < 4294967296) by (apply Z.div_lt_upper_bound; lia).
  rewrite !u32_id by (unfold is_u32; lia).
  destruct (read_skip_run (Z.to_nat (offset / cs)) c l s O Hc) as (s1 & E1 & K1); [unfold len in Hq; cbn in Hq; lia|].
  unfold bind. rewrite E1. destruct (lookup_lt_is_Some_2 (c :: l) (Z.to_nat (offset / cs))) as [c' Hc']; [unfold len in Hq; lia|].
  rewrite (list_lookup_total_correct _ _ _ Hc').
  pose proof (take_drop_middle _ _ _ Hc') as Hsplit.
  set (pre := take (Z.to_nat (offset / cs)) (c :: l)) in *. set (post := drop (S (Z.to_nat (offset / cs))) (c :: l)) in *.
  assert (Lpre : len pre = offset / cs) by (unfold pre, len; rewrite length_take; unfold len in Hq; lia).
  assert (Hc1 : chain s1 (c' :: post)).
  { eapply fchain_frame; [apply K1|intros; by apply keeps_fatv|]. apply (chain_suffix s pre); [done|]. by rewrite Hsplit. }
  assert (Hcap : capacity s (c :: l) = len pre * cs + capacity s (c' :: post)) by (unfold capacity; rewrite <- Hsplit, len_app; fold cs; lia).
  pose proof K1 as (O1 & V1 & X1).
  destruct (read_clusters_run (Z.to_nat (Z.min size (fsize - offset) / FAT16_SECTOR_SIZE + 2)) c' post (offset mod cs)
    (Z.min size (fsize - offset)) [] s1 O1 Hc1) as (s' & E & K).
  - by rewrite V1.
  - unfold len. cbn. lia.
  - unfold len, FAT16_SECTOR_SIZE. cbn. destruct (_ =? 0); ulia.
  - exists s'. split; [|by eapply fkeeps_trans]. rewrite E. cbn [app]. do 2 f_equal. change (len []) with 0.
    assert (Hn : Z.min (capacity s1 (c' :: post) - offset mod cs) (Z.min size (fsize - offset) - 0) = Z.min size (fsize - offset)).
    { unfold capacity in *. rewrite V1. fold cs. fold cs in Hcap. lia. }
    rewrite Hn. apply span_eq. intros i Hi. rewrite (keeps_fbyte s s1) by done. rewrite <- Hsplit. unfold fbyte. fold cs.
    replace (offset + i) with (offset mod cs + i + len pre * cs) by lia. rewrite Z.div_add, Z.mod_add by lia. f_equal.
    pose proof (Z.div_pos (offset mod cs + i) cs ltac:(lia) ltac:(lia)). unfold arr_get, len in *.
    rewrite lookup_total_app_r by lia. f_equal. lia.
Qed.
End Read.
