(* ===== verification/Fat16Write.v ===== *)
(** Writing files of src/src/drivers/fat16.c: [write_chain] puts the bytes into the
    chain, which [ensure_chain_capacity] extends first, and records the new size. *)

From S2P Require Import Prelude Fat16 Fat16Fat Fat16Chain Fat16Read.

Section Write.
Context {D : Type} `{SectorDevLaws D}.
Implicit Types s : fat16_state D.

(** ** One cluster *)

(** The bytes of a sector after a part of it is replaced. *)
Lemma patched_sector off b buf i : is_sector buf -> 0 <= off -> off + len b <= 512 -> 0 <= i < 512 ->
  arr_get (put_bytes off b buf) i = if (off <=? i) && (i <? off + len b) then arr_get b (i - off) else arr_get buf i.
Proof. intros [L _] ? ? ?. apply put_bytes_get; lia. Qed.

Lemma slice_at_facts (l : list Z) a n : 0 <= a -> 0 <= n -> a + n <= len l -> Forall is_u8 l ->
  len (slice_at a n l) = n /\ Forall is_u8 (slice_at a n l) /\ forall i, 0 <= i < n -> arr_get (slice_at a n l) i = arr_get l (a + i).
Proof.
  intros. rewrite slice_at_span by done. split_and!; [by apply len_span| |intros; by apply span_get].
  rewrite <- slice_at_span by done. by apply Forall_take, Forall_drop.
Qed.

(** Bytes [pos], ..., [pos + k - 1] of the cluster [c] become those of [buffer] from
    [written] on. *)
Record wrote s s' (c pos k written : Z) (buffer : list Z) : Prop := {
  wr_ok : st_ok s';
  wr_vol : vol s' = vol s;
  wr_sec : forall x, ~ in_cluster (vol s) c x -> S_ s' x = S_ s x;
  wr_byte : forall o, 0 <= o < cluster_size_bytes (vol s) ->
    cbyte s' c o = if (pos <=? o) && (o <? pos + k) then arr_get buffer (written + (o - pos)) else cbyte s c o
}.

Lemma wrote_nothing s c pos k w buffer : st_ok s -> k <= 0 -> wrote s s c pos k w buffer.
Proof. intros O Hk. split; [done|done|done|]. intros o _. bcases; cbn [andb]; done || lia. Qed.

(** The sector [i] of the cluster is written with a chunk of the buffer. *)
Lemma wrote_one s i c so chunk written buffer : st_ok s -> data_cluster (vol s) c -> 0 <= i < sectors_per_cluster (v_bpb (vol s)) ->
  0 <= so -> 0 <= chunk -> so + chunk <= 512 -> 0 <= written -> written + chunk <= len buffer -> Forall is_u8 buffer ->
  exists s1 s2 s3,
    attempt (if negb (so =? 0) || negb (chunk =? FAT16_SECTOR_SIZE) then read_sector (clba (vol s) c + i) else ret tt) s = (Some (Some tt), s1) /\
    edit_buffer (put_bytes so (slice_at written chunk buffer)) s1 = (Some tt, s2) /\
    write_sector (clba (vol s) c + i) s2 = (Some tt, s3) /\ wrote s s3 c (i * 512 + so) chunk written buffer.
Proof.
  intros O Hc Hi Hs Hch Hsc Hw Hwb F. set (x := clba (vol s) c + i). destruct (csize_facts s O) as [Ec Hcs].
  destruct (slice_at_facts buffer written chunk Hw Hch Hwb F) as (L & F' & G).
  assert (R : exists s1, attempt (if negb (so =? 0) || negb (chunk =? FAT16_SECTOR_SIZE) then read_sector x else ret tt) s = (Some (Some tt), s1) /\
    keeps s s1 /\ forall o, 0 <= o < 512 -> ~ (so <= o < so + chunk) -> arr_get (sector_buffer s1) o = arr_get (S_ s x) o).
  { destruct (_ || _) eqn:Eb.
    - destruct (read_sector_run s x O) as (s1 & E & K & B). unfold attempt. rewrite E. exists s1. split_and!; [done|done|].
      intros o _ _. by rewrite B.
    - exists s. split_and!; [done|by apply fkeeps_refl|]. intros o Ho Hn. apply orb_false_iff in Eb as [E1 E2].
      apply negb_false_iff in E1, E2. apply Z.eqb_eq in E1, E2. unfold FAT16_SECTOR_SIZE in E2. lia. }
  destruct R as (s1 & E1 & (O1 & V1 & X1) & B1).
  destruct (edit_run s1 (put_bytes so (slice_at written chunk buffer)) O1) as (s2 & E2 & (O2 & V2 & X2) & B2);
    [apply put_bytes_sector; [done|lia|done|apply O1]|].
  destruct (write_sector_run s2 x O2) as (s3 & E3 & O3 & V3 & B3 & X3). exists s1, s2, s3.
  split_and!; [done..|]. split; [done|congruence|..].
  - intros y Hy. rewrite X3, X2, X1. destruct (Z.eqb_spec y x) as [->|]; [|done]. destruct Hy. by apply (cluster_sector s c i).
  - intros o Ho. unfold cbyte. rewrite V3, V2, V1, X3. destruct (Z.eqb_spec (clba (vol s) c + o / 512) x) as [Ex|Hne].
    + assert (Ei : o / 512 = i) by (unfold x in Ex; lia). rewrite Ei, B2, patched_sector by (apply O1 || ulia). rewrite L.
      assert (Eo : o = i * 512 + o mod 512) by ulia. pose proof (Z.mod_pos_bound o 512 ltac:(lia)) as Hm.
      bcases; cbn [andb]; try lia; first [rewrite G by lia; f_equal; lia | apply B1; lia].
    + rewrite X2, X1. bcases; cbn [andb]; try done. exfalso. apply Hne. unfold x. assert (o / 512 = i) by ulia. lia.
Qed.
Lemma wrote_trans s s1 s2 c pos k k' w buffer : 0 <= k -> 0 <= k' -> wrote s s1 c pos k w buffer ->
  wrote s1 s2 c (pos + k) k' (w + k) buffer -> wrote s s2 c pos (k + k') w buffer.
Proof.
  intros Hk Hk' [O1 V1 X1 B1] [O2 V2 X2 B2]. rewrite V1 in *. split; [done|congruence|..].
  - intros x Hx. by rewrite X2, X1.
  - intros o Ho. rewrite B2, B1 by done. bcases; cbn [andb]; try lia; first [done | f_equal; lia].
Qed.

Lemma write_sectors_run n sector c off_in size buffer written s : st_ok s -> data_cluster (vol s) c -> 0 <= sector ->
  sector + Z.of_nat n = sectors_per_cluster (v_bpb (vol s)) -> 0 <= off_in < cluster_size_bytes (vol s) ->
  0 <= written <= size -> size <= len buffer -> Forall is_u8 buffer ->
  let pos := Z.max off_in (sector * 512) in
  let k := Z.min (cluster_size_bytes (vol s) - pos) (size - written) in
  exists s', write_sectors n sector (cluster_to_lba (vol s) c) off_in size buffer written s = (Some (true, written + k), s') /\
    wrote s s' c pos k written buffer.
Proof.
  revert sector written s. induction n as [|n IH]; intros sector written s O Hc Hs Hn Ho Hw Hb F pos k; destruct (csize_facts s O) as [Ec Hcs].
  - exists s. split; [|apply wrote_nothing; [done|lia]]. by replace (written + k) with written by lia.
  - cbn [write_sectors]. destruct (Z.ltb_spec written size) as [Hlt|]; cbn [negb].
    2: { exists s. split; [|apply wrote_nothing; [done|lia]]. by replace (written + k) with written by lia. }
    unfold FAT16_SECTOR_SIZE. destruct (Z.leb_spec (sector * 512 + 512) off_in) as [Hsk|Hsk].
    { destruct (IH (sector + 1) written s O Hc ltac:(lia) ltac:(lia) Ho Hw Hb F) as (s' & E & W). exists s'.
      unfold k, pos. by replace (Z.max off_in (sector * 512)) with (Z.max off_in ((sector + 1) * 512)) by lia. }
    destruct (cluster_sector s c sector O Hc ltac:(lia)) as [-> _].
    set (so := if sector * 512 <? off_in then off_in - sector * 512 else 0).
    assert (Hso : 0 <= so < 512 /\ pos = sector * 512 + so) by (unfold so, pos; bcases; lia). destruct Hso as [Hso Hpos].
    set (chunk := Z.min (512 - so) (size - written)).
    destruct (wrote_one s sector c so chunk written buffer) as (s1 & s2 & s3 & E1 & E2 & E3 & W); try done; try lia.
    unfold bind. unfold FAT16_SECTOR_SIZE in E1. rewrite E1, E2. unfold attempt. rewrite E3. rewrite <- Hpos in W.
    pose proof (wr_vol _ _ _ _ _ _ _ W) as V3.
    destruct (IH (sector + 1) (written + chunk) s3 (wr_ok _ _ _ _ _ _ _ W)) as (s' & E & W');
      [by rewrite V3|lia|rewrite V3; lia|by rewrite V3|lia|lia|done|].
    rewrite V3 in E, W'. exists s'.
    replace (Z.max off_in ((sector + 1) * 512)) with (pos + (512 - so)) in E, W' by lia.
    set (k' := Z.min (cluster_size_bytes (vol s) - (pos + (512 - so))) (size - (written + chunk))) in *.
    rewrite E. destruct (decide (chunk = 512 - so)) as [Hch|].
    + split; [do 3 f_equal; lia|]. replace k with (chunk + k') by lia. rewrite <- Hch in W'. apply (wrote_trans s s3); [lia|lia|done|done].
    + assert (k' = Z.min 0 (cluster_size_bytes (vol s) - (pos + (512 - so)))) by lia.
      assert (k' = 0) by lia. assert (k = chunk) by lia. split; [do 3 f_equal; lia|].
      replace k with (chunk + k') by lia. apply (wrote_trans s s3); [lia|lia|done|].
      destruct W' as [A1 A2 A3 A4]. split; [done|done|done|]. intros o Hoo. rewrite A4 by done. bcases; cbn [andb]; done || lia.
Qed.

(** ** A chain *)

(** The same for the bytes of a chain. *)
Record filled s s' (l : list Z) (pos k written : Z) (buffer : list Z) : Prop := {
  fi_ok : st_ok s';
  fi_vol : vol s' = vol s;
  fi_sec : forall x, (forall c, c ∈ l -> ~ in_cluster (vol s) c x) -> S_ s' x = S_ s x;
  fi_byte : forall p, 0 <= p < capacity s l ->
    fbyte s' l p = if (pos <=? p) && (p <? pos + k) then arr_get buffer (written + (p - pos)) else fbyte s l p
}.

(** The table is not among the sectors of a chain. *)
Lemma filled_upd s s' l pos k w buffer : st_ok s -> Forall (data_cluster (vol s)) l -> filled s s' l pos k w buffer ->
  upd s s' (fatv s) (fun x => exists c, c ∈ l /\ in_cluster (vol s) c x).
Proof.
  intros O Hl [F1 F2 F3 F4]. apply upd_outside; [done|done|done|..].
  - intros x (c & Hc & Hx). rewrite Forall_forall in Hl. by apply (cluster_not_fat _ (so_vol _ O) c); [apply Hl|].
  - intros x Hx. apply F3. intros c Hc Hi. apply Hx. by exists c.
Qed.

Lemma cluster_bytes_same s s' c o : st_ok s -> vol s' = vol s -> data_cluster (vol s) c -> 0 <= o < cluster_size_bytes (vol s) ->
  (forall x, in_cluster (vol s) c x -> S_ s' x = S_ s x) -> cbyte s' c o = cbyte s c o.
Proof.
  intros O V Hc Ho E. destruct (csize_facts s O) as [Ec _]. unfold cbyte. rewrite V, E; [done|].
  apply (cluster_sector s c (o / 512)); [done|done|]. split; [apply Z.div_pos; lia|apply Z.div_lt_upper_bound; lia].
Qed.

(** The bytes of a chain are those of its clusters. *)
Lemma fbyte_frame s s' l p : st_ok s -> vol s' = vol s -> Forall (data_cluster (vol s)) l -> 0 <= p < capacity s l ->
  (forall c x, c ∈ l -> in_cluster (vol s) c x -> S_ s' x = S_ s x) -> fbyte s' l p = fbyte s l p.
Proof.
  intros O V Hl Hp E. destruct (csize_facts s O) as [_ Hcs]. unfold fbyte. rewrite V. set (cs := cluster_size_bytes (vol s)) in *.
  assert (Hq : 0 <= p / cs < len l) by (unfold capacity in Hp; split; [apply Z.div_pos; lia|apply Z.div_lt_upper_bound; lia]).
  assert (Hin : arr_get l (p / cs) ∈ l).
  { unfold arr_get. apply list_elem_of_lookup_2 with (Z.to_nat (p / cs)). apply list_lookup_lookup_total_lt. unfold len in Hq. lia. }
  apply cluster_bytes_same; [done|done|by eapply Forall_forall in Hin; [|exact Hl]| |intros x; by apply E].
  apply Z.mod_pos_bound. lia.
Qed.
Lemma capacity_cons s c l : capacity s (c :: l) = cluster_size_bytes (vol s) + capacity s l.
Proof. unfold capacity, len. cbn [length]. lia. Qed.
Lemma capacity_app s l l' : capacity s (l ++ l') = capacity s l + capacity s l'.
Proof. unfold capacity. rewrite len_app. lia. Qed.
Lemma capacity_nonneg s l : st_ok s -> 0 <= capacity s l.
Proof. intros O. destruct (csize_facts s O). apply Z.mul_nonneg_nonneg; [unfold len|]; lia. Qed.

(** The first cluster of a chain is filled, then the others. *)
Lemma filled_cons s s1 s2 c l pos k k' w buffer : st_ok s -> NoDup (c :: l) -> Forall (data_cluster (vol s)) (c :: l) -> 0 <= k' ->
  0 <= pos -> pos + k = cluster_size_bytes (vol s) -> 0 <= k ->
  wrote s s1 c pos k w buffer -> filled s1 s2 l 0 k' (w + k) buffer -> filled s s2 (c :: l) pos (k + k') w buffer.
Proof.
  intros O [Hni _]%NoDup_cons [Hc Hl]%Forall_cons Hk' Hp Hpk Hk [O1 V1 X1 B1] [O2 V2 X2 B2]. rewrite V1 in *. destruct (csize_facts s O) as [_ Hcs].
  assert (Hap : forall a x, a ∈ l -> in_cluster (vol s) a x -> ~ in_cluster (vol s) c x).
  { intros a x Ha. apply (clusters_apart _ (so_vol _ O)). intros ->. done. }
  split; [done|congruence|..].
  - intros x Hx. rewrite X2, X1; [done|apply Hx; by left|]. intros a Ha. apply Hx. by right.
  - intros p Hpp. rewrite capacity_cons in Hpp. destruct (decide (p < cluster_size_bytes (vol s))) as [Hlt|Hge].
    + rewrite !fbyte_head by (rewrite ?V2; lia).
      rewrite (cluster_bytes_same s1 s2) by (rewrite ?V1; done || lia || (intros x Hx; apply X2; intros a Ha Hxa; by apply (Hap a x))).
      rewrite B1 by lia. bcases; cbn [andb]; done || lia.
    + replace p with (cluster_size_bytes (vol s) + (p - cluster_size_bytes (vol s))) by lia.
      pose proof (fbyte_tail s2 c l (p - cluster_size_bytes (vol s)) O2 ltac:(lia)) as T. rewrite V2 in T.
      rewrite T, (fbyte_tail s) by (done || lia).
      unfold capacity in B2. rewrite V1 in B2. fold (capacity s l) in B2. rewrite B2 by lia.
      rewrite (fbyte_frame s s1) by (done || lia || (intros a x Ha Hx; apply X1; by apply (Hap a x))).
      bcases; cbn [andb]; try lia; first [done | f_equal; lia].
Qed.

Lemma write_clusters_run fuel c l off_in size buffer written s : st_ok s -> chain s (c :: l) ->
  0 <= off_in < cluster_size_bytes (vol s) -> 0 <= written <= size -> size <= len buffer -> Forall is_u8 buffer ->
  size - written <= (Z.of_nat fuel - (if off_in =? 0 then 0 else 1)) * 512 ->
  let k := Z.min (capacity s (c :: l) - off_in) (size - written) in
  exists s', write_clusters fuel c off_in size buffer written s = (Some (written + k), s') /\
    filled s s' (c :: l) off_in k written buffer.
Proof.
  revert c l off_in written s. induction fuel as [|fuel IH]; intros c l off_in written s O Hc Ho Hw Hb F Hf k;
    destruct (csize_facts s O) as [Ec Hcs]; pose proof (capacity_nonneg s l O) as Hcap0; pose proof (capacity_cons s c l) as Hcap.
  { assert (k = 0) by (destruct (off_in =? 0); lia). exists s. split; [by replace (written + k) with written by lia|].
    split; [done|done|done|]. intros p _. bcases; cbn [andb]; done || lia. }
  pose proof (chain_head _ _ _ Hc) as Hd. cbn [write_clusters]. unfold with_state. rewrite (proj2 (cluster_is_data_iff _ _) Hd), andb_true_r.
  destruct (Z.ltb_spec written size) as [Hlt|].
  2: { exists s. split; [by replace (written + k) with written by lia|]. split; [done|done|done|]. intros p _. bcases; cbn [andb]; done || lia. }
  pose proof (vo_spc _ (so_vol _ O)) as Hspc.
  destruct (write_sectors_run (Z.to_nat (sectors_per_cluster (v_bpb (vol s)))) 0 c off_in size buffer written s) as (s1 & E1 & W1);
    [done|done|lia|lia|done|done|done|done|].
  replace (Z.max off_in (0 * 512)) with off_in in E1, W1 by lia. unfold bind. rewrite E1. cbn [negb orb].
  set (k1 := Z.min (cluster_size_bytes (vol s) - off_in) (size - written)) in *.
  pose proof (wr_vol _ _ _ _ _ _ _ W1) as V1. pose proof (wr_ok _ _ _ _ _ _ _ W1) as O1.
  pose proof (chain_NoDup _ _ O Hc) as Hnd. pose proof (chain_data _ _ Hc) as Hdat.
  (* the chain is as before *)
  assert (U1 : upd s s1 (fatv s) (in_cluster (vol s) c)).
  { apply upd_outside; [done|done|done|intros x Hx; by apply (cluster_not_fat _ (so_vol _ O) c)|apply W1]. }
  assert (Hlast : k1 = k -> filled s s1 (c :: l) off_in k written buffer).
  { intros Hkk. rewrite <- Hkk. destruct W1 as [A1 A2 A3 A4]. split; [done|done|intros x Hx; apply A3, Hx; by left|].
    intros p Hp. destruct (decide (p < cluster_size_bytes (vol s))).
    - rewrite !fbyte_head by (rewrite ?A2; lia). apply A4. lia.
    - replace p with (cluster_size_bytes (vol s) + (p - cluster_size_bytes (vol s))) by lia.
      pose proof (fbyte_tail s1 c l (p - cluster_size_bytes (vol s)) A1 ltac:(lia)) as T. rewrite A2 in T.
      rewrite T, (fbyte_tail s) by (done || lia).
      rewrite (fbyte_frame s s1);
        [bcases; cbn [andb]; first [done | lia]|done|done|exact (Forall_inv_tail Hdat)|lia|].
      intros a x Ha Hx. apply A3. apply (clusters_apart _ (so_vol _ O) a); [|done]. apply NoDup_cons in Hnd as [Hni _]. intros ->. done. }
  destruct (Z.ltb_spec (written + k1) size) as [Hmore|]; cbn [negb].
  2: { exists s1. assert (k1 = k) by lia. split; [by replace (written + k) with (written + k1) by lia|by apply Hlast]. }
  assert (Hfc : fatv s1 c = fatv s c) by (apply (up_fat _ _ _ _ U1), (data_facts _ (so_vol _ O)); done).
  destruct (read_fat_run s1 c O1) as (s2 & E2 & K2). pose proof K2 as (O2 & V2 & X2). unfold attempt. rewrite E2, Hfc.
  destruct l as [|c' l].
  - apply chain_one in Hc as [_ He]. unfold FAT16_EOC in He |- *. destruct (Z.leb_spec 0xFFF8 (fatv s c)); [|lia]. rewrite orb_true_r.
    assert (k1 = k) by (change (capacity s []) with 0 in *; lia). cbn [orb]. exists s2.
    split; [by replace (written + k) with (written + k1) by lia|]. destruct (Hlast ltac:(done)) as [A1 A2 A3 A4].
    split; [done|congruence|intros; rewrite X2; by apply A3|]. intros p Hp. rewrite (keeps_fbyte s1 s2) by done. by apply A4.
  - pose proof Hc as (_ & Enx & Ht)%chain_two. pose proof (chain_head _ _ _ Ht) as Hd'. rewrite Enx.
    pose proof (data_not_eoc _ _ O Hd') as [N1 N2]. rewrite (proj2 (cluster_is_data_iff _ _) Hd'). unfold FAT16_EOC, FAT16_BAD_CLUSTER in *.
    destruct (Z.leb_spec 0xFFF8 c'), (Z.eqb_spec c' 0xFFF7); try lia. cbn [negb orb].
    assert (Ht2 : chain s2 (c' :: l)).
    { apply (fchain_frame s1); [done|intros; by apply keeps_fatv|]. apply (fchain_frame s); [done| |done].
      intros a Ha. apply (up_fat _ _ _ _ U1). by eapply chain_in_fat. }
    destruct (IH c' l 0 (written + k1) s2 O2 Ht2) as (s' & E & Fi); [rewrite V2, V1; lia|lia|done|done|cbn; destruct (off_in =? 0) eqn:?; lia|].
    unfold capacity in E, Fi. rewrite V2, V1 in E, Fi. fold (capacity s (c' :: l)) in E, Fi. rewrite Z.sub_0_r in E, Fi.
    set (k2 := Z.min (capacity s (c' :: l)) (size - (written + k1))) in *. exists s'. rewrite E.
    assert (k = k1 + k2) by lia. split; [by replace (written + k) with (written + k1 + k2) by lia|]. replace k with (k1 + k2) by lia.
    eapply (filled_cons s s2); [done|done|done|lia|lia|lia|lia| |done]. destruct W1 as [A1 A2 A3 A4].
    split; [done|congruence|intros; rewrite X2; by apply A3|]. intros o Hoo. rewrite (keeps_cbyte s1 s2) by done. by apply A4.
Qed.
End Write.
