(* ===== verification/Fat16File.v ===== *)
(** Files of src/src/drivers/fat16.c: [fat16_vfs_write] and [fat16_vfs_truncate] as
    changes of one chain and of its directory entry, and the invariant of a set of
    open files. *)

From S2P Require Import Prelude Fat16 Fat16Fat Fat16Chain Fat16Read Fat16Write.

Section Files.
Context {D : Type} `{SectorDevLaws D}.
Implicit Types s : fat16_state D.

(** The chain of a file; an empty file has no cluster. *)
Definition owns s (first : Z) (l : list Z) : Prop :=
  match l with [] => ~ data_cluster (vol s) first | c :: _ => first = c /\ chain s l end.

Lemma owns_chain s first l : owns s first l -> l <> [] -> chain s l.
Proof. destruct l; [done|]. by intros [_ ?]. Qed.
Lemma owns_data s first l : owns s first l -> Forall (data_cluster (vol s)) l.
Proof. destruct l; [intros _; by apply Forall_nil|]. intros [_ ?]. by apply chain_data. Qed.
Lemma owns_NoDup s first l : st_ok s -> owns s first l -> NoDup l.
Proof. destruct l; [intros; constructor|]. intros ? [_ ?]. by eapply chain_NoDup. Qed.
Lemma owns_is_data s first l : owns s first l -> cluster_is_data (vol s) first = bool_decide (l <> []).
Proof.
  destruct l as [|c l].
  - intros Hn. cbn in Hn. destruct (cluster_is_data _ _) eqn:E; [by apply cluster_is_data_iff in E|]. by rewrite bool_decide_eq_false_2 by auto.
  - intros [-> Hc]. rewrite bool_decide_eq_true_2 by done. by apply cluster_is_data_iff, (chain_head s c l).
Qed.

(** No free cluster is left. *)
Definition full s : Prop := forall b, data_cluster (vol s) b -> fatv s b <> 0.

(** ** Extending a file *)

Lemma extended_first s s1 s' c ext : st_ok s -> takes s s1 c -> extended s1 s' [c] ext -> extended s s' [] (c :: ext).
Proof.
  intros O (T1 & T2 & [U1 U2 U3 U4 U5] & T4) [X1 X2 X3 X4 X5 X6 X7 X8]. rewrite U2 in *. pose proof (so_vol _ O) as V.
  assert (Hext : forall a, a ∈ ext -> data_cluster (vol s) a /\ fatv s a = 0 /\ a <> c).
  { intros a Ha. rewrite Forall_forall in X4. destruct (X4 _ Ha) as [Hd Hz]. rewrite U3 in Hz by (by apply (data_facts _ V)).
    destruct (Z.eqb_spec a c); [done|]. done. }
  split; [done|congruence|by intros _; apply X3|..].
  - apply Forall_cons. split; [done|]. rewrite Forall_forall. intros a Ha. by destruct (Hext a Ha) as (? & ? & _).
  - intros a Ha Hn. cbn in Hn. rewrite X5, U3 by done. destruct (Z.eqb_spec a c) as [->|]; [|done]. by destruct Hn; left.
  - intros a x [->|Ha]%elem_of_cons Hx; [|by apply (X6 a)].
    rewrite X7; [by apply T4|by apply (cluster_not_fat _ V c)|]. intros a Ha. destruct (Hext a Ha) as (_ & _ & Hne).
    by apply (clusters_apart _ V c); [congruence|].
  - intros x Hx Hn. rewrite X7; [|done|intros a Ha; apply Hn; by right]. apply U4; [done|]. apply Hn. by left.
  - auto.
Qed.

Definition head_or (first : Z) (l : list Z) : Z := match l with [] => first | c :: _ => c end.

(** The loops shared by writing and truncating: [m] is the loop, [n] the number of
    clusters wanted. *)
Lemma grow_run {A} (loop : Z -> M D A) (Q : A -> fat16_state D -> list Z -> Prop) first l n s : st_ok s -> owns s first l ->
  (forall c t u, st_ok u -> chain u (c :: t) -> exists r s' ext, loop c u = (r, s') /\ extended u s' (c :: t) ext /\
     match r with
     | Some a => Q a s' (c :: t ++ ext) /\ length ext = (n - length t)%nat
     | None => full s' /\ (length t + length ext < n)%nat
     end) ->
  exists r s' ext,
    (let! f := attempt (if cluster_is_data (vol s) first then ret first else allocate_cluster_unlocked) in
     match f with
     | None => ret (None, first)
     | Some cluster => let! r := attempt (loop cluster) in ret (r, cluster)
     end) s = (Some (r, head_or first (l ++ ext)), s') /\ extended s s' l ext /\
    match r with
    | Some a => l ++ ext <> [] /\ Q a s' (l ++ ext) /\ length ext = (S n - length l)%nat
    | None => full s' /\ (length (l ++ ext) <= n)%nat
    end.
Proof.
  intros O Ho Hloop. rewrite (owns_is_data _ _ _ Ho). unfold bind, attempt. destruct l as [|c l].
  - rewrite bool_decide_eq_false_2 by auto. destruct (allocate_run s O) as (r & s1 & E1 & P). rewrite E1. destruct r as [a|].
    + destruct P as [T _]. pose proof (takes_extended _ _ _ O T) as X1.
      destruct (Hloop a [] s1 (ex_ok _ _ _ _ X1) (ex_chain _ _ _ _ X1 ltac:(done))) as (r & s' & ext & E & X & P). rewrite E.
      exists r, s', (a :: ext). split; [done|]. split; [by eapply extended_first|].
      destruct r; cbn in *; [destruct P; split_and!; [done|done|lia]|destruct P; split; [done|lia]].
    + destruct P as [K Hf]. exists None, s1, []. split_and!; [done|by apply extended_refl| |cbn; lia].
      intros b Hb. rewrite (keeps_fatv _ _ _ K). apply Hf. by destruct K as (_ & <- & _).
  - destruct Ho as [-> Hc]. rewrite bool_decide_eq_true_2 by done.
    destruct (Hloop c l s O Hc) as (r & s' & ext & E & X & P). cbn [ret]. rewrite E. exists r, s', ext. split_and!; [done|done|].
    destruct r; cbn in *; [destruct P; split_and!; [done|done|lia]|destruct P; split; [done|rewrite length_app; lia]].
Qed.

Lemma required_clusters v n : 0 < n -> 0 < cluster_size_bytes v -> n + cluster_size_bytes v <= 4294967296 ->
  let r := clusters_required_for_size v n in
  0 < r /\ n <= r * cluster_size_bytes v /\ (r - 1) * cluster_size_bytes v < n /\ r = file_clusters_required v n.
Proof.
  intros Hn Hc Hb r. unfold r, clusters_required_for_size, file_clusters_required. set (cs := cluster_size_bytes v) in *.
  destruct (Z.eqb_spec n 0); [lia|]. destruct (Z.eqb_spec cs 0); [lia|]. destruct (Z.ltb_spec 0xFFFFFFFF n); [lia|]. cbn [orb].
  rewrite (u32_id n), u32_id by (unfold is_u32; lia).
  pose proof (Z.div_mod (n + cs - 1) cs ltac:(lia)) as Hd. pose proof (Z.mod_pos_bound (n + cs - 1) cs Hc) as Hm.
  set (q := (n + cs - 1) / cs) in *. assert (0 < q) by nia. split_and!; [done|nia|nia|done].
Qed.

Lemma ensure_run data l end_offset s : st_ok s -> owns s (nd_first_cluster data) l -> 0 < end_offset ->
  end_offset + cluster_size_bytes (vol s) <= 4294967296 ->
  exists ok s' ext, ensure_chain_capacity data end_offset s =
      (Some (ok, data <| nd_first_cluster := head_or (nd_first_cluster data) (l ++ ext) |>), s') /\
    extended s s' l ext /\
    if ok : bool then l ++ ext <> [] /\ end_offset <= capacity s (l ++ ext) else full s' /\ capacity s (l ++ ext) < end_offset.
Proof.
  intros O Ho Hn Hb. destruct (csize_facts s O) as [_ Hcs]. destruct (required_clusters (vol s) end_offset) as (R1 & R2 & R3 & _); [lia..|].
  set (n := clusters_required_for_size (vol s) end_offset) in *.
  destruct (grow_run (fun c => ensure_loop (Z.to_nat (n - 1)) c) (fun _ _ _ => True) (nd_first_cluster data) l (Z.to_nat (n - 1)) s O Ho)
    as (r & s' & ext & E & X & P).
  { intros c t u Ou Hu. destruct (ensure_loop_run (Z.to_nat (n - 1)) c t u Ou Hu) as (r & s' & ext & E & X & P).
    exists r, s', ext. split_and!; [done|done|]. destruct r; [done|]. destruct P as [P1 P2]. split; [|done].
    intros b Hb'. apply P1. by rewrite <- (ex_vol _ _ _ _ X). }
  exists (match r with Some _ => true | None => false end), s', ext. split_and!; [|done|].
  - unfold ensure_chain_capacity, with_state, bind, attempt in *. fold n.
    destruct ((if cluster_is_data (vol s) (nd_first_cluster data) then ret (nd_first_cluster data) else allocate_cluster_unlocked) s) as [[f|] s1].
    + destruct (ensure_loop (Z.to_nat (n - 1)) f s1) as [r1 s2]. injection E as -> -> ->. by destruct r.
    + injection E as <- Ef <-. rewrite <- Ef. by destruct data.
  - unfold capacity, len. destruct r.
    + destruct P as (P1 & _ & P3). split; [done|]. rewrite length_app. nia.
    + destruct P as [P1 P2]. split; [done|]. nia.
Qed.

(** ** The directory entry *)

Lemma entry_get buf i o : is_sector buf -> 0 <= i < 16 -> 0 <= o < 32 -> arr_get (entry_of buf i) o = arr_get buf (32 * i + o).
Proof.
  intros [L F] Hi Ho. unfold entry_of, ENTRY_SIZE. rewrite slice_at_span by lia. by rewrite span_get.
Qed.

Lemma patch_get i c n buf o : is_sector buf -> 0 <= i < 16 -> 0 <= o < 512 ->
  arr_get (patch_entry i c n buf) o =
    if o =? 32 * i + 11 then Z.lor (arr_get buf (32 * i + 11)) FAT16_ATTR_ARCHIVE
    else if (32 * i + 26 <=? o) && (o <? 32 * i + 28) then arr_get (le16 c) (o - (32 * i + 26))
    else if (32 * i + 28 <=? o) && (o <? 32 * i + 32) then arr_get (le32 n) (o - (32 * i + 28))
    else arr_get buf o.
Proof.
  intros S Hi Ho. unfold patch_entry, ENTRY_SIZE, write_u16, write_u32. pose proof S as [L F].
  assert (L16 : len (le16 c) = 2) by done. assert (L32 : len (le32 n) = 4) by done.
  set (b1 := put_bytes (32 * i + 26) (le16 c) buf). assert (L1 : len b1 = 512) by (unfold b1; rewrite len_put_bytes; lia).
  set (b2 := put_bytes (32 * i + 28) (le32 n) b1). assert (L2 : len b2 = 512) by (unfold b2; rewrite len_put_bytes; lia).
  assert (G : forall j, 0 <= j < 512 -> arr_get b2 j =
    if (32 * i + 26 <=? j) && (j <? 32 * i + 28) then arr_get (le16 c) (j - (32 * i + 26))
    else if (32 * i + 28 <=? j) && (j <? 32 * i + 32) then arr_get (le32 n) (j - (32 * i + 28)) else arr_get buf j).
  { intros j Hj. unfold b2. rewrite put_bytes_get by lia. unfold b1. rewrite put_bytes_get by lia. rewrite L16, L32. bcases; cbn [andb]; done || lia. }
  destruct (Z.eqb_spec o (32 * i + 11)) as [->|Hne].
  - rewrite arr_get_set_eq by lia. rewrite G by lia. bcases; cbn [andb]; done || lia.
  - rewrite arr_get_set_ne by lia. by apply G.
Qed.

Lemma lor_u8 a b : is_u8 a -> is_u8 b -> is_u8 (Z.lor a b).
Proof.
  unfold is_u8. intros Ha Hb. pose proof (proj2 (Z.lor_nonneg a b) ltac:(lia)) as Hn. split; [done|].
  destruct (decide (Z.lor a b = 0)) as [->|]; [done|]. change 256 with (2 ^ 8). apply Z.log2_lt_pow2; [lia|].
  rewrite Z.log2_lor by lia. assert (X : forall x, 0 <= x < 256 -> Z.log2 x < 8); [|apply Z.max_lub_lt; by apply X].
  intros x Hx. destruct (decide (x = 0)) as [->|]; [done|]. apply Z.log2_lt_pow2; lia.
Qed.

Lemma patch_sector i c n buf : is_sector buf -> 0 <= i < 16 -> is_sector (patch_entry i c n buf).
Proof.
  intros S Hi. unfold patch_entry, ENTRY_SIZE.
  pose proof (write_u32_sector (32 * i + 28) n _ ltac:(lia) ltac:(lia) (write_u16_sector (32 * i + 26) c buf ltac:(lia) ltac:(lia) S)) as [L F].
  split; [by rewrite len_arr_set|]. apply arr_set_Forall; [done|].
  apply lor_u8; [apply (arr_get_Forall is_u8); [done|lia]|by unfold is_u8, FAT16_ATTR_ARCHIVE].
Qed.

(** The entry gets the first cluster and the size; the others are not touched. *)
Lemma patch_entry_same i c n buf : is_sector buf -> 0 <= i < 16 -> is_u16 c -> is_u32 n ->
  ent_cluster (entry_of (patch_entry i c n buf) i) = c /\ ent_size (entry_of (patch_entry i c n buf) i) = n.
Proof.
  intros S Hi Hc Hn. pose proof (patch_sector i c n buf S Hi) as S'. unfold ent_cluster, ent_size, read_u32, read_u16.
  rewrite !entry_get by (done || lia). rewrite !patch_get by (done || lia). rewrite le16_facts, le32_facts by done. bcases. cbn [andb].
  replace (32 * i + 26 - (32 * i + 26)) with 0 by lia. replace (32 * i + (26 + 1) - (32 * i + 26)) with 1 by lia.
  replace (32 * i + 28 - (32 * i + 28)) with 0 by lia. replace (32 * i + (28 + 1) - (32 * i + 28)) with 1 by lia.
  replace (32 * i + (28 + 2) - (32 * i + 28)) with 2 by lia. replace (32 * i + (28 + 2 + 1) - (32 * i + 28)) with 3 by lia.
  unfold arr_get. change (Z.to_nat 0) with 0%nat. change (Z.to_nat 1) with 1%nat. change (Z.to_nat 2) with 2%nat. change (Z.to_nat 3) with 3%nat.
  cbn [lookup_total list_lookup_total]. split; ulia.
Qed.
Lemma patch_entry_other i j c n buf : is_sector buf -> 0 <= i < 16 -> 0 <= j < 16 -> i <> j ->
  entry_of (patch_entry i c n buf) j = entry_of buf j.
Proof.
  intros S Hi Hj Hne. pose proof (patch_sector i c n buf S Hi) as S'. unfold entry_of, ENTRY_SIZE. destruct S as [L F], S' as [L' F'].
  rewrite !slice_at_span by lia. apply span_eq. intros o Ho. rewrite patch_get by (done || lia). bcases; cbn [andb]; done || lia.
Qed.

Lemma update_entry_run data s : st_ok s -> dir_entry_lba data <> 0 -> 0 <= dir_entry_index data < 16 -> exists s',
  update_entry_unlocked data s = (Some tt, s') /\ st_ok s' /\ vol s' = vol s /\
  forall x, S_ s' x = if x =? dir_entry_lba data
    then patch_entry (dir_entry_index data) (nd_first_cluster data) (nd_size data) (S_ s x) else S_ s x.
Proof.
  intros O Hl Hi. unfold update_entry_unlocked. change ENTRIES_PER_SECTOR with 16. destruct (Z.eqb_spec (dir_entry_lba data) 0); [done|].
  destruct (Z.leb_spec 16 (dir_entry_index data)); [lia|]. cbn [orb].
  destruct (read_sector_run s (dir_entry_lba data) O) as (s1 & E1 & (O1 & V1 & X1) & B1). unfold bind. rewrite E1.
  destruct (edit_run s1 (patch_entry (dir_entry_index data) (nd_first_cluster data) (nd_size data)) O1) as (s2 & E2 & (O2 & V2 & X2) & B2);
    [apply patch_sector; [apply O1|done]|]. rewrite E2.
  destruct (write_sector_run s2 (dir_entry_lba data) O2) as (s3 & E3 & O3 & V3 & B3 & X3). rewrite E3. exists s3.
  split_and!; [done|done|congruence|]. intros x. rewrite X3, B2, B1, X2, X1. by destruct (Z.eqb_spec x (dir_entry_lba data)) as [->|].
Qed.
(** ** A chain and a directory entry change *)

(** The chain [l] of a file becomes [l'], which takes free clusters only, and the
    sector [x] of the directory may change; nothing else does. *)
Record rechained s s' (l l' : list Z) (dir : Z -> Prop) : Prop := {
  re_ok : st_ok s';
  re_vol : vol s' = vol s;
  re_chain : l' <> [] -> chain s' l';
  re_new : forall c, c ∈ l' -> c ∈ l \/ (data_cluster (vol s) c /\ fatv s c = 0);
  re_fat : forall c, in_fat (vol s) c -> c ∉ l -> c ∉ l' -> fatv s' c = fatv s c;
  re_sec : forall x, ~ fat_region (vol s) x -> (forall c, c ∈ l \/ c ∈ l' -> ~ in_cluster (vol s) c x) -> ~ dir x -> S_ s' x = S_ s x;
  re_mirror : mirrored s -> mirrored s'
}.

Lemma extended_rechained s s' l ext : extended s s' l ext -> rechained s s' l (l ++ ext) (fun _ => False).
Proof.
  intros [X1 X2 X3 X4 X5 X6 X7 X8]. split; [done|done|done|..|done].
  - intros c [?|Hc]%elem_of_app; [by left|]. right. rewrite Forall_forall in X4. by apply X4.
  - intros c Hf _ Hc. by apply X5.
  - intros x Hx Hc _. apply X7; [done|]. intros c Hin. apply Hc. right. apply elem_of_app. by right.
Qed.

(** Changes to the sectors of the new chain and of the directory keep it so. *)
Lemma rechained_then s s1 s' l l' (dir : Z -> Prop) : st_ok s -> rechained s s1 l l' (fun _ => False) -> st_ok s' -> vol s' = vol s1 ->
  Forall (data_cluster (vol s)) l' -> (forall x, dir x -> ~ fat_region (vol s) x) ->
  (forall x, (forall c, c ∈ l' -> ~ in_cluster (vol s) c x) -> ~ dir x -> S_ s' x = S_ s1 x) -> rechained s s' l l' dir.
Proof.
  intros O [X1 X2 X3 X4 X5 X6 X7] O' V' Hl' Hdir E. rewrite Forall_forall in Hl'.
  assert (U : upd s1 s' (fatv s1) (fun x => (exists c, c ∈ l' /\ in_cluster (vol s) c x) \/ dir x)).
  { apply upd_outside; [done|done|done|..].
    - rewrite X2. intros x [(c & Hc & Hx)|Hx]; [|by apply Hdir]. by apply (cluster_not_fat _ (so_vol _ O) c); [apply Hl'|].
    - intros x Hx. apply E; [|tauto]. intros c Hc Hi. apply Hx. left. by exists c. }
  split; [done|congruence| |done|..].
  - intros Hne. eapply fchain_frame; [done| |by apply X3]. intros c Hc. apply (up_fat _ _ _ _ U). rewrite X2. by apply (data_facts _ (so_vol _ O)), Hl'.
  - intros c Hc H1 H2. rewrite (up_fat _ _ _ _ U) by (by rewrite X2). by apply X5.
  - intros x Hx Hc Hd. rewrite E; [apply X6; tauto| |done]. intros c Hin. apply Hc. by right.
  - intros M. apply (up_mirror _ _ _ _ U), X7, M.
Qed.

(** The directory entry of a file is outside the table, the chain and the free
    clusters. *)
Record slot_ok s (data : fat16_node_data) (l : list Z) : Prop := {
  sl_lba : dir_entry_lba data <> 0;
  sl_index : 0 <= dir_entry_index data < 16;
  sl_fat : ~ fat_region (vol s) (dir_entry_lba data);
  sl_cluster : forall c, data_cluster (vol s) c -> in_cluster (vol s) c (dir_entry_lba data) -> c ∉ l /\ fatv s c <> 0
}.

Lemma slot_apart s s' data l l' : slot_ok s data l -> rechained s s' l l' (fun _ => False) -> Forall (data_cluster (vol s)) l ->
  forall c, c ∈ l \/ c ∈ l' -> ~ in_cluster (vol s) c (dir_entry_lba data).
Proof.
  intros [S1 S2 S3 S4] [X1 X2 X3 X4 X5 X6 X7] Hl c Hc Hi. rewrite Forall_forall in Hl.
  assert (Hd : c ∈ l \/ data_cluster (vol s) c /\ fatv s c = 0) by (destruct Hc; [by left|by apply X4]).
  destruct Hd as [Hd|[Hd Hz]]; [by destruct (S4 c (Hl _ Hd) Hi)|]. by destruct (S4 c Hd Hi).
Qed.

(** ** Bytes of appended chains *)

Lemma fbyte_app_l s l k p : st_ok s -> 0 <= p < capacity s l -> fbyte s (l ++ k) p = fbyte s l p.
Proof.
  intros O Hp. destruct (csize_facts s O) as [_ Hcs]. unfold fbyte, capacity in *. set (cs := cluster_size_bytes (vol s)) in *.
  assert (Hq : 0 <= p / cs < len l) by (split; [apply Z.div_pos; lia|apply Z.div_lt_upper_bound; lia]).
  f_equal. unfold arr_get, len in *. by rewrite lookup_total_app_l by lia.
Qed.
Lemma fbyte_app_r s l k p : st_ok s -> 0 <= p -> fbyte s (l ++ k) (capacity s l + p) = fbyte s k p.
Proof.
  intros O Hp. destruct (csize_facts s O) as [_ Hcs]. unfold fbyte, capacity in *. set (cs := cluster_size_bytes (vol s)) in *.
  replace (len l * cs + p) with (p + len l * cs) by lia. rewrite Z.div_add, Z.mod_add by lia.
  pose proof (Z.div_pos p cs Hp ltac:(lia)). f_equal. unfold arr_get, len in *. rewrite lookup_total_app_r by lia. f_equal. lia.
Qed.

Lemma fbyte_zero s l p : st_ok s -> Forall (data_cluster (vol s)) l -> 0 <= p < capacity s l ->
  (forall c x, c ∈ l -> in_cluster (vol s) c x -> S_ s x = replicate 512 0) -> fbyte s l p = 0.
Proof.
  intros O Hl Hp E. destruct (csize_facts s O) as [Ec Hcs]. unfold fbyte, cbyte, capacity in *. set (cs := cluster_size_bytes (vol s)) in *.
  assert (Hq : 0 <= p / cs < len l) by (split; [apply Z.div_pos; lia|apply Z.div_lt_upper_bound; lia]).
  assert (Hin : arr_get l (p / cs) ∈ l).
  { unfold arr_get. apply list_elem_of_lookup_2 with (Z.to_nat (p / cs)). apply list_lookup_lookup_total_lt. unfold len in Hq. lia. }
  pose proof (Z.mod_pos_bound p cs ltac:(lia)) as Hm. rewrite (E (arr_get l (p / cs))); [|done|].
  - apply arr_get_replicate. pose proof (Z.mod_pos_bound (p mod cs) 512 ltac:(lia)). lia.
  - eapply Forall_forall in Hin; [|exact Hl]. apply (cluster_sector s _ (p mod cs / 512)); [done|done|].
    split; [apply Z.div_pos; lia|apply Z.div_lt_upper_bound; lia].
Qed.

(** The new clusters hold zeros, the old ones what they held. *)
Lemma extended_bytes s s' l ext p : st_ok s -> Forall (data_cluster (vol s)) l -> (forall c, c ∈ l -> fatv s c <> 0) ->
  extended s s' l ext -> 0 <= p < capacity s (l ++ ext) ->
  fbyte s' (l ++ ext) p = if p <? capacity s l then fbyte s l p else 0.
Proof.
  intros O Hl Hu [X1 X2 X3 X4 X5 X6 X7 X8] Hp. rewrite capacity_app in Hp.
  assert (Ecap : forall k, capacity s' k = capacity s k) by (intros; unfold capacity; by rewrite X2).
  destruct (Z.ltb_spec p (capacity s l)).
  - rewrite fbyte_app_l by (rewrite ?Ecap; done || lia). apply fbyte_frame; [done|done|done|lia|].
    intros c x Hc Hx. rewrite Forall_forall in Hl, X4. apply X7; [by apply (cluster_not_fat _ (so_vol _ O) c); [apply Hl|]|].
    intros a Ha. apply (clusters_apart _ (so_vol _ O) c); [|done]. intros ->. destruct (X4 _ Ha) as [_ Hz]. by apply (Hu a).
  - replace p with (capacity s' l + (p - capacity s l)) by (rewrite Ecap; lia). rewrite fbyte_app_r by (done || lia).
    apply fbyte_zero; [done| |rewrite Ecap; lia|].
    + rewrite X2. eapply Forall_impl; [exact X4|]. by intros c [? _].
    + rewrite X2. intros c x Hc. by apply X6.
Qed.

(** Writing to the end of a chain. *)
Lemma filled_app s s' pre l pos k w buffer : st_ok s -> NoDup (pre ++ l) -> Forall (data_cluster (vol s)) (pre ++ l) -> 0 <= pos ->
  filled s s' l pos k w buffer -> filled s s' (pre ++ l) (capacity s pre + pos) k w buffer.
Proof.
  intros O Hnd Hdat Hp [F1 F2 F3 F4]. apply NoDup_app in Hnd as (_ & Hni & _). apply Forall_app in Hdat as [Hd1 Hd2].
  pose proof (capacity_nonneg s pre O) as Hc0. assert (Ecap : forall t, capacity s' t = capacity s t) by (intros; unfold capacity; by rewrite F2).
  split; [done|done|..].
  - intros x Hx. apply F3. intros c Hc. apply Hx, elem_of_app. by right.
  - intros p. rewrite capacity_app. intros Hpp. destruct (decide (p < capacity s pre)).
    + rewrite !fbyte_app_l by (rewrite ?Ecap; done || lia). rewrite (fbyte_frame s s'); [bcases; cbn [andb]; done || lia|done|done|done|lia|].
      intros c x Hc Hx. apply F3. intros a Ha. apply (clusters_apart _ (so_vol _ O) c); [|done]. intros ->. by apply (Hni a).
    + pose proof (fbyte_app_r s' pre l (p - capacity s pre) F1 ltac:(lia)) as T'. rewrite Ecap in T'.
      pose proof (fbyte_app_r s pre l (p - capacity s pre) O ltac:(lia)) as T.
      replace (capacity s pre + (p - capacity s pre)) with p in T, T' by lia. rewrite T, T', F4 by lia.
      bcases; cbn [andb]; try lia; first [done | f_equal; lia].
Qed.

(** ** Writing *)

(** The bytes of the file after a write: those of the buffer, those that the chain
    had, and zeros in the new clusters. *)
Definition written_byte s (l : list Z) (offset size : Z) (buffer : list Z) (p : Z) : Z :=
  if (offset <=? p) && (p <? offset + size) then arr_get buffer (p - offset)
  else if p <? capacity s l then fbyte s l p else 0.

Record written s s' (data data' : fat16_node_data) (l l' : list Z) (offset size : Z) (buffer : list Z) : Prop := {
  wt_re : rechained s s' l l' (eq (dir_entry_lba data));
  wt_pre : exists ext, l' = l ++ ext;
  wt_cap : offset + size <= capacity s l';
  wt_data : data' = mk_node_data (head_or 0 l') (Z.max (nd_size data) (offset + size)) (dir_entry_lba data) (dir_entry_index data);
  wt_byte : forall p, 0 <= p < capacity s l' -> fbyte s' l' p = written_byte s l offset size buffer p;
  wt_dir : S_ s' (dir_entry_lba data) =
    patch_entry (dir_entry_index data) (nd_first_cluster data') (nd_size data') (S_ s (dir_entry_lba data))
}.
Lemma filled_keeps s s1 s' l pos k w buffer : keeps s s1 -> filled s1 s' l pos k w buffer -> filled s s' l pos k w buffer.
Proof.
  intros K [F1 F2 F3 F4]. pose proof K as (O1 & V1 & X1). rewrite V1 in *. split; [done|congruence|..].
  - intros x Hx. by rewrite F3.
  - intros p Hp. rewrite F4 by (unfold capacity in *; by rewrite V1). by rewrite (keeps_fbyte s s1).
Qed.

(** The position in a chain. *)
Lemma chain_at s l offset : st_ok s -> chain s l -> 0 <= offset < capacity s l ->
  exists pre c post, l = pre ++ c :: post /\ len pre = offset / cluster_size_bytes (vol s) /\ chain s (c :: post) /\
    offset = capacity s pre + offset mod cluster_size_bytes (vol s) /\ 0 <= offset mod cluster_size_bytes (vol s) < cluster_size_bytes (vol s).
Proof.
  intros O Hc Ho. destruct (csize_facts s O) as [_ Hcs]. unfold capacity in *. set (cs := cluster_size_bytes (vol s)) in *.
  assert (Hq : 0 <= offset / cs < len l) by (split; [apply Z.div_pos; lia|apply Z.div_lt_upper_bound; lia]).
  pose proof (Z.mod_pos_bound offset cs ltac:(lia)) as Hr. pose proof (Z.div_mod offset cs ltac:(lia)) as Hdm.
  destruct (lookup_lt_is_Some_2 l (Z.to_nat (offset / cs))) as [c Hl]; [unfold len in Hq; lia|].
  exists (take (Z.to_nat (offset / cs)) l), c, (drop (S (Z.to_nat (offset / cs))) l).
  pose proof (take_drop_middle _ _ _ Hl) as Hsplit.
  assert (Lp : len (take (Z.to_nat (offset / cs)) l) = offset / cs) by (unfold len in *; rewrite length_take; lia).
  split_and!; [done|done| |rewrite Lp; lia|lia|lia]. apply (chain_suffix s (take (Z.to_nat (offset / cs)) l)); [done|]. by rewrite Hsplit.
Qed.

Lemma put_run c t offset size buffer s : st_ok s -> chain s (c :: t) -> 0 <= offset -> 0 < size ->
  offset + size <= capacity s (c :: t) -> size <= len buffer -> Forall is_u8 buffer ->
  exists c' o' s1 s', cluster_for_offset c offset s = (Some (c', o'), s1) /\
    write_clusters (Z.to_nat (size / FAT16_SECTOR_SIZE + 2)) c' o' size buffer 0 s1 = (Some size, s') /\
    filled s s' (c :: t) offset size 0 buffer.
Proof.
  intros O Hc Ho Hs Hcap Hb F. pose proof (chain_head _ _ _ Hc) as Hd.
  destruct (chain_at s (c :: t) offset O Hc ltac:(lia)) as (pre & c' & post & El & Lp & Hc' & Eo & Hr).
  assert (Lq : (Z.to_nat (offset / cluster_size_bytes (vol s)) <= length t)%nat).
  { apply (f_equal length) in El. rewrite length_app in El. unfold len in Lp. cbn in El. lia. }
  destruct (offset_loop_run (Z.to_nat (offset / cluster_size_bytes (vol s))) c t s O Hc Lq) as (s1 & E1 & K1).
  assert (Enth : (c :: t) !!! Z.to_nat (offset / cluster_size_bytes (vol s)) = c').
  { rewrite El, <- Lp. unfold len. rewrite Nat2Z.id, lookup_total_app_r by lia. by rewrite Nat.sub_diag. }
  rewrite Enth in E1. pose proof K1 as (O1 & V1 & X1).
  assert (Hc1 : chain s1 (c' :: post)) by (eapply fchain_frame; [done|intros; by apply keeps_fatv|done]).
  set (r := offset mod cluster_size_bytes (vol s)) in *.
  assert (Hcap' : capacity s (c :: t) = capacity s pre + capacity s (c' :: post)) by (by rewrite El, capacity_app).
  destruct (write_clusters_run (Z.to_nat (size / FAT16_SECTOR_SIZE + 2)) c' post r size buffer 0 s1 O1 Hc1) as (s' & E & Fi);
    [by rewrite V1|lia|done|done|unfold FAT16_SECTOR_SIZE; destruct (r =? 0); ulia|].
  unfold capacity in E, Fi. rewrite V1 in E, Fi. fold (capacity s (c' :: post)) in E, Fi.
  replace (Z.min (capacity s (c' :: post) - r) (size - 0)) with size in E, Fi by lia.
  exists c', r, s1, s'. split_and!; [|done|].
  - unfold cluster_for_offset, with_state, bind, check. rewrite (proj2 (cluster_is_data_iff _ _) Hd). cbn [ret]. by rewrite E1.
  - rewrite El, Eo. apply filled_app; [done|rewrite <- El; exact (chain_NoDup s _ O Hc)|rewrite <- El; exact (chain_data s _ Hc)|lia|].
    by apply (filled_keeps s s1).
Qed.

Lemma write_chain_run data l offset size buffer s : st_ok s -> owns s (nd_first_cluster data) l -> slot_ok s data l ->
  0 <= offset -> 0 < size <= len buffer -> Forall is_u8 buffer -> offset + size + cluster_size_bytes (vol s) <= 4294967296 ->
  exists n data' s' l', write_chain data offset size buffer s = (Some (n, data'), s') /\
    (n = size /\ written s s' data data' l l' offset size buffer \/
     n = 0 /\ data' = data <| nd_first_cluster := head_or (nd_first_cluster data) l' |> /\ full s' /\ capacity s l' < offset + size /\
     exists ext, l' = l ++ ext /\ extended s s' l ext).
Proof.
  intros O Ho Sl Hof Hs F Hb. destruct (csize_facts s O) as [_ Hcs]. pose proof (owns_data _ _ _ Ho) as Hdat.
  assert (Hu : forall c, c ∈ l -> fatv s c <> 0).
  { intros c Hc. eapply chain_used; [done| |done]. eapply owns_chain; [done|]. by intros ->; apply elem_of_nil in Hc. }
  unfold write_chain. rewrite (u64_id (offset + size)) by (unfold is_u64; lia).
  destruct (Z.eqb_spec size 0); [lia|]. destruct (Z.ltb_spec 0xFFFFFFFF offset); [lia|]. destruct (Z.ltb_spec 0xFFFFFFFF (offset + size)); [lia|].
  cbn [orb]. rewrite (u32_id (offset + size)), (u32_id offset) by (unfold is_u32; lia).
  destruct (ensure_run data l (offset + size) s O Ho ltac:(lia) Hb) as (ok & s1 & ext & E1 & X & P).
  unfold bind at 1. rewrite E1. destruct ok; cbn [negb].
  2: { destruct P as [P1 P2]. eexists 0, _, s1, (l ++ ext). split; [done|]. right. split_and!; [done|done|done|done|by exists ext]. }
  destruct P as [Hne Hcap]. pose proof (extended_rechained _ _ _ _ X) as R1. pose proof (ex_vol _ _ _ _ X) as V1. pose proof (ex_ok _ _ _ _ X) as O1.
  pose proof (ex_chain _ _ _ _ X Hne) as Hc1. assert (Ecap : forall k, capacity s1 k = capacity s k) by (intros; unfold capacity; by rewrite V1).
  set (l' := l ++ ext) in *. destruct l' as [|c t] eqn:El'; [done|]. cbn [head_or].
  change (nd_first_cluster (data <| nd_first_cluster := c |>)) with c.
  destruct (put_run c t offset size buffer s1 O1 Hc1 Hof ltac:(lia) ltac:(by rewrite Ecap) ltac:(lia) F) as (c' & o' & s2 & s3 & E2 & E3 & Fi).
  unfold bind, attempt. rewrite E2, E3. destruct (Z.ltb_spec 0 size); [|lia].
  rewrite (u64_id (offset + size)), u32_id by (unfold is_u32, is_u64; lia).
  set (data' := mk_node_data c (Z.max (nd_size data) (offset + size)) (dir_entry_lba data) (dir_entry_index data)).
  match goal with |- context [update_entry_unlocked ?e] => assert (Ed : e = data'); [|rewrite Ed] end.
  { unfold data'. change (nd_size (data <| nd_first_cluster := c |>)) with (nd_size data). destruct data as [fc sz lb ix].
    cbn [nd_size dir_entry_lba dir_entry_index]. destruct (Z.ltb_spec sz (offset + size)).
    - change (mk_node_data c (offset + size) lb ix = mk_node_data c (Z.max sz (offset + size)) lb ix). f_equal. lia.
    - change (mk_node_data c sz lb ix = mk_node_data c (Z.max sz (offset + size)) lb ix). f_equal. lia. }
  pose proof (fi_ok _ _ _ _ _ _ _ Fi) as O3. pose proof (fi_vol _ _ _ _ _ _ _ Fi) as V3.
  destruct (update_entry_run data' s3 O3) as (s' & E4 & O4 & V4 & X4); [apply Sl|apply Sl|]. rewrite E4.
  exists size, data', s', (c :: t). split; [done|]. left. split; [done|].
  assert (Hap := slot_apart _ _ _ _ _ Sl R1 Hdat). cbn [dir_entry_lba data'] in X4.
  assert (Hdat' : Forall (data_cluster (vol s)) (c :: t)) by (rewrite <- V1; by apply chain_data).
  split; [|by exists ext|done|done|..].
  - apply (rechained_then s s1 s'); [done|done|done|by rewrite V4, V3|done|intros x <-; apply Sl|].
    intros x Hx Hd. rewrite X4. destruct (Z.eqb_spec x (dir_entry_lba data)); [by destruct Hd|].
    apply (fi_sec _ _ _ _ _ _ _ Fi). by rewrite V1.
  - intros p Hp. rewrite (fbyte_frame s3 s'); [|done|done|by rewrite V3, V1|unfold capacity; by rewrite V3, V1|].
    2: { intros a x Ha Hx. rewrite X4. destruct (Z.eqb_spec x (dir_entry_lba data)) as [->|]; [|done].
         rewrite V3, V1 in Hx. by destruct (Hap a (or_intror Ha)). }
    rewrite (fi_byte _ _ _ _ _ _ _ Fi) by (by rewrite Ecap). unfold written_byte. destruct (_ && _); [done|].
    assert (El : l ++ ext = c :: t) by done. rewrite <- El. apply (extended_bytes s s1); [done|done|done|done|by rewrite El].
  - rewrite X4, Z.eqb_refl. f_equal. rewrite (fi_sec _ _ _ _ _ _ _ Fi); [|rewrite V1; intros a Ha; apply Hap; by right].
    apply (re_sec _ _ _ _ _ R1); [apply Sl|done|tauto].
Qed.
End Files.
