(* ===== verification/Fat16Resize.v ===== *)
(** Resizing files of src/src/drivers/fat16.c: [resize_chain_unlocked] cuts or
    extends the chain of a file and [fat16_vfs_truncate] records the new size. *)

From S2P Require Import Prelude Fat16 Fat16Fat Fat16Chain Fat16Read Fat16Write Fat16File.

Section Resize.
Context {D : Type} `{SectorDevLaws D}.
Implicit Types s : fat16_state D.

(** A chain up to a cluster that gets an end mark. *)
Lemma chain_prefix s s' pre c post : vol s' = vol s -> chain s (pre ++ c :: post) ->
  (forall a, a ∈ pre -> fatv s' a = fatv s a) -> FAT16_EOC <= fatv s' c -> chain s' (pre ++ [c]).
Proof.
  intros V. revert c post. induction pre as [|a pre IH]; intros c post Hc E He.
  - apply chain_one. rewrite V. split; [by eapply chain_head|done].
  - pose proof (chain_head _ _ _ Hc) as Hd. assert (Ht : chain s' (pre ++ [c])).
    { apply (IH c post); [|intros b Hb; apply E; by right|done]. eapply chain_tail; [|exact Hc]. by destruct pre. }
    destruct pre as [|b pre]; cbn in *; apply chain_two in Hc as (_ & Hl & _); apply chain_two; rewrite V, E by (by left); done.
Qed.

Lemma cut_run pre c post s : st_ok s -> chain s (pre ++ c :: post) -> exists e s', cut_chain c s = (Some tt, s') /\ FAT16_EOC <= e /\
  upd s s' (fun b => if b =? c then e else if bool_decide (b ∈ post) then 0 else fatv s b) (fun _ => False).
Proof.
  intros O Hc0. pose proof (chain_suffix s pre (c :: post) ltac:(done) Hc0) as Hc. pose proof (chain_head _ _ _ Hc) as Hd.
  pose proof (data_facts _ (so_vol _ O) c Hd) as (Hcf & _).
  destruct (read_fat_run s c O) as (s1 & E1 & K1). pose proof K1 as (O1 & V1 & X1). unfold cut_chain, with_state, bind. rewrite E1.
  destruct (write_fat_run s1 c FAT16_EOF O1) as (s2 & E2 & U2); [by rewrite V1|by unfold is_u16, FAT16_EOF|].
  apply (upd_keeps _ _ _ _ _ K1) in U2. assert (HE : FAT16_EOC <= FAT16_EOF) by done. destruct post as [|c' post].
  - apply chain_one in Hc as [_ He]. assert (Hnd : cluster_is_data (vol s) (fatv s c) = false).
    { destruct (cluster_is_data _ _) eqn:Ed; [|done]. apply cluster_is_data_iff, (data_not_eoc _ _ O) in Ed. unfold FAT16_EOC, FAT16_BAD_CLUSTER in *. lia. }
    rewrite Hnd. destruct (negb _ && negb _).
    + rewrite E2. exists FAT16_EOF, s2. split_and!; [done|done|]. eapply upd_ext; [|exact U2]. intros b _. cbn.
      rewrite bool_decide_eq_false_2 by apply not_elem_of_nil. by rewrite (keeps_fatv _ _ _ K1).
    + exists (fatv s c), s1. split_and!; [done|done|]. eapply upd_ext; [|by apply keeps_upd]. intros b _. cbn.
      rewrite bool_decide_eq_false_2 by apply not_elem_of_nil. by destruct (Z.eqb_spec b c) as [->|].
  - pose proof (chain_NoDup _ _ O Hc) as [Hni _]%NoDup_cons. apply chain_two in Hc as (_ & -> & Ht). pose proof (chain_head _ _ _ Ht) as Hd'.
    rewrite (proj2 (cluster_is_data_iff _ _) Hd'), E2.
    assert (F2 : forall b, in_fat (vol s) b -> fatv s2 b = if b =? c then FAT16_EOF else fatv s b).
    { intros b Hb. rewrite (up_fat _ _ _ _ U2) by done. by rewrite (keeps_fatv _ _ _ K1). }
    destruct (free_chain_run c' post s2 (up_ok _ _ _ _ U2)) as (s' & E & U).
    { eapply fchain_frame; [apply U2| |done]. intros b Hb. rewrite F2 by (by eapply chain_in_fat). by destruct (Z.eqb_spec b c) as [->|]. }
    rewrite E. exists FAT16_EOF, s'. split_and!; [done|done|]. eapply upd_ext; [|eapply upd_trans; [exact U2|exact U|tauto]].
    intros b Hb. cbn. rewrite F2 by done. destruct (Z.eqb_spec b c) as [->|]; [|done]. by rewrite bool_decide_eq_false_2.
Qed.

(** The chain has [n] clusters, the first ones of the old one and new ones with
    zeros; the clusters cut off are free. *)
Record resized s s' (l l' : list Z) (n : Z) : Prop := {
  rz_re : rechained s s' l l' (fun _ => False);
  rz_len : len l' = n;
  rz_free : forall c, c ∈ l -> c ∉ l' -> fatv s' c = 0;
  rz_byte : forall p, 0 <= p < capacity s l' -> fbyte s' l' p = if p <? capacity s l then fbyte s l p else 0
}.

Lemma used_of_owns s first l c : st_ok s -> owns s first l -> c ∈ l -> fatv s c <> 0.
Proof.
  intros O Ho Hc. eapply chain_used; [done| |done]. eapply owns_chain; [done|]. by intros ->; apply elem_of_nil in Hc.
Qed.

(** All clusters are freed. *)
Lemma resize_empty s first l : st_ok s -> owns s first l -> exists s',
  resize_chain_unlocked first 0 s = (Some (true, 0), s') /\ resized s s' l [] 0.
Proof.
  intros O Ho. unfold resize_chain_unlocked, with_state. rewrite Z.eqb_refl, (owns_is_data _ _ _ Ho). unfold bind, attempt.
  assert (R : forall s', upd s s' (fun b => if bool_decide (b ∈ l) then 0 else fatv s b) (fun _ => False) -> resized s s' l [] 0).
  { intros s' [U1 U2 U3 U4 U5]. pose proof (owns_data _ _ _ Ho) as Hd. rewrite Forall_forall in Hd. split; [|done|..].
    - split; [done|done|done|by intros c ?%elem_of_nil|..|done].
      + intros c Hc H1 _. rewrite U3 by done. by rewrite bool_decide_eq_false_2.
      + intros x Hx _ _. apply U4; [done|tauto].
    - intros c Hc _. rewrite U3 by (by apply (data_facts _ (so_vol _ O)), Hd). by rewrite bool_decide_eq_true_2.
    - intros p Hp. change (capacity s []) with 0 in Hp. lia. }
  destruct l as [|c l].
  - rewrite bool_decide_eq_false_2 by auto. exists s. split; [done|]. apply R. eapply upd_ext; [|by apply keeps_upd, fkeeps_refl].
    intros b _. cbn. by rewrite bool_decide_eq_false_2 by apply not_elem_of_nil.
  - rewrite bool_decide_eq_true_2 by done. destruct Ho as [-> Hc]. destruct (free_chain_run c l s O Hc) as (s' & E & U).
    rewrite E. exists s'. split; [done|]. by apply R.
Qed.

(** The cut after an extension. *)
Lemma resized_cut s s1 s' l ext pre c post e : st_ok s -> Forall (data_cluster (vol s)) l -> (forall a, a ∈ l -> fatv s a <> 0) ->
  extended s s1 l ext -> l ++ ext = pre ++ c :: post -> (length ext = 0 \/ post = [])%nat -> FAT16_EOC <= e ->
  upd s1 s' (fun b => if b =? c then e else if bool_decide (b ∈ post) then 0 else fatv s1 b) (fun _ => False) ->
  resized s s' l (pre ++ [c]) (len pre + 1).
Proof.
  intros O Hl Hu X El Hor He [U1 U2 U3 U4 U5]. pose proof X as [X1 X2 X3 X4 X5 X6 X7 X8]. rewrite X2 in *.
  assert (Hc1 : chain s1 (pre ++ c :: post)) by (rewrite <- El; apply X3; by rewrite El; destruct pre).
  pose proof (chain_NoDup _ _ X1 Hc1) as Hnd. apply NoDup_app in Hnd as (_ & Hnpre & Hnd2). apply NoDup_cons in Hnd2 as [Hcp _].
  assert (Hfat : forall a, a ∈ pre ++ c :: post -> in_fat (vol s) a) by (intros a Ha; rewrite <- X2; by eapply chain_in_fat).
  assert (Hchain : chain s' (pre ++ [c])).
  { eapply chain_prefix; [by rewrite U2, X2|exact Hc1|..].
    - intros a Ha. rewrite U3 by (apply Hfat, elem_of_app; by left). destruct (Z.eqb_spec a c) as [->|]; [by destruct (Hnpre c Ha); left|].
      rewrite bool_decide_eq_false_2; [done|]. intros Hp. apply (Hnpre a Ha). by right.
    - rewrite U3 by (apply Hfat, elem_of_app; right; by left). by rewrite Z.eqb_refl. }
  assert (Hin : forall a, a ∈ pre ++ c :: post <-> a ∈ pre ++ [c] \/ a ∈ post).
  { intros a. rewrite !elem_of_app, elem_of_cons, list_elem_of_singleton. tauto. }
  assert (Hin' : forall a, a ∈ l ++ ext <-> a ∈ pre ++ [c] \/ a ∈ post) by (intros a; rewrite El; apply Hin).
  assert (Hext : forall a, a ∈ ext -> a ∈ pre ++ [c]).
  { intros a Ha. destruct (proj1 (Hin' a)) as [|Hp]; [by apply elem_of_app; right|done|].
    destruct Hor as [Hz|Hz]; [destruct ext; [by apply elem_of_nil in Ha|done]|subst; by apply elem_of_nil in Hp]. }
  assert (Hpost : forall a, a ∈ post -> a ∈ l).
  { intros a Ha. destruct (proj1 (elem_of_app l ext a)) as [|He']; [apply Hin'; by right|done|].
    destruct Hor as [Hz|Hz]; [destruct ext; [by apply elem_of_nil in He'|done]|subst; by apply elem_of_nil in Ha]. }
  assert (Hs' : forall x, ~ fat_region (vol s) x -> S_ s' x = S_ s1 x) by (intros x Hx; apply U4; [done|tauto]).
  split; [|by rewrite len_app|..].
  - split; [done|by rewrite U2|done|..|auto].
    + intros a Ha. destruct (proj1 (elem_of_app l ext a)) as [|Hx]; [apply Hin'; by left|by left|].
      right. rewrite Forall_forall in X4. by apply X4.
    + intros a Ha H1 H2. rewrite U3 by done. assert (a ∉ post) by (intros Hp; by apply H1, Hpost).
      destruct (Z.eqb_spec a c) as [->|]; [destruct H2; apply elem_of_app; right; by left|]. rewrite bool_decide_eq_false_2 by done.
      apply X5; [done|]. rewrite Hin'. tauto.
    + intros x Hx Hc _. rewrite Hs' by done. apply X7; [done|]. intros a Ha. apply Hc. right. by apply Hext.
  - intros a Ha Hn. rewrite U3 by (apply Hfat; rewrite <- El; apply elem_of_app; by left).
    destruct (proj1 (Hin' a)) as [|Hp]; [apply elem_of_app; by left|done|]. destruct (Z.eqb_spec a c) as [->|]; [done|].
    by rewrite bool_decide_eq_true_2.
  - intros p Hp. assert (Hcap : capacity s (pre ++ [c]) <= capacity s (l ++ ext)).
    { rewrite El, !capacity_app, (capacity_cons s c post), (capacity_cons s c []). pose proof (capacity_nonneg s post O).
      change (capacity s []) with 0. lia. }
    rewrite <- (extended_bytes s s1 l ext p O Hl Hu X) by lia. rewrite El.
    assert (Ecap : forall k, capacity s1 k = capacity s k) by (intros; unfold capacity; by rewrite X2).
    replace (pre ++ c :: post) with ((pre ++ [c]) ++ post) by (by rewrite <- app_assoc).
    rewrite (fbyte_app_l s1) by (rewrite ?Ecap; done || lia).
    assert (Hdc : Forall (data_cluster (vol s1)) (pre ++ [c])) by (rewrite X2, <- U2; by apply chain_data).
    apply fbyte_frame; [done|by rewrite U2, X2|done|by rewrite Ecap|].
    intros a x Ha Hx. rewrite Forall_forall in Hdc. apply Hs'. rewrite <- X2. by apply (cluster_not_fat _ (so_vol _ X1) a); [apply Hdc|].
Qed.
Lemma resize_run s first l n : st_ok s -> owns s first l -> 0 < n -> exists ok s' l',
  resize_chain_unlocked first n s = (Some (ok, head_or first l'), s') /\
  if ok : bool then resized s s' l l' n
  else full s' /\ len l' < n /\ exists ext, l' = l ++ ext /\ extended s s' l ext.
Proof.
  intros O Ho Hn. pose proof (owns_data _ _ _ Ho) as Hd. pose proof (fun c => used_of_owns s first l c O Ho) as Hu.
  destruct (grow_run (fun c => resize_loop (Z.to_nat (n - 1)) c) (fun a _ k => k !! Z.to_nat (n - 1) = Some a) first l (Z.to_nat (n - 1)) s O Ho)
    as (r & s1 & ext & E & X & P).
  { intros c t u Ou Hc. destruct (resize_loop_run (Z.to_nat (n - 1)) c t u Ou Hc) as (r & s' & ext & E & X & P).
    exists r, s', ext. split_and!; [done|done|]. destruct r; [done|]. destruct P as [P1 P2]. split; [|done].
    intros b Hb. apply P1. by rewrite <- (ex_vol _ _ _ _ X). }
  unfold resize_chain_unlocked, with_state. destruct (Z.eqb_spec n 0); [lia|]. unfold bind, attempt in E |- *.
  destruct ((if cluster_is_data (vol s) first then ret first else allocate_cluster_unlocked) s) as [[f|] s0].
  2: { injection E as <- Ef <-. exists false, s0, (l ++ ext). rewrite <- Ef. split; [done|]. destruct P as [P1 P2].
       split_and!; [done|unfold len; lia|by exists ext]. }
  destruct (resize_loop (Z.to_nat (n - 1)) f s0) as [r1 s2]. injection E as -> -> ->. destruct r as [last|].
  2: { exists false, s1, (l ++ ext). split; [done|]. destruct P as [P1 P2]. split_and!; [done|unfold len; lia|by exists ext]. }
  destruct P as (P1 & P2 & P3). pose proof (take_drop_middle _ _ _ P2) as El. symmetry in El.
  set (pre := take (Z.to_nat (n - 1)) (l ++ ext)) in *. set (post := drop (S (Z.to_nat (n - 1))) (l ++ ext)) in *.
  assert (Lp : len pre + 1 = n).
  { unfold pre, len. rewrite length_take. pose proof (lookup_lt_Some _ _ _ P2). lia. }
  pose proof (ex_chain _ _ _ _ X P1) as Hc1. rewrite El in Hc1.
  destruct (cut_run pre last post s1 (ex_ok _ _ _ _ X) Hc1) as (e & s' & Ec & He & U). rewrite Ec.
  exists true, s', (pre ++ [last]). assert (Hh : head_or first (l ++ ext) = head_or first (pre ++ [last])) by (rewrite El; by destruct pre).
  rewrite Hh. split; [done|]. rewrite <- Lp. eapply resized_cut; [done|done|done|exact X|exact El| |exact He|exact U].
  destruct (decide (ext = [])) as [->|Hne]; [by left|right]. destruct post as [|b post'] eqn:Ep; [done|].
  assert (S (Z.to_nat (n - 1)) < length (l ++ ext))%nat.
  { destruct (decide (S (Z.to_nat (n - 1)) < length (l ++ ext))%nat); [done|]. unfold post in Ep. rewrite drop_ge in Ep by lia. done. }
  rewrite length_app in *. destruct ext; [done|]. cbn in *. lia.
Qed.

(** ** Truncation *)

Record truncated s s' (data data' : fat16_node_data) (l l' : list Z) (length : Z) : Prop := {
  tr_re : rechained s s' l l' (eq (dir_entry_lba data));
  tr_cap : length <= capacity s l' < length + cluster_size_bytes (vol s);
  tr_free : forall c, c ∈ l -> c ∉ l' -> fatv s' c = 0;
  tr_data : data' = mk_node_data (head_or 0 l') length (dir_entry_lba data) (dir_entry_index data);
  tr_byte : forall p, 0 <= p < capacity s l' -> fbyte s' l' p = if p <? capacity s l then fbyte s l p else 0;
  tr_dir : S_ s' (dir_entry_lba data) =
    patch_entry (dir_entry_index data) (nd_first_cluster data') length (S_ s (dir_entry_lba data))
}.

(** The chain is resized and the entry written. *)
Lemma truncate_finish s s1 data l l' n length : st_ok s -> owns s (nd_first_cluster data) l -> slot_ok s data l ->
  resized s s1 l l' n -> length <= n * cluster_size_bytes (vol s) < length + cluster_size_bytes (vol s) -> exists s',
  update_entry_unlocked (mk_node_data (head_or 0 l') length (dir_entry_lba data) (dir_entry_index data)) s1 = (Some tt, s') /\
  truncated s s' data (mk_node_data (head_or 0 l') length (dir_entry_lba data) (dir_entry_index data)) l l' length.
Proof.
  intros O Ho Sl [R Rl Rf Rb] Hcap. pose proof (owns_data _ _ _ Ho) as Hd. pose proof (re_ok _ _ _ _ _ R) as O1. pose proof (re_vol _ _ _ _ _ R) as V1.
  set (data' := mk_node_data _ _ _ _). destruct (update_entry_run data' s1 O1) as (s' & E & O' & V' & X'); [apply Sl|apply Sl|].
  exists s'. split; [done|]. pose proof (slot_apart _ _ _ _ _ Sl R Hd) as Hap. cbn [dir_entry_lba data'] in X'.
  assert (Hdat' : Forall (data_cluster (vol s)) l').
  { destruct l' as [|c t]; [by apply Forall_nil|]. rewrite <- V1. by apply chain_data, (re_chain _ _ _ _ _ R). }
  assert (R' : rechained s s' l l' (eq (dir_entry_lba data))).
  { apply (rechained_then s s1 s'); [done|done|done|done|done|intros x <-; apply Sl|].
    intros x Hx Hdx. rewrite X'. destruct (Z.eqb_spec x (dir_entry_lba data)); [by destruct Hdx|done]. }
  assert (Hfat : forall c, in_fat (vol s) c -> fatv s' c = fatv s1 c).
  { intros c Hc. unfold fatv. rewrite V', V1, X'. destruct (Z.eqb_spec (fat_sector (vol s) 0 c) (dir_entry_lba data)) as [Ex|]; [|done].
    destruct (sl_fat _ _ _ Sl). rewrite <- Ex. pose proof (vo_fats _ (so_vol _ O)). by apply fat_sector_region; [|lia|]. }
  split; [done|unfold capacity; by rewrite Rl|..].
  - intros c Hc Hn. rewrite Forall_forall in Hd. rewrite Hfat by (by apply (data_facts _ (so_vol _ O)), Hd). by apply Rf.
  - done.
  - intros p Hp. rewrite <- Rb by done. apply (fbyte_frame s1 s'); [done|done|by rewrite V1|unfold capacity; by rewrite V1|].
    intros a x Ha Hx. rewrite X'. destruct (Z.eqb_spec x (dir_entry_lba data)) as [->|]; [|done].
    rewrite V1 in Hx. by destruct (Hap a (or_intror Ha)).
  - rewrite X', Z.eqb_refl. f_equal. apply (re_sec _ _ _ _ _ R); [apply Sl|done|tauto].
Qed.

Lemma truncate_run data l length s : st_ok s -> owns s (nd_first_cluster data) l -> slot_ok s data l ->
  0 <= length -> length + cluster_size_bytes (vol s) <= 4294967296 ->
  exists r data' s' l', fat16_vfs_truncate data length s = (Some (r, data'), s') /\
    (r = 0 /\ truncated s s' data data' l l' length \/
     r = -1 /\ data' = data <| nd_first_cluster := head_or (nd_first_cluster data) l' |> /\ full s' /\ capacity s l' < length /\
     exists ext, l' = l ++ ext /\ extended s s' l ext).
Proof.
  intros O Ho Sl Hl Hb. destruct (csize_facts s O) as [_ Hcs]. unfold fat16_vfs_truncate, with_state.
  rewrite (vo_mounted _ (so_vol _ O)). destruct (Z.ltb_spec 0xFFFFFFFF length); [lia|]. cbn [negb orb]. rewrite (u32_id length) by (unfold is_u32; lia).
  destruct (decide (length = 0)) as [->|Hne].
  - change (file_clusters_required (vol s) 0) with 0. change (0 =? 0xFFFFFFFF) with false. cbn iota.
    destruct (resize_empty s (nd_first_cluster data) l O Ho) as (s1 & E1 & R). unfold bind, attempt. rewrite E1. cbn [negb].
    destruct (truncate_finish s s1 data l [] 0 0 O Ho Sl R ltac:(lia)) as (s' & E & T).
    change (data <| nd_first_cluster := 0 |> <| nd_size := 0 |>) with (mk_node_data 0 0 (dir_entry_lba data) (dir_entry_index data)).
    cbn [head_or] in E, T. rewrite E. eexists 0, _, s', []. split; [done|]. by left.
  - destruct (required_clusters (vol s) length) as (R1 & R2 & R3 & R4); [lia..|]. rewrite <- R4. set (n := clusters_required_for_size (vol s) length) in *.
    destruct (Z.eqb_spec n 0xFFFFFFFF) as [Hn|_]; [nia|].
    destruct (resize_run s (nd_first_cluster data) l n O Ho R1) as (ok & s1 & l' & E1 & P). unfold bind, attempt. rewrite E1. destruct ok; cbn [negb].
    + destruct (truncate_finish s s1 data l l' n length O Ho Sl P ltac:(lia)) as (s' & E & T).
      assert (Hh : head_or (nd_first_cluster data) l' = head_or 0 l').
      { destruct l' as [|]; [|done]. pose proof (rz_len _ _ _ _ _ P) as Lz. change (len (@nil Z)) with 0 in Lz. lia. }
      rewrite Hh. change (data <| nd_first_cluster := head_or 0 l' |> <| nd_size := length |>) with
        (mk_node_data (head_or 0 l') length (dir_entry_lba data) (dir_entry_index data)).
      rewrite E. eexists 0, _, s', l'. split; [done|]. by left.
    + destruct P as (P1 & P2 & P3). eexists (-1), _, s1, l'. split; [done|]. right. split_and!; [done|done|done| |done].
      unfold capacity. nia.
Qed.
End Resize.
