(* ===== verification/Fat16Fs.v ===== *)
(** The open files of a FAT16 volume (src/src/drivers/fat16.c).

    The invariant says that the chains of the files are apart from each other, from
    the directory sectors and from the free clusters, that the copies of the table
    agree and that the entry of each file on the disk has its size and its first
    cluster.  Reads, writes and truncations keep it; a write or a truncation of one
    file does not change what a read of another one returns. *)

From S2P Require Import Prelude Fat16 Fat16Fat Fat16Chain Fat16Read Fat16Write Fat16File Fat16Resize.

Section Fs.
Context {D : Type} `{SectorDevLaws D}.
Implicit Types s : fat16_state D.

Definition file : Type := fat16_node_data * list Z.
Definition slot (d : fat16_node_data) : Z * Z := (dir_entry_lba d, dir_entry_index d).
Definition disk_entry s (d : fat16_node_data) : list Z := entry_of (S_ s (dir_entry_lba d)) (dir_entry_index d).

Record file_ok s (f : file) : Prop := {
  fo_owns : owns s (nd_first_cluster f.1) f.2;
  fo_slot : slot_ok s f.1 f.2;
  fo_size : 0 <= nd_size f.1 <= capacity s f.2;
  fo_u32 : nd_size f.1 < 4294967296;
  fo_entry_size : ent_size (disk_entry s f.1) = nd_size f.1;
  fo_entry_cluster : 0 < nd_size f.1 -> ent_cluster (disk_entry s f.1) = nd_first_cluster f.1
}.

Record files_ok s (fs : list file) : Prop := {
  fk_st : st_ok s;
  fk_mirror : mirrored s;
  fk_file : forall i f, fs !! i = Some f -> file_ok s f;
  fk_apart : forall i j f g, fs !! i = Some f -> fs !! j = Some g -> i <> j -> f.2 ## g.2 /\ slot f.1 <> slot g.1;
  fk_dirs : forall i j f g c, fs !! i = Some f -> fs !! j = Some g -> data_cluster (vol s) c ->
    in_cluster (vol s) c (dir_entry_lba f.1) -> c ∉ g.2
}.

(** The same for the data of the nodes; the chains are determined by the disk. *)
Definition fs_ok s (ds : list fat16_node_data) : Prop := exists ls, length ls = length ds /\ files_ok s (zip ds ls).

(** ** Reading *)

Lemma read_run s d l offset size : st_ok s -> file_ok s (d, l) -> 0 <= offset -> 0 <= size -> exists s',
  fat16_read d offset size s = (Some (span (fbyte s l) offset (Z.min size (nd_size d - offset))), s') /\ keeps s s'.
Proof.
  intros O [F1 F2 F3 F4 _ _] Ho Hs. cbn [fst snd] in *. unfold fat16_read, bind, attempt.
  destruct (decide (offset < nd_size d)) as [Hlt|Hge].
  - destruct l as [|c l]; [change (capacity s []) with 0 in F3; lia|]. destruct F1 as [-> Hc].
    destruct (read_chain_run c l (nd_size d) offset size s O Hc F3 ltac:(lia) F4 Hs) as (s' & E & K). rewrite E. by exists s'.
  - exists s. split; [|by apply fkeeps_refl]. unfold read_chain, with_state. destruct (Z.leb_spec (nd_size d) offset); [|lia].
    rewrite orb_true_r. cbn. by rewrite span_nil by lia.
Qed.

(** ** One file changes *)

(** What a write or a truncation of the file at [i] does. *)
Record file_step s s' (d d' : fat16_node_data) (l l' : list Z) : Prop := {
  st_re : rechained s s' l l' (eq (dir_entry_lba d));
  st_slot : slot d' = slot d;
  st_owns : owns s' (nd_first_cluster d') l';
  st_size : 0 <= nd_size d' <= capacity s l' /\ nd_size d' < 4294967296;
  st_dir : forall j, 0 <= j < 16 -> j <> dir_entry_index d -> entry_of (S_ s' (dir_entry_lba d)) j = entry_of (S_ s (dir_entry_lba d)) j;
  st_entry : ent_size (disk_entry s' d) = nd_size d' /\ (0 < nd_size d' -> ent_cluster (disk_entry s' d) = nd_first_cluster d')
}.

Lemma rechained_sec s s' l l' dir c x : st_ok s -> rechained s s' l l' dir -> data_cluster (vol s) c -> c ∉ l -> fatv s c <> 0 ->
  Forall (data_cluster (vol s)) l -> in_cluster (vol s) c x -> ~ dir x -> S_ s' x = S_ s x.
Proof.
  intros O R Hc Hn Hz Hl Hx Hd. apply (re_sec _ _ _ _ _ R); [by apply (cluster_not_fat _ (so_vol _ O) c)| |done].
  intros a Ha. apply (clusters_apart _ (so_vol _ O) c); [|done]. intros ->. destruct Ha as [|Ha]; [done|].
  by destruct (re_new _ _ _ _ _ R _ Ha) as [|[_ ?]].
Qed.

(** Another file keeps its chain and its bytes. *)
Lemma other_file s s' d d' l l' e m : st_ok s -> file_ok s (d, l) -> file_ok s (e, m) -> file_step s s' d d' l l' ->
  l ## m -> slot d <> slot e ->
  (forall c, data_cluster (vol s) c -> in_cluster (vol s) c (dir_entry_lba d) -> c ∉ m) ->
  (forall c, data_cluster (vol s) c -> in_cluster (vol s) c (dir_entry_lba e) -> c ∉ l) ->
  file_ok s' (e, m) /\ (forall p, 0 <= p < capacity s m -> fbyte s' m p = fbyte s m p) /\ m ## l'.
Proof.
  intros O Fd Fe [R T1 T2 T3 T4 T5] Hdis Hslot Hdm Hel. pose proof Fe as [E1 E2 E3 E4 E5 E6]. pose proof Fd as [D1 D2 _ _ _ _]. cbn [fst snd] in *.
  pose proof (owns_data _ _ _ E1) as Hm. pose proof (owns_data _ _ _ D1) as Hl. pose proof (re_vol _ _ _ _ _ R) as V.
  assert (Hu : forall c, c ∈ m -> fatv s c <> 0) by (intros c; by eapply used_of_owns).
  assert (Hnl : forall c, c ∈ m -> c ∉ l) by (intros c Hc Hcl; by apply (Hdis c)).
  assert (Hnl' : forall c, c ∈ m -> c ∉ l').
  { intros c Hc Hcl. destruct (re_new _ _ _ _ _ R _ Hcl) as [|[_ Hz]]; [by apply (Hnl c)|by apply (Hu c)]. }
  rewrite Forall_forall in Hm.
  assert (Hsec : forall c x, c ∈ m -> in_cluster (vol s) c x -> S_ s' x = S_ s x).
  { intros c x Hc Hx. eapply (rechained_sec s s' l l' _ c); [done|done|by apply Hm|by apply Hnl|by apply Hu|done|done|].
    intros <-. by apply (Hdm c); [apply Hm| |]. }
  assert (Hfat : forall c, c ∈ m -> fatv s' c = fatv s c).
  { intros c Hc. apply (re_fat _ _ _ _ _ R); [by apply (data_facts _ (so_vol _ O)), Hm|by apply Hnl|by apply Hnl']. }
  assert (Hent : disk_entry s' e = disk_entry s e).
  { unfold disk_entry. destruct (decide (dir_entry_lba e = dir_entry_lba d)) as [El|Hne].
    - rewrite El. apply T4; [apply E2|]. intros Ei. apply Hslot. unfold slot. congruence.
    - f_equal. apply (re_sec _ _ _ _ _ R); [apply E2| |congruence]. intros c Hc Hx. rewrite Forall_forall in Hl.
      destruct Hc as [Hc|Hc]; [by apply (Hel c); [apply Hl| |]|].
      destruct (re_new _ _ _ _ _ R _ Hc) as [Hcl|[Hcd Hz]]; [by apply (Hel c); [apply Hl| |]|].
      by destruct (sl_cluster _ _ _ E2 c Hcd Hx). }
  split_and!.
  - split; cbn [fst snd]; [..|done|by rewrite Hent|by rewrite Hent].
    + destruct m as [|a m]; cbn in *; [by rewrite V|]. destruct E1 as [-> Hc]. split; [done|]. by eapply fchain_frame.
    + destruct E2 as [S1 S2 S3 S4]. split; rewrite ?V; [done|done|done|]. intros c Hc Hx. destruct (S4 c Hc Hx) as [Hcm Hz]. split; [done|].
      assert (c ∉ l) by (by apply Hel). assert (c ∉ l') by (intros Hc'; by destruct (re_new _ _ _ _ _ R _ Hc') as [|[_ ?]]).
      rewrite (re_fat _ _ _ _ _ R); [done|by apply (data_facts _ (so_vol _ O))|done|done].
    + unfold capacity. by rewrite V.
  - intros p Hp. apply fbyte_frame; [done|done|by apply Forall_forall|done|done].
  - intros c Hc. by apply Hnl'.
Qed.

(** The file itself. *)
Lemma this_file s s' d d' l l' : st_ok s -> file_ok s (d, l) -> file_step s s' d d' l l' -> file_ok s' (d', l').
Proof.
  intros O [D1 D2 D3 D4 D5 D6] [R T1 T2 T3 T4 T5]. cbn [fst snd] in *. pose proof (re_vol _ _ _ _ _ R) as V. injection T1 as El Ei.
  split; cbn [fst snd]; [done|..].
  - destruct D2 as [S1 S2 S3 S4]. split; rewrite ?V, ?El, ?Ei; [done|done|done|]. intros c Hc Hx. destruct (S4 c Hc Hx) as [Hcl Hz].
    assert (c ∉ l') by (intros Hc'; by destruct (re_new _ _ _ _ _ R _ Hc') as [|[_ ?]]). split; [done|].
    rewrite (re_fat _ _ _ _ _ R); [done|by apply (data_facts _ (so_vol _ O))|done|done].
  - unfold capacity. rewrite V. apply T3.
  - apply T3.
  - unfold disk_entry. rewrite El, Ei. apply T5.
  - unfold disk_entry. rewrite El, Ei. apply T5.
Qed.

Lemma files_step s s' fs i d d' l l' : files_ok s fs -> fs !! i = Some (d, l) -> file_step s s' d d' l l' ->
  files_ok s' (<[i := (d', l')]> fs) /\
  forall j e m, j <> i -> fs !! j = Some (e, m) -> file_ok s' (e, m) /\ forall p, 0 <= p < capacity s m -> fbyte s' m p = fbyte s m p.
Proof.
  intros K Hi T. pose proof K as [O M F A Dr]. pose proof (lookup_lt_Some _ _ _ Hi) as Hlen. pose proof (st_re _ _ _ _ _ _ T) as R.
  assert (X : forall j e m, j <> i -> fs !! j = Some (e, m) ->
    file_ok s' (e, m) /\ (forall p, 0 <= p < capacity s m -> fbyte s' m p = fbyte s m p) /\ m ## l').
  { intros j e m Hj He. destruct (A i j _ _ Hi He ltac:(done)) as [A1 A2].
    eapply (other_file s s' d d' l l'); [done|by eapply F|by eapply F|done|done|done|intros c; exact (Dr i j (d, l) (e, m) c Hi He)|intros c; exact (Dr j i (e, m) (d, l) c He Hi)]. }
  split; [|intros j e m Hj He; by destruct (X j e m Hj He) as (? & ? & _)].
  assert (Hsl : slot d' = slot d) by apply T. pose proof (re_vol _ _ _ _ _ R) as V.
  assert (Hnd : forall j e m c, fs !! j = Some (e, m) -> data_cluster (vol s) c -> in_cluster (vol s) c (dir_entry_lba e) -> c ∉ l').
  { intros j e m c He Hc Hx Hcl. destruct (re_new _ _ _ _ _ R _ Hcl) as [Hl|[_ Hz]]; [by apply (Dr j i _ _ c He Hi)|].
    by destruct (sl_cluster _ _ _ (fo_slot _ _ (F j _ He)) c Hc Hx). }
  split; [apply R|by apply R|..].
  - intros j f. rewrite list_lookup_insert_Some. intros [(<- & <- & _)|[Hne Hf]]; [by eapply this_file; [| |exact T]; [|by eapply F]|].
    destruct f as [e m]. by apply X in Hf as [? _]; [|done].
  - intros j k f g. rewrite !list_lookup_insert_Some. intros [(<- & <- & _)|[Hj Hf]] [(<- & <- & _)|[Hk Hg]] Hjk; [done|..].
    + destruct g as [e m]. destruct (X k e m ltac:(done) Hg) as (_ & _ & Hdis). cbn [fst snd]. split; [set_solver|].
      rewrite Hsl. by apply (A i k _ _ Hi Hg).
    + destruct f as [e m]. destruct (X j e m ltac:(done) Hf) as (_ & _ & Hdis). cbn [fst snd]. split; [done|].
      rewrite Hsl. by apply (A j i _ _ Hf Hi).
    + by apply (A j k).
  - intros j k f g c. rewrite !list_lookup_insert_Some, V. intros [(<- & <- & _)|[Hj Hf]] [(<- & <- & _)|[Hk Hg]] Hc Hx; cbn [fst snd] in *.
    + injection Hsl as El _. rewrite El in Hx. by eapply (Hnd i).
    + injection Hsl as El _. rewrite El in Hx. exact (Dr i k (d, l) g c Hi Hg Hc Hx).
    + destruct f as [e m]. by eapply (Hnd j).
    + exact (Dr j k f g c Hf Hg Hc Hx).
Qed.
(** ** Writes and truncations are such changes *)

Lemma capacity_eq s s' l : vol s' = vol s -> capacity s' l = capacity s l.
Proof. intros V. unfold capacity. by rewrite V. Qed.

Lemma owns_head s l : (l <> [] -> chain s l) -> owns s (head_or 0 l) l.
Proof. intros Hc. destruct l as [|c l]; [|split; [done|by apply Hc]]. cbn. unfold data_cluster. lia. Qed.

Lemma owned_u16 s first l : st_ok s -> owns s first l -> l <> [] -> is_u16 first.
Proof.
  intros O Ho Hne. destruct l as [|c l]; [done|]. destruct Ho as [-> Hc]. pose proof (chain_head _ _ _ Hc) as Hd.
  destruct (data_facts _ (so_vol _ O) c Hd) as (_ & ? & _). unfold is_u16. lia.
Qed.

(** The entry is written with the data of the node. *)
Lemma patched_step s s' d d' l l' : st_ok s -> slot_ok s d l -> rechained s s' l l' (eq (dir_entry_lba d)) ->
  slot d' = slot d -> nd_first_cluster d' = head_or 0 l' -> 0 <= nd_size d' <= capacity s l' -> nd_size d' < 4294967296 ->
  S_ s' (dir_entry_lba d) = patch_entry (dir_entry_index d) (nd_first_cluster d') (nd_size d') (S_ s (dir_entry_lba d)) ->
  file_step s s' d d' l l'.
Proof.
  intros O [S1 S2 S3 S4] R Hs Hf Hsz Hu Hp. pose proof (S_sector s (dir_entry_lba d) O) as Sec.
  assert (Ho : owns s' (nd_first_cluster d') l') by (rewrite Hf; apply owns_head, R).
  assert (Hu16 : is_u16 (nd_first_cluster d')).
  { destruct l' as [|c t]; [by rewrite Hf|]. eapply owned_u16; [apply R|exact Ho|done]. }
  destruct (patch_entry_same (dir_entry_index d) (nd_first_cluster d') (nd_size d') _ Sec S2 Hu16 ltac:(unfold is_u32; lia)) as [P1 P2].
  split; [done|done|done|lia|..].
  - intros j Hj Hne. rewrite Hp. by apply patch_entry_other; [..|congruence].
  - unfold disk_entry. rewrite Hp. by split.
Qed.

Lemma written_step s s' d d' l l' offset size buffer : st_ok s -> file_ok s (d, l) -> 0 <= offset -> 0 < size -> offset + size < 4294967296 ->
  written s s' d d' l l' offset size buffer -> file_step s s' d d' l l'.
Proof.
  intros O [F1 F2 F3 F4 _ _] Ho Hs Hb [W1 (ext & W2) W3 W4 W5 W6]. cbn [fst snd] in *.
  assert (capacity s l <= capacity s l') by (subst l'; rewrite capacity_app; pose proof (capacity_nonneg s ext O); lia).
  apply patched_step; [done|done|done|by subst d'|by subst d'|subst d'; cbn; lia|subst d'; cbn; lia|done].
Qed.

Lemma truncated_step s s' d d' l l' length : st_ok s -> file_ok s (d, l) -> 0 <= length < 4294967296 ->
  truncated s s' d d' l l' length -> file_step s s' d d' l l'.
Proof.
  intros O [F1 F2 F3 F4 _ _] Hb [W1 W2 W3 W4 W5 W6]. cbn [fst snd] in *. subst d'.
  apply patched_step; [done|done|done|done|done|cbn; lia|cbn; lia|done].
Qed.

(** No space: the chain is extended, the size and the entry are as before. *)
Lemma failed_step s s' d l ext : st_ok s -> file_ok s (d, l) -> extended s s' l ext ->
  file_step s s' d (d <| nd_first_cluster := head_or (nd_first_cluster d) (l ++ ext) |>) l (l ++ ext).
Proof.
  intros O [F1 F2 F3 F4 F5 F6] X. cbn [fst snd] in *. pose proof (extended_rechained _ _ _ _ X) as R. pose proof (owns_data _ _ _ F1) as Hl.
  pose proof (slot_apart _ _ _ _ _ F2 R Hl) as Hap. pose proof R as [R1 R2 R3 R4 R5 R6 R7].
  assert (Hdir : S_ s' (dir_entry_lba d) = S_ s (dir_entry_lba d)) by (apply R6; [apply F2|done|tauto]).
  split; [|done|..].
  - split; [done|done|done|done|done|intros x ? ? _; apply R6; tauto|done].
  - change (owns s' (head_or (nd_first_cluster d) (l ++ ext)) (l ++ ext)). destruct (l ++ ext) as [|c t] eqn:El.
    + apply app_eq_nil in El as [-> ->]. cbn in *. by rewrite R2.
    + split; [done|]. by apply R3.
  - change (0 <= nd_size d <= capacity s (l ++ ext) /\ nd_size d < 4294967296). rewrite capacity_app. pose proof (capacity_nonneg s ext O). lia.
  - intros j _ _. by rewrite Hdir.
  - unfold disk_entry in *. rewrite Hdir. split; [done|]. intros Hp. rewrite F6 by done.
    change (nd_first_cluster d = head_or (nd_first_cluster d) (l ++ ext)).
    destruct l as [|c t]; [change (capacity s []) with 0 in F3; change (0 < nd_size d) in Hp; lia|]. by destruct F1 as [-> _].
Qed.

(** Reads of a file whose chain and bytes are the same. *)
Lemma read_same s s' d d' l l' offset size : st_ok s -> st_ok s' -> vol s' = vol s -> file_ok s (d, l) -> file_ok s' (d', l') -> nd_size d' = nd_size d ->
  (forall p, 0 <= p < capacity s l -> fbyte s' l' p = fbyte s l p) -> 0 <= offset -> 0 <= size ->
  (fat16_read d' offset size s').1 = (fat16_read d offset size s).1.
Proof.
  intros O O' V F F' En E Ho Hs. destruct (read_run s d l offset size O F Ho Hs) as (s1 & -> & _).
  destruct (read_run s' d' l' offset size O' F' Ho Hs) as (s2 & -> & _). cbn. f_equal. rewrite En. apply span_eq. intros i Hi. apply E.
  pose proof (fo_size _ _ F) as Hsz. cbn [fst snd] in Hsz. lia.
Qed.

Lemma fs_lookup s ds i d : fs_ok s ds -> ds !! i = Some d -> exists ls l,
  length ls = length ds /\ files_ok s (zip ds ls) /\ ls !! i = Some l /\ zip ds ls !! i = Some (d, l).
Proof.
  intros (ls & L & K) Hi. destruct (lookup_lt_is_Some_2 ls i) as [l Hl]; [rewrite L; by eapply lookup_lt_Some|].
  exists ls, l. split_and!; [done|done|done|]. apply lookup_zip_with_Some. by exists d, l.
Qed.

(** A change of one file keeps the invariant and the reads of the others. *)
Lemma fs_step s s' ds ls i d d' l l' : length ls = length ds -> files_ok s (zip ds ls) -> ls !! i = Some l -> zip ds ls !! i = Some (d, l) ->
  file_step s s' d d' l l' -> fs_ok s' (<[i := d']> ds) /\ file_ok s' (d', l') /\
  forall j e offset size, j <> i -> ds !! j = Some e -> 0 <= offset -> 0 <= size -> (fat16_read e offset size s').1 = (fat16_read e offset size s).1.
Proof.
  intros L K Hl Hi T. pose proof (fk_st _ _ K) as O. destruct (files_step s s' _ i d d' l l' K Hi T) as [K' X].
  pose proof (re_vol _ _ _ _ _ (st_re _ _ _ _ _ _ T)) as V. split_and!.
  - exists (<[i := l']> ls). split; [by rewrite !length_insert|]. by rewrite <- (insert_zip_with pair).
  - apply (fk_file _ _ K' i). apply list_lookup_insert_eq. by eapply lookup_lt_Some.
  - intros j e offset size Hj He Ho Hs. destruct (lookup_lt_is_Some_2 ls j) as [m Hm]; [rewrite L; by eapply lookup_lt_Some|].
    assert (Hz : zip ds ls !! j = Some (e, m)) by (apply lookup_zip_with_Some; by exists e, m).
    destruct (X j e m Hj Hz) as [Fe Eb]. by eapply read_same; [done|apply K'|done|by eapply (fk_file _ _ K)|done|..].
Qed.
(** ** Theorems *)

Lemma put_bytes_extend off b buf i : 0 <= off <= len buf -> 0 <= i < Z.max (len buf) (off + len b) ->
  arr_get (put_bytes off b buf) i = if (off <=? i) && (i <? off + len b) then arr_get b (i - off) else arr_get buf i.
Proof.
  unfold put_bytes, len, arr_get. intros. destruct (Z.leb_spec off i) as [Hle|Hgt]; cbn [andb].
  - rewrite lookup_total_app_r by (rewrite length_take; lia). rewrite length_take.
    destruct (Z.ltb_spec i (off + Z.of_nat (length b))).
    + rewrite lookup_total_app_l by lia. f_equal. lia.
    + rewrite lookup_total_app_r by lia. rewrite lookup_total_drop. f_equal. lia.
  - rewrite lookup_total_app_l by (rewrite length_take; lia). rewrite lookup_total_take. by rewrite decide_True by lia.
Qed.
Lemma len_put_bytes_extend off b buf : 0 <= off <= len buf -> len (put_bytes off b buf) = Z.max (len buf) (off + len b).
Proof. unfold put_bytes, len. intros. rewrite !length_app, length_take, length_drop. lia. Qed.

(** The bytes of the file after a write that starts inside it. *)
Lemma written_content s s' d d' l l' offset size buffer : st_ok s -> file_ok s (d, l) ->
  written s s' d d' l l' offset size buffer -> 0 <= offset <= nd_size d -> 0 < size <= len buffer ->
  span (fbyte s' l') 0 (nd_size d') = put_bytes offset (take (Z.to_nat size) buffer) (span (fbyte s l) 0 (nd_size d)).
Proof.
  intros O [_ _ F3 _ _ _] [W1 (ext & W2) W3 W4 W5 _] Ho Hs. cbn [fst snd] in F3.
  assert (Lb : len (take (Z.to_nat size) buffer) = size) by (unfold len in *; rewrite length_take; lia).
  assert (Es : nd_size d' = Z.max (nd_size d) (offset + size)) by (by subst d').
  assert (Hc : capacity s l <= capacity s l') by (subst l'; rewrite capacity_app; pose proof (capacity_nonneg s ext O); lia).
  apply list_ext_get; [rewrite len_put_bytes_extend by (rewrite len_span; lia); rewrite !len_span by lia; lia|].
  intros i. rewrite len_span by lia. intros Hi. rewrite span_get, Z.add_0_l by lia.
  rewrite put_bytes_extend by (rewrite ?len_span; lia). rewrite Lb, W5 by lia. unfold written_byte.
  destruct ((offset <=? i) && (i <? offset + size)) eqn:Eb.
  - apply andb_true_iff in Eb as [?%Z.leb_le ?%Z.ltb_lt]. unfold arr_get. rewrite lookup_total_take, decide_True by lia. done.
  - rewrite span_get, Z.add_0_l by (bcases; cbn [andb] in Eb; try done; lia).
    destruct (Z.ltb_spec i (capacity s l)); [done|]. bcases; cbn [andb] in Eb; try done; lia.
Qed.

Lemma fat16_write_facts s ds i d offset size buffer : fs_ok s ds -> ds !! i = Some d -> 0 <= offset -> 0 <= size <= len buffer ->
  Forall is_u8 buffer -> offset + size + cluster_size_bytes (vol s) <= 4294967296 ->
  exists n d' s', fat16_vfs_write d offset size buffer s = (Some (n, d'), s') /\ fs_ok s' (<[i := d']> ds) /\
    (forall j e o k, j <> i -> ds !! j = Some e -> 0 <= o -> 0 <= k -> (fat16_read e o k s').1 = (fat16_read e o k s).1) /\
    (n = size /\ (0 < size -> nd_size d' = Z.max (nd_size d) (offset + size)) /\
       (offset <= nd_size d -> forall old, (fat16_read d 0 (nd_size d) s).1 = Some old ->
        (fat16_read d' 0 (nd_size d') s').1 = Some (put_bytes offset (take (Z.to_nat size) buffer) old)) \/
     n = 0 /\ full s' /\ nd_size d' = nd_size d /\ forall o k, 0 <= o -> 0 <= k -> (fat16_read d' o k s').1 = (fat16_read d o k s).1).
Proof.
  intros K Hi Ho Hs Fb Hb. destruct (fs_lookup s ds i d K Hi) as (ls & l & L & Kf & Hl & Hz). pose proof (fk_st _ _ Kf) as O.
  pose proof (fk_file _ _ Kf i _ Hz) as F. pose proof F as [F1 F2 F3 F4 _ _]. cbn [fst snd] in F1, F2, F3, F4.
  destruct (decide (size = 0)) as [->|Hne].
  { exists 0, d, s. split_and!; [done|by rewrite list_insert_id|done|]. left. split_and!; [done|lia|].
    intros Hof old ->. f_equal. change (take (Z.to_nat 0) buffer) with (@nil Z). unfold put_bytes.
    cbn [length app]. rewrite Nat.add_0_r. by rewrite take_drop. }
  destruct (csize_facts s O) as [_ Hcs].
  destruct (write_chain_run d l offset size buffer s O F1 F2 Ho ltac:(lia) Fb Hb) as (n & d' & s' & l' & E & [(-> & W)|(-> & -> & Hf & Hc & ext & -> & X)]).
  - pose proof (written_step s s' d d' l l' offset size buffer O F Ho ltac:(lia) ltac:(lia) W) as T.
    destruct (fs_step s s' ds ls i d d' l l' L Kf Hl Hz T) as (K' & F' & Ot).
    exists size, d', s'. split_and!; [done|done|done|]. left. split_and!; [done|intros _; by rewrite (wt_data _ _ _ _ _ _ _ _ _ W)|].
    intros Hof old. destruct (read_run s d l 0 (nd_size d) O F ltac:(lia) ltac:(lia)) as (s1 & -> & _). cbn [fst]. intros [= <-].
    pose proof (fo_size _ _ F') as Hsz'. cbn [fst snd] in Hsz'.
    destruct (read_run s' d' l' 0 (nd_size d') (re_ok _ _ _ _ _ (st_re _ _ _ _ _ _ T)) F' ltac:(lia) ltac:(lia)) as (s2 & -> & _). cbn [fst]. f_equal.
    rewrite !Z.sub_0_r, !Z.min_id. eapply written_content; [done|done|done|lia|lia].
  - pose proof (failed_step s s' d l ext O F X) as T.
    destruct (fs_step s s' ds ls i d _ l _ L Kf Hl Hz T) as (K' & F' & Ot).
    eexists 0, _, s'. split; [done|]. split; [done|]. split; [done|]. right. split_and!; [done|done|done|].
    intros o k Ho' Hk. eapply read_same; [done|apply X|apply X|done|done|done| |done|done].
    intros p Hp. rewrite (extended_bytes s s' l ext p O); [|by eapply owns_data|intros c; by eapply used_of_owns|done|].
    + destruct (Z.ltb_spec p (capacity s l)); [done|lia].
    + rewrite capacity_app. pose proof (capacity_nonneg s ext O). lia.
Qed.

(** C6: A write to an open file of a FAT16 volume whose range is below 4 GiB either
    stores all bytes or finds the volume full.  In the first case the size is the
    larger of the old size and the end of the write, and reading the file back
    returns the old bytes with the new ones put at [offset] when the write starts
    inside the file or at its end.  In the second case it returns 0, the file reads
    as before and no cluster is free.  In both cases the volume stays consistent
    (chains apart, table copies equal, directory entries up to date) and every
    other open file reads as before.  Transfers to and from the disk succeed. *)
Theorem fat16_write_spec s ds i d offset size buffer : fs_ok s ds -> ds !! i = Some d -> 0 <= offset -> 0 <= size <= len buffer ->
  Forall is_u8 buffer -> offset + size + cluster_size_bytes (vol s) <= 4294967296 ->
  exists n d' s', fat16_vfs_write d offset size buffer s = (Some (n, d'), s') /\ fs_ok s' (<[i := d']> ds) /\
    (forall j e o k, j <> i -> ds !! j = Some e -> 0 <= o -> 0 <= k -> (fat16_read e o k s').1 = (fat16_read e o k s).1) /\
    (n = size /\ (0 < size -> nd_size d' = Z.max (nd_size d) (offset + size)) /\
       (offset <= nd_size d -> forall old, (fat16_read d 0 (nd_size d) s).1 = Some old ->
        (fat16_read d' 0 (nd_size d') s').1 = Some (put_bytes offset (take (Z.to_nat size) buffer) old)) \/
     n = 0 /\ full s' /\ nd_size d' = nd_size d /\ forall o k, 0 <= o -> 0 <= k -> (fat16_read d' o k s').1 = (fat16_read d o k s).1).
Proof. exact (fat16_write_facts s ds i d offset size buffer). Qed.

Lemma fat16_truncate_facts s ds i d length : fs_ok s ds -> ds !! i = Some d -> 0 <= length ->
  length + cluster_size_bytes (vol s) <= 4294967296 ->
  exists r d' s', fat16_vfs_truncate d length s = (Some (r, d'), s') /\ fs_ok s' (<[i := d']> ds) /\
    (forall j e o k, j <> i -> ds !! j = Some e -> 0 <= o -> 0 <= k -> (fat16_read e o k s').1 = (fat16_read e o k s).1) /\
    (r = 0 /\ nd_size d' = length /\ (forall n old, 0 <= n <= length -> n <= nd_size d -> (fat16_read d 0 n s).1 = Some old -> (fat16_read d' 0 n s').1 = Some old) \/
     r = -1 /\ full s' /\ nd_size d' = nd_size d /\ forall o k, 0 <= o -> 0 <= k -> (fat16_read d' o k s').1 = (fat16_read d o k s).1).
Proof.
  intros K Hi Hl0 Hb. destruct (fs_lookup s ds i d K Hi) as (ls & l & L & Kf & Hl & Hz). pose proof (fk_st _ _ Kf) as O.
  pose proof (fk_file _ _ Kf i _ Hz) as F. pose proof F as [F1 F2 F3 F4 _ _]. cbn [fst snd] in F1, F2, F3, F4. destruct (csize_facts s O) as [_ Hcs].
  destruct (truncate_run d l length s O F1 F2 Hl0 Hb) as (r & d' & s' & l' & E & [(-> & W)|(-> & -> & Hf & Hc & ext & -> & X)]).
  - pose proof (truncated_step s s' d d' l l' length O F ltac:(lia) W) as T.
    destruct (fs_step s s' ds ls i d d' l l' L Kf Hl Hz T) as (K' & F' & Ot).
    exists 0, d', s'. split_and!; [done|done|done|]. left. split_and!; [done|by rewrite (tr_data _ _ _ _ _ _ _ W)|].
    intros n old Hn Hnd. destruct (read_run s d l 0 n O F ltac:(lia) ltac:(lia)) as (s1 & -> & _). cbn [fst]. intros [= <-].
    destruct (read_run s' d' l' 0 n (re_ok _ _ _ _ _ (st_re _ _ _ _ _ _ T)) F' ltac:(lia) ltac:(lia)) as (s2 & -> & _). cbn [fst]. f_equal.
    assert (Es : nd_size d' = length) by (by rewrite (tr_data _ _ _ _ _ _ _ W)). rewrite Es, !Z.sub_0_r, !Z.min_l by lia.
    apply span_eq. intros p Hp. pose proof (tr_cap _ _ _ _ _ _ _ W). rewrite (tr_byte _ _ _ _ _ _ _ W) by lia.
    destruct (Z.ltb_spec (0 + p) (capacity s l)); [done|lia].
  - pose proof (failed_step s s' d l ext O F X) as T.
    destruct (fs_step s s' ds ls i d _ l _ L Kf Hl Hz T) as (K' & F' & Ot).
    eexists (-1), _, s'. split; [done|]. split; [done|]. split; [done|]. right. split_and!; [done|done|done|].
    intros o k Ho' Hk. eapply read_same; [done|apply X|apply X|done|done|done| |done|done].
    intros p Hp. rewrite (extended_bytes s s' l ext p O); [|by eapply owns_data|intros c; by eapply used_of_owns|done|].
    + destruct (Z.ltb_spec p (capacity s l)); [done|lia].
    + rewrite capacity_app. pose proof (capacity_nonneg s ext O). lia.
Qed.

(** C31: Truncating an open file to a length that is, with one more cluster, below 4 GiB either sets its size and
    keeps the bytes before the new end, or finds the volume full and leaves the
    file as it was.  The volume stays consistent and every other open file reads as
    before. *)
Theorem fat16_truncate_spec s ds i d length : fs_ok s ds -> ds !! i = Some d -> 0 <= length ->
  length + cluster_size_bytes (vol s) <= 4294967296 ->
  exists r d' s', fat16_vfs_truncate d length s = (Some (r, d'), s') /\ fs_ok s' (<[i := d']> ds) /\
    (forall j e o k, j <> i -> ds !! j = Some e -> 0 <= o -> 0 <= k -> (fat16_read e o k s').1 = (fat16_read e o k s).1) /\
    (r = 0 /\ nd_size d' = length /\ (forall n old, 0 <= n <= length -> n <= nd_size d -> (fat16_read d 0 n s).1 = Some old -> (fat16_read d' 0 n s').1 = Some old) \/
     r = -1 /\ full s' /\ nd_size d' = nd_size d /\ forall o k, 0 <= o -> 0 <= k -> (fat16_read d' o k s').1 = (fat16_read d o k s).1).
Proof. exact (fat16_truncate_facts s ds i d length). Qed.

(** ** Sequences of operations *)

Inductive fstep : fat16_state D * list fat16_node_data -> fat16_state D * list fat16_node_data -> Prop :=
| fstep_read s ds i d offset size r s' :
    ds !! i = Some d -> 0 <= offset -> 0 <= size -> fat16_read d offset size s = (r, s') -> fstep (s, ds) (s', ds)
| fstep_write s ds i d offset size buffer n d' s' :
    ds !! i = Some d -> 0 <= offset -> 0 <= size <= len buffer -> Forall is_u8 buffer ->
    offset + size + cluster_size_bytes (vol s) <= 4294967296 ->
    fat16_vfs_write d offset size buffer s = (Some (n, d'), s') -> fstep (s, ds) (s', <[i := d']> ds)
| fstep_truncate s ds i d length r d' s' :
    ds !! i = Some d -> 0 <= length -> length + cluster_size_bytes (vol s) <= 4294967296 ->
    fat16_vfs_truncate d length s = (Some (r, d'), s') -> fstep (s, ds) (s', <[i := d']> ds).

Lemma keeps_files s s' fs : keeps s s' -> files_ok s fs -> files_ok s' fs.
Proof.
  intros K [O M F A Dr]. pose proof K as (O' & V & E). pose proof (keeps_upd _ _ O K) as U.
  split; [done|by apply U| |done|].
  - intros i f Hf. destruct (F i f Hf) as [F1 F2 F3 F4 F5 F6]. unfold disk_entry in *. split; unfold disk_entry, capacity; rewrite ?V, ?E; [..|done|done|done|done].
    + destruct f as [d [|c l]]; cbn in *; [by rewrite V|]. destruct F1 as [-> Hc]. split; [done|].
      eapply fchain_frame; [done|intros; by apply keeps_fatv|done].
    + destruct F2 as [S1 S2 S3 S4]. split; rewrite ?V; [done|done|done|]. intros c Hc Hx. rewrite (keeps_fatv _ _ _ K). by apply S4.
  - rewrite V. done.
Qed.

(** C15: Every sequence of reads, writes and truncations of open files keeps the
    volume consistent: no cluster is in two chains, in a chain and free, or in a
    chain and in a directory, the copies of the table agree, the directory entry
    of each file has its size and first cluster, and the size fits the chain.
    Transfers to and from the disk succeed. *)
Theorem fat16_reachable_ok st st' : rtc fstep st st' -> fs_ok st.1 st.2 -> fs_ok st'.1 st'.2.
Proof.
  induction 1 as [|x y z Hxy Hyz IH]; [done|]. intros K. apply IH. clear IH Hyz.
  destruct Hxy as [s ds i d offset size r s' Hd Ho Hs E|s ds i d offset size buffer n d' s' Hd Ho Hs Fb Hb E|s ds i d length r d' s' Hd Hl Hb E]; cbn [fst snd] in *.
  - destruct (fs_lookup s ds i d K Hd) as (ls & l & L & Kf & Hl & Hz).
    destruct (read_run s d l offset size (fk_st _ _ Kf) (fk_file _ _ Kf i _ Hz) Ho Hs) as (s1 & E1 & K1).
    rewrite E in E1. injection E1 as _ ->. exists ls. split; [done|]. by eapply keeps_files.
  - destruct (fat16_write_facts s ds i d offset size buffer K Hd Ho Hs Fb Hb) as (n1 & d1 & s1 & E1 & K1 & _).
    rewrite E in E1. by injection E1 as -> -> ->.
  - destruct (fat16_truncate_facts s ds i d length K Hd Hl Hb) as (n1 & d1 & s1 & E1 & K1 & _).
    rewrite E in E1. by injection E1 as -> -> ->.
Qed.
(** ** Lengths close to 4 GiB *)

(** The rounding in [file_clusters_required] wraps at 32 bits, so truncating a
    file to a length less than a cluster below 4 GiB asks for no cluster: the call
    succeeds, frees the whole chain and records the huge length with no first
    cluster, and the file then reads as empty. *)
Theorem fat16_truncate_wraps s d l length : st_ok s -> file_ok s (d, l) ->
  4294967296 < length + cluster_size_bytes (vol s) -> length < 4294967296 -> exists d' s',
  fat16_vfs_truncate d length s = (Some (0, d'), s') /\ nd_size d' = length /\ nd_first_cluster d' = 0 /\
  (forall c, c ∈ l -> fatv s' c = 0) /\ forall o k, (fat16_read d' o k s').1 = Some [].
Proof.
  intros O [F1 F2 _ _ _ _] Hlo Hhi. cbn [fst snd] in *. destruct (csize_facts s O) as [_ Hcs]. unfold fat16_vfs_truncate, with_state.
  rewrite (vo_mounted _ (so_vol _ O)). destruct (Z.ltb_spec 0xFFFFFFFF length); [lia|]. cbn [negb orb].
  assert (Er : file_clusters_required (vol s) length = 0).
  { unfold file_clusters_required. destruct (Z.eqb_spec length 0); [lia|]. destruct (Z.eqb_spec (cluster_size_bytes (vol s)) 0); [lia|].
    destruct (Z.ltb_spec 0xFFFFFFFF length); [lia|]. cbn [orb]. apply Z.div_small. ulia. }
  rewrite Er. change (0 =? 0xFFFFFFFF) with false. cbn iota. rewrite (u32_id length) by (unfold is_u32; lia).
  destruct (resize_empty s (nd_first_cluster d) l O F1) as (s1 & E1 & R). unfold bind, attempt. rewrite E1. cbn [negb].
  change (d <| nd_first_cluster := 0 |> <| nd_size := length |>) with (mk_node_data 0 length (dir_entry_lba d) (dir_entry_index d)).
  destruct R as [R _ Rf _]. destruct (update_entry_run (mk_node_data 0 length (dir_entry_lba d) (dir_entry_index d)) s1 (re_ok _ _ _ _ _ R)) as (s' & -> & O' & V' & X');
    [apply F2|apply F2|]. eexists _, s'. split_and!; [done|done|done|..].
  - intros c Hc. pose proof (owns_data _ _ _ F1) as Hd. rewrite Forall_forall in Hd. specialize (Hd c Hc).
    destruct (data_facts _ (so_vol _ O) c Hd) as (Hf & _). pose proof (vo_fats _ (so_vol _ O)). pose proof (re_vol _ _ _ _ _ R) as V1.
    rewrite <- (Rf c Hc) by apply not_elem_of_nil. unfold fatv. rewrite V', X', V1. cbn [dir_entry_lba].
    destruct (Z.eqb_spec (fat_sector (vol s) 0 c) (dir_entry_lba d)) as [Ex|]; [|done].
    destruct (sl_fat _ _ _ F2). rewrite <- Ex. by apply fat_sector_region; [|lia|].
  - intros o k. done.
Qed.
End Fs.
