(* ===== verification/Fat16Cache.v ===== *)
(** FAT16 on the block cache: [bcache_read_sector] and [bcache_write_sector]
    (src/src/kernel/bcache.c) are the sector transfers of src/src/drivers/fat16.c,
    and on an ATA disk whose transfers succeed they keep the promises that the
    theorems about files rely on.  [ata_write_sectors] goes past the cache. *)

From S2P Require Import Prelude Bcache Fat16 Fat16Fat.

(** A disk on which no transfer fails. *)
Class ReliableDev (D : Type) `{BlockDevLaws D} := {
  ata_write_ok : forall lba data (d : D), fst (ata_write_sector lba data d) = true;
  ata_read_ok : forall lba (d : D), is_Some (fst (ata_read_sector lba d))
}.

#[export] Instance bcache_sector_dev {D} `{BlockDev D} : SectorDev (bcache D) := {
  dev_read lba s := bcache_read_sector lba true s;
  dev_write lba b s := bcache_write_sector lba (Some b) s;
  dev_write_raw lba b s := let '(r, d) := ata_write_sector lba b (disk s) in (r, s <| disk := d |>)
}.

#[export, refine] Instance bcache_sector_laws {D} `{ReliableDev D} : SectorDevLaws (bcache D) := {
  dev_ok s := bc_ok s /\ forall x, is_sector (logical s x);
  sec s x := logical s x
}.
Proof.
  - intros s x [_ Hs]. apply Hs.
  - intros lba s [Hok Hs]. cbn [dev_read bcache_sector_dev]. pose proof (bcache_read_facts s lba Hok) as F.
    destruct (read_result s lba ata_write_ok ata_read_ok) as [b Hb].
    destruct (bcache_read_sector lba true s) as [r s']. cbn in Hb. subst r. destruct F as (Hok' & Hlog & Hdata & _).
    exists s'. rewrite (Hdata b eq_refl). split_and!; [done|done| |done]. intros x. rewrite Hlog. apply Hs.
  - intros lba b s [Hok Hs] Hb. cbn [dev_write bcache_sector_dev].
    assert (Hev : eviction_ok s lba) by (intros _ ? _; apply ata_write_ok).
    pose proof (bcache_write_facts s lba b Hok Hev) as F. pose proof (write_result s lba b ata_write_ok) as Hr.
    destruct (bcache_write_sector lba (Some b) s) as [r s']. cbn in Hr. subst r. destruct F as (Hok' & Hlog & _).
    assert (Et : take 512 b = b). { destruct Hb as [L _]. unfold len in L. apply take_ge. lia. }
    rewrite Et in Hlog. exists s'. split_and!; [done|done| |done]. intros x. rewrite Hlog. by destruct (x =? lba).
Defined.

#[export] Instance good_reliable : ReliableDev good_disk.
Proof. split; intros; [done|]. cbn. by eexists. Qed.

(** An empty cache over a disk with sectors of bytes. *)
Lemma fresh_cache_ok (d : good_disk) : (forall x, is_sector (contents d x)) -> dev_ok (bcache_init d).
Proof.
  intros Hs. split; [apply bc_ok_init|]. intros x. unfold logical, plogical. destruct (find_hit _ 0 x) as [i|] eqn:E; [|apply Hs].
  destruct (find_hit_some _ _ _ E) as (Hi & Hv & _). exfalso. revert Hv. change (len (cache_pool (bcache_init d))) with 64 in Hi.
  cbn [cache_pool bcache_init]. rewrite arr_get_replicate by (change (Z.of_nat (Z.to_nat BCACHE_BLOCK_COUNT)) with 64; lia). done.
Qed.
