(* ===== verification/Fat16Mount.v ===== *)
(** Mounting a FAT16 volume (src/src/drivers/fat16.c): the volume that
    [mount_superfloppy_or_partition] accepts is well-formed. *)

From S2P Require Import Prelude Fat16 Fat16Fat.

Section Mount.
Context {D : Type} `{SectorDevLaws D}.
Implicit Types s : fat16_state D.

(** The part of [st_ok] that holds before a volume is mounted. *)
Definition io_ok s : Prop := dev_ok (dev s) /\ is_sector (sector_buffer s).
(** The volume lies below the 32-bit limit of sector numbers. *)
Definition in_range (v : fat16_volume) : Prop :=
  root_lba v = fat_lba v + fat_count (v_bpb v) * sectors_per_fat (v_bpb v) /\
  data_lba v = root_lba v + v_root_dir_sectors v /\
  partition_lba v + data_lba v < 4294967296 /\ partition_lba v + v_total_sectors v < 4294967296.

Lemma power_of_two_u8 v : is_u8 v -> is_power_of_two v = true -> v = 1 \/ v = 2 \/ v = 4 \/ v = 8 \/ v = 16 \/ v = 32 \/ v = 64 \/ v = 128.
Proof.
  intros Hv Hp. assert (X : forallb (fun v => negb (is_power_of_two v) || existsb (Z.eqb v) [1; 2; 4; 8; 16; 32; 64; 128]) (seqZ 0 256) = true)
    by (vm_compute; reflexivity).
  rewrite forallb_forall in X. specialize (X v). rewrite <- list_elem_of_In, elem_of_seqZ in X. unfold is_u8 in Hv.
  specialize (X ltac:(lia)). rewrite Hp in X. cbn [negb orb] in X. rewrite existsb_exists in X. destruct X as (w & Hw & ->%Z.eqb_eq).
  cbn in Hw. intuition.
Qed.

Lemma sector_u8 buf i : is_sector buf -> 0 <= i < 512 -> is_u8 (arr_get buf i).
Proof. intros [L F] Hi. apply (arr_get_Forall is_u8); [done|lia]. Qed.

Lemma volume_ok buf lba : is_sector buf -> 0 <= lba -> validate_bpb (parse_bpb buf) buf = true -> in_range (volume_of (parse_bpb buf) lba) ->
  vol_ok (volume_of (parse_bpb buf) lba).
Proof.
  intros Sb Hl Hv (I1 & I2 & I3 & I4). assert (R : forall i, 0 <= i < 511 -> is_u16 (read_u16 buf i)).
  { intros i Hi. destruct Sb as [L F]. apply read_u16_range; [done|lia|lia]. }
  unfold validate_bpb in Hv. destruct (_ || _) in Hv; [done|]. destruct (bytes_per_sector _ =? _) eqn:Eb; [|done]. cbn [negb] in Hv.
  destruct (is_power_of_two _) eqn:Ep; [|done]. cbn [negb] in Hv. destruct (_ || _) eqn:Ez in Hv; [done|].
  rewrite !orb_false_iff, !Z.eqb_neq in Ez. destruct Ez as [[[Z1 Z2] Z3] Z4]. apply Z.eqb_eq in Eb.
  apply power_of_two_u8 in Ep; [|by apply sector_u8].
  cbn [parse_bpb sectors_per_cluster reserved_sectors fat_count root_entry_count sectors_per_fat bytes_per_sector] in *.
  pose proof (sector_u8 buf 16 Sb ltac:(lia)) as Hf. pose proof (R 22 ltac:(lia)). pose proof (R 14 ltac:(lia)). pose proof (R 17 ltac:(lia)).
  unfold is_u8, is_u16 in *.
  assert (Hrd : 0 <= root_dir_sectors (parse_bpb buf)).
  { unfold root_dir_sectors. cbn [parse_bpb bytes_per_sector]. rewrite Eb. apply Z.div_pos; [apply u32_range|done]. }
  split; cbn [volume_of parse_bpb v_bpb mounted sectors_per_cluster fat_count sectors_per_fat partition_lba fat_lba v_root_dir_sectors reserved_sectors] in *;
    try done; lia.
Qed.

Lemma load_run s lba : io_ok s -> 0 <= lba -> exists r s', load_bpb_at lba s = (r, s') /\ io_ok s' /\
  (r = Some tt -> in_range (vol s') -> vol_ok (vol s')).
Proof.
  intros [Od Ob] Hl. unfold load_bpb_at, read_sector, bind, get_buffer, check.
  destruct (dev_read_law lba (dev s) Od) as (d' & -> & Od' & _). cbn [sector_buffer].
  pose proof (sec_sector (dev s) lba Od) as Ss. change (sector_buffer (s <| dev := d' |> <| sector_buffer := sec (dev s) lba |>)) with (sec (dev s) lba).
  destruct (validate_bpb _ _) eqn:Ev; cbn; [|by eexists _, _]. eexists _, _. split; [done|]. split; [done|]. intros _ Hr. by apply volume_ok.
Qed.

Lemma try_run n i a s : io_ok s -> 0 <= i -> i + Z.of_nat n <= 4 -> exists r s', try_partitions n i a s = (Some r, s') /\ io_ok s' /\
  (r = true -> in_range (vol s') -> vol_ok (vol s')).
Proof.
  revert i s. induction n as [|n IH]; intros i s O Hi Hn; [by eexists _, _|]. cbn [try_partitions]. unfold bind at 1, get_buffer.
  destruct (_ && _); [|apply IH; [done|lia|lia]]. unfold bind, attempt.
  assert (Hp : 0 <= part_lba (sector_buffer s) i).
  { unfold part_lba, read_u32. destruct O as [_ [L F]].
    pose proof (read_u16_range (sector_buffer s) (446 + 16 * i + 8) F ltac:(lia) ltac:(lia)).
    pose proof (read_u16_range (sector_buffer s) (446 + 16 * i + 8 + 2) F ltac:(lia) ltac:(lia)). unfold is_u16 in *. lia. }
  destruct (load_run s (part_lba (sector_buffer s) i) O Hp) as (r & s1 & -> & O1 & P). destruct r as [[]|].
  - exists true, s1. split_and!; [done|apply O1..|]. intros _. by apply P.
  - apply IH; [done|lia|lia].
Qed.

Lemma mount_facts s lba : io_ok s -> 0 <= lba -> exists r s', mount_superfloppy_or_partition lba s = (r, s') /\ io_ok s' /\
  (r = Some tt -> in_range (vol s') -> st_ok s').
Proof.
  intros O Hl. unfold mount_superfloppy_or_partition, bind at 1, attempt.
  destruct (load_run s lba O Hl) as (r & s1 & -> & O1 & P). destruct r as [[]|].
  { exists (Some tt), s1. split_and!; [done|apply O1..|]. intros _ Hr. split; [apply O1|by apply P|apply O1]. }
  unfold check at 1, bind at 1. destruct (lba =? 0); [|by eexists _, _]. cbn [ret]. unfold bind at 1, read_sector.
  destruct (dev_read_law 0 (dev s1) (proj1 O1)) as (d' & -> & Od' & _).
  set (s2 := s1 <| dev := d' |> <| sector_buffer := sec (dev s1) 0 |>).
  assert (O2 : io_ok s2) by (split; [done|by apply sec_sector, O1]).
  unfold bind at 1, get_buffer, bind at 1, check at 1. destruct (_ && _); [|by eexists _, _]. cbn [ret]. unfold bind at 1.
  destruct (try_run 4 0 true s2 O2 ltac:(lia) ltac:(lia)) as (r & s3 & -> & O3 & P3). destruct r.
  { exists (Some tt), s3. split_and!; [done|apply O3..|]. intros _ Hr. split; [apply O3|by apply P3|apply O3]. }
  unfold bind. destruct (try_run 4 0 false s3 O3 ltac:(lia) ltac:(lia)) as (r & s4 & -> & O4 & P4). destruct r; cbn.
  - exists (Some tt), s4. split_and!; [done|apply O4..|]. intros _ Hr. split; [apply O4|by apply P4|apply O4].
  - by eexists _, _.
Qed.

(** A FAT16 volume that [mount_superfloppy_or_partition] accepts, as a whole
    disk or through a partition entry, is well-formed: 1 to 128 sectors per
    cluster, at least one table, tables before the root directory before the data.
    The only fact the boot sector is not checked for, and which the theorem
    assumes of the result, is that the regions lie below sector 2^32. *)
Theorem fat16_mount_well_formed s lba s' : io_ok s -> 0 <= lba ->
  mount_superfloppy_or_partition lba s = (Some tt, s') -> in_range (vol s') -> st_ok s'.
Proof.
  intros O Hl E. destruct (mount_facts s lba O Hl) as (r & s1 & E1 & _ & P). rewrite E in E1. injection E1 as <- <-. by apply P.
Qed.
End Mount.
