(* ===== verification/Fat16Name.v ===== *)
(** Names and root directory entries of src/src/drivers/fat16.c: the 8.3 encoding is
    undone by [entry_to_vfs_name], and a file created in the root directory is
    found under its name. *)

From S2P Require Import Prelude Fat16 Fat16Fat Fat16Read Fat16File.

(** * 8.3 names *)

(** A character of a base name or of an extension. *)
Definition name_char (c : Z) : Prop := c <> 46 /\ c <> 32 /\ c <> 47 /\ 0x20 <= c.

Lemma put_bytes_nil n out : put_bytes n [] out = out.
Proof. unfold put_bytes. cbn [length app]. by rewrite Nat.add_0_r, take_drop. Qed.
Lemma put_bytes_cons n x l out : 0 <= n -> n + 1 + len l <= len out -> put_bytes n (x :: l) out = put_bytes (n + 1) l (arr_set out n x).
Proof.
  intros Hn Hl. assert (Lc : len (x :: l) = 1 + len l) by (unfold len; cbn; lia). assert (0 <= len l) by (unfold len; lia).
  apply list_ext_get; [rewrite !len_put_bytes by (rewrite ?len_arr_set, ?Lc; lia); by rewrite len_arr_set|].
  intros i. rewrite len_put_bytes by lia. intros Hi.
  rewrite (put_bytes_get n) by lia. rewrite (put_bytes_get (n + 1)) by (rewrite ?len_arr_set; lia). rewrite Lc.
  destruct (decide (i = n)) as [->|Hne].
  - rewrite arr_get_set_eq by lia. bcases; cbn [andb]; try lia. by replace (n - n) with 0 by lia.
  - rewrite arr_get_set_ne by lia. bcases; cbn [andb]; try lia; try done. rewrite (arr_get_cons x) by lia. f_equal. lia.
Qed.

Lemma len_upper l : len (map to_upper l) = len l.
Proof. unfold len. by rewrite length_map. Qed.

Lemma name_base_facts name n out rest out' n' : name_base name n out = Some (rest, out', n') -> 0 <= n <= 8 -> len out = 11 -> exists base,
  name = base ++ rest /\ Forall name_char base /\ n' = n + len base /\ n' <= 8 /\
  (rest = [] \/ exists ext, rest = 46 :: ext) /\ out' = put_bytes n (map to_upper base) out.
Proof.
  revert n out. induction name as [|c name IH]; intros n out; cbn [name_base].
  - intros [= <- <- <-] Hn Hl. exists []. split_and!; [done|by apply Forall_nil|unfold len; cbn; lia|lia|by left|by rewrite put_bytes_nil].
  - destruct (Z.eqb_spec c 46) as [->|Hd].
    { intros [= <- <- <-] Hn Hl. exists []. split_and!; [done|by apply Forall_nil|unfold len; cbn; lia|lia|right; by exists name|by rewrite put_bytes_nil]. }
    destruct (Z.leb_spec 8 n); [done|]. destruct (Z.eqb_spec c 32); [done|]. destruct (Z.eqb_spec c 47); [done|].
    destruct (Z.ltb_spec c 0x20); [done|]. cbn [orb]. intros E Hn Hl.
    destruct (IH _ _ E ltac:(lia) ltac:(by rewrite len_arr_set)) as (base & -> & Hb & -> & Hn' & Hr & ->).
    exists (c :: base). split_and!; [done|by apply Forall_cons; split|unfold len; cbn; lia|done|done|].
    cbn [map]. rewrite put_bytes_cons; [done|lia|]. rewrite len_upper. lia.
Qed.

Lemma name_ext_facts name n out out' : name_ext name n out = Some out' -> 0 <= n <= 3 -> len out = 11 ->
  Forall name_char name /\ n + len name <= 3 /\ out' = put_bytes (8 + n) (map to_upper name) out.
Proof.
  revert n out. induction name as [|c name IH]; intros n out; cbn [name_ext].
  - intros [= <-] Hn Hl. split_and!; [by apply Forall_nil|unfold len; cbn; lia|by rewrite put_bytes_nil].
  - destruct (Z.leb_spec 3 n); [done|]. destruct (Z.eqb_spec c 46); [done|]. destruct (Z.eqb_spec c 32); [done|].
    destruct (Z.eqb_spec c 47); [done|]. destruct (Z.ltb_spec c 0x20); [done|]. cbn [orb]. intros E Hn Hl.
    destruct (IH _ _ E ltac:(lia) ltac:(by rewrite len_arr_set)) as (Hb & Hn' & ->).
    split_and!; [by apply Forall_cons; split|unfold len in *; cbn; lia|]. cbn [map].
    rewrite put_bytes_cons; [by replace (8 + n + 1) with (8 + (n + 1)) by lia|lia|]. rewrite len_upper. lia.
Qed.

(** The base name and the extension of what [make_83_name] accepts, and the bytes
    it makes of them. *)
Definition encode (base ext : list Z) : list Z := put_bytes 8 (map to_upper ext) (put_bytes 0 (map to_upper base) (replicate 11 32)).

Record split_name (name base ext : list Z) : Prop := {
  sn_base : Forall name_char base;
  sn_ext : Forall name_char ext;
  sn_len : 1 <= len base <= 8;
  sn_elen : len ext <= 3;
  sn_name : name = base ++ 46 :: ext \/ (name = base /\ ext = [])
}.

Lemma make_83_facts filename fat : make_83_name filename = Some fat -> exists base ext,
  split_name (path_basename filename) base ext /\ fat = encode base ext.
Proof.
  unfold make_83_name. destruct (name_base _ 0 _) as [[[rest out] n]|] eqn:E; [|done].
  destruct (name_base_facts _ _ _ _ _ _ E ltac:(lia) eq_refl) as (base & En & Hb & -> & Hn & Hr & ->). rewrite Z.add_0_l in *.
  assert (L1 : len (put_bytes 0 (map to_upper base) (replicate 11 32)) = 11).
  { rewrite len_put_bytes; [done|lia|]. rewrite len_upper. change (len (replicate 11 32)) with 11. lia. }
  destruct Hr as [->|(ext & ->)].
  - destruct (Z.eqb_spec (len base) 0); [done|]. intros [= <-]. exists base, []. split.
    + split; [done|by apply Forall_nil|unfold len in *; lia|done|]. right. by rewrite En, app_nil_r.
    + unfold encode. by rewrite put_bytes_nil.
  - destruct (name_ext ext 0 _) as [out|] eqn:Ee; [|done]. destruct (name_ext_facts _ _ _ _ Ee ltac:(lia) L1) as (He & Hle & ->).
    destruct (Z.eqb_spec (len base) 0); [done|]. intros [= <-]. exists base, ext. split; [|done].
    split; [done|done|unfold len in *; lia|lia|]. by left.
Qed.

(** The converse. *)
Lemma name_base_run base rest n out : Forall name_char base -> 0 <= n -> n + len base <= 8 -> len out = 11 -> (rest = [] \/ exists e, rest = 46 :: e) ->
  name_base (base ++ rest) n out = Some (rest, put_bytes n (map to_upper base) out, n + len base).
Proof.
  revert n out. induction base as [|c base IH]; intros n out Hb Hn Hl Ho Hr.
  - rewrite put_bytes_nil. change (len (@nil Z)) with 0. rewrite Z.add_0_r. destruct Hr as [->|(e & ->)]; done.
  - apply Forall_cons in Hb as [(C1 & C2 & C3 & C4) Hb]. assert (Lc : len (c :: base) = 1 + len base) by (unfold len; cbn; lia).
    assert (0 <= len base) by (unfold len; lia). cbn [app name_base]. destruct (Z.eqb_spec c 46); [done|].
    destruct (Z.leb_spec 8 n); [lia|]. destruct (Z.eqb_spec c 32); [done|]. destruct (Z.eqb_spec c 47); [done|]. destruct (Z.ltb_spec c 0x20); [lia|].
    cbn [orb]. rewrite IH; [|done|lia|lia|by rewrite len_arr_set|done]. cbn [map].
    rewrite put_bytes_cons; [|lia|rewrite len_upper; lia]. do 2 f_equal. lia.
Qed.
Lemma name_ext_run ext n out : Forall name_char ext -> 0 <= n -> n + len ext <= 3 -> len out = 11 ->
  name_ext ext n out = Some (put_bytes (8 + n) (map to_upper ext) out).
Proof.
  revert n out. induction ext as [|c ext IH]; intros n out Hb Hn Hl Ho; [by rewrite put_bytes_nil|].
  apply Forall_cons in Hb as [(C1 & C2 & C3 & C4) Hb]. assert (Lc : len (c :: ext) = 1 + len ext) by (unfold len; cbn; lia).
  assert (0 <= len ext) by (unfold len; lia). cbn [name_ext].
  destruct (Z.leb_spec 3 n); [lia|]. destruct (Z.eqb_spec c 46); [done|]. destruct (Z.eqb_spec c 32); [done|].
  destruct (Z.eqb_spec c 47); [done|]. destruct (Z.ltb_spec c 0x20); [lia|]. cbn [orb].
  rewrite IH; [|done|lia|lia|by rewrite len_arr_set]. cbn [map].
  rewrite put_bytes_cons; [|lia|rewrite len_upper; lia]. by replace (8 + n + 1) with (8 + (n + 1)) by lia.
Qed.

Lemma basename_no_slash name l : Forall (fun c => c <> 47) l -> path_basename_from name l = name.
Proof. induction 1 as [|c l Hc _ IH]; [done|]. cbn. by destruct (Z.eqb_spec c 47). Qed.

Lemma make_83_run name base ext : split_name name base ext -> make_83_name name = Some (encode base ext).
Proof.
  intros [Hb He Hl Hle Hn]. unfold make_83_name, path_basename.
  assert (Hs : forall l, Forall name_char l -> Forall (fun c => c <> 47) l) by (intros l Hl'; eapply Forall_impl; [exact Hl'|]; by intros c (_ & _ & ? & _)).
  rewrite basename_no_slash.
  2: { destruct Hn as [->|[-> _]]; [|by apply Hs]. apply Forall_app. split; [by apply Hs|]. apply Forall_cons. split; [done|by apply Hs]. }
  assert (L1 : len (put_bytes 0 (map to_upper base) (replicate 11 32)) = 11).
  { rewrite len_put_bytes; [done|lia|]. rewrite len_upper. change (len (replicate 11 32)) with 11. lia. }
  destruct Hn as [->|[-> ->]].
  - rewrite name_base_run by (done || lia || (right; by eexists)). rewrite Z.add_0_l, name_ext_run by (done || lia).
    destruct (Z.eqb_spec (len base) 0); [lia|done].
  - rewrite <- (app_nil_r base) at 1. rewrite name_base_run by (done || lia || by left). rewrite Z.add_0_l.
    destruct (Z.eqb_spec (len base) 0); [lia|]. unfold encode. by rewrite put_bytes_nil.
Qed.

Definition pad (n : nat) (l : list Z) : list Z := l ++ replicate (n - length l) 32.

Lemma encode_pad base ext : len base <= 8 -> len ext <= 3 -> encode base ext = pad 8 (map to_upper base) ++ pad 3 (map to_upper ext).
Proof.
  rewrite <- (len_upper base), <- (len_upper ext). unfold encode. generalize (map to_upper base) as b, (map to_upper ext) as x.
  unfold len. intros b x Hb Hx. unfold put_bytes, pad. change (Z.to_nat 0) with 0%nat. change (Z.to_nat 8) with 8%nat.
  rewrite take_0, app_nil_l, Nat.add_0_l. rewrite drop_replicate, take_app, drop_app, (take_ge b), (drop_ge b), take_replicate, drop_replicate by lia.
  rewrite app_nil_l, <- app_assoc.
  rewrite <- app_assoc. do 2 f_equal; [f_equal; lia|]. do 2 f_equal. lia.
Qed.

Lemma to_upper_cases c : 97 <= c <= 122 /\ to_upper c = c - 32 \/ ~ (97 <= c <= 122) /\ to_upper c = c.
Proof. unfold to_upper, char_is_lower. destruct (Z.leb_spec 97 c), (Z.leb_spec c 122); cbn [andb]; lia. Qed.
Lemma to_lower_cases c : 65 <= c <= 90 /\ to_lower c = c + 32 \/ ~ (65 <= c <= 90) /\ to_lower c = c.
Proof. unfold to_lower. destruct (Z.leb_spec 65 c), (Z.leb_spec c 90); cbn [andb]; lia. Qed.
Lemma upper_lower c : name_char c -> name_char (to_lower (to_upper c)) /\ to_upper (to_lower (to_upper c)) = to_upper c /\ to_upper c <> 32.
Proof.
  unfold name_char. pose proof (to_upper_cases c). pose proof (to_lower_cases (to_upper c)).
  pose proof (to_upper_cases (to_lower (to_upper c))). lia.
Qed.

Lemma until_space_pad n l : Forall (fun c => c <> 32) l -> until_space (pad n l) = map to_lower l.
Proof.
  unfold pad. generalize (n - length l)%nat as k. intros k. induction 1 as [|c l Hc _ IH]; cbn.
  - by destruct k.
  - destruct (Z.eqb_spec c 32); [done|]. by rewrite IH.
Qed.

(** What [entry_to_vfs_name] makes of an encoded name. *)
Lemma vfs_name_facts e name base ext : split_name name base ext -> take 11 e = encode base ext ->
  split_name (entry_to_vfs_name e) (map (to_lower ∘ to_upper) base) (map (to_lower ∘ to_upper) ext) /\
  entry_to_vfs_name e = map (to_lower ∘ to_upper) base ++ (if bool_decide (ext = []) then [] else 46 :: map (to_lower ∘ to_upper) ext).
Proof.
  intros [Hb He Hl Hle Hn] E. rewrite encode_pad in E by lia.
  assert (Hup : forall l, Forall name_char l -> Forall (fun c => c <> 32) (map to_upper l)).
  { intros l Hl'. apply Forall_map. eapply Forall_impl; [exact Hl'|]. intros c Hc. by apply upper_lower. }
  assert (Hlo : forall l, Forall name_char l -> Forall name_char (map (to_lower ∘ to_upper) l)).
  { intros l Hl'. apply Forall_map. eapply Forall_impl; [exact Hl'|]. intros c Hc. by apply upper_lower. }
  assert (L8 : length (pad 8 (map to_upper base)) = 8%nat) by (unfold pad, len in *; rewrite length_app, length_replicate, length_map; lia).
  assert (L3 : length (pad 3 (map to_upper ext)) = 3%nat) by (unfold pad, len in *; rewrite length_app, length_replicate, length_map; lia).
  assert (T8 : take 8 e = pad 8 (map to_upper base)) by (replace (take 8 e) with (take 8 (take 11 e)) by (by rewrite take_take); rewrite E; by rewrite take_app_length').
  assert (T3 : take 3 (drop 8 e) = pad 3 (map to_upper ext)) by (rewrite take_drop_commute; change (8 + 3)%nat with 11%nat; rewrite E; by rewrite drop_app_length').
  assert (G8 : arr_get e 8 = arr_get (pad 3 (map to_upper ext)) 0).
  { rewrite <- T3. unfold arr_get. change (Z.to_nat 8) with 8%nat. change (Z.to_nat 0) with 0%nat.
    rewrite lookup_total_take, decide_True, lookup_total_drop by lia. done. }
  assert (En : entry_to_vfs_name e = map (to_lower ∘ to_upper) base ++ (if bool_decide (ext = []) then [] else 46 :: map (to_lower ∘ to_upper) ext)).
  { unfold entry_to_vfs_name. rewrite T8, T3, G8, !until_space_pad by (by apply Hup). rewrite !map_map. f_equal. destruct ext as [|c ext]; [done|].
    rewrite bool_decide_eq_false_2 by done. apply Forall_cons in He as [Hc _]. destruct (upper_lower c Hc) as (_ & _ & H32).
    unfold arr_get. change (Z.to_nat 0) with 0%nat. cbn [map pad app]. unfold pad. cbn [app].
    change ((to_upper c :: _) !!! 0%nat) with (to_upper c). by destruct (Z.eqb_spec (to_upper c) 32). }
  split; [|done]. split; [by apply Hlo|by apply Hlo|unfold len in *; rewrite length_map; lia|unfold len in *; rewrite length_map; lia|].
  rewrite En. destruct ext; [right; by rewrite app_nil_r|left; done].
Qed.

Lemma encode_lower base ext : Forall name_char base -> Forall name_char ext ->
  encode (map (to_lower ∘ to_upper) base) (map (to_lower ∘ to_upper) ext) = encode base ext.
Proof.
  assert (X : forall l, Forall name_char l -> map to_upper (map (to_lower ∘ to_upper) l) = map to_upper l).
  { intros l Hl. rewrite map_map. apply map_ext_Forall. eapply Forall_impl; [exact Hl|]. intros c Hc. by apply upper_lower. }
  intros Hb He. unfold encode. by rewrite !X.
Qed.

(** The name that [entry_to_vfs_name] gives to a directory entry made for a file
    name is the base name of the path in lower case (a trailing dot is dropped),
    and looking that name up matches the entry again: [make_83_name] of it is the
    11 bytes of the entry. *)
Theorem fat16_name_roundtrip filename fat e : make_83_name filename = Some fat -> take 11 e = fat ->
  make_83_name (entry_to_vfs_name e) = Some fat /\ entry_matches_name e (entry_to_vfs_name e) = true /\
  (entry_to_vfs_name e = map (to_lower ∘ to_upper) (path_basename filename) \/
   entry_to_vfs_name e ++ [46] = map (to_lower ∘ to_upper) (path_basename filename)).
Proof.
  intros Hf He. destruct (make_83_facts _ _ Hf) as (base & ext & Sn & ->). destruct (vfs_name_facts e _ base ext Sn He) as [Sv Ev].
  assert (Em : make_83_name (entry_to_vfs_name e) = Some (encode base ext)).
  { rewrite (make_83_run _ _ _ Sv). f_equal. apply encode_lower; apply Sn. }
  split_and!; [done|unfold entry_matches_name; rewrite Em; by apply bool_decide_eq_true_2|].
  rewrite Ev. destruct (sn_name _ _ _ Sn) as [->|[-> ->]].
  - destruct ext as [|c ext]; [right|left].
    + rewrite bool_decide_eq_true_2, app_nil_r by done. by rewrite map_app.
    + rewrite bool_decide_eq_false_2 by done. by rewrite map_app.
  - left. rewrite bool_decide_eq_true_2 by done. by rewrite app_nil_r.
Qed.
