(* ===== verification/Fat16Root.v ===== *)
(** The root directory of src/src/drivers/fat16.c: the scans of
    [lookup_root_entry] and [find_free_root_slot], and the proof that the entry
    [create_entry_unlocked] stores is found under its name. *)

From S2P Require Import Prelude Fat16 Fat16Fat Fat16Chain Fat16Read Fat16File Fat16Name.

(** * Scans of sector contents *)

Fixpoint find_in (secs : list (list Z)) (k : Z) (filename : list Z) : option (list Z * Z * Z) :=
  match secs with
  | [] => None
  | b :: t =>
      match scan_sector 16 0 filename b with
      | None => None
      | Some (Some i) => Some (entry_of b i, k, i)
      | Some None => find_in t (k + 1) filename
      end
  end.
Fixpoint find_slot (secs : list (list Z)) (k : Z) : option (Z * Z) :=
  match secs with
  | [] => None
  | b :: t => match free_slot 16 0 b with Some i => Some (k, i) | None => find_slot t (k + 1) end
  end.

Lemma find_in_cons b t k filename : find_in (b :: t) k filename =
  match scan_sector 16 0 filename b with
  | None => None
  | Some (Some i) => Some (entry_of b i, k, i)
  | Some None => find_in t (k + 1) filename
  end.
Proof. reflexivity. Qed.
Lemma find_slot_cons b t k : find_slot (b :: t) k = match free_slot 16 0 b with Some i => Some (k, i) | None => find_slot t (k + 1) end.
Proof. reflexivity. Qed.

Lemma free_slot_range n j b i : free_slot n j b = Some i -> j <= i < j + Z.of_nat n.
Proof.
  revert j. induction n as [|n IH]; intros j; cbn [free_slot]; [done|]. destruct (_ || _).
  - intros [= <-]. lia.
  - intros E%IH. lia.
Qed.

(** Slots that may be used: never used ones and those of deleted entries. *)
Definition slot_free (e : list Z) : bool := (ent_name0 e =? 0) || (ent_name0 e =? FAT16_DELETED_ENTRY).

Lemma free_slot_first n j b :
  match free_slot n j b with
  | Some i => slot_free (entry_of b i) = true /\ forall i', j <= i' < i -> slot_free (entry_of b i') = false
  | None => forall i', j <= i' < j + Z.of_nat n -> slot_free (entry_of b i') = false
  end.
Proof.
  revert j. induction n as [|n IH]; intros j; cbn [free_slot]; [intros i' Hi'; lia|].
  change ((ent_name0 (entry_of b j) =? 0) || (ent_name0 (entry_of b j) =? FAT16_DELETED_ENTRY)) with (slot_free (entry_of b j)).
  destruct (slot_free (entry_of b j)) eqn:Ef; [split; [done|intros; lia]|]. specialize (IH (j + 1)). destruct (free_slot n (j + 1) b) as [i|] eqn:Es.
  - destruct IH as [Hi Hb]. split; [done|]. intros i' Hi'. destruct (decide (i' = j)) as [->|]; [done|]. apply Hb. lia.
  - intros i' Hi'. destruct (decide (i' = j)) as [->|]; [done|]. apply IH. lia.
Qed.
Lemma find_slot_first secs k0 :
  match find_slot secs k0 with
  | Some (k, i) => k0 <= k < k0 + len secs /\ 0 <= i < 16 /\ slot_free (entry_of (secs !!! Z.to_nat (k - k0)) i) = true /\
      forall k' i', k0 <= k' -> 0 <= i' < 16 -> k' < k \/ k' = k /\ i' < i -> slot_free (entry_of (secs !!! Z.to_nat (k' - k0)) i') = false
  | None => forall k i, k0 <= k < k0 + len secs -> 0 <= i < 16 -> slot_free (entry_of (secs !!! Z.to_nat (k - k0)) i) = false
  end.
Proof.
  revert k0. induction secs as [|b t IH]; intros k0; [intros k i Hk; unfold len in Hk; cbn in Hk; lia|]. rewrite find_slot_cons.
  assert (Lc : len (b :: t) = 1 + len t) by (unfold len; cbn [length]; lia). assert (0 <= len t) by (unfold len; lia).
  assert (Hat : forall k', k0 < k' -> (b :: t) !!! Z.to_nat (k' - k0) = t !!! Z.to_nat (k' - (k0 + 1))).
  { intros k' Hk'. replace (Z.to_nat (k' - k0)) with (S (Z.to_nat (k' - (k0 + 1)))) by lia. done. }
  pose proof (free_slot_first 16 0 b) as Hb. destruct (free_slot 16 0 b) as [i|] eqn:Ef.
  - pose proof (free_slot_range _ _ _ _ Ef) as Hi. destruct Hb as [Hb1 Hb2]. rewrite Z.sub_diag. cbn. split_and!; try done; try lia.
    intros k' i' Hk' Hi' [?|[-> ?]]; [lia|]. rewrite Z.sub_diag. apply Hb2. lia.
  - specialize (IH (k0 + 1)). destruct (find_slot t (k0 + 1)) as [[k i]|].
    + destruct IH as (Hk & Hi & Hf & Hbefore). rewrite Hat by lia. split_and!; try done; try lia.
      intros k' i' Hk' Hi' Hlt. destruct (decide (k' = k0)) as [->|]; [rewrite Z.sub_diag; apply Hb; lia|].
      rewrite Hat by lia. apply Hbefore; lia.
    + intros k i Hk Hi. destruct (decide (k = k0)) as [->|]; [rewrite Z.sub_diag; apply Hb; lia|]. rewrite Hat by lia. apply IH; lia.
Qed.

(** The entries of a sector in which one is stored. *)
Lemma entry_of_put b i e o : is_sector b -> len e = 32 -> 0 <= i < 16 -> 0 <= o < 16 ->
  entry_of (put_bytes (32 * i) e b) o = if o =? i then e else entry_of b o.
Proof.
  intros [Lb _] Le Hi Ho. assert (Lp : len (put_bytes (32 * i) e b) = 512) by (rewrite len_put_bytes; lia).
  unfold entry_of, ENTRY_SIZE. rewrite !slice_at_span by lia. destruct (Z.eqb_spec o i) as [->|Hne].
  - apply list_ext_get; rewrite len_span by lia; [done|].
    intros q Hq. rewrite span_get by lia. rewrite put_bytes_get by lia. bcases; cbn [andb]; try lia. f_equal. lia.
  - apply span_eq. intros q Hq. rewrite put_bytes_get by lia. bcases; cbn [andb]; try lia; done.
Qed.

(** A name whose first byte is that of a deleted entry is never found. *)
Lemma find_deleted secs k filename fat :
  make_83_name filename = Some fat -> arr_get fat 0 = FAT16_DELETED_ENTRY -> find_in secs k filename = None.
Proof.
  intros Hm Hd. assert (Hno : forall e, entry_is_usable_file e = true -> entry_matches_name e filename = false).
  { intros e Hu. unfold entry_matches_name. rewrite Hm. apply bool_decide_eq_false_2. intros <-.
    unfold entry_is_usable_file in Hu. unfold arr_get in Hd. rewrite lookup_total_take, decide_True in Hd by lia.
    change (e !!! Z.to_nat 0) with (ent_name0 e) in Hd. rewrite Hd in Hu. done. }
  assert (Hscan : forall b n i m, scan_sector n i filename b <> Some (Some m)).
  { intros b n. induction n as [|n IH]; intros i m; cbn [scan_sector]; [done|]. destruct (_ =? 0); [done|].
    destruct (entry_is_usable_file (entry_of b i)) eqn:Eu; cbn [negb]; [|apply IH]. rewrite (Hno _ Eu). apply IH. }
  revert k. induction secs as [|b t IH]; intros k; [done|]. rewrite find_in_cons. pose proof (Hscan b 16%nat 0) as Hb.
  destruct (scan_sector 16 0 filename b) as [[m|]|]; [by destruct (Hb m)|apply IH|done].
Qed.

(** An entry is stored in the first free slot of a sector that has no match. *)
Lemma scan_new n j b i e filename : free_slot n j b = Some i -> (forall m, scan_sector n j filename b <> Some (Some m)) ->
  is_sector b -> 0 <= j -> j + Z.of_nat n <= 16 -> len e = 32 ->
  entry_is_usable_file e = true -> entry_matches_name e filename = true ->
  scan_sector n j filename (put_bytes (32 * i) e b) = Some (Some i) /\ entry_of (put_bytes (32 * i) e b) i = e.
Proof.
  intros Hs Hm Sb Hj Hn Le Hu Hx. pose proof (free_slot_range _ _ _ _ Hs) as Hi.
  assert (Ei : entry_of (put_bytes (32 * i) e b) i = e) by (by rewrite entry_of_put, Z.eqb_refl by (done || lia)).
  split; [|done]. assert (Eo : forall o, 0 <= o < 16 -> o <> i -> entry_of (put_bytes (32 * i) e b) o = entry_of b o).
  { intros o Ho Hne. rewrite entry_of_put by (done || lia). by bcase. }
  clear Hi. revert j Hs Hm Hj Hn. induction n as [|n IH]; intros j Hs Hm Hj Hn; cbn [free_slot scan_sector] in *; [done|].
  destruct ((ent_name0 (entry_of b j) =? 0) || (ent_name0 (entry_of b j) =? FAT16_DELETED_ENTRY)) eqn:Ef.
  - injection Hs as ->. rewrite Ei. assert (Hz : ent_name0 e =? 0 = false).
    { unfold entry_is_usable_file in Hu. by destruct (ent_name0 e =? 0). }
    rewrite Hz, Hu, Hx. done.
  - apply orb_false_iff in Ef as [Ez Ed]. pose proof (free_slot_range _ _ _ _ Hs) as Hi. rewrite Eo by lia. rewrite Ez in *.
    destruct (negb (entry_is_usable_file (entry_of b j))); [by apply IH; [| |lia|lia]|].
    destruct (entry_matches_name (entry_of b j) filename); [by destruct (Hm j)|]. by apply IH; [| |lia|lia].
Qed.

(** A sector without a free slot has no end mark. *)
Lemma scan_full n j b filename : free_slot n j b = None -> scan_sector n j filename b <> None.
Proof.
  revert j. induction n as [|n IH]; intros j; cbn [free_slot scan_sector]; [done|]. destruct (ent_name0 _ =? 0); [done|]. cbn [orb].
  destruct (_ =? FAT16_DELETED_ENTRY); [done|]. intros E. destruct (negb _); [by apply IH|]. destruct (entry_matches_name _ _); [done|]. by apply IH.
Qed.

Lemma find_new secs k0 filename k i e : find_slot secs k0 = Some (k, i) -> find_in secs k0 filename = None -> Forall is_sector secs ->
  len e = 32 -> entry_is_usable_file e = true -> entry_matches_name e filename = true ->
  k0 <= k < k0 + len secs /\ 0 <= i < 16 /\
  find_in (<[Z.to_nat (k - k0) := put_bytes (32 * i) e (secs !!! Z.to_nat (k - k0))]> secs) k0 filename = Some (e, k, i).
Proof.
  intros Hs Hf Hsec Le Hu Hx. revert k0 Hs Hf. induction Hsec as [|b t Sb _ IH]; intros k0 Hs Hf; [done|]. rewrite find_slot_cons in Hs. rewrite find_in_cons in Hf.
  assert (Lc : len (b :: t) = 1 + len t) by (unfold len; cbn [length]; lia). assert (0 <= len t) by (unfold len; lia).
  destruct (free_slot 16 0 b) as [i'|] eqn:Ef.
  - injection Hs as -> ->. pose proof (free_slot_range _ _ _ _ Ef) as Hi. split; [lia|]. split; [lia|]. rewrite Z.sub_diag.
    change (<[Z.to_nat 0:=put_bytes (32 * i) e ((b :: t) !!! Z.to_nat 0)]> (b :: t)) with (put_bytes (32 * i) e b :: t). rewrite find_in_cons.
    destruct (scan_new 16 0 b i e filename Ef) as [-> ->]; [|done|lia|lia|done|done|done|done].
    intros m Em. by rewrite Em in Hf.
  - pose proof (scan_full 16 0 b filename Ef) as Hn. destruct (scan_sector 16 0 filename b) as [[m|]|] eqn:Es; [done| |done].
    destruct (IH (k0 + 1) Hs Hf) as (Hk & Hi & E). split; [lia|]. split; [lia|].
    replace (Z.to_nat (k - k0)) with (S (Z.to_nat (k - (k0 + 1)))) by lia. set (q := Z.to_nat (k - (k0 + 1))) in *.
    change (<[S q:=put_bytes (32 * i) e ((b :: t) !!! S q)]> (b :: t)) with (b :: <[q:=put_bytes (32 * i) e (t !!! q)]> t).
    rewrite find_in_cons, Es. exact E.
Qed.

Section Root.
Context {D : Type} `{SectorDevLaws D}.
Implicit Types s : fat16_state D.

Definition root_sector (v : fat16_volume) (k : Z) : Z := partition_lba v + root_lba v + k.
(** The sectors of the root directory from number [k] on. *)
Definition root_from s (k : Z) (n : nat) : list (list Z) := map (fun j => S_ s (root_sector (vol s) j)) (seqZ k (Z.of_nat n)).

Lemma root_from_S s k n : root_from s k (S n) = S_ s (root_sector (vol s) k) :: root_from s (k + 1) n.
Proof. unfold root_from. rewrite seqZ_cons by lia. cbn [map]. replace (Z.pred (Z.of_nat (S n))) with (Z.of_nat n) by lia. done. Qed.

Lemma keeps_root s s' k n : keeps s s' -> root_from s' k n = root_from s k n.
Proof. intros (_ & V & E). unfold root_from. apply map_ext. intros j. by rewrite V, E. Qed.

Lemma root_lba_eq s k : st_ok s -> 0 <= k < v_root_dir_sectors (vol s) ->
  u32 (u32 (partition_lba (vol s) + root_lba (vol s)) + k) = root_sector (vol s) k.
Proof.
  intros O Hk. pose proof (so_vol _ O) as V. pose proof (vo_end _ V) as [He _]. pose proof (vo_data _ V). pose proof (vo_part _ V).
  pose proof (data_lba_pos _ V). unfold root_sector. rewrite !u32_id; [lia|unfold is_u32; lia|]. rewrite u32_id; unfold is_u32; lia.
Qed.

Lemma lookup_loop_run n k filename s : st_ok s -> 0 <= k -> k + Z.of_nat n <= v_root_dir_sectors (vol s) -> exists s',
  lookup_loop n k filename s =
    (match find_in (root_from s k n) k filename with
     | Some (e, j, i) => Some (e, mk_location (root_sector (vol s) j) i) | None => None end, s') /\ keeps s s'.
Proof.
  revert k s. induction n as [|n IH]; intros k s O Hk Hn; [exists s; split; [done|by apply fkeeps_refl]|].
  rewrite root_from_S. cbn [lookup_loop find_in]. unfold with_state. rewrite root_lba_eq by (done || lia).
  destruct (read_sector_run s (root_sector (vol s) k) O) as (s1 & E1 & K1 & B1). unfold bind. rewrite E1. unfold get_buffer. rewrite B1.
  change (Z.to_nat ENTRIES_PER_SECTOR) with 16%nat. destruct (scan_sector 16 0 filename _) as [[i|]|].
  - by exists s1.
  - pose proof K1 as (O1 & V1 & X1). destruct (IH (k + 1) s1 O1 ltac:(lia) ltac:(rewrite V1; lia)) as (s' & E & K).
    rewrite (keeps_root _ _ _ _ K1), V1 in E. exists s'. split; [done|by eapply fkeeps_trans].
  - by exists s1.
Qed.

Lemma slot_loop_run n k s : st_ok s -> 0 <= k -> k + Z.of_nat n <= v_root_dir_sectors (vol s) -> exists s',
  root_slot_loop n k s =
    (match find_slot (root_from s k n) k with
     | Some (j, i) => Some (mk_location (root_sector (vol s) j) i) | None => None end, s') /\ keeps s s' /\
  forall j i, find_slot (root_from s k n) k = Some (j, i) -> sector_buffer s' = S_ s (root_sector (vol s) j).
Proof.
  revert k s. induction n as [|n IH]; intros k s O Hk Hn; [exists s; split_and!; [done|by apply fkeeps_refl|done]|].
  rewrite root_from_S. cbn [root_slot_loop find_slot]. unfold with_state. rewrite root_lba_eq by (done || lia).
  destruct (read_sector_run s (root_sector (vol s) k) O) as (s1 & E1 & K1 & B1). unfold bind. rewrite E1. unfold get_buffer. rewrite B1.
  change (Z.to_nat ENTRIES_PER_SECTOR) with 16%nat. destruct (free_slot 16 0 _) as [i|].
  - exists s1. split_and!; [done|done|]. intros j i' [= <- <-]. done.
  - pose proof K1 as (O1 & V1 & X1). destruct (IH (k + 1) s1 O1 ltac:(lia) ltac:(rewrite V1; lia)) as (s' & E & K & B).
    rewrite (keeps_root _ _ _ _ K1), V1 in E, B. exists s'. split_and!; [done|by eapply fkeeps_trans|]. intros j i Hs. rewrite (B j i Hs). apply X1.
Qed.

(** The sectors of the directory that follow a number are apart. *)
Lemma root_from_insert s s' n k x : vol s' = vol s -> 0 <= k < Z.of_nat n ->
  (forall y, S_ s' y = if y =? root_sector (vol s) k then x else S_ s y) ->
  root_from s' 0 n = <[Z.to_nat k := x]> (root_from s 0 n).
Proof.
  intros V Hk E. apply list_eq. intros i. unfold root_from. destruct (decide (i < n)%nat) as [Hi|Hi].
  - destruct (decide (i = Z.to_nat k)) as [->|Hne].
    + rewrite list_lookup_insert_eq by (rewrite length_map, length_seqZ; lia).
      rewrite list_lookup_fmap, lookup_seqZ_lt by lia. cbn. f_equal. rewrite V, E. unfold root_sector.
      by replace (partition_lba (vol s) + root_lba (vol s) + Z.of_nat (Z.to_nat k) =? _) with true by (symmetry; apply Z.eqb_eq; lia).
    + rewrite list_lookup_insert_ne by done. rewrite !list_lookup_fmap, lookup_seqZ_lt by lia. cbn. f_equal. rewrite V, E. unfold root_sector.
      by replace (partition_lba (vol s) + root_lba (vol s) + Z.of_nat i =? _) with false by (symmetry; apply Z.eqb_neq; lia).
  - rewrite !lookup_ge_None_2; [done|rewrite length_insert, length_map, length_seqZ; lia|rewrite length_map, length_seqZ; lia].
Qed.

End Root.

(** * The entry *)

Lemma path_basename_u8 path : Forall is_u8 path -> Forall is_u8 (path_basename path).
Proof.
  unfold path_basename. assert (X : forall l name, Forall is_u8 name -> Forall is_u8 l -> Forall is_u8 (path_basename_from name l)).
  { induction l as [|c l IH]; intros name Hn Hl; cbn; [done|]. apply Forall_cons in Hl as [_ Hl]. apply IH; [|done]. by destruct (c =? 47). }
  intros Hp. by apply X.
Qed.

Lemma upper_u8 l : Forall is_u8 l -> Forall is_u8 (map to_upper l).
Proof.
  intros Hl. apply Forall_map. eapply Forall_impl; [exact Hl|]. intros c Hc. unfold is_u8 in *. cbn. pose proof (to_upper_cases c). lia.
Qed.

Lemma make_83_bytes filename fat : Forall is_u8 filename -> make_83_name filename = Some fat ->
  len fat = 11 /\ Forall is_u8 fat /\ 0x20 < arr_get fat 0.
Proof.
  intros Hf Hm. destruct (make_83_facts _ _ Hm) as (base & ext & [Sb Se Sl Sle Sn] & ->). apply path_basename_u8 in Hf.
  assert (Hu : Forall is_u8 base /\ Forall is_u8 ext).
  { destruct Sn as [Sn|[Sn ->]]; rewrite Sn in Hf; [|split; [done|by apply Forall_nil]].
    apply Forall_app in Hf as [? Hf]. apply Forall_cons in Hf as [_ ?]. done. }
  destruct Hu as [Ub Ue]. split_and!.
  - assert (L1 : len (put_bytes 0 (map to_upper base) (replicate 11 32)) = 11).
    { rewrite len_put_bytes; [done|lia|]. rewrite len_upper. change (len (replicate 11 32)) with 11. lia. }
    unfold encode. by rewrite len_put_bytes; [|lia|rewrite L1, len_upper; lia].
  - unfold encode. apply put_bytes_u8; [by apply upper_u8|]. apply put_bytes_u8; [by apply upper_u8|]. by apply Forall_replicate.
  - rewrite encode_pad by lia. destruct base as [|c base]; [change (len (@nil Z)) with 0 in Sl; lia|].
    apply Forall_cons in Sb as [(C1 & C2 & C3 & C4) _]. change (arr_get _ 0) with (to_upper c). pose proof (to_upper_cases c). lia.
Qed.

Lemma read_u16_put_other off b buf o : 0 <= off -> off + len b <= len buf -> 0 <= o -> o + 2 <= len buf -> o + 2 <= off \/ off + len b <= o ->
  read_u16 (put_bytes off b buf) o = read_u16 buf o.
Proof. intros. unfold read_u16. rewrite !put_bytes_get by lia. bcases; cbn [andb]; done || lia. Qed.

Lemma read_write_u32 off v buf : 0 <= off -> off + 4 <= len buf -> is_u32 v -> read_u32 (write_u32 off v buf) off = v.
Proof.
  intros H1 H2 Hv. unfold read_u32, read_u16, write_u32. rewrite le32_facts by done.
  rewrite !put_bytes_get by (unfold len in *; cbn; lia). change (len [_; _; _; _]) with 4. bcases; cbn [andb].
  replace (off - off) with 0 by lia. replace (off + 1 - off) with 1 by lia. replace (off + 2 - off) with 2 by lia. replace (off + 2 + 1 - off) with 3 by lia.
  unfold arr_get. change (Z.to_nat 0) with 0%nat. change (Z.to_nat 1) with 1%nat. change (Z.to_nat 2) with 2%nat. change (Z.to_nat 3) with 3%nat.
  cbn [lookup_total list_lookup_total]. ulia.
Qed.

Lemma fill_entry_facts filename c n e : Forall is_u8 filename -> is_u16 c -> is_u32 n -> fill_entry filename c n = Some e ->
  len e = 32 /\ Forall is_u8 e /\ entry_matches_name e filename = true /\ ent_cluster e = c /\ ent_size e = n /\
  (ent_name0 e <> FAT16_DELETED_ENTRY -> entry_is_usable_file e = true).
Proof.
  intros Hf Hc Hn. unfold fill_entry. destruct (make_83_name filename) as [fat|] eqn:Em; [|done].
  destruct (make_83_bytes _ _ Hf Em) as (Lf & Uf & H0). destruct (arr_get fat 0 =? 32); [done|]. intros <-%(inj Some).
  assert (N32 : len (le32 n) = 4) by done. assert (N16 : forall v, len (le16 v) = 2) by done. assert (Nr : len (replicate 32 0) = 32) by done.
  set (b0 := put_bytes 0 fat (replicate 32 0)). assert (L0 : len b0 = 32) by (unfold b0; by rewrite len_put_bytes by lia).
  set (b1 := arr_set b0 11 FAT16_ATTR_ARCHIVE). assert (L1 : len b1 = 32) by (unfold b1; by rewrite len_arr_set).
  assert (L2 : len (write_u16 20 0 b1) = 32) by (unfold write_u16; by rewrite len_put_bytes by (rewrite ?N16; lia)).
  assert (L3 : len (write_u16 26 c (write_u16 20 0 b1)) = 32) by (unfold write_u16 at 1; by rewrite len_put_bytes by (rewrite ?N16; lia)).
  set (e := write_u32 28 n _). assert (Le : len e = 32) by (unfold e, write_u32; by rewrite len_put_bytes by lia).
  assert (U0 : Forall is_u8 b0) by (apply put_bytes_u8; [done|by apply Forall_replicate]).
  assert (G : forall o, 0 <= o < 20 -> arr_get e o = arr_get b1 o).
  { intros o Ho. unfold e, write_u32. rewrite put_bytes_get by lia. unfold write_u16 at 1. rewrite put_bytes_get by (rewrite ?N16; lia).
    unfold write_u16. rewrite put_bytes_get by (rewrite ?N16; lia). rewrite !N16, N32. bcases; cbn [andb]; done || lia. }
  assert (G11 : arr_get e 11 = FAT16_ATTR_ARCHIVE) by (rewrite G by lia; unfold b1; by rewrite arr_get_set_eq by lia).
  assert (Gn : forall o, 0 <= o < 11 -> arr_get e o = arr_get fat o).
  { intros o Ho. rewrite G by lia. unfold b1. rewrite arr_get_set_ne by lia. unfold b0. rewrite put_bytes_get by lia.
    rewrite Lf. bcases; cbn [andb]; try lia. f_equal. lia. }
  split_and!; [done|..].
  - unfold e. apply put_bytes_u8; [apply le32_u8|]. apply put_bytes_u8; [apply le16_u8|]. apply put_bytes_u8; [apply le16_u8|].
    apply arr_set_Forall; [done|by unfold is_u8, FAT16_ATTR_ARCHIVE].
  - unfold entry_matches_name. rewrite Em. apply bool_decide_eq_true_2. apply list_ext_get.
    + unfold len in *. rewrite length_take. lia.
    + intros i. unfold len in *. rewrite length_take. intros Hi. rewrite <- Gn by lia. unfold arr_get. by rewrite lookup_total_take, decide_True by lia.
  - unfold ent_cluster, e, write_u32. rewrite read_u16_put_other by (rewrite ?N32; lia). apply read_write_u16; [lia|lia|done].
  - unfold ent_size, e. apply read_write_u32; [lia|lia|done].
  - unfold entry_is_usable_file, ent_name0, ent_attributes. rewrite (Gn 0), G11 by lia. intros Hd.
    destruct (Z.eqb_spec (arr_get fat 0) 0); [lia|]. unfold FAT16_DELETED_ENTRY in Hd. destruct (Z.eqb_spec (arr_get fat 0) 0xE5); [done|]. done.
Qed.

(** * Creating an entry *)

Section Create.
Context {D : Type} `{SectorDevLaws D}.
Implicit Types s : fat16_state D.

(** The sectors of the root directory. *)
Definition root_secs s : list (list Z) := root_from s 0 (Z.to_nat (v_root_dir_sectors (vol s))).

Lemma lookup_root_run filename s : st_ok s -> exists s',
  lookup_root_entry filename s =
    (match find_in (root_secs s) 0 filename with
     | Some (e, j, i) => Some (e, mk_location (root_sector (vol s) j) i) | None => None end, s') /\ keeps s s'.
Proof.
  intros O. unfold lookup_root_entry, with_state. pose proof (vo_dirs _ (so_vol _ O)). apply lookup_loop_run; [done|lia|lia].
Qed.

Lemma root_secs_sector s : st_ok s -> Forall is_sector (root_secs s).
Proof. intros O. unfold root_secs, root_from. apply Forall_map, Forall_forall. intros j _. by apply S_sector. Qed.
Lemma root_secs_get s k : 0 <= k < v_root_dir_sectors (vol s) -> root_secs s !!! Z.to_nat k = S_ s (root_sector (vol s) k).
Proof.
  intros Hk. unfold root_secs, root_from. apply list_lookup_total_correct. rewrite list_lookup_fmap, lookup_seqZ_lt by lia. cbn.
  do 3 f_equal. lia.
Qed.

(** The slots of the root directory by number, and what they hold. *)
Definition root_slots s : Z := 16 * v_root_dir_sectors (vol s).
Definition root_entry s (m : Z) : list Z := entry_of (S_ s (root_sector (vol s) (m / 16))) (m mod 16).
Definition slot_location s (m : Z) : fat16_entry_location := mk_location (root_sector (vol s) (m / 16)) (m mod 16).

(** The first free slot of the sectors, by its number. *)
Lemma root_slot_first s :
  st_ok s ->
  match find_slot (root_secs s) 0 with
  | Some (k, i) => 0 <= k < v_root_dir_sectors (vol s) /\ 0 <= i < 16 /\ slot_free (root_entry s (16 * k + i)) = true /\
      forall m, 0 <= m < 16 * k + i -> slot_free (root_entry s m) = false
  | None => forall m, 0 <= m < root_slots s -> slot_free (root_entry s m) = false
  end.
Proof.
  intros O. pose proof (vo_dirs _ (so_vol _ O)) as Hd. pose proof (find_slot_first (root_secs s) 0) as Hf.
  assert (Ll : len (root_secs s) = v_root_dir_sectors (vol s)).
  { unfold root_secs, root_from, len. rewrite length_map, length_seqZ. lia. }
  rewrite Ll in Hf. unfold root_slots, root_entry. destruct (find_slot (root_secs s) 0) as [[k i]|].
  - destruct Hf as (Hk & Hi & Hfree & Hb). split; [lia|]. split; [done|].
    replace ((16 * k + i) / 16) with k by ulia. replace ((16 * k + i) mod 16) with i by ulia. split.
    + rewrite <- root_secs_get by lia. by rewrite Z.sub_0_r in Hfree.
    + intros m Hm. rewrite <- root_secs_get by ulia. rewrite <- (Z.sub_0_r (m / 16)). apply Hb; ulia.
  - intros m Hm. rewrite <- root_secs_get by ulia. rewrite <- (Z.sub_0_r (m / 16)). apply Hf; ulia.
Qed.

(** The run of [create_entry_unlocked]: what it stores and where. *)
Lemma create_entry_run filename c n s : st_ok s -> Forall is_u8 filename -> is_u16 c -> is_u32 n ->
  exists r s', create_entry_unlocked filename c n s = (r, s') /\
    match find_in (root_secs s) 0 filename, find_slot (root_secs s) 0, fill_entry filename c n with
    | None, Some (k, i), Some e => r = Some (mk_location (root_sector (vol s) k) i, e) /\ st_ok s' /\ vol s' = vol s /\
        forall x, S_ s' x = if x =? root_sector (vol s) k then put_bytes (32 * i) e (S_ s (root_sector (vol s) k)) else S_ s x
    | _, _, _ => r = None /\ keeps s s'
    end.
Proof.
  intros O Hf Hc Hn. unfold create_entry_unlocked, bind at 1, attempt. destruct (lookup_root_run filename s O) as (s1 & E1 & K1).
  rewrite E1. destruct (find_in (root_secs s) 0 filename) as [[[e0 j0] i0]|] eqn:Ein; [by exists None, s1|].
  pose proof K1 as (O1 & V1 & X1). pose proof (vo_dirs _ (so_vol _ O)) as Hd.
  unfold find_free_root_slot, with_state. destruct (slot_loop_run (Z.to_nat (v_root_dir_sectors (vol s1))) 0 s1 O1 ltac:(lia) ltac:(rewrite V1; lia)) as (s2 & E2 & K2 & B2).
  unfold bind at 1. rewrite E2. rewrite (keeps_root _ _ _ _ K1), V1 in *. fold (root_secs s) in B2 |- *.
  assert (K12 : keeps s s2) by (by eapply fkeeps_trans).
  pose proof (root_slot_first s O) as Hslot.
  destruct (find_slot (root_secs s) 0) as [[k i]|] eqn:Es; [|by exists None, s2]. specialize (B2 k i eq_refl). destruct Hslot as (Hk & Hi & _).
  destruct (fill_entry filename c n) as [e|] eqn:Ee; [|by exists None, s2].
  destruct (fill_entry_facts _ _ _ _ Hf Hc Hn Ee) as (Le & Ue & _).
  pose proof K12 as (O2 & V2 & X2). cbn [loc_index sector_lba]. change (ENTRY_SIZE * i) with (32 * i).
  destruct (edit_run s2 (put_bytes (32 * i) e) O2) as (s3 & E3 & (O3 & V3 & X3) & B3); [apply put_bytes_sector; [lia|lia|done|apply O2]|].
  destruct (write_sector_run s3 (root_sector (vol s) k) O3) as (s4 & E4 & O4 & V4 & B4 & X4).
  unfold bind. rewrite E3, E4. eexists (Some _), s4. split; [done|]. split; [done|]. split; [done|]. split; [congruence|].
  intros x. rewrite X4, B3, B2, X3, X2. by rewrite (X1 (root_sector (vol s) k)).
Qed.

(** C39: [create_entry_unlocked] changes nothing on the disk exactly when the name is
    taken, it is not a valid 8.3 name or the root directory has no free slot.  Otherwise
    it stores an entry with the given first cluster and size in the first free slot (never
    used, or of a deleted entry); every other slot and every other sector stay as they
    are; and [lookup_root_entry] finds exactly that entry under the name, unless the name
    starts with the byte 0xE5: that marks a deleted entry, and the new file is not found. *)
Theorem fat16_create_lookup filename c n s : st_ok s -> Forall is_u8 filename -> is_u16 c -> is_u32 n ->
  exists r s', create_entry_unlocked filename c n s = (r, s') /\
    match r with
    | Some (loc, e) => st_ok s' /\ (lookup_root_entry filename s).1 = None /\
        (lookup_root_entry filename s').1 = (if ent_name0 e =? 0xE5 then None else Some (e, loc)) /\
        make_83_name filename = Some (take 11 e) /\ ent_cluster e = c /\ ent_size e = n /\
        exists m, 0 <= m < root_slots s /\ loc = slot_location s m /\
          slot_free (root_entry s m) = true /\ (forall m', 0 <= m' < m -> slot_free (root_entry s m') = false) /\
          root_entry s' m = e /\ (forall m', 0 <= m' < root_slots s -> m' <> m -> root_entry s' m' = root_entry s m') /\
          forall x, x <> sector_lba loc -> S_ s' x = S_ s x
    | None => keeps s s' /\
        ((lookup_root_entry filename s).1 <> None \/ make_83_name filename = None \/
         forall m, 0 <= m < root_slots s -> slot_free (root_entry s m) = false)
    end.
Proof.
  intros O Hf Hc Hn. destruct (create_entry_run filename c n s O Hf Hc Hn) as (r & s' & Er & Hr). exists r, s'. split; [done|]. clear Er.
  destruct (lookup_root_run filename s O) as (s1 & E1 & _). rewrite E1. cbn [fst].
  destruct (find_in (root_secs s) 0 filename) as [[[e0 j0] i0]|] eqn:Ein; [destruct Hr as [-> Hr]; split; [done|by left]|].
  pose proof (root_slot_first s O) as Hslot.
  destruct (find_slot (root_secs s) 0) as [[k i]|] eqn:Es; [|destruct Hr as [-> Hr]; split; [done|by right; right]].
  destruct (fill_entry filename c n) as [e|] eqn:Ee.
  2:{ destruct Hr as [-> Hr]. split; [done|]. right. left. unfold fill_entry in Ee. destruct (make_83_name filename) as [fat|] eqn:Em; [|done].
      destruct (make_83_bytes _ _ Hf Em) as (_ & _ & Hgt). by destruct (Z.eqb_spec (arr_get fat 0) 32); [lia|]. }
  destruct Hr as (-> & O' & V' & X). destruct Hslot as (Hk & Hi & Hfree & Hfirst).
  destruct (fill_entry_facts _ _ _ _ Hf Hc Hn Ee) as (Le & Ue & Me & Ce & Se & Usable).
  assert (E83 : make_83_name filename = Some (take 11 e)).
  { unfold entry_matches_name in Me. destruct (make_83_name filename); [|done]. apply bool_decide_eq_true in Me. congruence. }
  assert (Ediv : (16 * k + i) / 16 = k) by ulia. assert (Emod : (16 * k + i) mod 16 = i) by ulia.
  split_and!; [done|done| |done|done|done|].
  - destruct (lookup_root_run filename s' O') as (s5 & E5 & _). rewrite E5. cbn [fst]. rewrite V'.
    destruct (Z.eqb_spec (ent_name0 e) 0xE5) as [Ed|Ed].
    { erewrite find_deleted; [done|exact E83|]. unfold arr_get. by rewrite lookup_total_take, decide_True by lia. }
    destruct (find_new _ _ _ _ _ _ Es Ein (root_secs_sector s O) Le (Usable Ed) Me) as (_ & _ & Efind). rewrite Z.sub_0_r in Efind.
    assert (Ers : root_secs s' = <[Z.to_nat k := put_bytes (32 * i) e (root_secs s !!! Z.to_nat k)]> (root_secs s)).
    { rewrite root_secs_get by done. unfold root_secs. rewrite V'. apply root_from_insert; [done|lia|done]. }
    by rewrite Ers, Efind.
  - exists (16 * k + i). unfold root_slots, slot_location. rewrite Ediv, Emod. pose proof (S_sector s (root_sector (vol s) k) O) as Sk.
    split; [lia|]. split; [done|]. split; [done|]. split; [done|]. split; [|split].
    + unfold root_entry. by rewrite Ediv, Emod, V', X, Z.eqb_refl, entry_of_put, Z.eqb_refl by (done || lia).
    + intros m' Hm' Hne. unfold root_entry. rewrite V', X. destruct (Z.eqb_spec (root_sector (vol s) (m' / 16)) (root_sector (vol s) k)) as [E|]; [|done].
      rewrite entry_of_put by (done || ulia). rewrite E. destruct (Z.eqb_spec (m' mod 16) i); [|done]. unfold root_sector in E. ulia.
    + cbn. intros x Hx. rewrite X. by destruct (Z.eqb_spec x (root_sector (vol s) k)).
Qed.
End Create.
