(* ===== verification/Fat16Demo.v ===== *)
(** A small FAT16 volume behind the block cache, on which the theorems about
    src/src/drivers/fat16.c are applied: 12 sectors, clusters of one sector, two
    copies of the table, an empty file and a file of 600 bytes. *)

From S2P Require Import Prelude Bcache Fat16 Fat16Fat Fat16Chain Fat16Read Fat16Write Fat16File Fat16Resize Fat16Fs Fat16Cache Fat16Mount Fat16Name Fat16Root.

Definition sector_with (l : list (Z * list Z)) : list Z := fold_left (fun b p => put_bytes p.1 p.2 b) l (replicate 512 0).

Definition demo_boot : list Z :=
  sector_with [(11, [0; 2; 1; 1; 0; 2; 16; 0; 12; 0]); (22, [1; 0]); (510, [0x55; 0xAA])].
Definition demo_fat : list Z := sector_with [(0, [0xF8; 0xFF; 0xFF; 0xFF; 3; 0; 0xFF; 0xFF])].
(** ["A       TXT"] and ["B       TXT"]. *)
Definition demo_root : list Z :=
  sector_with [(0, [65; 32; 32; 32; 32; 32; 32; 32; 84; 88; 84; 0x20]);
               (32, [66; 32; 32; 32; 32; 32; 32; 32; 84; 88; 84; 0x20]); (58, [2; 0; 88; 2; 0; 0])].

Definition fat_disk : good_disk := mk_good_disk (list_to_map
  [(0, demo_boot); (1, demo_fat); (2, demo_fat); (3, demo_root); (4, replicate 512 66); (5, replicate 512 66)]).
Definition demo_init : fat16_state (bcache good_disk) := mk_fat16 zero_volume (replicate 512 0) (bcache_init fat_disk).
Definition demo_fs : fat16_state (bcache good_disk) := (mount_superfloppy_or_partition 0 demo_init).2.

Definition file_a : fat16_node_data := mk_node_data 0 0 3 0.
Definition file_b : fat16_node_data := mk_node_data 2 600 3 1.

Lemma sector_check l : (length l =? 512)%nat && forallb (fun b => (0 <=? b) && (b <? 256)) l = true -> is_sector l.
Proof.
  intros [L%Nat.eqb_eq F]%andb_true_iff. split; [unfold len; lia|]. rewrite Forall_forall. rewrite forallb_forall in F.
  intros x Hx. specialize (F x). rewrite <- list_elem_of_In in F. apply F, andb_true_iff in Hx as [?%Z.leb_le ?%Z.ltb_lt]. unfold is_u8. lia.
Qed.

Lemma demo_io : io_ok demo_init.
Proof.
  split; [|by apply zero_sector]. apply fresh_cache_ok. intros x. cbn [contents good_laws].
  assert (M : map_Forall (fun _ l => is_sector l) (gd_sectors fat_disk)).
  { apply map_Forall_to_list, Forall_forall. intros [k l] Hin. apply sector_check.
    assert (F : forallb (fun p => (length p.2 =? 512)%nat && forallb (fun b => (0 <=? b) && (b <? 256)) p.2) (map_to_list (gd_sectors fat_disk)) = true)
      by (vm_compute; reflexivity).
    rewrite forallb_forall in F. specialize (F (k, l)). rewrite <- list_elem_of_In in F. by apply F. }
  destruct (gd_sectors fat_disk !! x) as [l|] eqn:E; [|apply zero_sector]. exact (M x l E).
Qed.

Lemma demo_mounted : mount_superfloppy_or_partition 0 demo_init = (Some tt, demo_fs).
Proof.
  assert (R : (mount_superfloppy_or_partition 0 demo_init).1 = Some tt) by (vm_compute; reflexivity).
  rewrite (surjective_pairing (mount_superfloppy_or_partition 0 demo_init)), R. reflexivity.
Qed.

Lemma demo_vol : vol demo_fs = mk_volume (mk_bpb 512 1 1 2 16 12 1 0) 0 1 3 4 1 12 true.
Proof. vm_compute. reflexivity. Qed.

Lemma fat16_mount_well_formed_witness : st_ok demo_fs.
Proof.
  apply (fat16_mount_well_formed demo_init 0 demo_fs); [exact demo_io|lia|exact demo_mounted|].
  rewrite demo_vol. unfold in_range. cbn. lia.
Defined.

Lemma demo_st : st_ok demo_fs.
Proof.
  destruct (mount_facts demo_init 0 demo_io ltac:(lia)) as (r & s1 & E & _ & P). rewrite demo_mounted in E. injection E as <- <-.
  apply P; [done|]. rewrite demo_vol. unfold in_range. cbn. lia.
Qed.

Lemma demo_fats : fatv demo_fs 2 = 3 /\ fatv demo_fs 3 = 0xFFFF /\ S_ demo_fs 2 = S_ demo_fs 1.
Proof. vm_compute. split_and!; reflexivity. Qed.

Lemma demo_entries :
  ent_size (disk_entry demo_fs file_a) = 0 /\ ent_size (disk_entry demo_fs file_b) = 600 /\ ent_cluster (disk_entry demo_fs file_b) = 2.
Proof. vm_compute. split_and!; reflexivity. Qed.

Lemma demo_capacity l : capacity demo_fs l = len l * 512.
Proof. unfold capacity. by rewrite demo_vol. Qed.
Lemma demo_data c : data_cluster (vol demo_fs) c <-> 2 <= c <= 9.
Proof. unfold data_cluster. rewrite demo_vol. by change (max_data_cluster _) with 9. Qed.
#[global] Opaque demo_fs.

Lemma demo_mirrored : mirrored demo_fs.
Proof.
  intros k c Hk Hc. pose proof (so_vol _ demo_st) as V. destruct (fat_sector_eq _ V k c Hk Hc) as [-> _].
  destruct (fat_sector_eq _ V 0 c ltac:(lia) Hc) as [-> _]. rewrite demo_vol in *. unfold in_fat in Hc. cbn in Hk, Hc |- *.
  replace (c / 256) with 0 by (symmetry; apply Z.div_small; lia). destruct (decide (k = 0)) as [->|]; [done|].
  replace k with 1 by lia. apply demo_fats.
Qed.

Lemma demo_root_apart c : data_cluster (vol demo_fs) c -> ~ in_cluster (vol demo_fs) c 3.
Proof. rewrite demo_data, demo_vol. unfold in_cluster, clba. cbn. lia. Qed.

Lemma demo_slot d l : dir_entry_lba d = 3 -> 0 <= dir_entry_index d < 16 -> slot_ok demo_fs d l.
Proof.
  intros El Hi. split; [lia|exact Hi|rewrite El, demo_vol; unfold fat_region; cbn; lia|].
  intros c Hc Hx. rewrite El in Hx. by apply demo_root_apart in Hx.
Qed.

Lemma demo_chain : chain demo_fs [2; 3].
Proof.
  apply chain_two. rewrite demo_data. split; [lia|]. split; [exact (proj1 demo_fats)|].
  apply chain_one. rewrite demo_data. split; [lia|]. rewrite (proj1 (proj2 demo_fats)). by unfold FAT16_EOC.
Qed.

Lemma demo_file_a : file_ok demo_fs (file_a, []).
Proof.
  split.
  - intros [Hc _]%demo_data. by cbn in Hc.
  - apply demo_slot; [reflexivity|cbn; lia].
  - rewrite demo_capacity. unfold len. cbn. lia.
  - cbn. lia.
  - exact (proj1 demo_entries).
  - cbn. lia.
Qed.
Lemma demo_file_b : file_ok demo_fs (file_b, [2; 3]).
Proof.
  split.
  - split; [reflexivity|exact demo_chain].
  - apply demo_slot; [reflexivity|cbn; lia].
  - rewrite demo_capacity. unfold len. cbn. lia.
  - cbn. lia.
  - exact (proj1 (proj2 demo_entries)).
  - intros _. exact (proj2 (proj2 demo_entries)).
Qed.

Lemma demo_files : files_ok demo_fs [(file_a, []); (file_b, [2; 3])].
Proof.
  split; [exact demo_st|exact demo_mirrored|..].
  - intros [|[|i]] f Hf; [injection Hf as <-; exact demo_file_a|injection Hf as <-; exact demo_file_b|discriminate].
  - intros [|[|i]] [|[|j]] f g Hf Hg Hij; try discriminate; try (by destruct Hij); injection Hf as <-; injection Hg as <-; (split; [set_solver|discriminate]).
  - intros i j f g c Hf Hg Hc Hx. assert (El : dir_entry_lba f.1 = 3) by (destruct i as [|[|i]]; [| |discriminate]; injection Hf as <-; reflexivity).
    rewrite El in Hx. exfalso. exact (demo_root_apart c Hc Hx).
Qed.

Lemma demo_fs_ok : fs_ok demo_fs [file_a; file_b].
Proof. exists [[]; [2; 3]]. split; [done|exact demo_files]. Qed.

(** * The theorems on the volume *)

Definition hello : list Z := [104; 101; 108; 108; 111].

Lemma hello_u8 : Forall is_u8 hello.
Proof. unfold hello. rewrite !Forall_cons. split_and!; [by unfold is_u8..|by apply Forall_nil]. Qed.

Lemma demo_csize : cluster_size_bytes (vol demo_fs) = 512.
Proof. by rewrite demo_vol. Qed.

Lemma fat16_write_spec_witness :
  exists n d' s', fat16_vfs_write file_a 0 5 hello demo_fs = (Some (n, d'), s') /\ fs_ok s' (<[0%nat := d']> [file_a; file_b]) /\
    (forall j e o k, j <> 0%nat -> [file_a; file_b] !! j = Some e -> 0 <= o -> 0 <= k -> (fat16_read e o k s').1 = (fat16_read e o k demo_fs).1) /\
    (n = 5 /\ (0 < 5 -> nd_size d' = Z.max 0 (0 + 5)) /\
       (0 <= 0 -> forall old, (fat16_read file_a 0 0 demo_fs).1 = Some old ->
        (fat16_read d' 0 (nd_size d') s').1 = Some (put_bytes 0 (take (Z.to_nat 5) hello) old)) \/
     n = 0 /\ full s' /\ nd_size d' = 0 /\ forall o k, 0 <= o -> 0 <= k -> (fat16_read d' o k s').1 = (fat16_read file_a o k demo_fs).1).
Proof.
  apply (fat16_write_spec demo_fs [file_a; file_b] 0 file_a 0 5 hello);
    [exact demo_fs_ok|reflexivity|lia|unfold len; cbn; lia|exact hello_u8|rewrite demo_csize; lia].
Defined.

Lemma fat16_truncate_spec_witness :
  exists r d' s', fat16_vfs_truncate file_b 10 demo_fs = (Some (r, d'), s') /\ fs_ok s' (<[1%nat := d']> [file_a; file_b]) /\
    (forall j e o k, j <> 1%nat -> [file_a; file_b] !! j = Some e -> 0 <= o -> 0 <= k -> (fat16_read e o k s').1 = (fat16_read e o k demo_fs).1) /\
    (r = 0 /\ nd_size d' = 10 /\ (forall n old, 0 <= n <= 10 -> n <= 600 -> (fat16_read file_b 0 n demo_fs).1 = Some old -> (fat16_read d' 0 n s').1 = Some old) \/
     r = -1 /\ full s' /\ nd_size d' = 600 /\ forall o k, 0 <= o -> 0 <= k -> (fat16_read d' o k s').1 = (fat16_read file_b o k demo_fs).1).
Proof.
  apply (fat16_truncate_spec demo_fs [file_a; file_b] 1 file_b 10); [exact demo_fs_ok|reflexivity|lia|rewrite demo_csize; lia].
Defined.

Lemma fat16_truncate_wraps_witness : exists d' s',
  fat16_vfs_truncate file_b 4294967295 demo_fs = (Some (0, d'), s') /\ nd_size d' = 4294967295 /\ nd_first_cluster d' = 0 /\
  (forall c, c ∈ [2; 3] -> fatv s' c = 0) /\ forall o k, (fat16_read d' o k s').1 = Some [].
Proof. apply (fat16_truncate_wraps demo_fs file_b [2; 3] 4294967295); [exact demo_st|exact demo_file_b|rewrite demo_csize; lia|lia]. Defined.

(** The empty file after [hello] is written to it. *)
Definition demo_written : option (Z * fat16_node_data) * fat16_state (bcache good_disk) := fat16_vfs_write file_a 0 5 hello demo_fs.
Definition demo_after : fat16_state (bcache good_disk) := demo_written.2.
Definition file_a' : fat16_node_data := mk_node_data 4 5 3 0.

Lemma demo_written_eq : fat16_vfs_write file_a 0 5 hello demo_fs = (Some (5, file_a'), demo_after).
Proof.
  assert (R : demo_written.1 = Some (5, file_a')) by (vm_compute; reflexivity).
  unfold demo_after. rewrite <- R. apply surjective_pairing.
Qed.

Lemma fat16_reachable_ok_witness : fs_ok demo_after [file_a'; file_b].
Proof.
  apply (fat16_reachable_ok (demo_fs, [file_a; file_b]) (demo_after, [file_a'; file_b])); [|exact demo_fs_ok].
  apply rtc_once. refine (fstep_write demo_fs [file_a; file_b] 0 file_a 0 5 hello 5 file_a' demo_after _ _ _ _ _ _);
    [reflexivity|lia|unfold len; cbn; lia|exact hello_u8|rewrite demo_csize; lia|exact demo_written_eq].
Defined.

(** ["bin/Init.ELF"], its 11 bytes and an entry with that name. *)
Definition name_init : list Z := [98; 105; 110; 47; 73; 110; 105; 116; 46; 69; 76; 70].
Definition fat_init : list Z := [73; 78; 73; 84; 32; 32; 32; 32; 69; 76; 70].
Definition entry_init : list Z := fat_init ++ replicate 21 0.

Lemma fat16_name_roundtrip_witness :
  make_83_name (entry_to_vfs_name entry_init) = Some fat_init /\ entry_matches_name entry_init (entry_to_vfs_name entry_init) = true /\
  (entry_to_vfs_name entry_init = map (to_lower ∘ to_upper) (path_basename name_init) \/
   entry_to_vfs_name entry_init ++ [46] = map (to_lower ∘ to_upper) (path_basename name_init)).
Proof. apply (fat16_name_roundtrip name_init fat_init entry_init); vm_compute; reflexivity. Defined.

Lemma fat16_create_lookup_witness :
  exists r s', create_entry_unlocked name_init 4 5 demo_fs = (r, s') /\
    match r with
    | Some (loc, e) => st_ok s' /\ (lookup_root_entry name_init demo_fs).1 = None /\
        (lookup_root_entry name_init s').1 = (if ent_name0 e =? 0xE5 then None else Some (e, loc)) /\
        make_83_name name_init = Some (take 11 e) /\ ent_cluster e = 4 /\ ent_size e = 5 /\
        exists m, 0 <= m < root_slots demo_fs /\ loc = slot_location demo_fs m /\
          slot_free (root_entry demo_fs m) = true /\ (forall m', 0 <= m' < m -> slot_free (root_entry demo_fs m') = false) /\
          root_entry s' m = e /\ (forall m', 0 <= m' < root_slots demo_fs -> m' <> m -> root_entry s' m' = root_entry demo_fs m') /\
          forall x, x <> sector_lba loc -> S_ s' x = S_ demo_fs x
    | None => keeps demo_fs s' /\
        ((lookup_root_entry name_init demo_fs).1 <> None \/ make_83_name name_init = None \/
         forall m, 0 <= m < root_slots demo_fs -> slot_free (root_entry demo_fs m) = false)
    end.
Proof.
  apply (fat16_create_lookup name_init 4 5 demo_fs); [exact demo_st| |by unfold is_u16|by unfold is_u32].
  unfold name_init. rewrite !Forall_cons. split_and!; [by unfold is_u8..|by apply Forall_nil].
Defined.

(** * Behaviour that surprises *)

(** ["c.txt"] *)
Definition name_c : list Z := [99; 46; 116; 120; 116].
Definition write_c : option Z * fat16_state (bcache good_disk) := fat16_write_file name_c hello 5 demo_fs.

(** [fat16_write_file] writes the contents with [ata_write_sectors], past the
    block cache, after [clear_cluster] has put the zeroed sectors of the new
    clusters into the cache: the call succeeds, the bytes are on the disk, and
    [fat16_read_file] returns zeros. *)
Theorem fat16_write_file_stale :
  write_c.1 = Some 5 /\ take 5 (contents (disk (dev write_c.2)) 6) = hello /\ (fat16_read_file name_c write_c.2).1 = Some [0; 0; 0; 0; 0].
Proof. vm_compute. split_and!; reflexivity. Qed.

Definition shrunk : option (Z * fat16_node_data) * fat16_state (bcache good_disk) := fat16_vfs_truncate file_b 10 demo_fs.
Definition shrunk_b : fat16_node_data := mk_node_data 2 10 3 1.
Definition regrown : option (Z * fat16_node_data) * fat16_state (bcache good_disk) := fat16_vfs_write shrunk_b 20 5 hello shrunk.2.

(** The bytes that a truncation cuts off stay in the last cluster; a write past
    the new end of the file makes them part of the file again instead of zeros. *)
Theorem fat16_hole_exposes_old_bytes :
  shrunk.1 = Some (0, shrunk_b) /\ regrown.1 = Some (5, mk_node_data 2 25 3 1) /\
  (fat16_read (mk_node_data 2 25 3 1) 10 15 regrown.2).1 = Some (replicate 10 66 ++ hello).
Proof. vm_compute. split_and!; reflexivity. Qed.
