(* ===== verification/Vfs.v ===== *)
(** The virtual file system, src/src/kernel/vfs.c: nodes in kernel memory, path
    resolution, canonical paths, permissions, links, mounts and file locks.

    A pointer to a node is its address, 0 is the null pointer, and the state maps
    the addresses of allocated nodes to their fields.  Allocation is an interface
    ([Allocator]) that the kernel heap implements.  The function pointers of a node
    are numbers; what they do is given by [NodeOps].  The type [X] is the state of
    the drivers.  [vfs_mutex] makes each function one step and is left out, like the
    null checks of arguments that the model has no null value for. *)

From S2P Require Import Prelude.

(** * Memory *)

Class Allocator (H : Type) := {
  k_alloc : Z -> H -> option Z * H;
  k_free : Z -> H -> H
}.

(** * Data *)

Definition VFS_NAME_MAX : Z := 64.
Definition LOCK_SH : Z := 1.
Definition LOCK_EX : Z := 2.
Definition LOCK_UN : Z := 8.
Definition S_IXUSR : Z := 0x40.

Inductive vfs_node_type :=
  | VFS_NODE_FILE | VFS_NODE_DIRECTORY | VFS_NODE_DEVICE | VFS_NODE_PIPE | VFS_NODE_SOCKET | VFS_NODE_SYMLINK.
#[export] Instance vfs_node_type_eq_dec : EqDecision vfs_node_type.
Proof. solve_decision. Defined.

Record vfs_node := mk_node {
  vn_name : list Z;
  vn_type : vfs_node_type;
  vn_size : Z;
  vn_uid : Z;
  vn_gid : Z;
  vn_mode : Z;
  vn_nlink : Z;
  vn_ref_count : Z;
  vn_lock_type : Z;
  vn_lock_count : Z;
  vn_lock_owner_pid : Z;
  vn_symlink_target : list Z;
  vn_data : Z;
  vn_read : Z;
  vn_write : Z;
  vn_open : Z;
  vn_close : Z;
  vn_readdir : Z;
  vn_truncate : Z;
  vn_parent : Z;
  vn_child : Z;
  vn_sibling : Z;
  vn_mounted_here : Z
}.
#[export] Instance eta_vfs_node : Eta vfs_node := fun n =>
  mk_node (vn_name n) (vn_type n) (vn_size n) (vn_uid n) (vn_gid n) (vn_mode n) (vn_nlink n) (vn_ref_count n)
    (vn_lock_type n) (vn_lock_count n) (vn_lock_owner_pid n) (vn_symlink_target n) (vn_data n) (vn_read n) (vn_write n)
    (vn_open n) (vn_close n) (vn_readdir n) (vn_truncate n) (vn_parent n) (vn_child n) (vn_sibling n) (vn_mounted_here n).

Definition zero_node : vfs_node := mk_node [] VFS_NODE_FILE 0 0 0 0 0 0 0 0 0 [] 0 0 0 0 0 0 0 0 0 0 0.
#[export] Instance vfs_node_inhabited : Inhabited vfs_node := populate zero_node.

Record vfs_dir_entry := mk_dir_entry {
  de_name : list Z;
  de_type : vfs_node_type;
  de_size : Z;
  de_uid : Z;
  de_gid : Z;
  de_mode : Z;
  de_nlink : Z
}.

(** A mount with the address of its block. *)
Record vfs_mount := mk_mount {
  m_ptr : Z;
  mount_point : list Z;
  m_source : list Z;
  m_fs_type : list Z;
  m_root_node : Z;
  mount_over : Z
}.

(** The fields of the current task that the VFS uses. *)
Record vtask := mk_vtask {
  t_umask : Z;
  t_uid : Z;
  t_gid : Z;
  t_cwd : list Z
}.
#[export] Instance eta_vtask : Eta vtask := fun t => mk_vtask (t_umask t) (t_uid t) (t_gid t) (t_cwd t).

Record vfs H X := mk_vfs {
  nodes : gmap Z vfs_node;
  root_node : Z;
  vfs_mount_list : list vfs_mount;
  vheap : H;
  current : option vtask;
  drivers : X
}.
Arguments mk_vfs {H X} _ _ _ _ _ _.
Arguments nodes {H X} _.
Arguments root_node {H X} _.
Arguments vfs_mount_list {H X} _.
Arguments vheap {H X} _.
Arguments current {H X} _.
Arguments drivers {H X} _.
#[export] Instance eta_vfs H X : Eta (vfs H X) := fun s =>
  mk_vfs (nodes s) (root_node s) (vfs_mount_list s) (vheap s) (current s) (drivers s).

(** * Strings: lists of bytes without the terminating zero *)

(** [right] is compared with the first [n] bytes of [left]. *)
Fixpoint string_equals_n (left right : list Z) (n : nat) : bool :=
  match n with
  | O => match right with [] => true | _ => false end
  | S n' =>
      match left, right with
      | l :: left', r :: right' => if negb (l =? r) then false else string_equals_n left' right' n'
      | _, _ => false
      end
  end.
Fixpoint string_equals (s1 s2 : list Z) : bool :=
  match s1, s2 with
  | c1 :: s1', c2 :: s2' => if negb (c1 =? c2) then false else string_equals s1' s2'
  | [], [] => true
  | _, _ => false
  end.
Definition copy_name (src : list Z) : list Z := take (Z.to_nat (VFS_NAME_MAX - 1)) src.

(** The components of a path: what the loops over a path find between slashes.
    [cur] is the component read so far. *)
Fixpoint components_from (cur path : list Z) : list (list Z) :=
  match path with
  | [] => match cur with [] => [] | _ => [cur] end
  | c :: path' =>
      if c =? 47 then match cur with [] => components_from [] path' | _ => cur :: components_from [] path' end
      else components_from (cur ++ [c]) path'
  end.
Definition components (path : list Z) : list (list Z) := components_from [] path.
Definition is_dot (c : list Z) : bool := bool_decide (c = [46]).
Definition is_dotdot (c : list Z) : bool := bool_decide (c = [46; 46]).

Section Vfs.
Context {H X : Type} `{Allocator H}.
Implicit Types s : vfs H X.

Definition node_at s (p : Z) : vfs_node := nodes s !!! p.
Definition set_node (p : Z) (n : vfs_node) s : vfs H X := s <| nodes := <[p := n]> (nodes s) |>.
Definition upd_node (p : Z) (f : vfs_node -> vfs_node) s : vfs H X := set_node p (f (node_at s p)) s.

(** [sizeof(vfs_node_t)]: name 64, type 4 and padding 4, size 8, eight 32-bit fields,
    symlink_target 64, data 8, six function pointers, four node pointers. *)
Definition VFS_NODE_SIZE : Z := 64 + (4 + 4) + 8 + 8 * 4 + 64 + 8 + 6 * 8 + 4 * 8.
Definition kmalloc_node s : option Z * vfs H X :=
  let '(r, h) := k_alloc VFS_NODE_SIZE (vheap s) in (r, s <| vheap := h |>).
(** [kfree] of a node and of another block. *)
Definition kfree_node (p : Z) s : vfs H X := s <| nodes := delete p (nodes s) |> <| vheap := k_free p (vheap s) |>.
Definition kfree_block (p : Z) s : vfs H X := s <| vheap := k_free p (vheap s) |>.

(** * Nodes *)

(** The fuel of a walk along siblings: no list is longer than the number of nodes. *)
Definition walk_fuel s : nat := size (nodes s).

Fixpoint find_child_loop (fuel : nat) (node : Z) (name : list Z) (n : nat) s : Z :=
  match fuel with
  | O => 0
  | S fuel' =>
      if node =? 0 then 0
      else if string_equals_n name (vn_name (node_at s node)) n
      then (if negb (vn_mounted_here (node_at s node) =? 0) then vn_mounted_here (node_at s node) else node)
      else find_child_loop fuel' (vn_sibling (node_at s node)) name n s
  end.
Definition find_child (parent : Z) (name : list Z) (n : nat) s : Z :=
  find_child_loop (walk_fuel s) (vn_child (node_at s parent)) name n s.

Definition current_umask s : Z := match current s with Some t => t_umask t | None => 0x12 end.
Definition masked_bits (bits umask : Z) : Z := Z.land (Z.land bits (lnot32 umask)) 0x1FF.

(** 0 is the null pointer. *)
Definition vfs_create_node (parent : Z) (name : list Z) (type : vfs_node_type) s : Z * vfs H X :=
  match kmalloc_node s with
  | (None, s) => (0, s)
  | (Some p, s) =>
      let umask := current_umask s in
      let n := zero_node
        <| vn_name := copy_name name |>
        <| vn_type := type |>
        <| vn_parent := parent |>
        <| vn_uid := match current s with Some t => t_uid t | None => 0 end |>
        <| vn_gid := match current s with Some t => t_gid t | None => 0 end |>
        <| vn_mode := if bool_decide (type = VFS_NODE_DIRECTORY) then masked_bits 0x1FF umask else masked_bits 0x1B6 umask |>
        <| vn_nlink := 1 |> in
      if negb (parent =? 0)
      then (p, upd_node parent (fun q => q <| vn_child := p |>)
                 (set_node p (n <| vn_sibling := vn_child (node_at s parent) |>) s))
      else (p, set_node p n s)
  end.

Definition vfs_init s : vfs H X :=
  let s := s <| vfs_mount_list := [] |> in
  let '(p, s) := vfs_create_node 0 [47] VFS_NODE_DIRECTORY s in
  s <| root_node := p |>.
Definition vfs_root s : Z := root_node s.

Definition vfs_node_ref (p : Z) s : vfs H X :=
  if p =? 0 then s else upd_node p (fun n => n <| vn_ref_count := u32 (vn_ref_count n + 1) |>) s.
Definition free_data (p : Z) s : vfs H X :=
  if negb (vn_data (node_at s p) =? 0)
  then upd_node p (fun n => n <| vn_data := 0 |>) (kfree_block (vn_data (node_at s p)) s)
  else s.
Definition vfs_node_unref (p : Z) s : vfs H X :=
  if p =? 0 then s
  else
    let s := if 0 <? vn_ref_count (node_at s p)
             then upd_node p (fun n => n <| vn_ref_count := vn_ref_count n - 1 |>) s else s in
    if (vn_ref_count (node_at s p) =? 0) && (vn_parent (node_at s p) =? 0) && negb (p =? root_node s)
    then kfree_node p (free_data p s) else s.

(** * Path resolution *)

Fixpoint resolve (cs : list (list Z)) (cur : Z) s : Z :=
  match cs with
  | [] => cur
  | c :: cs' =>
      if negb (bool_decide (vn_type (node_at s cur) = VFS_NODE_DIRECTORY)) then 0
      else if is_dot c then resolve cs' cur s
      else if is_dotdot c
      then resolve cs' (if negb (vn_parent (node_at s cur) =? 0) then vn_parent (node_at s cur) else cur) s
      else
        let next := find_child cur c (length c) s in
        if next =? 0 then 0 else resolve cs' next s
  end.
Definition vfs_find_relative (base : Z) (path : list Z) s : Z :=
  match path with
  | [] => 0
  | c :: _ =>
      if root_node s =? 0 then 0
      else resolve (components path) (if (c =? 47) || (base =? 0) then root_node s else base) s
  end.
Definition vfs_find (path : list Z) s : Z := vfs_find_relative (root_node s) path s.

Fixpoint vfs_find_following_symlinks (max_depth : nat) (path : list Z) s : Z :=
  match max_depth with
  | O => 0
  | S d =>
      let node := vfs_find path s in
      if node =? 0 then 0
      else if bool_decide (vn_type (node_at s node) = VFS_NODE_SYMLINK)
      then match vn_symlink_target (node_at s node) with
           | [] => node
           | target => vfs_find_following_symlinks d target s
           end
      else node
  end.

(** * Permissions *)

Definition vfs_check_permission (n : vfs_node) (mask uid gid : Z) : bool :=
  if uid =? 0 then true
  else if vn_uid n =? uid then Z.land (Z.shiftr (vn_mode n) 6) mask =? mask
  else if vn_gid n =? gid then Z.land (Z.shiftr (vn_mode n) 3) mask =? mask
  else Z.land (vn_mode n) mask =? mask.

Definition vfs_chmod (path : list Z) (mode : Z) s : Z * vfs H X :=
  let node := vfs_find path s in
  if node =? 0 then (-1, s) else (0, upd_node node (fun n => n <| vn_mode := Z.land mode 0x1FF |>) s).
Definition vfs_chown (path : list Z) (uid gid : Z) s : Z * vfs H X :=
  let node := vfs_find path s in
  if node =? 0 then (-1, s) else (0, upd_node node (fun n => n <| vn_uid := uid |> <| vn_gid := gid |>) s).

(** * Links *)

(** The index of the last slash among the first 63 bytes, 0 when there is none. *)
Fixpoint last_slash_from (i last : Z) (path : list Z) : Z :=
  match path with
  | [] => last
  | c :: path' => last_slash_from (i + 1) (if c =? 47 then i else last) path'
  end.
Definition last_slash (path : list Z) : Z := last_slash_from 0 0 (take (Z.to_nat (VFS_NAME_MAX - 1)) path).
(** The parent's path and the name of a new node. *)
Definition split_parent (path : list Z) : list Z * list Z :=
  let last := last_slash path in
  if last =? 0
  then ([47], copy_name (match path with 47 :: path' => path' | _ => path end))
  else (take (Z.to_nat last) path, copy_name (drop (Z.to_nat last + 1) path)).

Definition vfs_link (oldpath newpath : list Z) s : Z * vfs H X :=
  let old_node := vfs_find oldpath s in
  if (old_node =? 0) || bool_decide (vn_type (node_at s old_node) = VFS_NODE_DIRECTORY) then (-1, s)
  else
    let '(parent_path, new_name) := split_parent newpath in
    let parent := vfs_find parent_path s in
    if (parent =? 0) || negb (bool_decide (vn_type (node_at s parent) = VFS_NODE_DIRECTORY)) then (-1, s)
    else
      let '(new_node, s) := vfs_create_node parent new_name (vn_type (node_at s old_node)) s in
      if new_node =? 0 then (-1, s)
      else
        let o := node_at s old_node in
        let s := upd_node new_node (fun n => n
          <| vn_data := vn_data o |> <| vn_read := vn_read o |> <| vn_write := vn_write o |>
          <| vn_open := vn_open o |> <| vn_close := vn_close o |> <| vn_readdir := vn_readdir o |>
          <| vn_size := vn_size o |> <| vn_uid := vn_uid o |> <| vn_gid := vn_gid o |> <| vn_mode := vn_mode o |>) s in
        let s := upd_node old_node (fun n => n <| vn_nlink := u32 (vn_nlink n + 1) |>) s in
        (0, upd_node new_node (fun n => n <| vn_nlink := vn_nlink (node_at s old_node) |>) s).

(** The node is taken out of the list of its parent. *)
Fixpoint detach_from (fuel : nat) (node prev curr : Z) s : vfs H X :=
  match fuel with
  | O => s
  | S fuel' =>
      if curr =? 0 then s
      else if curr =? node then
        if negb (prev =? 0)
        then upd_node prev (fun n => n <| vn_sibling := vn_sibling (node_at s curr) |>) s
        else upd_node (vn_parent (node_at s node)) (fun n => n <| vn_child := vn_sibling (node_at s curr) |>) s
      else detach_from fuel' node curr (vn_sibling (node_at s curr)) s
  end.
Definition detach (node : Z) s : vfs H X :=
  if negb (vn_parent (node_at s node) =? 0)
  then
    let s := detach_from (walk_fuel s) node 0 (vn_child (node_at s (vn_parent (node_at s node)))) s in
    upd_node node (fun n => n <| vn_parent := 0 |> <| vn_sibling := 0 |>) s
  else s.

(** The part of [vfs_unlink] after the file system has removed the file. *)
Definition unlink_node (pathname : list Z) s : Z * vfs H X :=
  let node := vfs_find pathname s in
  if (node =? 0) || bool_decide (vn_type (node_at s node) = VFS_NODE_DIRECTORY) then (-1, s)
  else
    let s := if 0 <? vn_nlink (node_at s node)
             then upd_node node (fun n => n <| vn_nlink := vn_nlink n - 1 |>) s else s in
    let s := detach node s in
    (0, if (vn_ref_count (node_at s node) =? 0) && (vn_nlink (node_at s node) =? 0)
        then kfree_node node (free_data node s) else s).

(** The part of [vfs_rmdir] after the file system has removed the directory. *)
Definition rmdir_node (path : list Z) s : Z * vfs H X :=
  let node := vfs_find path s in
  if (node =? 0) || negb (bool_decide (vn_type (node_at s node) = VFS_NODE_DIRECTORY)) then (-1, s)
  else if node =? vfs_root s then (-1, s)
  else if negb (vn_child (node_at s node) =? 0) then (-1, s)
  else
    let s := detach node s in
    (0, if vn_ref_count (node_at s node) =? 0 then kfree_node node (free_data node s) else s).

(** [vfs_mkdir] without a mounted FAT16 volume. *)
Definition mkdir_node (path : list Z) (mode : Z) s : Z * vfs H X :=
  let '(parent_path, dir_name) := split_parent path in
  match dir_name with
  | [] => (-1, s)
  | _ =>
      let parent := vfs_find parent_path s in
      if (parent =? 0) || negb (bool_decide (vn_type (node_at s parent) = VFS_NODE_DIRECTORY)) then (-1, s)
      else if negb (find_child parent dir_name (length dir_name) s =? 0) then (-1, s)
      else
        let '(node, s) := vfs_create_node parent dir_name VFS_NODE_DIRECTORY s in
        if node =? 0 then (-1, s)
        else
          let umask := current_umask s in
          (0, upd_node node (fun n => n <| vn_mode := if negb (mode =? 0) then masked_bits mode umask else masked_bits 0x1FF umask |>) s)
  end.

Definition vfs_symlink (target linkpath : list Z) s : Z * vfs H X :=
  let '(parent_path, link_name) := split_parent linkpath in
  let parent := vfs_find parent_path s in
  if (parent =? 0) || negb (bool_decide (vn_type (node_at s parent) = VFS_NODE_DIRECTORY)) then (-1, s)
  else
    let '(node, s) := vfs_create_node parent link_name VFS_NODE_SYMLINK s in
    if node =? 0 then (-1, s)
    else (0, upd_node node (fun n => n <| vn_symlink_target := copy_name target |>
                                       <| vn_size := Z.min (VFS_NAME_MAX - 1) (len linkpath) |>) s).

(** The return value and the bytes put into the buffer. *)
Definition vfs_readlink (pathname : list Z) (bufsiz : Z) s : Z * list Z :=
  let node := vfs_find pathname s in
  if (node =? 0) || negb (bool_decide (vn_type (node_at s node) = VFS_NODE_SYMLINK)) || (bufsiz =? 0) then (-1, [])
  else
    let bytes := take (Z.to_nat (bufsiz - 1)) (vn_symlink_target (node_at s node)) in
    (len bytes, bytes).

(** * Listing *)

Fixpoint nth_sibling (n : nat) (child : Z) s : Z :=
  match n with
  | O => child
  | S n' => if child =? 0 then 0 else nth_sibling n' (vn_sibling (node_at s child)) s
  end.
(** [vfs_readdir] of a directory without a [readdir] of its own. *)
Definition list_children (node index : Z) s : Z * option vfs_dir_entry :=
  let child := nth_sibling (Z.to_nat index) (vn_child (node_at s node)) s in
  if child =? 0 then (0, None)
  else
    let c := node_at s child in
    (1, Some (mk_dir_entry (copy_name (vn_name c)) (vn_type c) (u32 (vn_size c)) (vn_uid c) (vn_gid c) (vn_mode c) (vn_nlink c))).

(** * Locks *)

Definition unlock (n : vfs_node) : vfs_node :=
  n <| vn_lock_type := 0 |> <| vn_lock_count := 0 |> <| vn_lock_owner_pid := 0 |>.
Definition drop_shared (n : vfs_node) : vfs_node :=
  let n := if 0 <? vn_lock_count n then n <| vn_lock_count := vn_lock_count n - 1 |> else n in
  if vn_lock_count n =? 0 then n <| vn_lock_type := 0 |> else n.
Definition flag (op bit : Z) : bool := negb (Z.land op bit =? 0).
Definition flock_node (op pid : Z) (n : vfs_node) : Z * vfs_node :=
  if flag op LOCK_UN then
    (0, if vn_lock_type n =? LOCK_EX
        then (if (vn_lock_owner_pid n =? pid) || (vn_lock_owner_pid n =? 0) then unlock n else n)
        else if vn_lock_type n =? LOCK_SH then drop_shared n else n)
  else if flag op LOCK_SH then
    if (vn_lock_type n =? LOCK_EX) && negb (vn_lock_owner_pid n =? pid) then (-1, n)
    else (0, n <| vn_lock_type := LOCK_SH |> <| vn_lock_count := u32 (vn_lock_count n + 1) |>)
  else if flag op LOCK_EX then
    if ((vn_lock_type n =? LOCK_EX) && negb (vn_lock_owner_pid n =? pid)) ||
       ((vn_lock_type n =? LOCK_SH) &&
        ((1 <? vn_lock_count n) || ((vn_lock_count n =? 1) && negb (vn_lock_owner_pid n =? pid)))) then (-1, n)
    else (0, n <| vn_lock_type := LOCK_EX |> <| vn_lock_count := 1 |> <| vn_lock_owner_pid := pid |>)
  else (-1, n).
Definition vfs_flock (node op pid : Z) s : Z * vfs H X :=
  if node =? 0 then (-1, s)
  else let '(r, n) := flock_node op pid (node_at s node) in (r, set_node node n s).
Definition unlock_by_pid (pid : Z) (n : vfs_node) : vfs_node :=
  if (vn_lock_type n =? LOCK_EX) && (vn_lock_owner_pid n =? pid) then unlock n
  else if vn_lock_type n =? LOCK_SH then drop_shared n else n.
Definition vfs_node_unlock_by_pid (node pid : Z) s : vfs H X :=
  if node =? 0 then s else upd_node node (unlock_by_pid pid) s.

(** * Canonical paths *)

(** One component of a path on the stack of at most 32 components. *)
Definition push_component (stack : list (list Z)) (c : list Z) : list (list Z) :=
  if is_dot c then stack
  else if is_dotdot c then take (length stack - 1) stack
  else if Z.of_nat (length stack) <? 32 then stack ++ [c] else stack.
Fixpoint join_from (out_idx capacity : Z) (cs : list (list Z)) : option (list Z) :=
  match cs with
  | [] => Some []
  | c :: cs' =>
      if capacity <=? out_idx + 1 + len c then None
      else let* rest := join_from (out_idx + 1 + len c) capacity cs' in Some (47 :: c ++ rest)
  end.
(** [None] is the return value -1. *)
Definition vfs_build_path (base_cwd input_path : list Z) (out_capacity : Z) : option (list Z) :=
  if out_capacity <? 2 then None
  else
    let stack := match input_path with
                 | 47 :: _ => []
                 | _ => foldl push_component [] (components (match base_cwd with [] => [47] | _ => base_cwd end))
                 end in
    match foldl push_component stack (components input_path) with
    | [] => Some [47]
    | cs => join_from 0 out_capacity cs
    end.

Definition vfs_chdir (path : list Z) s : Z * vfs H X :=
  match current s with
  | None => (-1, s)
  | Some task =>
      match vfs_build_path (t_cwd task) path 64 with
      | None => (-1, s)
      | Some target_path =>
          let node := vfs_find target_path s in
          if (node =? 0) || negb (bool_decide (vn_type (node_at s node) = VFS_NODE_DIRECTORY)) then (-1, s)
          else if negb (vfs_check_permission (node_at s node) S_IXUSR (t_uid task) (t_gid task)) then (-1, s)
          else if 64 <=? len target_path then (-1, s)
          else (0, s <| current := Some (task <| t_cwd := target_path |>) |>)
      end
  end.
Definition vfs_getcwd (size : Z) s : option (list Z) :=
  match current s with
  | None => None
  | Some task =>
      if size =? 0 then None
      else
        let cwd := match t_cwd task with [] => [47] | cwd => cwd end in
        if size <=? len cwd then None else Some cwd
  end.
End Vfs.

(** * Operations that call a file system *)

(** What the VFS calls: the functions behind the pointers of a node (the first
    argument is the pointer), the FAT16 functions on paths and [ext2_mount_at].
    A read returns its value and the bytes put into the buffer. *)
Class FsDrivers (H X : Type) := {
  call_read : Z -> Z -> Z -> Z -> vfs H X -> Z * list Z * vfs H X;
  call_write : Z -> Z -> Z -> list Z -> vfs H X -> Z * vfs H X;
  call_readdir : Z -> Z -> Z -> vfs H X -> Z * option vfs_dir_entry * vfs H X;
  call_truncate : Z -> Z -> Z -> vfs H X -> Z * vfs H X;
  fat16_is_mounted : X -> bool;
  fat16_vfs_unlink : list Z -> vfs H X -> Z * vfs H X;
  fat16_vfs_mkdir : list Z -> Z -> vfs H X -> Z * vfs H X;
  fat16_vfs_rmdir : list Z -> vfs H X -> Z * vfs H X;
  ext2_mount_at : Z -> Z -> vfs H X -> bool * vfs H X
}.

Section FsCalls.
Context {H X : Type} `{Allocator H} `{FsDrivers H X}.
Implicit Types s : vfs H X.

Definition vfs_unlink (pathname : list Z) s : Z * vfs H X :=
  match pathname with
  | [] => (-1, s)
  | _ =>
      if fat16_is_mounted (drivers s)
      then let '(r, s) := fat16_vfs_unlink pathname s in
           if negb (r =? 0) then (-1, s) else unlink_node pathname s
      else unlink_node pathname s
  end.
Definition vfs_mkdir (path : list Z) (mode : Z) s : Z * vfs H X :=
  match path with
  | [] => (-1, s)
  | _ => if fat16_is_mounted (drivers s) then fat16_vfs_mkdir path mode s else mkdir_node path mode s
  end.
Definition vfs_rmdir (path : list Z) s : Z * vfs H X :=
  match path with
  | [] => (-1, s)
  | _ =>
      if fat16_is_mounted (drivers s)
      then let '(r, s) := fat16_vfs_rmdir path s in
           if negb (r =? 0) then (-1, s) else rmdir_node path s
      else rmdir_node path s
  end.

Definition vfs_read (node offset size : Z) s : Z * list Z * vfs H X :=
  if (node =? 0) || (vn_read (node_at s node) =? 0) then (0, [], s)
  else call_read (vn_read (node_at s node)) node offset size s.
Definition vfs_write (node offset : Z) (buffer : list Z) s : Z * vfs H X :=
  if (node =? 0) || (vn_write (node_at s node) =? 0) then (0, s)
  else call_write (vn_write (node_at s node)) node offset buffer s.
Definition vfs_readdir (node index : Z) s : Z * option vfs_dir_entry * vfs H X :=
  if (node =? 0) || negb (bool_decide (vn_type (node_at s node) = VFS_NODE_DIRECTORY)) then (-1, None, s)
  else if negb (vn_readdir (node_at s node) =? 0) then call_readdir (vn_readdir (node_at s node)) node index s
  else (list_children node index s, s).
Definition vfs_truncate (node length : Z) s : Z * vfs H X :=
  if (node =? 0) || negb (bool_decide (vn_type (node_at s node) = VFS_NODE_FILE)) then (-1, s)
  else if negb (vn_truncate (node_at s node) =? 0) then call_truncate (vn_truncate (node_at s node)) node length s
  else (0, upd_node node (fun n => n <| vn_size := length |>) s).
Definition vfs_truncate_path (path : list Z) (length : Z) s : Z * vfs H X :=
  let node := vfs_find path s in
  if node =? 0 then (-1, s) else vfs_truncate node length s.

(** The strings "none", "generic", "ext2" and "/dev/ata0p2". *)
Definition str_none : list Z := [110; 111; 110; 101].
Definition str_generic : list Z := [103; 101; 110; 101; 114; 105; 99].
Definition str_ext2 : list Z := [101; 120; 116; 50].
Definition str_ata0p2 : list Z := [47; 100; 101; 118; 47; 97; 116; 97; 48; 112; 50].
Definition is_str (o : option (list Z)) (t : list Z) : bool :=
  match o with Some u => string_equals u t | None => false end.
Definition or_str (o : option (list Z)) (t : list Z) : list Z := match o with Some u => u | None => t end.

(** [sizeof(vfs_mount_t)]: two names, fs_type 32, three pointers. *)
Definition VFS_MOUNT_SIZE : Z := 64 + 64 + 32 + 3 * 8.
(** [copy_name] puts up to 64 bytes into the 32 of [fs_type]; the rest lands in
    [root_node], [mount_over] and [next], which are assigned afterwards, and in the 8
    bytes by which the heap rounds the block up.  The array keeps the first 32. *)
Definition vfs_mount_op (source : option (list Z)) (target : list Z) (fs_type : option (list Z)) s : Z * vfs H X :=
  let target_node := vfs_find target s in
  if (target_node =? 0) || negb (bool_decide (vn_type (node_at s target_node) = VFS_NODE_DIRECTORY)) then (-1, s)
  else
    let '(r, h) := k_alloc VFS_MOUNT_SIZE (vheap s) in
    let s := s <| vheap := h |> in
    match r with
    | None => (-1, s)
    | Some mnt =>
        let '(fs_root, s) := vfs_create_node 0 (vn_name (node_at s target_node)) VFS_NODE_DIRECTORY s in
        if fs_root =? 0 then (-1, kfree_block mnt s)
        else
          let '(ok, s) := if is_str fs_type str_ext2
                          then ext2_mount_at fs_root (if is_str source str_ata0p2 then 2048 else 0) s
                          else (true, s) in
          if negb ok then (-1, kfree_block mnt (kfree_node fs_root s))
          else
            let s := upd_node target_node (fun n => n <| vn_mounted_here := fs_root |>) s in
            (0, s <| vfs_mount_list :=
                  mk_mount mnt (copy_name target) (copy_name (or_str source str_none))
                    (take 32 (copy_name (or_str fs_type str_generic))) fs_root target_node :: vfs_mount_list s |>)
    end.

(** The first mount on the path, and the list without it. *)
Fixpoint take_mount (target : list Z) (l : list vfs_mount) : option (vfs_mount * list vfs_mount) :=
  match l with
  | [] => None
  | m :: l' =>
      if string_equals (mount_point m) target then Some (m, l')
      else let* r := take_mount target l' in Some (fst r, m :: snd r)
  end.
Definition vfs_umount (target : list Z) s : Z * vfs H X :=
  match take_mount target (vfs_mount_list s) with
  | None => (-1, s)
  | Some (curr, l) =>
      let s := if negb (mount_over curr =? 0)
               then upd_node (mount_over curr) (fun n => n <| vn_mounted_here := 0 |>) s else s in
      (0, kfree_block (m_ptr curr) (s <| vfs_mount_list := l |>))
  end.
End FsCalls.
