(* ===== verification/VfsPath.v ===== *)
(** Canonical paths: [vfs_build_path] against a reference normalisation of the joined
    path, the shape of its results, and what happens past 32 components. *)

From S2P Require Import Prelude Vfs.

(** A component that names an entry. *)
Definition segment (c : list Z) : Prop := c <> [] /\ 47 ∉ c.
Definition plain (c : list Z) : Prop := segment c /\ is_dot c = false /\ is_dotdot c = false.

Definition render (cs : list (list Z)) : list Z := concat (map (cons 47) cs).
Definition path_of (cs : list (list Z)) : list Z := match cs with [] => [47] | _ => render cs end.
Definition canonical (p : list Z) : Prop := exists cs, Forall plain cs /\ (length cs <= 32)%nat /\ p = path_of cs.

(** The reference: every component of the joined path, on a stack without a bound. *)
Definition step (stack : list (list Z)) (c : list Z) : list (list Z) :=
  if is_dot c then stack else if is_dotdot c then take (length stack - 1) stack else stack ++ [c].
Definition absolute (base input : list Z) : list Z :=
  match input with 47 :: _ => input | _ => base ++ [47] ++ input end.
Definition normal_form (base input : list Z) : list (list Z) := foldl step [] (components (absolute base input)).
(** The walk never is more than 32 names below the root. *)
Definition depth_ok (stack : list (list Z)) (cs : list (list Z)) : Prop :=
  forall k, (length (foldl step stack (take k cs)) <= 32)%nat.

(** * Components *)

Lemma components_from_app cur c rest : 47 ∉ c -> components_from cur (c ++ rest) = components_from (cur ++ c) rest.
Proof.
  revert cur. induction c as [|a c IH]; intros cur Hc; cbn; [by rewrite app_nil_r|].
  apply not_elem_of_cons in Hc as [Ha Hc]. bcase; [lia|].
  rewrite IH by done. by rewrite <- app_assoc.
Qed.

Lemma components_from_slash cur rest :
  components_from cur (47 :: rest) = match cur with [] => [] | _ => [cur] end ++ components_from [] rest.
Proof. by destruct cur. Qed.

Lemma components_join cur a b : components_from cur (a ++ 47 :: b) = components_from cur a ++ components_from [] b.
Proof.
  revert cur. induction a as [|x a IH]; intros cur; cbn [app components_from].
  - change (components_from cur (47 :: b) = match cur with [] => [] | _ => [cur] end ++ components_from [] b).
    apply components_from_slash.
  - destruct (x =? 47); [|apply IH]. destruct cur; cbn [app]; by rewrite IH.
Qed.

Lemma components_segments cur path : 47 ∉ cur -> Forall segment (components_from cur path).
Proof.
  revert cur. induction path as [|x path IH]; intros cur Hcur; cbn.
  - destruct cur; [done|]. by apply Forall_singleton.
  - destruct (Z.eqb_spec x 47) as [->|Hx].
    + destruct cur; [by apply IH, not_elem_of_nil|]. apply Forall_cons. split; [done|]. apply IH, not_elem_of_nil.
    + apply IH. rewrite elem_of_app, list_elem_of_singleton. intros [?|?]; [done|lia].
Qed.

Lemma components_render cs : Forall segment cs -> components (render cs) = cs.
Proof.
  unfold components. induction cs as [|c cs IH]; intros Hcs; [done|].
  apply Forall_cons in Hcs as [[Hne Hc] Hcs]. change (render (c :: cs)) with (47 :: c ++ render cs).
  cbn [components_from]. rewrite Z.eqb_refl, components_from_app by done. cbn [app].
  destruct cs as [|d cs]; [by destruct c|].
  change (render (d :: cs)) with (47 :: d ++ render cs) in *. rewrite components_from_slash.
  change (components_from [] (47 :: d ++ render cs)) with (components_from [] (d ++ render cs)) in IH.
  rewrite IH by done. by destruct c.
Qed.

Lemma components_path_of cs : Forall segment cs -> components (path_of cs) = cs.
Proof. destruct cs; [done|]. apply components_render. Qed.

Lemma plain_segments cs : Forall plain cs -> Forall segment cs.
Proof. intros Hcs. eapply List.Forall_impl; [|exact Hcs]. by intros c [? _]. Qed.

(** * The stack *)

Lemma push_plain stack c : segment c -> Forall plain stack -> Forall plain (push_component stack c).
Proof.
  intros Hc Hs. unfold push_component. destruct (is_dot c) eqn:Ed; [done|].
  destruct (is_dotdot c) eqn:Edd; [by apply Forall_take|].
  destruct (_ <? _); [|done]. by apply Forall_app_2; [|apply Forall_singleton].
Qed.
Lemma push_length stack c : (length stack <= 32)%nat -> (length (push_component stack c) <= 32)%nat.
Proof.
  intros Hs. unfold push_component. destruct (is_dot c), (is_dotdot c); try done; rewrite ?length_take; try lia.
  destruct (Z.ltb_spec (Z.of_nat (length stack)) 32); rewrite ?length_app; cbn; lia.
Qed.
Lemma push_all cs stack :
  Forall segment cs -> Forall plain stack -> (length stack <= 32)%nat ->
  Forall plain (foldl push_component stack cs) /\ (length (foldl push_component stack cs) <= 32)%nat.
Proof.
  revert stack. induction cs as [|c cs IH]; intros stack Hcs Hs Hl; [done|].
  apply Forall_cons in Hcs as [Hc Hcs]. apply IH; [done|by apply push_plain|by apply push_length].
Qed.

(** Below the bound the stack is the reference's. *)
Lemma push_step cs stack : depth_ok stack cs -> foldl push_component stack cs = foldl step stack cs.
Proof.
  revert stack. induction cs as [|c cs IH]; intros stack Hl; [done|]. cbn.
  assert (E : push_component stack c = step stack c).
  { pose proof (Hl 1%nat) as H1. cbn in H1. rewrite take_0 in H1. cbn in H1. unfold push_component, step in *.
    destruct (is_dot c), (is_dotdot c); try done. rewrite length_app in H1. cbn in H1.
    by destruct (Z.ltb_spec (Z.of_nat (length stack)) 32); [|lia]. }
  rewrite E. apply IH. intros k. exact (Hl (S k)).
Qed.
(** So it is for up to 32 components. *)
Lemma short_depth cs stack : (length stack + length cs <= 32)%nat -> depth_ok stack cs.
Proof.
  revert stack. induction cs as [|c cs IH]; intros stack Hl [|k]; cbn in *; try lia.
  apply IH. unfold step. destruct (is_dot c), (is_dotdot c); rewrite ?length_take, ?length_app; cbn; lia.
Qed.
Lemma step_plain cs stack : Forall plain cs -> foldl step stack cs = stack ++ cs.
Proof.
  revert stack. induction cs as [|c cs IH]; intros stack Hcs; [by rewrite app_nil_r|].
  apply Forall_cons in Hcs as [(_ & Ed & Edd) Hcs]. cbn. unfold step at 2. rewrite Ed, Edd, IH by done.
  by rewrite <- app_assoc.
Qed.

(** * The output *)

Lemma join_from_eq cs i cap :
  join_from i cap cs = if bool_decide (cs = []) || (i + len (render cs) <? cap) then Some (render cs) else None.
Proof.
  revert i. induction cs as [|c cs IH]; intros i; [done|]. cbn [join_from]. rewrite IH.
  change (render (c :: cs)) with (47 :: c ++ render cs).
  assert (El : len (47 :: c ++ render cs) = 1 + len c + len (render cs)) by (unfold len; cbn; rewrite length_app; lia).
  rewrite El. pose proof (Zle_0_nat (length (render cs))). change (0 <= len (render cs)) in H.
  rewrite (bool_decide_eq_false_2 (c :: cs = [])) by done. cbn [orb].
  destruct (Z.leb_spec cap (i + 1 + len c)), (Z.ltb_spec (i + (1 + len c + len (render cs))) cap); try lia; try done.
  - case_bool_decide as E; cbn [orb]; [by subst|]. by destruct (Z.ltb_spec (i + 1 + len c + len (render cs)) cap); [|lia].
  - case_bool_decide as E; cbn [orb].
    + subst. change (len (render [])) with 0 in *. lia.
    + by destruct (Z.ltb_spec (i + 1 + len c + len (render cs)) cap); [lia|].
Qed.

(** The stack of [vfs_build_path]. *)
Definition build_stack (base input : list Z) : list (list Z) :=
  foldl push_component
    (match input with
     | 47 :: _ => []
     | _ => foldl push_component [] (components (match base with [] => [47] | _ => base end))
     end) (components input).

Lemma build_path_eq base input cap :
  vfs_build_path base input cap =
  if (2 <=? cap) && (len (path_of (build_stack base input)) <? cap)
  then Some (path_of (build_stack base input)) else None.
Proof.
  unfold vfs_build_path. fold (build_stack base input). destruct (Z.ltb_spec cap 2), (Z.leb_spec 2 cap); try lia; [done|].
  cbn [andb]. destruct (build_stack base input) as [|c cs].
  - change (len (path_of [])) with 1. by destruct (Z.ltb_spec 1 cap); [|lia].
  - by rewrite join_from_eq.
Qed.

Lemma components_ok path : Forall segment (components path).
Proof. by apply components_segments, not_elem_of_nil. Qed.

Lemma build_stack_ok base input : Forall plain (build_stack base input) /\ (length (build_stack base input) <= 32)%nat.
Proof.
  unfold build_stack.
  assert (Hbase : forall path, Forall plain (foldl push_component [] (components path)) /\
                               (length (foldl push_component [] (components path)) <= 32)%nat).
  { intros path. apply push_all; [apply components_ok|done|cbn; lia]. }
  assert (Hin : forall st, Forall plain st /\ (length st <= 32)%nat ->
            Forall plain (foldl push_component st (components input)) /\
            (length (foldl push_component st (components input)) <= 32)%nat).
  { intros st [? ?]. apply push_all; [apply components_ok|done|done]. }
  apply Hin. generalize (match base with [] => [47] | _ => base end). intros b.
  pose proof (Hbase b). repeat case_match; try done; split; try done; cbn; lia.
Qed.

Lemma build_stack_path_of base cs :
  Forall plain cs -> (length cs <= 32)%nat -> build_stack base (path_of cs) = cs.
Proof.
  intros Hcs Hl. unfold build_stack. rewrite components_path_of by by apply plain_segments.
  assert (exists r, path_of cs = 47 :: r) as [r ->] by (destruct cs; eexists; reflexivity).
  rewrite push_step by (by apply short_depth). by rewrite step_plain.
Qed.

Lemma build_stack_normal base input :
  base <> [] -> depth_ok [] (components (absolute base input)) -> build_stack base input = normal_form base input.
Proof.
  intros Hb. unfold build_stack, normal_form, absolute.
  assert (Hrel : depth_ok [] (components (base ++ [47%Z] ++ input)) ->
    foldl push_component (foldl push_component [] (components base)) (components input) =
    foldl step [] (components (base ++ [47] ++ input))).
  { unfold components. cbn [app]. rewrite components_join, <- foldl_app. intros Hl. by apply push_step. }
  destruct base as [|b0 base]; [done|].
  destruct input as [|x input]; [exact Hrel|].
  destruct (decide (x = 47)) as [->|Hx].
  - intros Hl. by apply push_step.
  - repeat case_match; try done; exact Hrel.
Qed.

(** * Properties *)

(** up to 32 components, [vfs_build_path] is the reference normalisation of the
    joined path: it returns that path exactly when it fits the buffer with its
    terminating zero, and -1 otherwise. *)
Theorem vfs_build_path_refines base input cap :
  base <> [] -> (length (components (absolute base input)) <= 32)%nat ->
  vfs_build_path base input cap =
  if (2 <=? cap) && (len (path_of (normal_form base input)) <? cap)
  then Some (path_of (normal_form base input)) else None.
Proof. intros Hb Hl. rewrite build_path_eq. by rewrite build_stack_normal by (done || by apply short_depth). Qed.

Lemma vfs_build_path_refines_witness :
  (* "/a/b" and "../c//./d" give "/a/c/d" *)
  vfs_build_path [47; 97; 47; 98] [46; 46; 47; 99; 47; 47; 46; 47; 100] 64 = Some [47; 97; 47; 99; 47; 100] /\
  vfs_build_path [47; 97; 47; 98] [46; 46; 47; 99; 47; 47; 46; 47; 100] 6 = None.
Proof.
  split; (rewrite vfs_build_path_refines; [vm_compute; reflexivity|discriminate|vm_compute; lia]).
Defined.

Lemma build_path_canonical_facts base input cap p :
  vfs_build_path base input cap = Some p ->
  canonical p /\ len p < cap /\ forall base', vfs_build_path base' p cap = Some p.
Proof.
  rewrite build_path_eq. destruct (_ && _) eqn:E; [|done]. intros <-%(inj Some).
  destruct (build_stack_ok base input) as [Hp Hl]. split; [by exists (build_stack base input)|].
  apply andb_prop in E as E'. destruct E' as [_ Hlt%Z.ltb_lt]. split; [done|].
  intros base'. rewrite build_path_eq, build_stack_path_of by done. by rewrite E.
Qed.

(** Every path [vfs_build_path] produces is canonical (absolute, without empty,
    dot or dot-dot components), fits the buffer with its terminating zero, and is a
    fixed point: building it again from any directory gives it back. *)
Theorem vfs_build_path_canonical base input cap p :
  vfs_build_path base input cap = Some p ->
  canonical p /\ len p < cap /\ forall base', vfs_build_path base' p cap = Some p.
Proof. apply build_path_canonical_facts. Qed.

Lemma vfs_build_path_canonical_witness :
  vfs_build_path [47; 97] [46; 46; 47; 46; 46; 47; 98] 8 = Some [47; 98] /\
  vfs_build_path [] [47; 98] 8 = Some [47; 98].
Proof.
  split; [reflexivity|].
  apply (proj2 (proj2 (vfs_build_path_canonical [47; 97] [46; 46; 47; 46; 46; 47; 98] 8 [47; 98] eq_refl))).
Defined.

(** Past 32 components a path loses its end: a path of 33 one-letter components
    is built as its first 32, which names another file. *)
Theorem vfs_build_path_drops :
  let cs := replicate 32 [97] in
  vfs_build_path [47] (render (cs ++ [[98]])) 128 = Some (render cs) /\ render (cs ++ [[98]]) <> render cs.
Proof. vm_compute. split; [reflexivity|discriminate]. Qed.
