(* ===== verification/VfsTree.v ===== *)
(** The nodes as a tree: the lists of children that the child and sibling pointers
    represent, and what inserting, detaching and freeing a node do to them. *)

From S2P Require Import Prelude Vfs.

(** The list [l] of siblings starting at the pointer [c]. *)
Fixpoint sibs (m : gmap Z vfs_node) (c : Z) (l : list Z) : Prop :=
  match l with
  | [] => c = 0
  | x :: l' => c = x /\ exists n, m !! x = Some n /\ sibs m (vn_sibling n) l'
  end.

Record tree (m : gmap Z vfs_node) (root : Z) (kids : Z -> list Z) : Prop := {
  tree_null : m !! 0 = None;
  tree_root : exists n, m !! root = Some n /\ vn_parent n = 0 /\ vn_type n = VFS_NODE_DIRECTORY;
  tree_kids p n : m !! p = Some n -> sibs m (vn_child n) (kids p);
  tree_nodup p n : m !! p = Some n -> NoDup (kids p);
  tree_in p n c : m !! p = Some n -> c ∈ kids p -> exists k, m !! c = Some k /\ vn_parent k = p;
  tree_parent c k : m !! c = Some k -> vn_parent k <> 0 ->
    exists n, m !! vn_parent k = Some n /\ c ∈ kids (vn_parent k);
  tree_loose c k : m !! c = Some k -> vn_parent k = 0 -> c <> root -> kids c = [];
  tree_dir p n : m !! p = Some n -> kids p <> [] -> vn_type n = VFS_NODE_DIRECTORY;
  tree_mounts p n : m !! p = Some n -> vn_mounted_here n = 0;
  tree_depth : exists depth : Z -> nat,
    forall c k, m !! c = Some k -> vn_parent k <> 0 -> (depth (vn_parent k) < depth c)%nat
}.

(** Nodes that agree on the fields of the tree. *)
Definition same_shape (n n' : vfs_node) : Prop :=
  vn_type n' = vn_type n /\ vn_parent n' = vn_parent n /\ vn_child n' = vn_child n /\
  vn_sibling n' = vn_sibling n /\ vn_mounted_here n' = vn_mounted_here n.

Lemma sibs_frame m m' c l :
  sibs m c l ->
  (forall x n, x ∈ l -> m !! x = Some n -> exists n', m' !! x = Some n' /\ vn_sibling n' = vn_sibling n) ->
  sibs m' c l.
Proof.
  revert c. induction l as [|x l IH]; intros c Hs Hf; [done|]. destruct Hs as (-> & n & Hn & Hs).
  destruct (Hf x n) as (n' & Hn' & E); [left|done|]. split; [done|]. exists n'. split; [done|]. rewrite E.
  apply IH; [done|]. intros y k Hy. apply Hf. by right.
Qed.

Lemma sibs_dom m c l x : sibs m c l -> x ∈ l -> is_Some (m !! x).
Proof.
  revert c. induction l as [|y l IH]; intros c Hs Hx; [by apply elem_of_nil in Hx|].
  destruct Hs as (-> & n & Hn & Hs). apply elem_of_cons in Hx as [->|Hx]; eauto.
Qed.

(** A list of children is no longer than the number of nodes. *)
Lemma kids_bound m root kids p n : tree m root kids -> m !! p = Some n -> (length (kids p) <= size m)%nat.
Proof.
  intros Ht Hp. rewrite <- (size_list_to_set (C := gset Z) (kids p)) by (by eapply tree_nodup).
  rewrite <- size_dom. apply subseteq_size. intros x Hx%elem_of_list_to_set. apply elem_of_dom.
  eapply sibs_dom; [by eapply tree_kids|done].
Qed.

Lemma kids_nonzero m root kids p n c : tree m root kids -> m !! p = Some n -> c ∈ kids p -> c <> 0.
Proof.
  intros Ht Hp Hc ->. destruct (tree_in _ _ _ Ht _ _ _ Hp Hc) as (k & Hk & _).
  by rewrite (tree_null _ _ _ Ht) in Hk.
Qed.

Lemma tree_shape m root kids p n n' :
  tree m root kids -> m !! p = Some n -> same_shape n n' -> tree (<[p := n']> m) root kids.
Proof.
  intros Ht Hp (Ety & Epar & Ech & Esib & Emnt).
  assert (Hback : forall q k', <[p := n']> m !! q = Some k' -> exists k, m !! q = Some k /\ same_shape k k').
  { intros q k' Hq. destruct (decide (q = p)) as [->|Hne].
    - rewrite lookup_insert_eq in Hq. simplify_eq. by exists n.
    - rewrite lookup_insert_ne in Hq by done. by exists k'. }
  assert (Hfwd : forall q k, m !! q = Some k -> exists k', <[p := n']> m !! q = Some k' /\ same_shape k k').
  { intros q k Hq. destruct (decide (q = p)) as [->|Hne].
    - simplify_eq. exists n'. by rewrite lookup_insert_eq.
    - exists k. by rewrite lookup_insert_ne. }
  split.
  - rewrite lookup_insert_ne; [apply (tree_null _ _ _ Ht)|]. intros ->. by rewrite (tree_null _ _ _ Ht) in Hp.
  - destruct (tree_root _ _ _ Ht) as (k & Hk & ? & ?). destruct (Hfwd _ _ Hk) as (k' & ? & ? & ? & _).
    exists k'. split; [done|]. split; congruence.
  - intros q k' Hq. destruct (Hback _ _ Hq) as (k & Hk & _ & _ & -> & _).
    apply (sibs_frame m); [by eapply tree_kids|]. intros x kx _ Hx.
    destruct (Hfwd _ _ Hx) as (k2 & ? & _ & _ & _ & ? & _). eauto.
  - intros q k' Hq. destruct (Hback _ _ Hq) as (k & Hk & _). by eapply tree_nodup.
  - intros q k' c Hq Hc. destruct (Hback _ _ Hq) as (k & Hk & _).
    destruct (tree_in _ _ _ Ht _ _ _ Hk Hc) as (kc & Hkc & ?). destruct (Hfwd _ _ Hkc) as (k2 & ? & _ & E & _).
    exists k2. split; [done|congruence].
  - intros c k' Hc. destruct (Hback _ _ Hc) as (k & Hk & _ & -> & _). intros Hpar.
    destruct (tree_parent _ _ _ Ht _ _ Hk Hpar) as (kp & Hkp & ?). destruct (Hfwd _ _ Hkp) as (k2 & ? & _). eauto.
  - intros c k' Hc. destruct (Hback _ _ Hc) as (k & Hk & _ & -> & _). by eapply tree_loose.
  - intros q k' Hq. destruct (Hback _ _ Hq) as (k & Hk & -> & _). by eapply tree_dir.
  - intros q k' Hq. destruct (Hback _ _ Hq) as (k & Hk & _ & _ & _ & _ & ->). by eapply tree_mounts.
  - destruct (tree_depth _ _ _ Ht) as [depth Hd]. exists depth. intros c k' Hc.
    destruct (Hback _ _ Hc) as (k & Hk & _ & -> & _). by apply Hd.
Qed.

(** A node that can get children: the root or a node in the list of a parent. *)
Definition attached (m : gmap Z vfs_node) (root p : Z) : Prop :=
  p = root \/ exists n, m !! p = Some n /\ vn_parent n <> 0.

Definition kids_insert (kids : Z -> list Z) (q p : Z) : Z -> list Z :=
  fun x => if x =? q then p :: kids q else if x =? p then [] else kids x.

Section Insert.
Context (m : gmap Z vfs_node) (root : Z) (kids : Z -> list Z) (q : Z) (nq : vfs_node) (p : Z) (n : vfs_node).
Context (Ht : tree m root kids) (Hp : m !! p = None) (Hp0 : p <> 0) (Hq : m !! q = Some nq)
  (Hdir : vn_type nq = VFS_NODE_DIRECTORY) (Hatt : attached m root q)
  (Epar : vn_parent n = q) (Esib : vn_sibling n = vn_child nq) (Ech : vn_child n = 0) (Emnt : vn_mounted_here n = 0).
Let m' := <[q := nq <| vn_child := p |>]> (<[p := n]> m).
Let kids' := kids_insert kids q p.

Local Lemma ins_qp : q <> p.
Proof using Hp Hq. congruence. Qed.
Local Lemma ins_new : m' !! p = Some n.
Proof using Hp Hq. unfold m'. rewrite lookup_insert_ne by apply ins_qp. apply lookup_insert_eq. Qed.
Local Lemma ins_top : m' !! q = Some (nq <| vn_child := p |>).
Proof. apply lookup_insert_eq. Qed.
Local Lemma ins_kids_top : kids' q = p :: kids q.
Proof. unfold kids', kids_insert. by rewrite Z.eqb_refl. Qed.
Local Lemma ins_kids_new : kids' p = [].
Proof using Hp Hq. pose proof ins_qp. unfold kids', kids_insert. bcase; [lia|]. by rewrite Z.eqb_refl. Qed.
Local Lemma ins_kids_old x : x <> q -> x <> p -> kids' x = kids x.
Proof. intros ??. unfold kids', kids_insert. by do 2 (bcase; [lia|]). Qed.

(** A node of the new map is the new one, its parent or an old one. *)
Local Lemma ins_case x k : m' !! x = Some k ->
  x = p /\ k = n \/ x = q /\ k = nq <| vn_child := p |> \/ x <> p /\ x <> q /\ m !! x = Some k.
Proof using Hp Hq.
  intros Hx. destruct (decide (x = p)) as [->|]; [rewrite ins_new in Hx; left; split; congruence|].
  destruct (decide (x = q)) as [->|]; [rewrite ins_top in Hx; right; left; split; congruence|].
  right; right. unfold m' in Hx. by rewrite !lookup_insert_ne in Hx by done.
Qed.
(** An old node keeps its place. *)
Local Lemma ins_old x k : m !! x = Some k ->
  exists k', m' !! x = Some k' /\ vn_sibling k' = vn_sibling k /\ vn_parent k' = vn_parent k /\ vn_type k' = vn_type k.
Proof using Hp Hq.
  intros Hx. destruct (decide (x = q)) as [->|].
  { rewrite Hx in Hq. injection Hq as ->. eexists. split; [exact ins_top|done]. }
  exists k. unfold m'. rewrite !lookup_insert_ne; [done|congruence|congruence].
Qed.
Local Lemma ins_sibs c l : sibs m c l -> sibs m' c l.
Proof using Hp Hq.
  intros Hs. apply (sibs_frame m); [done|]. intros x k _ Hx. destruct (ins_old x k Hx) as (k' & ? & ? & _). eauto.
Qed.
Local Lemma ins_in x k c : m !! x = Some k -> c ∈ kids x -> exists k', m' !! c = Some k' /\ vn_parent k' = x.
Proof using Ht Hp Hq.
  intros Hx Hc. destruct (tree_in _ _ _ Ht _ _ _ Hx Hc) as (kc & Hk & ?).
  destruct (ins_old _ _ Hk) as (k2 & ? & _ & ? & _). exists k2. split; [done|congruence].
Qed.
Local Lemma ins_parent c k : m !! c = Some k -> vn_parent k <> 0 ->
  exists y, m' !! vn_parent k = Some y /\ c ∈ kids' (vn_parent k).
Proof using Ht Hp Hq.
  intros Hc Hpar. destruct (tree_parent _ _ _ Ht _ _ Hc Hpar) as (y & Hy & Hin).
  destruct (ins_old _ _ Hy) as (y' & ? & _). exists y'. split; [done|].
  destruct (decide (vn_parent k = q)) as [E|]; [rewrite E, ins_kids_top; right; by rewrite <- E|].
  rewrite ins_kids_old; [done|done|congruence].
Qed.
Local Lemma ins_depth : exists depth : Z -> nat,
  forall c k, m' !! c = Some k -> vn_parent k <> 0 -> (depth (vn_parent k) < depth c)%nat.
Proof using Ht Hp Hq Epar.
  destruct (tree_depth _ _ _ Ht) as [depth Hd]. pose proof ins_qp as Hqp.
  set (depth' := fun x => if x =? p then S (depth q) else depth x). exists depth'.
  assert (Hnew : depth' p = S (depth q)) by (unfold depth'; by rewrite Z.eqb_refl).
  assert (Hsame : forall x, x <> p -> depth' x = depth x) by (intros x ?; unfold depth'; by bcase; [lia|]).
  assert (Hlow : forall c k, m !! c = Some k -> vn_parent k <> 0 -> (depth' (vn_parent k) < depth' c)%nat).
  { intros c k Hc Hk. destruct (tree_parent _ _ _ Ht _ _ Hc Hk) as (y & Hy & _).
    rewrite !Hsame by congruence. by apply Hd. }
  intros x k' Hx Hpar. destruct (ins_case x k' Hx) as [[-> ->]|[[-> ->]|(? & ? & Hm)]].
  - rewrite Epar, Hnew, Hsame by done. lia.
  - by apply (Hlow q nq).
  - by apply Hlow.
Qed.

Lemma tree_insert : tree m' root kids'.
Proof using All.
  pose proof ins_qp as Hqp. assert (Hq0 : q <> 0) by (intros E; rewrite E, (tree_null _ _ _ Ht) in Hq; done).
  split.
  - unfold m'. rewrite !lookup_insert_ne by done. apply (tree_null _ _ _ Ht).
  - destruct (tree_root _ _ _ Ht) as (k & Hk & ? & ?). destruct (ins_old _ _ Hk) as (k' & ? & _ & ? & ?).
    exists k'. split; [done|]. split; congruence.
  - intros x k' Hx. destruct (ins_case x k' Hx) as [[-> ->]|[[-> ->]|(? & ? & Hm)]].
    + rewrite ins_kids_new. by rewrite Ech.
    + rewrite ins_kids_top. split; [done|]. exists n. split; [exact ins_new|].
      rewrite Esib. apply ins_sibs. by eapply tree_kids.
    + rewrite ins_kids_old by done. apply ins_sibs. by eapply tree_kids.
  - intros x k' Hx. destruct (ins_case x k' Hx) as [[-> ->]|[[-> ->]|(? & ? & Hm)]].
    + rewrite ins_kids_new. constructor.
    + rewrite ins_kids_top. constructor; [|by eapply tree_nodup].
      intros Hin. destruct (tree_in _ _ _ Ht _ _ _ Hq Hin) as (? & ? & _). congruence.
    + rewrite ins_kids_old by done. by eapply tree_nodup.
  - intros x k' c Hx Hc. destruct (ins_case x k' Hx) as [[-> ->]|[[-> ->]|(? & ? & Hm)]].
    + rewrite ins_kids_new in Hc. by apply elem_of_nil in Hc.
    + rewrite ins_kids_top in Hc. apply elem_of_cons in Hc as [->|Hc]; [|by apply (ins_in q nq)].
      exists n. split; [exact ins_new|done].
    + rewrite ins_kids_old in Hc by done. by apply (ins_in x k').
  - intros x k' Hx Hpar. destruct (ins_case x k' Hx) as [[-> ->]|[[-> ->]|(? & ? & Hm)]].
    + rewrite Epar, ins_kids_top. eexists. split; [exact ins_top|left].
    + by apply (ins_parent q nq).
    + by apply ins_parent.
  - intros x k' Hx Hpar Hr. destruct (ins_case x k' Hx) as [[-> ->]|[[-> ->]|(? & ? & Hm)]].
    + congruence.
    + destruct Hatt as [?|(k & Hk & Hne)]; [done|]. rewrite Hq in Hk. by injection Hk as <-.
    + rewrite ins_kids_old by done. by eapply tree_loose.
  - intros x k' Hx Hne. destruct (ins_case x k' Hx) as [[-> ->]|[[-> ->]|(? & ? & Hm)]].
    + by rewrite ins_kids_new in Hne.
    + done.
    + rewrite ins_kids_old in Hne by done. by eapply tree_dir.
  - intros x k' Hx. destruct (ins_case x k' Hx) as [[-> ->]|[[-> ->]|(? & ? & Hm)]];
      [done| |by eapply tree_mounts]. by apply (tree_mounts _ _ _ Ht q nq).
  - exact ins_depth.
Qed.
End Insert.

(** * Detaching a node *)

Definition kids_detach (kids : Z -> list Z) (q : Z) (l : list Z) : Z -> list Z := fun x => if x =? q then l else kids x.

(** The map without the node [c] in the list of [q]; [l1] are the siblings before it. *)
Definition unlinked (m : gmap Z vfs_node) (q c : Z) (l1 : list Z) : gmap Z vfs_node :=
  let next := vn_sibling (m !!! c) in
  let m := match last l1 with
           | Some prev => <[prev := (m !!! prev) <| vn_sibling := next |>]> m
           | None => <[q := (m !!! q) <| vn_child := next |>]> m
           end in
  <[c := (m !!! c) <| vn_parent := 0 |> <| vn_sibling := 0 |>]> m.

(** A node whose children are not in the tree any more can be freed. *)
Lemma tree_delete m root kids c k :
  tree m root kids -> m !! c = Some k -> vn_parent k = 0 -> c <> root -> tree (delete c m) root kids.
Proof.
  intros Ht Hc Hpar Hr.
  assert (Hold : forall x n, delete c m !! x = Some n -> x <> c /\ m !! x = Some n).
  { intros x n Hx. apply lookup_delete_Some in Hx as [? ?]. done. }
  assert (Hkeep : forall x n, m !! x = Some n -> x <> c -> delete c m !! x = Some n).
  { intros x n ??. by rewrite lookup_delete_ne. }
  (* the freed node is in no list *)
  assert (Hout : forall x n, m !! x = Some n -> x <> 0 -> c ∉ kids x).
  { intros x n Hx Hx0 Hin. destruct (tree_in _ _ _ Ht _ _ _ Hx Hin) as (k' & Hk' & ?). simplify_eq. }
  assert (Hnz : forall x n, m !! x = Some n -> x <> 0).
  { intros x n Hx ->. by rewrite (tree_null _ _ _ Ht) in Hx. }
  assert (Hup : forall x n, m !! x = Some n -> vn_parent n <> c).
  { intros x n Hx E. destruct (tree_parent _ _ _ Ht _ _ Hx) as (y & Hy & Hin); [rewrite E; by eapply Hnz|].
    rewrite E, (tree_loose _ _ _ Ht _ _ Hc Hpar Hr) in Hin. by apply elem_of_nil in Hin. }
  split.
  - apply lookup_delete_None. right. apply (tree_null _ _ _ Ht).
  - destruct (tree_root _ _ _ Ht) as (n & Hn & ?). exists n. split; [|done]. by apply Hkeep.
  - intros x n [Hne Hx]%Hold. apply (sibs_frame m); [by eapply tree_kids|].
    intros y ky Hy Hky. exists ky. split; [|done]. apply Hkeep; [done|]. intros ->.
    by eapply Hout; [..|exact Hy]; [exact Hx|by eapply Hnz].
  - intros x n [_ Hx]%Hold. by eapply tree_nodup.
  - intros x n y [_ Hx]%Hold Hy. destruct (tree_in _ _ _ Ht _ _ _ Hx Hy) as (ky & Hky & ?).
    exists ky. split; [|done]. apply Hkeep; [done|]. intros ->. by eapply Hout; [..|exact Hy]; [exact Hx|by eapply Hnz].
  - intros x n [_ Hx]%Hold Hn. destruct (tree_parent _ _ _ Ht _ _ Hx Hn) as (y & Hy & ?).
    exists y. split; [|done]. apply Hkeep; [done|by eapply Hup].
  - intros x n [_ Hx]%Hold. by eapply tree_loose.
  - intros x n [_ Hx]%Hold. by eapply tree_dir.
  - intros x n [_ Hx]%Hold. by eapply tree_mounts.
  - destruct (tree_depth _ _ _ Ht) as [depth Hd]. exists depth. intros x n [_ Hx]%Hold. by apply Hd.
Qed.

(** A part of a list of siblings: from the pointer [a] through [l] to the pointer [b]. *)
Fixpoint seg (m : gmap Z vfs_node) (a : Z) (l : list Z) (b : Z) : Prop :=
  match l with
  | [] => a = b
  | x :: l' => a = x /\ exists n, m !! x = Some n /\ seg m (vn_sibling n) l' b
  end.
Lemma sibs_app m a l1 l2 : sibs m a (l1 ++ l2) <-> exists b, seg m a l1 b /\ sibs m b l2.
Proof.
  revert a. induction l1 as [|x l1 IH]; intros a; cbn; [naive_solver|].
  setoid_rewrite IH. naive_solver.
Qed.
Lemma seg_snoc m a l x b : seg m a (l ++ [x]) b <-> seg m a l x /\ exists n, m !! x = Some n /\ vn_sibling n = b.
Proof.
  revert a. induction l as [|y l IH]; intros a; cbn; [naive_solver|].
  setoid_rewrite IH. naive_solver.
Qed.
Lemma seg_frame m m' a l b :
  seg m a l b ->
  (forall x n, x ∈ l -> m !! x = Some n -> exists n', m' !! x = Some n' /\ vn_sibling n' = vn_sibling n) ->
  seg m' a l b.
Proof.
  revert a. induction l as [|x l IH]; intros a Hs Hf; [done|]. destruct Hs as (-> & n & Hn & Hs).
  destruct (Hf x n) as (n' & Hn' & E); [left|done|]. split; [done|]. exists n'. split; [done|]. rewrite E.
  apply IH; [done|]. intros y k Hy. apply Hf. by right.
Qed.

Section Detach.
Context (m : gmap Z vfs_node) (root : Z) (kids : Z -> list Z) (q : Z) (nq : vfs_node) (c : Z) (k : vfs_node)
  (l1 l2 : list Z).
Context (Ht : tree m root kids) (Hc : m !! c = Some k) (Hq : m !! q = Some nq) (Hq0 : q <> 0)
  (Epar : vn_parent k = q) (Ekids : kids q = l1 ++ c :: l2) (Eleaf : kids c = []).
Local Notation m' := (unlinked m q c l1).
Local Notation kids' := (kids_detach kids q (l1 ++ l2)).

Local Lemma det_qc : q <> c.
Proof using Ht Hc Hq0 Epar.
  destruct (tree_depth _ _ _ Ht) as [depth Hd]. intros E. specialize (Hd c k Hc). rewrite Epar, E in Hd.
  specialize (Hd ltac:(congruence)). lia.
Qed.
Local Lemma det_nodup : NoDup (l1 ++ c :: l2).
Proof using Ht Hq Ekids. rewrite <- Ekids. by eapply tree_nodup. Qed.
Local Lemma det_child x : x ∈ l1 ++ c :: l2 -> exists n, m !! x = Some n /\ vn_parent n = q.
Proof using Ht Hq Ekids. rewrite <- Ekids. by apply (tree_in _ _ _ Ht q nq). Qed.
Local Lemma det_out : c ∉ l1 ++ l2.
Proof using Ht Hq Ekids.
  pose proof det_nodup as H. rewrite (Permutation_middle l1 l2 c) in H || rewrite <- Permutation_middle in H.
  by apply NoDup_cons in H as [? _].
Qed.

(** What the update of the pointer before [c] leaves as it was. *)
Lemma det_self : m' !! c = Some (k <| vn_parent := 0 |> <| vn_sibling := 0 |>).
Proof using Ht Hc Hq Hq0 Epar Ekids.
  unfold unlinked. rewrite lookup_insert_eq. f_equal.
  destruct (last l1) as [prev|] eqn:El.
  - rewrite lookup_total_insert_ne, (lookup_total_correct _ _ _ Hc); [done|]. intros E.
    apply last_Some_elem_of in El. rewrite E in El. apply det_out, elem_of_app. by left.
  - by rewrite lookup_total_insert_ne, (lookup_total_correct _ _ _ Hc) by apply det_qc.
Qed.
Local Lemma det_old x n : m !! x = Some n -> x <> c ->
  exists n', m' !! x = Some n' /\ vn_parent n' = vn_parent n /\ vn_type n' = vn_type n /\
    vn_mounted_here n' = vn_mounted_here n /\ (last l1 <> Some x -> vn_sibling n' = vn_sibling n) /\
    (x <> q -> vn_child n' = vn_child n).
Proof using Hq.
  intros Hx Hxc. unfold unlinked. rewrite lookup_insert_ne by done.
  destruct (last l1) as [prev|] eqn:El.
  - destruct (decide (x = prev)) as [->|Hne].
    + eexists. rewrite lookup_insert_eq, (lookup_total_correct _ _ _ Hx). split; [done|]. repeat split; congruence.
    + exists n. by rewrite lookup_insert_ne.
  - destruct (decide (x = q)) as [->|Hne].
    + eexists. rewrite lookup_insert_eq, (lookup_total_correct _ _ _ Hx). split; [done|]. repeat split; congruence.
    + exists n. by rewrite lookup_insert_ne.
Qed.
Local Lemma det_new x n' : m' !! x = Some n' -> x <> c -> is_Some (m !! x).
Proof using Ht Hq Ekids.
  intros Hx Hxc. unfold unlinked in Hx. rewrite lookup_insert_ne in Hx by done.
  destruct (last l1) as [prev|] eqn:El.
  - destruct (decide (x = prev)) as [->|]; [|by rewrite lookup_insert_ne in Hx].
    apply last_Some_elem_of in El. destruct (det_child prev) as (y & ? & _); [apply elem_of_app; by left|by exists y].
  - destruct (decide (x = q)) as [->|]; [by exists nq|by rewrite lookup_insert_ne in Hx].
Qed.

Local Lemma det_last x : last l1 = Some x -> x ∈ l1 /\ x ∉ l2 /\ x <> q.
Proof using Ht Hq Hq0 Ekids.
  intros El%last_Some_elem_of. split; [done|].
  destruct (det_child x) as (y & Hy & Hyq); [apply elem_of_app; by left|]. split.
  - pose proof det_nodup as Hnd. apply NoDup_app in Hnd as (_ & Hd & _). intros Hx. apply (Hd x El). by right.
  - intros E. destruct (tree_depth _ _ _ Ht) as [depth Hd]. specialize (Hd x y Hy). rewrite Hyq, E in Hd.
    specialize (Hd Hq0). lia.
Qed.
Local Lemma det_rest : sibs m (vn_sibling k) l2 -> sibs m' (vn_sibling k) l2.
Proof using Ht Hc Hq Hq0 Epar Ekids.
  intros Hs. apply (sibs_frame m); [done|]. intros x n Hx Hn.
  destruct (det_old x n Hn) as (n' & ? & _ & _ & _ & Hsib & _).
  { intros E. apply det_out, elem_of_app. right. by rewrite <- E. }
  exists n'. split; [done|]. apply Hsib. intros El. by apply det_last in El as (_ & ? & _).
Qed.
Local Lemma det_before a l0 prev b : l1 = l0 ++ [prev] -> seg m a l0 b -> seg m' a l0 b.
Proof using Ht Hc Hq Hq0 Epar Ekids.
  intros E Hs. apply (seg_frame m); [done|]. intros x n Hx Hn.
  destruct (det_old x n Hn) as (n' & ? & _ & _ & _ & Hsib & _).
  { intros Ex. apply det_out, elem_of_app. left. rewrite E. apply elem_of_app. left. by rewrite <- Ex. }
  exists n'. split; [done|]. apply Hsib. rewrite E, last_snoc. intros [= Ex].
  pose proof det_nodup as Hnd. rewrite E, <- app_assoc in Hnd. apply NoDup_app in Hnd as (_ & Hd & _).
  apply (Hd x Hx). rewrite Ex. left.
Qed.

(** Only the pointers of the tree change. *)
Lemma det_fields x n' : m' !! x = Some n' ->
  exists n, m !! x = Some n /\ vn_data n' = vn_data n /\ vn_name n' = vn_name n /\ vn_type n' = vn_type n.
Proof using Ht Hc Hq Hq0 Epar Ekids.
  intros Hx. destruct (decide (x = c)) as [->|Hxc].
  { rewrite det_self in Hx. injection Hx as <-. by exists k. }
  destruct (det_new _ _ Hx Hxc) as [n Hn]. exists n. split; [done|].
  unfold unlinked in Hx. rewrite lookup_insert_ne in Hx by done. destruct (last l1) as [prev|].
  - destruct (decide (x = prev)) as [->|Hne].
    + rewrite lookup_insert_eq, (lookup_total_correct _ _ _ Hn) in Hx. by injection Hx as <-.
    + rewrite lookup_insert_ne in Hx by done. rewrite Hn in Hx. by injection Hx as <-.
  - destruct (decide (x = q)) as [->|Hne].
    + rewrite lookup_insert_eq, (lookup_total_correct _ _ _ Hn) in Hx. by injection Hx as <-.
    + rewrite lookup_insert_ne in Hx by done. rewrite Hn in Hx. by injection Hx as <-.
Qed.

(** The list of the parent without [c]. *)
Local Lemma det_sibs : exists n', m' !! q = Some n' /\ sibs m' (vn_child n') (l1 ++ l2).
Proof using Ht Hc Hq Hq0 Epar Ekids.
  pose proof (tree_kids _ _ _ Ht q nq Hq) as Hs. rewrite Ekids in Hs.
  apply sibs_app in Hs as (b & Hseg & -> & k' & Hk' & Hrest). rewrite Hc in Hk'. injection Hk' as <-.
  apply det_rest in Hrest. pose proof det_qc as Hqc. destruct (last l1) as [prev|] eqn:El.
  - destruct (det_last prev El) as (Hin & _ & Hpq). apply last_Some in El as E. destruct E as [l0 E].
    assert (Hpc : c <> prev) by (intros Ex; apply det_out, elem_of_app; left; by rewrite Ex).
    rewrite E in Hseg. apply seg_snoc in Hseg as (Hseg & np & Hnp & _). exists nq. split.
    { unfold unlinked. rewrite El, !lookup_insert_ne; congruence. }
    apply sibs_app. exists (vn_sibling k). split; [|done]. rewrite E at 2. apply seg_snoc.
    split; [by apply (det_before _ _ prev)|]. exists (np <| vn_sibling := vn_sibling k |>). split; [|done].
    unfold unlinked. rewrite El, lookup_insert_ne by done.
    by rewrite lookup_insert_eq, (lookup_total_correct _ _ _ Hnp), (lookup_total_correct _ _ _ Hc).
  - apply last_None in El as E. exists (nq <| vn_child := vn_sibling k |>). rewrite E in Hseg |- *. cbn in Hseg.
    split; [|rewrite E in Hrest; exact Hrest].
    unfold unlinked. cbn [last]. rewrite lookup_insert_ne by done.
    by rewrite lookup_insert_eq, (lookup_total_correct _ _ _ Hq), (lookup_total_correct _ _ _ Hc).
Qed.

Local Lemma det_kids x : x <> q -> kids' x = kids x.
Proof. intros ?. unfold kids_detach. by bcase; [lia|]. Qed.
Local Lemma det_kids_top : kids' q = l1 ++ l2.
Proof. unfold kids_detach. by rewrite Z.eqb_refl. Qed.
Local Lemma det_sub x y : x ∈ kids' y -> x ∈ kids y.
Proof using Ekids.
  destruct (decide (y = q)) as [->|]; [|by rewrite det_kids].
  rewrite det_kids_top, Ekids, !elem_of_app, elem_of_cons. tauto.
Qed.
(** [c] is in no list any more; the other nodes are where they were. *)
Local Lemma det_gone y n : m !! y = Some n -> c ∉ kids' y.
Proof using Ht Hc Hq Epar Ekids.
  intros Hy Hin. destruct (decide (y = q)) as [->|Hne]; [rewrite det_kids_top in Hin; by apply det_out|].
  rewrite det_kids in Hin by done. destruct (tree_in _ _ _ Ht _ _ _ Hy Hin) as (? & ? & ?). congruence.
Qed.
Local Lemma det_case x n' : m' !! x = Some n' ->
  x = c /\ n' = k <| vn_parent := 0 |> <| vn_sibling := 0 |> \/
  x <> c /\ exists n, m !! x = Some n /\ vn_parent n' = vn_parent n /\ vn_type n' = vn_type n /\
    vn_mounted_here n' = vn_mounted_here n /\ (x <> q -> vn_child n' = vn_child n).
Proof using Ht Hc Hq Hq0 Epar Ekids.
  intros Hx. destruct (decide (x = c)) as [->|Hxc]; [rewrite det_self in Hx; left; split; congruence|].
  right. split; [done|]. destruct (det_new _ _ Hx Hxc) as [n Hn].
  destruct (det_old x n Hn Hxc) as (n2 & H2 & ? & ? & ? & _ & ?). rewrite Hx in H2. injection H2 as <-. by exists n.
Qed.
Local Lemma det_frame x n : m !! x = Some n -> x <> q -> x <> c -> sibs m (vn_child n) (kids x) -> sibs m' (vn_child n) (kids x).
Proof using Ht Hc Hq Hq0 Epar Ekids.
  intros Hx Hxq Hxc Hs. apply (sibs_frame m); [done|]. intros y ky Hy Hky.
  destruct (tree_in _ _ _ Ht _ _ _ Hx Hy) as (ky' & Hky' & Hyp).
  destruct (det_old y ky Hky) as (n' & ? & _ & _ & _ & Hsib & _); [congruence|].
  exists n'. split; [done|]. apply Hsib. intros El%last_Some_elem_of.
  destruct (det_child y) as (z & Hz & Hzq); [apply elem_of_app; by left|]. congruence.
Qed.

Lemma tree_detach : tree m' root kids'.
Proof using All.
  pose proof det_qc as Hqc. destruct (tree_root _ _ _ Ht) as (nr & Hnr & Hrp & Hrt).
  assert (Hrc : root <> c) by congruence. split.
  - destruct (m' !! 0) as [n0|] eqn:E; [|done]. exfalso. pose proof (tree_null _ _ _ Ht).
    destruct (det_case _ _ E) as [[? _]|(_ & n & ? & _)]; congruence.
  - destruct (det_old root nr Hnr Hrc) as (n' & ? & ? & ? & _). exists n'. split; [done|]. split; congruence.
  - intros x n' Hx. destruct (det_case _ _ Hx) as [[-> ->]|(Hxc & n & Hn & _ & _ & _ & Hch)].
    + rewrite det_kids, Eleaf by congruence. pose proof (tree_kids _ _ _ Ht c k Hc) as Hk. by rewrite Eleaf in Hk.
    + destruct (decide (x = q)) as [->|Hxq].
      * destruct det_sibs as (n2 & H2 & Hs). rewrite Hx in H2. injection H2 as <-. by rewrite det_kids_top.
      * rewrite det_kids, Hch by done. apply det_frame; [done..|]. by eapply tree_kids.
  - intros x n' Hx. destruct (decide (x = q)) as [->|Hxq].
    + rewrite det_kids_top. pose proof det_nodup as Hnd. rewrite <- Permutation_middle in Hnd.
      by apply NoDup_cons in Hnd as [_ ?].
    + rewrite det_kids by done. destruct (det_case _ _ Hx) as [[-> _]|(_ & n & Hn & _)]; by eapply tree_nodup.
  - intros x n' y Hx Hy. assert (exists n, m !! x = Some n) as [n Hn].
    { destruct (det_case _ _ Hx) as [[-> _]|(_ & n & Hn & _)]; eauto. }
    pose proof (det_gone _ _ Hn) as Hg. destruct (tree_in _ _ _ Ht x n y Hn (det_sub _ _ Hy)) as (ky & Hky & Hyx).
    destruct (det_old y ky Hky) as (n2 & ? & ? & _); [congruence|]. exists n2. split; [done|congruence].
  - intros x n' Hx Hpar. destruct (det_case _ _ Hx) as [[-> ->]|(Hxc & n & Hn & Ep & _)]; [done|]. rewrite Ep in Hpar |- *.
    destruct (tree_parent _ _ _ Ht _ _ Hn Hpar) as (y & Hy & Hin).
    assert (Hpc : vn_parent n <> c) by (intros E; rewrite E, Eleaf in Hin; by apply elem_of_nil in Hin).
    destruct (det_old _ _ Hy Hpc) as (y' & ? & _). exists y'. split; [done|].
    destruct (decide (vn_parent n = q)) as [E|]; [|by rewrite det_kids].
    rewrite E, Ekids in Hin. rewrite E, det_kids_top. rewrite elem_of_app, elem_of_cons in Hin. rewrite elem_of_app. tauto.
  - intros x n' Hx Hpar Hxr. destruct (det_case _ _ Hx) as [[-> ->]|(Hxc & n & Hn & Ep & _)].
    + by rewrite det_kids by congruence.
    + rewrite Ep in Hpar. assert (Hl : kids x = []) by (by eapply tree_loose).
      destruct (decide (x = q)) as [->|]; [|by rewrite det_kids]. rewrite Ekids in Hl. by destruct l1.
  - intros x n' Hx Hne. destruct (det_case _ _ Hx) as [[-> ->]|(Hxc & n & Hn & _ & Et & _)].
    + rewrite det_kids in Hne by congruence. by rewrite Eleaf in Hne.
    + rewrite Et. apply (tree_dir _ _ _ Ht x n Hn). intros E. apply Hne.
      destruct (kids' x) as [|y l] eqn:Ey; [done|]. assert (Hin : y ∈ kids x) by (apply det_sub; rewrite Ey; left).
      rewrite E in Hin. by apply elem_of_nil in Hin.
  - intros x n' Hx. destruct (det_case _ _ Hx) as [[-> ->]|(Hxc & n & Hn & _ & _ & -> & _)].
    + by apply (tree_mounts _ _ _ Ht c k).
    + by apply (tree_mounts _ _ _ Ht x n).
  - destruct (tree_depth _ _ _ Ht) as [depth Hd]. exists depth. intros x n' Hx Hpar.
    destruct (det_case _ _ Hx) as [[-> ->]|(Hxc & n & Hn & Ep & _)]; [done|]. rewrite Ep in Hpar |- *. by apply Hd.
Qed.
End Detach.
