(* ===== verification/VfsReach.v ===== *)
(** The operations of the VFS keep the tree and the memory of its nodes: a state in
    which the nodes form a tree and own their blocks stays so under every operation. *)

From S2P Require Import Prelude Vfs VfsTree.

(** What the VFS relies on: a block that is handed out is new and not null, and a live
    block that is freed is the only one to go. *)
Class AllocatorLaws (H : Type) `{Allocator H} := {
  a_ok : H -> Prop;
  a_live : H -> Z -> Prop;
  alloc_law h size : a_ok h -> 0 < size <= 0x6F000000 ->
    let '(r, h') := k_alloc size h in
    a_ok h' /\
    match r with
    | Some p => p <> 0 /\ ~ a_live h p /\ forall q, a_live h' q <-> q = p \/ a_live h q
    | None => forall q, a_live h' q <-> a_live h q
    end;
  free_law h p : a_ok h -> a_live h p -> a_ok (k_free p h) /\ forall q, a_live (k_free p h) q <-> a_live h q /\ q <> p
}.

Section Reach.
Context {H X : Type} `{AllocatorLaws H}.
Implicit Types s : vfs H X.

(** Every node and every block of data is live, and no two of them are the same. *)
Record owned s : Prop := {
  own_ok : a_ok (vheap s);
  own_node p n : nodes s !! p = Some n -> a_live (vheap s) p;
  own_data p n : nodes s !! p = Some n -> vn_data n <> 0 -> a_live (vheap s) (vn_data n) /\ nodes s !! vn_data n = None;
  own_inj p n q k : nodes s !! p = Some n -> nodes s !! q = Some k -> vn_data n <> 0 -> vn_data n = vn_data k -> p = q
}.
Definition tree_of s (kids : Z -> list Z) : Prop := tree (nodes s) (root_node s) kids.
Definition vfs_ok s : Prop := (exists kids, tree_of s kids) /\ owned s.

(** * Lookups *)

Lemma node_at_eq s p n : nodes s !! p = Some n -> node_at s p = n.
Proof. apply lookup_total_correct. Qed.
Lemma upd_node_nodes s p n f : nodes s !! p = Some n -> nodes (upd_node p f s) = <[p := f n]> (nodes s).
Proof. intros Hp. unfold upd_node, set_node. cbn. by rewrite (node_at_eq _ _ _ Hp). Qed.

Lemma string_equals_n_eq l r : string_equals_n l r (length l) = bool_decide (l = r).
Proof.
  revert r. induction l as [|x l IH]; intros [|y r]; cbn; try done.
  destruct (Z.eqb_spec x y) as [->|Hne]; cbn [negb].
  - rewrite IH. apply bool_decide_ext. split; [by intros ->|by intros [= ->]].
  - symmetry. apply bool_decide_eq_false. congruence.
Qed.

(** The first child with the name, 0 when there is none. *)
Definition named s (name : list Z) (x : Z) : bool := bool_decide (name = vn_name (node_at s x)).
Definition lookup_name s (name : list Z) (l : list Z) : Z := default 0 (head (filter (fun x => named s name x = true) l)).

Lemma find_child_loop_run s kids name fuel a l :
  tree_of s kids -> sibs (nodes s) a l -> (length l <= fuel)%nat ->
  find_child_loop fuel a name (length name) s = lookup_name s name l.
Proof.
  intros Ht. revert fuel a. induction l as [|x l IH]; intros [|fuel] a Hs Hf; cbn in Hf; try lia; cbn [find_child_loop]; [done| |].
  - cbn in Hs. by subst a.
  - destruct Hs as (-> & n & Hn & Hs). bcase.
    { pose proof (tree_null _ _ _ Ht). congruence. }
    rewrite string_equals_n_eq. change (bool_decide (name = vn_name (node_at s x))) with (named s name x).
    unfold lookup_name. destruct (named s name x) eqn:E.
    + rewrite (node_at_eq _ _ _ Hn), (tree_mounts _ _ _ Ht _ _ Hn), filter_cons_True by done. done.
    + rewrite filter_cons_False by congruence. rewrite (node_at_eq _ _ _ Hn). apply IH; [done|lia].
Qed.

Lemma find_child_run s kids p n name :
  tree_of s kids -> nodes s !! p = Some n -> find_child p name (length name) s = lookup_name s name (kids p).
Proof.
  intros Ht Hp. unfold find_child. rewrite (node_at_eq _ _ _ Hp).
  apply (find_child_loop_run _ kids); [done|by eapply tree_kids|by eapply kids_bound].
Qed.
Lemma lookup_name_in s name l : lookup_name s name l <> 0 -> lookup_name s name l ∈ l /\ named s name (lookup_name s name l) = true.
Proof.
  unfold lookup_name. destruct (filter _ l) as [|x r] eqn:E; [done|]. intros _. cbn.
  assert (Hx : x ∈ filter (fun x => named s name x = true) l) by (rewrite E; left).
  by apply list_elem_of_filter in Hx as [? ?].
Qed.

(** Where a path can lead: the root and the nodes in a list. *)
Definition placed s (p : Z) : Prop := is_Some (nodes s !! p) /\ attached (nodes s) (root_node s) p.

Lemma placed_child s kids p n c : tree_of s kids -> nodes s !! p = Some n -> c ∈ kids p -> placed s c.
Proof.
  intros Ht Hp Hc. destruct (tree_in _ _ _ Ht _ _ _ Hp Hc) as (k & Hk & Hkp). split; [eauto|].
  right. exists k. split; [done|]. intros E. pose proof (tree_null _ _ _ Ht). congruence.
Qed.
Lemma placed_parent s kids c k : tree_of s kids -> nodes s !! c = Some k -> vn_parent k <> 0 -> placed s (vn_parent k).
Proof.
  intros Ht Hc Hk. destruct (tree_parent _ _ _ Ht _ _ Hc Hk) as (n & Hn & Hin). split; [eauto|].
  destruct (decide (vn_parent k = root_node s)) as [|Hr]; [by left|]. right. exists n. split; [done|]. intros E.
  rewrite (tree_loose _ _ _ Ht _ _ Hn E Hr) in Hin. by apply elem_of_nil in Hin.
Qed.

Lemma resolve_placed s kids cs cur : tree_of s kids -> placed s cur -> resolve cs cur s <> 0 -> placed s (resolve cs cur s).
Proof.
  intros Ht. revert cur. induction cs as [|c cs IH]; intros cur Hcur; [done|]. cbn [resolve].
  destruct (negb _); [done|]. destruct (is_dot c); [by apply IH|]. destruct Hcur as [[n Hn] Hatt].
  destruct (is_dotdot c).
  - apply IH. rewrite (node_at_eq _ _ _ Hn). destruct (Z.eqb_spec (vn_parent n) 0); cbn [negb].
    + split; [eauto|done].
    + by eapply placed_parent.
  - rewrite (find_child_run _ kids _ n) by done. cbv zeta. bcase; [done|]. apply IH.
    destruct (lookup_name_in s c (kids cur)) as [Hin _]; [done|]. by eapply placed_child.
Qed.
Lemma root_placed s kids : tree_of s kids -> placed s (root_node s).
Proof. intros Ht. destruct (tree_root _ _ _ Ht) as (n & Hn & _). split; [eauto|by left]. Qed.
Lemma find_placed s path : vfs_ok s -> vfs_find path s <> 0 -> placed s (vfs_find path s).
Proof.
  intros [[kids Ht] _]. unfold vfs_find, vfs_find_relative. destruct path as [|c path]; [done|].
  destruct (root_node s =? 0); [done|]. intros Hr. eapply resolve_placed; [done| |done].
  destruct (_ || _); by eapply root_placed.
Qed.

(** * Updates of one node *)

(** A change of a node that keeps its place, and its data or drops it. *)
Lemma owned_nodes s s' :
  owned s -> vheap s' = vheap s ->
  (forall p n', nodes s' !! p = Some n' -> exists n, nodes s !! p = Some n /\ (vn_data n' = vn_data n \/ vn_data n' = 0)) ->
  owned s'.
Proof.
  intros Ho Eh Hn. split.
  - rewrite Eh. apply Ho.
  - intros p n' (n & Hp & _)%Hn. rewrite Eh. by eapply own_node.
  - intros p n' Hp Hd. destruct (Hn _ _ Hp) as (n & Hp' & [E|E]); [|done]. rewrite E in *. rewrite Eh.
    destruct (own_data _ Ho _ _ Hp' Hd) as [? Hnone]. split; [done|].
    destruct (nodes s' !! vn_data n) eqn:E'; [|done]. destruct (Hn _ _ E') as (? & ? & _). congruence.
  - intros p n' q k' Hp Hq Hd Heq. destruct (Hn _ _ Hp) as (n & Hp' & [E|E]); [|done].
    destruct (Hn _ _ Hq) as (k & Hq' & [E2|E2]); [|congruence].
    apply (own_inj _ Ho p n q k); [done|done|congruence|congruence].
Qed.

Lemma upd_ok s p n f :
  vfs_ok s -> nodes s !! p = Some n -> same_shape n (f n) -> vn_data (f n) = vn_data n -> vfs_ok (upd_node p f s).
Proof.
  intros [[kids Ht] Ho] Hp Hsh Hd. split.
  - exists kids. unfold tree_of. rewrite (upd_node_nodes _ _ n) by done. by eapply tree_shape.
  - apply (owned_nodes s); [done|done|]. rewrite (upd_node_nodes _ _ n) by done. intros q k Hq.
    destruct (decide (q = p)) as [->|]; [rewrite lookup_insert_eq in Hq|rewrite lookup_insert_ne in Hq by done; eauto].
    injection Hq as <-. exists n. auto.
Qed.

(** * Creating and freeing nodes *)

Lemma kmalloc_node_run s r s' :
  vfs_ok s -> kmalloc_node s = (r, s') ->
  vfs_ok s' /\ nodes s' = nodes s /\ root_node s' = root_node s /\ current s' = current s /\ drivers s' = drivers s /\
  match r with
  | Some p => p <> 0 /\ nodes s !! p = None /\ a_live (vheap s') p /\ forall q n, nodes s !! q = Some n -> vn_data n <> p
  | None => True
  end.
Proof.
  intros [Ht Ho]. unfold kmalloc_node. pose proof (alloc_law (vheap s) VFS_NODE_SIZE (own_ok _ Ho)) as Hl.
  destruct (k_alloc VFS_NODE_SIZE (vheap s)) as [r' h]. intros [= <- <-].
  destruct Hl as [Hok Hr]; [unfold VFS_NODE_SIZE; lia|].
  assert (Hkeep : forall q, a_live (vheap s) q -> a_live h q) by (destruct r'; intros q Hq; [apply Hr; by right|by apply Hr]).
  assert (Hown : owned (s <| vheap := h |>)).
  { split; cbn; [done|..].
    - intros p n Hp. apply Hkeep. by eapply own_node.
    - intros p n Hp Hd. destruct (own_data _ Ho _ _ Hp Hd). auto.
    - apply (own_inj _ Ho). }
  split; [by split|]. do 4 (split; [done|]). destruct r' as [p|]; [|done]. destruct Hr as (Hp0 & Hdead & Hlive).
  split; [done|]. split; [|split; [by apply Hlive; left|]].
  - destruct (nodes s !! p) eqn:E; [|done]. destruct Hdead. by eapply own_node.
  - intros q n Hq E. destruct Hdead. rewrite <- E. apply (own_data _ Ho q n); [done|congruence].
Qed.

Lemma owned_create s s' q nq p n :
  owned s -> nodes s !! q = Some nq -> nodes s !! p = None -> a_live (vheap s) p ->
  (forall x k, nodes s !! x = Some k -> vn_data k <> p) -> vn_data n = 0 ->
  vheap s' = vheap s -> nodes s' = <[q := nq <| vn_child := p |>]> (<[p := n]> (nodes s)) -> owned s'.
Proof.
  intros Ho Hq Hp Hlive Hfree Hn0 Eh Em.
  assert (Hback : forall x k, nodes s' !! x = Some k ->
            x = p /\ vn_data k = 0 \/ exists k0, nodes s !! x = Some k0 /\ vn_data k = vn_data k0).
  { rewrite Em. intros x k Hx. destruct (decide (x = q)) as [->|].
    { rewrite lookup_insert_eq in Hx. injection Hx as <-. right. by exists nq. }
    rewrite lookup_insert_ne in Hx by done. destruct (decide (x = p)) as [->|].
    { rewrite lookup_insert_eq in Hx. injection Hx as <-. by left. }
    rewrite lookup_insert_ne in Hx by done. right. by exists k. }
  split; rewrite ?Eh.
  - apply Ho.
  - intros x k Hx. destruct (Hback _ _ Hx) as [[-> _]|(k0 & ? & _)]; [done|by eapply own_node].
  - intros x k Hx Hd. destruct (Hback _ _ Hx) as [[-> ?]|(k0 & Hk0 & E)]; [done|]. rewrite E in *.
    destruct (own_data _ Ho _ _ Hk0 Hd) as [? Hno]. split; [done|].
    rewrite Em, !lookup_insert_ne; [done|intros Ex; by apply (Hfree _ _ Hk0)|congruence].
  - intros x k y k2 Hx Hy Hd E. destruct (Hback _ _ Hx) as [[-> ?]|(k0 & Hk0 & E0)]; [done|].
    destruct (Hback _ _ Hy) as [[-> ?]|(k3 & Hk3 & E3)]; [congruence|].
    apply (own_inj _ Ho x k0 y k3); [done|done|congruence|congruence].
Qed.

(** A node in a directory: the new node has no data and no children. *)
Lemma create_run s q nq name type p s' :
  vfs_ok s -> nodes s !! q = Some nq -> vn_type nq = VFS_NODE_DIRECTORY -> placed s q ->
  vfs_create_node q name type s = (p, s') ->
  vfs_ok s' /\ root_node s' = root_node s /\ current s' = current s /\ drivers s' = drivers s /\
  if p =? 0 then nodes s' = nodes s
  else nodes s !! p = None /\ exists n,
    vn_name n = copy_name name /\ vn_type n = type /\ vn_parent n = q /\ vn_data n = 0 /\ vn_ref_count n = 0 /\
    vn_child n = 0 /\ vn_sibling n = vn_child nq /\
    nodes s' = <[q := nq <| vn_child := p |>]> (<[p := n]> (nodes s)).
Proof.
  intros Hok Hq Hdir [_ Hatt] Hrun. unfold vfs_create_node in Hrun.
  destruct (kmalloc_node s) as [[p'|] s1] eqn:Ek;
    destruct (kmalloc_node_run _ _ _ Hok Ek) as (Hok1 & En & Er & Ec & Ed & Hp).
  2:{ injection Hrun as <- <-. by rewrite Z.eqb_refl. }
  destruct Hp as (Hp0 & Hnone & Hlive & Hfree). rewrite <- En in Hq, Hnone, Hfree.
  destruct Hok1 as [[kids Ht] Ho]. unfold tree_of in Ht.
  destruct (Z.eqb_spec q 0) as [E|_]; [pose proof (tree_null _ _ _ Ht); congruence|]. cbn [negb] in Hrun.
  rewrite (node_at_eq _ _ _ Hq) in Hrun. injection Hrun as <- <-.
  match goal with |- context [set_node p' ?n s1] => set (new := n) end.
  set (s2 := upd_node q _ _).
  assert (Emap : nodes s2 = <[q := nq <| vn_child := p' |>]> (<[p' := new]> (nodes s1))).
  { unfold s2. rewrite (upd_node_nodes _ _ nq); [done|]. cbn. rewrite lookup_insert_ne; congruence. }
  split; [split|].
  - exists (kids_insert kids q p'). unfold tree_of. rewrite Emap. change (root_node s2) with (root_node s1).
    apply tree_insert; try done. by rewrite Er, En.
  - by apply (owned_create s1 s2 q nq p' new).
  - split; [exact Er|]. split; [exact Ec|]. split; [exact Ed|]. destruct (Z.eqb_spec p' 0); [done|].
    rewrite <- En. split; [done|]. by exists new.
Qed.

(** [kfree] of the data of a node. *)
Lemma free_data_ok s p n :
  vfs_ok s -> nodes s !! p = Some n ->
  vfs_ok (free_data p s) /\ nodes (free_data p s) !! p = Some (n <| vn_data := 0 |>) /\
  root_node (free_data p s) = root_node s.
Proof.
  intros [[kids Ht] Ho] Hp. unfold free_data. rewrite (node_at_eq _ _ _ Hp).
  destruct (Z.eqb_spec (vn_data n) 0) as [E|Hd]; cbn [negb].
  { split; [split; [by exists kids|done]|]. split; [|done]. rewrite Hp. f_equal. destruct n. cbn in E. by subst. }
  destruct (own_data _ Ho _ _ Hp Hd) as [Hlive Hnone].
  destruct (free_law (vheap s) (vn_data n) (own_ok _ Ho) Hlive) as [Hok Hl].
  set (s1 := kfree_block (vn_data n) s). assert (Hp1 : nodes s1 !! p = Some n) by done.
  assert (Em := upd_node_nodes s1 p n (fun n => n <| vn_data := 0 |>) Hp1).
  assert (Hback : forall x k', nodes (upd_node p (fun n => n <| vn_data := 0 |>) s1) !! x = Some k' ->
            vn_data k' = 0 \/ x <> p /\ nodes s !! x = Some k').
  { rewrite Em. intros x k' Hx. destruct (decide (x = p)) as [->|]; [left|right].
    - rewrite lookup_insert_eq in Hx. by injection Hx as <-.
    - by rewrite lookup_insert_ne in Hx. }
  assert (Hdom : forall x k', nodes (upd_node p (fun n => n <| vn_data := 0 |>) s1) !! x = Some k' -> is_Some (nodes s !! x)).
  { rewrite Em. intros x k' Hx. destruct (decide (x = p)) as [->|]; [eauto|]. rewrite lookup_insert_ne in Hx by done. eauto. }
  split; [split|split; [|done]].
  - exists kids. unfold tree_of. rewrite Em. by eapply tree_shape.
  - split; [exact Hok|..].
    + intros x k' [k Hk]%Hdom. apply Hl. split; [by eapply own_node|congruence].
    + intros x k' Hx Hd'. destruct (Hback _ _ Hx) as [?|[Hne Hk]]; [done|].
      destruct (own_data _ Ho _ _ Hk Hd') as [? Hno]. split.
      * apply Hl. split; [done|]. intros E. apply Hne. by apply (own_inj _ Ho x k' p n).
      * apply eq_None_not_Some. intros [k0 [k1 ?]%Hdom]. congruence.
    + intros x k' y k2 Hx Hy Hd' E. destruct (Hback _ _ Hx) as [?|[_ Hk]]; [done|].
      destruct (Hback _ _ Hy) as [?|[_ Hk2]]; [congruence|]. by apply (own_inj _ Ho x k' y k2).
  - rewrite Em. apply lookup_insert_eq.
Qed.

(** A node without a parent that is not the root is freed. *)
Lemma kfree_node_ok s p n :
  vfs_ok s -> nodes s !! p = Some n -> vn_parent n = 0 -> p <> root_node s -> vn_data n = 0 -> vfs_ok (kfree_node p s).
Proof.
  intros [[kids Ht] Ho] Hp Hpar Hr Hd. split.
  - exists kids. by eapply tree_delete.
  - destruct (free_law (vheap s) p (own_ok _ Ho) (own_node _ Ho _ _ Hp)) as [Hok Hl].
    split; cbn; [done|..].
    + intros x k [Hne Hx]%lookup_delete_Some. apply Hl. split; [by eapply own_node|done].
    + intros x k [Hne Hx]%lookup_delete_Some Hk. destruct (own_data _ Ho _ _ Hx Hk) as [? Hno]. split.
      * apply Hl. split; [done|congruence].
      * apply lookup_delete_None. by right.
    + intros x k y k2 [_ Hx]%lookup_delete_Some [_ Hy]%lookup_delete_Some. by apply (own_inj _ Ho).
Qed.
Lemma free_node_ok s p n :
  vfs_ok s -> nodes s !! p = Some n -> vn_parent n = 0 -> p <> root_node s -> vfs_ok (kfree_node p (free_data p s)).
Proof.
  intros Hok Hp Hpar Hr. destruct (free_data_ok s p n Hok Hp) as (Hok' & Hp' & Er).
  by apply (kfree_node_ok _ _ (n <| vn_data := 0 |>)); [..|rewrite Er|].
Qed.

(** * Detaching *)

Lemma detach_from_run fuel s c prev a l1 :
  seg (nodes s) a l1 c -> c ∉ l1 -> 0 ∉ l1 -> c <> 0 -> (length l1 < fuel)%nat ->
  detach_from fuel c prev a s =
  let before := default prev (last l1) in
  if negb (before =? 0)
  then upd_node before (fun n => n <| vn_sibling := vn_sibling (node_at s c) |>) s
  else upd_node (vn_parent (node_at s c)) (fun n => n <| vn_child := vn_sibling (node_at s c) |>) s.
Proof.
  revert fuel prev a. induction l1 as [|x l1 IH]; intros [|fuel] prev a Hs Hc Hz Hc0 Hf; cbn in Hf; try lia; cbn [detach_from].
  - cbn in Hs. subst a. rewrite Z.eqb_refl. by destruct (Z.eqb_spec c 0).
  - destruct Hs as (-> & n & Hn & Hs). apply not_elem_of_cons in Hc as [Hcx Hc]. apply not_elem_of_cons in Hz as [Hzx Hz].
    destruct (Z.eqb_spec x 0); [done|]. destruct (Z.eqb_spec x c); [done|].
    rewrite (node_at_eq _ _ _ Hn), (IH fuel x (vn_sibling n)) by (done || lia). cbv zeta.
    destruct l1 as [|y l1]; [done|]. rewrite last_cons_cons.
    destruct (last (y :: l1)) eqn:E; [done|]. by apply last_None in E.
Qed.

(** [detach] takes the node out of the list of its parent and changes nothing else. *)
Lemma detach_run s kids q nq c k l1 l2 :
  tree_of s kids -> nodes s !! c = Some k -> vn_parent k = q -> q <> 0 -> nodes s !! q = Some nq ->
  kids q = l1 ++ c :: l2 -> detach c s = s <| nodes := unlinked (nodes s) q c l1 |>.
Proof.
  intros Ht Hc Hpar Hq0 Hq Ek. unfold detach. rewrite (node_at_eq _ _ _ Hc), Hpar, (node_at_eq _ _ _ Hq).
  destruct (Z.eqb_spec q 0); [done|]. cbn [negb].
  pose proof (tree_kids _ _ _ Ht _ _ Hq) as Hs. rewrite Ek in Hs. apply sibs_app in Hs as (b & Hseg & -> & _).
  pose proof (tree_nodup _ _ _ Ht _ _ Hq) as Hnd. rewrite Ek in Hnd.
  assert (Hnz : forall x, x ∈ kids q -> x <> 0) by (intros x; by apply (kids_nonzero _ _ _ _ _ _ Ht Hq)).
  rewrite (detach_from_run _ s c 0 _ l1); [..|].
  2: done.
  2:{ apply NoDup_app in Hnd as (_ & Hd & _). intros Hin. apply (Hd c Hin). left. }
  2:{ intros Hin. apply (Hnz 0); [|done]. rewrite Ek. apply elem_of_app. by left. }
  2:{ apply Hnz. rewrite Ek. apply elem_of_app. right. left. }
  2:{ pose proof (kids_bound _ _ _ _ _ Ht Hq) as Hb. rewrite Ek, length_app in Hb. cbn in Hb. unfold walk_fuel. lia. }
  cbv zeta. rewrite (node_at_eq _ _ _ Hc), Hpar. unfold unlinked. rewrite (lookup_total_correct _ _ _ Hc).
  destruct (last l1) as [prev|] eqn:El; cbn [default from_option id].
  - destruct (Z.eqb_spec prev 0) as [->|]; [|done].
    exfalso. apply (Hnz 0); [|done]. rewrite Ek. apply elem_of_app. left. by apply last_Some_elem_of.
  - done.
Qed.

(** Its node afterwards. *)
Lemma detach_ok s kids c k :
  tree_of s kids -> owned s -> nodes s !! c = Some k -> kids c = [] ->
  let s' := detach c s in
  vfs_ok s' /\ root_node s' = root_node s /\ current s' = current s /\ drivers s' = drivers s /\
  exists k', nodes s' !! c = Some k' /\ vn_parent k' = 0 /\ vn_ref_count k' = vn_ref_count k /\ vn_nlink k' = vn_nlink k.
Proof.
  intros Ht Ho Hc Hleaf. cbv zeta. destruct (decide (vn_parent k = 0)) as [E|Hpar].
  { unfold detach. rewrite (node_at_eq _ _ _ Hc), E. split; [split; [by exists kids|done]|]. do 3 (split; [done|]). by exists k. }
  destruct (tree_parent _ _ _ Ht _ _ Hc Hpar) as (nq & Hq & Hin). apply list_elem_of_split in Hin as (l1 & l2 & Ek).
  rewrite (detach_run s kids (vn_parent k) nq c k l1 l2) by done.
  set (q := vn_parent k) in *.
  assert (Hself := det_self (nodes s) (root_node s) kids q nq c k l1 l2 Ht Hc Hq Hpar eq_refl Ek).
  split; [split|].
  - exists (kids_detach kids q (l1 ++ l2)). unfold tree_of. cbn. by eapply tree_detach.
  - apply (owned_nodes s); [done|done|]. cbn. intros x n' Hx.
    destruct (det_fields (nodes s) (root_node s) kids q nq c k l1 l2 Ht Hc Hq Hpar eq_refl Ek _ _ Hx) as (n & ? & ? & _).
    exists n. auto.
  - do 3 (split; [done|]). eexists. split; [exact Hself|done].
Qed.

(** * The operations *)

Lemma upd_tree s kids p n f :
  tree_of s kids -> nodes s !! p = Some n -> same_shape n (f n) -> tree_of (upd_node p f s) kids.
Proof. intros Ht Hp Hsh. unfold tree_of. rewrite (upd_node_nodes _ _ n) by done. by eapply tree_shape. Qed.

(** A node that a path leads to. *)
Lemma find_node s path : vfs_ok s -> vfs_find path s <> 0 -> exists n, nodes s !! vfs_find path s = Some n.
Proof. intros Hok Hf. by destruct (find_placed s path Hok Hf) as [[n Hn] _]; eauto. Qed.

Lemma chmod_ok s path mode : vfs_ok s -> vfs_ok (snd (vfs_chmod path mode s)).
Proof.
  intros Hok. unfold vfs_chmod. cbv zeta. bcase; [done|]. destruct (find_node s path Hok) as [k Hk]; [done|].
  by apply (upd_ok _ _ k).
Qed.
Lemma chown_ok s path uid gid : vfs_ok s -> vfs_ok (snd (vfs_chown path uid gid s)).
Proof.
  intros Hok. unfold vfs_chown. cbv zeta. bcase; [done|]. destruct (find_node s path Hok) as [k Hk]; [done|].
  by apply (upd_ok _ _ k).
Qed.
Lemma ref_ok s p n : vfs_ok s -> nodes s !! p = Some n -> vfs_ok (vfs_node_ref p s).
Proof. intros Hok Hp. unfold vfs_node_ref. bcase; [done|]. by apply (upd_ok _ _ n). Qed.
Lemma unref_ok s p n : vfs_ok s -> nodes s !! p = Some n -> vfs_ok (vfs_node_unref p s).
Proof.
  intros Hok Hp. unfold vfs_node_unref. bcase; [done|]. rewrite (node_at_eq _ _ _ Hp). cbv zeta.
  match goal with |- context [if 0 <? ?r then ?a else s] => set (s1 := if 0 <? r then a else s) end.
  assert (Hs1 : vfs_ok s1 /\ root_node s1 = root_node s /\ exists n1, nodes s1 !! p = Some n1).
  { unfold s1. destruct (0 <? vn_ref_count n); [|by eauto]. split; [by apply (upd_ok _ _ n)|]. split; [done|].
    rewrite (upd_node_nodes _ _ n) by done. eexists. apply lookup_insert_eq. }
  destruct Hs1 as (Hok1 & Er & n1 & Hn1). cbv zeta. rewrite (node_at_eq _ _ _ Hn1).
  destruct (_ && _ && _) eqn:E; [|done]. apply andb_prop in E as [E Hr]. apply andb_prop in E as [_ Hpar%Z.eqb_eq].
  apply negb_true_iff, Z.eqb_neq in Hr. by apply (free_node_ok _ _ n1).
Qed.

Lemma flock_node_keeps op pid n :
  same_shape n (snd (flock_node op pid n)) /\ vn_data (snd (flock_node op pid n)) = vn_data n.
Proof. unfold flock_node, drop_shared, unlock. repeat case_match; done. Qed.
Lemma flock_ok s p n op pid : vfs_ok s -> nodes s !! p = Some n -> vfs_ok (snd (vfs_flock p op pid s)).
Proof.
  intros Hok Hp. unfold vfs_flock. bcase; [done|]. rewrite (node_at_eq _ _ _ Hp).
  destruct (flock_node_keeps op pid n) as [Hsh Hd]. destruct (flock_node op pid n) as [r n'] eqn:E. cbn in *.
  pose proof (upd_ok s p n (fun _ => n') Hok Hp Hsh Hd) as Hu. exact Hu.
Qed.
Lemma unlock_by_pid_ok s p n pid : vfs_ok s -> nodes s !! p = Some n -> vfs_ok (vfs_node_unlock_by_pid p pid s).
Proof.
  intros Hok Hp. unfold vfs_node_unlock_by_pid. bcase; [done|].
  apply (upd_ok _ _ n); [done|done|..]; unfold unlock_by_pid, drop_shared, unlock; repeat case_match; done.
Qed.
Lemma chdir_ok s path : vfs_ok s -> vfs_ok (snd (vfs_chdir path s)).
Proof.
  intros Hok. unfold vfs_chdir. repeat (case_match; try done). cbn.
  destruct Hok as [Ht Ho]. split; [exact Ht|]. destruct Ho. by split.
Qed.

(** The directory that gets a new node. *)
Lemma parent_dir s path :
  vfs_ok s -> (vfs_find path s =? 0) || negb (bool_decide (vn_type (node_at s (vfs_find path s)) = VFS_NODE_DIRECTORY)) = false ->
  exists n, nodes s !! vfs_find path s = Some n /\ vn_type n = VFS_NODE_DIRECTORY /\ placed s (vfs_find path s).
Proof.
  intros Hok [E Hd]%orb_false_iff. apply Z.eqb_neq in E. destruct (find_placed s path Hok E) as [[n Hn] Hatt].
  exists n. split; [done|]. split; [|split; [eauto|done]].
  apply negb_false_iff, bool_decide_eq_true in Hd. by rewrite (node_at_eq _ _ _ Hn) in Hd.
Qed.
(** The new node can be found in the state after its creation. *)
Lemma create_node_at s q nq name type p s' :
  vfs_ok s -> nodes s !! q = Some nq -> vn_type nq = VFS_NODE_DIRECTORY -> placed s q ->
  vfs_create_node q name type s = (p, s') -> p <> 0 ->
  exists n, nodes s' !! p = Some n /\ vn_data n = 0 /\ vn_type n = type.
Proof.
  intros Hok Hq Hdir Hpl Hrun Hp. destruct (create_run _ _ _ _ _ _ _ Hok Hq Hdir Hpl Hrun) as (_ & _ & _ & _ & Hc).
  destruct (Z.eqb_spec p 0) as [|_]; [done|]. destruct Hc as (Hnone & n & _ & ? & _ & ? & _ & _ & _ & Em).
  exists n. split; [|done]. rewrite Em, lookup_insert_ne by congruence. apply lookup_insert_eq.
Qed.

Lemma mkdir_ok s path mode : vfs_ok s -> vfs_ok (snd (mkdir_node path mode s)).
Proof.
  intros Hok. unfold mkdir_node. destruct (split_parent path) as [parent_path dir_name].
  destruct dir_name as [|ch dn] eqn:Edn; [done|]. rewrite <- Edn. cbv zeta.
  destruct (_ || _) eqn:E; [done|]. destruct (parent_dir _ _ Hok E) as (nq & Hq & Hdir & Hpl).
  destruct (negb (find_child _ _ _ _ =? 0)); [done|].
  destruct (vfs_create_node _ dir_name _ s) as [p s1] eqn:Ec.
  destruct (create_run _ _ _ _ _ _ _ Hok Hq Hdir Hpl Ec) as (Hok1 & _).
  destruct (Z.eqb_spec p 0) as [->|Hp]; [done|].
  destruct (create_node_at _ _ _ _ _ _ _ Hok Hq Hdir Hpl Ec Hp) as (n & Hn & _).
  by apply (upd_ok _ _ n).
Qed.
Lemma symlink_ok s target path : vfs_ok s -> vfs_ok (snd (vfs_symlink target path s)).
Proof.
  intros Hok. unfold vfs_symlink. destruct (split_parent path) as [parent_path link_name]. cbv zeta.
  destruct (_ || _) eqn:E; [done|]. destruct (parent_dir _ _ Hok E) as (nq & Hq & Hdir & Hpl).
  destruct (vfs_create_node _ link_name _ s) as [p s1] eqn:Ec.
  destruct (create_run _ _ _ _ _ _ _ Hok Hq Hdir Hpl Ec) as (Hok1 & _).
  destruct (Z.eqb_spec p 0) as [->|Hp]; [done|].
  destruct (create_node_at _ _ _ _ _ _ _ Hok Hq Hdir Hpl Ec Hp) as (n & Hn & _).
  by apply (upd_ok _ _ n).
Qed.

(** A link to a node without data. *)
Lemma link_ok s oldpath newpath :
  vfs_ok s -> vn_data (node_at s (vfs_find oldpath s)) = 0 -> vfs_ok (snd (vfs_link oldpath newpath s)).
Proof.
  intros Hok Hd. unfold vfs_link. cbv zeta. destruct ((vfs_find oldpath s =? 0) || _) eqn:Eo; [done|].
  apply orb_false_iff in Eo as [Eo%Z.eqb_neq _]. destruct (find_node _ _ Hok Eo) as [o Ho]. set (old := vfs_find oldpath s) in *.
  rewrite (node_at_eq _ _ _ Ho) in Hd |- *. destruct (split_parent newpath) as [parent_path new_name].
  destruct (_ || _) eqn:E; [done|]. destruct (parent_dir _ _ Hok E) as (nq & Hq & Hdir & Hpl).
  destruct (vfs_create_node _ new_name _ s) as [p s1] eqn:Ec.
  destruct (create_run _ _ _ _ _ _ _ Hok Hq Hdir Hpl Ec) as (Hok1 & _ & _ & _ & Hc).
  destruct (Z.eqb_spec p 0) as [->|Hp]; [done|]. destruct Hc as (Hnone & n & _ & _ & _ & Hn0 & _ & _ & _ & Em).
  assert (Hpo : old <> p) by congruence.
  assert (Hp1 : nodes s1 !! p = Some n) by (rewrite Em, lookup_insert_ne by congruence; apply lookup_insert_eq).
  assert (exists o1, nodes s1 !! old = Some o1 /\ vn_data o1 = 0) as (o1 & Ho1 & Ho1d).
  { rewrite Em. destruct (decide (old = vfs_find parent_path s)) as [Eq|].
    - eexists. rewrite Eq, lookup_insert_eq. rewrite <- Eq in Hq. split; [done|]. change (vn_data nq = 0). congruence.
    - exists o. by rewrite !lookup_insert_ne by done. }
  rewrite (node_at_eq _ _ _ Ho1). cbn [snd]. set (s2 := upd_node p _ s1).
  assert (Hok2 : vfs_ok s2) by (apply (upd_ok _ _ n); [done..|]; change (vn_data o1 = vn_data n); by rewrite Ho1d, Hn0).
  assert (Em2 : nodes s2 = <[p := _]> (nodes s1)) by exact (upd_node_nodes _ _ n _ Hp1).
  assert (Ho2 : nodes s2 !! old = Some o1) by (rewrite Em2, lookup_insert_ne by done; done).
  set (s3 := upd_node old _ s2). assert (Hok3 : vfs_ok s3) by (by apply (upd_ok _ _ o1)).
  assert (Hp3 : exists n3, nodes s3 !! p = Some n3).
  { unfold s3. rewrite (upd_node_nodes _ _ o1), lookup_insert_ne, Em2 by done. eexists. apply lookup_insert_eq. }
  destruct Hp3 as [n3 Hp3]. by apply (upd_ok _ _ n3).
Qed.

Lemma no_child s kids p n : tree_of s kids -> nodes s !! p = Some n -> vn_child n = 0 -> kids p = [].
Proof.
  intros Ht Hp Hc. pose proof (tree_kids _ _ _ Ht _ _ Hp) as Hs. rewrite Hc in Hs.
  destruct (kids p) as [|x l]; [done|]. destruct Hs as (<- & k & Hk & _). pose proof (tree_null _ _ _ Ht). congruence.
Qed.
Lemma file_no_kids s kids p n : tree_of s kids -> nodes s !! p = Some n -> vn_type n <> VFS_NODE_DIRECTORY -> kids p = [].
Proof.
  intros Ht Hp Hty. destruct (kids p) eqn:E; [done|]. destruct Hty. apply (tree_dir _ _ _ Ht _ _ Hp). by rewrite E.
Qed.

Lemma unlink_ok s path : vfs_ok s -> vfs_ok (snd (unlink_node path s)).
Proof.
  intros Hok. unfold unlink_node. cbv zeta. destruct (_ || _) eqn:E; [done|].
  apply orb_false_iff in E as [E%Z.eqb_neq Hty]. destruct (find_node _ _ Hok E) as [n Hn]. set (p := vfs_find path s) in *.
  rewrite (node_at_eq _ _ _ Hn) in Hty |- *. apply bool_decide_eq_false in Hty.
  match goal with |- context [if 0 <? ?r then ?a else s] => set (s1 := if 0 <? r then a else s) end.
  destruct Hok as [[kids Ht] Ho]. assert (Hleaf : kids p = []) by (by eapply file_no_kids).
  assert (Hr : p <> root_node s) by (destruct (tree_root _ _ _ Ht) as (? & ? & _ & ?); congruence).
  assert (exists n1, nodes s1 !! p = Some n1 /\ tree_of s1 kids /\ owned s1 /\ root_node s1 = root_node s) as (n1 & Hn1 & Ht1 & Ho1 & Er1).
  { unfold s1. destruct (0 <? vn_nlink n); [|by exists n]. eexists. split; [|split; [|split]].
    - rewrite (upd_node_nodes _ _ n) by done. apply lookup_insert_eq.
    - by eapply upd_tree.
    - by apply (upd_ok _ _ n); [split; [exists kids|]|..].
    - done. }
  destruct (detach_ok s1 kids p n1 Ht1 Ho1 Hn1 Hleaf) as (Hok2 & Er & _ & _ & k & Hk & Hk0 & _).
  cbn [snd]. destruct (_ && _); [|done]. apply (free_node_ok _ _ k); [done|done|done|congruence].
Qed.
Lemma rmdir_ok s path : vfs_ok s -> vfs_ok (snd (rmdir_node path s)).
Proof.
  intros Hok. unfold rmdir_node, vfs_root. cbv zeta. destruct (_ || _) eqn:E; [done|].
  destruct (parent_dir _ _ Hok E) as (n & Hn & _). set (p := vfs_find path s) in *.
  destruct (Z.eqb_spec p (root_node s)) as [|Hr]; [done|]. rewrite (node_at_eq _ _ _ Hn).
  destruct (Z.eqb_spec (vn_child n) 0) as [Hch|]; [|done]. cbn [negb snd]. destruct Hok as [[kids Ht] Ho].
  destruct (detach_ok s kids p n Ht Ho Hn (no_child _ _ _ _ Ht Hn Hch)) as (Hok2 & Er & _ & _ & k & Hk & Hk0 & _).
  destruct (vn_ref_count _ =? 0); [|done]. apply (free_node_ok _ _ k); [done|done|done|congruence].
Qed.

(** * Reachable states *)

(** The root of an empty VFS. *)
Lemma init_ok s :
  nodes s = ∅ -> a_ok (vheap s) -> root_node (vfs_init s) <> 0 -> vfs_ok (vfs_init s).
Proof.
  intros Hn Ho Hr. unfold vfs_init, vfs_create_node, kmalloc_node in *. cbn in *.
  pose proof (alloc_law (vheap s) VFS_NODE_SIZE Ho) as Hl.
  destruct (k_alloc VFS_NODE_SIZE (vheap s)) as [[p|] h]; cbn in *; [|done].
  destruct Hl as (Hh & Hp & _ & Hlive); [unfold VFS_NODE_SIZE; lia|].
  match goal with |- context [set_node p ?n _] => set (root := n) end.
  assert (Hone : forall x k, <[p := root]> (∅ : gmap Z vfs_node) !! x = Some k -> x = p /\ k = root).
  { intros x k. rewrite lookup_insert_Some, lookup_empty. naive_solver. }
  split.
  - exists (fun _ => []). unfold tree_of. cbn. rewrite Hn.
    split; try (intros x k [-> ->]%Hone; done); try done.
    + by rewrite lookup_insert_ne.
    + exists root. by rewrite lookup_insert_eq.
    + intros x k [-> ->]%Hone. constructor.
    + intros x k c _ Hc. by apply elem_of_nil in Hc.
    + exists (fun _ => 0%nat). intros x k [-> ->]%Hone. done.
  - split; cbn; rewrite ?Hn; [done|..].
    + intros x k [-> _]%Hone. apply Hlive. by left.
    + by intros x k [_ ->]%Hone.
    + by intros x k y k' [_ ->]%Hone.
Qed.
End Reach.

Section Steps.
Context {H X : Type} `{AllocatorLaws H} `{!FsDrivers H X}.
Implicit Types s : vfs H X.

(** The calls on a VFS without mounts, without a FAT16 volume and with the data of a
    node used by that node only.  Handles refer to allocated nodes. *)
Inductive vfs_step s : vfs H X -> Prop :=
  | step_create q nq name type : nodes s !! q = Some nq -> vn_type nq = VFS_NODE_DIRECTORY -> placed s q ->
      vfs_step s (snd (vfs_create_node q name type s))
  | step_chmod path mode : vfs_step s (snd (vfs_chmod path mode s))
  | step_chown path uid gid : vfs_step s (snd (vfs_chown path uid gid s))
  | step_ref p n : nodes s !! p = Some n -> vfs_step s (vfs_node_ref p s)
  | step_unref p n : nodes s !! p = Some n -> vfs_step s (vfs_node_unref p s)
  | step_link oldpath newpath : vn_data (node_at s (vfs_find oldpath s)) = 0 -> vfs_step s (snd (vfs_link oldpath newpath s))
  | step_symlink target path : vfs_step s (snd (vfs_symlink target path s))
  | step_unlink path : fat16_is_mounted (drivers s) = false -> vfs_step s (snd (vfs_unlink path s))
  | step_mkdir path mode : fat16_is_mounted (drivers s) = false -> vfs_step s (snd (vfs_mkdir path mode s))
  | step_rmdir path : fat16_is_mounted (drivers s) = false -> vfs_step s (snd (vfs_rmdir path s))
  | step_flock p n op pid : nodes s !! p = Some n -> vfs_step s (snd (vfs_flock p op pid s))
  | step_unlock p n pid : nodes s !! p = Some n -> vfs_step s (vfs_node_unlock_by_pid p pid s)
  | step_chdir path : vfs_step s (snd (vfs_chdir path s)).

Lemma vfs_step_ok s s' : vfs_ok s -> vfs_step s s' -> vfs_ok s'.
Proof.
  intros Hok Hs. destruct Hs.
  - destruct (vfs_create_node q name type s) as [p s'] eqn:E. by eapply create_run.
  - by apply chmod_ok.
  - by apply chown_ok.
  - by eapply ref_ok.
  - by eapply unref_ok.
  - by apply link_ok.
  - by apply symlink_ok.
  - unfold vfs_unlink. destruct path; [done|]. destruct (fat16_is_mounted _); [done|]. by apply unlink_ok.
  - unfold vfs_mkdir. destruct path; [done|]. destruct (fat16_is_mounted _); [done|]. by apply mkdir_ok.
  - unfold vfs_rmdir. destruct path; [done|]. destruct (fat16_is_mounted _); [done|]. by apply rmdir_ok.
  - by eapply flock_ok.
  - by eapply unlock_by_pid_ok.
  - by apply chdir_ok.
Qed.

Inductive vfs_reachable (s0 : vfs H X) : vfs H X -> Prop :=
  | vreach_init : nodes s0 = ∅ -> a_ok (vheap s0) -> root_node (vfs_init s0) <> 0 -> vfs_reachable s0 (vfs_init s0)
  | vreach_step s s' : vfs_reachable s0 s -> vfs_step s s' -> vfs_reachable s0 s'.

Lemma vfs_reachable_facts s0 s : vfs_reachable s0 s -> vfs_ok s.
Proof. induction 1; [by apply init_ok|by eapply vfs_step_ok]. Qed.

(** C17: in every reachable state the nodes form a tree (each node is once in the list
    of its parent, lists end, only directories have children, a node without a parent
    that is not the root has none, there are no cycles), every node and every block of
    data is an allocated block of its own, and looking up a name gives the first child
    with that name. *)
Theorem vfs_reachable_tree s0 s :
  vfs_reachable s0 s ->
  exists kids, tree_of s kids /\ owned s /\
    forall p n name, nodes s !! p = Some n -> find_child p name (length name) s = lookup_name s name (kids p).
Proof.
  intros [[kids Ht] Ho]%vfs_reachable_facts. exists kids. split; [done|]. split; [done|].
  intros p n name Hp. by eapply find_child_run.
Qed.
End Steps.
