(* ===== verification/VfsHeap.v ===== *)
(** The kernel heap as the allocator of the VFS: [kmalloc] and [kfree] of Heap.v
    satisfy the laws that the VFS relies on. *)

From S2P Require Import Prelude Mem Heap Vfs VfsReach.

(** The pointers that were handed out. *)
Definition live_ptrs (bl : list blk) : list Z :=
  map (fun b => b_addr b + sizeof_heap_block) (List.filter (fun b => negb (b_free b)) bl).

Lemma live_ptrs_app l1 l2 : live_ptrs (l1 ++ l2) = live_ptrs l1 ++ live_ptrs l2.
Proof. unfold live_ptrs. by rewrite List.filter_app, map_app. Qed.

(** The blocks of a heap are determined by its memory. *)
Lemma hchain_unique m p p' a bl bl' e nx nx' : chain m p a bl e nx -> chain m p' a bl' e nx' -> bl = bl'.
Proof.
  revert p p' a bl'. induction bl as [|b bl IH]; intros p p' a bl' Hc Hc'.
  - cbn in Hc. subst a. destruct bl' as [|b' bl']; [done|]. apply chain_bounds in Hc' as [Hl _]. cbn [length] in Hl. lia.
  - destruct bl' as [|b' bl'].
    { cbn in Hc'. subst a. apply chain_bounds in Hc as [Hl _]. cbn [length] in Hl. lia. }
    destruct Hc as (Ea & _ & (_ & Es & Ef & _) & Hc). destruct Hc' as (Ea' & _ & (_ & Es' & Ef' & _) & Hc').
    assert (b = b') as <-.
    { destruct b as [ba bs bf], b' as [ba' bs' bf']. cbn in *. subst. f_equal.
      rewrite Ef in Ef'. by destruct bf, bf'. }
    f_equal. by eapply IH.
Qed.
Lemma rep_unique {E} (h : heap E) bl bl' : heap_rep h bl -> heap_rep h bl' -> bl = bl'.
Proof. intros Hr Hr'. eapply hchain_unique; [apply (rep_chain _ _ Hr)|apply (rep_chain _ _ Hr')]. Qed.

Lemma live_merge_free bl : live_ptrs (merge_free bl) = live_ptrs bl.
Proof.
  induction bl as [|b bl IH]; [done|]. cbn [merge_free]. destruct (merge_free bl) as [|c r].
  - change (live_ptrs [b] = live_ptrs ([b] ++ bl)). by rewrite live_ptrs_app, <- IH, app_nil_r.
  - change (live_ptrs (b :: bl)) with (live_ptrs ([b] ++ bl)). rewrite live_ptrs_app, <- IH, <- live_ptrs_app.
    destruct (b_free b) eqn:Eb, (b_free c) eqn:Ec; cbn [andb]; try done.
    unfold live_ptrs. cbn. by rewrite Eb, Ec.
Qed.
Lemma live_spec_grow old new bl : live_ptrs (spec_grow old new bl) = live_ptrs bl.
Proof.
  destruct bl as [|d l _] using rev_ind; [done|]. rewrite spec_grow_snoc, !live_ptrs_app. f_equal.
  destruct (b_free d) eqn:E; unfold live_ptrs; cbn; by rewrite E.
Qed.
Lemma live_split_alloc size b : live_ptrs (split_alloc size b) = [b_addr b + sizeof_heap_block].
Proof. unfold split_alloc. by destruct (_ <? _). Qed.

Section HeapAllocator.
Context {E : Type} `{PageOps E}.
Implicit Types h : heap E.

(** No two blocks have the same address. *)
Lemma chain_nodup m p a bl e nx : chain m p a bl e nx -> NoDup (map b_addr bl).
Proof.
  revert p a. induction bl as [|b bl IH]; intros p a Hc; [constructor|]. destruct Hc as (Ea & Hs & _ & Hc).
  cbn. constructor; [|by eapply IH]. intros Hin%list_elem_of_In. apply in_map_iff in Hin as (c & Ec & Hin).
  apply chain_bounds in Hc as [_ Hb]. specialize (Hb c Hin). heap_consts. lia.
Qed.
Lemma rep_nodup h bl : heap_rep h bl -> NoDup (map b_addr bl).
Proof. intros Hr. eapply chain_nodup, (rep_chain _ _ Hr). Qed.
Lemma grow_nodup h bl new : heap_rep h bl -> NoDup (map b_addr (spec_grow (heap_end h) new bl)).
Proof.
  intros Hr. pose proof (rep_nodup h bl Hr) as Hnd. destruct bl as [|d l _] using rev_ind.
  { cbn. apply NoDup_singleton. }
  rewrite spec_grow_snoc. destruct (b_free d); rewrite map_app in *; [exact Hnd|]. cbn.
  change [b_addr d; heap_end h] with ([b_addr d] ++ [heap_end h]). rewrite app_assoc.
  apply NoDup_app. split; [exact Hnd|]. split; [|apply NoDup_singleton].
  intros x Hx ->%list_elem_of_singleton. change [b_addr d] with (map b_addr [d]) in Hx. rewrite <- map_app in Hx.
  apply list_elem_of_In, in_map_iff in Hx as (c & Ec & Hin). pose proof (rep_block_bounds _ _ _ Hr Hin). heap_consts. lia.
Qed.
Lemma live_ptrs_in bl p : In p (live_ptrs bl) <-> exists b, In b bl /\ b_free b = false /\ p = b_addr b + sizeof_heap_block.
Proof.
  unfold live_ptrs. rewrite in_map_iff. split.
  - intros (b & <- & Hb). apply filter_In in Hb as [? ?%negb_true_iff]. by exists b.
  - intros (b & Hb & Hf & ->). exists b. split; [done|]. apply filter_In. by rewrite Hf.
Qed.

(** [kmalloc] returns null when the heap cannot grow; the walks of the model never run
    out of fuel in a heap that is laid out as [heap_rep] says. *)
#[export] Instance heap_allocator : Allocator (heap E) := {
  k_alloc size h := match kmalloc size h with
                    | Some (p, h') => (if p =? 0 then None else Some p, h')
                    | None => (None, h)
                    end;
  k_free p h := match kfree p h with Some (_, h') => h' | None => h end
}.

Definition heap_live h (p : Z) : Prop := exists bl, heap_rep h bl /\ In p (live_ptrs bl).
Lemma heap_live_eq h bl p : heap_rep h bl -> heap_live h p <-> In p (live_ptrs bl).
Proof.
  intros Hr. split; [|by exists bl]. intros (bl' & Hr' & Hp). by rewrite (rep_unique h bl bl').
Qed.

(** Taking a block: a free one becomes live. *)
Lemma live_spec_alloc bl size p bl' :
  NoDup (map b_addr bl) -> spec_alloc size bl = Some (p, bl') ->
  ~ In p (live_ptrs bl) /\ forall q, In q (live_ptrs bl') <-> q = p \/ In q (live_ptrs bl).
Proof.
  intros Hnd Ha. destruct (spec_alloc_split _ _ _ _ Ha) as (l1 & b & l2 & -> & Hfit & _ & -> & ->).
  unfold fits in Hfit. apply andb_prop in Hfit as [Hb _]. split.
  - rewrite live_ptrs_in. intros (c & Hc & Hcf & Ec). assert (Ea : b_addr c = b_addr b) by lia.
    rewrite map_app in Hnd. cbn [map] in Hnd. rewrite <- Permutation_middle in Hnd. apply NoDup_cons in Hnd as [Hout _].
    apply Hout. rewrite <- map_app, list_elem_of_In, <- Ea. apply in_map.
    apply in_app_iff in Hc as [?|[->|?]]; [apply in_app_iff; by left|congruence|apply in_app_iff; by right].
  - intros q. rewrite !live_ptrs_app, live_split_alloc. change (b :: l2) with ([b] ++ l2). rewrite live_ptrs_app.
    assert (Eb : live_ptrs [b] = []) by (unfold live_ptrs; cbn; by rewrite Hb). rewrite Eb, !in_app_iff. cbn. intuition.
Qed.

Lemma heap_alloc_law h size : (exists bl, heap_rep h bl) -> 0 < size <= 0x6F000000 ->
  let '(r, h') := k_alloc size h in
  (exists bl, heap_rep h' bl) /\
  match r with
  | Some p => p <> 0 /\ ~ heap_live h p /\ forall q, heap_live h' q <-> q = p \/ heap_live h q
  | None => forall q, heap_live h' q <-> heap_live h q
  end.
Proof.
  intros [bl Hr] Hs. cbn [k_alloc heap_allocator].
  destruct (kmalloc_facts h bl size Hr ltac:(lia)) as (p & h' & -> & Hc).
  destruct (Z.eqb_spec p 0) as [->|Hp].
  - destruct Hc as (Hr' & _). split; [eauto|]. intros q. by rewrite (heap_live_eq h' bl), (heap_live_eq h bl).
  - destruct Hc as (bl' & Hr' & _ & Hc). split; [eauto|]. split; [done|].
    rewrite (heap_live_eq h bl) by done. setoid_rewrite (heap_live_eq h' bl' _ Hr'). setoid_rewrite (heap_live_eq h bl _ Hr).
    destruct Hc as [[Ha _]|[_ Ha]].
    + eapply live_spec_alloc; [by eapply rep_nodup|done].
    + pose proof (live_spec_alloc _ _ _ _ (grow_nodup h bl _ Hr) Ha) as Hl. by rewrite live_spec_grow in Hl.
Qed.
Lemma heap_free_law h p : (exists bl, heap_rep h bl) -> heap_live h p ->
  (exists bl, heap_rep (k_free p h) bl) /\ forall q, heap_live (k_free p h) q <-> heap_live h q /\ q <> p.
Proof.
  intros _ (bl & Hr & Hp). apply live_ptrs_in in Hp as (b & Hin & Hf & ->).
  destruct (in_split b bl Hin) as (l1 & l2 & Ebl).
  destruct (kfree_release h bl l1 b l2 Hr Ebl Hf) as (h' & Hk & Hr' & _).
  cbn [k_free heap_allocator]. rewrite Hk. split; [eauto|]. intros q.
  rewrite (heap_live_eq h' _ _ Hr'), (heap_live_eq h bl _ Hr). unfold spec_free. rewrite live_merge_free, !live_ptrs_in. split.
  - intros (c' & Hc' & Hcf & ->). apply in_map_iff in Hc' as (c & <- & Hc). revert Hcf.
    destruct (Z.eqb_spec (b_addr c + sizeof_heap_block) (b_addr b + sizeof_heap_block)); [done|]. intros Hcf.
    split; [by exists c|done].
  - intros ((c & Hc & Hcf & ->) & Hne). exists c. split; [|done]. apply in_map_iff. exists c. split; [|done].
    by destruct (Z.eqb_spec (b_addr c + sizeof_heap_block) (b_addr b + sizeof_heap_block)).
Qed.

#[export] Instance heap_allocator_laws : AllocatorLaws (heap E) := {
  a_ok h := exists bl, heap_rep h bl;
  a_live := heap_live;
  alloc_law := heap_alloc_law;
  free_law := heap_free_law
}.
End HeapAllocator.
