(* ===== verification/VfsProps.v ===== *)
(** What the VFS promises its callers: a relative path and the path built from it lead
    to the same node, a directory that was made is found and nothing else moves, an
    exclusive lock excludes.  And where it does not: the permission that changing the
    directory asks for, and shared locks. *)

From S2P Require Import Prelude Vfs VfsPath VfsTree VfsReach.

Section Resolve.
Context {H X : Type} `{AllocatorLaws H}.
Implicit Types s : vfs H X.

Lemma resolve_null s kids cs : tree_of s kids -> resolve cs 0 s = 0.
Proof.
  intros Ht. destruct cs; [done|]. cbn [resolve].
  unfold node_at. by rewrite lookup_total_alt, (tree_null _ _ _ Ht).
Qed.
Lemma resolve_app s kids a b cur : tree_of s kids -> resolve (a ++ b) cur s = resolve b (resolve a cur s) s.
Proof.
  intros Ht. revert cur. induction a as [|c a IH]; intros cur; [done|]. cbn [app resolve].
  destruct (negb _); [by rewrite (resolve_null _ kids)|].
  destruct (is_dot c), (is_dotdot c); try apply IH. cbv zeta. bcase; [by rewrite (resolve_null _ kids)|apply IH].
Qed.
Lemma resolve_plain s kids c cur n :
  tree_of s kids -> plain c -> nodes s !! cur = Some n -> vn_type n = VFS_NODE_DIRECTORY ->
  resolve [c] cur s = lookup_name s c (kids cur).
Proof.
  intros Ht (_ & Ed & Edd) Hn Hty. cbn [resolve]. rewrite (node_at_eq _ _ _ Hn), Hty, Ed, Edd.
  rewrite bool_decide_eq_true_2 by done. cbn [negb]. rewrite (find_child_run _ kids _ n) by done. cbv zeta. by bcase.
Qed.

(** The parent of the node a component leads to is the node it starts from. *)
Lemma resolve_parent s kids c cur q :
  tree_of s kids -> plain c -> resolve [c] cur s = q -> q <> 0 -> exists k, nodes s !! q = Some k /\ vn_parent k = cur /\ cur <> 0.
Proof.
  intros Ht Hc Hr Hq. assert (Hcur : exists n, nodes s !! cur = Some n).
  { destruct (nodes s !! cur) as [n|] eqn:E; [eauto|]. exfalso. apply Hq. rewrite <- Hr. cbn [resolve].
    unfold node_at. by rewrite lookup_total_alt, E. }
  destruct Hcur as [n Hn]. assert (Hty : vn_type n = VFS_NODE_DIRECTORY).
  { destruct (decide (vn_type n = VFS_NODE_DIRECTORY)); [done|]. exfalso. apply Hq. rewrite <- Hr. cbn [resolve].
    by rewrite (node_at_eq _ _ _ Hn), bool_decide_eq_false_2. }
  rewrite (resolve_plain _ kids _ _ n) in Hr by done. subst q.
  destruct (lookup_name_in s c (kids cur) Hq) as [Hin _].
  destruct (tree_in _ _ _ Ht _ _ _ Hn Hin) as (k & Hk & Hkp). exists k. split; [done|]. split; [done|].
  intros ->. pose proof (tree_null _ _ _ Ht). congruence.
Qed.

(** A node has one plain path from the root. *)
Lemma resolve_snoc s kids cs c :
  tree_of s kids -> Forall plain cs -> plain c -> resolve (cs ++ [c]) (root_node s) s <> 0 ->
  exists k, nodes s !! resolve (cs ++ [c]) (root_node s) s = Some k /\ vn_parent k = resolve cs (root_node s) s /\
    resolve cs (root_node s) s <> 0 /\ vn_name k = c.
Proof.
  intros Ht Hcs Hc Hr. rewrite (resolve_app _ kids) in * by done. set (cur := resolve cs (root_node s) s) in *.
  destruct (resolve_parent _ _ _ _ _ Ht Hc eq_refl Hr) as (k & Hk & Hkp & Hk0). exists k. split; [done|]. split; [done|]. split; [done|].
  destruct (resolve_placed s kids cs (root_node s) Ht (root_placed _ _ Ht) Hk0) as [[n Hn] _]. fold cur in Hn.
  assert (Hty : vn_type n = VFS_NODE_DIRECTORY).
  { destruct (decide (vn_type n = VFS_NODE_DIRECTORY)); [done|]. exfalso. apply Hr. cbn [resolve].
    by rewrite (node_at_eq _ _ _ Hn), bool_decide_eq_false_2. }
  rewrite (resolve_plain _ kids _ _ n) in Hr, Hk by done. destruct (lookup_name_in s c (kids cur) Hr) as [_ Hnm].
  unfold named in Hnm. rewrite (node_at_eq _ _ _ Hk) in Hnm. by apply bool_decide_eq_true in Hnm.
Qed.
Lemma resolve_inj s kids cs cs' :
  tree_of s kids -> Forall plain cs -> Forall plain cs' ->
  resolve cs (root_node s) s = resolve cs' (root_node s) s -> resolve cs (root_node s) s <> 0 -> cs = cs'.
Proof.
  intros Ht. destruct (tree_root _ _ _ Ht) as (nr & Hnr & Hrp & _). revert cs'.
  induction cs as [|c cs IH] using rev_ind; intros cs' Hcs Hcs' E Hr; destruct cs' as [|c' cs' _] using rev_ind; [done|..];
    rewrite ?Forall_app, ?Forall_singleton in *.
  - destruct Hcs' as [Hcs' Hc']. rewrite E in Hr. destruct (resolve_snoc _ _ _ _ Ht Hcs' Hc' Hr) as (k & Hk & Hkp & Hk0 & _).
    rewrite <- E in Hk. cbn in Hk. congruence.
  - destruct Hcs as [Hcs Hc]. destruct (resolve_snoc _ _ _ _ Ht Hcs Hc Hr) as (k & Hk & Hkp & Hk0 & _).
    rewrite E in Hk. cbn in Hk. congruence.
  - destruct Hcs as [Hcs Hc], Hcs' as [Hcs' Hc'].
    destruct (resolve_snoc _ _ _ _ Ht Hcs Hc Hr) as (k & Hk & Hkp & Hk0 & Hkn).
    rewrite E in Hr. destruct (resolve_snoc _ _ _ _ Ht Hcs' Hc' Hr) as (k' & Hk' & Hkp' & _ & Hkn').
    rewrite <- E, Hk in Hk'. injection Hk' as <-. rewrite <- Hkn, <- Hkn'. f_equal. apply IH; congruence.
Qed.

(** The stack of components leads where the walk is. *)
Lemma resolve_step s kids cs st cur :
  tree_of s kids -> Forall segment cs -> Forall plain st -> resolve st (root_node s) s = cur -> cur <> 0 ->
  resolve cs cur s <> 0 -> resolve (foldl step st cs) (root_node s) s = resolve cs cur s.
Proof.
  intros Ht. revert st cur. induction cs as [|c cs IH]; intros st cur Hseg Hst Hcur Hnz Hr; [done|].
  apply Forall_cons in Hseg as [Hc Hseg]. cbn [foldl resolve] in Hr |- *. unfold step at 2.
  destruct (negb _) eqn:Ety; [done|]. destruct (is_dot c) eqn:Ed; [by apply IH|].
  destruct (is_dotdot c) eqn:Edd.
  - assert (exists n, nodes s !! cur = Some n) as [n Hn].
    { destruct (resolve_placed s kids st (root_node s) Ht (root_placed _ _ Ht)) as [[n Hn] _]; rewrite Hcur in *; eauto. }
    rewrite (node_at_eq _ _ _ Hn) in Hr |- *. destruct st as [|x st0 _] using rev_ind.
    + cbn in Hcur. subst cur. destruct (tree_root _ _ _ Ht) as (nr & Hnr & Hrp & _). simplify_eq. rewrite Hrp in Hr |- *.
      by apply IH.
    + apply Forall_app in Hst as [Hst0 Hx]. apply Forall_inv in Hx. rewrite (resolve_app _ kids) in Hcur by done.
      destruct (resolve_parent _ _ _ _ _ Ht Hx Hcur Hnz) as (k & Hk & Hkp & Hk0). rewrite Hn in Hk. injection Hk as <-.
      rewrite Hkp in Hr |- *. destruct (Z.eqb_spec (resolve st0 (root_node s) s) 0); [done|]. cbn [negb] in Hr |- *.
      rewrite length_app, Nat.add_sub, take_app_length. by apply IH.
  - cbv zeta in Hr |- *. destruct (Z.eqb_spec (find_child cur c (length c) s) 0) as [|Hch]; [done|].
    apply IH; [done|by apply Forall_app_2; [|apply Forall_singleton]| |done|done].
    rewrite (resolve_app _ kids), Hcur by done. cbn [resolve]. rewrite Ety, Ed, Edd. cbv zeta. by bcase.
Qed.

Lemma find_path_of s kids cs : tree_of s kids -> Forall segment cs -> vfs_find (path_of cs) s = resolve cs (root_node s) s.
Proof.
  intros Ht Hcs. unfold vfs_find, vfs_find_relative.
  assert (exists r, path_of cs = 47 :: r) as [r Er] by (destruct cs; eexists; reflexivity).
  rewrite <- (components_path_of cs Hcs) at 2. rewrite Er. destruct (Z.eqb_spec (root_node s) 0) as [E|]; [|done].
  destruct (tree_root _ _ _ Ht) as (n & Hn & _). rewrite E in Hn. by rewrite (tree_null _ _ _ Ht) in Hn.
Qed.

(** C38: walking a path from the current directory and looking up the absolute path that
    [vfs_build_path] makes of it give the same node, when the walk succeeds and never is
    more than 32 names below the root (a deeper name is dropped from the built path:
    [vfs_build_path_drops]): below that bound dropping "." and ".." textually is right in
    this tree. *)
Theorem vfs_build_path_resolves s cs path cap p :
  vfs_ok s -> Forall plain cs -> path <> [] ->
  depth_ok [] (components (absolute (path_of cs) path)) ->
  vfs_find (path_of cs) s <> 0 ->
  vfs_find_relative (vfs_find (path_of cs) s) path s <> 0 ->
  vfs_build_path (path_of cs) path cap = Some p ->
  vfs_find p s = vfs_find_relative (vfs_find (path_of cs) s) path s.
Proof.
  intros [[kids Ht] _] Hcs Hpath Hlen Hd Hq Hb. rewrite build_path_eq in Hb. destruct (_ && _); [|done].
  injection Hb as <-. destruct (build_stack_ok (path_of cs) path) as [Hpl _].
  rewrite (find_path_of s kids) by (done || by apply plain_segments).
  rewrite (find_path_of s kids) in Hd, Hq |- * by (done || by apply plain_segments).
  rewrite build_stack_normal by (done || (destruct cs; discriminate)).
  destruct (tree_root _ _ _ Ht) as (nr & Hnr & _).
  assert (Hr0 : root_node s <> 0) by (intros E; rewrite E, (tree_null _ _ _ Ht) in Hnr; done).
  unfold vfs_find_relative in *. destruct path as [|c path]; [done|].
  destruct (Z.eqb_spec (root_node s) 0); [done|]. unfold normal_form.
  destruct (Z.eqb_spec c 47) as [->|Hc]; cbn [orb] in Hq |- *.
  - by apply (resolve_step s kids); [|apply components_ok|..].
  - destruct (Z.eqb_spec (resolve cs (root_node s) s) 0); [done|].
    assert (Ea : absolute (path_of cs) (c :: path) = path_of cs ++ 47 :: c :: path) by (unfold absolute; repeat case_match; congruence || done).
    rewrite Ea. unfold components at 1. rewrite components_join. change (components_from [] (path_of cs)) with (components (path_of cs)).
    rewrite (components_path_of cs (plain_segments cs Hcs)), foldl_app, (step_plain cs [] Hcs).
    apply (resolve_step s kids); [done|apply components_ok|done..].
Qed.
End Resolve.

(** * Making a directory *)

Lemma last_slash_app i last a b :
  last_slash_from i last (a ++ b) = last_slash_from (i + len a) (last_slash_from i last a) b.
Proof.
  revert i last. induction a as [|x a IH]; intros i last; cbn [app last_slash_from].
  - by rewrite Z.add_0_r.
  - rewrite IH. f_equal. unfold len. cbn. lia.
Qed.
Lemma last_slash_none i last b : 47 ∉ b -> last_slash_from i last b = last.
Proof.
  revert i last. induction b as [|x b IH]; intros i last Hb; [done|]. apply not_elem_of_cons in Hb as [Hx Hb].
  cbn [last_slash_from]. rewrite IH by done. by bcase; [lia|].
Qed.
Lemma render_snoc cs name : render (cs ++ [name]) = render cs ++ 47 :: name.
Proof. unfold render. rewrite map_app, concat_app. cbn. by rewrite app_nil_r. Qed.
Lemma path_of_snoc cs name : path_of (cs ++ [name]) = render cs ++ 47 :: name.
Proof. rewrite <- render_snoc. by destruct cs. Qed.

(** A path of at most 63 bytes is split at its last slash. *)
Lemma split_parent_path_of cs name :
  Forall segment cs -> segment name -> len (path_of (cs ++ [name])) <= 63 ->
  split_parent (path_of (cs ++ [name])) = (path_of cs, name).
Proof.
  intros Hcs [Hne Hn] Hlen. rewrite path_of_snoc in *. unfold split_parent, last_slash, copy_name.
  change (Z.to_nat (VFS_NAME_MAX - 1)) with 63%nat. unfold len in Hlen. rewrite length_app in Hlen. cbn in Hlen.
  rewrite (take_ge (render cs ++ _)) by (rewrite length_app; cbn; lia).
  rewrite last_slash_app. cbn [last_slash_from]. rewrite Z.eqb_refl, last_slash_none, Z.add_0_l by done.
  destruct cs as [|c cs].
  - cbn [render map concat app len]. change (len []) with 0. cbn [Z.eqb]. by rewrite take_ge by lia.
  - set (r := render (c :: cs)) in *. assert (Hr : (1 <= length r)%nat) by (change r with (47 :: c ++ render cs); cbn [length]; lia).
    destruct (Z.eqb_spec (len r) 0) as [E|_]; [unfold len in E; lia|].
    unfold len. rewrite Nat2Z.id, take_app_length. f_equal.
    rewrite drop_app_ge by lia. replace (length r + 1 - length r)%nat with 1%nat by lia.
    change (drop 1 (47 :: name)) with name. by rewrite take_ge by lia.
Qed.

Section Mkdir.
Context {H X : Type} `{AllocatorLaws H}.
Implicit Types s : vfs H X.

Lemma create_tree s q nq name type p s' kids :
  vfs_ok s -> tree_of s kids -> nodes s !! q = Some nq -> vn_type nq = VFS_NODE_DIRECTORY -> placed s q ->
  vfs_create_node q name type s = (p, s') -> p <> 0 -> tree_of s' (kids_insert kids q p).
Proof.
  intros Hok Ht Hq Hdir Hpl Hrun Hp.
  destruct (create_run _ _ _ _ _ _ _ Hok Hq Hdir Hpl Hrun) as ([[k' Ht'] _] & Er & _ & _ & Hc).
  destruct (Z.eqb_spec p 0) as [|_]; [done|]. destruct Hc as (Hnone & n & _ & _ & Hpar & _ & _ & Hch & Hsib & Em).
  assert (Hn : nodes s' !! p = Some n) by (rewrite Em, lookup_insert_ne by congruence; apply lookup_insert_eq).
  pose proof (tree_mounts _ _ _ Ht' _ _ Hn) as Hm. unfold tree_of. rewrite Em, Er. by apply tree_insert; try apply Hpl.
Qed.

(** After a change that keeps names, types and the nodes found, every path that led to
    a node still leads to it. *)
Lemma resolve_keeps s s' kids kids' cs cur :
  tree_of s kids -> tree_of s' kids' ->
  (forall x n, nodes s !! x = Some n -> exists n', nodes s' !! x = Some n' /\ vn_type n' = vn_type n /\ vn_parent n' = vn_parent n) ->
  (forall x n name, nodes s !! x = Some n -> lookup_name s name (kids x) <> 0 ->
     lookup_name s' name (kids' x) = lookup_name s name (kids x)) ->
  placed s cur -> resolve cs cur s <> 0 -> resolve cs cur s' = resolve cs cur s.
Proof.
  intros Ht Ht' Hkeep Hname. revert cur. induction cs as [|c cs IH]; intros cur Hpl Hr; [done|].
  cbn [resolve] in Hr |- *. pose proof Hpl as [[n Hn] _]. destruct (Hkeep _ _ Hn) as (n' & Hn' & Et & Ep).
  rewrite (node_at_eq _ _ _ Hn) in Hr |- *. rewrite (node_at_eq _ _ _ Hn'), Et, Ep.
  destruct (negb (bool_decide _)); [done|]. destruct (is_dot c); [by apply IH|]. destruct (is_dotdot c).
  - apply IH; [|done]. destruct (Z.eqb_spec (vn_parent n) 0); [done|]. by eapply placed_parent.
  - cbv zeta in *. rewrite (find_child_run s kids cur n c Ht Hn) in Hr |- *. rewrite (find_child_run s' kids' cur n' c Ht' Hn').
    assert (Hc : lookup_name s c (kids cur) <> 0) by (intros E; by rewrite E in Hr).
    rewrite (Hname _ n) by done. apply Z.eqb_neq in Hc as Ec. rewrite Ec in Hr |- *. apply IH; [|done].
    eapply placed_child; [done|done|]. by apply lookup_name_in.
Qed.

Lemma lookup_name_cons s name x l : lookup_name s name (x :: l) = if named s name x then x else lookup_name s name l.
Proof.
  unfold lookup_name. destruct (named s name x) eqn:E.
  - by rewrite filter_cons_True.
  - rewrite filter_cons_False; [done|congruence].
Qed.
Lemma lookup_name_ext s s' name l :
  (forall x, x ∈ l -> named s' name x = named s name x) -> lookup_name s' name l = lookup_name s name l.
Proof.
  induction l as [|x l IH]; intros Hl; [done|]. rewrite !lookup_name_cons, (Hl x) by left.
  rewrite IH; [done|]. intros y Hy. apply Hl. by right.
Qed.

(** The state after a node was put into a directory that had no such name. *)
Lemma create_lookup s q nq name type p s' kids :
  vfs_ok s -> tree_of s kids -> nodes s !! q = Some nq -> vn_type nq = VFS_NODE_DIRECTORY -> placed s q ->
  vfs_create_node q name type s = (p, s') -> p <> 0 -> copy_name name = name -> lookup_name s name (kids q) = 0 ->
  lookup_name s' name (kids_insert kids q p q) = p /\
  (forall x n, nodes s !! x = Some n -> exists n', nodes s' !! x = Some n' /\ vn_type n' = vn_type n /\ vn_parent n' = vn_parent n) /\
  (forall x n nm, nodes s !! x = Some n -> lookup_name s nm (kids x) <> 0 ->
     lookup_name s' nm (kids_insert kids q p x) = lookup_name s nm (kids x)) /\
  (forall x n nm, nodes s !! x = Some n -> lookup_name s nm (kids x) = 0 ->
     lookup_name s' nm (kids_insert kids q p x) <> 0 -> x = q /\ nm = name).
Proof.
  intros Hok Ht Hq Hdir Hpl Hrun Hp Hcopy Hnew.
  destruct (create_run _ _ _ _ _ _ _ Hok Hq Hdir Hpl Hrun) as (_ & _ & _ & _ & Hc).
  destruct (Z.eqb_spec p 0) as [|_]; [done|]. destruct Hc as (Hnone & n & Hname & _ & _ & _ & _ & _ & _ & Em).
  assert (Hqp : q <> p) by congruence.
  assert (Hold : forall x k, nodes s !! x = Some k -> exists k', nodes s' !! x = Some k' /\ vn_type k' = vn_type k /\
            vn_parent k' = vn_parent k /\ vn_name k' = vn_name k).
  { intros x k Hx. rewrite Em. destruct (decide (x = q)) as [->|].
    - eexists. rewrite lookup_insert_eq. split; [done|]. rewrite Hq in Hx. by injection Hx as <-.
    - exists k. rewrite !lookup_insert_ne; [done|congruence|congruence]. }
  assert (Hnm : forall x k nm, nodes s !! x = Some k -> named s' nm x = named s nm x).
  { intros x k nm Hx. destruct (Hold _ _ Hx) as (k' & Hk' & _ & _ & En). unfold named.
    by rewrite (node_at_eq _ _ _ Hx), (node_at_eq _ _ _ Hk'), En. }
  assert (Hext : forall x k nm, nodes s !! x = Some k -> lookup_name s' nm (kids x) = lookup_name s nm (kids x)).
  { intros x k nm Hx. apply lookup_name_ext. intros y Hy. destruct (tree_in _ _ _ Ht _ _ _ Hx Hy) as (ky & Hky & _).
    by eapply Hnm. }
  assert (Hself : forall nm, named s' nm p = bool_decide (nm = name)).
  { intros nm. unfold named. rewrite (node_at_eq s' p n), Hname, Hcopy; [done|].
    rewrite Em, lookup_insert_ne by done. apply lookup_insert_eq. }
  assert (Etop : kids_insert kids q p q = p :: kids q) by (unfold kids_insert; by rewrite Z.eqb_refl).
  split_and!.
  - rewrite Etop, lookup_name_cons, Hself. by rewrite bool_decide_eq_true_2.
  - intros x k Hx. destruct (Hold _ _ Hx) as (k' & ? & ? & ? & _). by exists k'.
  - intros x k nm Hx Hnz. destruct (decide (x = q)) as [->|Hxq].
    + rewrite Etop, lookup_name_cons, Hself, (Hext q nq) by done. case_bool_decide; [congruence|done].
    + unfold kids_insert. destruct (Z.eqb_spec x q); [done|]. destruct (Z.eqb_spec x p); [congruence|]. by eapply Hext.
  - intros x k nm Hx Hz Hnz. destruct (decide (x = q)) as [->|Hxq].
    + split; [done|]. rewrite Etop, lookup_name_cons, Hself, (Hext q nq) in Hnz by done. by case_bool_decide.
    + unfold kids_insert in Hnz. destruct (Z.eqb_spec x q); [done|]. destruct (Z.eqb_spec x p); [congruence|].
      by rewrite (Hext _ k) in Hnz.
Qed.
(** A plain path that leads somewhere new goes through the new node. *)
Lemma create_paths s q nq name type p s' kids cs cur :
  vfs_ok s -> tree_of s kids -> nodes s !! q = Some nq -> vn_type nq = VFS_NODE_DIRECTORY -> placed s q ->
  vfs_create_node q name type s = (p, s') -> p <> 0 -> copy_name name = name -> lookup_name s name (kids q) = 0 ->
  placed s cur -> Forall plain cs -> resolve cs cur s = 0 -> resolve cs cur s' <> 0 ->
  exists pre, cs = pre ++ [name] /\ resolve pre cur s = q.
Proof.
  intros Hok Ht Hq Hdir Hpl Hrun Hp Hcopy Hnew.
  pose proof (create_tree _ _ _ _ _ _ _ _ Hok Ht Hq Hdir Hpl Hrun Hp) as Ht1.
  destruct (create_lookup _ _ _ _ _ _ _ _ Hok Ht Hq Hdir Hpl Hrun Hp Hcopy Hnew) as (Htop & Hkeep & Hlook & Honly).
  destruct (create_run _ _ _ _ _ _ _ Hok Hq Hdir Hpl Hrun) as (_ & _ & _ & _ & Hc).
  destruct (Z.eqb_spec p 0) as [|_]; [done|]. destruct Hc as (Hnone & np & _ & _ & _ & _ & _ & _ & _ & Em).
  assert (Hnp : nodes s' !! p = Some np) by (rewrite Em, lookup_insert_ne by congruence; apply lookup_insert_eq).
  revert cur. induction cs as [|c cs IH]; intros cur Hcur Hcs Hz Hnz.
  { cbn in Hz. subst cur. destruct Hcur as [[k Hk] _]. by rewrite (tree_null _ _ _ Ht) in Hk. }
  apply Forall_cons in Hcs as [(Hseg & Ed & Edd) Hcs]. pose proof Hcur as [[n Hn] _]. destruct (Hkeep _ _ Hn) as (n' & Hn' & Ety & _).
  cbn [resolve] in Hz, Hnz. rewrite (node_at_eq _ _ _ Hn) in Hz. rewrite (node_at_eq _ _ _ Hn'), Ety in Hnz.
  destruct (negb (bool_decide _)) eqn:Edir; [done|]. rewrite Ed, Edd in Hz, Hnz. cbv zeta in Hz, Hnz.
  rewrite (find_child_run s kids cur n c Ht Hn) in Hz. rewrite (find_child_run s' _ cur n' c Ht1 Hn') in Hnz.
  destruct (Z.eqb_spec (lookup_name s c (kids cur)) 0) as [E0|E0].
  - destruct (Z.eqb_spec (lookup_name s' c (kids_insert kids q p cur)) 0) as [|E1]; [done|].
    destruct (Honly _ _ _ Hn E0 E1) as [-> ->]. rewrite Htop in Hnz. destruct cs as [|d cs]; [by exists []|]. exfalso. apply Hnz.
    apply Forall_cons in Hcs as [(_ & Ed' & Edd') _]. cbn [resolve]. rewrite (node_at_eq _ _ _ Hnp).
    destruct (negb (bool_decide (vn_type np = _))); [done|]. rewrite Ed', Edd'. cbv zeta. rewrite (find_child_run s' _ p np d Ht1 Hnp).
    unfold kids_insert. rewrite Z.eqb_refl. by destruct (Z.eqb_spec p q); [congruence|].
  - rewrite (Hlook _ n) in Hnz by done. apply Z.eqb_neq in E0 as E0'. rewrite E0' in Hnz.
    destruct (IH (lookup_name s c (kids cur))) as (pre & -> & Epre); [|done..|].
    { eapply placed_child; [done|done|]. by apply lookup_name_in. }
    exists (c :: pre). split; [done|]. cbn [resolve]. rewrite (node_at_eq _ _ _ Hn), Edir, Ed, Edd. cbv zeta.
    by rewrite (find_child_run s kids cur n c Ht Hn), E0'.
Qed.
End Mkdir.

(** States whose nodes have the same names and places. *)
Section Alike.
Context {H X : Type}.
Implicit Types s : vfs H X.
Definition alike s s' : Prop :=
  walk_fuel s' = walk_fuel s /\ root_node s' = root_node s /\
  forall x, same_shape (node_at s x) (node_at s' x) /\ vn_name (node_at s' x) = vn_name (node_at s x).

Lemma find_child_alike s s' p name n : alike s s' -> find_child p name n s' = find_child p name n s.
Proof.
  intros (Ef & _ & Ha). unfold find_child. rewrite Ef. destruct (Ha p) as [(_ & _ & -> & _) _].
  generalize (vn_child (node_at s p)), (walk_fuel s). clear Ef. intros c f. revert c. induction f as [|f IH]; intros c; [done|]. cbn [find_child_loop].
  destruct (Ha c) as [(_ & _ & _ & -> & ->) ->]. by rewrite IH.
Qed.
Lemma resolve_alike s s' cs cur : alike s s' -> resolve cs cur s' = resolve cs cur s.
Proof.
  intros Ha. pose proof Ha as (_ & _ & Hn). revert cur. induction cs as [|c cs IH]; intros cur; [done|]. cbn [resolve].
  destruct (Hn cur) as [(-> & -> & _) _]. rewrite (find_child_alike s s') by done. cbv zeta. by rewrite !IH.
Qed.
Lemma find_alike s s' path : alike s s' -> vfs_find path s' = vfs_find path s.
Proof.
  intros Ha. pose proof Ha as (_ & Er & _). unfold vfs_find, vfs_find_relative. rewrite Er. destruct path; [done|].
  by rewrite (resolve_alike s s').
Qed.
Lemma upd_alike s p n f :
  nodes s !! p = Some n -> same_shape n (f n) -> vn_name (f n) = vn_name n -> alike s (upd_node p f s).
Proof.
  intros Hp Hsh En. split; [|split; [done|]].
  - unfold walk_fuel. rewrite (upd_node_nodes _ _ n) by done. by rewrite map_size_insert, Hp.
  - intros x. unfold node_at. rewrite (upd_node_nodes _ _ n) by done. destruct (decide (x = p)) as [->|].
    + rewrite (lookup_total_correct _ _ _ Hp), (lookup_total_correct (<[p := f n]> (nodes s)) p (f n)); [done|].
      apply lookup_insert_eq.
    + by rewrite lookup_total_insert_ne.
Qed.
End Alike.

Section MkdirSpec.
Context {H X : Type} `{AllocatorLaws H} `{!FsDrivers H X}.
Implicit Types s : vfs H X.

Definition dir_mode (mode umask : Z) : Z := masked_bits (if mode =? 0 then 0x1FF else mode) umask.

Lemma mkdir_success s cs name mode s' :
  vfs_ok s -> fat16_is_mounted (drivers s) = false -> Forall plain cs -> plain name ->
  len (path_of (cs ++ [name])) <= 63 ->
  vfs_mkdir (path_of (cs ++ [name])) mode s = (0, s') ->
  let q := vfs_find (path_of cs) s in
  exists nq p s1, nodes s !! q = Some nq /\ vn_type nq = VFS_NODE_DIRECTORY /\ placed s q /\
    find_child q name (length name) s = 0 /\ p <> 0 /\ vfs_create_node q name VFS_NODE_DIRECTORY s = (p, s1) /\
    s' = upd_node p (fun n => n <| vn_mode := dir_mode mode (current_umask s1) |>) s1.
Proof.
  intros Hok Hfat Hcs Hname Hlen Hrun. unfold vfs_mkdir in Hrun. rewrite Hfat in Hrun.
  assert (Epath : exists c r, path_of (cs ++ [name]) = c :: r) by (rewrite path_of_snoc; destruct (render cs); eauto).
  destruct Epath as (c0 & r0 & Epath). rewrite Epath in Hrun. cbv iota in Hrun. rewrite <- Epath in Hrun.
  unfold mkdir_node in Hrun. pose proof Hname as [Hsn _].
  rewrite split_parent_path_of in Hrun by (done || by apply plain_segments).
  destruct name as [|ch nm] eqn:En; [by destruct Hsn|]. rewrite <- En in *. cbv zeta in Hrun |- *.
  destruct (_ || _) eqn:E; [done|]. destruct (parent_dir _ _ Hok E) as (nq & Hq & Hdir & Hpl).
  destruct (Z.eqb_spec (find_child (vfs_find (path_of cs) s) name (length name) s) 0) as [Hnew|]; [|done]. cbn [negb] in Hrun.
  destruct (vfs_create_node _ name _ s) as [p s1] eqn:Ec. destruct (Z.eqb_spec p 0) as [|Hp]; [done|].
  injection Hrun as <-. exists nq, p, s1. do 6 (split; [done|]). unfold dir_mode. by destruct (mode =? 0).
Qed.

(** C36: while no FAT16 volume is mounted (a mounted one gets the whole call), a successful
    [vfs_mkdir] of an absolute path of at most 63 bytes, in a tree without mount points,
    makes an empty directory with the requested mode under the umask; looking the path up
    gives it; every path that led to a node before leads to the same node; and a path of
    plain names other than the new one leads where it led, nowhere included. *)
Theorem vfs_mkdir_spec s cs name mode s' :
  vfs_ok s -> fat16_is_mounted (drivers s) = false -> Forall plain cs -> plain name ->
  len (path_of (cs ++ [name])) <= 63 ->
  vfs_mkdir (path_of (cs ++ [name])) mode s = (0, s') ->
  let p := vfs_find (path_of (cs ++ [name])) s' in
  nodes s !! p = None /\
  (exists n, nodes s' !! p = Some n /\ vn_type n = VFS_NODE_DIRECTORY /\ vn_name n = name /\ vn_child n = 0 /\
     vn_parent n = vfs_find (path_of cs) s /\ vn_mode n = dir_mode mode (current_umask s)) /\
  (forall path, vfs_find path s <> 0 -> vfs_find path s' = vfs_find path s) /\
  forall cs', Forall plain cs' -> cs' <> cs ++ [name] -> vfs_find (path_of cs') s' = vfs_find (path_of cs') s.
Proof.
  intros Hok Hfat Hcs Hname Hlen Hrun.
  destruct (mkdir_success _ _ _ _ _ Hok Hfat Hcs Hname Hlen Hrun) as (nq & p & s1 & Hq & Hdir & Hpl & Hnew & Hp & Ec & Es').
  set (q := vfs_find (path_of cs) s) in *. pose proof Hok as [[kids Ht] _].
  assert (Hcopy : copy_name name = name).
  { unfold copy_name. apply take_ge. rewrite path_of_snoc in Hlen. unfold len in Hlen. rewrite length_app in Hlen.
    cbn in Hlen. change (Z.to_nat (VFS_NAME_MAX - 1)) with 63%nat. lia. }
  rewrite (find_child_run s kids q nq name Ht Hq) in Hnew.
  destruct (create_run _ _ _ _ _ _ _ Hok Hq Hdir Hpl Ec) as (_ & Er & Ecur & _ & Hc).
  destruct (Z.eqb_spec p 0) as [|_]; [done|]. destruct Hc as (Hnone & n & Hnn & Hnt & Hnp & _ & _ & Hch & _ & Em).
  assert (Hn : nodes s1 !! p = Some n) by (rewrite Em, lookup_insert_ne by congruence; apply lookup_insert_eq).
  pose proof (create_tree _ _ _ _ _ _ _ _ Hok Ht Hq Hdir Hpl Ec Hp) as Ht1.
  destruct (create_lookup _ _ _ _ _ _ _ _ Hok Ht Hq Hdir Hpl Ec Hp Hcopy Hnew) as (Htop & Hkeep & Hlook & _).
  assert (Ha : alike s1 s') by (rewrite Es'; by apply (upd_alike _ _ n)).
  (* paths that led to a node *)
  assert (Hres : forall cs' cur, placed s cur -> resolve cs' cur s <> 0 -> resolve cs' cur s1 = resolve cs' cur s).
  { intros cs' cur. by apply (resolve_keeps s s1 kids (kids_insert kids q p)). }
  pose proof (root_placed s kids Ht) as Hroot.
  assert (Eq : resolve cs (root_node s) s = q) by (unfold q; by rewrite (find_path_of s kids) by (done || by apply plain_segments)).
  assert (Hq0 : q <> 0) by (intros E0; rewrite E0, (tree_null _ _ _ Ht) in Hq; done).
  assert (Hfind : vfs_find (path_of (cs ++ [name])) s' = p).
  { rewrite (find_alike s1 s') by done.
    rewrite (find_path_of s1 _ _ Ht1) by (apply Forall_app_2; [by apply plain_segments|apply Forall_singleton, Hname]).
    rewrite (resolve_app s1 _ _ _ _ Ht1), Er.
    rewrite (Hres cs (root_node s)), Eq by (done || by rewrite Eq).
    destruct (Hkeep _ _ Hq) as (nq' & Hq' & Ety & _). by rewrite (resolve_plain s1 _ _ _ nq') by (done || congruence). }
  cbv zeta. rewrite Hfind. split; [done|]. split_and!.
  - rewrite Es'. eexists. rewrite (upd_node_nodes _ _ n), lookup_insert_eq by done. split; [done|].
    split; [exact Hnt|]. split; [etrans; [exact Hnn|done]|]. split; [exact Hch|]. split; [exact Hnp|].
    change (dir_mode mode (current_umask s1) = dir_mode mode (current_umask s)). unfold current_umask. by rewrite Ecur.
  - intros path Hpath. rewrite (find_alike s1 s') by done. unfold vfs_find, vfs_find_relative in *. rewrite Er.
    destruct path as [|c path]; [done|]. destruct (root_node s =? 0); [done|].
    destruct (_ || _); by apply Hres.
  - intros cs' Hcs' Hne. rewrite (find_alike s1 s') by done. rewrite (find_path_of s1 _ _ Ht1), (find_path_of s kids _ Ht), Er by by apply plain_segments.
    destruct (decide (resolve cs' (root_node s) s = 0)) as [E0|]; [|by apply Hres].
    destruct (decide (resolve cs' (root_node s) s1 = 0)) as [|E1]; [congruence|].
    destruct (create_paths _ _ _ _ _ _ _ _ _ _ Hok Ht Hq Hdir Hpl Ec Hp Hcopy Hnew Hroot Hcs' E0 E1) as (pre & -> & Epre).
    exfalso. apply Hne. f_equal. apply Forall_app in Hcs' as [Hpre _]. apply (resolve_inj s kids); congruence.
Qed.
End MkdirSpec.

(** * Locks *)

Definition holds_ex (n : vfs_node) (pid : Z) : Prop := vn_lock_type n = LOCK_EX /\ vn_lock_owner_pid n = pid.
(** What another process does to a lock: requests, and the unlocking when it closes the file. *)
Inductive lock_event := Request (op pid : Z) | Close (pid : Z).
Definition event_pid (e : lock_event) : Z := match e with Request _ pid => pid | Close pid => pid end.
Definition lock_event_run (n : vfs_node) (e : lock_event) : vfs_node :=
  match e with Request op pid => snd (flock_node op pid n) | Close pid => unlock_by_pid pid n end.

Lemma flock_other n pid op q :
  holds_ex n pid -> pid <> 0 -> q <> pid ->
  flock_node op q n = (if flag op LOCK_UN then 0 else -1, n).
Proof.
  intros [Ht Ho] Hp Hq. unfold flock_node. rewrite Ht, Ho, Z.eqb_refl. cbn [andb].
  destruct (Z.eqb_spec pid q); [congruence|]. destruct (Z.eqb_spec pid 0); [done|]. cbn [orb negb andb].
  by destruct (flag op LOCK_UN), (flag op LOCK_SH), (flag op LOCK_EX).
Qed.
Lemma flock_acquire n pid n' : flock_node LOCK_EX pid n = (0, n') -> holds_ex n' pid.
Proof.
  unfold flock_node. change (flag LOCK_EX LOCK_UN) with false. change (flag LOCK_EX LOCK_SH) with false.
  change (flag LOCK_EX LOCK_EX) with true. cbv iota.
  match goal with |- context [if ?b then (-1, n) else _] => destruct b end; [done|]. by intros [= <-].
Qed.

(** once a process has an exclusive lock, whatever the other processes do, asking for
    locks, releasing them or closing the file, leaves the lock as it is, and each of
    their requests for a lock fails. *)
Theorem vfs_flock_exclusive n pid n' es :
  flock_node LOCK_EX pid n = (0, n') -> pid <> 0 -> Forall (fun e => event_pid e <> pid) es ->
  foldl lock_event_run n' es = n' /\ holds_ex n' pid /\
  forall op q, q <> pid -> flag op LOCK_UN = false -> flock_node op q n' = (-1, n').
Proof.
  intros Hl%flock_acquire Hp Hes. split; [|split; [done|]].
  - induction es as [|e es IH]; [done|]. apply Forall_cons in Hes as [He Hes]. cbn [foldl].
    assert (E : lock_event_run n' e = n'); [|rewrite E; by apply IH].
    destruct e as [op q|q]; cbn in He |- *; [by rewrite (flock_other n' pid)|].
    unfold unlock_by_pid. destruct Hl as [-> ->]. rewrite Z.eqb_refl. by destruct (Z.eqb_spec pid q).
  - intros op q Hq Hop. rewrite (flock_other n' pid) by done. by rewrite Hop.
Qed.

Lemma vfs_flock_exclusive_witness :
  let n' := zero_node <| vn_lock_type := LOCK_EX |> <| vn_lock_count := 1 |> <| vn_lock_owner_pid := 7 |> in
  flock_node LOCK_EX 7 zero_node = (0, n') /\
  foldl lock_event_run n' [Request LOCK_UN 8; Close 8; Request LOCK_SH 9] = n' /\
  flock_node LOCK_SH 9 n' = (-1, n').
Proof.
  intros n'. split; [reflexivity|].
  destruct (vfs_flock_exclusive zero_node 7 n' [Request LOCK_UN 8; Close 8; Request LOCK_SH 9]) as (H1 & _ & H2);
    [reflexivity|lia|by repeat (apply Forall_cons; split)|].
  split; [exact H1|]. by apply H2.
Defined.

(** A shared lock is lost when another process, one that never locked the file,
    closes it: a third process then gets the exclusive lock while the first still reads
    under its shared lock. *)
Theorem vfs_flock_shared_lost n a b c :
  vn_lock_type n = 0 -> vn_lock_count n = 0 ->
  let n1 := snd (flock_node LOCK_SH a n) in
  fst (flock_node LOCK_SH a n) = 0 /\ fst (flock_node LOCK_EX c (unlock_by_pid b n1)) = 0.
Proof.
  intros Ht Hc. unfold flock_node at 1 2. cbn [flag Z.land LOCK_SH LOCK_UN]. rewrite Ht, Hc. split; [done|].
  unfold unlock_by_pid, drop_shared. done.
Qed.

Lemma vfs_flock_shared_lost_witness :
  fst (flock_node LOCK_EX 3 (unlock_by_pid 2 (snd (flock_node LOCK_SH 1 zero_node)))) = 0.
Proof. exact (proj2 (vfs_flock_shared_lost zero_node 1 2 3 eq_refl eq_refl)). Defined.

(** * Changing the directory *)

Section Chdir.
Context {H X : Type}.
Implicit Types s : vfs H X.

Lemma ixusr_shifted mode k : 0 <= mode <= 0x1FF -> 3 <= k -> Z.land (Z.shiftr mode k) S_IXUSR =? S_IXUSR = false.
Proof.
  intros Hm Hk. apply Z.eqb_neq. intros E.
  assert (Ht : Z.testbit (Z.land (Z.shiftr mode k) S_IXUSR) 6 = true) by (by rewrite E).
  rewrite Z.land_spec, Z.shiftr_spec in Ht by lia. apply andb_prop in Ht as [Ht _].
  rewrite Z.bits_above_log2 in Ht; [done|lia|]. pose proof (Z.log2_le_mono mode 0x1FF). change (Z.log2 0x1FF) with 8 in *. lia.
Qed.

(** a process that is not root never changes into a directory of its own or of its
    group, whatever the mode: the permission is tested with the bit 0100, which the
    test expects shifted down, as 1. *)
Theorem vfs_chdir_owner_denied s path task p n :
  current s = Some task -> t_uid task <> 0 -> vfs_build_path (t_cwd task) path 64 = Some p ->
  nodes s !! vfs_find p s = Some n -> 0 <= vn_mode n <= 0x1FF ->
  vn_uid n = t_uid task \/ vn_gid n = t_gid task ->
  vfs_chdir path s = (-1, s).
Proof.
  intros Hc Hu Hb Hn Hm Hown. unfold vfs_chdir. rewrite Hc, Hb. cbv zeta.
  destruct (_ || _); [done|]. unfold node_at. rewrite (lookup_total_correct _ _ _ Hn). unfold vfs_check_permission.
  destruct (Z.eqb_spec (t_uid task) 0); [done|].
  destruct (Z.eqb_spec (vn_uid n) (t_uid task)); [by rewrite ixusr_shifted by lia|].
  destruct (Z.eqb_spec (vn_gid n) (t_gid task)); [by rewrite ixusr_shifted by lia|]. tauto.
Qed.
End Chdir.
