(* ===== verification/VfsDemo.v ===== *)
(** The VFS evaluated on concrete states: an allocator that hands out increasing
    addresses, no file system drivers, and a small tree. *)

From S2P Require Import Prelude Vfs VfsPath VfsTree VfsReach VfsProps.

(** * An allocator for evaluation *)

(** The next address and the live blocks. *)
Definition bump : Type := Z * list Z.
#[export] Instance bump_allocator : Allocator bump := {
  k_alloc size h := (Some (fst h), (fst h + 512, fst h :: snd h));
  k_free p h := (fst h, filter (fun q => q <> p) (snd h))
}.
#[export] Instance bump_laws : AllocatorLaws bump.
Proof.
  refine {| a_ok h := 4096 <= fst h /\ Forall (fun q => 4096 <= q < fst h) (snd h); a_live h p := p ∈ snd h |}.
  - intros [n l] size [Hn Hl] _. cbn in *. split; [split; [lia|]|split; [lia|split]].
    + apply Forall_cons. split; [lia|]. eapply List.Forall_impl; [|exact Hl]. intros; cbn in *; lia.
    + intros Hin. rewrite Forall_forall in Hl. specialize (Hl n Hin). lia.
    + intros q. apply elem_of_cons.
  - intros [n l] p [Hn Hl] Hp. cbn in *. split; [split; [done|]|].
    + apply Forall_forall. intros q [_ Hq]%list_elem_of_filter. rewrite Forall_forall in Hl. by apply Hl.
    + intros q. rewrite list_elem_of_filter. tauto.
Defined.

(** No volume is mounted and no node has functions of its own. *)
#[export] Instance no_drivers : FsDrivers bump unit := {|
  call_read _ _ _ _ s := (0, [], s);
  call_write _ _ _ _ s := (0, s);
  call_readdir _ _ _ s := (0, None, s);
  call_truncate _ _ _ s := (-1, s);
  fat16_is_mounted _ := false;
  fat16_vfs_unlink _ s := (-1, s);
  fat16_vfs_mkdir _ _ s := (-1, s);
  fat16_vfs_rmdir _ s := (-1, s);
  ext2_mount_at _ _ s := (false, s)
|}.

(** A user's task in "/a"; the paths "/a", "/a/b" and "../a/b". *)
Definition user : vtask := mk_vtask 0x12 1000 1000 [47; 97].
Definition dir_a : list Z := [47; 97].
Definition dir_b : list Z := [47; 97; 47; 98].
Definition rel_b : list Z := [46; 46; 47; 97; 47; 98].
Definition demo0 : vfs bump unit := mk_vfs ∅ 0 [] (4096, []) (Some user) ().
Definition demo1 : vfs bump unit := vfs_init demo0.
Definition demo2 : vfs bump unit := snd (vfs_mkdir dir_a 0 demo1).
Definition demo3 : vfs bump unit := snd (vfs_mkdir dir_b 0x1ED demo2).

Lemma demo_reachable : vfs_reachable demo0 demo3 /\ vfs_reachable demo0 demo2.
Proof.
  assert (H1 : vfs_reachable demo0 demo1).
  { apply vreach_init; [done| |by vm_compute]. cbn. split; [lia|by apply Forall_nil]. }
  assert (H2 : vfs_reachable demo0 demo2) by (eapply vreach_step; [exact H1|by apply step_mkdir]).
  split; [|done]. eapply vreach_step; [exact H2|by apply step_mkdir].
Qed.

Lemma vfs_reachable_tree_witness :
  exists kids, tree_of demo3 kids /\ owned demo3 /\
    find_child (vfs_find dir_a demo3) [98] 1 demo3 = lookup_name demo3 [98] (kids (vfs_find dir_a demo3)).
Proof.
  destruct (vfs_reachable_tree demo0 demo3 (proj1 demo_reachable)) as (kids & Ht & Ho & Hf).
  exists kids. split; [exact Ht|]. split; [exact Ho|].
  destruct (nodes demo3 !! vfs_find dir_a demo3) as [n|] eqn:E; [|by vm_compute in E]. exact (Hf _ n [98] E).
Defined.

Lemma plain_a : plain [97].
Proof. split; [split; [done|]|done]. rewrite list_elem_of_singleton. lia. Qed.
Lemma plain_b : plain [98].
Proof. split; [split; [done|]|done]. rewrite list_elem_of_singleton. lia. Qed.

Lemma vfs_build_path_resolves_witness :
  vfs_find dir_b demo3 = vfs_find_relative (vfs_find dir_a demo3) rel_b demo3.
Proof.
  apply (vfs_build_path_resolves demo3 [[97]] rel_b 64 dir_b).
  - exact (vfs_reachable_facts demo0 demo3 (proj1 demo_reachable)).
  - apply Forall_singleton, plain_a.
  - discriminate.
  - apply short_depth. vm_compute. lia.
  - vm_compute. discriminate.
  - vm_compute. discriminate.
  - vm_compute. reflexivity.
Defined.

Lemma vfs_mkdir_spec_witness :
  nodes demo2 !! vfs_find dir_b demo3 = None /\ vfs_find dir_a demo3 = vfs_find dir_a demo2 /\
  vfs_find (path_of [[98]]) demo3 = vfs_find (path_of [[98]]) demo2 /\
  vn_mode (node_at demo3 (vfs_find dir_b demo3)) = 0x1ED.
Proof.
  destruct (vfs_mkdir_spec demo2 [[97]] [98] 0x1ED demo3) as (Hnew & _ & Hold & Hother).
  - exact (vfs_reachable_facts demo0 demo2 (proj2 demo_reachable)).
  - reflexivity.
  - apply Forall_singleton, plain_a.
  - exact plain_b.
  - vm_compute. discriminate.
  - vm_compute. reflexivity.
  - split; [exact Hnew|]. split; [apply (Hold dir_a); vm_compute; discriminate|].
    split; [apply Hother; [apply Forall_singleton, plain_b|discriminate]|vm_compute; reflexivity].
Defined.

Lemma vfs_chdir_owner_denied_witness :
  vfs_chdir [98] demo3 = (-1, demo3) /\ vn_mode (node_at demo3 (vfs_find dir_b demo3)) = 0x1ED.
Proof.
  split; [|vm_compute; reflexivity].
  destruct (nodes demo3 !! vfs_find dir_b demo3) as [n|] eqn:E; [|by vm_compute in E].
  assert (En : n = node_at demo3 (vfs_find dir_b demo3)) by (symmetry; exact (node_at_eq demo3 _ n E)).
  apply (vfs_chdir_owner_denied demo3 [98] user dir_b n).
  - vm_compute. reflexivity.
  - discriminate.
  - vm_compute. reflexivity.
  - exact E.
  - rewrite En. vm_compute. split; discriminate.
  - left. rewrite En. vm_compute. reflexivity.
Defined.

(** * Memory that is freed too early *)

(** "/a/b" as a file with data, opened; "/c" is a link to it; then "/a/b" is unlinked
    and closed. *)
Definition file_path : list Z := [47; 97; 47; 102].
Definition link_path : list Z := [47; 99].
Definition with_file : vfs bump unit :=
  let '(p, s) := vfs_create_node (vfs_find dir_a demo2) [102] VFS_NODE_FILE demo2 in
  let '(d, h) := k_alloc 64 (vheap s) in
  vfs_node_ref p (upd_node p (fun n => n <| vn_data := default 0 d |>) (s <| vheap := h |>)).
Definition linked : vfs bump unit := snd (vfs_link file_path link_path with_file).
Definition closed : vfs bump unit := vfs_node_unref (vfs_find file_path linked) (snd (vfs_unlink file_path linked)).

(** two links share the data of a file, but closing the last handle of one of them
    after it was unlinked frees the data although the other link still has it. *)
Theorem vfs_link_data_freed :
  let link := node_at closed (vfs_find link_path closed) in
  fst (vfs_link file_path link_path with_file) = 0 /\ vfs_find link_path closed <> 0 /\
  vn_data link <> 0 /\ vn_data link ∈ snd (vheap linked) /\ vn_data link ∉ snd (vheap closed).
Proof.
  cbv zeta. split; [vm_compute; reflexivity|]. split; [vm_compute; discriminate|]. split; [vm_compute; discriminate|].
  split; [apply (bool_decide_unpack _); vm_compute; exact I|].
  apply (bool_decide_unpack _). vm_compute. exact I.
Qed.

Definition mounted : vfs bump unit := snd (vfs_mount_op None dir_a None demo2).

(** Opening and closing the root of a mounted file system, or removing it, frees its
    node while the directory it is mounted on still points to it: looking the directory
    up gives a pointer to freed memory. *)
Theorem vfs_mount_root_freed :
  let root := vfs_find dir_a mounted in
  let closed := vfs_node_unref root (vfs_node_ref root mounted) in
  let removed := snd (vfs_rmdir dir_a mounted) in
  fst (vfs_mount_op None dir_a None demo2) = 0 /\ root <> vfs_find dir_a demo2 /\
  fst (vfs_rmdir dir_a mounted) = 0 /\
  vfs_find dir_a closed = root /\ root ∉ snd (vheap closed) /\
  vfs_find dir_a removed = root /\ root ∉ snd (vheap removed).
Proof.
  cbv zeta. split; [vm_compute; reflexivity|]. split; [vm_compute; discriminate|].
  split; [vm_compute; reflexivity|]. split; [vm_compute; reflexivity|].
  split; [apply (bool_decide_unpack _); vm_compute; exact I|]. split; [vm_compute; reflexivity|].
  apply (bool_decide_unpack _). vm_compute. exact I.
Qed.
