(* ===== verification/Net.v ===== *)
(** The network stack below TCP of src/src/kernel/net.c: ARP, IPv4, ICMP echo, UDP and
    the queues of datagram and raw sockets.

    A frame is the list of its bytes in memory order, and a field of a packed struct is
    read and written at its offset.  Addresses in packets are kept as the 32-bit loads
    of their four bytes, as in the C code.  The network card, the allocator and the
    wake-ups are [NetEnv]; [tcp_input] and what other threads do during a yield are
    [NetCalls], because both may come back into this state.  The mutexes and the
    disabling of interrupts are left out, like the log messages and the null checks of
    pointer arguments. *)

From S2P Require Import Prelude TcpWire.

(** * Constants *)

Definition NET_LOCAL_IPV4 : Z := 0x0A00020F.
Definition NET_IPV4_NETMASK : Z := 0xFFFFFF00.
Definition NET_DEFAULT_GATEWAY_IPV4 : Z := 0x0A000202.
Definition net_local_mac : list Z := [0x52; 0x54; 0x00; 0x12; 0x34; 0x56].
Definition ARP_CACHE_SIZE : Z := 16.
Definition SOCKET_RX_BUF_SIZE : Z := 16.
Definition NET_IPV4_PAYLOAD_MAX : Z := 1480.
Definition MAX_SOCKETS : Z := 16.
Definition ETH_TYPE_ARP : Z := 0x0806.
Definition ETH_TYPE_IPV4 : Z := 0x0800.
Definition ICMP_TYPE_ECHO_REQ : Z := 8.
Definition ICMP_TYPE_ECHO_REPLY : Z := 0.
Definition IP_PROTO_ICMP : Z := 1.
Definition IP_PROTO_UDP : Z := 17.
Definition ARP_HW_TYPE_ETHERNET : Z := 1.
Definition ARP_OPCODE_REQUEST : Z := 1.
Definition ARP_OPCODE_REPLY : Z := 2.
Definition NET_ETH_ADDR_LEN : Z := 6.
Definition NET_IPV4_ADDR_LEN : Z := 4.
Definition NET_MTU_FRAME_SIZE : Z := 1518.
Definition AF_INET : Z := 2.
Definition SOCK_STREAM : Z := 1.
Definition SOCK_DGRAM : Z := 2.
Definition SOCK_RAW : Z := 3.
(** Sizes of the packed structs. *)
Definition ETH_HEADER_SIZE : Z := 14.
Definition ARP_PACKET_SIZE : Z := 28.
Definition IP_HEADER_SIZE : Z := 20.
Definition UDP_HEADER_SIZE : Z := 8.
Definition ICMP_PACKET_SIZE : Z := 8.

(** * Bytes *)

Definition slice (b : list Z) (off n : Z) : list Z := take (Z.to_nat n) (drop (Z.to_nat off) b).
(** Store bytes at an offset. *)
Definition store (b : list Z) (off : Z) (v : list Z) : list Z :=
  take (Z.to_nat off) b ++ v ++ drop (Z.to_nat off + length v) b.

(** The loop over 16-bit words in network order, then the odd byte. *)
Fixpoint net_sum (sum : Z) (bytes : list Z) : Z :=
  match bytes with
  | b0 :: b1 :: rest => net_sum (u32 (sum + Z.lor (Z.shiftl b0 8) b1)) rest
  | [b0] => u32 (sum + Z.shiftl b0 8)
  | [] => sum
  end.
Definition net_checksum (bytes : list Z) : Z := u16 (lnot32 (fold16 3 (net_sum 0 bytes))).

(** The sum over the pseudo-header: the addresses as they are in memory. *)
Definition pseudo_sum (src_ip dest_ip protocol length : Z) : Z :=
  u32 (u32 (net_sum (net_sum 0 (le32 src_ip)) (le32 dest_ip) + protocol) + length).
Definition net_calculate_udp_checksum (src_ip dest_ip : Z) (udp_packet : list Z) (udp_len : Z) : Z :=
  u16 (lnot32 (fold16 3 (net_sum (pseudo_sum src_ip dest_ip IP_PROTO_UDP udp_len)
                           (take (Z.to_nat udp_len) udp_packet)))).

(** * IPv4 addresses *)

Definition net_is_local_ipv4 (ip : Z) : bool := ip =? htonl NET_LOCAL_IPV4.
Definition net_is_broadcast_ipv4 (ip : Z) : bool :=
  let host_ip := ntohl ip in
  let local_broadcast := Z.lor (Z.land NET_LOCAL_IPV4 NET_IPV4_NETMASK) (lnot32 NET_IPV4_NETMASK) in
  (host_ip =? 0xFFFFFFFF) || (host_ip =? local_broadcast).
Definition net_is_on_link_ipv4 (ip : Z) : bool :=
  Z.land (ntohl ip) NET_IPV4_NETMASK =? Z.land NET_LOCAL_IPV4 NET_IPV4_NETMASK.
Definition net_next_hop_ipv4 (dest_ip : Z) : Z :=
  if net_is_on_link_ipv4 dest_ip then dest_ip else htonl NET_DEFAULT_GATEWAY_IPV4.

(** * State *)

Record arp_entry := mk_arp { ae_ip : Z; ae_mac : list Z; ae_resolved : bool }.

(** A queued packet: the bytes of its block, [None] for a null pointer, and its length. *)
Record socket_packet := mk_pkt { pkt_data : option (list Z); pkt_len : Z }.
Definition no_packet : socket_packet := mk_pkt None 0.
#[export] Instance socket_packet_inhabited : Inhabited socket_packet := populate no_packet.

(** [sk_tcp] is the address of the TCP control block, 0 for none. *)
Record socket := mk_socket {
  sk_fd : Z; sk_domain : Z; sk_type : Z; sk_protocol : Z; sk_state : Z;
  sk_local_port : Z; sk_local_addr : Z; sk_remote_port : Z; sk_remote_addr : Z;
  rx_queue : list socket_packet; rx_head : Z; rx_tail : Z; rx_count : Z;
  tx_queue : list socket_packet; tx_head : Z; tx_tail : Z; tx_count : Z;
  sk_tcp : Z; sk_active : bool
}.
#[export] Instance eta_socket : Eta socket := fun s =>
  mk_socket (sk_fd s) (sk_domain s) (sk_type s) (sk_protocol s) (sk_state s) (sk_local_port s) (sk_local_addr s)
    (sk_remote_port s) (sk_remote_addr s) (rx_queue s) (rx_head s) (rx_tail s) (rx_count s)
    (tx_queue s) (tx_head s) (tx_tail s) (tx_count s) (sk_tcp s) (sk_active s).

(** The entries in use of [arp_cache]; the two [static ip_id]s; the static receive
    buffer. *)
Record net E := mk_net {
  arp_cache : list arp_entry;
  ip_id : Z;
  sys_ip_id : Z;
  sockets : list socket;
  frame : list Z;
  net_env : E
}.
Arguments mk_net {E} _ _ _ _ _ _.
Arguments arp_cache {E} _.
Arguments ip_id {E} _.
Arguments sys_ip_id {E} _.
Arguments sockets {E} _.
Arguments frame {E} _.
Arguments net_env {E} _.
#[export] Instance eta_net E : Eta (net E) := fun s =>
  mk_net (arp_cache s) (ip_id s) (sys_ip_id s) (sockets s) (frame s) (net_env s).

(** The card: the bytes of the next frame ([None] when it returns 0 or less) and whether
    a frame was queued for sending; whether [kmalloc] of a size above zero succeeds; the
    wake-ups of the scheduler, of the tasks that wait for a socket and for a protocol. *)
Class NetEnv (E : Type) := {
  e1000_receive_packet : Z -> E -> option (list Z) * E;
  e1000_send_packet : list Z -> E -> bool * E;
  net_kmalloc : Z -> E -> bool * E;
  scheduler_wake_socket : Z -> E -> E;
  scheduler_wake_socket_receivers : Z -> E -> E
}.
Class NetCalls (E : Type) := {
  call_tcp_input : Z -> Z -> list Z -> net E -> Z * net E;
  scheduler_yield : net E -> net E
}.

Section Net.
Context {E : Type} `{NetEnv E} `{NetCalls E}.
Implicit Types s : net E.

Definition on_env {A} (f : E -> A * E) s : A * net E :=
  let '(a, e) := f (net_env s) in (a, s <| net_env := e |>).
(** [kmalloc] returns null for the size 0. *)
Definition kmalloc_packet (size : Z) s : bool * net E :=
  if size =? 0 then (false, s) else on_env (net_kmalloc size) s.

(** * ARP *)

Fixpoint arp_update_known (ip : Z) (mac : list Z) (l : list arp_entry) : option (list arp_entry) :=
  match l with
  | [] => None
  | a :: l' =>
      if ae_ip a =? ip then Some (mk_arp ip mac true :: l')
      else let* l'' := arp_update_known ip mac l' in Some (a :: l'')
  end.
(** A full cache drops its first entry. *)
Definition arp_cache_update (ip : Z) (mac : list Z) (l : list arp_entry) : list arp_entry :=
  match arp_update_known ip mac l with
  | Some l' => l'
  | None => if len l <? ARP_CACHE_SIZE then l ++ [mk_arp ip mac true] else drop 1 l ++ [mk_arp ip mac true]
  end.
Fixpoint arp_resolve (ip : Z) (l : list arp_entry) : option (list Z) :=
  match l with
  | [] => None
  | a :: l' => if (ae_ip a =? ip) && ae_resolved a then Some (ae_mac a) else arp_resolve ip l'
  end.

Definition eth_bytes (dest_mac src_mac : list Z) (ethertype : Z) : list Z :=
  dest_mac ++ src_mac ++ le16 (htons ethertype).
Definition arp_bytes (opcode : Z) (src_mac : list Z) (src_ip : Z) (dest_mac : list Z) (dest_ip : Z) : list Z :=
  le16 (htons ARP_HW_TYPE_ETHERNET) ++ le16 (htons ETH_TYPE_IPV4) ++ [NET_ETH_ADDR_LEN; NET_IPV4_ADDR_LEN] ++
  le16 (htons opcode) ++ src_mac ++ le32 src_ip ++ dest_mac ++ le32 dest_ip.

Definition arp_send_request (ip : Z) s : net E :=
  snd (on_env (e1000_send_packet
    (eth_bytes (replicate 6 0xFF) net_local_mac ETH_TYPE_ARP ++
     arp_bytes ARP_OPCODE_REQUEST net_local_mac (htonl NET_LOCAL_IPV4) (replicate 6 0) ip)) s).

Definition arp_reply (f : list Z) : list Z :=
  eth_bytes (slice f 6 6) net_local_mac ETH_TYPE_ARP ++
  arp_bytes ARP_OPCODE_REPLY net_local_mac (htonl NET_LOCAL_IPV4) (slice f 22 6) (get32 f 28).
(** [f] is the receive buffer and [frame_length] the bytes of the frame in it. *)
Definition net_handle_arp (frame_length : Z) s : net E :=
  let f := frame s in
  if frame_length <? ETH_HEADER_SIZE + ARP_PACKET_SIZE then s
  else if negb (ntohs (get16 f 14) =? ARP_HW_TYPE_ETHERNET) || negb (ntohs (get16 f 16) =? ETH_TYPE_IPV4) ||
          negb (arr_get f 18 =? NET_ETH_ADDR_LEN) || negb (arr_get f 19 =? NET_IPV4_ADDR_LEN) then s
  else
    let s := s <| arp_cache := arp_cache_update (get32 f 28) (slice f 22 6) (arp_cache s) |> in
    if negb (ntohs (get16 f 20) =? ARP_OPCODE_REQUEST) || negb (net_is_local_ipv4 (get32 f 38)) then s
    else snd (on_env (e1000_send_packet (arp_reply f)) s).

(** * ICMP *)

(** The echo reply, made in the receive buffer. *)
Definition echo_reply (f : list Z) (ip_header_length icmp_length : Z) : list Z :=
  let source_mac := slice f 6 6 in
  let source_ip := get32 f 26 in
  let f := store f 0 source_mac in
  let f := store f 6 net_local_mac in
  let f := store f 26 (le32 (htonl NET_LOCAL_IPV4)) in
  let f := store f 30 (le32 source_ip) in
  let f := store f 24 (le16 0) in
  let f := store f 24 (le16 (htons (net_checksum (slice f 14 ip_header_length)))) in
  let icmp := 14 + ip_header_length in
  let f := store f icmp [ICMP_TYPE_ECHO_REPLY] in
  let f := store f (icmp + 2) (le16 0) in
  store f (icmp + 2) (le16 (htons (net_checksum (slice f icmp icmp_length)))).

Definition net_handle_icmp (frame_length : Z) s : net E :=
  let f := frame s in
  if frame_length <? ETH_HEADER_SIZE + IP_HEADER_SIZE then s
  else
    let ver_ihl := arr_get f 14 in
    let ip_header_length := Z.land ver_ihl 0x0F * 4 in
    let total_length := ntohs (get16 f 16) in
    if negb (Z.shiftr ver_ihl 4 =? 4) || (ip_header_length <? IP_HEADER_SIZE) ||
       (total_length <? ip_header_length + ICMP_PACKET_SIZE) || (frame_length <? ETH_HEADER_SIZE + total_length) ||
       negb (arr_get f 23 =? IP_PROTO_ICMP) || negb (net_is_local_ipv4 (get32 f 30)) then s
    else
      let icmp := 14 + ip_header_length in
      if negb (arr_get f icmp =? ICMP_TYPE_ECHO_REQ) || negb (arr_get f (icmp + 1) =? 0) then s
      else
        let s := s <| frame := echo_reply f ip_header_length (total_length - ip_header_length) |> in
        snd (on_env (e1000_send_packet (slice (frame s) 0 (ETH_HEADER_SIZE + total_length))) s).

(** * Sockets that receive datagrams *)

(** A packet at the tail of the queue, when there is room and memory. *)
Definition push_packet (data : list Z) (sk : socket) : socket :=
  sk <| rx_queue := arr_set (rx_queue sk) (rx_tail sk) (mk_pkt (Some data) (len data)) |>
     <| rx_tail := (rx_tail sk + 1) mod SOCKET_RX_BUF_SIZE |>
     <| rx_count := rx_count sk + 1 |>.
Definition put_socket (i : nat) (sk : socket) s : net E := s <| sockets := <[i := sk]> (sockets s) |>.

(** The first active UDP socket on the port, with its index. *)
Definition is_udp_target (dest_port : Z) (sk : socket) : bool :=
  sk_active sk && (sk_type sk =? SOCK_DGRAM) && (sk_protocol sk =? IP_PROTO_UDP) && (sk_local_port sk =? dest_port).
Fixpoint find_udp_socket (dest_port : Z) (i : nat) (l : list socket) : option (nat * socket) :=
  match l with
  | [] => None
  | sk :: l' => if is_udp_target dest_port sk then Some (i, sk) else find_udp_socket dest_port (S i) l'
  end.
Definition deliver_udp (src_ip src_port dest_port : Z) (data : list Z) s : net E :=
  match find_udp_socket dest_port 0 (sockets s) with
  | None => s
  | Some (i, sk) =>
      let s :=
        if SOCKET_RX_BUF_SIZE <=? rx_count sk then s
        else
          let '(ok, s) := kmalloc_packet (len data) s in
          if ok
          then put_socket i (push_packet data sk <| sk_remote_addr := src_ip |> <| sk_remote_port := src_port |>) s
          else s in
      s <| net_env := scheduler_wake_socket_receivers IP_PROTO_UDP (scheduler_wake_socket (Z.of_nat i) (net_env s)) |>
  end.

(** Every active raw socket of the protocol gets the payload.  (The branch of the loop
    for datagram sockets is for UDP, which never gets here.) *)
Definition deliver_raw_one (protocol : Z) (data : list Z) (i : nat) s : net E :=
  match sockets s !! i with
  | None => s
  | Some sk =>
      if negb (sk_active sk) then s
      else if negb ((sk_type sk =? SOCK_RAW) && (sk_protocol sk =? protocol)) then s
      else if SOCKET_RX_BUF_SIZE <=? rx_count sk then s
      else
        let '(ok, s) := kmalloc_packet (len data) s in
        if negb ok then s
        else
          let s := put_socket i (push_packet data sk) s in
          s <| net_env := scheduler_wake_socket_receivers (sk_protocol sk) (scheduler_wake_socket (Z.of_nat i) (net_env s)) |>
  end.
Definition deliver_raw (protocol : Z) (data : list Z) s : net E :=
  foldl (fun s i => deliver_raw_one protocol data i s) s (seq 0 (Z.to_nat MAX_SOCKETS)).

(** * Receiving *)

(** The sum over the bytes that [udp->length] announces, before anything has compared it
    with the length of the packet.  [None]: it reads past the receive buffer. *)
Definition net_validate_udp_checksum (f : list Z) (udp : Z) : option bool :=
  let checksum := ntohs (get16 f (udp + 6)) in
  if checksum =? 0 then Some true
  else
    let udp_len := ntohs (get16 f (udp + 4)) in
    if NET_MTU_FRAME_SIZE <? udp + udp_len then None
    else
      let sum := net_sum (net_sum 0 (slice f 26 4)) (slice f 30 4) in
      let sum := u32 (u32 (sum + arr_get f 23) + udp_len) in
      Some (u16 (lnot32 (fold16 3 (net_sum sum (slice f udp udp_len)))) =? 0).

(** A UDP packet whose header starts at [payload]. *)
Definition receive_udp (payload payload_len : Z) s : option (net E) :=
  let f := frame s in
  if payload_len <? UDP_HEADER_SIZE then Some s
  else
    let* valid := net_validate_udp_checksum f payload in
    if negb valid then Some s
    else
      let src_port := ntohs (get16 f payload) in
      let dest_port := ntohs (get16 f (payload + 2)) in
      let udp_len := ntohs (get16 f (payload + 4)) in
      if (udp_len <? UDP_HEADER_SIZE) || (payload_len <? udp_len) then Some s
      else Some (deliver_udp (get32 f 26) src_port dest_port
                   (slice f (payload + UDP_HEADER_SIZE) (udp_len - UDP_HEADER_SIZE)) s).

(** The protocols of an IPv4 packet with a valid header. *)
Definition receive_payload (payload payload_len length : Z) s : option (net E) :=
  let f := frame s in
  let protocol := arr_get f 23 in
  if protocol =? IP_PROTO_ICMP then
    if payload_len <? ICMP_PACKET_SIZE then Some s
    else if negb (net_checksum (slice f payload payload_len) =? 0) then Some s
    else
      let s := net_handle_icmp length s in
      Some (deliver_raw (arr_get (frame s) 23) (slice (frame s) payload payload_len) s)
  else if protocol =? IP_PROTO_UDP then receive_udp payload payload_len s
  else if protocol =? IP_PROTO_TCP
  then Some (snd (call_tcp_input (get32 f 26) (get32 f 30) (slice f payload payload_len) s))
  else Some (deliver_raw protocol (slice f payload payload_len) s).

Definition receive_ipv4 (length : Z) s : option (net E) :=
  let f := frame s in
  if length <? ETH_HEADER_SIZE + IP_HEADER_SIZE then Some s
  else
    let ver_ihl := arr_get f 14 in
    let ip_header_length := Z.land ver_ihl 0x0F * 4 in
    let total_length := ntohs (get16 f 16) in
    if (Z.shiftr ver_ihl 4 =? 4) && (IP_HEADER_SIZE <=? ip_header_length) && (ip_header_length <=? total_length) &&
       (ETH_HEADER_SIZE + total_length <=? length) && net_is_local_ipv4 (get32 f 30)
    then
      if negb (net_checksum (slice f 14 ip_header_length) =? 0) then Some s
      else receive_payload (14 + ip_header_length) (total_length - ip_header_length) length s
    else Some s.

(** The dispatch on the type of a frame of [length] bytes in the buffer. *)
Definition receive_frame (length : Z) s : option (net E) :=
  let ethertype := ntohs (get16 (frame s) 12) in
  if ethertype =? ETH_TYPE_ARP then Some (net_handle_arp length s)
  else if ethertype =? ETH_TYPE_IPV4 then receive_ipv4 length s
  else Some s.

(** [None]: memory past the receive buffer is read. *)
Definition net_poll_packets s : option (Z * net E) :=
  let '(r, s) := on_env (e1000_receive_packet NET_MTU_FRAME_SIZE) s in
  match r with
  | None => Some (0, s)
  | Some bytes =>
      let s := s <| frame := store (frame s) 0 bytes |> in
      if len bytes <? ETH_HEADER_SIZE then Some (0, s)
      else let* t := receive_frame (len bytes) s in Some (1, t)
  end.

(** * Sending *)

Definition ip_header_bytes (total_length id protocol checksum src_ip dest_ip : Z) : list Z :=
  [0x45; 0] ++ le16 (htons total_length) ++ le16 (htons id) ++ le16 0 ++ [64; protocol] ++
  le16 checksum ++ le32 src_ip ++ le32 dest_ip.
(** The checksum is computed with its field zero. *)
Definition ipv4_header (total_length id protocol dest_ip : Z) : list Z :=
  let zero := ip_header_bytes total_length id protocol 0 (htonl NET_LOCAL_IPV4) dest_ip in
  ip_header_bytes total_length id protocol (htons (net_checksum zero)) (htonl NET_LOCAL_IPV4) dest_ip.
Definition ipv4_frame (dest_mac : list Z) (id dest_ip protocol : Z) (payload : list Z) : list Z :=
  eth_bytes dest_mac net_local_mac ETH_TYPE_IPV4 ++
  ipv4_header (IP_HEADER_SIZE + len payload) id protocol dest_ip ++ payload.

(** The rounds that wait for an ARP reply. *)
Fixpoint arp_wait (rounds : nat) (attempts ip : Z) s : option (option (list Z) * net E) :=
  match rounds with
  | O => Some (None, s)
  | S rounds' =>
      let* r := net_poll_packets s in
      let s := snd r in
      match arp_resolve ip (arp_cache s) with
      | Some mac => Some (Some mac, s)
      | None =>
          let s := if attempts mod 100 =? 0 then arp_send_request ip s else s in
          arp_wait rounds' (attempts + 1) ip (scheduler_yield s)
      end
  end.
(** The Ethernet address of the next hop. *)
Definition resolve_mac (dest_ip : Z) s : option (option (list Z) * net E) :=
  if net_is_broadcast_ipv4 dest_ip then Some (Some (replicate 6 0xFF), s)
  else
    let next_hop_ip := net_next_hop_ipv4 dest_ip in
    match arp_resolve next_hop_ip (arp_cache s) with
    | Some mac => Some (Some mac, s)
    | None => arp_wait 1000 0 next_hop_ip s
    end.
Definition net_send_ipv4 (dest_ip protocol : Z) (payload : list Z) s : option (Z * net E) :=
  if NET_IPV4_PAYLOAD_MAX <? len payload then Some (-1, s)
  else
    let* r := resolve_mac dest_ip s in
    match r with
    | (None, s) => Some (-1, s)
    | (Some mac, s) =>
        let id := ip_id s in
        let s := s <| ip_id := u16 (id + 1) |> in
        let '(sent, s) := on_env (e1000_send_packet (ipv4_frame mac id dest_ip protocol payload)) s in
        Some (if sent then 0 else -1, s)
    end.

(** The result of the checksum is stored as it is, without [htons]. *)
Definition udp_bytes (src_port dest_port udp_len checksum : Z) (payload : list Z) : list Z :=
  le16 (htons src_port) ++ le16 (htons dest_port) ++ le16 (htons (u16 udp_len)) ++ le16 checksum ++ payload.
Definition udp_packet (dest_ip src_port dest_port : Z) (payload : list Z) : list Z :=
  let udp_len := UDP_HEADER_SIZE + len payload in
  let zero := udp_bytes src_port dest_port udp_len 0 payload in
  udp_bytes src_port dest_port udp_len
    (net_calculate_udp_checksum (htonl NET_LOCAL_IPV4) dest_ip zero (u16 udp_len)) payload.
Definition net_send_udp (dest_ip src_port dest_port : Z) (payload : list Z) s : option (Z * net E) :=
  let '(ok, s) := kmalloc_packet (UDP_HEADER_SIZE + len payload) s in
  if negb ok then Some (-1, s)
  else net_send_ipv4 dest_ip IP_PROTO_UDP (udp_packet dest_ip src_port dest_port payload) s.

(** [sys_socket_send] polls before it looks at the ARP cache and has an identification
    counter of its own; [accessible] is the result of [user_buffer_accessible]. *)
Definition sys_socket_send (accessible : bool) (dest_ip protocol : Z) (payload : list Z) s : option (Z * net E) :=
  if (NET_IPV4_PAYLOAD_MAX <? len payload) || negb accessible then Some (-1, s)
  else
    let* r := if net_is_broadcast_ipv4 dest_ip then Some (Some (replicate 6 0xFF), s)
              else arp_wait 1000 0 (net_next_hop_ipv4 dest_ip) s in
    match r with
    | (None, s) => Some (-1, s)
    | (Some mac, s) =>
        let id := sys_ip_id s in
        let s := s <| sys_ip_id := u16 (id + 1) |> in
        let '(sent, s) := on_env (e1000_send_packet (ipv4_frame mac id dest_ip protocol payload)) s in
        Some (if sent then 0 else -1, s)
    end.

(** * Reading and writing datagram and raw sockets *)

(** The packet at the head of the queue, cut to [size] bytes, and the socket without it. *)
Definition take_packet (size : Z) (sk : socket) : option (list Z * socket) :=
  if 0 <? rx_count sk then
    let pkt := arr_get (rx_queue sk) (rx_head sk) in
    let copy_len := if size <? pkt_len pkt then size else pkt_len pkt in
    Some (take (Z.to_nat copy_len) (default [] (pkt_data pkt)),
          sk <| rx_queue := arr_set (rx_queue sk) (rx_head sk) (mk_pkt None (pkt_len pkt)) |>
             <| rx_head := (rx_head sk + 1) mod SOCKET_RX_BUF_SIZE |>
             <| rx_count := rx_count sk - 1 |>)
  else None.

(** [socket_vfs_read] of a socket that is not a stream: rounds until a packet is there,
    the other threads running in between.  [None]: still waiting after [rounds]. *)
Fixpoint dgram_read (rounds : nat) (i : nat) (size : Z) s : option (list Z * net E) :=
  match rounds with
  | O => None
  | S rounds' =>
      match sockets s !! i with
      | None => None
      | Some sk =>
          match take_packet size sk with
          | Some (bytes, sk) => Some (bytes, put_socket i sk s)
          | None => dgram_read rounds' i size (scheduler_yield s)
          end
      end
  end.

(** [socket_vfs_write] of a socket that is not a stream: the bytes accepted. *)
Definition dgram_write (i : nat) (buffer : list Z) s : option (Z * net E) :=
  if len buffer =? 0 then Some (0, s)
  else
    match sockets s !! i with
    | None => Some (0, s)
    | Some sk =>
        if negb (sk_active sk) || (sk_remote_addr sk =? 0) then Some (0, s)
        else
          let* r := if (sk_type sk =? SOCK_DGRAM) && (sk_protocol sk =? IP_PROTO_UDP)
                    then net_send_udp (sk_remote_addr sk) (sk_local_port sk) (sk_remote_port sk) buffer s
                    else if sk_type sk =? SOCK_RAW
                    then net_send_ipv4 (sk_remote_addr sk) (u8 (sk_protocol sk)) buffer s
                    else Some (-1, s) in
          Some (if fst r =? 0 then len buffer else 0, snd r)
    end.

(** The packets that [socket_vfs_close] frees. *)
Definition clear_queue (head count : Z) (q : list socket_packet) : list socket_packet :=
  foldl (fun q i =>
    let idx := (head + Z.of_nat i) mod SOCKET_RX_BUF_SIZE in
    match pkt_data (arr_get q idx) with
    | Some _ => arr_set q idx (mk_pkt None (pkt_len (arr_get q idx)))
    | None => q
    end) q (seq 0 (Z.to_nat count)).
(** [socket_vfs_close] up to closing the TCP block, whose address is returned. *)
Definition close_socket (sk : socket) : Z * socket :=
  (sk_tcp sk,
   sk <| sk_active := false |>
      <| rx_queue := clear_queue (rx_head sk) (rx_count sk) (rx_queue sk) |> <| rx_count := 0 |>
      <| tx_queue := clear_queue (tx_head sk) (tx_count sk) (tx_queue sk) |> <| tx_count := 0 |>
      <| sk_tcp := 0 |>).

(** [sys_socket_recv]: the first active socket of the protocol. *)
Fixpoint find_protocol (protocol : Z) (i : nat) (l : list socket) : option nat :=
  match l with
  | [] => None
  | sk :: l' => if sk_active sk && (sk_protocol sk =? protocol) then Some i else find_protocol protocol (S i) l'
  end.
Fixpoint recv_wait (rounds : nat) (i : nat) (max_len : Z) s : option (Z * list Z * net E) :=
  match rounds with
  | O => Some (0, [], s)
  | S rounds' =>
      let* r := net_poll_packets s in
      let s := snd r in
      match sockets s !! i with
      | None => Some (0, [], s)
      | Some sk =>
          match take_packet max_len sk with
          | Some (bytes, sk) => Some (len bytes, bytes, put_socket i sk s)
          | None => recv_wait rounds' i max_len (scheduler_yield s)
          end
      end
  end.
Definition sys_socket_recv (protocol max_len : Z) s : option (Z * list Z * net E) :=
  match find_protocol protocol 0 (sockets s) with
  | None => Some (-1, [], s)
  | Some i => recv_wait 10000 i max_len s
  end.

(** One round of [net_kernel_thread]'s inner loop: poll until nothing is there, 16 times
    at most. *)
Fixpoint poll_burst (rounds : nat) s : option (net E) :=
  match rounds with
  | O => Some s
  | S rounds' =>
      let* r := net_poll_packets s in
      if fst r =? 0 then Some (snd r) else poll_burst rounds' (snd r)
  end.
End Net.

(** * User buffers *)

Definition NET_USER_BASE : Z := 0x0000008000000000.
Definition NET_PAGE_SIZE : Z := 4096.
(** The loop over the pages from [page] to [last_page]. *)
Fixpoint pages_mapped (fuel : nat) (mapped : Z -> bool) (page last_page : Z) : option bool :=
  match fuel with
  | O => None
  | S fuel' =>
      if negb (mapped page) then Some false
      else if page =? last_page then Some true
      else pages_mapped fuel' mapped (u64 (page + NET_PAGE_SIZE)) last_page
  end.
(** [kernel_space]: there is no task or it runs on the kernel's page tables; [mapped] is
    [vmm_is_mapped] in its address space.  Masking off the low 12 bits of an address is
    written with [Z.land] as in the code. *)
Definition user_buffer_accessible (kernel_space : bool) (mapped : Z -> bool) (start length : Z) : option bool :=
  if length =? 0 then Some true
  else if kernel_space || (start <? NET_USER_BASE) then Some false
  else
    let last := u64 (u64 (start + length) - 1) in
    if last <? start then Some false
    else
      let page := Z.land start (lnot64 (NET_PAGE_SIZE - 1)) in
      let last_page := Z.land last (lnot64 (NET_PAGE_SIZE - 1)) in
      pages_mapped (S (Z.to_nat ((last_page - page) / NET_PAGE_SIZE))) mapped page last_page.
