(* ===== verification/NetWire.v ===== *)
(** Checksums and frames of the network stack: what [net_checksum] computes, IPv4 frames
    round-trip through the receive path, ARP, ICMP echo replies, and the checksum of UDP
    packets. *)

From S2P Require Import Prelude TcpWire Net.

(** * Checksums *)

Lemma lor_bytes a b : is_u8 a -> is_u8 b -> Z.lor (Z.shiftl a 8) b = 256 * a + b.
Proof.
  intros Ha Hb. rewrite Z.shiftl_mul_pow2 by lia. rewrite lor_add by (change (2 ^ 8) with 256; ulia).
  change (2 ^ 8) with 256. lia.
Qed.
Lemma net_sum_spec sum l :
  is_bytes l -> 0 <= sum -> sum + sum16 l < 4294967296 -> net_sum sum l = sum + sum16 l.
Proof.
  revert sum. induction l as [|a|a b l IH] using pair_ind; intros sum Hb H0 H1.
  - cbn. lia.
  - apply Forall_cons in Hb as [Ha _]. cbn [sum16 net_sum] in *.
    rewrite Z.shiftl_mul_pow2 by lia. rewrite u32_id by ulia. lia.
  - apply Forall_cons in Hb as [Ha Hb]. apply Forall_cons in Hb as [Hb' Hb].
    pose proof (sum16_bounds l Hb). cbn [sum16 net_sum] in *.
    rewrite lor_bytes by done. rewrite u32_id by ulia. rewrite IH by (done || ulia). lia.
Qed.

(** One's complement of the folded sum. *)
Definition ones_complement (total : Z) : Z := if total =? 0 then 65535 else 65534 - (total - 1) mod 65535.
Lemma finish_spec total : is_u32 total -> u16 (lnot32 (fold16 3 total)) = ones_complement total.
Proof.
  intros Ht. rewrite fold16_done by done. unfold ones_complement. destruct (Z.eqb_spec total 0); [reflexivity|].
  rewrite lnot32_val by ulia. ulia.
Qed.
Lemma ones_complement_u16 total : is_u16 (ones_complement total).
Proof. unfold ones_complement. bcase; ulia. Qed.

Lemma sum16_small l : is_bytes l -> len l <= 65535 -> is_u32 (sum16 l).
Proof. intros Hb Hl. pose proof (sum16_bounds l Hb). assert (0 <= len l) by (unfold len; lia). ulia. Qed.
Lemma net_checksum_spec l : is_bytes l -> len l <= 65535 -> net_checksum l = ones_complement (sum16 l).
Proof.
  intros Hb Hl. pose proof (sum16_small l Hb Hl). unfold net_checksum. rewrite net_sum_spec by (done || ulia).
  by rewrite finish_spec.
Qed.
(** Data verifies when its words add up to a positive multiple of 65535. *)
Lemma net_checksum_valid l :
  is_bytes l -> len l <= 65535 -> (net_checksum l = 0 <-> 0 < sum16 l /\ sum16 l mod 65535 = 0).
Proof.
  intros Hb Hl. pose proof (sum16_small l Hb Hl). rewrite net_checksum_spec by done. unfold ones_complement.
  bcase; ulia.
Qed.

(** Big-endian words of fields. *)
Lemma le16_htons v : is_u16 v -> le16 (htons v) = [v / 256; v mod 256].
Proof.
  intros (lo & hi & Hlo & Hhi & ->)%split16. rewrite htons_swap by done. rewrite le16_bytes by done.
  f_equal; [ulia|]. f_equal. ulia.
Qed.
Lemma le16_is_bytes v : is_bytes (le16 v).
Proof. unfold le16. repeat constructor; ulia. Qed.

(** * The IPv4 header *)

Section Header.
Context (total_length id protocol src dest : Z).
Context (Hp : is_u8 protocol).

Lemma ip_header_is_bytes checksum : is_bytes (ip_header_bytes total_length id protocol checksum src dest).
Proof using Hp. unfold ip_header_bytes. cbn [app]. repeat (constructor; [first [done | ulia]|]). constructor. Qed.
Lemma ip_header_length checksum : length (ip_header_bytes total_length id protocol checksum src dest) = 20%nat.
Proof. reflexivity. Qed.
Lemma ip_header_sum checksum :
  is_u16 checksum ->
  sum16 (ip_header_bytes total_length id protocol (htons checksum) src dest) =
  sum16 (ip_header_bytes total_length id protocol 0 src dest) + checksum.
Proof.
  intros Hc. unfold ip_header_bytes. rewrite (le16_htons checksum) by done.
  cbn -[Z.mul Z.add Z.modulo Z.div htons htonl]. ulia.
Qed.
Lemma ip_header_sum_pos : 0 < sum16 (ip_header_bytes total_length id protocol 0 src dest).
Proof using Hp. unfold ip_header_bytes. cbn -[Z.mul Z.add Z.modulo Z.div htons htonl]. ulia. Qed.

(** A header with the checksum of itself with a zero field verifies. *)
Lemma ip_header_verifies :
  let zero := ip_header_bytes total_length id protocol 0 src dest in
  net_checksum (ip_header_bytes total_length id protocol (htons (net_checksum zero)) src dest) = 0.
Proof using Hp.
  intros zero. assert (Hz : is_bytes zero) by apply ip_header_is_bytes.
  rewrite (net_checksum_spec zero) by (done || (unfold zero, len; rewrite ip_header_length; lia)).
  apply net_checksum_valid; [apply ip_header_is_bytes|unfold len; rewrite ip_header_length; lia|].
  rewrite ip_header_sum by apply ones_complement_u16. fold zero. pose proof ip_header_sum_pos as Hpos. fold zero in Hpos.
  unfold ones_complement. bcase; ulia.
Qed.
End Header.

(** * Slices *)

Lemma store_0 b v : store b 0 v = v ++ drop (length v) b.
Proof. reflexivity. Qed.
Lemma slice_app_r a b off n : len a <= off -> slice (a ++ b) off n = slice b (off - len a) n.
Proof.
  intros Ho. unfold slice, len in *. rewrite drop_app_ge by lia. do 2 f_equal. lia.
Qed.
Lemma nslice_app_l a b n : n = len a -> slice (a ++ b) 0 n = a.
Proof. intros ->. unfold slice, len. rewrite Nat2Z.id. cbn [Z.to_nat drop]. apply take_app_length. Qed.
(** The piece in the middle of a concatenation. *)
Lemma slice_mid a b c off n : off = len a -> n = len b -> slice (a ++ b ++ c) off n = b.
Proof. intros -> ->. rewrite slice_app_r, Z.sub_diag by lia. by apply nslice_app_l. Qed.

(** * IPv4 round trip *)

Section Roundtrip.
Context {E : Type} `{NetEnv E} `{NetCalls E}.
Implicit Types s : net E.

(** An IPv4 frame without options from a host [src] with the Ethernet address [smac],
    whose header carries its own checksum. *)
Definition header_from (src total_length id proto dest : Z) : list Z :=
  ip_header_bytes total_length id proto (htons (net_checksum (ip_header_bytes total_length id proto 0 src dest))) src dest.
Definition frame_from (smac : list Z) (src : Z) (mac : list Z) (id dest proto : Z) (payload : list Z) : list Z :=
  eth_bytes mac smac ETH_TYPE_IPV4 ++ header_from src (IP_HEADER_SIZE + len payload) id proto dest ++ payload.
(** The frames of [net_send_ipv4] are those of this host. *)
Lemma ipv4_frame_from mac id dest proto payload :
  ipv4_frame mac id dest proto payload = frame_from net_local_mac (htonl NET_LOCAL_IPV4) mac id dest proto payload.
Proof. reflexivity. Qed.

(** The fields that the receive path reads from such a frame. *)
Lemma frame_from_fields smac src mac id dest proto payload rest :
  length smac = 6%nat -> is_u32 src ->
  length mac = 6%nat -> is_u8 proto -> is_u32 dest -> is_u16 id -> len payload <= NET_IPV4_PAYLOAD_MAX ->
  let f := frame_from smac src mac id dest proto payload ++ rest in
  get16 f 12 = htons ETH_TYPE_IPV4 /\ arr_get f 14 = 0x45 /\ ntohs (get16 f 16) = 20 + len payload /\
  arr_get f 23 = proto /\ get32 f 26 = src /\ get32 f 30 = dest /\
  slice f 14 20 = header_from src (IP_HEADER_SIZE + len payload) id proto dest /\ slice f 34 (len payload) = payload.
Proof.
  intros Hsm Hs Hm Hp Hd Hid Hl f. unfold NET_IPV4_PAYLOAD_MAX in Hl. assert (0 <= len payload) by (unfold len; lia).
  destruct mac as [|m0 [|m1 [|m2 [|m3 [|m4 [|m5 [|]]]]]]]; try done.
  destruct smac as [|n0 [|n1 [|n2 [|n3 [|n4 [|n5 [|]]]]]]]; try done.
  assert (Es : slice f 14 20 = header_from src (IP_HEADER_SIZE + len payload) id proto dest /\ slice f 34 (len payload) = payload).
  { unfold f, frame_from. rewrite <- !app_assoc. split.
    - apply slice_mid; [reflexivity|]. unfold len, header_from. by rewrite ip_header_length.
    - rewrite app_assoc. apply slice_mid; [|done]. rewrite len_app. unfold len, header_from. by rewrite ip_header_length. }
  assert (Hlen : is_u16 (20 + len payload)) by ulia.
  destruct Es as [Es1 Es2]. split_and!; [..|exact Es1|exact Es2]; clear Es1 Es2;
  unfold f, frame_from, header_from, ip_header_bytes, eth_bytes;
  set (csum := htons (net_checksum _)); unfold IP_HEADER_SIZE;
  rewrite (le16_htons (20 + len payload)) by done; unfold get16, get32, arr_get; eval_indices;
  cbn -[Z.mul Z.add Z.modulo Z.div htons htonl]; try reflexivity; [|by apply le32_val..].
  unfold ntohs. rewrite htons_swap by ulia. ulia.
Qed.

(** A frame for this host passes every check of the receive path. *)
Lemma frame_from_received s smac src mac id dest proto payload rest :
  length smac = 6%nat -> is_u32 src ->
  length mac = 6%nat -> is_u8 proto -> is_u32 dest -> is_u16 id -> len payload <= NET_IPV4_PAYLOAD_MAX ->
  net_is_local_ipv4 dest = true ->
  frame s = frame_from smac src mac id dest proto payload ++ rest ->
  receive_frame (34 + len payload) s = receive_payload 34 (len payload) (34 + len payload) s /\
  slice (frame s) 34 (len payload) = payload /\ arr_get (frame s) 23 = proto /\
  get32 (frame s) 26 = src /\ get32 (frame s) 30 = dest.
Proof.
  intros Hsm Hs Hm Hp Hd Hid Hl Hloc Hf.
  pose proof (frame_from_fields smac src mac id dest proto payload rest Hsm Hs Hm Hp Hd Hid Hl) as F. cbv zeta in F. rewrite <- Hf in F.
  destruct F as (F12 & F14 & F16 & F23 & F26 & F30 & Fh & Fp). split; [|done].
  unfold receive_frame. rewrite F12. change (ntohs (htons ETH_TYPE_IPV4)) with ETH_TYPE_IPV4.
  change (ETH_TYPE_IPV4 =? ETH_TYPE_ARP) with false. rewrite Z.eqb_refl. cbv iota.
  unfold receive_ipv4. rewrite F14, F16, F30, Hloc. assert (0 <= len payload) by (unfold len; lia).
  unfold ETH_HEADER_SIZE, IP_HEADER_SIZE. change (Z.land 69 15 * 4) with 20. change (Z.shiftr 69 4 =? 4) with true.
  cbv zeta. rewrite Fh. unfold header_from. rewrite ip_header_verifies by done.
  cbn [Z.eqb negb]. bcases. cbn [andb]. change (14 + 20) with 34. by replace (20 + len payload - 20) with (len payload) by lia.
Qed.
Lemma net_ipv4_roundtrip_facts s mac id dest proto payload rest :
  length mac = 6%nat -> is_u8 proto -> is_u32 dest -> is_u16 id -> len payload <= NET_IPV4_PAYLOAD_MAX ->
  net_is_local_ipv4 dest = true ->
  frame s = ipv4_frame mac id dest proto payload ++ rest ->
  receive_frame (34 + len payload) s = receive_payload 34 (len payload) (34 + len payload) s /\
  slice (frame s) 34 (len payload) = payload /\ arr_get (frame s) 23 = proto /\
  get32 (frame s) 26 = htonl NET_LOCAL_IPV4 /\ get32 (frame s) 30 = dest.
Proof.
  intros Hm Hp Hd Hid Hl Hloc Hf. apply (frame_from_received s net_local_mac _ mac id dest proto payload rest); done.
Qed.

(** C25: what [net_send_ipv4] puts on the wire for an address of the receiver passes every
    check of the receive path (version, lengths, header checksum), and the protocol
    handler gets the sender's address, the protocol and exactly the payload, whatever
    the receive buffer held after the frame. *)
Theorem net_ipv4_roundtrip s mac id dest proto payload rest :
  length mac = 6%nat -> is_u8 proto -> is_u32 dest -> is_u16 id -> len payload <= NET_IPV4_PAYLOAD_MAX ->
  net_is_local_ipv4 dest = true ->
  frame s = ipv4_frame mac id dest proto payload ++ rest ->
  receive_frame (34 + len payload) s = receive_payload 34 (len payload) (34 + len payload) s /\
  slice (frame s) 34 (len payload) = payload /\ arr_get (frame s) 23 = proto /\
  get32 (frame s) 26 = htonl NET_LOCAL_IPV4 /\ get32 (frame s) 30 = dest.
Proof. apply net_ipv4_roundtrip_facts. Qed.
End Roundtrip.
