(* ===== verification/NetUdp.v ===== *)
(** UDP in src/src/kernel/net.c: the checksum that is sent does not verify, a length that
    is not checked before it is used, and the queue of a socket as a queue of
    datagrams. *)

From S2P Require Import Prelude TcpWire Net NetWire.

(** * Fields of a UDP packet in an IPv4 frame *)

Lemma arr_get_nslice f off n i : 0 <= i < n -> 0 <= off -> arr_get (slice f off n) i = arr_get f (off + i).
Proof.
  intros Hi Ho. unfold slice, arr_get. rewrite !list_lookup_total_alt. rewrite lookup_take_lt by lia.
  rewrite lookup_drop. do 2 f_equal. lia.
Qed.
Lemma get16_slice f off n i : 0 <= i -> i + 1 < n -> 0 <= off -> get16 (slice f off n) i = get16 f (off + i).
Proof. intros. unfold get16. rewrite !arr_get_nslice by lia. by rewrite Z.add_assoc. Qed.

Section Udp.
Context {E : Type} `{NetEnv E} `{NetCalls E}.
Implicit Types s : net E.

Definition udp_zero (src_port dest_port : Z) (payload : list Z) : list Z :=
  udp_bytes src_port dest_port (UDP_HEADER_SIZE + len payload) 0 payload.
Definition udp_checksum (dest_ip src_port dest_port : Z) (payload : list Z) : Z :=
  net_calculate_udp_checksum (htonl NET_LOCAL_IPV4) dest_ip (udp_zero src_port dest_port payload)
    (u16 (UDP_HEADER_SIZE + len payload)).
(** What the checksum of a UDP packet adds up. *)
Definition udp_total (src_ip dest_ip : Z) (packet : list Z) : Z :=
  sum16 (le32 src_ip) + sum16 (le32 dest_ip) + 17 + len packet + sum16 packet.

Lemma udp_bytes_length sp dp l c payload : len (udp_bytes sp dp l c payload) = 8 + len payload.
Proof. unfold udp_bytes. rewrite !len_app. unfold len. cbn. lia. Qed.
Lemma udp_bytes_is_bytes sp dp l c payload : is_bytes payload -> is_bytes (udp_bytes sp dp l c payload).
Proof. intros Hp. unfold udp_bytes. repeat (apply Forall_app; split; [apply le16_is_bytes|]). done. Qed.
Lemma udp_bytes_sum sp dp l lo hi payload :
  is_u8 lo -> is_u8 hi ->
  sum16 (udp_bytes sp dp l (lo + 256 * hi) payload) = sum16 (udp_bytes sp dp l 0 payload) + 256 * lo + hi.
Proof.
  intros Hlo Hhi. unfold udp_bytes. rewrite (le16_bytes lo hi) by done. change (le16 0) with [0; 0].
  unfold le16. cbn [app sum16]. lia.
Qed.
Lemma udp_total_bounds src dest packet :
  is_bytes packet -> len packet <= 65535 -> 0 < udp_total src dest packet /\ is_u32 (udp_total src dest packet).
Proof.
  intros Hb Hl. unfold udp_total. pose proof (sum16_bounds _ (le32_is_bytes src)) as B1.
  pose proof (sum16_bounds _ (le32_is_bytes dest)) as B2. pose proof (sum16_bounds _ Hb) as B3.
  change ((len (le32 _) + 1) / 2) with 2 in B1, B2. assert (0 <= len packet) by (unfold len; lia).
  assert ((len packet + 1) / 2 <= 32768) by ulia. ulia.
Qed.
(** The sums of the sender and of the receiver. *)
Lemma udp_sum_spec src dest packet l :
  is_bytes packet -> len packet <= 65535 -> l = len packet ->
  net_sum (u32 (u32 (net_sum (net_sum 0 (le32 src)) (le32 dest) + 17) + l)) packet = udp_total src dest packet.
Proof.
  intros Hb Hl ->. destruct (udp_total_bounds src dest packet Hb Hl) as [Hpos Hu]. unfold udp_total in *.
  pose proof (sum16_bounds _ (le32_is_bytes src)) as B1. pose proof (sum16_bounds _ (le32_is_bytes dest)) as B2.
  pose proof (sum16_bounds _ Hb) as B3. change ((len (le32 _) + 1) / 2) with 2 in B1, B2.
  assert (0 <= len packet) by (unfold len; lia).
  rewrite (net_sum_spec 0) by (apply le32_is_bytes || ulia). rewrite (net_sum_spec _ (le32 dest)) by (apply le32_is_bytes || ulia).
  rewrite (u32_id (_ + 17)), (u32_id (_ + len packet)) by ulia. rewrite net_sum_spec by (done || ulia). lia.
Qed.
Lemma udp_checksum_spec dest sp dp payload :
  is_bytes payload -> len payload <= 1472 ->
  udp_checksum dest sp dp payload = ones_complement (udp_total (htonl NET_LOCAL_IPV4) dest (udp_zero sp dp payload)).
Proof.
  intros Hb Hl. assert (0 <= len payload) by (unfold len; lia).
  unfold udp_checksum, net_calculate_udp_checksum, pseudo_sum. unfold UDP_HEADER_SIZE, IP_PROTO_UDP. rewrite (u16_id (8 + len payload)) by ulia.
  assert (Hlz : len (udp_zero sp dp payload) = 8 + len payload) by apply udp_bytes_length.
  rewrite take_ge by (unfold len in *; lia).
  rewrite udp_sum_spec by (try apply udp_bytes_is_bytes; done || lia).
  apply finish_spec. apply udp_total_bounds; [by apply udp_bytes_is_bytes|lia].
Qed.

(** The receiver's verdict on a UDP packet from a host [src]. *)
Lemma udp_validate_frame smac src mac id dest packet rest :
  length smac = 6%nat -> is_u32 src ->
  length mac = 6%nat -> is_u32 dest -> is_u16 id -> is_bytes packet -> 8 <= len packet <= NET_IPV4_PAYLOAD_MAX ->
  ntohs (get16 packet 4) = len packet ->
  net_validate_udp_checksum (frame_from smac src mac id dest IP_PROTO_UDP packet ++ rest) 34 =
  Some ((ntohs (get16 packet 6) =? 0) || (ones_complement (udp_total src dest packet) =? 0)).
Proof.
  intros Hsm Hs Hm Hd Hid Hb Hl Hlen. unfold NET_IPV4_PAYLOAD_MAX in Hl.
  destruct (frame_from_fields smac src mac id dest IP_PROTO_UDP packet rest) as (_ & _ & _ & F23 & F26 & F30 & _ & Fp);
    [done..|unfold NET_IPV4_PAYLOAD_MAX; lia|].
  set (f := frame_from smac src mac id dest IP_PROTO_UDP packet ++ rest) in *.
  assert (G : forall i, 0 <= i -> i + 1 < len packet -> get16 f (34 + i) = get16 packet i).
  { intros i Hi Hi'. rewrite <- (get16_slice f 34 (len packet)) by lia. by rewrite Fp. }
  assert (Hsl : slice f 26 4 = le32 src /\ slice f 30 4 = le32 dest).
  { destruct mac as [|m0 [|m1 [|m2 [|m3 [|m4 [|m5 [|]]]]]]]; try done.
    destruct smac as [|n0 [|n1 [|n2 [|n3 [|n4 [|n5 [|]]]]]]]; try done. }
  unfold net_validate_udp_checksum. rewrite (G 6), (G 4), Hlen by lia.
  destruct (ntohs (get16 packet 6) =? 0); [done|]. cbn [orb]. unfold NET_MTU_FRAME_SIZE.
  destruct (Z.ltb_spec 1518 (34 + len packet)); [lia|].
  destruct Hsl as [-> ->]. rewrite F23, Fp. unfold IP_PROTO_UDP. rewrite udp_sum_spec by (done || lia).
  rewrite finish_spec; [done|]. apply udp_total_bounds; [done|lia].
Qed.

Lemma udp_bytes_fields sp dp l c payload :
  is_u16 c -> ntohs (get16 (udp_bytes sp dp l c payload) 4) = u16 l /\ ntohs (get16 (udp_bytes sp dp l c payload) 6) = htons c.
Proof.
  intros Hc. unfold udp_bytes, get16, arr_get. eval_indices. cbn -[Z.mul Z.add Z.modulo Z.div htons htonl].
  rewrite !le16_val by (done || apply htons_u16). split; [|done]. apply htons_involutive, u16_range.
Qed.

(** the checksum of a UDP packet is stored without [htons].  The same stack refuses
    the packet unless the two bytes of the checksum are equal. *)
Theorem net_udp_checksum_swapped s mac id dest src_port dest_port payload rest :
  length mac = 6%nat -> is_u32 dest -> is_u16 id -> is_bytes payload -> len payload <= 1472 ->
  net_is_local_ipv4 dest = true ->
  let packet := udp_packet dest src_port dest_port payload in
  let c := udp_checksum dest src_port dest_port payload in
  frame s = ipv4_frame mac id dest IP_PROTO_UDP packet ++ rest ->
  net_validate_udp_checksum (frame s) 34 = Some (c mod 256 =? c / 256) /\
  (c mod 256 <> c / 256 -> receive_frame (34 + len packet) s = Some s).
Proof.
  intros Hm Hd Hid Hb Hl Hloc packet c Hf. assert (0 <= len payload) by (unfold len; lia).
  assert (Hpl : len packet = 8 + len payload) by apply udp_bytes_length.
  assert (Hpb : is_bytes packet) by (by apply udp_bytes_is_bytes).
  assert (Hc : c = ones_complement (udp_total (htonl NET_LOCAL_IPV4) dest (udp_zero src_port dest_port payload)))
    by (by apply udp_checksum_spec).
  assert (Hcu : is_u16 c) by (rewrite Hc; apply ones_complement_u16).
  assert (Epk : packet = udp_bytes src_port dest_port (UDP_HEADER_SIZE + len payload) c payload) by reflexivity.
  clearbody packet c.
  assert (Hv : net_validate_udp_checksum (frame s) 34 = Some (c mod 256 =? c / 256)).
  { assert (Hlen : ntohs (get16 packet 4) = len packet).
    { rewrite Hpl, Epk, (proj1 (udp_bytes_fields _ _ _ _ _ Hcu)). unfold UDP_HEADER_SIZE. apply u16_id. ulia. }
    rewrite Hf, ipv4_frame_from, udp_validate_frame by (done || (unfold NET_IPV4_PAYLOAD_MAX; lia)). f_equal.
    assert (Hck : ntohs (get16 packet 6) = htons c) by (rewrite Epk; by apply udp_bytes_fields). rewrite Hck.
    destruct (split16 c Hcu) as (lo & hi & Hlo & Hhi & Ec).
    assert (Et : udp_total (htonl NET_LOCAL_IPV4) dest packet =
                 udp_total (htonl NET_LOCAL_IPV4) dest (udp_zero src_port dest_port payload) + 256 * lo + hi).
    { unfold udp_total. rewrite Hpl. unfold udp_zero at 1. rewrite udp_bytes_length. fold (udp_zero src_port dest_port payload).
      rewrite Epk, Ec, udp_bytes_sum by done. fold (udp_zero src_port dest_port payload). lia. }
    rewrite Et. clear Et. destruct (udp_total_bounds (htonl NET_LOCAL_IPV4) dest (udp_zero src_port dest_port payload)) as [Hpos _];
      [by apply udp_bytes_is_bytes|unfold udp_zero; rewrite udp_bytes_length; lia|].
    set (T := udp_total _ _ (udp_zero _ _ _)) in *. clearbody T. rewrite Ec in Hc |- *. rewrite htons_swap by done.
    unfold ones_complement in *. clear -Hc Hpos Hlo Hhi. apply eq_true_iff_eq. rewrite orb_true_iff, !Z.eqb_eq.
    destruct (Z.eqb_spec T 0); [lia|]. destruct (Z.eqb_spec (T + 256 * lo + hi) 0); ulia. }
  split; [done|]. intros Hne.
  destruct (net_ipv4_roundtrip_facts s mac id dest IP_PROTO_UDP packet rest) as (-> & _ & F23 & _);
    [done|done|done|done|unfold NET_IPV4_PAYLOAD_MAX; lia|done|done|].
  unfold receive_payload. rewrite F23. change (IP_PROTO_UDP =? IP_PROTO_ICMP) with false. rewrite Z.eqb_refl. cbv iota.
  unfold receive_udp. unfold UDP_HEADER_SIZE. destruct (Z.ltb_spec (len packet) 8); [lia|]. rewrite Hv.
  destruct (Z.eqb_spec (c mod 256) (c / 256)); [done|]. reflexivity.
Qed.

(** the length in the UDP header is used before it is compared with anything: a
    packet with a checksum that announces more than the rest of the receive buffer makes
    the stack read memory past the buffer. *)
Theorem net_udp_length_overread s mac id dest packet rest :
  length mac = 6%nat -> is_u32 dest -> is_u16 id -> 8 <= len packet <= NET_IPV4_PAYLOAD_MAX ->
  net_is_local_ipv4 dest = true -> frame s = ipv4_frame mac id dest IP_PROTO_UDP packet ++ rest ->
  ntohs (get16 packet 6) <> 0 -> NET_MTU_FRAME_SIZE - 34 < ntohs (get16 packet 4) ->
  receive_frame (34 + len packet) s = None.
Proof.
  intros Hm Hd Hid Hl Hloc Hf Hck Hlen. unfold NET_IPV4_PAYLOAD_MAX, NET_MTU_FRAME_SIZE in *.
  destruct (net_ipv4_roundtrip_facts s mac id dest IP_PROTO_UDP packet rest) as (-> & Fp & F23 & _);
    [done|done|done|done|unfold NET_IPV4_PAYLOAD_MAX; lia|done|done|].
  assert (G : forall i, 0 <= i -> i + 1 < len packet -> get16 (frame s) (34 + i) = get16 packet i).
  { intros i Hi Hi'. rewrite <- (get16_slice (frame s) 34 (len packet)) by lia. by rewrite Fp. }
  unfold receive_payload. rewrite F23. change (IP_PROTO_UDP =? IP_PROTO_ICMP) with false. rewrite Z.eqb_refl. cbv iota.
  unfold receive_udp, UDP_HEADER_SIZE. destruct (Z.ltb_spec (len packet) 8); [lia|].
  unfold net_validate_udp_checksum. rewrite (G 6), (G 4) by lia. destruct (Z.eqb_spec (ntohs (get16 packet 6)) 0); [done|].
  unfold NET_MTU_FRAME_SIZE. by destruct (Z.ltb_spec 1518 (34 + ntohs (get16 packet 4))); [|lia].
Qed.
End Udp.

(** * The queue of a socket *)

Record queue_ok (sk : socket) : Prop := {
  qo_len : len (rx_queue sk) = 16;
  qo_head : 0 <= rx_head sk < 16;
  qo_count : 0 <= rx_count sk <= 16;
  qo_tail : rx_tail sk = (rx_head sk + rx_count sk) mod 16;
  qo_data i : 0 <= i < rx_count sk ->
    let pkt := arr_get (rx_queue sk) ((rx_head sk + i) mod 16) in
    exists d, pkt_data pkt = Some d /\ pkt_len pkt = len d
}.
(** The datagrams in the queue, oldest first. *)
Definition datagrams (sk : socket) : list (list Z) :=
  map (fun i => default [] (pkt_data (arr_get (rx_queue sk) ((rx_head sk + Z.of_nat i) mod 16)))) (seq 0 (Z.to_nat (rx_count sk))).

Lemma new_queue_ok sk :
  rx_queue sk = replicate 16 no_packet -> rx_head sk = 0 -> rx_tail sk = 0 -> rx_count sk = 0 -> queue_ok sk /\ datagrams sk = [].
Proof.
  intros Eq Eh Et Ec. split; [|unfold datagrams; by rewrite Ec].
  split; rewrite ?Eq, ?Eh, ?Et, ?Ec; try done; try lia.
Qed.

Lemma push_packet_ok sk d :
  queue_ok sk -> rx_count sk < 16 -> queue_ok (push_packet d sk) /\ datagrams (push_packet d sk) = datagrams sk ++ [d].
Proof.
  intros [Hl Hh Hc Ht Hd] Hroom. unfold push_packet.
  assert (Hti : 0 <= rx_tail sk < 16) by (rewrite Ht; apply Z.mod_pos_bound; lia).
  assert (Hold : forall i, 0 <= i < rx_count sk ->
    arr_get (arr_set (rx_queue sk) (rx_tail sk) (mk_pkt (Some d) (len d))) ((rx_head sk + i) mod 16) =
    arr_get (rx_queue sk) ((rx_head sk + i) mod 16)).
  { intros i Hi. apply arr_get_set_ne; [lia|apply Z.mod_pos_bound; lia|]. rewrite Ht. ulia. }
  assert (Hnew : arr_get (arr_set (rx_queue sk) (rx_tail sk) (mk_pkt (Some d) (len d))) ((rx_head sk + rx_count sk) mod 16) =
                 mk_pkt (Some d) (len d)) by (rewrite <- Ht; apply arr_get_set_eq; lia).
  split.
  - split; cbn; [by rewrite len_arr_set|lia|lia|unfold SOCKET_RX_BUF_SIZE; rewrite Ht; ulia|].
    intros i Hi. destruct (decide (i = rx_count sk)) as [->|]; [rewrite Hnew; by exists d|].
    rewrite Hold by lia. apply Hd. lia.
  - unfold datagrams. cbn. replace (Z.to_nat (rx_count sk + 1)) with (S (Z.to_nat (rx_count sk))) by lia.
    rewrite seq_S, map_app. f_equal.
    + apply map_ext_in. intros i [_ Hi]%in_seq. by rewrite Hold by lia.
    + cbn. by rewrite Z2Nat.id, Hnew by lia.
Qed.

Lemma take_packet_ok sk size :
  queue_ok sk -> 0 <= size ->
  match datagrams sk with
  | [] => take_packet size sk = None
  | d :: ds => exists sk', take_packet size sk = Some (take (Z.to_nat size) d, sk') /\ queue_ok sk' /\ datagrams sk' = ds
  end.
Proof.
  intros [Hl Hh Hc Ht Hd] Hs. unfold datagrams at 1, take_packet. destruct (Z.ltb_spec 0 (rx_count sk)) as [Hpos|Hz].
  2:{ by replace (rx_count sk) with 0 by lia. }
  replace (Z.to_nat (rx_count sk)) with (S (Z.to_nat (rx_count sk - 1))) by lia. cbn [seq map].
  destruct (Hd 0) as (d & Ed & El); [lia|]. change (Z.of_nat 0) with 0. 
  assert (E0 : (rx_head sk + 0) mod 16 = rx_head sk) by ulia. rewrite E0 in Ed, El |- *. rewrite Ed, El. cbn [default from_option id]. eexists. split; [|split].
  - f_equal. f_equal. unfold len. bcase; [done|]. by rewrite !take_ge by lia.
  - assert (Hold : forall i, 0 < i < rx_count sk -> forall p,
      arr_get (arr_set (rx_queue sk) (rx_head sk) p) ((rx_head sk + i) mod 16) = arr_get (rx_queue sk) ((rx_head sk + i) mod 16)).
    { intros i Hi p. apply arr_get_set_ne; [lia|apply Z.mod_pos_bound; lia|ulia]. }
    split; cbn; unfold SOCKET_RX_BUF_SIZE; [by rewrite len_arr_set|apply Z.mod_pos_bound; lia|lia|rewrite Ht; ulia|].
    intros i Hi. replace (((rx_head sk + 1) mod 16 + i) mod 16) with ((rx_head sk + (i + 1)) mod 16) by ulia.
    rewrite Hold by lia. apply Hd. lia.
  - unfold datagrams. cbn. unfold SOCKET_RX_BUF_SIZE. rewrite <- (seq_shift (Z.to_nat (rx_count sk - 1))), map_map.
    apply map_ext_in. intros i [_ Hi]%in_seq.
    replace (((rx_head sk + 1) mod 16 + Z.of_nat i) mod 16) with ((rx_head sk + Z.of_nat (S i)) mod 16) by ulia.
    rewrite arr_get_set_ne; [done|lia|apply Z.mod_pos_bound; lia|ulia].
Qed.

(** * Delivery *)

Section Delivery.
Context {E : Type} `{NetEnv E} `{NetCalls E}.
Implicit Types s : net E.

Definition queues_ok s : Prop := Forall queue_ok (sockets s).

Lemma find_udp_socket_spec port i l j sk :
  find_udp_socket port i l = Some (j, sk) ->
  (i <= j)%nat /\ l !! (j - i)%nat = Some sk /\ is_udp_target port sk = true.
Proof.
  revert i. induction l as [|x l IH]; intros i; cbn; [done|]. destruct (is_udp_target port x) eqn:Ex.
  - intros [= <- <-]. rewrite Nat.sub_diag. by split.
  - intros (Hle & Hl & ?)%IH. split; [lia|]. split; [|done]. by replace (j - i)%nat with (S (j - S i)) by lia.
Qed.

(** A datagram for a socket is put at the end of its queue, or dropped when the queue is
    full, it is empty or there is no memory; every other socket is left alone. *)
Lemma deliver_udp_run src sp port d s i sk :
  queues_ok s -> find_udp_socket port 0 (sockets s) = Some (i, sk) ->
  let s' := deliver_udp src sp port d s in
  let room := (len (datagrams sk) <? 16) && negb (len d =? 0) && fst (net_kmalloc (len d) (net_env s)) in
  queues_ok s' /\ exists sk', sockets s' = <[i := sk']> (sockets s) /\
    datagrams sk' = datagrams sk ++ (if room then [d] else []) /\
    (if room then sk_remote_addr sk' = src /\ sk_remote_port sk' = sp else sk' = sk).
Proof.
  intros Hok Hf. destruct (find_udp_socket_spec _ _ _ _ _ Hf) as (_ & Hi & _). rewrite Nat.sub_0_r in Hi.
  assert (Hsk : queue_ok sk) by (by eapply Forall_lookup_1).
  assert (Hlen : len (datagrams sk) = rx_count sk).
  { unfold datagrams, len. rewrite length_map, length_seq. destruct Hsk. lia. }
  unfold deliver_udp. rewrite Hf, Hlen. unfold SOCKET_RX_BUF_SIZE, kmalloc_packet, on_env. cbv zeta.
  destruct (Z.leb_spec 16 (rx_count sk)), (Z.ltb_spec (rx_count sk) 16); try lia; cbn [andb].
  { split; [exact Hok|]. exists sk. cbn. rewrite list_insert_id by done. by rewrite app_nil_r. }
  destruct (Z.eqb_spec (len d) 0); cbn [negb andb].
  { split; [exact Hok|]. exists sk. cbn. rewrite list_insert_id by done. by rewrite app_nil_r. }
  destruct (net_kmalloc (len d) (net_env s)) as [[|] e]; cbn [fst].
  - destruct (push_packet_ok sk d Hsk) as [Hok' Hd]; [lia|].
    split; [apply Forall_insert; [exact Hok|by destruct Hok']|].
    eexists. split; [reflexivity|]. split; [exact Hd|done].
  - split; [exact Hok|]. exists sk. cbn. rewrite list_insert_id by done. by rewrite app_nil_r.
Qed.

(** A packet whose checksum is absent or right is delivered. *)
Lemma receive_udp_frame s smac src mac id dest packet rest :
  length smac = 6%nat -> is_u32 src ->
  length mac = 6%nat -> is_u32 dest -> is_u16 id -> is_bytes packet -> 8 <= len packet <= NET_IPV4_PAYLOAD_MAX ->
  net_is_local_ipv4 dest = true -> frame s = frame_from smac src mac id dest IP_PROTO_UDP packet ++ rest ->
  ntohs (get16 packet 4) = len packet ->
  ntohs (get16 packet 6) = 0 \/ udp_total src dest packet mod 65535 = 0 ->
  receive_frame (34 + len packet) s =
  Some (deliver_udp src (ntohs (get16 packet 0)) (ntohs (get16 packet 2)) (drop 8 packet) s).
Proof.
  intros Hsm Hs Hm Hd Hid Hb Hl Hloc Hf Hlen Hck.
  destruct (frame_from_received s smac src mac id dest IP_PROTO_UDP packet rest) as (-> & Fp & F23 & F26 & _);
    [done..|lia|done|done|].
  assert (G : forall i, 0 <= i -> i + 1 < len packet -> get16 (frame s) (34 + i) = get16 packet i).
  { intros i Hi Hi'. rewrite <- (get16_slice (frame s) 34 (len packet)) by lia. by rewrite Fp. }
  unfold receive_payload. rewrite F23. change (IP_PROTO_UDP =? IP_PROTO_ICMP) with false. rewrite Z.eqb_refl. cbv iota.
  unfold receive_udp, UDP_HEADER_SIZE. destruct (Z.ltb_spec (len packet) 8); [lia|].
  rewrite Hf, udp_validate_frame, <- Hf by done.
  assert (Hv : (ntohs (get16 packet 6) =? 0) || (ones_complement (udp_total src dest packet) =? 0) = true).
  { destruct Hck as [->|Hck]; [done|]. destruct (udp_total_bounds src dest packet) as [Hpos _];
      [done|unfold NET_IPV4_PAYLOAD_MAX in *; lia|]. apply orb_true_iff. right. apply Z.eqb_eq. unfold ones_complement. bcase; ulia. }
  rewrite Hv. cbn [negb]. rewrite F26, (G 2), (G 4), Hlen by lia.
  replace (get16 (frame s) 34) with (get16 packet 0) by (rewrite <- (G 0) by lia; by rewrite Z.add_0_r).
  bcases; cbn [orb]; [lia..|]. do 2 f_equal.
  rewrite <- Fp at 2. unfold slice. rewrite skipn_firstn_comm, drop_drop.
  replace (Z.to_nat 34 + 8)%nat with (Z.to_nat (34 + 8)) by lia. f_equal. lia.
Qed.

End Delivery.
