(* ===== verification/NetArp.v ===== *)
(** ARP and ICMP of src/src/kernel/net.c: the cache as a bounded map, the exchange of a
    request and its reply, the echo reply, and the check of user buffers. *)

From S2P Require Import Prelude TcpWire Net NetWire.

(** * The ARP cache *)

Definition arp_ok (l : list arp_entry) : Prop :=
  NoDup (map ae_ip l) /\ len l <= ARP_CACHE_SIZE /\ Forall (fun a => ae_resolved a = true) l.

Lemma arp_update_known_spec ip mac l :
  match arp_update_known ip mac l with
  | None => ip ∉ map ae_ip l
  | Some l' => ip ∈ map ae_ip l /\ map ae_ip l' = map ae_ip l
  end.
Proof.
  induction l as [|a l IH]; cbn; [apply not_elem_of_nil|]. destruct (Z.eqb_spec (ae_ip a) ip) as [<-|Hne].
  { split; [left|done]. }
  destruct (arp_update_known ip mac l) as [l'|]; cbn.
  - destruct IH as [? ->]. split; [by right|done].
  - rewrite not_elem_of_cons. auto.
Qed.
Lemma arp_resolve_app ip l1 l2 :
  arp_resolve ip (l1 ++ l2) = match arp_resolve ip l1 with Some m => Some m | None => arp_resolve ip l2 end.
Proof. induction l1 as [|a l1 IH]; [done|]. cbn. by destruct (_ && _). Qed.
Lemma arp_resolve_none ip l : ip ∉ map ae_ip l -> arp_resolve ip l = None.
Proof.
  induction l as [|a l IH]; [done|]. cbn. rewrite not_elem_of_cons. intros [Ha Hl].
  destruct (Z.eqb_spec (ae_ip a) ip); [congruence|]. by apply IH.
Qed.
Lemma arp_update_known_resolve ip mac l l' ip' :
  arp_update_known ip mac l = Some l' -> arp_resolve ip' l' = if ip' =? ip then Some mac else arp_resolve ip' l.
Proof.
  revert l'. induction l as [|a l IH]; intros l'; cbn; [done|]. destruct (Z.eqb_spec (ae_ip a) ip) as [E|Hne].
  - intros [= <-]. cbn. rewrite E, (Z.eqb_sym ip). by destruct (Z.eqb_spec ip' ip).
  - destruct (arp_update_known ip mac l) as [l''|]; [|done]. intros [= <-]. cbn. rewrite (IH l'') by done.
    destruct (Z.eqb_spec ip' ip) as [->|]; [|done]. by destruct (Z.eqb_spec (ae_ip a) ip).
Qed.
Lemma arp_update_known_resolved ip mac l l' :
  arp_update_known ip mac l = Some l' -> Forall (fun a => ae_resolved a = true) l -> Forall (fun a => ae_resolved a = true) l'.
Proof.
  revert l'. induction l as [|a l IH]; intros l'; cbn; [done|]. intros Hu Hl. apply Forall_cons in Hl as [Ha Hl].
  destruct (ae_ip a =? ip); [injection Hu as <-; by apply Forall_cons|].
  destruct (arp_update_known ip mac l) as [l''|]; [|done]. injection Hu as <-. apply Forall_cons. auto.
Qed.

(** The address that a new entry pushes out of a full cache. *)
Definition arp_victim (ip : Z) (l : list arp_entry) : option Z :=
  if bool_decide (ip ∈ map ae_ip l) || (len l <? ARP_CACHE_SIZE) then None else ae_ip <$> head l.

Lemma arp_cache_facts ip mac l :
  arp_ok l ->
  let l' := arp_cache_update ip mac l in
  arp_ok l' /\ arp_resolve ip l' = Some mac /\
  forall ip', ip' <> ip ->
    arp_resolve ip' l' = if bool_decide (arp_victim ip l = Some ip') then None else arp_resolve ip' l.
Proof.
  intros (Hnd & Hlen & Hres) l'. unfold l', arp_cache_update, arp_victim.
  pose proof (arp_update_known_spec ip mac l) as Hk. destruct (arp_update_known ip mac l) as [u|] eqn:Eu.
  - destruct Hk as [Hin Emap]. rewrite bool_decide_eq_true_2 by done. cbn [orb]. split; [|split].
    + split; [by rewrite Emap|]. split; [|by eapply arp_update_known_resolved].
      unfold len in *. by rewrite <- (length_map ae_ip u), Emap, length_map.
    + by rewrite (arp_update_known_resolve ip mac l u), Z.eqb_refl.
    + intros ip' Hne. rewrite (arp_update_known_resolve ip mac l u) by done. by destruct (Z.eqb_spec ip' ip).
  - rewrite bool_decide_eq_false_2 by done. cbn [orb].
    assert (Hnew : forall r, ip ∉ map ae_ip r -> arp_resolve ip (r ++ [mk_arp ip mac true]) = Some mac).
    { intros r Hr. rewrite arp_resolve_app, arp_resolve_none by done. cbn. by rewrite Z.eqb_refl. }
    assert (Hother : forall r ip', ip' <> ip -> arp_resolve ip' (r ++ [mk_arp ip mac true]) = arp_resolve ip' r).
    { intros r ip' Hne. rewrite arp_resolve_app. destruct (arp_resolve ip' r); [done|]. cbn. by destruct (Z.eqb_spec ip ip'). }
    assert (Hok : forall r, NoDup (map ae_ip r) -> ip ∉ map ae_ip r -> len r + 1 <= ARP_CACHE_SIZE ->
      Forall (fun a => ae_resolved a = true) r -> arp_ok (r ++ [mk_arp ip mac true])).
    { intros r Hr Hi Hl Hf. split; [|split].
      - rewrite map_app. apply NoDup_app. split; [done|]. split; [|apply NoDup_singleton].
        intros x Hx ->%list_elem_of_singleton. done.
      - rewrite len_app. exact Hl.
      - apply Forall_app_2; [done|by apply Forall_singleton]. }
    destruct (Z.ltb_spec (len l) ARP_CACHE_SIZE) as [Hroom|Hfull].
    + split; [apply Hok; [done|done|lia|done]|]. split; [by apply Hnew|]. intros ip' Hne. by rewrite Hother.
    + destruct l as [|a r]; [done|]. change (drop 1 (a :: r)) with r. cbn [map] in *. apply not_elem_of_cons in Hk as [_ Hk].
      apply NoDup_cons in Hnd as [Ha Hnd]. apply Forall_cons in Hres as [Hra Hres].
      assert (len (a :: r) = len r + 1) by (unfold len; cbn; lia).
      split; [apply Hok; [done|done|lia|done]|]. split; [by apply Hnew|]. intros ip' Hne. rewrite Hother by done.
      cbn [head fmap option_fmap option_map arp_resolve]. rewrite Hra, andb_true_r.
      destruct (Z.eqb_spec (ae_ip a) ip') as [<-|Hane].
      * rewrite bool_decide_eq_true_2 by done. by apply arp_resolve_none.
      * rewrite bool_decide_eq_false_2 by congruence. done.
Qed.

(** the ARP cache is a map of at most 16 addresses: an update is what a lookup then
    finds, it leaves the other addresses alone except that a new address pushes the
    oldest one out of a full cache, and no address ever has two entries. *)
Theorem arp_cache_spec ip mac l :
  arp_ok l ->
  let l' := arp_cache_update ip mac l in
  arp_ok l' /\ arp_resolve ip l' = Some mac /\
  forall ip', ip' <> ip ->
    arp_resolve ip' l' = if bool_decide (arp_victim ip l = Some ip') then None else arp_resolve ip' l.
Proof. apply arp_cache_facts. Qed.

Lemma arp_cache_spec_witness :
  arp_resolve 7 (arp_cache_update 7 [1; 2; 3; 4; 5; 6] [mk_arp 9 [6; 5; 4; 3; 2; 1] true]) = Some [1; 2; 3; 4; 5; 6].
Proof.
  refine (proj1 (proj2 (arp_cache_spec 7 [1; 2; 3; 4; 5; 6] [mk_arp 9 [6; 5; 4; 3; 2; 1] true] _))).
  split; [apply NoDup_singleton|]. split; [done|by apply Forall_singleton].
Defined.

(** * ARP request and reply *)

Section Exchange.
Context {E : Type} `{NetEnv E} `{NetCalls E}.
Implicit Types s : net E.

(** The fields of an ARP frame in the receive buffer. *)
Lemma arp_frame_fields dmac smac opcode amac aip tmac tip rest :
  length dmac = 6%nat -> length smac = 6%nat -> length amac = 6%nat -> length tmac = 6%nat ->
  is_u16 opcode -> is_u32 aip -> is_u32 tip ->
  let f := eth_bytes dmac smac ETH_TYPE_ARP ++ arp_bytes opcode amac aip tmac tip ++ rest in
  slice f 6 6 = smac /\ ntohs (get16 f 12) = ETH_TYPE_ARP /\ ntohs (get16 f 14) = ARP_HW_TYPE_ETHERNET /\
  ntohs (get16 f 16) = ETH_TYPE_IPV4 /\ arr_get f 18 = NET_ETH_ADDR_LEN /\ arr_get f 19 = NET_IPV4_ADDR_LEN /\
  ntohs (get16 f 20) = opcode /\ slice f 22 6 = amac /\ get32 f 28 = aip /\ get32 f 38 = tip.
Proof.
  intros H1 H2 H3 H4 Ho Ha Ht f.
  destruct dmac as [|d0 [|d1 [|d2 [|d3 [|d4 [|d5 [|]]]]]]]; try done.
  destruct smac as [|s0 [|s1 [|s2 [|s3 [|s4 [|s5 [|]]]]]]]; try done.
  destruct amac as [|a0 [|a1 [|a2 [|a3 [|a4 [|a5 [|]]]]]]]; try done.
  destruct tmac as [|t0 [|t1 [|t2 [|t3 [|t4 [|t5 [|]]]]]]]; try done.
  unfold f, eth_bytes, arp_bytes. split_and!; try reflexivity;
    unfold get16, get32, arr_get; eval_indices; cbn -[Z.mul Z.add Z.modulo Z.div htons htonl];
    rewrite ?le16_val, ?le32_val by (done || apply htons_u16); try reflexivity. by apply htons_involutive.
Qed.

(** an ARP request for the address of this host, in the receive buffer, puts the
    sender into the cache and is answered with one frame to the sender; that frame, in
    the buffer of a host running the same code, makes it map this host's address to
    this host's Ethernet address. *)
Theorem arp_exchange s s' dmac smac amac aip tmac rest rest' :
  length dmac = 6%nat -> length smac = 6%nat -> length amac = 6%nat -> length tmac = 6%nat -> is_u32 aip ->
  frame s = eth_bytes dmac smac ETH_TYPE_ARP ++ arp_bytes ARP_OPCODE_REQUEST amac aip tmac (htonl NET_LOCAL_IPV4) ++ rest ->
  arp_ok (arp_cache s') ->
  let reply := arp_reply (frame s) in
  frame s' = reply ++ rest' ->
  let cached := s <| arp_cache := arp_cache_update aip amac (arp_cache s) |> in
  receive_frame 42 s = Some (snd (on_env (e1000_send_packet reply) cached)) /\
  len reply = 42 /\ slice reply 0 6 = smac /\
  exists t, receive_frame 42 s' = Some t /\ arp_resolve (htonl NET_LOCAL_IPV4) (arp_cache t) = Some net_local_mac.
Proof.
  intros H1 H2 H3 H4 Ha Hf Hok reply Hf' cached.
  destruct (arp_frame_fields dmac smac ARP_OPCODE_REQUEST amac aip tmac (htonl NET_LOCAL_IPV4) rest)
    as (F6 & F12 & F14 & F16 & F18 & F19 & F20 & F22 & F28 & F38); try done.
  rewrite <- Hf in F6, F12, F14, F16, F18, F19, F20, F22, F28, F38.
  assert (Er : reply = eth_bytes smac net_local_mac ETH_TYPE_ARP ++
                       arp_bytes ARP_OPCODE_REPLY net_local_mac (htonl NET_LOCAL_IPV4) amac aip)
    by (unfold reply, arp_reply; by rewrite F6, F22, F28).
  split; [|split; [|split]].
  - unfold receive_frame. rewrite F12, Z.eqb_refl. unfold net_handle_arp. cbv zeta.
    rewrite F14, F16, F18, F19, F20, F22, F28, F38. reflexivity.
  - rewrite Er. unfold eth_bytes, arp_bytes. rewrite !len_app. unfold len. rewrite H2, H3. reflexivity.
  - rewrite Er. unfold eth_bytes. rewrite <- !app_assoc. apply nslice_app_l. unfold len. by rewrite H2.
  - destruct (arp_frame_fields smac net_local_mac ARP_OPCODE_REPLY net_local_mac (htonl NET_LOCAL_IPV4) amac aip rest')
      as (_ & G12 & G14 & G16 & G18 & G19 & G20 & G22 & G28 & _); try done.
    rewrite Er, <- app_assoc in Hf'. rewrite <- Hf' in G12, G14, G16, G18, G19, G20, G22, G28.
    eexists. split.
    + unfold receive_frame. rewrite G12, Z.eqb_refl. unfold net_handle_arp. cbv zeta.
      rewrite G14, G16, G18, G19, G20, G22, G28. reflexivity.
    + by apply arp_cache_facts.
Qed.
End Exchange.
