(* ===== verification/NetIcmp.v ===== *)
(** ICMP echo in src/src/kernel/net.c: the reply made in the receive buffer is the request
    with the addresses exchanged and valid checksums; what a raw socket then gets; and
    the check of user buffers. *)

From S2P Require Import Prelude TcpWire Net NetWire.

(** * Stores *)

Lemma len_store b off v : 0 <= off -> off + len v <= len b -> len (store b off v) = len b.
Proof. intros Ho Hl. unfold store, len in *. rewrite !length_app, length_take, length_drop. lia. Qed.
Lemma lookup_store b off v i :
  0 <= off -> off + len v <= len b ->
  store b off v !! i = if decide (off <= Z.of_nat i < off + len v) then v !! (i - Z.to_nat off)%nat else b !! i.
Proof.
  intros Ho Hl. unfold store, len in *. case_decide as Hi.
  - rewrite lookup_app_r by (rewrite length_take; lia). rewrite length_take, lookup_app_l by lia. f_equal. lia.
  - destruct (decide (Z.of_nat i < off)) as [Hlt|Hge].
    + rewrite lookup_app_l by (rewrite length_take; lia). apply lookup_take_lt. lia.
    + rewrite !lookup_app_r by (rewrite ?length_take; lia). rewrite length_take, lookup_drop. f_equal. lia.
Qed.
Lemma lookup_slice b off n i : slice b off n !! i = if decide (Z.of_nat i < n) then b !! (Z.to_nat off + i)%nat else None.
Proof.
  unfold slice. case_decide.
  - rewrite lookup_take_lt by lia. apply lookup_drop.
  - apply lookup_take_ge. lia.
Qed.
Lemma slice_store_same b off v : 0 <= off -> off + len v <= len b -> slice (store b off v) off (len v) = v.
Proof.
  intros Ho Hl. apply list_eq. intros i. rewrite lookup_slice. case_decide as Hi.
  - rewrite lookup_store by done. rewrite decide_True by lia. f_equal. lia.
  - symmetry. apply lookup_ge_None. unfold len in Hi. lia.
Qed.
Lemma slice_store_other b off v o n :
  0 <= off -> off + len v <= len b -> 0 <= o -> o + n <= off \/ off + len v <= o -> slice (store b off v) o n = slice b o n.
Proof.
  intros Ho Hl Hs Hd. apply list_eq. intros i. rewrite !lookup_slice. case_decide as Hi; [|done].
  rewrite lookup_store by done. by rewrite decide_False by lia.
Qed.
Lemma slice_store_inside b off v o n :
  0 <= o <= off -> off + len v <= o + n -> o + n <= len b -> slice (store b off v) o n = store (slice b o n) (off - o) v.
Proof.
  intros Ho Hv Hl. assert (0 <= len v) by (unfold len; lia).
  assert (Hls : len (slice b o n) = n) by (unfold slice, len in *; rewrite length_take, length_drop; lia).
  apply list_eq. intros i. rewrite lookup_slice, !lookup_store by lia.
  rewrite lookup_slice. repeat case_decide; try lia; [f_equal; lia|done|done].
Qed.
Lemma len_nslice b off n : 0 <= off -> 0 <= n -> off + n <= len b -> len (slice b off n) = n.
Proof. intros. unfold slice, len in *. rewrite length_take, length_drop. lia. Qed.
Lemma slice_bytes b off n : is_bytes b -> is_bytes (slice b off n).
Proof. intros. unfold slice. by apply Forall_take, Forall_drop. Qed.
Lemma store_bytes b off v : is_bytes b -> is_bytes v -> is_bytes (store b off v).
Proof. intros. unfold store. apply Forall_app_2; [by apply Forall_take|]. apply Forall_app_2; [done|by apply Forall_drop]. Qed.
Lemma store_store b off v w : 0 <= off -> off + len v <= len b -> len w = len v -> store (store b off v) off w = store b off w.
Proof.
  intros Ho Hl Hw. apply list_eq. intros i. rewrite !lookup_store; rewrite ?len_store; try lia. by repeat case_decide; try lia.
Qed.

(** * Putting a checksum in place *)

(** A 16-bit field at an even offset. *)
Lemma sum16_store l off :
  (Nat.even off = true) -> (off + 2 <= length l)%nat ->
  exists rest, forall a b, sum16 (store l (Z.of_nat off) [a; b]) = rest + 256 * a + b.
Proof.
  intros He Hl. exists (sum16 (take off l) + sum16 (drop (off + 2) l)). intros a' b'. unfold store. rewrite Nat2Z.id.
  rewrite sum16_app by (rewrite length_take; by replace (off `min` length l)%nat with off by lia).
  change ([a'; b'] ++ drop (off + length [a'; b']) l) with (a' :: b' :: drop (off + 2) l). cbn [sum16]. lia.
Qed.
Lemma checksum_in_place l off :
  is_bytes l -> Nat.even off = true -> (off + 2 <= length l)%nat -> len l <= 65535 ->
  let zero := store l (Z.of_nat off) (le16 0) in
  net_checksum (store zero (Z.of_nat off) (le16 (htons (net_checksum zero)))) = 0.
Proof.
  intros Hb He Hl Hlen zero. assert (Hll : len zero = len l) by (apply len_store; unfold len; cbn; lia).
  assert (Hz : is_bytes zero) by (apply store_bytes; [done|apply le16_is_bytes]).
  rewrite (net_checksum_spec zero) by (done || lia). unfold zero at 1. rewrite store_store by (unfold len; cbn; lia || done).
  destruct (sum16_store l off He Hl) as [rest Hsum].
  assert (Hzs : sum16 zero = rest) by (unfold zero; change (le16 0) with [0; 0]; rewrite Hsum; lia).
  pose proof (ones_complement_u16 (sum16 zero)) as Hu. set (c := ones_complement (sum16 zero)) in *.
  rewrite (le16_htons c) by done. pose proof (sum16_bounds zero Hz) as Hzb.
  apply net_checksum_valid.
  - apply store_bytes; [done|]. repeat constructor; ulia.
  - rewrite len_store; [lia|lia|unfold len in *; cbn; lia].
  - rewrite Hsum. unfold c, ones_complement in *. clear -Hzs Hzb. bcase; ulia.
Qed.

(** A checksum over the range [o, o + n) of a buffer, put at offset [o + k] of it. *)
Lemma checksum_in_buffer b o n k :
  is_bytes b -> 0 <= o -> 0 <= n <= 65535 -> o + n <= len b -> Nat.even k = true -> (k + 2 <= Z.to_nat n)%nat ->
  let zero := store b (o + Z.of_nat k) (le16 0) in
  net_checksum (slice (store zero (o + Z.of_nat k) (le16 (htons (net_checksum (slice zero o n))))) o n) = 0.
Proof.
  intros Hb Ho Hn Hl He Hk zero. assert (Hlz : len zero = len b) by (apply len_store; unfold len in *; cbn; lia).
  rewrite slice_store_inside by (unfold len in *; cbn; lia).
  replace (o + Z.of_nat k - o) with (Z.of_nat k) by lia. unfold zero.
  rewrite slice_store_inside by (unfold len in *; cbn; lia). replace (o + Z.of_nat k - o) with (Z.of_nat k) by lia.
  assert (Hls : len (slice b o n) = n) by (apply len_nslice; lia).
  apply checksum_in_place; [by apply slice_bytes|done|unfold len in Hls; lia|lia].
Qed.

(** * The echo reply *)

Lemma get_bytes f i : is_bytes f -> is_u8 (arr_get f i).
Proof.
  intros Hb. unfold arr_get. rewrite list_lookup_total_alt. destruct (f !! Z.to_nat i) as [v|] eqn:E; cbn; [|ulia].
  by apply (Forall_lookup_1 _ _ _ _ Hb E).
Qed.
Lemma arr_get_lookup (b : list Z) i : 0 <= i < len b -> b !! Z.to_nat i = Some (arr_get b i).
Proof. intros Hi. apply list_lookup_lookup_total_lt. unfold len in Hi. lia. Qed.
Lemma slice_cons (b : list Z) off n : 0 <= off < len b -> 0 < n -> slice b off n = arr_get b off :: slice b (off + 1) (n - 1).
Proof.
  intros Ho Hn. unfold slice. rewrite (drop_S b (arr_get b off) (Z.to_nat off)) by (by apply arr_get_lookup).
  replace (Z.to_nat n) with (S (Z.to_nat (n - 1))) by lia. cbn [take]. do 2 f_equal. f_equal. lia.
Qed.
Lemma le32_get32 b off : is_bytes b -> 0 <= off -> off + 4 <= len b -> le32 (get32 b off) = slice b off 4.
Proof.
  intros Hb Ho Hl. unfold get32. rewrite le32_bytes by (by apply get_bytes).
  rewrite !slice_cons by lia. rewrite <- !Z.add_assoc. reflexivity.
Qed.

(** A buffer with a field stored in it. *)
Definition stored (f g : list Z) (off : Z) (v : list Z) : Prop :=
  g = store f off v /\ 0 <= off /\ off + len v <= len f /\ len g = len f /\ is_bytes g.
Lemma stored_intro f off v :
  is_bytes f -> is_bytes v -> 0 <= off -> off + len v <= len f -> stored f (store f off v) off v.
Proof. intros. split_and!; [done|done|done|by apply len_store|by apply store_bytes]. Qed.
Lemma stored_same f g off v n : stored f g off v -> n = len v -> slice g off n = v.
Proof. intros (-> & ? & ? & _) ->. by apply slice_store_same. Qed.
Lemma stored_other f g off v o n :
  stored f g off v -> 0 <= o -> o + n <= off \/ off + len v <= o -> slice g o n = slice f o n.
Proof. intros (-> & ? & ? & _) ??. by apply slice_store_other. Qed.

Section Reply.
Context (f : list Z) (hl il : Z).
Context (Hb : is_bytes f) (Hhl : 20 <= hl) (Hil : 8 <= il) (Hlen : 14 + hl + il <= len f) (Hmax : len f <= 65535).

Ltac lens :=
  repeat (rewrite len_nslice by lia); try change (len (le16 _)) with 2; try change (len (le32 _)) with 4;
  try change (len net_local_mac) with 6; try change (len [_]) with 1; lia.
Ltac other H := rewrite (stored_other _ _ _ _ _ _ H) by lens.
Ltac others := repeat match goal with H : stored _ ?g _ _ |- context [slice ?g _ _] => progress other H end.
Ltac same := match goal with H : stored _ ?g _ _ |- context [slice ?g _ _] => rewrite (stored_same _ _ _ _ _ H) by lens end.
Ltac name_store g H :=
  match goal with |- context [store ?b ?off ?v] =>
    is_var b; assert (H : stored b (store b off v) off v);
    [apply stored_intro;
      [done|first [apply le16_is_bytes|apply le32_is_bytes|by apply slice_bytes|
         unfold net_local_mac, ICMP_TYPE_ECHO_REPLY; repeat (apply Forall_cons_2; [ulia|]); apply Forall_nil_2]|lia|lens]
    |set (g := store b off v) in *; pose proof H as (_ & _ & _ & ? & ?); clearbody g] end.

Lemma echo_reply_facts (g := echo_reply f hl il) :
  len g = len f /\ is_bytes g /\
  slice g 0 6 = slice f 6 6 /\ slice g 6 6 = net_local_mac /\
  slice g 12 12 = slice f 12 12 /\
  slice g 26 4 = le32 (htonl NET_LOCAL_IPV4) /\ slice g 30 4 = slice f 26 4 /\
  slice g 34 (hl - 20) = slice f 34 (hl - 20) /\
  net_checksum (slice g 14 hl) = 0 /\
  slice g (14 + hl) 1 = [ICMP_TYPE_ECHO_REPLY] /\ slice g (14 + hl + 1) 1 = slice f (14 + hl + 1) 1 /\
  slice g (14 + hl + 4) (il - 4) = slice f (14 + hl + 4) (il - 4) /\
  net_checksum (slice g (14 + hl) il) = 0.
Proof.
  subst g. unfold echo_reply. rewrite le32_get32 by (done || lia).
  name_store f1 S1. name_store f2 S2. name_store f3 S3. name_store f4 S4.
  name_store f5 S5. name_store f6 S6. name_store f7 S7. name_store f8 S8. name_store f9 S9.
  split_and!; try (others; try same; done); [congruence| |].
  - do 3 (match goal with H : stored _ ?g _ _ |- context [slice ?g _ _] => other H end).
    destruct S6 as [-> _], S5 as [-> _]. apply (checksum_in_buffer f4 14 hl 10); (done || lia).
  - destruct S9 as [-> _], S8 as [-> _]. apply (checksum_in_buffer f7 (14 + hl) il 2); (done || lia).
Qed.
End Reply.

(** an echo request for this host is answered with exactly one frame of the same
    length: Ethernet and IP addresses are exchanged (this host as the source), both
    checksums are valid, the type is "echo reply", and the rest of both headers and the
    payload is what the request carried. *)
Theorem icmp_echo_reply {E : Type} `{NetEnv E} (s : net E) (frame_length : Z) :
  let f := frame s in
  let hl := Z.land (arr_get f 14) 15 * 4 in
  let total := ntohs (get16 f 16) in
  is_bytes f -> len f = 1518 -> frame_length <= len f ->
  Z.shiftr (arr_get f 14) 4 = 4 -> 20 <= hl -> hl + 8 <= total -> 14 + total <= frame_length ->
  arr_get f 23 = IP_PROTO_ICMP -> get32 f 30 = htonl NET_LOCAL_IPV4 ->
  arr_get f (14 + hl) = ICMP_TYPE_ECHO_REQ -> arr_get f (14 + hl + 1) = 0 ->
  exists g,
    net_handle_icmp frame_length s = snd (on_env (e1000_send_packet (slice g 0 (14 + total))) (s <| frame := g |>)) /\
    len (slice g 0 (14 + total)) = 14 + total /\
    slice g 0 6 = slice f 6 6 /\ slice g 6 6 = net_local_mac /\ slice g 12 12 = slice f 12 12 /\
    slice g 26 4 = le32 (htonl NET_LOCAL_IPV4) /\ slice g 30 4 = slice f 26 4 /\
    slice g 34 (hl - 20) = slice f 34 (hl - 20) /\ net_checksum (slice g 14 hl) = 0 /\
    slice g (14 + hl) 1 = [ICMP_TYPE_ECHO_REPLY] /\ slice g (14 + hl + 1) 1 = slice f (14 + hl + 1) 1 /\
    slice g (14 + hl + 4) (total - hl - 4) = slice f (14 + hl + 4) (total - hl - 4) /\
    net_checksum (slice g (14 + hl) (total - hl)) = 0.
Proof.
  intros f hl total Hb Hlf Hfl Hver Hhl Htot Hfit Hproto Hdest Htype Hcode.
  exists (echo_reply f hl (total - hl)).
  destruct (echo_reply_facts f hl (total - hl)) as (Hlg & _ & Hfacts); try (done || lia).
  split; [|split; [apply len_nslice; lia|exact Hfacts]].
  unfold net_handle_icmp. fold f. cbv zeta. fold hl total. rewrite Hver, Hproto, Hdest, Htype, Hcode.
  unfold ETH_HEADER_SIZE, IP_HEADER_SIZE, ICMP_PACKET_SIZE.
  rewrite !(proj2 (Z.ltb_ge _ _)) by lia. reflexivity.
Qed.

(** * User buffers *)

Lemma pages_mapped_spec mapped n : forall page,
  0 <= page -> page + Z.of_nat n * NET_PAGE_SIZE < 2 ^ 64 ->
  exists r, pages_mapped (S n) mapped page (page + Z.of_nat n * NET_PAGE_SIZE) = Some r /\
    (r = true <-> forall k, 0 <= k <= Z.of_nat n -> mapped (page + k * NET_PAGE_SIZE) = true).
Proof.
  unfold NET_PAGE_SIZE. induction n as [|n IH]; intros page Hp Hlt.
  - cbn. rewrite Z.add_0_r, Z.eqb_refl. exists (mapped page). split; [by destruct (mapped page)|]. split.
    + intros Hm k Hk. by replace (page + k * 4096) with page by lia.
    + intros Hm. specialize (Hm 0). rewrite Z.add_0_r in Hm. by apply Hm.
  - replace (page + Z.of_nat (S n) * 4096) with (page + 4096 + Z.of_nat n * 4096) in * by lia.
    destruct (IH (page + 4096)) as (r & Hr & Hiff); [lia|lia|].
    remember (S n) as m eqn:Em. cbn [pages_mapped]. destruct (mapped page) eqn:Hpg.
    + exists r. cbn [negb]. rewrite (proj2 (Z.eqb_neq _ _)) by lia. unfold NET_PAGE_SIZE.
      rewrite (u64_id (page + 4096)) by ulia. split; [done|]. rewrite Hiff. split.
      * intros Hm k Hk. destruct (decide (k = 0)) as [->|]; [by rewrite Z.add_0_r|].
        specialize (Hm (k - 1)). replace (page + k * 4096) with (page + 4096 + (k - 1) * 4096) by lia. apply Hm. lia.
      * intros Hm k Hk. replace (page + 4096 + k * 4096) with (page + (k + 1) * 4096) by lia. apply Hm. lia.
    + exists false. split; [done|]. split; [done|]. intros Hm. specialize (Hm 0 ltac:(lia)). rewrite Z.add_0_r in Hm. congruence.
Qed.

(** The address of the last byte, computed with wrap-around. *)
Lemma last_byte start length :
  is_u64 start -> 0 < length < 2 ^ 64 ->
  (start + length <= 2 ^ 64 -> u64 (u64 (start + length) - 1) = start + length - 1) /\
  (2 ^ 64 < start + length -> u64 (u64 (start + length) - 1) < start).
Proof.
  change (2 ^ 64) with 18446744073709551616. intros Hs Hl.
  assert (Hu : u64 (u64 (start + length) - 1) = u64 (start + length - 1)).
  { unfold u64. by rewrite Zminus_mod_idemp_l. }
  rewrite Hu. clear Hu. ulia.
Qed.

Lemma accessible_facts kernel_space mapped start length :
  is_u64 start -> is_u64 length ->
  exists r, user_buffer_accessible kernel_space mapped start length = Some r /\
    (r = true <->
     length = 0 \/
     (kernel_space = false /\ NET_USER_BASE <= start /\ start + length <= 2 ^ 64 /\
      forall a, start <= a < start + length -> mapped (a / NET_PAGE_SIZE * NET_PAGE_SIZE) = true)).
Proof.
  intros Hs Hl. unfold user_buffer_accessible. destruct (Z.eqb_spec length 0) as [->|Hne]; [exists true; naive_solver|].
  destruct kernel_space; cbn [orb]; [exists false; naive_solver|].
  destruct (Z.ltb_spec start NET_USER_BASE) as [Hlow|Hhigh]; [exists false; split; [done|]; naive_solver lia|].
  assert (Hpos : 0 < length) by (unfold is_u64 in *; lia).
  cbv zeta. destruct (last_byte start length) as [Hin Hout]; [done|unfold is_u64 in *; lia|].
  destruct (Z.le_gt_cases (start + length) (2 ^ 64)) as [Hfit|Hover].
  2: { rewrite (proj2 (Z.ltb_lt _ _)) by (by apply Hout). exists false. split; [done|]. naive_solver lia. }
  rewrite Hin, (proj2 (Z.ltb_ge _ _)) by lia. clear Hin Hout.
  change NET_PAGE_SIZE with (2 ^ 12) at 1 2. rewrite !(land_align_down _ 12) by (unfold is_u64, NET_USER_BASE in *; lia). change (2 ^ 12) with 4096.
  set (p := start / 4096). set (q := (start + length - 1) / 4096).
  assert (Hpq : 0 <= p <= q) by (unfold p, q, NET_USER_BASE in *; ulia).
  replace ((q * 4096 - p * 4096) / NET_PAGE_SIZE) with (q - p) by (unfold NET_PAGE_SIZE; ulia).
  destruct (pages_mapped_spec mapped (Z.to_nat (q - p)) (p * 4096)) as (r & Hr & Hiff);
    [lia|unfold NET_PAGE_SIZE, p, q; ulia|].
  exists r. unfold NET_PAGE_SIZE in *. rewrite Z2Nat.id in * by lia.
  replace (p * 4096 + (q - p) * 4096) with (q * 4096) in Hr by lia. split; [done|]. rewrite Hiff. split.
  - intros Hm. right. split_and!; try done. intros a Ha. specialize (Hm (a / 4096 - p)).
    replace (p * 4096 + (a / 4096 - p) * 4096) with (a / 4096 * 4096) in Hm by lia. apply Hm.
    unfold p, q. pose proof (Z.div_le_mono start a 4096). pose proof (Z.div_le_mono a (start + length - 1) 4096). lia.
  - intros [?|(_ & _ & _ & Hm)] k Hk; [done|].
    specialize (Hm (Z.max start ((p + k) * 4096))). replace (Z.max start ((p + k) * 4096) / 4096) with (p + k) in Hm
      by (unfold p, q in *; ulia).
    replace (p * 4096 + k * 4096) with ((p + k) * 4096) by lia. apply Hm. unfold p, q in *. ulia.
Qed.

(** C34: [user_buffer_accessible] always returns.  It accepts every empty buffer, and of the
    others exactly those of a task with an address space of its own that start at or above
    [NET_USER_BASE], do not wrap around, and lie in pages that are all mapped.  No upper
    limit is tested: a buffer in the kernel half whose pages are mapped is accepted, unlike
    by [vmm_validate_user_ptr], which [syscall_handler] applies before its one caller. *)
Theorem user_buffer_accessible_exact kernel_space mapped start length :
  is_u64 start -> is_u64 length ->
  exists r, user_buffer_accessible kernel_space mapped start length = Some r /\
    (r = true <->
     length = 0 \/
     (kernel_space = false /\ NET_USER_BASE <= start /\ start + length <= 2 ^ 64 /\
      forall a, start <= a < start + length -> mapped (a / NET_PAGE_SIZE * NET_PAGE_SIZE) = true)).
Proof. apply accessible_facts. Qed.
