(* ===== verification/NetDemo.v ===== *)
(** The network stack below TCP on a concrete card: an instance of [NetEnv] and
    [NetCalls], and the runs that show the theorems of NetWire, NetUdp, NetArp and
    NetIcmp at work. *)

From S2P Require Import Prelude TcpWire Net NetWire NetUdp NetArp NetIcmp.

(** The card records what is sent; memory never runs out; TCP takes no segments. *)
Record card := mk_card { wire : list (list Z); pending : list (list Z) }.
#[export] Instance card_env : NetEnv card := {|
  e1000_receive_packet _ c :=
    match pending c with [] => (None, c) | p :: l => (Some p, mk_card (wire c) l) end;
  e1000_send_packet p c := (true, mk_card (wire c ++ [p]) (pending c));
  net_kmalloc _ c := (true, c);
  scheduler_wake_socket _ c := c;
  scheduler_wake_socket_receivers _ c := c |}.
#[export] Instance card_calls : NetCalls card := {|
  call_tcp_input _ _ _ s := (0, s);
  scheduler_yield s := s |}.

Definition demo_mac : list Z := [0x52; 0x54; 0; 1; 2; 3].
Definition demo_ip : Z := htonl NET_LOCAL_IPV4.
Definition demo_socket (port : Z) : socket :=
  mk_socket 3 2 SOCK_DGRAM IP_PROTO_UDP 0 port 0 0 0 (replicate 16 no_packet) 0 0 0 [] 0 0 0 0 true.
Definition demo_net (f : list Z) : net card := mk_net [] 1 1 [demo_socket 7; demo_socket 9] f (mk_card [] []).
Definition demo_fill (l : list Z) : list Z := l ++ replicate (1518 - length l) 0.

Ltac num := vm_compute; repeat split; congruence.

Definition raw_frame : list Z := ipv4_frame demo_mac 7 demo_ip 200 [1; 2; 3] ++ [0; 0].
Lemma net_ipv4_roundtrip_witness :
  receive_frame 37 (demo_net raw_frame) = receive_payload 34 3 37 (demo_net raw_frame).
Proof.
  exact (proj1 (net_ipv4_roundtrip (demo_net raw_frame) demo_mac 7 demo_ip 200 [1; 2; 3] [0; 0]
    eq_refl ltac:(num) ltac:(num) ltac:(num) ltac:(num) eq_refl eq_refl)).
Defined.

(** The packet that this stack sends from port 5 to port 9, and what it does with it. *)
Definition swapped_packet : list Z := udp_packet demo_ip 5 9 [1; 2; 3].
Definition swapped_frame : list Z := ipv4_frame demo_mac 7 demo_ip IP_PROTO_UDP swapped_packet ++ [].
Lemma net_udp_checksum_swapped_witness : receive_frame (34 + 11) (demo_net swapped_frame) = Some (demo_net swapped_frame).
Proof.
  apply (net_udp_checksum_swapped (demo_net swapped_frame) demo_mac 7 demo_ip 5 9 [1; 2; 3] []);
    [done|num|num|repeat constructor; num|num|done|done|num].
Defined.

(** A header that announces 60,000 bytes. *)
Definition long_packet : list Z := [0; 5; 0; 9; 0xEA; 0x60; 1; 1].
Definition long_frame : list Z := ipv4_frame demo_mac 7 demo_ip IP_PROTO_UDP long_packet ++ [].
Lemma net_udp_length_overread_witness : receive_frame (34 + 8) (demo_net long_frame) = None.
Proof.
  apply (net_udp_length_overread (demo_net long_frame) demo_mac 7 demo_ip long_packet []);
    [done|num|num|num|done|done|num|done].
Defined.

(** A packet from port 5 of 10.0.2.77 without a checksum to port 9, the second socket. *)
Definition plain_packet : list Z := [0; 5; 0; 9; 0; 11; 0; 0; 1; 2; 3].
Definition asker_ip : Z := htonl 0x0A00024D.
Definition plain_frame : list Z := frame_from demo_mac asker_ip demo_mac 7 demo_ip IP_PROTO_UDP plain_packet ++ [].

(** A host at 10.0.2.77 asks for this host. *)
Definition request_frame : list Z :=
  eth_bytes (replicate 6 0xFF) demo_mac ETH_TYPE_ARP ++
  arp_bytes ARP_OPCODE_REQUEST demo_mac asker_ip (replicate 6 0) demo_ip ++ [].
Lemma arp_exchange_witness :
  exists t, receive_frame 42 (demo_net (arp_reply request_frame ++ [])) = Some t /\
    arp_resolve demo_ip (arp_cache t) = Some net_local_mac.
Proof.
  refine (proj2 (proj2 (proj2 (arp_exchange (demo_net request_frame) (demo_net (arp_reply request_frame ++ []))
    (replicate 6 0xFF) demo_mac demo_mac asker_ip (replicate 6 0) [] [] eq_refl eq_refl eq_refl eq_refl ltac:(num) eq_refl _ eq_refl)))).
  split; [apply NoDup_nil_2|]. split; [num|by apply Forall_nil].
Defined.

(** An echo request with two bytes of payload. *)
Definition echo_packet : list Z := [8; 0; 0xF6; 0xFB; 0; 1; 0; 1; 1; 2].
Definition echo_frame : list Z := demo_fill (ipv4_frame demo_mac 7 demo_ip IP_PROTO_ICMP echo_packet).
Lemma icmp_echo_reply_witness :
  exists g, net_handle_icmp 44 (demo_net echo_frame) =
      snd (on_env (e1000_send_packet (slice g 0 44)) (demo_net echo_frame <| frame := g |>)) /\
    slice g 34 1 = [ICMP_TYPE_ECHO_REPLY].
Proof.
  destruct (icmp_echo_reply (demo_net echo_frame) 44) as (g & Hrun & _ & _ & _ & _ & _ & _ & _ & _ & Htype & _);
    [|done|num|done|num|num|num|done|done|done|done|exists g; split; [exact Hrun|exact Htype]].
  apply Forall_app_2; [|apply Forall_replicate; num].
  repeat (apply Forall_cons_2; [num|]). apply Forall_nil_2.
Defined.

(** Two pages of user space are mapped. *)
Lemma user_buffer_accessible_exact_witness :
  exists r, user_buffer_accessible false (fun p => p <? 0x0000008000002000) 0x0000008000000FF0 0x20 = Some r /\ (r = true <->
     0x20 = 0 \/
     (false = false /\ NET_USER_BASE <= 0x0000008000000FF0 /\ 0x0000008000000FF0 + 0x20 <= 2 ^ 64 /\
      forall a, 0x0000008000000FF0 <= a < 0x0000008000000FF0 + 0x20 ->
        (a / NET_PAGE_SIZE * NET_PAGE_SIZE <? 0x0000008000002000) = true)).
Proof.
  exact (user_buffer_accessible_exact false (fun p => p <? 0x0000008000002000) 0x0000008000000FF0 0x20
    ltac:(num) ltac:(num)).
Defined.
