(* ===== verification/Pipe.v ===== *)
(** The pipes of src/src/kernel/kernel.c: the ring of a pipe, [pipe_read], [pipe_write] and
    [pipe_node_close] on it, and the proof that a pipe is a bounded queue of bytes.

    A call runs under the lock of the pipe, so it is one step.  What it asks of the
    scheduler is part of its result. *)

From S2P Require Import Prelude.

Definition PIPE_BUFFER_SIZE : Z := 4096.

Record pipe_buffer := mk_pipe {
  p_data : list Z;
  read_pos : Z;
  write_pos : Z;
  p_count : Z;
  readers : Z;
  writers : Z
}.
#[export] Instance eta_pipe_buffer : Eta pipe_buffer := fun p =>
  mk_pipe (p_data p) (read_pos p) (write_pos p) (p_count p) (readers p) (writers p).

Record pipe_end := mk_end { e_pipe : Z; readable : bool; writable : bool }.

(** What a call asks of the scheduler. *)
Inductive pipe_event := WakeReaders | WakeWriters | SleepRead | SleepWrite | SigPipe.

(** * Operations *)

(** The pipe that [sys_pipe] makes. *)
Definition new_pipe : pipe_buffer := mk_pipe (replicate 4096 0) 0 0 0 1 1.

(** [n] bytes are left to read. *)
Fixpoint read_loop (n : nat) (p : pipe_buffer) : list Z * pipe_buffer :=
  match n with
  | O => ([], p)
  | S n' =>
      if 0 <? p_count p then
        let byte := arr_get (p_data p) (read_pos p) in
        let '(bytes, p) := read_loop n' (p <| read_pos := (read_pos p + 1) mod PIPE_BUFFER_SIZE |>
                                           <| p_count := p_count p - 1 |>) in
        (byte :: bytes, p)
      else ([], p)
  end.
(** The bytes read; their number is the value returned. *)
Definition pipe_read (size : Z) (p : pipe_buffer) : list Z * pipe_buffer * list pipe_event :=
  let '(bytes, p) := read_loop (Z.to_nat size) p in
  match bytes with
  | [] => if writers p =? 0 then ([], p, []) else ([], p, [SleepRead])
  | _ => (bytes, p, [WakeWriters])
  end.

(** [buffer] is what is left to write; the number of bytes written. *)
Fixpoint write_loop (buffer : list Z) (p : pipe_buffer) : Z * pipe_buffer :=
  match buffer with
  | [] => (0, p)
  | byte :: buffer' =>
      if p_count p <? PIPE_BUFFER_SIZE then
        let '(n, p) := write_loop buffer' (p <| p_data := arr_set (p_data p) (write_pos p) byte |>
                                             <| write_pos := (write_pos p + 1) mod PIPE_BUFFER_SIZE |>
                                             <| p_count := p_count p + 1 |>) in
        (n + 1, p)
      else (0, p)
  end.
(** A broken pipe returns the 64-bit pattern of -1. *)
Definition pipe_write (buffer : list Z) (p : pipe_buffer) : Z * pipe_buffer * list pipe_event :=
  if readers p =? 0 then (u64 (-1), p, [SigPipe])
  else
    let '(n, p) := write_loop buffer p in
    (n, p, if n =? 0 then [SleepWrite] else [WakeReaders]).

(** The pipe after the end [e] is closed, whether it is freed, and the wake-ups. *)
Definition pipe_close_end (e : pipe_end) (p : pipe_buffer) : pipe_buffer * bool * list pipe_event :=
  let '(p, ev1) :=
    if readable e then
      let p := if 0 <? readers p then p <| readers := readers p - 1 |> else p in
      (p, if readers p =? 0 then [WakeWriters] else [])
    else (p, []) in
  let '(p, ev2) :=
    if writable e then
      let p := if 0 <? writers p then p <| writers := writers p - 1 |> else p in
      (p, if writers p =? 0 then [WakeReaders] else [])
    else (p, []) in
  (p, (readers p =? 0) && (writers p =? 0), ev1 ++ ev2).

(** * A pipe is a queue of bytes *)

Record pipe_ok (p : pipe_buffer) : Prop := {
  po_len : len (p_data p) = 4096;
  po_read : 0 <= read_pos p < 4096;
  po_count : 0 <= p_count p <= 4096;
  po_write : write_pos p = (read_pos p + p_count p) mod 4096
}.
(** The bytes in the pipe, the oldest first. *)
Definition contents (p : pipe_buffer) : list Z :=
  map (fun i => arr_get (p_data p) ((read_pos p + Z.of_nat i) mod 4096)) (seq 0 (Z.to_nat (p_count p))).

Lemma len_contents p : pipe_ok p -> len (contents p) = p_count p.
Proof. intros []. unfold contents, len. rewrite length_map, length_seq. lia. Qed.
Lemma new_pipe_ok : pipe_ok new_pipe /\ contents new_pipe = [].
Proof. split; [|done]. split; cbn; try lia; [done|]. reflexivity. Qed.

(** One byte leaves the queue. *)
Lemma pop_byte p :
  pipe_ok p -> 0 < p_count p ->
  let p' := p <| read_pos := (read_pos p + 1) mod PIPE_BUFFER_SIZE |> <| p_count := p_count p - 1 |> in
  pipe_ok p' /\ contents p = arr_get (p_data p) (read_pos p) :: contents p'.
Proof.
  intros [Hl Hr Hc Hw] Hpos p'. unfold PIPE_BUFFER_SIZE in p'. split.
  - split; cbn; [done|apply Z.mod_pos_bound; lia|lia|rewrite Hw; ulia].
  - unfold contents. cbn. replace (Z.to_nat (p_count p)) with (S (Z.to_nat (p_count p - 1))) by lia.
    cbn [seq map]. f_equal; [f_equal; ulia|]. rewrite <- seq_shift, map_map. apply map_ext. intros i. f_equal. ulia.
Qed.
(** One byte enters the queue. *)
Lemma push_byte p byte :
  pipe_ok p -> p_count p < 4096 ->
  let p' := p <| p_data := arr_set (p_data p) (write_pos p) byte |>
              <| write_pos := (write_pos p + 1) mod PIPE_BUFFER_SIZE |> <| p_count := p_count p + 1 |> in
  pipe_ok p' /\ contents p' = contents p ++ [byte].
Proof.
  intros [Hl Hr Hc Hw] Hroom p'. unfold PIPE_BUFFER_SIZE in p'.
  assert (Hwi : 0 <= write_pos p < 4096) by (rewrite Hw; apply Z.mod_pos_bound; lia). split.
  - split; cbn; [by rewrite len_arr_set|done|lia|rewrite Hw; ulia].
  - unfold contents. cbn. replace (Z.to_nat (p_count p + 1)) with (S (Z.to_nat (p_count p))) by lia.
    rewrite seq_S, map_app. f_equal.
    + apply map_ext_in. intros i [_ Hi]%in_seq. apply arr_get_set_ne; [lia|apply Z.mod_pos_bound; lia|].
      rewrite Hw. ulia.
    + cbn. f_equal. rewrite Z2Nat.id, <- Hw by lia. apply arr_get_set_eq. lia.
Qed.

(** The ends of a pipe do not change while it is read and written. *)
Definition same_ends (p p' : pipe_buffer) : Prop := readers p' = readers p /\ writers p' = writers p.

Lemma read_loop_spec n : forall p,
  pipe_ok p ->
  let '(bytes, p') := read_loop n p in
  pipe_ok p' /\ bytes = take n (contents p) /\ contents p' = drop n (contents p) /\ same_ends p p'.
Proof.
  induction n as [|n IH]; intros p Hp; cbn [read_loop]; [done|].
  destruct (Z.ltb_spec 0 (p_count p)) as [Hpos|Hz].
  - destruct (pop_byte p Hp Hpos) as [Hp' Hc]. specialize (IH _ Hp'). destruct (read_loop n _) as [bytes q].
    rewrite Hc. destruct IH as (Hq & -> & -> & He). done.
  - assert (E : contents p = []) by (unfold contents; by replace (p_count p) with 0 by (destruct Hp; lia)).
    by rewrite E.
Qed.
Lemma write_loop_spec buffer : forall p,
  pipe_ok p ->
  let '(n, p') := write_loop buffer p in
  pipe_ok p' /\ n = Z.min (len buffer) (4096 - p_count p) /\
  contents p' = contents p ++ take (Z.to_nat n) buffer /\ same_ends p p'.
Proof.
  induction buffer as [|byte buffer IH]; intros p Hp; cbn [write_loop].
  - split; [done|]. split; [destruct Hp; unfold len; cbn; lia|]. by rewrite take_nil, app_nil_r.
  - unfold PIPE_BUFFER_SIZE at 1. destruct (Z.ltb_spec (p_count p) 4096) as [Hroom|Hfull].
    + destruct (push_byte p byte Hp Hroom) as [Hp' Hc]. specialize (IH _ Hp'). destruct (write_loop buffer _) as [n q].
      destruct IH as (Hq & Hn & Hcq & He). split; [done|]. cbn in Hn. unfold len in *. cbn [length].
      split; [lia|]. split; [|done]. rewrite Hcq, Hc, <- app_assoc.
      destruct Hp. replace (Z.to_nat (n + 1)) with (S (Z.to_nat n)) by lia. done.
    + split; [done|]. split; [destruct Hp; unfold len; cbn; lia|]. by rewrite take_0, app_nil_r.
Qed.

(** [pipe_read] and [pipe_write] on the queue. *)
Lemma pipe_read_facts size p :
  pipe_ok p -> 0 <= size ->
  let '(bytes, p', ev) := pipe_read size p in
  pipe_ok p' /\ same_ends p p' /\ bytes = take (Z.to_nat size) (contents p) /\
  contents p' = drop (Z.to_nat size) (contents p) /\
  ev = if 0 <? len bytes then [WakeWriters] else if writers p =? 0 then [] else [SleepRead].
Proof.
  intros Hp Hs. unfold pipe_read. pose proof (read_loop_spec (Z.to_nat size) p Hp) as H.
  destruct (read_loop (Z.to_nat size) p) as [bytes q]. destruct H as (Hq & Hb & Hc & Hr & Hw).
  destruct bytes as [|b bytes]; [rewrite Hw; by destruct (writers p =? 0)|done].
Qed.
Lemma pipe_write_facts buffer p :
  pipe_ok p -> 0 < readers p ->
  let '(n, p', ev) := pipe_write buffer p in
  pipe_ok p' /\ same_ends p p' /\ n = Z.min (len buffer) (4096 - len (contents p)) /\
  contents p' = contents p ++ take (Z.to_nat n) buffer /\
  ev = if 0 <? n then [WakeReaders] else [SleepWrite].
Proof.
  intros Hp Hr. unfold pipe_write. destruct (Z.eqb_spec (readers p) 0); [lia|].
  rewrite (len_contents p Hp). pose proof (write_loop_spec buffer p Hp) as H.
  destruct (write_loop buffer p) as [k q]. destruct H as (Hq & Hk & Hc & He).
  split_and!; try done. destruct Hp. assert (0 <= k) by (unfold len in *; lia).
  destruct (Z.eqb_spec k 0), (Z.ltb_spec 0 k); (done || lia).
Qed.

(** Calls of the readers and the writers, in any order. *)
Inductive pipe_op := PRead (size : Z) | PWrite (buffer : list Z).
Definition pipe_step (op : pipe_op) (p : pipe_buffer) : list Z * list Z * pipe_buffer * list pipe_event :=
  match op with
  | PRead size => let '(bytes, p, ev) := pipe_read size p in (bytes, [], p, ev)
  | PWrite buffer => let '(n, p, ev) := pipe_write buffer p in ([], take (Z.to_nat n) buffer, p, ev)
  end.
(** What was read and what was accepted, in order. *)
Fixpoint pipe_run (ops : list pipe_op) (p : pipe_buffer) : list Z * list Z * pipe_buffer :=
  match ops with
  | [] => ([], [], p)
  | op :: ops' =>
      let '(out, acc, p, _) := pipe_step op p in
      let '(outs, accs, p) := pipe_run ops' p in
      (out ++ outs, acc ++ accs, p)
  end.
Definition op_ok (op : pipe_op) : Prop := match op with PRead size => 0 <= size | PWrite _ => True end.

(** C28: a pipe is a first-in first-out queue of at most 4096 bytes, whatever calls of
    readers and writers are made in whatever order: what was read, followed by what is
    still in the pipe, is exactly what was accepted from the writers, in order. *)
Theorem pipe_fifo ops p :
  pipe_ok p -> 0 < readers p -> Forall op_ok ops ->
  let '(outs, accs, p') := pipe_run ops p in
  pipe_ok p' /\ len (contents p') <= 4096 /\ outs ++ contents p' = contents p ++ accs.
Proof.
  revert p. induction ops as [|op ops IH]; intros p Hp Hr Hok; cbn [pipe_run].
  { rewrite app_nil_r, len_contents by done. split; [done|]. split; [by destruct Hp as [_ _ [_ ?] _]|done]. }
  apply Forall_cons in Hok as [Hop Hok].
  assert (Hstep : let '(out, acc, q, _) := pipe_step op p in
    pipe_ok q /\ same_ends p q /\ out ++ contents q = contents p ++ acc).
  { destruct op as [size|buffer]; cbn [pipe_step].
    - pose proof (pipe_read_facts size p Hp Hop) as H. destruct (pipe_read size p) as [[bytes q] ev].
      destruct H as (Hq & He & -> & Hd & _). rewrite Hd, app_nil_r. split_and!; [done|done|apply take_drop].
    - pose proof (pipe_write_facts buffer p Hp Hr) as H. destruct (pipe_write buffer p) as [[n q] ev].
      by destruct H as (Hq & He & _ & -> & _). }
  destruct (pipe_step op p) as [[[out acc] q] ev]. destruct Hstep as (Hq & [Hrd _] & Hc).
  specialize (IH q Hq ltac:(lia) Hok). destruct (pipe_run ops q) as [[outs accs] q'].
  destruct IH as (Hq' & Hb & Hcs). split; [done|]. split; [done|]. by rewrite <- app_assoc, Hcs, app_assoc, Hc, <- app_assoc.
Qed.
Lemma pipe_fifo_witness :
  let '(outs, accs, p') := pipe_run [PWrite [1; 2; 3]; PRead 2; PWrite [4]; PRead 5] new_pipe in
  pipe_ok p' /\ len (contents p') <= 4096 /\ outs ++ contents p' = contents new_pipe ++ accs.
Proof.
  apply pipe_fifo; [apply new_pipe_ok|reflexivity|repeat constructor; cbn; lia].
Defined.

(** Closing an end. *)
Definition drop_one (b : bool) (n : Z) : Z := if b then (if 0 <? n then n - 1 else n) else n.
Lemma pipe_close_end_eq e p :
  let r := drop_one (readable e) (readers p) in
  let w := drop_one (writable e) (writers p) in
  pipe_close_end e p =
    (p <| readers := r |> <| writers := w |>, (r =? 0) && (w =? 0),
     (if readable e then (if r =? 0 then [WakeWriters] else []) else []) ++
     (if writable e then (if w =? 0 then [WakeReaders] else []) else [])).
Proof.
  unfold pipe_close_end, drop_one. destruct e as [a [] []], p as [d rp wp c r w];
    cbv -[Z.ltb Z.eqb Z.sub]; destruct (0 <? r), (0 <? w); reflexivity.
Qed.

(** a task sleeps on a pipe only when its call could do nothing (the pipe is empty and
    has a writer, or is full and has a reader), a call that moves a byte wakes the tasks
    that wait on the other side, and closing the last end of a side wakes the tasks that
    wait on the other side: no call leaves a sleeper with something to do. *)
Theorem pipe_no_missed_wakeup p size buffer e :
  pipe_ok p -> 0 < size -> buffer <> [] -> 0 < readers p -> 0 <= writers p ->
  let '(bytes, p1, ev1) := pipe_read size p in
  let '(n, p2, ev2) := pipe_write buffer p in
  let '(p3, freed, ev3) := pipe_close_end e p in
  (SleepRead ∈ ev1 -> contents p1 = [] /\ 0 < writers p1) /\
  (contents p1 <> contents p -> WakeWriters ∈ ev1) /\
  (SleepWrite ∈ ev2 -> len (contents p2) = 4096 /\ 0 < readers p2) /\
  (contents p2 <> contents p -> WakeReaders ∈ ev2) /\
  (readers p3 = 0 -> WakeWriters ∈ ev3) /\ (writers p3 = 0 -> writers p <> 0 -> WakeReaders ∈ ev3) /\
  (freed = true <-> readers p3 = 0 /\ writers p3 = 0) /\ contents p3 = contents p.
Proof.
  intros Hp Hs Hb Hr Hw. pose proof (pipe_read_facts size p Hp ltac:(lia)) as H1. destruct (pipe_read size p) as [[bytes p1] ev1].
  pose proof (pipe_write_facts buffer p Hp Hr) as H2. destruct (pipe_write buffer p) as [[n p2] ev2].
  destruct H1 as (Hp1 & [Er1 Ew1] & Hby & Hc1 & ->). destruct H2 as (Hp2 & [Er2 Ew2] & Hn & Hc2 & ->).
  assert (Hbl : 0 < len buffer) by (destruct buffer; [done|unfold len; cbn; lia]).
  rewrite pipe_close_end_eq. unfold drop_one. split_and!.
  - destruct (Z.ltb_spec 0 (len bytes)) as [|Hz]; [set_solver|]. destruct (Z.eqb_spec (writers p) 0); [set_solver|].
    intros _. split; [|lia]. rewrite Hc1. apply drop_ge. subst bytes. unfold len in Hz. rewrite length_take in Hz. lia.
  - destruct (Z.ltb_spec 0 (len bytes)) as [|Hz]; [set_solver|]. intros []. rewrite Hc1. subst bytes. unfold len in Hz.
    rewrite length_take in Hz. destruct (contents p); [by rewrite drop_nil|cbn in Hz; lia].
  - destruct (Z.ltb_spec 0 n) as [|Hz]; [set_solver|]. intros _. split; [|lia]. rewrite Hc2.
    replace (Z.to_nat n) with 0%nat by lia. rewrite take_0, app_nil_r. rewrite (len_contents p Hp) in *. destruct Hp. lia.
  - destruct (Z.ltb_spec 0 n) as [|Hz]; [set_solver|]. intros []. rewrite Hc2.
    replace (Z.to_nat n) with 0%nat by lia. by rewrite take_0, app_nil_r.
  - cbn. destruct (readable e); [|lia]. intros ->. set_solver.
  - cbn. destruct (writable e); [|done]. intros -> _. set_solver.
  - cbn. rewrite andb_true_iff, !Z.eqb_eq. done.
  - done.
Qed.
Lemma pipe_no_missed_wakeup_witness :
  let '(bytes, p1, ev1) := pipe_read 1 new_pipe in
  let '(n, p2, ev2) := pipe_write [7] new_pipe in
  let '(p3, freed, ev3) := pipe_close_end (mk_end 1 true false) new_pipe in
  (SleepRead ∈ ev1 -> contents p1 = [] /\ 0 < writers p1) /\
  (contents p1 <> contents new_pipe -> WakeWriters ∈ ev1) /\
  (SleepWrite ∈ ev2 -> len (contents p2) = 4096 /\ 0 < readers p2) /\
  (contents p2 <> contents new_pipe -> WakeReaders ∈ ev2) /\
  (readers p3 = 0 -> WakeWriters ∈ ev3) /\ (writers p3 = 0 -> writers new_pipe <> 0 -> WakeReaders ∈ ev3) /\
  (freed = true <-> readers p3 = 0 /\ writers p3 = 0) /\ contents p3 = contents new_pipe.
Proof. apply pipe_no_missed_wakeup; [apply new_pipe_ok|lia|done|reflexivity|done]. Defined.
