(* ===== verification/Fd.v ===== *)
(** File descriptors, src/src/kernel/kernel.c: file descriptions with their reference
    counts, the descriptor tables of the tasks, the system calls on descriptors and on
    paths, and pipes as nodes of the VFS.

    Nodes are those of the VFS model, and every block (description, pipe, pipe end,
    node) comes from the same allocator.  The task table holds what these calls use of a
    task; the current task's credentials and directory are in the VFS state.  A call is
    one step: system calls run with interrupts off. *)

From S2P Require Import Prelude Pipe Vfs.

Definition TASK_MAX_FDS : Z := 32.
Definition O_CREAT : Z := 0x40.
Definition F_DUPFD : Z := 0.
Definition F_GETFD : Z := 1.
Definition F_SETFD : Z := 2.
Definition F_GETFL : Z := 3.
Definition F_SETFL : Z := 4.

(** The addresses of the functions that this file knows; a file system's are others. *)
Definition PIPE_READ : Z := 1.
Definition PIPE_WRITE : Z := 2.
Definition PIPE_CLOSE : Z := 3.
Definition CONSOLE_READ : Z := 4.
Definition CONSOLE_WRITE : Z := 5.

(** [sizeof]: pointer 8, offset 8, flags 4, count 4; data 4096, three sizes, two counts,
    the lock 16; pointer and two ints. *)
Definition FDESC_SIZE : Z := 8 + 8 + 4 + 4.
Definition PIPE_SIZE : Z := 4096 + 3 * 8 + 2 * 4 + 16.
Definition PIPE_END_SIZE : Z := 8 + 2 * 4.

Record file_description := mk_fdesc { fd_node : Z; fd_offset : Z; fd_flags : Z; fd_ref_count : Z }.
#[export] Instance eta_file_description : Eta file_description := fun f =>
  mk_fdesc (fd_node f) (fd_offset f) (fd_flags f) (fd_ref_count f).

Record ftask := mk_ftask { ft_pid : Z; ft_fds : list Z }.
#[export] Instance eta_ftask : Eta ftask := fun t => mk_ftask (ft_pid t) (ft_fds t).
#[export] Instance ftask_inhabited : Inhabited ftask := populate (mk_ftask 0 []).

(** The nodes of the console are static objects. *)
Class ConsoleNodes := { console_stdin : Z; console_stdout : Z; console_stderr : Z }.

Record kfd H X := mk_kfd {
  kv : vfs H X;
  descs : gmap Z file_description;
  pipes : gmap Z pipe_buffer;
  ends : gmap Z pipe_end;
  ktasks : list ftask;
  kcur : nat;
  foreground_pid : Z;
  pipe_events : list (Z * pipe_event)
}.
Arguments mk_kfd {H X} _ _ _ _ _ _ _ _.
Arguments kv {H X} _.
Arguments descs {H X} _.
Arguments pipes {H X} _.
Arguments ends {H X} _.
Arguments ktasks {H X} _.
Arguments kcur {H X} _.
Arguments foreground_pid {H X} _.
Arguments pipe_events {H X} _.
#[export] Instance eta_kfd H X : Eta (kfd H X) := fun s =>
  mk_kfd (kv s) (descs s) (pipes s) (ends s) (ktasks s) (kcur s) (foreground_pid s) (pipe_events s).

(** The first empty slot from [i] on. *)
Fixpoint first_free (i : Z) (fds : list Z) : option Z :=
  match fds with
  | [] => None
  | d :: fds' => if d =? 0 then Some i else first_free (i + 1) fds'
  end.
Definition free_slot (from : Z) (fds : list Z) : option Z := first_free from (drop (Z.to_nat from) fds).

Section Fd.
Context {H X : Type} `{Allocator H} `{ConsoleNodes}.
Implicit Types s : kfd H X.

Definition on_vfs {A} (f : vfs H X -> A * vfs H X) s : A * kfd H X :=
  let '(a, v) := f (kv s) in (a, s <| kv := v |>).
Definition upd_vfs (f : vfs H X -> vfs H X) s : kfd H X := s <| kv := f (kv s) |>.
Definition alloc_block (size : Z) s : Z * kfd H X :=
  let '(r, h) := k_alloc size (vheap (kv s)) in (default 0 r, s <| kv := kv s <| vheap := h |> |>).
Definition free_block (p : Z) s : kfd H X := if p =? 0 then s else upd_vfs (kfree_block p) s.
Definition cur_task s : ftask := ktasks s !!! kcur s.
Definition cur_fds s : list Z := ft_fds (cur_task s).
Definition set_cur_fds (fds : list Z) s : kfd H X :=
  s <| ktasks := <[kcur s := cur_task s <| ft_fds := fds |>]> (ktasks s) |>.
Definition desc_at s (d : Z) : file_description := default (mk_fdesc 0 0 0 0) (descs s !! d).
Definition set_desc (d : Z) (f : file_description) s : kfd H X := s <| descs := <[d := f]> (descs s) |>.
(** A descriptor of the current task, 0 when it is out of range or not in use. *)
Definition fd_get (fd : Z) s : Z := if (fd <? 0) || (TASK_MAX_FDS <=? fd) then 0 else arr_get (cur_fds s) fd.

(** The three nodes of the console. *)
Definition console_nodes_init s : kfd H X :=
  let dev rd wr := zero_node <| vn_type := VFS_NODE_DEVICE |> <| vn_read := rd |> <| vn_write := wr |> in
  upd_vfs (fun v => set_node console_stderr (dev 0 CONSOLE_WRITE)
    (set_node console_stdout (dev 0 CONSOLE_WRITE) (set_node console_stdin (dev CONSOLE_READ 0) v))) s.

(** * Descriptions *)

(** The address, 0 for none. *)
Definition file_description_alloc (node flags : Z) s : Z * kfd H X :=
  if node =? 0 then (0, s)
  else
    let '(d, s) := alloc_block FDESC_SIZE s in
    if d =? 0 then (0, s)
    else (d, upd_vfs (vfs_node_ref node) (set_desc d (mk_fdesc node 0 flags 1) s)).

Definition file_description_ref (d : Z) s : kfd H X :=
  if d =? 0 then s
  else set_desc d (desc_at s d <| fd_ref_count := u32 (fd_ref_count (desc_at s d) + 1) |>) s.

(** [pipe_node_close]: the end is freed, and the pipe when no end is left. *)
Definition pipe_node_close (node : Z) s : kfd H X :=
  let e := vn_data (node_at (kv s) node) in
  match ends s !! e with
  | None => s
  | Some en =>
      let a := e_pipe en in
      match pipes s !! a with
      | None => s
      | Some p =>
          let '(p, freed, ev) := pipe_close_end en p in
          let s := s <| pipes := <[a := p]> (pipes s) |>
                     <| pipe_events := pipe_events s ++ map (pair a) ev |> in
          let s := free_block e (s <| ends := delete e (ends s) |>) in
          let s := upd_vfs (upd_node node (fun n => n <| vn_data := 0 |>)) s in
          if freed then free_block a (s <| pipes := delete a (pipes s) |>) else s
      end
  end.

(** [kfree] of a static object only logs a message. *)
Definition is_console (node : Z) : bool :=
  (node =? console_stdin) || (node =? console_stdout) || (node =? console_stderr).
Definition node_unref (node : Z) s : kfd H X :=
  if is_console node
  then upd_vfs (upd_node node (fun n => if 0 <? vn_ref_count n then n <| vn_ref_count := vn_ref_count n - 1 |> else n)) s
  else upd_vfs (vfs_node_unref node) s.

(** [socket_close] is what [socket_vfs_close] does besides clearing [node->data]. *)
Context (socket_close : Z -> X -> X).
Definition node_close (node : Z) s : kfd H X :=
  let n := node_at (kv s) node in
  if vn_close n =? 0 then s
  else if vn_close n =? PIPE_CLOSE then pipe_node_close node s
  else upd_vfs (fun v => upd_node node (fun n => n <| vn_data := 0 |>) (v <| drivers := socket_close (vn_data n) (drivers v) |>)) s.

Definition file_description_unref (d : Z) s : kfd H X :=
  if d =? 0 then s
  else
    let f := desc_at s d in
    let f := if 0 <? fd_ref_count f then f <| fd_ref_count := fd_ref_count f - 1 |> else f in
    let s := set_desc d f s in
    if fd_ref_count f =? 0 then
      let s := if negb (fd_node f =? 0) then node_unref (fd_node f) (node_close (fd_node f) s) else s in
      free_block d (s <| descs := delete d (descs s) |>)
    else s.

(** [task_get_file_description]: a reference for the caller. *)
Definition task_get_file_description (fd : Z) s : Z * kfd H X :=
  let d := fd_get fd s in
  if d =? 0 then (0, s) else (d, file_description_ref d s).

(** The locks of the task on the node go with the descriptor. *)
Definition unlock_node (d pid : Z) s : kfd H X :=
  let node := fd_node (desc_at s d) in
  if node =? 0 then s else upd_vfs (vfs_node_unlock_by_pid node pid) s.
(** Closing the descriptor [fd] of the task at index [t]. *)
Definition close_slot (t : nat) (fd : Z) s : kfd H X :=
  let task := ktasks s !!! t in
  let d := arr_get (ft_fds task) fd in
  if d =? 0 then s
  else
    let s := s <| ktasks := <[t := task <| ft_fds := arr_set (ft_fds task) fd 0 |>]> (ktasks s) |> in
    file_description_unref d (unlock_node d (ft_pid task) s).
(** [task_close_all_fds]. *)
Definition close_all_fds (t : nat) s : kfd H X :=
  foldl (fun s fd => close_slot t (Z.of_nat fd) s) s (seq 0 (Z.to_nat TASK_MAX_FDS)).

(** * Descriptors *)

(** A description in the first empty slot from 3 on; -1 for none. *)
Definition task_alloc_fd (node : Z) s : Z * kfd H X :=
  if node =? 0 then (-1, s)
  else
    let '(d, s) := file_description_alloc node 0 s in
    if d =? 0 then (-1, s)
    else
      match free_slot 3 (cur_fds s) with
      | Some i => (i, set_cur_fds (arr_set (cur_fds s) i d) s)
      | None => (-1, file_description_unref d s)
      end.

Definition sys_close (fd : Z) s : Z * kfd H X :=
  if fd_get fd s =? 0 then (-1, s) else (0, close_slot (kcur s) fd s).

(** The description [d] in slot [i]. *)
Definition share (i d : Z) s : kfd H X := file_description_ref d (set_cur_fds (arr_set (cur_fds s) i d) s).
Definition sys_dup (old_fd : Z) s : Z * kfd H X :=
  let d := fd_get old_fd s in
  if d =? 0 then (-1, s)
  else
    match free_slot 0 (cur_fds s) with
    | Some i => (i, share i d s)
    | None => (-1, s)
    end.
Definition sys_dup2 (old_fd new_fd : Z) s : Z * kfd H X :=
  let d := fd_get old_fd s in
  if (d =? 0) || (new_fd <? 0) || (TASK_MAX_FDS <=? new_fd) then (-1, s)
  else if old_fd =? new_fd then (new_fd, s)
  else
    let s := if negb (fd_get new_fd s =? 0) then snd (sys_close new_fd s) else s in
    (new_fd, share new_fd (fd_get old_fd s) s).
Definition sys_fcntl (fd cmd arg : Z) s : Z * kfd H X :=
  let d := fd_get fd s in
  if d =? 0 then (-1, s)
  else if cmd =? F_DUPFD then
    let min_fd := s32 arg in
    if (min_fd <? 0) || (TASK_MAX_FDS <=? min_fd) then (-1, s)
    else
      match free_slot min_fd (cur_fds s) with
      | Some i => (i, share i d s)
      | None => (-1, s)
      end
  else if (cmd =? F_GETFD) || (cmd =? F_SETFD) then (0, s)
  else if cmd =? F_GETFL then (s32 (fd_flags (desc_at s d)), s)
  else if cmd =? F_SETFL then (0, set_desc d (desc_at s d <| fd_flags := u32 arg |>) s)
  else (-1, s).

(** The end of [sys_open]: a description for the node in the first empty slot from 3 on.
    [node_open] is the result of the node's [open] function, which changes nothing. *)
Definition open_node (node_open : Z -> Z) (node flags : Z) s : Z * kfd H X :=
  let '(d, s) := file_description_alloc node (u32 flags) s in
  if d =? 0 then (-1, s)
  else
    match free_slot 3 (cur_fds s) with
    | Some i =>
        if negb (vn_open (node_at (kv s) node) =? 0) && negb (node_open node =? 0)
        then (-1, file_description_unref d s)
        else (i, set_cur_fds (arr_set (cur_fds s) i d) s)
    | None => (-1, file_description_unref d s)
    end.

(** [init_standard_fds] and [inherit_fds] of the scheduler, for the task at index [t]. *)
Definition set_fds (t : nat) (fds : list Z) s : kfd H X :=
  s <| ktasks := <[t := (ktasks s !!! t) <| ft_fds := fds |>]> (ktasks s) |>.
Definition standard_fds (t : nat) s : kfd H X :=
  let '(d0, s) := file_description_alloc console_stdin 0 s in
  let '(d1, s) := file_description_alloc console_stdout 0 s in
  let '(d2, s) := file_description_alloc console_stderr 0 s in
  set_fds t ([d0; d1; d2] ++ replicate 29 0) s.
Definition copy_fds (t parent : nat) s : kfd H X :=
  let fds := ft_fds (ktasks s !!! parent) in
  foldl (fun s d => file_description_ref d s) (set_fds t fds s) fds.

(** * Pipes *)

Definition pipe_node (e : Z) (rd : bool) : vfs_node :=
  zero_node <| vn_type := VFS_NODE_PIPE |> <| vn_data := e |>
            <| vn_read := if rd then PIPE_READ else 0 |> <| vn_write := if rd then 0 else PIPE_WRITE |>
            <| vn_close := PIPE_CLOSE |>.
(** The result and the two descriptors. *)
Definition sys_pipe s : Z * (Z * Z) * kfd H X :=
  let '(pipe, s) := alloc_block PIPE_SIZE s in
  let '(read_end, s) := alloc_block PIPE_END_SIZE s in
  let '(write_end, s) := alloc_block PIPE_END_SIZE s in
  let '(read_node, s) := alloc_block VFS_NODE_SIZE s in
  let '(write_node, s) := alloc_block VFS_NODE_SIZE s in
  if (pipe =? 0) || (read_end =? 0) || (write_end =? 0) || (read_node =? 0) || (write_node =? 0)
  then (-1, (0, 0), free_block write_node (free_block read_node (free_block write_end (free_block read_end (free_block pipe s)))))
  else
    let s := s <| pipes := <[pipe := new_pipe]> (pipes s) |>
               <| ends := <[write_end := mk_end pipe false true]> (<[read_end := mk_end pipe true false]> (ends s)) |> in
    let s := upd_vfs (fun v => set_node write_node (pipe_node write_end false) (set_node read_node (pipe_node read_end true) v)) s in
    let '(read_fd, s) := task_alloc_fd read_node s in
    let '(write_fd, s) := task_alloc_fd write_node s in
    if (read_fd <? 0) || (write_fd <? 0) then
      let s := if 0 <=? read_fd then snd (sys_close read_fd s) else s in
      let s := if 0 <=? write_fd then snd (sys_close write_fd s) else s in
      (-1, (0, 0), s)
    else (0, (read_fd, write_fd), s).

(** Reading and writing the node of a pipe end. *)
Definition pipe_at (node : Z) s : option (pipe_end * Z * pipe_buffer) :=
  let* en := ends s !! vn_data (node_at (kv s) node) in
  let* p := pipes s !! e_pipe en in Some (en, e_pipe en, p).
Definition put_pipe (a : Z) (p : pipe_buffer) (ev : list pipe_event) s : kfd H X :=
  s <| pipes := <[a := p]> (pipes s) |> <| pipe_events := pipe_events s ++ map (pair a) ev |>.
Definition pipe_node_read (node size : Z) s : list Z * kfd H X :=
  match pipe_at node s with
  | Some (en, a, p) =>
      if negb (readable en) then ([], s)
      else let '(bytes, p, ev) := pipe_read size p in (bytes, put_pipe a p ev s)
  | None => ([], s)
  end.
Definition pipe_node_write (node : Z) (buffer : list Z) s : Z * kfd H X :=
  match pipe_at node s with
  | Some (en, a, p) =>
      if negb (writable en) then (0, s)
      else let '(n, p, ev) := pipe_write buffer p in (n, put_pipe a p ev s)
  | None => (0, s)
  end.
End Fd.
