(* ===== verification/FdRefs.v ===== *)
(** Reference counting of file descriptions: every descriptor in use refers to an
    allocated description, a description is referred to by as many descriptors as its
    count says and goes with the last of them, and a node or a pipe lives as long as a
    description needs it. *)

From S2P Require Import Prelude Pipe Vfs VfsTree VfsReach Fd.

(** * Sums over finite maps *)

Section Sums.
Context {A : Type} (w : A -> Z).
Definition msum (m : gmap Z A) : Z := map_fold (fun _ x acc => w x + acc) 0 m.

Lemma msum_empty : msum ∅ = 0.
Proof. apply map_fold_empty. Qed.
Lemma msum_insert_new m i x : m !! i = None -> msum (<[i := x]> m) = w x + msum m.
Proof. intros Hi. unfold msum.
  rewrite (map_fold_insert_L (fun _ x acc => w x + acc)); [done|intros; lia|done]. Qed.
Lemma msum_delete m i x : m !! i = Some x -> msum (delete i m) = msum m - w x.
Proof.
  intros Hi. rewrite <- (insert_delete_id m i x) at 2 by done. rewrite msum_insert_new by apply lookup_delete_eq. lia.
Qed.
Lemma msum_insert m i x y : m !! i = Some y -> msum (<[i := x]> m) = msum m - w y + w x.
Proof.
  intros Hi. rewrite <- insert_delete_eq, msum_insert_new by apply lookup_delete_eq. rewrite (msum_delete m i y) by done. lia.
Qed.
Lemma msum_zero m : (forall i x, m !! i = Some x -> w x = 0) -> msum m = 0.
Proof.
  induction m as [|i x m Hi IH] using map_ind; intros Hz; [apply msum_empty|].
  rewrite msum_insert_new by done. rewrite (Hz i) by apply lookup_insert_eq. rewrite IH; [done|].
  intros j y Hj. apply (Hz j). rewrite lookup_insert_ne; [done|congruence].
Qed.
Lemma msum_nonneg m : (forall x, 0 <= w x) -> 0 <= msum m.
Proof.
  intros Hw. induction m as [|i x m Hi IH] using map_ind; [by rewrite msum_empty|].
  rewrite msum_insert_new by done. specialize (Hw x). lia.
Qed.
Lemma msum_pos m i x : (forall x, 0 <= w x) -> m !! i = Some x -> 0 < w x -> 0 < msum m.
Proof. intros Hw Hi Hx. pose proof (msum_delete m i x Hi). pose proof (msum_nonneg (delete i m) Hw). lia. Qed.
Lemma msum_size m : (forall x, w x <= 1) -> msum m <= Z.of_nat (size m).
Proof.
  intros Hw. induction m as [|i x m Hi IH] using map_ind; [by rewrite msum_empty|].
  rewrite msum_insert_new, map_size_insert_None by done. specialize (Hw x). lia.
Qed.
End Sums.

(** * References *)

Fixpoint cnt (d : Z) (l : list Z) : Z :=
  match l with [] => 0 | x :: l' => (if x =? d then 1 else 0) + cnt d l' end.
Fixpoint cnt_tasks (d : Z) (ts : list ftask) : Z :=
  match ts with [] => 0 | t :: ts' => cnt d (ft_fds t) + cnt_tasks d ts' end.

Lemma cnt_nonneg d l : 0 <= cnt d l.
Proof. induction l; cbn; [lia|]. bcase; lia. Qed.
Lemma cnt_app d l1 l2 : cnt d (l1 ++ l2) = cnt d l1 + cnt d l2.
Proof. induction l1; cbn; lia. Qed.
Lemma cnt_replicate_0 d n : d <> 0 -> cnt d (replicate n 0) = 0.
Proof. intros Hd. induction n; cbn [cnt replicate]; [done|]. bcase; lia. Qed.
Lemma cnt_le_len d l : cnt d l <= len l.
Proof. induction l; unfold len in *; cbn [cnt length]; [done|]. bcase; lia. Qed.
Lemma cnt_pos d l i : 0 <= i < len l -> arr_get l i = d -> 0 < cnt d l.
Proof.
  revert i. induction l as [|x l IH]; intros i Hi Hd; [unfold len in Hi; cbn in Hi; lia|].
  cbn [cnt]. pose proof (cnt_nonneg d l). destruct (decide (i = 0)) as [->|].
  - cbn in Hd. subst. rewrite Z.eqb_refl. lia.
  - rewrite arr_get_cons in Hd by lia. unfold len in *. cbn [length] in Hi. specialize (IH (i - 1) ltac:(lia) Hd). bcase; lia.
Qed.
Lemma cnt_arr_set d l i x :
  0 <= i < len l ->
  cnt d (arr_set l i x) = cnt d l - (if arr_get l i =? d then 1 else 0) + (if x =? d then 1 else 0).
Proof.
  revert i. induction l as [|y l IH]; intros i Hi; [unfold len in Hi; cbn in Hi; lia|].
  unfold arr_set. destruct (decide (i = 0)) as [->|].
  - change (arr_get (y :: l) 0) with y. change (<[Z.to_nat 0 := x]> (y :: l)) with (x :: l). cbn [cnt]. bcases; lia.
  - replace (Z.to_nat i) with (S (Z.to_nat (i - 1))) by lia. 
    change (<[S (Z.to_nat (i - 1)) := x]> (y :: l)) with (y :: arr_set l (i - 1) x). cbn [cnt].
    rewrite arr_get_cons by lia. unfold len in Hi, IH. cbn [length] in Hi.
    rewrite (IH (i - 1)) by lia. lia.
Qed.
Lemma cnt_tasks_insert d ts t task task' :
  ts !! t = Some task ->
  cnt_tasks d (<[t := task']> ts) = cnt_tasks d ts - cnt d (ft_fds task) + cnt d (ft_fds task').
Proof.
  revert t. induction ts as [|x ts IH]; intros [|t] Ht; try done; cbn in Ht.
  - injection Ht as ->. cbn. lia.
  - change (<[S t := task']> (x :: ts)) with (x :: <[t := task']> ts). cbn [cnt_tasks]. rewrite (IH t) by done. lia.
Qed.
Lemma cnt_tasks_nonneg d ts : 0 <= cnt_tasks d ts.
Proof. induction ts as [|t ts IH]; cbn; [done|]. pose proof (cnt_nonneg d (ft_fds t)). lia. Qed.
Lemma cnt_tasks_le d ts t task : ts !! t = Some task -> cnt d (ft_fds task) <= cnt_tasks d ts.
Proof.
  revert t. induction ts as [|x ts IH]; intros [|t] Ht; try done; cbn in *.
  - injection Ht as ->. pose proof (cnt_tasks_nonneg d ts). lia.
  - specialize (IH t Ht). pose proof (cnt_nonneg d (ft_fds x)). lia.
Qed.
Lemma cnt_tasks_bound d ts : Forall (fun t => len (ft_fds t) = 32) ts -> cnt_tasks d ts <= 32 * len ts.
Proof.
  induction 1 as [|t ts Ht _ IH]; unfold len in *; cbn [cnt_tasks length]; [done|].
  pose proof (cnt_le_len d (ft_fds t)) as Hc. unfold len in Hc. lia.
Qed.

Lemma cnt_elem d l : 0 < cnt d l -> d ∈ l.
Proof.
  induction l as [|x l IH]; cbn [cnt]; [lia|]. destruct (Z.eqb_spec x d) as [->|]; [intros _; left|right; apply IH; lia].
Qed.
Lemma cnt_tasks_elem d ts : 0 < cnt_tasks d ts -> d ∈ concat (map ft_fds ts).
Proof.
  induction ts as [|t ts IH]; cbn [cnt_tasks map concat]; [lia|]. intros Hc. apply elem_of_app.
  destruct (decide (0 < cnt d (ft_fds t))); [left; by apply cnt_elem|right; apply IH; lia].
Qed.
Lemma length_fds ts : Forall (fun t => len (ft_fds t) = 32) ts -> Z.of_nat (length (concat (map ft_fds ts))) = 32 * len ts.
Proof.
  induction 1 as [|t ts Ht _ IH]; unfold len in *; cbn [map concat length]; [done|]. rewrite length_app. lia.
Qed.

(** * The invariant *)

(** What a block of the heap is used for. *)
Inductive use := UNode | UData (node : Z) | UDesc | UPipe | USpare.

Section Refs.
Context {H X : Type} `{AllocatorLaws H} `{ConsoleNodes} (socket_close : Z -> X -> X).
(** The heap never hands out the address of a static object. *)
Context (console_static : forall h p, a_ok h -> is_console p = true -> ~ a_live h p).
Implicit Types s : kfd H X.

(** The references to a description: descriptors, and [ex], those that the running code
    holds. *)
Definition refs (ex : list Z) s (d : Z) : Z := cnt_tasks d (ktasks s) + cnt d ex.
(** The references to a node: descriptions, and [nx], those that the running code holds. *)
Definition node_refs (nx : list Z) s (p : Z) : Z :=
  msum (fun f => if fd_node f =? p then 1 else 0) (descs s) + cnt p nx.
Definition end_refs s (a : Z) (rd : bool) : Z :=
  msum (fun en => if (e_pipe en =? a) && Bool.eqb (readable en) rd then 1 else 0) (ends s).

Record fd_inv (B : gmap Z use) (ex nx : list Z) s : Prop := {
  fi_heap : a_ok (vheap (kv s));
  fi_live b u : B !! b = Some u -> b <> 0 /\ a_live (vheap (kv s)) b;
  fi_node p n : nodes (kv s) !! p = Some n -> p <> 0 /\ (is_console p = false -> B !! p = Some UNode);
  fi_data p n : nodes (kv s) !! p = Some n -> vn_data n <> 0 -> vn_close n = 0 \/ vn_close n = PIPE_CLOSE ->
    B !! vn_data n = Some (UData p);
  fi_desc d f : descs s !! d = Some f -> B !! d = Some UDesc;
  fi_pipe a q : pipes s !! a = Some q -> B !! a = Some UPipe;
  fi_fds : Forall (fun t => len (ft_fds t) = 32) (ktasks s);
  fi_tasks : length (ktasks s) = 16%nat;
  fi_cur : (kcur s < 16)%nat;
  fi_refs d : d <> 0 ->
    match descs s !! d with
    | Some f => fd_ref_count f = refs ex s d /\ 0 < refs ex s d
    | None => refs ex s d = 0
    end;
  fi_open d f : descs s !! d = Some f -> is_Some (nodes (kv s) !! fd_node f);
  fi_count p n : nodes (kv s) !! p = Some n -> vn_ref_count n = node_refs nx s p;
  fi_root : is_Some (nodes (kv s) !! root_node (kv s));
  fi_console p : is_console p = true -> exists n, nodes (kv s) !! p = Some n /\ vn_close n = 0 /\ vn_data n = 0;
  fi_file p n : nodes (kv s) !! p = Some n -> vn_type n = VFS_NODE_FILE \/ vn_type n = VFS_NODE_DIRECTORY -> vn_close n = 0;
  fi_pipe_node p n : nodes (kv s) !! p = Some n -> vn_close n = PIPE_CLOSE ->
    vn_parent n = 0 /\ p <> root_node (kv s) /\ node_refs nx s p <= 1 /\
    (vn_data n <> 0 /\ is_Some (ends s !! vn_data n) \/ vn_data n = 0 /\ p ∈ nx);
  fi_end e en : ends s !! e = Some en ->
    e <> 0 /\ writable en = negb (readable en) /\ is_Some (pipes s !! e_pipe en) /\
    exists p n, nodes (kv s) !! p = Some n /\ vn_close n = PIPE_CLOSE /\ vn_data n = e;
  fi_ends a q : pipes s !! a = Some q ->
    readers q = end_refs s a true /\ writers q = end_refs s a false /\ 0 < readers q + writers q /\ pipe_ok q
}.

(** * Changes that leave the references alone *)

Lemma refs_nonneg ex s d : 0 <= refs ex s d.
Proof. unfold refs. pose proof (cnt_tasks_nonneg d (ktasks s)). pose proof (cnt_nonneg d ex). lia. Qed.

(** Only the heap changes, and no block in use goes. *)
Lemma heap_inv B B' ex nx s h :
  fd_inv B ex nx s -> a_ok h ->
  (forall b u, B' !! b = Some u -> b <> 0 /\ a_live h b) ->
  (forall b u, B !! b = Some u -> u <> USpare -> B' !! b = Some u) ->
  fd_inv B' ex nx (s <| kv := kv s <| vheap := h |> |>).
Proof.
  intros Hi Hh Hl Hk. destruct Hi. split; cbn; try done; intros.
  - destruct (fi_node0 p n) as [? Hb]; [done|]. split; [done|]. intros Hc. apply Hk; [by apply Hb|done].
  - apply Hk; [by eapply fi_data0|done].
  - apply Hk; [by eapply fi_desc0|done].
  - apply Hk; [by eapply fi_pipe0|done].
Qed.

Lemma alloc_block_inv B ex nx s size b s' :
  fd_inv B ex nx s -> 0 < size <= 0x6F000000 -> alloc_block size s = (b, s') ->
  (exists h, s' = s <| kv := kv s <| vheap := h |> |>) /\
  if b =? 0 then fd_inv B ex nx s'
  else B !! b = None /\ is_console b = false /\ fd_inv (<[b := USpare]> B) ex nx s'.
Proof.
  intros Hi Hs. unfold alloc_block. pose proof (alloc_law (vheap (kv s)) size (fi_heap _ _ _ _ Hi) Hs) as Hl.
  destruct (k_alloc size (vheap (kv s))) as [r h]. destruct Hl as [Hh Hr]. intros [= <- <-]. split; [by exists h|].
  destruct r as [p|]; cbn [default from_option id].
  - destruct Hr as (Hp & Hdead & Hlive). rewrite (proj2 (Z.eqb_neq _ _)) by done. split; [|split].
    + destruct (B !! p) eqn:E; [|done]. by apply (fi_live _ _ _ _ Hi) in E as [_ ?].
    + destruct (is_console p) eqn:E; [|done]. exfalso. apply (console_static h p Hh E), Hlive. by left.
    + apply (heap_inv B); try done.
      * intros b u Hb. destruct (decide (b = p)) as [->|]; [split; [done|apply Hlive; by left]|].
        rewrite lookup_insert_ne in Hb by done. apply (fi_live _ _ _ _ Hi) in Hb as [? ?]. split; [done|]. apply Hlive. by right.
      * intros b u Hb Hu. rewrite lookup_insert_ne; [done|]. intros <-. by apply (fi_live _ _ _ _ Hi) in Hb as [_ ?].
  - rewrite Z.eqb_refl. apply (heap_inv B); try done. intros b u Hb. apply (fi_live _ _ _ _ Hi) in Hb as [? ?].
    split; [done|by apply Hr].
Qed.

Lemma free_spare_inv B ex nx s b : fd_inv B ex nx s -> B !! b = Some USpare -> fd_inv (delete b B) ex nx (free_block b s).
Proof.
  intros Hi Hb. destruct (fi_live _ _ _ _ Hi _ _ Hb) as [Hb0 Hlb]. unfold free_block. rewrite (proj2 (Z.eqb_neq _ _)) by done.
  destruct (free_law _ _ (fi_heap _ _ _ _ Hi) Hlb) as [Hh Hl]. apply (heap_inv B); try done.
  - intros c u Hc. apply lookup_delete_Some in Hc as [Hne Hc]. apply (fi_live _ _ _ _ Hi) in Hc as [? ?].
    split; [done|]. by apply Hl.
  - intros c u Hc Hu. rewrite lookup_delete_ne; [done|]. congruence.
Qed.

(** Fields of a node that descriptions do not depend on. *)
Lemma node_inv B ex nx s p n n' :
  fd_inv B ex nx s -> nodes (kv s) !! p = Some n ->
  vn_data n' = vn_data n -> vn_close n' = vn_close n -> vn_parent n' = vn_parent n -> vn_type n' = vn_type n ->
  vn_ref_count n' = vn_ref_count n ->
  fd_inv B ex nx (upd_vfs (set_node p n') s).
Proof.
  intros Hi Hp Ed Ec Ep Et Er. destruct Hi.
  assert (Hback : forall q k, <[p := n']> (nodes (kv s)) !! q = Some k -> exists k', nodes (kv s) !! q = Some k' /\
    vn_data k = vn_data k' /\ vn_close k = vn_close k' /\ vn_parent k = vn_parent k' /\ vn_type k = vn_type k' /\
    vn_ref_count k = vn_ref_count k').
  { intros q k. destruct (decide (q = p)) as [->|]; [rewrite lookup_insert_eq; intros [= <-]; by exists n|].
    rewrite lookup_insert_ne by done. intros Hk. by exists k. }
  assert (Hfwd : forall q, is_Some (nodes (kv s) !! q) -> is_Some (<[p := n']> (nodes (kv s)) !! q)).
  { intros q Hq. destruct (decide (q = p)) as [->|]; [rewrite lookup_insert_eq; by eexists|by rewrite lookup_insert_ne]. }
  split; cbn -[is_console]; try done.
  - intros q k (k' & Hk & _)%Hback. by eapply fi_node0.
  - intros q k (k' & Hk & -> & -> & _)%Hback. by eapply fi_data0.
  - intros d f Hd. by eapply Hfwd, fi_open0.
  - intros q k (k' & Hk & _ & _ & _ & _ & ->)%Hback. by apply fi_count0.
  - by apply Hfwd.
  - intros q Hq. destruct (fi_console0 q Hq) as (k & Hk & Hc & Hdd). destruct (decide (q = p)) as [->|].
    + exists n'. rewrite lookup_insert_eq. simplify_eq. split_and!; congruence.
    + exists k. by rewrite lookup_insert_ne.
  - intros q k (k' & Hk & _ & -> & _ & -> & _)%Hback. by eapply fi_file0.
  - intros q k (k' & Hk & -> & -> & -> & _)%Hback. by eapply fi_pipe_node0.
  - intros e en He. destruct (fi_end0 e en He) as (? & ? & ? & q & k & Hq & Hc & Hd). do 3 (split; [done|]).
    destruct (decide (q = p)) as [->|]; [|exists q, k; by rewrite lookup_insert_ne].
    exists p, n'. rewrite lookup_insert_eq. simplify_eq. split_and!; congruence.
Qed.

(** References move between descriptors and the running code. *)
Lemma slots_inv B ex ex' nx s ts :
  fd_inv B ex nx s -> length ts = 16%nat -> Forall (fun t => len (ft_fds t) = 32) ts ->
  (forall d, d <> 0 -> cnt_tasks d ts + cnt d ex' = refs ex s d) -> fd_inv B ex' nx (s <| ktasks := ts |>).
Proof.
  intros Hi Hlen Hf Hr. destruct Hi. split; cbn; try done.
  intros d Hd. specialize (fi_refs0 d Hd). unfold refs in *. cbn. by rewrite (Hr d Hd).
Qed.

(** The other fields of a description. *)
Lemma desc_inv B ex nx s d f f' :
  fd_inv B ex nx s -> descs s !! d = Some f -> fd_node f' = fd_node f -> fd_ref_count f' = fd_ref_count f ->
  fd_inv B ex nx (set_desc d f' s).
Proof.
  intros Hi Hd En Er. destruct Hi.
  assert (Hb : forall x g, <[d := f']> (descs s) !! x = Some g ->
    exists g', descs s !! x = Some g' /\ fd_node g = fd_node g' /\ fd_ref_count g = fd_ref_count g').
  { intros x g. destruct (decide (x = d)) as [->|]; [rewrite lookup_insert_eq; intros [= <-]; by exists f|].
    rewrite lookup_insert_ne by done. intros Hg. by exists g. }
  assert (Hnr : forall p, node_refs nx (set_desc d f' s) p = node_refs nx s p).
  { intros p. unfold node_refs. cbn. rewrite (msum_insert _ _ _ _ f) by done. rewrite En. lia. }
  split; cbn; try done.
  - intros x g (g' & Hg & _)%Hb. by eapply fi_desc0.
  - intros x Hx. specialize (fi_refs0 x Hx). destruct (<[d := f']> (descs s) !! x) eqn:E.
    + apply Hb in E as (g' & Hg & _ & ->). by rewrite Hg in fi_refs0.
    + apply lookup_insert_None in E as [E _]. by rewrite E in fi_refs0.
  - intros x g (g' & Hg & -> & _)%Hb. by eapply fi_open0.
  - intros p n Hp. rewrite Hnr. by apply fi_count0.
  - intros p n Hp Hc. rewrite Hnr. by apply fi_pipe_node0.
Qed.

(** One more reference to a description. *)
Lemma ref_inv B ex nx s d f :
  fd_inv B ex nx s -> descs s !! d = Some f -> d <> 0 -> len ex <= 1024 ->
  fd_inv B (d :: ex) nx (file_description_ref d s).
Proof.
  intros Hi Hd Hd0 Hex. unfold file_description_ref. rewrite (proj2 (Z.eqb_neq _ _)) by done.
  assert (Hat : desc_at s d = f) by (unfold desc_at; by rewrite Hd). rewrite Hat.
  set (f' := f <| fd_ref_count := u32 (fd_ref_count f + 1) |>).
  assert (Hnr : forall p, node_refs nx (set_desc d f' s) p = node_refs nx s p).
  { intros p. unfold node_refs. cbn. rewrite (msum_insert _ _ _ _ f) by done. cbn. lia. }
  pose proof (cnt_tasks_bound d _ (fi_fds _ _ _ _ Hi)) as Hb. pose proof (cnt_le_len d ex) as Hb'.
  destruct Hi. unfold len in Hb at 1. rewrite fi_tasks0 in Hb. split; cbn; try done.
  - intros x g. destruct (decide (x = d)) as [->|]; [intros _; by eapply fi_desc0|]. rewrite lookup_insert_ne by done. apply fi_desc0.
  - intros x Hx. specialize (fi_refs0 x Hx). unfold refs in *. cbn [cnt ktasks]. destruct (decide (x = d)) as [->|].
    + rewrite lookup_insert_eq, Z.eqb_refl. rewrite Hd in fi_refs0. cbn. unfold u32. rewrite Z.mod_small by lia. lia.
    + rewrite lookup_insert_ne, (proj2 (Z.eqb_neq d x)) by done. cbn. by destruct (descs s !! x).
  - intros x g. destruct (decide (x = d)) as [->|].
    + rewrite lookup_insert_eq. intros [= <-]. by apply (fi_open0 d f).
    + rewrite lookup_insert_ne by done. apply fi_open0.
  - intros p n Hp. rewrite Hnr. by apply fi_count0.
  - intros p n Hp Hc. rewrite Hnr. by apply fi_pipe_node0.
Qed.

(** There are not more descriptions than references. *)
Lemma node_refs_bound B ex nx s p : fd_inv B ex nx s -> 0 <= node_refs nx s p <= 512 + len ex + len nx.
Proof.
  intros Hi. unfold node_refs. pose proof (cnt_nonneg p nx). pose proof (cnt_le_len p nx).
  assert (Hm : 0 <= msum (fun f => if fd_node f =? p then 1 else 0) (descs s) <= Z.of_nat (size (descs s))).
  { split; [apply msum_nonneg; intros; bcase; lia|apply msum_size; intros; bcase; lia]. }
  rewrite <- length_map_to_list, <- (length_map fst) in Hm.
  assert (Hsub : map fst (map_to_list (descs s)) ⊆+ concat (map ft_fds (ktasks s)) ++ ex).
  { apply NoDup_submseteq; [apply NoDup_fst_map_to_list|]. intros d Hd. apply list_elem_of_fmap in Hd as ([d' f] & -> & Hd).
    apply elem_of_map_to_list in Hd. cbn. apply elem_of_app. pose proof (fi_live _ _ _ _ Hi _ _ (fi_desc _ _ _ _ Hi _ _ Hd)) as [Hd0 _].
    pose proof (fi_refs _ _ _ _ Hi d' Hd0) as Hr. rewrite Hd in Hr. destruct Hr as [_ Hr]. unfold refs in Hr.
    destruct (decide (0 < cnt_tasks d' (ktasks s))); [left; by apply cnt_tasks_elem|right; apply cnt_elem].
    pose proof (cnt_tasks_nonneg d' (ktasks s)). lia. }
  apply submseteq_length in Hsub. rewrite length_app in Hsub. pose proof (length_fds _ (fi_fds _ _ _ _ Hi)) as Hl.
  unfold len in *. rewrite (fi_tasks _ _ _ _ Hi) in Hl. lia.
Qed.

(** The descriptions of one node [p] and its count change. *)
Lemma descs_inv B B' ex ex' nx nx' s s' p n n' :
  fd_inv B ex nx s -> nodes (kv s) !! p = Some n ->
  nodes (kv s') = <[p := n']> (nodes (kv s)) -> root_node (kv s') = root_node (kv s) ->
  vn_data n' = vn_data n -> vn_close n' = vn_close n -> vn_parent n' = vn_parent n -> vn_type n' = vn_type n ->
  ktasks s' = ktasks s -> kcur s' = kcur s -> pipes s' = pipes s -> ends s' = ends s ->
  a_ok (vheap (kv s')) -> (forall b u, B' !! b = Some u -> b <> 0 /\ a_live (vheap (kv s')) b) ->
  (forall b u, B !! b = Some u -> u <> UDesc -> u <> USpare -> B' !! b = Some u) ->
  (forall d f, descs s' !! d = Some f -> B' !! d = Some UDesc) ->
  (forall d, d <> 0 -> match descs s' !! d with
     | Some f => fd_ref_count f = refs ex' s' d /\ 0 < refs ex' s' d
     | None => refs ex' s' d = 0 end) ->
  (forall d f, descs s' !! d = Some f -> fd_node f = p \/ is_Some (nodes (kv s) !! fd_node f)) ->
  vn_ref_count n' = node_refs nx' s' p -> (forall q, q <> p -> node_refs nx' s' q = node_refs nx s q) ->
  (vn_close n = PIPE_CLOSE -> node_refs nx' s' p <= 1) -> 
  (forall q k, nodes (kv s) !! q = Some k -> vn_close k = PIPE_CLOSE -> vn_data k = 0 -> q ∈ nx -> q ∈ nx') ->
  fd_inv B' ex' nx' s'.
Proof.
  intros Hi Hp En Er Ed Ec Ep Et Ets Ecu Epi Een Hh Hl Hkeep HB Hrefs Hopen Hcnt Hother Hone Hnx. destruct Hi.
  assert (Hback : forall q k, nodes (kv s') !! q = Some k -> exists k', nodes (kv s) !! q = Some k' /\
    vn_data k = vn_data k' /\ vn_close k = vn_close k' /\ vn_parent k = vn_parent k' /\ vn_type k = vn_type k').
  { intros q k. rewrite En. destruct (decide (q = p)) as [->|]; [rewrite lookup_insert_eq; intros [= <-]; by exists n|].
    rewrite lookup_insert_ne by done. intros Hk. by exists k. }
  assert (Hfwd : forall q, q = p \/ is_Some (nodes (kv s) !! q) -> is_Some (nodes (kv s') !! q)).
  { intros q Hq. rewrite En. destruct (decide (q = p)) as [->|]; [rewrite lookup_insert_eq; by eexists|].
    rewrite lookup_insert_ne by done. by destruct Hq. }
  split; rewrite ?Ets, ?Ecu, ?Epi, ?Een, ?Er; try done.
  - intros q k (k' & Hk & _)%Hback. destruct (fi_node0 q k' Hk) as [? Hn]. split; [done|]. intros Hc. apply Hkeep; [by apply Hn|done|done].
  - intros q k (k' & Hk & -> & -> & _)%Hback Hd Hc. apply Hkeep; [by eapply fi_data0|done|done].
  - intros a x Ha. apply Hkeep; [by eapply fi_pipe0|done|done].
  - intros d f Hd. apply Hfwd. by apply (Hopen d).
  - intros q k Hk. rewrite En in Hk. destruct (decide (q = p)) as [->|].
    + rewrite lookup_insert_eq in Hk. by simplify_eq.
    + rewrite lookup_insert_ne in Hk by done. rewrite Hother by done. by apply fi_count0.
  - apply Hfwd. by right.
  - intros q Hq. destruct (fi_console0 q Hq) as (k & Hk & Hc & Hdd). rewrite En. destruct (decide (q = p)) as [->|].
    + exists n'. rewrite lookup_insert_eq. simplify_eq. split_and!; congruence.
    + exists k. by rewrite lookup_insert_ne.
  - intros q k (k' & Hk & _ & -> & _ & ->)%Hback. by eapply fi_file0.
  - intros q k (k' & Hk & -> & -> & -> & _)%Hback Hc. destruct (fi_pipe_node0 q k' Hk Hc) as (? & ? & Hq & Hdata).
    split_and!; [done|done| |].
    + destruct (decide (q = p)) as [->|]; [|by rewrite Hother]. apply Hone. congruence.
    + destruct Hdata as [?|[? Hin]]; [by left|]. right. split; [done|]. by eapply Hnx.
  - intros e en He. destruct (fi_end0 e en He) as (? & ? & ? & q & k & Hq & Hc & Hd). do 3 (split; [done|]). rewrite En.
    destruct (decide (q = p)) as [->|]; [|exists q, k; by rewrite lookup_insert_ne].
    exists p, n'. rewrite lookup_insert_eq. simplify_eq. split_and!; congruence.
  - intros a q Ha. unfold end_refs. rewrite Een. by apply fi_ends0.
Qed.

(** A new description of a node. *)
Lemma fdesc_alloc_inv B ex nx s p n flags d s' :
  fd_inv B ex nx s -> nodes (kv s) !! p = Some n -> (vn_close n = PIPE_CLOSE -> node_refs nx s p = 0) -> len ex <= 1024 -> len nx <= 1024 ->
  file_description_alloc p flags s = (d, s') ->
  ktasks s' = ktasks s /\ kcur s' = kcur s /\ pipes s' = pipes s /\ ends s' = ends s /\ foreground_pid s' = foreground_pid s /\
  if d =? 0 then fd_inv B ex nx s' /\ descs s' = descs s /\ nodes (kv s') = nodes (kv s)
  else (exists B', fd_inv B' (d :: ex) nx s') /\ descs s !! d = None /\ descs s' = <[d := mk_fdesc p 0 flags 1]> (descs s) /\
       nodes (kv s') = <[p := n <| vn_ref_count := vn_ref_count n + 1 |>]> (nodes (kv s)).
Proof.
  intros Hi Hp Hpipe Hex Hnx. unfold file_description_alloc. destruct (fi_node _ _ _ _ Hi _ _ Hp) as [Hp0 _].
  rewrite (proj2 (Z.eqb_neq p 0)) by done. destruct (alloc_block FDESC_SIZE s) as [b s1] eqn:Ea.
  destruct (alloc_block_inv B ex nx s FDESC_SIZE b s1 Hi ltac:(unfold FDESC_SIZE; lia) Ea) as [[h ->] Hb].
  destruct (Z.eqb_spec b 0) as [->|Hb0]; [intros [= <- <-]; done|]. destruct Hb as (HB & Hcb & Hi1).
  intros [= <- <-]. rewrite (proj2 (Z.eqb_neq b 0)) by done.
  assert (Hfresh : descs s !! b = None).
  { destruct (descs s !! b) eqn:E; [|done]. apply (fi_desc _ _ _ _ Hi) in E. congruence. }
  pose proof (node_refs_bound _ _ _ _ p Hi) as Hbd. pose proof (fi_count _ _ _ _ Hi p n Hp) as Hrc.
  assert (En : nodes (kv (upd_vfs (vfs_node_ref p) (set_desc b (mk_fdesc p 0 flags 1) (s <| kv := kv s <| vheap := h |> |>)))) =
               <[p := n <| vn_ref_count := vn_ref_count n + 1 |>]> (nodes (kv s))).
  { unfold upd_vfs, vfs_node_ref. cbn -[upd_node]. rewrite (proj2 (Z.eqb_neq p 0)) by done.
    rewrite (upd_node_nodes _ p n) by done. cbn. unfold u32. by rewrite Z.mod_small by lia. }
  split_and!; try done. exists (<[b := UDesc]> B). set (s2 := upd_vfs _ _) in *.
  assert (Hv : kv s2 = vfs_node_ref p (kv s <| vheap := h |>)) by done.
  assert (Hroot : root_node (kv s2) = root_node (kv s) /\ vheap (kv s2) = h).
  { rewrite Hv. unfold vfs_node_ref. by rewrite (proj2 (Z.eqb_neq p 0)) by done. }
  destruct Hroot as [Hroot Hheap]. assert (Ed : descs s2 = <[b := mk_fdesc p 0 flags 1]> (descs s)) by done.
  assert (Hnr : forall q, node_refs nx s2 q = node_refs nx s q + (if p =? q then 1 else 0)).
  { intros q. unfold node_refs. rewrite Ed, msum_insert_new by done. cbn [fd_node]. lia. }
  eapply (descs_inv B (<[b := UDesc]> B) ex (b :: ex) nx nx s s2 p n); rewrite ?Hheap; try done.
  - exact (fi_heap _ _ _ _ Hi1).
  - intros c u Hc. destruct (decide (c = b)) as [->|].
    + apply (fi_live _ _ _ _ Hi1 b USpare). apply lookup_insert_eq.
    + rewrite lookup_insert_ne in Hc by done. apply (fi_live _ _ _ _ Hi1 c u). by rewrite lookup_insert_ne.
  - intros c u Hc _ _. rewrite lookup_insert_ne; [done|]. congruence.
  - intros d f. rewrite Ed. destruct (decide (d = b)) as [->|]; [intros _; apply lookup_insert_eq|].
    rewrite !lookup_insert_ne by done. apply (fi_desc _ _ _ _ Hi).
  - intros d Hd. rewrite Ed. pose proof (fi_refs _ _ _ _ Hi d Hd) as Hr. unfold refs in *. change (ktasks s2) with (ktasks s). cbn [cnt].
    destruct (decide (d = b)) as [->|].
    + rewrite lookup_insert_eq, Z.eqb_refl. rewrite Hfresh in Hr. cbn. lia.
    + rewrite lookup_insert_ne, (proj2 (Z.eqb_neq b d)) by done. by destruct (descs s !! d).
  - intros d f. rewrite Ed. destruct (decide (d = b)) as [->|]; [rewrite lookup_insert_eq; intros [= <-]; by left|].
    rewrite lookup_insert_ne by done. right. by eapply (fi_open _ _ _ _ Hi).
  - rewrite Hnr, Z.eqb_refl. cbn. lia.
  - intros q Hq. rewrite Hnr, (proj2 (Z.eqb_neq p q)) by done. lia.
  - intros Hc. rewrite Hnr, Z.eqb_refl, (Hpipe Hc). lia.
Qed.

(** The last reference to a description is gone: its block is spare and the running code
    holds the reference to its node. *)
Lemma drop_desc_inv B ex nx s d f n :
  fd_inv B (d :: ex) nx s -> descs s !! d = Some f -> refs ex s d = 0 -> nodes (kv s) !! fd_node f = Some n ->
  fd_inv (<[d := USpare]> B) ex (fd_node f :: nx) (s <| descs := delete d (descs s) |>).
Proof.
  intros Hi Hd Hz Hn. set (s' := s <| descs := delete d (descs s) |>).
  assert (Hnr : forall q, node_refs (fd_node f :: nx) s' q = node_refs nx s q).
  { intros q. unfold node_refs. cbn [cnt descs s']. change (descs s') with (delete d (descs s)).
    rewrite (msum_delete _ _ _ f) by done. lia. }
  pose proof (fi_desc _ _ _ _ Hi _ _ Hd) as HBd.
  eapply (descs_inv B _ (d :: ex) ex nx _ s s' (fd_node f) n n Hi Hn); try done.
  - cbn. by rewrite insert_id.
  - exact (fi_heap _ _ _ _ Hi).
  - intros b u Hb. destruct (decide (b = d)) as [->|]; [by apply (fi_live _ _ _ _ Hi _ _ HBd)|].
    rewrite lookup_insert_ne in Hb by done. by apply (fi_live _ _ _ _ Hi b u).
  - intros b u Hb Hu _. rewrite lookup_insert_ne; [done|]. congruence.
  - intros x g. cbn. intros [Hne Hg]%lookup_delete_Some. rewrite lookup_insert_ne by done. by apply (fi_desc _ _ _ _ Hi x g).
  - intros x Hx. cbn. pose proof (fi_refs _ _ _ _ Hi x Hx) as Hr. unfold refs in *. cbn [cnt] in Hr. cbn [ktasks s'].
    change (ktasks s') with (ktasks s). destruct (decide (x = d)) as [->|].
    + by rewrite lookup_delete_eq.
    + rewrite lookup_delete_ne by done. rewrite (proj2 (Z.eqb_neq d x)) in Hr by done. by destruct (descs s !! x).
  - intros x g. cbn. intros [Hne Hg]%lookup_delete_Some. right. by apply (fi_open _ _ _ _ Hi x g).
  - rewrite Hnr. by apply (fi_count _ _ _ _ Hi).
  - intros Hc. rewrite Hnr. by apply (fi_pipe_node _ _ _ _ Hi _ n).
  - intros q k _ _ _ Hq. by right.
Qed.

(** The count of a node goes down and it stays. *)
Lemma node_less_inv B ex nx s p n :
  fd_inv B ex (p :: nx) s -> nodes (kv s) !! p = Some n -> vn_close n <> PIPE_CLOSE ->
  fd_inv B ex nx (upd_vfs (set_node p (n <| vn_ref_count := vn_ref_count n - 1 |>)) s).
Proof.
  intros Hi Hp Hc. set (s' := upd_vfs _ _).
  assert (Hnr : forall q, node_refs nx s' q = node_refs (p :: nx) s q - (if p =? q then 1 else 0)).
  { intros q. unfold node_refs. cbn [cnt]. change (descs s') with (descs s). lia. }
  eapply (descs_inv B B ex ex (p :: nx) nx s s' p n _ Hi Hp); try done.
  - exact (fi_heap _ _ _ _ Hi).
  - apply (fi_live _ _ _ _ Hi).
  - apply (fi_desc _ _ _ _ Hi).
  - apply (fi_refs _ _ _ _ Hi).
  - intros d f Hd. right. by apply (fi_open _ _ _ _ Hi d).
  - rewrite Hnr, Z.eqb_refl. cbn. rewrite (fi_count _ _ _ _ Hi p n Hp). lia.
  - intros q Hq. rewrite Hnr, (proj2 (Z.eqb_neq p q)) by done. lia.
  - intros q k Hk Hck _ Hin. apply elem_of_cons in Hin as [->|?]; [congruence|done].
Qed.

(** A node without references goes, with its data. *)
Lemma remove_node_inv B ex nx s p n h :
  fd_inv B ex (p :: nx) s -> nodes (kv s) !! p = Some n -> node_refs nx s p = 0 -> p <> root_node (kv s) ->
  is_console p = false -> (vn_close n <> 0 -> vn_data n = 0) ->
  h = k_free p (if vn_data n =? 0 then vheap (kv s) else k_free (vn_data n) (vheap (kv s))) ->
  fd_inv (delete p (delete (vn_data n) B)) ex nx
    (s <| kv := kv s <| nodes := delete p (nodes (kv s)) |> <| vheap := h |> |>).
Proof.
  intros Hi Hp Hz Hroot Hcon Hdata ->. set (h1 := if vn_data n =? 0 then _ else _).
  destruct (fi_node _ _ _ _ Hi p n Hp) as [Hp0 HBp]. specialize (HBp Hcon).
  assert (HBd : vn_data n <> 0 -> B !! vn_data n = Some (UData p)).
  { intros Hd. apply (fi_data _ _ _ _ Hi p n Hp Hd). left. destruct (decide (vn_close n = 0)); [done|]. by rewrite Hdata in Hd. }
  assert (Hh1 : a_ok h1 /\ forall q, a_live h1 q <-> a_live (vheap (kv s)) q /\ (vn_data n <> 0 -> q <> vn_data n)).
  { unfold h1. destruct (Z.eqb_spec (vn_data n) 0) as [Hd|Hd]; [split; [exact (fi_heap _ _ _ _ Hi)|]; tauto|].
    destruct (free_law (vheap (kv s)) (vn_data n) (fi_heap _ _ _ _ Hi)) as [? Hl]; [by eapply (fi_live _ _ _ _ Hi), HBd|].
    split; [done|]. intros q. rewrite Hl. tauto. }
  destruct Hh1 as [Hok1 Hl1].
  assert (Hpd : vn_data n <> 0 -> p <> vn_data n) by (intros Hd E; specialize (HBd Hd); congruence).
  destruct (free_law h1 p Hok1) as [Hok2 Hl2].
  { apply Hl1. split; [|done]. by eapply (fi_live _ _ _ _ Hi). }
  assert (Hold : forall d f, descs s !! d = Some f -> fd_node f <> p).
  { intros d f Hd E. subst p. unfold node_refs in Hz. pose proof (cnt_nonneg (fd_node f) nx).
    pose proof (msum_pos (fun g => if fd_node g =? fd_node f then 1 else 0) (descs s) d f) as Hpos.
    cbn in Hpos. rewrite Z.eqb_refl in Hpos. specialize (Hpos ltac:(intros; bcase; lia) Hd ltac:(lia)). lia. }
  assert (Hnr : forall q, q <> p -> node_refs nx s q = node_refs (p :: nx) s q).
  { intros q Hq. unfold node_refs. cbn [cnt]. rewrite (proj2 (Z.eqb_neq p q)) by done. lia. }
  assert (Hkeep : forall b u, B !! b = Some u -> u <> UNode \/ b <> p -> u <> UData p ->
    delete p (delete (vn_data n) B) !! b = Some u).
  { intros b u Hb Hu Hud. rewrite !lookup_delete_ne; [done| |].
    - intros E. destruct (decide (vn_data n = 0)) as [E0|Hd]; [|specialize (HBd Hd); congruence].
      rewrite <- E, E0 in Hb. by apply (fi_live _ _ _ _ Hi) in Hb as [? _].
    - intros <-. destruct Hu; congruence. }
  destruct Hi. split; cbn -[is_console]; try done.
  - intros b u Hb. apply lookup_delete_Some in Hb as [Hbp Hb]. apply lookup_delete_Some in Hb as [Hbd Hb].
    destruct (fi_live0 b u Hb) as [? ?]. split; [done|]. apply Hl2. split; [|done]. apply Hl1. done.
  - intros q k [Hne Hk]%lookup_delete_Some. destruct (fi_node0 q k Hk) as [? Hq]. split; [done|]. intros Hc.
    apply Hkeep; [by apply Hq|by right|done].
  - intros q k [Hne Hk]%lookup_delete_Some Hd Hc. apply Hkeep; [by eapply fi_data0|by left|congruence].
  - intros d f Hd. apply Hkeep; [by eapply fi_desc0|by left|done].
  - intros a q Ha. apply Hkeep; [by eapply fi_pipe0|by left|done].
  - intros d f Hd. rewrite lookup_delete_ne by (symmetry; by eapply Hold). by eapply fi_open0.
  - intros q k [Hne Hk]%lookup_delete_Some. unfold node_refs in *. cbn. rewrite (fi_count0 q k Hk). symmetry. by apply Hnr.
  - by rewrite lookup_delete_ne.
  - intros q Hq. destruct (fi_console0 q Hq) as (k & Hk & ?). exists k. rewrite lookup_delete_ne; [done|]. congruence.
  - intros q k [Hne Hk]%lookup_delete_Some. by eapply fi_file0.
  - intros q k [Hne Hk]%lookup_delete_Some Hc. destruct (fi_pipe_node0 q k Hk Hc) as (? & ? & Hq & Hdd).
    split; [done|]. split; [done|]. split; [by rewrite <- (Hnr q) in Hq by done|].
    destruct Hdd as [?|[? Hin]]; [by left|]. right. split; [done|]. apply elem_of_cons in Hin as [?|?]; [done|done].
  - intros e en He. destruct (fi_end0 e en He) as (He0 & ? & ? & q & k & Hq & Hc & Hd). do 3 (split; [done|]).
    exists q, k. rewrite lookup_delete_ne; [done|]. intros <-. simplify_eq. rewrite Hdata in He0; [done|]. rewrite Hc. done.
Qed.

(** [vfs_node_unref] of a node that is referred to. *)
Lemma vfs_unref_eq (v : vfs H X) p n :
  p <> 0 -> nodes v !! p = Some n -> 0 < vn_ref_count n ->
  vfs_node_unref p v =
    if (vn_ref_count n - 1 =? 0) && (vn_parent n =? 0) && negb (p =? root_node v)
    then v <| nodes := delete p (nodes v) |>
           <| vheap := k_free p (if vn_data n =? 0 then vheap v else k_free (vn_data n) (vheap v)) |>
    else set_node p (n <| vn_ref_count := vn_ref_count n - 1 |>) v.
Proof.
  intros Hp0 Hp Hpos. unfold vfs_node_unref. rewrite (proj2 (Z.eqb_neq p 0)) by done.
  rewrite (node_at_eq _ _ _ Hp), (proj2 (Z.ltb_lt _ _)) by done.
  set (n1 := n <| vn_ref_count := vn_ref_count n - 1 |>).
  assert (E1 : upd_node p (fun n => n <| vn_ref_count := vn_ref_count n - 1 |>) v = set_node p n1 v).
  { unfold upd_node. by rewrite (node_at_eq _ _ _ Hp). }
  rewrite E1. assert (Hn1 : nodes (set_node p n1 v) !! p = Some n1) by apply lookup_insert_eq.
  rewrite (node_at_eq _ _ _ Hn1). change (root_node (set_node p n1 v)) with (root_node v).
  destruct (_ && _); [|done]. unfold kfree_node, free_data. rewrite (node_at_eq _ _ _ Hn1).
  change (vn_data n1) with (vn_data n). destruct (Z.eqb_spec (vn_data n) 0); cbn [negb].
  - unfold set_node. cbn. by rewrite delete_insert_eq.
  - unfold upd_node, set_node, kfree_block. cbn. by rewrite !delete_insert_eq.
Qed.

Lemma node_unref_inv B ex nx s p n :
  fd_inv B ex (p :: nx) s -> nodes (kv s) !! p = Some n -> (vn_close n <> 0 -> vn_data n = 0) ->
  exists B', fd_inv B' ex nx (node_unref p s) /\ (forall b, B !! b = Some USpare -> B' !! b = Some USpare).
Proof.
  intros Hi Hp Hd. destruct (fi_node _ _ _ _ Hi p n Hp) as [Hp0 _]. pose proof (fi_count _ _ _ _ Hi p n Hp) as Hc.
  assert (Hsplit : node_refs (p :: nx) s p = node_refs nx s p + 1) by (unfold node_refs; cbn [cnt]; rewrite Z.eqb_refl; lia).
  assert (Hnn : 0 <= node_refs nx s p).
  { unfold node_refs. pose proof (cnt_nonneg p nx). enough (0 <= msum (fun f => if fd_node f =? p then 1 else 0) (descs s)) by lia.
    apply msum_nonneg. intros. bcase; lia. }
  unfold node_unref. destruct (is_console p) eqn:Hcon.
  - exists B. split; [|done]. destruct (fi_console _ _ _ _ Hi p Hcon) as (k & Hk & Hck & _). simplify_eq.
    unfold upd_vfs, upd_node. rewrite (node_at_eq _ _ _ Hp), (proj2 (Z.ltb_lt _ _)) by lia.
    apply (node_less_inv B ex nx s p n Hi Hp). rewrite Hck. done.
  - unfold upd_vfs. rewrite (vfs_unref_eq (kv s) p n) by (done || lia).
    destruct ((vn_ref_count n - 1 =? 0) && (vn_parent n =? 0) && negb (p =? root_node (kv s))) eqn:Hfree.
    + apply andb_true_iff in Hfree as [Hfree Hr]. apply andb_true_iff in Hfree as [Hz Hpa].
      apply Z.eqb_eq in Hz. apply negb_true_iff, Z.eqb_neq in Hr.
      eexists. split; [eapply remove_node_inv; (done || lia)|]. intros b Hb.
      rewrite !lookup_delete_ne; [done| |].
      * intros E. destruct (decide (vn_data n = 0)) as [E0|Hd0].
        -- rewrite <- E, E0 in Hb. by apply (fi_live _ _ _ _ Hi) in Hb as [? _].
        -- pose proof (fi_data _ _ _ _ Hi p n Hp Hd0) as HB. rewrite E, Hb in HB. enough (Some USpare = Some (UData p)) by done.
           apply HB. left. destruct (decide (vn_close n = 0)); [done|]. by rewrite Hd in Hd0.
      * intros <-. destruct (fi_node _ _ _ _ Hi p n Hp) as [_ HB]. specialize (HB Hcon). congruence.
    + exists B. split; [|done]. apply (node_less_inv B ex nx s p n Hi Hp). intros Hpc.
      destruct (fi_pipe_node _ _ _ _ Hi p n Hp Hpc) as (Hpar & Hr & Hone & _).
      rewrite Hpar, (proj2 (Z.eqb_neq p _)) in Hfree by done. rewrite (proj2 (Z.eqb_eq _ _)) in Hfree by lia. done.
Qed.

(** Closing the end of a pipe. *)
Lemma end_refs_pos s e en a rd :
  ends s !! e = Some en -> e_pipe en = a -> readable en = rd -> 0 < end_refs s a rd.
Proof.
  intros He Ha Hr. apply (msum_pos _ _ e en); [intros; by destruct (_ && _)|done|].
  by rewrite Ha, Hr, Z.eqb_refl, eqb_reflx.
Qed.
Lemma end_refs_nonneg s a rd : 0 <= end_refs s a rd.
Proof. apply msum_nonneg. intros. by destruct (_ && _). Qed.

(** The node [p] of an end loses it, and the pipes become [ps]. *)
Lemma drop_end_inv B B' ex nx s p n ps evs :
  fd_inv B ex (p :: nx) s -> nodes (kv s) !! p = Some n -> vn_close n = PIPE_CLOSE -> vn_data n <> 0 ->
  let s' := s <| kv := set_node p (n <| vn_data := 0 |>) (kv s) |> <| ends := delete (vn_data n) (ends s) |>
              <| pipes := ps |> <| pipe_events := evs |> in
  (forall b u, B' !! b = Some u -> is_Some (B !! b)) ->
  (forall b u, B !! b = Some u -> u <> UData p -> u <> UPipe -> B' !! b = Some u) ->
  (forall a q, ps !! a = Some q -> B' !! a = Some UPipe /\ readers q = end_refs s' a true /\ writers q = end_refs s' a false /\
     0 < readers q + writers q /\ pipe_ok q) ->
  (forall e en, ends s' !! e = Some en -> is_Some (ps !! e_pipe en)) ->
  fd_inv B' ex (p :: nx) s'.
Proof.
  intros Hi Hp Hc Hd s' Hlive Hkeep Hps Hends. destruct Hi.
  assert (Hback : forall q k, nodes (kv s') !! q = Some k -> exists k', nodes (kv s) !! q = Some k' /\
    vn_data k = (if decide (q = p) then 0 else vn_data k') /\ vn_close k = vn_close k' /\ vn_parent k = vn_parent k' /\
    vn_type k = vn_type k' /\ vn_ref_count k = vn_ref_count k').
  { intros q k. cbn. destruct (decide (q = p)) as [->|]; [rewrite lookup_insert_eq; intros [= <-]; by exists n|].
    rewrite lookup_insert_ne by done. intros Hk. by exists k. }
  assert (Hfwd : forall q, is_Some (nodes (kv s) !! q) -> is_Some (nodes (kv s') !! q)).
  { intros q Hq. cbn. destruct (decide (q = p)) as [->|]; [rewrite lookup_insert_eq; by eexists|by rewrite lookup_insert_ne]. }
  split; try done.
  - intros b u Hb. destruct (Hlive b u Hb) as [u' Hu']. by apply (fi_live0 b u').
  - intros q k (k' & Hk & _)%Hback. destruct (fi_node0 q k' Hk) as [? Hn]. split; [done|]. intros Hcq. apply Hkeep; [by apply Hn|done|done].
  - intros q k (k' & Hk & -> & -> & _)%Hback. destruct (decide (q = p)) as [->|]; [done|]. intros Hdk Hck.
    apply Hkeep; [by eapply fi_data0|congruence|done].
  - intros d f Hdf. apply Hkeep; [by eapply fi_desc0|done|done].
  - intros a q Ha. by apply Hps in Ha as [? _].
  - intros d f Hdf. by eapply Hfwd, fi_open0.
  - intros q k (k' & Hk & _ & _ & _ & _ & ->)%Hback. by apply fi_count0.
  - by apply Hfwd.
  - intros q Hq. destruct (fi_console0 q Hq) as (k & Hk & Hck & Hdk). destruct (decide (q = p)) as [->|].
    + simplify_eq.
    + exists k. split; [|done]. cbn. by rewrite lookup_insert_ne.
  - intros q k (k' & Hk & _ & -> & _ & -> & _)%Hback. by eapply fi_file0.
  - intros q k (k' & Hk & -> & -> & -> & _)%Hback Hck. destruct (fi_pipe_node0 q k' Hk Hck) as (? & ? & ? & Hdk).
    split; [done|]. split; [done|]. split; [done|]. destruct (decide (q = p)) as [->|]; [right; split; [done|left]|].
    destruct Hdk as [[Hdk [en He]]|?]; [left|by right]. split; [done|]. exists en. cbn. rewrite lookup_delete_ne; [done|].
    intros E. pose proof (fi_data0 q k' Hk Hdk (or_intror Hck)). pose proof (fi_data0 p n Hp Hd (or_intror Hc)). congruence.
  - intros e en He. pose proof (Hends e en He) as Hpe. cbn in He. apply lookup_delete_Some in He as [Hne He].
    destruct (fi_end0 e en He) as (He0 & Hw & _ & q & k & Hq & Hck & Hdk). do 3 (split; [done|]).
    exists q, k. split; [|done]. cbn. rewrite lookup_insert_ne; [done|]. intros <-. congruence.
  - intros a q Ha. by apply Hps in Ha as [_ ?].
Qed.

Lemma pipe_close_inv B ex nx s p n :
  fd_inv B ex (p :: nx) s -> nodes (kv s) !! p = Some n -> vn_close n = PIPE_CLOSE -> vn_data n <> 0 ->
  exists B', fd_inv B' ex (p :: nx) (pipe_node_close p s) /\ (forall b, B !! b = Some USpare -> B' !! b = Some USpare) /\
    nodes (kv (pipe_node_close p s)) = <[p := n <| vn_data := 0 |>]> (nodes (kv s)).
Proof.
  intros Hi Hp Hc Hd. destruct (fi_pipe_node _ _ _ _ Hi p n Hp Hc) as (Hpar & Hroot & Hone & [[_ [en He]]|[? _]]); [|done].
  set (e := vn_data n) in *. destruct (fi_end _ _ _ _ Hi e en He) as (_ & Hw & [q Hq] & _).
  set (a := e_pipe en) in *. destruct (fi_ends _ _ _ _ Hi a q Hq) as (Hrd & Hwr & Hpos & Hok).
  unfold pipe_node_close. rewrite (node_at_eq _ _ _ Hp). fold e. rewrite He. fold a. rewrite Hq, pipe_close_end_eq.
  set (r := drop_one _ _). set (w := drop_one _ _). set (evs := pipe_events s ++ _). set (q' := q <| readers := r |> <| writers := w |>).
  pose (ss := fun ps => s <| kv := set_node p (n <| vn_data := 0 |>) (kv s) |> <| ends := delete e (ends s) |>
                          <| pipes := ps |> <| pipe_events := evs |>).
  assert (Hcnt : forall ps a' rd, end_refs (ss ps) a' rd = end_refs s a' rd - (if (a =? a') && Bool.eqb (readable en) rd then 1 else 0)).
  { intros ps a' rd. unfold end_refs. change (ends (ss ps)) with (delete e (ends s)). by rewrite (msum_delete _ _ _ en). }
  assert (Hr : r = end_refs s a true - (if readable en then 1 else 0) /\ w = end_refs s a false - (if readable en then 0 else 1)).
  { unfold r, w, drop_one. rewrite Hrd, Hwr, Hw. pose proof (end_refs_pos s e en a _ He eq_refl eq_refl) as Hpo.
    destruct (readable en); cbn [negb]; rewrite (proj2 (Z.ltb_lt _ _)) by done; lia. }
  destruct Hr as [Hr Hwq].
  assert (HBe : B !! e = Some (UData p)) by (apply (fi_data _ _ _ _ Hi p n); (done || by right)).
  assert (HBa : B !! a = Some UPipe) by (by eapply (fi_pipe _ _ _ _ Hi)).
  assert (Hae : a <> e) by congruence.
  destruct (fi_live _ _ _ _ Hi _ _ HBa) as [Ha0 _].
  (* the counts of the pipes that stay *)
  assert (Hother : forall ps a' x, a' <> a -> pipes s !! a' = Some x ->
    readers x = end_refs (ss ps) a' true /\ writers x = end_refs (ss ps) a' false /\ 0 < readers x + writers x /\ pipe_ok x).
  { intros ps a' x Hne Hx. rewrite !Hcnt, (proj2 (Z.eqb_neq a a')) by done. cbn [andb]. rewrite !Z.sub_0_r. by apply (fi_ends _ _ _ _ Hi). }
  assert (Hu : forall v : vfs H X, nodes v = nodes (kv s) -> upd_node p (fun n => n <| vn_data := 0 |>) v = set_node p (n <| vn_data := 0 |>) v).
  { intros v Ev. unfold upd_node. by rewrite (node_at_eq v p n) by (by rewrite Ev). }
  destruct ((r =? 0) && (w =? 0)) eqn:Hfreed.
  - apply andb_true_iff in Hfreed as [Hz1 Hz2]. apply Z.eqb_eq in Hz1, Hz2.
    assert (E : ss (delete a (pipes s)) = ss (delete a (<[a := q']> (pipes s)))) by (by rewrite delete_insert_eq).
    assert (Hinv : fd_inv (<[a := USpare]> (<[e := USpare]> B)) ex (p :: nx) (ss (delete a (pipes s)))).
    { apply (drop_end_inv B); try done.
      - intros b u Hb. destruct (decide (b = a)) as [->|]; [by eexists|]. rewrite lookup_insert_ne in Hb by done.
        destruct (decide (b = e)) as [->|]; [by eexists|]. rewrite lookup_insert_ne in Hb by done. by eexists.
      - intros b u Hb Hu1 Hu2. rewrite !lookup_insert_ne; [done|congruence|congruence].
      - intros a' x [Hne Hx]%lookup_delete_Some. split; [|by apply Hother].
        rewrite !lookup_insert_ne; [by eapply (fi_pipe _ _ _ _ Hi)|intros <-; apply (fi_pipe _ _ _ _ Hi) in Hx; congruence|done].
      - intros e' en' He'. change (delete e (ends s) !! e' = Some en') in He'. apply lookup_delete_Some in He' as [Hne He'].
        destruct (fi_end _ _ _ _ Hi e' en' He') as (_ & _ & Hsome & _).
        rewrite lookup_delete_ne; [done|]. intros Ea.
        assert (Hd' : ends (ss ∅) !! e' = Some en') by (cbn; by rewrite lookup_delete_ne).
        pose proof (end_refs_pos (ss ∅) e' en' a _ Hd' (eq_sym Ea) eq_refl) as Hpo. rewrite Hcnt, Z.eqb_refl in Hpo. cbn [andb] in Hpo.
        destruct (readable en'), (readable en); cbn in Hpo; lia. }
    eexists. split; [|split].
    + assert (HBe' : <[a := USpare]> (<[e := USpare]> B) !! e = Some USpare) by (rewrite lookup_insert_ne by done; apply lookup_insert_eq).
      pose proof (free_spare_inv _ _ _ _ e Hinv HBe') as Hf1.
      assert (HBa' : delete e (<[a := USpare]> (<[e := USpare]> B)) !! a = Some USpare).
      { rewrite lookup_delete_ne by done. apply lookup_insert_eq. }
      pose proof (free_spare_inv _ _ _ _ a Hf1 HBa') as Hf2.
      unfold free_block in Hf2 |- *. rewrite (proj2 (Z.eqb_neq a 0)), (proj2 (Z.eqb_neq e 0)) in Hf2 |- * by done.
      unfold upd_vfs in Hf2 |- *. rewrite Hu by done. rewrite E in Hf2. exact Hf2.
    + intros b Hb. rewrite !lookup_delete_ne, !lookup_insert_ne; [done|congruence..].
    + unfold free_block. rewrite (proj2 (Z.eqb_neq a 0)), (proj2 (Z.eqb_neq e 0)) by done. unfold upd_vfs. by rewrite Hu.
  - assert (Hrw : 0 < r + w).
    { assert (0 <= r /\ 0 <= w) as [? ?].
      { rewrite Hr, Hwq. pose proof (end_refs_pos s e en a _ He eq_refl eq_refl). pose proof (end_refs_nonneg s a true).
        pose proof (end_refs_nonneg s a false). destruct (readable en); lia. }
      apply andb_false_iff in Hfreed as [Hz|Hz]; apply Z.eqb_neq in Hz; lia. }
    assert (Hinv : fd_inv (<[e := USpare]> B) ex (p :: nx) (ss (<[a := q']> (pipes s)))).
    { apply (drop_end_inv B); try done.
      - intros b u Hb. destruct (decide (b = e)) as [->|]; [by eexists|]. rewrite lookup_insert_ne in Hb by done. by eexists.
      - intros b u Hb Hu1 Hu2. rewrite lookup_insert_ne; [done|congruence].
      - intros a' x Hx. destruct (decide (a' = a)) as [->|].
        + rewrite lookup_insert_eq in Hx. injection Hx as <-. rewrite lookup_insert_ne by done.
          fold e. change (s <| kv := set_node p (n <| vn_data := 0 |>) (kv s) |> <| ends := delete e (ends s) |>
                            <| pipes := <[a := q']> (pipes s) |> <| pipe_events := evs |>) with (ss (<[a := q']> (pipes s))).
          rewrite !Hcnt, Z.eqb_refl. cbn [andb]. cbn. split_and!; [done| | |done|].
          * rewrite Hr. by destruct (readable en).
          * rewrite Hwq. by destruct (readable en).
          * by destruct Hok.
        + rewrite lookup_insert_ne in Hx by done. split; [|by apply Hother].
          rewrite lookup_insert_ne; [by eapply (fi_pipe _ _ _ _ Hi)|intros <-; apply (fi_pipe _ _ _ _ Hi) in Hx; congruence].
      - intros e' en' He'. change (delete e (ends s) !! e' = Some en') in He'. apply lookup_delete_Some in He' as [Hne He'].
        destruct (fi_end _ _ _ _ Hi e' en' He') as (_ & _ & Hsome & _).
        destruct (decide (e_pipe en' = a)) as [->|]; [rewrite lookup_insert_eq; by eexists|by rewrite lookup_insert_ne]. }
    eexists. split; [|split].
    + assert (HBe' : <[e := USpare]> B !! e = Some USpare) by apply lookup_insert_eq.
      pose proof (free_spare_inv _ _ _ _ e Hinv HBe') as Hf1.
      unfold free_block in Hf1 |- *. rewrite (proj2 (Z.eqb_neq e 0)) in Hf1 |- * by done.
      unfold upd_vfs in Hf1 |- *. rewrite Hu by done. exact Hf1.
    + intros b Hb. rewrite lookup_delete_ne, lookup_insert_ne; [done|congruence..].
    + unfold free_block. rewrite (proj2 (Z.eqb_neq e 0)) by done. unfold upd_vfs. by rewrite Hu.
Qed.

(** [socket_vfs_close] clears the data of a node. *)
Lemma socket_close_inv B ex nx s p n x :
  fd_inv B ex nx s -> nodes (kv s) !! p = Some n -> vn_close n <> 0 -> vn_close n <> PIPE_CLOSE ->
  fd_inv B ex nx (s <| kv := set_node p (n <| vn_data := 0 |>) (kv s <| drivers := x |>) |>).
Proof.
  intros Hi Hp Hc0 Hcp. destruct Hi.
  assert (Hback : forall q k, <[p := n <| vn_data := 0 |>]> (nodes (kv s)) !! q = Some k -> exists k', nodes (kv s) !! q = Some k' /\
    (q <> p -> vn_data k = vn_data k') /\ vn_close k = vn_close k' /\ vn_parent k = vn_parent k' /\ vn_type k = vn_type k' /\
    vn_ref_count k = vn_ref_count k' /\ (q = p -> k' = n)).
  { intros q k. destruct (decide (q = p)) as [->|]; [rewrite lookup_insert_eq; intros [= <-]; by exists n|].
    rewrite lookup_insert_ne by done. intros Hk. by exists k. }
  assert (Hfwd : forall q, is_Some (nodes (kv s) !! q) -> is_Some (<[p := n <| vn_data := 0 |>]> (nodes (kv s)) !! q)).
  { intros q Hq. destruct (decide (q = p)) as [->|]; [rewrite lookup_insert_eq; by eexists|by rewrite lookup_insert_ne]. }
  assert (Hnot : forall q k, nodes (kv s) !! q = Some k -> vn_close k = 0 \/ vn_close k = PIPE_CLOSE -> q <> p).
  { intros q k Hk Hck ->. simplify_eq. by destruct Hck. }
  split; cbn -[is_console]; try done.
  - intros q k (k' & Hk & _)%Hback. by eapply fi_node0.
  - intros q k (k' & Hk & Ed & -> & _)%Hback Hd Hck. rewrite Ed in * by (by eapply Hnot). by eapply fi_data0.
  - intros d f Hd. by eapply Hfwd, fi_open0.
  - intros q k (k' & Hk & _ & _ & _ & _ & -> & _)%Hback. by apply fi_count0.
  - by apply Hfwd.
  - intros q Hq. destruct (fi_console0 q Hq) as (k & Hk & Hck & Hdk). exists k. split; [|done].
    rewrite lookup_insert_ne; [done|]. intros <-. by apply (Hnot p k Hk (or_introl Hck)).
  - intros q k (k' & Hk & _ & -> & _ & -> & _)%Hback. by eapply fi_file0.
  - intros q k (k' & Hk & Ed & -> & -> & _)%Hback Hck. rewrite Ed by (eapply Hnot; [done|by right]). by eapply fi_pipe_node0.
  - intros e en He. destruct (fi_end0 e en He) as (? & ? & ? & q & k & Hq & Hck & Hd). do 3 (split; [done|]).
    exists q, k. split; [|done]. rewrite lookup_insert_ne; [done|]. intros <-. by apply (Hnot p k Hq (or_intror Hck)).
Qed.

(** The last reference to a node, from a description: it is closed and released. *)
Lemma release_node_inv B ex nx s p :
  fd_inv B ex (p :: nx) s -> is_Some (nodes (kv s) !! p) ->
  (vn_close (node_at (kv s) p) = PIPE_CLOSE -> vn_data (node_at (kv s) p) <> 0) ->
  exists B', fd_inv B' ex nx (node_unref p (node_close socket_close p s)) /\
    (forall b, B !! b = Some USpare -> B' !! b = Some USpare).
Proof.
  intros Hi [n Hp] Hdata. rewrite (node_at_eq _ _ _ Hp) in Hdata. unfold node_close. rewrite (node_at_eq _ _ _ Hp).
  destruct (Z.eqb_spec (vn_close n) 0) as [Hc|Hc]; [by eapply node_unref_inv|].
  destruct (Z.eqb_spec (vn_close n) PIPE_CLOSE) as [Hpc|Hpc].
  - destruct (pipe_close_inv B ex nx s p n Hi Hp Hpc (Hdata Hpc)) as (B1 & Hi1 & Hs1 & En).
    destruct (node_unref_inv B1 ex nx _ p (n <| vn_data := 0 |>) Hi1) as (B2 & Hi2 & Hs2); [by rewrite En, lookup_insert_eq|done|].
    exists B2. split; [done|]. intros b Hb. by apply Hs2, Hs1.
  - pose proof (socket_close_inv B ex (p :: nx) s p n (socket_close (vn_data n) (drivers (kv s))) Hi Hp Hc Hpc) as Hi1.
    unfold upd_vfs. cbv beta. unfold upd_node at 1. rewrite (node_at_eq _ p n) by done.
    eapply (node_unref_inv B ex nx _ p (n <| vn_data := 0 |>)); [exact Hi1|apply lookup_insert_eq|done].
Qed.

(** Closing and releasing a node does not look at the descriptions. *)
Lemma close_frame p s m :
  node_unref p (node_close socket_close p (s <| descs := m |>)) = node_unref p (node_close socket_close p s) <| descs := m |> /\
  descs (node_unref p (node_close socket_close p s)) = descs s.
Proof.
  assert (Hc : node_close socket_close p (s <| descs := m |>) = node_close socket_close p s <| descs := m |> /\
               descs (node_close socket_close p s) = descs s).
  { unfold node_close, pipe_node_close. cbn [kv ends pipes]. change (kv (s <| descs := m |>)) with (kv s).
    destruct (_ =? 0); [done|]. destruct (_ =? PIPE_CLOSE); [|done].
    change (ends (s <| descs := m |>)) with (ends s). destruct (ends s !! _) as [en|]; [|done].
    change (pipes (s <| descs := m |>)) with (pipes s). destruct (pipes s !! _) as [q|]; [|done].
    destruct (pipe_close_end en q) as [[q' freed] ev]. unfold free_block.
    destruct (vn_data _ =? 0), freed, (e_pipe en =? 0); done. }
  destruct Hc as [Ec Ed]. rewrite Ec. unfold node_unref. destruct (is_console p); done.
Qed.

(** A reference that is not the last one goes. *)
Lemma unref_more_inv B ex nx s d f :
  fd_inv B (d :: ex) nx s -> d <> 0 -> descs s !! d = Some f -> 0 < refs ex s d ->
  fd_inv B ex nx (set_desc d (f <| fd_ref_count := fd_ref_count f - 1 |>) s).
Proof.
  intros Hi Hd0 Hd Hpos. destruct (fi_open _ _ _ _ Hi d f Hd) as [n Hn]. set (f' := f <| fd_ref_count := _ |>).
  assert (Hnr : forall q, node_refs nx (set_desc d f' s) q = node_refs nx s q).
  { intros q. unfold node_refs. change (descs (set_desc d f' s)) with (<[d := f']> (descs s)).
    rewrite (msum_insert _ _ _ _ f) by done. change (fd_node f') with (fd_node f). lia. }
  eapply (descs_inv B B (d :: ex) ex nx nx s _ (fd_node f) n n Hi Hn); try done.
  - cbn. by rewrite insert_id.
  - exact (fi_heap _ _ _ _ Hi).
  - apply (fi_live _ _ _ _ Hi).
  - intros x g. cbn. destruct (decide (x = d)) as [->|]; [intros _; by eapply (fi_desc _ _ _ _ Hi)|].
    rewrite lookup_insert_ne by done. apply (fi_desc _ _ _ _ Hi).
  - intros x Hx. pose proof (fi_refs _ _ _ _ Hi x Hx) as Hr. unfold refs in *. cbn [cnt] in Hr.
    change (ktasks (set_desc d f' s)) with (ktasks s). change (descs (set_desc d f' s)) with (<[d := f']> (descs s)).
    destruct (decide (x = d)) as [->|].
    + rewrite lookup_insert_eq. rewrite Hd, Z.eqb_refl in Hr. cbn. lia.
    + rewrite lookup_insert_ne by done. rewrite (proj2 (Z.eqb_neq d x)) in Hr by done. by destruct (descs s !! x).
  - intros x g. cbn. destruct (decide (x = d)) as [->|]; [rewrite lookup_insert_eq; intros [= <-]; by left|].
    rewrite lookup_insert_ne by done. right. by eapply (fi_open _ _ _ _ Hi).
  - rewrite Hnr. by apply (fi_count _ _ _ _ Hi).
  - intros Hc. rewrite Hnr. by apply (fi_pipe_node _ _ _ _ Hi _ n).
Qed.

Lemma unref_inv B ex s d :
  fd_inv B (d :: ex) [] s -> d <> 0 -> exists B', fd_inv B' ex [] (file_description_unref socket_close d s).
Proof.
  intros Hi Hd0. unfold file_description_unref. rewrite (proj2 (Z.eqb_neq d 0)) by done.
  pose proof (fi_refs _ _ _ _ Hi d Hd0) as Hr.
  assert (Hsplit : refs (d :: ex) s d = refs ex s d + 1) by (unfold refs; cbn [cnt]; rewrite Z.eqb_refl; lia).
  pose proof (refs_nonneg ex s d) as Hnn. destruct (descs s !! d) as [f|] eqn:Hd; [|lia]. destruct Hr as [Hcount _].
  unfold desc_at. rewrite Hd. cbn [default from_option id]. rewrite (proj2 (Z.ltb_lt 0 _)) by lia.
  set (f' := f <| fd_ref_count := fd_ref_count f - 1 |>). change (fd_ref_count f') with (fd_ref_count f - 1).
  destruct (fi_open _ _ _ _ Hi d f Hd) as [n Hn]. destruct (fi_node _ _ _ _ Hi _ _ Hn) as [Hp0 _].
  destruct (Z.eqb_spec (fd_ref_count f - 1) 0) as [Hlast|Hmore].
  - change (fd_node f') with (fd_node f). rewrite (proj2 (Z.eqb_neq (fd_node f) 0)) by done. cbn [negb].
    set (s0 := s <| descs := delete d (descs s) |>).
    assert (Hi0 : fd_inv (<[d := USpare]> B) ex [fd_node f] s0) by (eapply drop_desc_inv; [done|done|lia|done]).
    destruct (release_node_inv _ ex [] s0 (fd_node f) Hi0) as (B1 & Hi1 & Hs1).
    { by exists n. }
    { change (kv s0) with (kv s). rewrite (node_at_eq _ _ _ Hn). intros Hc.
      destruct (fi_pipe_node _ _ _ _ Hi _ n Hn Hc) as (_ & _ & _ & [[? _]|[_ Hin]]); [done|by apply elem_of_nil in Hin]. }
    eexists. assert (E : set_desc d f' s = s0 <| descs := <[d := f']> (descs s) |>) by done.
    rewrite E. rewrite (proj1 (close_frame (fd_node f) s0 _)).
    assert (E2 : node_unref (fd_node f) (node_close socket_close (fd_node f) s0) =
      (node_unref (fd_node f) (node_close socket_close (fd_node f) s0) <| descs := <[d := f']> (descs s) |>)
        <| descs := delete d (<[d := f']> (descs s)) |>).
    { rewrite delete_insert_eq. pose proof (proj2 (close_frame (fd_node f) s0 ∅)) as HT.
      change (descs s0) with (delete d (descs s)) in HT. rewrite <- HT. by destruct (node_unref _ _). }
    rewrite E2 in Hi1. eapply free_spare_inv; [exact Hi1|]. apply Hs1, lookup_insert_eq.
  - exists B. apply unref_more_inv; (done || lia).
Qed.
End Refs.
