(* ===== verification/FdSteps.v ===== *)
(** The descriptor calls keep the reference counts right: the invariant of FdRefs holds in
    every state that tasks can reach by opening, duplicating, closing, forking, exiting
    and making, using and dropping pipes. *)

From S2P Require Import Prelude Pipe Vfs VfsTree VfsReach Fd FdRefs.

Lemma nonzero_blocks a e1 e2 p1 p2 : (a =? 0) || (e1 =? 0) || (e2 =? 0) || (p1 =? 0) || (p2 =? 0) = false ->
  a <> 0 /\ e1 <> 0 /\ e2 <> 0 /\ p1 <> 0 /\ p2 <> 0.
Proof. rewrite !orb_false_iff, !Z.eqb_neq. tauto. Qed.

Section Steps.
Context {H X : Type} `{AllocatorLaws H} `{ConsoleNodes} (socket_close : Z -> X -> X).
Context (console_static : forall h p, a_ok h -> is_console p = true -> ~ a_live h p).
Implicit Types s : kfd H X.

(** Between two calls no code holds a reference. *)
Definition fd_safe s : Prop := exists B, fd_inv B [] [] s.

(** * Slots *)

Lemma task_lookup s t : length (ktasks s) = 16%nat -> (t < 16)%nat -> ktasks s !! t = Some (ktasks s !!! t).
Proof. intros Hl Ht. apply list_lookup_lookup_total_lt. lia. Qed.
Lemma task_fds_len B ex nx s t : fd_inv B ex nx s -> (t < 16)%nat -> len (ft_fds (ktasks s !!! t)) = 32.
Proof.
  intros Hi Ht. pose proof (task_lookup s t (fi_tasks _ _ _ _ Hi) Ht) as Hl. by apply (Forall_lookup_1 _ _ _ _ (fi_fds _ _ _ _ Hi) Hl).
Qed.

(** The descriptors of one task change. *)
Lemma set_fds_inv B ex ex' nx s t fds :
  fd_inv B ex nx s -> (t < 16)%nat -> len fds = 32 ->
  (forall d, d <> 0 -> cnt d fds + cnt d ex' = cnt d (ft_fds (ktasks s !!! t)) + cnt d ex) ->
  fd_inv B ex' nx (set_fds t fds s).
Proof.
  intros Hi Ht Hl Hc. pose proof (task_lookup s t (fi_tasks _ _ _ _ Hi) Ht) as Hlk.
  apply (slots_inv B ex); [done|by rewrite length_insert; apply (fi_tasks _ _ _ _ Hi)| |].
  - apply Forall_insert; [apply (fi_fds _ _ _ _ Hi)|done].
  - intros d Hd. rewrite (cnt_tasks_insert d _ t _ _ Hlk). unfold refs. cbn. specialize (Hc d Hd). lia.
Qed.
(** A held reference goes into an empty slot, and a slot's into the running code. *)
Lemma fill_slot_inv B ex nx s t i d :
  fd_inv B (d :: ex) nx s -> (t < 16)%nat -> 0 <= i < 32 -> arr_get (ft_fds (ktasks s !!! t)) i = 0 ->
  fd_inv B ex nx (set_fds t (arr_set (ft_fds (ktasks s !!! t)) i d) s).
Proof.
  intros Hi Ht Hr Hz. pose proof (task_fds_len _ _ _ _ t Hi Ht) as Hl.
  apply (set_fds_inv B (d :: ex)); [done|done|by rewrite len_arr_set|]. intros x Hx.
  rewrite cnt_arr_set, Hz, (proj2 (Z.eqb_neq 0 x)) by (done || lia). cbn [cnt]. lia.
Qed.
Lemma empty_slot_inv B ex nx s t i :
  fd_inv B ex nx s -> (t < 16)%nat -> 0 <= i < 32 ->
  fd_inv B (arr_get (ft_fds (ktasks s !!! t)) i :: ex) nx (set_fds t (arr_set (ft_fds (ktasks s !!! t)) i 0) s).
Proof.
  intros Hi Ht Hr. pose proof (task_fds_len _ _ _ _ t Hi Ht) as Hl.
  apply (set_fds_inv B ex); [done|done|by rewrite len_arr_set|]. intros x Hx.
  rewrite cnt_arr_set, (proj2 (Z.eqb_neq 0 x)) by (done || lia). cbn [cnt]. lia.
Qed.
(** The description in a slot. *)
Lemma slot_desc B ex nx s t i :
  fd_inv B ex nx s -> (t < 16)%nat -> 0 <= i < 32 -> arr_get (ft_fds (ktasks s !!! t)) i <> 0 ->
  is_Some (descs s !! arr_get (ft_fds (ktasks s !!! t)) i).
Proof.
  intros Hi Ht Hr Hd. set (d := arr_get _ i) in *. pose proof (fi_refs _ _ _ _ Hi d Hd) as Hc.
  destruct (descs s !! d); [by eexists|]. exfalso.
  pose proof (task_lookup s t (fi_tasks _ _ _ _ Hi) Ht) as Hlk. pose proof (cnt_tasks_le d _ _ _ Hlk) as Hle.
  pose proof (cnt_pos d (ft_fds (ktasks s !!! t)) i) as Hp. rewrite (task_fds_len _ _ _ _ t Hi Ht) in Hp.
  specialize (Hp Hr eq_refl). unfold refs in Hc. pose proof (cnt_nonneg d ex). lia.
Qed.

Lemma first_free_spec i fds k : first_free i fds = Some k -> i <= k < i + len fds /\ arr_get fds (k - i) = 0.
Proof.
  revert i. induction fds as [|d fds IH]; intros i; cbn; [done|]. destruct (Z.eqb_spec d 0) as [->|].
  - intros [= <-]. rewrite Z.sub_diag. unfold len. cbn. split; [lia|done].
  - intros [Hk Hz]%IH. unfold len in *. cbn [length]. split; [lia|]. rewrite arr_get_cons by lia.
    by replace (k - i - 1) with (k - (i + 1)) by lia.
Qed.
Lemma free_slot_spec from fds k :
  0 <= from -> len fds = 32 -> free_slot from fds = Some k -> from <= k < 32 /\ arr_get fds k = 0.
Proof.
  intros Hf Hl [Hk Hz]%first_free_spec. unfold len in *. rewrite length_drop in Hk.
  split; [lia|]. rewrite <- Hz. unfold arr_get. rewrite lookup_total_drop. f_equal. lia.
Qed.

(** * Calls *)

Lemma unlock_node_inv B ex nx s d pid f : fd_inv B ex nx s -> descs s !! d = Some f -> fd_inv B ex nx (unlock_node d pid s).
Proof.
  intros Hi Hd. destruct (fi_open _ _ _ _ Hi d f Hd) as [n Hn]. destruct (fi_node _ _ _ _ Hi _ _ Hn) as [Hp0 _].
  unfold unlock_node, desc_at. rewrite Hd. cbn [default from_option id]. rewrite (proj2 (Z.eqb_neq (fd_node f) 0)) by done.
  unfold upd_vfs, vfs_node_unlock_by_pid. rewrite (proj2 (Z.eqb_neq (fd_node f) 0)) by done.
  unfold upd_node. rewrite (node_at_eq _ _ _ Hn).
  apply (node_inv B ex nx s (fd_node f) n); try done; unfold unlock_by_pid, unlock, drop_shared; by repeat case_match.
Qed.

Lemma close_slot_inv B s t fd :
  fd_inv B [] [] s -> (t < 16)%nat -> 0 <= fd < 32 -> exists B', fd_inv B' [] [] (close_slot socket_close t fd s).
Proof.
  intros Hi Ht Hr. unfold close_slot. destruct (Z.eqb_spec (arr_get (ft_fds (ktasks s !!! t)) fd) 0) as [|Hd]; [by exists B|].
  destruct (slot_desc _ _ _ _ t fd Hi Ht Hr Hd) as [f Hf]. pose proof (empty_slot_inv _ _ _ _ t fd Hi Ht Hr) as Hi1.
  eapply unref_inv; [by eapply unlock_node_inv|done].
Qed.

Lemma close_safe t fd s : fd_safe s -> (t < 16)%nat -> 0 <= fd < 32 -> fd_safe (close_slot socket_close t fd s).
Proof. intros [B Hi] Ht Hfd. by eapply close_slot_inv. Qed.
Lemma close_all_safe t s : fd_safe s -> (t < 16)%nat -> fd_safe (close_all_fds socket_close t s).
Proof.
  intros Hs Ht. unfold close_all_fds. change (Z.to_nat TASK_MAX_FDS) with 32%nat.
  assert (Hf : Forall (fun k => (k < 32)%nat) (seq 0 32)) by (apply Forall_forall; intros k Hk%elem_of_seq; lia).
  revert s Hs. induction (seq 0 32) as [|k l IH]; intros s Hs; cbn [foldl]; [done|]. apply Forall_cons in Hf as [Hk Hf].
  apply IH; [done|]. apply close_safe; [done|done|lia].
Qed.

(** A slot of the current task, given a new reference to a description. *)
Lemma cur_fds_eq fds s : set_cur_fds fds s = set_fds (kcur s) fds s.
Proof. reflexivity. Qed.
Lemma fd_get_spec fd s : fd_get fd s <> 0 -> 0 <= fd < 32 /\ fd_get fd s = arr_get (cur_fds s) fd.
Proof.
  unfold fd_get, TASK_MAX_FDS. destruct (Z.ltb_spec fd 0); [done|]. destruct (Z.leb_spec 32 fd); [done|]. intros _. split; [lia|done].
Qed.
Lemma share_safe i d s :
  fd_safe s -> d <> 0 -> is_Some (descs s !! d) -> 0 <= i < 32 -> arr_get (cur_fds s) i = 0 -> fd_safe (share i d s).
Proof.
  intros [B Hi] Hd [f Hf] Hr Hz. exists B. unfold share. rewrite cur_fds_eq.
  assert (E : file_description_ref d (set_fds (kcur s) (arr_set (cur_fds s) i d) s) =
              set_fds (kcur s) (arr_set (cur_fds s) i d) (file_description_ref d s)).
  { unfold file_description_ref. by destruct (d =? 0). }
  assert (Ek : ktasks (file_description_ref d s) = ktasks s /\ kcur (file_description_ref d s) = kcur s).
  { unfold file_description_ref. by destruct (d =? 0). }
  destruct Ek as [Ek Ec]. rewrite E. pose proof (fi_cur _ _ _ _ Hi) as Hc.
  pose proof (ref_inv B [] [] s d f Hi Hf Hd ltac:(done)) as Hi1.
  pose proof (fill_slot_inv B [] [] _ (kcur s) i d Hi1 Hc Hr) as Hf1. rewrite Ek in Hf1. by apply Hf1.
Qed.
Lemma cur_desc s fd : fd_safe s -> fd_get fd s <> 0 -> is_Some (descs s !! fd_get fd s).
Proof.
  intros [B Hi] Hd. destruct (fd_get_spec fd s Hd) as [Hr E]. rewrite E in Hd |- *.
  apply (slot_desc B [] [] s (kcur s) fd Hi (fi_cur _ _ _ _ Hi) Hr Hd).
Qed.
Lemma cur_free s from i : fd_safe s -> 0 <= from -> free_slot from (cur_fds s) = Some i -> 0 <= i < 32 /\ arr_get (cur_fds s) i = 0.
Proof.
  intros [B Hi] Hf Hs. pose proof (task_fds_len _ _ _ _ (kcur s) Hi (fi_cur _ _ _ _ Hi)) as Hl.
  destruct (free_slot_spec from (cur_fds s) i Hf Hl Hs) as [? ?]. split; [lia|done].
Qed.

Lemma dup_safe fd s : fd_safe s -> fd_safe (snd (sys_dup fd s)).
Proof.
  intros Hs. unfold sys_dup. destruct (Z.eqb_spec (fd_get fd s) 0) as [|Hd]; [done|].
  destruct (free_slot 0 (cur_fds s)) as [i|] eqn:Ef; [|done]. destruct (cur_free s 0 i Hs ltac:(done) Ef).
  apply share_safe; [done|done|by apply cur_desc|done|done].
Qed.
Lemma fcntl_safe fd cmd arg s : fd_safe s -> fd_safe (snd (sys_fcntl fd cmd arg s)).
Proof.
  intros Hs. unfold sys_fcntl. destruct (Z.eqb_spec (fd_get fd s) 0) as [|Hd]; [done|].
  pose proof (cur_desc s fd Hs Hd) as [f Hf]. destruct (cmd =? F_DUPFD).
  { destruct (Z.ltb_spec (s32 arg) 0); [done|]. cbn [orb]. destruct (_ <=? _); [done|].
    destruct (free_slot (s32 arg) (cur_fds s)) as [i|] eqn:Ef; [|done]. destruct (cur_free s (s32 arg) i Hs ltac:(done) Ef).
    apply share_safe; [done|done|by exists f|done|done]. }
  destruct (_ || _); [done|]. destruct (cmd =? F_GETFL); [done|]. destruct (cmd =? F_SETFL); [|done].
  destruct Hs as [B Hi]. exists B. eapply desc_inv; [done|done| |]; unfold desc_at; by rewrite Hf.
Qed.
Lemma sys_close_safe fd s : fd_safe s -> fd_safe (snd (sys_close socket_close fd s)).
Proof.
  intros Hs. unfold sys_close. destruct (Z.eqb_spec (fd_get fd s) 0) as [|Hd]; [done|].
  destruct (fd_get_spec fd s Hd) as [Hr _]. cbn. apply close_safe; [done| |done]. destruct Hs as [B Hi]. apply (fi_cur _ _ _ _ Hi).
Qed.

(** Descriptions come and go without a change to the descriptors. *)
Definition same_tasks s s' : Prop := ktasks s' = ktasks s /\ kcur s' = kcur s.
Lemma free_block_tasks p s : same_tasks s (free_block p s).
Proof. unfold free_block. by destruct (p =? 0). Qed.
Lemma node_close_tasks p s : same_tasks s (node_close socket_close p s).
Proof.
  unfold node_close, pipe_node_close. destruct (_ =? 0); [done|]. destruct (_ =? PIPE_CLOSE); [|done].
  destruct (ends s !! _) as [en|]; [|done]. destruct (pipes s !! _) as [q|]; [|done].
  destruct (pipe_close_end en q) as [[q' freed] ev]. unfold free_block. destruct (vn_data _ =? 0), freed, (e_pipe en =? 0); done.
Qed.
Lemma unref_tasks d s : same_tasks s (file_description_unref socket_close d s).
Proof.
  unfold file_description_unref. destruct (d =? 0); [done|]. match goal with |- context [set_desc d ?g s] => set (f := g) end.
  destruct (fd_ref_count f =? 0); [|done].
  destruct (negb _).
  - destruct (node_close_tasks (fd_node f) (set_desc d f s)) as [E1 E2].
    set (s1 := node_close _ _ _) in *. assert (E3 : same_tasks s1 (node_unref (fd_node f) s1)) by (unfold node_unref; by destruct (is_console _)).
    destruct E3 as [E3 E4]. unfold free_block. destruct (d =? 0); (split; [etransitivity; [exact E3|exact E1]|etransitivity; [exact E4|exact E2]]).
  - unfold free_block. by destruct (d =? 0).
Qed.
Lemma close_slot_tasks t fd s :
  same_tasks (if arr_get (ft_fds (ktasks s !!! t)) fd =? 0 then s
              else set_fds t (arr_set (ft_fds (ktasks s !!! t)) fd 0) s) (close_slot socket_close t fd s).
Proof.
  unfold close_slot. destruct (_ =? 0); [done|]. set (s1 := s <| ktasks := _ |>). set (d := arr_get _ fd).
  destruct (unref_tasks d (unlock_node d (ft_pid (ktasks s !!! t)) s1)) as [E1 E2]. unfold same_tasks. rewrite E1, E2.
  unfold unlock_node. by destruct (_ =? 0).
Qed.

Lemma dup2_safe old_fd new_fd s : fd_safe s -> fd_safe (snd (sys_dup2 socket_close old_fd new_fd s)).
Proof.
  intros Hs. unfold sys_dup2. destruct (Z.eqb_spec (fd_get old_fd s) 0) as [|Hd]; [done|]. cbn [orb].
  destruct (Z.ltb_spec new_fd 0); [done|]. cbn [orb]. unfold TASK_MAX_FDS. destruct (Z.leb_spec 32 new_fd); [done|].
  destruct (Z.eqb_spec old_fd new_fd) as [|Hne]; [done|]. destruct (fd_get_spec old_fd s Hd) as [Hro Ho].
  assert (Hget : forall s, fd_get new_fd s = arr_get (cur_fds s) new_fd).
  { intros s'. unfold fd_get, TASK_MAX_FDS. by rewrite (proj2 (Z.ltb_ge _ _)), (proj2 (Z.leb_gt _ _)) by lia. }
  destruct (Z.eqb_spec (fd_get new_fd s) 0) as [Hz|Hnz]; cbn [negb snd].
  { apply share_safe; [done|done|by apply cur_desc|lia|by rewrite <- Hget]. }
  assert (Hs1 : fd_safe (snd (sys_close socket_close new_fd s))) by by apply sys_close_safe.
  unfold sys_close in *. rewrite (proj2 (Z.eqb_neq (fd_get new_fd s) 0)) in * by done. cbn [snd] in *.
  destruct (close_slot_tasks (kcur s) new_fd s) as [Ek Ec]. rewrite Hget in Hnz. unfold cur_fds, cur_task in Hnz.
  rewrite (proj2 (Z.eqb_neq _ 0)) in Ek, Ec by done. set (s1 := close_slot _ _ _ s) in *.
  destruct Hs as [B Hi]. pose proof (task_fds_len _ _ _ _ (kcur s) Hi (fi_cur _ _ _ _ Hi)) as Hl.
  assert (Ef : cur_fds s1 = arr_set (cur_fds s) new_fd 0).
  { unfold cur_fds, cur_task. rewrite Ek, Ec. unfold set_fds. cbn.
    rewrite list_lookup_total_insert_eq by (rewrite (fi_tasks _ _ _ _ Hi); apply (fi_cur _ _ _ _ Hi)). done. }
  assert (Ho1 : fd_get old_fd s1 = fd_get old_fd s).
  { rewrite Ho. unfold fd_get, TASK_MAX_FDS. rewrite (proj2 (Z.ltb_ge _ _)), (proj2 (Z.leb_gt _ _)) by lia. cbn [orb].
    rewrite Ef. apply arr_get_set_ne; lia. }
  apply share_safe; [done|by rewrite Ho1|by apply cur_desc; rewrite ?Ho1|lia|]. rewrite Ef. apply arr_get_set_eq. unfold cur_fds, cur_task. lia.
Qed.

(** Releasing a node leaves the other nodes alone. *)
Lemma free_block_nodes p s : nodes (kv (free_block p s)) = nodes (kv s).
Proof. unfold free_block. by destruct (p =? 0). Qed.
Lemma upd_node_other (v : vfs H X) p f q : q <> p -> nodes (upd_node p f v) !! q = nodes v !! q.
Proof. intros Hq. cbn. by rewrite lookup_insert_ne. Qed.
Lemma node_close_other p q s : q <> p -> nodes (kv (node_close socket_close p s)) !! q = nodes (kv s) !! q.
Proof.
  intros Hq. unfold node_close, pipe_node_close. destruct (_ =? 0); [done|].
  destruct (_ =? PIPE_CLOSE); [|cbn; by rewrite lookup_insert_ne].
  destruct (ends s !! _) as [en|]; [|done]. destruct (pipes s !! _) as [x|]; [|done].
  destruct (pipe_close_end en x) as [[x' freed] ev]. destruct freed; rewrite ?free_block_nodes;
    cbn -[free_block]; by rewrite lookup_insert_ne, free_block_nodes.
Qed.
Lemma node_unref_other p q s : q <> p -> nodes (kv (node_unref p s)) !! q = nodes (kv s) !! q.
Proof.
  intros Hq. unfold node_unref. destruct (is_console p); [by apply upd_node_other|].
  unfold upd_vfs, vfs_node_unref. destruct (p =? 0); [done|].
  assert (Hfree : forall (b : bool) (v : vfs H X), nodes v !! q = nodes (kv s) !! q ->
    nodes (if b then kfree_node p (free_data p v) else v) !! q = nodes (kv s) !! q).
  { intros [|] v Hv; [|done]. cbn. rewrite lookup_delete_ne by done. unfold free_data.
    destruct (negb _); [|done]. by rewrite upd_node_other. }
  apply Hfree. destruct (0 <? _); [by apply upd_node_other|done].
Qed.
Lemma unref_other d s q f :
  descs s !! d = Some f -> q <> fd_node f ->
  nodes (kv (file_description_unref socket_close d s)) !! q = nodes (kv s) !! q.
Proof.
  intros Hd Hq. unfold file_description_unref. destruct (d =? 0); [done|].
  assert (Hat : desc_at s d = f) by (unfold desc_at; by rewrite Hd). rewrite Hat.
  match goal with |- context [set_desc d ?g s] => set (f' := g) end.
  assert (En : fd_node f' = fd_node f) by (unfold f'; by destruct (0 <? _)). rewrite En.
  destruct (fd_ref_count f' =? 0); [|done]. rewrite free_block_nodes. destruct (negb _); [|done]. cbn.
  rewrite node_unref_other, node_close_other by done. done.
Qed.
Lemma unref_descs d s f :
  descs s !! d = Some f -> d <> 0 -> fd_ref_count f = 1 -> descs (file_description_unref socket_close d s) = delete d (descs s).
Proof.
  intros Hd Hd0 Hc1. unfold file_description_unref. rewrite (proj2 (Z.eqb_neq d 0)) by done.
  assert (Hat : desc_at s d = f) by (unfold desc_at; by rewrite Hd). rewrite Hat.
  match goal with |- context [set_desc d ?g s] => set (f' := g) end.
  assert (Ez : fd_ref_count f' = 0) by (unfold f'; by rewrite Hc1). rewrite Ez. change (0 =? 0) with true. cbv iota.
  assert (Hfb : forall b s, descs (free_block b s) = descs s) by (intros b s'; unfold free_block; by destruct (b =? 0)).
  rewrite Hfb. destruct (negb _); cbn; [|by rewrite delete_insert_eq].
  rewrite (proj2 (close_frame socket_close _ _ ∅)). cbn. by rewrite delete_insert_eq.
Qed.

(** A descriptor for a node. *)
Lemma alloc_fd_run p n s i s' :
  fd_safe s -> nodes (kv s) !! p = Some n -> (vn_close n = PIPE_CLOSE -> node_refs [] s p = 0) ->
  task_alloc_fd socket_close p s = (i, s') ->
  fd_safe s' /\ kcur s' = kcur s /\
  (forall q, q <> p -> nodes (kv s') !! q = nodes (kv s) !! q /\ node_refs [] s' q = node_refs [] s q).
Proof.
  intros [B Hi] Hp Hpipe. unfold task_alloc_fd. destruct (fi_node _ _ _ _ Hi _ _ Hp) as [Hp0 _].
  rewrite (proj2 (Z.eqb_neq p 0)) by done. destruct (file_description_alloc p 0 s) as [d s1] eqn:Ea.
  destruct (fdesc_alloc_inv console_static B [] [] s p n 0 d s1 Hi Hp Hpipe ltac:(done) ltac:(done) Ea) as (Ek & Ec & _ & _ & _ & Hd).
  destruct (Z.eqb_spec d 0) as [->|Hd0].
  { destruct Hd as (Hi1 & Ed & En). intros [= <- <-]. split; [by exists B|]. split; [done|]. intros q Hq.
    rewrite En. unfold node_refs. by rewrite Ed. }
  destruct Hd as ([B1 Hi1] & Hfresh & Ed & En). pose proof (fi_cur _ _ _ _ Hi1) as Hcur.
  pose proof (task_fds_len _ _ _ _ (kcur s1) Hi1 Hcur) as Hl.
  assert (Hnr : forall q, q <> p -> node_refs [] s1 q = node_refs [] s q).
  { intros q Hq. unfold node_refs. rewrite Ed, msum_insert_new by done. cbn [fd_node]. rewrite (proj2 (Z.eqb_neq p q)) by done. lia. }
  destruct (free_slot 3 (cur_fds s1)) as [k|] eqn:Ef; intros [= <- <-].
  - destruct (free_slot_spec 3 (cur_fds s1) k ltac:(lia) Hl Ef) as [Hk Hz].
    split; [|split; [done|]].
    + exists B1. rewrite cur_fds_eq. apply fill_slot_inv; [done|done|lia|done].
    + intros q Hq. cbn. rewrite En, lookup_insert_ne by done. split; [done|by apply Hnr].
  - destruct (unref_tasks d s1) as [E1 E2]. split; [by eapply unref_inv|]. split; [by rewrite E2|]. intros q Hq.
    assert (Hds : descs s1 !! d = Some (mk_fdesc p 0 0 1)) by (by rewrite Ed, lookup_insert_eq).
    rewrite (unref_other d s1 q _ Hds) by done. rewrite En, lookup_insert_ne by done. split; [done|].
    unfold node_refs. rewrite (unref_descs d s1 _ Hds) by done. by rewrite Ed, delete_insert_id.
Qed.

(** * Pipes *)

(** Blocks that were allocated and are not in use yet; 0 for those that were not. *)
Definition spares (B : gmap Z use) (bs : list Z) : Prop :=
  NoDup (filter (fun b => b <> 0) bs) /\ forall b, b ∈ bs -> b <> 0 -> B !! b = Some USpare /\ is_console b = false.
(** Only the heap differs. *)
Definition heap_differs s s' : Prop := exists h, s' = s <| kv := kv s <| vheap := h |> |>.

Lemma alloc_spare B bs s size b s' :
  fd_inv B [] [] s -> spares B bs -> 0 < size <= 0x6F000000 -> alloc_block size s = (b, s') ->
  heap_differs s s' /\ exists B', fd_inv B' [] [] s' /\ spares B' (b :: bs).
Proof.
  intros Hi [Hnd Hsp] Hs Ea. destruct (alloc_block_inv console_static B [] [] s size b s' Hi Hs Ea) as [Hh Hb]. split; [exact Hh|].
  destruct (Z.eqb_spec b 0) as [->|Hb0].
  - exists B. split; [done|]. split; [by rewrite filter_cons_False by tauto|]. intros c Hc Hc0.
    apply elem_of_cons in Hc as [->|Hc]; [done|by apply Hsp].
  - destruct Hb as (HB & Hcon & Hi'). eexists. split; [exact Hi'|]. split.
    + rewrite filter_cons_True by done. constructor; [|done]. intros [_ Hin]%list_elem_of_filter.
      destruct (Hsp b Hin Hb0) as [? _]. congruence.
    + intros c Hc Hc0. destruct (decide (c = b)) as [->|Hne]; [by rewrite lookup_insert_eq|].
      apply elem_of_cons in Hc as [?|Hc]; [done|]. rewrite lookup_insert_ne by done. by apply Hsp.
Qed.
Lemma free_spares B bs s : fd_inv B [] [] s -> spares B bs -> fd_safe (foldr free_block s bs).
Proof.
  intros Hi Hsp. enough (exists B', fd_inv B' [] [] (foldr free_block s bs) /\
    forall b, ~ b ∈ bs -> B' !! b = B !! b) as (B' & Hi' & _) by by exists B'.
  induction bs as [|b bs IH]; cbn [foldr]; [by exists B|]. destruct Hsp as [Hnd Hsp].
  destruct IH as (B' & Hi' & Hk).
  { split; [|intros c Hc; apply Hsp; by right]. rewrite filter_cons in Hnd. destruct (decide _); [by inversion Hnd|done]. }
  destruct (decide (b = 0)) as [->|Hb].
  { exists B'. split; [done|]. intros c Hc. apply Hk. set_solver. }
  rewrite filter_cons_True in Hnd by done. apply NoDup_cons in Hnd as [Hnin _].
  exists (delete b B'). split.
  - apply free_spare_inv; [done|]. rewrite Hk; [by apply Hsp; [left|]|]. intros Hin. apply Hnin, list_elem_of_filter. done.
  - intros c Hc. rewrite lookup_delete_ne by set_solver. apply Hk. set_solver.
Qed.

(** What a spare block cannot be. *)
Lemma spare_fresh B s b :
  fd_inv B [] [] s -> B !! b = Some USpare -> is_console b = false ->
  nodes (kv s) !! b = None /\ descs s !! b = None /\ pipes s !! b = None /\ ends s !! b = None.
Proof.
  intros Hi HB Hc. split_and!.
  - destruct (nodes (kv s) !! b) eqn:E; [|done]. apply (fi_node _ _ _ _ Hi) in E as [_ E]. specialize (E Hc). congruence.
  - destruct (descs s !! b) eqn:E; [|done]. apply (fi_desc _ _ _ _ Hi) in E. congruence.
  - destruct (pipes s !! b) eqn:E; [|done]. apply (fi_pipe _ _ _ _ Hi) in E. congruence.
  - destruct (ends s !! b) as [en|] eqn:E; [|done]. destruct (fi_end _ _ _ _ Hi _ _ E) as (Hb0 & _ & _ & p & n & Hp & Hcl & <-).
    pose proof (fi_data _ _ _ _ Hi p n Hp Hb0 (or_intror Hcl)). congruence.
Qed.

(** The pipe with its two ends and their nodes, out of five spare blocks. *)
Definition put_pipe_nodes (a e1 e2 p1 p2 : Z) s : kfd H X :=
  upd_vfs (fun v => set_node p2 (pipe_node e2 false) (set_node p1 (pipe_node e1 true) v))
    (s <| pipes := <[a := new_pipe]> (pipes s) |>
       <| ends := <[e2 := mk_end a false true]> (<[e1 := mk_end a true false]> (ends s)) |>).

Section Put.
Context (B : gmap Z use) (s : kfd H X) (a e1 e2 p1 p2 : Z).
Context (Hi : fd_inv B [] [] s) (Hsp : spares B [p2; p1; e2; e1; a]).
Context (Hnz : a <> 0 /\ e1 <> 0 /\ e2 <> 0 /\ p1 <> 0 /\ p2 <> 0).
Let s' := put_pipe_nodes a e1 e2 p1 p2 s.
Let B' := <[p2 := UNode]> (<[p1 := UNode]> (<[e2 := UData p2]> (<[e1 := UData p1]> (<[a := UPipe]> B)))).

Lemma put_distinct : (p2 <> p1 /\ p2 <> e2 /\ p2 <> e1 /\ p2 <> a) /\ (p1 <> e2 /\ p1 <> e1 /\ p1 <> a) /\
  (e2 <> e1 /\ e2 <> a) /\ e1 <> a.
Proof.
  destruct Hsp as [Hnd _]. destruct Hnz as (? & ? & ? & ? & ?). rewrite !filter_cons_True in Hnd by done.
  rewrite !NoDup_cons, !not_elem_of_cons in Hnd. tauto.
Qed.
Lemma put_fresh b : b ∈ [p2; p1; e2; e1; a] ->
  B !! b = Some USpare /\ is_console b = false /\
  nodes (kv s) !! b = None /\ descs s !! b = None /\ pipes s !! b = None /\ ends s !! b = None.
Proof.
  intros Hb. assert (b <> 0) by (destruct Hnz as (? & ? & ? & ? & ?); set_solver).
  destruct (proj2 Hsp b Hb) as [HB Hc]; [done|]. split; [done|]. split; [done|]. by apply (spare_fresh B).
Qed.
Lemma put_keeps b u : B !! b = Some u -> u <> USpare -> B' !! b = Some u.
Proof.
  intros Hb Hu. assert (Hn : ~ b ∈ [p2; p1; e2; e1; a]) by (intros [? _]%put_fresh; congruence).
  unfold B'. rewrite !lookup_insert_ne by set_solver. done.
Qed.
Lemma put_nodes q k : nodes (kv s') !! q = Some k ->
  q = p1 /\ k = pipe_node e1 true \/ q = p2 /\ k = pipe_node e2 false \/ nodes (kv s) !! q = Some k.
Proof.
  cbn. destruct (decide (q = p2)) as [->|]; [rewrite lookup_insert_eq; intros [= <-]; by right; left|].
  rewrite lookup_insert_ne by done.
  destruct (decide (q = p1)) as [->|]; [rewrite lookup_insert_eq; intros [= <-]; by left|].
  rewrite lookup_insert_ne by done. by right; right.
Qed.
Lemma put_old q : is_Some (nodes (kv s) !! q) -> nodes (kv s') !! q = nodes (kv s) !! q.
Proof.
  intros [k Hk]. assert (Hn : q <> p1 /\ q <> p2).
  { pose proof (put_fresh p1 ltac:(do 1 right; left)) as (_ & _ & E1 & _). pose proof (put_fresh p2 ltac:(left)) as (_ & _ & E2 & _).
    split; congruence. }
  cbn. by rewrite !lookup_insert_ne by naive_solver.
Qed.
(** No description refers to a node that is not there. *)
Lemma put_unused q : nodes (kv s) !! q = None -> node_refs [] s q = 0.
Proof.
  intros Hq. unfold node_refs. cbn [cnt]. rewrite msum_zero; [done|]. intros d f Hd.
  destruct (fi_open _ _ _ _ Hi d f Hd) as [k Hk]. destruct (Z.eqb_spec (fd_node f) q) as [E|]; [congruence|done].
Qed.
Lemma put_end_refs b rd : end_refs s' b rd = end_refs s b rd + (if a =? b then 1 else 0).
Proof.
  destruct put_distinct as (_ & _ & (Hne & _) & _). pose proof (put_fresh e1 ltac:(do 3 right; left)) as (_ & _ & _ & _ & _ & E1).
  pose proof (put_fresh e2 ltac:(do 2 right; left)) as (_ & _ & _ & _ & _ & E2).
  unfold end_refs. cbn. rewrite !msum_insert_new; [|done|by rewrite lookup_insert_ne].
  cbn [e_pipe readable]. destruct (a =? b), rd; cbn; lia.
Qed.
Lemma put_no_ends rd : end_refs s a rd = 0.
Proof.
  pose proof (put_fresh a ltac:(do 4 right; left)) as (_ & _ & _ & _ & E & _). unfold end_refs. apply msum_zero. intros e en He.
  destruct (fi_end _ _ _ _ Hi e en He) as (_ & _ & [q Hq] & _). destruct (Z.eqb_spec (e_pipe en) a) as [Ea|]; [congruence|done].
Qed.
Lemma put_live b u : B' !! b = Some u -> is_Some (B !! b).
Proof.
  unfold B'. intros Hb. destruct (decide (b ∈ [p2; p1; e2; e1; a])) as [Hin|Hn].
  - destruct (put_fresh b Hin) as [-> _]. by eexists.
  - rewrite !lookup_insert_ne in Hb by set_solver. by eexists.
Qed.
Lemma put_blocks : B' !! p1 = Some UNode /\ B' !! p2 = Some UNode /\ B' !! e1 = Some (UData p1) /\
  B' !! e2 = Some (UData p2) /\ B' !! a = Some UPipe.
Proof.
  destruct put_distinct as ((? & ? & ? & ?) & (? & ? & ?) & (? & ?) & ?). unfold B'.
  split_and!; repeat first [rewrite lookup_insert_eq | rewrite lookup_insert_ne by done]; done.
Qed.
Lemma put_end e en : ends s' !! e = Some en ->
  e = e1 /\ en = mk_end a true false \/ e = e2 /\ en = mk_end a false true \/ ends s !! e = Some en.
Proof.
  cbn. destruct (decide (e = e2)) as [->|]; [rewrite lookup_insert_eq; intros [= <-]; by right; left|].
  rewrite lookup_insert_ne by done.
  destruct (decide (e = e1)) as [->|]; [rewrite lookup_insert_eq; intros [= <-]; by left|].
  rewrite lookup_insert_ne by done. by right; right.
Qed.

Lemma put_pipe_inv : fd_inv B' [] [] s' /\ node_refs [] s' p1 = 0 /\ node_refs [] s' p2 = 0 /\
  nodes (kv s') !! p1 = Some (pipe_node e1 true) /\ nodes (kv s') !! p2 = Some (pipe_node e2 false).
Proof.
  destruct put_blocks as (Bp1 & Bp2 & Be1 & Be2 & Ba). destruct put_distinct as ((? & ? & ? & ?) & (? & ? & ?) & (? & ?) & ?).
  destruct (put_fresh p1 ltac:(do 1 right; left)) as (_ & Cp1 & Np1 & _). destruct (put_fresh p2 ltac:(left)) as (_ & Cp2 & Np2 & _).
  destruct (put_fresh a ltac:(do 4 right; left)) as (_ & _ & _ & _ & Na & _). pose proof Hnz as (Za & Ze1 & Ze2 & Zp1 & Zp2).
  pose proof (put_unused p1 Np1) as R1. pose proof (put_unused p2 Np2) as R2.
  assert (L1 : nodes (kv s') !! p1 = Some (pipe_node e1 true)) by (cbn; rewrite lookup_insert_ne, lookup_insert_eq by done; done).
  assert (L2 : nodes (kv s') !! p2 = Some (pipe_node e2 false)) by (cbn; by rewrite lookup_insert_eq).
  split; [|split_and!; done]. pose proof put_end_refs as HE. pose proof put_no_ends as HN.
  pose proof put_old as HO. pose proof put_nodes as HP. pose proof put_end as HD. pose proof put_keeps as HK. pose proof put_live as HL.
  assert (Hroot : root_node (kv s) <> p1 /\ root_node (kv s) <> p2).
  { destruct (fi_root _ _ _ _ Hi) as [k Hk]. split; congruence. }
  assert (Hends : is_Some (ends s' !! e1) /\ is_Some (ends s' !! e2)).
  { cbn. rewrite lookup_insert_eq, lookup_insert_ne, lookup_insert_eq by done. split; by eexists. }
  assert (Hnr : forall q, node_refs [] s' q = node_refs [] s q) by done.
  clearbody B'. pose proof Hi as Hinv. destruct Hinv. split; try done.
  - intros b u Hb. apply HL in Hb as [u' Hb]. by eapply fi_live.
  - intros q k [[-> ->]|[[-> ->]|Hk]]%HP; [done|done|]. destruct (fi_node q k Hk) as [? Hc]. split; [done|].
    intros Hq. by apply HK; [apply Hc|].
  - intros q k [[-> ->]|[[-> ->]|Hk]]%HP ? ?; [done|done|]. by apply HK; [eapply fi_data|].
  - intros d f Hd. by apply HK; [eapply fi_desc|].
  - intros b q. cbn. destruct (decide (b = a)) as [->|]; [done|]. rewrite lookup_insert_ne by done. intros Hb.
    by apply HK; [eapply fi_pipe|].
  - intros d f Hd. destruct (fi_open d f Hd) as [k Hk]. rewrite HO by by eexists. by eexists.
  - intros q k [[-> ->]|[[-> ->]|Hk]]%HP; [by rewrite Hnr, R1|by rewrite Hnr, R2|]. by apply fi_count.
  - change (root_node (kv s')) with (root_node (kv s)). by rewrite HO.
  - intros q Hq. destruct (fi_console q Hq) as (k & Hk & ?). exists k. rewrite HO by by eexists. done.
  - intros q k [[-> ->]|[[-> ->]|Hk]]%HP; [by intros [?|?]|by intros [?|?]|]. by eapply fi_file.
  - intros q k [[-> ->]|[[-> ->]|Hk]]%HP Hcl.
    + split_and!; [done|by apply not_eq_sym, Hroot|by rewrite Hnr, R1|left; split; [done|apply Hends]].
    + split_and!; [done|by apply not_eq_sym, Hroot|by rewrite Hnr, R2|left; split; [done|apply Hends]].
    + destruct (fi_pipe_node q k Hk Hcl) as (? & ? & ? & Hd). split_and!; [done|done|done|].
      destruct Hd as [[? [en He]]|[_ Hin]]; [|by apply elem_of_nil in Hin]. left. split; [done|]. cbn.
      destruct (decide (vn_data k = e2)) as [->|]; [rewrite lookup_insert_eq; by eexists|]. rewrite lookup_insert_ne by done.
      destruct (decide (vn_data k = e1)) as [->|]; [rewrite lookup_insert_eq; by eexists|]. rewrite lookup_insert_ne by done. by eexists.
  - intros e en [[-> ->]|[[-> ->]|He]]%HD; cbn [writable readable e_pipe].
    + split_and!; [done|done|cbn; rewrite lookup_insert_eq; by eexists|by exists p1, (pipe_node e1 true)].
    + split_and!; [done|done|cbn; rewrite lookup_insert_eq; by eexists|by exists p2, (pipe_node e2 false)].
    + destruct (fi_end e en He) as (? & ? & [q Hq] & p & k & Hk & ? & ?). split_and!; [done|done| |].
      * cbn. rewrite lookup_insert_ne by congruence. by eexists.
      * exists p, k. rewrite HO by by eexists. done.
  - intros b q. rewrite !HE. cbn. destruct (decide (b = a)) as [->|Hne].
    + rewrite lookup_insert_eq, Z.eqb_refl, !HN. intros [= <-]. by split_and!; [done|done|done|exact (proj1 new_pipe_ok)].
    + rewrite lookup_insert_ne, (proj2 (Z.eqb_neq a b)) by done. intros Hq. rewrite !Z.add_0_r. by apply fi_ends.
Qed.
End Put.

(** The five blocks of a new pipe. *)
Lemma pipe_blocks B s a s1 e1 s2 e2 s3 p1 s4 p2 s5 :
  fd_inv B [] [] s -> alloc_block PIPE_SIZE s = (a, s1) -> alloc_block PIPE_END_SIZE s1 = (e1, s2) ->
  alloc_block PIPE_END_SIZE s2 = (e2, s3) -> alloc_block VFS_NODE_SIZE s3 = (p1, s4) -> alloc_block VFS_NODE_SIZE s4 = (p2, s5) ->
  exists B5, fd_inv B5 [] [] s5 /\ spares B5 [p2; p1; e2; e1; a].
Proof.
  intros Hi E1 E2 E3 E4 E5. assert (Hsp : spares B []) by (split; [constructor|set_solver]).
  destruct (alloc_spare B [] s PIPE_SIZE a s1 Hi Hsp ltac:(by split) E1) as [_ (B1 & Hi1 & Hsp1)].
  destruct (alloc_spare B1 _ s1 PIPE_END_SIZE e1 s2 Hi1 Hsp1 ltac:(by split) E2) as [_ (B2 & Hi2 & Hsp2)].
  destruct (alloc_spare B2 _ s2 PIPE_END_SIZE e2 s3 Hi2 Hsp2 ltac:(by split) E3) as [_ (B3 & Hi3 & Hsp3)].
  destruct (alloc_spare B3 _ s3 VFS_NODE_SIZE p1 s4 Hi3 Hsp3 ltac:(by split) E4) as [_ (B4 & Hi4 & Hsp4)].
  destruct (alloc_spare B4 _ s4 VFS_NODE_SIZE p2 s5 Hi4 Hsp4 ltac:(by split) E5) as [_ (B5 & Hi5 & Hsp5)].
  by exists B5.
Qed.
Lemma pipe_safe s : fd_safe s -> fd_safe (snd (sys_pipe socket_close s)).
Proof.
  intros [B Hi]. unfold sys_pipe. destruct (alloc_block PIPE_SIZE s) as [a s1] eqn:E1.
  destruct (alloc_block PIPE_END_SIZE s1) as [e1 s2] eqn:E2. destruct (alloc_block PIPE_END_SIZE s2) as [e2 s3] eqn:E3.
  destruct (alloc_block VFS_NODE_SIZE s3) as [p1 s4] eqn:E4. destruct (alloc_block VFS_NODE_SIZE s4) as [p2 s5] eqn:E5.
  destruct (pipe_blocks B s a s1 e1 s2 e2 s3 p1 s4 p2 s5 Hi E1 E2 E3 E4 E5) as (B5 & Hi5 & Hsp5).
  destruct ((a =? 0) || _ || _ || _ || _) eqn:Ez; [exact (free_spares B5 _ s5 Hi5 Hsp5)|].
  apply nonzero_blocks in Ez. rename Ez into Hnz.
  destruct (put_pipe_inv B5 s5 a e1 e2 p1 p2 Hi5 Hsp5 Hnz) as (Hi6 & R1 & R2 & L1 & L2).
  destruct (put_distinct B5 a e1 e2 p1 p2 Hsp5 Hnz) as ((Hne & _) & _).
  change (upd_vfs _ _) with (put_pipe_nodes a e1 e2 p1 p2 s5). set (s6 := put_pipe_nodes _ _ _ _ _ _) in *.
  destruct (task_alloc_fd socket_close p1 s6) as [f1 s7] eqn:F1.
  destruct (alloc_fd_run p1 _ s6 f1 s7 ltac:(by eexists) L1 (fun _ => R1) F1) as (Hs7 & _ & Hk). destruct (Hk p2 Hne) as [L2' R2'].
  destruct (task_alloc_fd socket_close p2 s7) as [f2 s8] eqn:F2.
  destruct (alloc_fd_run p2 (pipe_node e2 false) s7 f2 s8 Hs7 ltac:(by rewrite L2') ltac:(intros _; by rewrite R2') F2) as (Hs8 & _ & _).
  destruct (_ || _); [|done]. cbn [snd].
  assert (Hc : forall (b : bool) fd s, fd_safe s -> fd_safe (if b then snd (sys_close socket_close fd s) else s))
    by (intros [|] fd s' Hs'; [by apply sys_close_safe|done]).
  by apply Hc, Hc.
Qed.

(** * Opening, forking, and reading and writing pipes *)

Lemma open_safe node_open p n flags s :
  fd_safe s -> nodes (kv s) !! p = Some n -> vn_close n <> PIPE_CLOSE ->
  fd_safe (snd (open_node socket_close node_open p flags s)).
Proof.
  intros [B Hi] Hp Hcl. unfold open_node. destruct (file_description_alloc p (u32 flags) s) as [d s1] eqn:Ea.
  destruct (fdesc_alloc_inv console_static B [] [] s p n (u32 flags) d s1 Hi Hp ltac:(done) ltac:(done) ltac:(done) Ea) as (_ & _ & _ & _ & _ & Hd).
  destruct (Z.eqb_spec d 0) as [->|Hd0]; [exists B; apply Hd|]. destruct Hd as ([B1 Hi1] & _).
  assert (Hu : fd_safe (file_description_unref socket_close d s1)) by by eapply unref_inv.
  pose proof (task_fds_len _ _ _ _ (kcur s1) Hi1 (fi_cur _ _ _ _ Hi1)) as Hl.
  destruct (free_slot 3 (cur_fds s1)) as [k|] eqn:Ef; [|done]. destruct (_ && _); [done|].
  destruct (free_slot_spec 3 (cur_fds s1) k ltac:(lia) Hl Ef) as [Hk Hz].
  exists B1. cbn [snd]. rewrite cur_fds_eq. apply fill_slot_inv; [done|apply (fi_cur _ _ _ _ Hi1)|lia|done].
Qed.

Lemma refs_frame l : forall s, kv (foldl (fun s d => file_description_ref d s) s l) = kv s /\
  ktasks (foldl (fun s d => file_description_ref d s) s l) = ktasks s /\
  forall t fds, foldl (fun s d => file_description_ref d s) (set_fds t fds s) l =
    set_fds t fds (foldl (fun s d => file_description_ref d s) s l).
Proof.
  induction l as [|d l IH]; intros s; cbn [foldl]; [done|]. destruct (IH (file_description_ref d s)) as (E1 & E2 & E3).
  rewrite E1, E2. unfold file_description_ref at 1 2. destruct (d =? 0) eqn:Ez; (split; [done|split; [done|]]); intros t fds; rewrite <- E3;
  f_equal; unfold file_description_ref; by rewrite Ez.
Qed.
Lemma len_more (d : Z) l : len (d :: l) = len l + 1.
Proof. unfold len. cbn [length]. lia. Qed.
(** A reference for every descriptor of a table. *)
Lemma refs_inv l : forall B ex s,
  fd_inv B ex [] s -> len ex + len l <= 1024 -> (forall d, d ∈ l -> d <> 0 -> is_Some (descs s !! d)) ->
  exists ex', fd_inv B ex' [] (foldl (fun s d => file_description_ref d s) s l) /\
    forall d, d <> 0 -> cnt d ex' = cnt d l + cnt d ex.
Proof.
  induction l as [|d l IH]; intros B ex s Hi Hlen Hd; cbn [foldl]; [by exists ex|]. rewrite len_more in Hlen. assert (0 <= len l) by (unfold len; lia).
  destruct (Z.eqb_spec d 0) as [->|Hd0].
  - change (file_description_ref 0 s) with s. destruct (IH B ex s Hi ltac:(lia)) as (ex' & Hi' & Hc); [intros; apply Hd; [by right|done]|].
    exists ex'. split; [done|]. intros x Hx. cbn [cnt]. rewrite Hc, (proj2 (Z.eqb_neq 0 x)) by done. lia.
  - destruct (Hd d ltac:(left) Hd0) as [f Hf]. pose proof (ref_inv B ex [] s d f Hi Hf Hd0 ltac:(lia)) as Hi1.
    destruct (IH B (d :: ex) _ Hi1) as (ex' & Hi' & Hc); [rewrite len_more; lia| |].
    + intros x Hx Hx0. unfold file_description_ref. rewrite (proj2 (Z.eqb_neq d 0)) by done. cbn.
      destruct (decide (x = d)) as [->|]; [rewrite lookup_insert_eq; by eexists|]. rewrite lookup_insert_ne by done.
      apply Hd; [by right|done].
    + exists ex'. split; [done|]. intros x Hx. cbn [cnt]. rewrite Hc by done. cbn [cnt]. lia.
Qed.

(** A fork or a spawn: the child's slots are empty before. *)
Lemma copy_safe t parent s :
  fd_safe s -> (t < 16)%nat -> (parent < 16)%nat -> ft_fds (ktasks s !!! t) = replicate 32 0 -> fd_safe (copy_fds t parent s).
Proof.
  intros [B Hi] Ht Hp Hz. unfold copy_fds. pose proof (task_fds_len _ _ _ _ parent Hi Hp) as Hl.
  set (fds := ft_fds (ktasks s !!! parent)) in *. destruct (refs_inv fds B [] s Hi) as (ex' & Hi' & Hc); [unfold len in *; cbn [length]; lia| |].
  - intros d [i Hd]%list_elem_of_lookup Hd0. pose proof (lookup_lt_Some _ _ _ Hd) as Hlt. unfold len in Hl.
    assert (E : arr_get fds (Z.of_nat i) = d) by (unfold arr_get; rewrite Nat2Z.id; by apply list_lookup_total_correct).
    rewrite <- E in Hd0 |- *. apply (slot_desc B [] [] s parent); [done|done|lia|done].
  - destruct (refs_frame fds s) as (_ & Ek & Ef). rewrite Ef. exists B. eapply set_fds_inv; [exact Hi'|done|done|].
    intros d Hd. rewrite Ek, Hz, cnt_replicate_0, Hc by done. cbn [cnt]. lia.
Qed.
End Steps.
