(* ===== verification/FdReach.v ===== *)
(** Every state that tasks reach with the descriptor calls keeps its reference counts:
    the calls as steps, and the theorem on reachable states. *)

From S2P Require Import Prelude Pipe Vfs VfsTree VfsReach Fd FdRefs FdSteps.

Section Reach.
Context {H X : Type} `{AllocatorLaws H} `{ConsoleNodes} (socket_close : Z -> X -> X).
Context (console_static : forall h p, a_ok h -> is_console p = true -> ~ a_live h p).
Implicit Types s : kfd H X.

(** * A new task's descriptors *)

Lemma alloc_console B ex s p d s' :
  fd_inv B ex [] s -> is_console p = true -> len ex <= 1000 -> file_description_alloc p 0 s = (d, s') ->
  ktasks s' = ktasks s /\ exists B' ex', fd_inv B' ex' [] s' /\ len ex' <= len ex + 1 /\
    forall x, x <> 0 -> cnt x ex' = cnt x [d] + cnt x ex.
Proof.
  intros Hi Hp Hex Ea. destruct (fi_console _ _ _ _ Hi p Hp) as (n & Hn & Hc & _).
  destruct (fdesc_alloc_inv console_static B ex [] s p n 0 d s' Hi Hn ltac:(by rewrite Hc) ltac:(lia) ltac:(done) Ea) as (Ek & _ & _ & _ & _ & Hd).
  split; [done|]. destruct (Z.eqb_spec d 0) as [->|Hd0].
  - exists B, ex. split; [apply Hd|]. split; [lia|]. intros x Hx. cbn [cnt]. rewrite (proj2 (Z.eqb_neq 0 x)) by done. lia.
  - destruct Hd as ([B' Hi'] & _). exists B', (d :: ex). split; [done|]. split; [by rewrite len_more|]. intros x Hx. cbn [cnt]. lia.
Qed.
Lemma standard_safe t s :
  fd_safe s -> (t < 16)%nat -> ft_fds (ktasks s !!! t) = replicate 32 0 -> fd_safe (standard_fds t s).
Proof.
  intros [B Hi] Ht Hz. unfold standard_fds.
  assert (Hcon : is_console console_stdin = true /\ is_console console_stdout = true /\ is_console console_stderr = true).
  { unfold is_console. rewrite !Z.eqb_refl, !orb_true_r. done. }
  destruct Hcon as (C0 & C1 & C2).
  destruct (file_description_alloc console_stdin 0 s) as [d0 s0] eqn:E0.
  destruct (alloc_console _ _ _ _ _ _ Hi C0 ltac:(done) E0) as (K0 & B0 & ex0 & Hi0 & L0 & N0).
  change (len (@nil Z)) with 0 in L0.
  destruct (file_description_alloc console_stdout 0 s0) as [d1 s1] eqn:E1.
  destruct (alloc_console _ _ _ _ _ _ Hi0 C1 ltac:(lia) E1) as (K1 & B1 & ex1 & Hi1 & L1 & N1).
  destruct (file_description_alloc console_stderr 0 s1) as [d2 s2] eqn:E2.
  destruct (alloc_console _ _ _ _ _ _ Hi1 C2 ltac:(lia) E2) as (K2 & B2 & ex2 & Hi2 & _ & N2).
  exists B2. eapply set_fds_inv; [exact Hi2|done|done|]. intros x Hx. rewrite K2, K1, K0, Hz, cnt_replicate_0 by done.
  rewrite cnt_app, cnt_replicate_0, N2, N1, N0 by done. cbn [cnt]. lia.
Qed.

(** * Reading and writing a pipe *)

Lemma put_pipe_safe a q q' ev s :
  fd_safe s -> pipes s !! a = Some q -> same_ends q q' -> pipe_ok q' -> fd_safe (put_pipe a q' ev s).
Proof.
  intros [B Hi] Ha [Hr Hw] Hok. exists B. destruct Hi. split; cbn; try done.
  - intros b x. destruct (decide (b = a)) as [->|]; [intros _; by eapply fi_pipe|]. rewrite lookup_insert_ne by done. apply fi_pipe.
  - intros e en He. destruct (fi_end e en He) as (? & ? & [x Hx] & ?). split_and!; [done|done| |done].
    destruct (decide (e_pipe en = a)) as [->|]; [rewrite lookup_insert_eq; by eexists|]. rewrite lookup_insert_ne by done. by eexists.
  - intros b x. destruct (decide (b = a)) as [->|]; [|rewrite lookup_insert_ne by done; apply fi_ends].
    rewrite lookup_insert_eq. intros [= <-]. rewrite Hr, Hw. destruct (fi_ends a q Ha) as (? & ? & ? & _). done.
Qed.
Lemma pipe_at_spec p s en a q : fd_safe s -> pipe_at p s = Some (en, a, q) -> pipes s !! a = Some q /\ pipe_ok q /\ 0 <= readers q.
Proof.
  intros [B Hi] E. unfold pipe_at in E. destruct (ends s !! _) as [en'|]; [|done]. cbn in E.
  destruct (pipes s !! e_pipe en') as [q'|] eqn:Eq; [|done]. injection E as -> <- ->. split; [done|].
  destruct (fi_ends _ _ _ _ Hi _ _ Eq) as (Hr & _ & _ & Hok). split; [done|]. rewrite Hr. apply end_refs_nonneg.
Qed.
Lemma pipe_read_safe p size s : fd_safe s -> 0 <= size -> fd_safe (snd (pipe_node_read p size s)).
Proof.
  intros Hs Hsz. unfold pipe_node_read. destruct (pipe_at p s) as [[[en a] q]|] eqn:E; [|done].
  destruct (pipe_at_spec _ _ _ _ _ Hs E) as (Ha & Hok & _). destruct (negb _); [done|].
  pose proof (pipe_read_facts size q Hok Hsz) as Hf. destruct (pipe_read size q) as [[bytes q'] ev].
  destruct Hf as (Hok' & He & _). by eapply put_pipe_safe.
Qed.
Lemma pipe_write_safe p buffer s : fd_safe s -> fd_safe (snd (pipe_node_write p buffer s)).
Proof.
  intros Hs. unfold pipe_node_write. destruct (pipe_at p s) as [[[en a] q]|] eqn:E; [|done].
  destruct (pipe_at_spec _ _ _ _ _ Hs E) as (Ha & Hok & Hr). destruct (negb _); [done|].
  destruct (decide (readers q = 0)) as [Hz|Hnz].
  - unfold pipe_write. rewrite Hz. cbn. by eapply put_pipe_safe.
  - pose proof (pipe_write_facts buffer q Hok ltac:(lia)) as Hf. destruct (pipe_write buffer q) as [[n q'] ev].
    destruct Hf as (Hok' & He & _). by eapply put_pipe_safe.
Qed.

(** * Steps *)

(** One call of the current task or one act of the scheduler.  A new task's table is
    empty: [task_cleanup] closed the descriptors of the task that had the slot. *)
Inductive fd_step s : kfd H X -> Prop :=
  | step_open node_open p n flags :
      nodes (kv s) !! p = Some n -> vn_type n = VFS_NODE_FILE \/ vn_type n = VFS_NODE_DIRECTORY ->
      fd_step s (snd (open_node socket_close node_open p flags s))
  | step_close fd : fd_step s (snd (sys_close socket_close fd s))
  | step_dup fd : fd_step s (snd (sys_dup fd s))
  | step_dup2 old_fd new_fd : fd_step s (snd (sys_dup2 socket_close old_fd new_fd s))
  | step_fcntl fd cmd arg : fd_step s (snd (sys_fcntl fd cmd arg s))
  | step_pipe : fd_step s (snd (sys_pipe socket_close s))
  | step_pipe_read p size : 0 <= size -> fd_step s (snd (pipe_node_read p size s))
  | step_pipe_write p buffer : fd_step s (snd (pipe_node_write p buffer s))
  | step_seek d f offset : descs s !! d = Some f -> fd_step s (set_desc d (f <| fd_offset := offset |>) s)
  | step_fork t : (t < 16)%nat -> ft_fds (ktasks s !!! t) = replicate 32 0 -> fd_step s (copy_fds t (kcur s) s)
  | step_start t : (t < 16)%nat -> ft_fds (ktasks s !!! t) = replicate 32 0 -> fd_step s (standard_fds t s)
  | step_exit t : (t < 16)%nat -> fd_step s (close_all_fds socket_close t s)
  | step_switch t : (t < 16)%nat -> fd_step s (s <| kcur := t |>).

Lemma step_safe s s' : fd_safe s -> fd_step s s' -> fd_safe s'.
Proof.
  intros Hs Hst. destruct Hst as [node_open p n flags Hp Ht| | | | | |p size Hsz| |d f offset Hd|t Ht Hz|t Ht Hz|t Ht|t Ht].
  - apply (open_safe _ console_static _ p n); [done|done|]. destruct Hs as [B Hi]. by rewrite (fi_file _ _ _ _ Hi p n Hp Ht).
  - by apply sys_close_safe.
  - by apply dup_safe.
  - by apply dup2_safe.
  - by apply fcntl_safe.
  - by apply pipe_safe.
  - by apply pipe_read_safe.
  - by apply pipe_write_safe.
  - destruct Hs as [B Hi]. exists B. by eapply desc_inv.
  - apply copy_safe; [done|done| |done]. destruct Hs as [B Hi]. apply (fi_cur _ _ _ _ Hi).
  - by apply standard_safe.
  - by apply close_all_safe.
  - destruct Hs as [B Hi]. exists B. by destruct Hi; split.
Qed.

(** The state after the start of the kernel: the VFS has its tree, nothing is open. *)
Definition fd_boot (v : vfs H X) : kfd H X :=
  console_nodes_init (mk_kfd v ∅ ∅ ∅ (replicate 16 (mk_ftask 0 (replicate 32 0))) 0 0 []).
Inductive fd_reachable (v : vfs H X) : kfd H X -> Prop :=
  | reach_boot : fd_reachable v (fd_boot v)
  | reach_step s s' : fd_reachable v s -> fd_step s s' -> fd_reachable v s'.

(** * The start *)

(** The blocks of a VFS whose nodes own their memory. *)
Lemma owned_blocks (v : vfs H X) : owned v -> exists B : gmap Z use, forall b u, B !! b = Some u <->
  u = UNode /\ is_Some (nodes v !! b) \/ exists p n, u = UData p /\ nodes v !! p = Some n /\ vn_data n = b /\ b <> 0.
Proof.
  intros Ho. set (l := filter (fun pn => vn_data (snd pn) <> 0) (map_to_list (nodes v))).
  set (D := list_to_map (map (fun pn => (vn_data (snd pn), UData (fst pn))) l) : gmap Z use).
  assert (Hl : forall p n, (p, n) ∈ l <-> nodes v !! p = Some n /\ vn_data n <> 0).
  { intros p n. unfold l. rewrite list_elem_of_filter, elem_of_map_to_list. cbn. tauto. }
  assert (HD : forall b u, D !! b = Some u <-> exists p n, u = UData p /\ nodes v !! p = Some n /\ vn_data n = b /\ b <> 0).
  { intros b u. unfold D. rewrite <- elem_of_list_to_map.
    - rewrite list_elem_of_fmap. split.
      + intros ([p n] & [= -> ->] & [? ?]%Hl). by exists p, n.
      + intros (p & n & -> & Hp & <- & Hb). exists (p, n). split; [done|]. by apply Hl.
    - rewrite <- list_fmap_compose. apply NoDup_fmap_2_strong; [|apply NoDup_filter, NoDup_map_to_list].
      intros [p n] [q k] [Hp Hn]%Hl [Hq Hk]%Hl E. cbn in E. pose proof (own_inj _ Ho p n q k Hp Hq Hn E). subst q. congruence. }
  exists (D ∪ ((fun _ => UNode) <$> nodes v)). intros b u. rewrite lookup_union_Some_raw, HD, lookup_fmap, fmap_Some.
  split; [intros [?|(_ & n & Hn & ->)]; [by right|left; split; [done|by exists n]]|].
  intros [[-> [n Hn]]|Hd]; [right|by left]. split; [|by exists n].
  apply eq_None_not_Some. intros [u (p & k & _ & Hp & Hb & Hb0)%HD]. subst b.
  pose proof (own_data _ Ho p k Hp Hb0) as [_ ?]. congruence.
Qed.

Lemma no_fds d n : d <> 0 -> cnt_tasks d (replicate n (mk_ftask 0 (replicate 32 0))) = 0.
Proof.
  intros Hd. set (task := mk_ftask 0 (replicate 32 0)). induction n as [|n IH]; [done|].
  change (cnt d (replicate 32 0) + cnt_tasks d (replicate n task) = 0). by rewrite IH, cnt_replicate_0.
Qed.
Lemma boot_safe (v : vfs H X) :
  owned v -> is_Some (nodes v !! root_node v) -> nodes v !! 0 = None ->
  (forall p n, nodes v !! p = Some n -> vn_ref_count n = 0 /\ vn_close n = 0) -> is_console 0 = false ->
  fd_safe (fd_boot v).
Proof.
  intros Ho Hroot Hnull Hz Hc0. destruct (owned_blocks v Ho) as [B HB]. exists B.
  assert (Hnodes : forall p n, nodes (kv (fd_boot v)) !! p = Some n -> is_console p = false /\ nodes v !! p = Some n \/
    is_console p = true /\ vn_ref_count n = 0 /\ vn_close n = 0 /\ vn_data n = 0 /\ vn_type n = VFS_NODE_DEVICE).
  { intros p n. cbn. unfold is_console. rewrite !lookup_insert_Some.
    intros [[<- <-]|[? [[<- <-]|[? [[<- <-]|[? ?]]]]]]; [right|right|right|left]; rewrite ?Z.eqb_refl, ?orb_true_r; try done.
    split; [|done]. rewrite !orb_false_iff, !Z.eqb_neq. split_and!; congruence. }
  assert (Hold : forall p, is_Some (nodes v !! p) -> is_Some (nodes (kv (fd_boot v)) !! p)).
  { intros p Hp. cbn. rewrite !lookup_insert_is_Some'. tauto. }
  assert (Hcon : forall p, is_console p = true -> exists n, nodes (kv (fd_boot v)) !! p = Some n /\ vn_close n = 0 /\ vn_data n = 0).
  { intros p Hp. unfold is_console in Hp. rewrite !orb_true_iff, !Z.eqb_eq in Hp.
    assert (is_Some (nodes (kv (fd_boot v)) !! p)) as [n Hn] by (cbn; rewrite !lookup_insert_is_Some'; naive_solver).
    exists n. split; [done|]. destruct (Hnodes p n Hn) as [[Hcf _]|(_ & _ & ? & ? & _)]; [|done].
    unfold is_console in Hcf. rewrite !orb_false_iff, !Z.eqb_neq in Hcf. naive_solver. }
  assert (Hnr : forall p, node_refs [] (fd_boot v) p = 0) by (intros p; unfold node_refs; cbn; by rewrite msum_empty).
  split; try done.
  - apply (own_ok _ Ho).
  - intros b u [[-> [n Hn]]|(p & n & -> & Hp & <- & Hb)]%HB.
    + split; [intros ->; congruence|]. by apply (own_node _ Ho b n).
    + split; [done|]. by apply (own_data _ Ho p n).
  - intros p n [[Hc Hp]|(Hc & _)]%Hnodes; (split; [intros ->; congruence|]); [|congruence].
    intros _. apply HB. left. split; [done|by eexists].
  - intros p n [[Hc Hp]|(Hc & _ & _ & ? & _)]%Hnodes Hd _; [|done]. apply HB. right. by exists p, n.
  - by apply Forall_replicate.
  - cbn. lia.
  - intros d Hd. change (descs (fd_boot v)) with (∅ : gmap Z file_description). rewrite lookup_empty.
    change (cnt_tasks d (replicate 16 (mk_ftask 0 (replicate 32 0))) + 0 = 0). by rewrite no_fds.
  - intros p n [[_ Hp]|(_ & ? & _)]%Hnodes; rewrite Hnr; [by apply (Hz p n)|done].
  - by apply Hold.
  - intros p n [[_ Hp]|(_ & _ & ? & _)]%Hnodes _; [by apply (Hz p n)|done].
  - intros p n [[_ Hp]|(_ & _ & E & _)]%Hnodes Hcl; [destruct (Hz p n Hp) as [_ E]|]; by rewrite E in Hcl.
Qed.

(** A descriptor in use, and the description it refers to. *)
Definition fd_open s (t : nat) (i d : Z) : Prop :=
  (t < length (ktasks s))%nat /\ 0 <= i < TASK_MAX_FDS /\ arr_get (ft_fds (ktasks s !!! t)) i = d /\ d <> 0.
(** How many descriptors of all tasks refer to [d], how many descriptions to the node
    [p], and how many read or write ends to the pipe [a]. *)
Definition descriptors s (d : Z) : Z := cnt_tasks d (ktasks s).
Definition descriptions s (p : Z) : Z := msum (fun f => if fd_node f =? p then 1 else 0) (descs s).

(** C16: In every state that tasks reach with open, close, dup, dup2, fcntl, pipe, reads and
    writes of pipes, seeks, forks, exits and task switches: a descriptor in use refers to an
    allocated description with a node that is there; a description's reference count is the
    number of descriptors of all tasks that refer to it and is not zero (so none leaks and
    none is freed early); a node's count is the number of descriptions of it; the counts of
    readers and writers of a pipe are the numbers of its open ends, and a pipe is there as
    long as one of them is. *)
Theorem fd_reachable_refs (v : vfs H X) s :
  vfs_ok v -> (forall p n, nodes v !! p = Some n -> vn_ref_count n = 0 /\ vn_close n = 0) -> is_console 0 = false ->
  fd_reachable v s ->
  (forall t i d, fd_open s t i d -> exists f n, descs s !! d = Some f /\ nodes (kv s) !! fd_node f = Some n) /\
  (forall d f, descs s !! d = Some f -> fd_ref_count f = descriptors s d /\ 0 < descriptors s d) /\
  (forall p n, nodes (kv s) !! p = Some n -> vn_ref_count n = descriptions s p) /\
  (forall a q, pipes s !! a = Some q ->
    readers q = end_refs s a true /\ writers q = end_refs s a false /\ 0 < readers q + writers q) /\
  (forall e en, ends s !! e = Some en -> is_Some (pipes s !! e_pipe en)).
Proof.
  intros [[kids Ht] Ho] Hz Hc Hr. assert (Hs : fd_safe s).
  { induction Hr as [|s s' _ IH Hst]; [|by eapply step_safe].
    apply boot_safe; [done| | |done|done]; [|by eapply tree_null]; destruct (tree_root _ _ _ Ht) as (n & Hn & _); by exists n. }
  destruct Hs as [B Hi]. split_and!.
  - intros t i d (Hlt & Hi' & <- & Hd). rewrite (fi_tasks _ _ _ _ Hi) in Hlt.
    destruct (slot_desc _ _ _ _ t i Hi Hlt Hi' Hd) as [f Hf]. destruct (fi_open _ _ _ _ Hi _ _ Hf) as [n Hn]. by exists f, n.
  - intros d f Hd. pose proof (fi_refs _ _ _ _ Hi d (proj1 (fi_live _ _ _ _ Hi _ _ (fi_desc _ _ _ _ Hi _ _ Hd)))) as Hf.
    rewrite Hd in Hf. unfold refs in Hf. cbn [cnt] in Hf. rewrite Z.add_0_r in Hf. done.
  - intros p n Hp. rewrite (fi_count _ _ _ _ Hi p n Hp). unfold node_refs. cbn [cnt]. by rewrite Z.add_0_r.
  - intros a q Ha. by destruct (fi_ends _ _ _ _ Hi a q Ha) as (? & ? & ? & _).
  - intros e en He. by apply (fi_end _ _ _ _ Hi e en He).
Qed.
End Reach.
