(* ===== verification/FdDemo.v ===== *)
(** Descriptors evaluated on a concrete state: a task that opens a directory, makes a
    pipe, forks and closes an end. *)

From S2P Require Import Prelude Pipe Vfs VfsPath VfsTree VfsReach VfsProps VfsDemo Fd FdRefs FdSteps FdReach.

(** The console's nodes below the heap; no sockets. *)
#[export] Instance demo_console : ConsoleNodes := {| console_stdin := 1024; console_stdout := 1280; console_stderr := 1536 |}.
Definition no_socket (_ : Z) (x : unit) : unit := x.

Definition fdemo0 : kfd bump unit := fd_boot demo2.
Definition fdemo1 := standard_fds 0 fdemo0.
Definition fdemo2 := snd (open_node no_socket (fun _ => 0) (vfs_find dir_a demo2) 0 fdemo1).
Definition fdemo3 := snd (sys_pipe no_socket fdemo2).
Definition fdemo4 := copy_fds 1 (kcur fdemo3) fdemo3.
Definition fdemo5 := snd (sys_close no_socket 4 fdemo4).

Lemma demo_static : forall (h : bump) p, a_ok h -> is_console p = true -> ~ a_live h p.
Proof.
  intros h p [_ Hl] Hp Hin. cbn in Hin. rewrite Forall_forall in Hl. specialize (Hl p Hin).
  unfold is_console in Hp. rewrite !orb_true_iff, !Z.eqb_eq in Hp. cbn in Hp. lia.
Qed.
Lemma fdemo_reachable : fd_reachable no_socket demo2 fdemo5.
Proof.
  assert (H1 : fd_reachable no_socket demo2 fdemo1) by (eapply reach_step; [apply reach_boot|by apply step_start; [lia|]]).
  assert (H2 : fd_reachable no_socket demo2 fdemo2).
  { eapply reach_step; [exact H1|]. eapply step_open; [by vm_compute|right; reflexivity]. }
  assert (H3 : fd_reachable no_socket demo2 fdemo3) by (eapply reach_step; [exact H2|apply step_pipe]).
  assert (H4 : fd_reachable no_socket demo2 fdemo4) by (eapply reach_step; [exact H3|apply step_fork; [lia|by vm_compute]]).
  eapply reach_step; [exact H4|apply step_close].
Qed.
Lemma demo2_closed : map_Forall (fun _ n => vn_ref_count n = 0 /\ vn_close n = 0) (nodes demo2).
Proof. apply (bool_decide_eq_true_1 (map_Forall _ _)). by vm_compute. Qed.

Lemma fd_reachable_refs_witness :
  ft_fds (ktasks fdemo5 !!! 1%nat) = [5120; 5632; 6144; 6656; 9728; 10240] ++ replicate 26 0 /\
  ft_fds (ktasks fdemo5 !!! 0%nat) = [5120; 5632; 6144; 6656; 0; 10240] ++ replicate 26 0 /\
  forall d f, descs fdemo5 !! d = Some f -> fd_ref_count f = descriptors fdemo5 d /\ 0 < descriptors fdemo5 d.
Proof.
  split; [by vm_compute|]. split; [by vm_compute|].
  apply (fd_reachable_refs no_socket demo_static demo2 fdemo5).
  - exact (vfs_reachable_facts _ _ (proj2 demo_reachable)).
  - exact demo2_closed.
  - reflexivity.
  - exact fdemo_reachable.
Defined.
