(* ===== verification/Tty.v ===== *)
(** The keyboard, src/src/kernel/kernel.c: scan codes to characters, the queue of typed
    characters, Ctrl-C, and the foreground process with the calls that change it. *)

From S2P Require Import Prelude Mem Task Sched.

Definition KEYBOARD_QUEUE_SIZE : Z := 128.

(** Set 1 scan codes of an US keyboard, 0 for keys without a character. *)
Definition keymap_normal : list Z :=
  [0; 0; 49; 50; 51; 52; 53; 54; 55; 56; 57; 48; 45; 61; 0; 0;
   113; 119; 101; 114; 116; 121; 117; 105; 111; 112; 91; 93; 0; 0; 97; 115;
   100; 102; 103; 104; 106; 107; 108; 59; 39; 96; 0; 92; 122; 120; 99; 118;
   98; 110; 109; 44; 46; 47; 0; 0; 0; 32; 0; 0; 0; 0; 0; 0;
   0; 0; 0; 0; 0; 0; 0; 0; 0; 0; 0; 0; 0; 0; 0; 0;
   0; 0; 0; 0; 0; 0; 0; 0; 0; 0; 0; 0; 0; 0; 0; 0;
   0; 0; 0; 0; 0; 0; 0; 0; 0; 0; 0; 0; 0; 0; 0; 0;
   0; 0; 0; 0; 0; 0; 0; 0; 0; 0; 0; 0; 0; 0; 0; 0].
Definition keymap_shift : list Z :=
  [0; 0; 33; 64; 35; 36; 37; 38; 47; 40; 41; 61; 95; 43; 0; 0;
   81; 87; 69; 82; 84; 89; 85; 73; 79; 80; 123; 125; 0; 0; 65; 83;
   68; 70; 71; 72; 74; 75; 76; 58; 34; 126; 0; 124; 90; 88; 67; 86;
   66; 78; 77; 60; 62; 63; 0; 0; 0; 32; 0; 0; 0; 0; 0; 0;
   0; 0; 0; 0; 0; 0; 0; 0; 0; 0; 0; 0; 0; 0; 0; 0;
   0; 0; 0; 0; 0; 0; 0; 0; 0; 0; 0; 0; 0; 0; 0; 0;
   0; 0; 0; 0; 0; 0; 0; 0; 0; 0; 0; 0; 0; 0; 0; 0;
   0; 0; 0; 0; 0; 0; 0; 0; 0; 0; 0; 0; 0; 0; 0; 0].
Definition keymap_altgr : list Z := arr_set (arr_set (arr_set (replicate 128 0) 0x08 123) 0x09 124) 0x0A 125.

Record keyboard := mk_keyboard {
  keyboard_queue : list Z;
  queue_read : Z;
  queue_write : Z;
  keyboard_shift : bool;
  keyboard_ctrl : bool;
  keyboard_extended : bool;
  keyboard_altgr : bool
}.
#[export] Instance eta_keyboard : Eta keyboard := fun k =>
  mk_keyboard (keyboard_queue k) (queue_read k) (queue_write k) (keyboard_shift k) (keyboard_ctrl k)
    (keyboard_extended k) (keyboard_altgr k).

(** The state that [keyboard_init] leaves; the array is not cleared. *)
Definition keyboard_init (k : keyboard) : keyboard := mk_keyboard (keyboard_queue k) 0 0 false false false false.

(** Whether the character went into the queue; readers are woken then. *)
Definition keyboard_queue_push (ch : Z) (k : keyboard) : bool * keyboard :=
  let next := (queue_write k + 1) mod KEYBOARD_QUEUE_SIZE in
  if next =? queue_read k then (false, k)
  else (true, k <| keyboard_queue := arr_set (keyboard_queue k) (queue_write k) ch |> <| queue_write := next |>).
(** [keyboard_queue_pop] when the serial line has nothing. *)
Definition keyboard_queue_take (k : keyboard) : option (Z * keyboard) :=
  if queue_read k =? queue_write k then None
  else Some (arr_get (keyboard_queue k) (queue_read k), k <| queue_read := (queue_read k + 1) mod KEYBOARD_QUEUE_SIZE |>).

Definition keyboard_char_from_scancode (scancode : Z) (k : keyboard) : Z :=
  if 128 <=? scancode then 0
  else
    let ch := if keyboard_altgr k then arr_get keymap_altgr scancode else 0 in
    if negb (ch =? 0) then ch
    else arr_get (if keyboard_shift k then keymap_shift else keymap_normal) scancode.

(** What a scan code does besides: a character for the queue, or Ctrl-C. *)
Inductive key_effect := KeyNone | KeyChar (ch : Z) | KeyInterrupt.
Definition decode_scancode (scancode : Z) (k : keyboard) : key_effect * keyboard :=
  if scancode =? 0xE0 then (KeyNone, k <| keyboard_extended := true |>)
  else if keyboard_extended k then
    let k := k <| keyboard_extended := false |> in
    if scancode =? 0x38 then (KeyNone, k <| keyboard_altgr := true |>)
    else if scancode =? 0xB8 then (KeyNone, k <| keyboard_altgr := false |>)
    else (KeyNone, k)
  else if negb (Z.land scancode 0x80 =? 0) then
    let make_code := Z.land scancode 0x7F in
    let k := if (make_code =? 0x2A) || (make_code =? 0x36) then k <| keyboard_shift := false |> else k in
    (KeyNone, if make_code =? 0x1D then k <| keyboard_ctrl := false |> else k)
  else if (scancode =? 0x2A) || (scancode =? 0x36) then (KeyNone, k <| keyboard_shift := true |>)
  else if scancode =? 0x1D then (KeyNone, k <| keyboard_ctrl := true |>)
  else if keyboard_ctrl k && (scancode =? 0x2E) then (KeyInterrupt, k)
  else if scancode =? 0x0E then (KeyChar 8, k)
  else if scancode =? 0x1C then (KeyChar 10, k)
  else if scancode =? 0x0F then (KeyChar 9, k)
  else
    let ch := keyboard_char_from_scancode scancode k in
    (if negb (ch =? 0) then KeyChar ch else KeyNone, k).

(** * The terminal *)

Record tty E := mk_tty { kb : keyboard; sch : sched E; foreground : Z }.
Arguments mk_tty {E} _ _ _.
Arguments kb {E} _.
Arguments sch {E} _.
Arguments foreground {E} _.
#[export] Instance eta_tty E : Eta (tty E) := fun t => mk_tty (kb t) (sch t) (foreground t).

Definition PROC_NAME_MAX : Z := 32.
Definition PROC_FLAG_FOREGROUND : Z := 1.
Definition proc_state_from_task (st : task_state) : Z :=
  match st with
  | TASK_READY => 1 | TASK_RUNNING => 2 | TASK_SLEEPING => 3 | TASK_WAITING => 4
  | TASK_BLOCKED => 5 | TASK_STOPPED => 7 | _ => 6
  end.
(** The name up to its zero or 31 characters. *)
Definition proc_copy_name (src : list Z) : list Z :=
  take (Z.to_nat (default (PROC_NAME_MAX - 1) (find_index (fun c => c =? 0) (take 31 src) 0))) src.
Record proc_info := mk_proc_info { pi_pid : Z; pi_state : Z; pi_flags : Z; pi_name : list Z }.
(** [sizeof(proc_info_t)] *)
Definition PROC_INFO_SIZE : Z := 3 * 4 + 32.

Section Tty.
Context {E : Type} `{KernelEnv E}.
(** [serial_getc]: a character that the serial line has received. *)
Context (serial_getc : E -> Z * E).
Implicit Types t : tty E.

Definition keyboard_push (ch : Z) t : option (tty E) :=
  let '(pushed, k) := keyboard_queue_push ch (kb t) in
  let t := t <| kb := k |> in
  if pushed then let* s := scheduler_wake_stdin_readers (sch t) in Some (t <| sch := s |>) else Some t.

(** The pid of the task that gets the interrupt. *)
Definition keyboard_foreground_task t : option (Z * tty E) :=
  if negb (foreground t =? 0) then
    let* (r, s) := scheduler_find_task (foreground t) (sch t) in
    let t := t <| sch := s |> in
    match r with
    | Some i => Some (pid (task_at s i), t)
    | None => Some (pid (scheduler_current_task s), t <| foreground := 0 |>)
    end
  else Some (pid (scheduler_current_task (sch t)), t).
Definition keyboard_send_sigint t : option (tty E) :=
  let* (p, u) := keyboard_foreground_task t in
  let* (_, s) := scheduler_send_signal p SIGINT (sch u) in
  Some (u <| sch := s |>).
Definition keyboard_handle_scancode (scancode : Z) t : option (tty E) :=
  let '(e, k) := decode_scancode scancode (kb t) in
  let t := t <| kb := k |> in
  match e with
  | KeyNone => Some t
  | KeyChar ch => keyboard_push ch t
  | KeyInterrupt => keyboard_send_sigint t
  end.

Definition keyboard_queue_pop t : option (Z * tty E) :=
  if k_serial_received (env (sch t)) then
    let '(c, e) := serial_getc (env (sch t)) in
    Some (if c =? 13 then 10 else c, t <| sch := sch t <| env := e |> |>)
  else
    let* (ch, k) := keyboard_queue_take (kb t) in Some (ch, t <| kb := k |>).
Fixpoint console_read_loop (size : nat) t : list Z * tty E :=
  match size with
  | O => ([], t)
  | S n =>
      match keyboard_queue_pop t with
      | None => ([], t)
      | Some (ch, t) => let '(l, t) := console_read_loop n t in (ch :: l, t)
      end
  end.

Definition task_owns_stdin (p : Z) t : bool := (foreground t =? 0) || (foreground t =? p).

(** * Processes *)

(** [fuel] and [yield] as in [scheduler_waitpid]; the middle component is the status. *)
Definition sys_waitpid (fuel : nat) (yield : sched E -> sched E) (p options : Z) t : option (Z * option Z * tty E) :=
  let* (r, s) := scheduler_waitpid fuel yield p options (sch t) in
  let '(result, status) := r in
  let t := t <| sch := s |> in
  Some (if 0 <? result then
          (result, status,
           if foreground t =? u32 result then t <| foreground := pid (scheduler_current_task s) |> else t)
        else (result, None, t)).
Definition sys_wait (fuel : nat) (yield : sched E -> sched E) (p : Z) t : option (Z * tty E) :=
  let* (r, s) := scheduler_waitpid fuel yield (s32 (u32 p)) 0 (sch t) in
  let result := fst r in
  let t := t <| sch := s |> in
  Some (result,
        if 0 <? result then t <| foreground := u32 p |>
        else if foreground t =? u32 p then t <| foreground := pid (scheduler_current_task s) |>
        else t).
Definition sys_kill (p signum : Z) t : option (Z * tty E) :=
  if negb (is_supported_signal signum) then Some (-1, t)
  else
    let* (target, s) := scheduler_find_task (u32 p) (sch t) in
    let t := t <| sch := s |> in
    match target with
    | None => Some (-1, t)
    | Some _ =>
        let* (r, s) := scheduler_send_signal (u32 p) signum (sch t) in
        let t := t <| sch := s |> in
        let deadly := (signum =? SIGKILL) || (signum =? SIGINT) || (signum =? SIGTERM) || (signum =? SIGPIPE) in
        Some (r, if (r =? 0) && deadly && (foreground t =? u32 p)
                 then t <| foreground := pid (scheduler_current_task s) |> else t)
    end.

Definition proc_info_of (fg : Z) (x : task) : proc_info :=
  mk_proc_info (pid x) (proc_state_from_task (state x)) (if pid x =? fg then PROC_FLAG_FOREGROUND else 0) (proc_copy_name (name x)).
(** The entries put into the user's buffer; their number is the value.  [None]: the lock is
    held by this processor. *)
Definition sys_getprocs (user_buffer max_size : Z) t : option (Z * list proc_info) :=
  if (user_buffer =? 0) || (max_size <? PROC_INFO_SIZE) then Some (-1, [])
  else
    let* s := spin_lock_irqsave (sch t) in
    let l := take (Z.to_nat (max_size / PROC_INFO_SIZE))
               (map (proc_info_of (foreground t)) (List.filter live (active_tasks s))) in
    Some (s32 (len l), l).
End Tty.
