(* ===== verification/TtyProps.v ===== *)
(** The keyboard's queue is a queue of at most 127 characters, and what is typed on the
    keys is what a reader of the console gets. *)

From Stdlib Require Strings.String.
Import String.StringSyntax.
From S2P Require Import Prelude Mem Task Sched Tty.

(** * The queue *)

Definition kb_ok (k : keyboard) : Prop :=
  len (keyboard_queue k) = 128 /\ 0 <= queue_read k < 128 /\ 0 <= queue_write k < 128.
Definition queued (k : keyboard) : Z := (queue_write k - queue_read k) mod 128.
(** The characters in the queue, the oldest first. *)
Definition typed (k : keyboard) : list Z :=
  map (fun i => arr_get (keyboard_queue k) ((queue_read k + Z.of_nat i) mod 128)) (seq 0 (Z.to_nat (queued k))).

Lemma len_typed k : kb_ok k -> len (typed k) = queued k.
Proof. intros _. unfold typed, len. rewrite length_map, length_seq. apply Z2Nat.id. unfold queued. apply Z.mod_pos_bound. lia. Qed.

(** A push is refused exactly when 127 characters wait. *)
Lemma push_spec ch k :
  kb_ok k ->
  let '(pushed, k') := keyboard_queue_push ch k in
  kb_ok k' /\ pushed = (queued k <? 127) /\ typed k' = (if queued k <? 127 then typed k ++ [ch] else typed k) /\
  keyboard_shift k' = keyboard_shift k /\ keyboard_ctrl k' = keyboard_ctrl k /\
  keyboard_extended k' = keyboard_extended k /\ keyboard_altgr k' = keyboard_altgr k.
Proof.
  intros (Hl & Hr & Hw). unfold keyboard_queue_push, KEYBOARD_QUEUE_SIZE, queued.
  destruct (Z.eqb_spec ((queue_write k + 1) mod 128) (queue_read k)) as [E|E].
  - assert (Hf : (queue_write k - queue_read k) mod 128 = 127) by (Z.div_mod_to_equations; lia). rewrite Hf. done.
  - assert (Hf : (queue_write k - queue_read k) mod 128 < 127) by (Z.div_mod_to_equations; lia).
    rewrite (proj2 (Z.ltb_lt _ _)) by done. set (k' := k <| keyboard_queue := _ |> <| queue_write := _ |>).
    assert (Hok : kb_ok k').
    { unfold kb_ok, k'. cbn. rewrite len_arr_set. split; [done|]. split; [done|]. apply Z.mod_pos_bound. lia. }
    split; [done|]. split; [done|]. split; [|done]. unfold typed.
    assert (Hq : queued k' = queued k + 1) by (unfold queued, k'; cbn; Z.div_mod_to_equations; lia).
    rewrite Hq. replace (Z.to_nat (queued k + 1)) with (Z.to_nat (queued k) + 1)%nat by (unfold queued; Z.div_mod_to_equations; lia).
    rewrite seq_app, map_app. cbn [seq map Nat.add]. f_equal.
    + apply map_ext_in. intros i Hi%in_seq. unfold k'. cbn. apply arr_get_set_ne; unfold queued in Hi; Z.div_mod_to_equations; lia.
    + f_equal. unfold k'. cbn. rewrite Z2Nat.id by (unfold queued; Z.div_mod_to_equations; lia).
      replace ((queue_read k + queued k) mod 128) with (queue_write k) by (unfold queued; Z.div_mod_to_equations; lia).
      apply arr_get_set_eq. lia.
Qed.
Lemma take_spec k :
  kb_ok k ->
  match keyboard_queue_take k with
  | None => typed k = []
  | Some (ch, k') => kb_ok k' /\ typed k = ch :: typed k'
  end.
Proof.
  intros (Hl & Hr & Hw). unfold keyboard_queue_take, KEYBOARD_QUEUE_SIZE. destruct (Z.eqb_spec (queue_read k) (queue_write k)) as [E|E].
  - unfold typed, queued. by rewrite E, Z.sub_diag.
  - set (k' := k <| queue_read := _ |>). split.
    { unfold kb_ok, k'. cbn. split; [done|]. split; [apply Z.mod_pos_bound; lia|done]. }
    unfold typed. assert (Hq : queued k' = queued k - 1 /\ 0 < queued k) by (unfold queued, k'; cbn; Z.div_mod_to_equations; lia).
    destruct Hq as [Hq Hp]. rewrite Hq. replace (Z.to_nat (queued k)) with (S (Z.to_nat (queued k - 1))) by lia.
    cbn [seq map]. f_equal; [f_equal; rewrite Z.add_0_r, Z.mod_small; lia|]. rewrite <- seq_shift, map_map. apply map_ext_in.
    intros i Hi. unfold k'. cbn. f_equal. Z.div_mod_to_equations. lia.
Qed.

(** * Typing *)

(** The US-QWERTY layout, from the keyboard and not from the tables of the driver: the scan
    code (set 1) of the first key of each row of keys, what they give alone, and what they
    give with shift. *)
Definition codes (s : String.string) : list Z := map (fun c => Z.of_N (Ascii.N_of_ascii c)) (String.list_ascii_of_string s).
Definition us_rows : list (Z * list Z * list Z) :=
  [(0x02, codes "1234567890-=", codes "!@#$%^&*()_+");
   (0x10, codes "qwertyuiop[]", codes "QWERTYUIOP{}");
   (0x1E, codes "asdfghjkl;'`", codes "ASDFGHJKL:" ++ [34; 126]);
   (0x2B, codes "\zxcvbnm,./", codes "|ZXCVBNM<>?");
   (0x39, codes " ", []);
   (0x0E, [8], []); (0x0F, [9], []); (0x1C, [10], [])].
(** The key of a character: whether shift is needed, and the scan code. *)
Fixpoint key_in (rows : list (Z * list Z * list Z)) (ch : Z) : option (bool * Z) :=
  match rows with
  | [] => None
  | (first, alone, shifted) :: rows =>
      match find_index (fun c => c =? ch) alone 0, find_index (fun c => c =? ch) shifted 0 with
      | Some i, _ => Some (false, first + i)
      | None, Some i => Some (true, first + i)
      | None, None => key_in rows ch
      end
  end.
Definition us_key (ch : Z) : option (bool * Z) := key_in us_rows ch.
(** The characters that the layout has: printable ones, backspace, tab and newline. *)
Definition us_char (ch : Z) : bool := ((32 <=? ch) && (ch <=? 126)) || ((8 <=? ch) && (ch <=? 10)).
(** What the driver makes of them: with shift the keys 6 to 0 are not those of the layout. *)
Definition read_as (ch : Z) : Z :=
  if ch =? 94 then 38 else if ch =? 38 then 47 else if ch =? 42 then 40 else if ch =? 40 then 41 else if ch =? 41 then 61 else ch.
(** Press and release, with the left shift key around when it is needed. *)
Definition strokes (ch : Z) : list Z :=
  match us_key ch with
  | Some (false, code) => [code; code + 0x80]
  | Some (true, code) => [0x2A; code; code + 0x80; 0xAA]
  | None => []
  end.

(** Only shift may be held. *)
Definition mods (k : keyboard) (shift : bool) : Prop :=
  keyboard_shift k = shift /\ keyboard_ctrl k = false /\ keyboard_extended k = false /\ keyboard_altgr k = false.

Lemma us_char_elem ch : us_char ch = true -> ch ∈ seqZ 32 95 ++ [8; 9; 10].
Proof.
  unfold us_char. intros Hc. apply elem_of_app. apply orb_true_iff in Hc as [Hc|Hc]; apply andb_true_iff in Hc as [H1%Z.leb_le H2%Z.leb_le].
  - left. apply elem_of_seqZ. lia.
  - right. assert (ch = 8 \/ ch = 9 \/ ch = 10) as [->|[->| ->]] by lia; set_solver.
Qed.
(** Every character has a key: pressing it with shift as needed gives what [read_as]
    says, releasing it nothing. *)
Lemma keys_decode : Forall (fun ch => match us_key ch with
    | None => False
    | Some (sh, code) => forall q r w, let k := mk_keyboard q r w sh false false false in
        decode_scancode code k = (KeyChar (read_as ch), k) /\ decode_scancode (code + 0x80) k = (KeyNone, k)
    end) (seqZ 32 95 ++ [8; 9; 10]).
Proof.
  let l := eval vm_compute in (seqZ 32 95 ++ [8; 9; 10]) in change (seqZ 32 95 ++ [8; 9; 10]) with l.
  repeat (constructor; [vm_compute; split; reflexivity|]). constructor.
Qed.
Lemma key_decode ch k :
  us_char ch = true -> exists sh code, us_key ch = Some (sh, code) /\
  (mods k sh -> decode_scancode code k = (KeyChar (read_as ch), k) /\ decode_scancode (code + 0x80) k = (KeyNone, k)).
Proof.
  intros Hc. pose proof (proj1 (Forall_forall _ _) keys_decode ch (us_char_elem ch Hc)) as Hd. cbv beta in Hd.
  destruct (us_key ch) as [[sh code]|]; [|done]. exists sh, code. split; [done|]. intros (H1 & H2 & H3 & H4).
  destruct k as [q r w a b c d]. cbn in *. subst. apply Hd.
Qed.

Section Typing.
Context {E : Type} `{KernelEnv E} (serial_getc : E -> Z * E).
Implicit Types t : tty E.

Fixpoint feed (codes : list Z) t : option (tty E) :=
  match codes with
  | [] => Some t
  | c :: codes' => let* u := keyboard_handle_scancode c t in feed codes' u
  end.
(** Only the queue and the state of sleeping readers differ. *)
Definition same_tty t t' : Prop :=
  foreground t' = foreground t /\ env (sch t') = env (sch t) /\ task_table_lock (sch t') = false.

Lemma feed_app c1 c2 t : feed (c1 ++ c2) t = (let* u := feed c1 t in feed c2 u).
Proof. revert t. induction c1 as [|c c1 IH]; intros t; cbn; [done|]. by destruct (keyboard_handle_scancode c t). Qed.
Lemma keyboard_push_spec ch t :
  kb_ok (kb t) -> queued (kb t) < 127 -> task_table_lock (sch t) = false ->
  exists t', keyboard_push ch t = Some t' /\ kb_ok (kb t') /\ typed (kb t') = typed (kb t) ++ [ch] /\
    (forall sh, mods (kb t) sh -> mods (kb t') sh) /\ same_tty t t'.
Proof.
  intros Hok Hq Hl. unfold keyboard_push. pose proof (push_spec ch (kb t) Hok) as Hp.
  destruct (keyboard_queue_push ch (kb t)) as [pushed k]. destruct Hp as (Hok' & -> & Ht & M1 & M2 & M3 & M4).
  rewrite (proj2 (Z.ltb_lt _ _)) in * by done. unfold scheduler_wake_stdin_readers, wake_tasks, spin_lock_irqsave. cbn. rewrite Hl.
  eexists. split; [done|]. cbn. split; [done|]. split; [done|]. split; [|done]. intros sh (? & ? & ? & ?). split_and!; congruence.
Qed.
Lemma handle_none c t k : decode_scancode c (kb t) = (KeyNone, k) -> keyboard_handle_scancode c t = Some (t <| kb := k |>).
Proof. intros Hd. unfold keyboard_handle_scancode. by rewrite Hd. Qed.

Lemma feed_key ch sh code t :
  us_char ch = true -> us_key ch = Some (sh, code) ->
  mods (kb t) sh -> kb_ok (kb t) -> queued (kb t) < 127 -> task_table_lock (sch t) = false ->
  exists t', feed [code; code + 0x80] t = Some t' /\ kb_ok (kb t') /\ typed (kb t') = typed (kb t) ++ [read_as ch] /\
    mods (kb t') sh /\ same_tty t t'.
Proof.
  intros Hc Hk Hm Hok Hq Hl. destruct (key_decode ch (kb t) Hc) as (? & ? & Hk1 & Hd). rewrite Hk in Hk1. injection Hk1 as <- <-.
  destruct (Hd Hm) as [Hd1 _]. destruct (keyboard_push_spec (read_as ch) t Hok Hq Hl) as (t1 & E1 & Hok1 & Ht1 & Hm1 & Hs1).
  specialize (Hm1 sh Hm). destruct (key_decode ch (kb t1) Hc) as (? & ? & Hk1 & Hd'). rewrite Hk in Hk1. injection Hk1 as <- <-.
  destruct (Hd' Hm1) as [_ Hd2]. cbn [feed]. unfold keyboard_handle_scancode at 1. rewrite Hd1.
  assert (Et : t <| kb := kb t |> = t) by by destruct t. rewrite Et, E1. rewrite (handle_none _ _ _ Hd2).
  assert (Et1 : t1 <| kb := kb t1 |> = t1) by by destruct t1. rewrite Et1. by exists t1.
Qed.
Lemma feed_strokes ch t :
  us_char ch = true -> mods (kb t) false -> kb_ok (kb t) -> queued (kb t) < 127 -> task_table_lock (sch t) = false ->
  exists t', feed (strokes ch) t = Some t' /\ kb_ok (kb t') /\ typed (kb t') = typed (kb t) ++ [read_as ch] /\
    mods (kb t') false /\ same_tty t t'.
Proof.
  intros Hc Hm Hok Hq Hl. unfold strokes. destruct (key_decode ch (kb t) Hc) as (sh & code & Hk & _). rewrite Hk.
  destruct sh; [|by apply feed_key].
  set (u := t <| kb := kb t <| keyboard_shift := true |> |>).
  assert (E1 : keyboard_handle_scancode 0x2A t = Some u).
  { apply handle_none. destruct Hm as (M1 & M2 & M3 & M4). unfold decode_scancode. by rewrite M3. }
  assert (Hmu : mods (kb u) true) by (destruct Hm as (M1 & M2 & M3 & M4); done).
  destruct (feed_key ch true code u Hc Hk Hmu Hok Hq Hl) as (t1 & E2 & Hok1 & Ht1 & Hm1 & Hs1).
  exists (t1 <| kb := kb t1 <| keyboard_shift := false |> |>).
  assert (F1 : feed [0x2A] t = Some u) by (cbn [feed]; by rewrite E1).
  change [0x2A; code; code + 0x80; 0xAA] with ([0x2A] ++ [code; code + 0x80] ++ [0xAA]). rewrite feed_app, F1.
  cbv beta iota. rewrite feed_app, E2. cbn [feed].
  rewrite (handle_none 0xAA t1 (kb t1 <| keyboard_shift := false |>)); [|by (unfold decode_scancode; destruct Hm1 as (M1 & M2 & M3 & M4); rewrite M3)].
  split; [done|]. split; [done|]. split; [done|]. split; [|done]. destruct Hm1 as (M1 & M2 & M3 & M4). done.
Qed.

Lemma feed_string str : forall t,
  forallb us_char str = true -> mods (kb t) false -> kb_ok (kb t) -> queued (kb t) + len str <= 127 -> task_table_lock (sch t) = false ->
  exists t', feed (concat (map strokes str)) t = Some t' /\ kb_ok (kb t') /\ typed (kb t') = typed (kb t) ++ map read_as str /\
    mods (kb t') false /\ same_tty t t'.
Proof.
  induction str as [|ch str IH]; intros t Ht Hm Hok Hq Hl.
  - exists t. split; [done|]. split; [done|]. split; [by rewrite app_nil_r|]. split; [done|]. done.
  - cbn in Ht. apply andb_true_iff in Ht as [Hc Ht]. unfold len in Hq. cbn [length] in Hq.
    destruct (feed_strokes ch t Hc Hm Hok ltac:(lia) Hl) as (t1 & E1 & Hok1 & Ht1 & Hm1 & (F1 & F2 & F3)).
    assert (Hq1 : queued (kb t1) = queued (kb t) + 1).
    { rewrite <- !len_typed by done. rewrite Ht1, len_app. done. }
    destruct (IH t1 Ht Hm1 Hok1 ltac:(unfold len; lia) F3) as (t2 & E2 & Hok2 & Ht2 & Hm2 & (G1 & G2 & G3)).
    exists t2. cbn [map concat]. rewrite feed_app, E1. split; [done|]. split; [done|].
    split; [by rewrite Ht2, Ht1, <- app_assoc|]. split; [done|]. split_and!; congruence.
Qed.
Lemma read_typed n : forall t,
  kb_ok (kb t) -> k_serial_received (env (sch t)) = false ->
  fst (console_read_loop serial_getc n t) = take n (typed (kb t)).
Proof.
  induction n as [|n IH]; intros t Hok Hs; cbn [console_read_loop]; [done|]. unfold keyboard_queue_pop. rewrite Hs.
  pose proof (take_spec (kb t) Hok) as Hp. destruct (keyboard_queue_take (kb t)) as [[ch k]|].
  - destruct Hp as [Hok' Ht]. specialize (IH (t <| kb := k |>) Hok' Hs). destruct (console_read_loop serial_getc n (t <| kb := k |>)) as [l u].
    cbn in *. by rewrite IH, Ht.
  - by rewrite Hp.
Qed.

(** C40: what is typed is what is read.  On a US-QWERTY keyboard, when no modifier is held,
    nothing comes over the serial line and the queue has room, pressing and releasing the
    keys of any string of printable characters, backspaces, tabs and newlines, with shift
    where the layout needs it, appends the string to what waits in the queue, and the
    modifiers are released again; a reader of the console gets the queue in order, cut to
    the size asked for.  Every character is read as itself but five: for [^], [&], the
    star and the two parentheses the driver gives the characters that [read_as] lists. *)
Theorem keyboard_read_typed t str n :
  kb_ok (kb t) -> mods (kb t) false -> task_table_lock (sch t) = false ->
  k_serial_received (env (sch t)) = false -> forallb us_char str = true -> len (typed (kb t)) + len str <= 127 ->
  exists t', feed (concat (map strokes str)) t = Some t' /\ mods (kb t') false /\
    foreground t' = foreground t /\ typed (kb t') = typed (kb t) ++ map read_as str /\
    fst (console_read_loop serial_getc n t') = take n (typed (kb t) ++ map read_as str).
Proof.
  intros Hok Hm Hl Hs Ht Hlen. rewrite len_typed in Hlen by done.
  destruct (feed_string str t Ht Hm Hok ltac:(lia) Hl) as (t' & E1 & Hok' & Ht' & Hm' & (F1 & F2 & F3)).
  exists t'. split_and!; [done|apply Hm'..|done|done|]. rewrite read_typed; [by rewrite Ht'|done|by rewrite F2].
Qed.
End Typing.
