(* ===== verification/TtyDemo.v ===== *)
(** Concrete runs of the keyboard and of the console. *)

From S2P Require Import Prelude Mem Task Sched SchedDemo Tty TtyProps.

Definition demo_tty : tty unit := mk_tty (mk_keyboard (replicate 128 0) 120 120 false false false false) demo_run 0.
Definition no_getc (e : unit) : Z * unit := (0, e).
(** Two characters wait. *)
Definition demo_waiting : tty unit := mk_tty (mk_keyboard (replicate 128 62) 120 122 false false false false) demo_run 0.
(** ["Hello, (World)!\n"] *)
Definition demo_line : list Z := [72; 101; 108; 108; 111; 44; 32; 40; 87; 111; 114; 108; 100; 41; 33; 10].

(** The line is typed across the end of the ring and read back, at most twenty bytes at a time. *)
Lemma keyboard_read_typed_witness :
  exists t', feed (concat (map strokes demo_line)) demo_waiting = Some t' /\ mods (kb t') false /\
    foreground t' = foreground demo_waiting /\ typed (kb t') = [62; 62] ++ map read_as demo_line /\
    fst (console_read_loop no_getc 20 t') = take 20 ([62; 62] ++ map read_as demo_line).
Proof.
  apply (keyboard_read_typed no_getc demo_waiting demo_line 20); try (vm_compute; done).
Defined.

(** Ctrl-C with no foreground process marks [SIGINT] in the running task. *)
Lemma demo_interrupt :
  match feed [0x1D; 0x2E] demo_tty with
  | Some t => (Z.testbit (pending_signals (task_at (sch t) 1)) SIGINT, typed (kb t))
  | None => (false, [])
  end = (true, []).
Proof. vm_compute. reflexivity. Qed.
