(* ===== verification/Sys.v ===== *)
(** The system calls on files and descriptors, src/src/kernel/kernel.c: paths from user
    memory, open, read, write, seek, stat, directories, links and pipes.  The other calls
    and the dispatch are in SysCalls.

    User memory is accessed byte by byte: an access to a byte that the page tables do not
    allow is a page fault in the kernel, and the call has no result ([None]). *)

From S2P Require Import Prelude Pipe Vfs Fd.

(** * User memory *)

(** The memory of the current task, the checks of the memory manager and
    [vmm_is_mapped] of the task's address space. *)
Class UserMem (M : Type) := {
  u_ok : M -> Z -> bool -> bool;
  u_byte : M -> Z -> Z;
  u_put : Z -> Z -> M -> M;
  vmm_validate_ptr : Z -> Z -> bool -> M -> bool;
  vmm_validate_string : Z -> Z -> M -> bool;
  is_mapped : M -> Z -> bool
}.

Section User.
Context {M : Type} `{UserMem M}.
Implicit Types m : M.

Definition fetch m (a : Z) : option Z := if u_ok m a false then Some (u_byte m a) else None.
Fixpoint fetch_n m (a : Z) (n : nat) : option (list Z) :=
  match n with
  | O => Some []
  | S n' => let* b := fetch m a in let* l := fetch_n m (a + 1) n' in Some (b :: l)
  end.
Fixpoint put_n (a : Z) (bytes : list Z) m : option M :=
  match bytes with
  | [] => Some m
  | b :: bytes' => if u_ok m a true then put_n (a + 1) bytes' (u_put a b m) else None
  end.

(** [copy_user_path]: [Some None] is the return value -1, a string that does not end
    within [capacity] bytes. *)
Fixpoint copy_user_path (capacity : nat) (src : Z) m : option (option (list Z)) :=
  match capacity with
  | O => Some None
  | S n =>
      let* b := fetch m src in
      if b =? 0 then Some (Some [])
      else let* r := copy_user_path n (src + 1) m in
           Some (match r with Some l => Some (b :: l) | None => None end)
  end.
(** A string that the kernel reads where it is.  It was validated to end within 256
    bytes. *)
Definition user_string (src : Z) m : option (list Z) :=
  let* r := copy_user_path 256 src m in r.
End User.

Fixpoint word_bytes (n : nat) (z : Z) : list Z :=
  match n with
  | O => []
  | S n' => z mod 256 :: word_bytes n' (z / 256)
  end.
Definition s64 (z : Z) : Z := (z + 9223372036854775808) mod 18446744073709551616 - 9223372036854775808.
(** A char array of [n] bytes that holds a string. *)
Definition char_array (n : nat) (str : list Z) : list Z := take n (str ++ replicate n 0).

Definition S_IFREG : Z := 0x8000.
Definition S_IFDIR : Z := 0x4000.
Definition S_IFCHR : Z := 0x2000.
Definition S_IFIFO : Z := 0x1000.
Definition S_IFLNK : Z := 0xA000.
Definition S_IFSOCK : Z := 0xC000.
Definition type_code (t : vfs_node_type) : Z :=
  match t with
  | VFS_NODE_FILE => 0 | VFS_NODE_DIRECTORY => 1 | VFS_NODE_DEVICE => 2
  | VFS_NODE_PIPE => 3 | VFS_NODE_SOCKET => 4 | VFS_NODE_SYMLINK => 5
  end.
Definition type_mode (t : vfs_node_type) : Z :=
  match t with
  | VFS_NODE_DIRECTORY => S_IFDIR | VFS_NODE_FILE => S_IFREG | VFS_NODE_DEVICE => S_IFCHR
  | VFS_NODE_PIPE => S_IFIFO | VFS_NODE_SYMLINK => S_IFLNK | VFS_NODE_SOCKET => S_IFSOCK
  end.
(** [struct stat] as it lies in memory: seven 32-bit fields, padding, a 64-bit size, the
    block size, padding, the 64-bit number of blocks, the type, padding. *)
Definition stat_bytes (node : Z) (n : vfs_node) : list Z :=
  word_bytes 4 1 ++ word_bytes 4 (u32 node) ++ word_bytes 4 (Z.lor (vn_mode n) (type_mode (vn_type n))) ++
  word_bytes 4 (vn_nlink n) ++ word_bytes 4 (vn_uid n) ++ word_bytes 4 (vn_gid n) ++ word_bytes 4 0 ++
  word_bytes 4 0 ++ word_bytes 8 (vn_size n) ++ word_bytes 4 512 ++ word_bytes 4 0 ++
  word_bytes 8 (u64 (vn_size n + 511) / 512) ++ word_bytes 4 (type_code (vn_type n)) ++ word_bytes 4 0.
Definition STAT_SIZE : Z := 64.
(** [vfs_dir_entry_t] as it lies in memory. *)
Definition dir_entry_bytes (e : vfs_dir_entry) : list Z :=
  char_array 64 (de_name e) ++ word_bytes 4 (type_code (de_type e)) ++ word_bytes 4 (de_size e) ++
  word_bytes 4 (de_uid e) ++ word_bytes 4 (de_gid e) ++ word_bytes 4 (de_mode e) ++ word_bytes 4 (de_nlink e).
Definition DIR_ENTRY_SIZE : Z := 88.

(** * System calls *)

(** What the calls use besides: the creation functions of the file systems, [open] of a
    node, the keyboard queue behind [console_read], the screen and the serial line behind
    [console_write], and the sleep of a reader of the empty keyboard. *)
Class SysEnv (H X : Type) := {
  fat16_vfs_create : list Z -> vfs H X -> Z * vfs H X;
  ext2_vfs_create : list Z -> vfs H X -> Z * vfs H X;
  node_open : Z -> Z;
  console_read : Z -> X -> list Z * X;
  console_write : list Z -> X -> X;
  sleep_stdin : X -> X;
  vfs_sync : vfs H X -> Z * vfs H X;
  socket_close : Z -> X -> X
}.

Record ksys H X M := mk_ksys { kf : kfd H X; um : M }.
Arguments mk_ksys {H X M} _ _.
Arguments kf {H X M} _.
Arguments um {H X M} _.
#[export] Instance eta_ksys H X M : Eta (ksys H X M) := fun s => mk_ksys (kf s) (um s).

Section Sys.
Context {H X M : Type} `{Allocator H} `{FsDrivers H X} `{ConsoleNodes} `{UserMem M} `{SysEnv H X}.
Implicit Types s : ksys H X M.

Definition vv s : vfs H X := kv (kf s).
Definition run_fd {A} (f : kfd H X -> A * kfd H X) s : A * ksys H X M :=
  let '(a, k) := f (kf s) in (a, s <| kf := k |>).
Definition run_vfs {A} (f : vfs H X -> A * vfs H X) s : A * ksys H X M := run_fd (on_vfs f) s.
Definition upd_drivers (f : X -> X) (k : kfd H X) : kfd H X := upd_vfs (fun v => v <| drivers := f (drivers v) |>) k.
(** The value of a call, no user memory touched. *)
Definition ret (r : Z * ksys H X M) : option (Z * ksys H X M) := Some r.
Definition store (a : Z) (bytes : list Z) s : option (ksys H X M) :=
  let* m := put_n a bytes (um s) in Some (s <| um := m |>).

Definition resolve_user_path (src capacity : Z) s : option (option (list Z)) :=
  match current (vv s) with
  | None => Some None
  | Some task =>
      let* r := copy_user_path 128 src (um s) in
      Some (match r with
            | None => None
            | Some raw => vfs_build_path (match t_cwd task with [] => [47] | cwd => cwd end) raw capacity
            end)
  end.
(** A call on the path: -1 when it cannot be resolved. *)
Definition with_path (src : Z) (f : list Z -> ksys H X M -> option (Z * ksys H X M)) s : option (Z * ksys H X M) :=
  let* r := resolve_user_path src 128 s in
  match r with
  | None => Some (-1, s)
  | Some path => f path s
  end.

(** [sys_open] with the path in kernel memory. *)
Definition may_open (flags : Z) (n : vfs_node) (task : vtask) : bool :=
  let access_mode := Z.land flags 3 in
  let may mask := vfs_check_permission n mask (t_uid task) (t_gid task) in
  (negb ((access_mode =? 0) || (access_mode =? 2)) || may 4) && (negb ((access_mode =? 1) || (access_mode =? 2)) || may 2).
Definition open_path (flags : Z) (path : list Z) s : Z * ksys H X M :=
  match current (vv s) with
  | None => (-1, s)
  | Some task =>
      let node := vfs_find path (vv s) in
      let '(node, s) :=
        if (node =? 0) && negb (Z.land flags O_CREAT =? 0) then
          let '(r, s) := run_vfs (fat16_vfs_create path) s in
          (if r =? 0 then vfs_find path (vv s) else 0, s)
        else (node, s) in
      let n := node_at (vv s) node in
      if (node =? 0) || negb (bool_decide (vn_type n = VFS_NODE_FILE \/ vn_type n = VFS_NODE_DIRECTORY)) then (-1, s)
      else if negb (may_open flags n task) then (-1, s)
      else run_fd (open_node socket_close node_open node flags) s
  end.
Definition sys_open (path flags : Z) s : option (Z * ksys H X M) := with_path path (fun p s => ret (open_path flags p s)) s.

Definition sys_lseek (fd offset whence : Z) s : Z * ksys H X M :=
  let d := fd_get fd (kf s) in
  if d =? 0 then (-1, s)
  else
    let f := desc_at (kf s) d in
    if fd_node f =? 0 then (-1, s)
    else
      let go new_offset :=
        if new_offset <? 0 then (-1, s)
        else (s32 new_offset, s <| kf := set_desc d (f <| fd_offset := u64 new_offset |>) (kf s) |>) in
      if whence =? 0 then go (s64 offset)
      else if whence =? 1 then go (s64 (fd_offset f + offset))
      else if whence =? 2 then go (s64 (vn_size (node_at (vv s) (fd_node f)) + offset))
      else (-1, s).

Definition stat_node (node stbuf : Z) s : option (Z * ksys H X M) :=
  let* t := store stbuf (stat_bytes node (node_at (vv s) node)) s in Some (0, t).
Definition sys_stat (path stbuf : Z) s : option (Z * ksys H X M) :=
  if stbuf =? 0 then Some (-1, s)
  else with_path path (fun p s =>
    let node := vfs_find_following_symlinks 8 p (vv s) in
    if node =? 0 then Some (-1, s) else stat_node node stbuf s) s.
Definition sys_fstat (fd stbuf : Z) s : option (Z * ksys H X M) :=
  let d := fd_get fd (kf s) in
  if (stbuf =? 0) || (d =? 0) then Some (-1, s)
  else
    let node := fd_node (desc_at (kf s) d) in
    if node =? 0 then Some (-1, s) else stat_node node stbuf s.

Definition sys_mkdir (path mode : Z) s := with_path path (fun p s => ret (run_vfs (vfs_mkdir p mode) s)) s.
Definition sys_rmdir (path : Z) s := with_path path (fun p s => ret (run_vfs (vfs_rmdir p) s)) s.
Definition sys_unlink (path : Z) s := with_path path (fun p s => ret (run_vfs (vfs_unlink p) s)) s.
Definition sys_chdir (path : Z) s := with_path path (fun p s => ret (run_vfs (vfs_chdir p) s)) s.
Definition sys_truncate (path length : Z) s := with_path path (fun p s => ret (run_vfs (vfs_truncate_path p length) s)) s.
Definition sys_chmod (path mode : Z) s := with_path path (fun p s => ret (run_vfs (vfs_chmod p mode) s)) s.
Definition sys_chown (path uid gid : Z) s := with_path path (fun p s => ret (run_vfs (vfs_chown p uid gid) s)) s.
Definition sys_link (oldpath newpath : Z) s :=
  with_path oldpath (fun p1 s => with_path newpath (fun p2 s => ret (run_vfs (vfs_link p1 p2) s)) s) s.
Definition sys_symlink (target linkpath : Z) s :=
  with_path linkpath (fun p s => let* t := user_string target (um s) in ret (run_vfs (vfs_symlink t p) s)) s.
(** [vfs_readlink] puts the bytes and a zero into the buffer. *)
Definition sys_readlink (path buf bufsiz : Z) s :=
  with_path path (fun p s =>
    let '(r, bytes) := vfs_readlink p bufsiz (vv s) in
    if (buf =? 0) || (r <? 0) then Some (-1, s) else let* t := store buf (bytes ++ [0]) s in Some (r, t)) s.
Definition sys_getcwd (buf size : Z) s : option (Z * ksys H X M) :=
  match vfs_getcwd 64 (vv s) with
  | None => Some (-1, s)
  | Some cwd => if size <=? len cwd then Some (-1, s) else let* t := store buf (cwd ++ [0]) s in Some (0, t)
  end.

(** [ata_vfs_create] of the block device, then [sys_open] of the canonical path. *)
Definition ata_vfs_create (path : list Z) (v : vfs H X) : Z * vfs H X :=
  let '(r, v) := fat16_vfs_create path v in
  if r <? 0 then ext2_vfs_create path v else (r, v).
Definition sys_create (path : Z) s : option (Z * ksys H X M) :=
  with_path path (fun p s =>
    let '(r, s) := run_vfs (ata_vfs_create p) s in
    if negb (r =? 0) then Some (-1, s)
    else match current (vv s) with
         | None => Some (-1, s)
         | Some task =>
             match vfs_build_path (match t_cwd task with [] => [47] | cwd => cwd end) p 128 with
             | None => Some (-1, s)
             | Some p => ret (open_path 0 p s)
             end
         end) s.

(** * Reading and writing *)

(** [vfs_read] and [vfs_write] of a node, whose functions may be those of a pipe or of the
    console: the value and the bytes.  The callers' buffer for 0 bytes is null, for which
    both return 0 and call no function of the node. *)
Definition file_read (node offset size : Z) (k : kfd H X) : Z * list Z * kfd H X :=
  let rd := vn_read (node_at (kv k) node) in
  if size =? 0 then (0, [], k)
  else if rd =? PIPE_READ then let '(bytes, k) := pipe_node_read node size k in (len bytes, bytes, k)
  else if rd =? CONSOLE_READ then
    let '(bytes, x) := console_read size (drivers (kv k)) in (len bytes, bytes, upd_drivers (fun _ => x) k)
  else on_vfs (vfs_read node offset size) k.
Definition file_write (node offset : Z) (buffer : list Z) (k : kfd H X) : Z * kfd H X :=
  let wr := vn_write (node_at (kv k) node) in
  if len buffer =? 0 then (0, k)
  else if wr =? PIPE_WRITE then pipe_node_write node buffer k
  else if wr =? CONSOLE_WRITE then (len buffer, upd_drivers (console_write buffer) k)
  else on_vfs (vfs_write node offset buffer) k.

(** [kmalloc] and [kfree] of the buffer in the kernel; [kmalloc(0)] is null. *)
Definition kbuf_alloc (size : Z) (k : kfd H X) : Z * kfd H X := if size =? 0 then (0, k) else alloc_block size k.

Definition task_owns_stdin (k : kfd H X) : bool :=
  (foreground_pid k =? 0) || (foreground_pid k =? ft_pid (cur_task k)).

(** The pages of the buffer, one byte in each and the last byte. *)
Fixpoint pages_are_mapped (n : nat) (a : Z) (m : M) : bool :=
  match n with
  | O => true
  | S n' => is_mapped m a && pages_are_mapped n' (a + 4096) m
  end.
Definition buffer_is_mapped (buffer bytes : Z) (m : M) : bool :=
  pages_are_mapped (Z.to_nat ((bytes + 4095) / 4096)) buffer m && is_mapped m (buffer + bytes - 1).

Definition sleep_if (empty : bool) s : ksys H X M :=
  if empty then s <| kf := upd_drivers sleep_stdin (kf s) |> else s.
Definition sys_read (fd buffer size : Z) s : option (Z * ksys H X M) :=
  let d := fd_get fd (kf s) in
  if (buffer =? 0) || (d =? 0) then Some (-1, s)
  else
    let f := desc_at (kf s) d in
    let node := fd_node f in
    if node =? 0 then Some (-1, s)
    else if (node =? console_stdin) && negb (task_owns_stdin (kf s)) then Some (0, s)
    else
      let '(kbuf, s) := run_fd (kbuf_alloc size) s in
      if (kbuf =? 0) && (0 <? size) then Some (-1, s)
      else
        let '(bytes, data, k) := file_read node (fd_offset f) size (kf s) in
        let s := s <| kf := k |> in
        let s := sleep_if ((bytes =? 0) && (node =? console_stdin)) s in
        if 0 <? bytes then
          if negb (buffer_is_mapped buffer bytes (um s)) then Some (-1, s <| kf := free_block kbuf (kf s) |>)
          else
            let* t := store buffer (take (Z.to_nat bytes) data) s in
            let k := set_desc d (desc_at (kf t) d <| fd_offset := u64 (fd_offset (desc_at (kf t) d) + bytes) |>) (kf t) in
            Some (bytes, t <| kf := free_block kbuf k |>)
        else Some (bytes, s <| kf := free_block kbuf (kf s) |>).

Definition sys_write (fd buffer size : Z) s : option (Z * ksys H X M) :=
  if (fd <? 0) || (TASK_MAX_FDS <=? fd) || (buffer =? 0) then Some (-1, s)
  else
    let ends_mapped size := is_mapped (um s) buffer && negb ((1 <? size) && negb (is_mapped (um s) (buffer + size - 1))) in
    let d := fd_get fd (kf s) in
    if d =? 0 then
      if (fd =? 1) || (fd =? 2) then
        if negb (ends_mapped size) then Some (-1, s)
        else
          let* bytes := fetch_n (um s) buffer (Z.to_nat size) in
          Some (s32 size, s <| kf := upd_drivers (console_write bytes) (kf s) |>)
      else Some (-1, s)
    else
      let f := desc_at (kf s) d in
      if (fd_node f =? 0) || (vn_write (node_at (vv s) (fd_node f)) =? 0) then Some (-1, s)
      else
        let size := if 4096 <? size then 4096 else size in
        if negb (ends_mapped size) then Some (-1, s)
        else
          let '(kbuf, s) := run_fd (kbuf_alloc size) s in
          if (kbuf =? 0) && (0 <? size) then Some (-1, s)
          else
            let* data := fetch_n (um s) buffer (Z.to_nat size) in
            let '(bytes, k) := file_write (fd_node f) (fd_offset f) data (kf s) in
            let k := free_block kbuf k in
            let n := node_at (kv k) (fd_node f) in
            let k := if (0 <? bytes) && negb (bool_decide (vn_type n = VFS_NODE_PIPE))
                     then set_desc d (desc_at k d <| fd_offset := u64 (fd_offset (desc_at k d) + bytes) |>) k else k in
            Some (s32 bytes, s <| kf := k |>).

Definition sys_ftruncate (fd length : Z) s : Z * ksys H X M :=
  let d := fd_get fd (kf s) in
  if d =? 0 then (-1, s)
  else
    let node := fd_node (desc_at (kf s) d) in
    if node =? 0 then (-1, s) else run_vfs (vfs_truncate node length) s.
Definition sys_flock (fd op : Z) s : Z * ksys H X M :=
  let d := fd_get fd (kf s) in
  if d =? 0 then (-1, s)
  else
    let node := fd_node (desc_at (kf s) d) in
    if node =? 0 then (-1, s) else run_vfs (vfs_flock node op (ft_pid (cur_task (kf s)))) s.
Definition sys_umask (mask : Z) s : Z * ksys H X M :=
  match current (vv s) with
  | None => (0x12, s)
  | Some task =>
      (s32 (t_umask task),
       s <| kf := upd_vfs (fun v => v <| current := Some (task <| t_umask := Z.land mask 0x1FF |>) |>) (kf s) |>)
  end.

(** * Directories *)

(** [sys_list]: the names of the children, each with a newline, cut to [size] bytes.  The
    list of children ends ([fuel] is the number of nodes). *)
Fixpoint list_names (fuel : nat) (child : Z) (v : vfs H X) : list Z :=
  match fuel with
  | O => []
  | S fuel' =>
      if child =? 0 then []
      else vn_name (node_at v child) ++ [10] ++ list_names fuel' (vn_sibling (node_at v child)) v
  end.
Definition sys_list (path buffer size : Z) s : option (Z * ksys H X M) :=
  let* p := user_string path (um s) in
  let dir := vfs_find p (vv s) in
  if (dir =? 0) || negb (bool_decide (vn_type (node_at (vv s) dir) = VFS_NODE_DIRECTORY)) || (buffer =? 0)
  then Some (-1, s)
  else
    let out := take (Z.to_nat size)
                 (list_names (S (base.size (nodes (vv s)))) (vn_child (node_at (vv s) dir)) (vv s)) in
    let* t := store buffer out s in Some (s32 (len out), t).

(** The loop of [sys_readdir]: [n] is the number of entries that still fit. *)
Fixpoint readdir_loop (n : nat) (node index buf : Z) s : option (bool * Z * ksys H X M) :=
  match n with
  | O => Some (true, index, s)
  | S n' =>
      let '(r, e, v) := vfs_readdir node index (vv s) in
      let s := s <| kf := kf s <| kv := v |> |> in
      if r <? 0 then Some (false, index, s)
      else
        match e with
        | Some e =>
            if r =? 0 then Some (true, index, s)
            else let* t := store buf (dir_entry_bytes e) s in readdir_loop n' node (u32 (index + 1)) (buf + DIR_ENTRY_SIZE) t
        | None => Some (true, index, s)
        end
  end.
Definition sys_readdir (fd buf count : Z) s : option (Z * ksys H X M) :=
  let d := fd_get fd (kf s) in
  if (buf =? 0) || (d =? 0) then Some (-1, s)
  else
    let f := desc_at (kf s) d in
    let node := fd_node f in
    if (node =? 0) || negb (bool_decide (vn_type (node_at (vv s) node) = VFS_NODE_DIRECTORY)) then Some (-1, s)
    else
      let start := u32 (fd_offset f) in
      let* r := readdir_loop (Z.to_nat count) node start buf s in
      let '(ok, index, t) := r in
      if negb ok then Some (-1, t)
      else Some (s32 (index - start), t <| kf := set_desc d (desc_at (kf t) d <| fd_offset := index |>) (kf t) |>).

(** [sys_pipe] puts the two descriptors, ints, into user memory. *)
Definition call_pipe (fds : Z) s : option (Z * ksys H X M) :=
  let '(r, (rfd, wfd), k) := sys_pipe socket_close (kf s) in
  let s := s <| kf := k |> in
  if negb (r =? 0) then Some (-1, s)
  else let* t := store fds (word_bytes 4 rfd ++ word_bytes 4 wfd) s in Some (0, t).
End Sys.
