(* ===== verification/SysCalls.v ===== *)
(** The system calls of processes, signals and sockets with what they read from and write
    to user memory, the delivery of a signal on the way back to the user, and the dispatch
    of [syscall_handler] with its checks of user pointers.

    The work of these calls inside the kernel is modelled elsewhere (Sched, Tty, Net, Tcp,
    Brk, Vmm), each on a state of its own; here it is [KernelCalls], whose functions are
    given no address of user memory: what a call takes from there or puts there it fetches
    and stores itself, at the place where the code does. *)

From S2P Require Import Prelude Mem Task Sched Tty TcpWire Net Pipe Vfs Fd Sys.

(** * Dispatch *)

Definition SYS_WRITE : Z := 1.
Definition SYS_OPEN : Z := 2.
Definition SYS_READ : Z := 3.
Definition SYS_SPAWN : Z := 4.
Definition SYS_EXIT : Z := 5.
Definition SYS_CREATE : Z := 6.
Definition SYS_WAIT : Z := 7.
Definition SYS_PIPE : Z := 8.
Definition SYS_BRK : Z := 9.
Definition SYS_SIGNAL : Z := 10.
Definition SYS_KILL : Z := 11.
Definition SYS_SIGRETURN : Z := 12.
Definition SYS_GETPROCS : Z := 13.
Definition SYS_DUP2 : Z := 14.
Definition SYS_CLOSE : Z := 15.
Definition SYS_LIST : Z := 16.
Definition SYS_SOCKET_SEND : Z := 17.
Definition SYS_SOCKET_RECV : Z := 18.
Definition SYS_YIELD : Z := 19.
Definition SYS_GET_TICKS : Z := 20.
Definition SYS_READDIR : Z := 21.
Definition SYS_EXECVE : Z := 22.
Definition SYS_FORK : Z := 23.
Definition SYS_SOCKET : Z := 24.
Definition SYS_BIND : Z := 25.
Definition SYS_CONNECT : Z := 26.
Definition SYS_CHMOD : Z := 27.
Definition SYS_CHOWN : Z := 28.
Definition SYS_LINK : Z := 29.
Definition SYS_UNLINK : Z := 30.
Definition SYS_SYMLINK : Z := 31.
Definition SYS_READLINK : Z := 32.
Definition SYS_MOUNT : Z := 33.
Definition SYS_UMOUNT : Z := 34.
Definition SYS_LISTEN : Z := 35.
Definition SYS_ACCEPT : Z := 36.
Definition SYS_LSEEK : Z := 37.
Definition SYS_STAT : Z := 38.
Definition SYS_FSTAT : Z := 39.
Definition SYS_MKDIR : Z := 40.
Definition SYS_RMDIR : Z := 41.
Definition SYS_CHDIR : Z := 42.
Definition SYS_GETCWD : Z := 43.
Definition SYS_TRUNCATE : Z := 44.
Definition SYS_FTRUNCATE : Z := 45.
Definition SYS_DUP : Z := 46.
Definition SYS_SYNC : Z := 47.
Definition SYS_UMASK : Z := 48.
Definition SYS_FLOCK : Z := 49.
Definition SYS_FCNTL : Z := 50.
Definition SYS_SIGACTION : Z := 51.
Definition SYS_SIGPROCMASK : Z := 52.
Definition SYS_WAITPID : Z := 53.
Definition SYS_RECV : Z := 54.
Definition SYS_SEND : Z := 55.
Definition SYS_SHUTDOWN : Z := 56.

(** [sizeof] of an int, of [struct sockaddr_in] and [struct sigaction], of [sigset_t]. *)
Definition INT_SIZE : Z := 4.
Definition SOCKADDR_IN_SIZE : Z := 16.
Definition SIGACTION_SIZE : Z := 16.
Definition SIGSET_SIZE : Z := 4.
Definition EXEC_VECTOR_MAX : Z := 32.
Definition EXEC_STRING_MAX : Z := 256.
Definition EXEC_STRINGS_MAX : Z := 4096.

(** * The kernel behind the calls *)

(** [kernel_call]: the calls that take no user pointer ([exit], [wait], [brk], [signal],
    [kill], [sigreturn], [yield], [get_ticks], [fork], [socket], [listen], [shutdown]).
    The others are what is left of a call when its accesses to user memory are taken out;
    a string or a buffer is passed as its bytes.  [sched_task] is [current_task] of the
    scheduler, [sched_table] its task table and [frame_rsp] the user's stack pointer in the
    frame of the call.  Only [brk], [fork], [exec_image] and [map_stack_page] change the
    address space. *)
Class KernelCalls (H X M : Type) := {
  kernel_call : Z -> list Z -> ksys H X M -> Z * ksys H X M;
  elf_load_process : list Z -> kfd H X -> Z * kfd H X;
  scheduler_waitpid : Z -> Z -> kfd H X -> Z * Z * kfd H X;
  sched_task : X -> option task;
  set_sched_task : task -> X -> X;
  sched_table : X -> list task;
  vmm_kernel_pml4 : Z;
  net_resolve : Z -> kfd H X -> bool * kfd H X;
  net_transmit : Z -> Z -> list Z -> kfd H X -> Z * kfd H X;
  raw_receive : Z -> kfd H X -> option (option (list Z)) * kfd H X;
  socket_vfs_read : Z;
  socket_vfs_write : Z;
  socket_bind : Z -> list Z -> kfd H X -> Z * kfd H X;
  socket_connect : Z -> list Z -> kfd H X -> Z * kfd H X;
  socket_accept : Z -> kfd H X -> Z * (Z * Z) * kfd H X;
  stream_recv : Z -> Z -> kfd H X -> Z * list Z * kfd H X;
  stream_send : Z -> list Z -> kfd H X -> Z * kfd H X;
  exec_image : list Z -> list (list Z) -> list (list Z) -> Z -> ksys H X M -> Z * ksys H X M;
  frame_rsp : Z -> X -> Z;
  map_stack_page : Z -> ksys H X M -> bool * ksys H X M;
  terminate_current : Z -> ksys H X M -> ksys H X M;
  enter_handler : Z -> Z -> Z -> Z -> Z -> X -> X
}.

(** The number in little-endian bytes. *)
Fixpoint bytes_word (l : list Z) : Z :=
  match l with
  | [] => 0
  | b :: l' => b + 256 * bytes_word l'
  end.
(** What [sys_getprocs] stores of an entry: the rest of the name is left as it is. *)
Definition proc_bytes (p : proc_info) : list Z :=
  word_bytes 4 (pi_pid p) ++ word_bytes 4 (pi_state p) ++ word_bytes 4 (pi_flags p) ++ pi_name p ++ [0].
(** [struct sockaddr_in] of a peer. *)
Definition sockaddr_bytes (port ip : Z) : list Z :=
  word_bytes 2 AF_INET ++ word_bytes 2 (htons port) ++ word_bytes 4 ip ++ replicate 8 0.
(** An environment string is a nonempty name, an equals sign and a value. *)
Definition bad_environment (str : list Z) : bool :=
  match find_index (fun c => c =? 61) str 0 with
  | None => true
  | Some n => n =? 0
  end.

Section Calls.
Context {H X M : Type} `{Allocator H} `{FsDrivers H X} `{ConsoleNodes} `{UserMem M} `{SysEnv H X} `{KernelCalls H X M}.
Implicit Types s : ksys H X M.

Definition xs s : X := drivers (vv s).
Definition no_task s : bool := match current (vv s) with None => true | Some _ => false end.
Definition set_current_task (t : task) s : ksys H X M := s <| kf := upd_drivers (set_sched_task t) (kf s) |>.

(** * Processes *)

Definition call_spawn (path : Z) s : option (Z * ksys H X M) :=
  if no_task s then Some (-1, s)
  else
    let* r := copy_user_path (Z.to_nat VFS_NAME_MAX) path (um s) in
    match r with
    | None => Some (-1, s)
    | Some kernel_path => ret (run_fd (elf_load_process kernel_path) s)
    end.

Definition call_waitpid (pid status options : Z) s : option (Z * ksys H X M) :=
  let '(result, kstatus, k) := scheduler_waitpid pid options (kf s) in
  let s := s <| kf := k |> in
  if 0 <? result then
    let s := if foreground_pid k =? u32 result
             then s <| kf := k <| foreground_pid := if no_task s then 0 else ft_pid (cur_task k) |> |> else s in
    if negb (status =? 0) then let* t := store status (word_bytes 4 kstatus) s in Some (result, t)
    else Some (result, s)
  else Some (result, s).

Fixpoint put_procs (out : Z) (l : list proc_info) s : option (ksys H X M) :=
  match l with
  | [] => Some s
  | p :: l' => let* t := store out (proc_bytes p) s in put_procs (out + PROC_INFO_SIZE) l' t
  end.
Definition call_getprocs (user_buffer max_size : Z) s : option (Z * ksys H X M) :=
  if (user_buffer =? 0) || (max_size <? PROC_INFO_SIZE) then Some (-1, s)
  else
    let l := take (Z.to_nat (max_size / PROC_INFO_SIZE))
               (map (proc_info_of (foreground_pid (kf s))) (List.filter live (sched_table (xs s)))) in
    let* t := put_procs user_buffer l s in Some (s32 (len l), t).

(** * Signals *)

Definition call_sigaction (signum act oldact : Z) s : option (Z * ksys H X M) :=
  if (signum <=? 0) || (TASK_SIGNAL_COUNT <=? signum) || (signum =? SIGKILL) || (signum =? SIGSTOP)
  then Some (-1, s)
  else match sched_task (xs s) with
       | None => Some (-1, s)
       | Some t =>
           let* u := (if negb (oldact =? 0) then
                        store oldact (word_bytes 8 (arr_get (signal_handlers t) signum) ++
                                      word_bytes 4 (blocked_signals t) ++ word_bytes 4 0) s
                      else Some s) in
           if negb (act =? 0) then
             let* handler := fetch_n (um u) act 8 in
             Some (0, set_current_task (t <| signal_handlers := arr_set (signal_handlers t) signum (bytes_word handler) |>) u)
           else Some (0, u)
       end.

Definition new_mask (how set old : Z) : option Z :=
  let new_set := Z.land set (lnot32 (signal_bit SIGKILL)) in
  let new_set := Z.land new_set (lnot32 (signal_bit SIGSTOP)) in
  if how =? SIG_BLOCK then Some (Z.lor old new_set)
  else if how =? SIG_UNBLOCK then Some (Z.land old (lnot32 new_set))
  else if how =? SIG_SETMASK then Some new_set
  else None.
Definition call_sigprocmask (how set oldset : Z) s : option (Z * ksys H X M) :=
  match sched_task (xs s) with
  | None => Some (-1, s)
  | Some t =>
      let* u := (if negb (oldset =? 0) then store oldset (word_bytes 4 (blocked_signals t)) s else Some s) in
      if negb (set =? 0) then
        let* bytes := fetch_n (um u) set 4 in
        match new_mask how (bytes_word bytes) (blocked_signals t) with
        | None => Some (-1, u)
        | Some mask => Some (0, set_current_task (t <| blocked_signals := mask |>) u)
        end
      else Some (0, u)
  end.

(** * Sockets *)

Definition on_kernel_space s : bool :=
  match sched_task (xs s) with
  | None => true
  | Some t => cr3 t =? vmm_kernel_pml4
  end.
Definition call_socket_send (dest_ip protocol payload length : Z) s : option (Z * ksys H X M) :=
  if (payload =? 0) || (NET_IPV4_PAYLOAD_MAX <? length) then Some (-1, s)
  else
    let* accessible := user_buffer_accessible (on_kernel_space s) (is_mapped (um s)) payload length in
    if negb accessible then Some (-1, s)
    else
      let '(resolved, s) := run_fd (net_resolve dest_ip) s in
      if negb resolved then Some (-1, s)
      else
        let* data := fetch_n (um s) payload (Z.to_nat length) in
        ret (run_fd (net_transmit dest_ip protocol data) s).
(** [raw_receive]: no socket of the protocol, no packet after all attempts, or the packet. *)
Definition call_socket_recv (protocol buffer max_len : Z) s : option (Z * ksys H X M) :=
  if buffer =? 0 then Some (-1, s)
  else
    let '(r, s) := run_fd (raw_receive protocol) s in
    match r with
    | None => Some (-1, s)
    | Some None => Some (0, s)
    | Some (Some data) =>
        let copy := take (Z.to_nat max_len) data in
        let* t := store buffer copy s in Some (s32 (len copy), t)
    end.

(** The socket behind the node that [op] is the function of; 0 when it is none. *)
Definition socket_node (op : vfs_node -> Z) (code d : Z) (k : kfd H X) : Z :=
  let node := fd_node (desc_at k d) in
  if (node =? 0) || negb (op (node_at (kv k) node) =? code) then 0 else vn_data (node_at (kv k) node).
(** [sys_bind] and [sys_connect]: a descriptor of a socket and the address; [f] is the rest. *)
Definition with_address (f : Z -> list Z -> kfd H X -> Z * kfd H X) (fd addr addrlen : Z) s : option (Z * ksys H X M) :=
  let d := fd_get fd (kf s) in
  let node := fd_node (desc_at (kf s) d) in
  if no_task s || (d =? 0) || (node =? 0) || negb (vn_read (node_at (vv s) node) =? socket_vfs_read) then Some (-1, s)
  else if (addr =? 0) || (addrlen <? SOCKADDR_IN_SIZE) then Some (-1, s)
  else
    let* addr_in := fetch_n (um s) addr (Z.to_nat SOCKADDR_IN_SIZE) in
    let sock := vn_data (node_at (vv s) node) in
    if sock =? 0 then Some (-1, s) else ret (run_fd (f sock addr_in) s).
Definition call_bind := with_address socket_bind.
Definition call_connect := with_address socket_connect.
(** [socket_accept]: the new descriptor, the port and the address of the peer. *)
Definition call_accept (fd addr addrlen : Z) s : option (Z * ksys H X M) :=
  let d := fd_get fd (kf s) in
  let sock := if d =? 0 then 0 else socket_node vn_read socket_vfs_read d (kf s) in
  if no_task s || (sock =? 0) then Some (-1, s)
  else
    let '(new_fd, (port, ip), k) := socket_accept sock (kf s) in
    let s := s <| kf := k |> in
    if new_fd <? 0 then Some (-1, s)
    else if negb (addr =? 0) && negb (addrlen =? 0) then
      let* room := fetch_n (um s) addrlen 4 in
      if SOCKADDR_IN_SIZE <=? bytes_word room then
        let* t := store addr (sockaddr_bytes port ip) s in
        let* t := store addrlen (word_bytes 4 SOCKADDR_IN_SIZE) t in Some (new_fd, t)
      else Some (new_fd, s)
    else Some (new_fd, s).

(** The call holds a reference to the description while it works on the socket. *)
Definition with_socket {A} (fail : A) (op : vfs_node -> Z) (code fd : Z) (f : Z -> kfd H X -> A * kfd H X) (k : kfd H X)
    : A * kfd H X :=
  let '(d, k) := task_get_file_description fd k in
  if d =? 0 then (fail, k)
  else
    let sock := socket_node op code d k in
    if sock =? 0 then (fail, file_description_unref socket_close d k)
    else let '(r, k) := f sock k in (r, file_description_unref socket_close d k).
Definition call_recv (fd buffer length flags : Z) s : option (Z * ksys H X M) :=
  if no_task s || (fd <? 0) || (Fd.TASK_MAX_FDS <=? fd) then Some (-1, s)
  else if buffer =? 0 then Some (-1, s)
  else if length =? 0 then Some (0, s)
  else if negb (vmm_validate_ptr buffer length true (um s)) then Some (-1, s)
  else if negb (flags =? 0) then Some (-1, s)
  else
    let '((r, data), s) :=
      run_fd (with_socket (-1, []) vn_read socket_vfs_read fd
                (fun sock k => let '(r, data, k) := stream_recv sock length k in ((r, data), k))) s in
    let* t := store buffer data s in Some (r, t).
(** [tcp_send] reads no more of the buffer than it accepts; here all of it is fetched. *)
Definition call_send (fd buffer length flags : Z) s : option (Z * ksys H X M) :=
  if no_task s || (fd <? 0) || (Fd.TASK_MAX_FDS <=? fd) then Some (-1, s)
  else if length =? 0 then Some (0, s)
  else if buffer =? 0 then Some (-1, s)
  else if negb (vmm_validate_ptr buffer length false (um s)) then Some (-1, s)
  else if negb (flags =? 0) then Some (-1, s)
  else
    let* data := fetch_n (um s) buffer (Z.to_nat length) in
    ret (run_fd (with_socket (-1) vn_write socket_vfs_write fd (fun sock => stream_send sock data)) s).

(** * Exec *)

(** The loop of [copy_exec_vector] from entry [i] on, [used] bytes of the storage taken:
    the strings and what is taken then, or [Some None] for the return value 0.  The
    validated string ends within [EXEC_STRING_MAX] bytes. *)
Fixpoint exec_strings (n : nat) (i user_vector : Z) (environment : bool) (used : Z) (m : M)
    : option (option (list (list Z) * Z)) :=
  match n with
  | O => Some None
  | S n' =>
      let slot := u64 (user_vector + 8 * i) in
      if negb (vmm_validate_ptr slot 8 false m) then Some None
      else
        let* bytes := fetch_n m slot 8 in
        let str_addr := bytes_word bytes in
        if str_addr =? 0 then Some (Some ([], used))
        else if (i =? EXEC_VECTOR_MAX) || negb (vmm_validate_string str_addr EXEC_STRING_MAX m) then Some None
        else
          let* str := user_string str_addr m in
          if environment && bad_environment str then Some None
          else if EXEC_STRINGS_MAX <? used + len str + 1 then Some None
          else
            let* r := exec_strings n' (i + 1) user_vector environment (used + len str + 1) m in
            Some (let* (l, used) := r in Some (str :: l, used))
  end.
Definition copy_exec_vector (user_vector : Z) (environment : bool) (used : Z) (m : M) : option (option (list (list Z) * Z)) :=
  if user_vector =? 0 then Some (Some ([], used))
  else exec_strings (S (Z.to_nat EXEC_VECTOR_MAX)) 0 user_vector environment used m.
(** [exec_image]: from the look-up of the file on, until the call returns. *)
Definition elf_exec_current (path argv envp frame : Z) s : option (Z * ksys H X M) :=
  if no_task s || (frame =? 0) || negb (vmm_validate_string path 256 (um s)) then Some (-1, s)
  else
    let '(storage, s) := run_fd (alloc_block EXEC_STRINGS_MAX) s in
    let fail := Some (-1, s <| kf := free_block storage (kf s) |>) in
    if storage =? 0 then Some (-1, s)
    else
      let* args := copy_exec_vector argv false 0 (um s) in
      match args with
      | None => fail
      | Some (args, used) =>
          let* envs := copy_exec_vector envp true used (um s) in
          match envs with
          | None => fail
          | Some (envs, _) =>
              let* file_path := user_string path (um s) in
              if (len file_path =? 0) || (256 <=? len file_path) then fail
              else
                let '(r, s) := exec_image file_path args envs frame s in
                Some (r, s <| kf := free_block storage (kf s) |>)
          end
      end.

(** * The way back to the user *)

(** What [scheduler_handle_syscall_signals] decides for the task with stack pointer [sp];
    nothing for no signal, or the signal that is dropped, kills the task or goes to a
    handler with the stack pointer for it. *)
Inductive signal_action :=
  | SigNone
  | SigDrop (signum : Z)
  | SigKill (signum : Z)
  | SigHandle (signum handler user_rsp : Z).
Definition signal_action_of (t : task) (sp : Z) : signal_action :=
  if negb (active_signal t =? 0) then SigNone
  else
    let signum := next_pending_signal t in
    if signum =? 0 then SigNone
    else if discards t signum then SigDrop signum
    else
      let handler := if signum =? SIGKILL then 0 else arr_get (signal_handlers t) signum in
      let user_rsp := signal_handler_stack sp in
      if (handler =? 0) || (handler =? 18446744073709551615) || bad_handler_stack user_rsp then SigKill signum
      else SigHandle signum handler user_rsp.
Definition signal_due (frame : Z) s : signal_action :=
  match sched_task (xs s) with
  | None => SigNone
  | Some t => signal_action_of t (frame_rsp frame (xs s))
  end.
Definition stack_page (user_rsp : Z) : Z := Z.land user_rsp (lnot64 4095).
Definition drop_signal (signum : Z) s : ksys H X M :=
  match sched_task (xs s) with
  | None => s
  | Some t => set_current_task (clear_pending signum t) s
  end.
(** [map_stack_page]: a new page at the address, unless there is no memory or the task has
    too many pages.  [enter_handler] saves the registers in the task and changes the frame.
    After the task was terminated for want of a page the code does not return; the state
    is the one after that. *)
Definition handle_syscall_signals (frame ret : Z) s : option (ksys H X M) :=
  match signal_due frame s with
  | SigNone => Some s
  | SigDrop signum => Some (drop_signal signum s)
  | SigKill signum => Some (terminate_current (128 + signum) (drop_signal signum s))
  | SigHandle signum handler user_rsp =>
      let '(ok, s) := if is_mapped (um s) (stack_page user_rsp) then (true, s) else map_stack_page (stack_page user_rsp) s in
      if negb ok then Some (terminate_current (128 + signum) s)
      else
        let* t := store user_rsp (word_bytes 8 SIGNAL_TRAMPOLINE_ADDR) s in
        Some (t <| kf := upd_drivers (enter_handler frame ret signum handler user_rsp) (kf t) |>)
  end.
End Calls.

Section Handler.
Context {H X M : Type} `{Allocator H} `{FsDrivers H X} `{ConsoleNodes} `{UserMem M} `{SysEnv H X} `{KernelCalls H X M}.
Implicit Types s : ksys H X M.

(** What a check guards; without the check the handler returns -1 at once. *)
Inductive outcome := Refused | Done (r : option (Z * ksys H X M)).
Definition check (ok : bool) (o : outcome) : outcome := if ok then o else Refused.
Definition pure (r : Z * ksys H X M) : outcome := Done (Some r).

Section Dispatch.
Context (s : ksys H X M).
Definition string_ok (a : Z) : bool := vmm_validate_string a 256 (um s).
Definition ptr_ok (a size : Z) (w : bool) : bool := vmm_validate_ptr a size w (um s).
(** A buffer of length 0 and a null pointer that may be null are not checked. *)
Definition buf_ok (a size : Z) (w : bool) : bool := negb (0 <? size) || ptr_ok a size w.
Definition opt_ok (a size : Z) (w : bool) : bool := (a =? 0) || ptr_ok a size w.

(** The second half of the chain of comparisons: files and signals. *)
Definition dispatch_files (number arg1 arg2 arg3 : Z) : outcome :=
  if number =? SYS_CHMOD then check (string_ok arg1) (Done (sys_chmod arg1 (u32 arg2) s))
  else if number =? SYS_CHOWN then check (string_ok arg1) (Done (sys_chown arg1 (u32 arg2) (u32 arg3) s))
  else if number =? SYS_LINK then check (string_ok arg1 && string_ok arg2) (Done (sys_link arg1 arg2 s))
  else if number =? SYS_UNLINK then check (string_ok arg1) (Done (sys_unlink arg1 s))
  else if number =? SYS_SYMLINK then check (string_ok arg1 && string_ok arg2) (Done (sys_symlink arg1 arg2 s))
  else if number =? SYS_READLINK then
    check (string_ok arg1) (check (buf_ok arg2 arg3 true) (Done (sys_readlink arg1 arg2 arg3 s)))
  else if number =? SYS_MOUNT then
    check (string_ok arg1 && string_ok arg2 && string_ok arg3)
      (Done (let* source := user_string arg1 (um s) in
             let* target := user_string arg2 (um s) in
             let* fs_type := user_string arg3 (um s) in
             ret (run_vfs (vfs_mount_op (Some source) target (Some fs_type)) s)))
  else if number =? SYS_UMOUNT then
    check (string_ok arg1) (Done (let* target := user_string arg1 (um s) in ret (run_vfs (vfs_umount target) s)))
  else if number =? SYS_LSEEK then pure (sys_lseek (s32 arg1) (s64 arg2) (s32 arg3) s)
  else if number =? SYS_STAT then
    check (string_ok arg1) (check (ptr_ok arg2 STAT_SIZE true) (Done (sys_stat arg1 arg2 s)))
  else if number =? SYS_FSTAT then check (ptr_ok arg2 STAT_SIZE true) (Done (sys_fstat (s32 arg1) arg2 s))
  else if number =? SYS_MKDIR then check (string_ok arg1) (Done (sys_mkdir arg1 (u32 arg2) s))
  else if number =? SYS_RMDIR then check (string_ok arg1) (Done (sys_rmdir arg1 s))
  else if number =? SYS_CHDIR then check (string_ok arg1) (Done (sys_chdir arg1 s))
  else if number =? SYS_GETCWD then check (negb (arg2 =? 0) && ptr_ok arg1 arg2 true) (Done (sys_getcwd arg1 arg2 s))
  else if number =? SYS_TRUNCATE then check (string_ok arg1) (Done (sys_truncate arg1 arg2 s))
  else if number =? SYS_FTRUNCATE then pure (sys_ftruncate (s32 arg1) arg2 s)
  else if number =? SYS_SYNC then pure (run_vfs vfs_sync s)
  else if number =? SYS_UMASK then pure (sys_umask (u32 arg1) s)
  else if number =? SYS_FLOCK then pure (sys_flock (s32 arg1) (s32 arg2) s)
  else if number =? SYS_FCNTL then pure (run_fd (sys_fcntl (s32 arg1) (s32 arg2) arg3) s)
  else if number =? SYS_SIGACTION then
    check (opt_ok arg2 SIGACTION_SIZE false) (check (opt_ok arg3 SIGACTION_SIZE true) (Done (call_sigaction (s32 arg1) arg2 arg3 s)))
  else if number =? SYS_SIGPROCMASK then
    check (opt_ok arg2 SIGSET_SIZE false) (check (opt_ok arg3 SIGSET_SIZE true) (Done (call_sigprocmask (s32 arg1) arg2 arg3 s)))
  else if number =? SYS_WAITPID then
    check (opt_ok arg2 INT_SIZE true) (Done (call_waitpid (s32 arg1) arg2 (s32 arg3) s))
  else pure (-1, s).
(** The chain of comparisons; the last two arguments of the handler that are not the frame
    are unused. *)
Definition dispatch (number arg1 arg2 arg3 arg4 arg6 : Z) : outcome :=
  if number =? SYS_OPEN then check (string_ok arg1) (Done (sys_open arg1 (s32 arg2) s))
  else if number =? SYS_READ then check (buf_ok arg2 arg3 true) (Done (sys_read (s32 arg1) arg2 (u32 arg3) s))
  else if number =? SYS_SPAWN then check (string_ok arg1) (Done (call_spawn arg1 s))
  else if number =? SYS_EXIT then pure (kernel_call SYS_EXIT [s32 arg1] s)
  else if number =? SYS_WRITE then check (buf_ok arg2 arg3 false) (Done (sys_write (s32 arg1) arg2 arg3 s))
  else if number =? SYS_CREATE then check (string_ok arg1) (Done (sys_create arg1 s))
  else if number =? SYS_WAIT then pure (kernel_call SYS_WAIT [s32 arg1] s)
  else if number =? SYS_PIPE then check (ptr_ok arg1 (INT_SIZE * 2) true) (Done (call_pipe arg1 s))
  else if number =? SYS_BRK then pure (kernel_call SYS_BRK [arg1] s)
  else if number =? SYS_SIGNAL then pure (kernel_call SYS_SIGNAL [s32 arg1; arg2] s)
  else if number =? SYS_KILL then pure (kernel_call SYS_KILL [s32 arg1; s32 arg2] s)
  else if number =? SYS_SIGRETURN then pure (kernel_call SYS_SIGRETURN [arg6] s)
  else if number =? SYS_GETPROCS then check (buf_ok arg1 arg2 true) (Done (call_getprocs arg1 arg2 s))
  else if number =? SYS_DUP then pure (run_fd (sys_dup (s32 arg1)) s)
  else if number =? SYS_DUP2 then pure (run_fd (sys_dup2 socket_close (s32 arg1) (s32 arg2)) s)
  else if number =? SYS_CLOSE then pure (run_fd (sys_close socket_close (s32 arg1)) s)
  else if number =? SYS_LIST then check (string_ok arg1) (check (buf_ok arg2 arg3 true) (Done (sys_list arg1 arg2 arg3 s)))
  else if number =? SYS_SOCKET_SEND then check (buf_ok arg3 arg4 false) (Done (call_socket_send (u32 arg1) (u8 arg2) arg3 arg4 s))
  else if number =? SYS_SOCKET_RECV then check (buf_ok arg2 arg3 true) (Done (call_socket_recv (u8 arg1) arg2 arg3 s))
  else if number =? SYS_YIELD then pure (kernel_call SYS_YIELD [] s)
  else if number =? SYS_GET_TICKS then pure (kernel_call SYS_GET_TICKS [] s)
  else if number =? SYS_READDIR then check (negb (0 <? arg3) || ptr_ok arg2 (u64 (DIR_ENTRY_SIZE * arg3)) true) (Done (sys_readdir (s32 arg1) arg2 (u32 arg3) s))
  else if number =? SYS_EXECVE then Done (elf_exec_current arg1 arg2 arg3 arg6 s)
  else if number =? SYS_FORK then pure (kernel_call SYS_FORK [arg6] s)
  else if number =? SYS_SOCKET then pure (kernel_call SYS_SOCKET [s32 arg1; s32 arg2; s32 arg3] s)
  else if number =? SYS_BIND then check (buf_ok arg2 arg3 false) (Done (call_bind (s32 arg1) arg2 (u32 arg3) s))
  else if number =? SYS_CONNECT then check (buf_ok arg2 arg3 false) (Done (call_connect (s32 arg1) arg2 (u32 arg3) s))
  else if number =? SYS_LISTEN then pure (kernel_call SYS_LISTEN [s32 arg1; s32 arg2] s)
  else if number =? SYS_ACCEPT then
    check (opt_ok arg2 SOCKADDR_IN_SIZE true) (check (opt_ok arg3 4 true) (Done (call_accept (s32 arg1) arg2 arg3 s)))
  else if number =? SYS_RECV then Done (call_recv (s32 arg1) arg2 arg3 (s32 arg4) s)
  else if number =? SYS_SEND then Done (call_send (s32 arg1) arg2 arg3 (s32 arg4) s)
  else if number =? SYS_SHUTDOWN then pure (kernel_call SYS_SHUTDOWN [s32 arg1; s32 arg2] s)
  else dispatch_files number arg1 arg2 arg3.
End Dispatch.

(** A refused call and [SYS_SIGRETURN] return at once; the others have the signals
    handled first. *)
Definition syscall_handler (number arg1 arg2 arg3 arg4 arg6 : Z) s : option (Z * ksys H X M) :=
  match dispatch s number arg1 arg2 arg3 arg4 arg6 with
  | Refused => Some (u64 (-1), s)
  | Done None => None
  | Done (Some (r, t)) =>
      if number =? SYS_SIGRETURN then Some (u64 r, t)
      else let* t := handle_syscall_signals arg6 (u64 r) t in Some (u64 r, t)
  end.
End Handler.
