(* ===== verification/SysSafe.v ===== *)
(** The system calls touch only user memory that was checked: no call of the handler
    faults in the kernel, whatever its arguments, but for the directory call when the size
    of its buffer overflows. *)

From S2P Require Import Prelude Mem Task Sched Tty TcpWire Net NetWire NetIcmp Pipe Vfs Fd Sys SysCalls.

(** What the checks of the memory manager promise; a store to an accessible byte changes
    what is accessible nowhere, and no other byte; what can be written can be read. *)
Class UserMemLaws (M : Type) `{UserMem M} := {
  m_ok : M -> Prop;
  validate_ptr_law m a n w i : m_ok m -> vmm_validate_ptr a n w m = true -> 0 <= i < n -> u_ok m (a + i) w = true;
  validate_string_law m a n : m_ok m -> vmm_validate_string a n m = true ->
    exists k, 0 <= k < n /\ u_byte m (a + k) = 0 /\ forall i, 0 <= i <= k -> u_ok m (a + i) false = true;
  put_law m a b : m_ok m -> u_ok m a true = true ->
    m_ok (u_put a b m) /\ (forall x w, u_ok (u_put a b m) x w = u_ok m x w) /\
    u_byte (u_put a b m) a = b /\ forall x, x <> a -> u_byte (u_put a b m) x = u_byte m x;
  write_read_law m a : m_ok m -> u_ok m a true = true -> u_ok m a false = true
}.

Section Memory.
Context {M : Type} `{UserMemLaws M}.
Implicit Types m : M.

Lemma fetch_n_safe m n : forall a, (forall i, 0 <= i < Z.of_nat n -> u_ok m (a + i) false = true) -> fetch_n m a n <> None.
Proof.
  induction n as [|n IH]; intros a Ha; cbn [fetch_n]; [done|]. unfold fetch.
  pose proof (Ha 0 ltac:(lia)) as H0'. rewrite Z.add_0_r in H0'. rewrite H0'.
  assert (Hn : fetch_n m (a + 1) n <> None).
  { apply IH. intros i Hi. replace (a + 1 + i) with (a + (i + 1)) by lia. apply Ha. lia. }
  by destruct (fetch_n m (a + 1) n).
Qed.
Lemma put_n_safe bytes : forall a m,
  m_ok m -> (forall i, 0 <= i < len bytes -> u_ok m (a + i) true = true) ->
  exists m', put_n a bytes m = Some m' /\ m_ok m' /\ forall x w, u_ok m' x w = u_ok m x w.
Proof.
  induction bytes as [|b bytes IH]; intros a m Hm Ha; cbn [put_n]; [by exists m|].
  unfold len in *. cbn [length] in Ha. pose proof (Ha 0 ltac:(lia)) as H0'. rewrite Z.add_0_r in H0'. rewrite H0'.
  destruct (put_law m a b Hm H0') as (Hm' & Hk & _). destruct (IH (a + 1) (u_put a b m) Hm') as (m' & E & Hm2 & Hk2).
  - intros i Hi. rewrite Hk. replace (a + 1 + i) with (a + (i + 1)) by lia. apply Ha. lia.
  - exists m'. split; [done|]. split; [done|]. intros x w. by rewrite Hk2.
Qed.
Lemma put_n_ok bytes : forall a m m', m_ok m -> put_n a bytes m = Some m' -> m_ok m'.
Proof.
  induction bytes as [|b bytes IH]; intros a m m' Hm; cbn [put_n]; [by intros [= <-]|].
  destruct (u_ok m a true) eqn:Hok; [|done]. intros Hp. destruct (put_law m a b Hm Hok) as (Hm' & _). by eapply IH.
Qed.
Lemma put_n_fault bytes : forall a m i,
  m_ok m -> 0 <= i < len bytes -> u_ok m (a + i) true = false -> put_n a bytes m = None.
Proof.
  induction bytes as [|b bytes IH]; intros a m i Hm; unfold len in *; cbn [length put_n]; [lia|]. intros Hi Hbad.
  destruct (u_ok m a true) eqn:Hok; [|done]. destruct (decide (i = 0)) as [->|]; [rewrite Z.add_0_r in Hbad; congruence|].
  destruct (put_law m a b Hm Hok) as (Hm' & Hk & _). apply (IH _ _ (i - 1) Hm'); [lia|]. rewrite Hk, <- Hbad. f_equal. lia.
Qed.
Lemma put_n_bytes bytes : forall a m m',
  m_ok m -> put_n a bytes m = Some m' ->
  (forall x, x < a \/ a + len bytes <= x -> u_byte m' x = u_byte m x) /\
  forall i, 0 <= i < len bytes -> u_byte m' (a + i) = arr_get bytes i.
Proof.
  induction bytes as [|b bytes IH]; intros a m m' Hm; cbn [put_n].
  - intros [= <-]. split; [done|]. unfold len. cbn. lia.
  - destruct (u_ok m a true) eqn:Hok; [|done]. intros Hp. destruct (put_law m a b Hm Hok) as (Hm' & _ & Hb & Hx).
    destruct (IH _ _ _ Hm' Hp) as [Hout Hin]. unfold len in *. cbn [length]. split.
    + intros x Hr. rewrite Hout by lia. apply Hx. lia.
    + intros i Hi. destruct (decide (i = 0)) as [->|].
      * rewrite Z.add_0_r, Hout by lia. by rewrite Hb.
      * replace (a + i) with (a + 1 + (i - 1)) by lia. rewrite Hin by lia. by rewrite arr_get_cons by lia.
Qed.
Lemma fetch_n_bytes m n : forall a l, fetch_n m a n = Some l ->
  len l = Z.of_nat n /\ forall i, 0 <= i < len l -> arr_get l i = u_byte m (a + i).
Proof.
  induction n as [|n IH]; intros a l; cbn [fetch_n]; [intros [= <-]; split; [done|]; unfold len; cbn; lia|].
  unfold fetch. destruct (u_ok m a false); [|done]. destruct (fetch_n m (a + 1) n) as [l'|] eqn:E; [|done]. intros [= <-].
  destruct (IH _ _ E) as [Hl Hb]. unfold len in *. cbn [length]. split; [lia|]. intros i Hi. destruct (decide (i = 0)) as [->|].
  - by rewrite Z.add_0_r.
  - rewrite arr_get_cons by lia. rewrite Hb by lia. f_equal. lia.
Qed.
(** Enough bytes for a string that ends: no fault, and the string is found when its end
    lies within the capacity. *)
Lemma copy_path_safe m n : forall a k,
  u_byte m (a + k) = 0 -> 0 <= k -> (forall i, 0 <= i <= k -> u_ok m (a + i) false = true) ->
  exists r, copy_user_path n a m = Some r /\ (k < Z.of_nat n -> r <> None).
Proof.
  induction n as [|n IH]; intros a k Hz Hk Ha; cbn [copy_user_path]; [exists None; split; [done|lia]|]. unfold fetch.
  pose proof (Ha 0 ltac:(lia)) as H0'. rewrite Z.add_0_r in H0'. rewrite H0'.
  destruct (Z.eqb_spec (u_byte m a) 0) as [E|E]; [by exists (Some [])|].
  assert (Hk0 : k <> 0) by (intros ->; by rewrite Z.add_0_r in Hz).
  destruct (IH (a + 1) (k - 1)) as (r & -> & Hr); [by replace (a + 1 + (k - 1)) with (a + k) by lia|lia| |].
  - intros i Hi. replace (a + 1 + i) with (a + (i + 1)) by lia. apply Ha. lia.
  - eexists. split; [done|]. intros Hlt. destruct r; [done|]. exfalso. apply Hr; [lia|done].
Qed.
Lemma validated_path m n a : m_ok m -> vmm_validate_string a 256 m = true -> exists r, copy_user_path n a m = Some r.
Proof.
  intros Hm Hv. destruct (validate_string_law m a 256 Hm Hv) as (k & Hk & Hz & Ha).
  destruct (copy_path_safe m n a k Hz ltac:(lia) Ha) as (r & Hr & _). by exists r.
Qed.
Lemma validated_string m a : m_ok m -> vmm_validate_string a 256 m = true -> user_string a m <> None.
Proof.
  intros Hm Hv. destruct (validate_string_law m a 256 Hm Hv) as (k & Hk & Hz & Ha).
  destruct (copy_path_safe m 256 a k Hz ltac:(lia) Ha) as (r & Hr & Hs). unfold user_string. rewrite Hr. apply Hs. lia.
Qed.
End Memory.

Lemma len_word_bytes n z : len (word_bytes n z) = Z.of_nat n.
Proof. revert z. induction n as [|n IH]; intros z; [done|]. cbn [word_bytes]. specialize (IH (z / 256)). unfold len in *. cbn [length]. lia. Qed.
Lemma len_char_array n str : len (char_array n str) = Z.of_nat n.
Proof. unfold char_array, len. rewrite length_take, length_app, length_replicate. lia. Qed.
Lemma len_stat_bytes node n : len (stat_bytes node n) = STAT_SIZE.
Proof. unfold stat_bytes. by rewrite !len_app, !len_word_bytes. Qed.
Lemma len_dir_entry_bytes e : len (dir_entry_bytes e) = DIR_ENTRY_SIZE.
Proof. unfold dir_entry_bytes. by rewrite !len_app, !len_word_bytes, len_char_array. Qed.
Lemma len_take_le {A} n (l : list A) : len (take n l) <= Z.of_nat n.
Proof. unfold len. rewrite length_take. lia. Qed.
Lemma read_loop_len n : forall p, len (fst (read_loop n p)) <= Z.of_nat n.
Proof.
  induction n as [|n IH]; intros p; cbn [read_loop]; [done|]. destruct (0 <? p_count p); [|unfold len; cbn; lia].
  match goal with |- context [read_loop n ?q] => specialize (IH q); destruct (read_loop n q) as [bytes q'] end.
  cbn in *. unfold len in *. cbn [length]. lia.
Qed.

(** What the rest of the kernel promises to the calls: the memory of the task stays
    well-formed when the address space changes, a page that was mapped for a signal handler
    can be written, and a stream gives no more bytes than the buffer has room for. *)
Class KernelLaws (H X M : Type) `{UserMemLaws M} `{!KernelCalls H X M} := {
  kernel_call_law number args (s : ksys H X M) : m_ok (um s) -> m_ok (um (snd (kernel_call number args s)));
  exec_image_law path args envs frame (s : ksys H X M) : m_ok (um s) -> m_ok (um (snd (exec_image path args envs frame s)));
  map_stack_page_law page (s t : ksys H X M) : m_ok (um s) -> map_stack_page page s = (true, t) ->
    m_ok (um t) /\ forall a, page <= a < page + 4096 -> u_ok (um t) a true = true;
  stream_recv_law sock length (k k' : kfd H X) r data : stream_recv sock length k = (r, data, k') -> 0 <= length -> len data <= length
}.

Section Calls.
Context {H X M : Type} `{Allocator H} `{FsDrivers H X} `{ConsoleNodes} `{SysEnv H X}.
Context `{UserMemLaws M} `{!KernelCalls H X M} `{!KernelLaws H X M}.
Implicit Types s t : ksys H X M.

(** A driver puts no more bytes into the buffer than it has room for. *)
Context (driver_read : forall f p offset size v r data v', call_read f p offset size v = (r, data, v') -> 0 <= size -> r <= size).
Context (keyboard_read : forall size x bytes x', console_read size x = (bytes, x') -> 0 <= size -> len bytes <= size).

Lemma file_read_bound node offset size (k : kfd H X) bytes data k' :
  0 <= size -> file_read node offset size k = (bytes, data, k') -> bytes <= size.
Proof.
  intros Hs. unfold file_read. destruct (size =? 0); [intros [= <- <- <-]; lia|]. destruct (_ =? PIPE_READ).
  - destruct (pipe_node_read node size k) as [b k1] eqn:E. intros [= <- <- <-]. unfold pipe_node_read in E.
    destruct (pipe_at node k) as [[[en a] p]|]; [|injection E as <- <-; by cbn]. destruct (negb _); [injection E as <- <-; by cbn|].
    unfold pipe_read in E. pose proof (read_loop_len (Z.to_nat size) p) as Hl. destruct (read_loop (Z.to_nat size) p) as [bs q].
    cbn in Hl. destruct bs; [destruct (writers q =? 0)|]; injection E as <- <-; lia.
  - destruct (_ =? CONSOLE_READ).
    + destruct (console_read size (drivers (kv k))) as [b x] eqn:E. intros [= <- <- <-]. by eapply keyboard_read.
    + unfold on_vfs, vfs_read. destruct (_ || _); [intros [= <- <- <-]; lia|].
      destruct (call_read _ _ _ _ _) as [[r b] v] eqn:E. intros [= <- <- <-]. by eapply driver_read.
Qed.

(** The call returns, and the memory is well-formed. *)
Definition good (o : option (Z * ksys H X M)) : Prop :=
  match o with Some (_, t) => m_ok (um t) | None => False end.

(** * Single calls *)

Section At.
Context (s : ksys H X M) (Hm : m_ok (um s)).

Lemma good_fd (f : kfd H X -> Z * kfd H X) t : um t = um s -> good (ret (run_fd f t)).
Proof. intros Et. unfold run_fd. destruct (f (kf t)). cbn. by rewrite Et. Qed.
Lemma good_vfs (f : vfs H X -> Z * vfs H X) : good (ret (run_vfs f s)).
Proof. by apply good_fd. Qed.
Lemma good_open flags path t : um t = um s -> good (ret (open_path flags path t)).
Proof.
  intros Et. unfold open_path. destruct (current (vv t)) as [task|]; [|cbn; by rewrite Et].
  match goal with |- context [let '(_, _) := ?e in _] => destruct e as [node t1] eqn:E; assert (Et1 : um t1 = um s) end.
  { destruct (_ && _) in E; [|by injection E as <- <-]. unfold run_vfs, run_fd in E. destruct (on_vfs _ _) as [r k]. by injection E as <- <-. }
  cbv zeta. do 2 (match goal with |- context [if ?b then (-1, t1) else _] => destruct b; [cbn; by rewrite Et1|] end). by apply good_fd.
Qed.
Lemma store_safe a bytes t n :
  um t = um s -> vmm_validate_ptr a n true (um s) = true -> len bytes <= n ->
  exists t', store a bytes t = Some t' /\ m_ok (um t') /\ (forall x w, u_ok (um t') x w = u_ok (um s) x w).
Proof.
  intros Et Hv Hn. unfold store. rewrite Et. destruct (put_n_safe bytes a (um s) Hm) as (m' & -> & Hm' & Hk).
  - intros i Hi. apply (validate_ptr_law (um s) a n true i Hm Hv). lia.
  - by eexists.
Qed.
Lemma store_buf a bytes t n :
  um t = um s -> buf_ok s a n true = true -> len bytes <= n -> exists t', store a bytes t = Some t' /\ m_ok (um t').
Proof.
  intros Et Hv Hn. unfold buf_ok, ptr_ok in Hv. destruct (Z.ltb_spec 0 n) as [Hp|Hp].
  - cbn in Hv. destruct (store_safe a bytes t n Et Hv Hn) as (t' & -> & Hm' & _). by exists t'.
  - destruct bytes; [|unfold len in Hn; cbn in Hn; lia]. exists (t <| um := um t |>). split; [done|]. cbn. by rewrite Et.
Qed.
Lemma path_safe path f : string_ok s path = true -> (forall p, good (f p s)) -> good (with_path path f s).
Proof.
  intros Hp Hf. unfold with_path, resolve_user_path. destruct (current (vv s)) as [task|]; [|done].
  destruct (validated_path (um s) 128 path Hm Hp) as [r ->]. cbv beta iota. destruct r; [|done].
  match goal with |- context [vfs_build_path ?a ?b ?c] => destruct (vfs_build_path a b c) end; [apply Hf|done].
Qed.
Lemma string_safe a : string_ok s a = true -> exists str, user_string a (um s) = Some str.
Proof. intros Ha. pose proof (validated_string (um s) a Hm Ha) as Hn. destruct (user_string a (um s)) as [str|]; [by exists str|done]. Qed.

Lemma read_safe fd buffer size n : 0 <= size <= n -> buf_ok s buffer n true = true -> good (sys_read fd buffer size s).
Proof.
  intros Hs Hv. unfold sys_read. destruct (_ || _); [done|]. destruct (_ =? 0); [done|]. destruct (_ && _); [done|].
  unfold run_fd. destruct (kbuf_alloc size (kf s)) as [kbuf k]. destruct (_ && _); [done|]. cbn [kf].
  destruct (file_read _ _ size _) as [[bytes data] k1] eqn:E. apply file_read_bound in E; [|lia].
  match goal with |- context [sleep_if ?b ?t] => set (s1 := sleep_if b t); assert (Hum : um s1 = um s) by (unfold s1; by destruct b) end.
  destruct (Z.ltb_spec 0 bytes); [|cbn; by rewrite Hum]. destruct (negb _); [cbn; by rewrite Hum|].
  pose proof (len_take_le (Z.to_nat bytes) data) as Hl.
  destruct (store_buf buffer (take (Z.to_nat bytes) data) s1 n Hum Hv ltac:(lia)) as (t & -> & Ht). done.
Qed.
Lemma fetch_ptr buffer size n : 0 <= size <= n -> vmm_validate_ptr buffer n false (um s) = true ->
  exists l, fetch_n (um s) buffer (Z.to_nat size) = Some l.
Proof.
  intros Hs Hv. assert (Hf : fetch_n (um s) buffer (Z.to_nat size) <> None).
  { apply fetch_n_safe. intros i Hi. apply (validate_ptr_law (um s) buffer n false i Hm Hv). lia. }
  destruct (fetch_n _ _ _) as [l|]; [by exists l|done].
Qed.
Lemma fetch_safe buffer size n : 0 <= size <= n -> buf_ok s buffer n false = true ->
  exists l, fetch_n (um s) buffer (Z.to_nat size) = Some l.
Proof.
  intros Hs Hv. unfold buf_ok, ptr_ok in Hv. destruct (Z.ltb_spec 0 n) as [Hp|Hp]; [by eapply fetch_ptr|].
  exists []. by replace (Z.to_nat size) with 0%nat by lia.
Qed.
Lemma write_safe fd buffer size : 0 <= size -> buf_ok s buffer size false = true -> good (sys_write fd buffer size s).
Proof.
  intros Hs Hv. unfold sys_write. destruct (_ || _); [done|]. destruct (_ =? 0).
  - destruct (_ || _); [|done]. destruct (negb _); [done|]. by destruct (fetch_safe buffer size size ltac:(lia) Hv) as [l ->].
  - destruct (_ || _); [done|]. set (n := if 4096 <? size then 4096 else size). assert (Hn : 0 <= n <= size) by (unfold n; bcase; lia).
    destruct (negb _); [done|]. unfold run_fd. destruct (kbuf_alloc n (kf s)) as [kbuf k]. destruct (_ && _); [done|]. cbn [um].
    change (um (s <| kf := k |>)) with (um s). destruct (fetch_safe buffer n size Hn Hv) as [l ->]. by destruct (file_write _ _ _ _).
Qed.
Lemma stat_safe node stbuf t : um t = um s -> ptr_ok s stbuf STAT_SIZE true = true -> good (stat_node node stbuf t).
Proof.
  intros Et Hv. unfold stat_node.
  destruct (store_safe stbuf (stat_bytes node (node_at (vv t) node)) t STAT_SIZE Et Hv) as (t' & -> & ? & _); [by rewrite len_stat_bytes|done].
Qed.
Lemma readdir_safe n : forall node index buf t room,
  m_ok (um t) -> (forall x w, u_ok (um t) x w = u_ok (um s) x w) ->
  (forall i, 0 <= i < room -> u_ok (um s) (buf + i) true = true) -> Z.of_nat n * DIR_ENTRY_SIZE <= room ->
  exists ok i t', readdir_loop n node index buf t = Some (ok, i, t') /\ m_ok (um t').
Proof.
  induction n as [|n IH]; intros node index buf t room Ht Hk Hr Hroom; cbn [readdir_loop]; [by eexists _, _, _|].
  destruct (vfs_readdir node index (vv t)) as [[r e] v]. destruct (r <? 0); [by eexists _, _, _|]. destruct e as [e|]; [|by eexists _, _, _].
  destruct (r =? 0); [by eexists _, _, _|]. unfold store. cbn [um].
  destruct (put_n_safe (dir_entry_bytes e) buf (um t) Ht) as (m' & Em & Hm' & Hk').
  - intros i Hi. rewrite Hk. apply Hr. rewrite len_dir_entry_bytes in Hi. unfold DIR_ENTRY_SIZE in *. lia.
  - change (um (t <| kf := kf t <| kv := v |> |>)) with (um t). rewrite Em. cbv iota. apply (IH _ _ _ _ (room - DIR_ENTRY_SIZE)); cbn; [done| | |].
    + intros x w. by rewrite Hk', Hk.
    + intros i Hi. rewrite <- Z.add_assoc. apply Hr. unfold DIR_ENTRY_SIZE in *. lia.
    + unfold DIR_ENTRY_SIZE in *. lia.
Qed.

Lemma list_safe path buffer size : 0 <= size ->
  string_ok s path = true -> buf_ok s buffer size true = true -> good (sys_list path buffer size s).
Proof.
  intros Hs Hp Hb. unfold sys_list. destruct (string_safe path Hp) as [str ->]. cbv iota. destruct (_ || _ || _); [done|].
  set (out := take _ _). pose proof (len_take_le (Z.to_nat size) (list_names (S (base.size (nodes (vv s)))) (vn_child (node_at (vv s) (vfs_find str (vv s)))) (vv s))) as Hl.
  fold out in Hl. by destruct (store_buf buffer out s size eq_refl Hb ltac:(lia)) as (t & -> & Ht).
Qed.
Lemma sys_readdir_safe fd buf count n : 0 <= count <= n -> n * DIR_ENTRY_SIZE < 18446744073709551616 ->
  negb (0 <? n) || ptr_ok s buf (u64 (DIR_ENTRY_SIZE * n)) true = true -> good (sys_readdir fd buf count s).
Proof.
  intros Hc Hn Hv. unfold sys_readdir. cbv zeta. do 2 (match goal with |- context [if ?b then Some (-1, s) else _] => destruct b; [done|] end).
  match goal with |- context [readdir_loop ?a ?b ?c ?d ?e] => assert (Hl : exists ok i t', readdir_loop a b c d e = Some (ok, i, t') /\ m_ok (um t')) end.
  { destruct (Z.ltb_spec 0 n) as [Hp|Hp]; [|replace (Z.to_nat count) with 0%nat by lia; by eexists _, _, _]. cbn [negb orb] in Hv.
    apply (readdir_safe _ _ _ _ _ (n * DIR_ENTRY_SIZE)); [done|done| |unfold DIR_ENTRY_SIZE in *; lia].
    intros i Hi. eapply validate_ptr_law; [done|exact Hv|]. unfold u64. unfold DIR_ENTRY_SIZE in *. rewrite Z.mod_small; lia. }
  destruct Hl as (ok & i & t & -> & Ht). cbv iota. by destruct (negb ok).
Qed.
Lemma readlink_safe path buf bufsiz : 0 <= bufsiz ->
  string_ok s path = true -> buf_ok s buf bufsiz true = true -> good (sys_readlink path buf bufsiz s).
Proof.
  intros Hs Hp Hb. apply path_safe; [done|]. intros p. destruct (vfs_readlink p bufsiz (vv s)) as [r bytes] eqn:E.
  destruct (_ || _) eqn:Eo; [done|]. apply orb_false_iff in Eo as [_ Hr]. assert (Hl : len (bytes ++ [0]) <= bufsiz).
  { unfold vfs_readlink in E. destruct (Z.eqb_spec bufsiz 0) as [|Hz]; [rewrite orb_true_r in E; injection E as <- <-; done|].
    destruct (_ || _); injection E as <- <-; [done|]. rewrite len_app. pose proof (len_take_le (Z.to_nat (bufsiz - 1)) (vn_symlink_target (node_at (vv s) (vfs_find p (vv s))))).
    change (len [0]) with 1. lia. }
  by destruct (store_buf buf (bytes ++ [0]) s bufsiz eq_refl Hb Hl) as (t & -> & Ht).
Qed.
Lemma getcwd_safe buf size : ptr_ok s buf size true = true -> good (sys_getcwd buf size s).
Proof.
  intros Hp. unfold sys_getcwd. destruct (vfs_getcwd 64 (vv s)) as [cwd|]; [|done]. destruct (Z.leb_spec size (len cwd)); [done|].
  destruct (store_safe buf (cwd ++ [0]) s size eq_refl Hp) as (t & -> & ? & _); [|done]. rewrite len_app. change (len [0]) with 1. lia.
Qed.
Lemma call_pipe_safe fds : ptr_ok s fds (INT_SIZE * 2) true = true -> good (call_pipe fds s).
Proof.
  intros Hp. unfold call_pipe. destruct (sys_pipe socket_close (kf s)) as [[r [rfd wfd]] k]. cbv beta iota zeta. destruct (negb _); [done|].
  match goal with |- context [store fds ?b ?t] => destruct (store_safe fds b t (INT_SIZE * 2) eq_refl Hp) as (t' & -> & ? & _); [|done] end.
  by rewrite len_app, !len_word_bytes.
Qed.
Lemma sys_stat_safe path stbuf :
  string_ok s path = true -> ptr_ok s stbuf STAT_SIZE true = true -> good (sys_stat path stbuf s).
Proof.
  intros Hp Hb. unfold sys_stat. destruct (_ =? 0); [done|]. apply path_safe; [done|]. intros p. cbv beta zeta.
  destruct (_ =? 0); [done|]. by apply stat_safe.
Qed.
Lemma fstat_safe fd stbuf : ptr_ok s stbuf STAT_SIZE true = true -> good (sys_fstat fd stbuf s).
Proof. intros Hb. unfold sys_fstat. destruct (_ || _); [done|]. destruct (_ =? 0); [done|]. by apply stat_safe. Qed.
Lemma create_safe path : string_ok s path = true -> good (sys_create path s).
Proof.
  intros Hp. apply path_safe; [done|]. intros p. destruct (run_vfs (ata_vfs_create p) s) as [r t] eqn:E.
  assert (Et : um t = um s) by (unfold run_vfs, run_fd in E; destruct (on_vfs _ _); by injection E as <- <-).
  destruct (negb _); [cbn; by rewrite Et|]. destruct (current (vv t)); [|cbn; by rewrite Et].
  match goal with |- context [vfs_build_path ?a ?b ?c] => destruct (vfs_build_path a b c) end; [by apply good_open|cbn; by rewrite Et].
Qed.

(** * Processes, signals and sockets *)

Lemma spawn_safe path : string_ok s path = true -> good (call_spawn path s).
Proof.
  intros Hp. unfold call_spawn. destruct (no_task s); [done|].
  destruct (validated_path (um s) (Z.to_nat VFS_NAME_MAX) path Hm Hp) as [r ->]. destruct r; [by apply good_fd|done].
Qed.
Lemma store_opt a bytes t n : um t = um s -> opt_ok s a n true = true -> len bytes <= n ->
  a <> 0 -> exists t', store a bytes t = Some t' /\ m_ok (um t') /\ (forall x w, u_ok (um t') x w = u_ok (um s) x w).
Proof.
  intros Et Hv Hn Ha. unfold opt_ok in Hv. rewrite (proj2 (Z.eqb_neq a 0)) in Hv by done. by eapply store_safe.
Qed.
Lemma waitpid_safe p status options : opt_ok s status INT_SIZE true = true -> good (call_waitpid p status options s).
Proof.
  intros Hv. unfold call_waitpid. destruct (SysCalls.scheduler_waitpid p options (kf s)) as [[result kstatus] k]. cbv zeta.
  destruct (0 <? result); [|done]. match goal with |- context [store status _ ?t] => set (u := t) end.
  assert (Eu : um u = um s) by (unfold u; by destruct (_ =? u32 result)).
  destruct (Z.eqb_spec status 0) as [|Hs]; cbn [negb]; [by cbn; rewrite Eu|].
  destruct (store_opt status (word_bytes 4 kstatus) u INT_SIZE Eu Hv) as (t & -> & ? & _); [by rewrite len_word_bytes|done|done].
Qed.

Lemma len_proc_bytes fg x : len (proc_bytes (proc_info_of fg x)) <= PROC_INFO_SIZE.
Proof.
  unfold proc_bytes. rewrite !len_app, !len_word_bytes. cbn [pi_name proc_info_of]. unfold proc_copy_name.
  match goal with |- context [take (Z.to_nat ?n) _] => assert (Hn : n <= 31) end.
  { destruct (find_index _ _ _) as [n|] eqn:E; cbn; [|unfold PROC_NAME_MAX; lia].
    apply find_index_some in E as [E _]. pose proof (len_take_le 31 (name x)). lia. }
  match goal with |- context [take (Z.to_nat ?n) ?l] => pose proof (len_take_le (Z.to_nat n) l) end.
  change (len [0]) with 1. unfold PROC_INFO_SIZE. lia.
Qed.
Lemma put_procs_safe l : forall out t room,
  m_ok (um t) -> (forall x w, u_ok (um t) x w = u_ok (um s) x w) -> Forall (fun p => len (proc_bytes p) <= PROC_INFO_SIZE) l ->
  (forall i, 0 <= i < room -> u_ok (um s) (out + i) true = true) -> len l * PROC_INFO_SIZE <= room ->
  exists t', put_procs out l t = Some t' /\ m_ok (um t').
Proof.
  induction l as [|p l IH]; intros out t room Ht Hk Hl Hr Hroom; cbn [put_procs]; [by exists t|].
  apply Forall_cons in Hl as [Hp Hl]. unfold len in Hroom. cbn [length] in Hroom. unfold PROC_INFO_SIZE in *. unfold store.
  destruct (put_n_safe (proc_bytes p) out (um t) Ht) as (m' & -> & Hm' & Hk').
  - intros i Hi. rewrite Hk. apply Hr. lia.
  - cbv iota. apply (IH _ _ (room - (3 * 4 + 32))); cbn; [done| |done| |unfold len; lia].
    + intros x w. by rewrite Hk', Hk.
    + intros i Hi. rewrite <- Z.add_assoc. apply Hr. lia.
Qed.
Lemma getprocs_safe buffer size : 0 <= size -> buf_ok s buffer size true = true -> good (call_getprocs buffer size s).
Proof.
  intros Hs Hv. unfold call_getprocs. destruct (Z.ltb_spec size PROC_INFO_SIZE); [by rewrite orb_true_r|]. destruct (_ || _); [done|].
  set (l := take _ _). unfold buf_ok in Hv. rewrite (proj2 (Z.ltb_lt 0 size)) in Hv by (unfold PROC_INFO_SIZE in *; lia). cbn in Hv.
  destruct (put_procs_safe l buffer s size) as (t & -> & Ht); [done|done| | | |done].
  - apply Forall_take, Forall_map, Forall_forall. intros x _. apply len_proc_bytes.
  - intros i Hi. by apply (validate_ptr_law (um s) buffer size true i Hm Hv).
  - pose proof (len_take_le (Z.to_nat (size / PROC_INFO_SIZE)) (map (proc_info_of (foreground_pid (kf s))) (List.filter live (sched_table (xs s))))) as Hl.
    fold l in Hl. unfold PROC_INFO_SIZE in *. Z.div_mod_to_equations. lia.
Qed.

(** An optional store and then a fetch, both of checked pointers. *)
Lemma store_fetch (old act n1 n2 : Z) bytes :
  opt_ok s act n2 false = true -> opt_ok s old n1 true = true -> len bytes <= n1 ->
  exists u, (if negb (old =? 0) then store old bytes s else Some s) = Some u /\ m_ok (um u) /\
    (act <> 0 -> forall n, Z.of_nat n <= n2 -> exists l, fetch_n (um u) act n = Some l).
Proof.
  intros Ha Ho Hl. assert (Hu : exists u, (if negb (old =? 0) then store old bytes s else Some s) = Some u /\ m_ok (um u) /\
    forall x w, u_ok (um u) x w = u_ok (um s) x w).
  { destruct (Z.eqb_spec old 0) as [|Hn]; [by exists s|]. by eapply store_opt. }
  destruct Hu as (u & E & Hu & Hk). exists u. split_and!; [done|done|]. intros Hne n Hn.
  unfold opt_ok in Ha. rewrite (proj2 (Z.eqb_neq act 0)) in Ha by done. cbn in Ha.
  assert (Hf : fetch_n (um u) act n <> None).
  { apply fetch_n_safe. intros i Hi. rewrite Hk. apply (validate_ptr_law (um s) act n2 false i Hm Ha). lia. }
  destruct (fetch_n _ _ _) as [l|]; [by exists l|done].
Qed.
Lemma sigaction_safe signum act oldact :
  opt_ok s act SIGACTION_SIZE false = true -> opt_ok s oldact SIGACTION_SIZE true = true -> good (call_sigaction signum act oldact s).
Proof.
  intros Ha Ho. unfold call_sigaction. destruct (_ || _); [done|]. destruct (sched_task (xs s)) as [t|]; [|done].
  destruct (store_fetch oldact act SIGACTION_SIZE SIGACTION_SIZE
    (word_bytes 8 (arr_get (signal_handlers t) signum) ++ word_bytes 4 (blocked_signals t) ++ word_bytes 4 0) Ha Ho) as (u & -> & Hu & Hf);
    [by rewrite !len_app, !len_word_bytes|]. destruct (Z.eqb_spec act 0) as [|Hne]; [done|]. cbn [negb].
  by destruct (Hf Hne 8%nat ltac:(unfold SIGACTION_SIZE; lia)) as [l ->].
Qed.
Lemma sigprocmask_safe how set oldset :
  opt_ok s set SIGSET_SIZE false = true -> opt_ok s oldset SIGSET_SIZE true = true -> good (call_sigprocmask how set oldset s).
Proof.
  intros Ha Ho. unfold call_sigprocmask. destruct (sched_task (xs s)) as [t|]; [|done].
  destruct (store_fetch oldset set SIGSET_SIZE SIGSET_SIZE (word_bytes 4 (blocked_signals t)) Ha Ho) as (u & -> & Hu & Hf);
    [by rewrite !len_word_bytes|]. destruct (Z.eqb_spec set 0) as [|Hne]; [done|]. cbn [negb].
  destruct (Hf Hne 4%nat ltac:(unfold SIGSET_SIZE; lia)) as [l ->]. by destruct (new_mask _ _ _).
Qed.

Lemma socket_send_safe ip protocol payload length : is_u64 payload -> is_u64 length ->
  buf_ok s payload length false = true -> good (call_socket_send ip protocol payload length s).
Proof.
  intros Hp Hl Hv. unfold call_socket_send. destruct (_ || _); [done|].
  destruct (accessible_facts (on_kernel_space s) (is_mapped (um s)) payload length Hp Hl) as (r & -> & _). cbv iota.
  destruct (negb r); [done|]. unfold run_fd at 1. destruct (net_resolve ip (kf s)) as [resolved k]. destruct (negb resolved); [done|].
  change (um (s <| kf := k |>)) with (um s). unfold is_u64 in *. destruct (fetch_safe payload length length ltac:(lia) Hv) as [l ->]. by apply good_fd.
Qed.
Lemma socket_recv_safe protocol buffer n : 0 <= n -> buf_ok s buffer n true = true -> good (call_socket_recv protocol buffer n s).
Proof.
  intros Hn Hv. unfold call_socket_recv. destruct (_ =? 0); [done|]. unfold run_fd. destruct (raw_receive protocol (kf s)) as [r k].
  destruct r as [[data|]|]; [|done|done]. pose proof (len_take_le (Z.to_nat n) data).
  match goal with |- context [store buffer ?b ?u] => by destruct (store_buf buffer b u n eq_refl Hv ltac:(lia)) as (t & -> & Ht) end.
Qed.
Lemma address_safe f fd addr addrlen n : 0 <= addrlen <= n -> buf_ok s addr n false = true -> good (with_address f fd addr addrlen s).
Proof.
  intros Hn Hv. unfold with_address. cbv zeta. destruct (_ || _); [done|]. destruct (_ =? 0); [done|]. cbn [orb].
  destruct (Z.ltb_spec addrlen SOCKADDR_IN_SIZE); [done|].
  destruct (fetch_safe addr SOCKADDR_IN_SIZE n ltac:(unfold SOCKADDR_IN_SIZE in *; lia) Hv) as [l ->].
  destruct (_ =? 0); [done|]. by apply good_fd.
Qed.
Lemma accept_safe fd addr addrlen :
  opt_ok s addr SOCKADDR_IN_SIZE true = true -> opt_ok s addrlen 4 true = true -> good (call_accept fd addr addrlen s).
Proof.
  intros Ha Hl. unfold call_accept. cbv zeta. destruct (no_task s || _); [done|].
  destruct (socket_accept _ (kf s)) as [[new_fd [port ip]] k]. destruct (new_fd <? 0); [done|].
  destruct (Z.eqb_spec addr 0) as [|Ha0]; [done|]. destruct (Z.eqb_spec addrlen 0) as [|Hl0]; [done|]. cbn [negb andb].
  change (um (s <| kf := k |>)) with (um s). unfold opt_ok in *. rewrite (proj2 (Z.eqb_neq addr 0)) in Ha by done. rewrite (proj2 (Z.eqb_neq addrlen 0)) in Hl by done. cbn in Ha, Hl.
  assert (Hf : fetch_n (um s) addrlen 4 <> None).
  { apply fetch_n_safe. intros i Hi. apply write_read_law; [done|]. by apply (validate_ptr_law (um s) addrlen 4 true i Hm Hl). }
  destruct (fetch_n (um s) addrlen 4) as [room|]; [|done]. destruct (_ <=? _); [|done].
  match goal with |- context [store addr _ ?u] => destruct (store_safe addr (sockaddr_bytes port ip) u SOCKADDR_IN_SIZE eq_refl Ha) as (t & -> & Ht & Hk) end;
    [unfold sockaddr_bytes; by rewrite !len_app, !len_word_bytes|].
  unfold store. destruct (put_n_safe (word_bytes 4 SOCKADDR_IN_SIZE) addrlen (um t) Ht) as (m' & -> & Hm' & _); [|done].
  intros i Hi. rewrite Hk. by apply (validate_ptr_law (um s) addrlen 4 true i Hm Hl).
Qed.
Lemma recv_safe fd buffer length flags : 0 <= length -> good (call_recv fd buffer length flags s).
Proof.
  intros Hl. unfold call_recv. destruct (_ || _); [done|]. destruct (_ =? 0); [done|]. destruct (_ =? 0); [done|].
  destruct (vmm_validate_ptr buffer length true (um s)) eqn:Hv; [|done]. cbn [negb]. destruct (negb _); [done|]. unfold run_fd.
  destruct (with_socket _ _ _ _ _ _) as [[r data] k] eqn:E. assert (Hd : len data <= length).
  { unfold with_socket in E. destruct (task_get_file_description fd (kf s)) as [d k1]. destruct (d =? 0); [by injection E as <- <- <-|].
    cbv zeta in E. destruct (_ =? 0); [by injection E as <- <- <-|]. destruct (stream_recv _ length k1) as [[r' data'] k2] eqn:Es.
    injection E as <- <- <-. by eapply stream_recv_law. }
  match goal with |- context [store buffer _ ?u] => by destruct (store_safe buffer data u length eq_refl Hv Hd) as (t & -> & Ht & _) end.
Qed.
Lemma send_safe fd buffer length flags : 0 <= length -> good (call_send fd buffer length flags s).
Proof.
  intros Hl. unfold call_send. destruct (_ || _); [done|]. destruct (_ =? 0); [done|]. destruct (_ =? 0); [done|].
  destruct (vmm_validate_ptr buffer length false (um s)) eqn:Hv; [|done]. cbn [negb]. destruct (negb _); [done|].
  destruct (fetch_ptr buffer length length ltac:(lia) Hv) as [l ->]. by apply good_fd.
Qed.

Lemma exec_strings_safe n : forall i vec environment used, exists r, exec_strings n i vec environment used (um s) = Some r.
Proof.
  induction n as [|n IH]; intros i vec environment used; cbn [exec_strings]; [by eexists|]. cbv zeta.
  destruct (vmm_validate_ptr _ 8 false (um s)) eqn:Hv; [|by eexists]. cbn [negb].
  destruct (fetch_ptr _ 8 8 ltac:(lia) Hv) as [l El]. change (Z.to_nat 8) with 8%nat in El. rewrite El.
  destruct (bytes_word l =? 0); [by eexists|]. destruct (vmm_validate_string (bytes_word l) EXEC_STRING_MAX (um s)) eqn:Hs;
    [|rewrite orb_true_r; by eexists]. destruct (_ || _); [by eexists|]. destruct (string_safe (bytes_word l) Hs) as [str ->].
  destruct (_ && _); [by eexists|]. destruct (_ <? _); [by eexists|].
  destruct (IH (i + 1) vec environment (used + len str + 1)) as [r ->]. by eexists.
Qed.
Lemma exec_vector_safe vec environment used : exists r, copy_exec_vector vec environment used (um s) = Some r.
Proof. unfold copy_exec_vector. destruct (vec =? 0); [by eexists|]. apply exec_strings_safe. Qed.
Lemma exec_safe path argv envp frame : good (elf_exec_current path argv envp frame s).
Proof.
  unfold elf_exec_current. destruct (vmm_validate_string path 256 (um s)) eqn:Hp; [|by rewrite orb_true_r]. destruct (_ || _); [done|].
  unfold run_fd. destruct (alloc_block EXEC_STRINGS_MAX (kf s)) as [storage k]. cbv zeta. destruct (storage =? 0); [done|].
  change (um (s <| kf := k |>)) with (um s). destruct (exec_vector_safe argv false 0) as [[[args used]|] ->]; [|done].
  destruct (exec_vector_safe envp true used) as [[[envs used']|] ->]; [|done]. destruct (string_safe path Hp) as [str ->].
  destruct (_ || _); [done|]. match goal with |- context [exec_image _ _ _ _ ?u] => pose proof (exec_image_law str args envs frame u Hm) as He end.
  by destruct (exec_image str args envs frame _) as [r t].
Qed.

(** * The way back to the user *)

(** The handler of a signal is to run on a page that is mapped and cannot be written. *)
Definition unwritable_stack (frame : Z) t : Prop :=
  exists signum handler user_rsp, signal_due frame t = SigHandle signum handler user_rsp /\
    is_mapped (um t) (stack_page user_rsp) = true /\ exists i, 0 <= i < 8 /\ u_ok (um t) (user_rsp + i) true = false.

(** The return address lies in one page. *)
Lemma signal_stack_page sp i : let user_rsp := signal_handler_stack sp in
  0 <= i < 8 -> stack_page user_rsp <= user_rsp + i < stack_page user_rsp + 4096.
Proof.
  cbv zeta. intros Hi. unfold stack_page. set (r := signal_handler_stack sp). assert (Hr : is_u64 r) by (unfold r, signal_handler_stack; ulia).
  assert (H16 : r mod 16 = 8).
  { unfold r, signal_handler_stack. set (x := Z.land sp (lnot64 15)). assert (Hx : x mod 16 = 0).
    { unfold x. change 16 with (2 ^ 4). rewrite <- Z.land_ones by lia. rewrite <- Z.land_assoc. change (Z.land (lnot64 15) (Z.ones 4)) with 0. apply Z.land_0_r. }
    unfold u64. Z.div_mod_to_equations. lia. }
  change 4095 with (2 ^ 12 - 1). rewrite (land_align_down r 12) by (unfold is_u64 in *; lia). change (2 ^ 12) with 4096. Z.div_mod_to_equations. lia.
Qed.
Lemma signal_due_stack frame t signum handler user_rsp :
  signal_due frame t = SigHandle signum handler user_rsp -> exists sp, user_rsp = signal_handler_stack sp.
Proof.
  unfold signal_due, signal_action_of. destruct (sched_task (xs t)); [|done]. repeat case_match; try done. intros [= <- <- <-]. by eexists.
Qed.
Lemma signals_fault frame ret : handle_syscall_signals frame ret s = None <-> unwritable_stack frame s.
Proof.
  unfold handle_syscall_signals, unwritable_stack. split.
  - destruct (signal_due frame s) as [| | |signum handler user_rsp] eqn:Ed; [done|done|done|].
    destruct (is_mapped (um s) (stack_page user_rsp)) eqn:Emap.
    + cbn [negb]. intros Hn. exists signum, handler, user_rsp. split_and!; [done|done|].
      destruct (decide (Exists (fun i => u_ok (um s) (user_rsp + i) true = false) (seqZ 0 8))) as [(i & Hi & Hb)%Exists_exists|Hall].
      * exists i. by apply elem_of_seqZ in Hi.
      * exfalso. unfold store in Hn. destruct (put_n_safe (word_bytes 8 SIGNAL_TRAMPOLINE_ADDR) user_rsp (um s) Hm) as (m' & E & _); [|by rewrite E in Hn].
        intros i Hi. destruct (u_ok (um s) (user_rsp + i) true) eqn:Hb; [done|]. exfalso. apply Hall, Exists_exists. exists i. split; [|done]. by apply elem_of_seqZ.
    + destruct (map_stack_page (stack_page user_rsp) s) as [ok t] eqn:Et. destruct ok; [|done]. cbn [negb].
      destruct (map_stack_page_law _ _ _ Hm Et) as [Ht Hw]. destruct (signal_due_stack _ _ _ _ _ Ed) as [sp ->]. unfold store.
      destruct (put_n_safe (word_bytes 8 SIGNAL_TRAMPOLINE_ADDR) (signal_handler_stack sp) (um t) Ht) as (m' & -> & _); [|done].
      intros i Hi. apply Hw. by apply signal_stack_page.
  - intros (signum & handler & user_rsp & -> & -> & i & Hi & Hb). cbn [negb]. unfold store. by rewrite (put_n_fault _ _ _ i Hm).
Qed.
End At.

(** * The handler *)

Definition fine (o : @outcome H X M) : Prop := match o with Refused => True | Done r => good r end.
Lemma fine_check b o : (b = true -> fine o) -> fine (check b o).
Proof. by destruct b; [|intros _]; cbn; auto. Qed.
Lemma fine_kernel number args s : m_ok (um s) -> fine (pure (kernel_call number args s)).
Proof. intros Hm. pose proof (kernel_call_law number args s Hm) as Hk. cbn. by destruct (kernel_call number args s). Qed.
Lemma fine_fd (f : kfd H X -> Z * kfd H X) s : m_ok (um s) -> fine (pure (run_fd f s)).
Proof. intros Hm. by apply (good_fd s Hm). Qed.

(** The calls that touch no user memory. *)
Lemma lseek_fine fd offset whence s : m_ok (um s) -> fine (pure (sys_lseek fd offset whence s)).
Proof. intros Hm. unfold sys_lseek. cbv zeta. repeat case_match; done. Qed.
Lemma node_call_fine fd (f : Z -> kfd H X -> Z * kfd H X) s : m_ok (um s) ->
  fine (pure (let d := fd_get fd (kf s) in if d =? 0 then (-1, s) else
    let node := fd_node (desc_at (kf s) d) in if node =? 0 then (-1, s) else run_fd (f node) s)).
Proof. intros Hm. cbv zeta. destruct (_ =? 0); [done|]. destruct (_ =? 0); [done|]. by apply fine_fd. Qed.
Lemma umask_fine mask s : m_ok (um s) -> fine (pure (sys_umask mask s)).
Proof. intros Hm. unfold sys_umask. by destruct (current (vv s)). Qed.

Lemma files_fine s number arg1 arg2 arg3 :
  m_ok (um s) -> is_u64 arg3 -> fine (dispatch_files s number arg1 arg2 arg3).
Proof.
  intros Hm H3'. unfold is_u64 in *. unfold dispatch_files. repeat match goal with |- fine (if ?b then _ else _) => destruct b eqn:? end;
    repeat (apply fine_check; intros ?); repeat match goal with E : _ && _ = true |- _ => apply andb_true_iff in E as [? ?] end;
    try (by apply path_safe; [| |intros p; by apply good_vfs]); try by apply fine_fd.
  - apply path_safe; [done|done|]. intros p. apply path_safe; [done|done|]. intros p'. by apply good_vfs.
  - apply path_safe; [done|done|]. intros p. destruct (string_safe s Hm arg1) as [t ->]; [done|]. by apply good_vfs.
  - by apply readlink_safe; [|lia| |].
  - destruct (string_safe s Hm arg1) as [t1 E1]; [done|]. destruct (string_safe s Hm arg2) as [t2 E2]; [done|].
    destruct (string_safe s Hm arg3) as [t3 E3]; [done|]. cbn [fine]. rewrite E1, E2, E3. by apply good_vfs.
  - destruct (string_safe s Hm arg1) as [t E]; [done|]. cbn [fine]. rewrite E. by apply good_vfs.
  - by apply lseek_fine.
  - by apply sys_stat_safe.
  - by apply fstat_safe.
  - by apply getcwd_safe.
  - by apply (node_call_fine (s32 arg1) (fun node => on_vfs (vfs_truncate node arg2))).
  - by apply umask_fine.
  - by apply (node_call_fine (s32 arg1) (fun node k => on_vfs (vfs_flock node (s32 arg2) (ft_pid (cur_task k))) k)).
  - by apply sigaction_safe.
  - by apply sigprocmask_safe.
  - by apply waitpid_safe.
  - done.
Qed.
Lemma dispatch_fine s number arg1 arg2 arg3 arg4 arg6 :
  m_ok (um s) -> is_u64 arg2 -> is_u64 arg3 -> is_u64 arg4 ->
  number <> SYS_READDIR \/ arg3 * DIR_ENTRY_SIZE < 18446744073709551616 ->
  fine (dispatch s number arg1 arg2 arg3 arg4 arg6).
Proof.
  intros Hm H2' H3' H4' Hdir. pose proof H3' as H3u. pose proof H4' as H4u. unfold is_u64 in H2', H3', H4'.
  assert (Hu : 0 <= u32 arg3 <= arg3) by (unfold u32; split; [apply Z.mod_pos_bound; lia|apply Z.mod_le; lia]).
  unfold dispatch. repeat match goal with |- fine (if ?b then _ else _) => destruct b eqn:? end;
    repeat (apply fine_check; intros ?); try by apply fine_kernel. all: try by apply fine_fd.
  - apply path_safe; [done|done|]. intros p. by apply (good_open s).
  - by apply (read_safe s Hm _ _ _ arg3).
  - by apply spawn_safe.
  - by apply write_safe; [|lia|].
  - by apply create_safe.
  - by apply call_pipe_safe.
  - by apply getprocs_safe; [|lia|].
  - by apply list_safe; [|lia| |].
  - by apply socket_send_safe.
  - by apply socket_recv_safe; [|lia|].
  - apply (sys_readdir_safe s Hm _ _ _ arg3); [done| |done]. destruct Hdir as [Hd|Hd]; [|done].
    exfalso. apply Hd. by apply Z.eqb_eq.
  - by apply exec_safe.
  - by apply (address_safe s Hm _ _ _ _ arg3).
  - by apply (address_safe s Hm _ _ _ _ arg3).
  - by apply accept_safe.
  - by apply recv_safe; [|lia].
  - by apply send_safe; [|lia].
  - by apply files_fine.
Qed.


(** The number of entries whose size is 8 bytes modulo 2^64. *)
Definition OVERFLOW_COUNT : Z := 1048110458733497251.

Lemma dispatch_readdir s arg1 arg2 arg3 arg4 arg6 :
  dispatch s SYS_READDIR arg1 arg2 arg3 arg4 arg6 =
  check (negb (0 <? arg3) || ptr_ok s arg2 (u64 (DIR_ENTRY_SIZE * arg3)) true) (Done (sys_readdir (s32 arg1) arg2 (u32 arg3) s)).
Proof. reflexivity. Qed.
Lemma readdir_first_fault s fd f e v buf count :
  buf <> 0 -> fd_get fd (kf s) <> 0 -> descs (kf s) !! fd_get fd (kf s) = Some f -> fd_node f <> 0 ->
  vn_type (node_at (vv s) (fd_node f)) = VFS_NODE_DIRECTORY ->
  vfs_readdir (fd_node f) (u32 (fd_offset f)) (vv s) = (1, Some e, v) -> put_n buf (dir_entry_bytes e) (um s) = None -> 0 < count ->
  sys_readdir fd buf count s = None.
Proof.
  intros Ha0 Hd0 Hf Hn Ht Hr Hput Hc. unfold sys_readdir. cbv zeta.
  rewrite (proj2 (Z.eqb_neq buf 0)), (proj2 (Z.eqb_neq (fd_get fd (kf s)) 0)) by done. cbn [orb].
  unfold desc_at. rewrite Hf. cbn [default from_option id]. rewrite (proj2 (Z.eqb_neq (fd_node f) 0)), bool_decide_eq_true_2 by done.
  cbn [orb negb]. replace (Z.to_nat count) with (S (Z.to_nat (count - 1))) by lia.
  cbn [readdir_loop]. rewrite Hr. change (1 <? 0) with false. change (1 =? 0) with false. cbv beta iota zeta. unfold store.
  change (um (s <| kf := kf s <| kv := v |> |>)) with (um s). by rewrite Hput.
Qed.

(** The size of the buffer of the directory call is computed modulo 2^64 while the call
    itself takes the count modulo 2^32: with this count 8 bytes are checked and the first
    entry of 88 bytes is stored.  When the memory ends after the checked bytes the kernel
    faults; otherwise it overwrites what follows. *)
Theorem syscall_readdir_overflow s fd f e v arg2 arg4 arg6 :
  arg2 <> 0 -> fd_get (s32 fd) (kf s) <> 0 -> descs (kf s) !! fd_get (s32 fd) (kf s) = Some f -> fd_node f <> 0 ->
  vn_type (node_at (vv s) (fd_node f)) = VFS_NODE_DIRECTORY ->
  vfs_readdir (fd_node f) (u32 (fd_offset f)) (vv s) = (1, Some e, v) ->
  vmm_validate_ptr arg2 8 true (um s) = true -> put_n arg2 (dir_entry_bytes e) (um s) = None ->
  syscall_handler SYS_READDIR fd arg2 OVERFLOW_COUNT arg4 arg6 s = None.
Proof.
  intros Ha0 Hd0 Hf Hn Ht Hr Hv Hput. unfold syscall_handler. rewrite dispatch_readdir.
  rewrite (readdir_first_fault s (s32 fd) f e v arg2 (u32 OVERFLOW_COUNT)) by done.
  replace (u64 (DIR_ENTRY_SIZE * OVERFLOW_COUNT)) with 8 by done. unfold ptr_ok. rewrite Hv. by rewrite orb_true_r.
Qed.
End Calls.
