(* ===== verification/SysPipe.v ===== *)
(** A pipe through the system calls: what one call writes into the pipe that [sys_pipe]
    made, the next call reads out of it, from user memory to user memory. *)

From S2P Require Import Prelude Mem Task Sched Pipe Vfs VfsTree VfsReach Fd FdRefs FdSteps Sys SysCalls SysSafe.

Section Pipes.
Context {H X M : Type} `{AllocatorLaws H} `{FsDrivers H X} `{ConsoleNodes} `{UserMemLaws M} `{SysEnv H X} `{!KernelCalls H X M}.
Context (console_static : forall h p, a_ok h -> is_console p = true -> ~ a_live h p).
Implicit Types k : kfd H X.
Implicit Types s : ksys H X M.

(** * The state after the call *)

(** A descriptor of the current task that is the end [rd] of the pipe at [a]. *)
Record pipe_fd k (fd a : Z) (rd : bool) (d p e : Z) : Prop := {
  pf_fd : fd_get fd k = d;
  pf_desc : exists f, descs k !! d = Some f /\ fd_node f = p;
  pf_node : exists n, nodes (kv k) !! p = Some n /\ vn_type n = VFS_NODE_PIPE /\ vn_data n = e /\
    vn_read n = (if rd then PIPE_READ else 0) /\ vn_write n = (if rd then 0 else PIPE_WRITE);
  pf_end : ends k !! e = Some (mk_end a rd (negb rd));
  pf_null : d <> 0 /\ p <> 0 /\ p <> console_stdin
}.

Lemma alloc_fd_success p n k i k' :
  fd_safe k -> nodes (kv k) !! p = Some n -> (vn_close n = PIPE_CLOSE -> node_refs [] k p = 0) ->
  task_alloc_fd socket_close p k = (i, k') -> 0 <= i ->
  exists d, d <> 0 /\ 3 <= i < 32 /\ arr_get (cur_fds k) i = 0 /\ k' = k <| kv := kv k' |> <| descs := descs k' |> <| ktasks := ktasks k' |> /\
    cur_fds k' = arr_set (cur_fds k) i d /\ descs k !! d = None /\ descs k' = <[d := mk_fdesc p 0 0 1]> (descs k) /\
    nodes (kv k') = <[p := n <| vn_ref_count := vn_ref_count n + 1 |>]> (nodes (kv k)) /\ drivers (kv k') = drivers (kv k).
Proof.
  intros [B Hi] Hp Hpipe. unfold task_alloc_fd. destruct (fi_node _ _ _ _ Hi _ _ Hp) as [Hp0 _].
  rewrite (proj2 (Z.eqb_neq p 0)) by done. destruct (file_description_alloc p 0 k) as [d k1] eqn:Ea.
  destruct (fdesc_alloc_inv console_static B [] [] k p n 0 d k1 Hi Hp Hpipe ltac:(done) ltac:(done) Ea) as (Ek & Ec & E1 & E2 & E3 & Hd).
  destruct (Z.eqb_spec d 0) as [->|Hd0]; [intros [= <- <-]; lia|]. destruct Hd as ([B1 Hi1] & Hfresh & Ed & En).
  pose proof (task_fds_len _ _ _ _ (kcur k1) Hi1 (fi_cur _ _ _ _ Hi1)) as Hl.
  destruct (free_slot 3 (cur_fds k1)) as [j|] eqn:Ef; intros [= <- <-] Hi0; [|lia].
  destruct (free_slot_spec 3 (cur_fds k1) j ltac:(lia) Hl Ef) as [Hj Hz].
  assert (Ecf : cur_fds k1 = cur_fds k) by (unfold cur_fds, cur_task; by rewrite Ek, Ec). rewrite <- Ecf.
  assert (E4 : pipe_events k1 = pipe_events k /\ drivers (kv k1) = drivers (kv k)).
  { unfold file_description_alloc, alloc_block in Ea. destruct (p =? 0); [by injection Ea as _ <-|]. destruct (k_alloc _ _) as [r h].
    destruct (default 0 r =? 0); injection Ea as _ <-; [done|]. split; [done|]. cbn. unfold vfs_node_ref. by repeat case_match. }
  destruct E4 as [E4 E5]. exists d. split_and!; [done|lia|lia|done| | |done|done|done|exact E5].
  - destruct k, k1. cbn in *. by subst.
  - unfold cur_fds, cur_task, set_cur_fds. cbn. rewrite list_lookup_total_insert_eq; [done|].
    rewrite (fi_tasks _ _ _ _ Hi1). apply (fi_cur _ _ _ _ Hi1).
Qed.

Lemma alloc_block_drivers size k p k' : alloc_block size k = (p, k') -> drivers (kv k') = drivers (kv k).
Proof. unfold alloc_block. destruct (k_alloc _ _) as [r h]. by intros [= <- <-]. Qed.
Lemma pipe_call_success k rfd wfd k' :
  fd_safe k -> sys_pipe socket_close k = (0, (rfd, wfd), k') ->
  exists a d1 p1 e1 d2 p2 e2, pipe_fd k' rfd a true d1 p1 e1 /\ pipe_fd k' wfd a false d2 p2 e2 /\
    pipes k' !! a = Some new_pipe /\ 3 <= rfd < 32 /\ 3 <= wfd < 32 /\ d1 <> d2 /\ drivers (kv k') = drivers (kv k).
Proof.
  intros [B Hi]. unfold sys_pipe. destruct (alloc_block PIPE_SIZE k) as [a s1] eqn:E1.
  destruct (alloc_block PIPE_END_SIZE s1) as [e1 s2] eqn:E2. destruct (alloc_block PIPE_END_SIZE s2) as [e2 s3] eqn:E3.
  destruct (alloc_block VFS_NODE_SIZE s3) as [p1 s4] eqn:E4. destruct (alloc_block VFS_NODE_SIZE s4) as [p2 s5] eqn:E5.
  destruct (pipe_blocks socket_close console_static B k a s1 e1 s2 e2 s3 p1 s4 p2 s5 Hi E1 E2 E3 E4 E5) as (B5 & Hi5 & Hsp).
  destruct ((a =? 0) || _ || _ || _ || _) eqn:Ez; [done|]. apply nonzero_blocks in Ez. rename Ez into Hnz.
  destruct (put_pipe_inv socket_close console_static B5 s5 a e1 e2 p1 p2 Hi5 Hsp Hnz) as (Hi6 & R1 & R2 & L1 & L2).
  destruct (put_distinct (X:=X) socket_close B5 a e1 e2 p1 p2 Hsp Hnz) as ((Hne & _) & _ & (Hee & _) & _).
  change (upd_vfs _ _) with (put_pipe_nodes a e1 e2 p1 p2 s5). set (s6 := put_pipe_nodes _ _ _ _ _ _) in *.
  assert (Hs6 : fd_safe s6) by by eexists.
  destruct (task_alloc_fd socket_close p1 s6) as [f1 s7] eqn:F1.
  destruct (alloc_fd_run socket_close console_static p1 _ s6 f1 s7 Hs6 L1 (fun _ => R1) F1) as (Hs7 & _ & Hk). destruct (Hk p2 Hne) as [L2' R2'].
  destruct (task_alloc_fd socket_close p2 s7) as [f2 s8] eqn:F2.
  destruct (Z.ltb_spec f1 0); [done|]. destruct (Z.ltb_spec f2 0); [done|]. cbn [orb]. intros [= <- <- <-].
  destruct (alloc_fd_success p1 _ s6 f1 s7 Hs6 L1 (fun _ => R1) F1 ltac:(done)) as (d1 & Hd1 & Hf1 & Hz1 & K7 & C7 & Fr1 & D7 & N7 & X7).
  destruct (alloc_fd_success p2 (pipe_node e2 false) s7 f2 s8 Hs7 ltac:(by rewrite L2') ltac:(intros _; by rewrite R2') F2 ltac:(done))
    as (d2 & Hd2 & Hf2 & Hz2 & K8 & C8 & Fr2 & D8 & N8 & X8).
  assert (Hdd : d1 <> d2) by (intros <-; by rewrite D7, lookup_insert_eq in Fr2).
  assert (Hl6 : len (cur_fds s6) = 32) by apply (task_fds_len _ _ _ _ (kcur s6) Hi6 (fi_cur _ _ _ _ Hi6)).
  assert (Hff : f2 <> f1) by (intros ->; rewrite C7, arr_get_set_eq in Hz2 by lia; done).
  assert (Hsame : ends s8 = ends s6 /\ pipes s8 = pipes s6) by (rewrite K8, K7; done). destruct Hsame as [Ee Ep].
  assert (Hget : forall fd d, 3 <= fd < 32 -> arr_get (cur_fds s8) fd = d -> fd_get fd s8 = d).
  { intros fd d Hfd Hg. unfold fd_get, TASK_MAX_FDS. by rewrite (proj2 (Z.ltb_ge fd 0)), (proj2 (Z.leb_gt 32 fd)) by lia. }
  assert (Hcon : forall p, p ∈ [p2; p1; e2; e1; a] -> p <> 0 -> p <> console_stdin).
  { intros p Hp Hp0 ->. destruct (proj2 Hsp _ Hp Hp0) as [_ Hc]. unfold is_console in Hc. by rewrite Z.eqb_refl in Hc. }
  destruct Hnz as (Za & Ze1 & Ze2 & Zp1 & Zp2).
  exists a, d1, p1, e1, d2, p2, e2. split_and!; [split|split| |lia|lia|lia|lia|done|].
  - apply Hget; [done|]. rewrite C8, C7, arr_get_set_ne, arr_get_set_eq by (rewrite ?len_arr_set; lia). done.
  - exists (mk_fdesc p1 0 0 1). by rewrite D8, D7, lookup_insert_ne, lookup_insert_eq.
  - eexists. rewrite N8, lookup_insert_ne, N7, lookup_insert_eq by done. done.
  - rewrite Ee. cbn. by rewrite lookup_insert_ne, lookup_insert_eq.
  - split_and!; [done|done|]. apply Hcon; [right; left|done].
  - apply Hget; [done|]. rewrite C8, arr_get_set_eq by (rewrite C7, len_arr_set; lia). done.
  - exists (mk_fdesc p2 0 0 1). by rewrite D8, lookup_insert_eq.
  - eexists. rewrite N8, lookup_insert_eq by done. done.
  - rewrite Ee. cbn. by rewrite lookup_insert_eq.
  - split_and!; [done|done|]. apply Hcon; [left|done].
  - rewrite Ep. cbn. by rewrite lookup_insert_eq.
  - rewrite X8, X7. cbn. apply alloc_block_drivers in E1, E2, E3, E4, E5. congruence.
Qed.

(** * Writing and reading *)

(** Descriptors, nodes and ends are the same, and the rest of the kernel is. *)
Definition same_fds k k' : Prop :=
  descs k' = descs k /\ ends k' = ends k /\ ktasks k' = ktasks k /\ kcur k' = kcur k /\ nodes (kv k') = nodes (kv k) /\
  drivers (kv k') = drivers (kv k).
Lemma same_pipe_fd k k' fd a rd d p e : same_fds k k' -> pipe_fd k fd a rd d p e -> pipe_fd k' fd a rd d p e.
Proof.
  intros (Ed & Ee & Et & Ec & En & _) []. split; rewrite ?Ed, ?Ee, ?En; try done. unfold fd_get, cur_fds, cur_task in *. by rewrite Et, Ec.
Qed.
Lemma kbuf_alloc_same size k kbuf k' : kbuf_alloc size k = (kbuf, k') -> same_fds k k' /\ pipes k' = pipes k.
Proof.
  unfold kbuf_alloc, alloc_block. destruct (size =? 0); [by intros [= <- <-]|]. destruct (k_alloc _ _) as [r h]. by intros [= <- <-].
Qed.
Lemma free_block_same b k : same_fds k (free_block b k) /\ pipes (free_block b k) = pipes k.
Proof. unfold free_block. by destruct (b =? 0). Qed.
Lemma free_block_drivers b k : drivers (kv (free_block b k)) = drivers (kv k).
Proof. unfold free_block. by destruct (b =? 0). Qed.
Lemma same_fds_trans k1 k2 k3 : same_fds k1 k2 -> same_fds k2 k3 -> same_fds k1 k3.
Proof. intros (? & ? & ? & ? & ? & ?) (? & ? & ? & ? & ? & ?). split_and!; congruence. Qed.

Lemma pipe_at_fd k fd a rd d p e q :
  pipe_fd k fd a rd d p e -> pipes k !! a = Some q -> pipe_at p k = Some (mk_end a rd (negb rd), a, q).
Proof.
  intros Hf Ha. destruct (pf_node _ _ _ _ _ _ _ Hf) as (n & Hn & _ & Hd & _). unfold pipe_at. rewrite (node_at_eq _ _ _ Hn), Hd.
  rewrite (pf_end _ _ _ _ _ _ _ Hf). cbn. by rewrite Ha.
Qed.

Lemma pipe_write_call s fd a d p e q buf n w t :
  pipe_fd (kf s) fd a false d p e -> pipes (kf s) !! a = Some q -> pipe_ok q -> 0 < readers q -> 0 < n <= 4096 ->
  sys_write fd buf n s = Some (w, t) -> w <> -1 ->
  exists data q', fetch_n (um s) buf (Z.to_nat n) = Some data /\ w = Z.min n (4096 - len (contents q)) /\
    um t = um s /\ same_fds (kf s) (kf t) /\ pipes (kf t) !! a = Some q' /\
    pipe_ok q' /\ same_ends q q' /\ contents q' = contents q ++ take (Z.to_nat w) data.
Proof.
  intros Hf Ha Hok Hr Hn. destruct (pf_desc _ _ _ _ _ _ _ Hf) as (f & Hd & Hp).
  destruct (pf_node _ _ _ _ _ _ _ Hf) as (nd & Hnd & Hty & _ & _ & Hwr). destruct (pf_null _ _ _ _ _ _ _ Hf) as (Hd0 & Hp0 & _).
  unfold sys_write. destruct (_ || _ || _); [intros [= <- <-]; lia|]. cbv zeta. rewrite (pf_fd _ _ _ _ _ _ _ Hf).
  rewrite (proj2 (Z.eqb_neq d 0)) by done. assert (Hat : desc_at (kf s) d = f) by (unfold desc_at; by rewrite Hd). rewrite Hat, Hp.
  rewrite (proj2 (Z.eqb_neq p 0)) by done. unfold vv. rewrite (node_at_eq _ _ _ Hnd), Hwr. change (PIPE_WRITE =? 0) with false. cbn [orb].
  rewrite (proj2 (Z.ltb_ge 4096 n)) by lia. destruct (negb _); [intros [= <- <-]; lia|]. unfold run_fd.
  destruct (kbuf_alloc n (kf s)) as [kbuf k1] eqn:Ek. destruct (kbuf_alloc_same _ _ _ _ Ek) as [Hsame Ep1]. cbv beta iota zeta.
  destruct (_ && _); [intros [= <- <-]; lia|]. change (um (s <| kf := k1 |>)) with (um s). change (kf (s <| kf := k1 |>)) with k1.
  destruct (fetch_n (um s) buf (Z.to_nat n)) as [data|] eqn:Ef; [|done]. destruct (fetch_n_bytes _ _ _ _ Ef) as [Hlen _].
  assert (Hf1 : pipe_fd k1 fd a false d p e) by by eapply same_pipe_fd.
  unfold file_write, pipe_node_write. rewrite (proj2 (Z.eqb_neq (len data) 0)) by lia. destruct Hsame as (S1 & S2 & S3 & S4 & S5 & S6).
  assert (Hnd1 : node_at (kv k1) p = nd) by (apply node_at_eq; by rewrite S5). rewrite Hnd1, Hwr, Z.eqb_refl.
  rewrite (pipe_at_fd _ _ _ _ _ _ _ q Hf1) by by rewrite Ep1. cbn [negb writable].
  pose proof (pipe_write_facts data q Hok Hr) as Hpw. destruct (pipe_write data q) as [[m q'] ev].
  destruct Hpw as (Hok' & Hse & Hm & Hc & _). cbv beta iota zeta. 
  destruct (free_block_same kbuf (put_pipe a q' ev k1)) as [(F1 & F2 & F3 & F4 & F5 & F7) F6].
  assert (Hty' : node_at (kv (free_block kbuf (put_pipe a q' ev k1))) p = nd) by (apply node_at_eq; rewrite F5; cbn; by rewrite S5).
  rewrite Hty', bool_decide_eq_true_2 by done. rewrite andb_false_r. intros [= <- <-] _.
  assert (Hm0 : 0 <= m <= 4096) by (pose proof (len_contents q Hok) as Hq; destruct Hok; unfold len in *; lia).
  exists data, q'. assert (Es : s32 m = m) by (unfold s32; rewrite Z.mod_small; lia). rewrite Es. split; [done|]. split; [rewrite Hm; lia|]. split; [done|].
  set (k2 := free_block kbuf (put_pipe a q' ev k1)) in *. split; [|split; [|done]].
  - change (same_fds (kf s) k2). split_and!; [rewrite F1|rewrite F2|rewrite F3|rewrite F4|rewrite F5|rewrite F7]; done.
  - change (pipes k2 !! a = Some q'). rewrite F6. cbn. by rewrite lookup_insert_eq.
Qed.

Lemma pipe_read_call s fd a d p e q buf n r t :
  m_ok (um s) -> pipe_fd (kf s) fd a true d p e -> pipes (kf s) !! a = Some q -> pipe_ok q -> 0 < n ->
  sys_read fd buf n s = Some (r, t) -> r <> -1 ->
  r = Z.min n (len (contents q)) /\ drivers (vv t) = drivers (vv s) /\ forall i, 0 <= i < r -> u_byte (um t) (buf + i) = arr_get (contents q) i.
Proof.
  intros Hm Hf Ha Hok Hn. destruct (pf_desc _ _ _ _ _ _ _ Hf) as (f & Hd & Hp).
  destruct (pf_node _ _ _ _ _ _ _ Hf) as (nd & Hnd & _ & _ & Hrd & _). destruct (pf_null _ _ _ _ _ _ _ Hf) as (Hd0 & Hp0 & Hpc).
  unfold sys_read. cbv zeta. rewrite (pf_fd _ _ _ _ _ _ _ Hf). destruct (_ || _); [intros [= <- <-]; lia|].
  assert (Hat : desc_at (kf s) d = f) by (unfold desc_at; by rewrite Hd). rewrite Hat, Hp.
  rewrite (proj2 (Z.eqb_neq p 0)), (proj2 (Z.eqb_neq p console_stdin)) by done. cbn [andb]. unfold run_fd.
  destruct (kbuf_alloc n (kf s)) as [kbuf k1] eqn:Ek. destruct (kbuf_alloc_same _ _ _ _ Ek) as [Hsame Ep1]. cbv beta iota zeta.
  destruct (_ && _); [intros [= <- <-]; lia|]. change (kf (s <| kf := k1 |>)) with k1.
  assert (Hf1 : pipe_fd k1 fd a true d p e) by by eapply same_pipe_fd.
  destruct Hsame as (S1 & S2 & S3 & S4 & S5 & S6). unfold file_read, pipe_node_read. rewrite (proj2 (Z.eqb_neq n 0)) by lia.
  assert (Hnd1 : node_at (kv k1) p = nd) by (apply node_at_eq; by rewrite S5). rewrite Hnd1, Hrd, Z.eqb_refl.
  rewrite (pipe_at_fd _ _ _ _ _ _ _ q Hf1) by by rewrite Ep1. cbn [negb readable].
  pose proof (pipe_read_facts n q Hok ltac:(lia)) as Hpr. destruct (pipe_read n q) as [[bytes q'] ev].
  destruct Hpr as (_ & _ & Hb & _). cbv beta iota zeta.
  assert (Hlb : len bytes = Z.min n (len (contents q))) by (rewrite Hb; unfold len; rewrite length_take; lia).
  rewrite andb_false_r. cbn [sleep_if]. destruct (Z.ltb_spec 0 (len bytes)) as [Hpos|Hpos].
  - destruct (negb _); [intros [= <- <-]; lia|]. unfold store.
    match goal with |- context [put_n buf ?l ?m] => change m with (um s); replace l with bytes by (unfold len; by rewrite Nat2Z.id, firstn_all) end.
    destruct (put_n buf bytes (um s)) as [m'|] eqn:Eput; [|done]. intros [= <- <-] _. split; [done|]. split; [etransitivity; [apply free_block_drivers|exact S6]|]. intros i Hi.
    destruct (put_n_bytes bytes buf (um s) m' Hm Eput) as [_ Hin]. cbn [um].
    change (u_byte m' (buf + i) = arr_get (contents q) i). rewrite Hin by done. rewrite Hb. unfold arr_get.
    apply lookup_total_take_lt. lia.
  - intros [= <- <-] _. split; [done|]. split; [etransitivity; [apply free_block_drivers|exact S6]|]. intros i Hi. lia.
Qed.

(** A C int in user memory. *)
Definition int_at (m : M) (a : Z) : Z :=
  u_byte m a + 256 * (u_byte m (a + 1) + 256 * (u_byte m (a + 2) + 256 * u_byte m (a + 3))).
Lemma int_at_word (m : M) a bytes off z :
  0 <= z < 256 -> 0 <= off -> (forall i, 0 <= i < len bytes -> u_byte m (a + i) = arr_get bytes i) ->
  (forall i, 0 <= i < 4 -> off + i < len bytes /\ arr_get bytes (off + i) = arr_get (word_bytes 4 z) i) ->
  int_at m (a + off) = z.
Proof.
  intros Hz Ho Hb Hw. assert (Hi : forall i, 0 <= i < 4 -> u_byte m (a + off + i) = arr_get (word_bytes 4 z) i).
  { intros i Hi. destruct (Hw i Hi) as [Hl E]. rewrite <- E, <- Z.add_assoc. apply Hb. lia. }
  unfold int_at. pose proof (Hi 0 ltac:(lia)) as E0. rewrite Z.add_0_r in E0. rewrite E0, (Hi 1), (Hi 2), (Hi 3) by lia.
  change (arr_get (word_bytes 4 z) 0) with (z mod 256). change (arr_get (word_bytes 4 z) 1) with (z / 256 mod 256).
  change (arr_get (word_bytes 4 z) 2) with (z / 256 / 256 mod 256). change (arr_get (word_bytes 4 z) 3) with (z / 256 / 256 / 256 mod 256).
  Z.div_mod_to_equations. lia.
Qed.

(** The process has no signal to handle, or is handling one. *)
Definition no_signal s : Prop :=
  match sched_task (xs s) with
  | None => True
  | Some t => active_signal t <> 0 \/ next_pending_signal t = 0
  end.
Lemma no_signal_return s frame r : no_signal s -> handle_syscall_signals frame r s = Some s.
Proof.
  unfold no_signal, handle_syscall_signals, signal_due. destruct (sched_task (xs s)) as [t|]; [|done]. unfold signal_action_of.
  intros [Ha|Hp]; [by rewrite (proj2 (Z.eqb_neq _ _)) by done|]. destruct (negb _); [done|]. by rewrite Hp.
Qed.
Lemma no_signal_same s t : drivers (vv t) = drivers (vv s) -> no_signal s -> no_signal t.
Proof. intros E. unfold no_signal, xs. by rewrite E. Qed.

(** The three calls as the handler makes them, when they do not return -1. *)
Lemma handler_pipe fds a2 a3 a4 frame s s1 :
  syscall_handler SYS_PIPE fds a2 a3 a4 frame s = Some (0, s1) ->
  exists t, call_pipe fds s = Some (0, t) /\ (no_signal t -> s1 = t).
Proof.
  unfold syscall_handler. change (dispatch s SYS_PIPE fds a2 a3 a4 frame) with (check (ptr_ok s fds (INT_SIZE * 2) true) (Done (call_pipe fds s))).
  destruct (ptr_ok _ _ _ _); cbn [check]; [|done]. destruct (call_pipe fds s) as [[r t]|] eqn:E; [|done]. change (SYS_PIPE =? SYS_SIGRETURN) with false.
  cbv iota. assert (Hr : r = 0 \/ r = -1).
  { unfold call_pipe in E. destruct (sys_pipe socket_close (kf s)) as [[r0 [rfd wfd]] k]. cbv zeta in E.
    destruct (negb _); [injection E as <- <-; by right|]. destruct (store _ _ _); [|done]. injection E as <- <-. by left. }
  destruct (handle_syscall_signals frame (u64 r) t) as [t'|] eqn:Es; [|done]. intros [= Hu <-].
  destruct Hr as [->| ->]; [|done]. exists t. split; [done|]. intros Hn. rewrite no_signal_return in Es by done. congruence.
Qed.
Lemma handler_write fd buf n a4 frame s w t :
  syscall_handler SYS_WRITE fd buf n a4 frame s = Some (w, t) -> w <> u64 (-1) ->
  exists r u, sys_write (s32 fd) buf n s = Some (r, u) /\ w = u64 r /\ r <> -1 /\ (no_signal u -> t = u).
Proof.
  unfold syscall_handler. change (dispatch s SYS_WRITE fd buf n a4 frame) with (check (buf_ok s buf n false) (Done (sys_write (s32 fd) buf n s))).
  destruct (buf_ok _ _ _ _); cbn [check]; [|by intros [= <- <-]]. destruct (sys_write (s32 fd) buf n s) as [[r u]|]; [|done].
  change (SYS_WRITE =? SYS_SIGRETURN) with false. cbv iota.
  destruct (handle_syscall_signals frame (u64 r) u) as [t'|] eqn:Es; [|done]. intros [= <- <-] Hw.
  exists r, u. split_and!; [done|done|by intros ->|]. intros Hn. rewrite no_signal_return in Es by done. congruence.
Qed.
Lemma handler_read fd buf n a4 frame s w t :
  syscall_handler SYS_READ fd buf n a4 frame s = Some (w, t) -> w <> u64 (-1) ->
  exists r u, sys_read (s32 fd) buf (u32 n) s = Some (r, u) /\ w = u64 r /\ r <> -1 /\ (no_signal u -> t = u).
Proof.
  unfold syscall_handler. change (dispatch s SYS_READ fd buf n a4 frame) with (check (buf_ok s buf n true) (Done (sys_read (s32 fd) buf (u32 n) s))).
  destruct (buf_ok _ _ _ _); cbn [check]; [|by intros [= <- <-]]. destruct (sys_read (s32 fd) buf (u32 n) s) as [[r u]|]; [|done].
  change (SYS_READ =? SYS_SIGRETURN) with false. cbv iota.
  destruct (handle_syscall_signals frame (u64 r) u) as [t'|] eqn:Es; [|done]. intros [= <- <-] Hw.
  exists r, u. split_and!; [done|done|by intros ->|]. intros Hn. rewrite no_signal_return in Es by done. congruence.
Qed.

(** What [sys_pipe] leaves: its two descriptors in user memory. *)
Lemma call_pipe_ends s fds s1 :
  fd_safe (kf s) -> m_ok (um s) -> call_pipe fds s = Some (0, s1) ->
  exists rfd wfd a d1 p1 e1 d2 p2 e2, int_at (um s1) fds = rfd /\ int_at (um s1) (fds + 4) = wfd /\
    3 <= rfd < 32 /\ 3 <= wfd < 32 /\ m_ok (um s1) /\ drivers (vv s1) = drivers (vv s) /\
    pipe_fd (kf s1) rfd a true d1 p1 e1 /\ pipe_fd (kf s1) wfd a false d2 p2 e2 /\ pipes (kf s1) !! a = Some new_pipe.
Proof.
  intros Hs Hm Hc. unfold call_pipe in Hc. destruct (sys_pipe socket_close (kf s)) as [[r0 [rfd wfd]] k] eqn:Es.
  cbv beta iota zeta in Hc. destruct (Z.eqb_spec r0 0) as [->|]; [|done]. cbn [negb] in Hc. unfold store in Hc.
  change (um (s <| kf := k |>)) with (um s) in Hc. set (bytes := word_bytes 4 rfd ++ word_bytes 4 wfd) in Hc.
  destruct (put_n fds bytes (um s)) as [m1|] eqn:Ep; [|done]. injection Hc as E1. assert (E2 : s1 = mk_ksys k m1) by (rewrite <- E1; by destruct s). clear E1. subst s1.
  destruct (pipe_call_success (kf s) rfd wfd k Hs Es) as (a & d1 & p1 & e1 & d2 & p2 & e2 & F1 & F2 & Ha & R1 & R2 & _ & Hx).
  destruct (put_n_bytes bytes fds (um s) m1 Hm Ep) as [_ Hb].
  exists rfd, wfd, a, d1, p1, e1, d2, p2, e2. cbn [um kf]. assert (Hm1 : m_ok m1) by (by eapply put_n_ok).
  assert (Hw : forall off z, 0 <= z < 256 -> 0 <= off -> (forall i, 0 <= i < 4 -> off + i < 8 /\ arr_get bytes (off + i) = arr_get (word_bytes 4 z) i) ->
    int_at m1 (fds + off) = z).
  { intros off z Hz Ho Hi. apply (int_at_word m1 fds bytes); [lia|lia|exact Hb|]. intros i Hi'. unfold bytes. rewrite len_app, !len_word_bytes. by apply Hi. }
  split_and!; [rewrite <- (Z.add_0_r fds)| |lia..|done|exact Hx|done|done|done]; (apply Hw; [lia|lia|]); intros i Hi; (split; [lia|]);
    assert (i = 0 \/ i = 1 \/ i = 2 \/ i = 3) as [->|[->|[->| ->]]] by lia; done.
Qed.

(** C29: A pipe through three system calls, as [syscall_handler] makes them.  After
    [SYS_PIPE] returned 0, what [SYS_WRITE] takes from user memory at [src] with the second
    of the two descriptors that were stored at [fds], up to 4096 bytes, [SYS_READ] with the
    first one puts into user memory at [dst]: both calls, unless they return -1, move all
    [n] bytes, and they arrive unchanged.  The process has no other use of the pipe between
    the calls and no signal to handle. *)
Theorem syscall_pipe_roundtrip s fds a2 a3 a4 f1 s1 src n b4 f2 w s2 dst c4 f3 r s3 :
  fd_safe (kf s) -> m_ok (um s) -> no_signal s -> 0 < n <= 4096 ->
  syscall_handler SYS_PIPE fds a2 a3 a4 f1 s = Some (0, s1) ->
  syscall_handler SYS_WRITE (int_at (um s1) (fds + 4)) src n b4 f2 s1 = Some (w, s2) -> w <> u64 (-1) ->
  syscall_handler SYS_READ (int_at (um s1) fds) dst n c4 f3 s2 = Some (r, s3) -> r <> u64 (-1) ->
  w = n /\ r = n /\ forall i, 0 <= i < n -> u_byte (um s3) (dst + i) = u_byte (um s1) (src + i).
Proof.
  intros Hs Hm Hno Hn Hc Hw Hw0 Hr Hr0. destruct (handler_pipe _ _ _ _ _ _ _ Hc) as (t1 & Ec & Et1).
  destruct (call_pipe_ends s fds t1 Hs Hm Ec) as (rfd & wfd & a & d1 & p1 & e1 & d2 & p2 & e2 & I1 & I2 & R1 & R2 & Hm1 & Hx1 & F1 & F2 & Ha).
  assert (N1 : no_signal t1) by (by eapply no_signal_same). specialize (Et1 N1). subst s1. rewrite I2 in Hw. rewrite I1 in Hr.
  destruct (handler_write _ _ _ _ _ _ _ _ Hw Hw0) as (w' & t2 & Ew & -> & Hw1 & Et2). destruct (handler_read _ _ _ _ _ _ _ _ Hr Hr0) as (r' & t3 & Er & -> & Hr1 & Et3).
  assert (Es : forall z, 3 <= z < 32 -> s32 z = z) by (intros z Hz; ulia). rewrite Es in Ew, Er by lia. destruct new_pipe_ok as [Hok0 Hc0].
  destruct (pipe_write_call t1 wfd a d2 p2 e2 new_pipe src n w' t2 F2 Ha Hok0 ltac:(by cbn) Hn Ew Hw1)
    as (data & q & Hf & -> & Eu & Hsame & Hq & Hok & _ & Hcq). rewrite Hc0 in *. change (len (@nil Z)) with 0 in *.
  assert (N2 : no_signal t2) by (apply (no_signal_same t1); [apply Hsame|done]). specialize (Et2 N2). subst s2.
  replace (Z.min n (4096 - 0)) with n in * by lia. cbn [app] in Hcq. rewrite (u32_id n) in Er by ulia.
  destruct (fetch_n_bytes _ _ _ _ Hf) as [Hlen Hdata]. rewrite firstn_all2 in Hcq by (unfold len in Hlen; lia).
  destruct (pipe_read_call t2 rfd a d1 p1 e1 q dst n r' t3) as (-> & Hx3 & Hout); [by rewrite Eu|by eapply same_pipe_fd|done|done|lia|done|done|].
  assert (N3 : no_signal t3) by (by apply (no_signal_same t2)). specialize (Et3 N3). subst s3.
  rewrite Hcq, Hlen in *. rewrite Z2Nat.id, Z.min_id, u64_id in * by (lia || ulia). split; [done|]. split; [done|].
  intros i Hi. rewrite Hout by lia. apply Hdata. lia.
Qed.
End Pipes.
