(* ===== verification/SysDemo.v ===== *)
(** The system calls evaluated on a concrete state: a task with one range of user memory,
    the directory of FdDemo and a new pipe. *)

From S2P Require Import Prelude Mem Task Sched Pipe Vfs VfsPath VfsTree VfsReach VfsProps VfsDemo Fd FdRefs FdSteps FdReach FdDemo Sys SysCalls SysSafe SysPipe.

(** * Memory for evaluation *)

(** One accessible range; what lies below [r_rw] can only be read. *)
Record range_mem := mk_range { r_lo : Z; r_rw : Z; r_hi : Z; r_bytes : gmap Z Z }.
#[export] Instance eta_range_mem : Eta range_mem := fun m => mk_range (r_lo m) (r_rw m) (r_hi m) (r_bytes m).
Definition in_range (m : range_mem) (a : Z) : bool := (r_lo m <=? a) && (a <? r_hi m).
Definition may_access (m : range_mem) (a : Z) (w : bool) : bool := in_range m a && (negb w || (r_rw m <=? a)).
Definition range_byte (m : range_mem) (a : Z) : Z := default 0 (r_bytes m !! a).
Fixpoint range_string (n : nat) (a : Z) (m : range_mem) : bool :=
  match n with
  | O => false
  | S n' => in_range m a && ((range_byte m a =? 0) || range_string n' (a + 1) m)
  end.
#[export] Instance range_user : UserMem range_mem := {
  u_ok := may_access;
  u_byte := range_byte;
  u_put a b m := m <| r_bytes := <[a := b]> (r_bytes m) |>;
  vmm_validate_ptr a n w m := (0 <? n) && may_access m a w && (a + n <=? r_hi m);
  vmm_validate_string a n m := range_string (Z.to_nat n) a m;
  is_mapped := in_range
}.
Lemma range_string_end m n : forall a, range_string n a m = true ->
  exists k, 0 <= k < Z.of_nat n /\ range_byte m (a + k) = 0 /\ forall i, 0 <= i <= k -> in_range m (a + i) = true.
Proof.
  induction n as [|n IH]; intros a; cbn [range_string]; [done|]. intros [Ha Hr]%andb_true_iff.
  destruct (Z.eqb_spec (range_byte m a) 0) as [E|E].
  - exists 0. rewrite Z.add_0_r. split_and!; [lia|lia|done|]. intros i Hi. by replace (a + i) with a by lia.
  - destruct (IH (a + 1) Hr) as (k & Hk & Hz & Hi). exists (k + 1). replace (a + (k + 1)) with (a + 1 + k) by lia.
    split_and!; [lia|lia|done|]. intros i Hi'. destruct (decide (i = 0)) as [->|]; [by rewrite Z.add_0_r|].
    replace (a + i) with (a + 1 + (i - 1)) by lia. apply Hi. lia.
Qed.
#[export] Instance range_laws : UserMemLaws range_mem.
Proof.
  refine {| m_ok _ := True |}.
  - intros m a n w i _ Hv Hi. cbn in *. unfold may_access, in_range in *. destruct w; cbn [negb orb] in *;
      rewrite !andb_true_iff, !Z.leb_le, !Z.ltb_lt in *; lia.
  - intros m a n _ Hv. cbn in *. destruct (range_string_end m (Z.to_nat n) a Hv) as (k & Hk & Hz & Hi).
    exists k. split; [lia|]. split; [done|]. intros i Hi'. unfold may_access. by rewrite Hi.
  - intros m a b _ Ha. split; [done|]. split; [done|]. cbn. unfold range_byte. cbn. split; [by rewrite lookup_insert_eq|].
    intros x Hx. by rewrite lookup_insert_ne.
  - intros m a _. cbn. unfold may_access. by intros [-> _]%andb_true_iff.
Defined.

(** No volumes, a keyboard without keys, a screen that takes everything. *)
#[export] Instance demo_env : SysEnv bump unit := {
  fat16_vfs_create _ v := (-1, v);
  ext2_vfs_create _ v := (-1, v);
  node_open _ := 0;
  console_read _ x := ([], x);
  console_write _ x := x;
  sleep_stdin x := x;
  vfs_sync v := (0, v);
  socket_close := no_socket
}.
(** A kernel whose calls fail, with the given task at the scheduler. *)
Definition demo_calls (t : task) : KernelCalls bump unit range_mem := {|
  kernel_call _ _ s := (-1, s);
  elf_load_process _ k := (-1, k);
  SysCalls.scheduler_waitpid _ _ k := (-1, 0, k);
  sched_task _ := Some t;
  set_sched_task _ x := x;
  sched_table _ := [];
  vmm_kernel_pml4 := 0;
  net_resolve _ k := (false, k);
  net_transmit _ _ _ k := (-1, k);
  raw_receive _ k := (None, k);
  socket_vfs_read := 6;
  socket_vfs_write := 7;
  socket_bind _ _ k := (-1, k);
  socket_connect _ _ k := (-1, k);
  socket_accept _ k := (-1, (0, 0), k);
  stream_recv _ _ k := (-1, [], k);
  stream_send _ _ k := (-1, k);
  exec_image _ _ _ _ s := (-1, s);
  frame_rsp _ _ := 0x8000000800;
  map_stack_page _ s := (false, s);
  terminate_current _ s := s;
  enter_handler _ _ _ _ _ x := x
|}.
#[export] Instance demo_calls_laws t : @KernelLaws bump unit range_mem _ _ (demo_calls t).
Proof. split; try done. intros sock length k k' r data [= <- <- <-] Hl. exact Hl. Qed.
(** A task without signals, and one that catches [SIGTERM] and has got it. *)
Definition calm_task : task := zero_task.
Definition sigterm_task : task :=
  zero_task <| signal_handlers := arr_set (replicate 32 0) SIGTERM 0x8000000000 |> <| pending_signals := signal_bit SIGTERM |>.

(** The memory holds the string "/a" at 0x8000000010 and five bytes at 0x8000000040. *)
Definition demo_mem : range_mem :=
  mk_range 0x8000000000 0x8000000000 0x8000001000
    (list_to_map (zip [0x8000000010; 0x8000000011; 0x8000000040; 0x8000000041; 0x8000000042; 0x8000000043; 0x8000000044]
                      [47; 97; 1; 2; 3; 4; 5])).
(** The task has the standard descriptors and "/a" at descriptor 3. *)
Definition sdemo0 : ksys bump unit range_mem := mk_ksys fdemo2 demo_mem.
Definition value (r : option (Z * ksys bump unit range_mem)) : option Z := let* p := r in Some (fst p).
Definition after (r : option (Z * ksys bump unit range_mem)) : ksys bump unit range_mem :=
  match r with Some p => snd p | None => sdemo0 end.

Lemma fdemo2_safe : fd_safe fdemo2.
Proof.
  apply (step_safe no_socket demo_static fdemo1); [|eapply step_open; [by vm_compute|right; reflexivity]].
  apply (step_safe no_socket demo_static fdemo0); [|by apply step_start; [lia|]].
  destruct (vfs_reachable_facts _ _ (proj2 demo_reachable)) as [[kids Ht] Ho].
  apply boot_safe; [exact no_socket|done| |by eapply tree_null|exact demo2_closed|reflexivity].
  destruct (tree_root _ _ _ Ht) as (n & Hn & _). by exists n.
Qed.

(** * A task without signals *)

Section Calm.
#[local] Instance calm_kernel : KernelCalls bump unit range_mem := demo_calls calm_task.
Definition sdemo1 := after (syscall_handler SYS_PIPE 0x8000000100 0 0 0 0 sdemo0).
Definition sdemo2 := after (syscall_handler SYS_WRITE (int_at (um sdemo1) 0x8000000104) 0x8000000040 5 0 0 sdemo1).
Definition sdemo3 := after (syscall_handler SYS_READ (int_at (um sdemo1) 0x8000000100) 0x8000000080 5 0 0 sdemo2).

Lemma syscall_pipe_roundtrip_witness :
  syscall_handler SYS_PIPE 0x8000000100 0 0 0 0 sdemo0 = Some (0, sdemo1) /\
  value (syscall_handler SYS_WRITE (int_at (um sdemo1) 0x8000000104) 0x8000000040 5 0 0 sdemo1) = Some 5 /\
  (forall i, 0 <= i < 5 -> u_byte (um sdemo3) (0x8000000080 + i) = u_byte (um sdemo1) (0x8000000040 + i)).
Proof.
  assert (E0 : syscall_handler SYS_PIPE 0x8000000100 0 0 0 0 sdemo0 = Some (0, sdemo1)) by (vm_compute; reflexivity).
  assert (E1 : syscall_handler SYS_WRITE (int_at (um sdemo1) 0x8000000104) 0x8000000040 5 0 0 sdemo1 = Some (5, sdemo2)) by (vm_compute; reflexivity).
  assert (E2 : syscall_handler SYS_READ (int_at (um sdemo1) 0x8000000100) 0x8000000080 5 0 0 sdemo2 = Some (5, sdemo3)) by (vm_compute; reflexivity).
  split; [exact E0|]. split; [unfold value; rewrite E1; reflexivity|].
  apply (syscall_pipe_roundtrip demo_static sdemo0 0x8000000100 0 0 0 0 sdemo1 0x8000000040 5 0 0 5 sdemo2 0x8000000080 0 0 5 sdemo3);
    [exact fdemo2_safe|exact I|right; reflexivity|lia|exact E0|exact E1|discriminate|exact E2|discriminate].
Defined.
End Calm.

(** * A task with a signal *)

(** The same memory, mapped read-only. *)
Definition ro_demo : ksys bump unit range_mem := mk_ksys fdemo2 (demo_mem <| r_rw := 0x8000001000 |>).

Definition range_of (o : @outcome bump unit range_mem) : Z * Z * Z :=
  match o with Done (Some (_, t)) => (r_lo (um t), r_rw (um t), r_hi (um t)) | _ => (0, 0, 0) end.

Section Signal.
#[local] Instance sigterm_kernel : KernelCalls bump unit range_mem := demo_calls sigterm_task.

End Signal.

Section Directory.
#[local] Instance calm_kernel2 : KernelCalls bump unit range_mem := demo_calls calm_task.
(** The root directory at descriptor 3, and its first entry. *)
Definition dir_demo : ksys bump unit range_mem :=
  mk_ksys (snd (open_node no_socket (fun _ => 0) (root_node demo2) 0 fdemo1)) demo_mem.
Definition dir_desc : file_description := desc_at (kf dir_demo) (fd_get 3 (kf dir_demo)).
Definition dir_first := vfs_readdir (fd_node dir_desc) 0 (vv dir_demo).
Definition dir_entry : vfs_dir_entry := default (mk_dir_entry [] VFS_NODE_FILE 0 0 0 0 0) (snd (fst dir_first)).
Lemma syscall_readdir_overflow_witness :
  syscall_handler SYS_READDIR 3 0x8000000FF8 OVERFLOW_COUNT 0 0 dir_demo = None.
Proof.
  refine (syscall_readdir_overflow dir_demo 3 dir_desc dir_entry (snd dir_first) 0x8000000FF8 0 0 _ _ _ _ _ _ _ _);
    [discriminate|by vm_compute|by vm_compute|by vm_compute|by vm_compute|by vm_compute|by vm_compute|by vm_compute].
Defined.
End Directory.
