(* ===== verification/Ext2.v ===== *)
(** The ext2 driver of src/src/fs/ext2.c: superblock and group descriptors, inodes,
    block and inode bitmaps, file blocks with one level of indirection, file contents,
    directories, mounting into the tree of the VFS.

    The disk is used through [SectorDev] of the FAT16 driver: [dev_read] and
    [dev_write] are [bcache_read_sector] and [bcache_write_sector].  Structures read from
    the disk stay lists of bytes that are accessed at the offsets of their fields.  A
    function that changes state is a function of the state with a result in [option]:
    [None] is undefined behaviour, a division by zero, an access outside a buffer or a loop
    that outruns its fuel.  [ext2_mutex] makes the allocation of a block and of an inode
    one step. *)

From S2P Require Import Prelude Vfs Fat16.

(** * Layout *)

Definition EXT2_SUPER_MAGIC : Z := 0xEF53.
Definition EXT2_FT_REG_FILE : Z := 1.
Definition SUPERBLOCK_SIZE : Z := 1024.
Definition GROUP_DESC_SIZE : Z := 32.
Definition INODE_SIZE : Z := 128.
(** [sizeof(struct ext2_node_data)] *)
Definition EXT2_NODE_DATA_SIZE : Z := 4.

Section Superblock.
Context (sb : list Z).
Definition s_blocks_count : Z := read_u32 sb 4.
Definition s_free_blocks_count : Z := read_u32 sb 12.
Definition s_free_inodes_count : Z := read_u32 sb 16.
Definition s_first_data_block : Z := read_u32 sb 20.
Definition s_log_block_size : Z := read_u32 sb 24.
Definition s_blocks_per_group : Z := read_u32 sb 32.
Definition s_inodes_per_group : Z := read_u32 sb 40.
Definition s_magic : Z := read_u16 sb 56.
Definition s_rev_level : Z := read_u32 sb 76.
Definition s_inode_size : Z := read_u16 sb 88.
End Superblock.

(** An inode is its 128 bytes. *)
Definition i_size (i : list Z) : Z := read_u32 i 4.
Definition i_blocks (i : list Z) : Z := read_u32 i 28.
Definition i_block (i : list Z) (k : Z) : Z := read_u32 i (40 + 4 * k).
Definition set_i_mode (v : Z) (i : list Z) : list Z := write_u16 0 v i.
Definition set_i_size (v : Z) (i : list Z) : list Z := write_u32 4 v i.
Definition set_i_links_count (v : Z) (i : list Z) : list Z := write_u16 26 v i.
Definition set_i_blocks (v : Z) (i : list Z) : list Z := write_u32 28 v i.
Definition set_i_block (k v : Z) (i : list Z) : list Z := write_u32 (40 + 4 * k) v i.

(** A slice of a buffer, undefined when it leaves the buffer. *)
Definition within (off n : Z) (buf : list Z) : bool := (0 <=? off) && (off + n <=? len buf).
Definition get_bytes (off n : Z) (buf : list Z) : option (list Z) :=
  if within off n buf then Some (slice_at off n buf) else None.
Definition get_u32 (off : Z) (buf : list Z) : option Z := if within off 4 buf then Some (read_u32 buf off) else None.
Definition get_u16 (off : Z) (buf : list Z) : option Z := if within off 2 buf then Some (read_u16 buf off) else None.
Definition copy_to (off : Z) (bytes buf : list Z) : option (list Z) :=
  if within off (len bytes) buf then Some (put_bytes off bytes buf) else None.
Definition div_c (a b : Z) : option Z := if b =? 0 then None else Some (a / b).

(** * State *)

(** The static variables, the disk, and the [ext2_node_data] blocks by address.
    [bg_desc] is the table of group descriptors; it is empty for the null pointer. *)
Record ext2 D := mk_ext2 {
  sb : list Z;
  bg_desc : list Z;
  num_groups : Z;
  block_size : Z;
  e2_lba : Z;
  ext2_mounted : bool;
  node_data : gmap Z Z;
  edev : D
}.
Arguments mk_ext2 {D} _ _ _ _ _ _ _ _.
Arguments sb {D} _.
Arguments bg_desc {D} _.
Arguments num_groups {D} _.
Arguments block_size {D} _.
Arguments e2_lba {D} _.
Arguments ext2_mounted {D} _.
Arguments node_data {D} _.
Arguments edev {D} _.
#[export] Instance eta_ext2 D : Eta (ext2 D) := fun s =>
  mk_ext2 (sb s) (bg_desc s) (num_groups s) (block_size s) (e2_lba s) (ext2_mounted s) (node_data s) (edev s).

(** With the kernel heap. *)
Record est H D := mk_est { ex : ext2 D; eh : H }.
Arguments mk_est {H D} _ _.
Arguments ex {H D} _.
Arguments eh {H D} _.
#[export] Instance eta_est H D : Eta (est H D) := fun s => mk_est (ex s) (eh s).

Section Ext2.
Context {H D : Type} `{Allocator H} `{SectorDev D}.
Implicit Types s : est H D.

Definition set_dev (d : D) s : est H D := s <| ex := ex s <| edev := d |> |>.
(** [kmalloc(size)], a computation with the buffer, [kfree] on all its exits; [dflt] is
    returned when there is no memory. *)
Definition with_buf {A} (dflt : A) (size : Z) (k : est H D -> option (A * est H D)) s : option (A * est H D) :=
  match k_alloc size (eh s) with
  | (None, h) => Some (dflt, s <| eh := h |>)
  | (Some p, h) => let* (a, t) := k (s <| eh := h |>) in Some (a, t <| eh := k_free p (eh t) |>)
  end.

(** [bcache_read_sectors] and [bcache_write_sectors] over one sector each. *)
Fixpoint read_run (n : nat) (lba i : Z) (d : D) : option (list Z) * D :=
  match n with
  | O => (Some [], d)
  | S n' =>
      match dev_read (u32 (lba + i)) d with
      | (None, d) => (None, d)
      | (Some data, d) =>
          match read_run n' lba (i + 1) d with
          | (Some rest, d) => (Some (data ++ rest), d)
          | (None, d) => (None, d)
          end
      end
  end.
Fixpoint write_run (n : nat) (lba i : Z) (buf : list Z) (d : D) : bool * D :=
  match n with
  | O => (true, d)
  | S n' =>
      match dev_write (u32 (lba + i)) (take 512 buf) d with
      | (false, d) => (false, d)
      | (true, d) => write_run n' lba (i + 1) (drop 512 buf) d
      end
  end.
Definition read_sectors_at (lba count : Z) s : option (list Z) * est H D :=
  if count =? 0 then (None, s)
  else let '(r, d) := read_run (Z.to_nat count) lba 0 (edev (ex s)) in (r, set_dev d s).
Definition write_sectors_at (lba count : Z) (buf : list Z) s : bool * est H D :=
  if count =? 0 then (false, s)
  else let '(r, d) := write_run (Z.to_nat count) lba 0 buf (edev (ex s)) in (r, set_dev d s).

Definition block_lba s (block : Z) : Z := u32 (e2_lba (ex s) + u32 (block * (block_size (ex s) / 512))).
Definition ext2_read_block (block : Z) s : option (list Z) * est H D :=
  read_sectors_at (block_lba s block) (block_size (ex s) / 512) s.
Definition ext2_write_block (block : Z) (buf : list Z) s : bool * est H D :=
  write_sectors_at (block_lba s block) (block_size (ex s) / 512) buf s.

(** * File blocks *)

Definition ext2_get_phys_block (inode : list Z) (file_block_num : Z) s : option (Z * est H D) :=
  if file_block_num <? 12 then Some (i_block inode file_block_num, s)
  else
    let indirect_index := file_block_num - 12 in
    if indirect_index <? block_size (ex s) / 4 then
      let sib := i_block inode 12 in
      if sib =? 0 then Some (0, s)
      else
        with_buf 0 (block_size (ex s)) (fun t =>
          match ext2_read_block sib t with
          | (None, u) => Some (0, u)
          | (Some buf, u) => let* phys := get_u32 (4 * indirect_index) buf in Some (phys, u)
          end) s
    else Some (0, s).

Definition ext2_read_file_block (inode : list Z) (file_block_num : Z) s : option (option (list Z) * est H D) :=
  let* (phys, t) := ext2_get_phys_block inode file_block_num s in
  if phys =? 0 then Some (Some (replicate (Z.to_nat (block_size (ex t))) 0), t)
  else Some (ext2_read_block phys t).

(** * Inodes *)

(** The block and the offset of an inode; the inner [None] is a group that does not exist. *)
Definition inode_place (inode_num : Z) s : option (option (Z * Z)) :=
  let per_group := s_inodes_per_group (sb (ex s)) in
  let* group := div_c (inode_num - 1) per_group in
  let index := (inode_num - 1) mod per_group in
  let inode_size := if s_rev_level (sb (ex s)) =? 0 then 128 else s_inode_size (sb (ex s)) in
  if num_groups (ex s) <=? group then Some None
  else
    let* table := get_u32 (GROUP_DESC_SIZE * group + 8) (bg_desc (ex s)) in
    let* q := div_c (u32 (index * inode_size)) (block_size (ex s)) in
    Some (Some (u32 (table + q), u32 (index * inode_size) mod block_size (ex s))).

Definition ext2_read_inode (inode_num : Z) s : option (option (list Z) * est H D) :=
  if negb (ext2_mounted (ex s)) || (inode_num =? 0) then Some (None, s)
  else
    let* place := inode_place inode_num s in
    match place with
    | None => Some (None, s)
    | Some (block, offset_in_block) =>
        with_buf None (block_size (ex s)) (fun t =>
          match ext2_read_block block t with
          | (None, u) => Some (None, u)
          | (Some buf, u) => let* inode := get_bytes offset_in_block INODE_SIZE buf in Some (Some inode, u)
          end) s
    end.

Definition ext2_write_inode (inode_num : Z) (inode : list Z) s : option (bool * est H D) :=
  if negb (ext2_mounted (ex s)) || (inode_num =? 0) then Some (false, s)
  else
    let* place := inode_place inode_num s in
    match place with
    | None => Some (false, s)
    | Some (block, offset_in_block) =>
        with_buf false (block_size (ex s)) (fun t =>
          match ext2_read_block block t with
          | (None, u) => Some (false, u)
          | (Some buf, u) =>
              let* buf' := copy_to offset_in_block inode buf in
              Some (ext2_write_block block buf' u)
          end) s
    end.

(** * Bitmaps *)

Definition ext2_write_bg_descriptors s : bool * est H D :=
  let bg_desc_block := u32 (s_first_data_block (sb (ex s)) + 1) in
  let size_desc_table := u32 (num_groups (ex s) * GROUP_DESC_SIZE) in
  write_sectors_at (block_lba s bg_desc_block) (u32 (size_desc_table + 511) / 512) (bg_desc (ex s)) s.
Definition ext2_write_superblock s : option (bool * est H D) :=
  with_buf false 1024 (fun t => Some (write_sectors_at (u32 (e2_lba (ex t) + 2)) 2 (sb (ex t)) t)) s.

(** The lowest clear bit below [i + n], from bit [i] on; the inner [None] is -1. *)
Fixpoint find_free_bit (bitmap : list Z) (n : nat) (i : Z) : option (option Z) :=
  match n with
  | O => Some None
  | S n' =>
      if within (i / 8) 1 bitmap then
        if Z.land (arr_get bitmap (i / 8)) (Z.shiftl 1 (i mod 8)) =? 0 then Some (Some i)
        else find_free_bit bitmap n' (i + 1)
      else None
  end.

(** What the two allocators differ in: the offsets of the bitmap's block and of the free
    count in a descriptor, the offset of the free count in the superblock, and the number
    of bits of a group. *)
Record bit_kind := mk_kind { k_bitmap : Z; k_group_count : Z; k_total_count : Z; k_bits : list Z -> Z }.
Definition block_bits : bit_kind := mk_kind 0 12 12 s_blocks_per_group.
Definition inode_bits : bit_kind := mk_kind 4 14 16 s_inodes_per_group.

Definition set_bit (i : Z) (bitmap : list Z) : list Z :=
  arr_set bitmap (i / 8) (u8 (Z.lor (arr_get bitmap (i / 8)) (Z.shiftl 1 (i mod 8)))).
(** The counts after bit [free_bit] of group [g] has been set on the disk. *)
Definition take_bit (k : bit_kind) (g : Z) s : option (est H D) :=
  let* count := get_u16 (GROUP_DESC_SIZE * g + k_group_count k) (bg_desc (ex s)) in
  let s1 := s <| ex := ex s <| bg_desc := write_u16 (GROUP_DESC_SIZE * g + k_group_count k) (u16 (count - 1)) (bg_desc (ex s)) |> |> in
  let '(_, s2) := ext2_write_bg_descriptors s1 in
  let total := read_u32 (sb (ex s2)) (k_total_count k) in
  let s3 := s2 <| ex := ex s2 <| sb := write_u32 (k_total_count k) (u32 (total - 1)) (sb (ex s2)) |> |> in
  let* (_, t) := ext2_write_superblock s3 in
  Some t.
(** The groups from [g] on, [n] of them; a group whose bitmap cannot be read or written is
    skipped. *)
Fixpoint alloc_loop (k : bit_kind) (n : nat) (g : Z) s : option (option (Z * Z) * est H D) :=
  match n with
  | O => Some (None, s)
  | S n' =>
      let* count := get_u16 (GROUP_DESC_SIZE * g + k_group_count k) (bg_desc (ex s)) in
      if 0 <? count then
        let* bitmap_block := get_u32 (GROUP_DESC_SIZE * g + k_bitmap k) (bg_desc (ex s)) in
        match ext2_read_block bitmap_block s with
        | (None, s1) => alloc_loop k n' (g + 1) s1
        | (Some bitmap, s1) =>
            let* r := find_free_bit bitmap (Z.to_nat (k_bits k (sb (ex s1)))) 0 in
            match r with
            | None => alloc_loop k n' (g + 1) s1
            | Some free_bit =>
                match ext2_write_block bitmap_block (set_bit free_bit bitmap) s1 with
                | (false, s2) => alloc_loop k n' (g + 1) s2
                | (true, s2) => let* t := take_bit k g s2 in Some (Some (g, free_bit), t)
                end
            end
        end
      else alloc_loop k n' (g + 1) s
  end.
Definition alloc_bit (k : bit_kind) s : option (option (Z * Z) * est H D) :=
  with_buf None (block_size (ex s)) (fun t => alloc_loop k (Z.to_nat (num_groups (ex t))) 0 t) s.
Definition ext2_alloc_block s : option (Z * est H D) :=
  let* (r, t) := alloc_bit block_bits s in
  Some (match r with
        | None => 0
        | Some (g, free_bit) =>
            u32 (g * s_blocks_per_group (sb (ex t)) + free_bit + s_first_data_block (sb (ex t)))
        end, t).
Definition ext2_alloc_inode s : option (Z * est H D) :=
  let* (r, t) := alloc_bit inode_bits s in
  Some (match r with
        | None => 0
        | Some (g, free_bit) => u32 (g * s_inodes_per_group (sb (ex t)) + free_bit + 1)
        end, t).

(** * File contents *)

Definition zero_block s : list Z := replicate (Z.to_nat (block_size (ex s))) 0.

(** The file blocks from [b] to [end_block]; the result is what has been copied to the
    caller's buffer.  The index is a [uint32_t]: with [end_block] 2^32 - 1 the loop does not
    end. *)
Fixpoint read_loop (fuel : nat) (inode : list Z) (offset size start_block end_block b : Z) (acc : list Z) s
    : option (list Z * est H D) :=
  match fuel with
  | O => None
  | S fuel' =>
      if b <=? end_block then
        let* (r, t) := ext2_read_file_block inode b s in
        match r with
        | None => Some (acc, t)
        | Some block_buf =>
            let block_offset := if b =? start_block then offset mod block_size (ex t) else 0 in
            let chunk_size := block_size (ex t) - block_offset in
            let chunk_size := if size <? u32 (len acc + chunk_size) then u32 (size - len acc) else chunk_size in
            let* chunk := get_bytes block_offset chunk_size block_buf in
            read_loop fuel' inode offset size start_block end_block (u32 (b + 1)) (acc ++ chunk) t
        end
      else Some (acc, s)
  end.
(** [inode_num] is the number in the node's data. *)
Definition ext2_vfs_read (fuel : nat) (inode_num offset size : Z) s : option (list Z * est H D) :=
  if negb (ext2_mounted (ex s)) || (inode_num =? 0) then Some ([], s)
  else
    let* (r, t) := ext2_read_inode inode_num s in
    match r with
    | None => Some ([], t)
    | Some inode =>
        if i_size inode <=? offset then Some ([], t)
        else
          let size := if i_size inode <? u64 (offset + size) then u32 (i_size inode - offset) else size in
          let* start_block := div_c offset (block_size (ex t)) in
          let start_block := u32 start_block in
          let end_block := u32 (u64 (offset + size - 1) / block_size (ex t)) in
          with_buf [] (block_size (ex t)) (read_loop fuel inode offset size start_block end_block start_block []) t
    end.

(** [memory_zero] of a new buffer that is written to a block. *)
Definition write_zero_block (block : Z) s : option (bool * est H D) :=
  with_buf false (block_size (ex s)) (fun t => Some (ext2_write_block block (zero_block t) t)) s.
(** The inode is changed in place, on some failures too. *)
Definition ensure_indirect (inode : list Z) s : option (bool * list Z * est H D) :=
  if i_block inode 12 =? 0 then
    let* (sib, t) := ext2_alloc_block s in
    if sib =? 0 then Some (false, inode, t)
    else
      let* (ok, u) := write_zero_block sib t in
      if negb ok then Some (false, inode, u)
      else Some (true, set_i_blocks (u32 (i_blocks inode + block_size (ex u) / 512)) (set_i_block 12 sib inode), u)
  else Some (true, inode, s).
Definition ext2_set_phys_block (inode : list Z) (file_block_num phys_block : Z) s : option (bool * list Z * est H D) :=
  if file_block_num <? 12 then Some (true, set_i_block file_block_num phys_block inode, s)
  else
    let indirect_index := file_block_num - 12 in
    if indirect_index <? block_size (ex s) / 4 then
      let* (r, t) := ensure_indirect inode s in
      let '(ok, inode) := r in
      if negb ok then Some (false, inode, t)
      else
        let sib := i_block inode 12 in
        let* (ok, u) := with_buf false (block_size (ex t)) (fun t =>
          match ext2_read_block sib t with
          | (None, u) => Some (false, u)
          | (Some buf, u) =>
              let* buf' := copy_to (4 * indirect_index) (le32 phys_block) buf in
              Some (ext2_write_block sib buf' u)
          end) t in
        Some (ok, inode, u)
    else Some (false, inode, s).

(** [n] blocks from [b] on are added to the file, as far as that succeeds. *)
Fixpoint grow_loop (n : nat) (b : Z) (inode : list Z) s : option (list Z * est H D) :=
  match n with
  | O => Some (inode, s)
  | S n' =>
      let* (phys, t) := ext2_alloc_block s in
      if phys =? 0 then Some (inode, t)
      else
        let* (_, u) := write_zero_block phys t in
        let* (r, w) := ext2_set_phys_block inode b phys u in
        let '(ok, inode) := r in
        if negb ok then Some (inode, w)
        else grow_loop n' (b + 1) (set_i_blocks (u32 (i_blocks inode + block_size (ex w) / 512)) inode) w
  end.
(** The value is [bytes_written]. *)
Fixpoint write_loop (fuel : nat) (inode : list Z) (offset size : Z) (buffer : list Z) (bytes_written : Z) s
    : option (Z * est H D) :=
  match fuel with
  | O => None
  | S fuel' =>
      if bytes_written <? size then
        let cur_offset := u64 (offset + bytes_written) in
        let file_block := u32 (cur_offset / block_size (ex s)) in
        let block_offset := cur_offset mod block_size (ex s) in
        let chunk_size := Z.min (block_size (ex s) - block_offset) (size - bytes_written) in
        let* (phys_block, t) := ext2_get_phys_block inode file_block s in
        if phys_block =? 0 then Some (bytes_written, t)
        else
          let '(old, u) := if (0 <? block_offset) || (chunk_size <? block_size (ex t))
                           then ext2_read_block phys_block t else (Some (zero_block t), t) in
          match old with
          | None => Some (bytes_written, u)
          | Some block_buf =>
              let* block_buf' := copy_to block_offset (slice_at bytes_written chunk_size buffer) block_buf in
              match ext2_write_block phys_block block_buf' u with
              | (false, w) => Some (bytes_written, w)
              | (true, w) => write_loop fuel' inode offset size buffer (u32 (bytes_written + chunk_size)) w
              end
          end
      else Some (bytes_written, s)
  end.
(** A block that is overwritten as a whole starts as zeros here, as anything in the code.
    Every round but the first and the last writes a whole block.  The second value is the
    new [node->size], when it is set. *)
Definition ext2_vfs_write (inode_num offset : Z) (buffer : list Z) s : option (Z * option Z * est H D) :=
  let size := len buffer in
  let* (r, t) := ext2_read_inode inode_num s in
  match r with
  | None => Some (0, None, t)
  | Some inode =>
      let bs := block_size (ex t) in
      let* current_blocks := div_c (u32 (i_size inode + bs - 1)) bs in
      let required_blocks := u32 (u64 (offset + size + bs - 1) / bs) in
      let* (inode, u) := grow_loop (Z.to_nat (required_blocks - current_blocks)) current_blocks inode t in
      let* (w, u1) := with_buf None bs (fun u0 =>
        let* (n, u1) := write_loop (Z.to_nat (size / bs + 3)) inode offset size buffer 0 u0 in Some (Some n, u1)) u in
      match w with
      | None => Some (0, None, u1)
      | Some bytes_written =>
          let inode := if i_size inode <? u64 (offset + bytes_written)
                       then set_i_size (u32 (offset + bytes_written)) inode else inode in
          let* (ok, u2) := ext2_write_inode inode_num inode u1 in
          Some (if ok then (bytes_written, Some (i_size inode), u2) else (0, None, u2))
      end
  end.

(** * Directories *)

(** The walk over the records of a directory block.  [body] sees the offset of a record and
    goes on with a new value ([inl]) or ends the walk ([inr]); [T] is the state it works
    on. *)
Fixpoint dir_walk {T A R} (fuel : nat) (bs offset : Z) (buf : list Z)
    (body : Z -> A -> T -> option ((A + R) * T)) (acc : A) (t : T) : option ((A + R) * T) :=
  match fuel with
  | O => None
  | S fuel' =>
      if offset <? bs then
        let* rec_len := get_u16 (offset + 4) buf in
        if (rec_len <? 8) || (bs <? offset + rec_len) then Some (inl acc, t)
        else
          let* (r, t) := body offset acc t in
          match r with
          | inl acc => dir_walk fuel' bs (offset + rec_len) buf body acc t
          | inr x => Some (inr x, t)
          end
      else Some (inl acc, t)
  end.
(** A record has 8 bytes at least. *)
Definition walk_fuel_of (bs : Z) : nat := Z.to_nat (bs / 8 + 2).
(** The blocks [b], ..., [b + n - 1] of a directory, until one cannot be read or a walk
    ends; [body] gets the number and the bytes of the block first. *)
Fixpoint dir_blocks {T A R} (n : nat) (bs b : Z) (rd : Z -> T -> option (option (list Z) * T))
    (body : Z -> list Z -> Z -> A -> T -> option ((A + R) * T)) (acc : A) (t : T) : option ((A + R) * T) :=
  match n with
  | O => Some (inl acc, t)
  | S n' =>
      let* (r, t) := rd b t in
      match r with
      | None => Some (inl acc, t)
      | Some buf =>
          let* (r, t) := dir_walk (walk_fuel_of bs) bs 0 buf (body b buf) acc t in
          match r with
          | inl acc => dir_blocks n' bs (b + 1) rd body acc t
          | inr x => Some (inr x, t)
          end
      end
  end.
Definition dir_block_count (inode : list Z) (bs : Z) : option Z := div_c (u32 (i_size inode + bs - 1)) bs.

(** The fields of the record at [offset]; its name is the C string in it. *)
Fixpoint until_nul (l : list Z) : list Z :=
  match l with
  | [] => []
  | c :: l' => if c =? 0 then [] else c :: until_nul l'
  end.
Definition rec_inode (offset : Z) (buf : list Z) : Z := read_u32 buf offset.
Definition rec_name_len (offset : Z) (buf : list Z) : Z := arr_get buf (offset + 6).
Definition rec_type (offset : Z) (buf : list Z) : vfs_node_type :=
  if arr_get buf (offset + 7) =? 2 then VFS_NODE_DIRECTORY else VFS_NODE_FILE.
Definition is_dots (name : list Z) : bool :=
  ((len name =? 1) && (arr_get name 0 =? 46)) || ((len name =? 2) && (arr_get name 0 =? 46) && (arr_get name 1 =? 46)).
(** The bytes of the name of an entry in use that is neither "." nor "..". *)
Definition rec_name (offset : Z) (buf : list Z) : option (option (list Z)) :=
  if rec_inode offset buf =? 0 then Some None
  else
    let* name := get_bytes (offset + 8) (rec_name_len offset buf) buf in
    Some (if is_dots name then None else Some name).

Definition readdir_step (index b : Z) (buf : list Z) (offset current_index : Z) s
    : option ((Z + vfs_dir_entry) * est H D) :=
  let* r := rec_name offset buf in
  match r with
  | None => Some (inl current_index, s)
  | Some name =>
      if current_index =? index then
        let* (i, t) := ext2_read_inode (rec_inode offset buf) s in
        Some (inr (mk_dir_entry (copy_name (until_nul name)) (rec_type offset buf)
                     (match i with Some i => i_size i | None => 0 end) 0 0 0 0), t)
      else Some (inl (u32 (current_index + 1)), s)
  end.
Definition ext2_vfs_readdir (inode_num index : Z) s : option (Z * option vfs_dir_entry * est H D) :=
  let* (r, t) := ext2_read_inode inode_num s in
  match r with
  | None => Some (-1, None, t)
  | Some inode =>
      let bs := block_size (ex t) in
      let* n := dir_block_count inode bs in
      let* (r, u) := with_buf None bs (fun u =>
        let* (r, u) := dir_blocks (Z.to_nat n) bs 0 (ext2_read_file_block inode) (readdir_step index) 0 u in
        Some (Some r, u)) t in
      Some (match r with
            | None => (-1, None, u)
            | Some (inl _) => (0, None, u)
            | Some (inr e) => (1, Some e, u)
            end)
  end.

(** [8 + ((n + 3) & ~3)] *)
Definition rec_space (n : Z) : Z := u32 (8 + Z.land (u32 (n + 3)) (lnot32 3)).
(** [inode], [name_len], [file_type] and [name] of the record at [offset]. *)
Definition fill_record (offset inode_num file_type : Z) (name buf : list Z) : list Z :=
  put_bytes (offset + 8) name
    (arr_set (arr_set (write_u32 offset inode_num buf) (offset + 6) (u8 (len name))) (offset + 7) file_type).
(** The block with the new record, when there is room in the record at [offset]. *)
Definition place_record (offset inode_num file_type : Z) (name buf : list Z) : option (list Z) :=
  let needed_len := rec_space (len name) in
  let min_rec_len := rec_space (rec_name_len offset buf) in
  let rec_len := read_u16 buf (offset + 4) in
  if rec_inode offset buf =? 0 then
    if needed_len <=? rec_len then Some (fill_record offset inode_num file_type name buf) else None
  else if u32 (min_rec_len + needed_len) <=? rec_len then
    Some (fill_record (offset + min_rec_len) inode_num file_type name
            (write_u16 (offset + min_rec_len + 4) (u16 (rec_len - min_rec_len))
               (write_u16 (offset + 4) (u16 min_rec_len) buf)))
  else None.
Definition add_step (dir_inode name : list Z) (inode_num file_type b : Z) (buf : list Z) (offset : Z) (acc : unit) s
    : option ((unit + bool) * est H D) :=
  match place_record offset inode_num file_type name buf with
  | None => Some (inl acc, s)
  | Some buf' =>
      let* (phys, t) := ext2_get_phys_block dir_inode b s in
      let '(ok, u) := ext2_write_block phys buf' t in
      Some (inr ok, u)
  end.
(** A directory has at most 12 blocks. *)
Definition append_block (dir_inode_num : Z) (dir_inode name : list Z) (inode_num file_type n : Z) s : option (bool * est H D) :=
  if 12 <=? n then Some (false, s)
  else
    let* (new_block, t) := ext2_alloc_block s in
    if new_block =? 0 then Some (false, t)
    else
      let bs := block_size (ex t) in
      let buf := fill_record 0 inode_num file_type name (write_u16 4 (u16 bs) (zero_block t)) in
      match ext2_write_block new_block buf t with
      | (false, u) => Some (false, u)
      | (true, u) =>
          ext2_write_inode dir_inode_num
            (set_i_blocks (u32 (i_blocks dir_inode + bs / 512))
               (set_i_size (u32 ((n + 1) * bs)) (set_i_block n new_block dir_inode))) u
      end.
Definition ext2_add_dir_entry (dir_inode_num : Z) (name : list Z) (inode_num file_type : Z) s : option (bool * est H D) :=
  let* (r, t) := ext2_read_inode dir_inode_num s in
  match r with
  | None => Some (false, t)
  | Some dir_inode =>
      let name := take 255 name in
      let bs := block_size (ex t) in
      let* n := dir_block_count dir_inode bs in
      with_buf false bs (fun u =>
        let* (r, u) := dir_blocks (Z.to_nat n) bs 0 (ext2_read_file_block dir_inode)
                         (add_step dir_inode name inode_num file_type) tt u in
        match r with
        | inr ok => Some (ok, u)
        | inl _ => append_block dir_inode_num dir_inode name inode_num file_type n u
        end) t
  end.
End Ext2.

(** * The tree of the VFS *)

Definition EXT2_VFS_READ : Z := 6.
Definition EXT2_VFS_WRITE : Z := 7.
Definition EXT2_VFS_OPEN : Z := 8.
Definition EXT2_VFS_READDIR : Z := 9.

Section Mount.
Context {H D : Type} `{Allocator H} `{SectorDev D}.
Implicit Types v : vfs H (ext2 D).

Definition lift {A} (f : est H D -> option (A * est H D)) v : option (A * vfs H (ext2 D)) :=
  let* (a, t) := f (mk_est (drivers v) (vheap v)) in Some (a, v <| drivers := ex t |> <| vheap := eh t |>).
Definition set_ops (p : Z) v : vfs H (ext2 D) :=
  upd_node p (fun n => n <| vn_read := EXT2_VFS_READ |> <| vn_write := EXT2_VFS_WRITE |> <| vn_open := EXT2_VFS_OPEN |>
                         <| vn_readdir := EXT2_VFS_READDIR |>) v.
(** The new [ext2_node_data] of a node, when there is memory for it. *)
Definition attach_data (p inode_num : Z) v : vfs H (ext2 D) :=
  match k_alloc EXT2_NODE_DATA_SIZE (vheap v) with
  | (None, h) => v <| vheap := h |>
  | (Some q, h) =>
      upd_node p (fun n => n <| vn_data := q |>)
        (v <| vheap := h |> <| drivers := drivers v <| node_data := <[q := inode_num]> (node_data (drivers v)) |> |>)
  end.
(** The node of a directory entry whose inode has been read. *)
Definition mount_entry (parent : Z) (name : list Z) (type : vfs_node_type) (inode_num size : Z) v : Z * vfs H (ext2 D) :=
  let '(p, v) := vfs_create_node parent (until_nul name) type v in
  if p =? 0 then (0, v)
  else (p, set_ops p (attach_data p inode_num (upd_node p (fun n => n <| vn_size := size |>) v))).

Definition mount_step (sub : Z -> Z -> vfs H (ext2 D) -> option (vfs H (ext2 D))) (parent b : Z) (buf : list Z)
    (offset : Z) (acc : unit) v : option ((unit + Empty_set) * vfs H (ext2 D)) :=
  let* r := rec_name offset buf in
  match r with
  | None => Some (inl acc, v)
  | Some name =>
      let inode_num := rec_inode offset buf in
      let* (child, v1) := lift (ext2_read_inode inode_num) v in
      match child with
      | None => Some (inl acc, v1)
      | Some child_inode =>
          let type := rec_type offset buf in
          let '(p, v2) := mount_entry parent name type inode_num (i_size child_inode) v1 in
          if negb (p =? 0) && bool_decide (type = VFS_NODE_DIRECTORY)
          then let* w := sub p inode_num v2 in Some (inl acc, w)
          else Some (inl acc, v2)
      end
  end.
(** [depth] bounds the recursion. *)
Fixpoint ext2_mount_dir (depth : nat) (parent_node inode_num : Z) v : option (vfs H (ext2 D)) :=
  match depth with
  | O => None
  | S depth' =>
      let* (r, v1) := lift (ext2_read_inode inode_num) v in
      match r with
      | None => Some v1
      | Some inode =>
          let bs := block_size (drivers v1) in
          let* n := dir_block_count inode bs in
          match k_alloc bs (vheap v1) with
          | (None, h) => Some (v1 <| vheap := h |>)
          | (Some p, h) =>
              let* (_, v2) := dir_blocks (Z.to_nat n) bs 0 (fun b => lift (ext2_read_file_block inode b))
                                (mount_step (ext2_mount_dir depth') parent_node) tt (v1 <| vheap := h |>) in
              Some (kfree_block p v2)
          end
      end
  end.

(** The block size, the number of groups and the descriptors, for the superblock in [sb]. *)
Definition load_groups (t : est H D) : option (bool * est H D) :=
  let b := sb (ex t) in
  if negb (s_magic b =? EXT2_SUPER_MAGIC) then Some (false, t)
  else if 21 <=? s_log_block_size b then None
  else
    let* groups := div_c (u32 (s_blocks_count b + s_blocks_per_group b - 1)) (s_blocks_per_group b) in
    let t := t <| ex := ex t <| block_size := Z.shiftl 1024 (s_log_block_size b) |> <| num_groups := groups |> |> in
    let sectors_to_read := u32 (u32 (groups * GROUP_DESC_SIZE) + 511) / 512 in
    match k_alloc (u32 (sectors_to_read * 512)) (eh t) with
    | (None, h) => Some (false, t <| eh := h |> <| ex := ex t <| bg_desc := [] |> |>)
    | (Some q, h) =>
        let t := t <| eh := h |> in
        match read_sectors_at (block_lba t (u32 (s_first_data_block b + 1))) sectors_to_read t with
        | (None, u) => Some (false, u <| eh := k_free q (eh u) |> <| ex := ex u <| bg_desc := [] |> |>)
        | (Some table, u) => Some (true, u <| ex := ex u <| bg_desc := table |> <| ext2_mounted := true |> |>)
        end
    end.
(** The superblock and the descriptors; the value tells whether the volume is mounted. *)
Definition load_volume (lba : Z) (s : est H D) : option (bool * est H D) :=
  let s := s <| ex := ex s <| e2_lba := lba |> |> in
  match k_alloc 1024 (eh s) with
  | (None, h) => Some (false, s <| eh := h |>)
  | (Some q, h) =>
      match read_sectors_at (u32 (lba + 2)) 2 (s <| eh := h |>) with
      | (None, t) => Some (false, t <| eh := k_free q (eh t) |>)
      | (Some buf, t) => load_groups (t <| eh := k_free q (eh t) |> <| ex := ex t <| sb := take 1024 buf |> |>)
      end
  end.
Definition e2_mount_at (depth : nat) (mount_point lba : Z) v : option (bool * vfs H (ext2 D)) :=
  if mount_point =? 0 then Some (false, v)
  else
    let* (ok, v1) := lift (load_volume lba) v in
    if negb ok then Some (false, v1)
    else
      let* (root, v2) := lift (ext2_read_inode 2) v1 in
      let v3 := upd_node mount_point (fun n => n <| vn_size := match root with Some i => i_size i | None => 0 end |>) v2 in
      let v4 := set_ops mount_point (attach_data mount_point 2 v3) in
      let* w := ext2_mount_dir depth mount_point 2 v4 in
      Some (true, w).
Definition ext2_mount (depth : nat) (lba : Z) v : option (bool * vfs H (ext2 D)) :=
  e2_mount_at depth (vfs_root v) lba v.

(** The directory is always the root directory of the volume. *)
Definition new_file_inode : list Z := set_i_links_count 1 (set_i_mode 0x81A4 (replicate 128 0)).
Definition ext2_create_inode (name : list Z) (s : est H D) : option (Z * est H D) :=
  let* (n, t) := ext2_alloc_inode s in
  if n =? 0 then Some (0, t)
  else
    let* (ok, t) := ext2_write_inode n new_file_inode t in
    if negb ok then Some (0, t)
    else
      let* (ok, t) := ext2_add_dir_entry 2 name n EXT2_FT_REG_FILE t in
      Some (if ok then n else 0, t).
Definition e2_vfs_create (path : list Z) v : option (Z * vfs H (ext2 D)) :=
  let name := path_basename path in
  if bool_decide (name = []) then Some (-1, v)
  else
    let* (n, v1) := lift (ext2_create_inode name) v in
    if n =? 0 then Some (-1, v1)
    else
      let p := vfs_find path v1 in
      let '(p, v2) := if p =? 0 then vfs_create_node (vfs_root v1) name VFS_NODE_FILE v1 else (p, v1) in
      if p =? 0 then Some (0, v2)
      else Some (0, set_ops p (upd_node p (fun n => n <| vn_size := 0 |>) (attach_data p n v2))).
End Mount.
