(* ===== verification/Ext2Read.v ===== *)
(** The ext2 volume as the driver sees it: a sequence of bytes of which reading a block gives
    some and writing one changes just them; temporary buffers that leave the heap as it
    was; where an inode lies, that reading it gives its bytes and writing it changes nothing
    else; that [ext2_vfs_read] returns the bytes of the file; and the statics after
    [ext2_mount_at] has read the superblock and the group descriptors. *)

From S2P Require Import Prelude Vfs VfsReach Fat16 Fat16Fat Fat16Read Fat16Root Ext2.

(** * Runs of sectors *)

Section Run.
Context {D : Type} `{SectorDevLaws D}.
Implicit Types d : D.

(** The disk as bytes. *)
Definition dbyte d (x : Z) : Z := arr_get (sec d (x / 512)) (x mod 512).

Lemma dbyte_u8 d x : dev_ok d -> is_u8 (dbyte d x).
Proof.
  intros Hd. destruct (sec_sector d (x / 512) Hd) as [L F]. unfold dbyte. apply (arr_get_Forall is_u8); [done|]. rewrite L. apply Z.mod_pos_bound. lia.
Qed.
Lemma sec_span d x : dev_ok d -> sec d x = span (dbyte d) (512 * x) 512.
Proof.
  intros Hd. destruct (sec_sector d x Hd) as [L F]. apply list_ext_get; [by rewrite len_span|]. intros i Hi. rewrite span_get by lia.
  unfold dbyte. f_equal; [f_equal|]; Z.div_mod_to_equations; lia.
Qed.
Lemma read_run_ok n lba : forall i d,
  dev_ok d -> 0 <= lba + i -> lba + i + Z.of_nat n <= 4294967296 ->
  exists d', read_run n lba i d = (Some (span (dbyte d) (512 * (lba + i)) (512 * Z.of_nat n)), d') /\
    dev_ok d' /\ forall x, dbyte d' x = dbyte d x.
Proof.
  induction n as [|n IH]; intros i d Hd H1 H2; cbn [read_run].
  - exists d. rewrite span_nil by lia. done.
  - rewrite u32_id by (unfold is_u32; lia). destruct (dev_read_law (lba + i) d Hd) as (d1 & -> & Hd1 & Hs1).
    destruct (IH (i + 1) d1 Hd1 ltac:(lia) ltac:(lia)) as (d2 & -> & Hd2 & Hs2).
    assert (Hb1 : forall x, dbyte d1 x = dbyte d x) by (intros x; unfold dbyte; by rewrite Hs1).
    exists d2. split; [|split; [done|intros x; by rewrite Hs2]]. f_equal. f_equal.
    rewrite (sec_span d (lba + i) Hd). replace (512 * Z.of_nat (S n)) with (512 + 512 * Z.of_nat n) by lia.
    rewrite span_app by lia. f_equal. apply span_eq. intros k Hk. rewrite Hb1. f_equal. lia.
Qed.
Lemma write_run_ok n lba : forall i buf d,
  dev_ok d -> 0 <= lba + i -> lba + i + Z.of_nat n <= 4294967296 -> 512 * Z.of_nat n <= len buf -> Forall is_u8 buf ->
  exists d', write_run n lba i buf d = (true, d') /\ dev_ok d' /\
    forall x, dbyte d' x = if (512 * (lba + i) <=? x) && (x <? 512 * (lba + i + Z.of_nat n))
                           then arr_get buf (x - 512 * (lba + i)) else dbyte d x.
Proof.
  induction n as [|n IH]; intros i buf d Hd H1 H2 HL HF; cbn [write_run].
  - exists d. split; [done|]. split; [done|]. intros x. bcases; done.
  - rewrite u32_id by (unfold is_u32; lia). unfold len in HL.
    assert (Hsec : is_sector (take 512 buf)).
    { split; [unfold len; rewrite length_take; lia|by apply Forall_take]. }
    destruct (dev_write_law (lba + i) (take 512 buf) d Hd Hsec) as (d1 & -> & Hd1 & Hs1).
    destruct (IH (i + 1) (drop 512 buf) d1 Hd1 ltac:(lia) ltac:(lia)) as (d2 & -> & Hd2 & Hs2);
      [unfold len; rewrite length_drop; lia|by apply Forall_drop|].
    exists d2. split; [done|]. split; [done|]. intros x. rewrite Hs2. unfold dbyte at 1. rewrite Hs1.
    destruct (Z.eqb_spec (x / 512) (lba + i)) as [E|E].
    + bcases; cbn [andb]; try (exfalso; Z.div_mod_to_equations; lia).
      unfold arr_get. rewrite lookup_total_take_lt by (pose proof (Z.mod_pos_bound x 512); lia). f_equal. Z.div_mod_to_equations; lia.
    + bcases; cbn [andb]; try done; try (exfalso; Z.div_mod_to_equations; lia).
      unfold arr_get. rewrite lookup_total_drop. f_equal. lia.
Qed.
End Run.

(** * Buffers *)

(** A heap that has room for the small buffers of the driver. *)
Class RoomyHeap (H : Type) `{AllocatorLaws H} := {
  alloc_room : forall size h, a_ok h -> 0 < size <= 65536 -> is_Some (fst (k_alloc size h))
}.

Section Buffers.
Context {H D : Type} `{AllocatorLaws H}.
Implicit Types s : est H D.

Definition heap_same (h h' : H) : Prop := a_ok h' /\ forall q, a_live h' q <-> a_live h q.
Lemma heap_same_refl h : a_ok h -> heap_same h h.
Proof. done. Qed.
Lemma heap_same_trans h1 h2 h3 : heap_same h1 h2 -> heap_same h2 h3 -> heap_same h1 h3.
Proof. intros [A1 L1] [A2 L2]. split; [done|]. intros q. by rewrite L2, L1. Qed.

(** A computation that needs a buffer runs, whatever the heap looks like when it starts,
    and leaves the heap as it was; without memory it does nothing. *)
Lemma with_buf_any {A} (dflt : A) size k s (P : A -> ext2 D -> Prop) :
  a_ok (eh s) -> 0 < size <= 65536 ->
  (forall u, ex u = ex s -> a_ok (eh u) -> exists a t, k u = Some (a, t) /\ heap_same (eh u) (eh t) /\ P a (ex t)) ->
  exists a t, with_buf dflt size k s = Some (a, t) /\ heap_same (eh s) (eh t) /\
    (P a (ex t) \/ fst (k_alloc size (eh s)) = None /\ a = dflt /\ ex t = ex s).
Proof.
  intros Ha Hs Hk. unfold with_buf. pose proof (alloc_law (eh s) size Ha ltac:(lia)) as Hl.
  destruct (k_alloc size (eh s)) as [[p|] h].
  - destruct Hl as (Ha' & Hp0 & Hnew & Hlive). set (u := s <| eh := h |>).
    destruct (Hk u eq_refl Ha') as (a & t & -> & [Ht Hlt] & HP). cbn in Hlt.
    destruct (free_law (eh t) p Ht) as [Hf1 Hf2]; [rewrite Hlt, Hlive; by left|].
    eexists a, _. split; [done|]. split; [|by left]. split; [done|]. intros q. cbn. rewrite Hf2, Hlt, Hlive. naive_solver.
  - destruct Hl as [Ha' Hlive]. eexists dflt, _. split; [done|]. split; [done|]. by right.
Qed.
Lemma with_buf_ok `{!RoomyHeap H} {A} (dflt : A) size k s (P : A -> ext2 D -> Prop) :
  a_ok (eh s) -> 0 < size <= 65536 ->
  (forall u, ex u = ex s -> a_ok (eh u) -> exists a t, k u = Some (a, t) /\ heap_same (eh u) (eh t) /\ P a (ex t)) ->
  exists a t, with_buf dflt size k s = Some (a, t) /\ heap_same (eh s) (eh t) /\ P a (ex t).
Proof.
  intros Ha Hs Hk. destruct (with_buf_any dflt size k s P Ha Hs Hk) as (a & t & E & Hh & [HP|(Hn & _)]); [by exists a, t|].
  destruct (alloc_room size (eh s) Ha Hs) as [p Hp]. congruence.
Qed.
End Buffers.

(** * Volumes *)

Section Vol.
Context {H D : Type} `{RoomyHeap H} `{SectorDevLaws D}.
Implicit Types s : est H D.
Implicit Types x : ext2 D.

Definition nblocks x : Z := s_blocks_count (sb x).
(** Blocks of 1 to 64 KiB, and a volume whose sectors have 32-bit numbers. *)
Record geo x : Prop := {
  g_bs : exists k, 0 <= k <= 6 /\ block_size x = 1024 * 2 ^ k;
  g_lba : 0 <= e2_lba x;
  g_end : e2_lba x + nblocks x * (block_size x / 512) <= 4294967296;
  g_dev : dev_ok (edev x)
}.
(** Byte [i] of the volume. *)
Definition vbyte x (i : Z) : Z := dbyte (edev x) (512 * e2_lba x + i).
Definition block_bytes x (n : Z) : list Z := span (vbyte x) (n * block_size x) (block_size x).

(** The statics are the same. *)
Definition same_vol x x' : Prop :=
  sb x' = sb x /\ bg_desc x' = bg_desc x /\ num_groups x' = num_groups x /\ block_size x' = block_size x /\
  e2_lba x' = e2_lba x /\ ext2_mounted x' = ext2_mounted x /\ node_data x' = node_data x.
(** Nothing but the cache changes. *)
Definition same_bytes x x' : Prop := same_vol x x' /\ dev_ok (edev x') /\ forall i, vbyte x' i = vbyte x i.
(** [bytes] are written at [at_]. *)
Definition wrote x x' (at_ : Z) (bytes : list Z) : Prop :=
  same_vol x x' /\ dev_ok (edev x') /\
  forall i, vbyte x' i = if (at_ <=? i) && (i <? at_ + len bytes) then arr_get bytes (i - at_) else vbyte x i.

Lemma geo_bs x : geo x -> 1024 <= block_size x <= 65536 /\ block_size x = 512 * (block_size x / 512) /\
  block_size x = 4 * (block_size x / 4).
Proof.
  intros [(k & Hk & E) _ _ _]. assert (C : k = 0 \/ k = 1 \/ k = 2 \/ k = 3 \/ k = 4 \/ k = 5 \/ k = 6) by lia.
  rewrite E. destruct C as [->|[->|[->|[->|[->|[->| ->]]]]]]; cbn; Z.div_mod_to_equations; lia.
Qed.
Lemma geo_same x x' : geo x -> same_vol x x' -> dev_ok (edev x') -> geo x'.
Proof.
  intros [G1 G2 G3 G4] (E1 & E2 & E3 & E4 & E5 & E6) Hd. split; [by rewrite E4|by rewrite E5| |done].
  unfold nblocks. by rewrite E1, E4, E5.
Qed.
Lemma same_vol_refl x : same_vol x x.
Proof. done. Qed.
Lemma same_vol_trans x1 x2 x3 : same_vol x1 x2 -> same_vol x2 x3 -> same_vol x1 x3.
Proof. unfold same_vol. intuition congruence. Qed.
Lemma same_bytes_refl x : dev_ok (edev x) -> same_bytes x x.
Proof. done. Qed.
Lemma same_bytes_trans x1 x2 x3 : same_bytes x1 x2 -> same_bytes x2 x3 -> same_bytes x1 x3.
Proof. intros (V1 & D1 & B1) (V2 & D2 & B2). split; [by eapply same_vol_trans|]. split; [done|]. intros i. by rewrite B2, B1. Qed.
Lemma same_bytes_block x x' n : same_bytes x x' -> block_bytes x' n = block_bytes x n.
Proof.
  intros ((_ & _ & _ & Eb & _) & _ & B). unfold block_bytes. rewrite Eb. apply span_eq. intros i _. apply B.
Qed.

Lemma len_block x n : geo x -> len (block_bytes x n) = block_size x.
Proof. intros G. apply len_span. pose proof (geo_bs x G). lia. Qed.
Lemma block_u8 x n : geo x -> Forall is_u8 (block_bytes x n).
Proof. intros G. unfold block_bytes, span. apply Forall_map, Forall_forall. intros i _. apply dbyte_u8, G. Qed.
Lemma block_get x n i : geo x -> 0 <= i < block_size x -> arr_get (block_bytes x n) i = vbyte x (n * block_size x + i).
Proof. intros. unfold block_bytes. by rewrite span_get. Qed.

Lemma block_lba_eq s n : geo (ex s) -> 0 <= n < nblocks (ex s) ->
  block_lba s n = e2_lba (ex s) + n * (block_size (ex s) / 512) /\
  e2_lba (ex s) + n * (block_size (ex s) / 512) + block_size (ex s) / 512 <= 4294967296.
Proof.
  intros G Hn. pose proof (geo_bs _ G). pose proof (g_lba _ G). pose proof (g_end _ G).
  assert (n * (block_size (ex s) / 512) + block_size (ex s) / 512 <= nblocks (ex s) * (block_size (ex s) / 512)) by nia.
  assert (0 <= n * (block_size (ex s) / 512)) by nia.
  split; [|lia]. unfold block_lba. rewrite !u32_id by (unfold is_u32; rewrite ?u32_id by (unfold is_u32; lia); lia). done.
Qed.
Lemma read_block_ok s n :
  geo (ex s) -> 0 <= n < nblocks (ex s) ->
  exists t, ext2_read_block n s = (Some (block_bytes (ex s) n), t) /\ eh t = eh s /\ same_bytes (ex s) (ex t).
Proof.
  intros G Hn. destruct (block_lba_eq s n G Hn) as [El Hend]. pose proof (geo_bs _ G) as (Hb & Hb2 & _). pose proof (g_lba _ G).
  unfold ext2_read_block, read_sectors_at. rewrite El. destruct (Z.eqb_spec (block_size (ex s) / 512) 0); [lia|].
  destruct (read_run_ok (Z.to_nat (block_size (ex s) / 512)) (e2_lba (ex s) + n * (block_size (ex s) / 512)) 0 (edev (ex s)))
    as (d & -> & Hd & Hby); [apply G|nia|lia|].
  exists (set_dev d s). split; [|split; [done|]].
  - f_equal. f_equal. unfold block_bytes. rewrite Z2Nat.id by lia. rewrite <- Hb2. apply span_eq. intros i Hi. unfold vbyte. f_equal. nia.
  - split; [done|]. split; [done|]. intros i. apply Hby.
Qed.
Lemma write_at_ok s lba count buf :
  geo (ex s) -> 0 < count -> 0 <= lba -> lba + count <= 4294967296 -> 512 * count <= len buf -> Forall is_u8 buf ->
  exists t, write_sectors_at lba count buf s = (true, t) /\ eh t = eh s /\
    wrote (ex s) (ex t) (512 * (lba - e2_lba (ex s))) (take (Z.to_nat (512 * count)) buf).
Proof.
  intros G Hc Hl Hend HL HF. unfold write_sectors_at. destruct (Z.eqb_spec count 0); [lia|].
  destruct (write_run_ok (Z.to_nat count) lba 0 buf (edev (ex s))) as (d & -> & Hd & Hby); [apply G|lia|lia|lia|done|].
  eexists. split; [done|]. split; [done|]. split; [done|]. split; [done|]. intros i. unfold vbyte. cbn. rewrite Hby.
  assert (Et : len (take (Z.to_nat (512 * count)) buf) = 512 * count) by (unfold len in *; rewrite length_take; lia). rewrite Et.
  bcases; cbn [andb]; try done; try (exfalso; lia). unfold arr_get. rewrite lookup_total_take_lt by lia. f_equal. lia.
Qed.
Lemma write_block_ok s n buf :
  geo (ex s) -> 0 <= n < nblocks (ex s) -> len buf = block_size (ex s) -> Forall is_u8 buf ->
  exists t, ext2_write_block n buf s = (true, t) /\ eh t = eh s /\ wrote (ex s) (ex t) (n * block_size (ex s)) buf.
Proof.
  intros G Hn HL HF. destruct (block_lba_eq s n G Hn) as [El Hend]. pose proof (geo_bs _ G) as (Hb & Hb2 & _). pose proof (g_lba _ G).
  unfold ext2_write_block. rewrite El.
  destruct (write_at_ok s (e2_lba (ex s) + n * (block_size (ex s) / 512)) (block_size (ex s) / 512) buf) as (t & Et & Eh & W);
    [done|lia|nia|lia|lia|done|].
  exists t. split; [done|]. split; [done|]. rewrite take_ge in W by (unfold len in HL; lia).
  replace (512 * (_ - _)) with (n * block_size (ex s)) in W by nia. done.
Qed.

(** A written block is read back, and no other block changes. *)
Lemma wrote_block x x' n m buf :
  geo x -> wrote x x' (n * block_size x) buf -> len buf = block_size x ->
  block_bytes x' m = if m =? n then buf else block_bytes x m.
Proof.
  intros G ((_ & _ & _ & Eb & _) & _ & W) HL. pose proof (geo_bs _ G) as (Hb & _). unfold block_bytes. rewrite Eb.
  apply list_ext_get; [destruct (m =? n); rewrite !len_span by lia; done|]. intros i. rewrite len_span by lia. intros Hi.
  rewrite span_get by lia. rewrite W, HL. destruct (Z.eqb_spec m n) as [->|Hne].
  - bcases; cbn [andb]; try (exfalso; lia). f_equal. lia.
  - rewrite span_get by lia. bcases; cbn [andb]; [exfalso; nia|done..].
Qed.
End Vol.

(** * Fields *)

Lemma read_u32_u16 buf off : read_u32 buf off = read_u16 buf off + 65536 * read_u16 buf (off + 2).
Proof. done. Qed.
Lemma read_u32_range buf off : Forall is_u8 buf -> 0 <= off -> off + 4 <= len buf -> is_u32 (read_u32 buf off).
Proof.
  intros F H1 H2. unfold read_u32. pose proof (read_u16_range buf off F ltac:(lia) ltac:(lia)).
  pose proof (read_u16_range buf (off + 2) F ltac:(lia) ltac:(lia)). ulia.
Qed.
Lemma within_true off n buf : 0 <= off -> off + n <= len buf -> within off n buf = true.
Proof. intros. unfold within. apply andb_true_iff. split; apply Z.leb_le; lia. Qed.

Section Inode.
Context {H D : Type} `{RoomyHeap H} `{SectorDevLaws D}.
Implicit Types s : est H D.
Implicit Types x : ext2 D.

(** A 32-bit field on the volume. *)
Definition u32_at x (i : Z) : Z := vbyte x i + 256 * vbyte x (i + 1) + 65536 * (vbyte x (i + 2) + 256 * vbyte x (i + 3)).
Lemma read_u32_block x n o : geo x -> 0 <= o -> o + 4 <= block_size x ->
  read_u32 (block_bytes x n) o = u32_at x (n * block_size x + o).
Proof.
  intros G Ho1 Ho2. unfold read_u32, read_u16, u32_at. rewrite !block_get by (done || lia).
  replace (n * block_size x + (o + 1)) with (n * block_size x + o + 1) by lia.
  replace (n * block_size x + (o + 2)) with (n * block_size x + o + 2) by lia.
  replace (n * block_size x + (o + 2 + 1)) with (n * block_size x + o + 3) by lia. done.
Qed.
Lemma u32_at_range x i : geo x -> is_u32 (u32_at x i).
Proof.
  intros G. unfold u32_at, vbyte. pose proof (g_dev x G) as Hd.
  pose proof (dbyte_u8 (edev x) (512 * e2_lba x + i) Hd). pose proof (dbyte_u8 (edev x) (512 * e2_lba x + (i + 1)) Hd).
  pose proof (dbyte_u8 (edev x) (512 * e2_lba x + (i + 2)) Hd). pose proof (dbyte_u8 (edev x) (512 * e2_lba x + (i + 3)) Hd).
  unfold is_u8, is_u32 in *. lia.
Qed.

Definition inode_size_of x : Z := if s_rev_level (sb x) =? 0 then 128 else s_inode_size (sb x).
Definition table_of x (g : Z) : Z := read_u32 (bg_desc x) (GROUP_DESC_SIZE * g + 8).
(** A mounted volume whose inode tables lie inside it. *)
Record vol_wf x : Prop := {
  v_geo : geo x;
  v_mounted : ext2_mounted x = true;
  v_sb : len (sb x) = 1024 /\ Forall is_u8 (sb x);
  v_bg : GROUP_DESC_SIZE * num_groups x <= len (bg_desc x) /\ Forall is_u8 (bg_desc x);
  v_groups : 0 <= num_groups x;
  v_ipg : 0 < s_inodes_per_group (sb x);
  v_isize : 128 <= inode_size_of x /\ block_size x mod inode_size_of x = 0;
  v_isize_all : s_inodes_per_group (sb x) * inode_size_of x < 4294967296;
  v_tables : forall g, 0 <= g < num_groups x ->
    table_of x g * block_size x + s_inodes_per_group (sb x) * inode_size_of x <= nblocks x * block_size x
}.
Definition has_inode x (n : Z) : Prop := 0 < n <= num_groups x * s_inodes_per_group (sb x).
(** Where the inode [n] starts on the volume. *)
Definition inode_off x (n : Z) : Z :=
  table_of x ((n - 1) / s_inodes_per_group (sb x)) * block_size x +
  (n - 1) mod s_inodes_per_group (sb x) * inode_size_of x.
Definition inode_at x (n : Z) : list Z := span (vbyte x) (inode_off x n) INODE_SIZE.

Lemma vol_wf_same x x' : vol_wf x -> same_vol x x' -> dev_ok (edev x') -> vol_wf x'.
Proof.
  intros [V1 V2 V3 V4 V5 V6 V7 V8 V9] E Hd. pose proof (geo_same x x' V1 E Hd) as G.
  destruct E as (E1 & E2 & E3 & E4 & E5 & E6 & _). split; [done|by rewrite E6|by rewrite E1|by rewrite E2, E3|by rewrite E3|by rewrite E1| | |].
  - unfold inode_size_of in *. by rewrite E1, E4.
  - unfold inode_size_of in *. by rewrite E1.
  - unfold table_of, inode_size_of, nblocks in *. by rewrite E1, E2, E3, E4.
Qed.
Lemma inode_off_same x x' n : same_vol x x' -> inode_off x' n = inode_off x n.
Proof. intros (E1 & E2 & E3 & E4 & _). unfold inode_off, table_of, inode_size_of. by rewrite E1, E2, E4. Qed.
Lemma inode_at_same x x' n : same_bytes x x' -> inode_at x' n = inode_at x n.
Proof. intros (V & _ & B). unfold inode_at. rewrite (inode_off_same x x' n V). apply span_eq. intros i _. apply B. Qed.
Lemma len_inode_at x n : len (inode_at x n) = 128.
Proof. by apply len_span. Qed.
Lemma inode_at_u8 x n : vol_wf x -> Forall is_u8 (inode_at x n).
Proof. intros V. unfold inode_at, span. apply Forall_map, Forall_forall. intros i _. apply dbyte_u8, V. Qed.

(** The block and the offset that the driver computes are the place of the inode. *)
Lemma inode_place_ok s n : vol_wf (ex s) -> has_inode (ex s) n ->
  exists b o, inode_place n s = Some (Some (b, o)) /\ 0 <= b < nblocks (ex s) /\ 0 <= o /\
    o + 128 <= block_size (ex s) /\ inode_off (ex s) n = b * block_size (ex s) + o.
Proof.
  intros V Hn. pose proof (v_geo _ V) as G. pose proof (geo_bs _ G) as (Hb & _). unfold has_inode in Hn.
  pose proof (v_ipg _ V) as Hipg. pose proof (v_isize _ V) as [Hi1 Hi2]. pose proof (v_isize_all _ V) as Hall.
  set (ipg := s_inodes_per_group (sb (ex s))) in *. set (isz := inode_size_of (ex s)) in *. set (bs := block_size (ex s)) in *.
  set (g := (n - 1) / ipg). set (i := (n - 1) mod ipg).
  assert (Hi : 0 <= i < ipg) by (apply Z.mod_pos_bound; lia).
  assert (Hg : 0 <= g < num_groups (ex s)).
  { split; [apply Z.div_pos; lia|]. apply Z.div_lt_upper_bound; lia. }
  pose proof (v_tables _ V g Hg) as Ht. fold bs ipg isz in Ht. set (tb := table_of (ex s) g) in *.
  assert (Htb : is_u32 tb).
  { unfold tb, table_of. destruct (v_bg _ V) as [L F]. unfold GROUP_DESC_SIZE in *. apply read_u32_range; [done|lia|lia]. }
  assert (Hii : 0 <= i * isz < 4294967296) by nia. unfold is_u32 in Htb.
  exists (tb + i * isz / bs), (i * isz mod bs).
  assert (Hq : 0 <= i * isz / bs) by (apply Z.div_pos; lia). assert (Hm : 0 <= i * isz mod bs < bs) by (apply Z.mod_pos_bound; lia).
  assert (Hdm : i * isz = bs * (i * isz / bs) + i * isz mod bs) by (apply Z.div_mod; lia).
  assert (Hmod : (i * isz mod bs) mod isz = 0).
  { destruct (Z.mod_divide bs isz ltac:(lia)) as [Hd _]. destruct (Hd Hi2) as [c Hc]. rewrite Hc, Z.mul_comm.
    replace (isz * i) with (i * isz) by lia. rewrite Z.mul_mod_distr_r by nia. apply Z.mod_mul. lia. }
  assert (Hbs : exists c, bs = c * isz). { destruct (Z.mod_divide bs isz ltac:(lia)) as [Hd _]. destruct (Hd Hi2) as [c Hc]. by exists c. }
  destruct Hbs as [c Hc].
  assert (Ho : i * isz mod bs + isz <= bs).
  { destruct (Z.mod_divide (i * isz mod bs) isz ltac:(lia)) as [Hd _]. destruct (Hd Hmod) as [e He].
    rewrite He. assert (e < c) by (apply (Z.mul_lt_mono_pos_r isz); lia).
    replace (e * isz + isz) with ((e + 1) * isz) by lia. rewrite Hc. apply Z.mul_le_mono_nonneg_r; lia. }
  assert (Hlt : tb + i * isz / bs < nblocks (ex s)).
  { apply (Z.mul_lt_mono_pos_r bs); [lia|].
    assert (i * isz < ipg * isz) by (apply Z.mul_lt_mono_pos_r; lia). lia. }
  assert (Hnb : nblocks (ex s) < 4294967296) by (apply read_u32_range; [apply V|lia|destruct (v_sb _ V); lia]).
  split; [|split; [lia|split; [lia|split; [lia|]]]].
  - unfold inode_place. fold ipg bs. unfold div_c at 1. destruct (Z.eqb_spec ipg 0); [lia|]. fold g i.
    change (if s_rev_level _ =? 0 then 128 else _) with isz. destruct (Z.leb_spec (num_groups (ex s)) g); [lia|].
    unfold get_u32. rewrite within_true by (destruct (v_bg _ V); unfold GROUP_DESC_SIZE in *; lia).
    change (read_u32 (bg_desc (ex s)) _) with tb. rewrite (u32_id (i * isz)) by done. unfold div_c.
    destruct (Z.eqb_spec bs 0); [lia|]. rewrite u32_id by (unfold is_u32; lia). done.
  - unfold inode_off. fold ipg g i bs isz tb. lia.
Qed.

Lemma read_inode_ok s n : vol_wf (ex s) -> a_ok (eh s) -> has_inode (ex s) n ->
  exists t, ext2_read_inode n s = Some (Some (inode_at (ex s) n), t) /\ heap_same (eh s) (eh t) /\ same_bytes (ex s) (ex t).
Proof.
  intros V Ha Hn. pose proof (v_geo _ V) as G. pose proof (geo_bs _ G) as (Hb & _).
  destruct (inode_place_ok s n V Hn) as (b & o & Ep & Hbl & Ho & Ho2 & Eoff).
  unfold ext2_read_inode. rewrite (v_mounted _ V). cbn [negb orb]. destruct (Z.eqb_spec n 0); [unfold has_inode in Hn; lia|].
  rewrite Ep. destruct (with_buf_ok (D:=D) None (block_size (ex s)) (fun t => match ext2_read_block b t with
          | (None, u) => Some (None, u)
          | (Some buf, u) => let* inode := get_bytes o INODE_SIZE buf in Some (Some inode, u)
          end) s (fun a x => a = Some (inode_at (ex s) n) /\ same_bytes (ex s) x) Ha ltac:(lia)) as (a & t & E & Hh & [-> Hs]).
  - intros u Eu Hau. cbv beta. rewrite <- Eu in G, Hbl. destruct (read_block_ok u b G Hbl) as (t & -> & Eh & Hs). rewrite Eu in G, Hbl, Hs |- *.
    unfold get_bytes, INODE_SIZE.
    rewrite within_true by (rewrite ?len_block by done; lia). eexists _, t. split; [done|]. rewrite Eh. split; [by apply heap_same_refl|].
    split; [|done]. f_equal. rewrite slice_at_span by (rewrite ?len_block by done; lia). unfold inode_at, INODE_SIZE. apply span_eq.
    intros i Hi. rewrite block_get by (done || lia). f_equal. lia.
  - exists t. by rewrite E.
Qed.

(** Writing a part of a block changes that part. *)
Lemma wrote_part x x' b o bytes :
  geo x -> 0 <= o -> o + len bytes <= block_size x ->
  wrote x x' (b * block_size x) (put_bytes o bytes (block_bytes x b)) -> wrote x x' (b * block_size x + o) bytes.
Proof.
  intros G Ho Hl (E & Hd & W). split; [done|]. split; [done|]. intros i. rewrite W, len_put_bytes, len_block by (rewrite ?len_block by done; done || lia).
  destruct (Z.leb_spec (b * block_size x) i); cbn [andb]; [|bcases; done].
  destruct (Z.ltb_spec i (b * block_size x + block_size x)); [|bcases; done].
  rewrite put_bytes_get by (rewrite ?len_block by done; lia). bcases; cbn [andb]; try (exfalso; lia); try (f_equal; lia);
    rewrite block_get by (done || lia); f_equal; lia.
Qed.
Lemma write_inode_ok s n inode : vol_wf (ex s) -> a_ok (eh s) -> has_inode (ex s) n -> len inode = 128 -> Forall is_u8 inode ->
  exists t, ext2_write_inode n inode s = Some (true, t) /\ heap_same (eh s) (eh t) /\ wrote (ex s) (ex t) (inode_off (ex s) n) inode.
Proof.
  intros V Ha Hn HL HF. pose proof (v_geo _ V) as G. pose proof (geo_bs _ G) as (Hb & _).
  destruct (inode_place_ok s n V Hn) as (b & o & Ep & Hbl & Ho & Ho2 & Eoff).
  unfold ext2_write_inode. rewrite (v_mounted _ V). cbn [negb orb]. destruct (Z.eqb_spec n 0); [unfold has_inode in Hn; lia|].
  rewrite Ep. destruct (with_buf_ok (D:=D) false (block_size (ex s)) (fun t => match ext2_read_block b t with
          | (None, u) => Some (false, u)
          | (Some buf, u) => let* buf' := copy_to o inode buf in Some (ext2_write_block b buf' u)
          end) s (fun a x => a = true /\ wrote (ex s) x (inode_off (ex s) n) inode) Ha ltac:(lia)) as (a & t & E & Hh & [-> Hs]).
  - intros u Eu Hau. cbv beta. rewrite <- Eu in G, Hbl. destruct (read_block_ok u b G Hbl) as (t & -> & Eh & Hs). rewrite Eu in G, Hbl, Hs |- *.
    unfold copy_to. rewrite within_true by (rewrite ?HL, ?len_block by done; lia).
    pose proof (geo_same _ _ G (proj1 Hs) (proj1 (proj2 Hs))) as Gt. pose proof Hs as ((Es1 & _ & _ & Eb & _) & _ & Bt).
    destruct (write_block_ok t b (put_bytes o inode (block_bytes (ex s) b))) as (w & -> & Ew & W);
      [done|unfold nblocks in *; by rewrite Es1|rewrite len_put_bytes; rewrite ?HL, ?len_block by done; lia|apply put_bytes_u8; [done|by apply block_u8]|].
    eexists _, w. split; [done|]. rewrite Ew, Eh. split; [by apply heap_same_refl|]. split; [done|]. rewrite Eoff, Eb in *.
    apply wrote_part; [done|done|lia|]. destruct W as (W1 & W2 & W3). split; [by eapply same_vol_trans; [apply Hs|]|]. split; [done|].
    intros i. by rewrite W3, Bt.
  - exists t. by rewrite E.
Qed.
End Inode.

(** * Files *)

Lemma div_bounds a b : 0 < b -> a / b * b <= a < (a / b + 1) * b.
Proof. intros Hb. pose proof (Z.div_mod a b ltac:(lia)). pose proof (Z.mod_pos_bound a b Hb). lia. Qed.

Section File.
Context {H D : Type} `{RoomyHeap H} `{SectorDevLaws D}.
Implicit Types s : est H D.
Implicit Types x : ext2 D.
Implicit Types inode : list Z.

(** The block of the volume with block [b] of the file as far as the driver follows the
    inode, 0 where there is none: twelve direct blocks and those of the indirect block. *)
Definition phys x inode (b : Z) : Z :=
  if b <? 12 then i_block inode b
  else if b - 12 <? block_size x / 4 then
    if i_block inode 12 =? 0 then 0 else u32_at x (i_block inode 12 * block_size x + 4 * (b - 12))
  else 0.
Definition fbyte x inode (i : Z) : Z :=
  let p := phys x inode (i / block_size x) in
  if p =? 0 then 0 else vbyte x (p * block_size x + i mod block_size x).
Definition file_block x inode (b : Z) : list Z :=
  if phys x inode b =? 0 then replicate (Z.to_nat (block_size x)) 0 else block_bytes x (phys x inode b).
(** An inode whose blocks lie on the volume. *)
Record inode_ok x inode : Prop := {
  io_len : len inode = 128;
  io_u8 : Forall is_u8 inode;
  io_ind : i_block inode 12 < nblocks x;
  io_phys : forall b, 0 <= b -> phys x inode b < nblocks x
}.

Lemma i_block_range inode k : len inode = 128 -> Forall is_u8 inode -> 0 <= k < 15 -> is_u32 (i_block inode k).
Proof. intros L F Hk. unfold i_block. apply read_u32_range; [done|lia|lia]. Qed.
Lemma phys_nonneg x inode b : geo x -> len inode = 128 -> Forall is_u8 inode -> 0 <= b -> 0 <= phys x inode b.
Proof.
  intros G L F Hb. unfold phys. destruct (Z.ltb_spec b 12); [by apply (i_block_range inode b L F); lia|].
  destruct (_ <? _); [|lia]. destruct (_ =? 0); [lia|]. apply (u32_at_range x _ G).
Qed.
Lemma phys_same x x' inode b : same_bytes x x' -> phys x' inode b = phys x inode b.
Proof. intros ((_ & _ & _ & Eb & _) & _ & B). unfold phys, u32_at. by rewrite Eb, !B. Qed.
Lemma fbyte_same x x' inode i : same_bytes x x' -> fbyte x' inode i = fbyte x inode i.
Proof. intros E. unfold fbyte. pose proof E as ((_ & _ & _ & Eb & _) & _ & B). by rewrite Eb, (phys_same x x' inode _ E), B. Qed.
Lemma inode_ok_same x x' inode : same_bytes x x' -> inode_ok x inode -> inode_ok x' inode.
Proof.
  intros E [L F I P]. pose proof E as ((E1 & _) & _). split; [done|done|unfold nblocks in *; by rewrite E1|].
  intros b Hb. rewrite (phys_same x x' inode b E). unfold nblocks in *. rewrite E1. by apply P.
Qed.
Lemma len_file_block x inode b : geo x -> len (file_block x inode b) = block_size x.
Proof. intros G. unfold file_block. pose proof (geo_bs x G). destruct (_ =? 0); [rewrite len_replicate; lia|by apply len_block]. Qed.
Lemma file_block_get x inode b i : geo x -> 0 <= b -> 0 <= i < block_size x ->
  arr_get (file_block x inode b) i = fbyte x inode (b * block_size x + i).
Proof.
  intros G Hb Hi. unfold file_block, fbyte.
  replace ((b * block_size x + i) / block_size x) with b by (apply (Z.div_unique _ _ _ i); lia).
  replace ((b * block_size x + i) mod block_size x) with i by (apply (Z.mod_unique _ _ b); lia).
  destruct (_ =? 0); [apply arr_get_replicate; lia|by apply block_get].
Qed.

Lemma get_phys_ok s inode b : geo (ex s) -> a_ok (eh s) -> inode_ok (ex s) inode -> 0 <= b ->
  exists t, ext2_get_phys_block inode b s = Some (phys (ex s) inode b, t) /\ heap_same (eh s) (eh t) /\ same_bytes (ex s) (ex t).
Proof.
  intros G Ha I Hb. pose proof (geo_bs _ G) as (Hbs & _ & Hb4). unfold ext2_get_phys_block, phys. pose proof (g_dev _ G).
  destruct (Z.ltb_spec b 12); [by exists s|]. destruct (Z.ltb_spec (b - 12) (block_size (ex s) / 4)); [|by exists s].
  destruct (Z.eqb_spec (i_block inode 12) 0); [by exists s|].
  pose proof (i_block_range inode 12 (io_len _ _ I) (io_u8 _ _ I) ltac:(lia)) as Hsib. pose proof (io_ind _ _ I) as Hsib2. unfold is_u32 in Hsib.
  match goal with |- context [with_buf 0 _ ?k s] =>
    destruct (with_buf_ok (D:=D) 0 (block_size (ex s)) k s (fun a x => a = u32_at (ex s) (i_block inode 12 * block_size (ex s) + 4 * (b - 12)) /\
      same_bytes (ex s) x) Ha ltac:(lia)) as (a & t & E & Hh & [-> Hs]) end.
  - intros u Eu Hau. cbv beta. destruct (read_block_ok u (i_block inode 12)) as (t & -> & Eh & Hs); [by rewrite Eu|rewrite Eu; lia|].
    rewrite Eu in Hs |- *. unfold get_u32. rewrite within_true by (rewrite ?len_block by done; lia).
    rewrite read_u32_block by (done || lia). eexists _, t. split; [done|]. rewrite Eh. split; [by apply heap_same_refl|]. done.
  - exists t. by rewrite E.
Qed.
Lemma read_file_block_ok s inode b : geo (ex s) -> a_ok (eh s) -> inode_ok (ex s) inode -> 0 <= b ->
  exists t, ext2_read_file_block inode b s = Some (Some (file_block (ex s) inode b), t) /\ heap_same (eh s) (eh t) /\ same_bytes (ex s) (ex t).
Proof.
  intros G Ha I Hb. destruct (get_phys_ok s inode b G Ha I Hb) as (t & E & Hh & Hs). unfold ext2_read_file_block. rewrite E.
  pose proof Hs as ((Es1 & _ & _ & Eb & _) & Hd & _). unfold file_block. destruct (Z.eqb_spec (phys (ex s) inode b) 0).
  - rewrite Eb. by exists t.
  - pose proof (phys_nonneg (ex s) inode b G (io_len _ _ I) (io_u8 _ _ I) Hb). pose proof (io_phys _ _ I b Hb).
    destruct (read_block_ok t (phys (ex s) inode b)) as (u & -> & Eu & Hu);
      [by apply (geo_same _ _ G (proj1 Hs))|unfold nblocks in *; rewrite Es1; lia|].
    exists u. rewrite (same_bytes_block _ _ _ Hs). split; [done|]. rewrite Eu. split; [done|]. by eapply same_bytes_trans.
Qed.

Lemma read_loop_ok inode offset size : 0 <= offset -> 0 < size -> offset + size <= 4294901760 -> forall fuel b acc s,
  geo (ex s) -> a_ok (eh s) -> inode_ok (ex s) inode ->
  let bs := block_size (ex s) in let start_block := offset / bs in let end_block := (offset + size - 1) / bs in
  start_block <= b <= end_block + 1 -> len acc = Z.min size (Z.max 0 (b * bs - offset)) -> end_block - b + 1 < Z.of_nat fuel ->
  exists t, read_loop fuel inode offset size start_block end_block b acc s =
      Some (acc ++ span (fbyte (ex s) inode) (offset + len acc) (size - len acc), t) /\
    heap_same (eh s) (eh t) /\ same_bytes (ex s) (ex t).
Proof.
  intros Ho Hs Hmax. induction fuel as [|fuel IH]; intros b acc s G Ha I bs sb eb Hb Hacc Hf; [lia|]. cbn [read_loop].
  pose proof (geo_bs _ G) as (Hbs & _). fold bs in Hbs.
  assert (Hsb : sb * bs <= offset < (sb + 1) * bs) by (apply div_bounds; lia).
  assert (Heb : eb * bs <= offset + size - 1 < (eb + 1) * bs) by (apply div_bounds; lia).
  destruct (Z.leb_spec b eb) as [Hle|Hgt].
  2: { assert (Hend : len acc = size) by (replace b with (eb + 1) in Hacc by lia; lia). exists s. rewrite Hend, Z.sub_diag, span_nil, app_nil_r by lia. split; [done|].
       split; [by apply heap_same_refl|]. by apply same_bytes_refl, G. }
  assert (Hsb0 : 0 <= sb) by (apply Z.div_pos; lia). assert (Heb2 : eb + 1 < 4294967296).
  { assert ((eb + 1) * 1024 <= (eb + 1) * bs) by (apply Z.mul_le_mono_nonneg_l; lia). lia. }
  destruct (read_file_block_ok s inode b G Ha I ltac:(lia)) as (t & -> & Hh & Hst). pose proof Hst as ((_ & _ & _ & Eb & _) & Hd & _).
  cbv beta iota zeta. rewrite Eb. fold bs. assert (Hpos : b * bs <= offset + size - 1).
  { assert (b * bs <= eb * bs) by (apply Z.mul_le_mono_nonneg_r; lia). lia. }
  set (bo := if b =? sb then offset mod bs else 0). assert (Hbo : b * bs + bo = offset + len acc /\ 0 <= bo < bs).
  { unfold bo. destruct (Z.eqb_spec b sb) as [->|Hne].
    - pose proof (Z.div_mod offset bs ltac:(lia)). pose proof (Z.mod_pos_bound offset bs ltac:(lia)). fold sb in H5. lia.
    - assert (sb + 1 <= b) by lia. assert ((sb + 1) * bs <= b * bs) by (apply Z.mul_le_mono_nonneg_r; lia). lia. }
  destruct Hbo as [Hpos2 Hbo]. set (c0 := if size <? u32 (len acc + (bs - bo)) then _ else _).
  assert (Hc0 : c0 = Z.min (bs - bo) (size - len acc)).
  { unfold c0. rewrite !u32_id by (unfold is_u32; lia). bcases; lia. }
  rewrite Hc0. unfold get_bytes. rewrite within_true by (rewrite ?len_file_block by done; fold bs; lia).
  rewrite slice_at_span by (rewrite ?len_file_block by done; fold bs; lia). rewrite u32_id by (unfold is_u32; lia).
  set (c := Z.min (bs - bo) (size - len acc)).
  assert (Ec : span (arr_get (file_block (ex s) inode b)) bo c = span (fbyte (ex s) inode) (offset + len acc) c).
  { apply span_eq. intros i Hi. rewrite file_block_get by (done || fold bs; lia). f_equal. fold bs. lia. }
  rewrite Ec. specialize (IH (b + 1) (acc ++ span (fbyte (ex s) inode) (offset + len acc) c) t).
  rewrite Eb in IH. fold bs in IH. cbv zeta in IH. fold sb eb in IH.
  destruct IH as (u & Eu & Hhu & Hsu); [by apply (geo_same _ _ G (proj1 Hst))|apply Hh|by eapply inode_ok_same|lia| |lia|].
  { rewrite len_app, len_span by lia. unfold c. lia. }
  exists u. rewrite Eu. split; [|split; [by eapply heap_same_trans|by eapply same_bytes_trans]]. f_equal. f_equal.
  rewrite <- app_assoc. f_equal. rewrite len_app, len_span by lia.
  rewrite (span_eq (fbyte (ex t) inode) (fbyte (ex s) inode) _ (offset + len acc + c)) by
    (intros i _; rewrite (fbyte_same _ _ _ _ Hst); f_equal; lia).
  rewrite <- span_app by lia. f_equal. lia.
Qed.
End File.

Section ReadSpec.
Context {H D : Type} `{RoomyHeap H} `{SectorDevLaws D}.
Implicit Types s : est H D.
Implicit Types x : ext2 D.

(** The contents of a file by the layout of ext2 (the comment on [i_block]): twelve direct
    blocks, then trees of pointers of depth one, two and three; a pointer 0 is a hole. *)
Fixpoint pointer_tree x (depth : nat) (blk b : Z) : Z :=
  match depth with
  | O => blk
  | S d =>
      let below := (block_size x / 4) ^ Z.of_nat d in
      if blk =? 0 then 0 else pointer_tree x d (u32_at x (blk * block_size x + 4 * (b / below))) (b mod below)
  end.
Definition layout_block x (inode : list Z) (b : Z) : Z :=
  let per := block_size x / 4 in
  if b <? 12 then i_block inode b
  else if b - 12 <? per then pointer_tree x 1 (i_block inode 12) (b - 12)
  else if b - 12 - per <? per ^ 2 then pointer_tree x 2 (i_block inode 13) (b - 12 - per)
  else pointer_tree x 3 (i_block inode 14) (b - 12 - per - per ^ 2).
Definition file_byte x (inode : list Z) (i : Z) : Z :=
  let p := layout_block x inode (i / block_size x) in
  if p =? 0 then 0 else vbyte x (p * block_size x + i mod block_size x).
(** The bytes that the direct blocks and one indirect block reach. *)
Definition single_reach x : Z := (12 + block_size x / 4) * block_size x.

(** What the driver takes for the file is the file up to there, and zeros after it. *)
Lemma fbyte_layout x inode i :
  0 < block_size x -> 0 <= i -> fbyte x inode i = if i <? single_reach x then file_byte x inode i else 0.
Proof.
  intros Hb Hi. unfold fbyte, file_byte, phys, layout_block, single_reach.
  pose proof (div_bounds i (block_size x) Hb) as Hd. set (b := i / block_size x) in *. set (per := block_size x / 4).
  assert (Hper : 0 <= per) by (apply Z.div_pos; lia).
  destruct (Z.ltb_spec i ((12 + per) * block_size x)) as [Hlt|Hge].
  - assert (Hbl : b < 12 + per) by (apply (Z.mul_lt_mono_pos_r (block_size x)); lia).
    destruct (Z.ltb_spec b 12); [done|]. destruct (Z.ltb_spec (b - 12) per); [|lia].
    cbn [pointer_tree]. rewrite Z.pow_0_r, Z.div_1_r. done.
  - assert (Hbl : 12 + per < b + 1) by (apply (Z.mul_lt_mono_pos_r (block_size x)); lia).
    destruct (Z.ltb_spec b 12); [lia|]. by destruct (Z.ltb_spec (b - 12) per); [lia|].
Qed.

(** C19: [ext2_vfs_read] returns the bytes of the file, as the layout of ext2 gives them.
    On a mounted volume on a disk that does not fail, with memory for the driver's buffers,
    for an inode whose blocks lie on the volume, a read of at least one byte ends within as
    many rounds as it has blocks and returns the bytes from the offset on, cut at the size
    asked for and at the end of the file, with zeros for the holes; past what one indirect
    block reaches (268 KiB with blocks of 1 KiB) it returns zeros, whatever the doubly and
    triply indirect blocks hold.  The disk and the heap are as before. *)
Theorem ext2_read_spec s n offset size fuel :
  vol_wf (ex s) -> a_ok (eh s) -> has_inode (ex s) n -> inode_ok (ex s) (inode_at (ex s) n) ->
  i_size (inode_at (ex s) n) <= 4294901760 -> 0 <= offset -> 0 < size < 4294967296 -> size / 1024 + 3 <= Z.of_nat fuel ->
  exists t, ext2_vfs_read fuel n offset size s =
      Some (span (fun i => if i <? single_reach (ex s) then file_byte (ex s) (inode_at (ex s) n) i else 0) offset
              (Z.min size (i_size (inode_at (ex s) n) - offset)), t) /\
    heap_same (eh s) (eh t) /\ same_bytes (ex s) (ex t).
Proof.
  intros V Ha Hn I Hmax Ho Hsz Hf. rewrite <- (span_eq (fbyte (ex s) (inode_at (ex s) n)) _ offset offset) by
    (intros i Hi; apply fbyte_layout; [pose proof (geo_bs _ (v_geo _ V)); lia|lia]).
  unfold ext2_vfs_read. rewrite (v_mounted _ V). cbn [negb orb].
  destruct (Z.eqb_spec n 0); [unfold has_inode in Hn; lia|]. destruct (read_inode_ok s n V Ha Hn) as (t & -> & Hh & Hs).
  set (inode := inode_at (ex s) n) in *. destruct (Z.leb_spec (i_size inode) offset).
  { exists t. rewrite span_nil by lia. done. }
  pose proof (v_geo _ V) as G. pose proof (geo_same _ _ G (proj1 Hs) (proj1 (proj2 Hs))) as Gt. pose proof (geo_bs _ Gt) as (Hbs & _).
  rewrite u64_id by (unfold is_u64; lia). set (size' := if i_size inode <? offset + size then _ else _).
  assert (Hsize' : size' = Z.min size (i_size inode - offset)).
  { unfold size'. rewrite u32_id by (unfold is_u32; lia). bcases; lia. }
  assert (Hpos : 0 < size' <= size /\ offset + size' <= i_size inode) by lia. unfold div_c. destruct (Z.eqb_spec (block_size (ex t)) 0); [lia|].
  set (bs := block_size (ex t)) in *. assert (Hdiv : forall a, 0 <= a < 4294967296 -> 0 <= a / bs < 4294967296).
  { intros a Ha2. split; [apply Z.div_pos; lia|]. apply Z.div_lt_upper_bound; [lia|]. assert (4294967296 * 1 <= bs * 4294967296) by lia. lia. }
  rewrite (u64_id (offset + size' - 1)) by (unfold is_u64; lia). rewrite !u32_id by (apply Hdiv; lia).
  assert (Hblocks : (offset + size' - 1) / bs - offset / bs + 1 < Z.of_nat fuel).
  { assert (Hq : size' / bs <= size / 1024) by (transitivity (size' / 1024); [apply Z.div_le_compat_l; lia|apply Z.div_le_mono; lia]).
    pose proof (div_bounds (offset + size' - 1) bs ltac:(lia)). pose proof (div_bounds offset bs ltac:(lia)). pose proof (div_bounds size' bs ltac:(lia)).
    assert ((offset + size' - 1) / bs <= offset / bs + size' / bs + 1); [|lia].
    apply Z.lt_succ_r, (Z.mul_lt_mono_pos_r bs); lia. }
  match goal with |- context [with_buf [] bs ?k t] =>
    destruct (with_buf_ok (D:=D) [] bs k t (fun a x => a = span (fbyte (ex s) inode) offset size' /\ same_bytes (ex s) x) (proj1 Hh) ltac:(lia))
      as (a & u & E & Hhu & [-> Hsu]) end.
  - intros w Ew Haw. destruct (read_loop_ok inode offset size' ltac:(lia) ltac:(lia) ltac:(lia) fuel (offset / bs) [] w) as (u & Eu & Hhu & Hsu);
      [by rewrite Ew|done|rewrite Ew; by eapply inode_ok_same|rewrite Ew; fold bs..|].
    + assert (offset / bs <= (offset + size' - 1) / bs) by (apply Z.div_le_mono; lia). lia.
    + pose proof (div_bounds offset bs ltac:(lia)). change (len (A:=Z) []) with 0. lia.
    + done.
    + rewrite Ew in *. fold bs in Eu. eexists _, u. split; [exact Eu|]. split; [done|]. change (len (A:=Z) []) with 0 in *. cbn [app].
      rewrite Z.add_0_r, Z.sub_0_r. split; [|by eapply same_bytes_trans]. apply span_eq. intros i _. by apply fbyte_same.
  - exists u. rewrite E, <- Hsize'. split; [done|]. split; [by eapply heap_same_trans|done].
Qed.

Lemma read_loop_diverges inode : forall fuel b s,
  geo (ex s) -> a_ok (eh s) -> inode_ok (ex s) inode -> 0 <= b < 4294967296 ->
  read_loop fuel inode 0 0 0 4294967295 b [] s = None.
Proof.
  induction fuel as [|fuel IH]; intros b s G Ha I Hb; cbn [read_loop]; [done|]. destruct (Z.leb_spec b 4294967295); [|lia].
  destruct (read_file_block_ok s inode b G Ha I ltac:(lia)) as (t & -> & Hh & Hs). cbv beta iota zeta.
  pose proof (geo_same _ _ G (proj1 Hs) (proj1 (proj2 Hs))) as Gt. pose proof (geo_bs _ Gt) as (Hbs & _).
  rewrite Zmod_0_l. replace (if b =? 0 then 0 else 0) with 0 by by destruct (b =? 0). change (len (A:=Z) []) with 0. rewrite Z.add_0_l, Z.sub_0_r.
  rewrite u32_id by (unfold is_u32; lia). destruct (Z.ltb_spec 0 (block_size (ex t))); [|lia]. change (u32 (0 - 0)) with 0.
  unfold get_bytes. rewrite within_true by (pose proof (len_file_block (ex s) inode b G); pose proof (geo_bs _ G); lia).
  change (slice_at 0 0 (file_block (ex s) inode b)) with (@nil Z). cbn [app].
  apply IH; [done|apply Hh|by eapply inode_ok_same|apply u32_range].
Qed.
(** A read of no bytes at the start of a file that is not empty never returns: the last
    block is computed as that of the byte before the offset, which wraps to 2^32 - 1. *)
Theorem ext2_empty_read_diverges s n fuel :
  vol_wf (ex s) -> a_ok (eh s) -> has_inode (ex s) n -> inode_ok (ex s) (inode_at (ex s) n) ->
  0 < i_size (inode_at (ex s) n) -> ext2_vfs_read fuel n 0 0 s = None.
Proof.
  intros V Ha Hn I Hpos. unfold ext2_vfs_read. rewrite (v_mounted _ V). cbn [negb orb].
  destruct (Z.eqb_spec n 0); [unfold has_inode in Hn; lia|]. destruct (read_inode_ok s n V Ha Hn) as (t & -> & Hh & Hs).
  set (inode := inode_at (ex s) n) in *. destruct (Z.leb_spec (i_size inode) 0); [lia|]. change (u64 (0 + 0)) with 0.
  destruct (Z.ltb_spec (i_size inode) 0); [lia|]. pose proof (v_geo _ V) as G.
  pose proof (geo_same _ _ G (proj1 Hs) (proj1 (proj2 Hs))) as Gt. pose proof (geo_bs _ Gt) as (Hbs & _).
  unfold div_c. destruct (Z.eqb_spec (block_size (ex t)) 0); [lia|]. rewrite Zdiv_0_l. change (u32 0) with 0.
  assert (Hend : u32 (u64 (0 + 0 - 1) / block_size (ex t)) = 4294967295).
  { destruct (g_bs _ Gt) as (k & Hk & ->). change (u64 (0 + 0 - 1)) with 18446744073709551615.
    assert (C : k = 0 \/ k = 1 \/ k = 2 \/ k = 3 \/ k = 4 \/ k = 5 \/ k = 6) by lia.
    by destruct C as [->|[->|[->|[->|[->|[->| ->]]]]]]. }
  rewrite Hend. unfold with_buf. pose proof (alloc_law (eh t) (block_size (ex t)) (proj1 Hh) ltac:(lia)) as Hl.
  destruct (alloc_room (block_size (ex t)) (eh t) (proj1 Hh) ltac:(lia)) as [p Hp]. destruct (k_alloc (block_size (ex t)) (eh t)) as [r h].
  cbn in Hp. subst r. destruct Hl as (Ha' & _). set (u := t <| eh := h |>).
  rewrite (read_loop_diverges inode fuel 0 u); [done|done|done| |lia]. by eapply inode_ok_same.
Qed.
End ReadSpec.

(** * Mounting *)

Section Load.
Context {H D : Type} `{RoomyHeap H} `{SectorDevLaws D}.
Implicit Types s : est H D.
Implicit Types d : D.

(** The superblock on the disk, the number of groups it gives, and the descriptors. *)
Definition disk_sb d (lba : Z) : list Z := span (dbyte d) (512 * lba + 1024) 1024.
Definition groups_of (b : list Z) : Z := (s_blocks_count b + s_blocks_per_group b - 1) / s_blocks_per_group b.
Definition block_size_of (b : list Z) : Z := 1024 * 2 ^ s_log_block_size b.
Definition table_sectors (b : list Z) : Z := (groups_of b * GROUP_DESC_SIZE + 511) / 512.
Definition disk_table d (lba : Z) (b : list Z) : list Z :=
  span (dbyte d) (512 * lba + (s_first_data_block b + 1) * block_size_of b) (512 * table_sectors b).
(** The fields that the driver relies on without a test. *)
Record sb_sane (lba : Z) (b : list Z) : Prop := {
  ss_log : s_log_block_size b <= 6;
  ss_bpg : 0 < s_blocks_per_group b;
  ss_count : 0 < s_blocks_count b /\ s_blocks_count b + s_blocks_per_group b <= 4294967296;
  ss_groups : table_sectors b <= 128;
  ss_end : lba + s_blocks_count b * (block_size_of b / 512) <= 4294967296;
  ss_table : (s_first_data_block b + 1) * (block_size_of b / 512) + table_sectors b <= s_blocks_count b * (block_size_of b / 512)
}.

Lemma len_disk_sb d lba : len (disk_sb d lba) = 1024.
Proof. by apply len_span. Qed.
Lemma span_u8 d a n : dev_ok d -> Forall is_u8 (span (dbyte d) a n).
Proof. intros Hd. unfold span. apply Forall_map, Forall_forall. intros i _. by apply dbyte_u8. Qed.
Lemma span_same d d' a n : (forall i, dbyte d' i = dbyte d i) -> span (dbyte d') a n = span (dbyte d) a n.
Proof. intros E. apply span_eq. intros i _. apply E. Qed.

Lemma read_at_ok s lba count : dev_ok (edev (ex s)) -> 0 < count -> 0 <= lba -> lba + count <= 4294967296 ->
  exists d, read_sectors_at lba count s = (Some (span (dbyte (edev (ex s))) (512 * lba) (512 * count)), set_dev d s) /\
    dev_ok d /\ forall i, dbyte d i = dbyte (edev (ex s)) i.
Proof.
  intros Hd Hc Hl Hend. unfold read_sectors_at. destruct (Z.eqb_spec count 0); [lia|].
  destruct (read_run_ok (Z.to_nat count) lba 0 (edev (ex s))) as (d & -> & Hd' & Hb); [done|lia|lia|].
  exists d. rewrite Z2Nat.id, Z.add_0_r by lia. done.
Qed.

(** The state after the superblock has been read: it has replaced the old one, whatever it
    holds. *)
Definition sb_loaded (lba : Z) s (t : est H D) : Prop :=
  sb (ex t) = disk_sb (edev (ex s)) lba /\ e2_lba (ex t) = lba /\ bg_desc (ex t) = bg_desc (ex s) /\ num_groups (ex t) = num_groups (ex s) /\
  block_size (ex t) = block_size (ex s) /\ ext2_mounted (ex t) = ext2_mounted (ex s) /\ node_data (ex t) = node_data (ex s) /\
  dev_ok (edev (ex t)) /\ (forall i, dbyte (edev (ex t)) i = dbyte (edev (ex s)) i) /\ heap_same (eh s) (eh t).

Lemma load_sb_ok s lba : dev_ok (edev (ex s)) -> a_ok (eh s) -> 0 <= lba -> lba + 4 <= 4294967296 ->
  exists t, load_volume lba s = load_groups t /\ sb_loaded lba s t.
Proof.
  intros Hd Ha Hl Hend. unfold load_volume. set (s0 := s <| ex := _ |>). change (eh s0) with (eh s). pose proof (alloc_law (eh s) 1024 Ha ltac:(lia)) as La.
  destruct (alloc_room 1024 (eh s) Ha ltac:(lia)) as [q Eq]. destruct (k_alloc 1024 (eh s)) as [r h]. cbn in Eq. subst r. destruct La as (Hah & Hq0 & Hnew & Hlive).
  rewrite u32_id by (unfold is_u32; lia). match goal with |- context [read_sectors_at _ _ ?u] => destruct (read_at_ok u (lba + 2) 2 Hd ltac:(lia) ltac:(lia) ltac:(lia)) as (d & -> & Hd' & Hb) end.
  set (t := set_dev d _ <| eh := _ |> <| ex := _ |>). exists t. split; [done|]. cbn in Hb.
  destruct (free_law h q Hah) as [Hf1 Hf2]; [apply Hlive; by left|]. unfold sb_loaded. split; [|do 8 (split; [done|]); split; [done|]].
  - cbn. rewrite take_ge by (unfold span; rewrite length_map, length_seqZ; lia). unfold disk_sb. apply span_eq. intros i Hi. f_equal. lia.
  - intros q'. cbn. rewrite Hf2, Hlive. split; [intros [[->|Hq] Hne]; [done|exact Hq]|]. intros Hq. split; [by right|]. intros ->. done.
Qed.

Lemma load_facts s lba : let b := disk_sb (edev (ex s)) lba in
  dev_ok (edev (ex s)) -> a_ok (eh s) -> 0 <= lba -> lba + 4 <= 4294967296 -> s_magic b = EXT2_SUPER_MAGIC -> sb_sane lba b ->
  exists t, load_volume lba s = Some (true, t) /\ sb (ex t) = b /\ e2_lba (ex t) = lba /\ block_size (ex t) = block_size_of b /\
    num_groups (ex t) = groups_of b /\ bg_desc (ex t) = disk_table (edev (ex s)) lba b /\ ext2_mounted (ex t) = true /\
    node_data (ex t) = node_data (ex s) /\ dev_ok (edev (ex t)) /\ (forall i, dbyte (edev (ex t)) i = dbyte (edev (ex s)) i) /\
    a_ok (eh t) /\ exists q, ~ a_live (eh s) q /\ forall q', a_live (eh t) q' <-> q' = q \/ a_live (eh s) q'.
Proof.
  intros b Hd Ha Hl Hend Hm [S1 S2 S3 S4 S5 S6]. destruct (load_sb_ok s lba Hd Ha Hl Hend) as (t & -> & Esb & Elba & _ & _ & _ & _ & End & Hdt & Hbt & Hat & Hlt).
  fold b in Esb. unfold load_groups. rewrite Esb, Hm. cbn [negb Z.eqb Pos.eqb EXT2_SUPER_MAGIC]. pose proof (len_disk_sb (edev (ex s)) lba) as Lb. fold b in Lb.
  assert (Ub : Forall is_u8 b) by by apply span_u8. assert (Hf : forall o, 0 <= o -> o + 4 <= 1024 -> is_u32 (read_u32 b o)) by (intros; apply read_u32_range; [done|lia|lia]).
  assert (Hlog : 0 <= s_log_block_size b) by (apply Hf; lia). assert (Hfdb : is_u32 (s_first_data_block b)) by (apply Hf; lia). unfold is_u32 in Hfdb.
  destruct (Z.leb_spec 21 (s_log_block_size b)); [lia|]. unfold div_c. destruct (Z.eqb_spec (s_blocks_per_group b) 0); [lia|].
  rewrite (u32_id (_ - 1)) by (unfold is_u32; lia). change ((s_blocks_count b + s_blocks_per_group b - 1) / s_blocks_per_group b) with (groups_of b).
  rewrite Z.shiftl_mul_pow2 by lia. change (1024 * 2 ^ s_log_block_size b) with (block_size_of b). set (t1 := t <| ex := _ |>).
  assert (Hg : 0 < groups_of b) by (apply Z.div_str_pos; lia). assert (Hts : 0 < table_sectors b) by (unfold table_sectors, GROUP_DESC_SIZE; Z.div_mod_to_equations; lia).
  assert (Hg2 : groups_of b <= 2048) by (unfold table_sectors, GROUP_DESC_SIZE in S4; Z.div_mod_to_equations; lia).
  rewrite (u32_id (groups_of b * _)) by (unfold is_u32, GROUP_DESC_SIZE; lia). rewrite (u32_id (_ + 511)) by (unfold is_u32, GROUP_DESC_SIZE; lia).
  change ((groups_of b * GROUP_DESC_SIZE + 511) / 512) with (table_sectors b). rewrite (u32_id (table_sectors b * 512)) by (unfold is_u32; lia).
  pose proof (alloc_law (eh t1) (table_sectors b * 512) Hat ltac:(lia)) as La. destruct (alloc_room (table_sectors b * 512) (eh t1) Hat ltac:(lia)) as [q Eq].
  destruct (k_alloc (table_sectors b * 512) (eh t1)) as [r h]. cbn in Eq. subst r. destruct La as (Hah & Hq0 & Hnew & Hlive).
  assert (Hbs : block_size_of b = 512 * (block_size_of b / 512) /\ 2 <= block_size_of b / 512).
  { unfold block_size_of. replace (1024 * 2 ^ s_log_block_size b) with (2 * 2 ^ s_log_block_size b * 512) by lia. rewrite Z.div_mul by lia.
    pose proof (Z.pow_pos_nonneg 2 (s_log_block_size b)). lia. }
  set (t2 := t1 <| eh := h |>). assert (El : block_lba t2 (u32 (s_first_data_block b + 1)) = lba + (s_first_data_block b + 1) * (block_size_of b / 512)).
  { unfold block_lba, t2, t1. cbn. rewrite Elba. assert (s_first_data_block b + 1 <= (s_first_data_block b + 1) * (block_size_of b / 512)) by (apply Z.le_mul_diag_r; lia).
    rewrite (u32_id (s_first_data_block b + 1)) by (unfold is_u32; lia). rewrite (u32_id (_ * _)) by (unfold is_u32; lia). rewrite u32_id by (unfold is_u32; lia). done. }
  rewrite El. destruct (read_at_ok t2 (lba + (s_first_data_block b + 1) * (block_size_of b / 512)) (table_sectors b)) as (d & -> & Hdd & Hbd); [done|done|nia|lia|].
  eexists. split; [done|]. cbn in *. split_and!; try done.
  - unfold disk_table. rewrite (span_same (edev (ex s))) by done. apply span_eq. intros i Hi. f_equal. nia.
  - intros i. by rewrite Hbd.
  - exists q. split; [by rewrite <- Hlt|]. intros q'. by rewrite Hlive, Hlt.
Qed.

(** Mounting an ext2 volume reads the statics from the disk.  For a disk with the magic
    number and a sane superblock, [load_volume] succeeds: the superblock, the block size, the
    number of groups and the descriptors are those of the disk, and the one block that the
    heap has more holds the descriptors. *)
Theorem ext2_load_spec s lba : let b := disk_sb (edev (ex s)) lba in
  dev_ok (edev (ex s)) -> a_ok (eh s) -> 0 <= lba -> lba + 4 <= 4294967296 -> s_magic b = EXT2_SUPER_MAGIC -> sb_sane lba b ->
  exists t, load_volume lba s = Some (true, t) /\ sb (ex t) = b /\ e2_lba (ex t) = lba /\ block_size (ex t) = block_size_of b /\
    num_groups (ex t) = groups_of b /\ bg_desc (ex t) = disk_table (edev (ex s)) lba b /\ ext2_mounted (ex t) = true /\
    node_data (ex t) = node_data (ex s) /\ dev_ok (edev (ex t)) /\ (forall i, dbyte (edev (ex t)) i = dbyte (edev (ex s)) i) /\
    a_ok (eh t) /\ exists q, ~ a_live (eh s) q /\ forall q', a_live (eh t) q' <-> q' = q \/ a_live (eh s) q'.
Proof. apply load_facts. Qed.

(** A mount that fails ruins the mounted volume.  When a volume is mounted and a second
    mount meets a superblock of zeros, it reports the failure, but the zeros have replaced
    the superblock in use and [ext2_mounted] is still set: every later access to an inode
    divides by zero. *)
Theorem ext2_remount_faults s lba n :
  dev_ok (edev (ex s)) -> a_ok (eh s) -> 0 <= lba -> lba + 4 <= 4294967296 -> ext2_mounted (ex s) = true ->
  (forall i, 1024 <= i < 2048 -> dbyte (edev (ex s)) (512 * lba + i) = 0) -> n <> 0 ->
  exists t, load_volume lba s = Some (false, t) /\ ext2_mounted (ex t) = true /\ ext2_read_inode n t = None.
Proof.
  intros Hd Ha Hl Hend Hmt Hz Hn. destruct (load_sb_ok s lba Hd Ha Hl Hend) as (t & -> & Esb & _ & _ & _ & _ & Emt & _). exists t.
  assert (Hg : forall i, 0 <= i < 1024 -> arr_get (sb (ex t)) i = 0).
  { intros i Hi. rewrite Esb. unfold disk_sb. rewrite span_get by lia. replace (512 * lba + 1024 + i) with (512 * lba + (1024 + i)) by lia. apply Hz. lia. }
  unfold load_groups. replace (s_magic (sb (ex t))) with 0 by (unfold s_magic, read_u16; by rewrite !Hg by lia). split; [done|]. split; [congruence|].
  unfold ext2_read_inode. rewrite Emt, Hmt. cbn [negb orb]. destruct (Z.eqb_spec n 0); [done|]. unfold inode_place, div_c.
  replace (s_inodes_per_group (sb (ex t))) with 0 by (unfold s_inodes_per_group, read_u32, read_u16; by rewrite !Hg by lia). done.
Qed.
End Load.
