(* ===== verification/Ext2Alloc.v ===== *)
(** The allocation of blocks and inodes of ext2: the bit that is taken was clear, exactly
    that bit is set, and the counts in the group descriptor and in the superblock follow. *)

From S2P Require Import Prelude Vfs VfsReach Fat16 Fat16Fat Fat16Read Fat16Root Ext2 Ext2Read.

(** * Bitmaps in memory *)

Definition bit_of (bitmap : list Z) (i : Z) : bool := Z.testbit (arr_get bitmap (i / 8)) (i mod 8).
Lemma find_free_bit_ok bitmap n : forall i,
  0 <= i -> i + Z.of_nat n <= 8 * len bitmap ->
  exists r, find_free_bit bitmap n i = Some r /\
    match r with
    | Some j => i <= j < i + Z.of_nat n /\ bit_of bitmap j = false /\ forall k, i <= k < j -> bit_of bitmap k = true
    | None => forall k, i <= k < i + Z.of_nat n -> bit_of bitmap k = true
    end.
Proof.
  induction n as [|n IH]; intros i Hi Hn; cbn [find_free_bit]; [exists None; split; [done|lia]|].
  rewrite within_true by (Z.div_mod_to_equations; lia).
  assert (Et : (Z.land (arr_get bitmap (i / 8)) (Z.shiftl 1 (i mod 8)) =? 0) = negb (bit_of bitmap i)).
  { unfold bit_of. rewrite <- land_shiftl1_testbit by (apply Z.mod_pos_bound; lia). by rewrite negb_involutive. }
  rewrite Et. destruct (bit_of bitmap i) eqn:E; cbn [negb].
  - destruct (IH (i + 1) ltac:(lia) ltac:(lia)) as (r & -> & Hr). exists r. split; [done|].
    assert (Hx : forall k, i <= k -> i + 1 <= k \/ k = i) by lia. destruct r as [j|].
    + destruct Hr as (H1 & H2 & H3). split; [lia|]. split; [done|]. intros k Hk. destruct (Hx k ltac:(lia)) as [Hk2| ->]; [apply H3; lia|done].
    + intros k Hk. destruct (Hx k ltac:(lia)) as [Hk2| ->]; [apply Hr; lia|done].
  - exists (Some i). split; [done|]. split; [lia|]. split; [done|]. lia.
Qed.
Lemma set_bit_facts i bitmap : 0 <= i -> i / 8 < len bitmap -> Forall is_u8 bitmap ->
  len (set_bit i bitmap) = len bitmap /\ Forall is_u8 (set_bit i bitmap) /\
  forall j, 0 <= j -> j <> i / 8 -> arr_get (set_bit i bitmap) j = arr_get bitmap j.
Proof.
  intros Hi Hl Hb. unfold set_bit. split; [apply len_arr_set|]. split; [apply arr_set_Forall; [done|apply u8_range]|].
  intros j Hj Hne. apply arr_get_set_ne; [apply Z.div_pos; lia|done|done].
Qed.
Lemma set_bit_get i j bitmap : 0 <= i -> i / 8 < len bitmap -> 0 <= j -> Forall is_u8 bitmap ->
  bit_of (set_bit i bitmap) j = (i =? j) || bit_of bitmap j.
Proof.
  intros Hi Hl Hj Hb. unfold bit_of, set_bit. assert (Hm : 0 <= i mod 8 < 8 /\ 0 <= j mod 8 < 8) by (split; apply Z.mod_pos_bound; lia).
  destruct (Z.eqb_spec (j / 8) (i / 8)) as [E|E].
  - rewrite E, arr_get_set_eq by (split; [apply Z.div_pos; lia|done]). unfold u8. change 256 with (2 ^ 8).
    rewrite Z.mod_pow2_bits_low by lia. rewrite testbit_lor_shiftl1 by lia. destruct (Z.eqb_spec (j mod 8) (i mod 8)).
    + replace j with i by (Z.div_mod_to_equations; lia). by rewrite !Z.eqb_refl.
    + destruct (Z.eqb_spec i j) as [->|]; [done|]. done.
  - rewrite arr_get_set_ne by (done || (apply Z.div_pos; lia)). destruct (Z.eqb_spec i j) as [->|]; done.
Qed.

(** * Allocation on the volume *)

Definition kind (inodes : bool) : bit_kind := if inodes then inode_bits else block_bits.

(** Some request of [size] bytes is refused. *)
Definition out_of_memory (H : Type) `{AllocatorLaws H} (size : Z) : Prop := exists h : H, a_ok h /\ fst (k_alloc size h) = None.

Section Alloc.
Context {H D : Type} `{AllocatorLaws H} `{SectorDevLaws D}.
Implicit Types s : est H D.
Implicit Types x : ext2 D.
Implicit Types k : bool.

Definition nbits x k : Z := k_bits (kind k) (sb x).
Definition bm x k (g : Z) : Z := read_u32 (bg_desc x) (GROUP_DESC_SIZE * g + k_bitmap (kind k)).
Definition free_count x k (g : Z) : Z := read_u16 (bg_desc x) (GROUP_DESC_SIZE * g + k_group_count (kind k)).
Definition bit x k (g i : Z) : bool := Z.testbit (vbyte x (bm x k g * block_size x + i / 8)) (i mod 8).
Definition desc_sectors x : Z := (num_groups x * GROUP_DESC_SIZE + 511) / 512.
Definition desc_start x : Z := (s_first_data_block (sb x) + 1) * block_size x.
(** The bytes of the superblock and of the descriptors. *)
Definition sys_byte x (i : Z) : Prop := 1024 <= i < 2048 \/ desc_start x <= i < desc_start x + 512 * desc_sectors x.
Definition in_bitmap x k (g i : Z) : Prop := bm x k g * block_size x <= i < bm x k g * block_size x + block_size x.

(** The bitmaps lie on the volume, apart from one another, the superblock and the
    descriptors. *)
Record alloc_wf x : Prop := {
  aw_vol : vol_wf x;
  aw_bits : forall k, 0 < nbits x k <= 8 * block_size x;
  aw_groups : 0 < num_groups x <= 100000000;
  aw_desc : len (bg_desc x) = 512 * desc_sectors x;
  aw_fdb : 0 <= s_first_data_block (sb x) < 4294967295;
  aw_desc_end : desc_start x + 512 * desc_sectors x <= nblocks x * block_size x /\ 2048 <= nblocks x * block_size x;
  aw_bm : forall k g, 0 <= g < num_groups x -> 0 <= bm x k g < nblocks x;
  aw_apart : forall k g k' g', 0 <= g < num_groups x -> 0 <= g' < num_groups x -> bm x k g = bm x k' g' -> k = k' /\ g = g';
  aw_sys : forall k g i, 0 <= g < num_groups x -> in_bitmap x k g i -> ~ sys_byte x i
}.

(** The bit [i] of group [g] has been taken: the bitmap on the disk, the counts in memory
    and, in places of their own, on the disk. *)
Definition took x x' k (g i : Z) : Prop :=
  num_groups x' = num_groups x /\ block_size x' = block_size x /\ e2_lba x' = e2_lba x /\
  ext2_mounted x' = ext2_mounted x /\ node_data x' = node_data x /\
  sb x' = write_u32 (k_total_count (kind k)) (u32 (read_u32 (sb x) (k_total_count (kind k)) - 1)) (sb x) /\
  bg_desc x' = write_u16 (GROUP_DESC_SIZE * g + k_group_count (kind k)) (u16 (free_count x k g - 1)) (bg_desc x) /\
  dev_ok (edev x') /\
  forall j, ~ sys_byte x j -> vbyte x' j =
    if j =? bm x k g * block_size x + i / 8 then u8 (Z.lor (vbyte x j) (Z.shiftl 1 (i mod 8))) else vbyte x j.

(** The descriptors and the superblock in memory are those on the disk. *)
Definition desc_on_disk x : Prop := forall j, 0 <= j < len (bg_desc x) -> vbyte x (desc_start x + j) = arr_get (bg_desc x) j.
Definition sb_on_disk x : Prop := forall j, 0 <= j < 1024 -> vbyte x (1024 + j) = arr_get (sb x) j.
(** Both are, if the descriptors lie behind the superblock, after they have been written,
    unless there was no memory for the copy of the superblock. *)
Definition saved x : Prop := (2048 <= desc_start x -> desc_on_disk x) /\ (sb_on_disk x \/ out_of_memory H 1024).

Lemma write_u16_buf off v buf : 0 <= off -> off + 2 <= len buf -> Forall is_u8 buf ->
  len (write_u16 off v buf) = len buf /\ Forall is_u8 (write_u16 off v buf).
Proof. intros. unfold write_u16. split; [apply len_put_bytes; [done|done]|apply put_bytes_u8; [apply le16_u8|done]]. Qed.
Lemma write_u32_buf off v buf : 0 <= off -> off + 4 <= len buf -> Forall is_u8 buf ->
  len (write_u32 off v buf) = len buf /\ Forall is_u8 (write_u32 off v buf).
Proof. intros. unfold write_u32. split; [apply len_put_bytes; [done|done]|apply put_bytes_u8; [apply le32_u8|done]]. Qed.

(** The two writes of metadata stay in the bytes of the superblock and the descriptors. *)
Lemma write_descriptors_ok s : alloc_wf (ex s) ->
  exists t, ext2_write_bg_descriptors s = (true, t) /\ eh t = eh s /\ wrote (ex s) (ex t) (desc_start (ex s)) (bg_desc (ex s)).
Proof.
  intros W. pose proof (aw_vol _ W) as V. pose proof (v_geo _ V) as G. pose proof (geo_bs _ G) as (Hbs & Hb2 & _).
  pose proof (aw_groups _ W) as Hg. pose proof (aw_fdb _ W) as Hf. pose proof (aw_desc_end _ W) as [Hend _]. pose proof (aw_desc _ W) as HL.
  unfold ext2_write_bg_descriptors, GROUP_DESC_SIZE in *. rewrite (u32_id (_ + 1)) by (unfold is_u32; lia).
  rewrite (u32_id (num_groups (ex s) * 32)) by (unfold is_u32; lia). rewrite u32_id by (unfold is_u32; lia).
  change ((num_groups (ex s) * 32 + 511) / 512) with (desc_sectors (ex s)).
  assert (Hds : 0 < desc_sectors (ex s)) by (unfold desc_sectors, GROUP_DESC_SIZE; Z.div_mod_to_equations; lia).
  unfold desc_start in *. assert (Hfn : s_first_data_block (sb (ex s)) + 1 < nblocks (ex s)).
  { apply (Z.mul_lt_mono_pos_r (block_size (ex s))); lia. }
  destruct (block_lba_eq s (s_first_data_block (sb (ex s)) + 1) G ltac:(lia)) as [El _]. rewrite El.
  pose proof (g_end _ G). pose proof (g_lba _ G). set (f1 := s_first_data_block (sb (ex s)) + 1) in *. set (q := block_size (ex s) / 512) in *.
  assert (Hq : f1 * q + desc_sectors (ex s) <= nblocks (ex s) * q) by nia.
  destruct (write_at_ok s (e2_lba (ex s) + f1 * q) (desc_sectors (ex s)) (bg_desc (ex s))) as (t & -> & Eh & Ww);
    [done|lia|nia|lia|lia|apply (v_bg _ V)|].
  exists t. split; [done|]. split; [done|]. rewrite take_ge in Ww by (unfold len in HL; lia).
  replace (512 * _) with (f1 * block_size (ex s)) in Ww by nia. done.
Qed.
Lemma write_superblock_ok s : alloc_wf (ex s) -> a_ok (eh s) ->
  exists ok t, ext2_write_superblock s = Some (ok, t) /\ heap_same (eh s) (eh t) /\
    (wrote (ex s) (ex t) 1024 (sb (ex s)) \/ ex t = ex s /\ out_of_memory H 1024).
Proof.
  intros W Ha. pose proof (aw_vol _ W) as V. pose proof (v_geo _ V) as G. pose proof (geo_bs _ G) as (Hbs & Hb2 & _).
  pose proof (aw_desc_end _ W) as [_ Hend]. pose proof (g_end _ G). pose proof (g_lba _ G). destruct (v_sb _ V) as [L F].
  assert (Hl : e2_lba (ex s) + 4 <= 4294967296) by nia.
  destruct (with_buf_any (D:=D) false 1024 (fun t => Some (write_sectors_at (u32 (e2_lba (ex t) + 2)) 2 (sb (ex t)) t)) s
    (fun a y => wrote (ex s) y 1024 (sb (ex s))) Ha ltac:(lia)) as (a & t & E & Hh & Hw).
  - intros u Eu Hau. cbv beta. rewrite Eu, u32_id by (unfold is_u32; lia).
    destruct (write_at_ok u (e2_lba (ex s) + 2) 2 (sb (ex s))) as (t & -> & Eh & Ww); [by rewrite Eu|lia|lia|lia|lia|done|].
    eexists _, t. split; [done|]. rewrite Eh. split; [by apply heap_same_refl|]. rewrite Eu in Ww.
    replace (512 * _) with 1024 in Ww by lia. rewrite take_ge in Ww by (unfold len in L; lia). done.
  - exists a, t. split; [done|]. split; [done|]. destruct Hw as [Hw|(Hn & _ & Ew)]; [by left|right]. split; [done|]. by exists (eh s).
Qed.

(** What the counts and the cache do not touch. *)
Definition same_layout x x' : Prop :=
  num_groups x' = num_groups x /\ block_size x' = block_size x /\ e2_lba x' = e2_lba x /\ ext2_mounted x' = ext2_mounted x /\
  (len (sb x') = 1024 /\ Forall is_u8 (sb x')) /\ (len (bg_desc x') = len (bg_desc x) /\ Forall is_u8 (bg_desc x')) /\
  nblocks x' = nblocks x /\ s_first_data_block (sb x') = s_first_data_block (sb x) /\
  (forall k, nbits x' k = nbits x k) /\ inode_size_of x' = inode_size_of x /\
  (forall g, 0 <= g < num_groups x -> table_of x' g = table_of x g /\ forall k, bm x' k g = bm x k g) /\ dev_ok (edev x').

Lemma layout_same_vol x x' : alloc_wf x -> same_vol x x' -> dev_ok (edev x') -> same_layout x x'.
Proof.
  intros W (E1 & E2 & E3 & E4 & E5 & E6 & _) Hd. pose proof (aw_vol _ W) as V. destruct (v_bg _ V) as [_ Fb].
  unfold same_layout, nblocks, nbits, inode_size_of, table_of, bm. rewrite E1, E2. split_and!; try done; apply (v_sb _ V).
Qed.
Lemma layout_trans x1 x2 x3 : same_layout x1 x2 -> same_layout x2 x3 -> same_layout x1 x3.
Proof.
  intros (A1 & A2 & A3 & A4 & A5 & A6 & A7 & A8 & A9 & A10 & A11 & A12) (B1 & B2 & B3 & B4 & B5 & B6 & B7 & B8 & B9 & B10 & B11 & B12).
  destruct A6 as [L6 F6], B6 as [L6' F6']. split_and!; try congruence; try (by apply B5).
  intros g Hg. destruct (A11 g Hg) as [T1 M1]. destruct (B11 g ltac:(lia)) as [T2 M2]. split; [congruence|]. intros k. by rewrite M2.
Qed.
Lemma alloc_wf_layout x x' : alloc_wf x -> same_layout x x' -> alloc_wf x'.
Proof.
  intros W (A1 & A2 & A3 & A4 & A5 & A6 & A7 & A8 & A9 & A10 & A11 & A12). pose proof (aw_vol _ W) as V. pose proof (v_geo _ V) as G.
  assert (Es : desc_sectors x' = desc_sectors x) by (unfold desc_sectors; by rewrite A1).
  assert (Ed : desc_start x' = desc_start x) by (unfold desc_start; by rewrite A8, A2).
  assert (Ei : s_inodes_per_group (sb x') = s_inodes_per_group (sb x)) by apply (A9 true). destruct A6 as [L6 F6]. split.
  - split; [split; [rewrite A2; apply G|rewrite A3; apply G|rewrite A2, A3, A7; apply G|done]|by rewrite A4, (v_mounted _ V)|done| | | | | |].
    + split; [rewrite A1, L6; apply (v_bg _ V)|done].
    + rewrite A1. apply V.
    + rewrite Ei. apply V.
    + rewrite A2, A10. apply V.
    + rewrite Ei, A10. apply V.
    + intros g Hg. rewrite A1 in Hg. rewrite Ei, A10, A2, A7, (proj1 (A11 g Hg)). by apply V.
  - intros k. rewrite A9, A2. apply W.
  - rewrite A1. apply W.
  - rewrite L6, Es. apply W.
  - rewrite A8. apply W.
  - rewrite Ed, Es, A7, A2. apply W.
  - intros k g Hg. rewrite A1 in Hg. rewrite A7, (proj2 (A11 g Hg) k). by apply W.
  - intros k g k' g' Hg Hg'. rewrite A1 in Hg, Hg'. rewrite (proj2 (A11 g Hg) k), (proj2 (A11 g' Hg') k'). by apply W.
  - intros k g i Hg. rewrite A1 in Hg. unfold in_bitmap, sys_byte. rewrite (proj2 (A11 g Hg) k), A2, Ed, Es. by apply W.
Qed.

Lemma read_u32_other off b buf o : 0 <= off -> off + len b <= len buf -> 0 <= o -> o + 4 <= len buf -> o + 4 <= off \/ off + len b <= o ->
  read_u32 (put_bytes off b buf) o = read_u32 buf o.
Proof. intros. unfold read_u32. rewrite !read_u16_put_other by lia. done. Qed.
Lemma layout_desc x g v k : alloc_wf x -> 0 <= g < num_groups x ->
  same_layout x (x <| bg_desc := write_u16 (GROUP_DESC_SIZE * g + k_group_count (kind k)) v (bg_desc x) |>).
Proof.
  intros W Hg. pose proof (aw_vol _ W) as V. destruct (v_bg _ V) as [L F]. unfold GROUP_DESC_SIZE in *.
  assert (Hk : k_group_count (kind k) = 12 \/ k_group_count (kind k) = 14) by (destruct k; auto).
  destruct (write_u16_buf (32 * g + k_group_count (kind k)) v (bg_desc x)) as [L2 F2]; [lia|lia|done|].
  unfold same_layout. cbn. split_and!; try done; try apply (v_sb _ V); [|apply V].
  intros g' Hg'. unfold table_of, bm, GROUP_DESC_SIZE. cbn. split; [|intros k'; assert (k_bitmap (kind k') = 0 \/ k_bitmap (kind k') = 4) by (destruct k'; auto)];
    apply read_u32_other; try (change (len (le16 v)) with 2); lia.
Qed.
Lemma layout_sb x v k : alloc_wf x -> same_layout x (x <| sb := write_u32 (k_total_count (kind k)) v (sb x) |>).
Proof.
  intros W. pose proof (aw_vol _ W) as V. destruct (v_sb _ V) as [L F]. destruct (v_bg _ V) as [Lb Fb].
  assert (Hk : k_total_count (kind k) = 12 \/ k_total_count (kind k) = 16) by (destruct k; auto).
  destruct (write_u32_buf (k_total_count (kind k)) v (sb x)) as [L2 F2]; [lia|lia|done|].
  assert (R4 : forall o, 0 <= o -> o + 4 <= 1024 -> o + 4 <= 12 \/ 20 <= o -> read_u32 (write_u32 (k_total_count (kind k)) v (sb x)) o = read_u32 (sb x) o).
  { intros o H1' H2' H3'. apply read_u32_other; try (change (len (le32 v)) with 4); lia. }
  assert (R2 : read_u16 (write_u32 (k_total_count (kind k)) v (sb x)) 88 = read_u16 (sb x) 88).
  { apply read_u16_put_other; try (change (len (le32 v)) with 4); lia. }
  unfold same_layout. cbn. split_and!; try done; try lia.
  - apply R4; lia.
  - apply R4; lia.
  - intros k'. unfold nbits. destruct k'; apply R4; lia.
  - unfold inode_size_of. cbn. unfold s_rev_level, s_inode_size. by rewrite R4, R2 by lia.
  - apply V.
Qed.

Lemma free_count_get x k g : alloc_wf x -> 0 <= g < num_groups x ->
  get_u16 (GROUP_DESC_SIZE * g + k_group_count (kind k)) (bg_desc x) = Some (free_count x k g) /\
  get_u32 (GROUP_DESC_SIZE * g + k_bitmap (kind k)) (bg_desc x) = Some (bm x k g).
Proof.
  intros W Hg. destruct (v_bg _ (aw_vol _ W)) as [L F]. unfold GROUP_DESC_SIZE, get_u16, get_u32 in *.
  assert (Hk : 0 <= k_group_count (kind k) <= 14 /\ 0 <= k_bitmap (kind k) <= 4) by (destruct k; cbn; lia). by rewrite !within_true by lia.
Qed.
Lemma take_bit_ok s k g : alloc_wf (ex s) -> a_ok (eh s) -> 0 <= g < num_groups (ex s) ->
  exists t, take_bit (kind k) g s = Some t /\ heap_same (eh s) (eh t) /\
    num_groups (ex t) = num_groups (ex s) /\ block_size (ex t) = block_size (ex s) /\ e2_lba (ex t) = e2_lba (ex s) /\
    ext2_mounted (ex t) = ext2_mounted (ex s) /\ node_data (ex t) = node_data (ex s) /\
    sb (ex t) = write_u32 (k_total_count (kind k)) (u32 (read_u32 (sb (ex s)) (k_total_count (kind k)) - 1)) (sb (ex s)) /\
    bg_desc (ex t) = write_u16 (GROUP_DESC_SIZE * g + k_group_count (kind k)) (u16 (free_count (ex s) k g - 1)) (bg_desc (ex s)) /\
    dev_ok (edev (ex t)) /\ (forall j, ~ sys_byte (ex s) j -> vbyte (ex t) j = vbyte (ex s) j) /\ saved (ex t).
Proof.
  intros W Ha Hg. unfold take_bit. destruct (free_count_get (ex s) k g W Hg) as [-> _].
  pose proof (layout_desc (ex s) g (u16 (free_count (ex s) k g - 1)) k W Hg) as L1.
  set (x1 := ex s <| bg_desc := _ |>) in *. pose proof (alloc_wf_layout _ _ W L1) as W1.
  set (s1 := s <| ex := x1 |>). destruct (write_descriptors_ok s1 W1) as (s2 & -> & Eh2 & (V2 & D2 & B2)).
  pose proof (layout_same_vol x1 (ex s2) W1 V2 D2) as L2. pose proof (alloc_wf_layout _ _ W1 L2) as W2.
  set (total := read_u32 (sb (ex s2)) _). pose proof (layout_sb (ex s2) (u32 (total - 1)) k W2) as L3.
  set (x3 := ex s2 <| sb := _ |>) in *. pose proof (alloc_wf_layout _ _ W2 L3) as W3. set (s3 := s2 <| ex := x3 |>).
  destruct (write_superblock_ok s3 W3 ltac:(cbn; by rewrite Eh2)) as (ok & t & -> & Ht & Hsb).
  assert (V4 : same_vol x3 (ex t)) by (destruct Hsb as [(V4 & _)|[-> _]]; [exact V4|apply same_vol_refl]).
  assert (D4 : dev_ok (edev (ex t))) by (destruct Hsb as [(_ & D4 & _)|[-> _]]; [exact D4|apply W3]).
  pose proof (v_sb _ (aw_vol _ W3)) as [L3s _]. pose proof (aw_desc _ W1) as Ld.
  assert (B4 : forall j, ~ 1024 <= j < 2048 -> vbyte (ex t) j = vbyte (ex s2) j).
  { intros j Hj. destruct Hsb as [(_ & _ & B4)|[-> _]]; [|done]. rewrite B4. change (ex s3) with x3. rewrite L3s. bcases; cbn [andb]; done || lia. }
  destruct V2 as (A1 & A2 & A3 & A4 & A5 & A6 & A7). destruct V4 as (C1 & C2 & C3 & C4 & C5 & C6 & C7).
  exists t. split; [done|]. assert (Hh : heap_same (eh s) (eh t)) by (cbn in Ht; by rewrite Eh2 in Ht).
  split; [done|]. split_and!; try done; try (cbn in *; congruence).
  - rewrite C1. cbn. unfold total. by rewrite A1.
  - intros j Hj. rewrite B4 by (intros Hj'; apply Hj; by left). rewrite B2. change (ex s1) with x1. rewrite Ld.
    destruct ((desc_start x1 <=? j) && _) eqn:E2; [|done]. exfalso. apply Hj. right.
    change (desc_start x1) with (desc_start (ex s)) in E2. change (desc_sectors x1) with (desc_sectors (ex s)) in E2. lia.
  - assert (Eds : desc_start (ex t) = desc_start x1).
    { destruct L2 as (_ & B & _ & _ & _ & _ & _ & F & _). destruct L3 as (_ & B' & _ & _ & _ & _ & _ & F' & _).
      unfold desc_start. rewrite C1, C4, F', B', F, B. done. }
    assert (Ebg : bg_desc (ex t) = bg_desc x1) by (rewrite C2; exact A2). split.
    { intros Hd j Hj. rewrite Eds, Ebg in *. rewrite B4 by lia. rewrite B2. change (ex s1) with x1. bcases; cbn [andb]; try lia. f_equal. lia. }
    destruct Hsb as [(_ & _ & Bs)|[_ Hn]]; [left|by right]. intros j Hj. rewrite Bs, C1. change (ex s3) with x3. rewrite L3s.
    bcases; cbn [andb]; try lia. f_equal. lia.
Qed.

Lemma alloc_loop_ok k : forall n g s,
  alloc_wf (ex s) -> a_ok (eh s) -> 0 <= g -> g + Z.of_nat n = num_groups (ex s) ->
  exists r t, alloc_loop (kind k) n g s = Some (r, t) /\ heap_same (eh s) (eh t) /\
    match r with
    | None => same_bytes (ex s) (ex t) /\
        forall g', g <= g' < num_groups (ex s) -> 0 < free_count (ex s) k g' -> forall i, 0 <= i < nbits (ex s) k -> bit (ex s) k g' i = true
    | Some (g', i) => g <= g' < num_groups (ex s) /\ 0 <= i < nbits (ex s) k /\ 0 < free_count (ex s) k g' /\ bit (ex s) k g' i = false /\
        (forall j, 0 <= j < i -> bit (ex s) k g' j = true) /\ took (ex s) (ex t) k g' i /\ saved (ex t)
    end.
Proof.
  induction n as [|n IH]; intros g s W Ha Hg Hn; cbn [alloc_loop].
  { exists None, s. split; [done|]. split; [by apply heap_same_refl|]. split; [apply same_bytes_refl, W|lia]. }
  destruct (free_count_get (ex s) k g W ltac:(lia)) as [-> Ebm]. destruct (Z.ltb_spec 0 (free_count (ex s) k g)) as [Hc|Hc].
  2: { destruct (IH (g + 1) s W Ha ltac:(lia) ltac:(lia)) as (r & t & E & Hh & Hr). exists r, t. split; [done|]. split; [done|].
       destruct r as [[g' i]|]; [split; [lia|apply Hr]|]. destruct Hr as [Hs Hr]. split; [done|]. intros g' Hg' Hc'.
       apply Hr; [|done]. destruct (decide (g' = g)) as [->|]; lia. }
  rewrite Ebm. pose proof (aw_vol _ W) as V. pose proof (v_geo _ V) as G. pose proof (geo_bs _ G) as (Hbs & _).
  pose proof (aw_bits _ W k) as Hbits. destruct (read_block_ok s (bm (ex s) k g) G (aw_bm _ W k g ltac:(lia))) as (s1 & -> & Eh1 & Hs1).
  pose proof (layout_same_vol _ _ W (proj1 Hs1) (proj1 (proj2 Hs1))) as L1. pose proof (alloc_wf_layout _ _ W L1) as W1.
  set (bitmap := block_bytes (ex s) (bm (ex s) k g)) in *. assert (Lb : len bitmap = block_size (ex s)) by by apply len_block.
  assert (Fb : Forall is_u8 bitmap) by by apply block_u8. change (k_bits (kind k) (sb (ex s1))) with (nbits (ex s1) k).
  assert (En : nbits (ex s1) k = nbits (ex s) k) by apply L1. rewrite En.
  destruct (find_free_bit_ok bitmap (Z.to_nat (nbits (ex s) k)) 0 ltac:(lia) ltac:(lia)) as (r & -> & Hr).
  assert (Hbit : forall i, 0 <= i < nbits (ex s) k -> bit_of bitmap i = bit (ex s) k g i).
  { intros i Hi. unfold bit_of, bit, bitmap. rewrite block_get by (done || (Z.div_mod_to_equations; lia)). done. }
  destruct r as [i|].
  - destruct Hr as (Hi & Hfree & Hfirst). rewrite Z2Nat.id in Hi by lia. assert (Hi8 : 0 <= i / 8 < block_size (ex s)) by (Z.div_mod_to_equations; lia).
    destruct (set_bit_facts i bitmap ltac:(lia) ltac:(lia) Fb) as (Ls & Fs & Hother).
    assert (Eb1 : block_size (ex s1) = block_size (ex s)) by apply L1. assert (En1 : nblocks (ex s1) = nblocks (ex s)) by apply L1.
    destruct (write_block_ok s1 (bm (ex s) k g) (set_bit i bitmap)) as (s2 & -> & Eh2 & Hw);
      [apply W1|rewrite En1; apply (aw_bm _ W); lia|lia|done|]. rewrite Eb1 in Hw. destruct Hw as (V2 & D2 & B2).
    pose proof (layout_same_vol _ _ W1 V2 D2) as L2. pose proof (alloc_wf_layout _ _ W1 L2) as W2.
    assert (Eg : num_groups (ex s2) = num_groups (ex s)) by (destruct V2 as (_ & _ & A & _); destruct Hs1 as ((_ & _ & B & _) & _); congruence).
    destruct (take_bit_ok s2 k g W2 ltac:(by rewrite Eh2, Eh1) ltac:(lia)) as (t & -> & Hh & T).
    exists (Some (g, i)), t. split; [done|]. split; [by rewrite Eh2, Eh1 in Hh|]. split; [lia|]. split; [lia|]. split; [done|].
    split; [by rewrite <- Hbit by lia|]. split; [intros j Hj; rewrite <- Hbit by lia; apply Hfirst; lia|].
    destruct V2 as (A1 & A2 & A3 & A4 & A5 & A6 & A7). destruct Hs1 as ((C1 & C2 & C3 & C4 & C5 & C6 & C7) & _ & B1).
    destruct T as (T1 & T2 & T3 & T4 & T5 & T6 & T7 & T8 & T9 & T10). split; [|done]. unfold took. split_and!; try congruence; try done.
    + rewrite T7. unfold free_count. by rewrite A2, C2.
    + intros j Hj. assert (Hsys : sys_byte (ex s2) j <-> sys_byte (ex s) j).
      { unfold sys_byte, desc_start, desc_sectors. by rewrite A1, C1, A3, C3, A4, C4. }
      rewrite T9 by (by rewrite Hsys). rewrite B2, Ls, Lb, B1. destruct (Z.eqb_spec j (bm (ex s) k g * block_size (ex s) + i / 8)) as [->|Hne].
      * bcases; cbn [andb]; try (exfalso; lia). unfold set_bit. replace (_ + i / 8 - _) with (i / 8) by lia.
        rewrite arr_get_set_eq by lia. unfold bitmap. by rewrite block_get by (done || lia).
      * bcases; cbn [andb]; try done. rewrite Hother by lia. unfold bitmap. rewrite block_get by (done || lia). f_equal. lia.
  - destruct (IH (g + 1) s1 W1 ltac:(by rewrite Eh1) ltac:(lia)) as (r & t & E & Hh & Hr2); [rewrite (proj1 L1); lia|].
    rewrite Eh1 in Hh. exists r, t. split; [done|]. split; [done|]. pose proof Hs1 as ((C1 & C2 & C3 & C4 & C5 & C6 & C7) & _ & B1).
    assert (Ebit : forall g' i, bit (ex s1) k g' i = bit (ex s) k g' i) by (intros; unfold bit, bm; by rewrite C2, C4, B1).
    assert (Efc : forall g', free_count (ex s1) k g' = free_count (ex s) k g') by (intros; unfold free_count; by rewrite C2).
    destruct r as [[g' i]|].
    + rewrite C3, En, Efc, Ebit in Hr2. destruct Hr2 as (R1 & R2 & R3 & R4 & R5 & (T1 & T2 & T3 & T4 & T5 & T6 & T7 & T8 & T9) & T10).
      split; [lia|]. split; [done|]. split; [done|]. split; [done|]. split; [intros j Hj; rewrite <- Ebit; by apply R5|].
      split; [|done]. unfold took. split_and!; try congruence; try done.
      intros j Hj. rewrite T9; [unfold bm; by rewrite C2, C4, B1|]. unfold sys_byte, desc_start, desc_sectors in *. by rewrite C1, C3, C4.
    + destruct Hr2 as [Hs2 Hr2]. split; [by eapply same_bytes_trans|]. intros g' Hg' Hc' j Hj. destruct (decide (g' = g)) as [->|].
      * rewrite <- Hbit by done. apply Hr. lia.
      * rewrite <- Ebit. apply Hr2; [lia|by rewrite Efc|by rewrite En].
Qed.

Lemma took_layout x x' k g i : alloc_wf x -> 0 <= g < num_groups x -> took x x' k g i -> same_layout x x'.
Proof.
  intros W Hg (T1 & T2 & T3 & T4 & T5 & T6 & T7 & T8 & _).
  pose proof (layout_desc x g (u16 (free_count x k g - 1)) k W Hg) as L1. set (x1 := x <| bg_desc := _ |>) in *.
  pose proof (alloc_wf_layout _ _ W L1) as W1.
  pose proof (layout_sb x1 (u32 (read_u32 (sb x) (k_total_count (kind k)) - 1)) k W1) as L2. set (x2 := x1 <| sb := _ |>) in *.
  pose proof (alloc_wf_layout _ _ W1 L2) as W2. eapply layout_trans; [exact L1|]. eapply layout_trans; [exact L2|].
  apply (layout_same_vol _ _ W2); [|done]. unfold same_vol. cbn. split_and!; done.
Qed.
(** Exactly the bit that was taken changes, in both kinds of bitmaps. *)
Lemma took_bits x x' k g i k' g' i' : alloc_wf x -> 0 <= g < num_groups x -> 0 <= i < nbits x k -> took x x' k g i ->
  0 <= g' < num_groups x -> 0 <= i' < nbits x k' ->
  bit x' k' g' i' = bool_decide (k' = k /\ g' = g /\ i' = i) || bit x k' g' i'.
Proof.
  intros W Hg Hi T Hg' Hi'. pose proof (took_layout _ _ _ _ _ W Hg T) as L. pose proof (geo_bs _ (v_geo _ (aw_vol _ W))) as (Hbs & _).
  pose proof (aw_bits _ W k) as Hb. pose proof (aw_bits _ W k') as Hb'.
  assert (Ebm : bm x' k' g' = bm x k' g') by (by apply L). assert (Ebs : block_size x' = block_size x) by apply L.
  assert (Hin : in_bitmap x k' g' (bm x k' g' * block_size x + i' / 8)) by (unfold in_bitmap; Z.div_mod_to_equations; lia).
  unfold bit. rewrite Ebm, Ebs. destruct T as (_ & _ & _ & _ & _ & _ & _ & _ & T9). rewrite T9 by (by apply (aw_sys _ W k' g')).
  assert (Hm : 0 <= i mod 8 < 8 /\ 0 <= i' mod 8 < 8) by (split; apply Z.mod_pos_bound; lia).
  destruct (Z.eqb_spec (bm x k' g' * block_size x + i' / 8) (bm x k g * block_size x + i / 8)) as [E|E].
  - assert (Hsame : bm x k' g' = bm x k g).
    { assert (0 <= i' / 8 < block_size x /\ 0 <= i / 8 < block_size x) by (Z.div_mod_to_equations; lia). nia. }
    destruct (aw_apart _ W k' g' k g Hg' Hg Hsame) as [-> ->]. unfold u8. change 256 with (2 ^ 8). rewrite Z.mod_pow2_bits_low by lia.
    rewrite testbit_lor_shiftl1 by lia. destruct (Z.eqb_spec (i' mod 8) (i mod 8)).
    + rewrite bool_decide_true by (split_and!; [done|done|Z.div_mod_to_equations; lia]). done.
    + rewrite bool_decide_false; [done|]. intros (_ & _ & ->). done.
  - rewrite bool_decide_false; [done|]. intros (-> & -> & ->). done.
Qed.

Definition ext2_alloc k : est H D -> option (Z * est H D) := if k then ext2_alloc_inode else ext2_alloc_block.
(** The number of a bit: inodes count from 1, blocks from the first data block. *)
Definition number x k (g i : Z) : Z := g * nbits x k + i + (if k then 1 else s_first_data_block (sb x)).

Lemma alloc_bit_any s k :
  alloc_wf (ex s) -> a_ok (eh s) -> num_groups (ex s) * nbits (ex s) k + s_first_data_block (sb (ex s)) + 1 < 4294967296 ->
  exists b t, ext2_alloc k s = Some (b, t) /\ heap_same (eh s) (eh t) /\ alloc_wf (ex t) /\
    ((b = 0 /\ same_bytes (ex s) (ex t) /\
      ((forall g i, 0 <= g < num_groups (ex s) -> 0 < free_count (ex s) k g -> 0 <= i < nbits (ex s) k -> bit (ex s) k g i = true) \/
       fst (k_alloc (block_size (ex s)) (eh s)) = None)) \/
     (exists g i, b = number (ex s) k g i /\ 0 <= g < num_groups (ex s) /\ 0 <= i < nbits (ex s) k /\ 0 < free_count (ex s) k g /\
        bit (ex s) k g i = false /\ took (ex s) (ex t) k g i /\ saved (ex t))).
Proof.
  intros W Ha Hmax. pose proof (geo_bs _ (v_geo _ (aw_vol _ W))) as (Hbs & _). pose proof (aw_bits _ W k) as Hb. pose proof (aw_fdb _ W) as Hf.
  destruct (with_buf_any (D:=D) None (block_size (ex s)) (fun t => alloc_loop (kind k) (Z.to_nat (num_groups (ex t))) 0 t) s
    (fun r y => match r with
      | None => same_bytes (ex s) y /\ forall g i, 0 <= g < num_groups (ex s) -> 0 < free_count (ex s) k g -> 0 <= i < nbits (ex s) k -> bit (ex s) k g i = true
      | Some (g, i) => 0 <= g < num_groups (ex s) /\ 0 <= i < nbits (ex s) k /\ 0 < free_count (ex s) k g /\ bit (ex s) k g i = false /\ took (ex s) y k g i /\ saved y
      end) Ha ltac:(lia)) as (r & t & E & Hh & Hr).
  - intros u Eu Hau. cbv beta. pose proof (aw_groups _ W). destruct (alloc_loop_ok k (Z.to_nat (num_groups (ex u))) 0 u) as (r & t & Er & Hh & Hr);
      [by rewrite Eu|done|lia|rewrite Eu; lia|]. exists r, t. split; [done|]. split; [done|]. rewrite Eu in Hr. destruct r as [[g i]|].
    + destruct Hr as (R1 & R2 & R3 & R4 & _ & R6). done.
    + destruct Hr as [Hs Hr]. split; [done|]. intros g i Hg Hc Hi. by apply Hr.
  - assert (Ea : alloc_bit (kind k) s = Some (r, t)) by done. clear E.
    assert (Hzero : r = None -> ext2_alloc k s = Some (0, t)).
    { intros ->. unfold ext2_alloc, ext2_alloc_inode, ext2_alloc_block. destruct k; cbn [kind] in Ea; by rewrite Ea. }
    assert (Hwf : same_bytes (ex s) (ex t) -> alloc_wf (ex t)) by (intros Hs; by apply (alloc_wf_layout _ _ W), (layout_same_vol _ _ W); apply Hs).
    destruct Hr as [Hr|(Hno & -> & Ex)].
    2: { assert (Hs : same_bytes (ex s) (ex t)) by (rewrite Ex; apply same_bytes_refl, W). exists 0, t. split; [by apply Hzero|]. split; [done|].
         split; [by apply Hwf|]. left. split; [done|]. split; [done|by right]. }
    destruct r as [[g i]|].
    + destruct Hr as (R1 & R2 & R3 & R4 & R6 & R7). pose proof (took_layout _ _ _ _ _ W R1 R6) as L. exists (number (ex s) k g i), t.
      assert (Hnum : is_u32 (number (ex s) k g i)).
      { unfold number, is_u32. assert (0 <= g * nbits (ex s) k /\ (g + 1) * nbits (ex s) k <= num_groups (ex s) * nbits (ex s) k) by nia. destruct k; lia. }
      split; [|split; [done|split; [by apply (alloc_wf_layout _ _ W)|right; by exists g, i]]]. rewrite <- (u32_id (number _ _ _ _)) by done.
      unfold ext2_alloc, ext2_alloc_inode, ext2_alloc_block, number in *. assert (Ef : s_first_data_block (sb (ex t)) = s_first_data_block (sb (ex s))) by apply L.
      assert (Eb : nbits (ex t) k = nbits (ex s) k) by apply L.
      destruct k; cbn [kind] in Ea; rewrite Ea; unfold nbits in *; cbn in *; by rewrite ?Ef, Eb.
    + destruct Hr as [Hs Hr]. exists 0, t. split; [by apply Hzero|]. split; [done|]. split; [by apply Hwf|]. left. split; [done|]. split; [done|by left].
Qed.
(** With room for the bitmap. *)
Lemma alloc_bit_facts `{!RoomyHeap H} s k :
  alloc_wf (ex s) -> a_ok (eh s) -> num_groups (ex s) * nbits (ex s) k + s_first_data_block (sb (ex s)) + 1 < 4294967296 ->
  exists b t, ext2_alloc k s = Some (b, t) /\ heap_same (eh s) (eh t) /\ alloc_wf (ex t) /\
    ((b = 0 /\ same_bytes (ex s) (ex t) /\
      forall g i, 0 <= g < num_groups (ex s) -> 0 < free_count (ex s) k g -> 0 <= i < nbits (ex s) k -> bit (ex s) k g i = true) \/
     (exists g i, b = number (ex s) k g i /\ 0 <= g < num_groups (ex s) /\ 0 <= i < nbits (ex s) k /\
        bit (ex s) k g i = false /\ took (ex s) (ex t) k g i)).
Proof.
  intros W Ha Hmax. destruct (alloc_bit_any s k W Ha Hmax) as (b & t & E & Hh & Wt & Hr). exists b, t. do 3 (split; [done|]).
  destruct Hr as [(-> & Hs & [Hr|Hn])|(g & i & Eb & Hg & Hi & _ & Hf & T & _)]; [by left| |right; by exists g, i].
  pose proof (geo_bs _ (v_geo _ (aw_vol _ W))) as (Hbs & _). destruct (alloc_room (block_size (ex s)) (eh s) Ha ltac:(lia)) as [p Hp]. congruence.
Qed.

(** The counts after a bit has been taken. *)
Lemma took_counts x x' k g i : alloc_wf x -> 0 <= g < num_groups x -> 0 < free_count x k g -> took x x' k g i ->
  (forall k' g', 0 <= g' < num_groups x ->
     free_count x' k' g' = if bool_decide (k' = k /\ g' = g) then free_count x k g - 1 else free_count x k' g') /\
  forall k', read_u32 (sb x') (k_total_count (kind k')) =
    if bool_decide (k' = k) then u32 (read_u32 (sb x) (k_total_count (kind k)) - 1) else read_u32 (sb x) (k_total_count (kind k')).
Proof.
  intros W Hg Hpos (_ & _ & _ & _ & _ & T6 & T7 & _). destruct (v_bg _ (aw_vol _ W)) as [Lb Fb]. destruct (v_sb _ (aw_vol _ W)) as [Ls Fs].
  unfold GROUP_DESC_SIZE in *. assert (Hoff : forall b, k_group_count (kind b) = (if b then 14 else 12) /\ k_total_count (kind b) = (if b then 16 else 12)) by (by intros []).
  assert (Hu : is_u16 (free_count x k g)).
  { unfold free_count, GROUP_DESC_SIZE. rewrite (proj1 (Hoff k)). apply read_u16_range; [done|destruct k; lia..]. }
  split.
  - intros k' g' Hg'. unfold free_count at 1, GROUP_DESC_SIZE. rewrite T7, (proj1 (Hoff k)), (proj1 (Hoff k')). case_bool_decide as Hkg.
    + destruct Hkg as [-> ->]. rewrite read_write_u16; [apply u16_id; ulia|destruct k; lia..|apply u16_range].
    + unfold free_count, GROUP_DESC_SIZE. rewrite (proj1 (Hoff k')). apply read_u16_put_other; change (len (le16 _)) with 2; try (destruct k, k'; lia).
  - intros k'. rewrite T6, (proj2 (Hoff k)), (proj2 (Hoff k')). case_bool_decide as Hk.
    + subst k'. rewrite read_write_u32; [done|destruct k; lia..|apply u32_range].
    + apply read_u32_other; change (len (le32 _)) with 4; destruct k, k'; lia || done.
Qed.

End Alloc.
