(* ===== verification/Ext2Write.v ===== *)
(** Writing files of ext2, on a volume where the blocks of the file, the free blocks, the
    metadata and the bytes of everything else lie apart: adding blocks to a file, with the
    indirect block where one is needed, the loop that writes the bytes, and the whole of
    [ext2_vfs_write]. *)

From S2P Require Import Prelude Vfs VfsReach Fat16 Fat16Fat Fat16Read Fat16Root Ext2 Ext2Read Ext2Alloc.

(** * The invariant of a file *)

Section Write.
Context {H D : Type} `{RoomyHeap H} `{SectorDevLaws D}.
Implicit Types s : est H D.
Implicit Types x : ext2 D.
Implicit Types inode : list Z.

(** The inode that is written, and the bytes of the volume that belong to others. *)
Context (n : Z) (Q : Z -> Prop).

Definition blk x (p i : Z) : Prop := p * block_size x <= i < p * block_size x + block_size x.
Definition meta x (i : Z) : Prop := sys_byte x i \/ exists k g, 0 <= g < num_groups x /\ in_bitmap x k g i.
Definition slot x (i : Z) : Prop := inode_off x n <= i < inode_off x n + 128.
(** The blocks of a file, the indirect one included. *)
Definition own x inode (p : Z) : Prop := p <> 0 /\ (p = i_block inode 12 \/ exists b, 0 <= b /\ p = phys x inode b).
(** A block that is nobody's. *)
Definition loose x inode (p : Z) : Prop :=
  0 < p < nblocks x /\ (forall i, blk x p i -> ~ meta x i /\ ~ slot x i /\ ~ Q i) /\ ~ own x inode p.
Definition clear x (g j : Z) : Prop := 0 <= g < num_groups x /\ 0 <= j < nbits x false /\ bit x false g j = false.
(** A block that has been allocated and not yet used. *)
Definition reserved x inode (p : Z) : Prop := loose x inode p /\ forall g j, clear x g j -> number x false g j <> p.

Record file_inv x inode : Prop := {
  fi_alloc : alloc_wf x;
  fi_max : num_groups x * nbits x false + s_first_data_block (sb x) + 1 < 4294967296;
  fi_has : has_inode x n;
  fi_inode : inode_ok x inode;
  fi_slot : forall i, slot x i -> ~ meta x i;
  fi_others : forall i, Q i -> ~ meta x i /\ ~ slot x i;
  fi_own : forall p i, own x inode p -> blk x p i -> ~ meta x i /\ ~ slot x i /\ ~ Q i;
  fi_clear : forall g j, clear x g j -> loose x inode (number x false g j);
  fi_inj : forall b c, 0 <= b -> 0 <= c -> phys x inode b = phys x inode c -> phys x inode b <> 0 -> b = c;
  fi_ind : forall b, 0 <= b -> i_block inode 12 <> 0 -> phys x inode b <> i_block inode 12
}.

(** * Steps that keep the layout *)

Definition step x x' (R : Z -> Prop) : Prop := same_layout x x' /\ forall i, ~ R i -> vbyte x' i = vbyte x i.

Lemma step_refl x : alloc_wf x -> step x x (fun _ => False).
Proof. intros W. split; [apply layout_same_vol; [done|done|apply W]|done]. Qed.
Lemma step_blk x x' R p i : step x x' R -> blk x' p i <-> blk x p i.
Proof. intros [(_ & E & _) _]. unfold blk. by rewrite E. Qed.
Lemma step_meta x x' R i : step x x' R -> meta x' i <-> meta x i.
Proof.
  intros [(E1 & E2 & E3 & E4 & E5 & E6 & E7 & E8 & E9 & E10 & E11 & E12) _]. unfold meta, sys_byte, in_bitmap, desc_start, desc_sectors. rewrite E1, E2, E8.
  split; intros [Hs|(k & g & Hg & Hi)]; [by left|right; exists k, g|by left|right; exists k, g]; (split; [done|]);
    destruct (E11 g Hg) as [_ Eb]; [by rewrite Eb in Hi|by rewrite Eb].
Qed.
Lemma step_off x x' R : alloc_wf x -> has_inode x n -> step x x' R -> inode_off x' n = inode_off x n.
Proof.
  intros W Hn [(E1 & E2 & E3 & E4 & E5 & E6 & E7 & E8 & E9 & E10 & E11 & E12) _]. pose proof (v_ipg _ (aw_vol _ W)). unfold has_inode in Hn.
  pose proof (E9 true) as Ei. unfold nbits in Ei. cbn in Ei. unfold inode_off. rewrite E2, E10, Ei. f_equal. f_equal. apply E11.
  split; [apply Z.div_pos; lia|]. apply Z.div_lt_upper_bound; lia.
Qed.
Lemma step_slot x x' R i : alloc_wf x -> has_inode x n -> step x x' R -> slot x' i <-> slot x i.
Proof. intros W Hn S. unfold slot. by rewrite (step_off x x' R W Hn S). Qed.
Lemma step_number x x' R g j : step x x' R -> number x' false g j = number x false g j.
Proof. intros [(E1 & E2 & E3 & E4 & E5 & E6 & E7 & E8 & E9 & E10 & E11 & E12) _]. unfold number. by rewrite E9, E8. Qed.

(** The indirect block is not touched. *)
Definition spares_ind x inode (R : Z -> Prop) : Prop := i_block inode 12 = 0 \/ forall i, R i -> ~ blk x (i_block inode 12) i.
Lemma step_phys x x' R inode b : geo x -> step x x' R -> spares_ind x inode R -> 0 <= b -> phys x' inode b = phys x inode b.
Proof.
  intros G [(E1 & E2 & _) B] Hi Hb. unfold phys. rewrite E2. destruct (Z.ltb_spec b 12); [done|]. destruct (Z.ltb_spec (b - 12) (block_size x / 4)); [|done].
  destruct (Z.eqb_spec (i_block inode 12) 0); [done|]. destruct Hi as [Hi|Hi]; [done|]. pose proof (geo_bs x G) as (Hbs & _ & Hb4).
  unfold u32_at. rewrite !B; [done|..]; intros Hr; apply (Hi _ Hr); unfold blk; lia.
Qed.
Lemma step_own x x' R inode p : geo x -> step x x' R -> spares_ind x inode R -> own x' inode p <-> own x inode p.
Proof.
  intros G S Hi. unfold own. split; intros [Hp [->|(b & Hb & ->)]]; (split; [done|]); [by left| |by left|]; right; exists b; (split; [done|]);
    by rewrite (step_phys x x' R inode b G S Hi Hb).
Qed.

(** Bits of the block bitmaps are only set. *)
Definition only_sets x x' : Prop := forall g j, clear x' g j -> clear x g j.
Lemma loose_step x x' R inode p : file_inv x inode -> step x x' R -> spares_ind x inode R -> loose x inode p -> loose x' inode p.
Proof.
  intros F S Hi (L1 & L2 & L3). pose proof (v_geo _ (aw_vol _ (fi_alloc _ _ F))) as G. split_and!.
  - apply L1.
  - destruct S as [(_ & _ & _ & _ & _ & _ & E7 & _) _]. rewrite E7. apply L1.
  - intros i Hb. rewrite (step_blk _ _ _ _ _ S) in Hb. rewrite (step_meta _ _ _ _ S), (step_slot _ _ _ _ (fi_alloc _ _ F) (fi_has _ _ F) S). by apply L2.
  - by rewrite (step_own _ _ _ _ _ G S Hi).
Qed.
Lemma reserved_step x x' R inode p : file_inv x inode -> step x x' R -> spares_ind x inode R -> only_sets x x' -> reserved x inode p -> reserved x' inode p.
Proof.
  intros F S Hi Ho [L C]. split; [by eapply loose_step|]. intros g j Hc. rewrite (step_number _ _ _ _ _ S). apply C. by apply Ho.
Qed.
(** The invariant for a changed inode: its blocks are old ones or reserved ones. *)
Lemma inv_rebuild x x' R inode inode' : file_inv x inode -> step x x' R -> only_sets x x' -> inode_ok x' inode' ->
  (forall q, own x' inode' q -> own x inode q \/ reserved x inode q) ->
  (forall b c, 0 <= b -> 0 <= c -> phys x' inode' b = phys x' inode' c -> phys x' inode' b <> 0 -> b = c) ->
  (forall b, 0 <= b -> i_block inode' 12 <> 0 -> phys x' inode' b <> i_block inode' 12) ->
  file_inv x' inode'.
Proof.
  intros F S Ho I' Hown Hinj Hind. pose proof (fi_alloc _ _ F) as W. pose proof (fi_has _ _ F) as Hn. pose proof (proj1 S) as L.
  pose proof L as (E1 & E2 & E3 & E4 & E5 & E6 & E7 & E8 & E9 & E10 & E11 & E12).
  assert (Ei : s_inodes_per_group (sb x') = s_inodes_per_group (sb x)) by apply (E9 true).
  assert (Hapart : forall p i, own x inode p \/ reserved x inode p -> blk x p i -> ~ meta x i /\ ~ slot x i /\ ~ Q i).
  { intros p i [Hp|[(_ & Hp & _) _]] Hb; [by apply (fi_own _ _ F p)|by apply Hp]. }
  split; [by apply (alloc_wf_layout _ _ W)|rewrite E1, E9, E8; apply F|unfold has_inode in *; by rewrite E1, Ei|done|..|done|done].
  - intros i Hs. rewrite (step_slot _ _ _ _ W Hn S) in Hs. rewrite (step_meta _ _ _ _ S). by apply F.
  - intros i Hq. rewrite (step_meta _ _ _ _ S), (step_slot _ _ _ _ W Hn S). by apply F.
  - intros p i Hp Hb. rewrite (step_blk _ _ _ _ _ S) in Hb. rewrite (step_meta _ _ _ _ S), (step_slot _ _ _ _ W Hn S).
    apply (Hapart p); [by apply Hown|done].
  - intros g j Hc. rewrite (step_number _ _ _ _ _ S). apply Ho in Hc. destruct (fi_clear _ _ F g j Hc) as (L1 & L2 & L3).
    split; [by rewrite E7|]. split.
    + intros i Hb. rewrite (step_blk _ _ _ _ _ S) in Hb. rewrite (step_meta _ _ _ _ S), (step_slot _ _ _ _ W Hn S). by apply L2.
    + intros Hp. destruct (Hown _ Hp) as [?|[_ Hr]]; [done|]. by apply (Hr g j Hc).
Qed.
Lemma inv_step x x' R inode : file_inv x inode -> step x x' R -> spares_ind x inode R -> only_sets x x' -> file_inv x' inode.
Proof.
  intros F S Hi Ho. pose proof (v_geo _ (aw_vol _ (fi_alloc _ _ F))) as G. pose proof (fi_inode _ _ F) as I.
  pose proof (proj1 S) as (_ & _ & _ & _ & _ & _ & E7 & _). apply (inv_rebuild x x' R inode); try done.
  - split; [apply I|apply I|rewrite E7; apply I|]. intros b Hb. rewrite (step_phys _ _ _ _ _ G S Hi Hb), E7. by apply I.
  - intros q Hq. left. by apply (step_own _ _ _ _ _ G S Hi).
  - intros b c Hb Hc. rewrite !(step_phys _ _ _ _ _ G S Hi) by done. by apply F.
  - intros b Hb. rewrite (step_phys _ _ _ _ _ G S Hi Hb). by apply F.
Qed.

(** Bytes of the file that a step does not touch. *)
Lemma step_fbyte x x' R inode i : file_inv x inode -> step x x' R -> spares_ind x inode R -> 0 <= i ->
  (phys x inode (i / block_size x) <> 0 -> forall j, blk x (phys x inode (i / block_size x)) j -> ~ R j) ->
  fbyte x' inode i = fbyte x inode i.
Proof.
  intros F S Hi H0i HR. pose proof (v_geo _ (aw_vol _ (fi_alloc _ _ F))) as G. pose proof (geo_bs x G) as (Hbs & _). pose proof (proj1 S) as (_ & E2 & _).
  unfold fbyte. rewrite E2, (step_phys _ _ _ _ _ G S Hi) by (apply Z.div_pos; lia). destruct (Z.eqb_spec (phys x inode (i / block_size x)) 0); [done|].
  apply S. apply HR; [done|]. unfold blk. pose proof (Z.mod_pos_bound i (block_size x)). lia.
Qed.
Lemma blk_disjoint x p q i : geo x -> p <> q -> blk x p i -> ~ blk x q i.
Proof. intros G Hne Hp Hq. unfold blk in *. pose proof (geo_bs x G). nia. Qed.
Lemma own_phys x inode b : 0 <= b -> phys x inode b <> 0 -> own x inode (phys x inode b).
Proof. intros. split; [done|]. right. by exists b. Qed.
Lemma own_ind x inode : i_block inode 12 <> 0 -> own x inode (i_block inode 12).
Proof. intros. split; [done|]. by left. Qed.
Lemma meta_spares x inode : file_inv x inode -> spares_ind x inode (meta x).
Proof.
  intros F. destruct (decide (i_block inode 12 = 0)); [by left|right]. intros i Hm Hb.
  by destruct (fi_own _ _ F _ i (own_ind x inode ltac:(done)) Hb).
Qed.
Lemma block_spares x inode p : geo x -> p <> i_block inode 12 -> spares_ind x inode (blk x p).
Proof. intros G Hp. right. intros i. by apply blk_disjoint. Qed.

(** * Allocation *)

Lemma number_inj x g j g' j' : 0 <= j < nbits x false -> 0 <= j' < nbits x false -> number x false g j = number x false g' j' -> g = g' /\ j = j'.
Proof. unfold number. intros Hj Hj' E. assert (g = g') by nia. subst g'. split; [done|lia]. Qed.
(** No group that claims free blocks has one. *)
Definition full x : Prop :=
  forall g j, 0 <= g < num_groups x -> 0 <= j < nbits x false -> 0 < free_count x false g -> bit x false g j = true.
Lemma alloc_step s inode : file_inv (ex s) inode -> a_ok (eh s) ->
  exists b t, ext2_alloc_block s = Some (b, t) /\ heap_same (eh s) (eh t) /\ file_inv (ex t) inode /\
    step (ex s) (ex t) (meta (ex s)) /\ ((b = 0 /\ full (ex t)) \/ (b <> 0 /\ reserved (ex t) inode b)) /\
    (forall p, reserved (ex s) inode p -> reserved (ex t) inode p /\ p <> b).
Proof.
  intros F Ha. pose proof (fi_alloc _ _ F) as W. destruct (alloc_bit_facts s false W Ha (fi_max _ _ F)) as (b & t & E & Hh & Wt & Hr).
  exists b, t. split; [done|]. split; [done|]. pose proof (meta_spares _ _ F) as Hsp.
  destruct Hr as [(-> & Hs & Hfull)|(g & i & -> & Hg & Hi & Hfree & T)].
  - assert (S : step (ex s) (ex t) (meta (ex s))) by (split; [by apply (layout_same_vol _ _ W); apply Hs|intros j _; apply Hs]).
    assert (Ho : only_sets (ex s) (ex t)).
    { intros g j (Hg & Hj & Hb). destruct Hs as ((E1 & E2 & E3 & E4 & _) & _ & B). unfold clear, nbits, bit, bm in *. rewrite E1, E2, E3, E4, B in *. done. }
    split; [by eapply inv_step|]. split; [done|]. split.
    { left. split; [done|]. destruct Hs as ((E1 & E2 & E3 & E4 & _) & _ & B). intros g j. unfold nbits, bit, bm, free_count in *. rewrite E1, E2, E3, E4, B.
      intros. by apply Hfull. }
    intros p Hp. split; [by eapply reserved_step|]. destruct Hp as [[Hp _] _]. lia.
  - pose proof (took_layout _ _ _ _ _ W Hg T) as L.
    assert (S : step (ex s) (ex t) (meta (ex s))).
    { split; [done|]. intros j Hj. destruct T as (_ & _ & _ & _ & _ & _ & _ & _ & T9). rewrite T9 by (intros Hsys; apply Hj; by left).
      destruct (Z.eqb_spec j (bm (ex s) false g * block_size (ex s) + i / 8)) as [Ej|]; [|done]. exfalso. apply Hj. right. exists false, g.
      split; [done|]. pose proof (aw_bits _ W false). unfold in_bitmap. Z.div_mod_to_equations; lia. }
    assert (Hbits : forall g' j, 0 <= g' < num_groups (ex s) -> 0 <= j < nbits (ex s) false ->
      bit (ex t) false g' j = bool_decide (false = false /\ g' = g /\ j = i) || bit (ex s) false g' j) by (intros; by apply took_bits).
    assert (Eg : num_groups (ex t) = num_groups (ex s)) by apply L. assert (En : nbits (ex t) false = nbits (ex s) false) by apply L.
    assert (Ho : only_sets (ex s) (ex t)).
    { intros g' j (Hg' & Hj & Hb). rewrite Eg in Hg'. rewrite En in Hj. split_and!; try lia. rewrite Hbits in Hb by done. apply orb_false_iff in Hb. apply Hb. }
    assert (Hcl : clear (ex s) g i) by done.
    split; [by eapply inv_step|]. split; [done|]. split.
    + right. split; [destruct (fi_clear _ _ F g i Hcl) as [? _]; lia|]. split; [eapply loose_step; [done..|]; by apply (fi_clear _ _ F)|]. intros g' j Hc Heq. rewrite (step_number _ _ _ _ _ S) in Heq.
      destruct Hc as (Hg' & Hj & Hb). rewrite Eg in Hg'. rewrite En in Hj. destruct (number_inj _ _ _ _ _ Hj Hi Heq) as [-> ->].
      rewrite Hbits, bool_decide_true in Hb by done. done.
    + intros p Hp. split; [by eapply reserved_step|]. intros ->. by apply (proj2 Hp g i).
Qed.

(** * Writing a block *)

Lemma wrote_step x x' inode at_ bytes R : file_inv x inode -> wrote x x' at_ bytes ->
  (forall i, at_ <= i < at_ + len bytes -> R i) -> (forall i, R i -> ~ meta x i) -> step x x' R /\ only_sets x x'.
Proof.
  intros F (V & Hd & B) HR Hm. pose proof (fi_alloc _ _ F) as W. assert (S : step x x' R).
  { split; [by apply layout_same_vol|]. intros i Hi. rewrite B. destruct ((at_ <=? i) && (i <? at_ + len bytes)) eqn:E; [|done].
    exfalso. apply Hi, HR. lia. }
  split; [done|]. intros g j (Hg & Hj & Hb). destruct V as (E1 & E2 & E3 & E4 & _).
  assert (Hg' : 0 <= g < num_groups x) by lia. assert (Hj' : 0 <= j < nbits x false) by (unfold nbits in *; by rewrite E1 in Hj).
  split_and!; try lia. unfold bit, bm in *. rewrite E2, E4 in Hb. rewrite (proj2 S) in Hb; [done|]. intros Hr. apply (Hm _ Hr). right.
  exists false, g. split; [done|]. pose proof (aw_bits _ W false). unfold in_bitmap, bm. Z.div_mod_to_equations; lia.
Qed.
End Write.

(** * The fields of an inode *)

Lemma write_u32_inode off v inode : 0 <= off -> off + 4 <= 128 -> len inode = 128 -> Forall is_u8 inode ->
  len (write_u32 off v inode) = 128 /\ Forall is_u8 (write_u32 off v inode).
Proof. intros H1 H2 L F. rewrite <- L. apply write_u32_buf; [done|lia|done]. Qed.
Lemma set_i_block_facts k v inode : len inode = 128 -> Forall is_u8 inode -> 0 <= k < 15 -> is_u32 v ->
  len (set_i_block k v inode) = 128 /\ Forall is_u8 (set_i_block k v inode) /\ i_size (set_i_block k v inode) = i_size inode /\
  forall j, 0 <= j < 15 -> i_block (set_i_block k v inode) j = if j =? k then v else i_block inode j.
Proof.
  intros L F Hk Hv. unfold set_i_block, i_size, i_block. split; [|split; [|split]].
  - apply write_u32_inode; [lia|lia|done|done].
  - apply write_u32_inode; [lia|lia|done|done].
  - apply read_u32_other; try (change (len (le32 v)) with 4); lia.
  - intros j Hj. destruct (Z.eqb_spec j k) as [->|]; [apply read_write_u32; [lia|lia|done]|].
    apply read_u32_other; try (change (len (le32 v)) with 4); lia.
Qed.
Lemma set_i_blocks_facts v inode : len inode = 128 -> Forall is_u8 inode ->
  len (set_i_blocks v inode) = 128 /\ Forall is_u8 (set_i_blocks v inode) /\ i_size (set_i_blocks v inode) = i_size inode /\
  forall j, 0 <= j < 15 -> i_block (set_i_blocks v inode) j = i_block inode j.
Proof.
  intros L F. unfold set_i_blocks, i_size, i_block. split_and!; [apply write_u32_inode; [lia|lia|done|done]..| |];
    [|intros j Hj]; apply read_u32_other; try (change (len (le32 v)) with 4); lia.
Qed.
Lemma set_i_size_facts v inode : len inode = 128 -> Forall is_u8 inode -> is_u32 v ->
  len (set_i_size v inode) = 128 /\ Forall is_u8 (set_i_size v inode) /\ i_size (set_i_size v inode) = v /\
  forall j, 0 <= j < 15 -> i_block (set_i_size v inode) j = i_block inode j.
Proof.
  intros L F Hv. unfold set_i_size, i_size, i_block. split_and!; [apply write_u32_inode; [lia|lia|done|done]..|apply read_write_u32; [lia|lia|done]|].
  intros j Hj; apply read_u32_other; try (change (len (le32 v)) with 4); lia.
Qed.

Section Grow.
Context {H D : Type} `{RoomyHeap H} `{SectorDevLaws D}.
Implicit Types s t u w : est H D.
Implicit Types x : ext2 D.
Implicit Types inode : list Z.
Context (n : Z) (Q : Z -> Prop).
Notation file_inv := (file_inv n Q).
Notation reserved := (reserved n Q).

(** Other pointers of the inode do not matter. *)
Lemma phys_blocks x inode inode' c : 0 <= c -> (forall j, 0 <= j < 15 -> i_block inode' j = i_block inode j) -> phys x inode' c = phys x inode c.
Proof. intros Hc E. unfold phys. destruct (Z.ltb_spec c 12); [by apply E; lia|]. by rewrite E by lia. Qed.
Lemma inv_fields x inode inode' : file_inv x inode -> len inode' = 128 -> Forall is_u8 inode' ->
  (forall j, 0 <= j < 15 -> i_block inode' j = i_block inode j) -> file_inv x inode'.
Proof.
  intros F L U E. assert (Ep : forall c, 0 <= c -> phys x inode' c = phys x inode c) by (intros; by apply phys_blocks).
  pose proof (fi_inode _ _ _ _ F) as I. apply (inv_rebuild n Q x x (fun _ => False) inode); try done.
  - by apply step_refl, F.
  - intros g j Hc. exact Hc.
  - split; [done|done|rewrite E by lia; apply I|]. intros b Hb. rewrite Ep by done. by apply I.
  - intros q [Hq [->|(b & Hb & ->)]]; left; (split; [done|]); [left; apply E; lia|right; exists b; by rewrite Ep].
  - intros b c Hb Hc. rewrite !Ep by done. by apply F.
  - intros b Hb. rewrite Ep, E by (done || lia). by apply F.
Qed.

Lemma write_zero_ok s p : geo (ex s) -> a_ok (eh s) -> 0 <= p < nblocks (ex s) ->
  exists t, write_zero_block p s = Some (true, t) /\ heap_same (eh s) (eh t) /\
    wrote (ex s) (ex t) (p * block_size (ex s)) (replicate (Z.to_nat (block_size (ex s))) 0).
Proof.
  intros G Ha Hp. pose proof (geo_bs _ G) as (Hbs & _).
  destruct (with_buf_ok (D:=D) false (block_size (ex s)) (fun t => Some (ext2_write_block p (zero_block t) t)) s
    (fun a y => a = true /\ wrote (ex s) y (p * block_size (ex s)) (replicate (Z.to_nat (block_size (ex s))) 0)) Ha ltac:(lia)) as (a & t & E & Hh & [-> Hw]).
  - intros u Eu Hau. cbv beta. destruct (write_block_ok u p (zero_block u)) as (t & -> & Eh & Hw);
      [by rewrite Eu|by rewrite Eu|unfold zero_block; rewrite len_replicate, Eu; lia|apply Forall_replicate; unfold is_u8; lia|].
    eexists _, t. split; [done|]. rewrite Eh. split; [by apply heap_same_refl|]. split; [done|]. unfold zero_block in Hw. by rewrite Eu in Hw.
  - by exists t.
Qed.
(** A reserved block is filled with zeros: nothing else changes. *)
Lemma zero_step s inode p : file_inv (ex s) inode -> a_ok (eh s) -> reserved (ex s) inode p ->
  exists t, write_zero_block p s = Some (true, t) /\ heap_same (eh s) (eh t) /\ file_inv (ex t) inode /\
    step (ex s) (ex t) (blk (ex s) p) /\ only_sets (ex s) (ex t) /\ spares_ind (ex s) inode (blk (ex s) p) /\
    (forall q, reserved (ex s) inode q -> reserved (ex t) inode q) /\ forall i, blk (ex s) p i -> vbyte (ex t) i = 0.
Proof.
  intros F Ha Hp. pose proof (v_geo _ (aw_vol _ (fi_alloc _ _ _ _ F))) as G. destruct Hp as [(Hp1 & Hp2 & Hp3) _]. pose proof (geo_bs _ G) as (Hbs & _).
  destruct (write_zero_ok s p G Ha ltac:(lia)) as (t & E & Hh & Hw). pose proof Hw as (_ & _ & B).
  assert (Lr : len (replicate (Z.to_nat (block_size (ex s))) 0) = block_size (ex s)) by (rewrite len_replicate; lia).
  destruct (wrote_step n Q (ex s) (ex t) inode _ _ (blk (ex s) p) F Hw) as [S Ho];
    [intros i Hi; by rewrite Lr in Hi|intros i Hi; by apply (Hp2 i)|].
  assert (Hsp : spares_ind (ex s) inode (blk (ex s) p)).
  { destruct (decide (i_block inode 12 = 0)); [by left|]. apply block_spares; [done|]. intros ->. apply Hp3. by apply own_ind. }
  exists t. split; [done|]. split; [done|]. split; [by eapply inv_step|]. split; [done|]. split; [done|]. split; [done|].
  split; [intros q Hq; by eapply reserved_step|]. intros i Hi. rewrite B, Lr. unfold blk in Hi. bcases; cbn [andb]; try (exfalso; lia).
  apply arr_get_replicate. lia.
Qed.

(** What adding a pointer keeps: the bytes of others, of the block, and of the file. *)
Definition data_byte x inode (p i : Z) : Prop :=
  Q i \/ blk x p i \/ exists c, 0 <= c /\ phys x inode c <> 0 /\ blk x (phys x inode c) i.
Definition keeps_data x x' inode (p : Z) : Prop := forall i, data_byte x inode p i -> vbyte x' i = vbyte x i.

Lemma reserved_not_data x inode p q i : file_inv x inode -> reserved x inode p -> reserved x inode q -> p <> q -> blk x q i -> ~ data_byte x inode p i.
Proof.
  intros F Hp Hq Hne Hb [HQ|[Hbp|(c & Hc & Hpc & Hbc)]]; pose proof (v_geo _ (aw_vol _ (fi_alloc _ _ _ _ F))) as G; destruct Hq as [(_ & Hq2 & Hq3) _].
  - by destruct (Hq2 i Hb) as (_ & _ & ?).
  - by apply (blk_disjoint x p q i G).
  - apply (blk_disjoint x _ q i G) in Hbc; [done|]. intros E. apply Hq3. rewrite <- E. by apply own_phys.
Qed.
Lemma meta_not_data x inode p i : file_inv x inode -> reserved x inode p -> meta x i -> ~ data_byte x inode p i.
Proof.
  intros F [(_ & Hp & _) _] Hm [HQ|[Hb|(c & Hc & Hpc & Hbc)]]; [by destruct (fi_others _ _ _ _ F i HQ)|by destruct (Hp i Hb)|].
  by destruct (fi_own _ _ _ _ F _ i (own_phys x inode c Hc Hpc) Hbc).
Qed.

(** A new indirect block full of zeros has no blocks. *)
Lemma phys_new_ind x inode inode' sib c : geo x -> 0 <= c -> i_block inode 12 = 0 -> i_block inode' 12 = sib ->
  (forall j, 0 <= j < 12 -> i_block inode' j = i_block inode j) -> (forall i, blk x sib i -> vbyte x i = 0) ->
  phys x inode' c = phys x inode c.
Proof.
  intros G Hc E0 E1 Ej Hz. pose proof (geo_bs x G) as (Hbs & _ & Hb4). unfold phys. destruct (Z.ltb_spec c 12); [by apply Ej; lia|].
  destruct (Z.ltb_spec (c - 12) (block_size x / 4)); [|done]. rewrite E0, E1. cbn [Z.eqb]. destruct (sib =? 0); [done|].
  unfold u32_at. rewrite !Hz by (unfold blk; lia). done.
Qed.
Lemma inv_new_ind x inode inode' sib : file_inv x inode -> reserved x inode sib -> i_block inode 12 = 0 -> i_block inode' 12 = sib ->
  len inode' = 128 -> Forall is_u8 inode' -> (forall j, 0 <= j < 12 -> i_block inode' j = i_block inode j) ->
  (forall i, blk x sib i -> vbyte x i = 0) ->
  file_inv x inode' /\ forall p, reserved x inode p -> p <> sib -> reserved x inode' p.
Proof.
  intros F Hr E0 E1 L U Ej Hz. pose proof (v_geo _ (aw_vol _ (fi_alloc _ _ _ _ F))) as G. pose proof (fi_inode _ _ _ _ F) as I.
  assert (Ep : forall c, 0 <= c -> phys x inode' c = phys x inode c) by (intros; by eapply phys_new_ind).
  pose proof Hr as [(Hs1 & _ & Hs3) _].
  assert (Hown : forall q, own x inode' q -> own x inode q \/ q = sib).
  { intros q [Hq [->|(b & Hb & ->)]]; [by right|]. left. rewrite Ep in * by done. by apply own_phys. }
  split.
  - apply (inv_rebuild n Q x x (fun _ => False) inode); try done.
    + by apply step_refl, F.
    + intros g j Hc. exact Hc.
    + split; [done|done|lia|]. intros b Hb. rewrite Ep by done. by apply I.
    + intros q Hq. destruct (Hown q Hq) as [?| ->]; auto.
    + intros b c Hb Hc. rewrite !Ep by done. by apply F.
    + intros b Hb _ E. rewrite Ep, E1 in E by done. apply Hs3. rewrite <- E. apply own_phys; [done|lia].
  - intros p [(Hp1 & Hp2 & Hp3) Hp4] Hne. split; [|done]. split; [done|]. split; [done|]. intros Ho. by destruct (Hown p Ho).
Qed.

Lemma ensure_ok s inode p : file_inv (ex s) inode -> a_ok (eh s) -> reserved (ex s) inode p ->
  exists ok inode' t, ensure_indirect inode s = Some (ok, inode', t) /\ heap_same (eh s) (eh t) /\ file_inv (ex t) inode' /\
    same_layout (ex s) (ex t) /\ i_size inode' = i_size inode /\ keeps_data (ex s) (ex t) inode p /\ reserved (ex t) inode' p /\
    (forall c, 0 <= c -> phys (ex t) inode' c = phys (ex s) inode c) /\ if ok then i_block inode' 12 <> 0 else full (ex t).
Proof.
  intros F Ha Hp. pose proof (v_geo _ (aw_vol _ (fi_alloc _ _ _ _ F))) as G. unfold ensure_indirect. destruct (Z.eqb_spec (i_block inode 12) 0) as [E0|E0].
  2: { exists true, inode, s. split_and!; try done. apply layout_same_vol; [apply F|apply same_vol_refl|apply F]. }
  destruct (alloc_step n Q s inode F Ha) as (sib & t & -> & Hh & Ft & St & Hsib & Hres). pose proof (meta_spares _ _ _ _ F) as Hsp.
  assert (Kt : keeps_data (ex s) (ex t) inode p).
  { intros i Hi. apply (proj2 St). intros Hm. by apply (meta_not_data (ex s) inode p i F Hp Hm). }
  assert (Pt : forall c, 0 <= c -> phys (ex t) inode c = phys (ex s) inode c) by (intros; by eapply step_phys).
  destruct (Hres p Hp) as [Hpt Hne]. destruct (Z.eqb_spec sib 0) as [->|Hs0].
  { destruct Hsib as [[_ Hfull]|[? _]]; [|done]. exists false, inode, t. split_and!; try done. apply St. }
  destruct Hsib as [[? _]|[_ Hsib]]; [done|]. destruct (zero_step t inode sib Ft (proj1 Hh) Hsib) as (u & -> & Hhu & Fu & Su & Ou & Spu & Hresu & Hz).
  cbn [negb]. pose proof (fi_inode _ _ _ _ Fu) as Iu. pose proof Hsib as [(Hs1 & _) _].
  assert (Hu32 : is_u32 sib). { pose proof (read_u32_range (sb (ex t)) 4) as Hr. destruct (v_sb _ (aw_vol _ (fi_alloc _ _ _ _ Ft))).
    unfold nblocks, s_blocks_count in Hs1. unfold is_u32 in *. specialize (Hr ltac:(done) ltac:(lia) ltac:(lia)). lia. }
  destruct (set_i_block_facts 12 sib inode (io_len _ _ Iu) (io_u8 _ _ Iu) ltac:(lia) Hu32) as (L1 & U1 & Z1 & B1).
  match goal with |- context [set_i_blocks ?v _] => destruct (set_i_blocks_facts v _ L1 U1) as (L2 & U2 & Z2 & B2); set (inode' := set_i_blocks v _) in * end.
  assert (Hz' : forall i, blk (ex u) sib i -> vbyte (ex u) i = 0) by (intros i Hi; apply Hz; by rewrite <- (step_blk _ _ _ _ _ Su)).
  assert (Ej : forall j, 0 <= j < 12 -> i_block inode' j = i_block inode j).
  { intros j Hj. rewrite B2, B1 by lia. destruct (Z.eqb_spec j 12); [lia|done]. }
  assert (E12 : i_block inode' 12 = sib) by (rewrite B2, B1 by lia; done).
  destruct (inv_new_ind (ex u) inode inode' sib Fu (Hresu sib Hsib) E0 E12 L2 U2 Ej Hz') as [Fu' Hres'].
  exists true, inode', u. split; [done|]. split; [by eapply heap_same_trans|]. split; [done|].
  split; [eapply layout_trans; [apply St|apply Su]|]. split; [by rewrite Z2, Z1|]. split.
  { intros i Hi. rewrite (proj2 Su); [by apply Kt|]. intros Hb. rewrite (step_blk _ _ _ _ _ St) in Hb.
    destruct Hi as [HQ|[Hbp|(c & Hc & Hpc & Hbc)]].
    - destruct Hsib as [(_ & Hx & _) _]. rewrite <- (step_blk _ _ _ _ _ St) in Hb. by destruct (Hx i Hb) as (_ & _ & ?).
    - by apply (blk_disjoint (ex s) p sib i G).
    - apply (blk_disjoint (ex s) _ sib i G) in Hbc; [done|]. intros E. destruct Hsib as [(_ & _ & Hx) _]. apply Hx. rewrite <- E, <- Pt by done.
      apply own_phys; [done|by rewrite Pt]. }
  split; [apply Hres'; [by apply Hresu|done]|]. split; [|by rewrite E12].
  intros c Hc. rewrite (phys_new_ind (ex u) inode inode' sib c) by (done || apply (v_geo _ (aw_vol _ (fi_alloc _ _ _ _ Fu)))).
  rewrite <- Pt by done. eapply step_phys; [apply (v_geo _ (aw_vol _ (fi_alloc _ _ _ _ Ft)))|done..].
Qed.

(** * The entry of the indirect block *)

Lemma ind_write_ok s inode b p : geo (ex s) -> a_ok (eh s) -> inode_ok (ex s) inode -> i_block inode 12 <> 0 ->
  0 <= b - 12 < block_size (ex s) / 4 ->
  exists t, with_buf false (block_size (ex s)) (fun t =>
      match ext2_read_block (i_block inode 12) t with
      | (None, u) => Some (false, u)
      | (Some buf, u) => let* buf' := copy_to (4 * (b - 12)) (le32 p) buf in Some (ext2_write_block (i_block inode 12) buf' u)
      end) s = Some (true, t) /\ heap_same (eh s) (eh t) /\
    wrote (ex s) (ex t) (i_block inode 12 * block_size (ex s) + 4 * (b - 12)) (le32 p).
Proof.
  intros G Ha I H12 Hb. pose proof (geo_bs _ G) as (Hbs & _ & Hb4). pose proof (i_block_range inode 12 (io_len _ _ I) (io_u8 _ _ I) ltac:(lia)) as Hr.
  pose proof (io_ind _ _ I) as Hr2. unfold is_u32 in Hr. set (sib := i_block inode 12) in *.
  match goal with |- context [with_buf false _ ?k s] =>
    destruct (with_buf_ok (D:=D) false (block_size (ex s)) k s (fun a y => a = true /\ wrote (ex s) y (sib * block_size (ex s) + 4 * (b - 12)) (le32 p))
      Ha ltac:(lia)) as (a & t & E & Hh & [-> Hs]) end.
  - intros u Eu Hau. cbv beta. destruct (read_block_ok u sib) as (t & -> & Eh & Hs); [by rewrite Eu|rewrite Eu; lia|]. rewrite Eu in Hs |- *.
    assert (L4 : len (le32 p) = 4) by done. assert (Lb : len (block_bytes (ex s) sib) = block_size (ex s)) by by apply len_block.
    unfold copy_to. rewrite within_true by lia. pose proof (geo_same _ _ G (proj1 Hs) (proj1 (proj2 Hs))) as Gt.
    pose proof Hs as ((Es1 & _ & _ & Eb & _) & _ & Bt).
    destruct (write_block_ok t sib (put_bytes (4 * (b - 12)) (le32 p) (block_bytes (ex s) sib))) as (w & -> & Ew & W);
      [done|unfold nblocks in *; rewrite Es1; lia|rewrite len_put_bytes; lia|apply put_bytes_u8; [apply le32_u8|by apply block_u8]|].
    eexists _, w. split; [done|]. rewrite Ew, Eh. split; [by apply heap_same_refl|]. split; [done|]. rewrite Eb in W.
    apply wrote_part; [done|lia|lia|]. destruct W as (W1 & W2 & W3). split; [by eapply same_vol_trans; [apply Hs|]|]. split; [done|].
    intros i. by rewrite W3, Bt.
  - by exists t.
Qed.
Lemma u32_at_wrote x x' o p : wrote x x' o (le32 p) -> is_u32 p ->
  u32_at x' o = p /\ forall o', o' + 4 <= o \/ o + 4 <= o' -> u32_at x' o' = u32_at x o'.
Proof.
  intros (_ & _ & B) Hp. assert (L4 : len (le32 p) = 4) by done. split.
  - unfold u32_at. rewrite !B, L4. bcases; cbn [andb]. rewrite le32_facts by done. replace (o - o) with 0 by lia. replace (o + 1 - o) with 1 by lia.
    replace (o + 2 - o) with 2 by lia. replace (o + 3 - o) with 3 by lia. unfold arr_get. change (Z.to_nat 0) with 0%nat.
    change (Z.to_nat 1) with 1%nat. change (Z.to_nat 2) with 2%nat. change (Z.to_nat 3) with 3%nat. cbn [lookup_total list_lookup_total]. ulia.
  - intros o' Ho. unfold u32_at. rewrite !B, L4. bcases; cbn [andb]; done || lia.
Qed.

(** A reserved block becomes block [b] of the file. *)
Lemma inv_place x x' R inode inode' b p : file_inv x inode -> step x x' R -> only_sets x x' -> reserved x inode p ->
  len inode' = 128 -> Forall is_u8 inode' -> i_block inode' 12 = i_block inode 12 -> 0 <= b ->
  (forall c, 0 <= c -> phys x' inode' c = if c =? b then p else phys x inode c) -> file_inv x' inode'.
Proof.
  intros F S Ho Hr L U E12 Hb Ep. pose proof (fi_inode _ _ _ _ F) as I. pose proof (proj1 S) as (_ & _ & _ & _ & _ & _ & E7 & _).
  pose proof Hr as [(Hp1 & _ & Hp3) _]. assert (Hnp : forall c, 0 <= c -> phys x inode c <> p).
  { intros c Hc E. apply Hp3. rewrite <- E. apply own_phys; [done|lia]. }
  apply (inv_rebuild n Q x x' R inode); try done.
  - split; [done|done|rewrite E12, E7; apply I|]. intros c Hc. rewrite Ep, E7 by done. destruct (c =? b); [lia|]. by apply I.
  - intros q [Hq [->|(c & Hc & ->)]]; [left; rewrite E12 in *; by apply own_ind|]. rewrite Ep in * by done.
    destruct (c =? b); [by right|left; by apply own_phys].
  - intros c d Hc Hd. rewrite !Ep by done. destruct (Z.eqb_spec c b), (Z.eqb_spec d b); subst; try done.
    + intros E. symmetry in E. by apply Hnp in E.
    + intros E. by apply Hnp in E.
    + by apply F.
  - intros c Hc. rewrite Ep, E12 by done. intros H12. destruct (Z.eqb_spec c b); [|by apply F]. intros E. apply Hp3. rewrite E. by apply own_ind.
Qed.

Lemma set_phys_ok s inode b p : file_inv (ex s) inode -> a_ok (eh s) -> reserved (ex s) inode p -> 0 <= b ->
  exists ok inode' t, ext2_set_phys_block inode b p s = Some (ok, inode', t) /\ heap_same (eh s) (eh t) /\ file_inv (ex t) inode' /\
    same_layout (ex s) (ex t) /\ i_size inode' = i_size inode /\ keeps_data (ex s) (ex t) inode p /\
    (forall c, 0 <= c -> phys (ex t) inode' c = if ok && (c =? b) then p else phys (ex s) inode c) /\
    (ok = false -> full (ex t) \/ 12 + block_size (ex s) / 4 <= b).
Proof.
  intros F Ha Hp Hb. pose proof (fi_inode _ _ _ _ F) as I. pose proof (fi_alloc _ _ _ _ F) as W. pose proof (v_geo _ (aw_vol _ W)) as G.
  pose proof Hp as [(Hp1 & Hp2 & Hp3) _].
  assert (Hu32 : is_u32 p). { pose proof (read_u32_range (sb (ex s)) 4) as Hr. destruct (v_sb _ (aw_vol _ W)).
    unfold nblocks, s_blocks_count in Hp1. unfold is_u32 in *. specialize (Hr ltac:(done) ltac:(lia) ltac:(lia)). lia. }
  assert (Lr : same_layout (ex s) (ex s)) by (apply layout_same_vol; [done|done|apply G]).
  unfold ext2_set_phys_block. destruct (Z.ltb_spec b 12).
  { destruct (set_i_block_facts b p inode (io_len _ _ I) (io_u8 _ _ I) ltac:(lia) Hu32) as (L1 & U1 & Z1 & B1).
    assert (E12 : i_block (set_i_block b p inode) 12 = i_block inode 12) by (rewrite B1 by lia; destruct (Z.eqb_spec 12 b); [lia|done]).
    assert (Ep : forall c, 0 <= c -> phys (ex s) (set_i_block b p inode) c = if c =? b then p else phys (ex s) inode c).
    { intros c Hc. unfold phys. destruct (Z.ltb_spec c 12); [by apply B1; lia|]. rewrite E12. destruct (Z.eqb_spec c b); [lia|done]. }
    exists true, (set_i_block b p inode), s. split_and!; try done. exact (inv_place (ex s) (ex s) (fun _ => False) inode _ b p F (step_refl _ W) (fun g j Hc => Hc) Hp L1 U1 E12 Hb Ep). }
  destruct (Z.ltb_spec (b - 12) (block_size (ex s) / 4)) as [Hlt|Hge]; [|exists false, inode, s; split_and!; try done; intros _; right; lia].
  destruct (ensure_ok s inode p F Ha Hp) as (ok & inode1 & t & -> & Hh & Ft & Lt & Zt & Kt & Rt & Pt & H12). cbv beta iota.
  destruct ok; cbn [negb]; [|exists false, inode1, t; split_and!; try done; intros _; by left].
  pose proof (v_geo _ (aw_vol _ (fi_alloc _ _ _ _ Ft))) as Gt. assert (Ebs : block_size (ex t) = block_size (ex s)) by apply Lt.
  rewrite <- Ebs in Hlt. destruct (ind_write_ok t inode1 b p Gt (proj1 Hh) (fi_inode _ _ _ _ Ft) H12 ltac:(lia)) as (u & -> & Hhu & Hw).
  pose proof (geo_bs _ Gt) as (Hbs & _ & Hb4). set (sib := i_block inode1 12) in *. pose proof (own_ind (ex t) inode1 H12) as Hsib.
  destruct (wrote_step n Q (ex t) (ex u) inode1 _ _ (blk (ex t) sib) Ft Hw) as [Su Ou];
    [intros i Hi; change (len (le32 p)) with 4 in Hi; unfold blk; lia|intros i Hi; by destruct (fi_own _ _ _ _ Ft sib i Hsib Hi)|].
  destruct (u32_at_wrote _ _ _ _ Hw Hu32) as [Eu1 Eu2]. assert (Ebu : block_size (ex u) = block_size (ex t)) by apply (proj1 Su).
  assert (Ep : forall c, 0 <= c -> phys (ex u) inode1 c = if c =? b then p else phys (ex t) inode1 c).
  { intros c Hc. unfold phys. rewrite Ebu. fold sib. destruct (Z.ltb_spec c 12); [destruct (Z.eqb_spec c b); [lia|done]|].
    destruct (Z.eqb_spec c b) as [->|Hne].
    - destruct (Z.ltb_spec (b - 12) (block_size (ex t) / 4)); [|lia]. destruct (Z.eqb_spec sib 0); [done|]. done.
    - destruct (Z.ltb_spec (c - 12) (block_size (ex t) / 4)); [|done]. destruct (sib =? 0); [done|]. apply Eu2. lia. }
  exists true, inode1, u. split; [done|]. split; [by eapply heap_same_trans|].
  pose proof (fi_inode _ _ _ _ Ft) as It. split; [by eapply (inv_place (ex t) (ex u)); try done; apply It|].
  split; [eapply layout_trans; [done|apply Su]|]. split; [done|]. split.
  - intros i Hi. rewrite (proj2 Su); [by apply Kt|]. intros Hbi.
    assert (Hd : data_byte (ex t) inode1 p i).
    { destruct Hi as [HQ|[Hbp|(c & Hc & Hpc & Hbc)]]; [by left|right; left; unfold blk in *; by rewrite Ebs|].
      right; right. exists c. rewrite Pt by done. split_and!; [done|done|unfold blk in *; rewrite Ebs; lia..]. }
    destruct Hd as [HQ|[Hbp|(c & Hc & Hpc & Hbc)]].
    + by destruct (fi_own _ _ _ _ Ft sib i Hsib Hbi) as (_ & _ & ?).
    + apply (blk_disjoint _ p sib i Gt) in Hbp; [done|]. intros ->. by destruct Rt as [(_ & _ & ?) _].
    + apply (blk_disjoint _ _ sib i Gt) in Hbc; [done|]. by apply (fi_ind _ _ _ _ Ft).
  - split; [intros c Hc; by rewrite Ep, Pt by done|done].
Qed.

(** * Growing *)

(** What growing a file from [b] on by [m] blocks does. *)
Definition grown x x' inode inode' (b m : Z) : Prop :=
  same_layout x x' /\ i_size inode' = i_size inode /\ (forall i, Q i -> vbyte x' i = vbyte x i) /\
  (forall c, b <= c < b + m -> phys x' inode' c <> 0) /\
  (forall c, 0 <= c -> c < b \/ b + m <= c -> phys x' inode' c = phys x inode c) /\
  (forall i, 0 <= i -> fbyte x' inode' i = if (b <=? i / block_size x) && (i / block_size x <? b + m) then 0 else fbyte x inode i).

Lemma grown_none s t inode inode' b : file_inv (ex s) inode -> same_layout (ex s) (ex t) -> i_size inode' = i_size inode ->
  (forall i, Q i -> vbyte (ex t) i = vbyte (ex s) i) -> (forall c, 0 <= c -> phys (ex t) inode' c = phys (ex s) inode c) ->
  (forall c i, 0 <= c -> phys (ex s) inode c <> 0 -> blk (ex s) (phys (ex s) inode c) i -> vbyte (ex t) i = vbyte (ex s) i) ->
  grown (ex s) (ex t) inode inode' b 0.
Proof.
  intros F L Z HQ P B. split_and!; try done; [lia|intros c Hc _; by apply P|]. intros i Hi. pose proof (geo_bs _ (v_geo _ (aw_vol _ (fi_alloc _ _ _ _ F)))) as (Hbs & _).
  replace (_ && _) with false by (symmetry; apply andb_false_iff; bcases; auto || lia). unfold fbyte.
  assert (E2 : block_size (ex t) = block_size (ex s)) by apply L. rewrite E2, P by (apply Z.div_pos; lia).
  destruct (Z.eqb_spec (phys (ex s) inode (i / block_size (ex s))) 0); [done|]. apply (B (i / block_size (ex s))); [apply Z.div_pos; lia|done|].
  unfold blk. pose proof (Z.mod_pos_bound i (block_size (ex s))). lia.
Qed.

(** One round: a zero block becomes block [b]. *)
Lemma grow_one s u w inode inode' b p : file_inv (ex s) inode -> file_inv (ex u) inode -> file_inv (ex w) inode' -> 0 <= b -> p <> 0 ->
  step (ex s) (ex u) (fun i => meta (ex s) i \/ blk (ex s) p i) -> (forall c, 0 <= c -> phys (ex u) inode c = phys (ex s) inode c) ->
  ~ own (ex s) inode p -> (forall i, Q i -> ~ blk (ex s) p i) -> (forall i, blk (ex s) p i -> vbyte (ex u) i = 0) ->
  same_layout (ex u) (ex w) -> i_size inode' = i_size inode -> keeps_data (ex u) (ex w) inode p ->
  (forall c, 0 <= c -> phys (ex w) inode' c = if c =? b then p else phys (ex u) inode c) ->
  grown (ex s) (ex w) inode inode' b 1.
Proof.
  intros F Fu Fw Hb Hp S Pu Hno HQ Hz L Z K P. pose proof (v_geo _ (aw_vol _ (fi_alloc _ _ _ _ F))) as G. pose proof (geo_bs _ G) as (Hbs & _).
  assert (Es : block_size (ex u) = block_size (ex s)) by apply (proj1 S). assert (Ew : block_size (ex w) = block_size (ex u)) by apply L.
  split_and!; try done.
  - eapply layout_trans; [apply S|done].
  - intros i Hi. rewrite K by (by left). apply (proj2 S). intros [Hm|Hbp]; [by destruct (fi_others _ _ _ _ F i Hi)|by apply (HQ i)].
  - intros c Hc. rewrite P by lia. destruct (Z.eqb_spec c b); [done|lia].
  - intros c Hc Hcb. rewrite P, Pu by done. destruct (Z.eqb_spec c b); [lia|done].
  - intros i Hi. set (c := i / block_size (ex s)). assert (Hc : 0 <= c) by (apply Z.div_pos; lia).
    pose proof (Z.mod_pos_bound i (block_size (ex s)) ltac:(lia)) as Hm. unfold fbyte. rewrite Ew, Es. fold c. rewrite P by done.
    destruct (Z.eqb_spec c b) as [Ec|Hne].
    + rewrite Ec. destruct (Z.eqb_spec p 0); [done|]. replace (_ && _) with true by (symmetry; apply andb_true_iff; bcases; auto || lia).
      rewrite K by (right; left; unfold blk; rewrite Es; lia). apply Hz. unfold blk. lia.
    + replace (_ && _) with false by (symmetry; apply andb_false_iff; bcases; auto || lia). rewrite Pu by done.
      destruct (Z.eqb_spec (phys (ex s) inode c) 0) as [|Hpc]; [done|].
      assert (Hblk : blk (ex s) (phys (ex s) inode c) (phys (ex s) inode c * block_size (ex s) + i mod block_size (ex s))) by (unfold blk; lia).
      rewrite K by (right; right; exists c; rewrite Pu by done; split_and!; [done|done|unfold blk; rewrite Es; lia..]).
      apply (proj2 S). intros [Hmeta|Hbp].
      * by destruct (fi_own _ _ _ _ F _ _ (own_phys _ _ c Hc Hpc) Hblk).
      * apply (blk_disjoint (ex s) _ p _ G) in Hblk; [done|]. intros E. apply Hno. rewrite <- E. by apply own_phys.
Qed.
Lemma grown_then s t w inode inode' inode'' b m : file_inv (ex s) inode -> 0 <= m ->
  grown (ex s) (ex t) inode inode' b 1 -> grown (ex t) (ex w) inode' inode'' (b + 1) m -> 0 <= b -> grown (ex s) (ex w) inode inode'' b (m + 1).
Proof.
  intros F Hm (L1 & Z1 & Q1 & N1 & P1 & B1) (L2 & Z2 & Q2 & N2 & P2 & B2) Hb. pose proof (geo_bs _ (v_geo _ (aw_vol _ (fi_alloc _ _ _ _ F)))) as (Hbs & _).
  assert (Es : block_size (ex t) = block_size (ex s)) by apply L1. split_and!.
  - by eapply layout_trans.
  - congruence.
  - intros i Hi. by rewrite Q2, Q1.
  - intros c Hc. destruct (decide (c = b)) as [->|]; [rewrite P2 by lia; apply N1; lia|apply N2; lia].
  - intros c Hc Hcb. rewrite P2, P1 by lia. done.
  - intros i Hi. rewrite B2, B1, Es by done. destruct (Z.eqb_spec (i / block_size (ex s)) b) as [E|E].
    + rewrite E. bcases; cbn [andb]; try done; lia.
    + bcases; cbn [andb]; try done; lia.
Qed.

Lemma grow_ok : forall cnt b inode s, file_inv (ex s) inode -> a_ok (eh s) -> 0 <= b ->
  exists inode' t m, grow_loop cnt b inode s = Some (inode', t) /\ heap_same (eh s) (eh t) /\ file_inv (ex t) inode' /\
    0 <= m <= Z.of_nat cnt /\ grown (ex s) (ex t) inode inode' b m /\
    (m < Z.of_nat cnt -> full (ex t) \/ 12 + block_size (ex s) / 4 <= b + m).
Proof.
  induction cnt as [|cnt IH]; intros b inode s F Ha Hb; cbn [grow_loop].
  { exists inode, s, 0. do 3 (split; [done|]). split; [lia|]. split; [|lia]. apply grown_none; try done. apply layout_same_vol; [apply F|done|apply F]. }
  pose proof (v_geo _ (aw_vol _ (fi_alloc _ _ _ _ F))) as G. pose proof (meta_spares _ _ _ _ F) as Hsp.
  destruct (alloc_step n Q s inode F Ha) as (p & t & -> & Hh & Ft & St & Hp & _).
  assert (Pt : forall c, 0 <= c -> phys (ex t) inode c = phys (ex s) inode c) by (intros; by eapply step_phys).
  assert (HQt : forall i, Q i -> vbyte (ex t) i = vbyte (ex s) i).
  { intros i Hi. apply (proj2 St). by destruct (fi_others _ _ _ _ F i Hi). }
  assert (Bt : forall c i, 0 <= c -> phys (ex s) inode c <> 0 -> blk (ex s) (phys (ex s) inode c) i -> vbyte (ex t) i = vbyte (ex s) i).
  { intros c i Hc Hpc Hbi. apply (proj2 St). by destruct (fi_own _ _ _ _ F _ i (own_phys _ _ c Hc Hpc) Hbi). }
  destruct (Z.eqb_spec p 0) as [->|Hp0].
  { destruct Hp as [[_ Hf]|[? _]]; [|done]. exists inode, t, 0. do 3 (split; [done|]). split; [lia|]. split; [apply grown_none; try done; apply St|by left]. }
  destruct Hp as [[? _]|[_ Hp]]; [done|]. destruct (zero_step t inode p Ft (proj1 Hh) Hp) as (u & -> & Hhu & Fu & Su & Ou & Spu & Hresu & Hz).
  assert (Pu : forall c, 0 <= c -> phys (ex u) inode c = phys (ex s) inode c).
  { intros c Hc. rewrite <- Pt by done. eapply step_phys; [apply (v_geo _ (aw_vol _ (fi_alloc _ _ _ _ Ft)))|done..]. }
  destruct (set_phys_ok u inode b p Fu (proj1 Hhu) (Hresu p Hp) Hb) as (ok & inode1 & w & -> & Hhw & Fw & Lw & Zw & Kw & Pw & Hfail). cbv beta iota.
  pose proof (heap_same_trans _ _ _ (heap_same_trans _ _ _ Hh Hhu) Hhw) as Hhall. destruct Hp as [(Hp1 & Hp2 & Hp3) _].
  assert (Ssu : step (ex s) (ex u) (fun i => meta (ex s) i \/ blk (ex s) p i)).
  { split; [eapply layout_trans; [apply St|apply Su]|]. intros i Hi. rewrite (proj2 Su), (proj2 St); [done|tauto|].
    rewrite (step_blk _ _ _ _ _ St). tauto. }
  assert (Hno : ~ own (ex s) inode p) by (by rewrite <- (step_own _ _ _ _ _ G St Hsp)).
  assert (HQp : forall i, Q i -> ~ blk (ex s) p i).
  { intros i Hi Hbi. rewrite <- (step_blk _ _ _ _ _ St) in Hbi. by destruct (Hp2 i Hbi) as (_ & _ & ?). }
  destruct ok; cbn [negb].
  - pose proof (fi_inode _ _ _ _ Fw) as Iw.
    match goal with |- context [set_i_blocks ?v inode1] => destruct (set_i_blocks_facts v _ (io_len _ _ Iw) (io_u8 _ _ Iw)) as (L2 & U2 & Z2 & B2); set (inode2 := set_i_blocks v inode1) in * end.
    assert (F2 : file_inv (ex w) inode2) by (by eapply inv_fields).
    assert (P2 : forall c, 0 <= c -> phys (ex w) inode2 c = if c =? b then p else phys (ex u) inode c).
    { intros c Hc. rewrite (phys_blocks _ inode1) by done. by apply Pw. }
    assert (G1 : grown (ex s) (ex w) inode inode2 b 1).
    { apply (grow_one s u w inode inode2 b p); try done; [|congruence]. intros i Hi. apply Hz. by rewrite (step_blk _ _ _ _ _ St). }
    destruct (IH (b + 1) inode2 w F2 (proj1 Hhw) ltac:(lia)) as (inode' & t' & m & -> & Hht & Ft' & Hm & Gm & Hend).
    exists inode', t', (m + 1). split; [done|]. split; [by eapply heap_same_trans|]. split; [done|]. split; [lia|].
    split; [exact (grown_then s w t' inode inode2 inode' b m F ltac:(lia) G1 Gm Hb)|]. intros Hlt. assert (Ebs : block_size (ex w) = block_size (ex s)) by apply G1. rewrite Ebs in Hend.
    destruct Hend as [?|?]; [lia|by left|right; lia].
  - exists inode1, w, 0. split; [done|]. split; [done|]. split; [done|]. split; [lia|].
    assert (Ebs : block_size (ex u) = block_size (ex s)) by apply (proj1 Ssu). split.
    + apply grown_none; try done.
      * eapply layout_trans; [apply Ssu|done].
      * intros i Hi. rewrite Kw by (by left). apply (proj2 Ssu). intros [Hm|Hbp]; [by destruct (fi_others _ _ _ _ F i Hi)|by apply (HQp i)].
      * intros c Hc. rewrite Pw, Pu by done. done.
      * intros c i Hc Hpc Hbi. rewrite Kw by (right; right; exists c; rewrite Pu by done; split_and!; [done|done|unfold blk in *; rewrite Ebs; lia..]).
        apply (proj2 Ssu). intros [Hm|Hbp]; [by destruct (fi_own _ _ _ _ F _ i (own_phys _ _ c Hc Hpc) Hbi)|].
        apply (blk_disjoint (ex s) _ p _ G) in Hbi; [done|]. intros E. apply Hno. rewrite <- E. by apply own_phys.
    + intros _. rewrite Ebs in Hfail. destruct (Hfail eq_refl) as [?|?]; [by left|right; lia].
Qed.
End Grow.

(** * Writing the bytes *)

Section File.
Context {H D : Type} `{RoomyHeap H} `{SectorDevLaws D}.
Implicit Types s t u w : est H D.
Implicit Types x : ext2 D.
Implicit Types inode : list Z.
Context (n : Z) (Q : Z -> Prop).
Notation file_inv := (file_inv n Q).

(** What the loop leaves alone. *)
Definition others_kept x x' inode : Prop :=
  (same_layout x x' /\ same_vol x x') /\ (forall i, Q i \/ slot n x i \/ meta x i -> vbyte x' i = vbyte x i) /\
  (forall c, 0 <= c -> phys x' inode c = phys x inode c).

Lemma kept_trans x1 x2 x3 inode : file_inv x1 inode -> others_kept x1 x2 inode -> others_kept x2 x3 inode -> others_kept x1 x3 inode.
Proof.
  intros F ([L1 V1] & Q1 & P1) ([L2 V2] & Q2 & P2). split; [split; [by eapply layout_trans|by eapply same_vol_trans]|]. split; [|intros c Hc; by rewrite P2, P1].
  assert (S : step x1 x2 (fun i => vbyte x2 i <> vbyte x1 i)) by (split; [done|intros j Hj; destruct (decide (vbyte x2 j = vbyte x1 j)); tauto]).
  intros i Hi. rewrite Q2, Q1; [done|done|]. rewrite (step_meta _ _ _ _ S). destruct Hi as [?|[?|?]]; auto.
  right; left. by apply (step_slot n _ _ _ _ (fi_alloc _ _ _ _ F) (fi_has _ _ _ _ F) S).
Qed.
Lemma full_stays x x' inode : file_inv x inode -> others_kept x x' inode -> full x -> full x'.
Proof.
  intros F ((_ & (E1 & E2 & E3 & E4 & _)) & B & _) Hf g j. unfold nbits, bit, bm, free_count. rewrite E1, E2, E3, E4. intros Hg Hj Hc.
  rewrite B; [by apply Hf|]. right; right; right. exists false, g. split; [done|]. pose proof (aw_bits _ (fi_alloc _ _ _ _ F) false) as Hb.
  unfold in_bitmap, bm, nbits in *. Z.div_mod_to_equations; lia.
Qed.
Lemma same_kept x x' inode : file_inv x inode -> same_bytes x x' -> file_inv x' inode /\ others_kept x x' inode /\ forall i, fbyte x' inode i = fbyte x inode i.
Proof.
  intros F E. pose proof E as (V & Hd & B). assert (S : step x x' (fun _ => False)) by (split; [apply layout_same_vol; [apply F|done|done]|intros i _; apply B]).
  assert (Ho : only_sets x x').
  { intros g j (Hg & Hj & Hb). destruct V as (E1 & E2 & E3 & E4 & _). unfold clear, nbits, bit, bm in *. rewrite E1, E2, E3, E4, B in *. done. }
  split; [eapply inv_step; [done|done|by right|done]|]. split; [split; [split; [apply S|done]|split; [intros; apply B|intros c _; by apply phys_same]]|]. intros i. by apply fbyte_same.
Qed.

(** A block of the file is written. *)
Lemma write_one x x' inode c buf : file_inv x inode -> 0 <= c -> phys x inode c <> 0 -> len buf = block_size x ->
  wrote x x' (phys x inode c * block_size x) buf ->
  file_inv x' inode /\ others_kept x x' inode /\
  forall i, 0 <= i -> fbyte x' inode i = if i / block_size x =? c then arr_get buf (i mod block_size x) else fbyte x inode i.
Proof.
  intros F Hc Hp HL Hw. pose proof (v_geo _ (aw_vol _ (fi_alloc _ _ _ _ F))) as G. pose proof (geo_bs _ G) as (Hbs & _). set (p := phys x inode c) in *.
  pose proof (own_phys x inode c Hc Hp) as Hown. fold p in Hown.
  destruct (wrote_step n Q x x' inode _ _ (blk x p) F Hw) as [S Ho];
    [intros i Hi; by rewrite HL in Hi|intros i Hi; by destruct (fi_own _ _ _ _ F p i Hown Hi)|].
  assert (Hsp : spares_ind x inode (blk x p)).
  { destruct (decide (i_block inode 12 = 0)); [by left|]. apply block_spares; [done|]. by apply (fi_ind _ _ _ _ F). }
  assert (P : forall d, 0 <= d -> phys x' inode d = phys x inode d) by (intros; by eapply step_phys).
  assert (Eb : block_size x' = block_size x) by apply (proj1 S).
  split; [by eapply inv_step|]. split.
  { split; [split; [apply S|apply Hw]|]. split; [|done]. intros i Hi. apply (proj2 S). intros Hb. destruct (fi_own _ _ _ _ F p i Hown Hb) as (? & ? & ?). tauto. }
  intros i Hi. pose proof (Z.mod_pos_bound i (block_size x) ltac:(lia)) as Hm. assert (Hd : 0 <= i / block_size x) by (apply Z.div_pos; lia).
  destruct (Z.eqb_spec (i / block_size x) c) as [Ec|Hne].
  - unfold fbyte. rewrite Eb, P, Ec by done. fold p. destruct (Z.eqb_spec p 0); [done|]. destruct Hw as (_ & _ & B). rewrite B, HL. bcases; cbn [andb]; try (exfalso; lia).
    f_equal. lia.
  - eapply step_fbyte; try done. intros Hpd j Hj Hb. apply (blk_disjoint x _ p j G) in Hj; [done|]. intros E. apply Hne. by apply (fi_inj _ _ _ _ F).
Qed.

(** The block with the chunk in it. *)
Lemma chunk_block x p (bo chunk bw : Z) (buffer base : list Z) : geo x -> 0 <= bo < block_size x -> 0 < chunk <= block_size x - bo ->
  0 <= bw -> bw + chunk <= len buffer -> Forall is_u8 buffer ->
  base = block_bytes x p \/ (chunk = block_size x /\ base = replicate (Z.to_nat (block_size x)) 0) ->
  exists buf, copy_to bo (slice_at bw chunk buffer) base = Some buf /\ len buf = block_size x /\ Forall is_u8 buf /\
    forall j, 0 <= j < block_size x -> arr_get buf j = if (bo <=? j) && (j <? bo + chunk) then arr_get buffer (bw + (j - bo)) else vbyte x (p * block_size x + j).
Proof.
  intros G Hbo Hch Hbw Hbuf Hu Hbase.
  assert (Es : slice_at bw chunk buffer = span (arr_get buffer) bw chunk) by (apply slice_at_span; lia).
  assert (Ls : len (slice_at bw chunk buffer) = chunk) by (rewrite Es; apply len_span; lia).
  assert (Us : Forall is_u8 (slice_at bw chunk buffer)) by (unfold slice_at; by apply Forall_take, Forall_drop).
  assert (Lb : len base = block_size x /\ Forall is_u8 base).
  { destruct Hbase as [->|[_ ->]]; [split; [by apply len_block|by apply block_u8]|]. split; [rewrite len_replicate; lia|apply Forall_replicate; unfold is_u8; lia]. }
  destruct Lb as [Lb Ub]. unfold copy_to. rewrite within_true by lia. eexists. split; [done|]. split; [rewrite len_put_bytes; lia|]. split; [by apply put_bytes_u8|].
  intros j Hj. rewrite put_bytes_get, Ls by lia. destruct ((bo <=? j) && (j <? bo + chunk)) eqn:E; [rewrite Es, span_get by lia; f_equal; lia|].
  destruct Hbase as [->|[Ec _]]; [by apply block_get|]. exfalso. apply andb_false_iff in E. destruct E as [E|E]; lia.
Qed.

Lemma write_loop_ok inode offset buffer : 0 <= offset -> offset + len buffer <= 4294901760 -> Forall is_u8 buffer ->
  forall fuel bw s, file_inv (ex s) inode -> a_ok (eh s) -> 0 <= bw <= len buffer -> (1 <= fuel)%nat ->
  (bw < len buffer -> (offset + len buffer - 1) / block_size (ex s) - (offset + bw) / block_size (ex s) + 2 <= Z.of_nat fuel) ->
  exists bw' t, write_loop fuel inode offset (len buffer) buffer bw s = Some (bw', t) /\ heap_same (eh s) (eh t) /\ file_inv (ex t) inode /\
    others_kept (ex s) (ex t) inode /\ bw <= bw' <= len buffer /\
    (forall i, 0 <= i -> fbyte (ex t) inode i = if (offset + bw <=? i) && (i <? offset + bw') then arr_get buffer (i - offset) else fbyte (ex s) inode i) /\
    (bw' < len buffer -> phys (ex s) inode ((offset + bw') / block_size (ex s)) = 0).
Proof.
  intros Ho Hmax Hu. induction fuel as [|fuel IH]; intros bw s F Ha Hbw Hf1 Hf; [lia|]. cbn [write_loop].
  pose proof (v_geo _ (aw_vol _ (fi_alloc _ _ _ _ F))) as G. pose proof (geo_bs _ G) as (Hbs & _). set (bs := block_size (ex s)) in *.
  assert (Krefl : others_kept (ex s) (ex s) inode) by (split; [split; [apply layout_same_vol; [apply F|done|apply G]|done]|done]).
  destruct (Z.ltb_spec bw (len buffer)) as [Hlt|Hge].
  2: { exists bw, s. do 3 (split; [done|]). split; [done|]. split; [lia|]. split; [|lia]. intros i Hi.
       destruct ((offset + bw <=? i) && (i <? offset + bw)) eqn:E; [exfalso; lia|done]. }
  rewrite (u64_id (offset + bw)) by (unfold is_u64; lia). set (cur := offset + bw) in *. set (c := cur / bs). set (bo := cur mod bs).
  pose proof (div_bounds cur bs ltac:(lia)) as Hdc. fold c in Hdc. assert (Hbo : 0 <= bo < bs) by (apply Z.mod_pos_bound; lia).
  assert (Hcur : cur = c * bs + bo) by (unfold c, bo; pose proof (Z.div_mod cur bs ltac:(lia)); lia).
  assert (Hc : 0 <= c < 4294967296). { split; [apply Z.div_pos; lia|]. apply Z.div_lt_upper_bound; [lia|]. assert (4294967296 * 1 <= bs * 4294967296) by lia. lia. }
  rewrite (u32_id c) by done. set (chunk := Z.min (bs - bo) (len buffer - bw)).
  assert (Hch : 0 < chunk <= bs - bo /\ bw + chunk <= len buffer /\ (chunk = bs - bo \/ chunk = len buffer - bw)) by (unfold chunk; lia). clearbody chunk. specialize (Hf Hlt). fold c in Hf.
  assert (Hcle : c <= (offset + len buffer - 1) / bs) by (apply Z.div_le_mono; lia).
  destruct (get_phys_ok s inode c G Ha (fi_inode _ _ _ _ F) ltac:(lia)) as (t & -> & Hh & Hs). cbv beta iota.
  destruct (same_kept _ _ _ F Hs) as (Ft & Kt & Bt). assert (Ebt : block_size (ex t) = bs) by apply (proj2 (proj1 Kt)).
  assert (Pt : phys (ex t) inode c = phys (ex s) inode c) by (apply (proj2 (proj2 Kt)); lia).
  destruct (Z.eqb_spec (phys (ex s) inode c) 0) as [Hp|Hp].
  { exists bw, t. do 3 (split; [done|]). split; [done|]. split; [lia|]. split; [|done]. intros i Hi.
    match goal with |- _ = (if ?b then _ else _) => destruct b eqn:E end; [exfalso; lia|apply Bt]. }
  assert (Gt : geo (ex t)) by apply (v_geo _ (aw_vol _ (fi_alloc _ _ _ _ Ft))).
  assert (Hpr : 0 <= phys (ex s) inode c < nblocks (ex t)).
  { split; [apply phys_nonneg; [done|apply (fi_inode _ _ _ _ F)..|lia]|]. rewrite <- Pt. apply (fi_inode _ _ _ _ Ft). lia. }
  set (rd := if (0 <? bo) || (chunk <? block_size (ex t)) then _ else _).
  assert (Hrd : exists base u, rd = (Some base, u) /\ eh u = eh t /\ same_bytes (ex t) (ex u) /\
    (base = block_bytes (ex t) (phys (ex s) inode c) \/ (chunk = bs /\ base = replicate (Z.to_nat bs) 0))).
  { unfold rd. rewrite Ebt. destruct ((0 <? bo) || (chunk <? bs)) eqn:E.
    - destruct (read_block_ok t (phys (ex s) inode c) Gt Hpr) as (u & -> & Eh & Hsu). eexists _, u. split_and!; try done. by left.
    - eexists _, t. split; [done|]. split; [done|]. split; [apply same_bytes_refl, Gt|]. right. unfold zero_block. rewrite Ebt. split; [|done]. lia. }
  destruct Hrd as (base & u & -> & Eh & Hsu & Hbase). cbv beta iota. destruct (same_kept _ _ _ Ft Hsu) as (Fu & Ku & Bu).
  destruct (chunk_block (ex t) (phys (ex s) inode c) bo chunk bw buffer base Gt) as (buf & -> & Lbuf & Ubuf & Hbuf); [lia|lia|lia|lia|done|by rewrite Ebt|].
  assert (Ebu : block_size (ex u) = bs) by (rewrite <- Ebt; apply (proj2 (proj1 Ku))). assert (Pu : phys (ex u) inode c = phys (ex s) inode c) by (rewrite <- Pt; apply (proj2 (proj2 Ku)); lia).
  destruct (write_block_ok u (phys (ex s) inode c) buf) as (w & -> & Ehw & Hw);
    [apply (v_geo _ (aw_vol _ (fi_alloc _ _ _ _ Fu)))|rewrite <- Pu; split; [lia|apply (fi_inode _ _ _ _ Fu); lia]|lia|done|].
  rewrite <- Pu in Hw. destruct (write_one (ex u) (ex w) inode c buf Fu ltac:(lia) ltac:(by rewrite Pu) ltac:(lia) Hw) as (Fw & Kw & Bw).
  assert (Ksw : others_kept (ex s) (ex w) inode) by (eapply kept_trans; [done|done|]; by eapply kept_trans).
  assert (Ebw : block_size (ex w) = bs) by apply (proj2 (proj1 Ksw)). rewrite u32_id by (unfold is_u32; lia).
  destruct (IH (bw + chunk) w Fw) as (bw' & r & -> & Hhr & Fr & Kr & Hbw' & Br & Hend); [rewrite Ehw, Eh; apply Hh|lia|lia| |].
  { intros Hlt2. rewrite Ebw. replace ((offset + (bw + chunk)) / bs) with (c + 1); [lia|]. apply (Z.div_unique _ _ _ 0); lia. }
  exists bw', r. split; [done|]. split; [rewrite Ehw, Eh in Hhr; by eapply heap_same_trans|]. split; [done|]. split; [by eapply kept_trans|].
  split; [lia|]. split; [|intros Hlt2; rewrite Ebw in Hend; rewrite <- (Hend Hlt2); symmetry; apply (proj2 (proj2 Ksw)); apply Z.div_pos; lia].
  intros i Hi. rewrite Br, Bw, Ebu by done. destruct ((offset + (bw + chunk) <=? i) && (i <? offset + bw')) eqn:E1.
  { destruct ((cur <=? i) && (i <? offset + bw')) eqn:E2; [done|exfalso; lia]. }
  pose proof (Z.mod_pos_bound i bs ltac:(lia)) as Hmi. pose proof (Z.div_mod i bs ltac:(lia)) as Hdi. destruct (Z.eqb_spec (i / bs) c) as [Ec|Hne].
  - rewrite Hbuf by lia. rewrite Ec in Hdi. destruct ((bo <=? i mod bs) && (i mod bs <? bo + chunk)) eqn:E2.
    + destruct ((cur <=? i) && (i <? offset + bw')) eqn:E3; [f_equal; lia|exfalso; lia].
    + destruct ((cur <=? i) && (i <? offset + bw')) eqn:E3; [exfalso; lia|]. unfold fbyte. fold bs. rewrite Ec.
      destruct (Z.eqb_spec (phys (ex s) inode c) 0); [done|]. rewrite Ebt. destruct Hs as (_ & _ & B). apply B.
  - rewrite Bu, Bt. destruct ((cur <=? i) && (i <? offset + bw')) eqn:E3; [|done]. exfalso. apply Hne. symmetry. apply (Z.div_unique _ _ _ (i - c * bs)); lia.
Qed.

(** The loop with its buffer. *)
Lemma write_phase s inode offset buffer : file_inv (ex s) inode -> a_ok (eh s) -> Forall is_u8 buffer -> 0 <= offset -> offset + len buffer <= 4294901760 ->
  let bs := block_size (ex s) in
  exists k t, with_buf None bs (fun u0 =>
      let* (n, u1) := write_loop (Z.to_nat (len buffer / bs + 3)) inode offset (len buffer) buffer 0 u0 in Some (Some n, u1)) s = Some (Some k, t) /\
    heap_same (eh s) (eh t) /\ file_inv (ex t) inode /\ others_kept (ex s) (ex t) inode /\ 0 <= k <= len buffer /\
    (forall i, 0 <= i -> fbyte (ex t) inode i = if (offset <=? i) && (i <? offset + k) then arr_get buffer (i - offset) else fbyte (ex s) inode i) /\
    (k < len buffer -> phys (ex s) inode ((offset + k) / bs) = 0).
Proof.
  intros F Ha Hu Ho Hmax bs. pose proof (geo_bs _ (v_geo _ (aw_vol _ (fi_alloc _ _ _ _ F)))) as (Hbs & _). fold bs in Hbs.
  assert (Hlb : 0 <= len buffer) by (unfold len; lia). pose proof (Z.div_pos (len buffer) bs ltac:(lia) ltac:(lia)) as Hq.
  match goal with |- context [with_buf None bs ?k s] => set (body := k) end.
  destruct (with_buf_ok (D:=D) None bs body s (fun r y => exists k, r = Some k /\ file_inv y inode /\ others_kept (ex s) y inode /\ 0 <= k <= len buffer /\
      (forall i, 0 <= i -> fbyte y inode i = if (offset <=? i) && (i <? offset + k) then arr_get buffer (i - offset) else fbyte (ex s) inode i) /\
      (k < len buffer -> phys (ex s) inode ((offset + k) / bs) = 0)) Ha ltac:(lia)) as (r & t & E & Hh & k & -> & P); [|by exists k, t].
  intros u Eu Hau. unfold body. destruct (write_loop_ok inode offset buffer Ho Hmax Hu (Z.to_nat (len buffer / bs + 3)) 0 u) as (k & t & E & Hh & Fk & Kk & Hk & Bk & Sk);
    [by rewrite Eu|done|lia|lia| |].
  - intros _. rewrite Eu, Z2Nat.id by lia. fold bs. pose proof (div_bounds (offset + len buffer - 1) bs ltac:(lia)).
    pose proof (div_bounds (offset + 0) bs ltac:(lia)). pose proof (div_bounds (len buffer) bs ltac:(lia)).
    assert ((offset + len buffer - 1) / bs < (offset + 0) / bs + len buffer / bs + 2); [|lia]. apply (Z.mul_lt_mono_pos_r bs); lia.
  - rewrite E. eexists _, t. split; [done|]. split; [done|]. exists k. rewrite Eu in *. replace (offset + 0) with offset in Bk by lia. done.
Qed.

(** * The inode *)

Lemma slot_step s inode inode' : file_inv (ex s) inode -> a_ok (eh s) -> len inode' = 128 -> Forall is_u8 inode' ->
  exists t, ext2_write_inode n inode' s = Some (true, t) /\ heap_same (eh s) (eh t) /\ file_inv (ex t) inode /\
    inode_at (ex t) n = inode' /\ (same_layout (ex s) (ex t) /\ same_vol (ex s) (ex t)) /\
    (forall i, Q i \/ meta (ex s) i -> vbyte (ex t) i = vbyte (ex s) i) /\
    forall i, 0 <= i -> fbyte (ex t) inode i = fbyte (ex s) inode i.
Proof.
  intros F Ha L U. pose proof (fi_alloc _ _ _ _ F) as W. destruct (write_inode_ok s n inode' (aw_vol _ W) Ha (fi_has _ _ _ _ F) L U) as (t & E & Hh & Hw).
  destruct (wrote_step n Q (ex s) (ex t) inode _ _ (slot n (ex s)) F Hw) as [S Ho];
    [intros i Hi; rewrite L in Hi; done|intros i Hi; by apply (fi_slot _ _ _ _ F)|].
  assert (Hown : forall p i, own (ex s) inode p -> blk (ex s) p i -> ~ slot n (ex s) i) by (intros p i Hp Hb; by destruct (fi_own _ _ _ _ F p i Hp Hb) as (_ & ? & _)).
  assert (Hsp : spares_ind (ex s) inode (slot n (ex s))).
  { destruct (decide (i_block inode 12 = 0)); [by left|right]. intros i Hs Hb. by apply (Hown _ i (own_ind _ _ ltac:(done)) Hb). }
  exists t. split; [done|]. split; [done|]. split; [by eapply inv_step|]. pose proof Hw as (V & _ & B). split.
  { apply list_ext_get; [by rewrite len_inode_at|]. intros i. rewrite len_inode_at. intros Hi. unfold inode_at, INODE_SIZE. rewrite span_get by lia.
    rewrite (inode_off_same _ _ _ V), B, L. bcases; cbn [andb]; try (exfalso; lia). f_equal. lia. }
  split; [split; [apply S|done]|]. split.
  - intros i Hi. apply (proj2 S). intros Hs. destruct Hi as [Hq|Hm]; [by destruct (fi_others _ _ _ _ F i Hq)|by apply (fi_slot _ _ _ _ F i Hs)].
  - intros i Hi. eapply step_fbyte; try done. intros Hp j Hb. apply (fun Hq => Hown _ j Hq Hb). apply own_phys; [|done]. apply Z.div_pos; [done|].
    pose proof (geo_bs _ (v_geo _ (aw_vol _ W))). lia.
Qed.

Lemma grown_content x x' inode inode' b m : file_inv x inode -> (forall c, b <= c -> phys x inode c = 0) -> 0 <= b -> grown Q x x' inode inode' b m ->
  forall i, 0 <= i -> fbyte x' inode' i = fbyte x inode i.
Proof.
  intros F Hend Hb (_ & _ & _ & _ & _ & B) i Hi. rewrite B by done. destruct ((b <=? i / block_size x) && _) eqn:E; [|done]. unfold fbyte.
  rewrite Hend by lia. done.
Qed.
Lemma step_full s t : same_vol (ex s) (ex t) -> alloc_wf (ex s) -> (forall i, meta (ex s) i -> vbyte (ex t) i = vbyte (ex s) i) -> full (ex s) -> full (ex t).
Proof.
  intros (E1 & E2 & E3 & E4 & _) W B Hf g j. unfold nbits, bit, bm, free_count. rewrite E1, E2, E3, E4. intros Hg Hj Hc.
  rewrite B; [by apply Hf|]. right. exists false, g. split; [done|]. pose proof (aw_bits _ W false) as Hb.
  unfold in_bitmap, bm, nbits in *. Z.div_mod_to_equations; lia.
Qed.

Definition blocks_of x inode : Z := (i_size inode + block_size x - 1) / block_size x.

(** C7: [ext2_vfs_write] writes the file and nothing else.  On a volume where the blocks of
    the file, the free blocks, the metadata, the inode and the bytes [Q] of everything else
    lie apart, and the file has no block past its end, the write ends; afterwards the file
    has the bytes written at the offset and its old bytes elsewhere, its size covers them,
    no byte of [Q] has changed and the volume is as well formed as before.  It stops short
    only at a hole, at the last block that one indirect block reaches, or when no block is
    free.  There is memory for the buffers ([RoomyHeap]) and the disk does not fail.  The
    bytes of the file are [fbyte]; [fbyte_layout] relates them to the layout that ext2.h
    documents. *)
Theorem ext2_write_spec s offset buffer :
  file_inv (ex s) (inode_at (ex s) n) -> a_ok (eh s) -> Forall is_u8 buffer ->
  0 <= offset -> offset + len buffer <= 4294901760 -> i_size (inode_at (ex s) n) <= 4294901760 ->
  (forall c, blocks_of (ex s) (inode_at (ex s) n) <= c -> phys (ex s) (inode_at (ex s) n) c = 0) ->
  let inode := inode_at (ex s) n in
  exists m t, ext2_vfs_write n offset buffer s = Some (m, Some (Z.max (i_size inode) (offset + m)), t) /\ heap_same (eh s) (eh t) /\
    let inode' := inode_at (ex t) n in
    0 <= m <= len buffer /\ i_size inode' = Z.max (i_size inode) (offset + m) /\ file_inv (ex t) inode' /\
    (forall i, 0 <= i -> fbyte (ex t) inode' i = if (offset <=? i) && (i <? offset + m) then arr_get buffer (i - offset) else fbyte (ex s) inode i) /\
    (forall i, Q i -> vbyte (ex t) i = vbyte (ex s) i) /\
    (m < len buffer -> let c := (offset + m) / block_size (ex s) in
       (c < blocks_of (ex s) inode /\ phys (ex s) inode c = 0) \/ 12 + block_size (ex s) / 4 <= c \/ full (ex t)).
Proof.
  intros F Ha Hu Ho Hmax Hsz Hend inode. pose proof (fi_alloc _ _ _ _ F) as W. pose proof (aw_vol _ W) as V. pose proof (v_geo _ V) as G. pose proof (geo_bs _ G) as (Hbs & _).
  unfold ext2_vfs_write. destruct (read_inode_ok s n V Ha (fi_has _ _ _ _ F)) as (t1 & -> & Hh1 & Hs1). fold inode in F, Hsz, Hend |- *.
  destruct (same_kept _ _ _ F Hs1) as (F1 & K1 & B1). assert (Eb1 : block_size (ex t1) = block_size (ex s)) by apply (proj2 (proj1 K1)). rewrite Eb1.
  set (bs := block_size (ex s)) in *. pose proof (fi_inode _ _ _ _ F) as I.
  assert (Hisz : 0 <= i_size inode) by (apply read_u32_range; [apply I|lia|rewrite (io_len _ _ I); lia]).
  unfold div_c. destruct (Z.eqb_spec bs 0); [lia|]. rewrite (u32_id (i_size inode + bs - 1)) by (unfold is_u32; lia).
  change ((i_size inode + bs - 1) / bs) with (blocks_of (ex s) inode). set (cur := blocks_of (ex s) inode) in *.
  rewrite u64_id by (unfold is_u64; pose proof (Zle_0_nat (length buffer)); unfold len in *; lia). set (req := (offset + len buffer + bs - 1) / bs).
  assert (Hlb : 0 <= len buffer) by (unfold len; lia).
  assert (Hcur : 0 <= cur) by (apply Z.div_pos; lia).
  assert (Hreq : 0 <= req < 4294967296) by (split; [apply Z.div_pos; lia|apply Z.div_lt_upper_bound; lia]). rewrite (u32_id req) by done.
  destruct (grow_ok n Q (Z.to_nat (req - cur)) cur inode t1 F1 (proj1 Hh1) Hcur) as (inode1 & t2 & m & -> & Hh2 & F2 & Hm & Gr & Hshort). cbv beta iota.
  assert (Hend1 : forall c, cur <= c -> phys (ex t1) inode c = 0).
  { intros c Hc. rewrite (proj2 (proj2 K1)) by lia. by apply Hend. }
  pose proof (grown_content _ _ _ _ _ _ F1 Hend1 Hcur Gr) as B2. destruct Gr as (L2 & Z2 & Q2 & N2 & P2 & _).
  assert (Eb2 : block_size (ex t2) = bs) by (rewrite <- Eb1; apply L2). rewrite Eb1 in Hshort.
  destruct (write_phase t2 inode1 offset buffer F2 (proj1 Hh2) Hu Ho Hmax) as (k & t3 & E3 & Hh3 & F3 & K3 & Hk & B3 & S3).
  rewrite Eb2 in E3, S3.
  rewrite E3. cbv beta iota. set (inode2 := if i_size inode1 <? _ then _ else _).
  assert (Hi2 : len inode2 = 128 /\ Forall is_u8 inode2 /\ i_size inode2 = Z.max (i_size inode) (offset + k) /\ forall j, 0 <= j < 15 -> i_block inode2 j = i_block inode1 j).
  { unfold inode2. pose proof (fi_inode _ _ _ _ F3) as I3. rewrite (u64_id (offset + k)) by (unfold is_u64; lia). rewrite Z2.
    destruct (Z.ltb_spec (i_size inode) (offset + k)).
    - destruct (set_i_size_facts (u32 (offset + k)) inode1 (io_len _ _ I3) (io_u8 _ _ I3) ltac:(apply u32_range)) as (L & U & Z & Bl).
      rewrite u32_id in Z by (unfold is_u32; lia). split_and!; [done|done|rewrite u32_id by (unfold is_u32; lia); lia|done].
    - split_and!; [apply I3|apply I3|lia|done]. }
  destruct Hi2 as (L2' & U2' & Z2' & Bl2). pose proof (inv_fields n Q _ _ _ F3 L2' U2' Bl2) as F3'.
  destruct (slot_step t3 inode2 inode2 F3' (proj1 Hh3) L2' U2') as (t4 & -> & Hh4 & F4 & E4 & [L4 V4] & Q4 & B4). cbv beta iota.
  exists k, t4. rewrite Z2', E4. split; [done|]. split; [do 3 (eapply heap_same_trans; [done|]); done|]. cbv zeta. split; [done|]. split; [done|]. split; [done|].
  assert (Hph : forall i, 0 <= i -> fbyte (ex t3) inode2 i = fbyte (ex t3) inode1 i).
  { intros i Hi. unfold fbyte. rewrite (phys_blocks (ex t3) inode1) by (done || (apply Z.div_pos; [done|]; pose proof (geo_bs _ (v_geo _ (aw_vol _ (fi_alloc _ _ _ _ F3)))); lia)). done. }
  split; [intros i Hi; rewrite B4, Hph, B3, B2, B1 by done; done|].
  split; [intros i Hi; rewrite Q4, (proj1 (proj2 K3)), Q2, (proj1 (proj2 K1)) by auto; done|].
  intros Hlt. cbv zeta. specialize (S3 Hlt). set (c := (offset + k) / bs) in *.
  assert (Hc : 0 <= c) by (apply Z.div_pos; lia). assert (Hcr : c < req).
  { unfold c, req. pose proof (div_bounds (offset + k) bs ltac:(lia)). pose proof (div_bounds (offset + len buffer + bs - 1) bs ltac:(lia)).
    apply (Z.mul_lt_mono_pos_r bs); lia. }
  destruct (decide (c < cur)).
  { left. split; [done|]. rewrite <- S3, P2, (proj2 (proj2 K1)) by lia. done. }
  right. assert (Hcm : cur + m <= c). { destruct (decide (cur + m <= c)); [done|]. exfalso. apply (N2 c); [lia|done]. }
  destruct Hshort as [Hf|Hlim]; [lia| |left; lia]. right.
  assert (W2 : alloc_wf (ex t2)) by apply F2. assert (W3 : alloc_wf (ex t3)) by apply F3.
  pose proof (full_stays (ex t2) (ex t3) inode1 F2 K3 Hf) as Hf3. eapply step_full; [done|done| |done]. intros i Hi. apply Q4. by right.
Qed.
End File.
