(* ===== verification/Ext2Dir.v ===== *)
(** Directories of ext2: the records of a block, that the walk visits each of them and
    [ext2_vfs_readdir] lists them, and that [ext2_add_dir_entry] puts the new entry in a
    block with room or in a new block and keeps the others. *)

From S2P Require Import Prelude Vfs VfsReach Fat16 Fat16Fat Fat16Read Fat16Root Ext2 Ext2Read Ext2Alloc Ext2Write.

(** * The records of a block *)

Record dent := mk_dent { d_inode : Z; d_name : list Z; d_type : Z }.
Definition dent_at (buf : list Z) (off : Z) : dent :=
  mk_dent (rec_inode off buf) (slice_at (off + 8) (rec_name_len off buf) buf) (arr_get buf (off + 7)).

(** Records of the lengths [l] fill the block [buf] from [off] on, each with room for its
    name. *)
Fixpoint tiles (buf : list Z) (off : Z) (l : list Z) : Prop :=
  match l with
  | [] => off = len buf
  | r :: l' => 8 <= r /\ read_u16 buf (off + 4) = r /\ 8 + rec_name_len off buf <= r /\ off + r <= len buf /\ tiles buf (off + r) l'
  end.
(** The entries in use. *)
Fixpoint dents (buf : list Z) (off : Z) (l : list Z) : list dent :=
  match l with
  | [] => []
  | r :: l' => (if rec_inode off buf =? 0 then [] else [dent_at buf off]) ++ dents buf (off + r) l'
  end.
Definition sum_len (l : list Z) : Z := fold_right Z.add 0 l.

Lemma tiles_len buf : forall l off, tiles buf off l -> off + sum_len l = len buf /\ 8 * Z.of_nat (length l) <= sum_len l.
Proof.
  induction l as [|r l IH]; intros off; cbn [tiles sum_len fold_right length]; [lia|]. intros (H1 & _ & _ & _ & Ht). destruct (IH _ Ht).
  unfold sum_len in *. lia.
Qed.
Lemma tiles_app buf l1 l2 : forall off, tiles buf off (l1 ++ l2) -> tiles buf (off + sum_len l1) l2.
Proof.
  induction l1 as [|r l1 IH]; intros off; cbn [app tiles sum_len fold_right]; [by rewrite Z.add_0_r|]. intros (_ & _ & _ & _ & Ht).
  apply IH in Ht. unfold sum_len in *. by replace (off + (r + fold_right Z.add 0 l1)) with (off + r + fold_right Z.add 0 l1) by lia.
Qed.
Lemma dents_app buf l1 l2 : forall off, dents buf off (l1 ++ l2) = dents buf off l1 ++ dents buf (off + sum_len l1) l2.
Proof.
  induction l1 as [|r l1 IH]; intros off; cbn [app dents sum_len fold_right]; [by rewrite Z.add_0_r|]. rewrite IH, app_assoc. unfold sum_len.
  by replace (off + (r + fold_right Z.add 0 l1)) with (off + r + fold_right Z.add 0 l1) by lia.
Qed.
Lemma sum_len_app l1 l2 : sum_len (l1 ++ l2) = sum_len l1 + sum_len l2.
Proof. unfold sum_len. induction l1 as [|r l1 IH]; cbn [app fold_right]; lia. Qed.

Lemma sum_nonneg buf l1 l2 : forall off, tiles buf off (l1 ++ l2) -> 0 <= sum_len l1.
Proof.
  unfold sum_len. induction l1 as [|r l1 IH]; intros off; cbn [app tiles fold_right]; [lia|]. intros (R1 & _ & _ & _ & Ht). specialize (IH _ Ht). lia.
Qed.

(** Blocks that agree on a range have the same records there. *)
Definition agree (buf buf' : list Z) (a b : Z) : Prop := len buf' = len buf /\ forall i, a <= i < b -> arr_get buf' i = arr_get buf i.
Lemma slice_get_ext (buf buf' : list Z) off n : len buf' = len buf -> 0 <= off -> 0 <= n -> off + n <= len buf ->
  (forall i, off <= i < off + n -> arr_get buf' i = arr_get buf i) -> slice_at off n buf' = slice_at off n buf.
Proof. intros L H1 H2 H3 E. rewrite !slice_at_span by lia. apply span_eq. intros i Hi. apply E. lia. Qed.
Lemma agree_record buf buf' off r : 0 <= off -> 8 <= r -> 8 + rec_name_len off buf <= r -> off + r <= len buf -> 0 <= rec_name_len off buf -> agree buf buf' off (off + r) ->
  rec_inode off buf' = rec_inode off buf /\ read_u16 buf' (off + 4) = read_u16 buf (off + 4) /\ rec_name_len off buf' = rec_name_len off buf /\ dent_at buf' off = dent_at buf off.
Proof.
  intros H1 H2 H3 H4 H5 [L E]. assert (E1 : rec_inode off buf' = rec_inode off buf) by (unfold rec_inode, read_u32, read_u16; rewrite !E by lia; done).
  assert (E2 : rec_name_len off buf' = rec_name_len off buf) by (unfold rec_name_len; apply E; lia).
  split; [done|]. split; [unfold read_u16; rewrite !E by lia; done|]. split; [done|]. unfold dent_at. rewrite E1, E2, E by lia. f_equal. apply slice_get_ext; try lia.
  intros i Hi. apply E. lia.
Qed.
Lemma agree_tiles buf buf' : Forall is_u8 buf -> forall l off, 0 <= off -> tiles buf off l -> agree buf buf' off (len buf) -> tiles buf' off l /\ dents buf' off l = dents buf off l.
Proof.
  intros U. induction l as [|r l IH]; intros off Ho; cbn [tiles dents].
  - intros -> [L _]. done.
  - intros (R1 & R2 & R3 & R4 & Ht) A. assert (Hn : 0 <= rec_name_len off buf) by (unfold rec_name_len; apply (arr_get_Forall is_u8); [done|lia]).
    destruct (agree_record buf buf' off r) as (E1 & E2 & E3 & E4); try lia; [split; [apply A|intros i Hi; apply A; lia]|].
    destruct (IH (off + r) ltac:(lia) Ht) as [T D]; [split; [apply A|intros i Hi; apply A; lia]|].
    rewrite E1, E2, E3, E4, D, (proj1 A). done.
Qed.
Lemma agree_prefix buf buf' : Forall is_u8 buf -> forall l1 l2 l3 off, 0 <= off -> tiles buf off (l1 ++ l2) -> agree buf buf' off (off + sum_len l1) ->
  tiles buf' (off + sum_len l1) l3 -> tiles buf' off (l1 ++ l3) /\ dents buf' off l1 = dents buf off l1.
Proof.
  intros U. induction l1 as [|r l1 IH]; intros l2 l3 off Ho; cbn [app tiles dents sum_len fold_right]; [rewrite Z.add_0_r; done|].
  intros (R1 & R2 & R3 & R4 & Ht) A T2. assert (Hn : 0 <= rec_name_len off buf) by (unfold rec_name_len; apply (arr_get_Forall is_u8); [done|lia]).
  pose proof (sum_nonneg buf l1 l2 _ Ht) as Hs.
  unfold sum_len in *. destruct (agree_record buf buf' off r) as (E1 & E2 & E3 & E4); try lia; [split; [apply A|intros i Hi; apply A; lia]|].
  replace (off + (r + fold_right Z.add 0 l1)) with (off + r + fold_right Z.add 0 l1) in * by lia.
  destruct (IH l2 l3 (off + r) ltac:(lia) Ht) as [T D]; [split; [apply A|intros i Hi; apply A; lia]|done|]. rewrite E1, E2, E3, E4, D, (proj1 A). done.
Qed.

(** * A new record *)

Lemma rec_space_facts k : 0 <= k <= 255 -> 8 + k <= rec_space k <= 8 + k + 3 /\ 8 <= rec_space k.
Proof.
  intros Hk. unfold rec_space. rewrite (u32_id (k + 3)) by (unfold is_u32; lia).
  assert (E : Z.land (k + 3) (lnot32 3) = (k + 3) / 4 * 4).
  { unfold lnot32. apply Z.bits_inj'. intros j Hj. rewrite Z.land_spec, Z.lxor_spec. change 4 with (2 ^ 2). rewrite Z.mul_pow2_bits by lia.
    destruct (Z.ltb_spec j 2).
    - rewrite (Z.testbit_neg_r _ (j - 2)) by lia. assert (C : j = 0 \/ j = 1) by lia. destruct C as [->| ->]; cbn; by rewrite andb_false_r.
    - rewrite Z.div_pow2_bits by lia. replace (j - 2 + 2) with j by lia. destruct (Z.ltb_spec j 32).
      + change 4294967295 with (Z.ones 32). rewrite Z.ones_spec_low by lia. change 3 with (Z.ones 2). rewrite Z.ones_spec_high by lia. by rewrite andb_true_r.
      + assert (Hh : Z.testbit (k + 3) j = false). { apply (Z.bits_above_log2); [lia|]. apply Z.log2_lt_pow2; [lia|].
          assert (2 ^ 32 <= 2 ^ j) by (apply Z.pow_le_mono_r; lia). change (2 ^ 32) with 4294967296 in *. lia. }
        rewrite Hh. done. }
  rewrite E, u32_id by (unfold is_u32; Z.div_mod_to_equations; lia). Z.div_mod_to_equations; lia.
Qed.

Lemma fill_record_facts o ino ft name buf : 0 <= o -> o + 8 + len name <= len buf -> len name <= 255 -> is_u32 ino -> is_u8 ft -> Forall is_u8 name -> Forall is_u8 buf ->
  let buf' := fill_record o ino ft name buf in
  len buf' = len buf /\ Forall is_u8 buf' /\ dent_at buf' o = mk_dent ino name ft /\ rec_inode o buf' = ino /\ rec_name_len o buf' = len name /\
  (forall i, 0 <= i < len buf -> i < o \/ o + 8 + len name <= i \/ o + 4 <= i < o + 6 -> arr_get buf' i = arr_get buf i).
Proof.
  intros Ho Hl Hn Hi Hf Un Ub buf'. assert (Hn0 : 0 <= len name) by (unfold len; lia).
  destruct (write_u32_buf o ino buf ltac:(lia) ltac:(lia) Ub) as [L1 U1]. set (b1 := write_u32 o ino buf) in *.
  set (b2 := arr_set (arr_set b1 (o + 6) (u8 (len name))) (o + 7) ft).
  assert (L2 : len b2 = len buf) by (unfold b2; by rewrite !len_arr_set).
  assert (U2 : Forall is_u8 b2) by (unfold b2; apply arr_set_Forall; [apply arr_set_Forall; [done|apply u8_range]|done]).
  assert (L3 : len buf' = len buf) by (unfold buf', fill_record; fold b1 b2; rewrite len_put_bytes; lia).
  assert (B : forall i, 0 <= i < len buf -> i < o + 8 \/ o + 8 + len name <= i -> arr_get buf' i = if i =? o + 7 then ft else if i =? o + 6 then len name else arr_get b1 i).
  { intros i Hir Hio. unfold buf', fill_record. fold b1 b2. rewrite put_bytes_get by lia.
    destruct ((o + 8 <=? i) && (i <? o + 8 + len name)) eqn:E; [exfalso; lia|]. unfold b2. destruct (Z.eqb_spec i (o + 7)) as [->|].
    - apply arr_get_set_eq. rewrite len_arr_set. lia.
    - rewrite arr_get_set_ne by lia. destruct (Z.eqb_spec i (o + 6)) as [->|]; [rewrite arr_get_set_eq by lia; ulia|]. apply arr_get_set_ne; lia. }
  assert (R : rec_inode o buf' = ino).
  { rewrite <- (read_write_u32 o ino buf Ho ltac:(lia) Hi). fold b1. unfold rec_inode, read_u32, read_u16. rewrite !B by lia. bcases; try done; exfalso; lia. }
  assert (N : rec_name_len o buf' = len name) by (unfold rec_name_len; rewrite B by lia; bcases; lia).
  split; [done|]. split; [unfold buf', fill_record; fold b1 b2; by apply put_bytes_u8|]. split; [|split; [done|split; [done|]]].
  - unfold dent_at. rewrite R, N, (B (o + 7)) by lia. rewrite Z.eqb_refl. f_equal. rewrite slice_at_span by lia. apply list_ext_get; [by rewrite len_span|].
    intros i. rewrite len_span by lia. intros Hir. rewrite span_get by lia. unfold buf', fill_record. fold b1 b2. rewrite put_bytes_get by lia.
    bcases; cbn [andb]; try (exfalso; lia). f_equal. lia.
  - intros i Hir Hio. rewrite B by lia. destruct (Z.eqb_spec i (o + 7)); [lia|]. destruct (Z.eqb_spec i (o + 6)); [lia|].
    unfold b1, write_u32. rewrite put_bytes_get by (change (len (le32 ino)) with 4; lia). change (len (le32 ino)) with 4.
    destruct ((o <=? i) && (i <? o + 4)) eqn:E; [exfalso; lia|done].
Qed.

(** The block after a record has been placed: the old entries and the new one behind the
    record that gave the room. *)
Lemma place_record_facts l1 r l2 ino ft name buf buf' :
  Forall is_u8 buf -> tiles buf 0 (l1 ++ r :: l2) -> 0 < ino < 4294967296 -> is_u8 ft -> Forall is_u8 name -> len name <= 255 ->
  place_record (sum_len l1) ino ft name buf = Some buf' ->
  exists l', len buf' = len buf /\ Forall is_u8 buf' /\ tiles buf' 0 (l1 ++ l' ++ l2) /\
    dents buf' 0 (l1 ++ l' ++ l2) = dents buf 0 (l1 ++ [r]) ++ mk_dent ino name ft :: dents buf (sum_len l1 + r) l2.
Proof.
  intros U T Hi Hf Un Hn. set (o := sum_len l1). pose proof (sum_nonneg _ _ _ _ T) as Ho. fold o in Ho. pose proof (tiles_app _ _ _ _ T) as To. rewrite Z.add_0_l in To. fold o in To.
  destruct To as (R1 & R2 & R3 & R4 & T2). assert (Hn0 : 0 <= len name) by (unfold len; lia).
  assert (Hnl : 0 <= rec_name_len o buf <= 255) by (pose proof (arr_get_Forall is_u8 buf (o + 6) U ltac:(lia)) as Hx; unfold rec_name_len; unfold is_u8 in Hx; lia).
  assert (Hr16 : r <= 65535) by (pose proof (read_u16_range buf (o + 4) U ltac:(lia) ltac:(lia)) as Hx; unfold is_u16 in Hx; lia).
  pose proof (rec_space_facts (len name) ltac:(lia)) as Hs. pose proof (rec_space_facts (rec_name_len o buf) ltac:(lia)) as Hm.
  unfold place_record. fold o. set (need := rec_space (len name)) in *. set (mn := rec_space (rec_name_len o buf)) in *. rewrite R2.
  destruct (Z.eqb_spec (rec_inode o buf) 0) as [E0|E0].
  - destruct (Z.leb_spec need r); [|done]. intros [= <-].
    destruct (fill_record_facts o ino ft name buf ltac:(lia) ltac:(lia) ltac:(lia) ltac:(unfold is_u32; lia) Hf Un U) as (L & U' & Dn & Ri & Rn & B).
    set (buf' := fill_record o ino ft name buf) in *. exists [r]. split; [done|]. split; [done|].
    assert (R2' : read_u16 buf' (o + 4) = r) by (rewrite <- R2; unfold read_u16; rewrite !B by lia; done).
    destruct (agree_tiles buf buf' U l2 (o + r) ltac:(lia) T2) as [T2' D2]; [split; [done|intros i Hir; apply B; lia]|].
    destruct (agree_prefix buf buf' U l1 (r :: l2) (r :: l2) 0 ltac:(lia) T) as [T' D1];
      [split; [done|intros i Hir; fold o in Hir; apply B; lia]|cbn [tiles]; fold o; rewrite Z.add_0_l, Rn; split_and!; try done; lia|].
    split; [done|]. change ([r] ++ l2) with (r :: l2). rewrite (dents_app buf' l1 (r :: l2)), (dents_app buf l1 [r]). cbn [dents app]. fold o.
    rewrite !Z.add_0_l, D1, D2, Ri, E0, Dn, !app_nil_r. destruct (Z.eqb_spec ino 0); [lia|]. done.
  - rewrite u32_id by (unfold is_u32; lia). destruct (Z.leb_spec (mn + need) r); [|done]. intros [= <-]. rewrite (u16_id mn) by (unfold is_u16; lia). rewrite u16_id by (unfold is_u16; lia).
    destruct (write_u16_buf (o + 4) mn buf ltac:(lia) ltac:(lia) U) as [La Ua]. set (ba := write_u16 (o + 4) mn buf) in *.
    destruct (write_u16_buf (o + mn + 4) (r - mn) ba ltac:(lia) ltac:(lia) Ua) as [Lb Ub]. set (bb := write_u16 (o + mn + 4) (r - mn) ba) in *.
    destruct (fill_record_facts (o + mn) ino ft name bb ltac:(lia) ltac:(lia) ltac:(lia) ltac:(unfold is_u32; lia) Hf Un Ub) as (L & U' & Dn & Ri & Rn & B).
    set (buf' := fill_record (o + mn) ino ft name bb) in *.
    assert (Bb : forall i, 0 <= i < len buf -> ~ (o + 4 <= i < o + 6) -> ~ (o + mn + 4 <= i < o + mn + 6) -> arr_get bb i = arr_get buf i).
    { intros i Hir H1 H2. unfold bb, ba, write_u16. rewrite !put_bytes_get by (rewrite ?len_put_bytes; change (len (le16 _)) with 2; lia). change (len (le16 (r - mn))) with 2.
      change (len (le16 mn)) with 2. bcases; cbn [andb]; try done; exfalso; lia. }
    assert (Rnew : read_u16 buf' (o + mn + 4) = r - mn).
    { rewrite <- (read_write_u16 (o + mn + 4) (r - mn) ba) by (unfold is_u16; lia). fold bb. unfold read_u16. rewrite !B by lia. done. }
    assert (Rold : read_u16 buf' (o + 4) = mn).
    { rewrite <- (read_write_u16 (o + 4) mn buf) by (unfold is_u16; lia). fold ba. rewrite <- (read_write_u16_other (o + mn + 4) (o + 4) (r - mn) ba) by lia. fold bb.
      unfold read_u16. rewrite !B by lia. done. }
    assert (A : forall i, 0 <= i < len buf -> i < o + 4 \/ o + 6 <= i < o + mn \/ o + r <= i -> arr_get buf' i = arr_get buf i).
    { intros i Hir Hio. rewrite B by lia. apply Bb; lia. }
    assert (Ei : rec_inode o buf' = rec_inode o buf) by (unfold rec_inode, read_u32, read_u16; rewrite !A by lia; done).
    assert (En : rec_name_len o buf' = rec_name_len o buf) by (unfold rec_name_len; apply A; lia).
    assert (Ed : dent_at buf' o = dent_at buf o).
    { unfold dent_at. rewrite Ei, En, A by lia. f_equal. apply slice_get_ext; try lia. intros i Hir. apply A; lia. }
    exists [mn; r - mn]. split; [lia|]. split; [done|].
    destruct (agree_tiles buf buf' U l2 (o + r) ltac:(lia) T2) as [T2' D2]; [split; [lia|intros i Hir; apply A; lia]|].
    assert (Tm : tiles buf' o (mn :: (r - mn) :: l2)).
    { cbn [tiles]. replace (o + mn + (r - mn)) with (o + r) by lia. rewrite En, Rn. split_and!; try done; lia. }
    destruct (agree_prefix buf buf' U l1 (r :: l2) (mn :: (r - mn) :: l2) 0 ltac:(lia) T) as [T' D1];
      [split; [lia|intros i Hir; fold o in Hir; apply A; lia]|fold o; by rewrite Z.add_0_l|].
    split; [done|]. change ([mn; r - mn] ++ l2) with (mn :: (r - mn) :: l2). rewrite (dents_app buf' l1 (_ :: _)), (dents_app buf l1 [r]). cbn [dents app]. fold o. rewrite !Z.add_0_l. replace (o + mn + (r - mn)) with (o + r) by lia.
    rewrite D1, D2, Ei, Ed, Ri, Dn. destruct (Z.eqb_spec (rec_inode o buf) 0); [done|]. destruct (Z.eqb_spec ino 0); [lia|]. by rewrite <- !app_assoc.
Qed.

(** * The walk *)

Fixpoint walk_list {T A R} (l : list Z) (off : Z) (body : Z -> A -> T -> option ((A + R) * T)) (acc : A) (t : T) : option ((A + R) * T) :=
  match l with
  | [] => Some (inl acc, t)
  | r :: l' =>
      let* (x, t) := body off acc t in
      match x with
      | inl acc => walk_list l' (off + r) body acc t
      | inr x => Some (inr x, t)
      end
  end.
(** The walk visits the records one after the other; its fuel is enough. *)
Lemma dir_walk_tiles {T A R} buf (body : Z -> A -> T -> option ((A + R) * T)) : forall l fuel off acc t,
  tiles buf off l -> 0 <= off -> (length l < fuel)%nat -> dir_walk fuel (len buf) off buf body acc t = walk_list l off body acc t.
Proof.
  induction l as [|r l IH]; intros [|fuel] off acc t; cbn [tiles length]; try lia; intros Ht Ho Hf; cbn [dir_walk walk_list].
  - subst off. by destruct (Z.ltb_spec (len buf) (len buf)); [lia|].
  - destruct Ht as (R1 & R2 & R3 & R4 & Ht). destruct (Z.ltb_spec off (len buf)); [|lia]. unfold get_u16. rewrite within_true by lia. rewrite R2.
    destruct (Z.ltb_spec r 8); [lia|]. destruct (Z.ltb_spec (len buf) (off + r)); [lia|]. cbn [orb].
    destruct (body off acc t) as [[[acc'|x] t']|]; [apply IH; [done|lia|lia]|done|done].
Qed.
Lemma walk_fuel_enough buf l : tiles buf 0 l -> (length l < walk_fuel_of (len buf))%nat.
Proof. intros Ht. destruct (tiles_len _ _ _ Ht). unfold walk_fuel_of. Z.div_mod_to_equations; lia. Qed.

Definition visible (e : dent) : bool := negb (is_dots (d_name e)).

Section Dir.
Context {H D : Type} `{RoomyHeap H} `{SectorDevLaws D}.
Implicit Types s t u w : est H D.
Implicit Types x : ext2 D.
Implicit Types inode : list Z.

Definition entry_of x (e : dent) : vfs_dir_entry :=
  mk_dir_entry (copy_name (until_nul (d_name e))) (if d_type e =? 2 then VFS_NODE_DIRECTORY else VFS_NODE_FILE) (i_size (inode_at x (d_inode e))) 0 0 0 0.
Lemma entry_of_same x x' e : same_bytes x x' -> entry_of x' e = entry_of x e.
Proof. intros E. unfold entry_of. by rewrite (inode_at_same x x' _ E). Qed.
Lemma has_inode_same x x' k : same_bytes x x' -> has_inode x' k <-> has_inode x k.
Proof. intros ((E1 & _ & E3 & _) & _). unfold has_inode. by rewrite E1, E3. Qed.
Lemma vol_wf_bytes x x' : vol_wf x -> same_bytes x x' -> vol_wf x'.
Proof. intros V E. by eapply vol_wf_same; [done|apply E..]. Qed.

Lemma rec_name_ok buf off r l : Forall is_u8 buf -> 0 <= off -> tiles buf off (r :: l) ->
  rec_name off buf = Some (if rec_inode off buf =? 0 then None else if visible (dent_at buf off) then Some (d_name (dent_at buf off)) else None).
Proof.
  intros U Ho (R1 & R2 & R3 & R4 & _). unfold rec_name. destruct (_ =? 0); [done|]. unfold get_bytes.
  pose proof (arr_get_Forall is_u8 buf (off + 6) U ltac:(lia)) as Hx. fold (rec_name_len off buf) in Hx. unfold is_u8 in Hx.
  rewrite within_true by lia. unfold visible. cbn [d_name dent_at]. by destruct (is_dots _).
Qed.

(** [index] counts the visible entries from [cur] on. *)
Lemma readdir_walk buf index b : Forall is_u8 buf -> 0 <= index < 4294967295 -> forall l off cur s,
  vol_wf (ex s) -> a_ok (eh s) -> 0 <= off -> tiles buf off l -> 0 <= cur <= index -> (forall e, e ∈ dents buf off l -> has_inode (ex s) (d_inode e)) ->
  exists t, walk_list l off (readdir_step index b buf) cur s =
      Some (match filter (fun e => visible e) (dents buf off l) !! Z.to_nat (index - cur) with
            | Some e => inr (entry_of (ex s) e)
            | None => inl (cur + len (filter (fun e => visible e) (dents buf off l)))
            end, t) /\ heap_same (eh s) (eh t) /\ same_bytes (ex s) (ex t).
Proof.
  intros U Hx. induction l as [|r l IH]; intros off cur s V Ha Ho Ht Hc He; cbn [walk_list dents].
  { exists s. split; [|split; [by apply heap_same_refl|apply same_bytes_refl, V]]. cbn. unfold len. cbn. by rewrite Z.add_0_r. }
  unfold readdir_step at 1. rewrite (rec_name_ok buf off r l U Ho Ht). pose proof Ht as (R1 & _ & _ & R4 & Ht').
  assert (He' : forall e, e ∈ dents buf (off + r) l -> has_inode (ex s) (d_inode e)) by (intros e Hin; apply He; cbn [dents]; apply elem_of_app; by right).
  destruct (Z.eqb_spec (rec_inode off buf) 0) as [|Hi]; cbn [app]; [apply IH; done || lia|].
  rewrite filter_cons. destruct (visible (dent_at buf off)) eqn:Ev; cbv beta iota.
  2: { rewrite decide_False by (by intros []). apply IH; done || lia. }
  rewrite decide_True by done. destruct (Z.eqb_spec cur index) as [->|Hne].
  - destruct (read_inode_ok s (rec_inode off buf) V Ha) as (t & E & Hh & Hs).
    { apply (He (dent_at buf off)). cbn [dents]. destruct (Z.eqb_spec (rec_inode off buf) 0); [done|]. left. }
    exists t. rewrite E, Z.sub_diag. done.
  - rewrite u32_id by (unfold is_u32; lia). destruct (IH (off + r) (cur + 1) s V Ha ltac:(lia) Ht' ltac:(lia) He') as (t & -> & Hh & Hs). exists t. split; [|done].
    replace (Z.to_nat (index - cur)) with (S (Z.to_nat (index - (cur + 1)))) by lia. cbn [lookup list_lookup]. unfold len. cbn [length].
    destruct (_ !! _); [done|]. do 3 f_equal. lia.
Qed.

(** * Directories *)

(** The blocks [0], ..., [n - 1] of a directory are filled with records, of the lengths
    [ls b] in block [b]. *)
Definition dir_ok x inode (n : Z) (ls : Z -> list Z) : Prop :=
  forall b, 0 <= b < n -> tiles (file_block x inode b) 0 (ls b).
Definition listing_from x inode (ls : Z -> list Z) (b n : Z) : list dent :=
  concat (span (fun b => dents (file_block x inode b) 0 (ls b)) b n).
Definition listing x inode (ls : Z -> list Z) (n : Z) : list dent := listing_from x inode ls 0 n.

Lemma span_cons {A} (f : Z -> A) b n : 0 <= n -> span f b (n + 1) = f b :: span f (b + 1) n.
Proof. intros. unfold span. rewrite seqZ_cons by lia. cbn [map]. do 2 f_equal. f_equal; lia. Qed.
Lemma listing_cons x inode ls b n : 0 <= n ->
  listing_from x inode ls b (n + 1) = dents (file_block x inode b) 0 (ls b) ++ listing_from x inode ls (b + 1) n.
Proof. intros. unfold listing_from. by rewrite span_cons. Qed.
Lemma file_block_same x x' inode b : same_bytes x x' -> file_block x' inode b = file_block x inode b.
Proof.
  intros E. pose proof E as ((_ & _ & _ & Eb & _) & _). unfold file_block. rewrite (phys_same _ _ _ _ E), Eb. destruct (_ =? 0); [done|]. by apply same_bytes_block.
Qed.
Lemma file_block_u8 x inode b : geo x -> Forall is_u8 (file_block x inode b).
Proof. intros G. unfold file_block. destruct (_ =? 0); [apply Forall_replicate; unfold is_u8; lia|by apply block_u8]. Qed.

Lemma readdir_blocks inode index ls : 0 <= index < 4294967295 -> forall n b cur s,
  vol_wf (ex s) -> a_ok (eh s) -> inode_ok (ex s) inode -> 0 <= b -> 0 <= cur <= index ->
  (forall c, b <= c < b + Z.of_nat n -> tiles (file_block (ex s) inode c) 0 (ls c)) ->
  (forall e, e ∈ listing_from (ex s) inode ls b (Z.of_nat n) -> has_inode (ex s) (d_inode e)) ->
  exists t, dir_blocks n (block_size (ex s)) b (ext2_read_file_block inode) (readdir_step index) cur s =
      Some (match filter (fun e => visible e) (listing_from (ex s) inode ls b (Z.of_nat n)) !! Z.to_nat (index - cur) with
            | Some e => inr (entry_of (ex s) e)
            | None => inl (cur + len (filter (fun e => visible e) (listing_from (ex s) inode ls b (Z.of_nat n))))
            end, t) /\ heap_same (eh s) (eh t) /\ same_bytes (ex s) (ex t).
Proof.
  intros Hx. induction n as [|n IH]; intros b cur s V Ha I Hb Hc Ht He; cbn [dir_blocks].
  { exists s. split; [|split; [by apply heap_same_refl|apply same_bytes_refl, V]]. unfold listing_from. rewrite span_nil by lia. cbn. unfold len. cbn. by rewrite Z.add_0_r. }
  pose proof (v_geo _ V) as G. destruct (read_file_block_ok s inode b G Ha I Hb) as (t & -> & Hh & Hs). cbv beta iota.
  set (buf := file_block (ex s) inode b). assert (Lb : len buf = block_size (ex s)) by by apply len_file_block. rewrite <- Lb.
  pose proof (Ht b ltac:(lia)) as Htb. fold buf in Htb. rewrite (dir_walk_tiles buf _ (ls b)) by (done || lia || by apply walk_fuel_enough).
  replace (Z.of_nat (S n)) with (Z.of_nat n + 1) in * by lia. rewrite listing_cons in * by lia. fold buf in He |- *.
  assert (Hhas : forall e, e ∈ dents buf 0 (ls b) -> has_inode (ex t) (d_inode e)).
  { intros e Hin. rewrite (has_inode_same _ _ _ Hs). apply He, elem_of_app. by left. }
  destruct (readdir_walk buf index b (file_block_u8 _ _ _ G) Hx (ls b) 0 cur t (vol_wf_bytes _ _ V Hs) (proj1 Hh) ltac:(lia) Htb Hc Hhas) as (u & -> & Hhu & Hsu).
  pose proof (heap_same_trans _ _ _ Hh Hhu) as Hh2. pose proof (same_bytes_trans _ _ _ Hs Hsu) as Hs2. rewrite filter_app.
  set (vis := filter _ (dents buf 0 (ls b))). destruct (vis !! Z.to_nat (index - cur)) as [e|] eqn:El.
  - exists u. rewrite lookup_app_l by (by eapply lookup_lt_Some). rewrite El. split; [|done]. by rewrite (entry_of_same _ _ e Hs).
  - apply lookup_ge_None in El. assert (Hlen : cur + len vis <= index) by (unfold len; lia). assert (Hl0 : 0 <= len vis) by (unfold len; lia).
    destruct (IH (b + 1) (cur + len vis) u) as (w & Ew & Hhw & Hsw); [by eapply vol_wf_bytes|apply Hhu|by eapply inode_ok_same|lia|lia|..].
    + intros c Hcr. rewrite (file_block_same _ _ _ _ Hs2). apply Ht. lia.
    + intros e Hin. rewrite (has_inode_same _ _ _ Hs2). apply He, elem_of_app. right. unfold listing_from in *.
      erewrite span_eq; [exact Hin|]. intros i _. cbv beta. by rewrite (file_block_same _ _ _ _ Hs2).
    + exists w. assert (Eb : block_size (ex u) = block_size (ex s)) by apply Hs2. rewrite Eb, <- Lb in Ew. rewrite Ew. split; [|split; [by eapply heap_same_trans|by eapply same_bytes_trans]].
      assert (Elist : listing_from (ex u) inode ls (b + 1) (Z.of_nat n) = listing_from (ex s) inode ls (b + 1) (Z.of_nat n)).
      { unfold listing_from. f_equal. apply span_eq. intros i _. cbv beta. by rewrite (file_block_same _ _ _ _ Hs2). }
      rewrite Elist, lookup_app_r by lia. replace (Z.to_nat (index - (cur + len vis))) with (Z.to_nat (index - cur) - length vis)%nat by (unfold len in *; lia).
      rewrite len_app.
      match goal with |- context [match ?o with Some _ => _ | None => _ end] => destruct o end; [by rewrite (entry_of_same _ _ _ Hs2)|]. do 3 f_equal. lia.
Qed.

(** [ext2_vfs_readdir] lists the directory.  On a volume where the directory's blocks are
    filled with records, entry [index] is the [index]-th name in use that is not "." or
    "..", with the type of its record and the size of its inode; past the last one the
    result is 0.  Nothing changes on the disk. *)
Theorem ext2_readdir_spec s n index ls :
  vol_wf (ex s) -> a_ok (eh s) -> has_inode (ex s) n -> inode_ok (ex s) (inode_at (ex s) n) ->
  i_size (inode_at (ex s) n) <= 4294901760 -> 0 <= index < 4294967295 ->
  let inode := inode_at (ex s) n in let count := blocks_of (ex s) inode in
  dir_ok (ex s) inode count ls -> (forall e, e ∈ listing (ex s) inode ls count -> has_inode (ex s) (d_inode e)) ->
  exists t, ext2_vfs_readdir n index s =
      Some (match filter (fun e => visible e) (listing (ex s) inode ls count) !! Z.to_nat index with
            | Some e => (1, Some (entry_of (ex s) e), t)
            | None => (0, None, t)
            end) /\ heap_same (eh s) (eh t) /\ same_bytes (ex s) (ex t).
Proof.
  intros V Ha Hn I Hsz Hx inode count Hd He. fold inode in I, Hsz. pose proof (v_geo _ V) as G. pose proof (geo_bs _ G) as (Hbs & _).
  unfold ext2_vfs_readdir. destruct (read_inode_ok s n V Ha Hn) as (t & -> & Hh & Hs). fold inode.
  assert (Eb : block_size (ex t) = block_size (ex s)) by apply Hs. rewrite Eb.
  assert (Hisz : 0 <= i_size inode) by (apply read_u32_range; [apply I|lia|rewrite (io_len _ _ I); lia]).
  assert (Hcount : 0 <= count) by (apply Z.div_pos; lia).
  unfold dir_block_count, div_c. destruct (Z.eqb_spec (block_size (ex s)) 0); [lia|]. rewrite u32_id by (unfold is_u32; lia).
  change ((i_size inode + block_size (ex s) - 1) / block_size (ex s)) with count.
  match goal with |- context [with_buf None _ ?k t] => set (body := k) end.
  set (res := match filter (fun e => visible e) (listing (ex s) inode ls count) !! Z.to_nat index with
              | Some e => inr (entry_of (ex s) e) | None => inl (0 + len (filter (fun e => visible e) (listing (ex s) inode ls count))) end).
  destruct (with_buf_ok (D:=D) None (block_size (ex s)) body t (fun r y => r = Some res /\ same_bytes (ex s) y) (proj1 Hh) ltac:(lia)) as (r & u & Eu & Hhu & -> & Hsu).
  - intros w Ew Haw. unfold body.
    destruct (readdir_blocks inode index ls Hx (Z.to_nat count) 0 0 w) as (u & E & Hhu & Hsu);
      [rewrite Ew; by eapply vol_wf_bytes|done|rewrite Ew; by eapply inode_ok_same|lia|lia|..].
    + intros c Hc. rewrite Ew, (file_block_same _ _ _ _ Hs). apply Hd. lia.
    + intros e. rewrite Ew, Z2Nat.id by lia. intros Hin. rewrite (has_inode_same _ _ _ Hs). apply He. unfold listing, listing_from in *.
      erewrite span_eq; [exact Hin|]. intros i _. cbv beta. by rewrite (file_block_same _ _ _ _ Hs).
    + rewrite Ew, Eb in E. rewrite E. eexists _, u. split; [done|]. split; [done|]. rewrite Ew in Hsu. split; [|by eapply same_bytes_trans].
      f_equal. unfold res, listing. rewrite Z2Nat.id, Z.sub_0_r by lia.
      assert (El : listing_from (ex t) inode ls 0 count = listing_from (ex s) inode ls 0 count).
      { unfold listing_from. f_equal. apply span_eq. intros i _. cbv beta. by rewrite (file_block_same _ _ _ _ Hs). }
      rewrite El. match goal with |- context [match ?o with Some _ => _ | None => _ end] => destruct o end; [by rewrite (entry_of_same _ _ _ Hs)|done].
  - rewrite Eu. exists u. split; [|split; [by eapply heap_same_trans|done]]. unfold res. by destruct (_ !! Z.to_nat index).
Qed.
End Dir.

(** * Adding an entry *)

Section Add.
Context {H D : Type} `{RoomyHeap H} `{SectorDevLaws D}.
Implicit Types s t u w : est H D.
Implicit Types x : ext2 D.
Implicit Types inode : list Z.
Context (d : Z) (Q : Z -> Prop).
Notation file_inv := (file_inv d Q).
Context (name : list Z) (ino ft : Z).
Context (Hino : 0 < ino < 4294967296) (Hft : is_u8 ft) (Uname : Forall is_u8 name) (Hname : len name <= 255).

Lemma file_block_span x inode b : geo x -> 0 <= b -> file_block x inode b = span (fbyte x inode) (b * block_size x) (block_size x).
Proof.
  intros G Hb. pose proof (geo_bs x G) as (Hbs & _). apply list_ext_get; [rewrite len_file_block, len_span by (done || lia); done|].
  intros i. rewrite len_file_block by done. intros Hi. by rewrite file_block_get, span_get by (done || lia).
Qed.
(** A tiled block is not a hole. *)
Lemma tiles_phys x inode b l : geo x -> tiles (file_block x inode b) 0 l -> phys x inode b <> 0.
Proof.
  intros G Ht E. unfold file_block in Ht. rewrite E in Ht. cbn [Z.eqb] in Ht. pose proof (geo_bs x G) as (Hbs & _).
  assert (L : len (replicate (Z.to_nat (block_size x)) 0) = block_size x) by (rewrite len_replicate; lia). destruct l as [|r l].
  - cbn in Ht. lia.
  - destruct Ht as (R1 & R2 & _). revert R2. unfold read_u16. rewrite !arr_get_replicate by lia. lia.
Qed.

(** One block: either no record has room, or the first one that has gets the entry. *)
Lemma add_walk inode b buf : forall l l0 s, tiles buf 0 (l0 ++ l) ->
  (walk_list l (sum_len l0) (add_step inode name ino ft b buf) tt s = Some (inl tt, s)) \/
  exists l1 r l2 buf', l = l1 ++ r :: l2 /\ place_record (sum_len (l0 ++ l1)) ino ft name buf = Some buf' /\
    walk_list l (sum_len l0) (add_step inode name ino ft b buf) tt s =
      let* (phys, t) := ext2_get_phys_block inode b s in let '(ok, u) := ext2_write_block phys buf' t in Some (inr ok, u).
Proof.
  induction l as [|r l IH]; intros l0 s Ht; cbn [walk_list]; [by left|]. unfold add_step at 1 3. destruct (place_record (sum_len l0) ino ft name buf) as [buf'|] eqn:Ep.
  - right. exists [], r, l, buf'. rewrite app_nil_r. split; [done|]. split; [done|].
    destruct (ext2_get_phys_block inode b s) as [[ph t]|]; [|done]. by destruct (ext2_write_block ph buf' t).
  - cbv beta iota. replace (l0 ++ r :: l) with ((l0 ++ [r]) ++ l) in Ht by (by rewrite <- app_assoc).
    assert (Es : sum_len (l0 ++ [r]) = sum_len l0 + r) by (rewrite sum_len_app; unfold sum_len; cbn; lia).
    specialize (IH (l0 ++ [r]) s Ht). rewrite Es in IH. destruct IH as [E|(l1 & r' & l2 & buf' & -> & Hp & E)]; [by left|right].
    exists (r :: l1), r', l2, buf'. split; [done|]. split; [|done]. by rewrite <- app_assoc in Hp.
Qed.

(** The directory after block [b] has been replaced. *)
Lemma replaced_block s inode b buf' : file_inv (ex s) inode -> a_ok (eh s) -> 0 <= b -> phys (ex s) inode b <> 0 -> len buf' = block_size (ex s) -> Forall is_u8 buf' ->
  exists u, (let* (phys, t) := ext2_get_phys_block inode b s in let '(ok, u) := ext2_write_block phys buf' t in Some (inr (A:=unit) ok, u)) = Some (inr true, u) /\
    heap_same (eh s) (eh u) /\ file_inv (ex u) inode /\ others_kept d Q (ex s) (ex u) inode /\
    forall c, 0 <= c -> file_block (ex u) inode c = if c =? b then buf' else file_block (ex s) inode c.
Proof.
  intros F Ha Hb Hp L U. pose proof (v_geo _ (aw_vol _ (fi_alloc _ _ _ _ F))) as G. pose proof (geo_bs _ G) as (Hbs & _).
  destruct (get_phys_ok s inode b G Ha (fi_inode _ _ _ _ F) Hb) as (t & -> & Hh & Hs). destruct (same_kept d Q _ _ _ F Hs) as (Ft & Kt & Bt).
  assert (Ebt : block_size (ex t) = block_size (ex s)) by apply Hs. assert (Pt : phys (ex t) inode b = phys (ex s) inode b) by (by apply phys_same).
  pose proof (v_geo _ (aw_vol _ (fi_alloc _ _ _ _ Ft))) as Gt. pose proof (fi_inode _ _ _ _ Ft) as It.
  pose proof (phys_nonneg (ex t) inode b Gt (io_len _ _ It) (io_u8 _ _ It) Hb). pose proof (io_phys _ _ It b Hb).
  destruct (write_block_ok t (phys (ex s) inode b) buf') as (u & -> & Eh & Hw); [done|rewrite <- Pt; lia|lia|done|].
  rewrite <- Pt in Hw. destruct (write_one d Q (ex t) (ex u) inode b buf' Ft Hb ltac:(by rewrite Pt) ltac:(lia) Hw) as (Fu & Ku & Bu).
  exists u. split; [done|]. split; [by rewrite Eh|]. split; [done|]. pose proof (kept_trans d Q _ _ _ _ F Kt Ku) as K. split; [done|].
  intros c Hc. assert (Ebu : block_size (ex u) = block_size (ex s)) by apply (proj2 (proj1 K)).
  rewrite !file_block_span by (done || apply (v_geo _ (aw_vol _ (fi_alloc _ _ _ _ Fu)))). rewrite Ebu.
  apply list_ext_get; [destruct (c =? b); rewrite !len_span by lia; done|]. intros i. rewrite len_span by lia. intros Hi. rewrite span_get by lia.
  assert (Hpos : 0 <= c * block_size (ex s) + i) by nia. rewrite Bu, Ebt by done.
  replace ((c * block_size (ex s) + i) / block_size (ex s)) with c by (apply (Z.div_unique _ _ _ i); lia).
  replace ((c * block_size (ex s) + i) mod block_size (ex s)) with i by (apply (Z.mod_unique _ _ c); lia).
  destruct (c =? b); [done|]. rewrite span_get by lia. apply Bt.
Qed.

(** The blocks from [b] on: no room in any, or the entry is in one of them. *)
Lemma add_blocks inode ls : forall n b s, file_inv (ex s) inode -> a_ok (eh s) -> 0 <= b ->
  (forall c, b <= c < b + Z.of_nat n -> tiles (file_block (ex s) inode c) 0 (ls c)) ->
  exists r t, dir_blocks n (block_size (ex s)) b (ext2_read_file_block inode) (add_step inode name ino ft) tt s = Some (r, t) /\ heap_same (eh s) (eh t) /\
    match r with
    | inl _ => same_bytes (ex s) (ex t)
    | inr ok => ok = true /\ file_inv (ex t) inode /\ others_kept d Q (ex s) (ex t) inode /\
        exists c l1 r l2 l', b <= c < b + Z.of_nat n /\ ls c = l1 ++ r :: l2 /\
          (forall c', 0 <= c' -> c' <> c -> file_block (ex t) inode c' = file_block (ex s) inode c') /\
          tiles (file_block (ex t) inode c) 0 (l1 ++ l' ++ l2) /\
          dents (file_block (ex t) inode c) 0 (l1 ++ l' ++ l2) =
            dents (file_block (ex s) inode c) 0 (l1 ++ [r]) ++ mk_dent ino name ft :: dents (file_block (ex s) inode c) (sum_len l1 + r) l2
    end.
Proof.
  induction n as [|n IH]; intros b s F Ha Hb Ht; cbn [dir_blocks].
  { exists (inl tt), s. split; [done|]. split; [by apply heap_same_refl|]. apply same_bytes_refl, F. }
  pose proof (v_geo _ (aw_vol _ (fi_alloc _ _ _ _ F))) as G. destruct (read_file_block_ok s inode b G Ha (fi_inode _ _ _ _ F) Hb) as (t & -> & Hh & Hs). cbv beta iota.
  destruct (same_kept d Q _ _ _ F Hs) as (Ft & Kt & _). set (buf := file_block (ex s) inode b). assert (Lb : len buf = block_size (ex s)) by by apply len_file_block. rewrite <- Lb.
  pose proof (Ht b ltac:(lia)) as Htb. fold buf in Htb. rewrite (dir_walk_tiles buf _ (ls b)) by (done || lia || by apply walk_fuel_enough).
  assert (Ub : Forall is_u8 buf) by by apply file_block_u8.
  destruct (add_walk inode b buf (ls b) [] t Htb) as [E|(l1 & r & l2 & buf' & El & Hp & E)].
  - change (sum_len []) with 0 in E. rewrite E. destruct (IH (b + 1) t Ft (proj1 Hh) ltac:(lia)) as (r & u & Er & Hhu & Hr).
    { intros c Hc. rewrite (file_block_same _ _ _ _ Hs). apply Ht. lia. }
    assert (Ebt : block_size (ex t) = block_size (ex s)) by apply Hs. rewrite Ebt, <- Lb in Er. exists r, u. split; [done|]. split; [by eapply heap_same_trans|].
    destruct r as [[]|ok]; [by eapply same_bytes_trans|]. destruct Hr as (-> & Fu & Ku & c & l1 & r & l2 & l' & Hc & El & Hother & T & Dn).
    split; [done|]. split; [done|]. split; [by eapply kept_trans|]. exists c, l1, r, l2, l'. rewrite !(file_block_same _ _ _ _ Hs) in Dn. split; [lia|]. split; [done|].
    split; [intros c' Hc' Hne; by rewrite Hother, (file_block_same _ _ _ _ Hs)|done].
  - change (sum_len []) with 0 in E. rewrite E. cbn [app] in Hp. rewrite El in Htb.
    destruct (place_record_facts l1 r l2 ino ft name buf buf' Ub Htb Hino Hft Uname Hname Hp) as (l' & L' & U' & T' & D').
    assert (Hph : phys (ex t) inode b <> 0). { rewrite (phys_same _ _ _ _ Hs). apply (tiles_phys (ex s) inode b _ G (Ht b ltac:(lia))). }
    assert (Ebt : block_size (ex t) = block_size (ex s)) by apply Hs.
    destruct (replaced_block t inode b buf' Ft (proj1 Hh) Hb Hph ltac:(lia) U') as (u & -> & Hhu & Fu & Ku & Bu).
    exists (inr true), u. split; [done|]. split; [by eapply heap_same_trans|]. split; [done|]. split; [done|]. split; [by eapply kept_trans|].
    exists b, l1, r, l2, l'. split; [lia|]. split; [done|]. split.
    + intros c' Hc' Hne. rewrite Bu by done. destruct (Z.eqb_spec c' b); [done|]. apply file_block_same, Hs.
    + rewrite Bu, Z.eqb_refl by done. done.
Qed.

(** * A new block *)

Lemma new_block_record bs : 1024 <= bs < 65536 ->
  let buf := fill_record 0 ino ft name (write_u16 4 (u16 bs) (replicate (Z.to_nat bs) 0)) in
  len buf = bs /\ Forall is_u8 buf /\ tiles buf 0 [bs] /\ dents buf 0 [bs] = [mk_dent ino name ft].
Proof.
  intros Hbs. set (z := replicate (Z.to_nat bs) 0). assert (Lz : len z = bs) by (unfold z; rewrite len_replicate; lia).
  assert (Uz : Forall is_u8 z) by (apply Forall_replicate; unfold is_u8; lia). assert (Hn0 : 0 <= len name) by (unfold len; lia).
  rewrite (u16_id bs) by (unfold is_u16; lia). destruct (write_u16_buf 4 bs z ltac:(lia) ltac:(lia) Uz) as [L4 U4]. set (z4 := write_u16 4 bs z) in *.
  destruct (fill_record_facts 0 ino ft name z4 ltac:(lia) ltac:(lia) ltac:(lia) ltac:(unfold is_u32; lia) Hft Uname U4) as (L & U & Dn & Ri & Rn & B).
  set (buf := fill_record 0 ino ft name z4) in *. cbv zeta. split; [lia|]. split; [done|].
  assert (R : read_u16 buf (0 + 4) = bs).
  { rewrite <- (read_write_u16 4 bs z) by (unfold is_u16; lia). fold z4. unfold read_u16. rewrite !B by lia. done. }
  cbn [tiles dents app]. rewrite Ri, Dn, Rn. split; [split_and!; try done; lia|]. by destruct (Z.eqb_spec ino 0); [lia|].
Qed.

Lemma append_ok s inode n : file_inv (ex s) inode -> a_ok (eh s) -> block_size (ex s) < 65536 -> 0 <= n -> (n + 1) * block_size (ex s) < 4294967296 ->
  exists ok t, append_block d inode name ino ft n s = Some (ok, t) /\ heap_same (eh s) (eh t) /\ (forall i, Q i -> vbyte (ex t) i = vbyte (ex s) i) /\
    block_size (ex t) = block_size (ex s) /\
    if ok then exists inode', inode_at (ex t) d = inode' /\ file_inv (ex t) inode' /\ i_size inode' = (n + 1) * block_size (ex s) /\
        (forall c, 0 <= c -> c <> n -> file_block (ex t) inode' c = file_block (ex s) inode c) /\
        tiles (file_block (ex t) inode' n) 0 [block_size (ex s)] /\ dents (file_block (ex t) inode' n) 0 [block_size (ex s)] = [mk_dent ino name ft]
    else (12 <= n \/ full (ex t)) /\ file_inv (ex t) inode /\ inode_at (ex t) d = inode_at (ex s) d /\
      forall c, 0 <= c -> file_block (ex t) inode c = file_block (ex s) inode c.
Proof.
  intros F Ha Hbs2 Hn Hmax. unfold append_block. destruct (Z.leb_spec 12 n); [by exists false, s; split_and!; try done; left|].
  pose proof (v_geo _ (aw_vol _ (fi_alloc _ _ _ _ F))) as G. pose proof (geo_bs _ G) as (Hbs & _). pose proof (meta_spares _ _ _ _ F) as Hsp.
  destruct (alloc_step d Q s inode F Ha) as (p & t & -> & Hh & Ft & St & Hp & _). assert (Ebt : block_size (ex t) = block_size (ex s)) by apply (proj1 St).
  assert (HQt : forall i, Q i -> vbyte (ex t) i = vbyte (ex s) i) by (intros i Hi; apply (proj2 St); by destruct (fi_others _ _ _ _ F i Hi)).
  assert (Bt : forall i, 0 <= i -> fbyte (ex t) inode i = fbyte (ex s) inode i).
  { intros i Hi. eapply step_fbyte; try done. intros Hpi j Hb. destruct (fi_own _ _ _ _ F _ j (own_phys _ _ _ (Z.div_pos i (block_size (ex s)) Hi ltac:(lia)) Hpi) Hb) as (? & _). done. }
  assert (Ot : inode_off (ex t) d = inode_off (ex s) d) by (eapply step_off; [apply F|apply F|done]).
  assert (It : inode_at (ex t) d = inode_at (ex s) d).
  { unfold inode_at. rewrite Ot. apply span_eq. unfold INODE_SIZE. intros i Hi. apply (proj2 St). apply (fi_slot _ _ _ _ F). unfold slot. lia. }
  assert (FBt : forall c, 0 <= c -> file_block (ex t) inode c = file_block (ex s) inode c).
  { intros c Hc. rewrite !file_block_span by (done || apply (v_geo _ (aw_vol _ (fi_alloc _ _ _ _ Ft)))). rewrite Ebt. apply span_eq. intros i Hi. apply Bt. nia. }
  destruct (Z.eqb_spec p 0) as [->|Hp0].
  { destruct Hp as [[_ Hf]|[? _]]; [|done]. exists false, t. split_and!; try done. by right. }
  destruct Hp as [[? _]|[_ Hp]]; [done|]. rewrite Ebt. destruct (new_block_record (block_size (ex s)) ltac:(lia)) as (Lb & Ub & Tb & Db).
  unfold zero_block. rewrite Ebt. set (buf := fill_record 0 ino ft name _) in *. pose proof Hp as [(Hp1 & Hp2 & Hp3) _].
  pose proof (v_geo _ (aw_vol _ (fi_alloc _ _ _ _ Ft))) as Gt.
  destruct (write_block_ok t p buf) as (u & -> & Ehu & Hw); [done|lia|lia|done|].
  destruct (wrote_step d Q (ex t) (ex u) inode _ _ (blk (ex t) p) Ft Hw) as [Su Ou]; [intros i Hi; unfold blk; lia|intros i Hi; by destruct (Hp2 i Hi)|].
  assert (Hspu : spares_ind (ex t) inode (blk (ex t) p)).
  { destruct (decide (i_block inode 12 = 0)); [by left|]. apply block_spares; [done|]. intros ->. apply Hp3. by apply own_ind. }
  pose proof (inv_step _ _ _ _ _ _ Ft Su Hspu Ou) as Fu. pose proof (reserved_step _ _ _ _ _ _ _ Ft Su Hspu Ou Hp) as Hpu. pose proof (fi_inode _ _ _ _ Fu) as Iu.
  assert (Ebu : block_size (ex u) = block_size (ex s)) by (rewrite <- Ebt; apply (proj1 Su)).
  assert (Hp32 : is_u32 p). { pose proof (read_u32_range (sb (ex t)) 4) as Hr. destruct (v_sb _ (aw_vol _ (fi_alloc _ _ _ _ Ft))).
    unfold nblocks, s_blocks_count in Hp1. unfold is_u32 in *. specialize (Hr ltac:(done) ltac:(lia) ltac:(lia)). lia. }
  destruct (set_i_block_facts n p inode (io_len _ _ Iu) (io_u8 _ _ Iu) ltac:(lia) Hp32) as (L1 & U1 & Z1 & B1). set (i1 := set_i_block n p inode) in *.
  assert (E12 : i_block i1 12 = i_block inode 12) by (rewrite B1 by lia; destruct (Z.eqb_spec 12 n); [lia|done]).
  assert (Ep : forall c, 0 <= c -> phys (ex u) i1 c = if c =? n then p else phys (ex u) inode c).
  { intros c Hc. unfold phys. destruct (Z.ltb_spec c 12); [by apply B1; lia|]. rewrite E12. destruct (Z.eqb_spec c n); [lia|done]. }
  pose proof (inv_place d Q (ex u) (ex u) (fun _ => False) inode i1 n p Fu (step_refl _ (fi_alloc _ _ _ _ Fu)) (fun g j Hc => Hc) Hpu L1 U1 E12 Hn Ep) as F1.
  rewrite (u32_id ((n + 1) * block_size (ex s))) by (unfold is_u32; nia).
  destruct (set_i_size_facts ((n + 1) * block_size (ex s)) i1 L1 U1 ltac:(unfold is_u32; nia)) as (L2 & U2 & Z2 & B2). set (i2 := set_i_size _ i1) in *.
  match goal with |- context [set_i_blocks ?v i2] => destruct (set_i_blocks_facts v i2 L2 U2) as (L3 & U3 & Z3 & B3); set (i3 := set_i_blocks v i2) in * end.
  assert (F3 : file_inv (ex u) i3) by (eapply inv_fields; [exact F1|done|done|]; intros j Hj; by rewrite B3, B2).
  destruct (slot_step d Q u i3 i3 F3 ltac:(rewrite Ehu; apply Hh) L3 U3) as (w & -> & Hhw & Fw & Ew & [Lw Vw] & Qw & Bw).
  exists true, w. split; [done|]. split; [rewrite Ehu in Hhw; by eapply heap_same_trans|]. assert (Ebw : block_size (ex w) = block_size (ex s)) by (rewrite <- Ebu; apply Lw).
  split.
  { intros i Hi. rewrite Qw by (by left). rewrite (proj2 Su); [by apply HQt|]. intros Hb. by destruct (Hp2 i Hb) as (_ & _ & ?). }
  split; [done|]. exists i3. split; [done|]. split; [done|]. split; [by rewrite Z3, Z2|].
  assert (FB : forall c, 0 <= c -> file_block (ex w) i3 c = if c =? n then buf else file_block (ex s) inode c).
  { intros c Hc. assert (Ex : file_block (ex w) i3 c = file_block (ex u) i3 c).
    { rewrite !file_block_span by (done || apply (v_geo _ (aw_vol _ (fi_alloc _ _ _ _ Fw))) || apply (v_geo _ (aw_vol _ (fi_alloc _ _ _ _ Fu)))).
      rewrite Ebw, Ebu. apply span_eq. intros i Hi. apply Bw. nia. }
    rewrite Ex. unfold file_block at 1. rewrite (phys_blocks (ex u) i1 i3 c Hc), Ep by (done || (intros j Hj; by rewrite B3, B2)). destruct (Z.eqb_spec c n) as [->|Hne].
    - destruct (Z.eqb_spec p 0); [done|]. pose proof (wrote_block (ex t) (ex u) p p buf Gt Hw ltac:(lia)) as Eb. by rewrite Z.eqb_refl in Eb.
    - rewrite <- FBt by done. unfold file_block. rewrite Ebu, Ebt, (step_phys _ _ _ _ _ Gt Su Hspu Hc). destruct (Z.eqb_spec (phys (ex t) inode c) 0) as [|Hpc]; [done|].
      pose proof (wrote_block (ex t) (ex u) p (phys (ex t) inode c) buf Gt Hw ltac:(lia)) as Eb. destruct (Z.eqb_spec (phys (ex t) inode c) p) as [Epp|]; [|done].
      exfalso. apply Hp3. rewrite <- Epp. by apply own_phys. }
  split; [intros c Hc Hne; rewrite FB by done; by destruct (Z.eqb_spec c n)|]. rewrite FB, Z.eqb_refl by done. done.
Qed.

Lemma listing_ext x x' inode inode' ls b n : (forall c, b <= c < b + n -> file_block x' inode' c = file_block x inode c) ->
  listing_from x' inode' ls b n = listing_from x inode ls b n.
Proof. intros E. unfold listing_from. f_equal. apply span_eq. intros i Hi. cbv beta. by rewrite E by lia. Qed.
(** The listing with block [c] singled out. *)
Lemma listing_split x inode ls n c : 0 <= c < n ->
  listing x inode ls n = listing_from x inode ls 0 c ++ dents (file_block x inode c) 0 (ls c) ++ listing_from x inode ls (c + 1) (n - c - 1).
Proof.
  intros Hc. unfold listing, listing_from. replace n with (c + (n - c - 1 + 1)) at 1 by lia. rewrite span_app, concat_app, span_cons, Z.add_0_l by lia. done.
Qed.
Definition set_lens (ls : Z -> list Z) (c : Z) (l : list Z) : Z -> list Z := fun b => if b =? c then l else ls b.
Lemma listing_lens x inode ls c l b n : (forall b', b <= b' < b + n -> b' <> c) -> listing_from x inode (set_lens ls c l) b n = listing_from x inode ls b n.
Proof.
  intros Hne. unfold listing_from. f_equal. apply span_eq. intros i Hi. cbv beta. unfold set_lens. destruct (Z.eqb_spec (b + i) c); [exfalso; by apply (Hne (b + i)); [lia|]|done].
Qed.

(** What [ext2_add_dir_entry] leaves: the file invariant, the bytes of the others, and the
    listing with the entry put in, or the same listing and the reason of the failure. *)
Definition entry_added (x : ext2 D) (ls : Z -> list Z) (ok : bool) (y : ext2 D) : Prop :=
  let inode := inode_at x d in let n := blocks_of x inode in let inode' := inode_at y d in let n' := blocks_of y inode' in
  file_inv y inode' /\ (forall i, Q i -> vbyte y i = vbyte x i) /\
  if ok then exists ls' l1 l2, dir_ok y inode' n' ls' /\ listing x inode ls n = l1 ++ l2 /\ listing y inode' ls' n' = l1 ++ mk_dent ino name ft :: l2
  else (12 <= n \/ full y) /\ listing y inode' ls n' = listing x inode ls n.

(** No room in the old blocks. *)
Lemma appended_entry x ls u : let inode := inode_at x d in let n := blocks_of x inode in
  file_inv x inode -> a_ok (eh u) -> same_bytes x (ex u) -> block_size x < 65536 -> 0 <= i_size inode <= 4294770688 -> dir_ok x inode n ls ->
  exists ok v, append_block d inode name ino ft n u = Some (ok, v) /\ heap_same (eh u) (eh v) /\ entry_added x ls ok (ex v).
Proof.
  intros inode n F Ha Hsu Hbs2 Hsz Hd. destruct (same_kept d Q _ _ _ F Hsu) as (Fu & Ku & _). pose proof (geo_bs _ (v_geo _ (aw_vol _ (fi_alloc _ _ _ _ F)))) as (Hbs & _).
  assert (Ebu : block_size (ex u) = block_size x) by apply Hsu. assert (Hn : 0 <= n) by (apply Z.div_pos; lia). assert (Hnb : (n + 1) * block_size x < 4294967296).
  { pose proof (div_bounds (i_size inode + block_size x - 1) (block_size x) ltac:(lia)) as Hx.
    change ((i_size inode + block_size x - 1) / block_size x) with n in Hx. lia. }
  destruct (append_ok u inode n Fu Ha ltac:(lia) Hn ltac:(by rewrite Ebu)) as (ok & v & -> & Hhv & HQv & Ebv & Hv). exists ok, v. split; [done|].
  split; [done|]. assert (HQ : forall i, Q i -> vbyte (ex v) i = vbyte x i) by (intros i Hi; rewrite HQv by done; apply Hsu).
  unfold entry_added. fold inode. destruct ok.
  - destruct Hv as (inode' & Ei & Fv & Zv & Hother & Tv & Dv). rewrite Ei. cbv zeta. fold n. rewrite Ebu in *.
    assert (En' : blocks_of (ex v) inode' = n + 1).
    { unfold blocks_of. rewrite Zv, Ebv, ?Ebu. symmetry. apply (Z.div_unique _ _ _ (block_size x - 1)); lia. }
    split; [done|]. split; [done|]. exists (set_lens ls n [block_size x]), (listing x inode ls n), []. rewrite En', app_nil_r.
    split; [|split; [done|]].
    + intros b Hb. unfold set_lens. destruct (Z.eqb_spec b n) as [->|]; [done|]. rewrite Hother, (file_block_same _ _ _ _ Hsu) by lia. apply Hd. lia.
    + rewrite (listing_split _ _ _ (n + 1) n) by lia. rewrite listing_lens by lia. unfold set_lens at 1. rewrite Z.eqb_refl, Dv.
      unfold listing_from at 2. rewrite span_nil by lia. cbn [concat app]. f_equal. unfold listing. apply listing_ext. intros c Hc.
      by rewrite Hother, (file_block_same _ _ _ _ Hsu) by lia.
  - destruct Hv as (Hwhy & Fv & Ei & Hother). rewrite Ei, (inode_at_same _ _ _ Hsu). fold inode. cbv zeta. fold n.
    assert (En' : blocks_of (ex v) inode = n) by (unfold blocks_of, n; by rewrite Ebv, Ebu). rewrite En'. split; [done|]. split; [done|]. split; [done|].
    unfold listing. apply listing_ext. intros c Hc. by rewrite Hother, (file_block_same _ _ _ _ Hsu) by lia.
Qed.

(** A record of block [c] has been split. *)
Lemma inserted_entry x ls y c l1 r l2 l' : let inode := inode_at x d in let n := blocks_of x inode in
  file_inv y inode -> others_kept d Q x y inode -> dir_ok x inode n ls -> 0 <= c < n -> ls c = l1 ++ r :: l2 ->
  (forall c', 0 <= c' -> c' <> c -> file_block y inode c' = file_block x inode c') -> tiles (file_block y inode c) 0 (l1 ++ l' ++ l2) ->
  dents (file_block y inode c) 0 (l1 ++ l' ++ l2) = dents (file_block x inode c) 0 (l1 ++ [r]) ++ mk_dent ino name ft :: dents (file_block x inode c) (sum_len l1 + r) l2 ->
  entry_added x ls true y.
Proof.
  intros inode n Fu K Hd Hc El Hother Tc Dc. assert (Ebu : block_size y = block_size x) by apply (proj2 (proj1 K)).
  assert (Ei : inode_at y d = inode).
  { unfold inode, inode_at, INODE_SIZE. rewrite (inode_off_same _ _ _ (proj2 (proj1 K))). apply span_eq. intros i Hi. apply (proj1 (proj2 K)). right; left. unfold slot. lia. }
  unfold entry_added. rewrite Ei. cbv zeta. fold inode n. assert (En' : blocks_of y inode = n) by (unfold blocks_of, n; by rewrite Ebu). rewrite En'. split; [done|].
  split; [intros i Hi; apply (proj1 (proj2 K)); by left|].
  set (before := listing_from x inode ls 0 c ++ dents (file_block x inode c) 0 (l1 ++ [r])).
  set (after := dents (file_block x inode c) (sum_len l1 + r) l2 ++ listing_from x inode ls (c + 1) (n - c - 1)).
  exists (set_lens ls c (l1 ++ l' ++ l2)), before, after. split; [|split].
  - intros b Hb. unfold set_lens. destruct (Z.eqb_spec b c) as [->|]; [done|]. rewrite Hother by lia. by apply Hd.
  - rewrite (listing_split _ _ _ n c) by lia. rewrite El. replace (l1 ++ r :: l2) with ((l1 ++ [r]) ++ l2) by (by rewrite <- app_assoc).
    rewrite dents_app, sum_len_app. change (sum_len [r]) with (r + 0). rewrite Z.add_0_l, Z.add_0_r. unfold before, after. by rewrite <- !app_assoc.
  - rewrite (listing_split _ _ _ n c) by lia. rewrite !listing_lens by lia. unfold set_lens at 1. rewrite Z.eqb_refl, Dc. unfold before, after.
    rewrite !(listing_ext x y inode inode) by (intros c' Hc'; by rewrite Hother by lia). by rewrite <- !app_assoc.
Qed.

(** C37: [ext2_add_dir_entry] adds the entry and keeps the others.  On a well-formed volume
    and a directory whose blocks are filled with records it ends; on success the listing of
    the directory is the old one with the new entry put in, the records still fill the
    blocks, and no byte of anything else has changed; it fails only when the directory has
    its twelve blocks or no block is free, and then the listing is the same.  There is memory
    for the buffers ([RoomyHeap]) and the disk does not fail. *)
Theorem ext2_add_entry_spec s ls :
  let inode := inode_at (ex s) d in
  file_inv (ex s) inode -> a_ok (eh s) -> block_size (ex s) < 65536 -> i_size inode <= 4294770688 -> dir_ok (ex s) inode (blocks_of (ex s) inode) ls ->
  exists ok t, ext2_add_dir_entry d name ino ft s = Some (ok, t) /\ heap_same (eh s) (eh t) /\ entry_added (ex s) ls ok (ex t).
Proof.
  intros inode F Ha Hbs2 Hsz Hd. set (n := blocks_of (ex s) inode) in *. pose proof (aw_vol _ (fi_alloc _ _ _ _ F)) as V. pose proof (geo_bs _ (v_geo _ V)) as (Hbs & _).
  unfold ext2_add_dir_entry. destruct (read_inode_ok s d V Ha (fi_has _ _ _ _ F)) as (t & -> & Hh & Hs). fold inode. rewrite take_ge by (unfold len in Hname; lia).
  destruct (same_kept d Q _ _ _ F Hs) as (Ft & Kt & _). assert (Eb : block_size (ex t) = block_size (ex s)) by apply Hs. rewrite Eb. pose proof (fi_inode _ _ _ _ F) as I.
  assert (Hisz : 0 <= i_size inode) by (apply read_u32_range; [apply I|lia|rewrite (io_len _ _ I); lia]).
  assert (Hn : 0 <= n) by (apply Z.div_pos; lia). unfold dir_block_count, div_c. destruct (Z.eqb_spec (block_size (ex s)) 0); [lia|].
  rewrite u32_id by (unfold is_u32; lia). change ((i_size inode + block_size (ex s) - 1) / block_size (ex s)) with n.
  match goal with |- context [with_buf false _ ?k t] => set (body := k) end.
  destruct (with_buf_ok (D:=D) false (block_size (ex s)) body t (entry_added (ex s) ls) (proj1 Hh) ltac:(lia)) as (ok & u & Eu & Hhu & P);
    [|exists ok, u; split; [done|]; split; [by eapply heap_same_trans|done]].
  intros w Ew Haw. unfold body. destruct (add_blocks inode ls (Z.to_nat n) 0 w ltac:(by rewrite Ew) Haw ltac:(lia)) as (r & u & Er & Hhu & Hr).
  { intros c Hc. rewrite Ew, (file_block_same _ _ _ _ Hs). apply Hd. lia. }
  rewrite Ew, Eb in Er. rewrite Er. rewrite Ew in Hr. destruct r as [[]|ok].
  - destruct (appended_entry (ex s) ls u F (proj1 Hhu) (same_bytes_trans _ _ _ Hs Hr) Hbs2 ltac:(fold inode; lia) Hd) as (ok & v & E & Hhv & P).
    exists ok, v. split; [exact E|]. split; [by eapply heap_same_trans|done].
  - destruct Hr as (-> & Fu & Ku & c & l1 & r & l2 & l' & Hc & El & Hother & Tc & Dc). exists true, u. split; [done|]. split; [done|].
    rewrite Z2Nat.id in Hc by lia. rewrite !(file_block_same _ _ _ _ Hs) in Dc.
    eapply (inserted_entry (ex s) ls (ex u) c l1 r l2 l'); [done|by eapply kept_trans|done|fold inode n; lia|done| |done|done].
    intros c' Hc' Hne. by rewrite Hother, (file_block_same _ _ _ _ Hs).
Qed.
End Add.
