(* ===== verification/Ext2Demo.v ===== *)
(** A small ext2 volume behind the block cache, on which the theorems about
    src/src/fs/ext2.c are applied: 16 blocks of 1 KiB, one group of 8 inodes, the root
    directory with the file "a" of five bytes. *)

From S2P Require Import Prelude Bcache Vfs VfsReach VfsDemo Fat16 Fat16Fat Fat16Read Fat16Cache Fat16Demo.
From S2P Require Import Ext2 Ext2Read Ext2Alloc Ext2Write Ext2Dir.

#[export] Instance bump_roomy : RoomyHeap bump.
Proof. split. intros size h _ _. by eexists. Qed.

(** * The disk *)

(** Block 1 holds the superblock, 2 the descriptor, 3 and 4 the bitmaps, 5 the inodes, 6 the
    root directory and 7 the file. *)
Definition e2_super : list Z :=
  sector_with [(0, le32 8 ++ le32 16); (12, le32 8 ++ le32 5 ++ le32 1 ++ le32 0); (32, le32 16); (40, le32 8); (56, [0x53; 0xEF])].
Definition e2_desc : list Z := sector_with [(0, le32 3 ++ le32 4 ++ le32 5 ++ le16 8 ++ le16 5)].
Definition e2_inodes : list Z :=
  sector_with [(128, [0xED; 0x41; 0; 0] ++ le32 1024); (168, le32 6); (256, [0xA4; 0x81; 0; 0] ++ le32 5); (296, le32 7)].
Definition e2_rootdir : list Z :=
  sector_with [(0, le32 2 ++ le16 12 ++ [1; 2; 46]); (12, le32 2 ++ le16 12 ++ [2; 2; 46; 46]); (24, le32 3 ++ le16 1000 ++ [1; 1; 97])].
Definition e2_disk : good_disk := mk_good_disk (list_to_map
  [(2, e2_super); (4, e2_desc); (6, sector_with [(0, [0x7F; 0x80])]); (8, sector_with [(0, [7])]); (10, e2_inodes); (12, e2_rootdir);
   (14, sector_with [(0, hello)])]).
Definition e2_init : est bump (bcache good_disk) :=
  mk_est (mk_ext2 (replicate 1024 0) [] 0 0 0 false ∅ (bcache_init e2_disk)) (4096, []).

Lemma good_sectors (d : good_disk) :
  forallb (fun p => (length p.2 =? 512)%nat && forallb (fun b => (0 <=? b) && (b <? 256)) p.2) (map_to_list (gd_sectors d)) = true ->
  dev_ok (bcache_init d).
Proof.
  intros F. apply fresh_cache_ok. intros x. cbn [contents good_laws]. destruct (gd_sectors d !! x) as [l|] eqn:E; [|apply zero_sector].
  cbn. apply sector_check. rewrite forallb_forall in F. specialize (F (x, l)). rewrite <- list_elem_of_In in F. apply F. by apply elem_of_map_to_list.
Qed.
Lemma e2_dev : dev_ok (edev (ex e2_init)).
Proof. apply good_sectors. vm_compute. reflexivity. Qed.
Lemma e2_heap : a_ok (eh e2_init).
Proof. cbn. split; [lia|by apply Forall_nil]. Qed.

(** * Mounting *)

Definition e2_fields (b : list Z) : list Z :=
  [s_blocks_count b; s_first_data_block b; s_log_block_size b; s_blocks_per_group b; s_inodes_per_group b; s_magic b; s_rev_level b].
Lemma e2_sb_fields : e2_fields (disk_sb (edev (ex e2_init)) 0) = [16; 1; 0; 16; 8; EXT2_SUPER_MAGIC; 0].
Proof. vm_compute. reflexivity. Qed.
Lemma e2_sane : s_magic (disk_sb (edev (ex e2_init)) 0) = EXT2_SUPER_MAGIC /\ sb_sane 0 (disk_sb (edev (ex e2_init)) 0).
Proof.
  pose proof e2_sb_fields as E. set (b := disk_sb (edev (ex e2_init)) 0) in *. clearbody b. unfold e2_fields in E.
  injection E as E0 E1 E2 E3 E4 E5 E6. split; [done|]. split; unfold table_sectors, groups_of, block_size_of, GROUP_DESC_SIZE; rewrite ?E0, ?E1, ?E2, ?E3; (vm_compute; (reflexivity || discriminate || (split; (reflexivity || discriminate)))).
Qed.

(** The mounted volume; sealed, so that only the lemmas below evaluate it. *)
Definition e2_loaded : est bump (bcache good_disk) := match load_volume 0 e2_init with Some (_, t) => t | None => e2_init end.
Definition e2_vol_aux : seal e2_loaded.
Proof. by eexists. Qed.
Definition e2_vol : est bump (bcache good_disk) := e2_vol_aux.(unseal).
Definition e2_vol_eq : e2_vol = e2_loaded := e2_vol_aux.(seal_eq).

Lemma ext2_load_spec_witness : exists t, load_volume 0 e2_init = Some (true, t) /\ num_groups (ex t) = 1.
Proof.
  destruct (ext2_load_spec e2_init 0 e2_dev e2_heap ltac:(lia) ltac:(lia) (proj1 e2_sane) (proj2 e2_sane)) as (t & E & _ & _ & _ & Eg & _).
  exists t. split; [exact E|]. rewrite Eg. vm_compute. reflexivity.
Defined.

Lemma e2_vol_ok : dev_ok (edev (ex e2_vol)) /\ a_ok (eh e2_vol).
Proof.
  destruct (load_facts e2_init 0 e2_dev e2_heap ltac:(lia) ltac:(lia) (proj1 e2_sane) (proj2 e2_sane)) as (t & E & _ & _ & _ & _ & _ & _ & _ & Hd & _ & Ha & _).
  rewrite e2_vol_eq. unfold e2_loaded. rewrite E. exact (conj Hd Ha).
Qed.

(** * A volume of this shape *)

Definition bytes_ok (n : Z) (l : list Z) : bool := (len l =? n) && forallb (fun b => (0 <=? b) && (b <? 256)) l.
Lemma bytes_ok_spec n l : bytes_ok n l = true -> len l = n /\ Forall is_u8 l.
Proof.
  intros [L%Z.eqb_eq F]%andb_true_iff. split; [done|]. rewrite Forall_forall. rewrite forallb_forall in F.
  intros x Hx. specialize (F x). rewrite <- list_elem_of_In in F. apply F, andb_true_iff in Hx as [?%Z.leb_le ?%Z.ltb_lt]. unfold is_u8. lia.
Qed.
Lemma map_seqZ_get {A} (f : Z -> A) n l k v : map f (seqZ 0 n) = l -> 0 <= k < n -> l !! Z.to_nat k = Some v -> f k = v.
Proof.
  intros <- Hk Hv. rewrite list_lookup_fmap, lookup_seqZ_lt in Hv by lia. cbn in Hv. injection Hv as <-. f_equal. lia.
Qed.

(** What the proofs need to know of the volume, in a form that evaluation decides. *)
Record small_vol (x : ext2 (bcache good_disk)) : Prop := {
  sv_dev : dev_ok (edev x);
  sv_statics : (num_groups x, block_size x, e2_lba x, ext2_mounted x) = (1, 1024, 0, true);
  sv_tables : bytes_ok 1024 (sb x) && bytes_ok 512 (bg_desc x) = true;
  sv_fields : e2_fields (sb x) = [16; 1; 0; 16; 8; EXT2_SUPER_MAGIC; 0];
  sv_desc : [table_of x 0; bm x false 0; bm x true 0] = [5; 3; 4];
  sv_bits : map (bit x false 0) (seqZ 0 16) = replicate 7 true ++ replicate 8 false ++ [true];
  sv_root : map (i_block (inode_at x 2)) (seqZ 0 13) = 6 :: replicate 12 0;
  sv_file : map (i_block (inode_at x 3)) (seqZ 0 13) = 7 :: replicate 12 0;
  sv_sizes : i_size (inode_at x 2) = 1024 /\ i_size (inode_at x 3) = 5
}.

Section Small.
Context (x : ext2 (bcache good_disk)) (V : small_vol x).

Record small_nums : Prop := {
  en_groups : num_groups x = 1; en_bs : block_size x = 1024; en_lba : e2_lba x = 0; en_mounted : ext2_mounted x = true;
  en_count : nblocks x = 16; en_fdb : s_first_data_block (sb x) = 1; en_bits : forall k, nbits x k = if k then 8 else 16; en_isize : inode_size_of x = 128;
  en_ipg : s_inodes_per_group (sb x) = 8; en_table : table_of x 0 = 5; en_bm : forall k, bm x k 0 = if k then 4 else 3
}.
Lemma small_nums_ok : small_nums.
Proof using V.
  destruct V as [_ S1 _ S2 S3 _ _ _ _]. injection S1 as S4 S5 S6 S7. unfold e2_fields in S2. injection S2 as F0 F1 F2 F3 F4 F5 F6. injection S3 as T0 T1 T2.
  split; try done; [by intros []|by unfold inode_size_of; rewrite F6|by intros []].
Qed.
Lemma small_vol_wf : vol_wf x.
Proof using V.
  destruct small_nums_ok as [N1 N2 N3 N4 N5 N6 N7 N8 N9 N10 N11]. pose proof (sv_tables _ V) as [[L1 U1]%bytes_ok_spec [L2 U2]%bytes_ok_spec]%andb_true_iff.
  split; rewrite ?N1, ?N2, ?N8, ?N9, ?L2; unfold GROUP_DESC_SIZE; try done; try lia.
  - split; [exists 0; rewrite N2; done|lia|rewrite N2, N3, N5; change (1024 / 512) with 2; lia|apply V].
  - intros g Hg. replace g with 0 by lia. rewrite N10, N5. lia.
Qed.
Lemma small_alloc_wf : alloc_wf x.
Proof using V.
  destruct small_nums_ok as [N1 N2 N3 N4 N5 N6 N7 N8 N9 N10 N11]. pose proof (sv_tables _ V) as [_ [L2 U2]%bytes_ok_spec]%andb_true_iff.
  assert (Ed : desc_start x = 2048) by (unfold desc_start; rewrite N6, N2; lia). assert (Es : desc_sectors x = 1) by (unfold desc_sectors, GROUP_DESC_SIZE; by rewrite N1).
  split; rewrite ?N1, ?N2, ?N5, ?N6, ?Ed, ?Es, ?L2; try done; try lia.
  - exact small_vol_wf.
  - intros k. rewrite N7. destruct k; lia.
  - intros k g Hg. replace g with 0 by lia. rewrite N11. destruct k; lia.
  - intros k g k' g' Hg Hg'. replace g with 0 by lia. replace g' with 0 by lia. rewrite !N11. by destruct k, k'.
  - intros k g i Hg. replace g with 0 by lia. unfold in_bitmap, sys_byte. rewrite N11, N2, Ed, Es. destruct k; lia.
Qed.

(** The two inodes have one block each. *)
Lemma small_i_block n k : n = 2 \/ n = 3 -> 0 <= k < 13 -> i_block (inode_at x n) k = if k =? 0 then n + 4 else 0.
Proof using V.
  intros Hn Hk. assert (E : map (i_block (inode_at x n)) (seqZ 0 13) = (n + 4) :: replicate 12 0) by (destruct Hn as [->| ->]; [apply (sv_root _ V)|apply (sv_file _ V)]).
  apply (map_seqZ_get _ _ _ _ _ E Hk). destruct (Z.eqb_spec k 0) as [->|]; [done|].
  replace (Z.to_nat k) with (S (Z.to_nat (k - 1))) by lia. cbn [lookup list_lookup]. apply lookup_replicate_2. lia.
Qed.
Lemma small_phys n b : n = 2 \/ n = 3 -> 0 <= b -> phys x (inode_at x n) b = if b =? 0 then n + 4 else 0.
Proof using V.
  intros Hn Hb. unfold phys. rewrite (small_i_block n 12) by (done || lia). cbn. destruct (Z.ltb_spec b 12); [by apply small_i_block; [|lia]|].
  destruct (Z.eqb_spec b 0); [lia|]. by destruct (_ <? _).
Qed.
Lemma small_inode n : n = 2 \/ n = 3 -> has_inode x n /\ inode_ok x (inode_at x n) /\ inode_off x n = 5120 + 128 * (n - 1).
Proof using V.
  intros Hn. destruct small_nums_ok as [N1 N2 N3 N4 N5 N6 N7 N8 N9 N10 N11]. split; [unfold has_inode; rewrite N1, N9; lia|]. split.
  - split; [apply len_inode_at|apply inode_at_u8, small_vol_wf|rewrite small_i_block, N5 by (done || lia); cbn; lia|].
    intros b Hb. rewrite small_phys, N5 by done. destruct (b =? 0); lia.
  - unfold inode_off. rewrite N2, N8, N9. replace ((n - 1) / 8) with 0 by (symmetry; apply Z.div_small; lia). rewrite N10, Z.mod_small by lia. lia.
Qed.
(** Bits 7 to 14 are clear: the blocks 8 to 15 are free. *)
Lemma small_clear g j : clear x g j -> g = 0 /\ 7 <= j < 15.
Proof using V.
  destruct small_nums_ok as [N1 N2 N3 N4 N5 N6 N7 N8 N9 N10 N11]. intros (Hg & Hj & Hb). rewrite N1 in Hg. rewrite N7 in Hj. replace g with 0 in * by lia.
  split; [done|]. assert (Hc : j < 7 \/ j = 15 -> bit x false 0 j = true); [|destruct (decide (j < 7 \/ j = 15)) as [Hd|Hd]; [by rewrite Hc in Hb|lia]].
  intros Hd. apply (map_seqZ_get _ _ _ _ _ (sv_bits _ V)); [lia|]. destruct Hd as [Hd| ->]; [|done]. rewrite lookup_app_l by (cbn; lia). apply lookup_replicate_2. lia.
Qed.

(** Everything else: the other inode and its block. *)
Definition others (n i : Z) : Prop := let m := 5 - n in 5120 + 128 * (m - 1) <= i < 5120 + 128 * m \/ 1024 * (m + 4) <= i < 1024 * (m + 5).
Lemma small_meta i : meta x i -> 1024 <= i < 5120.
Proof using V.
  destruct small_nums_ok as [N1 N2 N3 N4 N5 N6 N7 N8 N9 N10 N11]. unfold meta, sys_byte, in_bitmap, desc_start, desc_sectors, GROUP_DESC_SIZE. rewrite N1, N2, N6.
  change ((1 * 32 + 511) / 512) with 1. intros [Hs|(k & g & Hg & Hi)]; [lia|]. replace g with 0 in Hi by lia. rewrite N11 in Hi. destruct k; lia.
Qed.
Lemma small_own n p : n = 2 \/ n = 3 -> own x (inode_at x n) p -> p = n + 4.
Proof using V.
  intros Hn [Hp [->|(b & Hb & ->)]]; [rewrite small_i_block in * by (done || lia); done|]. rewrite small_phys in * by done. by destruct (b =? 0).
Qed.
Lemma small_file n : n = 2 \/ n = 3 -> file_inv n (others n) x (inode_at x n).
Proof using V.
  intros Hn. pose proof (small_inode n Hn) as (Hh & Hi & Ho). destruct small_nums_ok as [N1 N2 N3 N4 N5 N6 N7 N8 N9 N10 N11].
  assert (Hblk : forall p i, blk x p i <-> 1024 * p <= i < 1024 * p + 1024) by (intros p i; unfold blk; rewrite N2; lia).
  assert (Hslot : forall i, slot n x i <-> 5120 + 128 * (n - 1) <= i < 5120 + 128 * n) by (intros i; unfold slot; rewrite Ho; lia).
  split; [exact small_alloc_wf|rewrite N1, N7, N6; lia|done|done|..].
  - intros i Hs Hm%small_meta. rewrite Hslot in Hs. lia.
  - intros i Hq. rewrite Hslot. unfold others in Hq. split; [intros Hm%small_meta; lia|lia].
  - intros p i ->%small_own; [|done]. rewrite Hblk, Hslot. unfold others. intros Hb. split; [intros Hm%small_meta; lia|lia].
  - intros g j [-> Hj]%small_clear. unfold number. rewrite N7, N6. split; [lia|]. split; [|intros Hp%small_own; lia].
    intros i. rewrite Hblk, Hslot. unfold others. intros Hb. split; [intros Hm%small_meta; lia|lia].
  - intros b c Hb Hc. rewrite !small_phys by done. destruct (Z.eqb_spec b 0), (Z.eqb_spec c 0); lia.
  - intros b Hb. rewrite small_i_block by (done || lia). done.
Qed.
End Small.

(** * The theorems on the volume *)

Lemma e2_small : small_vol (ex e2_vol).
Proof. split; [apply e2_vol_ok|rewrite e2_vol_eq; vm_compute; reflexivity..|rewrite e2_vol_eq; vm_compute; split; reflexivity]. Qed.
Lemma e2_sizes : i_size (inode_at (ex e2_vol) 2) = 1024 /\ i_size (inode_at (ex e2_vol) 3) = 5.
Proof. exact (sv_sizes _ e2_small). Qed.
Lemma e2_bs : block_size (ex e2_vol) = 1024.
Proof. apply small_nums_ok, e2_small. Qed.


(** Two bytes of the file from the second on. *)
Lemma ext2_read_spec_witness : exists t, ext2_vfs_read 3 3 1 2 e2_vol =
    Some (span (fun i => if i <? single_reach (ex e2_vol) then file_byte (ex e2_vol) (inode_at (ex e2_vol) 3) i else 0) 1
      (Z.min 2 (i_size (inode_at (ex e2_vol) 3) - 1)), t) /\
  heap_same (eh e2_vol) (eh t) /\ same_bytes (ex e2_vol) (ex t).
Proof.
  destruct (small_inode _ e2_small 3 (or_intror eq_refl)) as (Hh & Hi & _). pose proof (proj2 e2_sizes) as Es.
  apply (ext2_read_spec e2_vol 3 1 2 3 (small_vol_wf _ e2_small) (proj2 e2_vol_ok) Hh Hi); [lia|lia|lia|].
  change (2 / 1024) with 0. lia.
Defined.

Lemma ext2_empty_read_diverges_witness : ext2_vfs_read 100 3 0 0 e2_vol = None.
Proof.
  destruct (small_inode _ e2_small 3 (or_intror eq_refl)) as (Hh & Hi & _). pose proof (proj2 e2_sizes) as Es.
  apply (ext2_empty_read_diverges e2_vol 3 100 (small_vol_wf _ e2_small) (proj2 e2_vol_ok) Hh Hi). lia.
Defined.

(** [hello] written at the end of the file; the root directory keeps its bytes. *)
Lemma e2_file_end c : blocks_of (ex e2_vol) (inode_at (ex e2_vol) 3) <= c -> phys (ex e2_vol) (inode_at (ex e2_vol) 3) c = 0.
Proof.
  unfold blocks_of. rewrite (proj2 e2_sizes), e2_bs. change ((5 + 1024 - 1) / 1024) with 1. intros Hc.
  rewrite small_phys by (exact e2_small || (by right) || lia). destruct (Z.eqb_spec c 0); [lia|done].
Qed.
Lemma len_hello : len hello = 5.
Proof. done. Qed.
Lemma ext2_write_spec_witness : exists m t,
  ext2_vfs_write 3 5 hello e2_vol = Some (m, Some (Z.max (i_size (inode_at (ex e2_vol) 3)) (5 + m)), t) /\
  heap_same (eh e2_vol) (eh t) /\ forall i, others 3 i -> vbyte (ex t) i = vbyte (ex e2_vol) i.
Proof.
  destruct (ext2_write_spec 3 (others 3) e2_vol 5 hello (small_file _ e2_small 3 (or_intror eq_refl)) (proj2 e2_vol_ok) hello_u8 ltac:(lia)
    ltac:(rewrite len_hello; lia) ltac:(rewrite (proj2 e2_sizes); lia) e2_file_end) as (m & t & E & Hh & _ & _ & _ & _ & HQ & _).
  exact (ex_intro _ m (ex_intro _ t (conj E (conj Hh HQ)))).
Defined.

(** The directory: ".", ".." and "a". *)
Definition e2_lens (b : Z) : list Z := [12; 12; 1000].
Lemma e2_dir_block : file_block (ex e2_vol) (inode_at (ex e2_vol) 2) 0 = e2_rootdir ++ replicate 512 0.
Proof. rewrite e2_vol_eq. vm_compute. reflexivity. Qed.
Lemma e2_dir_tiles : tiles (e2_rootdir ++ replicate 512 0) 0 [12; 12; 1000].
Proof. vm_compute. repeat split; (reflexivity || discriminate). Qed.
Lemma e2_dir_dents : dents (e2_rootdir ++ replicate 512 0) 0 [12; 12; 1000] = [mk_dent 2 [46] 2; mk_dent 2 [46; 46] 2; mk_dent 3 [97] 1].
Proof. vm_compute. reflexivity. Qed.
Lemma e2_dir_blocks : blocks_of (ex e2_vol) (inode_at (ex e2_vol) 2) = 1.
Proof. unfold blocks_of. rewrite (proj1 e2_sizes), e2_bs. done. Qed.
Lemma e2_dir_ok : dir_ok (ex e2_vol) (inode_at (ex e2_vol) 2) (blocks_of (ex e2_vol) (inode_at (ex e2_vol) 2)) e2_lens.
Proof. rewrite e2_dir_blocks. intros b Hb. replace b with 0 by lia. rewrite e2_dir_block. exact e2_dir_tiles. Qed.
Lemma e2_listing : listing (ex e2_vol) (inode_at (ex e2_vol) 2) e2_lens 1 = [mk_dent 2 [46] 2; mk_dent 2 [46; 46] 2; mk_dent 3 [97] 1].
Proof. unfold listing. rewrite (listing_cons _ _ _ 0 0) by lia. rewrite e2_dir_block. unfold e2_lens at 1. rewrite e2_dir_dents. done. Qed.

Lemma ext2_readdir_spec_witness : exists t, ext2_vfs_readdir 2 0 e2_vol = Some (1, Some (entry_of (ex e2_vol) (mk_dent 3 [97] 1)), t) /\
  heap_same (eh e2_vol) (eh t) /\ same_bytes (ex e2_vol) (ex t).
Proof.
  destruct (small_inode _ e2_small 2 (or_introl eq_refl)) as (Hh & Hi & _).
  destruct (ext2_readdir_spec e2_vol 2 0 e2_lens (small_vol_wf _ e2_small) (proj2 e2_vol_ok) Hh Hi ltac:(rewrite (proj1 e2_sizes); lia) ltac:(lia) e2_dir_ok) as (t & E & Hht & Hs).
  - intros e. rewrite e2_dir_blocks, e2_listing. intros He. assert (Hd : d_inode e = 2 \/ d_inode e = 3) by (repeat (apply elem_of_cons in He as [->|He]; [cbn; lia|]); by apply elem_of_nil in He).
    destruct Hd as [->| ->]; [done|]. apply small_inode; [exact e2_small|by right].
  - rewrite e2_dir_blocks, e2_listing in E. exists t. split; [exact E|]. done.
Defined.

Lemma ext2_add_entry_spec_witness : exists ok t, ext2_add_dir_entry 2 [98] 4 1 e2_vol = Some (ok, t) /\ heap_same (eh e2_vol) (eh t) /\
  entry_added 2 (others 2) [98] 4 1 (ex e2_vol) e2_lens ok (ex t).
Proof.
  apply (ext2_add_entry_spec 2 (others 2) [98] 4 1); [lia|by unfold is_u8|by apply Forall_cons; split; [unfold is_u8; lia|apply Forall_nil]|done| | | | |].
  - exact (small_file _ e2_small 2 (or_introl eq_refl)).
  - apply e2_vol_ok.
  - rewrite e2_bs. lia.
  - rewrite (proj1 e2_sizes). lia.
  - exact e2_dir_ok.
Defined.

(** The second mount is of sector 100, where the disk holds zeros. *)
Lemma e2_zeros i : 1024 <= i < 2048 -> dbyte (edev (ex e2_vol)) (512 * 100 + i) = 0.
Proof.
  intros Hi. assert (E : forallb (fun k => dbyte (edev (ex e2_vol)) (512 * 100 + k) =? 0) (seqZ 1024 1024) = true) by (rewrite e2_vol_eq; vm_compute; reflexivity).
  rewrite forallb_forall in E. apply Z.eqb_eq, E, list_elem_of_In, elem_of_seqZ. lia.
Qed.
Lemma ext2_remount_faults_witness : exists t, load_volume 100 e2_vol = Some (false, t) /\ ext2_mounted (ex t) = true /\ ext2_read_inode 3 t = None.
Proof.
  apply (ext2_remount_faults e2_vol 100 3 (proj1 e2_vol_ok) (proj2 e2_vol_ok)); [lia|lia|apply small_nums_ok, e2_small|exact e2_zeros|lia].
Defined.
